(* ===== verification/_CoqProject ===== *)
-Q . S2P
Prelude.v
Spinlock.v
PageAlloc.v
Mem.v
Ram.v
Mmu.v
Machine.v
Gic.v
Hw.v
GicProofs.v
Timer.v
Mmio.v
Vgic.v
VgicProofs.v
Vcpu.v
Psci.v
Uart.v
Virtio.v
Trap.v
Vm.v
Boot.v
Printf.v
VmProofs.v
TrapProofs.v
VirtioProofs.v
BootProofs.v
KMachine.v
KString.v
KBytes.v
KSched.v
KBss.v
KAlloc.v
KVm.v
KProc.v
KCons.v
KBio.v
KBioProofs.v
KLog.v
KFs.v
KFile.v
KFork.v
KExec.v
KSys.v
KDisk.v
KGic.v
KTrap.v
KCrash.v
KLogProofs.v
KRecover.v
KTxn.v
KBinit.v
KBlocks.v
KInode.v
KData.v
KContent.v
KDir.v
KPath.v
KTrunc.v
KDiskProofs.v
KSpace.v
KUvm.v
KUvmCopy.v
KFree.v
KForkProofs.v
KPipe.v
KUserIO.v
KSim.v
KSimFile.v
UMachine.v
ULib.v
UGrep.v
UMalloc.v
UMallocProofs.v
UGrepProofs.v
UProgs.v
USh.v
Mkfs.v
MkfsBlocks.v
MkfsProofs.v
MkfsImage.v
