(* ===== verification/Prelude.v ===== *)
(** * A verification of hyper_poc, a type-1 hypervisor for AArch64, and of its guest

    hyper_poc (src/src/*.c, src/include/*.h) runs one guest on four cores of QEMU's [virt]
    machine.  It allocates physical pages, builds the guest's stage-2 translation tables,
    copies its image, gives it virtual cpus, a virtual interrupt controller and a virtio disk
    backed by a RAM image, and then only runs when a trap or an interrupt calls it.  The
    guest is the xv6 kernel of src/guest/xv6/kernel with the user programs of
    src/guest/xv6/user, on a disk image made by src/guest/xv6/mkfs.

    ** The hypervisor

    - [Prelude]: C integers on [Z], the state monad with its four outcomes, the
      weakest-precondition calculus [wp] many functional theorems use, generic lemmas.
    - [Spinlock] (include/spinlock.h): the ticket lock; [Conc] is the macro code as a
      step relation on any number of processing elements, with the exclusive monitor
      of load-exclusive/store-exclusive; [Seq] is the lock as the sequential code of
      the other components sees it.
    - [PageAlloc] (page_alloc.c): bitmap, next-fit cursor, and the lock around it.
    - [Mem] (lib.c): a byte-addressed RAM with bounds, and the C library routines; [Ram]:
      runs of bytes in it.
    - [Mmu] (mmu.c, include/mmu.h): [pagewalk], [pagemap], [pageunmap], [ipa2pa] on the RAM
      and the allocator ([phys]); [pt_inv] is the invariant of a tree of tables, [xlate]
      the translation it means.
    - [Machine]: all global variables as one record [machine], the C structures, the
      system registers, and the interfaces of what is not C: [Hardware] (device
      registers, system registers, TLB, smc) and [Image] (linker symbols).
    - [Gic] (gic_v3.c), [Timer] (timer.c), [Uart] (uart.c): the drivers.  [Hw] states the
      architected behaviour that the theorems rely on, as classes ([SysregLaws], [GicLaws]),
      and gives a simulated machine that satisfies them, on which the witnesses run.
    - [Mmio] (mmio.c): the regions of trapped devices.  [MmioHandlers] is the interface
      through which it calls the devices; [Trap.handlers] implements it.
    - [Vgic] (vgic.c), [Vcpu] (vcpu.c), [Psci] (psci.c), [Virtio] (virtio_dev.c, ramdisk.c),
      [Trap] (trap.c), [Vm] (vm.c, guest.c), [Boot] (init.c, sp_init.c, calltrace.c),
      [Printf] (printf.c).  [GicProofs], [VgicProofs], [VmProofs], [TrapProofs],
      [VirtioProofs], [BootProofs] hold what needs more room or several parts.

    ** The guest kernel

    - [KMachine]: its structures and global variables as one record [kernel], over a
      [Platform] (device and system registers, [swtch], PSCI); [KBss] is the state as loaded;
      [KBytes]: structures laid over the bytes of a block.
    - [KString] (string.c), [KAlloc] (kalloc.c), [KSched] (spinlock.c, sleeplock.c, sched to
      wakeup of proc.c), [KVm] (vm.c), [KProc], [KFork] (proc.c), [KCons] (console.c, uart.c,
      printf.c), [KBio] (bio.c), [KLog] (log.c), [KFs] (fs.c), [KFile] (pipe.c, file.c),
      [KExec] (exec.c), [KSys] (syscall.c, sysproc.c, sysfile.c), [KDisk] (virtio_disk.c),
      [KGic] (gicv3.c, timer.c), [KTrap] (trap.c, main.c, start.c).
    - Layers of proofs, from the disk up.  [DiskDriver] is the interface of the driver,
      [DiskLaws] what it promises; [KDiskProofs] proves that [KDisk] keeps the promise over
      any [VirtioDevice].  [KBioProofs], [KBinit]: the buffer cache as an abstract
      cache ([bio]).  [KCrash], [KLogProofs], [KRecover], [KTxn]: the log, crashes as the
      states of the medium between writes of single sectors, transactions ([txn]).
      [KBlocks]: the free map.  [KInode]: inodes on disk and in memory.  [KData],
      [KContent]: a file as a map from block numbers to blocks, its bytes, [readi] and
      [writei].  [KDir]: a directory as a map from names to inodes.  [KPath]: the
      tree of directories, and what a path means in it.  [KTrunc]: the end of a file.
      [KUserIO]: files and user memory.  [KSpace], [KUvm], [KUvmCopy], [KFree]: page tables
      as trees, the memory of a process, its copy for a child, and its end.  [KForkProofs]:
      [fork], over all of these.  [KPipe]: pipes as queues.
    - [KSim], [KSimFile]: simulated disks, on which the witnesses run.

    ** The user programs and the disk image

    - [UMachine]: a program as one process sees it, over the system calls of a class [Sys];
      [SbrkLaws] and [StreamLaws] say what the theorems use of them; [sim] is an instance.
    - [ULib] (ulib.c, printf.c), [UMalloc] (umalloc.c), [UGrep] (grep.c), [UProgs]
      (cat, echo, forktest, init, kill, ln, ls, mkdir, rm, stressfs, wc, zombie), [USh]
      (sh.c); proofs in [UMallocProofs] and [UGrepProofs].
    - [Mkfs] (mkfs.c): the image, with the structures of [KFs].  [MkfsBlocks], [MkfsProofs],
      [MkfsImage]: the image while it grows (which block belongs to which file), the finished
      file system, and the kernel reading it; and a run of it.

    A C function is a definition of the same name in the monad, a structure a record,
    a pointer into a static table an index ([option nat]; [None] is NULL), a pointer
    into RAM an address.  Loops whose bound is not in the code carry fuel; a loop that
    runs out of it gives [Spin], and the theorems show that it does not happen.

    ** What the theorems show

    - Files of the guest, from crash to user: [transaction_crash_atomic], [writei_spec],
      [user_file_roundtrip], [namex_spec], [dirlink_spec], [dirlookup_spec], [iget_spec], [iput_spec], [balloc_spec],
      [ilock_typed], [log_write_spec], [begin_op_spec],
      [binit_establishes_cache], [disk_rw_transfers].
    - The image of its disk: [mkfs_spec] (what mkfs.c makes of the files it is given) and
      [mkfs_readable] (the kernel reads each of them back by its name).
    - Memory of the guest as the hypervisor builds it: [load_guest_spec] follows the three
      loops of [create_vm]; it rests on [pagemap_spec], [pagemap_ipa2pa] and on the
      allocator's theorem [alloc_page_spec].
    - Processes: [fork_spec]; their memory: [uvmalloc_spec], [uvmcopy_spec] (what [fork]
      gives a child), [uvmfree_spec] (no page is lost), [copyout_copyin_roundtrip]; pipes:
      [pipe_refines_queue].  They are about processes as [exec] makes them: pages below the
      size may be closed to the user, like the guard page that [uvmclear] makes
      ([uvmclear_ok]); [avail] says how far the user may go, and the witnesses have one.
    - Locks: every run of the ticket lock is a run of a FIFO lock (the order of tickets is
      the order of entering); it excludes, and is never stuck.
    - Traps and interrupts: [irq_never_overwritten] (an invariant over all interleavings of
      interrupts and guest steps), [data_abort_emulated], [hvc_spec],
      [enter_vcpu_spec], [vgic_inject_virq_spec],
      [vgicd_read_outcome]; the disk of the hypervisor: [virtio_request_spec].
    - User programs: [malloc_spec] and [free_spec] (blocks never overlap, whatever the
      program does), [match_spec] (the matcher of grep decides a language) and [grep_spec].

    Each of them carries a C-number.  Many more properties are lemmas of the same files.

    ** Fuel and bounds

    String loops get the number of bytes up to the end of RAM; list searches the size of
    their table; [page_loop] one more than the pages of its bound; the loop over descriptors
    one more than the ring; the request loop 65537, more than a 16-bit index can distinguish;
    polling a device [poll_fuel] ([PollFuel], [kpoll_fuel]); a sleeping process looks again
    [sleep_fuel] times ([SleepFuel]); [readi] and [writei] one turn per byte; a scan of a
    directory two more than its entries; a walk of a path one per character; the free list of
    [malloc] one more than its blocks.  The theorems on these loops do not assume that the
    fuel is enough, except for the waiting loops, whose theorems say when the wait ends.

    ** What is not modelled

    Assembly (boot.S, vector.S, entry.S, [swtch], [eret_vm], the smc itself): the models start
    where C is called and end where it returns.  The guest's ramdisk.c, which is not built.
    The test programs usertests.c and grind.c: they only call what is modelled.  Log output:
    [LOG_*] calls and console messages without effect on the state are left out.  Barriers
    and cache maintenance.  Real concurrency outside the ticket lock: other components run
    one at a time between lock and unlock, and a process that sleeps gives the processor to
    [swtch], a parameter.  There are definitions but no theorems for [KExec], [KSys],
    [exit], [KCons], [KTrap], [UProgs] and [USh], nor for [Psci] and [Boot] beyond those
    above. *)
From Stdlib Require Import ZArith Lia Bool List.
From stdpp Require Import base gmap list numbers tactics.

#[global] Open Scope Z_scope.

(** * Machine integers

    A C integer of width [w] is a [Z]; the conversion to an unsigned type is
    written out at every place where the source lets a value wrap. *)

Definition u8 (x : Z) : Z := x mod 2 ^ 8.
Definition u16 (x : Z) : Z := x mod 2 ^ 16.
Definition u32 (x : Z) : Z := x mod 2 ^ 32.
Definition u64 (x : Z) : Z := x mod 2 ^ 64.

(** Two's complement reading of a [w]-bit pattern ([int], [long]). *)
Definition sext (w x : Z) : Z :=
  if x mod 2 ^ w <? 2 ^ (w - 1) then x mod 2 ^ w else x mod 2 ^ w - 2 ^ w.
Definition i32 (x : Z) : Z := sext 32 x.
Definition i64 (x : Z) : Z := sext 64 x.

(** [~x] on an unsigned type of width [w]. *)
Definition notw (w x : Z) : Z := Z.lnot x mod 2 ^ w.

Definition is_u8 (x : Z) : Prop := 0 <= x < 2 ^ 8.
Definition is_u16 (x : Z) : Prop := 0 <= x < 2 ^ 16.
Definition is_u32 (x : Z) : Prop := 0 <= x < 2 ^ 32.
Definition is_u64 (x : Z) : Prop := 0 <= x < 2 ^ 64.

(** * Outcomes and the state monad

    A piece of hypervisor code, run on one processing element, is a function
    from the state it can touch to an outcome:
    - [Ok a s]: it returns [a] in state [s];
    - [Panic s]: it called [panic], which prints and never returns;
    - [Fault]: it read or wrote through a null or out-of-range pointer, or
      indexed an array out of range (undefined behaviour in C);
    - [Spin]: a busy-wait loop did not end within the fuel given to it. *)

Inductive outcome (S A : Type) : Type :=
| Ok (a : A) (s : S)
| Panic (s : S)
| Fault
| Spin.
Arguments Ok {S A} a s.
Arguments Panic {S A} s.
Arguments Fault {S A}.
Arguments Spin {S A}.

Definition M (S A : Type) : Type := S -> outcome S A.

Definition ret {S A} (a : A) : M S A := fun s => Ok a s.
Definition bind {S A B} (m : M S A) (k : A -> M S B) : M S B :=
  fun s =>
    match m s with
    | Ok a s' => k a s'
    | Panic s' => Panic s'
    | Fault => Fault
    | Spin => Spin
    end.
Definition get {S} : M S S := fun s => Ok s s.
Definition gets {S A} (f : S -> A) : M S A := fun s => Ok (f s) s.
Definition put {S} (s : S) : M S unit := fun _ => Ok tt s.
Definition modify {S} (f : S -> S) : M S unit := fun s => Ok tt (f s).
Definition panic {S A} : M S A := fun s => Panic s.
Definition fault {S A} : M S A := fun _ => Fault.
Definition spin {S A} : M S A := fun _ => Spin.

(** Dereference of something that may be absent. *)
Definition deref {S A} (o : option A) : M S A :=
  match o with Some a => ret a | None => fault end.

Declare Scope hyp_scope.
Delimit Scope hyp_scope with hyp.
Notation "'let!' x ':=' m 'in' k" := (bind m (fun x => k))
  (at level 10, x name, m at level 100, k at level 200,
   format "'let!'  x  ':='  m  'in' '//' k") : hyp_scope.
Notation "m ;; k" := (bind m (fun _ => k))
  (at level 100, k at level 200, right associativity) : hyp_scope.
#[global] Open Scope hyp_scope.

(** Run code that touches a part [T] of the state [S]. *)
Definition zoom {S T A} (prj : S -> T) (upd : T -> S -> S) (m : M T A) : M S A :=
  fun s =>
    match m (prj s) with
    | Ok a t => Ok a (upd t s)
    | Panic t => Panic (upd t s)
    | Fault => Fault
    | Spin => Spin
    end.

(** [for (i = from; n iterations; ++i) body(i)]. *)
Fixpoint for_n {S} (n : nat) (from : Z) (body : Z -> M S unit) : M S unit :=
  match n with
  | O => ret tt
  | Datatypes.S n' => body from ;; for_n n' (from + 1) body
  end.

(** [for (i = from; i < to; ++i) body(i)]. *)
Definition for_range {S} (from to : Z) (body : Z -> M S unit) : M S unit :=
  for_n (Z.to_nat (to - from)) from body.

(** A [for] loop that threads an accumulator. *)
Fixpoint fold_n {S A} (n : nat) (from : Z) (acc : A) (body : Z -> A -> M S A) : M S A :=
  match n with
  | O => ret acc
  | Datatypes.S n' => let! acc' := body from acc in fold_n n' (from + 1) acc' body
  end.

(** [while (cond()) body()], with fuel. *)
Fixpoint while_do {S} (fuel : nat) (cond : M S bool) (body : M S unit) : M S unit :=
  match fuel with
  | O => spin
  | Datatypes.S fuel' =>
      let! c := cond in
      if c then body ;; while_do fuel' cond body else ret tt
  end.

(** * Total-correctness reasoning

    [wp m Q s]: from [s] the code returns, and [Q] holds of the result. *)

Definition wp {S A} (m : M S A) (Q : A -> S -> Prop) (s : S) : Prop :=
  match m s with Ok a s' => Q a s' | _ => False end.

(** [safe m Q s]: the code neither faults nor spins; if it returns, [Q]. *)
Definition safe {S A} (m : M S A) (Q : A -> S -> Prop) (s : S) : Prop :=
  match m s with Ok a s' => Q a s' | Panic _ => True | _ => False end.

Section WP.
Context {S : Type}.
Implicit Types s : S.

Lemma bind_Ok {A B} (m : M S A) (k : A -> M S B) a s s' : m s = Ok a s' -> bind m k s = k a s'.
Proof. unfold bind. by intros ->. Qed.

Lemma wp_ret {A} (a : A) Q s : wp (ret a) Q s <-> Q a s.
Proof. done. Qed.

Lemma wp_bind {A B} (m : M S A) (k : A -> M S B) Q s :
  wp (bind m k) Q s <-> wp m (fun a s' => wp (k a) Q s') s.
Proof. unfold wp, bind. by destruct (m s). Qed.

Lemma wp_bind_Ok {A B} (m : M S A) (k : A -> M S B) Q a s s' :
  m s = Ok a s' -> wp (k a) Q s' -> wp (bind m k) Q s.
Proof. intros E HQ. unfold wp. by rewrite (bind_Ok _ _ _ _ _ E). Qed.

Lemma wp_mono {A} (m : M S A) (P Q : A -> S -> Prop) s :
  (forall a s', P a s' -> Q a s') -> wp m P s -> wp m Q s.
Proof. unfold wp. destruct (m s); auto. Qed.

Lemma wp_get Q s : wp get Q s <-> Q s s.
Proof. done. Qed.

Lemma wp_put s' Q s : wp (put s') Q s <-> Q tt s'.
Proof. done. Qed.

Lemma wp_gets {A} (f : S -> A) Q s : wp (gets f) Q s <-> Q (f s) s.
Proof. done. Qed.

Lemma wp_modify (f : S -> S) Q s : wp (modify f) Q s <-> Q tt (f s).
Proof. done. Qed.

Lemma wp_deref {A} (o : option A) a Q s : o = Some a -> Q a s -> wp (deref o) Q s.
Proof. by intros ->. Qed.

Lemma wp_Ok {A} (m : M S A) Q s : wp m Q s <-> exists a s', m s = Ok a s' /\ Q a s'.
Proof.
  unfold wp. split.
  - destruct (m s); naive_solver.
  - by intros (a & s' & -> & ?).
Qed.

Lemma wp_zoom {T A} (prj : S -> T) (upd : T -> S -> S) (m : M T A) Q s :
  wp (zoom prj upd m) Q s <-> wp m (fun a t => Q a (upd t s)) (prj s).
Proof. unfold wp, zoom. by destruct (m (prj s)). Qed.

Lemma wp_safe {A} (m : M S A) Q s : wp m Q s -> safe m Q s.
Proof. unfold wp, safe. by destruct (m s). Qed.

Lemma safe_bind {A B} (m : M S A) (k : A -> M S B) Q s :
  safe (bind m k) Q s <-> safe m (fun a s' => safe (k a) Q s') s.
Proof. unfold safe, bind. by destruct (m s). Qed.

Lemma safe_mono {A} (m : M S A) (P Q : A -> S -> Prop) s :
  (forall a s', P a s' -> Q a s') -> safe m P s -> safe m Q s.
Proof. unfold safe. destruct (m s); auto. Qed.

(** Loop rule: [I i s] holds before iteration [i]. *)
Lemma wp_for_n (I : Z -> S -> Prop) n from (body : Z -> M S unit) s :
  I from s ->
  (forall i s', from <= i < from + Z.of_nat n -> I i s' ->
     wp (body i) (fun _ s'' => I (i + 1) s'') s') ->
  wp (for_n n from body) (fun _ s' => I (from + Z.of_nat n) s') s.
Proof.
  revert from s. induction n as [|n IH]; intros from s HI Hb; simpl for_n.
  - rewrite wp_ret. by replace (from + Z.of_nat 0) with from by lia.
  - rewrite wp_bind. eapply wp_mono; [|apply Hb; [lia|done]].
    intros ? s' HI'. replace (from + Z.of_nat (Datatypes.S n)) with (from + 1 + Z.of_nat n) by lia.
    apply IH; [done|]. intros; apply Hb; [lia|done].
Qed.

Lemma wp_for_range (I : Z -> S -> Prop) from to (body : Z -> M S unit) s :
  from <= to ->
  I from s ->
  (forall i s', from <= i < to -> I i s' ->
     wp (body i) (fun _ s'' => I (i + 1) s'') s') ->
  wp (for_range from to body) (fun _ s' => I to s') s.
Proof.
  intros Hle HI Hb. unfold for_range.
  pose proof (wp_for_n I (Z.to_nat (to - from)) from body s) as W.
  rewrite Z2Nat.id in W by lia. replace (from + (to - from)) with to in W by lia.
  apply W; [done|]. intros; apply Hb; [lia|done].
Qed.

Lemma wp_fold_n {A} (I : Z -> A -> S -> Prop) n from acc (body : Z -> A -> M S A) s :
  I from acc s ->
  (forall i a s', from <= i < from + Z.of_nat n -> I i a s' ->
     wp (body i a) (fun a' s'' => I (i + 1) a' s'') s') ->
  wp (fold_n n from acc body) (fun a s' => I (from + Z.of_nat n) a s') s.
Proof.
  revert from acc s. induction n as [|n IH]; intros from acc s HI Hb; simpl fold_n.
  - rewrite wp_ret. by replace (from + Z.of_nat 0) with from by lia.
  - rewrite wp_bind. eapply wp_mono; [|apply Hb; [lia|done]].
    intros a s' HI'. replace (from + Z.of_nat (Datatypes.S n)) with (from + 1 + Z.of_nat n) by lia.
    apply IH; [done|]. intros; apply Hb; [lia|done].
Qed.

End WP.

(** * Tactics *)

(** Push a [wp] goal through the sequencing of the code. *)
Ltac wp_step :=
  lazymatch goal with
  | |- wp (bind _ _) _ _ => rewrite wp_bind
  | |- wp (ret _) _ _ => rewrite wp_ret
  | |- wp (gets _) _ _ => rewrite wp_gets
  | |- wp (modify _) _ _ => rewrite wp_modify
  | |- wp get _ _ => rewrite wp_get
  | |- wp (put _) _ _ => rewrite wp_put
  | |- wp (zoom _ _ _) _ _ => rewrite wp_zoom
  | |- wp (deref _) _ _ => eapply wp_deref; [eassumption|]
  | |- wp (if ?b then _ else _) _ _ => destruct b eqn:?
  end.
Ltac wp_steps := repeat (wp_step; cbn beta).

(** Turn boolean comparisons in the context into arithmetic facts. *)
Ltac bool_to_Z :=
  repeat match goal with
  | H : (_ && _) = true |- _ => apply andb_prop in H as [? ?]
  | H : (_ || _) = false |- _ => apply orb_false_elim in H as [? ?]
  | H : negb _ = true |- _ => apply negb_true_iff in H
  | H : negb _ = false |- _ => apply negb_false_iff in H
  | H : (_ <? _) = true |- _ => apply Z.ltb_lt in H
  | H : (_ <? _) = false |- _ => apply Z.ltb_ge in H
  | H : (_ <=? _) = true |- _ => apply Z.leb_le in H
  | H : (_ <=? _) = false |- _ => apply Z.leb_gt in H
  | H : (_ =? _) = true |- _ => apply Z.eqb_eq in H
  | H : (_ =? _) = false |- _ => apply Z.eqb_neq in H
  end.

(** * Integers: the lemmas the components share *)

Create HintDb hyp_int.

Lemma u64_small x : is_u64 x -> u64 x = x.
Proof. apply Z.mod_small. Qed.
Lemma u32_small x : is_u32 x -> u32 x = x.
Proof. apply Z.mod_small. Qed.
Lemma u16_small x : is_u16 x -> u16 x = x.
Proof. apply Z.mod_small. Qed.
Lemma u8_small x : is_u8 x -> u8 x = x.
Proof. apply Z.mod_small. Qed.

Lemma u64_range x : is_u64 (u64 x).
Proof. apply Z.mod_pos_bound. lia. Qed.
Lemma u32_range x : is_u32 (u32 x).
Proof. apply Z.mod_pos_bound. lia. Qed.
Lemma u16_range x : is_u16 (u16 x).
Proof. apply Z.mod_pos_bound. lia. Qed.
Lemma u8_range x : is_u8 (u8 x).
Proof. apply Z.mod_pos_bound. lia. Qed.
#[export] Hint Resolve u64_range u32_range u16_range u8_range : hyp_int.

Lemma testbit_u64 x i : 0 <= i -> Z.testbit (u64 x) i = (i <? 64) && Z.testbit x i.
Proof.
  intros Hi. unfold u64. destruct (Z.ltb_spec i 64).
  - rewrite Z.mod_pow2_bits_low; [done|lia].
  - rewrite Z.mod_pow2_bits_high; [done|lia].
Qed.

Lemma testbit_u32 x i : 0 <= i -> Z.testbit (u32 x) i = (i <? 32) && Z.testbit x i.
Proof.
  intros Hi. unfold u32. destruct (Z.ltb_spec i 32).
  - rewrite Z.mod_pow2_bits_low; [done|lia].
  - rewrite Z.mod_pow2_bits_high; [done|lia].
Qed.

Lemma testbit_notw w x i :
  0 <= i -> 0 <= w -> Z.testbit (notw w x) i = (i <? w) && negb (Z.testbit x i).
Proof.
  intros Hi Hw. unfold notw. destruct (Z.ltb_spec i w).
  - rewrite Z.mod_pow2_bits_low, Z.lnot_spec; [done|lia..].
  - rewrite Z.mod_pow2_bits_high; [done|lia].
Qed.

(** A number below [2^w] has no bit at or above [w]. *)
Lemma testbit_high w x i : 0 <= x < 2 ^ w -> 0 <= w <= i -> Z.testbit x i = false.
Proof.
  intros Hx Hi. rewrite <- (Z.mod_small x (2 ^ w)) by done.
  apply Z.mod_pow2_bits_high. lia.
Qed.

(** Bounds through the bits. *)
Lemma bits_bound w x :
  0 <= w -> 0 <= x -> (forall i, w <= i -> Z.testbit x i = false) -> x < 2 ^ w.
Proof.
  intros Hw Hx Hb. enough (x = x mod 2 ^ w) as -> by (apply Z.mod_pos_bound; lia).
  apply Z.bits_inj'. intros i Hi. destruct (Z.lt_ge_cases i w).
  - by rewrite Z.mod_pow2_bits_low by lia.
  - rewrite Z.mod_pow2_bits_high, Hb by lia. done.
Qed.

Lemma lor_bound w x y : 0 <= w -> 0 <= x < 2 ^ w -> 0 <= y < 2 ^ w -> 0 <= Z.lor x y < 2 ^ w.
Proof.
  intros Hw Hx Hy. assert (0 <= Z.lor x y) by (apply Z.lor_nonneg; lia).
  split; [done|]. apply bits_bound; [done..|]. intros i Hi.
  rewrite Z.lor_spec, (testbit_high w x), (testbit_high w y) by lia. done.
Qed.

Lemma land_bound_l w x y : 0 <= w -> 0 <= x < 2 ^ w -> 0 <= Z.land x y < 2 ^ w.
Proof.
  intros Hw Hx. assert (0 <= Z.land x y) by (apply Z.land_nonneg; lia).
  split; [done|]. apply bits_bound; [done..|]. intros i Hi.
  rewrite Z.land_spec, (testbit_high w x) by lia. done.
Qed.

Lemma testbit_pow2 n i : 0 <= n -> Z.testbit (2 ^ n) i = (i =? n).
Proof. intros. rewrite Z.pow2_bits_eqb by done. apply Z.eqb_sym. Qed.

Lemma shiftl_1 n : 0 <= n -> Z.shiftl 1 n = 2 ^ n.
Proof. intros. rewrite Z.shiftl_mul_pow2 by done. lia. Qed.

(** Testing one bit the way C does, [(x >> n) & 1]. *)
Lemma land_shiftr_1 x n : 0 <= n -> Z.land (Z.shiftr x n) 1 = Z.b2z (Z.testbit x n).
Proof.
  intros Hn. change 1 with (Z.ones 1). rewrite Z.land_ones by lia.
  by rewrite Z.testbit_spec', Z.shiftr_div_pow2 by lia.
Qed.

(** [x & (1 << n)] is non-zero exactly when bit [n] is set. *)
Lemma land_pow2_nonzero x n :
  0 <= n -> negb (Z.land x (2 ^ n) =? 0) = Z.testbit x n.
Proof.
  intros Hn. destruct (Z.testbit x n) eqn:E.
  - apply negb_true_iff, Z.eqb_neq. intros H0.
    assert (Z.testbit (Z.land x (2 ^ n)) n = true) as Hb.
    { rewrite Z.land_spec, E, testbit_pow2, Z.eqb_refl by done. done. }
    by rewrite H0, Z.testbit_0_l in Hb.
  - apply negb_false_iff, Z.eqb_eq, Z.bits_inj'. intros i Hi.
    rewrite Z.land_spec, testbit_pow2, Z.testbit_0_l by done.
    destruct (Z.eqb_spec i n) as [->|]; [by rewrite E|by rewrite andb_false_r].
Qed.
