(* ===== verification/Spinlock.v ===== *)
(** Ticket spinlocks (src/include/spinlock.h).

    [Seq] is the lock as the code on one processing element uses it: the
    operations the other components call.  [Conc] is the same code executed by
    several processing elements at once, one memory access at a time, with the
    exclusive monitor of [ldaxr]/[stxr]; every run of it is proved to be a run of a
    FIFO lock ([Spec]), whence mutual exclusion, and never to lose a ticket although
    the 32-bit counters wrap. *)
From stdpp Require Import base gmap list numbers tactics.
From S2P Require Import Prelude.

(** [typedef struct { u32 ticket; u32 next; } spinlock_t] *)
Record spinlock_t := mkSpinlock { ticket : Z; next : Z }.

Module Seq.

Definition SPINLOCK_INITVAL : spinlock_t := mkSpinlock 0 0.

Definition spinlock_init : M spinlock_t unit :=
  put (mkSpinlock 0 0).

(** Take a ticket, then wait for [next] to reach it.  No other element runs
    in between, so a ticket that is not served at once is never served. *)
Definition spin_lock : M spinlock_t unit :=
  let! w0 := gets ticket in
  modify (fun l => mkSpinlock (u32 (w0 + 1)) (next l)) ;;
  let! w1 := gets next in
  if w0 =? w1 then ret tt else spin.

Definition spin_unlock : M spinlock_t unit :=
  let! w0 := gets next in
  modify (fun l => mkSpinlock (ticket l) (u32 (w0 + 1))).

(** Nobody holds the lock or waits for it. *)
Definition unlocked (l : spinlock_t) : Prop := ticket l = next l /\ is_u32 (ticket l).
Definition locked (l : spinlock_t) : Prop := ticket l = u32 (next l + 1) /\ is_u32 (next l).

Lemma spin_lock_ok l : unlocked l -> wp spin_lock (fun _ l' => locked l') l.
Proof.
  intros [E R]. unfold spin_lock. wp_steps; [|bool_to_Z; simpl in *; lia].
  unfold locked; simpl. rewrite <- E. done.
Qed.

Lemma spin_unlock_ok l : locked l -> wp spin_unlock (fun _ l' => unlocked l') l.
Proof.
  intros [E R]. unfold spin_unlock. wp_steps. unfold unlocked; simpl.
  rewrite E. auto with hyp_int.
Qed.

End Seq.

(** * The contract: a lock that is granted in the order of the requests *)
Module Spec.

(** An element asks for the lock, gets it, gives it back. *)
Inductive event := Take (c : nat) | Enter (c : nat) | Leave (c : nat).

Record fifo := mkFifo { queue : list nat; granted : bool }.

Inductive fifo_step : fifo -> event -> fifo -> Prop :=
| enqueue c q g : c ∉ q -> fifo_step (mkFifo q g) (Take c) (mkFifo (q ++ [c]) g)
| grant c q : fifo_step (mkFifo (c :: q) false) (Enter c) (mkFifo (c :: q) true)
| release c q : fifo_step (mkFifo (c :: q) true) (Leave c) (mkFifo q false).

Definition no_queue : fifo := mkFifo [] false.

(** What the lock has done, and where it is then. *)
Inductive fifo_run : list event -> fifo -> Prop :=
| fifo_init : fifo_run [] no_queue
| fifo_more tr f e f' : fifo_run tr f -> fifo_step f e f' -> fifo_run (tr ++ [e]) f'.

Definition holder (f : fifo) : option nat := if granted f then head (queue f) else None.
(** Those that have not been served, in the order of their requests. *)
Definition waiting (f : fifo) : list nat := if granted f then tail (queue f) else queue f.

(** The elements that asked for the lock, and those that got it, in order. *)
Definition takes (tr : list event) : list nat := omap (fun e => match e with Take c => Some c | _ => None end) tr.
Definition enters (tr : list event) : list nat := omap (fun e => match e with Enter c => Some c | _ => None end) tr.

(** The lock is granted in the order of the requests. *)
Lemma fifo_order tr f : fifo_run tr f -> takes tr = enters tr ++ waiting f.
Proof.
  intros R. enough (takes tr = enters tr ++ waiting f /\ (granted f = true -> queue f <> [])) by tauto.
  induction R as [|tr f e f' _ [IH Hq] St]; [done|]. unfold takes, enters in *. rewrite !omap_app, IH.
  destruct St as [c q g _|c q|c q]; unfold waiting in *; simpl in *; rewrite ?app_nil_r, <- ?(assoc_L (++)); try done.
  split; [|by intros _ [? ?]%app_eq_nil]. destruct g; [|done]. destruct q; [by destruct Hq|done].
Qed.

End Spec.

(** * The code, run by several processing elements *)
Module Conc.
Import Spec.

(** Where an element is in [spin_lock]/[spin_unlock].  Instructions that touch
    only registers are merged with the memory access that follows them. *)
Inductive pc :=
| Outside                 (* not using the lock *)
| Ldaxr                   (* 1: ldaxr w0, [ticket] *)
| Stxr (w0 : Z)           (*    add w1, w0, 1; stxr w2, w1, [ticket]; cbnz w2, 1b *)
| Ldar (w0 : Z)           (* 2: ldar w1, [next]; cmp w0, w1; b.eq 3f; wfe; b 2b *)
| Critical                (* 3: the lock is held *)
| Ldr                     (* ldr w0, [next] *)
| Stlr (w0 : Z).          (* add w0, w0, 1; stlr w0, [next] *)

Record lstate := mkL { l_lock : spinlock_t; l_pcs : list pc; l_mon : gset nat }.

Definition set_pc (c : nat) (p : pc) (s : lstate) : lstate :=
  mkL (l_lock s) (<[c := p]> (l_pcs s)) (l_mon s).

Inductive step : lstate -> lstate -> Prop :=
| st_lock c s :
    l_pcs s !! c = Some Outside -> step s (set_pc c Ldaxr s)
| st_ldaxr c s :
    l_pcs s !! c = Some Ldaxr ->
    step s (mkL (l_lock s) (<[c := Stxr (ticket (l_lock s))]> (l_pcs s)) ({[c]} ∪ l_mon s))
| st_stxr_ok c w0 s :
    l_pcs s !! c = Some (Stxr w0) -> c ∈ l_mon s ->
    step s (mkL (mkSpinlock (u32 (w0 + 1)) (next (l_lock s))) (<[c := Ldar w0]> (l_pcs s)) ∅)
| st_stxr_fail c w0 s :
    l_pcs s !! c = Some (Stxr w0) ->
    step s (mkL (l_lock s) (<[c := Ldaxr]> (l_pcs s)) (l_mon s ∖ {[c]}))
| st_ldar_eq c w0 s :
    l_pcs s !! c = Some (Ldar w0) -> w0 = next (l_lock s) -> step s (set_pc c Critical s)
| st_ldar_ne c w0 s :
    l_pcs s !! c = Some (Ldar w0) -> w0 <> next (l_lock s) -> step s s
| st_unlock c s :
    l_pcs s !! c = Some Critical -> step s (set_pc c Ldr s)
| st_ldr c s :
    l_pcs s !! c = Some Ldr -> step s (set_pc c (Stlr (next (l_lock s))) s)
| st_stlr c w0 s :
    l_pcs s !! c = Some (Stlr w0) ->
    step s (mkL (mkSpinlock (ticket (l_lock s)) (u32 (w0 + 1))) (<[c := Outside]> (l_pcs s)) (l_mon s)).

Definition init (ncpu : nat) : lstate := mkL (mkSpinlock 0 0) (replicate ncpu Outside) ∅.

Definition reachable (ncpu : nat) (s : lstate) : Prop := rtc step (init ncpu) s.

(** An element that has taken a ticket and not yet given it back. *)
Definition ticketed (p : pc) : Prop :=
  match p with Ldar _ | Critical | Ldr | Stlr _ => True | _ => False end.
Definition holds (p : pc) : Prop :=
  match p with Critical | Ldr | Stlr _ => True | _ => False end.

#[export] Instance ticketed_dec p : Decision (ticketed p).
Proof. destruct p; simpl; apply _. Defined.
#[export] Instance holds_dec p : Decision (holds p).
Proof. destruct p; simpl; apply _. Defined.

(** What can be seen of a step: an element gets a ticket, is past [spin_lock], or has given
    the lock back. *)
Definition event_of (c : nat) (p p' : pc) : list event :=
  (if decide (~ ticketed p /\ ticketed p') then [Take c] else []) ++
  (if decide (~ holds p /\ holds p') then [Enter c] else []) ++
  (if decide (holds p /\ ~ holds p') then [Leave c] else []).
Fixpoint events_from (c : nat) (l l' : list pc) : list event :=
  match l, l' with
  | p :: l, p' :: l' => event_of c p p' ++ events_from (S c) l l'
  | _, _ => []
  end.
Definition events (s s' : lstate) : list event := events_from 0 (l_pcs s) (l_pcs s').

(** A run of the code, and what can be seen of it. *)
Inductive run (ncpu : nat) : list event -> lstate -> Prop :=
| run_init : run ncpu [] (init ncpu)
| run_step tr s s' : run ncpu tr s -> step s s' -> run ncpu (tr ++ events s s') s'.

Lemma reachable_run ncpu s : reachable ncpu s <-> exists tr, run ncpu tr s.
Proof.
  split.
  - revert s. apply (rtc_ind_r (fun s => exists tr, run ncpu tr s)); [exists []; constructor|].
    intros s s' _ Hs [tr R]. eexists. by econstructor.
  - intros [tr R]. induction R as [|tr s s' _ IH Hs]; [apply rtc_refl|]. by eapply rtc_r.
Qed.

Lemma event_same c p : event_of c p p = [].
Proof. unfold event_of. by rewrite !decide_False by tauto. Qed.
Lemma events_insert l i p p' : forall c, l !! i = Some p -> events_from c l (<[i := p']> l) = event_of (c + i) p p'.
Proof.
  assert (forall l c, events_from c l l = []) as Hs by (intros l0; induction l0 as [|q l0 IH]; intros c; [done|]; simpl; by rewrite event_same, IH).
  revert i. induction l as [|q l IH]; intros [|i] c E; try done; simpl in *.
  - injection E as ->. by rewrite Hs, app_nil_r, Nat.add_0_r.
  - rewrite event_same. simpl. rewrite (IH i (S c) E). f_equal. lia.
Qed.
Lemma events_pc s c p p' lk mon : l_pcs s !! c = Some p -> events s (mkL lk (<[c := p']> (l_pcs s)) mon) = event_of c p p'.
Proof. apply (events_insert (l_pcs s) c p p' 0). Qed.

(** The pc of the element at position [i] of the queue, when [n] tickets have
    been served. *)
Definition phase (n : Z) (g : bool) (i : nat) (p : pc) : Prop :=
  (p = Ldar (u32 (n + Z.of_nat i)) /\ (i = 0%nat -> g = false))
  \/ (i = 0%nat /\ g = true /\ (p = Critical \/ p = Ldr \/ p = Stlr (u32 n))).

(** The simulation relation between the code and the FIFO lock. *)
Record sim (ncpu : nat) (s : lstate) (f : fifo) (n : Z) : Prop := {
  sim_len : length (l_pcs s) = ncpu;
  sim_nodup : NoDup (queue f);
  sim_next : next (l_lock s) = u32 n;
  sim_ticket : ticket (l_lock s) = u32 (n + Z.of_nat (length (queue f)));
  sim_queue : forall i c, queue f !! i = Some c ->
                exists p, l_pcs s !! c = Some p /\ phase n (granted f) i p;
  sim_rest : forall c p, l_pcs s !! c = Some p -> ticketed p -> c ∈ queue f;
  sim_mon : forall c w0, l_pcs s !! c = Some (Stxr w0) -> c ∈ l_mon s -> w0 = ticket (l_lock s);
  sim_head : queue f = [] -> granted f = false
}.

Lemma phase_ticketed n g i p : phase n g i p -> ticketed p.
Proof. intros [[-> _]|(_ & _ & [->|[->| ->]])]; exact I. Qed.

(** A distinct ticket below [2^32] for every element in the queue. *)
Lemma sim_queue_length ncpu s f n : sim ncpu s f n -> (length (queue f) <= ncpu)%nat.
Proof.
  intros H. rewrite <- (length_seq ncpu 0).
  apply submseteq_length, NoDup_submseteq; [apply H|]. intros c [i Hi]%list_elem_of_lookup.
  destruct (sim_queue _ _ _ _ H _ _ Hi) as (p & Hp & _).
  apply lookup_lt_Some in Hp. rewrite (sim_len _ _ _ _ H) in Hp.
  apply elem_of_seq. lia.
Qed.

Lemma u32_inj_near a b : u32 a = u32 b -> 0 <= a - b < 2 ^ 32 -> a = b.
Proof. unfold u32. intros E R. pose proof (Z.div_mod a (2^32)). pose proof (Z.div_mod b (2^32)). nia. Qed.

Section Simulation.
Context (ncpu : nat) (Hn : Z.of_nat ncpu < 2 ^ 32).

Lemma sim_init : sim ncpu (init ncpu) (mkFifo [] false) 0.
Proof.
  split; simpl; try done.
  - apply length_replicate.
  - constructor.
  - intros c p [-> _]%lookup_replicate [].
Qed.

(** Moving an element that is outside the queue, and stays outside it. *)
Lemma sim_set_outside s f n c p0 p mon :
  sim ncpu s f n -> l_pcs s !! c = Some p0 -> ~ ticketed p0 -> ~ ticketed p ->
  (forall w0, p = Stxr w0 -> w0 = ticket (l_lock s)) ->
  (forall c', c' ∈ mon -> c' = c \/ c' ∈ l_mon s) ->
  sim ncpu (mkL (l_lock s) (<[c := p]> (l_pcs s)) mon) f n.
Proof.
  intros H Hc Hp0 Hp Hst Hmon. destruct H as [H1 H2 H3 H4 H5 H6 H7 H8].
  split; simpl; try done.
  - by rewrite length_insert.
  - intros i c' Hi. destruct (H5 i c' Hi) as (p' & Hp' & Hph).
    exists p'. split; [|done]. rewrite list_lookup_insert_ne; [done|].
    intros <-. simplify_eq. by apply phase_ticketed in Hph.
  - intros c' p' [(-> & -> & _)|[Hne Hl]]%list_lookup_insert_Some Ht; [done|eauto].
  - intros c' w0 [(<- & -> & _)|[Hne Hl]]%list_lookup_insert_Some Hm; [by apply Hst|].
    destruct (Hmon c' Hm) as [->|]; [done|eauto].
Qed.

(** Moving the element at the head of the queue while it keeps its ticket. *)
Lemma sim_set_head s q g g' n c p :
  sim ncpu s (mkFifo (c :: q) g) n -> phase n g' 0 p ->
  sim ncpu (set_pc c p s) (mkFifo (c :: q) g') n.
Proof.
  intros [H1 H2 H3 H4 H5 H6 H7 H8] Hp. unfold set_pc. simpl in *.
  assert (Hc : (c < length (l_pcs s))%nat).
  { destruct (H5 0%nat c eq_refl) as (p' & Hp' & _). by eapply lookup_lt_Some. }
  split; simpl; try done.
  - by rewrite length_insert.
  - intros [|i] c' Hi; simpl in Hi; simplify_eq.
    + exists p. split; [by apply list_lookup_insert_eq|done].
    + destruct (H5 (S i) c' Hi) as (p' & Hp' & Hph). exists p'. split.
      * rewrite list_lookup_insert_ne; [done|]. intros <-.
        apply list.NoDup_cons in H2 as [Hni _]. apply Hni, list_elem_of_lookup. eauto.
      * destruct Hph as [[-> _]|[? _]]; [|done]. left. done.
  - intros c' p' [(<- & -> & _)|[Hne Hl]]%list_lookup_insert_Some Ht; [by left|].
    eapply (H6 c'); eauto.
  - intros c' w0 [(<- & -> & _)|[Hne Hl]]%list_lookup_insert_Some Hm; [|eauto].
    apply phase_ticketed in Hp. done.
Qed.

(** An element whose pc is in the queue is at some position. *)
Lemma sim_position s f n c p :
  sim ncpu s f n -> l_pcs s !! c = Some p -> ticketed p ->
  exists i, queue f !! i = Some c /\ phase n (granted f) i p.
Proof.
  intros H Hc Ht. destruct (proj1 (list_elem_of_lookup _ _) (sim_rest _ _ _ _ H c p Hc Ht)) as [i Hi].
  exists i. split; [done|]. destruct (sim_queue _ _ _ _ H i c Hi) as (p' & Hp' & Hph). congruence.
Qed.

(** The element that holds the lock is the head of a granted queue. *)
Lemma sim_holder s f n c p :
  sim ncpu s f n -> l_pcs s !! c = Some p -> holds p ->
  exists q, f = mkFifo (c :: q) true /\ (forall w0, p = Stlr w0 -> w0 = u32 n).
Proof.
  intros H Hc Hh. destruct (sim_position s f n c p H Hc) as (i & Hi & Hph).
  { by destruct p. }
  destruct f as [q g]. simpl in *.
  destruct Hph as [[-> _]|(-> & -> & Hp)]; [done|].
  destruct q as [|c' q]; [done|]. simpl in Hi. simplify_eq.
  exists q. split; [done|]. intros w0 ->. destruct Hp as [|[|]]; congruence.
Qed.

(** Only the first in the queue reads its own ticket in [next]. *)
Lemma sim_served s f n c :
  sim ncpu s f n -> l_pcs s !! c = Some (Ldar (next (l_lock s))) ->
  exists q, f = mkFifo (c :: q) false.
Proof.
  intros H Hc. destruct (sim_position s f n c _ H Hc I) as (i & Hi & Hph).
  destruct f as [q g]. simpl in *.
  destruct Hph as [[E Hg]|(_ & _ & [?|[?|?]])]; [|done..].
  injection E as E. rewrite (sim_next _ _ _ _ H) in E.
  pose proof (sim_queue_length _ _ _ _ H) as HL. apply lookup_lt_Some in Hi as Hlt. simpl in HL.
  assert (n + Z.of_nat i = n) by (apply u32_inj_near; [done|lia]).
  assert (i = 0%nat) as -> by lia. rewrite Hg by done.
  destruct q as [|c' q]; [done|]. simpl in Hi. simplify_eq. eauto.
Qed.

(** A successful [stxr] takes the next ticket. *)
Lemma sim_take s f n c w0 :
  sim ncpu s f n -> l_pcs s !! c = Some (Stxr w0) -> c ∈ l_mon s ->
  let s' := mkL (mkSpinlock (u32 (w0 + 1)) (next (l_lock s))) (<[c := Ldar w0]> (l_pcs s)) ∅ in
  let f' := mkFifo (queue f ++ [c]) (granted f) in
  sim ncpu s' f' n /\ fifo_step f (Take c) f'.
Proof.
  intros H Hc Hm s' f'. subst s' f'.
  assert (Hcq : c ∉ queue f).
  { intros [i Hi]%list_elem_of_lookup.
    destruct (sim_queue _ _ _ _ H _ _ Hi) as (p & Hp & Hph%phase_ticketed). by simplify_eq. }
  split; [|destruct f; by constructor].
  pose proof (sim_mon _ _ _ _ H c w0 Hc Hm) as ->.
  destruct H as [H1 H2 H3 H4 H5 H6 H7 H8]. split; simpl.
  - by rewrite length_insert.
  - apply list.NoDup_app. split; [done|]. split; [|apply NoDup_singleton].
    intros x Hx ->%list_elem_of_singleton. done.
  - done.
  - rewrite H4, length_app. simpl. unfold u32. rewrite Zplus_mod_idemp_l. f_equal. lia.
  - intros i c' [Hi|[Hge Hi]]%lookup_app_Some.
    + destruct (H5 i c' Hi) as (p & Hp & Hph). exists p. split; [|done].
      rewrite list_lookup_insert_ne; [done|]. intros <-. apply Hcq, list_elem_of_lookup. eauto.
    + apply list_lookup_singleton_Some in Hi as [Hz <-]. exists (Ldar (ticket (l_lock s))).
      split; [apply list_lookup_insert_eq; eapply lookup_lt_Some, Hc|].
      left. rewrite H4. split; [do 2 f_equal; lia|]. intros ->.
      destruct (queue f) eqn:Eq; [by apply H8|simpl in *; lia].
  - intros c' p [(<- & <- & _)|[Hne Hl]]%list_lookup_insert_Some Ht; [set_solver|].
    apply elem_of_app. left. eauto.
  - set_solver.
  - by intros [? ?]%app_eq_nil.
Qed.

(** The [stlr] of the holder serves the next ticket. *)
Lemma sim_release s q n c :
  sim ncpu s (mkFifo (c :: q) true) n -> l_pcs s !! c = Some (Stlr (u32 n)) ->
  sim ncpu (mkL (mkSpinlock (ticket (l_lock s)) (u32 (u32 n + 1))) (<[c := Outside]> (l_pcs s)) (l_mon s))
    (mkFifo q false) (n + 1).
Proof.
  intros [H1 H2 H3 H4 H5 H6 H7 H8] Hc. simpl in *.
  apply list.NoDup_cons in H2 as [Hni Hnd]. split; simpl.
  - by rewrite length_insert.
  - done.
  - unfold u32. by rewrite Zplus_mod_idemp_l.
  - rewrite H4. f_equal. lia.
  - intros i c' Hi. destruct (H5 (S i) c' Hi) as (p & Hp & Hph). exists p. split.
    + rewrite list_lookup_insert_ne; [done|]. intros <-. apply Hni, list_elem_of_lookup. eauto.
    + destruct Hph as [[-> _]|[? _]]; [|done]. left. split; [do 2 f_equal; lia|done].
  - intros c' p [(<- & <- & _)|[Hne Hl]]%list_lookup_insert_Some Ht; [done|].
    pose proof (H6 c' p Hl Ht) as Hin. set_solver.
  - intros c' w [(<- & ? & _)|[Hne Hl]]%list_lookup_insert_Some Hm; [done|eauto].
  - done.
Qed.

(** Every step of the code is a step of the FIFO lock with the same event, or shows none. *)
Definition matched (s s' : lstate) (f f' : fifo) : Prop :=
  (events s s' = [] /\ f' = f) \/ exists e, events s s' = [e] /\ fifo_step f e f'.

Lemma sim_step s s' f n :
  step s s' -> sim ncpu s f n -> exists f' n', sim ncpu s' f' n' /\ matched s s' f f'.
Proof.
  intros Hst H. destruct Hst as
    [c s Hc|c s Hc|c w0 s Hc Hm|c w0 s Hc|c w0 s Hc Hw|c w0 s Hc Hw|c s Hc|c s Hc|c w0 s Hc].
  - exists f, n. split; [|left; unfold set_pc; by rewrite (events_pc s c Outside)]. unfold set_pc.
    eapply sim_set_outside; eauto; naive_solver.
  - exists f, n. split; [|left; by rewrite (events_pc s c Ldaxr)].
    eapply sim_set_outside; eauto; [by intros ? [=->]|set_solver].
  - destruct (sim_take s f n c w0 H Hc Hm) as [H' Hs]. eexists _, _. split; [exact H'|]. right. exists (Take c).
    by rewrite (events_pc s c (Stxr w0)).
  - exists f, n. split; [|left; by rewrite (events_pc s c (Stxr w0))].
    eapply sim_set_outside; eauto; [done|set_solver].
  - subst w0. destruct (sim_served s f n c H Hc) as [q ->].
    exists (mkFifo (c :: q) true), n. split; [eapply sim_set_head; [done|]; right; auto|].
    right. exists (Enter c). unfold set_pc. rewrite (events_pc s c (Ldar (next (l_lock s)))) by done. split; [done|constructor].
  - exists f, n. split; [done|]. left. split; [|done]. unfold events. rewrite <- (list_insert_id _ _ _ Hc) at 2. rewrite (events_insert _ c (Ldar w0)) by done. apply event_same.
  - destruct (sim_holder s f n c _ H Hc I) as (q & -> & _).
    exists (mkFifo (c :: q) true), n. split; [|left; unfold set_pc; by rewrite (events_pc s c Critical)]. eapply sim_set_head; [done|]. right. auto.
  - destruct (sim_holder s f n c _ H Hc I) as (q & -> & _).
    exists (mkFifo (c :: q) true), n. split; [|left; unfold set_pc; by rewrite (events_pc s c Ldr)]. eapply sim_set_head; [done|].
    right. rewrite (sim_next _ _ _ _ H). auto.
  - destruct (sim_holder s f n c _ H Hc I) as (q & -> & Hw0). rewrite (Hw0 w0 eq_refl) in *.
    exists (mkFifo q false), (n + 1). split; [by apply sim_release|]. right. exists (Leave c).
    rewrite (events_pc s c (Stlr (u32 n))) by done. split; [done|constructor].
Qed.

(** A run of the code is a run of the FIFO lock. *)
Lemma sim_run tr s : run ncpu tr s -> exists f n, fifo_run tr f /\ sim ncpu s f n.
Proof.
  intros R. induction R as [|tr s s' _ (f & n & Hf & H) Hs].
  - exists no_queue, 0. split; [constructor|apply sim_init].
  - destruct (sim_step s s' f n Hs H) as (f' & n' & H' & [[-> ->]|(e & -> & St)]); exists f', n' || exists f, n'; (split; [|done]).
    + by rewrite app_nil_r.
    + by eapply fifo_more.
Qed.
Lemma sim_reachable s : reachable ncpu s -> exists f n, sim ncpu s f n.
Proof. intros [tr (f & n & _ & H)%sim_run]%reachable_run. by exists f, n. Qed.

Lemma holder_unique s c c' p p' :
  reachable ncpu s -> l_pcs s !! c = Some p -> l_pcs s !! c' = Some p' ->
  holds p -> holds p' -> c = c'.
Proof.
  intros (f & n & H)%sim_reachable Hc Hc' Hh Hh'.
  destruct (sim_holder s f n c p H Hc Hh) as (q & -> & _).
  destruct (sim_holder s _ n c' p' H Hc' Hh') as (q' & [=] & _). done.
Qed.

(** When somebody waits and nobody holds the lock, the next poll of the first
    waiter succeeds. *)
Lemma waiter_served s :
  reachable ncpu s ->
  (exists c w0, l_pcs s !! c = Some (Ldar w0)) ->
  (forall c p, l_pcs s !! c = Some p -> ~ holds p) ->
  exists c, l_pcs s !! c = Some (Ldar (next (l_lock s))).
Proof.
  intros (f & n & H)%sim_reachable (c & w0 & Hc) Hno.
  pose proof (sim_rest _ _ _ _ H c _ Hc I) as Hin.
  destruct f as [[|c0 q] g]; simpl in Hin; [by apply not_elem_of_nil in Hin|].
  destruct (sim_queue _ _ _ _ H 0%nat c0 eq_refl) as (p & Hp & [[-> _]|(_ & _ & Hph)]).
  - exists c0. rewrite Hp, (sim_next _ _ _ _ H). do 3 f_equal. lia.
  - exfalso. apply (Hno c0 p Hp). by destruct Hph as [->|[->| ->]].
Qed.

(** The queue of the FIFO lock, in the state of the code. *)
Lemma sim_queue_is s f n c : sim ncpu s f n -> (exists p, l_pcs s !! c = Some p /\ ticketed p) <-> c ∈ queue f.
Proof.
  intros H. split; [intros (p & Hc & Ht); by eapply sim_rest|].
  intros [i Hi]%list_elem_of_lookup. destruct (sim_queue _ _ _ _ H i c Hi) as (p & Hp & Hph). eauto using phase_ticketed.
Qed.
Lemma sim_holder_is s f n c : sim ncpu s f n -> (exists p, l_pcs s !! c = Some p /\ holds p) <-> holder f = Some c.
Proof.
  intros H. split.
  - intros (p & Hc & Hh). by destruct (sim_holder s f n c p H Hc Hh) as (q & -> & _).
  - destruct f as [[|c0 q] [|]]; unfold holder; simpl; intros [=]; subst c0.
    destruct (sim_queue _ _ _ _ H 0%nat c eq_refl) as (p & Hp & [[-> Hg]|(_ & _ & Hph)]); [by specialize (Hg eq_refl)|].
    exists p. split; [done|]. by destruct Hph as [->|[->| ->]].
Qed.
End Simulation.

(** C34 Mutual exclusion: in every interleaving of the lock and unlock code of
    fewer than [2^32] processing elements, at most one of them is between the end
    of its [spin_lock] and the store of its [spin_unlock]. *)
Theorem ticket_lock_mutual_exclusion (ncpu : nat) (s : lstate) (c c' : nat) (p p' : pc) :
  Z.of_nat ncpu < 2 ^ 32 -> reachable ncpu s ->
  l_pcs s !! c = Some p -> l_pcs s !! c' = Some p' -> holds p -> holds p' -> c = c'.
Proof. intros Hn. by apply holder_unique. Qed.

(** Two elements; element 0 has the lock after four steps, element 1 is about to
    ask for it. *)
Definition example_state : lstate := mkL (mkSpinlock 1 0) [Critical; Ldaxr] ∅.

Lemma example_waiting : reachable 2 (mkL (mkSpinlock 1 0) [Ldar 0; Ldaxr] ∅).
Proof.
  unfold reachable, init. simpl. eapply rtc_l; [apply (st_lock 1); reflexivity|].
  eapply rtc_l; [apply (st_lock 0); reflexivity|]. eapply rtc_l; [apply (st_ldaxr 0); reflexivity|].
  eapply rtc_l; [apply (st_stxr_ok 0 0); [reflexivity|simpl; set_solver]|]. apply rtc_refl.
Qed.

Lemma example_reachable : reachable 2 example_state.
Proof. eapply rtc_r; [apply example_waiting|]. by apply (st_ldar_eq 0 0). Qed.

Lemma ticket_lock_mutual_exclusion_witness :
  l_pcs example_state !! 0%nat = Some Critical /\
  forall c p, l_pcs example_state !! c = Some p -> holds p -> 0%nat = c.
Proof.
  split; [reflexivity|]. intros c p Hc Hp.
  apply (ticket_lock_mutual_exclusion 2 example_state 0%nat c Critical p);
    [lia|apply example_reachable|reflexivity|exact Hc|exact I|exact Hp].
Defined.

Lemma run_to ncpu tr s s' tr' : run ncpu tr s -> step s s' -> tr ++ events s s' = tr' -> run ncpu tr' s'.
Proof. intros R St <-. by econstructor. Qed.

(** Element 1 asks while element 0 has the lock, and gets it when element 0 gives it back. *)
Lemma example_run : run 2 [Take 0; Enter 0; Take 1; Leave 0; Enter 1] (mkL (mkSpinlock 2 1) [Outside; Critical] ∅).
Proof.
  assert (run 2 [] (mkL (mkSpinlock 0 0) [Ldaxr; Ldaxr] ∅)) as R.
  { eapply run_to; [eapply run_to; [apply run_init|by apply (st_lock 1)|done]|by apply (st_lock 0)|done]. }
  eapply run_to in R; [|by apply (st_ldaxr 0)|reflexivity]. eapply run_to in R; [|apply (st_stxr_ok 0 0); [done|set_solver]|reflexivity].
  eapply run_to in R; [|by apply (st_ldar_eq 0 0)|reflexivity]. eapply run_to in R; [|by apply (st_ldaxr 1)|reflexivity].
  eapply run_to in R; [|apply (st_stxr_ok 1 1); [done|set_solver]|reflexivity]. eapply run_to in R; [|by apply (st_unlock 0)|reflexivity].
  eapply run_to in R; [|by apply (st_ldr 0)|reflexivity]. eapply run_to in R; [|by apply (st_stlr 0 0)|reflexivity].
  eapply run_to in R; [|by apply (st_ldar_eq 1 1)|reflexivity]. exact R.
Qed.

(** C23 The ticket lock refines a FIFO lock.  Every run of the code, in any interleaving of
    fewer than [2^32] elements, is a run of a lock with a queue: an element that gets its
    ticket joins the queue at the end, only the first of the queue gets the lock, and only
    when nobody has it, and the one that has it leaves the queue.  So the elements get the
    lock in the order of their tickets: those that took one are those that got the lock, in
    the same order, and then those that wait.  In every state the queue holds exactly the
    elements with a ticket and the holder is the one past [spin_lock].  The 32-bit
    counters wrap. *)
Theorem ticket_lock_refines_fifo (ncpu : nat) (tr : list event) (s : lstate) :
  Z.of_nat ncpu < 2 ^ 32 -> run ncpu tr s ->
  exists f, fifo_run tr f /\ takes tr = enters tr ++ waiting f /\
    (forall c, (exists p, l_pcs s !! c = Some p /\ ticketed p) <-> c ∈ queue f) /\
    (forall c, (exists p, l_pcs s !! c = Some p /\ holds p) <-> holder f = Some c).
Proof.
  intros Hn (f & n & Hf & H)%sim_run; [|done]. exists f. split; [done|]. split; [by apply fifo_order|].
  split; intros c; [by eapply sim_queue_is|by eapply sim_holder_is].
Qed.

Lemma ticket_lock_refines_fifo_witness :
  exists f, fifo_run [Take 0; Enter 0; Take 1; Leave 0; Enter 1] f /\ holder f = Some 1%nat.
Proof.
  destruct (ticket_lock_refines_fifo 2 _ _ ltac:(lia) example_run) as (f & Hf & _ & _ & Hh).
  exists f. split; [exact Hf|]. apply Hh. exists Critical. split; [reflexivity|exact I].
Defined.

(** C39 The lock is never stuck: whenever some element waits with a ticket and
    none holds the lock, some waiting element enters with its next read. *)
Theorem ticket_lock_never_stuck (ncpu : nat) (s : lstate) :
  Z.of_nat ncpu < 2 ^ 32 -> reachable ncpu s ->
  (exists c w0, l_pcs s !! c = Some (Ldar w0)) ->
  (forall c p, l_pcs s !! c = Some p -> ~ holds p) ->
  exists c s', step s s' /\ l_pcs s' !! c = Some Critical.
Proof.
  intros Hn Hr Hw Hno. destruct (waiter_served ncpu Hn s Hr Hw Hno) as [c Hc].
  exists c, (set_pc c Critical s). split; [by econstructor|].
  apply list_lookup_insert_eq. by eapply lookup_lt_Some.
Qed.

Lemma ticket_lock_never_stuck_witness :
  exists c s', step (mkL (mkSpinlock 1 0) [Ldar 0; Ldaxr] ∅) s' /\ l_pcs s' !! c = Some Critical.
Proof.
  apply (ticket_lock_never_stuck 2); [lia|apply example_waiting|exists 0%nat, 0; reflexivity|].
  intros [|[|c]] p Hc; simpl in Hc; inversion Hc; subst; intros H; exact H.
Defined.

End Conc.
