(* ===== verification/PageAlloc.v ===== *)
(** The physical page allocator (src/src/page_alloc.c, src/include/page_alloc.h).

    [page_allocator] is the global [g_allocator] with the words its [bitmap]
    pointer designates; one definition per function.  The contract is a set of
    free frames: [alloc_page] takes one out, and fails only when there is none;
    [free_pages] puts frames back. *)
From stdpp Require Import base gmap list numbers tactics.
From S2P Require Import Prelude Spinlock.

Definition PAGE_SHIFT : Z := 12.
Definition pfn_to_phy (pfn : Z) : Z := u64 (Z.shiftl pfn PAGE_SHIFT).
Definition phy_to_pfn (phy : Z) : Z := Z.shiftr phy PAGE_SHIFT.

Definition BIT_PER_LONG : Z := 64.
Definition BITMAP_ENTRY (nr : Z) : Z := nr / BIT_PER_LONG.
Definition BITMAP_OFFSET (nr : Z) : Z := nr mod BIT_PER_LONG.

(** [-1ULL] *)
Definition NO_PAGE : Z := u64 (-1).

Record page_allocator := mkPA {
  lock : spinlock_t;
  bitmap : list Z;
  total_pages : Z;
  base_pfn : Z;
  last_alloc : Z
}.

Definition set_lock (l : spinlock_t) (a : page_allocator) : page_allocator :=
  mkPA l (bitmap a) (total_pages a) (base_pfn a) (last_alloc a).
Definition set_bitmap (b : list Z) (a : page_allocator) : page_allocator :=
  mkPA (lock a) b (total_pages a) (base_pfn a) (last_alloc a).
Definition set_last_alloc (n : Z) (a : page_allocator) : page_allocator :=
  mkPA (lock a) (bitmap a) (total_pages a) (base_pfn a) n.

(** * The operations *)

(** [addr[BITMAP_ENTRY(nr)]], faulting outside the buffer. *)
Definition bitmap_word (nr : Z) : M page_allocator Z :=
  let! a := get in deref (bitmap a !! Z.to_nat (BITMAP_ENTRY nr)).

Definition test_bit (nr : Z) : M page_allocator Z :=
  let! w := bitmap_word nr in
  ret (Z.land (Z.shiftr w (BITMAP_OFFSET nr)) 1).

Definition set_bit (nr : Z) : M page_allocator unit :=
  let! w := bitmap_word nr in
  modify (fun a => set_bitmap
    (<[Z.to_nat (BITMAP_ENTRY nr) := Z.lor w (u64 (Z.shiftl 1 (BITMAP_OFFSET nr)))]> (bitmap a)) a).

Definition clear_bit (nr : Z) : M page_allocator unit :=
  let! w := bitmap_word nr in
  modify (fun a => set_bitmap
    (<[Z.to_nat (BITMAP_ENTRY nr) :=
        Z.land w (notw 64 (u64 (Z.shiftl 1 (BITMAP_OFFSET nr))))]> (bitmap a)) a).

(** [memset(buf, 0, n)] on a buffer of 64-bit words: the first [n] bytes. *)
Fixpoint zero_bytes (n : Z) (ws : list Z) : list Z :=
  match ws with
  | [] => []
  | w :: ws' =>
      let k := 8 * Z.min 8 (Z.max 0 n) in
      Z.shiftl (Z.shiftr w k) k :: zero_bytes (n - 8) ws'
  end.

Definition page_allocator_init (bitmap_buf : option (list Z)) (total phyaddr : Z) :
    M page_allocator Z :=
  match bitmap_buf with
  | None => ret (-1)
  | Some buf =>
      if total =? 0 then ret (-1) else
      let base := phy_to_pfn phyaddr in
      modify (fun a => mkPA (lock a) buf total base 0) ;;
      zoom lock set_lock Seq.spinlock_init ;;
      let n := u64 (total + BIT_PER_LONG - 1) / BIT_PER_LONG in
      (if n <=? 8 * Z.of_nat (length buf) then ret tt else fault) ;;
      modify (fun a => set_bitmap (zero_bytes n (bitmap a)) a) ;;
      ret 0
  end.

(** One of the two loops of [__find_free_range]: [n] pages from [i] on, with
    the locals [start] and [cnt]; the page found, if the loop returned. *)
Fixpoint scan (n : nat) (i start cnt nr_pages : Z) : M page_allocator (option Z * (Z * Z)) :=
  match n with
  | O => ret (None, (start, cnt))
  | S n' =>
      let! b := test_bit i in
      if b =? 0 then
        let start' := if cnt =? 0 then i else start in
        let cnt' := u64 (cnt + 1) in
        if nr_pages <=? cnt' then ret (Some start', (start', cnt'))
        else scan n' (i + 1) start' cnt' nr_pages
      else scan n' (i + 1) start 0 nr_pages
  end.

Definition find_free_range (nr_pages : Z) : M page_allocator Z :=
  let! a := get in
  let total := total_pages a in
  let! r1 := scan (Z.to_nat (total - last_alloc a)) (last_alloc a) 0 0 nr_pages in
  match fst r1 with
  | Some s => ret s
  | None =>
      let! r2 := scan (Z.to_nat (last_alloc a)) 0 (fst (snd r1)) (snd (snd r1)) nr_pages in
      match fst r2 with
      | Some s => ret s
      | None => ret NO_PAGE
      end
  end.

Definition alloc_pages (nr_pages : Z) : M page_allocator Z :=
  let! total := gets total_pages in
  if (nr_pages =? 0) || (total <? nr_pages) then ret NO_PAGE else
  zoom lock set_lock Seq.spin_lock ;;
  let! start_page := find_free_range nr_pages in
  if start_page =? NO_PAGE then
    zoom lock set_lock Seq.spin_unlock ;; ret NO_PAGE
  else
    for_range start_page (u64 (start_page + nr_pages)) set_bit ;;
    modify (set_last_alloc (u64 (start_page + nr_pages))) ;;
    zoom lock set_lock Seq.spin_unlock ;;
    let! base := gets base_pfn in
    ret (pfn_to_phy (u64 (base + start_page))).

Definition free_pages (phyaddr nr_pages : Z) : M page_allocator Z :=
  let pfn := phy_to_pfn phyaddr in
  let! base := gets base_pfn in
  let! total := gets total_pages in
  if (pfn <? base) || (nr_pages =? 0) then ret (-1) else
  let start := u64 (pfn - base) in
  if total <? u64 (start + nr_pages) then ret (-1) else
  zoom lock set_lock Seq.spin_lock ;;
  for_range start (u64 (start + nr_pages)) clear_bit ;;
  let! last := gets last_alloc in
  (if start <? last then modify (set_last_alloc start) else ret tt) ;;
  zoom lock set_lock Seq.spin_unlock ;;
  ret 0.

Definition alloc_page : M page_allocator Z := alloc_pages 1.
Definition free_page (phyaddr : Z) : M page_allocator Z := free_pages phyaddr 1.

(** * The state as a set of free frames *)

(** Frame [i] (relative to [base_pfn]) is marked in the bitmap. *)
Definition used (a : page_allocator) (i : Z) : bool :=
  match bitmap a !! Z.to_nat (BITMAP_ENTRY i) with
  | Some w => Z.testbit w (BITMAP_OFFSET i)
  | None => false
  end.

Definition free_set (a : page_allocator) : gset Z :=
  list_to_set (filter (fun i => used a i = false) (seqZ 0 (total_pages a))).

(** The invariant: the bitmap covers the frames, the words are 64 bits wide,
    frame numbers do not overflow ... *)
Record wf_core (a : page_allocator) : Prop := {
  wf_total : 0 < total_pages a;
  wf_cover : total_pages a <= 64 * Z.of_nat (length (bitmap a));
  wf_words : Forall is_u64 (bitmap a);
  wf_base : 0 <= base_pfn a /\ base_pfn a + total_pages a < 2 ^ 52;
  wf_last : 0 <= last_alloc a <= total_pages a
}.
(** ... and nobody is inside. *)
Definition wf (a : page_allocator) : Prop := wf_core a /\ Seq.unlocked (lock a).

(** Everything but the lock and the bitmap is the same. *)
Definition same_frame (a a' : page_allocator) : Prop :=
  total_pages a' = total_pages a /\ base_pfn a' = base_pfn a /\
  last_alloc a' = last_alloc a /\ lock a' = lock a /\
  length (bitmap a') = length (bitmap a) /\ Forall is_u64 (bitmap a').

(** * Bits of the bitmap *)

Lemma entry_offset i : 0 <= i -> i = 64 * BITMAP_ENTRY i + BITMAP_OFFSET i /\ 0 <= BITMAP_OFFSET i < 64.
Proof.
  intros. unfold BITMAP_ENTRY, BITMAP_OFFSET, BIT_PER_LONG.
  pose proof (Z.div_mod i 64). pose proof (Z.mod_pos_bound i 64). lia.
Qed.

Lemma entry_lookup a i :
  0 <= i < 64 * Z.of_nat (length (bitmap a)) ->
  exists w, bitmap a !! Z.to_nat (BITMAP_ENTRY i) = Some w.
Proof.
  intros. apply lookup_lt_is_Some_2. pose proof (entry_offset i). unfold BITMAP_ENTRY, BIT_PER_LONG in *.
  pose proof (Z.div_pos i 64). lia.
Qed.

Lemma elem_free_set a i : i ∈ free_set a <-> 0 <= i < total_pages a /\ used a i = false.
Proof.
  unfold free_set. rewrite elem_of_list_to_set, list_elem_of_filter, elem_of_seqZ.
  rewrite Z.add_0_l. tauto.
Qed.

Lemma test_bit_ok a i Q :
  0 <= i < 64 * Z.of_nat (length (bitmap a)) ->
  Q (Z.b2z (used a i)) a -> wp (test_bit i) Q a.
Proof.
  intros Hi HQ. destruct (entry_lookup a i Hi) as [w Hw].
  unfold test_bit, bitmap_word. wp_steps. pose proof (entry_offset i).
  rewrite land_shiftr_1 by lia. unfold used in HQ. by rewrite Hw in HQ.
Qed.

(** Rewriting one word at bit [i] by a function that only touches that bit. *)
Lemma used_update a i j w w' b :
  0 <= i -> 0 <= j -> bitmap a !! Z.to_nat (BITMAP_ENTRY i) = Some w ->
  (forall k, 0 <= k < 64 -> Z.testbit w' k = if k =? BITMAP_OFFSET i then b else Z.testbit w k) ->
  used (set_bitmap (<[Z.to_nat (BITMAP_ENTRY i) := w']> (bitmap a)) a) j
  = if j =? i then b else used a j.
Proof.
  intros Hi Hj Hw Hbit. unfold used; simpl.
  destruct (entry_offset i Hi) as [Ei Oi]. destruct (entry_offset j Hj) as [Ej Oj].
  assert (0 <= BITMAP_ENTRY i) by (unfold BITMAP_ENTRY, BIT_PER_LONG; apply Z.div_pos; lia).
  assert (0 <= BITMAP_ENTRY j) by (unfold BITMAP_ENTRY, BIT_PER_LONG; apply Z.div_pos; lia).
  destruct (decide (BITMAP_ENTRY i = BITMAP_ENTRY j)) as [E|E].
  - rewrite E, list_lookup_insert_eq by (rewrite <- E; by eapply lookup_lt_Some).
    rewrite Hbit by done. rewrite <- E, Hw.
    destruct (Z.eqb_spec (BITMAP_OFFSET j) (BITMAP_OFFSET i)), (Z.eqb_spec j i); try done; lia.
  - rewrite list_lookup_insert_ne by lia.
    destruct (Z.eqb_spec j i) as [->|]; [done|]. done.
Qed.

Lemma same_frame_update a i w :
  Forall is_u64 (bitmap a) -> is_u64 w ->
  same_frame a (set_bitmap (<[i := w]> (bitmap a)) a).
Proof.
  intros. unfold same_frame; simpl. rewrite length_insert. repeat split; try done.
  by apply Forall_insert.
Qed.

Lemma same_frame_trans a b c : same_frame a b -> same_frame b c -> same_frame a c.
Proof. unfold same_frame. intros (?&?&?&?&?&?) (?&?&?&?&?&?). repeat split; congruence. Qed.

Lemma set_bit_ok a i :
  0 <= i < 64 * Z.of_nat (length (bitmap a)) -> Forall is_u64 (bitmap a) ->
  wp (set_bit i) (fun _ a' => same_frame a a' /\
    forall j, 0 <= j -> used a' j = if j =? i then true else used a j) a.
Proof.
  intros Hi Hws. destruct (entry_lookup a i Hi) as [w Hw].
  unfold set_bit, bitmap_word. wp_steps. destruct (entry_offset i) as [_ Ho]; [lia|].
  assert (is_u64 w) by (eapply Forall_lookup_1; eauto). split.
  - apply same_frame_update; [done|]. apply lor_bound; [lia|done|apply u64_range].
  - intros j Hj. eapply used_update; [lia|done..|]. intros k Hk.
    rewrite Z.lor_spec, testbit_u64, shiftl_1, testbit_pow2 by lia.
    destruct (Z.ltb_spec k 64); [|lia]. simpl.
    destruct (k =? _); [apply orb_true_r|apply orb_false_r].
Qed.

Lemma clear_bit_ok a i :
  0 <= i < 64 * Z.of_nat (length (bitmap a)) -> Forall is_u64 (bitmap a) ->
  wp (clear_bit i) (fun _ a' => same_frame a a' /\
    forall j, 0 <= j -> used a' j = if j =? i then false else used a j) a.
Proof.
  intros Hi Hws. destruct (entry_lookup a i Hi) as [w Hw].
  unfold clear_bit, bitmap_word. wp_steps. destruct (entry_offset i) as [_ Ho]; [lia|].
  assert (is_u64 w) by (eapply Forall_lookup_1; eauto). split.
  - apply same_frame_update; [done|]. apply land_bound_l; [lia|done].
  - intros j Hj. eapply used_update; [lia|done..|]. intros k Hk.
    rewrite Z.land_spec, testbit_notw, testbit_u64, shiftl_1, testbit_pow2 by lia.
    destruct (Z.ltb_spec k 64); [|lia]. simpl.
    destruct (k =? _); [apply andb_false_r|apply andb_true_r].
Qed.

(** Frames [lo .. hi-1]. *)
Definition within (lo hi i : Z) : bool := (lo <=? i) && (i <? hi).

(** Both marking loops, once: [op] changes exactly bit [i] to [b]. *)
Lemma mark_range (op : Z -> M page_allocator unit) (b : bool) a lo hi :
  (forall a' i, 0 <= i < 64 * Z.of_nat (length (bitmap a')) -> Forall is_u64 (bitmap a') ->
     wp (op i) (fun _ a'' => same_frame a' a'' /\
       forall j, 0 <= j -> used a'' j = if j =? i then b else used a' j) a') ->
  0 <= lo <= hi -> hi <= 64 * Z.of_nat (length (bitmap a)) -> Forall is_u64 (bitmap a) ->
  wp (for_range lo hi op) (fun _ a' => same_frame a a' /\
    forall j, 0 <= j -> used a' j = if within lo hi j then b else used a j) a.
Proof.
  intros Hop Hlo Hhi Hws.
  apply (wp_for_range (fun i a' => same_frame a a' /\
    forall j, 0 <= j -> used a' j = if within lo i j then b else used a j)); [lia| |].
  - split; [by unfold same_frame|]. intros j Hj. unfold within.
    destruct (Z.leb_spec lo j), (Z.ltb_spec j lo); try done; lia.
  - intros i a' Hi [Hf Hu]. destruct Hf as (? & ? & ? & ? & Hlen & Hw) eqn:EF.
    eapply wp_mono; [|apply Hop; [rewrite Hlen; lia|done]].
    intros _ a'' [Hf' Hu']. split; [by eapply same_frame_trans|].
    intros j Hj. rewrite Hu', Hu by done. unfold within.
    destruct (Z.eqb_spec j i), (Z.leb_spec lo j), (Z.ltb_spec j i), (Z.ltb_spec j (i + 1)); try done; lia.
Qed.

(** * The search *)

Definition all_free (a : page_allocator) (s nr : Z) : Prop :=
  forall j, s <= j < s + nr -> used a j = false.

(** What the locals mean before page [i] of a scan that began at [lo]: the last
    [cnt] pages are free, [start] is the first of them, the page before them is
    not free (or is not part of the scan), and no run of [nr] was passed. *)
Record scan_inv (a : page_allocator) (lo i start cnt nr : Z) : Prop := {
  si_cnt : 0 <= cnt < nr;
  si_lo : lo <= i - cnt;
  si_start : 0 < cnt -> start = i - cnt;
  si_free : all_free a (i - cnt) cnt;
  si_max : i - cnt = lo \/ used a (i - cnt - 1) = true;
  si_none : forall s, lo <= s -> s + nr <= i -> ~ all_free a s nr
}.

Lemma scan_ok a lo n i start cnt nr :
  0 <= lo -> i + Z.of_nat n <= 64 * Z.of_nat (length (bitmap a)) -> nr < 2 ^ 52 ->
  scan_inv a lo i start cnt nr ->
  wp (scan n i start cnt nr) (fun r a' => a' = a /\
    match fst r with
    | Some s => lo <= s /\ s + nr <= i + Z.of_nat n /\ all_free a s nr
    | None => scan_inv a lo (i + Z.of_nat n) (fst (snd r)) (snd (snd r)) nr
    end) a.
Proof.
  intros Hlo. revert i start cnt. induction n as [|n IH]; intros i start cnt Hlen Hnr Hinv; simpl scan.
  - wp_steps. split; [done|]. simpl. by rewrite Z.add_0_r.
  - pose proof Hinv as [H1 H2 H3 H4 H5 H6]. rewrite wp_bind. apply test_bit_ok; [lia|].
    destruct (used a i) eqn:Ei; simpl Z.b2z; simpl Z.eqb; cbn iota.
    + replace (i + Z.of_nat (S n)) with (i + 1 + Z.of_nat n) by lia. apply IH; [lia|done|].
      split; [lia..| | |].
      * intros j ?. lia.
      * right. by replace (i + 1 - 0 - 1) with i by lia.
      * intros s Hs Hsn Hf. destruct (decide (s + nr <= i)); [by eapply H6|].
        rewrite Hf in Ei by lia. done.
    + rewrite (u64_small (cnt + 1)) by (unfold is_u64; lia).
      set (start' := if cnt =? 0 then i else start).
      assert (start' = i - cnt) as Hs'.
      { unfold start'. destruct (Z.eqb_spec cnt 0); [lia|apply H3; lia]. }
      assert (all_free a (i - cnt) (cnt + 1)) as Hf.
      { intros j Hj. destruct (decide (j = i)) as [->|]; [done|apply H4; lia]. }
      destruct (Z.leb_spec nr (cnt + 1)).
      * wp_steps. split; [done|]. simpl. assert (cnt + 1 = nr) by lia. subst nr.
        rewrite Hs'. split; [lia|]. split; [lia|done].
      * replace (i + Z.of_nat (S n)) with (i + 1 + Z.of_nat n) by lia. apply IH; [lia|done|].
        split; [lia..| | |].
        -- by replace (i + 1 - (cnt + 1)) with (i - cnt) by lia.
        -- replace (i + 1 - (cnt + 1)) with (i - cnt) by lia. done.
        -- intros s Hs Hsn Hf'. destruct (decide (s + nr <= i)); [by eapply H6|].
           destruct H5 as [H5|H5]; [lia|]. rewrite Hf' in H5 by lia. done.
Qed.

(** A run found or skipped by the first loop cannot continue past the end. *)
Definition no_carry (a : page_allocator) (nr : Z) : Prop :=
  nr = 1 \/ last_alloc a = 0 \/ last_alloc a = total_pages a \/ used a (total_pages a - 1) = true.

Lemma find_free_range_ok a nr :
  wf_core a -> 0 < nr <= total_pages a -> no_carry a nr ->
  wp (find_free_range nr) (fun s a' => a' = a /\
    ((0 <= s /\ s + nr <= total_pages a /\ all_free a s nr)
     \/ (s = NO_PAGE /\ (nr = 1 -> free_set a = ∅)))) a.
Proof.
  intros [H1 H2 H3 H4 H5] Hnr Hc. unfold find_free_range. rewrite wp_bind, wp_get.
  rewrite wp_bind. eapply wp_mono; [|apply (scan_ok a (last_alloc a)); [lia..|]].
  2:{ split; [lia..| | |]; [intros j ?; lia|left; lia|intros; lia]. }
  intros [[s|] [st c]] a' [-> Hr]; simpl in Hr; cbn [fst snd].
  { wp_steps. split; [done|]. left. split; [lia|]. split; [lia|tauto]. }
  rewrite Z2Nat.id in Hr by lia. replace (last_alloc a + (total_pages a - last_alloc a)) with (total_pages a) in Hr by lia.
  assert (c = 0 \/ last_alloc a = 0) as Hc0.
  { destruct Hr as [R1 R2 _ R4 _ R6].
    destruct Hc as [->|[Hc|[Hc|Hc]]]; [lia|lia|lia|].
    destruct (decide (c = 0)); [by left|]. rewrite R4 in Hc by lia. done. }
  rewrite wp_bind. destruct (decide (last_alloc a = 0)) as [L0|L0].
  - rewrite L0 in *. simpl scan. wp_steps. simpl. split; [done|]. right. split; [done|].
    intros ->. apply set_eq. intros i. rewrite elem_free_set. split; [|set_solver].
    intros [Hi Hu]. exfalso. eapply (si_none _ _ _ _ _ _ Hr i); [lia..|].
    intros j Hj. by replace j with i by lia.
  - assert (c = 0) as -> by lia.
    eapply wp_mono; [|apply (scan_ok a 0); [lia..|]].
    2:{ split; [lia..| | |]; [intros j ?; lia|left; lia|intros; lia]. }
    intros [[s|] [st' c']] a' [-> Hr2]; simpl in Hr2; cbn [fst snd]; wp_steps; (split; [done|]).
    { left. rewrite Z2Nat.id in Hr2 by lia. destruct Hr2 as (?&?&?). repeat split; [lia..|done]. }
    right. split; [done|]. intros ->. rewrite Z2Nat.id in Hr2 by lia.
    apply set_eq. intros i. rewrite elem_free_set. split; [|set_solver]. intros [Hi Hu].
    exfalso. assert (Haf : all_free a i 1) by (intros j Hj; by replace j with i by lia).
    destruct (decide (i < last_alloc a)).
    + eapply (si_none _ _ _ _ _ _ Hr2 i); [lia..|done].
    + eapply (si_none _ _ _ _ _ _ Hr i); [lia..|done].
Qed.

(** * The operations against the set of free frames *)

(** The frames [s .. s+nr-1]. *)
Definition frames (s nr : Z) : gset Z := list_to_set (seqZ s nr).

Lemma elem_frames s nr i : i ∈ frames s nr <-> s <= i < s + nr.
Proof. unfold frames. rewrite elem_of_list_to_set, elem_of_seqZ. done. Qed.

(** The address of frame [i]. *)
Definition frame_addr (a : page_allocator) (i : Z) : Z := (base_pfn a + i) * 4096.

Lemma pfn_to_phy_frame a i :
  wf_core a -> 0 <= i < total_pages a -> pfn_to_phy (u64 (base_pfn a + i)) = frame_addr a i.
Proof.
  intros [? ? ? [? ?] ?] Hi. rewrite (u64_small (base_pfn a + i)) by (unfold is_u64; lia).
  unfold pfn_to_phy, PAGE_SHIFT, frame_addr. rewrite Z.shiftl_mul_pow2 by lia.
  rewrite u64_small; [done|]. unfold is_u64. lia.
Qed.

Lemma phy_to_pfn_frame a i r :
  wf_core a -> 0 <= i < total_pages a -> 0 <= r < 4096 -> phy_to_pfn (frame_addr a i + r) = base_pfn a + i.
Proof.
  intros [? ? ? [? ?] ?] Hi Hr. unfold phy_to_pfn, PAGE_SHIFT, frame_addr.
  rewrite Z.shiftr_div_pow2 by lia. symmetry. apply (Z.div_unique _ _ _ r); lia.
Qed.

Lemma frame_addr_ne_NO_PAGE a i : wf_core a -> 0 <= i < total_pages a -> frame_addr a i <> NO_PAGE.
Proof.
  intros [? ? ? [? ?] ?] Hi. unfold frame_addr, NO_PAGE, u64. change ((-1) mod 2 ^ 64) with (2 ^ 64 - 1). lia.
Qed.

(** Put together a well-formed state after a marking loop. *)
Lemma wf_marked a a' l last :
  wf_core a -> same_frame (set_lock l a) a' -> 0 <= last <= total_pages a ->
  forall l', Seq.unlocked l' -> wf (set_lock l' (set_last_alloc last a')).
Proof.
  intros [? ? ? [? ?] ?] (E1 & E2 & E3 & E4 & E5 & E6) ? l' ?. simpl in *.
  split; [|done]. split; simpl; rewrite ?E1, ?E2, ?E5; auto; lia.
Qed.

(** A successful or failed allocation, as seen by the caller. *)
Definition alloc_post (a : page_allocator) (nr r : Z) (a' : page_allocator) : Prop :=
  wf a' /\ total_pages a' = total_pages a /\ base_pfn a' = base_pfn a /\
  ((r = NO_PAGE /\ free_set a' = free_set a /\ (nr = 1 -> free_set a = ∅))
   \/ (exists s, r = frame_addr a s /\ frames s nr ⊆ free_set a /\
         free_set a' = free_set a ∖ frames s nr)).

Lemma alloc_pages_ok a nr :
  wf a -> 0 < nr -> no_carry a nr -> wp (alloc_pages nr) (alloc_post a nr) a.
Proof.
  intros [Hwf Hlk] Hnr Hc. pose proof Hwf as [W1 W2 W3 [W4 W4'] W5].
  unfold alloc_pages. do 2 wp_step.
  destruct ((nr =? 0) || (total_pages a <? nr)) eqn:Eg.
  { wp_steps. split_and!; try done. left. repeat split; try done. intros ->. exfalso.
    apply orb_true_iff in Eg as [?|?]; bool_to_Z; lia. }
  bool_to_Z. do 2 wp_step. eapply wp_mono; [|by apply Seq.spin_lock_ok].
  intros ? l Hl. simpl. rewrite wp_bind.
  eapply wp_mono; [|apply (find_free_range_ok (set_lock l a) nr); [by destruct Hwf|simpl; lia|done]].
  intros s a' [-> [(Hs & Hsn & Hf)|[-> He]]].
  - simpl in Hsn. rewrite (u64_small (s + nr)) by (unfold is_u64; lia).
    assert (s <> NO_PAGE) as Hne%Z.eqb_neq.
    { unfold NO_PAGE, u64. change ((-1) mod 2 ^ 64) with (2 ^ 64 - 1). lia. }
    rewrite Hne. rewrite wp_bind.
    eapply wp_mono; [|apply (mark_range set_bit true); [apply set_bit_ok|simpl; lia..|done]].
    intros ? a' [Hsf Hu]. do 4 wp_step. pose proof Hsf as (E1 & E2 & E3 & E4 & E5 & E6).
    simpl in *. rewrite E4. eapply wp_mono; [|by apply Seq.spin_unlock_ok].
    intros ? l' Hl'. wp_steps. simpl. rewrite E2, (pfn_to_phy_frame a) by (done || lia).
    split_and!; [by eapply wf_marked; eauto; lia|done..|]. right. exists s. split; [done|].
    split.
    + intros i. rewrite elem_frames, elem_free_set. intros Hi. split; [lia|by apply Hf].
    + apply set_eq. intros i. rewrite elem_of_difference, !elem_free_set, elem_frames. simpl. rewrite E1.
      change (used (set_lock l' (set_last_alloc (s + nr) a')) i) with (used a' i).
      destruct (decide (0 <= i)); [|lia]. rewrite Hu by done. unfold within.
      destruct (Z.leb_spec s i), (Z.ltb_spec i (s + nr)); simpl; naive_solver lia.
  - rewrite Z.eqb_refl. do 2 wp_step. simpl. eapply wp_mono; [|by apply Seq.spin_unlock_ok].
    intros ? l' Hl'. wp_steps. split_and!; [split; [by destruct Hwf|done]|done..|].
    left. split; [done|]. split; [done|]. intros ->. by apply He.
Qed.

Lemma frames_1 s : frames s 1 = {[s]}.
Proof. apply set_eq. intros i. rewrite elem_frames, elem_of_singleton. lia. Qed.

(** While a frame is free, [alloc_page] takes one. *)
Lemma alloc_page_frame a :
  wf a -> free_set a <> ∅ ->
  wp alloc_page (fun r a' => exists f, f ∈ free_set a /\ r = frame_addr a f /\ wf a' /\
    total_pages a' = total_pages a /\ base_pfn a' = base_pfn a /\
    free_set a' = free_set a ∖ {[f]}) a.
Proof.
  intros Hwf Hne. eapply wp_mono; [|apply (alloc_pages_ok a 1 Hwf); [lia|by left]].
  intros r a' (W & E1 & E2 & [(_ & _ & He)|(f & -> & Hsub & Ef)]); [by rewrite He in Hne|].
  rewrite frames_1 in *. exists f. set_solver.
Qed.

Lemma free_pages_ok a i r nr :
  wf a -> 0 <= i -> 0 <= r < 4096 -> 0 < nr -> i + nr <= total_pages a ->
  wp (free_pages (frame_addr a i + r) nr) (fun v a' => v = 0 /\ wf a' /\
    total_pages a' = total_pages a /\ base_pfn a' = base_pfn a /\
    free_set a' = free_set a ∪ frames i nr) a.
Proof.
  intros [Hwf Hlk] Hi Hr Hnr Hin. pose proof Hwf as [W1 W2 W3 [W4 W4'] W5].
  unfold free_pages. rewrite (phy_to_pfn_frame a i r Hwf) by lia. do 4 wp_step.
  destruct ((base_pfn a + i <? base_pfn a) || (nr =? 0)) eqn:Eg.
  { exfalso. apply orb_true_iff in Eg as [?|?]; bool_to_Z; lia. }
  replace (u64 (base_pfn a + i - base_pfn a)) with i by (rewrite u64_small; unfold is_u64; lia).
  rewrite (u64_small (i + nr)) by (unfold is_u64; lia).
  destruct (Z.ltb_spec (total_pages a) (i + nr)); [lia|]. do 2 wp_step.
  eapply wp_mono; [|by apply Seq.spin_lock_ok]. intros ? l Hl. simpl. rewrite wp_bind.
  eapply wp_mono; [|apply (mark_range clear_bit false); [apply clear_bit_ok|simpl; lia..|done]].
  intros ? a' [Hsf Hu]. pose proof Hsf as (E1 & E2 & E3 & E4 & E5 & E6). simpl in *.
  do 3 wp_step. rewrite E3.
  assert (exists last, 0 <= last <= total_pages a /\
    (if i <? last_alloc a then modify (set_last_alloc i) else ret tt) a' = Ok tt (set_last_alloc last a')) as (last & Hlast & Eif).
  { destruct (i <? last_alloc a).
    - exists i. split; [lia|done].
    - exists (last_alloc a). split; [lia|]. unfold ret. f_equal. unfold set_last_alloc.
      rewrite <- E3. by destruct a'. }
  unfold wp at 1. rewrite Eif. do 2 wp_step. simpl. rewrite E4.
  eapply wp_mono; [|by apply Seq.spin_unlock_ok]. intros ? l' Hl'. wp_steps.
  split; [done|]. split; [by eapply wf_marked; eauto|]. split; [done|]. split; [done|].
  apply set_eq. intros j. rewrite elem_of_union, !elem_free_set, elem_frames. simpl. rewrite E1.
  change (used (set_lock l' (set_last_alloc last a')) j) with (used a' j).
  destruct (decide (0 <= j)); [|naive_solver lia]. rewrite Hu by done. unfold within.
  change (used (set_lock l a) j) with (used a j).
  destruct (Z.leb_spec i j), (Z.ltb_spec j (i + nr)); simpl; naive_solver lia.
Qed.

(** * Initialisation *)

Lemma zero_bytes_lookup n ws k w :
  ws !! k = Some w ->
  zero_bytes n ws !! k =
    Some (let s := 8 * Z.min 8 (Z.max 0 (n - 8 * Z.of_nat k)) in Z.shiftl (Z.shiftr w s) s).
Proof.
  revert n k. induction ws as [|w0 ws IH]; intros n k Hk; [done|]. destruct k as [|k]; simpl in *.
  - simplify_eq. by rewrite Z.sub_0_r.
  - rewrite (IH (n - 8) k Hk). replace (n - 8 - 8 * Z.of_nat k) with (n - 8 * Z.of_nat (S k)) by lia. done.
Qed.

Lemma zero_bytes_length n ws : length (zero_bytes n ws) = length ws.
Proof. revert n. induction ws; intros; simpl; auto. Qed.

Lemma testbit_shiftr_shiftl w s j :
  0 <= s -> 0 <= j -> Z.testbit (Z.shiftl (Z.shiftr w s) s) j = (s <=? j) && Z.testbit w j.
Proof.
  intros. rewrite Z.shiftl_spec by done. destruct (Z.leb_spec s j).
  - rewrite Z.shiftr_spec by lia. simpl. f_equal. lia.
  - by rewrite Z.testbit_neg_r by lia.
Qed.

Lemma zero_bytes_words n ws : Forall is_u64 ws -> Forall is_u64 (zero_bytes n ws).
Proof.
  intros H. revert n. induction H as [|w ws Hw Hws IH]; intros n; simpl; constructor; [|apply IH].
  set (s := 8 * _). assert (0 <= s) by lia. unfold is_u64 in *. split.
  - rewrite Z.shiftl_nonneg, Z.shiftr_nonneg. lia.
  - apply bits_bound; [lia|rewrite Z.shiftl_nonneg, Z.shiftr_nonneg; lia|]. intros i Hi.
    rewrite testbit_shiftr_shiftl, (testbit_high 64 w) by lia. apply andb_false_r.
Qed.

(** Frames whose bit [page_allocator_init] clears: one byte for 64 frames. *)
Definition init_cleared (total : Z) : Z := 8 * ((total + 63) / 64).

Lemma page_allocator_init_ok a buf total phyaddr :
  0 < total <= 64 * Z.of_nat (length buf) -> Forall is_u64 buf ->
  0 <= phyaddr -> phy_to_pfn phyaddr + total < 2 ^ 52 ->
  wp (page_allocator_init (Some buf) total phyaddr) (fun v a' => v = 0 /\ wf a' /\
    total_pages a' = total /\ base_pfn a' = phy_to_pfn phyaddr /\
    forall i, 0 <= i < total ->
      used a' i = (init_cleared total <=? i) && used (set_bitmap buf a) i) a.
Proof.
  intros Ht Hb Hp Hov. unfold page_allocator_init. destruct (Z.eqb_spec total 0) as [|_]; [lia|].
  assert (0 <= phy_to_pfn phyaddr) by (apply Z.shiftr_nonneg; lia).
  unfold BIT_PER_LONG. rewrite (u64_small (total + 64 - 1)) by (unfold is_u64; lia).
  replace (total + 64 - 1) with (total + 63) by lia. set (n := (total + 63) / 64).
  assert (64 * n < total + 64 /\ 0 <= n) by (unfold n; split; [pose proof (Z.mul_div_le (total + 63) 64); lia|apply Z.div_pos; lia]).
  unfold Seq.spinlock_init. repeat (wp_step; cbn beta); [|bool_to_Z; lia]. simpl. split; [done|]. split_and!; [|done..|].
  - split; [|done]. split; simpl; [lia|rewrite zero_bytes_length; lia|by apply zero_bytes_words|lia|lia].
  - intros i Hi. unfold used; simpl. destruct (entry_offset i) as [Ei Oi]; [lia|].
    destruct (lookup_lt_is_Some_2 buf (Z.to_nat (BITMAP_ENTRY i))) as [w Hw].
    { unfold BITMAP_ENTRY, BIT_PER_LONG in *. pose proof (Z.div_pos i 64). lia. }
    rewrite (zero_bytes_lookup n _ _ _ Hw), Hw. simpl.
    rewrite testbit_shiftr_shiftl by lia. f_equal. unfold init_cleared. fold n.
    assert (0 <= BITMAP_ENTRY i) by (unfold BITMAP_ENTRY, BIT_PER_LONG; apply Z.div_pos; lia).
    rewrite Z2Nat.id by done. destruct (Z.leb_spec (8 * n) i); [apply Z.leb_le|apply Z.leb_gt]; lia.
Qed.

(** A byte count near [2^64] wraps in [start + nr_pages] and passes the check. *)
Lemma free_pages_wrapped a phyaddr nr :
  wf a -> is_u64 phyaddr -> is_u64 nr -> 0 <= phy_to_pfn phyaddr - base_pfn a ->
  2 ^ 64 <= phy_to_pfn phyaddr - base_pfn a + nr -> 
  u64 (phy_to_pfn phyaddr - base_pfn a + nr) <= total_pages a ->
  wp (free_pages phyaddr nr) (fun v a' => v = 0 /\ wf a' /\ free_set a' = free_set a) a.
Proof.
  intros [Hwf Hlk] Hp Hnr Hi Hw Ht. pose proof Hwf as [W1 W2 W3 [W4 W4'] W5]. unfold is_u64 in *.
  assert (phy_to_pfn phyaddr < 2 ^ 52).
  { unfold phy_to_pfn, PAGE_SHIFT. rewrite Z.shiftr_div_pow2 by lia. apply Z.div_lt_upper_bound; lia. }
  unfold free_pages. do 4 wp_step. set (i := phy_to_pfn phyaddr - base_pfn a) in *.
  rewrite (u64_small i) by (unfold is_u64; lia).
  destruct ((_ <? _) || _) eqn:Eg; [apply orb_true_iff in Eg as [?|?]; bool_to_Z; lia|].
  destruct (Z.ltb_spec (total_pages a) (u64 (i + nr))); [lia|]. do 2 wp_step.
  eapply wp_mono; [|by apply Seq.spin_lock_ok]. intros ? l Hl. simpl.
  replace (for_range i (u64 (i + nr)) clear_bit) with (@ret page_allocator unit tt).
  2:{ unfold for_range. replace (Z.to_nat (u64 (i + nr) - i)) with 0%nat; [done|].
      assert (u64 (i + nr) = i + nr - 2 ^ 64); [|lia].
      unfold u64. symmetry. apply (Z.mod_unique _ _ 1); lia. }
  do 4 wp_step. simpl.
  assert (forall last l', 0 <= last <= total_pages a -> Seq.unlocked l' ->
    wf (set_lock l' (set_last_alloc last (set_lock l a)))) as Hfin.
  { intros. split; [|done]. by split. }
  destruct (Z.ltb_spec i (last_alloc a)); wp_steps; simpl;
    (eapply wp_mono; [|by apply Seq.spin_unlock_ok]); intros ? l' Hl'; wp_steps.
  - split; [done|]. split; [by apply Hfin; [lia|]|done].
  - split; [done|]. split; [by apply (Hfin (last_alloc a)); [lia|]|done].
Qed.

(** * Properties *)

(** C10 [alloc_page] implements the set of free frames: on every well-formed
    allocator it returns; it hands out the address of a frame that was free and
    takes exactly that frame out of the set, or returns [-1ULL] when, and only
    when, no frame is free.  The lock is released on every path. *)
Theorem alloc_page_spec (a : page_allocator) :
  wf a ->
  wp alloc_page (fun r a' =>
    wf a' /\ total_pages a' = total_pages a /\ base_pfn a' = base_pfn a /\
    ((r = NO_PAGE /\ free_set a = ∅ /\ free_set a' = ∅)
     \/ (r <> NO_PAGE /\ exists i, i ∈ free_set a /\ r = frame_addr a i /\
           free_set a' = free_set a ∖ {[i]}))) a.
Proof.
  intros Hwf. eapply wp_mono; [|apply alloc_pages_ok; [done|lia|by left]].
  intros r a' (W & E1 & E2 & H). split_and!; [done..|].
  destruct H as [(-> & Ef & He)|(s & -> & Hsub & Ef)].
  - left. rewrite Ef, He by done. done.
  - right. assert (s ∈ free_set a) as Hs by (apply Hsub, elem_frames; lia).
    split; [apply frame_addr_ne_NO_PAGE; [apply Hwf|apply elem_free_set in Hs; tauto]|].
    exists s. by rewrite Ef, frames_1.
Qed.

(** The allocator of a machine with 128 frames, before the first allocation. *)
Definition example_allocator : page_allocator :=
  mkPA (mkSpinlock 0 0) [0; 0] 128 0x40122 0.

Lemma example_wf : wf example_allocator.
Proof.
  split; [|split; [done|unfold is_u32; simpl; lia]].
  split; simpl; try lia. repeat constructor; simpl; lia.
Qed.

Lemma alloc_page_spec_witness :
  wf example_allocator /\
  wp alloc_page (fun r a' => r = 0x40122000 /\ free_set a' = free_set example_allocator ∖ {[0]}) example_allocator.
Proof.
  split; [apply example_wf|]. pose proof (alloc_page_spec example_allocator example_wf) as H.
  unfold wp in *. destruct (alloc_page example_allocator) as [r a'| | |] eqn:E; try done.
  assert (r = 0x40122000) as -> by (vm_compute in E; congruence).
  split; [done|]. destruct H as (_ & _ & _ & [[? _]|(_ & i & Hi & Ha & ->)]); [done|].
  unfold frame_addr, example_allocator in Ha. simpl in Ha. by replace i with 0 by lia.
Defined.

(** A request for several contiguous frames is served soundly whenever the
    search cannot carry a run over the end of the bitmap ([no_carry]): the
    frames handed out exist, were all free, and exactly they leave the set. *)
Theorem alloc_pages_spec (a : page_allocator) (nr : Z) :
  wf a -> 0 < nr -> no_carry a nr -> wp (alloc_pages nr) (alloc_post a nr) a.
Proof. apply alloc_pages_ok. Qed.

Lemma alloc_pages_spec_witness :
  wf example_allocator /\ no_carry example_allocator 5 /\
  wp (alloc_pages 5) (alloc_post example_allocator 5) example_allocator.
Proof.
  split; [apply example_wf|]. split; [right; left; reflexivity|].
  apply (alloc_pages_spec example_allocator 5); [apply example_wf|lia|right; left; reflexivity].
Defined.

(** The search does carry a run over the end: with the last two and the first
    two of 64 frames free, a request for four frames is answered with frame 62,
    whose run would need the frames 64 and 65 that do not exist, and the bits of
    those frames are set past the frames of the bitmap. *)
Theorem alloc_pages_wraps_past_end :
  let a := mkPA (mkSpinlock 0 0) [0x3ffffffffffffffc; 0] 64 0 62 in
  free_set a = {[0; 1; 62; 63]} /\
  wp (alloc_pages 4) (fun r a' =>
    r = frame_addr a 62 /\ last_alloc a' = 66 /\ total_pages a' = 64 /\
    bitmap a' = [0xfffffffffffffffc; 3] /\ free_set a' = {[0; 1]}) a.
Proof.
  simpl. split; [apply set_eq; intros i; vm_compute free_set; set_solver|].
  unfold wp. destruct (alloc_pages 4 _) as [r a'| | |] eqn:E; vm_compute in E; try done.
  injection E as <- <-. simpl. split_and!; done.
Qed.

(** [free_pages] on every 64-bit argument: it returns without touching memory
    outside the bitmap and keeps the allocator well-formed.  It rejects, with no
    effect, a range that starts below the first frame, is empty, or ends past the
    last frame; it frees exactly the requested frames otherwise.  The sum
    [start + nr_pages] may wrap, in which case nothing is freed although the
    call reports success. *)
Theorem free_pages_spec (a : page_allocator) (phyaddr nr : Z) :
  wf a -> is_u64 phyaddr -> is_u64 nr ->
  let i := phy_to_pfn phyaddr - base_pfn a in
  wp (free_pages phyaddr nr) (fun v a' => wf a' /\
    ((v = -1 /\ a' = a /\ (i < 0 \/ nr = 0 \/ total_pages a < u64 (i + nr)))
     \/ (v = 0 /\ 0 <= i /\ 0 < nr /\ i + nr <= total_pages a /\ free_set a' = free_set a ∪ frames i nr)
     \/ (v = 0 /\ 2 ^ 64 <= i + nr /\ free_set a' = free_set a))) a.
Proof.
  intros Hwf Hp Hnr i. pose proof Hwf as [[W1 W2 W3 [W4 W4'] W5] _]. unfold is_u64 in *.
  destruct (decide (i < 0 \/ nr = 0 \/ total_pages a < u64 (i + nr))) as [Hbad|Hgood].
  - unfold free_pages. do 4 wp_step. destruct ((_ <? _) || _) eqn:Eg; [wp_steps; auto 6|].
    apply orb_false_elim in Eg as [E1 E2]. bool_to_Z.
    assert (phy_to_pfn phyaddr < 2 ^ 52).
    { unfold phy_to_pfn, PAGE_SHIFT. rewrite Z.shiftr_div_pow2 by lia. apply Z.div_lt_upper_bound; lia. }
    fold i. rewrite (u64_small i) by (unfold is_u64; lia).
    destruct (Z.ltb_spec (total_pages a) (u64 (i + nr))); [wp_steps; auto 6|].
    subst i. lia.
  - destruct (decide (2 ^ 64 <= i + nr)).
    + eapply wp_mono; [|apply free_pages_wrapped; [done..|subst i; lia|done|subst i; lia]].
      intros v a' (-> & ? & ?). auto 6.
    + rewrite (u64_small (i + nr)) in Hgood by (unfold is_u64; lia).
      assert (phyaddr = frame_addr a i + phyaddr mod 4096) as E.
      { unfold frame_addr, i, phy_to_pfn, PAGE_SHIFT. rewrite Z.shiftr_div_pow2 by lia.
        change (2 ^ 12) with 4096. pose proof (Z.div_mod phyaddr 4096). lia. }
      rewrite E. eapply wp_mono; [|apply free_pages_ok; [done|lia|apply Z.mod_pos_bound; lia|lia|lia]].
      intros v a' (-> & ? & _ & _ & ->). split; [done|]. right. left. split_and!; [lia..|done].
Qed.

Lemma free_pages_spec_witness :
  wp (free_pages 0x40132000 4) (fun v a' => v = 0) example_allocator /\
  wp (free_pages 0x40132000 (2 ^ 64 - 1)) (fun v a' => v = 0 /\ free_set a' = free_set example_allocator) example_allocator.
Proof.
  split.
  - pose proof (free_pages_spec example_allocator 0x40132000 4 example_wf) as H.
    eapply wp_mono; [|apply H; unfold is_u64; lia]. vm_compute phy_to_pfn. simpl.
    intros v a' (_ & [(_ & _ & H')|[[? _]|[? _]]]); try done. vm_compute in H'. naive_solver.
  - pose proof (free_pages_spec example_allocator 0x40132000 (2 ^ 64 - 1) example_wf) as H.
    eapply wp_mono; [|apply H; unfold is_u64; lia]. simpl.
    intros v a' (_ & [(_ & _ & H')|[(_ & _ & _ & H' & _)|(? & _ & ?)]]); try done.
    vm_compute in H'. naive_solver.
Defined.

(** Round trip: as long as a frame is free, [alloc_page] followed by
    [free_page] of its result restores the set of free frames. *)
Theorem alloc_free_roundtrip (a : page_allocator) :
  wf a -> free_set a <> ∅ ->
  wp (let! r := alloc_page in free_page r)
     (fun v a' => v = 0 /\ wf a' /\ free_set a' = free_set a) a.
Proof.
  intros Hwf Hne. rewrite wp_bind. eapply wp_mono; [|apply alloc_pages_ok; [done|lia|by left]].
  intros r a1 (W & E1 & E2 & [(_ & _ & He)|(s & -> & Hsub & Ef)]); [by rewrite He in Hne|].
  assert (s ∈ free_set a) as [Hs _]%elem_free_set by (apply Hsub, elem_frames; lia).
  assert (frame_addr a s = frame_addr a1 s + 0) as -> by (unfold frame_addr; rewrite E2; lia).
  unfold free_page.
  pose proof (free_pages_ok a1 s 0 1 W ltac:(lia) ltac:(lia) ltac:(lia) ltac:(lia)) as Hfree.
  revert Hfree. apply wp_mono. intros v a2 (-> & W2 & _ & _ & Ef2). split_and!; [done..|]. rewrite Ef2, Ef.
  apply set_eq. intros i. specialize (Hsub i). rewrite elem_of_union, elem_of_difference.
  destruct (decide (i ∈ frames s 1)); tauto.
Qed.

Lemma alloc_free_roundtrip_witness :
  wp (let! r := alloc_page in free_page r)
     (fun v a' => v = 0 /\ wf a' /\ free_set a' = free_set example_allocator) example_allocator.
Proof.
  apply (alloc_free_roundtrip example_allocator example_wf). intros E.
  assert (0 ∈ free_set example_allocator) as H by (apply elem_free_set; split; [simpl; lia|reflexivity]).
  rewrite E in H. by apply not_elem_of_empty in H.
Defined.

(** [page_allocator_init] leaves a well-formed, unlocked allocator, in which
    the bits of only the first [8 * ceil(total / 64)] frames have been cleared:
    [memset] is given the number of bitmap words as a number of bytes.  The
    other frames keep whatever the buffer held, so that all frames are free
    exactly when the rest of the buffer was clear before. *)
Theorem page_allocator_init_spec (a : page_allocator) (buf : list Z) (total phyaddr : Z) :
  0 < total <= 64 * Z.of_nat (length buf) -> Forall is_u64 buf ->
  0 <= phyaddr -> phy_to_pfn phyaddr + total < 2 ^ 52 ->
  wp (page_allocator_init (Some buf) total phyaddr) (fun v a' => v = 0 /\ wf a' /\
    total_pages a' = total /\ base_pfn a' = phy_to_pfn phyaddr /\
    forall i, 0 <= i < total ->
      used a' i = (init_cleared total <=? i) && used (set_bitmap buf a) i) a.
Proof. apply page_allocator_init_ok. Qed.

Lemma page_allocator_init_spec_witness :
  wp (page_allocator_init (Some [2 ^ 64 - 1; 2 ^ 64 - 1]) 128 0x40122000)
     (fun v a' => v = 0 /\ used a' 15 = false /\ used a' 16 = true) example_allocator.
Proof.
  eapply wp_mono; [|apply (page_allocator_init_spec example_allocator [2 ^ 64 - 1; 2 ^ 64 - 1] 128 0x40122000)].
  - intros v a' (-> & _ & _ & _ & H). split; [done|]. rewrite !H by lia. split; reflexivity.
  - simpl. lia.
  - repeat constructor; simpl; lia.
  - lia.
  - vm_compute. reflexivity.
Defined.
