(* ===== verification/Mem.v ===== *)
(** Physical memory, and the memory and string routines of src/src/lib.c.

    The hypervisor runs at EL2 with its own address translation off: a pointer
    is a physical address.  RAM is the range [ram_lo, ram_hi); an access
    outside it is a fault.  A byte that was never written reads as 0, which is
    one of the values uninitialised RAM can have: [cells] may hold anything. *)
From stdpp Require Import base gmap list numbers tactics.
From S2P Require Import Prelude.

Record memory := mkMem { ram_lo : Z; ram_hi : Z; cells : gmap Z Z }.

Definition peek (m : memory) (a : Z) : Z := u8 (default 0 (cells m !! a)).
Definition poke (a v : Z) (m : memory) : memory :=
  mkMem (ram_lo m) (ram_hi m) (<[a := u8 v]> (cells m)).

(** [n] bytes at [a], little-endian. *)
Fixpoint rd (n : nat) (m : memory) (a : Z) : Z :=
  match n with
  | O => 0
  | S n' => peek m a + 2 ^ 8 * rd n' m (a + 1)
  end.
Fixpoint wr (n : nat) (a v : Z) (m : memory) : memory :=
  match n with
  | O => m
  | S n' => wr n' (a + 1) (v / 2 ^ 8) (poke a v m)
  end.

Definition in_ram (m : memory) (a n : Z) : bool := (ram_lo m <=? a) && (a + n <=? ram_hi m).

Definition load (n : nat) (a : Z) : M memory Z :=
  let! m := get in
  if in_ram m a (Z.of_nat n) then ret (rd n m a) else fault.
Definition store (n : nat) (a v : Z) : M memory unit :=
  let! m := get in
  if in_ram m a (Z.of_nat n) then put (wr n a v m) else fault.

Notation load8 := (load 1).
Notation load16 := (load 2).
Notation load32 := (load 4).
Notation load64 := (load 8).
Notation store8 := (store 1).
Notation store16 := (store 2).
Notation store32 := (store 4).
Notation store64 := (store 8).

(** * Reading after writing *)

Lemma peek_range m a : 0 <= peek m a < 256.
Proof. apply (u8_range (default 0 (cells m !! a))). Qed.

Lemma peek_poke a v m b : peek (poke a v m) b = if b =? a then u8 v else peek m b.
Proof.
  unfold peek, poke; simpl. destruct (Z.eqb_spec b a) as [->|].
  - rewrite lookup_insert_eq. simpl. apply u8_small, u8_range.
  - by rewrite lookup_insert_ne by done.
Qed.

Lemma wr_bounds n a v m : ram_lo (wr n a v m) = ram_lo m /\ ram_hi (wr n a v m) = ram_hi m.
Proof. revert a v m. induction n as [|n IH]; intros; simpl; [done|]. by destruct (IH (a + 1) (v / 2 ^ 8) (poke a v m)) as [-> ->]. Qed.

Lemma in_ram_wr n a v m b k : in_ram (wr n a v m) b k = in_ram m b k.
Proof. unfold in_ram. by destruct (wr_bounds n a v m) as [-> ->]. Qed.

Lemma peek_wr_other n a v m b : b < a \/ a + Z.of_nat n <= b -> peek (wr n a v m) b = peek m b.
Proof.
  revert a v m. induction n as [|n IH]; intros a v m Hb; simpl; [done|].
  rewrite IH by lia. rewrite peek_poke. destruct (Z.eqb_spec b a); [lia|done].
Qed.

Lemma rd_range n m a : 0 <= rd n m a < 2 ^ (8 * Z.of_nat n).
Proof.
  revert a. induction n as [|n IH]; intros a; simpl rd; [simpl; lia|].
  pose proof (peek_range m a). specialize (IH (a + 1)).
  replace (8 * Z.of_nat (S n)) with (8 + 8 * Z.of_nat n) by lia.
  rewrite Z.pow_add_r by lia. lia.
Qed.

(** What is read depends on the bytes read only. *)
Lemma rd_ext n m m' a :
  (forall b, a <= b < a + Z.of_nat n -> peek m' b = peek m b) -> rd n m' a = rd n m a.
Proof.
  revert a. induction n as [|n IH]; intros a H; simpl; [done|].
  rewrite H, IH; [done|intros b Hb; apply H; lia|lia].
Qed.

Lemma rd_wr_other n k a v m b :
  b + Z.of_nat n <= a \/ a + Z.of_nat k <= b -> rd n (wr k a v m) b = rd n m b.
Proof. intros H. apply rd_ext. intros c Hc. apply peek_wr_other. lia. Qed.

Lemma rd_wr_same n a v m : rd n (wr n a v m) a = v mod 2 ^ (8 * Z.of_nat n).
Proof.
  revert a v m. induction n as [|n IH]; intros a v m; simpl rd; simpl wr.
  - by rewrite Z.mod_1_r.
  - rewrite IH, peek_wr_other, peek_poke, Z.eqb_refl by lia. unfold u8.
    replace (8 * Z.of_nat (S n)) with (8 + 8 * Z.of_nat n) by lia.
    rewrite Z.pow_add_r by lia. rewrite Z.rem_mul_r; [done|lia|apply Z.pow_pos_nonneg; lia].
Qed.

Lemma rd1 m a : rd 1 m a = peek m a.
Proof. simpl. lia. Qed.

Lemma peek_wr1 a v m b : peek (wr 1 a v m) b = if b =? a then u8 v else peek m b.
Proof. simpl. apply peek_poke. Qed.

Arguments rd : simpl never.
Arguments wr : simpl never.

Lemma wp_load n a Q m :
  in_ram m a (Z.of_nat n) = true -> Q (rd n m a) m -> wp (load n a) Q m.
Proof. intros H HQ. unfold load. rewrite wp_bind, wp_get, H. by apply wp_ret. Qed.

Lemma wp_store n a v Q m :
  in_ram m a (Z.of_nat n) = true -> Q tt (wr n a v m) -> wp (store n a v) Q m.
Proof. intros H HQ. unfold store. rewrite wp_bind, wp_get, H. by apply wp_put. Qed.

Lemma in_ram_sub m a n b k : in_ram m a n = true -> a <= b -> b + k <= a + n -> in_ram m b k = true.
Proof. unfold in_ram. rewrite !andb_true_iff, !Z.leb_le. lia. Qed.

(** Same RAM, same contents. *)
Definition mem_eq (m m' : memory) : Prop :=
  ram_lo m' = ram_lo m /\ ram_hi m' = ram_hi m /\ forall a, peek m' a = peek m a.

#[export] Instance mem_eq_equiv : Equivalence mem_eq.
Proof.
  split.
  - by intros m.
  - intros m m' (? & ? & H). by split_and!.
  - intros m m' m'' (? & ? & H) (? & ? & H'). split_and!; [congruence..|]. intros a. by rewrite H', H.
Qed.

#[export] Instance rd_proper n : Proper (mem_eq ==> eq ==> eq) (rd n).
Proof. intros m m' (_ & _ & H) a ? <-. symmetry. apply rd_ext. auto. Qed.

#[export] Instance in_ram_proper : Proper (mem_eq ==> eq ==> eq ==> eq) in_ram.
Proof. intros m m' (E1 & E2 & H) a ? <- n ? <-. unfold in_ram. by rewrite E1, E2. Qed.

(** * lib.c *)

Module Lib.

(** [while (n-- > 0) *d++ = *s++;] *)
Fixpoint move_up (n : nat) (d s : Z) : M memory unit :=
  match n with
  | O => ret tt
  | S n' => let! c := load8 s in store8 d c ;; move_up n' (u64 (d + 1)) (u64 (s + 1))
  end.

(** [while (n-- > 0) *--d = *--s;] *)
Fixpoint move_down (n : nat) (d s : Z) : M memory unit :=
  match n with
  | O => ret tt
  | S n' =>
      let! c := load8 (u64 (s - 1)) in
      store8 (u64 (d - 1)) c ;; move_down n' (u64 (d - 1)) (u64 (s - 1))
  end.

Definition memmove (dst src n : Z) : M memory Z :=
  (if dst <? src then move_up (Z.to_nat n) dst src
   else move_down (Z.to_nat n) (u64 (dst + n)) (u64 (src + n))) ;;
  ret dst.

Definition memcpy (dst src n : Z) : M memory Z := memmove dst src n.

Fixpoint fill (n : nat) (d c : Z) : M memory unit :=
  match n with
  | O => ret tt
  | S n' => store8 d c ;; fill n' (u64 (d + 1)) c
  end.

Definition memset (dst c n : Z) : M memory Z :=
  fill (Z.to_nat n) dst (u8 c) ;; ret dst.

(** The string loops read one more byte in every iteration, and reading past
    the end of RAM faults: the number of bytes up to there is enough fuel. *)
Definition fuel_from (a : Z) : M memory nat :=
  gets (fun m => S (Z.to_nat (ram_hi m - a))).

Fixpoint strcpy_loop (fuel : nat) (d s : Z) : M memory unit :=
  match fuel with
  | O => spin
  | S fuel' =>
      let! c := load8 s in
      store8 d c ;;
      if negb (c =? 0) then strcpy_loop fuel' (u64 (d + 1)) (u64 (s + 1)) else ret tt
  end.
Definition strcpy (dst src : Z) : M memory Z :=
  let! fuel := fuel_from src in strcpy_loop fuel dst src ;; ret dst.

Fixpoint strcmp_loop (fuel : nat) (s1 s2 : Z) : M memory Z :=
  match fuel with
  | O => spin
  | S fuel' =>
      let! c1 := load8 s1 in
      let! c2 := load8 s2 in
      if negb (c1 =? 0) && (c1 =? c2)
      then strcmp_loop fuel' (u64 (s1 + 1)) (u64 (s2 + 1))
      else ret (c1 - c2)
  end.
Definition strcmp (s1 s2 : Z) : M memory Z :=
  let! fuel := fuel_from s1 in strcmp_loop fuel s1 s2.

(** The characters are read before [len > 0] is tested, in every iteration. *)
Fixpoint strncmp_loop (fuel : nat) (s1 s2 len : Z) : M memory Z :=
  match fuel with
  | O => spin
  | S fuel' =>
      let! c1 := load8 s1 in
      let! c2 := if negb (c1 =? 0) || negb (len =? 0) then load8 s2 else ret 0 in
      if negb (c1 =? 0) && (c1 =? c2) && (0 <? len)
      then strncmp_loop fuel' (u64 (s1 + 1)) (u64 (s2 + 1)) (len - 1)
      else if len =? 0 then ret 0 else ret (c1 - c2)
  end.
Definition strncmp (s1 s2 len : Z) : M memory Z :=
  let! fuel := fuel_from s1 in strncmp_loop fuel s1 s2 len.

Fixpoint strlen_loop (fuel : nat) (s i : Z) : M memory Z :=
  match fuel with
  | O => spin
  | S fuel' =>
      let! c := load8 s in
      if c =? 0 then ret i else strlen_loop fuel' (u64 (s + 1)) (u64 (i + 1))
  end.
Definition strlen (s : Z) : M memory Z :=
  let! fuel := fuel_from s in strlen_loop fuel s 0.

(** * memmove copies, whatever the overlap *)

Definition ram_ok (m : memory) : Prop := 0 <= ram_lo m /\ ram_hi m < 2 ^ 64.

(** [m'] is [m] with the [n] bytes at [dst] replaced by those at [src] of [m0]. *)
Definition copied (m0 m m' : memory) (dst src n : Z) : Prop :=
  ram_lo m' = ram_lo m /\ ram_hi m' = ram_hi m /\
  forall b, peek m' b = if (dst <=? b) && (b <? dst + n) then peek m0 (b - dst + src) else peek m b.

Lemma move_up_ok m0 m n d s :
  ram_ok m -> in_ram m d (Z.of_nat n) = true -> in_ram m s (Z.of_nat n) = true -> d < s ->
  (forall b, s <= b < s + Z.of_nat n -> peek m b = peek m0 b) ->
  wp (move_up n d s) (fun _ m' => copied m0 m m' d s (Z.of_nat n)) m.
Proof.
  revert m d s. induction n as [|n IH]; intros m d s Hok Hd Hs Hlt Heq; simpl move_up.
  - wp_steps. split_and!; try done. intros b.
    destruct (Z.leb_spec d b), (Z.ltb_spec b (d + Z.of_nat 0)); try done; lia.
  - rewrite wp_bind. apply wp_load; [by eapply in_ram_sub; [exact Hs|lia..]|]. rewrite rd1, Heq by lia.
    rewrite wp_bind. apply wp_store; [by eapply in_ram_sub; [exact Hd|lia..]|].
    unfold in_ram, ram_ok in *. bool_to_Z.
    rewrite !u64_small by (unfold is_u64; lia).
    destruct (wr_bounds 1 d (peek m0 s) m) as [E1 E2].
    eapply wp_mono; [|apply (IH (wr 1 d (peek m0 s) m))].
    + intros ? m' (L & H' & P). split_and!; [congruence..|]. intros b. rewrite P, peek_wr1.
      destruct (Z.leb_spec (d + 1) b), (Z.ltb_spec b (d + 1 + Z.of_nat n)), (Z.leb_spec d b),
        (Z.ltb_spec b (d + Z.of_nat (S n))), (Z.eqb_spec b d); simpl; try lia; try done.
      * f_equal. lia.
      * subst b. rewrite u8_small by apply peek_range. f_equal. lia.
    + unfold ram_ok. lia.
    + rewrite E1, E2. apply andb_true_iff. rewrite !Z.leb_le. lia.
    + rewrite E1, E2. apply andb_true_iff. rewrite !Z.leb_le. lia.
    + lia.
    + intros b Hb. rewrite peek_wr1. destruct (Z.eqb_spec b d); [lia|apply Heq; lia].
Qed.

Lemma move_down_ok m0 m n d s :
  ram_ok m -> in_ram m d (Z.of_nat n) = true -> in_ram m s (Z.of_nat n) = true -> s <= d ->
  (forall b, s <= b < s + Z.of_nat n -> peek m b = peek m0 b) ->
  wp (move_down n (d + Z.of_nat n) (s + Z.of_nat n)) (fun _ m' => copied m0 m m' d s (Z.of_nat n)) m.
Proof.
  revert m. induction n as [|n IH]; intros m Hok Hd Hs Hle Heq; simpl move_down.
  - wp_steps. split_and!; try done. intros b.
    destruct (Z.leb_spec d b), (Z.ltb_spec b (d + Z.of_nat 0)); try done; lia.
  - unfold in_ram, ram_ok in *. bool_to_Z.
    replace (s + Z.of_nat (S n) - 1) with (s + Z.of_nat n) by lia.
    replace (d + Z.of_nat (S n) - 1) with (d + Z.of_nat n) by lia.
    rewrite !u64_small by (unfold is_u64; lia).
    rewrite wp_bind. apply wp_load; [unfold in_ram; rewrite andb_true_iff, !Z.leb_le; lia|].
    rewrite rd1, Heq by lia.
    rewrite wp_bind. apply wp_store; [unfold in_ram; rewrite andb_true_iff, !Z.leb_le; lia|].
    set (c := peek m0 _). destruct (wr_bounds 1 (d + Z.of_nat n) c m) as [E1 E2].
    eapply wp_mono; [|apply (IH (wr 1 (d + Z.of_nat n) c m))].
    + intros ? m' (L & H' & P). split_and!; [congruence..|]. intros b. rewrite P, peek_wr1.
      destruct (Z.leb_spec d b), (Z.ltb_spec b (d + Z.of_nat n)),
        (Z.ltb_spec b (d + Z.of_nat (S n))), (Z.eqb_spec b (d + Z.of_nat n)); simpl; try lia; try done.
      rewrite u8_small by apply peek_range. unfold c. f_equal. lia.
    + lia.
    + rewrite E1, E2. apply andb_true_iff. rewrite !Z.leb_le. lia.
    + rewrite E1, E2. apply andb_true_iff. rewrite !Z.leb_le. lia.
    + lia.
    + intros b Hb. rewrite peek_wr1. destruct (Z.eqb_spec b (d + Z.of_nat n)); [lia|apply Heq; lia].
Qed.

Lemma memmove_ok m dst src n :
  ram_ok m -> 0 <= n -> in_ram m dst n = true -> in_ram m src n = true ->
  wp (memmove dst src n) (fun r m' => r = dst /\ copied m m m' dst src n) m.
Proof.
  intros Hok Hn Hd Hs. unfold memmove.
  rewrite <- (Z2Nat.id n) in Hd, Hs |- * by done. rewrite Nat2Z.id. set (k := Z.to_nat n) in *.
  rewrite wp_bind. destruct (Z.ltb_spec dst src).
  - eapply wp_mono; [|apply (move_up_ok m); done]. intros ? m' H'. by wp_steps.
  - pose proof Hd as Hd'. pose proof Hs as Hs'. unfold in_ram, ram_ok in Hd', Hs', Hok. bool_to_Z.
    rewrite !u64_small by (unfold is_u64; lia).
    eapply wp_mono; [|apply (move_down_ok m); done]. intros ? m' H'. by wp_steps.
Qed.

Lemma fill_ok m n d c :
  ram_ok m -> in_ram m d (Z.of_nat n) = true ->
  wp (fill n d (u8 c)) (fun _ m' => ram_lo m' = ram_lo m /\ ram_hi m' = ram_hi m /\
    forall b, peek m' b = if (d <=? b) && (b <? d + Z.of_nat n) then u8 c else peek m b) m.
Proof.
  revert m d. induction n as [|n IH]; intros m d Hok Hd; simpl fill.
  - wp_steps. split_and!; try done. intros b.
    destruct (Z.leb_spec d b), (Z.ltb_spec b (d + Z.of_nat 0)); try done; lia.
  - unfold in_ram, ram_ok in *. bool_to_Z. rewrite wp_bind.
    apply wp_store; [unfold in_ram; rewrite andb_true_iff, !Z.leb_le; lia|].
    rewrite u64_small by (unfold is_u64; lia). destruct (wr_bounds 1 d (u8 c) m) as [E1 E2].
    eapply wp_mono; [|apply (IH (wr 1 d (u8 c) m))].
    + intros ? m' (L & H' & P). split_and!; [congruence..|]. intros b. rewrite P, peek_wr1.
      destruct (Z.leb_spec (d + 1) b), (Z.ltb_spec b (d + 1 + Z.of_nat n)), (Z.leb_spec d b),
        (Z.ltb_spec b (d + Z.of_nat (S n))), (Z.eqb_spec b d); simpl; try lia; try done.
      apply u8_small, u8_range.
    + lia.
    + rewrite E1, E2. apply andb_true_iff. rewrite !Z.leb_le. lia.
Qed.

Lemma memset_ok m dst c n :
  ram_ok m -> 0 <= n -> in_ram m dst n = true ->
  wp (memset dst c n) (fun r m' => r = dst /\ ram_lo m' = ram_lo m /\ ram_hi m' = ram_hi m /\
    forall b, peek m' b = if (dst <=? b) && (b <? dst + n) then u8 c else peek m b) m.
Proof.
  intros Hok Hn Hd. unfold memset. rewrite <- (Z2Nat.id n) in Hd |- * by done. rewrite Nat2Z.id.
  rewrite wp_bind. eapply wp_mono; [|apply fill_ok; done]. intros ? m' H. by wp_steps.
Qed.

(** * Strings *)

(** The characters [l], then a NUL, at address [a]. *)
Fixpoint cstr (m : memory) (a : Z) (l : list Z) : Prop :=
  match l with
  | [] => in_ram m a 1 = true /\ peek m a = 0
  | c :: l' => in_ram m a 1 = true /\ peek m a = c /\ c <> 0 /\ cstr m (a + 1) l'
  end.

Lemma cstr_in_ram m a l : cstr m a l -> in_ram m a (Z.of_nat (length l) + 1) = true.
Proof.
  revert a. induction l as [|c l IH]; intros a; simpl cstr; [by intros [H _]|].
  intros (H & _ & _ & Hl). apply IH in Hl. unfold in_ram in *. simpl length. bool_to_Z.
  apply andb_true_iff. rewrite !Z.leb_le. lia.
Qed.

Lemma cstr_ext m m' a l :
  ram_lo m' = ram_lo m -> ram_hi m' = ram_hi m ->
  (forall b, a <= b <= a + Z.of_nat (length l) -> peek m' b = peek m b) ->
  cstr m a l -> cstr m' a l.
Proof.
  intros E1 E2. revert a. induction l as [|c l IH]; intros a Hp; simpl; unfold in_ram; rewrite E1, E2.
  - intros [? ?]. rewrite Hp; [done|simpl; lia].
  - intros (? & ? & ? & ?). rewrite Hp by (simpl; lia). split_and!; try done.
    apply IH; [|done]. intros b Hb. apply Hp. simpl. lia.
Qed.

(** Advancing a pointer by one inside a string does not wrap. *)
Lemma u64_next m a : ram_ok m -> in_ram m a 1 = true -> u64 (a + 1) = a + 1.
Proof. unfold in_ram, ram_ok. intros ? ?. bool_to_Z. apply u64_small. unfold is_u64. lia. Qed.

Lemma fuel_enough m a l : cstr m a l -> (length l < S (Z.to_nat (ram_hi m - a)))%nat.
Proof. intros H%cstr_in_ram. unfold in_ram in H. bool_to_Z. lia. Qed.

Lemma strlen_loop_ok m fuel a i l :
  ram_ok m -> cstr m a l -> (length l < fuel)%nat -> 0 <= i -> i + Z.of_nat (length l) < 2 ^ 64 ->
  wp (strlen_loop fuel a i) (fun r m' => m' = m /\ r = i + Z.of_nat (length l)) m.
Proof.
  intros Hok. revert fuel a i. induction l as [|c l IH]; intros [|fuel] a i Hc Hf Hi Hov; simpl in Hf; try lia;
    simpl strlen_loop; rewrite wp_bind; (apply wp_load; [apply Hc|]); rewrite rd1.
  - destruct Hc as [_ ->]. rewrite Z.eqb_refl. wp_steps. split; [done|simpl; lia].
  - destruct Hc as (Hr & -> & Hne & Hl). destruct (Z.eqb_spec c 0); [done|]. simpl length in Hov.
    rewrite (u64_next m a) by done. rewrite u64_small by (unfold is_u64; lia).
    eapply wp_mono; [|apply IH; [done|lia..]]. intros r m' [-> ->]. simpl length. split; [done|lia].
Qed.

Lemma strcpy_loop_ok m fuel d s l :
  ram_ok m -> cstr m s l -> (length l < fuel)%nat ->
  in_ram m d (Z.of_nat (length l) + 1) = true ->
  d + Z.of_nat (length l) < s \/ s + Z.of_nat (length l) < d ->
  wp (strcpy_loop fuel d s) (fun _ m' => cstr m' d l /\ ram_lo m' = ram_lo m /\ ram_hi m' = ram_hi m /\
    forall b, b < d \/ d + Z.of_nat (length l) < b -> peek m' b = peek m b) m.
Proof.
  revert m fuel d s. induction l as [|c l IH]; intros m [|fuel] d s Hok Hc Hf Hd Hdis; simpl in Hf; try lia;
    simpl strcpy_loop; rewrite wp_bind; (apply wp_load; [apply Hc|]); rewrite rd1, wp_bind;
    (apply wp_store; [eapply in_ram_sub; [exact Hd|simpl; lia..]|]).
  - destruct Hc as [_ ->]. simpl negb. cbn iota. wp_steps. destruct (wr_bounds 1 d 0 m) as [E1 E2].
    split_and!; [split|done..|].
    + rewrite in_ram_wr. eapply in_ram_sub; [exact Hd|simpl; lia..].
    + by rewrite peek_wr1, Z.eqb_refl.
    + intros b Hb. rewrite peek_wr1. destruct (Z.eqb_spec b d); [lia|done].
  - destruct Hc as (Hr & Hpc & Hne & Hl). rewrite Hpc. destruct (Z.eqb_spec c 0); [done|]. simpl negb. cbn iota.
    simpl length in *. assert (in_ram m d 1 = true) by (eapply in_ram_sub; [exact Hd|lia..]).
    rewrite !(u64_next m) by done. destruct (wr_bounds 1 d c m) as [E1 E2].
    assert (is_u8 c) as Hc8 by (rewrite <- Hpc; apply peek_range).
    eapply wp_mono; [|apply (IH (wr 1 d c m))].
    + intros ? m' (H1 & H2 & H3 & H4). split_and!; [|congruence..|].
      * simpl. rewrite H4, peek_wr1, Z.eqb_refl, u8_small by (done || lia). split_and!; try done.
        unfold in_ram in *. by rewrite H2, H3, E1, E2.
      * intros b Hb. rewrite H4 by lia. rewrite peek_wr1. destruct (Z.eqb_spec b d); [lia|done].
    + unfold ram_ok in *. by rewrite E1, E2.
    + eapply cstr_ext; [done|done| |done]. intros b Hb. rewrite peek_wr1.
      destruct (Z.eqb_spec b d); [lia|done].
    + lia.
    + rewrite in_ram_wr. eapply in_ram_sub; [exact Hd|lia..].
    + lia.
Qed.

(** The C comparison on the lists of characters. *)
Fixpoint cmp_spec (l1 l2 : list Z) : Z :=
  match l1, l2 with
  | [], [] => 0
  | [], c :: _ => - c
  | c :: _, [] => c
  | c1 :: t1, c2 :: t2 => if c1 =? c2 then cmp_spec t1 t2 else c1 - c2
  end.

Lemma cmp_spec_eq l1 l2 :
  Forall (fun c => c <> 0) l1 -> Forall (fun c => c <> 0) l2 -> cmp_spec l1 l2 = 0 <-> l1 = l2.
Proof.
  intros H1. revert l2. induction H1 as [|c1 l1 Hc1 Hl1 IH]; intros l2 [|c2 l2' Hc2 Hl2]; simpl.
  - done.
  - split; [lia|done].
  - split; [lia|done].
  - destruct (Z.eqb_spec c1 c2) as [->|].
    + rewrite IH by done. split; congruence.
    + split; [lia|congruence].
Qed.

Lemma cstr_nonzero m a l : cstr m a l -> Forall (fun c => c <> 0) l.
Proof. revert a. induction l as [|c l IH]; intros a; simpl; [constructor|]. intros (_ & _ & ? & ?). eauto. Qed.

Lemma strcmp_loop_ok m fuel a1 a2 l1 l2 :
  ram_ok m -> cstr m a1 l1 -> cstr m a2 l2 -> (length l1 < fuel)%nat ->
  wp (strcmp_loop fuel a1 a2) (fun r m' => m' = m /\ r = cmp_spec l1 l2) m.
Proof.
  intros Hok. revert fuel a1 a2 l2. induction l1 as [|c1 l1 IH]; intros [|fuel] a1 a2 l2 H1 H2 Hf;
    simpl in Hf; try lia; simpl strcmp_loop; rewrite wp_bind; (apply wp_load; [apply H1|]); rewrite rd1, wp_bind;
    (apply wp_load; [by destruct l2; apply H2|]); rewrite rd1.
  - destruct H1 as [_ ->]. simpl. wp_steps. split; [done|].
    destruct l2; simpl in H2; [by destruct H2 as [_ ->]|]. destruct H2 as (_ & -> & _). lia.
  - destruct H1 as (Hr & -> & Hne & H1). destruct (Z.eqb_spec c1 0); [done|]. simpl.
    destruct l2 as [|c2 l2]; simpl in H2.
    + destruct H2 as (Hr2 & ->). destruct (Z.eqb_spec c1 0); [done|]. wp_steps. split; [done|lia].
    + destruct H2 as (Hr2 & -> & Hne2 & H2). destruct (Z.eqb_spec c1 c2).
      * rewrite !(u64_next m) by done. apply IH; [done..|lia].
      * by wp_steps.
Qed.

(** * Properties *)

(** [memmove] (and [memcpy], which is the same routine) copies: for any two
    regions of RAM, overlapping or not, it returns its first argument, the
    destination holds the bytes the source held before the call, and no other
    byte changes. *)
Theorem memmove_copies (m : memory) (dst src n : Z) :
  ram_ok m -> 0 <= n -> in_ram m dst n = true -> in_ram m src n = true ->
  wp (memmove dst src n) (fun r m' => r = dst /\ copied m m m' dst src n) m.
Proof. apply memmove_ok. Qed.

(** Four bytes at 8 .. 11 of a RAM of 64 bytes. *)
Definition example_mem : memory :=
  mkMem 0 64 (list_to_map [(8, 97); (9, 98); (10, 99); (11, 0)]).

Lemma memmove_copies_witness :
  wp (memmove 9 8 3) (fun r m' => r = 9 /\ peek m' 9 = 97 /\ peek m' 11 = 99) example_mem.
Proof.
  eapply wp_mono; [|apply (memmove_copies example_mem 9 8 3)]; try (unfold ram_ok; simpl; lia || reflexivity).
  intros r m' (-> & _ & _ & H). split; [done|]. rewrite !H. split; reflexivity.
Defined.

(** The string routines agree with lists of characters: [strlen] is the
    length, [strcmp] is the C comparison (zero exactly on equal strings), and
    [strcpy] to a region that does not overlap the source makes a copy and
    changes nothing else.  All three loops end. *)
Theorem strings_spec (m : memory) (s1 s2 d : Z) (l1 l2 : list Z) :
  ram_ok m -> cstr m s1 l1 -> cstr m s2 l2 ->
  in_ram m d (Z.of_nat (length l1) + 1) = true ->
  d + Z.of_nat (length l1) < s1 \/ s1 + Z.of_nat (length l1) < d ->
  wp (strlen s1) (fun r m' => m' = m /\ r = Z.of_nat (length l1)) m /\
  wp (strcmp s1 s2) (fun r m' => m' = m /\ r = cmp_spec l1 l2 /\ (r = 0 <-> l1 = l2)) m /\
  wp (strcpy d s1) (fun r m' => r = d /\ cstr m' d l1 /\
    forall b, b < d \/ d + Z.of_nat (length l1) < b -> peek m' b = peek m b) m.
Proof.
  intros Hok H1 H2 Hd Hdis. pose proof (fuel_enough _ _ _ H1) as Hf. split_and!.
  - unfold strlen, fuel_from. wp_steps.
    eapply wp_mono; [|apply (strlen_loop_ok m _ _ _ l1); [done..|lia|]]; [done|].
    apply cstr_in_ram in H1. unfold in_ram, ram_ok in *. bool_to_Z. lia.
  - unfold strcmp, fuel_from. wp_steps. eapply wp_mono; [|by apply (strcmp_loop_ok m _ _ _ l1 l2)].
    intros r m' [-> ->]. split; [done|]. split; [done|]. apply cmp_spec_eq; eauto using cstr_nonzero.
  - unfold strcpy, fuel_from. wp_steps. eapply wp_mono; [|by apply (strcpy_loop_ok m _ _ _ l1)].
    intros ? m' (? & _ & _ & ?). by wp_steps.
Qed.

Lemma strings_spec_witness :
  wp (strlen 8) (fun r m' => m' = example_mem /\ r = 3) example_mem.
Proof. apply (strings_spec example_mem 8 9 20 [97; 98; 99] [98; 99]); vm_compute; auto 10; try done; lia. Defined.

End Lib.
