(* ===== verification/Ram.v ===== *)
(** Runs of bytes in RAM: what the guest kernel copies to and from its users, and what a
    user program hands to a system call. *)
From stdpp Require Import base gmap list numbers tactics.
From S2P Require Import Prelude Mem.

(** Store bytes one after another. *)
Fixpoint store_bytes (a : Z) (bs : list Z) : M memory unit :=
  match bs with
  | [] => ret tt
  | b :: bs' => store8 a b ;; store_bytes (u64 (a + 1)) bs'
  end.
Fixpoint load_bytes (n : nat) (a : Z) : M memory (list Z) :=
  match n with
  | O => ret []
  | S n' => let! b := load8 a in let! bs := load_bytes n' (u64 (a + 1)) in ret (b :: bs)
  end.

(** The [n] bytes at [a]. *)
Definition ram_bytes (m : memory) (a : Z) (n : nat) : list Z := map (fun i => peek m (a + Z.of_nat i)) (seq 0 n).

Lemma ram_bytes_S m a n : ram_bytes m a (S n) = peek m a :: ram_bytes m (a + 1) n.
Proof.
  unfold ram_bytes. cbn [seq map]. f_equal; [f_equal; lia|]. rewrite <- seq_shift, map_map. apply map_ext.
  intros i. f_equal. lia.
Qed.

Lemma ram_bytes_length m a n : length (ram_bytes m a n) = n.
Proof. unfold ram_bytes. by rewrite length_map, length_seq. Qed.

Lemma ram_bytes_ext m m' a n :
  (forall b, a <= b < a + Z.of_nat n -> peek m' b = peek m b) -> ram_bytes m' a n = ram_bytes m a n.
Proof. intros E. unfold ram_bytes. apply map_ext_in. intros i Hi%in_seq. apply E. lia. Qed.

Lemma load_bytes_ok n a m : Lib.ram_ok m -> in_ram m a (Z.of_nat n) = true -> load_bytes n a m = Ok (ram_bytes m a n) m.
Proof.
  intros Hok. revert a. induction n as [|n IH]; intros a Hin; [done|]. cbn [load_bytes]. rewrite ram_bytes_S.
  assert (in_ram m a (Z.of_nat 1) = true) as H1 by (apply (in_ram_sub _ a (Z.of_nat (S n))); [done|lia..]).
  assert (load8 a m = Ok (peek m a) m) as E by (unfold load, bind, get; rewrite H1; by rewrite rd1).
  rewrite (bind_Ok _ _ _ _ _ E). rewrite (bind_Ok _ _ (ram_bytes m (a + 1) n) m m); [done|].
  destruct n as [|n]; [done|]. rewrite u64_small; [apply IH; apply (in_ram_sub _ a (Z.of_nat (S (S n)))); [done|lia..]|].
  unfold Lib.ram_ok, in_ram in *. bool_to_Z. unfold is_u64. lia.
Qed.


Lemma store_bytes_ok bs : forall a m, Lib.ram_ok m -> in_ram m a (Z.of_nat (length bs)) = true ->
  exists m', store_bytes a bs m = Ok tt m' /\ ram_lo m' = ram_lo m /\ ram_hi m' = ram_hi m /\
    forall b, peek m' b = if (a <=? b) && (b <? a + Z.of_nat (length bs)) then u8 (nth (Z.to_nat (b - a)) bs 0) else peek m b.
Proof.
  induction bs as [|x bs IH]; intros a m Hok Hin; cbn [store_bytes length].
  - exists m. split; [done|]. split; [done|]. split; [done|]. intros b. destruct (Z.leb_spec a b), (Z.ltb_spec b (a + Z.of_nat 0)); try done; lia.
  - assert (in_ram m a (Z.of_nat 1) = true) as H1 by (apply (in_ram_sub _ a (Z.of_nat (S (length bs)))); [done|lia..]).
    assert (store8 a x m = Ok tt (wr 1 a x m)) as E by (unfold store, bind, get, put; by rewrite H1).
    rewrite (bind_Ok _ _ _ _ _ E). set (m1 := wr 1 a x m). destruct (wr_bounds 1 a x m) as [W1 W2]. fold m1 in W1, W2.
    destruct bs as [|y bs].
    + exists m1. split; [done|]. split; [done|]. split; [done|]. intros b. unfold m1. rewrite peek_wr1. cbn [length].
      destruct (Z.leb_spec a b), (Z.ltb_spec b (a + Z.of_nat 1)), (Z.eqb_spec b a); cbn [andb]; try done; try lia.
      subst b. by rewrite Z.sub_diag.
    + cbn [length] in *. destruct (IH (a + 1) m1) as (m' & E' & B1 & B2 & P).
      { unfold Lib.ram_ok in *. by rewrite W1, W2. }
      { unfold in_ram. rewrite W1, W2. apply (in_ram_sub m a (Z.of_nat (S (S (length bs))))); [done|lia..]. }
      rewrite u64_small. 2:{ unfold Lib.ram_ok, in_ram in *. bool_to_Z. unfold is_u64. lia. }
      exists m'. split; [done|]. split; [congruence|]. split; [congruence|]. intros b. rewrite P. unfold m1. rewrite peek_wr1.
      destruct (Z.leb_spec (a + 1) b), (Z.ltb_spec b (a + 1 + Z.of_nat (S (length bs)))), (Z.leb_spec a b),
        (Z.ltb_spec b (a + Z.of_nat (S (S (length bs))))), (Z.eqb_spec b a); cbn [andb]; try lia; try done.
      * replace (Z.to_nat (b - a)) with (S (Z.to_nat (b - (a + 1)))) by lia. done.
      * subst b. by rewrite Z.sub_diag.
Qed.

(** [m'] differs from [m] between [lo] and [hi] only. *)
Record changes (lo hi : Z) (m m' : memory) : Prop := {
  ch_lo : ram_lo m' = ram_lo m;
  ch_hi : ram_hi m' = ram_hi m;
  ch_old : forall b, ~ (lo <= b < hi) -> peek m' b = peek m b
}.

Lemma changes_refl lo hi m : changes lo hi m m.
Proof. by split. Qed.
Lemma changes_trans lo hi m1 m2 m3 : changes lo hi m1 m2 -> changes lo hi m2 m3 -> changes lo hi m1 m3.
Proof. intros [? ? P] [? ? Q]. split; [congruence..|]. intros b Hb. by rewrite Q, P. Qed.
Lemma changes_sub lo hi lo' hi' m m' : lo' <= lo -> hi <= hi' -> changes lo hi m m' -> changes lo' hi' m m'.
Proof. intros ? ? [? ? P]. split; [done..|]. intros b Hb. apply P. lia. Qed.
Lemma changes_wr n a v m : changes a (a + Z.of_nat n) m (wr n a v m).
Proof. destruct (wr_bounds n a v m). split; [done..|]. intros b Hb. apply peek_wr_other. lia. Qed.
Lemma changes_in_ram lo hi m m' a n : changes lo hi m m' -> in_ram m' a n = in_ram m a n.
Proof. intros [E1 E2 _]. unfold in_ram. by rewrite E1, E2. Qed.
Lemma changes_ok lo hi m m' : changes lo hi m m' -> Lib.ram_ok m -> Lib.ram_ok m'.
Proof. intros [E1 E2 _]. unfold Lib.ram_ok. by rewrite E1, E2. Qed.
Lemma changes_bytes lo hi m m' a n : changes lo hi m m' -> a + Z.of_nat n <= lo \/ hi <= a -> ram_bytes m' a n = ram_bytes m a n.
Proof. intros [_ _ P] H. apply ram_bytes_ext. intros b Hb. apply P. lia. Qed.
Lemma changes_cstr lo hi m m' a l : changes lo hi m m' -> a + Z.of_nat (length l) < lo \/ hi <= a -> Lib.cstr m a l -> Lib.cstr m' a l.
Proof. intros [E1 E2 P] H. apply Lib.cstr_ext; [done..|]. intros b Hb. apply P. lia. Qed.

(** * Strings and their bytes *)

Lemma ram_bytes_cons m a x l : ram_bytes m a (S (length l)) = x :: l <-> peek m a = x /\ ram_bytes m (a + 1) (length l) = l.
Proof. rewrite ram_bytes_S. split; [by intros [= -> ->]|by intros [-> ->]]. Qed.

Lemma ram_bytes_app m a n k : ram_bytes m a (n + k) = ram_bytes m a n ++ ram_bytes m (a + Z.of_nat n) k.
Proof.
  revert a. induction n as [|n IH]; intros a; [cbn [Nat.add]; by rewrite Z.add_0_r|]. cbn [Nat.add]. rewrite !ram_bytes_S, IH. cbn [app].
  replace (a + 1 + Z.of_nat n) with (a + Z.of_nat (S n)) by lia. done.
Qed.

(** A string is its characters, none of them 0, and a 0 behind them. *)
Lemma cstr_iff m a l : Lib.cstr m a l <->
  in_ram m a (Z.of_nat (length l) + 1) = true /\ ram_bytes m a (length l) = l /\ Forall (fun c => c <> 0) l /\ peek m (a + Z.of_nat (length l)) = 0.
Proof.
  revert a. induction l as [|c l IH]; intros a; cbn [Lib.cstr length].
  - rewrite Z.add_0_r. split; [intros [? ?]; by repeat split|by intros (? & _ & _ & ?)].
  - rewrite IH, ram_bytes_cons. replace (a + 1 + Z.of_nat (length l)) with (a + Z.of_nat (S (length l))) by lia. split.
    + intros (H1 & H2 & H3 & H4 & H5 & H6 & H7). split; [|by repeat split; [| |constructor|]]. unfold in_ram in *. bool_to_Z.
      apply andb_true_iff. rewrite !Z.leb_le. lia.
    + intros (H1 & [H2 H3] & H4 & H5). apply list.Forall_cons in H4 as [H4 H6].
      split; [apply (in_ram_sub _ a (Z.of_nat (S (length l)) + 1)); [done|lia..]|]. split; [done|]. split; [done|].
      split; [apply (in_ram_sub _ a (Z.of_nat (S (length l)) + 1)); [done|lia..]|done].
Qed.

(** The end of a string. *)
Lemma cstr_app m a l s : Lib.cstr m a (l ++ s) -> ram_bytes m a (length l) = l /\ Forall (fun c => c <> 0) l /\ Lib.cstr m (a + Z.of_nat (length l)) s.
Proof.
  rewrite !cstr_iff, length_app, ram_bytes_app. intros (H1 & H2 & H3 & H4). apply app_inj_1 in H2 as [H2 H2']; [|apply ram_bytes_length].
  apply list.Forall_app in H3 as [H3 H3']. split; [done|]. split; [done|].
  split; [apply (in_ram_sub _ a (Z.of_nat (length l + length s) + 1)); [done|lia..]|]. split; [done|]. split; [done|]. rewrite <- H4. f_equal. lia.
Qed.
