(* ===== verification/Mmu.v ===== *)
(** Stage-2 page tables (src/src/mmu.c, src/include/mmu.h).

    [phys] is what the routines touch: RAM and the page allocator.  A table is
    4096 bytes of RAM, an entry a little-endian 64-bit word in it, a pointer
    into it an address.  [xlate] is what the tables mean: the leaf entry each
    intermediate address is translated by. *)
From stdpp Require Import base gmap list numbers tactics.
From S2P Require Import Prelude Spinlock PageAlloc Mem.

Definition PAGE_SIZE : Z := 4096.

(** [PIDX(level, va)]: the nine bits that index the table at [level]. *)
Definition PIDX (level va : Z) : Z := Z.land (Z.shiftr va (39 - level * 9)) 0x1ff.
Definition OFFSET (va : Z) : Z := Z.land va 0xfff.
Definition PTE_PA (pte : Z) : Z := Z.land pte 0xfffffffff000.

Definition PTE_VALID : Z := 1.
Definition PTE_TABLE : Z := 2.
Definition PTE_V : Z := 3.
Definition PTE_AF : Z := Z.shiftl 1 10.
Definition S2PTE_AF : Z := Z.shiftl 1 10.
Definition S2PTE_S2AP (ap : Z) : Z := Z.shiftl (Z.land ap 3) 6.
Definition S2PTE_RO : Z := S2PTE_S2AP 1.
Definition S2PTE_WO : Z := S2PTE_S2AP 2.
Definition S2PTE_RW : Z := S2PTE_S2AP 3.
Definition S2PTE_ATTR (attr : Z) : Z := Z.shiftl (Z.land attr 7) 2.
Definition AI_DEVICE_nGnRnE_IDX : Z := 0.
Definition AI_NORMAL_NC_IDX : Z := 1.
Definition AI_DEVICE_nGnRnE : Z := 0.
Definition AI_NORMAL_NC : Z := 0x44.
Definition S2PTE_NORMAL : Z := S2PTE_ATTR AI_NORMAL_NC_IDX.
Definition S2PTE_DEVICE : Z := S2PTE_ATTR AI_DEVICE_nGnRnE_IDX.

Record phys := mkPhys { p_mem : memory; p_pa : page_allocator }.
Definition set_mem (m : memory) (s : phys) : phys := mkPhys m (p_pa s).
Definition set_pa (a : page_allocator) (s : phys) : phys := mkPhys (p_mem s) a.
Definition on_mem {A} (m : M memory A) : M phys A := zoom p_mem set_mem m.
Definition on_pa {A} (m : M page_allocator A) : M phys A := zoom p_pa set_pa m.

(** * The routines *)

(** [&pgt[i]] *)
Definition pte_addr (pgt i : Z) : Z := u64 (pgt + 8 * i).

(** One iteration of the loop of [pagewalk]: the next table, or none when the
    function returns NULL. *)
Definition descend (level pgt va : Z) (need_alloc : bool) : M phys (option Z) :=
  let pte := pte_addr pgt (PIDX level va) in
  let! v := on_mem (load64 pte) in
  if negb (Z.land v PTE_VALID =? 0) && negb (Z.land v PTE_TABLE =? 0) then
    ret (Some (PTE_PA v))
  else if need_alloc then
    let! pgt' := on_pa alloc_page in
    (if pgt' =? 0 then panic else ret tt) ;;
    on_mem (store64 pte (Z.lor (Z.lor (PTE_PA pgt') PTE_TABLE) PTE_VALID)) ;;
    ret (Some pgt')
  else ret None.

(** [n] iterations from [level] on; NULL is 0. *)
Fixpoint walk (n : nat) (level pgt va : Z) (need_alloc : bool) : M phys Z :=
  match n with
  | O => ret (pte_addr pgt (PIDX level va))
  | S n' =>
      let! r := descend level pgt va need_alloc in
      match r with
      | Some pgt' => walk n' (level + 1) pgt' va need_alloc
      | None => ret 0
      end
  end.

Definition pagewalk (pgt va : Z) (need_alloc : bool) : M phys Z := walk 3 0 pgt va need_alloc.

(** The leaf entry [pagemap] writes. *)
Definition leaf_pte (pa attr : Z) : Z :=
  Z.lor (Z.lor (Z.lor (PTE_PA pa) S2PTE_AF) attr) PTE_V.

Fixpoint pagemap_loop (n : nat) (pgt va pa attr : Z) : M phys unit :=
  match n with
  | O => ret tt
  | S n' =>
      let! pte := pagewalk pgt va true in
      let! v := on_mem (load64 pte) in
      if negb (Z.land v PTE_AF =? 0) then panic else
      on_mem (store64 pte (leaf_pte pa attr)) ;;
      pagemap_loop n' pgt (u64 (va + PAGE_SIZE)) (u64 (pa + PAGE_SIZE)) attr
  end.

Definition pagemap (pgt va pa size attr : Z) : M phys unit :=
  if negb (va mod PAGE_SIZE =? 0) || negb (pa mod PAGE_SIZE =? 0) || negb (size mod PAGE_SIZE =? 0)
  then panic
  else pagemap_loop (Z.to_nat (size / PAGE_SIZE)) pgt va pa attr.

Fixpoint pageunmap_loop (n : nat) (pgt va : Z) : M phys unit :=
  match n with
  | O => ret tt
  | S n' =>
      let! pte := pagewalk pgt va false in
      let! v := on_mem (load64 pte) in
      if v =? 0 then panic else
      let pa := PTE_PA v in
      on_pa (free_page pa) ;;
      on_mem (store64 pte 0) ;;
      pageunmap_loop n' pgt (u64 (va + PAGE_SIZE))
  end.

Definition pageunmap (pgt va size : Z) : M phys unit :=
  if negb (va mod PAGE_SIZE =? 0) || negb (size mod PAGE_SIZE =? 0) then panic
  else pageunmap_loop (Z.to_nat (size / PAGE_SIZE)) pgt va.

Definition ipa2pa (pgt ipa : Z) : M phys Z :=
  if pgt =? 0 then ret 0 else
  let! pte := pagewalk pgt ipa false in
  if pte =? 0 then ret 0 else
  let off := Z.land ipa (PAGE_SIZE - 1) in
  let! v := on_mem (load64 pte) in
  ret (u64 (PTE_PA v + off)).

(** * What the tables mean *)

Definition entry (m : memory) (p i : Z) : Z := rd 8 m (p + 8 * i).
Definition is_table (e : Z) : bool := Z.testbit e 0 && Z.testbit e 1.

(** The leaf entry reached from the table [p] at [level], [n] levels above the
    leaves; 0 where the walk ends early. *)
Fixpoint xlate_from (n : nat) (m : memory) (level p va : Z) : Z :=
  match n with
  | O => entry m p (PIDX level va)
  | S n' =>
      let e := entry m p (PIDX level va) in
      if is_table e then xlate_from n' m (level + 1) (PTE_PA e) va else 0
  end.
Definition xlate (m : memory) (root va : Z) : Z := xlate_from 3 m 0 root va.

(** The table reached from [p] after [n] levels. *)
Fixpoint table_at (n : nat) (m : memory) (level p va : Z) : option Z :=
  match n with
  | O => Some p
  | S n' =>
      let e := entry m p (PIDX level va) in
      if is_table e then table_at n' m (level + 1) (PTE_PA e) va else None
  end.

(** * The invariant

    [T] gives the tables of one stage-2 tree and their levels.  They are
    allocated frames, every table entry of a non-leaf table leads to a table one
    level down, no table has two parents, and free frames are zero (fresh tables
    are not cleared by the code). *)

Definition frame_page (a : page_allocator) (p : Z) : Prop :=
  exists i, 0 <= i < total_pages a /\ p = frame_addr a i.
Definition used_page (a : page_allocator) (p : Z) : Prop :=
  exists i, 0 <= i < total_pages a /\ used a i = true /\ p = frame_addr a i.

Definition edge (m : memory) (T : gmap Z Z) (p i q : Z) : Prop :=
  exists l, T !! p = Some l /\ l < 3 /\ 0 <= i < 512 /\ is_table (entry m p i) = true /\ q = PTE_PA (entry m p i).

Record pt_inv (s : phys) (root : Z) (T : gmap Z Z) : Prop := {
  pi_wf : wf (p_pa s);
  pi_ram : 0 <= ram_lo (p_mem s) /\ ram_hi (p_mem s) < 2 ^ 64;
  pi_frames : forall i, 0 <= i < total_pages (p_pa s) ->
                in_ram (p_mem s) (frame_addr (p_pa s) i) 4096 = true;
  pi_48 : 0 < base_pfn (p_pa s) /\ base_pfn (p_pa s) + total_pages (p_pa s) <= 2 ^ 36;
  pi_root : T !! root = Some 0;
  pi_tables : forall p l, T !! p = Some l -> 0 <= l <= 3 /\ used_page (p_pa s) p;
  pi_edge : forall p i q l, T !! p = Some l -> edge (p_mem s) T p i q -> T !! q = Some (l + 1);
  pi_tree : forall p i p' i' q, edge (p_mem s) T p i q -> edge (p_mem s) T p' i' q -> p = p' /\ i = i';
  pi_zero : forall i b, i ∈ free_set (p_pa s) ->
              frame_addr (p_pa s) i <= b < frame_addr (p_pa s) i + 4096 -> peek (p_mem s) b = 0
}.

(** * Indices, addresses and entries *)

Lemma PIDX_range l va : 0 <= PIDX l va < 512.
Proof. unfold PIDX. change 0x1ff with (Z.ones 9). rewrite Z.land_ones by lia. apply Z.mod_pos_bound. lia. Qed.

Lemma PTE_PA_spec e : PTE_PA e = (e / 4096) mod 2 ^ 36 * 4096.
Proof.
  unfold PTE_PA. change 0xfffffffff000 with (Z.shiftl (Z.ones 36) 12).
  change 4096 with (2 ^ 12). rewrite <- Z.shiftr_div_pow2, <- Z.shiftl_mul_pow2, <- Z.land_ones by lia.
  apply Z.bits_inj'. intros i Hi. rewrite Z.land_spec, !Z.shiftl_spec by lia.
  destruct (Z.lt_ge_cases i 12).
  - rewrite !(Z.testbit_neg_r _ (i - 12)) by lia. apply andb_false_r.
  - rewrite Z.land_spec, Z.shiftr_spec by lia. do 2 f_equal. lia.
Qed.

Lemma PTE_PA_aligned e : PTE_PA e mod 4096 = 0.
Proof. rewrite PTE_PA_spec. apply Z.mod_mul. lia. Qed.

Lemma PTE_PA_small p : 0 <= p < 2 ^ 48 -> p mod 4096 = 0 -> PTE_PA p = p.
Proof.
  intros Hp Ha. rewrite PTE_PA_spec, Z.mod_small; pose proof (Z.div_mod p 4096); [lia|].
  split; [apply Z.div_pos; lia|apply Z.div_lt_upper_bound; lia].
Qed.

(** The attribute bits of a descriptor do not reach its address field. *)
Lemma PTE_PA_lor x y : PTE_PA (Z.lor x y) = Z.lor (PTE_PA x) (PTE_PA y).
Proof. apply Z.land_lor_distr_l. Qed.

Lemma table_pte_ok p :
  0 <= p < 2 ^ 48 -> p mod 4096 = 0 ->
  let e := Z.lor (Z.lor (PTE_PA p) PTE_TABLE) PTE_VALID in
  is_u64 e /\ is_table e = true /\ PTE_PA e = p.
Proof.
  intros Hp Ha e. subst e. rewrite (PTE_PA_small p) by done. split_and!.
  - split; [rewrite !Z.lor_nonneg; unfold PTE_TABLE, PTE_VALID; lia|].
    apply (lor_bound 64); [lia| |unfold PTE_VALID; lia].
    apply (lor_bound 64); [lia..|unfold PTE_TABLE; lia].
  - unfold is_table. rewrite !Z.lor_spec. unfold PTE_TABLE, PTE_VALID.
    change (Z.testbit 1 0) with true. change (Z.testbit 2 1) with true.
    rewrite !orb_true_r. done.
  - rewrite !PTE_PA_lor, (PTE_PA_small p) by done. unfold PTE_TABLE, PTE_VALID.
    change (PTE_PA 2) with 0. change (PTE_PA 1) with 0. by rewrite !Z.lor_0_r.
Qed.

(** The two tests of [pagewalk] are [is_table]. *)
Lemma is_table_test v :
  negb (Z.land v PTE_VALID =? 0) && negb (Z.land v PTE_TABLE =? 0) = is_table v.
Proof.
  unfold PTE_VALID, PTE_TABLE. change 1 with (2 ^ 0). change 2 with (2 ^ 1) at 2.
  rewrite !land_pow2_nonzero by lia. done.
Qed.

Lemma frame_addr_aligned a i : frame_addr a i mod 4096 = 0.
Proof. unfold frame_addr. apply Z.mod_mul. lia. Qed.

Lemma frame_addr_inj a i j : frame_addr a i = frame_addr a j -> i = j.
Proof. unfold frame_addr. lia. Qed.

Lemma entry_wr_same m p i v : entry (wr 8 (p + 8 * i) v m) p i = u64 v.
Proof. unfold entry. by rewrite rd_wr_same. Qed.

Lemma entry_wr_other m p i v q j :
  p mod 4096 = 0 -> q mod 4096 = 0 -> 0 <= i < 512 -> 0 <= j < 512 -> (q, j) <> (p, i) ->
  entry (wr 8 (p + 8 * i) v m) q j = entry m q j.
Proof.
  intros Hp Hq Hi Hj Hne. unfold entry. apply rd_wr_other.
  assert (q <> p \/ j <> i) as Hd by (destruct (decide (q = p)); [right|left]; congruence).
  pose proof (Z.div_mod p 4096). pose proof (Z.div_mod q 4096). lia.
Qed.

Lemma entry_range m p i : is_u64 (entry m p i).
Proof. apply (rd_range 8). Qed.

Lemma entry_zero m p i :
  0 <= i < 512 -> (forall b, p <= b < p + 4096 -> peek m b = 0) -> entry m p i = 0.
Proof.
  intros Hi Hz. unfold entry. rewrite (rd_ext 8 (mkMem 0 0 ∅) m); [reflexivity|].
  intros b Hb. rewrite Hz by lia. reflexivity.
Qed.

(** * Facts from the invariant *)

Section Inv.
Context (s : phys) (root : Z) (T : gmap Z Z) (I : pt_inv s root T).

Lemma frame_bounds i : 0 <= i < total_pages (p_pa s) -> 0 < frame_addr (p_pa s) i < 2 ^ 48.
Proof. intros Hi. destruct (pi_48 _ _ _ I). unfold frame_addr. lia. Qed.

Lemma table_page p l :
  T !! p = Some l -> p mod 4096 = 0 /\ 0 < p < 2 ^ 48 /\ in_ram (p_mem s) p 4096 = true.
Proof.
  intros (_ & i & Hi & _ & ->)%(pi_tables _ _ _ I). split; [apply frame_addr_aligned|].
  split; [by apply frame_bounds|by apply I].
Qed.

Lemma table_entry_in_ram p l i :
  T !! p = Some l -> 0 <= i < 512 ->
  pte_addr p i = p + 8 * i /\ in_ram (p_mem s) (p + 8 * i) 8 = true.
Proof.
  intros Hp Hi. destruct (table_page p l Hp) as (_ & ? & Hr). split.
  - unfold pte_addr. apply u64_small. unfold is_u64. lia.
  - eapply in_ram_sub; [exact Hr|lia..].
Qed.

(** A fresh frame is not a table. *)
Lemma free_not_table i : i ∈ free_set (p_pa s) -> T !! frame_addr (p_pa s) i = None.
Proof.
  intros [Hi Hu]%elem_free_set. destruct (T !! _) as [l|] eqn:E; [|done].
  apply (pi_tables _ _ _ I) in E as (_ & j & _ & Hj & Ej%frame_addr_inj). congruence.
Qed.

Lemma edge_of p l i :
  T !! p = Some l -> l < 3 -> 0 <= i < 512 -> is_table (entry (p_mem s) p i) = true ->
  T !! PTE_PA (entry (p_mem s) p i) = Some (l + 1).
Proof. intros. eapply (pi_edge _ _ _ I); [done|]. unfold edge. eauto 10. Qed.

(** Reading an entry of a table. *)
Lemma load_entry p l i Q :
  T !! p = Some l -> 0 <= i < 512 -> Q (entry (p_mem s) p i) s ->
  wp (on_mem (load64 (pte_addr p i))) Q s.
Proof.
  intros Hp Hi HQ. destruct (table_entry_in_ram p l i Hp Hi) as [-> Hr].
  unfold on_mem. rewrite wp_zoom. apply wp_load; [done|]. by destruct s.
Qed.

Lemma store_entry p l i v Q :
  T !! p = Some l -> 0 <= i < 512 -> Q tt (set_mem (wr 8 (p + 8 * i) v (p_mem s)) s) ->
  wp (on_mem (store64 (pte_addr p i) v)) Q s.
Proof.
  intros Hp Hi HQ. destruct (table_entry_in_ram p l i Hp Hi) as [-> Hr].
  unfold on_mem. rewrite wp_zoom. by apply wp_store.
Qed.

End Inv.

(** * What the routines may change *)

(** From [(s, T)] to [(s', T')]: tables are only added, out of free frames;
    frames are only taken; only bytes of tables change. *)
Record extends (s : phys) (T : gmap Z Z) (s' : phys) (T' : gmap Z Z) : Prop := {
  ex_sub : T ⊆ T';
  ex_new : forall q, is_Some (T' !! q) -> T !! q = None ->
             exists i, i ∈ free_set (p_pa s) /\ i ∉ free_set (p_pa s') /\ q = frame_addr (p_pa s) i;
  ex_total : total_pages (p_pa s') = total_pages (p_pa s);
  ex_base : base_pfn (p_pa s') = base_pfn (p_pa s);
  ex_free : free_set (p_pa s') ⊆ free_set (p_pa s);
  ex_lo : ram_lo (p_mem s') = ram_lo (p_mem s);
  ex_hi : ram_hi (p_mem s') = ram_hi (p_mem s);
  ex_mem : forall b, (forall p, is_Some (T' !! p) -> b < p \/ p + 4096 <= b) ->
             peek (p_mem s') b = peek (p_mem s) b
}.

Lemma extends_refl s T : extends s T s T.
Proof. split; try done. intros q [l Hq] Hn. congruence. Qed.

Lemma frame_addr_base a a' i : base_pfn a' = base_pfn a -> frame_addr a' i = frame_addr a i.
Proof. unfold frame_addr. by intros ->. Qed.

Lemma extends_trans s T s1 T1 s2 T2 :
  extends s T s1 T1 -> extends s1 T1 s2 T2 -> extends s T s2 T2.
Proof.
  intros [A1 A2 A3 A4 A5 A6 A7 A8] [B1 B2 B3 B4 B5 B6 B7 B8]. split; try congruence.
  - by etrans.
  - intros q Hq Hn. destruct (T1 !! q) as [l|] eqn:E.
    + destruct (A2 q) as (i & ? & ? & ->); [by eexists|done|]. exists i. set_solver.
    + destruct (B2 q) as (i & ? & ? & ->); [done..|]. exists i. rewrite (frame_addr_base (p_pa s)) by done.
      set_solver.
  - set_solver.
  - intros b Hb. rewrite B8 by done. apply A8. intros p [l Hp]. apply Hb.
    exists l. by eapply lookup_weaken.
Qed.

(** * Adding a table *)

Section NewTable.
Context (s : phys) (root : Z) (T : gmap Z Z) (I : pt_inv s root T).
Context (p l va f : Z) (a' : page_allocator).
Context (Hp : T !! p = Some l) (Hl : l < 3).
Context (Hno : is_table (entry (p_mem s) p (PIDX l va)) = false).
Context (Hf : f ∈ free_set (p_pa s)) (Hwf' : wf a').
Context (Htot : total_pages a' = total_pages (p_pa s)) (Hbase : base_pfn a' = base_pfn (p_pa s)).
Context (Hfree : free_set a' = free_set (p_pa s) ∖ {[f]}).

Let q := frame_addr (p_pa s) f.
Let idx := PIDX l va.
Let pte := Z.lor (Z.lor (PTE_PA q) PTE_TABLE) PTE_VALID.
Let m' := wr 8 (p + 8 * idx) pte (p_mem s).
Let s' := mkPhys m' a'.
Let T' := <[q := l + 1]> T.

Lemma nt_f : 0 <= f < total_pages (p_pa s).
Proof. apply elem_free_set in Hf. tauto. Qed.

Lemma nt_pte : is_u64 pte /\ is_table pte = true /\ PTE_PA pte = q.
Proof.
  pose proof (frame_bounds s root T I f nt_f).
  apply table_pte_ok; [unfold q; lia|apply frame_addr_aligned].
Qed.

Lemma nt_qp : q <> p.
Proof. intros E. pose proof (free_not_table s root T I f Hf) as H. fold q in H. rewrite E in H. congruence. Qed.

Lemma nt_entry_new : entry m' p idx = pte.
Proof. unfold m'. rewrite entry_wr_same. apply u64_small, nt_pte. Qed.

Lemma nt_entry_old p0 l0 i :
  T !! p0 = Some l0 -> 0 <= i < 512 -> (p0, i) <> (p, idx) -> entry m' p0 i = entry (p_mem s) p0 i.
Proof.
  intros Hp0 Hi Hne. unfold m'. apply entry_wr_other; [| |apply PIDX_range|done|done].
  - by eapply table_page.
  - by eapply table_page.
Qed.

Lemma nt_peek_q b : q <= b < q + 4096 -> peek m' b = 0.
Proof.
  intros Hb. unfold m'. rewrite peek_wr_other.
  - eapply (pi_zero _ _ _ I); [exact Hf|exact Hb].
  - pose proof nt_qp. destruct (table_page s root T I p l Hp) as (Ha & _ & _).
    pose proof (PIDX_range l va : 0 <= idx < 512). pose proof (frame_addr_aligned (p_pa s) f) as Hq. fold q in Hq.
    pose proof (Z.div_mod p 4096). pose proof (Z.div_mod q 4096). lia.
Qed.

Lemma nt_entry_q i : 0 <= i < 512 -> entry m' q i = 0.
Proof. intros Hi. apply entry_zero; [done|]. apply nt_peek_q. Qed.

Lemma nt_xlate n l0 p0 va' :
  T !! p0 = Some l0 -> l0 + Z.of_nat n = 3 -> xlate_from n m' l0 p0 va' = xlate_from n (p_mem s) l0 p0 va'.
Proof.
  revert l0 p0. induction n as [|n IH]; intros l0 p0 Hp0 Hn; cbn [xlate_from].
  - apply (nt_entry_old p0 l0); [done|apply PIDX_range|]. intros [= -> _]. rewrite Hp in Hp0. injection Hp0. lia.
  - destruct (decide ((p0, PIDX l0 va') = (p, idx))) as [E|Hne].
    + injection E as -> Ei. assert (l0 = l) as -> by congruence. rewrite Ei, nt_entry_new.
      unfold idx. rewrite Hno. destruct nt_pte as (_ & -> & ->).
      destruct n; cbn [xlate_from]; rewrite nt_entry_q by apply PIDX_range; done.
    + rewrite (nt_entry_old p0 l0 (PIDX l0 va') Hp0 (PIDX_range _ _) Hne).
      destruct (is_table (entry (p_mem s) p0 (PIDX l0 va'))) eqn:Et; [|done]. apply IH; [|lia].
      apply (edge_of s root T I p0 l0); [done|lia|apply PIDX_range|done].
Qed.

Lemma nt_used i : 0 <= i < total_pages (p_pa s) -> used a' i = (i =? f) || used (p_pa s) i.
Proof.
  intros Hi. assert (i ∈ free_set a' <-> i ∈ free_set (p_pa s) ∖ {[f]}) as E by by rewrite Hfree.
  rewrite elem_of_difference, !elem_free_set, elem_of_singleton, Htot in E.
  destruct (used a' i), (used (p_pa s) i), (Z.eqb_spec i f); simpl; try done; exfalso; naive_solver lia.
Qed.

Lemma nt_edge p0 i q0 :
  edge m' T' p0 i q0 -> (p0 = p /\ i = idx /\ q0 = q) \/ (edge (p_mem s) T p0 i q0 /\ q0 <> q).
Proof.
  intros (l0 & Hp0 & Hl0 & Hi & Ht & ->). unfold T' in Hp0.
  apply lookup_insert_Some in Hp0 as [[<- <-]|[Hne Hp0]].
  { rewrite nt_entry_q in Ht by done. done. }
  destruct (decide ((p0, i) = (p, idx))) as [[= -> ->]|Hne'].
  - left. rewrite nt_entry_new. destruct nt_pte as (_ & _ & ->). done.
  - right. rewrite (nt_entry_old p0 l0) in Ht |- * by done.
    split; [unfold edge; eauto 10|]. intros E.
    pose proof (edge_of s root T I p0 l0 i Hp0 Hl0 Hi Ht) as H. rewrite E in H.
    unfold q in H. rewrite (free_not_table s root T I f Hf) in H. done.
Qed.

Lemma nt_inv : pt_inv s' root T'.
Proof.
  pose proof nt_qp as Hqp. pose proof I as [I1 I2 I3 I4 I5 I6 I7 I8 I9].
  assert (Hfa : forall i, frame_addr a' i = frame_addr (p_pa s) i) by (intros; by apply frame_addr_base).
  destruct (wr_bounds 8 (p + 8 * idx) pte (p_mem s)) as [E1 E2]. fold m' in E1, E2.
  split; simpl; rewrite ?Htot, ?Hbase, ?E1, ?E2; try done.
  - intros i Hi. rewrite Hfa. unfold m'. rewrite in_ram_wr. by apply I3.
  - unfold T'. rewrite lookup_insert_ne; [done|]. intros E. unfold q in E.
    rewrite <- E, (free_not_table s root T I f Hf) in I5. done.
  - intros p0 l0 [[<- <-]|[Hne Hp0]]%lookup_insert_Some.
    + destruct (I6 p l Hp) as [? _]. split; [lia|]. exists f. rewrite Htot, Hfa.
      split; [apply nt_f|]. split; [|done]. rewrite nt_used, Z.eqb_refl by apply nt_f. done.
    + destruct (I6 p0 l0 Hp0) as (? & i & Hi & Hu & ->). split; [done|]. exists i. rewrite Htot, Hfa.
      split; [done|]. split; [|done]. rewrite nt_used, Hu by done. apply orb_true_r.
  - intros p0 i q0 l0 Hp0 [(-> & -> & ->)|[He Hq0]]%nt_edge.
    + unfold T' in Hp0. rewrite lookup_insert_ne in Hp0 by done.
      assert (l0 = l) as -> by congruence. apply lookup_insert_eq.
    + unfold T' in *. rewrite lookup_insert_ne by done. pose proof He as (l1 & Hp1 & _).
      assert (p0 <> q). { intros ->. unfold q in Hp1. rewrite (free_not_table s root T I f Hf) in Hp1. done. }
      rewrite lookup_insert_ne in Hp0 by done. by eapply I7.
  - intros p0 i p1 i1 q0 [(-> & -> & ->)|[He Hq0]]%nt_edge [(-> & -> & ?)|[He1 Hq1]]%nt_edge; try done.
    by eapply I8.
  - intros i b Hi Hb. rewrite Hfa in Hb. rewrite Hfree in Hi. apply elem_of_difference in Hi as [Hi Hif].
    unfold m'. rewrite peek_wr_other; [by eapply I9|].
    pose proof (free_not_table s root T I i Hi) as Hit.
    assert (frame_addr (p_pa s) i <> p) by congruence.
    destruct (table_page s root T I p l Hp) as (Ha & _ & _). pose proof (PIDX_range l va : 0 <= idx < 512).
    pose proof (frame_addr_aligned (p_pa s) i). pose proof (Z.div_mod p 4096).
    pose proof (Z.div_mod (frame_addr (p_pa s) i) 4096). lia.
Qed.

Lemma nt_extends : extends s T s' T'.
Proof.
  destruct (wr_bounds 8 (p + 8 * idx) pte (p_mem s)) as [E1 E2].
  split; simpl; try done.
  - apply insert_subseteq. apply (free_not_table s root T I f Hf).
  - intros q0 [l0 Hq0] Hn. unfold T' in Hq0. apply lookup_insert_Some in Hq0 as [[<- <-]|[_ ?]]; [|congruence].
    exists f. rewrite Hfree. set_solver.
  - rewrite Hfree. set_solver.
  - intros b Hb. unfold m'. apply peek_wr_other. pose proof (PIDX_range l va : 0 <= idx < 512).
    destruct (Hb p); [|lia..]. exists l. unfold T'. rewrite lookup_insert_ne by apply nt_qp. done.
Qed.

End NewTable.

(** * Walking *)

(** A walk that may not allocate only reads. *)
Lemma walk_read s root T n l p va :
  pt_inv s root T -> T !! p = Some l -> l + Z.of_nat n = 3 ->
  wp (walk n l p va false) (fun r s' => s' = s /\
    match table_at n (p_mem s) l p va with
    | Some q => T !! q = Some 3 /\ r = pte_addr q (PIDX 3 va) /\ r <> 0
    | None => r = 0
    end) s.
Proof.
  intros I. revert l p. induction n as [|n IH]; intros l p Hp Hn; cbn [walk table_at].
  - wp_steps. assert (l = 3) as -> by lia. split_and!; try done.
    destruct (table_entry_in_ram s root T I p 3 (PIDX 3 va) Hp (PIDX_range _ _)) as [-> _].
    pose proof (PIDX_range 3 va). destruct (table_page s root T I p 3 Hp) as (_ & ? & _). lia.
  - rewrite wp_bind. unfold descend. rewrite wp_bind.
    apply (load_entry s root T I p l); [done|apply PIDX_range|].
    rewrite is_table_test. destruct (is_table _) eqn:Et; wp_steps; [|done].
    apply IH; [|lia]. apply (edge_of s root T I p l); [done|lia|apply PIDX_range|done].
Qed.

Lemma table_at_xlate n m l p va :
  xlate_from n m l p va =
    match table_at n m l p va with Some q => entry m q (PIDX (l + Z.of_nat n) va) | None => 0 end.
Proof.
  revert l p. induction n as [|n IH]; intros l p; cbn [xlate_from table_at].
  - by rewrite Z.add_0_r.
  - destruct (is_table _); [|done]. rewrite IH. replace (l + 1 + Z.of_nat n) with (l + Z.of_nat (S n)) by lia. done.
Qed.

Lemma descend_alloc s root T l p va :
  pt_inv s root T -> T !! p = Some l -> l < 3 -> (0 < size (free_set (p_pa s)))%nat ->
  wp (descend l p va true) (fun r s' => exists q T', r = Some q /\
    pt_inv s' root T' /\ extends s T s' T' /\ T' !! q = Some (l + 1) /\
    is_table (entry (p_mem s') p (PIDX l va)) = true /\ PTE_PA (entry (p_mem s') p (PIDX l va)) = q /\
    (forall p' l' i, T !! p' = Some l' -> 0 <= i < 512 -> (p', i) <> (p, PIDX l va) ->
       entry (p_mem s') p' i = entry (p_mem s) p' i) /\
    (forall va', xlate (p_mem s') root va' = xlate (p_mem s) root va') /\
    (size (free_set (p_pa s)) <= S (size (free_set (p_pa s'))))%nat) s.
Proof.
  intros I Hp Hl Hsz. unfold descend. rewrite wp_bind.
  apply (load_entry s root T I p l); [done|apply PIDX_range|]. rewrite is_table_test.
  destruct (is_table _) eqn:Et.
  - wp_steps. exists (PTE_PA (entry (p_mem s) p (PIDX l va))), T.
    pose proof (edge_of s root T I p l _ Hp Hl (PIDX_range _ _) Et).
    split_and!; try done; [apply extends_refl|lia].
  - rewrite wp_bind. unfold on_pa. rewrite wp_zoom.
    eapply wp_mono; [|apply alloc_page_frame; [apply I|]].
    2:{ intros E. rewrite E, size_empty in Hsz. lia. }
    intros r a' (f & Hf & -> & Hwf & Ht & Hb & Hfr). cbn beta.
    assert (Hfi : 0 <= f < total_pages (p_pa s)) by (apply elem_free_set in Hf; tauto).
    pose proof (frame_bounds s root T I f Hfi) as Hfb.
    destruct (Z.eqb_spec (frame_addr (p_pa s) f) 0); [lia|]. wp_step. wp_step. rewrite wp_bind.
    destruct (table_entry_in_ram s root T I p l (PIDX l va) Hp (PIDX_range _ _)) as [Epa Hr].
    unfold on_mem. rewrite wp_zoom, Epa. apply wp_store; [done|]. simpl. rewrite wp_ret.
    exists (frame_addr (p_pa s) f), (<[frame_addr (p_pa s) f := l + 1]> T).
    destruct (nt_pte s root T I l va f Hf) as (_ & Hit & Hpa).
    pose proof (nt_entry_new s root T I p l va f Hf) as En.
    split_and!.
    + done.
    + by apply (nt_inv s root T I p l va f a').
    + by apply (nt_extends s root T I p l va f a').
    + apply lookup_insert_eq.
    + simpl. rewrite En. done.
    + simpl. rewrite En. done.
    + intros p' l' i Hp' Hi Hne. simpl. by apply (nt_entry_old s root T I p l va f Hp p' l').
    + intros va'. unfold xlate. simpl p_mem.
      apply (nt_xlate s root T I p l va f Hp Hl Et Hf); [apply I|done].
    + simpl. rewrite Hfr, size_difference, size_singleton by set_solver. lia.
Qed.

Lemma walk_alloc s root T n l p va :
  pt_inv s root T -> T !! p = Some l -> l + Z.of_nat n = 3 -> (n <= size (free_set (p_pa s)))%nat ->
  wp (walk n l p va true) (fun r s' => exists q T', r = pte_addr q (PIDX 3 va) /\ T' !! q = Some 3 /\
    pt_inv s' root T' /\ extends s T s' T' /\ table_at n (p_mem s') l p va = Some q /\
    (forall p' l' i, T !! p' = Some l' -> l' < l -> 0 <= i < 512 ->
       entry (p_mem s') p' i = entry (p_mem s) p' i) /\
    (forall va', xlate (p_mem s') root va' = xlate (p_mem s) root va') /\
    (size (free_set (p_pa s)) <= n + size (free_set (p_pa s')))%nat) s.
Proof.
  revert s T l p. induction n as [|n IH]; intros s T l p I Hp Hn Hsz; cbn [walk].
  - wp_steps. assert (l = 3) as -> by lia. exists p, T. split_and!; try done. apply extends_refl.
  - rewrite wp_bind. eapply wp_mono; [|apply (descend_alloc s root T l p va I Hp); lia].
    intros r s1 (q1 & T1 & -> & I1 & X1 & Hq1 & Ht1 & Hpa1 & He1 & Hx1 & Hs1). cbn iota beta.
    eapply wp_mono; [|apply (IH s1 T1 (l + 1) q1 I1 Hq1); lia].
    intros r s2 (q & T2 & -> & Hq & I2 & X2 & Hta & He2 & Hx2 & Hs2).
    pose proof (lookup_weaken _ _ _ _ Hp (ex_sub _ _ _ _ X1)) as Hp1.
    exists q, T2. split_and!; try done.
    + by eapply extends_trans.
    + cbn [table_at]. rewrite (He2 p l) by (done || lia || apply PIDX_range). by rewrite Ht1, Hpa1.
    + intros p' l' i Hp' Hl' Hi.
      pose proof (lookup_weaken _ _ _ _ Hp' (ex_sub _ _ _ _ X1)).
      rewrite (He2 p' l') by (done || lia). apply (He1 p' l'); [done..|].
      intros [= -> _]. rewrite Hp in Hp'. injection Hp'. lia.
    + intros va'. by rewrite Hx2, Hx1.
    + lia.
Qed.

(** * Which addresses share a leaf entry *)

(** The page number the four indices are cut from. *)
Definition vpn (va : Z) : Z := (va / 4096) mod 2 ^ 36.

Lemma testbit_PIDX l va i : 0 <= l <= 3 -> 0 <= i ->
  Z.testbit (PIDX l va) i = (i <? 9) && Z.testbit va (i + (39 - l * 9)).
Proof.
  intros Hl Hi. unfold PIDX. change 0x1ff with (Z.ones 9).
  rewrite Z.land_spec, Z.shiftr_spec by lia. rewrite Z.testbit_ones by lia.
  destruct (Z.leb_spec 0 i); [|lia]. simpl. apply andb_comm.
Qed.

Lemma testbit_vpn va i : 0 <= i -> Z.testbit (vpn va) i = (i <? 36) && Z.testbit va (i + 12).
Proof.
  intros Hi. unfold vpn. change 4096 with (2 ^ 12). rewrite <- Z.shiftr_div_pow2, <- Z.land_ones by lia.
  rewrite Z.land_spec, Z.shiftr_spec, Z.testbit_ones by lia.
  destruct (Z.leb_spec 0 i); [|lia]. simpl. apply andb_comm.
Qed.

Lemma vpn_PIDX va va' : vpn va = vpn va' <-> forall l, 0 <= l <= 3 -> PIDX l va = PIDX l va'.
Proof.
  split.
  - intros E l Hl. apply Z.bits_inj'. intros i Hi. rewrite !testbit_PIDX by done.
    destruct (Z.ltb_spec i 9); [|done]. simpl.
    pose proof (f_equal (fun x => Z.testbit x (i + (27 - l * 9))) E) as Eb. cbn beta in Eb.
    rewrite !testbit_vpn in Eb by lia. destruct (Z.ltb_spec (i + (27 - l * 9)) 36); [|lia]. simpl in Eb.
    replace (i + (27 - l * 9) + 12) with (i + (39 - l * 9)) in Eb by lia. done.
  - intros E. apply Z.bits_inj'. intros i Hi. rewrite !testbit_vpn by done.
    destruct (Z.ltb_spec i 36); [|done]. simpl. set (l := 3 - i / 9).
    pose proof (Z.div_mod i 9). pose proof (Z.mod_pos_bound i 9). assert (0 <= l <= 3) as Hl by lia.
    pose proof (f_equal (fun x => Z.testbit x (i mod 9)) (E l Hl)) as Eb. cbn beta in Eb.
    rewrite !testbit_PIDX in Eb by lia. destruct (Z.ltb_spec (i mod 9) 9); [|lia]. simpl in Eb.
    replace (i mod 9 + (39 - l * 9)) with (i + 12) in Eb by lia. done.
Qed.

(** * Writing a leaf entry *)

Section Leaf.
Context (s : phys) (root : Z) (T : gmap Z Z) (I : pt_inv s root T).

Lemma table_at_in n l p va q :
  T !! p = Some l -> l + Z.of_nat n = 3 -> table_at n (p_mem s) l p va = Some q -> T !! q = Some 3.
Proof.
  revert l p. induction n as [|n IH]; intros l p Hp Hn; cbn [table_at].
  - intros [= <-]. by replace 3 with l by lia.
  - destruct (is_table _) eqn:Et; [|done]. apply IH; [|lia].
    apply (edge_of s root T I p l); [done|lia|apply PIDX_range|done].
Qed.

(** Two walks that meet have come the same way. *)
Lemma table_at_unique n l p p' va va' q :
  T !! p = Some l -> T !! p' = Some l -> 0 <= l -> l + Z.of_nat n = 3 ->
  table_at n (p_mem s) l p va = Some q -> table_at n (p_mem s) l p' va' = Some q ->
  p = p' /\ forall k, l <= k < 3 -> PIDX k va = PIDX k va'.
Proof.
  revert l p p'. induction n as [|n IH]; intros l p p' Hp Hp' Hl Hn; cbn [table_at].
  - intros [= <-] [= <-]. split; [done|lia].
  - destruct (is_table _) eqn:Et; [|done]. destruct (is_table (entry _ p' _)) eqn:Et'; [|done].
    intros H H'. pose proof (PIDX_range l va) as R. pose proof (PIDX_range l va') as R'.
    destruct (IH (l + 1) _ _ (edge_of s root T I p l _ Hp ltac:(lia) R Et)
                (edge_of s root T I p' l _ Hp' ltac:(lia) R' Et') ltac:(lia) ltac:(lia) H H') as [E Hk].
    assert (l < 3) by lia.
    destruct (pi_tree _ _ _ I p (PIDX l va) p' (PIDX l va') (PTE_PA (entry (p_mem s) p (PIDX l va)))) as [-> Ei].
    { unfold edge; eauto 10. } { unfold edge. eauto 10. }
    split; [done|]. intros k Hkr. destruct (decide (k = l)) as [->|]; [done|apply Hk; lia].
Qed.

Context (q va v : Z) (Hq : T !! q = Some 3) (Hta : table_at 3 (p_mem s) 0 root va = Some q).
Let m' := wr 8 (q + 8 * PIDX 3 va) v (p_mem s).

Lemma leaf_entry_other p l i :
  T !! p = Some l -> 0 <= i < 512 -> (p, i) <> (q, PIDX 3 va) -> entry m' p i = entry (p_mem s) p i.
Proof.
  intros Hp Hi Hne. unfold m'. apply entry_wr_other; [| |apply PIDX_range|done|done].
  - apply (table_page s root T I q 3 Hq).
  - apply (table_page s root T I p l Hp).
Qed.

Lemma leaf_table_at n l p va' :
  T !! p = Some l -> l + Z.of_nat n = 3 -> table_at n m' l p va' = table_at n (p_mem s) l p va'.
Proof.
  revert l p. induction n as [|n IH]; intros l p Hp Hn; cbn [table_at]; [done|].
  rewrite (leaf_entry_other p l) by (done || apply PIDX_range || (intros [= -> _]; rewrite Hq in Hp; injection Hp; lia)).
  destruct (is_table _) eqn:Et; [|done]. apply IH; [|lia].
  apply (edge_of s root T I p l); [done|lia|apply PIDX_range|done].
Qed.

Lemma leaf_xlate va' :
  xlate m' root va' = if vpn va' =? vpn va then u64 v else xlate (p_mem s) root va'.
Proof.
  unfold xlate. rewrite !table_at_xlate, leaf_table_at by (apply I || done).
  change (0 + Z.of_nat 3) with 3. destruct (Z.eqb_spec (vpn va') (vpn va)) as [E|E].
  - rewrite vpn_PIDX in E.
    assert (table_at 3 (p_mem s) 0 root va' = Some q) as ->.
    { rewrite <- Hta. cbn [table_at]. by rewrite !E by lia. }
    rewrite E by lia. unfold m'. by rewrite entry_wr_same.
  - destruct (table_at 3 (p_mem s) 0 root va') as [q'|] eqn:Eq; [|done].
    pose proof (table_at_in 3 0 root va' q' (pi_root _ _ _ I) eq_refl Eq) as Hq'.
    apply (leaf_entry_other q' 3); [done|apply PIDX_range|]. intros [= -> Ei]. apply E.
    rewrite vpn_PIDX. intros l Hl. destruct (decide (l = 3)) as [->|]; [done|].
    destruct (table_at_unique 3 0 root root va' va q) as [_ Hk]; try done; try apply I.
    apply Hk. lia.
Qed.

Lemma leaf_edge p i q0 : edge m' T p i q0 <-> edge (p_mem s) T p i q0.
Proof.
  split; intros (l & Hp & Hl & Hi & Ht & ->); exists l;
    rewrite (leaf_entry_other p l) in * by (done || (intros [= -> _]; rewrite Hq in Hp; injection Hp; lia));
    eauto 10.
Qed.

Lemma leaf_inv : pt_inv (set_mem m' s) root T.
Proof.
  pose proof I as [I1 I2 I3 I4 I5 I6 I7 I8 I9].
  destruct (wr_bounds 8 (q + 8 * PIDX 3 va) v (p_mem s)) as [E1 E2].
  split; simpl; fold m' in E1, E2; rewrite ?E1, ?E2; try done.
  - intros p i q0 l Hp He%leaf_edge. by eapply I7.
  - intros p i p' i' q0 He%leaf_edge He'%leaf_edge. by eapply I8.
  - intros i b Hi Hb. unfold m'. rewrite peek_wr_other; [by eapply I9|].
    pose proof (free_not_table s root T I i Hi) as Hit.
    assert (frame_addr (p_pa s) i <> q) by congruence.
    destruct (table_page s root T I q 3 Hq) as (Ha & _ & _). pose proof (PIDX_range 3 va).
    pose proof (frame_addr_aligned (p_pa s) i). pose proof (Z.div_mod q 4096).
    pose proof (Z.div_mod (frame_addr (p_pa s) i) 4096). lia.
Qed.

Lemma leaf_extends : extends s T (set_mem m' s) T.
Proof.
  destruct (wr_bounds 8 (q + 8 * PIDX 3 va) v (p_mem s)) as [E1 E2].
  split; simpl; try done.
  - intros p [l Hp] Hn. congruence.
  - intros b Hb. unfold m'. apply peek_wr_other. pose proof (PIDX_range 3 va).
    destruct (Hb q); [by exists 3|lia..].
Qed.

End Leaf.

(** * pagemap *)

(** The leaf entries after mapping [n] pages from [va] to [pa]. *)
Definition mapped (old : Z -> Z) (n va pa attr va' : Z) : Z :=
  let k := vpn va' - vpn va in
  if (0 <=? k) && (k <? n) then leaf_pte (pa + 4096 * k) attr else old va'.

(** The first page, then the others. *)
Lemma mapped_cons old (n : nat) va pa attr va' :
  vpn (va + 4096) = vpn va + 1 \/ n = 0%nat ->
  mapped (fun x => if vpn x =? vpn va then leaf_pte pa attr else old x) (Z.of_nat n) (va + 4096) (pa + 4096) attr va'
  = mapped old (Z.of_nat (S n)) va pa attr va'.
Proof.
  intros Hv. unfold mapped. set (k := vpn va' - vpn va).
  assert (Hk : vpn va' =? vpn va = (k =? 0)).
  { unfold k. destruct (Z.eqb_spec (vpn va') (vpn va)), (Z.eqb_spec (vpn va' - vpn va) 0); lia || done. }
  rewrite Hk. destruct Hv as [-> | ->].
  - replace (vpn va' - (vpn va + 1)) with (k - 1) by lia.
    destruct (Z.leb_spec 0 (k - 1)), (Z.ltb_spec (k - 1) (Z.of_nat n)), (Z.eqb_spec k 0),
      (Z.leb_spec 0 k), (Z.ltb_spec k (Z.of_nat (S n))); cbn [andb]; try lia; try done; f_equal; lia.
  - set (k' := vpn va' - _). replace ((0 <=? k') && (k' <? Z.of_nat 0)) with false.
    2:{ destruct (Z.leb_spec 0 k'), (Z.ltb_spec k' (Z.of_nat 0)); lia || done. }
    destruct (Z.eqb_spec k 0), (Z.leb_spec 0 k), (Z.ltb_spec k (Z.of_nat 1)); cbn [andb]; try lia; try done; f_equal; lia.
Qed.

Lemma vpn_small va : 0 <= va < 2 ^ 48 -> vpn va = va / 4096.
Proof.
  intros. unfold vpn. apply Z.mod_small. split; [apply Z.div_pos; lia|apply Z.div_lt_upper_bound; lia].
Qed.

Lemma leaf_pte_u64 pa attr : is_u64 attr -> u64 (leaf_pte pa attr) = leaf_pte pa attr.
Proof.
  intros Ha. apply u64_small. unfold leaf_pte, is_u64 in *.
  assert (0 <= PTE_PA pa < 2 ^ 64).
  { rewrite PTE_PA_spec. pose proof (Z.mod_pos_bound (pa / 4096) (2 ^ 36)). lia. }
  assert (0 <= S2PTE_AF < 2 ^ 64) by (vm_compute; split; congruence).
  repeat apply lor_bound; unfold PTE_V; lia.
Qed.

Lemma pagemap_loop_ok s root T n va pa attr :
  pt_inv s root T -> is_u64 attr -> (3 * n <= size (free_set (p_pa s)))%nat ->
  va mod 4096 = 0 -> 0 <= va -> va + 4096 * Z.of_nat n <= 2 ^ 48 ->
  0 <= pa -> pa + 4096 * Z.of_nat n < 2 ^ 64 ->
  (forall k, 0 <= k < Z.of_nat n -> Z.land (xlate (p_mem s) root (va + 4096 * k)) PTE_AF = 0) ->
  wp (pagemap_loop n root va pa attr) (fun _ s' => exists T', pt_inv s' root T' /\ extends s T s' T' /\
    (forall va', xlate (p_mem s') root va' = mapped (xlate (p_mem s) root) (Z.of_nat n) va pa attr va') /\
    (size (free_set (p_pa s)) <= 3 * n + size (free_set (p_pa s')))%nat) s.
Proof.
  revert s T va pa. induction n as [|n IH]; intros s T va pa I Ha Hsz Hal Hva Hvn Hpa Hpn Haf; cbn [pagemap_loop].
  - wp_steps. exists T. split_and!; [done|apply extends_refl| |lia].
    intros va'. unfold mapped. destruct (Z.leb_spec 0 (vpn va' - vpn va)), (Z.ltb_spec (vpn va' - vpn va) (Z.of_nat 0)); try done; lia.
  - rewrite wp_bind. unfold pagewalk.
    eapply wp_mono; [|apply (walk_alloc s root T 3 0 root va I (pi_root _ _ _ I)); lia].
    intros r s1 (q & T1 & -> & Hq & I1 & X1 & Hta & _ & Hx1 & Hs1). cbn beta.
    rewrite wp_bind. apply (load_entry s1 root T1 I1 q 3); [done|apply PIDX_range|].
    assert (entry (p_mem s1) q (PIDX 3 va) = xlate (p_mem s) root va) as ->.
    { rewrite <- Hx1. unfold xlate. by rewrite table_at_xlate, Hta. }
    specialize (Haf 0 ltac:(lia)) as Haf0. rewrite Z.add_0_r in Haf0. rewrite Haf0. cbn [negb Z.eqb].
    rewrite wp_bind. apply (store_entry s1 root T1 I1 q 3); [done|apply PIDX_range|].
    set (m2 := wr 8 _ _ _). set (s2 := set_mem m2 s1).
    assert (I2 : pt_inv s2 root T1) by by apply (leaf_inv s1 root T1 I1 q va).
    assert (X2 : extends s1 T1 s2 T1) by by apply (leaf_extends s1 T1 q va).
    assert (Hx2 : forall va', xlate (p_mem s2) root va' =
       if vpn va' =? vpn va then leaf_pte pa attr else xlate (p_mem s) root va').
    { intros va'. rewrite <- Hx1, <- (leaf_pte_u64 pa attr) by done. by apply (leaf_xlate s1 root T1 I1 q va). }
    unfold PAGE_SIZE. rewrite !u64_small by (unfold is_u64; lia).
    assert (vpn (va + 4096) = vpn va + 1 \/ n = 0%nat) as Hv1.
    { destruct (decide (n = 0%nat)) as [|Hn0]; [by right|left].
      rewrite (vpn_small (va + 4096)), (vpn_small va) by lia.
      replace (va + 4096) with (va + 1 * 4096) by lia. apply Z.div_add. lia. }
    eapply wp_mono; [|apply (IH s2 T1 (va + 4096) (pa + 4096)); try done; try lia].
    + intros ? s3 (T3 & I3 & X3 & Hx3 & Hs3). exists T3. change (p_pa s2) with (p_pa s1) in Hs3. split_and!; [done| | |lia].
      { eapply extends_trans; [done|]. by eapply extends_trans. }
      intros va'. rewrite Hx3. rewrite <- (mapped_cons _ n va pa attr va' Hv1). unfold mapped. by rewrite Hx2.
    + simpl. lia.
    + rewrite <- Z.add_mod_idemp_r, Z.mod_same, Z.add_0_r by lia. done.
    + intros k Hk. rewrite Hx2.
      destruct (Z.eqb_spec (vpn (va + 4096 + 4096 * k)) (vpn va)) as [E|_].
      * exfalso. rewrite !vpn_small in E by lia.
        replace (va + 4096 + 4096 * k) with (va + (1 + k) * 4096) in E by lia. rewrite Z.div_add in E by lia. lia.
      * replace (va + 4096 + 4096 * k) with (va + 4096 * (k + 1)) by lia. apply Haf. lia.
Qed.

(** * ipa2pa *)

Lemma land_off x : Z.land x (PAGE_SIZE - 1) = x mod 4096.
Proof. change (PAGE_SIZE - 1) with (Z.ones 12). by rewrite Z.land_ones. Qed.

Lemma ipa2pa_ok s root T ipa :
  pt_inv s root T ->
  wp (ipa2pa root ipa) (fun r s' => s' = s /\
    r = match table_at 3 (p_mem s) 0 root ipa with
        | Some _ => PTE_PA (xlate (p_mem s) root ipa) + ipa mod 4096
        | None => 0
        end) s.
Proof.
  intros I. pose proof (pi_root _ _ _ I) as Hr. destruct (table_page s root T I root 0 Hr) as (_ & Hrb & _).
  unfold ipa2pa. destruct (Z.eqb_spec root 0); [lia|]. rewrite wp_bind. unfold pagewalk.
  eapply wp_mono; [|by apply (walk_read s root T 3 0 root ipa I Hr)].
  intros r s' [-> Hm]. cbn beta. unfold xlate. rewrite table_at_xlate. change (0 + Z.of_nat 3) with 3.
  destruct (table_at 3 (p_mem s) 0 root ipa) as [q|] eqn:Eq.
  - destruct Hm as (Hq & -> & Hne). destruct (Z.eqb_spec (pte_addr q (PIDX 3 ipa)) 0); [done|].
    rewrite wp_bind. apply (load_entry s root T I q 3); [done|apply PIDX_range|]. rewrite wp_ret, land_off.
    split; [done|]. apply u64_small. unfold is_u64. rewrite PTE_PA_spec.
    pose proof (Z.mod_pos_bound (entry (p_mem s) q (PIDX 3 ipa) / 4096) (2 ^ 36)).
    pose proof (Z.mod_pos_bound ipa 4096). lia.
  - subst r. simpl. by rewrite wp_ret.
Qed.

Lemma PTE_PA_leaf pa attr :
  0 <= pa < 2 ^ 48 -> pa mod 4096 = 0 -> PTE_PA attr = 0 -> PTE_PA (leaf_pte pa attr) = pa.
Proof.
  intros Hp Ha Hat. unfold leaf_pte. rewrite !PTE_PA_lor, Hat.
  change (PTE_PA S2PTE_AF) with 0. change (PTE_PA PTE_V) with 0.
  rewrite !Z.lor_0_r, !PTE_PA_small by (done || rewrite ?PTE_PA_small; done). done.
Qed.

Lemma leaf_pte_nonzero pa attr : leaf_pte pa attr <> 0.
Proof.
  intros E. assert (Z.testbit (leaf_pte pa attr) 0 = true) as Hb.
  { unfold leaf_pte. rewrite Z.lor_spec. change (Z.testbit PTE_V 0) with true. apply orb_true_r. }
  by rewrite E, Z.testbit_0_l in Hb.
Qed.

(** * A fresh tree *)

Lemma pt_inv_fresh s root :
  wf (p_pa s) -> 0 <= ram_lo (p_mem s) /\ ram_hi (p_mem s) < 2 ^ 64 ->
  (forall i, 0 <= i < total_pages (p_pa s) -> in_ram (p_mem s) (frame_addr (p_pa s) i) 4096 = true) ->
  0 < base_pfn (p_pa s) /\ base_pfn (p_pa s) + total_pages (p_pa s) <= 2 ^ 36 ->
  used_page (p_pa s) root ->
  (forall b, root <= b < root + 4096 -> peek (p_mem s) b = 0) ->
  (forall i b, i ∈ free_set (p_pa s) ->
     frame_addr (p_pa s) i <= b < frame_addr (p_pa s) i + 4096 -> peek (p_mem s) b = 0) ->
  pt_inv s root {[root := 0]}.
Proof.
  intros H1 H2 H3 H4 H5 H6 H7.
  assert (Hno : forall p i q, ~ edge (p_mem s) {[root := 0]} p i q).
  { intros p i q (l & [<- <-]%lookup_singleton_Some & _ & Hi & Ht & _).
    rewrite entry_zero in Ht by done. done. }
  split; try done.
  - apply lookup_singleton_eq.
  - intros p l [<- <-]%lookup_singleton_Some. split; [lia|done].
  - intros p i q l _ He. by apply Hno in He.
  - intros p i p' i' q He. by apply Hno in He.
Qed.

(** RAM that is all zero, one frame taken. *)
Definition example_phys : phys :=
  mkPhys (mkMem 0x40000000 0x50000000 ∅) (mkPA (mkSpinlock 0 0) [1; 0] 128 0x40122 1).

Lemma example_pt_inv : pt_inv example_phys 0x40122000 {[0x40122000 := 0]}.
Proof.
  apply pt_inv_fresh; simpl.
  - split; [|split; [done|unfold is_u32; simpl; lia]]. split; simpl; try lia. repeat constructor; simpl; lia.
  - lia.
  - intros i Hi. unfold in_ram, frame_addr. simpl. rewrite andb_true_iff, !Z.leb_le. lia.
  - lia.
  - exists 0. split; [simpl; lia|done].
  - intros b _. reflexivity.
  - intros i b _ _. reflexivity.
Qed.

(** * Properties *)

(** C8 [pagemap] builds exactly the requested translations.  On a well-formed
    tree, with enough free frames and no page of the range mapped yet, it
    returns; afterwards an address translates to the new leaf entry if it lies
    in the range and as before if it does not; the tree is still well formed, it
    has grown by free frames only, and no byte outside the tables has changed. *)
Theorem pagemap_spec (s : phys) (root : Z) (T : gmap Z Z) (va pa size attr : Z) :
  pt_inv s root T -> is_u64 attr ->
  va mod 4096 = 0 -> pa mod 4096 = 0 -> size mod 4096 = 0 ->
  0 <= va -> 0 <= size -> va + size <= 2 ^ 48 -> 0 <= pa -> pa + size < 2 ^ 64 ->
  3 * (size / 4096) <= Z.of_nat (base.size (free_set (p_pa s))) ->
  (forall k, 0 <= k < size / 4096 -> Z.land (xlate (p_mem s) root (va + 4096 * k)) PTE_AF = 0) ->
  wp (pagemap root va pa size attr) (fun _ s' => exists T', pt_inv s' root T' /\ extends s T s' T' /\
    forall va', xlate (p_mem s') root va' =
      mapped (xlate (p_mem s) root) (size / 4096) va pa attr va') s.
Proof.
  intros I Ha Hva Hpa Hsz ? ? ? ? ? Hfree Haf. unfold pagemap, PAGE_SIZE. rewrite Hva, Hpa, Hsz. simpl.
  assert (size = 4096 * (size / 4096)) as Es by (pose proof (Z.div_mod size 4096); lia).
  assert (0 <= size / 4096) by (apply Z.div_pos; lia).
  eapply wp_mono; [|apply (pagemap_loop_ok s root T); try done; try lia].
  - intros ? s' (T' & I' & X & Hx & _). rewrite Z2Nat.id in Hx by done. eauto.
  - rewrite Z2Nat.id by done. done.
Qed.

Lemma pagemap_spec_witness :
  wp (pagemap 0x40122000 0x9000000 0x9000000 4096 (Z.lor S2PTE_DEVICE S2PTE_RW)) (fun _ s' =>
    xlate (p_mem s') 0x40122000 0x9000abc = leaf_pte 0x9000000 (Z.lor S2PTE_DEVICE S2PTE_RW) /\
    xlate (p_mem s') 0x40122000 0x9001000 = 0) example_phys.
Proof.
  pose proof (pagemap_spec example_phys 0x40122000 {[0x40122000 := 0]} 0x9000000 0x9000000 4096
    (Z.lor S2PTE_DEVICE S2PTE_RW) example_pt_inv) as H.
  eapply wp_mono; [|apply H].
  - intros ? s' (T' & _ & _ & Hx). rewrite !Hx. split; reflexivity.
  - vm_compute. split; congruence.
  - reflexivity.
  - reflexivity.
  - reflexivity.
  - lia.
  - lia.
  - lia.
  - lia.
  - lia.
  - vm_compute. congruence.
  - intros k Hk. change (4096 / 4096) with 1 in Hk. replace k with 0 by lia. reflexivity.
Defined.

(** C36 Round trip: after [pagemap] of a range, [ipa2pa] translates every byte of
    the range to the corresponding byte of the physical range, without changing
    anything. *)
Theorem pagemap_ipa2pa (s : phys) (root : Z) (T : gmap Z Z) (va pa size attr ipa : Z) :
  pt_inv s root T -> is_u64 attr -> PTE_PA attr = 0 ->
  va mod 4096 = 0 -> pa mod 4096 = 0 -> size mod 4096 = 0 ->
  0 <= va -> va + size <= 2 ^ 48 -> 0 <= pa -> pa + size <= 2 ^ 48 ->
  3 * (size / 4096) <= Z.of_nat (base.size (free_set (p_pa s))) ->
  (forall k, 0 <= k < size / 4096 -> Z.land (xlate (p_mem s) root (va + 4096 * k)) PTE_AF = 0) ->
  va <= ipa < va + size ->
  wp (pagemap root va pa size attr ;; ipa2pa root ipa) (fun r _ => r = pa + (ipa - va)) s.
Proof.
  intros I Ha Hap Hva Hpa Hsz ? ? ? ? Hfree Haf Hipa. rewrite wp_bind.
  unfold pagemap, PAGE_SIZE. rewrite Hva, Hpa, Hsz. simpl.
  assert (size = 4096 * (size / 4096)) as Es by (pose proof (Z.div_mod size 4096); lia).
  assert (0 <= size / 4096) by (apply Z.div_pos; lia).
  eapply wp_mono; [|apply (pagemap_loop_ok s root T); try done; try lia; by rewrite ?Z2Nat.id].
  intros ? s' (T' & I' & _ & Hx & _). rewrite Z2Nat.id in Hx by done. cbn beta.
  eapply wp_mono; [|by apply (ipa2pa_ok s' root T')]. intros r s'' [_ ->].
  specialize (Hx ipa). set (k := vpn ipa - vpn va) in *.
  assert (k = (ipa - va) / 4096) as Ek.
  { unfold k. rewrite !vpn_small by lia. pose proof (Z.div_mod va 4096).
    replace ipa with (ipa - va + va / 4096 * 4096) at 1 by lia. rewrite Z.div_add by lia. lia. }
  assert (0 <= k < size / 4096) as Hk.
  { rewrite Ek. split; [apply Z.div_pos; lia|apply Z.div_lt_upper_bound; lia]. }
  unfold mapped in Hx. fold k in Hx. destruct (Z.leb_spec 0 k); [|lia]. destruct (Z.ltb_spec k (size / 4096)); [|lia].
  simpl in Hx. destruct (table_at 3 (p_mem s') 0 root ipa) eqn:Et.
  - rewrite Hx, PTE_PA_leaf; [|lia| |done].
    + rewrite Ek. pose proof (Z.div_mod (ipa - va) 4096).
      replace (ipa mod 4096) with ((ipa - va) mod 4096); [lia|].
      rewrite Zminus_mod, Hva, Z.sub_0_r, Z.mod_mod by lia. done.
    + rewrite Z.mul_comm, Z.mod_add by lia. done.
  - unfold xlate in Hx. rewrite table_at_xlate, Et in Hx. by apply eq_sym, leaf_pte_nonzero in Hx.
Qed.

Lemma pagemap_ipa2pa_witness :
  wp (pagemap 0x40122000 0x40000000 0x40130000 8192 (Z.lor S2PTE_NORMAL S2PTE_RW) ;;
      ipa2pa 0x40122000 0x40001234) (fun r _ => r = 0x40131234) example_phys.
Proof.
  apply (pagemap_ipa2pa example_phys 0x40122000 {[0x40122000 := 0]} 0x40000000 0x40130000 8192
    (Z.lor S2PTE_NORMAL S2PTE_RW) 0x40001234 example_pt_inv).
  - vm_compute. split; congruence.
  - reflexivity.
  - reflexivity.
  - reflexivity.
  - reflexivity.
  - lia.
  - lia.
  - lia.
  - lia.
  - vm_compute. congruence.
  - intros k Hk. change (8192 / 4096) with 2 in Hk. assert (k = 0 \/ k = 1) as [-> | ->] by lia; reflexivity.
  - lia.
Defined.

(** [ipa2pa] on any address of a well-formed tree: it returns, changes
    nothing, and gives the address in the leaf entry plus the page offset when
    the walk reaches a leaf table, 0 when it does not.  (An address whose leaf
    table exists but whose entry is empty therefore yields its bare offset, not
    the 0 that callers would take for "unmapped".) *)
Theorem ipa2pa_spec (s : phys) (root : Z) (T : gmap Z Z) (ipa : Z) :
  pt_inv s root T ->
  wp (ipa2pa root ipa) (fun r s' => s' = s /\
    (xlate (p_mem s) root ipa <> 0 -> r = PTE_PA (xlate (p_mem s) root ipa) + ipa mod 4096) /\
    (xlate (p_mem s) root ipa = 0 -> r = 0 \/ r = ipa mod 4096)) s.
Proof.
  intros I. eapply wp_mono; [|by apply (ipa2pa_ok s root T)]. intros r s' [-> ->].
  pose proof (table_at_xlate 3 (p_mem s) 0 root ipa : xlate (p_mem s) root ipa = _) as Ex.
  split; [done|]. destruct (table_at 3 (p_mem s) 0 root ipa); [|split; [by rewrite Ex|by left]].
  split; [done|]. intros ->. by right.
Qed.

Lemma ipa2pa_spec_witness :
  wp (ipa2pa 0x40122000 0x9000123) (fun r s' => s' = example_phys /\ (r = 0 \/ r = 0x123)) example_phys.
Proof.
  eapply wp_mono; [|apply (ipa2pa_spec example_phys 0x40122000 {[0x40122000 := 0]} 0x9000123 example_pt_inv)].
  intros r s' (-> & _ & H). split; [done|]. apply H. reflexivity.
Defined.

(** [pagemap] rejects misaligned arguments and pages that are mapped already:
    it panics, and a misaligned call has changed nothing. *)
Theorem pagemap_rejects (s : phys) (root : Z) (T : gmap Z Z) (va pa size attr : Z) :
  (va mod 4096 <> 0 \/ pa mod 4096 <> 0 \/ size mod 4096 <> 0 ->
     pagemap root va pa size attr s = Panic s) /\
  (pt_inv s root T -> va mod 4096 = 0 -> pa mod 4096 = 0 -> size mod 4096 = 0 -> 0 < size ->
     (3 <= base.size (free_set (p_pa s)))%nat ->
     Z.land (xlate (p_mem s) root va) PTE_AF <> 0 ->
     exists s', pagemap root va pa size attr s = Panic s' /\
       forall va', xlate (p_mem s') root va' = xlate (p_mem s) root va').
Proof.
  unfold pagemap, PAGE_SIZE. split.
  - intros H. destruct (negb (va mod 4096 =? 0) || negb (pa mod 4096 =? 0) || negb (size mod 4096 =? 0)) eqn:E; [done|].
    bool_to_Z. lia.
  - intros I Hva Hpa Hsz Hpos Hfree Haf. rewrite Hva, Hpa, Hsz.
    change (negb (0 =? 0) || negb (0 =? 0) || negb (0 =? 0)) with false. cbn iota.
    assert (0 < size / 4096) as Hn by (pose proof (Z.div_mod size 4096); lia).
    destruct (Z.to_nat (size / 4096)) as [|n] eqn:En; [lia|]. cbn [pagemap_loop].
    pose proof (walk_alloc s root T 3 0 root va I (pi_root _ _ _ I) eq_refl Hfree) as W.
    apply wp_Ok in W as (r & s1 & W & q & T1 & -> & Hq & I1 & X1 & Hta & _ & Hx1 & _).
    unfold pagewalk. rewrite (bind_Ok _ _ _ _ _ W).
    pose proof (load_entry s1 root T1 I1 q 3 (PIDX 3 va) (fun v s' => v = xlate (p_mem s) root va /\ s' = s1)) as L.
    specialize (L Hq (PIDX_range _ _)). apply wp_Ok in L as (v & s2 & L & -> & ->).
    2:{ split; [|done]. rewrite <- Hx1. unfold xlate. by rewrite table_at_xlate, Hta. }
    exists s1. split; [|done]. rewrite (bind_Ok _ _ _ _ _ L).
    apply Z.eqb_neq in Haf. rewrite Haf. done.
Qed.

Lemma pagemap_rejects_witness :
  pagemap 0x40122000 0x9000001 0x9000000 4096 0 example_phys = Panic example_phys.
Proof.
  apply (pagemap_rejects example_phys 0x40122000 {[0x40122000 := 0]} 0x9000001 0x9000000 4096 0).
  left. vm_compute. congruence.
Defined.

(** The zero-frame condition of the invariant is needed: [pagewalk] does not
    clear the frames it turns into tables.  When a free frame still holds an old
    descriptor, mapping one page makes an unrelated address translate to the
    physical address in that stale descriptor. *)
Theorem pagewalk_trusts_stale_frame :
  let stale := mkPhys (mkMem 0x40000000 0x50000000 (list_to_map [(0x40125008, 0xc7); (0x40125009, 0x04); (0x4012500b, 0x41)]))
                      (p_pa example_phys) in
  xlate (p_mem stale) 0x40122000 0x9001000 = 0 /\
  wp (pagemap 0x40122000 0x9000000 0x9000000 4096 (Z.lor S2PTE_DEVICE S2PTE_RW) ;; ipa2pa 0x40122000 0x9001000)
     (fun r s' => xlate (p_mem s') 0x40122000 0x9001000 = leaf_pte 0x41000000 (Z.lor S2PTE_NORMAL S2PTE_RW)
                  /\ r = 0x41000000) stale.
Proof.
  split; [reflexivity|]. unfold wp. destruct ((pagemap _ _ _ _ _ ;; _) _) as [r s'| | |] eqn:E;
    vm_compute in E; try done. injection E as <- <-. split; reflexivity.
Qed.
