(* ===== verification/Machine.v ===== *)
(** The machine the hypervisor runs on, and the hypervisor's global state.

    [Hardware] is what the code needs of the processing element and of the
    devices: system registers, memory-mapped device registers, the firmware
    behind [smc].  It is a parameter: the components are proved against the laws
    they rely on.  [machine] is everything the C code keeps in memory, one field
    per global variable; a pointer to an array element is its index, NULL is
    [None].  Structures are those of src/include/*.h. *)
From stdpp Require Import base gmap list numbers tactics.
From S2P Require Import Prelude Spinlock PageAlloc Mem Mmu.

(** * Hardware *)

(** System registers the code names ([mrs]/[msr]). *)
Inductive sysreg :=
| tpidr_el2 | vttbr_el2 | vtcr_el2 | mair_el2 | hcr_el2 | vbar_el2
| far_el2 | elr_el2 | esr_el2 | spsr_el2 | hpfar_el2 | vmpidr_el2 | vpidr_el2
| spsr_el1 | elr_el1 | mpidr_el1 | midr_el1 | sp_el0 | sp_el1 | ttbr0_el1 | ttbr1_el1
| tcr_el1 | vbar_el1 | sctlr_el1 | far_el1 | esr_el1 | par_el1 | id_aa64mmfr0_el1
| cntv_ctl_el0 | cntv_tval_el0 | cntfrq_el0 | cntpct_el0 | cntp_ctl_el0 | cntp_tval_el0
| icc_pmr_el1 | icc_eoir0_el1 | icc_eoir1_el1 | icc_dir_el1 | icc_iar1_el1 | icc_ctlr_el1
| icc_sre_el1 | icc_sre_el2 | icc_igrpen0_el1 | icc_igrpen1_el1
| ich_hcr_el2 | ich_vtr_el2 | ich_vmcr_el2 | ich_lr_el2 (n : Z).

#[export] Instance sysreg_eq_dec : EqDecision sysreg.
Proof. solve_decision. Defined.

(** A device may change state when it is read. *)
Class Hardware (H : Type) := {
  hw_r32 : Z -> H -> Z * H;
  hw_w32 : Z -> Z -> H -> H;
  hw_r64 : Z -> H -> Z * H;
  hw_w64 : Z -> Z -> H -> H;
  hw_mrs : sysreg -> H -> Z * H;
  hw_msr : sysreg -> Z -> H -> H;
  hw_tlbi : H -> H;                             (* tlbi vmalls12e1 *)
  hw_smc : Z -> Z -> Z -> Z -> H -> Z * H       (* smc #0 with x0 .. x3 *)
}.

(** * The linked image

    Addresses that the linker gives to symbols of the image. *)
Class Image := {
  vcpus_addr : Z;                       (* vcpus *)
  start_addr : Z;                       (* _start *)
  hyp_vector_table : Z;
  txt_start : Z;
  ram_start : Z;
  primary_stack_start : Z;              (* __primary_stack_start *)
  primary_stack_end : Z;
  guest_xv6_start : Z;                  (* _binary_guest_xv6_start *)
  guest_xv6_size : Z;
  guest_xv6_end : Z;
  guest_xv6_fs_img_start : Z;           (* _binary_guest_xv6_fs_img_start *)
  guest_xv6_fs_img_size : Z
}.

(** * Structures *)

Definition VCPU_MAX : Z := 4.
Definition NCPU : Z := 4.
Definition VM_MAX : Z := 2.
Definition MMIO_INFO_MAX : Z := 64.
Definition GIC_NSGI : Z := 16.
Definition GIC_NPPI : Z := 16.

(** [enum vcpu_state] *)
Inductive vcpu_state := UNUSED | CREATED | READY | RUNNING.
#[export] Instance vcpu_state_eq_dec : EqDecision vcpu_state.
Proof. solve_decision. Defined.

(** [struct gic_state] *)
Record gic_state := mkGicState { gs_lr : list Z; gs_vmcr_el2 : Z; gs_sre_el1 : Z }.

(** The anonymous structure [sys] of [struct vcpu]. *)
Record vcpu_sys := mkSys {
  s_spsr_el1 : Z; s_elr_el1 : Z; s_mpidr_el1 : Z; s_midr_el1 : Z; s_sp_el0 : Z; s_sp_el1 : Z;
  s_ttbr0_el1 : Z; s_ttbr1_el1 : Z; s_tcr_el1 : Z; s_vbar_el1 : Z; s_sctlr_el1 : Z;
  s_cntv_ctl_el0 : Z; s_cntv_tval_el0 : Z; s_cntfrq_el0 : Z
}.

(** [struct vcpu]; [reg.x], [reg.spsr_el2] and [reg.elr_el2] come first. *)
Record vcpu := mkVcpu {
  v_x : list Z;
  v_spsr_el2 : Z;
  v_elr_el2 : Z;
  v_sys : vcpu_sys;
  v_state : vcpu_state;
  v_gic : gic_state;
  v_vgic : option nat;      (* struct vgic_cpu *vgic *)
  v_vm : option nat;        (* struct vm *vm *)
  v_cpuid : Z
}.

(** [struct vgic_irq] *)
Record vgic_irq := mkIrq { irq_priority : Z; irq_target : Z; irq_enabled : Z; irq_igroup : Z }.

(** [struct vgic]; [spis] points to memory of the page allocator. *)
Record vgic := mkVgic {
  vg_used : Z; max_spi_intid : Z; spi_nums : Z; enable_grp1ns : bool; spis : Z; vg_lock : spinlock_t
}.

(** [struct vgic_cpu] *)
Record vgic_cpu := mkVgicCpu { vc_used : Z; used_lr : Z; sgis : list vgic_irq; ppis : list vgic_irq }.

(** [struct vm] *)
Record vm := mkVm {
  vm_name : list Z;
  vm_nvcpu : Z;
  vm_vcpus : list (option nat);
  vm_stage2_pt : Z;
  vm_vgic : option nat;
  vm_mmio_list : option nat;
  vm_used : Z;
  vm_fdt : Z
}.

(** [struct guest] and [struct vmconfig] *)
Record guest := mkGuest { g_name : list Z; g_start : Z; g_size : Z; g_end : Z }.
Record vmconfig := mkVmconfig {
  guest_img : option guest; cfg_nvcpu : Z; cfg_ram_size : Z; cfg_entrypoint : Z
}.

(** [enum syndrome_access_size] is the field's number. *)
Definition SAS_BYTE : Z := 0.
Definition SAS_HALFWORD : Z := 1.
Definition SAS_WORD : Z := 2.
Definition SAS_DOUBLEWORD : Z := 3.

(** [struct mmio_access] *)
Record mmio_access := mkAccess { ma_ipa : Z; ma_pc : Z; ma_iss_sas : Z; ma_iss_wnr : Z }.

(** The functions that the pointers of [struct mmio_info] designate. *)
Inductive mmio_read_fn := vgicd_read_fn | vgicr_read_fn | virtio_read_fn.
Inductive mmio_write_fn := vgicd_write_fn | vgicr_write_fn | virtio_write_fn.

(** [struct mmio_info] *)
Record mmio_info := mkMmio {
  mi_next : option nat; mi_ipa_base : Z; mi_size : Z;
  mi_read : option mmio_read_fn; mi_write : option mmio_write_fn
}.

(** [struct virt_queue]; [desc], [avail] and [used] are addresses in guest RAM. *)
Record virt_queue := mkVq {
  virtq_lock : spinlock_t; vring_num : Z; vring_ipa : Z; vring_pa : Z;
  avail_idx : Z; vq_desc : Z; vq_avail : Z; vq_used : Z
}.

(** * The global variables *)

Record machine (H : Type) := mkMachine {
  m_hw : H;
  m_phys : phys;                  (* RAM, g_allocator *)
  m_vms : list vm;                (* g_vms *)
  m_vcpus : list vcpu;            (* vcpus *)
  m_mmio : list mmio_info;        (* g_mmio_info *)
  m_vgic : list vgic;             (* g_vgic *)
  m_vgic_cpu : list vgic_cpu;     (* g_vgic_cpu *)
  m_vcpus_lock : spinlock_t;      (* g_vcpus_lock *)
  m_mmio_lock : spinlock_t;       (* g_mmio_lock *)
  m_vgic_lock : spinlock_t;       (* g_vgic_lock *)
  m_vgic_cpu_lock : spinlock_t;   (* g_vgic_cpu_lock *)
  m_vq : virt_queue;              (* g_vq *)
  m_guest_pagesz : Z;             (* guest_pagesz *)
  m_queue_sel : Z;                (* g_queue_sel *)
  m_freq : Z;                     (* g_freq *)
  m_spi_num : Z;                  (* g_spi_num *)
  m_lr_max : Z;                   (* g_gic_lr_max *)
  m_ramdisk_start : Z;            (* ramdisk_start *)
  m_ramdisk_size : Z;             (* ramdisk_size *)
  m_sp_bottom : list Z;           (* g_sp_bottom *)
  m_sp_top : list Z               (* g_sp_top *)
}.
Arguments mkMachine {H}.
Arguments m_hw {H}.
Arguments m_phys {H}.
Arguments m_vms {H}.
Arguments m_vcpus {H}.
Arguments m_mmio {H}.
Arguments m_vgic {H}.
Arguments m_vgic_cpu {H}.
Arguments m_vcpus_lock {H}.
Arguments m_mmio_lock {H}.
Arguments m_vgic_lock {H}.
Arguments m_vgic_cpu_lock {H}.
Arguments m_vq {H}.
Arguments m_guest_pagesz {H}.
Arguments m_queue_sel {H}.
Arguments m_freq {H}.
Arguments m_spi_num {H}.
Arguments m_lr_max {H}.
Arguments m_ramdisk_start {H}.
Arguments m_ramdisk_size {H}.
Arguments m_sp_bottom {H}.
Arguments m_sp_top {H}.

(** Field updates. *)
Section Setters.
Context {H : Type}.
Definition set_hw (v : H) (m : machine H) : machine H :=
    mkMachine v (m_phys m) (m_vms m) (m_vcpus m) (m_mmio m) (m_vgic m) (m_vgic_cpu m) (m_vcpus_lock m)
    (m_mmio_lock m) (m_vgic_lock m) (m_vgic_cpu_lock m) (m_vq m) (m_guest_pagesz m) (m_queue_sel m)
    (m_freq m) (m_spi_num m) (m_lr_max m) (m_ramdisk_start m) (m_ramdisk_size m) (m_sp_bottom m)
    (m_sp_top m).
Definition set_phys (v : phys) (m : machine H) : machine H :=
    mkMachine (m_hw m) v (m_vms m) (m_vcpus m) (m_mmio m) (m_vgic m) (m_vgic_cpu m) (m_vcpus_lock m)
    (m_mmio_lock m) (m_vgic_lock m) (m_vgic_cpu_lock m) (m_vq m) (m_guest_pagesz m) (m_queue_sel m)
    (m_freq m) (m_spi_num m) (m_lr_max m) (m_ramdisk_start m) (m_ramdisk_size m) (m_sp_bottom m)
    (m_sp_top m).
Definition set_vms (v : list vm) (m : machine H) : machine H :=
    mkMachine (m_hw m) (m_phys m) v (m_vcpus m) (m_mmio m) (m_vgic m) (m_vgic_cpu m) (m_vcpus_lock m)
    (m_mmio_lock m) (m_vgic_lock m) (m_vgic_cpu_lock m) (m_vq m) (m_guest_pagesz m) (m_queue_sel m)
    (m_freq m) (m_spi_num m) (m_lr_max m) (m_ramdisk_start m) (m_ramdisk_size m) (m_sp_bottom m)
    (m_sp_top m).
Definition set_vcpus (v : list vcpu) (m : machine H) : machine H :=
    mkMachine (m_hw m) (m_phys m) (m_vms m) v (m_mmio m) (m_vgic m) (m_vgic_cpu m) (m_vcpus_lock m)
    (m_mmio_lock m) (m_vgic_lock m) (m_vgic_cpu_lock m) (m_vq m) (m_guest_pagesz m) (m_queue_sel m)
    (m_freq m) (m_spi_num m) (m_lr_max m) (m_ramdisk_start m) (m_ramdisk_size m) (m_sp_bottom m)
    (m_sp_top m).
Definition set_mmio (v : list mmio_info) (m : machine H) : machine H :=
    mkMachine (m_hw m) (m_phys m) (m_vms m) (m_vcpus m) v (m_vgic m) (m_vgic_cpu m) (m_vcpus_lock m)
    (m_mmio_lock m) (m_vgic_lock m) (m_vgic_cpu_lock m) (m_vq m) (m_guest_pagesz m) (m_queue_sel m)
    (m_freq m) (m_spi_num m) (m_lr_max m) (m_ramdisk_start m) (m_ramdisk_size m) (m_sp_bottom m)
    (m_sp_top m).
Definition set_vgic (v : list vgic) (m : machine H) : machine H :=
    mkMachine (m_hw m) (m_phys m) (m_vms m) (m_vcpus m) (m_mmio m) v (m_vgic_cpu m) (m_vcpus_lock m)
    (m_mmio_lock m) (m_vgic_lock m) (m_vgic_cpu_lock m) (m_vq m) (m_guest_pagesz m) (m_queue_sel m)
    (m_freq m) (m_spi_num m) (m_lr_max m) (m_ramdisk_start m) (m_ramdisk_size m) (m_sp_bottom m)
    (m_sp_top m).
Definition set_vgic_cpu (v : list vgic_cpu) (m : machine H) : machine H :=
    mkMachine (m_hw m) (m_phys m) (m_vms m) (m_vcpus m) (m_mmio m) (m_vgic m) v (m_vcpus_lock m)
    (m_mmio_lock m) (m_vgic_lock m) (m_vgic_cpu_lock m) (m_vq m) (m_guest_pagesz m) (m_queue_sel m)
    (m_freq m) (m_spi_num m) (m_lr_max m) (m_ramdisk_start m) (m_ramdisk_size m) (m_sp_bottom m)
    (m_sp_top m).
Definition set_vcpus_lock (v : spinlock_t) (m : machine H) : machine H :=
    mkMachine (m_hw m) (m_phys m) (m_vms m) (m_vcpus m) (m_mmio m) (m_vgic m) (m_vgic_cpu m) v
    (m_mmio_lock m) (m_vgic_lock m) (m_vgic_cpu_lock m) (m_vq m) (m_guest_pagesz m) (m_queue_sel m)
    (m_freq m) (m_spi_num m) (m_lr_max m) (m_ramdisk_start m) (m_ramdisk_size m) (m_sp_bottom m)
    (m_sp_top m).
Definition set_mmio_lock (v : spinlock_t) (m : machine H) : machine H :=
    mkMachine (m_hw m) (m_phys m) (m_vms m) (m_vcpus m) (m_mmio m) (m_vgic m) (m_vgic_cpu m)
    (m_vcpus_lock m) v (m_vgic_lock m) (m_vgic_cpu_lock m) (m_vq m) (m_guest_pagesz m) (m_queue_sel m)
    (m_freq m) (m_spi_num m) (m_lr_max m) (m_ramdisk_start m) (m_ramdisk_size m) (m_sp_bottom m)
    (m_sp_top m).
Definition set_vgic_lock (v : spinlock_t) (m : machine H) : machine H :=
    mkMachine (m_hw m) (m_phys m) (m_vms m) (m_vcpus m) (m_mmio m) (m_vgic m) (m_vgic_cpu m)
    (m_vcpus_lock m) (m_mmio_lock m) v (m_vgic_cpu_lock m) (m_vq m) (m_guest_pagesz m) (m_queue_sel m)
    (m_freq m) (m_spi_num m) (m_lr_max m) (m_ramdisk_start m) (m_ramdisk_size m) (m_sp_bottom m)
    (m_sp_top m).
Definition set_vgic_cpu_lock (v : spinlock_t) (m : machine H) : machine H :=
    mkMachine (m_hw m) (m_phys m) (m_vms m) (m_vcpus m) (m_mmio m) (m_vgic m) (m_vgic_cpu m)
    (m_vcpus_lock m) (m_mmio_lock m) (m_vgic_lock m) v (m_vq m) (m_guest_pagesz m) (m_queue_sel m)
    (m_freq m) (m_spi_num m) (m_lr_max m) (m_ramdisk_start m) (m_ramdisk_size m) (m_sp_bottom m)
    (m_sp_top m).
Definition set_vq (v : virt_queue) (m : machine H) : machine H :=
    mkMachine (m_hw m) (m_phys m) (m_vms m) (m_vcpus m) (m_mmio m) (m_vgic m) (m_vgic_cpu m)
    (m_vcpus_lock m) (m_mmio_lock m) (m_vgic_lock m) (m_vgic_cpu_lock m) v (m_guest_pagesz m)
    (m_queue_sel m) (m_freq m) (m_spi_num m) (m_lr_max m) (m_ramdisk_start m) (m_ramdisk_size m)
    (m_sp_bottom m) (m_sp_top m).
Definition set_guest_pagesz (v : Z) (m : machine H) : machine H :=
    mkMachine (m_hw m) (m_phys m) (m_vms m) (m_vcpus m) (m_mmio m) (m_vgic m) (m_vgic_cpu m)
    (m_vcpus_lock m) (m_mmio_lock m) (m_vgic_lock m) (m_vgic_cpu_lock m) (m_vq m) v (m_queue_sel m)
    (m_freq m) (m_spi_num m) (m_lr_max m) (m_ramdisk_start m) (m_ramdisk_size m) (m_sp_bottom m)
    (m_sp_top m).
Definition set_queue_sel (v : Z) (m : machine H) : machine H :=
    mkMachine (m_hw m) (m_phys m) (m_vms m) (m_vcpus m) (m_mmio m) (m_vgic m) (m_vgic_cpu m)
    (m_vcpus_lock m) (m_mmio_lock m) (m_vgic_lock m) (m_vgic_cpu_lock m) (m_vq m) (m_guest_pagesz m) v
    (m_freq m) (m_spi_num m) (m_lr_max m) (m_ramdisk_start m) (m_ramdisk_size m) (m_sp_bottom m)
    (m_sp_top m).
Definition set_freq (v : Z) (m : machine H) : machine H :=
    mkMachine (m_hw m) (m_phys m) (m_vms m) (m_vcpus m) (m_mmio m) (m_vgic m) (m_vgic_cpu m)
    (m_vcpus_lock m) (m_mmio_lock m) (m_vgic_lock m) (m_vgic_cpu_lock m) (m_vq m) (m_guest_pagesz m)
    (m_queue_sel m) v (m_spi_num m) (m_lr_max m) (m_ramdisk_start m) (m_ramdisk_size m) (m_sp_bottom m)
    (m_sp_top m).
Definition set_spi_num (v : Z) (m : machine H) : machine H :=
    mkMachine (m_hw m) (m_phys m) (m_vms m) (m_vcpus m) (m_mmio m) (m_vgic m) (m_vgic_cpu m)
    (m_vcpus_lock m) (m_mmio_lock m) (m_vgic_lock m) (m_vgic_cpu_lock m) (m_vq m) (m_guest_pagesz m)
    (m_queue_sel m) (m_freq m) v (m_lr_max m) (m_ramdisk_start m) (m_ramdisk_size m) (m_sp_bottom m)
    (m_sp_top m).
Definition set_lr_max (v : Z) (m : machine H) : machine H :=
    mkMachine (m_hw m) (m_phys m) (m_vms m) (m_vcpus m) (m_mmio m) (m_vgic m) (m_vgic_cpu m)
    (m_vcpus_lock m) (m_mmio_lock m) (m_vgic_lock m) (m_vgic_cpu_lock m) (m_vq m) (m_guest_pagesz m)
    (m_queue_sel m) (m_freq m) (m_spi_num m) v (m_ramdisk_start m) (m_ramdisk_size m) (m_sp_bottom m)
    (m_sp_top m).
Definition set_ramdisk_start (v : Z) (m : machine H) : machine H :=
    mkMachine (m_hw m) (m_phys m) (m_vms m) (m_vcpus m) (m_mmio m) (m_vgic m) (m_vgic_cpu m)
    (m_vcpus_lock m) (m_mmio_lock m) (m_vgic_lock m) (m_vgic_cpu_lock m) (m_vq m) (m_guest_pagesz m)
    (m_queue_sel m) (m_freq m) (m_spi_num m) (m_lr_max m) v (m_ramdisk_size m) (m_sp_bottom m) (m_sp_top
    m).
Definition set_ramdisk_size (v : Z) (m : machine H) : machine H :=
    mkMachine (m_hw m) (m_phys m) (m_vms m) (m_vcpus m) (m_mmio m) (m_vgic m) (m_vgic_cpu m)
    (m_vcpus_lock m) (m_mmio_lock m) (m_vgic_lock m) (m_vgic_cpu_lock m) (m_vq m) (m_guest_pagesz m)
    (m_queue_sel m) (m_freq m) (m_spi_num m) (m_lr_max m) (m_ramdisk_start m) v (m_sp_bottom m)
    (m_sp_top m).
Definition set_sp_bottom (v : list Z) (m : machine H) : machine H :=
    mkMachine (m_hw m) (m_phys m) (m_vms m) (m_vcpus m) (m_mmio m) (m_vgic m) (m_vgic_cpu m)
    (m_vcpus_lock m) (m_mmio_lock m) (m_vgic_lock m) (m_vgic_cpu_lock m) (m_vq m) (m_guest_pagesz m)
    (m_queue_sel m) (m_freq m) (m_spi_num m) (m_lr_max m) (m_ramdisk_start m) (m_ramdisk_size m) v
    (m_sp_top m).
Definition set_sp_top (v : list Z) (m : machine H) : machine H :=
    mkMachine (m_hw m) (m_phys m) (m_vms m) (m_vcpus m) (m_mmio m) (m_vgic m) (m_vgic_cpu m)
    (m_vcpus_lock m) (m_mmio_lock m) (m_vgic_lock m) (m_vgic_cpu_lock m) (m_vq m) (m_guest_pagesz m)
    (m_queue_sel m) (m_freq m) (m_spi_num m) (m_lr_max m) (m_ramdisk_start m) (m_ramdisk_size m)
    (m_sp_bottom m) v.
End Setters.

Definition set_v_x (e : list Z) (r : vcpu) : vcpu :=
  mkVcpu e (v_spsr_el2 r) (v_elr_el2 r) (v_sys r) (v_state r) (v_gic r) (v_vgic r) (v_vm r) (v_cpuid r).
Definition set_v_spsr_el2 (e : Z) (r : vcpu) : vcpu :=
  mkVcpu (v_x r) e (v_elr_el2 r) (v_sys r) (v_state r) (v_gic r) (v_vgic r) (v_vm r) (v_cpuid r).
Definition set_v_elr_el2 (e : Z) (r : vcpu) : vcpu :=
  mkVcpu (v_x r) (v_spsr_el2 r) e (v_sys r) (v_state r) (v_gic r) (v_vgic r) (v_vm r) (v_cpuid r).
Definition set_v_sys (e : vcpu_sys) (r : vcpu) : vcpu :=
  mkVcpu (v_x r) (v_spsr_el2 r) (v_elr_el2 r) e (v_state r) (v_gic r) (v_vgic r) (v_vm r) (v_cpuid r).
Definition set_v_state (e : vcpu_state) (r : vcpu) : vcpu :=
  mkVcpu (v_x r) (v_spsr_el2 r) (v_elr_el2 r) (v_sys r) e (v_gic r) (v_vgic r) (v_vm r) (v_cpuid r).
Definition set_v_gic (e : gic_state) (r : vcpu) : vcpu :=
  mkVcpu (v_x r) (v_spsr_el2 r) (v_elr_el2 r) (v_sys r) (v_state r) e (v_vgic r) (v_vm r) (v_cpuid r).
Definition set_v_vgic (e : option nat) (r : vcpu) : vcpu :=
  mkVcpu (v_x r) (v_spsr_el2 r) (v_elr_el2 r) (v_sys r) (v_state r) (v_gic r) e (v_vm r) (v_cpuid r).
Definition set_v_vm (e : option nat) (r : vcpu) : vcpu :=
  mkVcpu (v_x r) (v_spsr_el2 r) (v_elr_el2 r) (v_sys r) (v_state r) (v_gic r) (v_vgic r) e (v_cpuid r).
Definition set_v_cpuid (e : Z) (r : vcpu) : vcpu :=
  mkVcpu (v_x r) (v_spsr_el2 r) (v_elr_el2 r) (v_sys r) (v_state r) (v_gic r) (v_vgic r) (v_vm r) e.
Definition set_vm_name (e : list Z) (r : vm) : vm :=
  mkVm e (vm_nvcpu r) (vm_vcpus r) (vm_stage2_pt r) (vm_vgic r) (vm_mmio_list r) (vm_used r) (vm_fdt r).
Definition set_vm_nvcpu (e : Z) (r : vm) : vm :=
  mkVm (vm_name r) e (vm_vcpus r) (vm_stage2_pt r) (vm_vgic r) (vm_mmio_list r) (vm_used r) (vm_fdt r).
Definition set_vm_vcpus (e : list (option nat)) (r : vm) : vm :=
  mkVm (vm_name r) (vm_nvcpu r) e (vm_stage2_pt r) (vm_vgic r) (vm_mmio_list r) (vm_used r) (vm_fdt r).
Definition set_vm_stage2_pt (e : Z) (r : vm) : vm :=
  mkVm (vm_name r) (vm_nvcpu r) (vm_vcpus r) e (vm_vgic r) (vm_mmio_list r) (vm_used r) (vm_fdt r).
Definition set_vm_vgic (e : option nat) (r : vm) : vm :=
  mkVm (vm_name r) (vm_nvcpu r) (vm_vcpus r) (vm_stage2_pt r) e (vm_mmio_list r) (vm_used r) (vm_fdt r).
Definition set_vm_mmio_list (e : option nat) (r : vm) : vm :=
  mkVm (vm_name r) (vm_nvcpu r) (vm_vcpus r) (vm_stage2_pt r) (vm_vgic r) e (vm_used r) (vm_fdt r).
Definition set_vm_used (e : Z) (r : vm) : vm :=
  mkVm (vm_name r) (vm_nvcpu r) (vm_vcpus r) (vm_stage2_pt r) (vm_vgic r) (vm_mmio_list r) e (vm_fdt r).
Definition set_vm_fdt (e : Z) (r : vm) : vm :=
  mkVm (vm_name r) (vm_nvcpu r) (vm_vcpus r) (vm_stage2_pt r) (vm_vgic r) (vm_mmio_list r) (vm_used r) e.

Definition set_irq_priority (e : Z) (r : vgic_irq) : vgic_irq := mkIrq e (irq_target r) (irq_enabled r) (irq_igroup r).
Definition set_irq_target (e : Z) (r : vgic_irq) : vgic_irq := mkIrq (irq_priority r) e (irq_enabled r) (irq_igroup r).
Definition set_irq_enabled (e : Z) (r : vgic_irq) : vgic_irq := mkIrq (irq_priority r) (irq_target r) e (irq_igroup r).
Definition set_vc_used (e : Z) (r : vgic_cpu) : vgic_cpu := mkVgicCpu e (used_lr r) (sgis r) (ppis r).
Definition set_used_lr (e : Z) (r : vgic_cpu) : vgic_cpu := mkVgicCpu (vc_used r) e (sgis r) (ppis r).
Definition set_sgis (e : list vgic_irq) (r : vgic_cpu) : vgic_cpu := mkVgicCpu (vc_used r) (used_lr r) e (ppis r).
Definition set_ppis (e : list vgic_irq) (r : vgic_cpu) : vgic_cpu := mkVgicCpu (vc_used r) (used_lr r) (sgis r) e.

(** * Access to the state *)

Section Access.
Context {H : Type}.

Definition on_phys {A} (c : M phys A) : M (machine H) A := zoom m_phys set_phys c.
Definition on_lock (prj : machine H -> spinlock_t) (upd : spinlock_t -> machine H -> machine H)
    (c : M spinlock_t unit) : M (machine H) unit := zoom prj upd c.

(** Arrays of structures: read, update in place. *)
Definition get_vcpu (i : nat) : M (machine H) vcpu := let! m := get in deref (m_vcpus m !! i).
Definition upd_vcpu (i : nat) (f : vcpu -> vcpu) : M (machine H) unit :=
  let! r := get_vcpu i in modify (fun m => set_vcpus (<[i := f r]> (m_vcpus m)) m).
Definition get_vm (i : nat) : M (machine H) vm := let! m := get in deref (m_vms m !! i).
Definition upd_vm (i : nat) (f : vm -> vm) : M (machine H) unit :=
  let! r := get_vm i in modify (fun m => set_vms (<[i := f r]> (m_vms m)) m).
Definition get_vgic (i : nat) : M (machine H) vgic := let! m := get in deref (m_vgic m !! i).
Definition upd_vgic (i : nat) (f : vgic -> vgic) : M (machine H) unit :=
  let! r := get_vgic i in modify (fun m => set_vgic (<[i := f r]> (m_vgic m)) m).
Definition get_vgic_cpu (i : nat) : M (machine H) vgic_cpu := let! m := get in deref (m_vgic_cpu m !! i).
Definition upd_vgic_cpu (i : nat) (f : vgic_cpu -> vgic_cpu) : M (machine H) unit :=
  let! r := get_vgic_cpu i in modify (fun m => set_vgic_cpu (<[i := f r]> (m_vgic_cpu m)) m).
Definition get_mmio (i : nat) : M (machine H) mmio_info := let! m := get in deref (m_mmio m !! i).
Definition upd_mmio (i : nat) (f : mmio_info -> mmio_info) : M (machine H) unit :=
  let! r := get_mmio i in modify (fun m => set_mmio (<[i := f r]> (m_mmio m)) m).

Lemma get_vcpu_ok i v m : m_vcpus m !! i = Some v -> get_vcpu i m = Ok v m.
Proof. intros E. unfold get_vcpu, bind, get. by rewrite E. Qed.
Lemma get_vm_ok i v m : m_vms m !! i = Some v -> get_vm i m = Ok v m.
Proof. intros E. unfold get_vm, bind, get. by rewrite E. Qed.
Lemma get_vgic_ok i v m : m_vgic m !! i = Some v -> get_vgic i m = Ok v m.
Proof. intros E. unfold get_vgic, bind, get. by rewrite E. Qed.
Lemma get_vgic_cpu_ok i v m : m_vgic_cpu m !! i = Some v -> get_vgic_cpu i m = Ok v m.
Proof. intros E. unfold get_vgic_cpu, bind, get. by rewrite E. Qed.
Lemma get_mmio_ok i v m : m_mmio m !! i = Some v -> get_mmio i m = Ok v m.
Proof. intros E. unfold get_mmio, bind, get. by rewrite E. Qed.
Lemma upd_vcpu_ok i v f m : m_vcpus m !! i = Some v -> upd_vcpu i f m = Ok tt (set_vcpus (<[i := f v]> (m_vcpus m)) m).
Proof. intros E. unfold upd_vcpu. by rewrite (bind_Ok _ _ _ _ _ (get_vcpu_ok _ _ _ E)). Qed.
Lemma upd_vm_ok i v f m : m_vms m !! i = Some v -> upd_vm i f m = Ok tt (set_vms (<[i := f v]> (m_vms m)) m).
Proof. intros E. unfold upd_vm. by rewrite (bind_Ok _ _ _ _ _ (get_vm_ok _ _ _ E)). Qed.
Lemma upd_vgic_ok i v f m : m_vgic m !! i = Some v -> upd_vgic i f m = Ok tt (set_vgic (<[i := f v]> (m_vgic m)) m).
Proof. intros E. unfold upd_vgic. by rewrite (bind_Ok _ _ _ _ _ (get_vgic_ok _ _ _ E)). Qed.
Lemma upd_vgic_cpu_ok i v f m :
  m_vgic_cpu m !! i = Some v -> upd_vgic_cpu i f m = Ok tt (set_vgic_cpu (<[i := f v]> (m_vgic_cpu m)) m).
Proof. intros E. unfold upd_vgic_cpu. by rewrite (bind_Ok _ _ _ _ _ (get_vgic_cpu_ok _ _ _ E)). Qed.
Lemma upd_mmio_ok i v f m : m_mmio m !! i = Some v -> upd_mmio i f m = Ok tt (set_mmio (<[i := f v]> (m_mmio m)) m).
Proof. intros E. unfold upd_mmio. by rewrite (bind_Ok _ _ _ _ _ (get_mmio_ok _ _ _ E)). Qed.

(** [vcpu->vm], [vcpu->vm->vgic], ... *)
Definition vcpu_vm (c : nat) : M (machine H) nat := let! v := get_vcpu c in deref (v_vm v).

(** A pointer into [vcpu->reg.x], or NULL. *)
Definition regptr : Type := option (nat * nat).
Definition load_reg (p : regptr) : M (machine H) Z :=
  let! ci := deref p in let! v := get_vcpu (fst ci) in deref (v_x v !! snd ci).
Definition store_reg (p : regptr) (e : Z) : M (machine H) unit :=
  let! ci := deref p in
  let! v := get_vcpu (fst ci) in
  let! _ := deref (v_x v !! snd ci) in
  upd_vcpu (fst ci) (set_v_x (<[snd ci := u64 e]> (v_x v))).

Context `{!Hardware H}.

(** Run a hardware access. *)
Definition hw_read (f : H -> Z * H) : M (machine H) Z :=
  fun m => let '(v, h) := f (m_hw m) in Ok v (set_hw h m).
Definition hw_do (f : H -> H) : M (machine H) unit := modify (fun m => set_hw (f (m_hw m)) m).

(** [read_sysreg], into a 64-bit variable; [write_sysreg] converts to [u64]. *)
Definition read_sysreg (r : sysreg) : M (machine H) Z := let! v := hw_read (hw_mrs r) in ret (u64 v).
Definition write_sysreg (r : sysreg) (v : Z) : M (machine H) unit := hw_do (hw_msr r (u64 v)).

(** [mpidr & 0xf], read into an [int]. *)
Definition cpuid : M (machine H) Z :=
  let! mpidr := read_sysreg mpidr_el1 in ret (Z.land (u32 mpidr) 0xf).

Definition tlb_flush : M (machine H) unit := hw_do hw_tlbi.

(** A pointer [&vcpus[i]], and back; [sizeof(struct vcpu)] is 568. *)
Definition VCPU_SIZE : Z := 568.
Definition vcpu_ptr `{!Image} (i : nat) : Z := vcpus_addr + Z.of_nat i * VCPU_SIZE.
Definition ptr_vcpu `{!Image} (p : Z) : option nat :=
  if (vcpus_addr <=? p) && (p <? vcpus_addr + VCPU_MAX * VCPU_SIZE) && ((p - vcpus_addr) mod VCPU_SIZE =? 0)
  then Some (Z.to_nat ((p - vcpus_addr) / VCPU_SIZE)) else None.

(** [cur_vcpu]: the pointer kept in [tpidr_el2]. *)
Definition cur_vcpu `{!Image} : M (machine H) (option nat) :=
  let! p := read_sysreg tpidr_el2 in ret (ptr_vcpu p).

End Access.

(** * The state at reset

    Every global has static storage: its bytes are 0 when the image starts. *)

Definition sys0 : vcpu_sys := mkSys 0 0 0 0 0 0 0 0 0 0 0 0 0 0.
Definition gic_state0 : gic_state := mkGicState (replicate 16 0) 0 0.
Definition vcpu0 : vcpu := mkVcpu (replicate 31 0) 0 0 sys0 UNUSED gic_state0 None None 0.
Definition irq0 : vgic_irq := mkIrq 0 0 0 0.
Definition vgic0 : vgic := mkVgic 0 0 0 false 0 (mkSpinlock 0 0).
Definition vgic_cpu0 : vgic_cpu := mkVgicCpu 0 0 (replicate 16 irq0) (replicate 16 irq0).
Definition vm0 : vm := mkVm (replicate 64 0) 0 (replicate 4 None) 0 None None 0 0.
Definition mmio0 : mmio_info := mkMmio None 0 0 None None.
Definition vq0 : virt_queue := mkVq (mkSpinlock 0 0) 0 0 0 0 0 0 0.

Definition reset_machine {H} (hw : H) (p : phys) (rd_start rd_size sp_end : Z) : machine H :=
  mkMachine hw p (replicate 2 vm0) (replicate 4 vcpu0) (replicate 64 mmio0) (replicate 2 vgic0)
    (replicate 4 vgic_cpu0) (mkSpinlock 0 0) (mkSpinlock 0 0) (mkSpinlock 0 0) (mkSpinlock 0 0) vq0 0 0 0 0 0
    rd_start rd_size (sp_end :: replicate 31 0) (replicate 32 0).
