(* ===== verification/Gic.v ===== *)
(** The driver of the physical interrupt controller (src/src/gic_v3.c,
    src/include/gic.h): the distributor (GICD), the redistributors (GICR), the
    CPU interface and the hypervisor control registers.

    Every register access of the source is an access to [Hardware], in the
    order of the source; the reads that the source makes only to print them are
    kept.  Barriers have no effect in this model of one processing element. *)
From stdpp Require Import base gmap list numbers tactics.
From S2P Require Import Prelude Spinlock PageAlloc Mem Mmu Machine.

(** * Constants *)

Definition GICDBASE : Z := 0x08000000.
Definition GICDSIZE : Z := 0x10000.
Definition GICRBASE : Z := 0x080a0000.
Definition GICRSIZE : Z := 0xf60000.
Definition GICRSTRIDE : Z := 0x20000.
Definition GIC_SPI0_INTNO : Z := 32.
Definition GIC_PPI_MAX : Z := 31.

Definition is_sgi (intid : Z) : bool := (0 <=? intid) && (intid <? 16).
Definition is_ppi (intid : Z) : bool := (16 <=? intid) && (intid <? 32).
Definition is_sgi_ppi (intid : Z) : bool := is_sgi intid || is_ppi intid.
Definition is_spi (intid : Z) : bool := 32 <=? intid.

Definition GICD_CTLR : Z := 0x0.
Definition GICD_TYPER : Z := 0x4.
Definition GICD_IIDR : Z := 0x8.
Definition GICD_TYPER2 : Z := 0xc.
Definition GICD_IGROUPR (n : Z) : Z := 0x080 + n * 4.
Definition GICD_ISENABLER (n : Z) : Z := 0x100 + n * 4.
Definition GICD_ICENABLER (n : Z) : Z := 0x180 + n * 4.
Definition GICD_ISPENDR (n : Z) : Z := 0x200 + n * 4.
Definition GICD_ICPENDR (n : Z) : Z := 0x280 + n * 4.
Definition GICD_ISACTIVER (n : Z) : Z := 0x300 + n * 4.
Definition GICD_ICACTIVER (n : Z) : Z := 0x380 + n * 4.
Definition GICD_IPRIORITYR (n : Z) : Z := 0x400 + n * 4.
Definition GICD_ITARGETSR (n : Z) : Z := 0x800 + n * 4.
Definition GICD_ICFGR (n : Z) : Z := 0xc00 + n * 4.
Definition GICD_IROUTER (n : Z) : Z := 0x6000 + n * 8.
Definition GICD_CTLR_G1NS_EN : Z := Z.shiftl 1 1.
Definition GICD_CTLR_ARE_NS : Z := Z.shiftl 1 5.
Definition GICD_CTLR_SS_ENGRP0 : Z := Z.shiftl 1 0.
Definition GICD_CTLR_SS_ENGRP1 : Z := Z.shiftl 1 1.
Definition GIC_GICD_INT_PER_REG : Z := 32.
Definition GIC_GICD_IPRIORITY_PER_REG : Z := 4.
Definition GIC_GICD_ICFGR_PER_REG : Z := 16.
Definition GIC_GICD_ICENABLER_PER_REG : Z := 32.
Definition GIC_GICD_ICFGR_LEVEL : Z := 0x0.
Definition GIC_INT_DEF_PRIO : Z := 0xA0A0A0A0.

Definition GICR_CTLR : Z := 0x0.
Definition GICR_IIDR : Z := 0x4.
Definition GICR_TYPER : Z := 0x8.
Definition GICR_WAKER : Z := 0x14.
Definition SGI_BASE : Z := 0x10000.
Definition GICR_IGROUPR0 : Z := SGI_BASE + 0x80.
Definition GICR_ISENABLER0 : Z := SGI_BASE + 0x100.
Definition GICR_ICENABLER0 : Z := SGI_BASE + 0x180.
Definition GICR_ISPENDR0 : Z := SGI_BASE + 0x200.
Definition GICR_ICPENDR0 : Z := SGI_BASE + 0x280.
Definition GICR_ISACTIVER0 : Z := SGI_BASE + 0x300.
Definition GICR_ICACTIVER0 : Z := SGI_BASE + 0x380.
Definition GICR_IPRIORITYR (n : Z) : Z := SGI_BASE + 0x400 + n * 4.
Definition GICR_ICFGR0 : Z := SGI_BASE + 0xc00.
Definition GICR_ICFGR1 : Z := SGI_BASE + 0xc04.
Definition GICR_IGRPMODR0 : Z := SGI_BASE + 0xd00.
Definition GIC_GICR_WAKER_PS : Z := Z.shiftl 1 1.
Definition GIC_GICR_WAKER_CA : Z := Z.shiftl 1 2.

Definition ICC_SRE_EL1_SRE : Z := Z.shiftl 1 0.
Definition ICC_SRE_EL2_SRE : Z := Z.shiftl 1 0.
Definition ICC_SRE_EL2_Enable : Z := Z.shiftl 1 3.
Definition ICC_CTLR_EOImode (m : Z) : Z := Z.shiftl m 1.
Definition GIC_IDLE_PRIO : Z := 0xff.
Definition ICH_HCR_EN : Z := Z.shiftl 1 0.
Definition ICH_VMCR_VENG1 : Z := Z.shiftl 1 1.

(** List registers; [n] is an [int] or a [u32] and the masks are [long]. *)
Definition ICH_LR_VINTID (n : Z) : Z := Z.land n 0xffffffff.
Definition ICH_LR_PINTID (n : Z) : Z := Z.shiftl (Z.land n 0x1fff) 32.
Definition ICH_LR_GROUP (n : Z) : Z := Z.shiftl (Z.land n 0x1) 60.
Definition ICH_LR_HW : Z := Z.shiftl 1 61.
Definition ICH_LR_STATE (n : Z) : Z := u64 (Z.shiftl (Z.land n 0x3) 62).
Definition LR_INACTIVE : Z := 0.
Definition LR_PENDING : Z := 1.
Definition lr_is_inactive (lr : Z) : bool := Z.land (Z.shiftr lr 62) 0x3 =? LR_INACTIVE.
Definition lr_is_pending (lr : Z) : bool := Z.land (Z.shiftr lr 62) 0x3 =? LR_PENDING.

Definition gic_make_lr (pirq virq group : Z) : Z :=
  Z.lor (Z.lor (Z.lor (Z.lor (ICH_LR_STATE LR_PENDING) ICH_LR_HW) (ICH_LR_GROUP group))
    (ICH_LR_PINTID pirq)) (ICH_LR_VINTID virq).

(** [enum gic_type] *)
Inductive gic_type := GIC_TYPE_GICD | GIC_TYPE_GICR.

Definition gic_base_type (irq : Z) : gic_type :=
  if irq <? GIC_SPI0_INTNO then GIC_TYPE_GICR else GIC_TYPE_GICD.

(** How often a device register is polled before the wait counts as stuck. *)
Class PollFuel := poll_fuel : nat.

(** * The driver *)

Section Gic.
Context {H : Type} `{!Hardware H} `{!PollFuel}.

(** The accessors of gic.h; addresses are computed in [u32]. *)
Definition gicd_r (offset : Z) : M (machine H) Z :=
  let! v := hw_read (hw_r32 (u32 (GICDBASE + u32 offset))) in ret (u32 v).
Definition gicd_w (offset val : Z) : M (machine H) unit :=
  hw_do (hw_w32 (u32 (GICDBASE + u32 offset)) (u32 val)).
Definition GICRBASEn (n : Z) : Z := GICRBASE + n * GICRSTRIDE.
Definition gicr_r32 (cpuid offset : Z) : M (machine H) Z :=
  let! v := hw_read (hw_r32 (u32 (GICRBASEn cpuid + u32 offset))) in ret (u32 v).
Definition gicr_w32 (cpuid offset val : Z) : M (machine H) unit :=
  hw_do (hw_w32 (u32 (GICRBASEn cpuid + u32 offset)) (u32 val)).
Definition gicr_r64 (cpuid offset : Z) : M (machine H) Z :=
  let! v := hw_read (hw_r64 (u32 (GICRBASEn cpuid + u32 offset))) in ret (u64 v).

Definition REG_GET_BIT (r b : Z) : M (machine H) Z :=
  let! v := hw_read (hw_r32 r) in ret (Z.land (u32 v) b).

Definition gic_redistributor_rwp : M (machine H) unit :=
  let! id := cpuid in
  let rbase := GICRBASEn id in
  let gicr_ctlr := rbase + GICR_CTLR in
  while_do poll_fuel (let! b := REG_GET_BIT gicr_ctlr (Z.shiftl 1 3) in ret (negb (b =? 0))) (ret tt).

Definition gic_distributor_rwp : M (machine H) unit :=
  let gicd_ctlr := GICDBASE + GICD_CTLR in
  while_do poll_fuel (let! b := REG_GET_BIT gicd_ctlr (Z.shiftl 1 31) in ret (negb (b =? 0))) (ret tt).

(** The parameter is an [int]. *)
Definition gicv3_wait_for_rwp (irq_no : Z) : M (machine H) unit :=
  if i32 irq_no <? GIC_SPI0_INTNO then gic_redistributor_rwp else gic_distributor_rwp.

Definition init_gicd_v3 : M (machine H) unit :=
  let! gicd_ctlr_val := gicd_r GICD_CTLR in
  let gicd_ctlr_val := Z.land gicd_ctlr_val (notw 32 (Z.lor GICD_CTLR_SS_ENGRP0 GICD_CTLR_SS_ENGRP1)) in
  gicd_w GICD_CTLR gicd_ctlr_val ;;
  gicv3_wait_for_rwp GIC_SPI0_INTNO ;;
  let! gicd_typer_val := gicd_r GICD_TYPER in
  modify (set_spi_num ((Z.land gicd_typer_val 0x1f + 1) * 32)) ;;
  let! g_spi_num := gets m_spi_num in
  let regs_nr := (g_spi_num + GIC_GICD_INT_PER_REG - 1) / GIC_GICD_INT_PER_REG in
  for_range (GIC_SPI0_INTNO / GIC_GICD_ICENABLER_PER_REG) regs_nr (fun i =>
    gicd_w (GICD_ICENABLER i) (notw 32 0) ;;
    gicd_w (GICD_ICPENDR i) (notw 32 0)) ;;
  let regs_nr := (g_spi_num + GIC_GICD_IPRIORITY_PER_REG - 1) / GIC_GICD_IPRIORITY_PER_REG in
  for_range (GIC_SPI0_INTNO / GIC_GICD_IPRIORITY_PER_REG) regs_nr (fun i =>
    gicd_w (GICD_IPRIORITYR i)
      (Z.lor (Z.lor (Z.lor 0xA0 (Z.shiftl 0xA0 8)) (Z.shiftl 0xA0 16)) (Z.shiftl 0xA0 24))) ;;
  let regs_nr := (g_spi_num + GIC_GICD_ICFGR_PER_REG - 1) / GIC_GICD_ICFGR_PER_REG in
  for_range (GIC_SPI0_INTNO / GIC_GICD_ICFGR_PER_REG) regs_nr (fun i =>
    gicd_w (GICD_ICFGR i) GIC_GICD_ICFGR_LEVEL) ;;
  let affinity := 0 in
  for_range GIC_SPI0_INTNO g_spi_num (fun i => gicd_w (GICD_IROUTER i) affinity) ;;
  for_range 0 (Z.land gicd_typer_val 0x1f) (fun i => gicd_w (GICD_IGROUPR i) (notw 32 0)) ;;
  let! gicd_ctlr_val := gicd_r GICD_CTLR in
  let gicd_ctlr_val := Z.lor gicd_ctlr_val (Z.lor GICD_CTLR_SS_ENGRP0 GICD_CTLR_SS_ENGRP1) in
  gicd_w GICD_CTLR gicd_ctlr_val ;;
  gicv3_wait_for_rwp GIC_SPI0_INTNO.

Definition init_gicr_v3 : M (machine H) unit :=
  let! cpu_id := cpuid in
  let! gicr_ctlr_val := gicr_r32 cpu_id GICR_CTLR in
  gicr_w32 cpu_id GICR_CTLR (Z.land gicr_ctlr_val (notw 32 0x1)) ;;
  gicr_w32 cpu_id GICR_IGROUPR0 (notw 32 0) ;;
  gicr_w32 cpu_id GICR_IGRPMODR0 0 ;;
  let! gicr_waker_val := gicr_r32 cpu_id GICR_WAKER in
  gicr_w32 cpu_id GICR_WAKER (Z.land gicr_waker_val (notw 32 GIC_GICR_WAKER_PS)) ;;
  while_do poll_fuel
    (let! w := gicr_r32 cpu_id GICR_WAKER in ret (negb (Z.land w GIC_GICR_WAKER_CA =? 0)))
    (ret tt).

(** The loop over [i] goes in steps of [GIC_GICD_IPRIORITY_PER_REG]. *)
Definition init_gicc_v3 : M (machine H) unit :=
  let! cpu_id := cpuid in
  gicr_w32 cpu_id GICR_IGROUPR0 (notw 32 0) ;;
  gicr_w32 cpu_id GICR_ICACTIVER0 (notw 32 0) ;;
  gicr_w32 cpu_id GICR_ICENABLER0 0xffff0000 ;;
  gicr_w32 cpu_id GICR_ICPENDR0 (notw 32 0) ;;
  for_range 0 (GIC_SPI0_INTNO / GIC_GICD_IPRIORITY_PER_REG) (fun k =>
    let i := k * GIC_GICD_IPRIORITY_PER_REG in
    gicr_w32 cpu_id (GICR_IPRIORITYR i) GIC_INT_DEF_PRIO) ;;
  gicv3_wait_for_rwp 0 ;;
  gicr_w32 cpu_id GICR_ICFGR1 0 ;;
  write_sysreg icc_igrpen0_el1 0 ;;
  write_sysreg icc_igrpen1_el1 0 ;;
  let! sre_el2 := read_sysreg icc_sre_el2 in
  write_sysreg icc_sre_el2 (Z.lor sre_el2 (Z.lor ICC_SRE_EL2_SRE ICC_SRE_EL2_Enable)) ;;
  let! sre_el1 := read_sysreg icc_sre_el1 in
  write_sysreg icc_sre_el1 (Z.lor sre_el1 ICC_SRE_EL1_SRE) ;;
  write_sysreg icc_pmr_el1 GIC_IDLE_PRIO ;;
  let! icc_ctlr_el1_val := read_sysreg icc_ctlr_el1 in
  write_sysreg icc_ctlr_el1 (Z.lor icc_ctlr_el1_val (ICC_CTLR_EOImode 1)) ;;
  write_sysreg icc_igrpen1_el1 1.

Definition gic_v3_get_listregs : M (machine H) Z :=
  let! tmp := read_sysreg ich_vtr_el2 in ret (Z.land (u32 tmp) 0x1f + 1).

Definition init_gich_v3 : M (machine H) unit :=
  write_sysreg ich_vmcr_el2 ICH_VMCR_VENG1 ;;
  write_sysreg ich_hcr_el2 ICH_HCR_EN ;;
  let! n := gic_v3_get_listregs in
  modify (set_lr_max n).

(** [&vcpu->gic] is given by the index of the vcpu. *)
Definition gic_state_set_lr (c : nat) (i v : Z) : M (machine H) unit :=
  let! vc := get_vcpu c in
  let g := v_gic vc in
  let! _ := deref (gs_lr g !! Z.to_nat i) in
  upd_vcpu c (set_v_gic (mkGicState (<[Z.to_nat i := v]> (gs_lr g)) (gs_vmcr_el2 g) (gs_sre_el1 g))).

Definition vm_gic_state_init (c : nat) : M (machine H) unit :=
  let! g_gic_lr_max := gets m_lr_max in
  for_range 0 g_gic_lr_max (fun i => gic_state_set_lr c i 0) ;;
  let! v := read_sysreg ich_vmcr_el2 in
  let! vc := get_vcpu c in
  upd_vcpu c (set_v_gic (mkGicState (gs_lr (v_gic vc)) v (gs_sre_el1 (v_gic vc)))).

Definition init_gicv3_percpu : M (machine H) unit :=
  init_gicc_v3 ;; init_gicr_v3 ;; init_gich_v3.

Definition gicv3_init : M (machine H) unit := init_gicd_v3 ;; init_gicv3_percpu.

(** ** Acknowledge and end of interrupt *)

Definition gic_deactive_irq (irq : Z) : M (machine H) unit := write_sysreg icc_dir_el1 irq.

Definition gic_eoi (irq group : Z) : M (machine H) unit :=
  if group =? 0 then write_sysreg icc_eoir0_el1 irq
  else if group =? 1 then write_sysreg icc_eoir1_el1 irq
  else panic.

Definition gic_host_eoi (irq group : Z) : M (machine H) unit :=
  gic_eoi irq group ;; gic_deactive_irq irq.

Definition gic_guest_eoi (irq group : Z) : M (machine H) unit := gic_eoi irq group.

Definition gic_read_iar : M (machine H) Z :=
  let! iar_el1 := read_sysreg icc_iar1_el1 in ret (u32 iar_el1).

(** ** Enabling and routing *)

Definition gic_irq_enable (irq : Z) : M (machine H) unit :=
  match gic_base_type irq with
  | GIC_TYPE_GICD =>
      let! val := gicd_r (GICD_ISENABLER (irq / 32)) in
      gicd_r (GICD_ISENABLER (irq / 32)) ;;
      let val := Z.lor val (Z.shiftl 1 (irq mod 32)) in
      gicd_w (GICD_ISENABLER (irq / 32)) val ;;
      gicd_r (GICD_ISENABLER (irq / 32)) ;;
      ret tt
  | GIC_TYPE_GICR =>
      let! id := cpuid in
      let! val := gicr_r32 id GICR_ISENABLER0 in
      let val := Z.lor val (Z.shiftl 1 (irq mod 32)) in
      let! id := cpuid in
      gicr_w32 id GICR_ISENABLER0 val
  end.

Definition gic_irq_disable (irq : Z) : M (machine H) unit :=
  match gic_base_type irq with
  | GIC_TYPE_GICD =>
      let! val := gicd_r (GICD_ISENABLER (irq / 32)) in
      gicd_r (GICD_ISENABLER (irq / 32)) ;;
      let val := Z.land val (notw 32 (Z.shiftl 1 (irq mod 32))) in
      gicd_w (GICD_ISENABLER (irq / 32)) val ;;
      gicd_r (GICD_ISENABLER (irq / 32)) ;;
      ret tt
  | GIC_TYPE_GICR =>
      let! id := cpuid in
      let! val := gicr_r32 id GICR_ISENABLER0 in
      let val := Z.land val (notw 32 (Z.shiftl 1 (irq mod 32))) in
      let! id := cpuid in
      gicr_w32 id GICR_ISENABLER0 val
  end.

(** The result is an [int]: bit 31 is the sign. *)
Definition gic_is_irq_enable (irq : Z) : M (machine H) Z :=
  let! g_spi_num := gets m_spi_num in
  if (GIC_SPI0_INTNO <=? irq) && (irq <=? g_spi_num) then
    let! val := gicd_r (GICD_ISENABLER (irq / 32)) in
    ret (i32 (Z.land val (u32 (Z.shiftl 1 (irq mod 32)))))
  else if irq <=? GIC_PPI_MAX then
    let! id := cpuid in
    let! val := gicr_r32 id GICR_ISENABLER0 in
    ret (i32 (Z.land val (u32 (Z.shiftl 1 irq))))
  else ret 0.

Definition gic_set_target_by_affinity (irq aff : Z) : M (machine H) unit :=
  let! is_enable := gic_is_irq_enable irq in
  (if negb (is_enable =? 0) then gic_irq_disable irq else ret tt) ;;
  gicd_w (GICD_IROUTER irq) aff ;;
  (if negb (is_enable =? 0) then gic_irq_enable irq else gicv3_wait_for_rwp irq).

Definition gic_set_target_by_pe_field (irq target : Z) : M (machine H) unit :=
  let! is_enable := gic_is_irq_enable irq in
  (if negb (is_enable =? 0) then gic_irq_disable irq else ret tt) ;;
  let! val := gicd_r (GICD_ITARGETSR (irq / 4)) in
  let val := Z.land val (notw 32 (u32 (Z.shiftl 0xff (irq mod 4 * 8)))) in
  gicd_w (GICD_ITARGETSR (irq / 4)) (Z.lor val (u32 (Z.shiftl target (irq mod 4 * 8)))) ;;
  (if negb (is_enable =? 0) then gic_irq_enable irq else gicv3_wait_for_rwp irq).

Definition gic_max_spi : M (machine H) Z :=
  let! gicd_typer := gicd_r GICD_TYPER in
  let ITLinesNumber := Z.land gicd_typer 0x1f in
  let max_spi_intid := 32 * (ITLinesNumber + 1) - 1 in
  ret (if 1019 <? max_spi_intid then 1019 else max_spi_intid).

Definition gic_set_pending_irq (irq_id : Z) : M (machine H) unit :=
  gicd_w (GICD_ISPENDR (irq_id / 32)) (Z.shiftl 1 (irq_id mod 32)).

(** ** List registers *)

Definition gic_read_lr (n : Z) : M (machine H) Z :=
  if (0 <=? n) && (n <=? 15) then read_sysreg (ich_lr_el2 n) else ret 0.

Definition gic_write_lr (n val : Z) : M (machine H) unit :=
  if (0 <=? n) && (n <=? 15) then write_sysreg (ich_lr_el2 n) val else panic.

(** [for (i = 0; i < g_gic_lr_max; i++)], with an early return. *)
Fixpoint pending_lr_from (n : nat) (i : Z) : M (machine H) bool :=
  match n with
  | O => ret false
  | S n' =>
      let! lr := gic_read_lr i in
      if lr_is_pending lr then ret true else pending_lr_from n' (i + 1)
  end.
Definition gic_has_pending_lr : M (machine H) bool :=
  let! g_gic_lr_max := gets m_lr_max in pending_lr_from (Z.to_nat g_gic_lr_max) 0.

(** The cases from [n] down to 0, each falling through to the next. *)
Fixpoint restore_lr_case (n : nat) (lr : list Z) : M (machine H) unit :=
  let! v := deref (lr !! n) in
  write_sysreg (ich_lr_el2 (Z.of_nat n)) v ;;
  match n with O => ret tt | S n' => restore_lr_case n' lr end.

Definition gic_restore_lr (gic : gic_state) : M (machine H) unit :=
  let! g_gic_lr_max := gets m_lr_max in
  let n := u32 (g_gic_lr_max - 1) in
  if n <=? 15 then restore_lr_case (Z.to_nat n) (gs_lr gic) else ret tt.

Definition gic_restore_state (gic : gic_state) : M (machine H) unit :=
  let! sre_el1 := read_sysreg icc_sre_el1 in
  write_sysreg ich_vmcr_el2 (gs_vmcr_el2 gic) ;;
  write_sysreg icc_sre_el1 (Z.lor sre_el1 (gs_sre_el1 gic)) ;;
  gic_restore_lr gic.

End Gic.
