(* ===== verification/Hw.v ===== *)
(** What the components rely on of the hardware, and a simulated machine.

    [SysregLaws] and [GicLaws] are the architected behaviour of the system
    registers and of the interrupt controller (Arm ARM, GICv3 specification)
    that the theorems use; [sim] is a small concrete machine that satisfies
    them, on which the witnesses run. *)
From stdpp Require Import base gmap list numbers tactics.
From S2P Require Import Prelude Spinlock PageAlloc Mem Mmu Machine Gic.

(** * Laws *)

(** Registers that a write changes and that nothing but a write changes. *)
Definition holds (r : sysreg) : bool :=
  match r with
  | far_el2 | elr_el2 | esr_el2 | spsr_el2 | hpfar_el2 | mpidr_el1 | midr_el1 | far_el1 | esr_el1
  | par_el1 | id_aa64mmfr0_el1 | cntv_ctl_el0 | cntv_tval_el0 | cntfrq_el0 | cntpct_el0 | cntp_ctl_el0
  | cntp_tval_el0 | icc_pmr_el1 | icc_eoir0_el1 | icc_eoir1_el1 | icc_dir_el1 | icc_iar1_el1
  | icc_ctlr_el1 | ich_hcr_el2 | ich_vtr_el2 => false
  | ich_lr_el2 n => (0 <=? n) && (n <=? 15)
  | _ => true
  end.

(** Registers that describe the exception taken: they stay as they are until the
    next one, and reading them has no effect. *)
Definition syndrome (r : sysreg) : bool :=
  match r with far_el2 | elr_el2 | esr_el2 | spsr_el2 | hpfar_el2 => true | _ => false end.

(** [rw_bits r]: the bits of [r] that are implemented; the others are RES0. *)
Class SysregLaws (H : Type) `{!Hardware H} := {
  sysreg_of : H -> sysreg -> Z;
  rw_bits : sysreg -> Z;
  sysreg_range : forall h r, is_u64 (sysreg_of h r);
  mrs_holds : forall r h, holds r = true -> hw_mrs r h = (sysreg_of h r, h);
  mrs_mpidr : forall h, hw_mrs mpidr_el1 h = (sysreg_of h mpidr_el1, h);
  mrs_syndrome : forall r h, syndrome r = true -> hw_mrs r h = (sysreg_of h r, h);
  mrs_frame : forall r h r', holds r' = true -> sysreg_of (snd (hw_mrs r h)) r' = sysreg_of h r';
  r32_frame : forall a h r', holds r' = true -> sysreg_of (snd (hw_r32 a h)) r' = sysreg_of h r';
  msr_holds : forall r v h r', holds r = true ->
    sysreg_of (hw_msr r v h) r' = if bool_decide (r' = r) then Z.land v (rw_bits r) else sysreg_of h r';
  msr_frame : forall r v h r', holds r' = true \/ r' = mpidr_el1 -> r' <> r ->
    sysreg_of (hw_msr r v h) r' = sysreg_of h r';
  tlbi_sysreg : forall h r, sysreg_of (hw_tlbi h) r = sysreg_of h r;
  w32_sysreg : forall a v h r, sysreg_of (hw_w32 a v h) r = sysreg_of h r
}.

(** Poll the register at [a] until the bits [b] are clear. *)
Fixpoint poll {H} `{!Hardware H} (n : nat) (a b : Z) (h : H) : option H :=
  match n with
  | O => None
  | S n' => let '(v, h') := hw_r32 a h in
            if Z.land (u32 v) b =? 0 then Some h' else poll n' a b h'
  end.

(** The enable bits of the distributor, 32 interrupts a word, and of the
    redistributor of each core; a write to a set-enable register sets the bits
    written as 1 and leaves the others; a register write completes. *)
Class GicLaws (H : Type) `{!Hardware H} `{!PollFuel} `{!SysregLaws H} := {
  gicd_en : H -> Z -> Z;
  gicr_en : H -> Z -> Z;
  gicd_isenabler_r : forall h n, 1 <= n < 32 ->
    hw_r32 (GICDBASE + GICD_ISENABLER n) h = (gicd_en h n, h) /\ is_u32 (gicd_en h n);
  gicd_isenabler_w : forall h n v k, 1 <= n < 32 -> is_u32 v ->
    gicd_en (hw_w32 (GICDBASE + GICD_ISENABLER n) v h) k =
      if k =? n then Z.lor (gicd_en h n) v else gicd_en h k;
  gicd_isenabler_w_gicr : forall h n v c, 1 <= n < 32 -> 0 <= c < 16 ->
    gicr_en (hw_w32 (GICDBASE + GICD_ISENABLER n) v h) c = gicr_en h c;
  gicr_isenabler_r : forall h c, 0 <= c < 16 ->
    hw_r32 (GICRBASEn c + GICR_ISENABLER0) h = (gicr_en h c, h) /\ is_u32 (gicr_en h c);
  gicr_isenabler_w : forall h c v k, 0 <= c < 16 -> is_u32 v ->
    gicr_en (hw_w32 (GICRBASEn c + GICR_ISENABLER0) v h) k =
      if k =? c then Z.lor (gicr_en h c) v else gicr_en h k;
  gicr_isenabler_w_gicd : forall h c v n, 0 <= c < 16 -> 1 <= n < 32 ->
    gicd_en (hw_w32 (GICRBASEn c + GICR_ISENABLER0) v h) n = gicd_en h n;
  gicd_rwp_clears : forall h, is_Some (poll poll_fuel (GICDBASE + GICD_CTLR) (Z.shiftl 1 31) h);
  gicr_rwp_clears : forall h c, 0 <= c < 16 ->
    is_Some (poll poll_fuel (GICRBASEn c + GICR_CTLR) (Z.shiftl 1 3) h)
}.

(** * A simulated machine *)

Record sim := mkSim { sim_sys : sysreg -> Z; sim_regs : gmap Z Z }.

Definition sim_reg (h : sim) (a : Z) : Z := u32 (default 0 (sim_regs h !! a)).
Definition sim_set (a v : Z) (h : sim) : sim := mkSim (sim_sys h) (<[a := u32 v]> (sim_regs h)).

Definition is_gicd_isenabler (a : Z) : bool :=
  (GICDBASE + 0x104 <=? a) && (a <? GICDBASE + 0x180) && (a mod 4 =? 0).
Definition is_gicd_icenabler (a : Z) : bool :=
  (GICDBASE + 0x184 <=? a) && (a <? GICDBASE + 0x200) && (a mod 4 =? 0).
Definition gicr_offset (a : Z) : option Z :=
  if (GICRBASE <=? a) && (a <? GICRBASE + 16 * GICRSTRIDE) then Some ((a - GICRBASE) mod GICRSTRIDE)
  else None.

(** Bits that always read as 0: RWP of the control registers, ChildrenAsleep. *)
Definition sim_mask (a : Z) : Z :=
  if a =? GICDBASE then 0x7fffffff
  else match gicr_offset a with
       | Some off => if off =? GICR_CTLR then 0xfffffff7 else if off =? GICR_WAKER then 0xfffffffb else 0xffffffff
       | None => 0xffffffff
       end.

Definition sim_r32 (a : Z) (h : sim) : Z * sim :=
  let a' := if is_gicd_icenabler a then a - 0x80
            else if bool_decide (gicr_offset a = Some GICR_ICENABLER0) then a - 0x80 else a in
  (Z.land (sim_reg h a') (sim_mask a'), h).

Definition sim_w32 (a v : Z) (h : sim) : sim :=
  if is_gicd_isenabler a || bool_decide (gicr_offset a = Some GICR_ISENABLER0)
  then sim_set a (Z.lor (sim_reg h a) v) h
  else if is_gicd_icenabler a || bool_decide (gicr_offset a = Some GICR_ICENABLER0)
  then sim_set (a - 0x80) (Z.land (sim_reg h (a - 0x80)) (notw 32 v)) h
  else sim_set a v h.

#[export] Instance sim_hardware : Hardware sim := {|
  hw_r32 := sim_r32;
  hw_w32 := sim_w32;
  hw_r64 a h := (fst (sim_r32 a h) + 2 ^ 32 * fst (sim_r32 (a + 4) h), h);
  hw_w64 a v h := sim_w32 (a + 4) (v / 2 ^ 32) (sim_w32 a (u32 v) h);
  hw_mrs r h := (u64 (sim_sys h r), h);
  hw_msr r v h := mkSim (fun r' => if bool_decide (r' = r) then u64 v else sim_sys h r') (sim_regs h);
  hw_tlbi h := h;
  hw_smc _ _ _ _ h := (0, h)
|}.

#[export] Instance sim_poll_fuel : PollFuel := 1%nat.

Lemma land_ones64 v : Z.land v (2 ^ 64 - 1) = u64 v.
Proof. change (2 ^ 64 - 1) with (Z.ones 64). by rewrite Z.land_ones. Qed.

#[export] Program Instance sim_sysreg_laws : SysregLaws sim := {|
  sysreg_of h r := u64 (sim_sys h r);
  rw_bits _ := 2 ^ 64 - 1
|}.
Next Obligation. intros. apply u64_range. Qed.
Next Obligation. done. Qed.
Next Obligation. done. Qed.
Next Obligation. done. Qed.
Next Obligation. done. Qed.
Next Obligation. done. Qed.
Next Obligation.
  intros r v h r' _. change (2 ^ 64 - 1) with (Z.ones 64). cbn -[u64].
  case_bool_decide; [|done]. rewrite Z.land_ones by lia. unfold u64. by rewrite Zmod_mod.
Qed.
Next Obligation. intros r v h r' _ Hne. cbn. by rewrite bool_decide_false. Qed.
Next Obligation. done. Qed.
Next Obligation.
  intros a v h r. cbn. unfold sim_w32, sim_set. by repeat case_match.
Qed.

(** Address arithmetic of the simulated interrupt controller. *)
Lemma gicd_isenabler_addr n : 1 <= n < 32 -> is_gicd_isenabler (GICDBASE + GICD_ISENABLER n) = true.
Proof.
  intros. unfold is_gicd_isenabler, GICD_ISENABLER, GICDBASE.
  rewrite !andb_true_iff, Z.leb_le, Z.ltb_lt, Z.eqb_eq. split_and!; [lia..|].
  replace (0x08000000 + (0x100 + n * 4)) with ((0x2000040 + n) * 4) by lia. apply Z.mod_mul. lia.
Qed.

Lemma gicd_addr_not_icenabler n : 1 <= n < 32 -> is_gicd_icenabler (GICDBASE + GICD_ISENABLER n) = false.
Proof. intros. unfold is_gicd_icenabler, GICD_ISENABLER. destruct (Z.leb_spec (GICDBASE + 0x184) (GICDBASE + (0x100 + n * 4))); [lia|done]. Qed.

Lemma gicr_addr_gicd c off :
  0 <= c -> 0 <= off ->
  is_gicd_isenabler (GICRBASEn c + off) = false /\ is_gicd_icenabler (GICRBASEn c + off) = false.
Proof.
  intros. unfold is_gicd_isenabler, is_gicd_icenabler, GICRBASEn, GICRBASE, GICRSTRIDE, GICDBASE.
  destruct (Z.ltb_spec (0x080a0000 + c * 0x20000 + off) (0x08000000 + 0x180)); [lia|].
  destruct (Z.ltb_spec (0x080a0000 + c * 0x20000 + off) (0x08000000 + 0x200)); [lia|].
  by rewrite !andb_false_r.
Qed.

Lemma gicr_offset_addr c off :
  0 <= c < 16 -> 0 <= off < GICRSTRIDE -> gicr_offset (GICRBASEn c + off) = Some off.
Proof.
  intros Hc Ho. unfold gicr_offset, GICRBASEn. unfold GICRSTRIDE in *.
  destruct (Z.leb_spec GICRBASE (GICRBASE + c * 0x20000 + off)); [|lia].
  destruct (Z.ltb_spec (GICRBASE + c * 0x20000 + off) (GICRBASE + 16 * 0x20000)); [|lia]. simpl.
  replace (GICRBASE + c * 0x20000 + off - GICRBASE) with (off + c * 0x20000) by lia.
  rewrite Z.mod_add by lia. by rewrite Z.mod_small.
Qed.

Lemma gicd_offset_addr n : 1 <= n < 32 -> gicr_offset (GICDBASE + GICD_ISENABLER n) = None.
Proof.
  intros. unfold gicr_offset, GICD_ISENABLER, GICDBASE, GICRBASE.
  destruct (Z.leb_spec 0x080a0000 (0x08000000 + (0x100 + n * 4))); [lia|done].
Qed.

Lemma sim_reg_set a v h b : sim_reg (sim_set a v h) b = if b =? a then u32 v else sim_reg h b.
Proof.
  unfold sim_reg, sim_set; simpl. destruct (Z.eqb_spec b a) as [->|].
  - rewrite lookup_insert_eq. simpl. apply u32_small, u32_range.
  - by rewrite lookup_insert_ne by done.
Qed.

Lemma sim_reg_mask h a : Z.land (sim_reg h a) 0xffffffff = sim_reg h a.
Proof. change 0xffffffff with (Z.ones 32). rewrite Z.land_ones by lia. apply Z.mod_small, u32_range. Qed.

Lemma lor_u32 x y : is_u32 x -> is_u32 y -> u32 (Z.lor x y) = Z.lor x y.
Proof. intros. apply u32_small, (lor_bound 32); [lia|done..]. Qed.

Lemma sim_w32_gicd h n v :
  1 <= n < 32 -> sim_w32 (GICDBASE + GICD_ISENABLER n) v h =
  sim_set (GICDBASE + GICD_ISENABLER n) (Z.lor (sim_reg h (GICDBASE + GICD_ISENABLER n)) v) h.
Proof. intros. unfold sim_w32. by rewrite gicd_isenabler_addr. Qed.

Lemma sim_w32_gicr h c v :
  0 <= c < 16 -> sim_w32 (GICRBASEn c + GICR_ISENABLER0) v h =
  sim_set (GICRBASEn c + GICR_ISENABLER0) (Z.lor (sim_reg h (GICRBASEn c + GICR_ISENABLER0)) v) h.
Proof.
  intros. unfold sim_w32. rewrite (gicr_offset_addr c) by (done || (vm_compute; split; congruence)).
  rewrite bool_decide_true by done. by rewrite orb_true_r.
Qed.

#[export] Program Instance sim_gic_laws : GicLaws sim := {|
  gicd_en h n := sim_reg h (GICDBASE + GICD_ISENABLER n);
  gicr_en h c := sim_reg h (GICRBASEn c + GICR_ISENABLER0)
|}.
Next Obligation.
  intros h n Hn. split; [|apply u32_range]. cbn. unfold sim_r32.
  rewrite gicd_addr_not_icenabler, gicd_offset_addr by done.
  rewrite bool_decide_false by done. unfold sim_mask.
  destruct (Z.eqb_spec (GICDBASE + GICD_ISENABLER n) GICDBASE); [unfold GICD_ISENABLER in *; lia|].
  rewrite gicd_offset_addr by done. by rewrite sim_reg_mask.
Qed.
Next Obligation.
  intros h n v k Hn Hv. cbn. rewrite sim_w32_gicd, sim_reg_set by done. unfold GICD_ISENABLER.
  destruct (Z.eqb_spec (GICDBASE + (256 + k * 4)) (GICDBASE + (256 + n * 4))), (Z.eqb_spec k n); try lia.
  subst. apply lor_u32; [apply u32_range|done].
Qed.
Next Obligation.
  intros h n v c Hn Hc. cbn. rewrite sim_w32_gicd, sim_reg_set by done.
  unfold GICD_ISENABLER, GICRBASEn, GICDBASE, GICRBASE, GICRSTRIDE, GICR_ISENABLER0, SGI_BASE.
  destruct (Z.eqb_spec (0x80a0000 + c * 0x20000 + (0x10000 + 0x100)) (0x8000000 + (0x100 + n * 4))); [lia|done].
Qed.
Next Obligation.
  intros h c Hc. split; [|apply u32_range]. cbn. unfold sim_r32.
  destruct (gicr_addr_gicd c GICR_ISENABLER0) as [_ ->]; [lia|done|].
  rewrite (gicr_offset_addr c) by (done || (vm_compute; split; congruence)).
  rewrite bool_decide_false by (vm_compute; congruence). unfold sim_mask.
  rewrite (gicr_offset_addr c) by (done || (vm_compute; split; congruence)).
  destruct (Z.eqb_spec (GICRBASEn c + GICR_ISENABLER0) GICDBASE) as [E|].
  { unfold GICRBASEn, GICRBASE, GICRSTRIDE, GICR_ISENABLER0, SGI_BASE, GICDBASE in E. lia. }
  cbn -[sim_reg]. by rewrite sim_reg_mask.
Qed.
Next Obligation.
  intros h c v k Hc Hv. cbn. rewrite sim_w32_gicr, sim_reg_set by done.
  unfold GICRBASEn, GICRBASE, GICRSTRIDE, GICR_ISENABLER0, SGI_BASE.
  destruct (Z.eqb_spec (0x80a0000 + k * 0x20000 + (0x10000 + 0x100)) (0x80a0000 + c * 0x20000 + (0x10000 + 0x100))), (Z.eqb_spec k c); try lia.
  subst. apply lor_u32; [apply u32_range|done].
Qed.
Next Obligation.
  intros h c v n Hc Hn. cbn. rewrite sim_w32_gicr, sim_reg_set by done.
  unfold GICD_ISENABLER, GICRBASEn, GICDBASE, GICRBASE, GICRSTRIDE, GICR_ISENABLER0, SGI_BASE.
  destruct (Z.eqb_spec (0x8000000 + (0x100 + n * 4)) (0x80a0000 + c * 0x20000 + (0x10000 + 0x100))); [lia|done].
Qed.
Next Obligation.
  intros h. exists h. cbn -[sim_reg u32 Z.land Z.shiftl]. unfold sim_r32. cbn -[sim_reg u32 Z.land Z.shiftl].
  rewrite u32_small by (apply (land_bound_l 32); [lia|apply u32_range]).
  by rewrite <- Z.land_assoc, Z.land_0_r.
Qed.
Next Obligation.
  intros h c Hc. exists h. cbn -[sim_reg u32 Z.land Z.shiftl sim_r32].
  assert (sim_r32 (GICRBASEn c + GICR_CTLR) h = (Z.land (sim_reg h (GICRBASEn c + GICR_CTLR)) 0xfffffff7, h)) as ->.
  { unfold sim_r32. destruct (gicr_addr_gicd c GICR_CTLR) as [_ ->]; [lia|done|].
    rewrite (gicr_offset_addr c) by (done || (vm_compute; split; congruence)).
    rewrite bool_decide_false by (vm_compute; congruence). unfold sim_mask.
    rewrite (gicr_offset_addr c) by (done || (vm_compute; split; congruence)).
    destruct (Z.eqb_spec (GICRBASEn c + GICR_CTLR) GICDBASE) as [E|]; [|done].
    unfold GICRBASEn, GICRBASE, GICRSTRIDE, GICR_CTLR, GICDBASE in E. lia. }
  rewrite u32_small by (apply (land_bound_l 32); [lia|apply u32_range]).
  by rewrite <- Z.land_assoc, Z.land_0_r.
Qed.

(** Symbols of an image linked at 0x40000000. *)
#[export] Instance sim_image : Image := {|
  vcpus_addr := 0x40010000; start_addr := 0x40000000; hyp_vector_table := 0x40000800; txt_start := 0x40000000;
  ram_start := 0x40122000; primary_stack_start := 0x40008000; primary_stack_end := 0x4000a000;
  guest_xv6_start := 0x40020000; guest_xv6_size := 0x30000; guest_xv6_end := 0x40040000;
  guest_xv6_fs_img_start := 0x4f000000; guest_xv6_fs_img_size := 0x100000
|}.

(** An idle core 0 with every register 0. *)
Definition sim0 : sim := mkSim (fun _ => 0) ∅.

(** The state at reset on the simulated machine, with the RAM of [example_phys]. *)
Definition sim_machine : machine sim := reset_machine sim0 example_phys 0x4f000000 0x100000 0x40002000.
