(* ===== verification/GicProofs.v ===== *)
(** Properties of the interrupt-controller driver: the encoding of list
    registers, saving and restoring the virtual interface, enabling interrupts. *)
From stdpp Require Import base gmap list numbers tactics.
From S2P Require Import Prelude Spinlock PageAlloc Mem Mmu Machine Gic Hw.

(** * Hardware accesses in [wp] *)

Section HwWp.
Context {H : Type} `{!Hardware H} `{!SysregLaws H}.
Implicit Types m : machine H.

Lemma set_hw_id m : set_hw (m_hw m) m = m.
Proof. by destruct m. Qed.

Lemma set_hw_hw h h' m : set_hw h (set_hw h' m) = set_hw h m.
Proof. by destruct m. Qed.

Lemma m_hw_set h m : m_hw (set_hw h m) = h.
Proof. by destruct m. Qed.

Lemma wp_hw_read f v h Q m :
  f (m_hw m) = (v, h) -> Q v (set_hw h m) -> wp (hw_read f) Q m.
Proof. intros E HQ. unfold wp, hw_read. by rewrite E. Qed.

Lemma wp_read_sysreg r Q m :
  holds r = true -> Q (sysreg_of (m_hw m) r) m -> wp (read_sysreg r) Q m.
Proof.
  intros Hr HQ. unfold read_sysreg. rewrite wp_bind. eapply wp_hw_read; [by apply mrs_holds|].
  rewrite wp_ret, set_hw_id. by rewrite u64_small by apply sysreg_range.
Qed.

Lemma wp_read_mpidr Q m : Q (sysreg_of (m_hw m) mpidr_el1) m -> wp (read_sysreg mpidr_el1) Q m.
Proof.
  intros HQ. unfold read_sysreg. rewrite wp_bind. eapply wp_hw_read; [apply mrs_mpidr|].
  rewrite wp_ret, set_hw_id. by rewrite u64_small by apply sysreg_range.
Qed.

Lemma wp_write_sysreg r v Q m :
  Q tt (set_hw (hw_msr r (u64 v) (m_hw m)) m) -> wp (write_sysreg r v) Q m.
Proof. done. Qed.

Definition cpu_of (h : H) : Z := Z.land (u32 (sysreg_of h mpidr_el1)) 0xf.

Lemma cpu_of_range h : 0 <= cpu_of h < 16.
Proof. unfold cpu_of. change 0xf with (Z.ones 4). rewrite Z.land_ones by lia. apply Z.mod_pos_bound. lia. Qed.

Lemma wp_cpuid Q m : Q (cpu_of (m_hw m)) m -> wp cpuid Q m.
Proof. intros HQ. unfold cpuid. rewrite wp_bind. apply wp_read_mpidr. by rewrite wp_ret. Qed.

(** A read of a register with side effects leaves the ones that hold alone. *)
Definition same_held (h h' : H) : Prop := forall r, holds r = true -> sysreg_of h' r = sysreg_of h r.

Lemma wp_mrs_any r Q m :
  (forall x h, is_u64 x -> same_held (m_hw m) h -> Q x (set_hw h m)) -> wp (read_sysreg r) Q m.
Proof.
  intros HQ. unfold read_sysreg. rewrite wp_bind. destruct (hw_mrs r (m_hw m)) as [x h] eqn:E.
  eapply wp_hw_read; [exact E|]. rewrite wp_ret. apply HQ; [apply u64_range|].
  intros r' Hr. pose proof (mrs_frame r (m_hw m) r' Hr) as F. by rewrite E in F.
Qed.

Lemma wp_r32_any a (f : Z -> Z) Q m :
  (forall x h, same_held (m_hw m) h -> Q (f x) (set_hw h m)) ->
  wp (let! v := hw_read (hw_r32 a) in ret (f v)) Q m.
Proof.
  intros HQ. rewrite wp_bind. destruct (hw_r32 a (m_hw m)) as [x h] eqn:E.
  eapply wp_hw_read; [exact E|]. rewrite wp_ret. apply HQ. intros r Hr.
  pose proof (r32_frame a (m_hw m) r Hr) as F. by rewrite E in F.
Qed.

Lemma same_held_trans h1 h2 h3 : same_held h1 h2 -> same_held h2 h3 -> same_held h1 h3.
Proof. intros Ha Hb r Hr. rewrite Hb, Ha; done. Qed.

End HwWp.

(** * List registers *)

Lemma shiftr_bits_eq x y n k :
  0 <= n -> 0 <= k -> (forall i, 0 <= i < k -> Z.testbit x (n + i) = Z.testbit y i) -> 0 <= y < 2 ^ k ->
  Z.land (Z.shiftr x n) (Z.ones k) = y.
Proof.
  intros Hn Hk Hb Hy. apply Z.bits_inj'. intros i Hi. rewrite Z.land_spec, Z.shiftr_spec by lia.
  destruct (Z.lt_ge_cases i k).
  - rewrite Z.ones_spec_low, andb_true_r by lia. replace (i + n) with (n + i) by lia. apply Hb. lia.
  - rewrite Z.ones_spec_high, andb_false_r by lia. symmetry. apply (testbit_high k); lia.
Qed.

(** The bits of a list register built by [gic_make_lr]. *)
Lemma gic_make_lr_bits pirq virq group i :
  is_u32 virq -> 0 <= i ->
  Z.testbit (gic_make_lr pirq virq group) i =
  (i =? 62) || (i =? 61) || ((i =? 60) && Z.testbit group 0)
  || ((32 <=? i) && (i <? 45) && Z.testbit pirq (i - 32)) || ((i <? 32) && Z.testbit virq i).
Proof.
  intros Hv Hi. unfold gic_make_lr, ICH_LR_STATE, ICH_LR_HW, ICH_LR_GROUP, ICH_LR_PINTID, ICH_LR_VINTID.
  rewrite !Z.lor_spec. change (u64 (Z.shiftl (Z.land LR_PENDING 3) 62)) with (2 ^ 62).
  rewrite testbit_pow2, shiftl_1, testbit_pow2 by lia. f_equal; [f_equal; [f_equal|]|].
  - rewrite Z.shiftl_spec by lia. change 1 with (Z.ones 1). rewrite Z.land_spec.
    destruct (Z.eqb_spec i 60) as [->|]; [simpl; by rewrite andb_true_r|]. simpl andb.
    destruct (Z.lt_ge_cases (i - 60) 0); [rewrite (Z.testbit_neg_r group) by lia; done|].
    rewrite Z.ones_spec_high by lia. by rewrite andb_false_r.
  - rewrite Z.shiftl_spec, Z.land_spec by lia. change 0x1fff with (Z.ones 13).
    destruct (Z.leb_spec 32 i); [|by rewrite Z.testbit_neg_r by lia].
    destruct (Z.ltb_spec i 45); [rewrite Z.ones_spec_low by lia; by rewrite andb_true_r|].
    rewrite Z.ones_spec_high by lia. by rewrite andb_false_r.
  - change 0xffffffff with (Z.ones 32). rewrite Z.land_spec. destruct (Z.ltb_spec i 32).
    + rewrite Z.ones_spec_low by lia. by rewrite andb_true_r.
    + rewrite Z.ones_spec_high by lia. by rewrite andb_false_r.
Qed.

(** A list register built by [gic_make_lr] decodes to what the caller asked
    for: state pending, the hardware bit, the group, the physical interrupt (13
    bits) and the virtual interrupt; the fields do not overlap. *)
Theorem gic_make_lr_fields (pirq virq group : Z) :
  is_u32 pirq -> is_u32 virq -> 0 <= group <= 1 ->
  let lr := gic_make_lr pirq virq group in
  is_u64 lr /\ lr_is_pending lr = true /\ lr_is_inactive lr = false /\ Z.testbit lr 61 = true /\
  Z.land (Z.shiftr lr 60) (Z.ones 1) = group /\
  Z.land (Z.shiftr lr 32) (Z.ones 13) = pirq mod 2 ^ 13 /\
  Z.land (Z.shiftr lr 0) (Z.ones 32) = virq.
Proof.
  intros Hp Hv Hg lr.
  assert (Hst : Z.land (Z.shiftr lr 62) (Z.ones 2) = 1).
  { apply shiftr_bits_eq; [lia..| |lia]. intros i Hi. unfold lr. rewrite gic_make_lr_bits by (done || lia).
    destruct (decide (i = 0)) as [->|]; [done|]. replace i with 1 by lia. done. }
  unfold lr_is_pending, lr_is_inactive. change 0x3 with (Z.ones 2). rewrite Hst. split_and!; [| done.. | | | |].
  - assert (0 <= lr).
    { unfold lr, gic_make_lr, ICH_LR_STATE, ICH_LR_HW, ICH_LR_GROUP, ICH_LR_PINTID, ICH_LR_VINTID.
      rewrite !Z.lor_nonneg, !Z.shiftl_nonneg, !Z.land_nonneg. pose proof (u64_range (Z.shiftl (Z.land LR_PENDING 3) 62)) as [? _]. lia. }
    split; [done|]. apply bits_bound; [lia|done|]. intros i Hi. unfold lr. rewrite gic_make_lr_bits by (done || lia).
    destruct (Z.eqb_spec i 62), (Z.eqb_spec i 61), (Z.eqb_spec i 60), (Z.ltb_spec i 45), (Z.ltb_spec i 32); try lia; by rewrite andb_false_r.
  - unfold lr. by rewrite gic_make_lr_bits by (done || lia).
  - apply shiftr_bits_eq; [lia..| |lia]. intros i Hi. replace i with 0 by lia.
    unfold lr. rewrite gic_make_lr_bits by (done || lia). by destruct (Z.testbit group 0).
  - apply shiftr_bits_eq; [lia..| |apply Z.mod_pos_bound; lia]. intros i Hi.
    unfold lr. rewrite gic_make_lr_bits, Z.mod_pow2_bits_low by (done || lia).
    destruct (Z.eqb_spec (32 + i) 62), (Z.eqb_spec (32 + i) 61), (Z.eqb_spec (32 + i) 60), (Z.leb_spec 32 (32 + i)),
      (Z.ltb_spec (32 + i) 45), (Z.ltb_spec (32 + i) 32); try lia.
    replace (32 + i - 32) with i by lia. simpl. by rewrite orb_false_r.
  - apply shiftr_bits_eq; [lia..| |done]. intros i Hi.
    unfold lr. rewrite gic_make_lr_bits by (done || lia).
    destruct (Z.eqb_spec (0 + i) 62), (Z.eqb_spec (0 + i) 61), (Z.eqb_spec (0 + i) 60), (Z.leb_spec 32 (0 + i)),
      (Z.ltb_spec (0 + i) 32); try lia. done.
Qed.

Lemma gic_make_lr_fields_witness : Z.land (Z.shiftr (gic_make_lr 27 27 1) 0) (Z.ones 32) = 27.
Proof. apply (gic_make_lr_fields 27 27 1); [split; vm_compute; congruence..|lia]. Defined.

(** * Restoring the virtual interface *)

Section Restore.
Context {H : Type} `{!Hardware H} `{!SysregLaws H}.
Implicit Types m : machine H.

(** What the cases from [n] down leave in the registers. *)
Lemma restore_lr_case_ok n lr m :
  (n < 16)%nat -> (n < length lr)%nat ->
  wp (restore_lr_case n lr) (fun _ m' => exists h', m' = set_hw h' m /\
    forall r, sysreg_of h' r =
      match r with
      | ich_lr_el2 k =>
          if (0 <=? k) && (k <=? Z.of_nat n) then Z.land (u64 (nth (Z.to_nat k) lr 0)) (rw_bits r)
          else sysreg_of (m_hw m) r
      | _ => sysreg_of (m_hw m) r
      end) m.
Proof.
  revert m. induction n as [|n IH]; intros m Hn Hl; simpl restore_lr_case; wp_steps;
    (destruct (lookup_lt_is_Some_2 lr _ Hl) as [v Hv]; eapply wp_deref; [exact Hv|]);
    apply nth_lookup_Some with (d := 0) in Hv; wp_steps; apply wp_write_sysreg.
  - wp_steps. eexists. split; [done|]. intros r. rewrite msr_holds by done.
    case_bool_decide as Hr; [subst r; by rewrite Nat2Z.id, Hv|]. destruct r; try done.
    destruct (Z.leb_spec 0 n), (Z.leb_spec n (Z.of_nat 0)); try done. exfalso. apply Hr. f_equal. lia.
  - eapply wp_mono; [|apply IH; lia]. cbn beta. intros _ m' (h' & -> & Hh). exists h'.
    rewrite set_hw_hw, m_hw_set in *. split; [done|]. intros r. rewrite Hh. rewrite !msr_holds by (unfold holds; rewrite andb_true_iff, !Z.leb_le; lia).
    destruct r as [| | | | | | | | | | | | | | | | | | | | | | | | | | | | | | | | | | | | | | | | | | | | | | |k];
      try (rewrite bool_decide_false by done; done).
    destruct (Z.leb_spec 0 k), (Z.leb_spec k (Z.of_nat n)), (Z.leb_spec k (Z.of_nat (S n))); try lia; simpl; try done.
    + rewrite bool_decide_true by (f_equal; lia). replace k with (Z.of_nat (S n)) by lia. by rewrite Nat2Z.id, Hv.
    + rewrite bool_decide_false; [done|]. intros [=]. lia.
    + rewrite bool_decide_false; [done|]. intros [=]. lia.
Qed.

Lemma gic_restore_state_ok (m : machine H) (gic : gic_state) :
  1 <= m_lr_max m <= 16 -> length (gs_lr gic) = 16%nat ->
  wp (gic_restore_state gic) (fun _ m' => exists h', m' = set_hw h' m /\
    (forall k, 0 <= k < m_lr_max m ->
       sysreg_of h' (ich_lr_el2 k) = Z.land (u64 (nth (Z.to_nat k) (gs_lr gic) 0)) (rw_bits (ich_lr_el2 k))) /\
    sysreg_of h' ich_vmcr_el2 = Z.land (u64 (gs_vmcr_el2 gic)) (rw_bits ich_vmcr_el2) /\
    sysreg_of h' icc_sre_el1 =
      Z.land (u64 (Z.lor (sysreg_of (m_hw m) icc_sre_el1) (gs_sre_el1 gic))) (rw_bits icc_sre_el1) /\
    (forall r, (forall k, r <> ich_lr_el2 k) -> r <> ich_vmcr_el2 -> r <> icc_sre_el1 ->
       sysreg_of h' r = sysreg_of (m_hw m) r)) m.
Proof.
  intros Hm Hl. unfold gic_restore_state, gic_restore_lr. wp_steps. apply wp_read_sysreg; [done|].
  wp_steps. apply wp_write_sysreg. wp_steps. apply wp_write_sysreg.
  rewrite wp_bind, wp_gets. cbn [m_lr_max set_hw m_hw].
  rewrite u32_small by (unfold is_u32; lia). destruct (Z.leb_spec (m_lr_max m - 1) 15); [|lia].
  eapply wp_mono; [|apply restore_lr_case_ok; lia]. cbn beta. intros _ m' (h' & -> & Hh). exists h'.
  split; [done|]. cbn [m_hw set_hw] in Hh. split_and!.
  - intros k Hk. rewrite Hh. destruct (Z.leb_spec 0 k), (Z.leb_spec k (Z.of_nat (Z.to_nat (m_lr_max m - 1)))); try lia. done.
  - rewrite Hh, !msr_holds by done. by rewrite bool_decide_false, bool_decide_true by done.
  - rewrite Hh, !msr_holds by done. by rewrite bool_decide_true by done.
  - intros r Hr1 Hr2 Hr3. rewrite Hh, !msr_holds by done. rewrite !bool_decide_false by done.
    destruct r; try done. by destruct (Hr1 n).
Qed.

(** Restoring a vcpu's interrupt state, when the processor implements 1 to 16
    list registers, succeeds and puts into every implemented list register the
    saved value, into ICH_VMCR_EL2 the saved control word, and adds the saved
    enable bits to ICC_SRE_EL1; no other register that holds its value changes. *)
Theorem gic_restore_state_spec (m : machine H) (gic : gic_state) :
  1 <= m_lr_max m <= 16 -> length (gs_lr gic) = 16%nat ->
  wp (gic_restore_state gic) (fun _ m' => exists h', m' = set_hw h' m /\
    (forall k, 0 <= k < m_lr_max m ->
       sysreg_of h' (ich_lr_el2 k) = Z.land (u64 (nth (Z.to_nat k) (gs_lr gic) 0)) (rw_bits (ich_lr_el2 k))) /\
    sysreg_of h' ich_vmcr_el2 = Z.land (u64 (gs_vmcr_el2 gic)) (rw_bits ich_vmcr_el2) /\
    sysreg_of h' icc_sre_el1 =
      Z.land (u64 (Z.lor (sysreg_of (m_hw m) icc_sre_el1) (gs_sre_el1 gic))) (rw_bits icc_sre_el1) /\
    (forall r, (forall k, r <> ich_lr_el2 k) -> r <> ich_vmcr_el2 -> r <> icc_sre_el1 ->
       sysreg_of h' r = sysreg_of (m_hw m) r)) m.
Proof. exact (gic_restore_state_ok m gic). Qed.

End Restore.

Lemma gic_restore_state_spec_witness :
  wp (gic_restore_state (mkGicState (replicate 16 7) 2 1)) (fun _ m' =>
    sysreg_of (m_hw m') (ich_lr_el2 3) = 7) (set_lr_max 4 sim_machine).
Proof.
  eapply wp_mono; [|apply (gic_restore_state_spec (set_lr_max 4 sim_machine) (mkGicState (replicate 16 7) 2 1))].
  - intros _ m' (h' & -> & Hlr & _). cbn [m_hw set_hw]. rewrite (Hlr 3) by (simpl; lia). reflexivity.
  - simpl. lia.
  - reflexivity.
Defined.

(** * Enabling and disabling *)

Section Enable.
Context {H : Type} `{!Hardware H} `{!PollFuel} `{!SysregLaws H} `{!GicLaws H}.
Implicit Types m : machine H.

Lemma gicd_addr off : 0 <= off < 2 ^ 16 -> u32 (GICDBASE + u32 off) = GICDBASE + off.
Proof. intros. rewrite (u32_small off), u32_small by (unfold is_u32, GICDBASE; lia). done. Qed.

Lemma gicr_addr c off : 0 <= c < 16 -> 0 <= off < GICRSTRIDE -> u32 (GICRBASEn c + u32 off) = GICRBASEn c + off.
Proof.
  intros Hc Ho. unfold GICRBASEn, GICRBASE, GICRSTRIDE in *.
  rewrite (u32_small off), u32_small by (unfold is_u32; lia). done.
Qed.

Lemma wp_gicd_r_isenabler n Q m :
  1 <= n < 32 -> Q (gicd_en (m_hw m) n) m -> wp (gicd_r (GICD_ISENABLER n)) Q m.
Proof.
  intros Hn HQ. unfold gicd_r. rewrite gicd_addr by (unfold GICD_ISENABLER; lia). rewrite wp_bind.
  destruct (gicd_isenabler_r (m_hw m) n Hn) as [E Hr]. eapply wp_hw_read; [exact E|].
  rewrite wp_ret, set_hw_id, u32_small by done. done.
Qed.

Lemma wp_gicr_r_isenabler c Q m :
  0 <= c < 16 -> Q (gicr_en (m_hw m) c) m -> wp (gicr_r32 c GICR_ISENABLER0) Q m.
Proof.
  intros Hc HQ. unfold gicr_r32. rewrite gicr_addr by (done || (vm_compute; split; congruence)).
  rewrite wp_bind. destruct (gicr_isenabler_r (m_hw m) c Hc) as [E Hr]. eapply wp_hw_read; [exact E|].
  rewrite wp_ret, set_hw_id, u32_small by done. done.
Qed.

Lemma bit_u32 k : 0 <= k < 32 -> is_u32 (Z.shiftl 1 k).
Proof. intros. rewrite shiftl_1 by lia. split; [apply Z.pow_nonneg; lia|apply Z.pow_lt_mono_r; lia]. Qed.

(** The word written by [gic_irq_enable] adds one bit, the word written by
    [gic_irq_disable] has only bits that were set. *)
Lemma lor_self_bit w k : 0 <= k < 32 -> is_u32 w -> Z.lor w (u32 (Z.lor w (Z.shiftl 1 k))) = Z.lor w (2 ^ k).
Proof.
  intros Hk Hw. rewrite lor_u32 by (done || by apply bit_u32). by rewrite Z.lor_assoc, Z.lor_diag, shiftl_1 by lia.
Qed.

Lemma lor_self_land w x : is_u32 w -> Z.lor w (u32 (Z.land w x)) = w.
Proof.
  intros Hw. rewrite u32_small by (apply (land_bound_l 32); [lia|done]).
  apply Z.bits_inj'. intros i Hi. rewrite Z.lor_spec, Z.land_spec. by destruct (Z.testbit w i), (Z.testbit x i).
Qed.

(** What the two functions do to the enable words. *)
Definition spi_words (h : H) (irq : Z) (w : Z) (h' : H) : Prop :=
  (forall k, 1 <= k < 32 -> gicd_en h' k = if k =? irq / 32 then w else gicd_en h k) /\
  (forall c, 0 <= c < 16 -> gicr_en h' c = gicr_en h c).
Definition ppi_words (h : H) (w : Z) (h' : H) : Prop :=
  (forall k, 1 <= k < 32 -> gicd_en h' k = gicd_en h k) /\
  (forall c, 0 <= c < 16 -> gicr_en h' c = if c =? cpu_of h then w else gicr_en h c).

Lemma wp_w_isenabler n v Q m :
  1 <= n < 32 ->
  (forall h', (forall k, 1 <= k < 32 -> gicd_en h' k = if k =? n then Z.lor (gicd_en (m_hw m) n) (u32 v) else gicd_en (m_hw m) k) ->
     (forall c, 0 <= c < 16 -> gicr_en h' c = gicr_en (m_hw m) c) -> Q tt (set_hw h' m)) ->
  wp (gicd_w (GICD_ISENABLER n) v) Q m.
Proof.
  intros Hn HQ. unfold gicd_w. rewrite gicd_addr by (unfold GICD_ISENABLER; lia).
  unfold hw_do. rewrite wp_modify. apply HQ; intros.
  - by rewrite gicd_isenabler_w by (done || apply u32_range).
  - by rewrite gicd_isenabler_w_gicr.
Qed.

Lemma wp_w_gicr_isenabler c v Q m :
  0 <= c < 16 ->
  (forall h', (forall k, 1 <= k < 32 -> gicd_en h' k = gicd_en (m_hw m) k) ->
     (forall k, 0 <= k < 16 -> gicr_en h' k = if k =? c then Z.lor (gicr_en (m_hw m) c) (u32 v) else gicr_en (m_hw m) k) ->
     Q tt (set_hw h' m)) ->
  wp (gicr_w32 c GICR_ISENABLER0 v) Q m.
Proof.
  intros Hc HQ. unfold gicr_w32. rewrite gicr_addr by (done || (vm_compute; split; congruence)).
  unfold hw_do. rewrite wp_modify. apply HQ; intros.
  - by rewrite gicr_isenabler_w_gicd.
  - by rewrite gicr_isenabler_w by (done || apply u32_range).
Qed.

(** Reading, changing with [f] and writing back an enable word. *)
Lemma irq_update_spi f irq m :
  32 <= irq < 1024 ->
  wp (let! val := gicd_r (GICD_ISENABLER (irq / 32)) in
      gicd_r (GICD_ISENABLER (irq / 32)) ;;
      gicd_w (GICD_ISENABLER (irq / 32)) (f val) ;;
      gicd_r (GICD_ISENABLER (irq / 32)) ;; ret tt)
    (fun _ m' => exists h', m' = set_hw h' m /\
       spi_words (m_hw m) irq (Z.lor (gicd_en (m_hw m) (irq / 32)) (u32 (f (gicd_en (m_hw m) (irq / 32))))) h') m.
Proof.
  intros Hi. assert (1 <= irq / 32 < 32) as Hn.
  { split; [apply Z.div_le_lower_bound; lia|apply Z.div_lt_upper_bound; lia]. }
  rewrite wp_bind. apply wp_gicd_r_isenabler; [done|]. rewrite wp_bind. apply wp_gicd_r_isenabler; [done|].
  rewrite wp_bind. apply wp_w_isenabler; [done|]. intros h' Hd Hr. rewrite wp_bind.
  apply wp_gicd_r_isenabler; [done|]. rewrite wp_ret. exists h'. by repeat split.
Qed.

Lemma irq_update_ppi f m :
  wp (let! id := cpuid in
      let! val := gicr_r32 id GICR_ISENABLER0 in
      let! id := cpuid in
      gicr_w32 id GICR_ISENABLER0 (f val))
    (fun _ m' => exists h', m' = set_hw h' m /\
       ppi_words (m_hw m) (Z.lor (gicr_en (m_hw m) (cpu_of (m_hw m)))
         (u32 (f (gicr_en (m_hw m) (cpu_of (m_hw m)))))) h') m.
Proof.
  pose proof (cpu_of_range (m_hw m)) as Hc.
  rewrite wp_bind. apply wp_cpuid. rewrite wp_bind. apply wp_gicr_r_isenabler; [done|].
  rewrite wp_bind. apply wp_cpuid. apply wp_w_gicr_isenabler; [done|]. intros h' Hd Hr. exists h'. by repeat split.
Qed.

(** Each of the driver's operations on an interrupt below 1024 returns, and
    touches nothing but the hardware. *)
Definition hw_only {A} (e : M (machine H) A) : Prop :=
  forall m, wp e (fun _ m' => exists h, m' = set_hw h m) m.

Lemma hw_only_bind {A B} (e : M (machine H) A) (k : A -> M (machine H) B) :
  hw_only e -> (forall a, hw_only (k a)) -> hw_only (bind e k).
Proof.
  intros He Hk m. rewrite wp_bind. eapply wp_mono; [|apply He]. cbn beta. intros a m' [h ->].
  eapply wp_mono; [|apply Hk]. cbn beta. intros b m'' [h' ->]. exists h'. by rewrite set_hw_hw.
Qed.

Lemma hw_only_ret {A} (a : A) : hw_only (ret a).
Proof. intros m. rewrite wp_ret. exists (m_hw m). by rewrite set_hw_id. Qed.

Lemma hw_only_gets {A} (f : machine H -> A) : hw_only (gets f).
Proof. intros m. rewrite wp_gets. exists (m_hw m). by rewrite set_hw_id. Qed.

Lemma hw_only_read f : hw_only (hw_read f).
Proof. intros m. unfold wp, hw_read. destruct (f (m_hw m)) as [x h]. by exists h. Qed.

Lemma hw_only_do f : hw_only (hw_do f).
Proof. intros m. unfold hw_do. rewrite wp_modify. eauto. Qed.

Lemma hw_only_if {A} (b : bool) (e1 e2 : M (machine H) A) : hw_only e1 -> hw_only e2 -> hw_only (if b then e1 else e2).
Proof. by destruct b. Qed.

Lemma hw_only_poll a b fuel :
  (forall h, is_Some (poll fuel a b h)) ->
  hw_only (while_do fuel (let! v := REG_GET_BIT a b in ret (negb (v =? 0))) (ret tt)).
Proof.
  intros Hp m. specialize (Hp (m_hw m)). revert m Hp. induction fuel as [|n IH]; intros m [h' Hh]; [done|].
  simpl in Hh |- *. unfold REG_GET_BIT. destruct (hw_r32 a (m_hw m)) as [x h1] eqn:E.
  rewrite !wp_bind. eapply wp_hw_read; [exact E|]. rewrite !wp_ret. destruct (Z.land (u32 x) b =? 0); simpl negb; cbn iota.
  - rewrite wp_ret. eauto.
  - rewrite wp_bind, wp_ret. eapply wp_mono; [|apply IH; eauto]. cbn beta. intros _ m' [h ->]. exists h. by rewrite set_hw_hw.
Qed.

Lemma hw_only_cpuid : hw_only cpuid.
Proof. intros m. apply wp_cpuid. exists (m_hw m). by rewrite set_hw_id. Qed.

Lemma hw_only_rwp irq : hw_only (gicv3_wait_for_rwp irq).
Proof.
  unfold gicv3_wait_for_rwp. apply hw_only_if.
  - intros m. unfold gic_redistributor_rwp. rewrite wp_bind. apply wp_cpuid. apply hw_only_poll.
    intros h. apply gicr_rwp_clears, cpu_of_range.
  - apply hw_only_poll. intros h. apply gicd_rwp_clears.
Qed.

(** Decompose an operation into hardware accesses. *)
Ltac hw_only_tac :=
  repeat first
    [ progress intros
    | apply hw_only_rwp | apply hw_only_cpuid | apply hw_only_ret | apply hw_only_gets
    | apply hw_only_read | apply hw_only_do
    | apply hw_only_if
    | apply hw_only_bind ].

Lemma hw_only_gicd_r off : hw_only (gicd_r off).
Proof. unfold gicd_r. hw_only_tac. Qed.

Lemma hw_only_gicr_r64 c off : hw_only (gicr_r64 c off).
Proof. unfold gicr_r64. hw_only_tac. Qed.

Lemma hw_only_enable irq : hw_only (gic_irq_enable irq).
Proof. unfold gic_irq_enable, gicd_r, gicd_w, gicr_r32, gicr_w32. destruct (gic_base_type irq); hw_only_tac. Qed.

Lemma hw_only_disable irq : hw_only (gic_irq_disable irq).
Proof. unfold gic_irq_disable, gicd_r, gicd_w, gicr_r32, gicr_w32. destruct (gic_base_type irq); hw_only_tac. Qed.

Lemma hw_only_is_enable irq : hw_only (gic_is_irq_enable irq).
Proof. unfold gic_is_irq_enable, gicd_r, gicr_r32. hw_only_tac. Qed.

Lemma hw_only_affinity irq aff : hw_only (gic_set_target_by_affinity irq aff).
Proof.
  unfold gic_set_target_by_affinity, gicd_w.
  repeat first [apply hw_only_is_enable|apply hw_only_enable|apply hw_only_disable|progress hw_only_tac].
Qed.

Lemma hw_only_pe_field irq t : hw_only (gic_set_target_by_pe_field irq t).
Proof.
  unfold gic_set_target_by_pe_field, gicd_w, gicd_r.
  repeat first [apply hw_only_is_enable|apply hw_only_enable|apply hw_only_disable|progress hw_only_tac].
Qed.

(** [gic_irq_enable] of an interrupt below 1024 sets exactly its own enable
    bit: in the distributor's word for a shared interrupt, in the calling core's
    redistributor for a private one; every other bit is as before. *)
Theorem gic_irq_enable_spec (m : machine H) (irq : Z) :
  0 <= irq < 1024 ->
  wp (gic_irq_enable irq) (fun _ m' => exists h', m' = set_hw h' m /\
    if irq <? 32
    then ppi_words (m_hw m) (Z.lor (gicr_en (m_hw m) (cpu_of (m_hw m))) (2 ^ (irq mod 32))) h'
    else spi_words (m_hw m) irq (Z.lor (gicd_en (m_hw m) (irq / 32)) (2 ^ (irq mod 32))) h') m.
Proof.
  intros Hi. unfold gic_irq_enable, gic_base_type, GIC_SPI0_INTNO.
  assert (0 <= irq mod 32 < 32) as Hk by (apply Z.mod_pos_bound; lia). destruct (Z.ltb_spec irq 32).
  - rewrite <- lor_self_bit by (done || apply (gicr_isenabler_r (m_hw m)), cpu_of_range).
    apply (irq_update_ppi (fun val => Z.lor val (Z.shiftl 1 (irq mod 32)))).
  - rewrite <- lor_self_bit; [|done|apply (gicd_isenabler_r (m_hw m))].
    + apply (irq_update_spi (fun val => Z.lor val (Z.shiftl 1 (irq mod 32)))). lia.
    + split; [apply Z.div_le_lower_bound; lia|apply Z.div_lt_upper_bound; lia].
Qed.

(** [gic_irq_disable] does not disable: it writes the enable word with the
    interrupt's bit cleared to the set-enable register, where writing 0 has no
    effect, so that every enable bit is as before. *)
Theorem gic_irq_disable_no_effect (m : machine H) (irq : Z) :
  0 <= irq < 1024 ->
  wp (gic_irq_disable irq) (fun _ m' => exists h', m' = set_hw h' m /\
    (forall k, 1 <= k < 32 -> gicd_en h' k = gicd_en (m_hw m) k) /\
    (forall c, 0 <= c < 16 -> gicr_en h' c = gicr_en (m_hw m) c)) m.
Proof.
  intros Hi. unfold gic_irq_disable, gic_base_type, GIC_SPI0_INTNO. destruct (Z.ltb_spec irq 32).
  - eapply wp_mono; [|apply (irq_update_ppi (fun val => Z.land val (notw 32 (Z.shiftl 1 (irq mod 32)))))].
    cbn beta. intros _ m' (h' & -> & Hd & Hr). exists h'. split_and!; [done..|]. intros c Hc. rewrite Hr by done.
    destruct (Z.eqb_spec c (cpu_of (m_hw m))) as [->|]; [|done].
    apply lor_self_land, (gicr_isenabler_r (m_hw m)), cpu_of_range.
  - eapply wp_mono; [|apply (irq_update_spi (fun val => Z.land val (notw 32 (Z.shiftl 1 (irq mod 32))))); lia].
    cbn beta. intros _ m' (h' & -> & Hd & Hr). exists h'. split_and!; [done| |done]. intros k Hk. rewrite Hd by done.
    destruct (Z.eqb_spec k (irq / 32)) as [->|]; [|done]. by apply lor_self_land, (gicd_isenabler_r (m_hw m)).
Qed.

End Enable.

Lemma gic_irq_enable_spec_witness :
  wp (gic_irq_enable 33) (fun _ m' => gicd_en (m_hw m') 1 = 2) sim_machine.
Proof.
  eapply wp_mono; [|apply (gic_irq_enable_spec sim_machine 33)].
  - intros _ m' (h' & -> & Hd & _). cbn [m_hw set_hw]. rewrite (Hd 1) by lia. reflexivity.
  - lia.
Defined.

Lemma gic_irq_disable_no_effect_witness :
  wp (gic_irq_disable 33) (fun _ m' => gicd_en (m_hw m') 1 = 2)
    (set_hw (sim_set (GICDBASE + GICD_ISENABLER 1) 2 sim0) sim_machine).
Proof.
  eapply wp_mono; [|apply (gic_irq_disable_no_effect (set_hw (sim_set (GICDBASE + GICD_ISENABLER 1) 2 sim0) sim_machine) 33)].
  - intros _ m' (h' & -> & Hd & _). cbn [m_hw set_hw] in *. rewrite (Hd 1) by lia. reflexivity.
  - lia.
Defined.
