(* ===== verification/Timer.v ===== *)
(** Time conversion and the physical timer (src/src/timer.c, src/include/timer.h). *)
From stdpp Require Import base gmap list numbers tactics.
From S2P Require Import Prelude Spinlock PageAlloc Mem Mmu Machine Gic Hw.

Definition CNTFRQ_MASK : Z := 0xFFFFFFFF.
Definition NS_PER_SECOND : Z := 1000000000.
Definition CNTV_CTL_ENABLE : Z := Z.shiftl 1 0.
Definition CNTV_CTL_IMASK : Z := Z.shiftl 1 1.

(** * Conversion *)

(** The union of [do_muldiv64]: a 64-bit value as its two halves. *)
Definition lo32 (x : Z) : Z := x mod 2 ^ 32.
Definition hi32 (x : Z) : Z := x / 2 ^ 32.
Definition join32 (high low : Z) : Z := high * 2 ^ 32 + low.

Definition do_muldiv64 (a b c : Z) : Z :=
  let rl := u64 (lo32 a * b) in
  let rh := u64 (hi32 a * b) in
  let rh := u64 (rh + Z.shiftr rl 32) in
  let res_high := u32 (rh / c) in
  let rh := u64 (Z.shiftl (rh mod c) 32) in
  let rl := Z.land rl 0xffffffff in
  let res_low := u32 (u64 (rh + rl) / c) in
  join32 res_high res_low.

(** The [u32] parameters truncate their arguments. *)
Definition muldiv64 (a b c : Z) : Z :=
  if negb (u32 c =? 0) then do_muldiv64 a (u32 b) (u32 c) else 0.

Section Timer.
Context {H : Type} `{!Hardware H} `{!PollFuel}.

Definition nstime_to_count (nstime : Z) : M (machine H) Z :=
  let! g_freq := gets m_freq in ret (muldiv64 nstime g_freq NS_PER_SECOND).

Definition count_to_time_ns (count : Z) : M (machine H) Z :=
  let! g_freq := gets m_freq in ret (muldiv64 count NS_PER_SECOND g_freq).

(** * The timer *)

Definition enable_timer : M (machine H) unit :=
  let! c := read_sysreg cntp_ctl_el0 in
  let c := Z.lor c CNTV_CTL_ENABLE in
  let c := Z.land c (notw 64 CNTV_CTL_IMASK) in
  write_sysreg cntp_ctl_el0 c.

Definition disable_timer : M (machine H) unit :=
  let! c := read_sysreg cntp_ctl_el0 in
  let c := Z.land c (notw 64 CNTV_CTL_ENABLE) in
  let c := Z.lor c CNTV_CTL_IMASK in
  write_sysreg cntp_ctl_el0 c.

Definition reload_timer : M (machine H) unit :=
  let! g_freq := gets m_freq in write_sysreg cntp_tval_el0 (g_freq / 10000).

Definition PHYSICAL_TIMER_IRQ : Z := 30.

Definition setup_timer : M (machine H) unit :=
  gic_irq_enable PHYSICAL_TIMER_IRQ ;;
  let! f := read_sysreg cntfrq_el0 in
  modify (set_freq f) ;;
  disable_timer ;; reload_timer ;; enable_timer.

Definition get_syscount : M (machine H) Z := read_sysreg cntpct_el0.

Definition freq_init : M (machine H) unit :=
  let! f := read_sysreg cntfrq_el0 in
  modify (set_freq f) ;;
  modify (fun m => set_freq (Z.land (m_freq m) CNTFRQ_MASK) m).

End Timer.

(** * The long multiplication and division *)

Lemma muldiv64_split a b c :
  is_u64 a -> is_u32 b -> 0 < c < 2 ^ 32 -> do_muldiv64 a b c = u64 (a * b / c).
Proof.
  intros Ha Hb Hc. unfold is_u64, is_u32 in *.
  set (al := a mod 2 ^ 32). set (ah := a / 2 ^ 32).
  assert (Ea : a = ah * 2 ^ 32 + al) by (unfold ah, al; pose proof (Z.div_mod a (2 ^ 32)); lia).
  assert (Hal : 0 <= al < 2 ^ 32) by (apply Z.mod_pos_bound; lia).
  assert (Hah : 0 <= ah < 2 ^ 32) by (split; [apply Z.div_pos; lia|apply Z.div_lt_upper_bound; lia]).
  assert (Hrl : 0 <= al * b < 2 ^ 64) by nia.
  assert (Hrh : 0 <= ah * b <= (2 ^ 32 - 1) * (2 ^ 32 - 1)) by nia.
  assert (Hs : 0 <= al * b / 2 ^ 32 < 2 ^ 32) by (split; [apply Z.div_pos; lia|apply Z.div_lt_upper_bound; lia]).
  unfold do_muldiv64, lo32, hi32, join32. fold al ah.
  rewrite (u64_small (al * b)), (u64_small (ah * b)) by (unfold is_u64; lia).
  rewrite Z.shiftr_div_pow2 by lia.
  rewrite (u64_small (ah * b + al * b / 2 ^ 32)) by (unfold is_u64; lia).
  change 0xffffffff with (Z.ones 32). rewrite Z.land_ones, Z.shiftl_mul_pow2 by lia.
  set (h := ah * b + al * b / 2 ^ 32). set (r := al * b mod 2 ^ 32).
  assert (Hr : 0 <= r < 2 ^ 32) by (apply Z.mod_pos_bound; lia).
  assert (Eab : a * b = h * 2 ^ 32 + r).
  { unfold h, r. rewrite Ea. pose proof (Z.div_mod (al * b) (2 ^ 32)). lia. }
  pose proof (Z.div_mod h c ltac:(lia)) as Eh. pose proof (Z.mod_pos_bound h c ltac:(lia)) as Hm.
  assert (Hm' : 0 <= h mod c * 2 ^ 32 < 2 ^ 64 - 2 ^ 32 + 1) by nia.
  rewrite (u64_small (h mod c * 2 ^ 32)), u64_small by (unfold is_u64; lia).
  assert (Hq : a * b / c = h / c * 2 ^ 32 + (h mod c * 2 ^ 32 + r) / c).
  { rewrite Eab. rewrite Eh at 1.
    replace ((c * (h / c) + h mod c) * 2 ^ 32 + r) with (h mod c * 2 ^ 32 + r + h / c * 2 ^ 32 * c) by lia.
    rewrite Z.div_add by lia. lia. }
  assert (Hlow : 0 <= (h mod c * 2 ^ 32 + r) / c < 2 ^ 32).
  { split; [apply Z.div_pos; lia|]. apply Z.div_lt_upper_bound; [lia|]. nia. }
  rewrite (u32_small ((h mod c * 2 ^ 32 + r) / c)) by done. rewrite Hq. unfold u64, u32.
  set (x := h / c) in *. set (y := (h mod c * 2 ^ 32 + r) / c) in *. clearbody x y. clear - Hlow.
  pose proof (Z.div_mod x (2 ^ 32)). pose proof (Z.mod_pos_bound x (2 ^ 32)).
  apply (Z.mod_unique _ _ (x / 2 ^ 32)); lia.
Qed.

(** [muldiv64], which divides a 96-bit product by two 64-bit divisions, is
    exact: for every 64-bit [a] and 32-bit [b] and [c] it is [a * b / c] modulo
    [2^64] (no intermediate result overflows), and 0 when [c] is 0. *)
Theorem muldiv64_exact (a b c : Z) :
  is_u64 a -> is_u32 b -> is_u32 c ->
  muldiv64 a b c = if c =? 0 then 0 else u64 (a * b / c).
Proof.
  intros Ha Hb Hc. unfold muldiv64. rewrite !u32_small by done.
  destruct (Z.eqb_spec c 0); [done|]. simpl. apply muldiv64_split; [done..|].
  unfold is_u32 in Hc. lia.
Qed.

Lemma muldiv64_exact_witness :
  muldiv64 0xffffffffffffffff NS_PER_SECOND 62500000 = u64 (0xffffffffffffffff * NS_PER_SECOND / 62500000).
Proof. apply (muldiv64_exact 0xffffffffffffffff NS_PER_SECOND 62500000); vm_compute; split; congruence. Defined.

(** Converting a duration in nanoseconds to counter ticks and back rounds
    down by at most one tick (rounded up to a nanosecond) when the product fits
    in 64 bits, and changes no state. *)
Theorem nstime_count_roundtrip {H} `{!Hardware H} (m : machine H) (ns : Z) :
  0 < m_freq m < 2 ^ 32 -> 0 <= ns -> ns * m_freq m < 2 ^ 64 ->
  wp (let! c := nstime_to_count ns in count_to_time_ns c) (fun r m' => m' = m /\
    ns - (NS_PER_SECOND / m_freq m + 1) <= r <= ns) m.
Proof.
  intros Hf Hns Hov. unfold nstime_to_count, count_to_time_ns. wp_steps. set (f := m_freq m) in *.
  unfold muldiv64. rewrite (u32_small f), (u32_small NS_PER_SECOND) by (unfold is_u32, NS_PER_SECOND; lia).
  destruct (Z.eqb_spec f 0); [lia|]. cbn [negb].
  change (negb (NS_PER_SECOND =? 0)) with true. cbn iota.
  assert (ns < 2 ^ 64) by nia.
  rewrite (muldiv64_split ns f) by (unfold is_u64, is_u32, NS_PER_SECOND; lia).
  set (c := ns * f / NS_PER_SECOND).
  assert (0 <= c < 2 ^ 64) as Hc.
  { unfold c, NS_PER_SECOND. split; [apply Z.div_pos; lia|apply Z.div_lt_upper_bound; lia]. }
  rewrite (u64_small c) by done.
  rewrite muldiv64_split by (unfold is_u64, is_u32, NS_PER_SECOND; lia).
  assert (c * NS_PER_SECOND <= ns * f < c * NS_PER_SECOND + NS_PER_SECOND) as Hcb.
  { unfold c, NS_PER_SECOND. pose proof (Z.div_mod (ns * f) 1000000000). pose proof (Z.mod_pos_bound (ns * f) 1000000000). lia. }
  assert (0 <= c * NS_PER_SECOND / f <= ns) as Hr.
  { split; [apply Z.div_pos; unfold NS_PER_SECOND in *; nia|]. apply Z.div_le_upper_bound; lia. }
  rewrite u64_small by (unfold is_u64; lia). split; [done|]. split; [|lia].
  pose proof (Z.div_mod (c * NS_PER_SECOND) f). pose proof (Z.mod_pos_bound (c * NS_PER_SECOND) f).
  pose proof (Z.div_mod NS_PER_SECOND f). pose proof (Z.mod_pos_bound NS_PER_SECOND f).
  assert (f * (ns - NS_PER_SECOND / f - 2) < f * (c * NS_PER_SECOND / f)) as Hlt by lia.
  apply Z.mul_lt_mono_pos_l in Hlt; lia.
Qed.

Lemma nstime_count_roundtrip_witness :
  wp (let! c := nstime_to_count 10000 in count_to_time_ns c) (fun r m' => 9983 <= r <= 10000)
    (set_freq 62500000 sim_machine).
Proof.
  eapply wp_mono; [|apply (nstime_count_roundtrip (set_freq 62500000 sim_machine) 10000)].
  - intros r m' [_ Hr]. change (NS_PER_SECOND / m_freq (set_freq 62500000 sim_machine)) with 16 in Hr. lia.
  - simpl. lia.
  - lia.
  - simpl. lia.
Defined.
