(* ===== verification/Mmio.v ===== *)
(** Trapped device memory (src/src/mmio.c, and [s2_pt_trap] of src/src/vm.c).

    Every virtual machine has a list of regions; [mmio_emulate] looks a faulting
    address up in the list and calls the region's handler.  The handlers are an
    interface, [MmioHandlers]: what a function pointer stands for is decided by
    the components that register it. *)
From stdpp Require Import base gmap list numbers tactics.
From S2P Require Import Prelude Spinlock PageAlloc Mem Mmu Machine Gic Hw.

(** The code behind a function pointer: [read(vcpu, offset, &reg, access)] and
    [write(vcpu, offset, val, access)]; the result is an [int]. *)
Class MmioHandlers (H : Type) := {
  call_read : mmio_read_fn -> nat -> Z -> regptr -> mmio_access -> M (machine H) Z;
  call_write : mmio_write_fn -> nat -> Z -> Z -> mmio_access -> M (machine H) Z
}.

Section Mmio.
Context {H : Type} `{!Hardware H}.

(** The loop of [alloc_mmio_info], from [i]. *)
Fixpoint alloc_mmio_from (n : nat) (i : nat) (prev : option nat) : M (machine H) (option nat) :=
  match n with
  | O => ret None
  | S n' =>
      let! e := get_mmio i in
      if mi_size e =? 0 then
        upd_mmio i (fun e => mkMmio prev (mi_ipa_base e) 1 (mi_read e) (mi_write e)) ;; ret (Some i)
      else alloc_mmio_from n' (S i) prev
  end.

Definition alloc_mmio_info (prev : option nat) : M (machine H) (option nat) :=
  on_lock m_mmio_lock set_mmio_lock Seq.spin_lock ;;
  let! r := alloc_mmio_from (Z.to_nat MMIO_INFO_MAX) 0 prev in
  on_lock m_mmio_lock set_mmio_lock Seq.spin_unlock ;;
  ret r.

Definition mmio_reg_handler (vm : option nat) (ipa size : Z) (read : option mmio_read_fn)
    (write : option mmio_write_fn) : M (machine H) Z :=
  match vm with
  | None => ret (-1)
  | Some vm =>
      if size <=? 0 then ret (-1)
      else
        let! v := get_vm vm in
        let! mmio_new := alloc_mmio_info (vm_mmio_list v) in
        match mmio_new with
        | None => ret (-1)
        | Some e =>
            upd_vm vm (set_vm_mmio_list (Some e)) ;;
            upd_mmio e (fun x => mkMmio (mi_next x) ipa (mi_size x) (mi_read x) (mi_write x)) ;;
            upd_mmio e (fun x => mkMmio (mi_next x) (mi_ipa_base x) size (mi_read x) (mi_write x)) ;;
            upd_mmio e (fun x => mkMmio (mi_next x) (mi_ipa_base x) (mi_size x) read (mi_write x)) ;;
            upd_mmio e (fun x => mkMmio (mi_next x) (mi_ipa_base x) (mi_size x) (mi_read x) write) ;;
            ret 0
        end
  end.

(** [pagewalk] returns NULL as 0. *)
Definition s2_pt_trap (vm : nat) (ipa size : Z) (read_handler : option mmio_read_fn)
    (write_handler : option mmio_write_fn) : M (machine H) unit :=
  let! v := get_vm vm in
  let stage2_pt := vm_stage2_pt v in
  let! pte := on_phys (pagewalk stage2_pt ipa false) in
  (if negb (pte =? 0) then on_phys (pageunmap stage2_pt ipa size) else ret tt) ;;
  let! r := mmio_reg_handler (Some vm) ipa size read_handler write_handler in
  (if r <? 0 then panic else ret tt) ;;
  tlb_flush.

Context `{!MmioHandlers H}.

(** [ipa_base + size] is a 64-bit sum. *)
Definition mmio_match (e : mmio_info) (ipa : Z) : bool :=
  (mi_ipa_base e <=? ipa) && (ipa <? u64 (mi_ipa_base e + mi_size e)).

Fixpoint mmio_search (fuel : nat) (mmio : option nat) (vcpu : nat) (reg : regptr) (val : Z)
    (a : mmio_access) : M (machine H) Z :=
  match fuel with
  | O => spin
  | S fuel' =>
      match mmio with
      | None => ret (-1)
      | Some i =>
          let! e := get_mmio i in
          if mmio_match e (ma_ipa a) then
            let offset := u64 (ma_ipa a - mi_ipa_base e) in
            match negb (ma_iss_wnr a =? 0), mi_write e, mi_read e with
            | true, Some w, _ => call_write w vcpu offset val a
            | false, _, Some r => call_read r vcpu offset reg a
            | _, _, _ => ret (-1)
            end
          else mmio_search fuel' (mi_next e) vcpu reg val a
      end
  end.

(** A list of distinct entries has at most [MMIO_INFO_MAX] of them. *)
Definition mmio_emulate (vcpu : nat) (reg_idx : Z) (a : mmio_access) : M (machine H) Z :=
  let! vm := vcpu_vm vcpu in
  let! v := get_vm vm in
  match vm_mmio_list v with
  | None => ret (-1)
  | Some mmio =>
      let reg : regptr := if reg_idx =? 31 then None else Some (vcpu, Z.to_nat reg_idx) in
      let! val := (if reg_idx =? 31 then ret 0 else load_reg reg) in
      mmio_search (S (Z.to_nat MMIO_INFO_MAX)) (Some mmio) vcpu reg val a
  end.

End Mmio.

(** * The list of regions *)

(** [chain l i]: the entries reached from pointer [i], first to last. *)
Inductive chain (tab : list mmio_info) : option nat -> list nat -> Prop :=
| chain_nil : chain tab None []
| chain_cons i e l : tab !! i = Some e -> mi_size e <> 0 -> chain tab (mi_next e) l -> i ∉ l ->
    chain tab (Some i) (i :: l).

Definition regions (tab : list mmio_info) (l : list nat) : list mmio_info :=
  omap (fun i => tab !! i) l.

(** The first region that contains the address. *)
Fixpoint find_region (rs : list mmio_info) (ipa : Z) : option mmio_info :=
  match rs with
  | [] => None
  | e :: rs' => if mmio_match e ipa then Some e else find_region rs' ipa
  end.

Lemma chain_regions tab i e l : tab !! i = Some e -> regions tab (i :: l) = e :: regions tab l.
Proof. intros E. unfold regions. simpl. by rewrite E. Qed.

Lemma chain_NoDup tab p l : chain tab p l -> NoDup l.
Proof. induction 1; [apply NoDup_nil_2|by apply NoDup_cons_2]. Qed.

Lemma chain_lt tab p l i : chain tab p l -> i ∈ l -> (i < length tab)%nat.
Proof.
  induction 1 as [|j e l E ? _ IH _]; [by rewrite elem_of_nil|]. rewrite elem_of_cons.
  intros [->|]; [by eapply lookup_lt_Some|auto].
Qed.

(** Distinct entries of a table of 64: the fuel of [mmio_emulate] is enough. *)
Lemma chain_length tab p l : chain tab p l -> (length l <= length tab)%nat.
Proof.
  intros Hc. rewrite <- (length_seq (length tab) 0). apply submseteq_length, NoDup_submseteq; [by eapply chain_NoDup|].
  intros i Hi. apply elem_of_seq. pose proof (chain_lt _ _ _ _ Hc Hi). lia.
Qed.

(** An entry that is not on the list can change without changing the list. *)
Lemma chain_insert tab p l k e' : chain tab p l -> k ∉ l -> chain (<[k := e']> tab) p l.
Proof.
  induction 1 as [|i e l E Hs Hc IH Hi]; [constructor|]. rewrite not_elem_of_cons. intros [Hk1 Hk2].
  econstructor; [|done|by apply IH|done]. by rewrite list_lookup_insert_ne.
Qed.

Lemma regions_insert tab l k e' : k ∉ l -> regions (<[k := e']> tab) l = regions tab l.
Proof.
  induction l as [|i l IH]; [done|]. rewrite not_elem_of_cons. intros [? ?]. unfold regions. simpl.
  rewrite list_lookup_insert_ne by done. destruct (tab !! i); [f_equal|]; by apply IH.
Qed.

(** * Dispatch *)

Section Dispatch.
Context {H : Type} `{!MmioHandlers H}.
Implicit Types m : machine H.

(** What an access to region [e] does. *)
Definition dispatch (e : mmio_info) (vcpu : nat) (reg : regptr) (val : Z) (a : mmio_access) : M (machine H) Z :=
  let offset := u64 (ma_ipa a - mi_ipa_base e) in
  match negb (ma_iss_wnr a =? 0), mi_write e, mi_read e with
  | true, Some w, _ => call_write w vcpu offset val a
  | false, _, Some r => call_read r vcpu offset reg a
  | _, _, _ => ret (-1)
  end.

Definition lookup_region (rs : list mmio_info) (vcpu : nat) (reg : regptr) (val : Z) (a : mmio_access) :
    M (machine H) Z :=
  match find_region rs (ma_ipa a) with
  | Some e => dispatch e vcpu reg val a
  | None => ret (-1)
  end.

Lemma mmio_search_ok m fuel p l vcpu reg val a :
  chain (m_mmio m) p l -> (length l < fuel)%nat ->
  mmio_search fuel p vcpu reg val a m = lookup_region (regions (m_mmio m) l) vcpu reg val a m.
Proof.
  revert p l. induction fuel as [|fuel IH]; intros p l Hc Hf; [lia|].
  destruct Hc as [|i e l E Hs Hc Hi]; [done|]. simpl mmio_search.
  erewrite bind_Ok by (apply get_mmio_ok, E). cbn beta.
  unfold lookup_region. rewrite (chain_regions _ _ _ _ E). simpl.
  destruct (mmio_match e (ma_ipa a)); [done|]. simpl in Hf. rewrite (IH _ l) by (done || lia). done.
Qed.

(** The register a faulting instruction names: 31 is the zero register. *)
Definition access_reg (vcpu : nat) (idx : Z) : regptr := if idx =? 31 then None else Some (vcpu, Z.to_nat idx).
Definition access_val (xs : list Z) (idx : Z) : Z := if idx =? 31 then 0 else nth (Z.to_nat idx) xs 0.

Lemma mmio_emulate_ok m (vcpu vi : nat) v vm (l : list nat) idx a :
  m_vcpus m !! vcpu = Some v -> v_vm v = Some vi -> m_vms m !! vi = Some vm ->
  length (m_mmio m) = 64%nat -> length (v_x v) = 31%nat -> 0 <= idx <= 31 ->
  chain (m_mmio m) (vm_mmio_list vm) l ->
  mmio_emulate vcpu idx a m =
  lookup_region (regions (m_mmio m) l) vcpu (access_reg vcpu idx) (access_val (v_x v) idx) a m.
Proof.
  intros Hv Hvm Hm Ht Hx Hi Hc. unfold mmio_emulate.
  assert (vcpu_vm vcpu m = Ok vi m) as Ev by (unfold vcpu_vm; erewrite bind_Ok by (by apply get_vcpu_ok); by rewrite Hvm).
  erewrite bind_Ok by exact Ev. erewrite bind_Ok by (apply get_vm_ok, Hm).
  pose proof (chain_length _ _ _ Hc) as Hl.
  destruct (vm_mmio_list vm) as [i|] eqn:E; [|by inversion Hc].
  unfold access_reg, access_val. destruct (Z.eqb_spec idx 31) as [->|].
  - erewrite bind_Ok by done. apply mmio_search_ok; [done|]. change (Z.to_nat MMIO_INFO_MAX) with 64%nat. lia.
  - destruct (lookup_lt_is_Some_2 (v_x v) (Z.to_nat idx)) as [x Ex]; [lia|].
    assert (load_reg (Some (vcpu, Z.to_nat idx)) m = Ok x m) as El.
    { unfold load_reg. erewrite bind_Ok by done. erewrite bind_Ok by (apply get_vcpu_ok, Hv). simpl snd. by rewrite Ex. }
    erewrite bind_Ok by exact El. rewrite (nth_lookup_Some _ _ _ _ Ex). apply mmio_search_ok; [done|].
    change (Z.to_nat MMIO_INFO_MAX) with 64%nat. lia.
Qed.

(** [mmio_emulate] is a lookup: when the vm's list of regions is well formed it
    returns within its fuel, calls the handler of the first region that contains
    the faulting address, with the offset into the region and the value of the
    instruction's register, and returns -1 without any effect when no region (or no
    handler for the direction of the access) matches. *)
Theorem mmio_emulate_dispatches m (vcpu vi : nat) v vm (l : list nat) idx a :
  m_vcpus m !! vcpu = Some v -> v_vm v = Some vi -> m_vms m !! vi = Some vm ->
  length (m_mmio m) = 64%nat -> length (v_x v) = 31%nat -> 0 <= idx <= 31 ->
  chain (m_mmio m) (vm_mmio_list vm) l ->
  mmio_emulate vcpu idx a m =
  lookup_region (regions (m_mmio m) l) vcpu (access_reg vcpu idx) (access_val (v_x v) idx) a m.
Proof. apply mmio_emulate_ok. Qed.

End Dispatch.

(** * Registration *)

Section Register.
Context {H : Type}.
Implicit Types m : machine H.

Definition no_free_entry (tab : list mmio_info) : Prop := forall i e, tab !! i = Some e -> mi_size e <> 0.

Lemma alloc_mmio_from_ok n i prev m :
  (i + n = length (m_mmio m))%nat ->
  (forall k e, (k < i)%nat -> m_mmio m !! k = Some e -> mi_size e <> 0) ->
  wp (alloc_mmio_from n i prev) (fun r m' =>
    match r with
    | Some k => exists e, m_mmio m !! k = Some e /\ mi_size e = 0 /\
        m' = set_mmio (<[k := mkMmio prev (mi_ipa_base e) 1 (mi_read e) (mi_write e)]> (m_mmio m)) m
    | None => m' = m /\ no_free_entry (m_mmio m)
    end) m.
Proof.
  revert i. induction n as [|n IH]; intros i Hn Hf; simpl alloc_mmio_from.
  - rewrite wp_ret. split; [done|]. intros k e E. eapply Hf; [|done]. apply lookup_lt_Some in E. lia.
  - destruct (lookup_lt_is_Some_2 (m_mmio m) i) as [e E]; [lia|]. unfold wp.
    erewrite bind_Ok by (apply get_mmio_ok, E). destruct (Z.eqb_spec (mi_size e) 0) as [Hz|Hz].
    + erewrite bind_Ok by (apply upd_mmio_ok, E). simpl. by exists e.
    + apply IH; [lia|]. intros k e' Hk E'. destruct (decide (k = i)) as [->|]; [congruence|].
      eapply Hf; [|done]. lia.
Qed.

Lemma alloc_mmio_info_ok prev m :
  length (m_mmio m) = 64%nat -> Seq.unlocked (m_mmio_lock m) ->
  wp (alloc_mmio_info prev) (fun r m' => exists lk, Seq.unlocked lk /\
    match r with
    | Some k => exists e, m_mmio m !! k = Some e /\ mi_size e = 0 /\
        m' = set_mmio_lock lk (set_mmio (<[k := mkMmio prev (mi_ipa_base e) 1 (mi_read e) (mi_write e)]> (m_mmio m)) m)
    | None => m' = set_mmio_lock lk m /\ no_free_entry (m_mmio m)
    end) m.
Proof.
  intros Hl Hu. unfold alloc_mmio_info, on_lock. wp_steps. eapply wp_mono; [|apply Seq.spin_lock_ok, Hu].
  cbn beta. intros _ l1 Hlk1. wp_steps.
  eapply wp_mono; [|apply (alloc_mmio_from_ok _ 0 prev (set_mmio_lock l1 m)); [cbn; by rewrite Hl|intros; lia]].
  intros r m1 Hr. wp_steps. assert (m_mmio_lock m1 = l1) as E by (destruct r; [destruct Hr as (? & _ & _ & ->)|destruct Hr as [-> _]]; done).
  eapply wp_mono; [|apply Seq.spin_unlock_ok; rewrite E; exact Hlk1]. cbn beta. intros _ l2 Hl2. wp_steps. exists l2. split; [done|].
  destruct r as [k|].
  - destruct Hr as (e & He & Hz & ->). by exists e.
  - by destruct Hr as [-> ?].
Qed.

(** The table after registering region [e'] in entry [k]. *)
Definition registered m (vi k : nat) vm (e' : mmio_info) lk : machine H :=
  set_mmio_lock lk (set_vms (<[vi := set_vm_mmio_list (Some k) vm]> (m_vms m))
    (set_mmio (<[k := e']> (m_mmio m)) m)).

(** Registering a region either takes a free entry of the table, puts it at the
    head of the vm's list with the given address, size and handlers and returns 0,
    leaving every other list of regions as it was, or, when no entry is free,
    returns -1 and changes nothing but the lock's counters. *)
Theorem mmio_reg_handler_spec m (vi : nat) vm ipa size r w (l : list nat) :
  length (m_mmio m) = 64%nat -> Seq.unlocked (m_mmio_lock m) -> m_vms m !! vi = Some vm -> 0 < size ->
  chain (m_mmio m) (vm_mmio_list vm) l ->
  wp (mmio_reg_handler (Some vi) ipa size r w) (fun res m' => exists lk, Seq.unlocked lk /\
    ((exists k, res = 0 /\ m' = registered m vi k vm (mkMmio (vm_mmio_list vm) ipa size r w) lk /\
        chain (m_mmio m') (Some k) (k :: l) /\
        regions (m_mmio m') (k :: l) = mkMmio (vm_mmio_list vm) ipa size r w :: regions (m_mmio m) l /\
        (forall p l', chain (m_mmio m) p l' ->
           chain (m_mmio m') p l' /\ regions (m_mmio m') l' = regions (m_mmio m) l')) \/
     (res = -1 /\ no_free_entry (m_mmio m) /\ m' = set_mmio_lock lk m))) m.
Proof.
  intros Hl Hu Hv Hs Hc. unfold mmio_reg_handler. destruct (Z.leb_spec size 0); [lia|].
  eapply wp_bind_Ok; [apply get_vm_ok, Hv|]. rewrite wp_bind.
  eapply wp_mono; [|apply (alloc_mmio_info_ok (vm_mmio_list vm) m Hl Hu)].
  intros [k|] m1 (lk & Hlk & Hr).
  - destruct Hr as (e & He & Hz & ->).
    assert (Hkl : forall p l', chain (m_mmio m) p l' -> k ∉ l').
    { induction 1 as [|i e' l' E Hs' Hc' IH Hi]; [apply not_elem_of_nil|]. rewrite not_elem_of_cons. split; [|done].
      intros ->. congruence. }
    pose proof (lookup_lt_Some _ _ _ He) as Hk.
    repeat (eapply wp_bind_Ok; [first [apply upd_vm_ok; exact Hv|apply upd_mmio_ok; cbn [m_mmio set_mmio set_vms set_mmio_lock]; apply list_lookup_insert_eq; rewrite ?length_insert; exact Hk]|]; cbn beta).
    rewrite wp_ret. exists lk. split; [done|]. left. exists k. cbn [m_mmio set_mmio set_vms set_mmio_lock mi_next mi_ipa_base mi_size mi_read mi_write]. rewrite !list_insert_insert_eq.
    split_and!; [done|done| | |].
    + econstructor; [by apply list_lookup_insert_eq|cbn; lia|cbn; apply chain_insert; eauto|eauto].
    + erewrite chain_regions by (by apply list_lookup_insert_eq). by rewrite regions_insert by eauto.
    + intros p l' Hc'. split; [apply chain_insert; eauto|apply regions_insert; eauto].
  - destruct Hr as [-> Hn]. rewrite wp_ret. exists lk. split; [done|]. by right.
Qed.

End Register.

(** One vm with one region, the distributor's; the handlers return the offset. *)
Definition example_handlers : MmioHandlers sim := {|
  call_read _ _ offset _ _ := ret offset;
  call_write _ _ offset _ _ := ret offset
|}.
Definition example_region : mmio_info :=
  mkMmio None 0x8000000 0x10000 (Some vgicd_read_fn) (Some vgicd_write_fn).
Definition example_machine : machine sim :=
  set_vcpus (<[0%nat := set_v_vm (Some 0%nat) vcpu0]> (replicate 4 vcpu0))
    (set_vms (<[0%nat := set_vm_mmio_list (Some 0%nat) vm0]> (replicate 2 vm0))
      (set_mmio (<[0%nat := example_region]> (replicate 64 mmio0)) sim_machine)).

Lemma example_chain : chain (m_mmio example_machine) (Some 0%nat) [0%nat].
Proof. econstructor; [reflexivity|done|constructor|apply not_elem_of_nil]. Qed.

Lemma mmio_emulate_dispatches_witness :
  mmio_emulate (MmioHandlers0 := example_handlers) 0 3 (mkAccess 0x8000104 0 2 1) example_machine =
    Ok 0x104 example_machine.
Proof.
  rewrite (mmio_emulate_dispatches (MmioHandlers0 := example_handlers) example_machine 0 0
    (set_v_vm (Some 0%nat) vcpu0) (set_vm_mmio_list (Some 0%nat) vm0) [0%nat] 3 (mkAccess 0x8000104 0 2 1)).
  - reflexivity.
  - reflexivity.
  - reflexivity.
  - reflexivity.
  - reflexivity.
  - reflexivity.
  - lia.
  - exact example_chain.
Defined.

Lemma mmio_reg_handler_spec_witness :
  wp (mmio_reg_handler (Some 0%nat) 0xa000000 0x10000 (Some virtio_read_fn) (Some virtio_write_fn))
    (fun res m' => res = 0) example_machine.
Proof.
  eapply wp_mono; [|apply (mmio_reg_handler_spec example_machine 0 (set_vm_mmio_list (Some 0%nat) vm0)
    0xa000000 0x10000 (Some virtio_read_fn) (Some virtio_write_fn) [0%nat])].
  - intros res m' (lk & _ & [(k & -> & _)|(_ & Hn & _)]); [done|].
    exfalso. apply (Hn 1%nat mmio0); reflexivity.
  - reflexivity.
  - by split.
  - reflexivity.
  - lia.
  - exact example_chain.
Defined.
