(* ===== verification/Vgic.v ===== *)
(** The virtual interrupt controller (src/src/vgic.c, src/include/vgic.h): the
    emulated distributor and redistributors, and the injection of interrupts.

    A [struct vgic_irq *] is one of four things: an entry of the private tables of
    a [struct vgic_cpu], an address in the page that holds a vm's shared
    interrupts ([spis], three bytes an entry), or NULL. *)
From stdpp Require Import base gmap list numbers tactics.
From S2P Require Import Prelude Spinlock PageAlloc Mem Mmu Machine Gic Hw Mmio.

Inductive irqptr :=
| IrqSgi (vc : option nat) (i : Z)      (* &vgic_cpu->sgis[i] *)
| IrqPpi (vc : option nat) (i : Z)      (* &vgic_cpu->ppis[i] *)
| IrqSpi (a : Z)                        (* an address in RAM *)
| IrqNull.

Definition VGIC_IRQ_SIZE : Z := 3.

Section Vgic.
Context {H : Type} `{!Hardware H} `{!PollFuel}.

(** ** Fields of a [struct vgic_irq] *)

Definition ram8 (a : Z) : M (machine H) Z := on_phys (on_mem (load8 a)).
Definition set_ram8 (a v : Z) : M (machine H) unit := on_phys (on_mem (store8 a v)).

Definition irq_load (p : irqptr) : M (machine H) vgic_irq :=
  match p with
  | IrqSgi vc i => let! c := deref vc in let! v := get_vgic_cpu c in deref (sgis v !! Z.to_nat i)
  | IrqPpi vc i => let! c := deref vc in let! v := get_vgic_cpu c in deref (ppis v !! Z.to_nat i)
  | IrqSpi a =>
      let! p := ram8 a in
      let! t := ram8 (a + 1) in
      let! b := ram8 (a + 2) in
      ret (mkIrq p t (Z.land b 1) (Z.land (Z.shiftr b 1) 1))
  | IrqNull => fault
  end.

Definition irq_store_private (p : irqptr) (f : vgic_irq -> vgic_irq) : M (machine H) unit :=
  match p with
  | IrqSgi vc i =>
      let! c := deref vc in
      let! v := get_vgic_cpu c in
      let! e := deref (sgis v !! Z.to_nat i) in
      upd_vgic_cpu c (set_sgis (<[Z.to_nat i := f e]> (sgis v)))
  | IrqPpi vc i =>
      let! c := deref vc in
      let! v := get_vgic_cpu c in
      let! e := deref (ppis v !! Z.to_nat i) in
      upd_vgic_cpu c (set_ppis (<[Z.to_nat i := f e]> (ppis v)))
  | _ => fault
  end.

Definition irq_set_priority_field (p : irqptr) (v : Z) : M (machine H) unit :=
  match p with IrqSpi a => set_ram8 a v | _ => irq_store_private p (set_irq_priority (u8 v)) end.
Definition irq_set_target_field (p : irqptr) (v : Z) : M (machine H) unit :=
  match p with IrqSpi a => set_ram8 (a + 1) v | _ => irq_store_private p (set_irq_target (u8 v)) end.
(** A bit field of one bit, the lowest of the third byte. *)
Definition irq_set_enabled_field (p : irqptr) (v : Z) : M (machine H) unit :=
  match p with
  | IrqSpi a =>
      let! b := ram8 (a + 2) in
      set_ram8 (a + 2) (Z.lor (Z.land b (notw 8 1)) (Z.land v 1))
  | _ => irq_store_private p (set_irq_enabled (Z.land v 1))
  end.

(** ** Allocation *)

Definition vgic_cpu_lock : M (machine H) unit := on_lock m_vgic_cpu_lock set_vgic_cpu_lock Seq.spin_lock.
Definition vgic_cpu_unlock : M (machine H) unit := on_lock m_vgic_cpu_lock set_vgic_cpu_lock Seq.spin_unlock.
Definition vgic_lock : M (machine H) unit := on_lock m_vgic_lock set_vgic_lock Seq.spin_lock.
Definition vgic_unlock : M (machine H) unit := on_lock m_vgic_lock set_vgic_lock Seq.spin_unlock.

Fixpoint vgic_alloc_from (n i : nat) : M (machine H) (option nat) :=
  match n with
  | O => ret None
  | S n' =>
      let! v := get_vgic i in
      if vg_used v =? 0 then
        upd_vgic i (fun v => mkVgic 1 (max_spi_intid v) (spi_nums v) (enable_grp1ns v) (spis v) (vg_lock v)) ;;
        ret (Some i)
      else vgic_alloc_from n' (S i)
  end.

Definition vgic_alloc : M (machine H) (option nat) :=
  vgic_cpu_lock ;;
  let! r := vgic_alloc_from (Z.to_nat VM_MAX) 0 in
  vgic_cpu_unlock ;; ret r.

Fixpoint vgic_cpu_alloc_from (n i : nat) : M (machine H) (option nat) :=
  match n with
  | O => ret None
  | S n' =>
      let! v := get_vgic_cpu i in
      if vc_used v =? 0 then upd_vgic_cpu i (set_vc_used 1) ;; ret (Some i)
      else vgic_cpu_alloc_from n' (S i)
  end.

Definition vgic_cpu_alloc : M (machine H) (option nat) :=
  vgic_cpu_lock ;;
  let! r := vgic_cpu_alloc_from (Z.to_nat VCPU_MAX) 0 in
  vgic_cpu_unlock ;; ret r.

(** [used_lr] is a [u16]. *)
Fixpoint vgic_lr_alloc_from (n : nat) (i : Z) (vgic_cpu : option nat) : M (machine H) Z :=
  match n with
  | O => ret (-1)
  | S n' =>
      let! c := deref vgic_cpu in
      let! v := get_vgic_cpu c in
      if Z.land (used_lr v) (Z.shiftl 1 i) =? 0 then
        upd_vgic_cpu c (set_used_lr (u16 (Z.lor (used_lr v) (Z.shiftl 1 i)))) ;; ret i
      else vgic_lr_alloc_from n' (i + 1) vgic_cpu
  end.

Definition vgic_lr_alloc (vgic_cpu : option nat) : M (machine H) Z :=
  let! g_gic_lr_max := gets m_lr_max in
  vgic_lr_alloc_from (Z.to_nat g_gic_lr_max) 0 vgic_cpu.

Definition vgic_used_lr_update (vcpu : nat) : M (machine H) unit :=
  let! vc := get_vcpu vcpu in
  let! g_gic_lr_max := gets m_lr_max in
  for_range 0 g_gic_lr_max (fun i =>
    let! c := deref (v_vgic vc) in
    let! v := get_vgic_cpu c in
    if negb (Z.land (used_lr v) (Z.shiftl 1 i) =? 0) then
      let! lr := gic_read_lr i in
      if lr_is_inactive lr
      then upd_vgic_cpu c (set_used_lr (Z.land (used_lr v) (notw 16 (Z.shiftl 1 i))))
      else ret tt
    else ret tt).

(** ** Interrupts *)

Definition vgic_irq_get (vcpu : nat) (intid : Z) : M (machine H) irqptr :=
  let! v := get_vcpu vcpu in
  if is_sgi intid then ret (IrqSgi (v_vgic v) intid)
  else if is_ppi intid then ret (IrqPpi (v_vgic v) (intid - 16))
  else if is_spi intid then
    let! vm := deref (v_vm v) in
    let! w := get_vm vm in
    let! g := deref (vm_vgic w) in
    let! vg := get_vgic g in
    ret (IrqSpi (u64 (spis vg + VGIC_IRQ_SIZE * (intid - 32))))
  else ret IrqNull.

Definition vgic_irq_enable (intid : Z) : M (machine H) unit :=
  if is_sgi_ppi intid || is_spi intid then gic_irq_enable (u32 intid) else panic.

Definition vgic_irq_disable (intid : Z) : M (machine H) unit :=
  if is_sgi_ppi intid || is_spi intid then gic_irq_disable (u32 intid) else panic.

(** [1 << i] is an [int]: bit 31 is its sign, extended when it becomes a [u64]. *)
Definition int_bit (i : Z) : Z := u64 (i32 (Z.shiftl 1 i)).

(** [case lo ... hi] *)
Definition in_case (offset lo hi : Z) : bool := (lo <=? offset) && (offset <=? hi).

(** ** The distributor *)

(** The loops of the read cases: the enable bits of 32 interrupts, one byte of
    each of 4. *)
Definition read_enabled (vcpu : nat) (intid : Z) : M (machine H) Z :=
  fold_n 32 0 0 (fun i val64 =>
    let! p := vgic_irq_get vcpu (intid + i) in
    let! irq := irq_load p in
    ret (if irq_enabled irq =? 1 then Z.lor val64 (int_bit i) else val64)).
Definition read_bytes (field : vgic_irq -> Z) (vcpu : nat) (intid : Z) : M (machine H) Z :=
  fold_n 4 0 0 (fun i val64 =>
    let! p := vgic_irq_get vcpu (intid + i) in
    let! irq := irq_load p in
    ret (Z.lor val64 (u32 (Z.shiftl (field irq) (i * 8))))).

Definition vgicd_mmio_read (vcpu : nat) (offset : Z) (val : regptr) (mmio : mmio_access) : M (machine H) Z :=
  let! vm := vcpu_vm vcpu in
  let! w := get_vm vm in
  let vgic := vm_vgic w in
  (if offset =? GICD_CTLR then
    vgic_lock ;;
    let! g := deref vgic in
    let! vg := get_vgic g in
    let ctlr := if enable_grp1ns vg then GICD_CTLR_G1NS_EN else 0 in
    let ctlr := Z.lor ctlr (Z.lor GICD_CTLR_ARE_NS GICD_CTLR_G1NS_EN) in
    vgic_unlock ;;
    store_reg val ctlr
  else if offset =? GICD_TYPER then let! v := gicd_r GICD_TYPER in store_reg val v
  else if offset =? GICD_IIDR then let! v := gicd_r GICD_IIDR in store_reg val v
  else if offset =? GICD_TYPER2 then let! v := gicd_r GICD_TYPER2 in store_reg val v
  else if in_case offset (GICD_IGROUPR 0) (GICD_IGROUPR 31) then store_reg val 0xffffffff
  else if in_case offset (GICD_ISENABLER 0) (GICD_ISENABLER 31) then
    let intid := (offset - GICD_ISENABLER 0) / 4 * 32 in
    vgic_lock ;;
    let! val64 := read_enabled vcpu intid in
    vgic_unlock ;;
    store_reg val val64
  else if in_case offset (GICD_ICENABLER 0) (GICD_ICENABLER 31) then
    let intid := (offset - GICD_ICENABLER 0) / 4 * 32 in
    vgic_lock ;;
    let! val64 := fold_n 32 0 0 (fun i val64 =>
      let! p := vgic_irq_get vcpu (intid + i) in
      let! irq := irq_load p in
      ret (if irq_enabled irq =? 0 then Z.lor val64 (Z.shiftl 0 i) else Z.lor val64 (int_bit i))) in
    vgic_unlock ;;
    store_reg val val64
  else if in_case offset (GICD_ISPENDR 0) (GICD_ISPENDR 31) then ret tt
  else if in_case offset (GICD_ICPENDR 0) (GICD_ICPENDR 31) then ret tt
  else if in_case offset (GICD_ISACTIVER 0) (GICD_ISACTIVER 31) then ret tt
  else if in_case offset (GICD_ICACTIVER 0) (GICD_ICACTIVER 31) then ret tt
  else if in_case offset (GICD_IPRIORITYR 0) (GICD_IPRIORITYR 254) then
    let intid := (offset - GICD_IPRIORITYR 0) / 4 * 4 in
    vgic_lock ;;
    let! val64 := read_bytes irq_priority vcpu intid in
    vgic_unlock ;;
    store_reg val val64
  else if in_case offset (GICD_ITARGETSR 0) (GICD_ITARGETSR 254) then
    let intid := (offset - GICD_ITARGETSR 0) / 4 * 4 in
    vgic_lock ;;
    let! val64 := read_bytes irq_target vcpu intid in
    vgic_unlock ;;
    store_reg val val64
  else if in_case offset (GICD_ICFGR 0) (GICD_ICFGR 63) then ret tt
  else if in_case offset (GICD_IROUTER 32) (GICD_IROUTER 1019) then ret tt
  else ret tt) ;;
  ret 0.

(** The loops of the write cases. *)
Definition write_enabled (vcpu : nat) (intid val e : Z) (hw : Z -> M (machine H) unit) : M (machine H) unit :=
  for_range 0 32 (fun i =>
    let! p := vgic_irq_get vcpu (intid + i) in
    if negb (Z.land (Z.shiftr val i) 0x1 =? 0)
    then irq_set_enabled_field p e ;; hw (intid + i)
    else ret tt).
Definition write_priorities (vcpu : nat) (intid val : Z) : M (machine H) unit :=
  for_range 0 4 (fun i =>
    let! p := vgic_irq_get vcpu (intid + i) in
    irq_set_priority_field p (Z.land (Z.shiftr val (i * 8)) 0xff)).

Definition vgicd_mmio_write (vcpu : nat) (offset val : Z) (mmio : mmio_access) : M (machine H) Z :=
  let! vm := vcpu_vm vcpu in
  let! w := get_vm vm in
  let vgic := vm_vgic w in
  (if offset =? GICD_CTLR then
    let! g := deref vgic in
    upd_vgic g (fun v => mkVgic (vg_used v) (max_spi_intid v) (spi_nums v)
      (negb (Z.land val GICD_CTLR_G1NS_EN =? 0)) (spis v) (vg_lock v))
  else if offset =? GICD_TYPER then ret tt
  else if offset =? GICD_IIDR then ret tt
  else if offset =? GICD_TYPER2 then ret tt
  else if in_case offset (GICD_IGROUPR 0) (GICD_IGROUPR 31) then ret tt
  else if in_case offset (GICD_ISENABLER 0) (GICD_ISENABLER 31) then
    let intid := (offset - GICD_ISENABLER 0) / 4 * 32 in
    vgic_lock ;;
    write_enabled vcpu intid val 1 vgic_irq_enable ;;
    vgic_unlock
  else if in_case offset (GICD_ICENABLER 0) (GICD_ICENABLER 31) then
    let intid := (offset - GICD_ICENABLER 0) / 4 * 32 in
    vgic_lock ;;
    write_enabled vcpu intid val 0 vgic_irq_disable ;;
    vgic_unlock
  else if in_case offset (GICD_ISPENDR 0) (GICD_ISPENDR 31) then ret tt
  else if in_case offset (GICD_ICPENDR 0) (GICD_ICPENDR 31) then ret tt
  else if in_case offset (GICD_ISACTIVER 0) (GICD_ISACTIVER 31) then ret tt
  else if in_case offset (GICD_ICACTIVER 0) (GICD_ICACTIVER 31) then ret tt
  else if in_case offset (GICD_IPRIORITYR 0) (GICD_IPRIORITYR 254) then
    write_priorities vcpu ((offset - GICD_IPRIORITYR 0) / 4 * 4) val
  else if in_case offset (GICD_ITARGETSR 0) (GICD_ITARGETSR 254) then
    let intid := (offset - GICD_ITARGETSR 0) / 4 * 4 in
    vgic_lock ;;
    for_range 0 4 (fun i =>
      let! p := vgic_irq_get vcpu (intid + i) in
      irq_set_target_field p (u8 (Z.land (Z.shiftr val (i * 8)) 0xff)) ;;
      if is_spi (intid + i) then
        let! irq := irq_load p in
        gic_set_target_by_pe_field (u32 (intid + i)) (irq_target irq)
      else vgic_unlock ;; panic) ;;
    vgic_unlock
  else if in_case offset (GICD_ICFGR 0) (GICD_ICFGR 63) then ret tt
  else if in_case offset (GICD_IROUTER 32) (GICD_IROUTER 1019) then
    gic_set_target_by_affinity (u32 ((offset - 0x6000) / 8)) (u8 val)
  else ret tt) ;;
  ret 0.

(** ** The redistributors *)

(** [vcpu->vm->vcpus[gicr_idx]] after the check, whose operands are unsigned. *)
Definition gicr_target (vcpu : nat) (gicr_idx : Z) : M (machine H) (option (option nat)) :=
  let! vm := vcpu_vm vcpu in
  let! w := get_vm vm in
  if u32 (vm_nvcpu w - 1) <? gicr_idx then ret None
  else let! t := deref (vm_vcpus w !! Z.to_nat gicr_idx) in ret (Some t).

(** [priority << (i * 8)] is an [int] here. *)
Definition vgicr_read_priorities (vcpu : nat) (intid : Z) : M (machine H) Z :=
  fold_n 4 0 0 (fun i val64 =>
    let! p := vgic_irq_get vcpu (intid + i) in
    let! irq := irq_load p in
    ret (Z.lor val64 (u64 (i32 (Z.shiftl (irq_priority irq) (i * 8)))))).

Definition vgicr_mmio_read (vcpu : nat) (offset : Z) (val : regptr) (mmio : mmio_access) : M (machine H) Z :=
  let gicr_idx := u32 (offset / GICRSTRIDE) in
  let gicr_off := u32 (offset mod GICRSTRIDE) in
  let! t := gicr_target vcpu gicr_idx in
  match t with
  | None => ret (-1)
  | Some t =>
      if gicr_off =? GICR_CTLR then store_reg val 0 ;; ret 0
      else if gicr_off =? GICR_IIDR then
        let! c := deref t in
        let! v := get_vcpu c in
        let! x := gicr_r64 (v_cpuid v) GICR_IIDR in
        store_reg val x ;; ret 0
      else if gicr_off =? GICR_TYPER then
        let! c := deref t in
        let! v := get_vcpu c in
        let! x := gicr_r64 (v_cpuid v) GICR_TYPER in
        store_reg val x ;; ret 0
      else if gicr_off =? GICR_WAKER then store_reg val 0 ;; ret 0
      else if gicr_off =? GICR_IGROUPR0 then store_reg val 0xffffffff ;; ret 0
      else if (gicr_off =? GICR_ISENABLER0) || (gicr_off =? GICR_ICENABLER0) then
        let! c := deref t in
        let! val64 := read_enabled c 0 in
        store_reg val val64 ;; ret 0
      else if gicr_off =? GICR_ISPENDR0 then store_reg val 0 ;; ret 0
      else if gicr_off =? GICR_ICPENDR0 then store_reg val 0 ;; ret 0
      else if gicr_off =? GICR_ISACTIVER0 then store_reg val 0 ;; ret 0
      else if gicr_off =? GICR_ICACTIVER0 then store_reg val 0 ;; ret 0
      else if in_case gicr_off (GICR_IPRIORITYR 0) (GICR_IPRIORITYR 7) then
        let intid := i32 ((offset - GICR_IPRIORITYR 0) / 4 * 4) in
        let! c := deref t in
        let! val64 := vgicr_read_priorities c intid in
        store_reg val val64 ;; ret 0
      else if gicr_off =? GICR_ICFGR0 then
        let! val64 := fold_n 16 0 0 (fun i val64 => ret (Z.lor val64 (Z.shiftl 2 i))) in
        store_reg val val64 ;; ret 0
      else ret (-1)
  end.

Definition vgicr_mmio_write (vcpu : nat) (offset val : Z) (mmio : mmio_access) : M (machine H) Z :=
  let gicr_idx := u32 (offset / GICRSTRIDE) in
  let gicr_off := u32 (offset mod GICRSTRIDE) in
  let! t := gicr_target vcpu gicr_idx in
  match t with
  | None => cpuid ;; ret (-1)
  | Some t =>
      if gicr_off =? GICR_CTLR then ret 0
      else if gicr_off =? GICR_IIDR then ret 0
      else if gicr_off =? GICR_TYPER then ret 0
      else if gicr_off =? GICR_WAKER then ret 0
      else if gicr_off =? GICR_IGROUPR0 then ret 0
      else if gicr_off =? GICR_ISENABLER0 then
        let! c := deref t in write_enabled c 0 val 1 vgic_irq_enable ;; ret 0
      else if gicr_off =? GICR_ICENABLER0 then
        let! c := deref t in write_enabled c 0 val 0 vgic_irq_disable ;; ret 0
      else if gicr_off =? GICR_ISPENDR0 then ret 0
      else if gicr_off =? GICR_ICPENDR0 then ret 0
      else if gicr_off =? GICR_ISACTIVER0 then ret 0
      else if gicr_off =? GICR_ICACTIVER0 then ret 0
      else if in_case gicr_off (GICR_IPRIORITYR 0) (GICR_IPRIORITYR 7) then
        let intid := i32 ((offset - GICR_IPRIORITYR 0) / 4 * 4) in
        let! c := deref t in
        write_priorities c intid val ;; ret 0
      else if gicr_off =? GICR_ICFGR0 then ret 0
      else if gicr_off =? GICR_IGRPMODR0 then ret 0
      else cpuid ;; ret (-1)
  end.

(** ** Creation and injection *)

Definition new_vgic (vm : nat) : M (machine H) (option nat) :=
  let! r := vgic_alloc in
  match r with
  | None => panic
  | Some g =>
      let! n := gic_max_spi in
      upd_vgic g (fun v => mkVgic (vg_used v) n (spi_nums v) (enable_grp1ns v) (spis v) (vg_lock v)) ;;
      upd_vgic g (fun v => mkVgic (vg_used v) (max_spi_intid v) (max_spi_intid v - 31) (enable_grp1ns v) (spis v) (vg_lock v)) ;;
      upd_vgic g (fun v => mkVgic (vg_used v) (max_spi_intid v) (spi_nums v) false (spis v) (vg_lock v)) ;;
      let! p := on_phys (on_pa alloc_page) in
      upd_vgic g (fun v => mkVgic (vg_used v) (max_spi_intid v) (spi_nums v) (enable_grp1ns v) p (vg_lock v)) ;;
      s2_pt_trap vm GICDBASE GICDSIZE (Some vgicd_read_fn) (Some vgicd_write_fn) ;;
      s2_pt_trap vm GICRBASE GICRSIZE (Some vgicr_read_fn) (Some vgicr_write_fn) ;;
      ret (Some g)
  end.

Definition new_vgic_cpu (vcpuid : Z) : M (machine H) (option nat) :=
  let! r := vgic_cpu_alloc in
  match r with
  | None => ret None
  | Some c =>
      upd_vgic_cpu c (set_used_lr 0) ;;
      for_range 0 GIC_NSGI (fun i =>
        irq_set_enabled_field (IrqSgi (Some c) i) 1 ;;
        irq_set_target_field (IrqSgi (Some c) i) vcpuid) ;;
      for_range 0 GIC_NPPI (fun i =>
        irq_set_enabled_field (IrqPpi (Some c) i) 0 ;;
        irq_set_target_field (IrqPpi (Some c) i) vcpuid) ;;
      ret (Some c)
  end.

Definition vgic_inject_virq (vcpu : nat) (pirq virq group : Z) : M (machine H) Z :=
  let! v := get_vcpu vcpu in
  let lr_val := gic_make_lr pirq virq group in
  let! n := vgic_lr_alloc (v_vgic v) in
  if n <? 0 then ret (-1)
  else gic_write_lr n lr_val ;; ret 0.

Definition vgic_restore_state (vgic : option nat) : M (machine H) unit := ret tt.

Definition vgic_init : M (machine H) unit :=
  on_lock m_vgic_lock set_vgic_lock Seq.spinlock_init ;;
  on_lock m_vgic_cpu_lock set_vgic_cpu_lock Seq.spinlock_init ;;
  for_range 0 VM_MAX (fun i =>
    upd_vgic (Z.to_nat i) (fun v => mkVgic 0 (max_spi_intid v) (spi_nums v) (enable_grp1ns v) (spis v) (vg_lock v)) ;;
    upd_vgic (Z.to_nat i) (fun v => mkVgic (vg_used v) (max_spi_intid v) (spi_nums v) (enable_grp1ns v) (spis v)
      (mkSpinlock 0 0))) ;;
  for_range 0 VCPU_MAX (fun i => upd_vgic_cpu (Z.to_nat i) (set_vc_used 0)).

End Vgic.
