(* ===== verification/VgicProofs.v ===== *)
(** Properties of the virtual interrupt controller. *)
From stdpp Require Import base gmap list numbers tactics.
From S2P Require Import Prelude Spinlock PageAlloc Mem Mmu Machine Gic Hw GicProofs Mmio Vgic.

(** Decide the remaining equality tests, which are all false. *)
Ltac neq_tests :=
  repeat match goal with |- context [?a =? ?b] => destruct (Z.eqb_spec a b) as [|_]; [exfalso; lia|] end.

(** * The interrupts of a virtual cpu *)

(** What a [struct vgic_irq] at address [a] holds. *)
Definition irq_at (mem : memory) (a : Z) : vgic_irq :=
  mkIrq (peek mem a) (peek mem (a + 1)) (Z.land (peek mem (a + 2)) 1) (Z.land (Z.shiftr (peek mem (a + 2)) 1) 1).

(** Interrupt [intid] of a virtual cpu: private below 32, then the vm's page. *)
Definition irq_view (vc : vgic_cpu) (base : Z) (mem : memory) (intid : Z) : vgic_irq :=
  if is_sgi intid then nth (Z.to_nat intid) (sgis vc) irq0
  else if is_ppi intid then nth (Z.to_nat (intid - 16)) (ppis vc) irq0
  else irq_at mem (base + 3 * (intid - 32)).

Definition SPIS_BYTES : Z := 3 * 992.

(** The objects behind virtual cpu [c], and that its tables are in place. *)
Record vgic_wf {H} (m : machine H) (c : nat) (v : vcpu) (k : nat) (vc : vgic_cpu) (wi : nat) (w : vm) (g : nat)
    (vg : vgic) : Prop := {
  wf_vcpu : m_vcpus m !! c = Some v;
  wf_v_vgic : v_vgic v = Some k;
  wf_vgic_cpu : m_vgic_cpu m !! k = Some vc;
  wf_sgis : length (sgis vc) = 16%nat;
  wf_ppis : length (ppis vc) = 16%nat;
  wf_v_vm : v_vm v = Some wi;
  wf_vm : m_vms m !! wi = Some w;
  wf_vm_vgic : vm_vgic w = Some g;
  wf_vgic : m_vgic m !! g = Some vg;
  wf_spis : in_ram (p_mem (m_phys m)) (spis vg) SPIS_BYTES = true;
  wf_spis_u64 : 0 <= spis vg /\ spis vg + SPIS_BYTES < 2 ^ 64
}.

Section View.
Context {H : Type} `{!Hardware H} `{!PollFuel}.
Implicit Types m : machine H.
Context (m0 : machine H) (c : nat) (v : vcpu) (k : nat) (vc : vgic_cpu) (wi : nat) (w : vm) (g : nat) (vg : vgic).
Context (Hwf : vgic_wf m0 c v k vc wi w g vg).

Definition with_irqs (h : H) (lk : spinlock_t) (mem : memory) (vc' : vgic_cpu) : machine H :=
  set_hw h (set_vgic_lock lk (set_phys (set_mem mem (m_phys m0)) (set_vgic_cpu (<[k := vc']> (m_vgic_cpu m0)) m0))).

(** [reaches m lk f]: [m] is [m0] but for the hardware, the lock and the interrupts
    of the cpu, which are now [f]. *)
Definition reaches (m : machine H) (lk : spinlock_t) (f : Z -> vgic_irq) : Prop :=
  exists h mem vc', m = with_irqs h lk mem vc' /\
    ram_lo mem = ram_lo (p_mem (m_phys m0)) /\ ram_hi mem = ram_hi (p_mem (m_phys m0)) /\
    (forall b, b < spis vg \/ spis vg + SPIS_BYTES <= b -> peek mem b = peek (p_mem (m_phys m0)) b) /\
    vc_used vc' = vc_used vc /\ used_lr vc' = used_lr vc /\ length (sgis vc') = 16%nat /\ length (ppis vc') = 16%nat /\
    forall i, 0 <= i < 1024 -> irq_view vc' (spis vg) mem i = f i.

Lemma k_lt : (k < length (m_vgic_cpu m0))%nat.
Proof. eapply lookup_lt_Some, (wf_vgic_cpu _ _ _ _ _ _ _ _ _ Hwf). Qed.

Lemma with_irqs_id : with_irqs (m_hw m0) (m_vgic_lock m0) (p_mem (m_phys m0)) vc = m0.
Proof.
  unfold with_irqs. rewrite list_insert_id by apply Hwf. destruct m0 as [? [? ?]]. done.
Qed.

Lemma reaches_refl : reaches m0 (m_vgic_lock m0) (irq_view vc (spis vg) (p_mem (m_phys m0))).
Proof.
  exists (m_hw m0), (p_mem (m_phys m0)), vc. rewrite with_irqs_id. split_and!; try done; apply Hwf.
Qed.

Lemma reaches_hw m lk f h : reaches m lk f -> reaches (set_hw h m) lk f.
Proof. intros (h0 & mem & vc' & -> & Hr). by exists h, mem, vc'. Qed.

Lemma reaches_lock m lk f lk' : reaches m lk f -> reaches (set_vgic_lock lk' m) lk' f /\ m_vgic_lock m = lk.
Proof. intros (h0 & mem & vc' & -> & Hr). split; [|done]. by exists h0, mem, vc'. Qed.

Lemma spi_in_ram mem a n :
  ram_lo mem = ram_lo (p_mem (m_phys m0)) -> ram_hi mem = ram_hi (p_mem (m_phys m0)) ->
  spis vg <= a -> a + n <= spis vg + SPIS_BYTES -> in_ram mem a n = true.
Proof.
  intros E1 E2 H1 H2. pose proof (wf_spis _ _ _ _ _ _ _ _ _ Hwf) as Hr. unfold in_ram in *. rewrite E1, E2.
  rewrite andb_true_iff, !Z.leb_le in *. lia.
Qed.

Lemma spi_addr i : 32 <= i < 1024 -> u64 (spis vg + VGIC_IRQ_SIZE * (i - 32)) = spis vg + 3 * (i - 32).
Proof.
  intros Hi. pose proof (wf_spis_u64 _ _ _ _ _ _ _ _ _ Hwf). unfold SPIS_BYTES, VGIC_IRQ_SIZE in *.
  apply u64_small. unfold is_u64. lia.
Qed.

(** The pointer to interrupt [i]. *)
Definition irq_ptr (i : Z) : irqptr :=
  if is_sgi i then IrqSgi (Some k) i else if is_ppi i then IrqPpi (Some k) (i - 16)
  else IrqSpi (spis vg + 3 * (i - 32)).

Lemma vgic_irq_get_ok m lk f i : reaches m lk f -> 0 <= i < 1024 -> vgic_irq_get c i m = Ok (irq_ptr i) m.
Proof.
  intros (h & mem & vc' & -> & _) Hi. destruct Hwf. unfold vgic_irq_get.
  erewrite bind_Ok by (apply get_vcpu_ok; cbn; eassumption). rewrite wf_v_vgic0, wf_v_vm0. unfold irq_ptr.
  destruct (is_sgi i) eqn:E1; [done|]. destruct (is_ppi i) eqn:E2; [done|].
  unfold is_sgi, is_ppi, is_spi in *. rewrite !andb_false_iff, !Z.leb_gt, !Z.ltb_ge in *.
  destruct (Z.leb_spec 32 i); [|lia]. erewrite bind_Ok by done.
  erewrite bind_Ok by (apply get_vm_ok; cbn; eassumption). rewrite wf_vm_vgic0. erewrite bind_Ok by done.
  erewrite bind_Ok by (apply get_vgic_ok; cbn; eassumption). by rewrite spi_addr by lia.
Qed.

Lemma ram8_ok h lk mem vc' a :
  in_ram mem a 1 = true -> ram8 a (with_irqs h lk mem vc') = Ok (peek mem a) (with_irqs h lk mem vc').
Proof.
  intros Hr. unfold ram8, on_phys, on_mem, zoom, load, bind, get. cbn -[in_ram]. change (Z.of_nat 1) with 1. rewrite Hr. cbn. by rewrite rd1.
Qed.

Lemma set_ram8_ok h lk mem vc' a x :
  in_ram mem a 1 = true -> set_ram8 a x (with_irqs h lk mem vc') = Ok tt (with_irqs h lk (wr 1 a x mem) vc').
Proof. intros Hr. unfold set_ram8, on_phys, on_mem, zoom, store, bind, get. cbn -[in_ram]. change (Z.of_nat 1) with 1. by rewrite Hr. Qed.

Lemma irq_load_ok m lk f i : reaches m lk f -> 0 <= i < 1024 -> irq_load (irq_ptr i) m = Ok (f i) m.
Proof.
  intros (h & mem & vc' & -> & El & Eh & _ & _ & _ & Ls & Lp & Hf) Hi. rewrite <- Hf by done.
  unfold irq_ptr, irq_view. destruct (is_sgi i) eqn:E1; [|destruct (is_ppi i) eqn:E2].
  - unfold is_sgi in E1. bool_to_Z. simpl irq_load. erewrite bind_Ok by done.
    erewrite bind_Ok by (apply get_vgic_cpu_ok; cbn; apply list_lookup_insert_eq, k_lt).
    destruct (lookup_lt_is_Some_2 (sgis vc') (Z.to_nat i)) as [e E]; [lia|]. rewrite E. by rewrite (nth_lookup_Some _ _ _ _ E).
  - unfold is_ppi in E2. bool_to_Z. simpl irq_load. erewrite bind_Ok by done.
    erewrite bind_Ok by (apply get_vgic_cpu_ok; cbn; apply list_lookup_insert_eq, k_lt).
    destruct (lookup_lt_is_Some_2 (ppis vc') (Z.to_nat (i - 16))) as [e E]; [lia|]. rewrite E. by rewrite (nth_lookup_Some _ _ _ _ E).
  - unfold is_sgi, is_ppi in *. rewrite !andb_false_iff, !Z.leb_gt, !Z.ltb_ge in *. simpl irq_load.
    do 3 (erewrite bind_Ok by (apply ram8_ok, spi_in_ram; unfold SPIS_BYTES; (done || lia))). done.
Qed.

(** ** Updates *)

Definition fupd (f : Z -> vgic_irq) (i : Z) (u : vgic_irq -> vgic_irq) : Z -> vgic_irq :=
  fun j => if j =? i then u (f j) else f j.

Lemma nth_insert_irq (l : list vgic_irq) (i j : nat) e :
  (i < length l)%nat -> nth j (<[i := e]> l) irq0 = if decide (j = i) then e else nth j l irq0.
Proof.
  intros Hi. rewrite !nth_lookup. case_decide as E; [subst; by rewrite list_lookup_insert_eq|].
  by rewrite list_lookup_insert_ne.
Qed.

Lemma private_update m lk f i u :
  reaches m lk f -> 0 <= i < 32 ->
  wp (irq_store_private (irq_ptr i) u) (fun _ m' => reaches m' lk (fupd f i u)) m.
Proof.
  intros (h & mem & vc' & -> & El & Eh & Ho & Eu & Er & Ls & Lp & Hf) Hi. unfold wp, irq_ptr.
  pose proof (Hf i ltac:(lia)) as Hfi. unfold irq_view in Hfi.
  destruct (is_sgi i) eqn:E1; [|destruct (is_ppi i) eqn:E2]; unfold is_sgi, is_ppi in *; bool_to_Z; simpl irq_store_private.
  - destruct (lookup_lt_is_Some_2 (sgis vc') (Z.to_nat i)) as [e E]; [lia|].
    rewrite (nth_lookup_Some _ _ _ _ E) in Hfi. subst e.
    erewrite bind_Ok by done. erewrite bind_Ok by (apply get_vgic_cpu_ok; cbn; apply list_lookup_insert_eq, k_lt).
    rewrite E. erewrite bind_Ok by done. erewrite upd_vgic_cpu_ok by (cbn; apply list_lookup_insert_eq, k_lt).
    eexists h, mem, _. split_and!; [unfold with_irqs; cbn; by rewrite list_insert_insert_eq|done..|by cbn; rewrite length_insert|done|].
    intros j Hj. unfold fupd, irq_view. rewrite <- (Hf j) by done. unfold irq_view. cbn.
    destruct (is_sgi j) eqn:Ej.
    + unfold is_sgi in Ej. bool_to_Z. rewrite nth_insert_irq by lia. destruct (Z.eqb_spec j i) as [->|]; case_decide; try lia; [|done].
      by rewrite (nth_lookup_Some _ _ _ _ E).
    + destruct (Z.eqb_spec j i) as [->|]; [|done]. unfold is_sgi in Ej. rewrite andb_false_iff, Z.leb_gt, Z.ltb_ge in Ej. lia.
  - assert (Hi' : 16 <= i) by lia.
    destruct (lookup_lt_is_Some_2 (ppis vc') (Z.to_nat (i - 16))) as [e E]; [lia|].
    rewrite (nth_lookup_Some _ _ _ _ E) in Hfi. subst e.
    erewrite bind_Ok by done. erewrite bind_Ok by (apply get_vgic_cpu_ok; cbn; apply list_lookup_insert_eq, k_lt).
    rewrite E. erewrite bind_Ok by done. erewrite upd_vgic_cpu_ok by (cbn; apply list_lookup_insert_eq, k_lt).
    eexists h, mem, _. split_and!; [unfold with_irqs; cbn; by rewrite list_insert_insert_eq|done..|by cbn; rewrite length_insert|].
    intros j Hj. unfold fupd, irq_view. rewrite <- (Hf j) by done. unfold irq_view. cbn.
    destruct (is_sgi j) eqn:Ej, (is_ppi j) eqn:Ej'; unfold is_sgi, is_ppi in Ej, Ej';
      rewrite ?andb_true_iff, ?andb_false_iff, ?Z.leb_le, ?Z.leb_gt, ?Z.ltb_lt, ?Z.ltb_ge in Ej, Ej';
      destruct (Z.eqb_spec j i) as [->|]; try lia; try done.
    + rewrite nth_insert_irq by lia. case_decide; [|done]. by rewrite (nth_lookup_Some _ _ _ _ E).
    + rewrite nth_insert_irq by lia. case_decide; [lia|done].
  - rewrite !andb_false_iff, !Z.leb_gt, !Z.ltb_ge in *. lia.
Qed.

Lemma irq_at_other mem a b x :
  b < a \/ a + 3 <= b -> irq_at (wr 1 b x mem) a = irq_at mem a.
Proof. intros Hb. unfold irq_at. rewrite !peek_wr_other by lia. done. Qed.

Lemma spi_update h lk mem vc' f i d x u :
  reaches (with_irqs h lk mem vc') lk f -> 32 <= i < 1024 -> 0 <= d < 3 ->
  (irq_at (wr 1 (spis vg + 3 * (i - 32) + d) x mem) (spis vg + 3 * (i - 32)) = u (irq_at mem (spis vg + 3 * (i - 32)))) ->
  wp (set_ram8 (spis vg + 3 * (i - 32) + d) x) (fun _ m' => reaches m' lk (fupd f i u)) (with_irqs h lk mem vc').
Proof.
  intros (h0 & mem0 & vc0 & E0 & El & Eh & Ho & Eu & Er & Ls & Lp & Hf) Hi Hd Hu.
  assert (mem0 = mem /\ <[k:=vc0]> (m_vgic_cpu m0) = <[k:=vc']> (m_vgic_cpu m0)) as [-> Ek].
  { unfold with_irqs in E0. by injection E0. }
  assert (vc0 = vc') as ->.
  { apply (f_equal (fun l => l !! k)) in Ek. rewrite !list_lookup_insert_eq in Ek by apply k_lt. congruence. }
  unfold wp. rewrite set_ram8_ok by (apply spi_in_ram; unfold SPIS_BYTES; (done || lia)).
  eexists h, _, vc'. split; [done|]. destruct (wr_bounds 1 (spis vg + 3 * (i - 32) + d) x mem) as [Bl Bh].
  split_and!; [congruence..| |done|done|done|done|].
  - intros b Hb. rewrite peek_wr_other by (unfold SPIS_BYTES in Hb; lia). auto.
  - intros j Hj. unfold fupd. rewrite <- (Hf j) by done. unfold irq_view.
    destruct (is_sgi j) eqn:Ej, (is_ppi j) eqn:Ej'; unfold is_sgi, is_ppi in Ej, Ej';
      rewrite ?andb_true_iff, ?andb_false_iff, ?Z.leb_le, ?Z.leb_gt, ?Z.ltb_lt, ?Z.ltb_ge in Ej, Ej';
      destruct (Z.eqb_spec j i) as [->|]; try lia; try done.
    apply irq_at_other. lia.
Qed.

Lemma irq_ptr_private i : 0 <= i < 32 ->
  (exists x, irq_ptr i = IrqSgi (Some k) x) \/ (exists x, irq_ptr i = IrqPpi (Some k) x).
Proof.
  intros Hi. unfold irq_ptr. destruct (is_sgi i) eqn:E1; [eauto|]. destruct (is_ppi i) eqn:E2; [eauto|].
  unfold is_sgi, is_ppi in *. rewrite !andb_false_iff, !Z.leb_gt, !Z.ltb_ge in *. lia.
Qed.

Lemma irq_ptr_spi i : 32 <= i -> irq_ptr i = IrqSpi (spis vg + 3 * (i - 32)).
Proof.
  intros Hi. unfold irq_ptr, is_sgi, is_ppi.
  destruct (Z.ltb_spec i 16), (Z.ltb_spec i 32); try lia. by rewrite !andb_false_r.
Qed.

Lemma set_priority_ok m lk f i x :
  reaches m lk f -> 0 <= i < 1024 ->
  wp (irq_set_priority_field (irq_ptr i) x) (fun _ m' => reaches m' lk (fupd f i (set_irq_priority (u8 x)))) m.
Proof.
  intros HR Hi. destruct (Z.lt_ge_cases i 32) as [Hl|Hl].
  - pose proof (private_update m lk f i (set_irq_priority (u8 x)) HR ltac:(lia)) as W.
    destruct (irq_ptr_private i ltac:(lia)) as [[y E]|[y E]]; rewrite E in *; exact W.
  - rewrite irq_ptr_spi by done. simpl. destruct HR as (h & mem & vc' & -> & HR).
    pose proof (spi_update h lk mem vc' f i 0 x (set_irq_priority (u8 x))) as W. rewrite Z.add_0_r in W.
    apply W; [by exists h, mem, vc'|lia|lia|]. unfold irq_at, set_irq_priority. simpl.
    rewrite !peek_wr1, Z.eqb_refl. by neq_tests.
Qed.

Lemma set_target_ok m lk f i x :
  reaches m lk f -> 0 <= i < 1024 ->
  wp (irq_set_target_field (irq_ptr i) x) (fun _ m' => reaches m' lk (fupd f i (set_irq_target (u8 x)))) m.
Proof.
  intros HR Hi. destruct (Z.lt_ge_cases i 32) as [Hl|Hl].
  - pose proof (private_update m lk f i (set_irq_target (u8 x)) HR ltac:(lia)) as W.
    destruct (irq_ptr_private i ltac:(lia)) as [[y E]|[y E]]; rewrite E in *; exact W.
  - rewrite irq_ptr_spi by done. simpl. destruct HR as (h & mem & vc' & -> & HR).
    apply spi_update; [by exists h, mem, vc'|lia|lia|]. unfold irq_at, set_irq_target. simpl.
    rewrite !peek_wr1, Z.eqb_refl. by neq_tests.
Qed.

Lemma bitfield_bits b e :
  0 <= b < 256 ->
  let x := Z.lor (Z.land b (notw 8 1)) (Z.land e 1) in
  Z.land (u8 x) 1 = Z.land e 1 /\ Z.land (Z.shiftr (u8 x) 1) 1 = Z.land (Z.shiftr b 1) 1.
Proof.
  intros Hb x. change (notw 8 1) with 254 in x.
  assert (Hx : forall j, 0 <= j < 8 -> Z.testbit (u8 x) j = Z.testbit b j && Z.testbit 254 j || Z.testbit e j && Z.testbit 1 j).
  { intros j Hj. unfold u8. rewrite Z.mod_pow2_bits_low by lia. unfold x. by rewrite Z.lor_spec, !Z.land_spec. }
  pose proof (land_shiftr_1 (u8 x) 0) as E0. pose proof (land_shiftr_1 e 0) as E1. rewrite Z.shiftr_0_r in E0, E1.
  rewrite E0, E1, !land_shiftr_1, !Hx by lia. change (Z.testbit 254 0) with false. change (Z.testbit 254 1) with true.
  change (Z.testbit 1 0) with true. change (Z.testbit 1 1) with false.
  by rewrite !andb_false_r, !andb_true_r, orb_false_r.
Qed.

Lemma set_enabled_ok m lk f i e :
  reaches m lk f -> 0 <= i < 1024 ->
  wp (irq_set_enabled_field (irq_ptr i) e) (fun _ m' => reaches m' lk (fupd f i (set_irq_enabled (Z.land e 1)))) m.
Proof.
  intros HR Hi. destruct (Z.lt_ge_cases i 32) as [Hl|Hl].
  - pose proof (private_update m lk f i (set_irq_enabled (Z.land e 1)) HR ltac:(lia)) as W.
    destruct (irq_ptr_private i ltac:(lia)) as [[y E]|[y E]]; rewrite E in *; exact W.
  - rewrite irq_ptr_spi by done. simpl. destruct HR as (h & mem & vc' & -> & HR).
    eapply wp_bind_Ok; [apply ram8_ok, spi_in_ram; [apply HR|apply HR|lia|unfold SPIS_BYTES; lia]|].
    apply spi_update; [by exists h, mem, vc'|lia|lia|]. unfold irq_at, set_irq_enabled. simpl.
    rewrite !peek_wr1, Z.eqb_refl. neq_tests.
    destruct (bitfield_bits (peek mem (spis vg + 3 * (i - 32) + 2)) e) as [-> ->]; [apply peek_range|done].
Qed.

(** ** Locks and loops *)

Lemma vgic_lock_ok m lk f :
  reaches m lk f -> Seq.unlocked lk ->
  wp vgic_lock (fun _ m' => exists lk', Seq.locked lk' /\ reaches m' lk' f /\ m' = set_vgic_lock lk' m) m.
Proof.
  intros HR Hu. unfold vgic_lock, on_lock. rewrite wp_zoom. destruct (reaches_lock m lk f lk HR) as [_ E].
  eapply wp_mono; [|apply Seq.spin_lock_ok; rewrite E; exact Hu]. cbn beta. intros _ lk' Hlk. exists lk'.
  split; [done|]. split; [|done]. by apply (reaches_lock _ lk).
Qed.

Lemma vgic_unlock_ok m lk f :
  reaches m lk f -> Seq.locked lk ->
  wp vgic_unlock (fun _ m' => exists lk', Seq.unlocked lk' /\ reaches m' lk' f /\ m' = set_vgic_lock lk' m) m.
Proof.
  intros HR Hu. unfold vgic_unlock, on_lock. rewrite wp_zoom. destruct (reaches_lock m lk f lk HR) as [_ E].
  eapply wp_mono; [|apply Seq.spin_unlock_ok; rewrite E; exact Hu]. cbn beta. intros _ lk' Hlk. exists lk'.
  split; [done|]. split; [|done]. by apply (reaches_lock _ lk).
Qed.

Lemma reaches_ext m lk f f' :
  reaches m lk f -> (forall i, 0 <= i < 1024 -> f i = f' i) -> reaches m lk f'.
Proof.
  intros (h & mem & vc' & -> & E1 & E2 & E3 & E4 & E5 & E6 & E7 & Hf) He. exists h, mem, vc'.
  split_and!; try done. intros i Hi. by rewrite Hf, He.
Qed.

Lemma read_irq_ok m lk f i {A} (K : vgic_irq -> M (machine H) A) Q :
  reaches m lk f -> 0 <= i < 1024 -> wp (K (f i)) Q m ->
  wp (let! p := vgic_irq_get c i in let! irq := irq_load p in K irq) Q m.
Proof.
  intros HR Hi HK. eapply wp_bind_Ok; [by eapply vgic_irq_get_ok|].
  eapply wp_bind_Ok; [by eapply irq_load_ok|]. done.
Qed.

(** A read of the enable bits of 32 interrupts: bit 31 is sign-extended. *)
Definition enabled_word (f : Z -> vgic_irq) (intid x : Z) : Prop :=
  is_u64 x /\ forall j, 0 <= j < 64 -> Z.testbit x j = (irq_enabled (f (intid + Z.min j 31)) =? 1).

Lemma int_bit_spec i j : 0 <= i < 32 -> 0 <= j < 64 -> Z.testbit (int_bit i) j = (Z.min j 31 =? i).
Proof.
  intros Hi Hj. assert (forallb (fun i => forallb (fun j => Bool.eqb (Z.testbit (int_bit i) j) (Z.min j 31 =? i)) (seqZ 0 64)) (seqZ 0 32) = true) as T by (by vm_compute).
  rewrite forallb_forall in T. specialize (T i). rewrite forallb_forall in T.
  apply Bool.eqb_prop, T; apply list_elem_of_In, elem_of_seqZ; lia.
Qed.

Lemma read_enabled_ok m lk f intid :
  reaches m lk f -> 0 <= intid -> intid + 32 <= 1024 ->
  wp (read_enabled c intid) (fun x m' => m' = m /\ enabled_word f intid x) m.
Proof.
  intros HR Hlo Hhi. unfold read_enabled.
  eapply wp_mono; [|apply (wp_fold_n (fun n acc m' => m' = m /\ is_u64 acc /\
    forall j, 0 <= j < 64 -> Z.testbit acc j = (Z.min j 31 <? n) && (irq_enabled (f (intid + Z.min j 31)) =? 1)) 32 0 0)].
  - intros x m' (-> & Hu & Hb). split; [done|]. split; [done|]. intros j Hj. rewrite Hb by done.
    destruct (Z.ltb_spec (Z.min j 31) (0 + Z.of_nat 32)); [done|lia].
  - split; [done|]. split; [unfold is_u64; lia|]. intros j Hj. rewrite Z.testbit_0_l.
    by destruct (Z.ltb_spec (Z.min j 31) 0); [lia|].
  - intros i acc m' Hi (-> & Hu & Hb). eapply read_irq_ok; [done|lia|]. rewrite wp_ret. split; [done|].
    split.
    + destruct (irq_enabled (f (intid + i)) =? 1); [|done]. apply (lor_bound 64); [lia|done|apply u64_range].
    + intros j Hj. destruct (irq_enabled (f (intid + i)) =? 1) eqn:E.
      * rewrite Z.lor_spec, Hb, int_bit_spec by lia.
        destruct (Z.ltb_spec (Z.min j 31) i), (Z.ltb_spec (Z.min j 31) (i + 1)), (Z.eqb_spec (Z.min j 31) i) as [Em|];
          try lia; rewrite ?Em; simpl; rewrite ?E, ?orb_false_r, ?orb_true_r; done.
      * rewrite Hb by done.
        destruct (Z.ltb_spec (Z.min j 31) i), (Z.ltb_spec (Z.min j 31) (i + 1)); try done; try lia.
        replace (Z.min j 31) with i by lia. by rewrite E.
Qed.

(** A read of one byte of each of 4 interrupts. *)
Definition byte_word (field : vgic_irq -> Z) (f : Z -> vgic_irq) (intid : Z) : Z :=
  field (f intid) + field (f (intid + 1)) * 2 ^ 8 + field (f (intid + 2)) * 2 ^ 16 + field (f (intid + 3)) * 2 ^ 24.

Lemma lor_disjoint_add x y n : 0 <= n -> 0 <= x < 2 ^ n -> 0 <= y -> Z.lor x (Z.shiftl y n) = x + y * 2 ^ n.
Proof.
  intros Hn Hx Hy. rewrite <- Z.shiftl_mul_pow2 by done. rewrite <- Z.add_lor_land.
  enough (Z.land x (Z.shiftl y n) = 0) as -> by lia. apply Z.bits_inj'. intros i Hi.
  rewrite Z.land_spec, Z.testbit_0_l. destruct (Z.lt_ge_cases i n).
  - rewrite Z.shiftl_spec_low by done. by rewrite andb_false_r.
  - rewrite (testbit_high n x) by lia. done.
Qed.

Lemma read_bytes_ok m lk f field intid :
  reaches m lk f -> 0 <= intid -> intid + 4 <= 1024 -> (forall i, intid <= i < intid + 4 -> is_u8 (field (f i))) ->
  wp (read_bytes field c intid) (fun x m' => m' = m /\ x = byte_word field f intid) m.
Proof.
  intros HR Hlo Hhi Hb. unfold read_bytes. simpl fold_n.
  assert (Hs : forall i, 0 <= i < 4 -> forall y, is_u8 y -> u32 (Z.shiftl y (i * 8)) = Z.shiftl y (i * 8)).
  { intros i Hi y Hy. apply u32_small. rewrite Z.shiftl_mul_pow2 by lia. unfold is_u8, is_u32 in *.
    assert (1 <= 2 ^ (i * 8) <= 2 ^ 24) by (split; [apply (Z.pow_le_mono_r 2 0)|apply Z.pow_le_mono_r]; lia). nia. }
  repeat (rewrite wp_bind; eapply read_irq_ok; [done|lia|]; rewrite wp_ret; rewrite Hs by (lia || (apply Hb; lia))).
  rewrite wp_ret. split; [done|]. unfold byte_word.
  pose proof (Hb (intid + 0) ltac:(lia)) as B0. pose proof (Hb (intid + 1) ltac:(lia)) as B1.
  pose proof (Hb (intid + 2) ltac:(lia)) as B2. pose proof (Hb (intid + 3) ltac:(lia)) as B3.
  change (0 + 1 + 1 + 1) with 3. change (0 + 1 + 1) with 2. change (0 + 1) with 1. change (3 * 8) with 24.
  change (2 * 8) with 16. change (1 * 8) with 8. change (0 * 8) with 0. rewrite Z.shiftl_0_r, Z.lor_0_l.
  rewrite Z.add_0_r in *. unfold is_u8 in *. rewrite (lor_disjoint_add _ _ 8), (lor_disjoint_add _ _ 16), (lor_disjoint_add _ _ 24) by lia. done.
Qed.

(** A write of enable bits. *)
Definition enable_upd (f : Z -> vgic_irq) (intid val e n : Z) : Z -> vgic_irq :=
  fun j => if (intid <=? j) && (j <? intid + n) && Z.testbit val (j - intid) then set_irq_enabled e (f j) else f j.

Lemma write_enabled_ok m lk f intid val e hw :
  reaches m lk f -> 0 <= intid -> intid + 32 <= 1024 ->
  (forall i m', 0 <= i < 1024 -> wp (hw i) (fun _ m'' => exists h, m'' = set_hw h m') m') ->
  wp (write_enabled c intid val e hw) (fun _ m' => reaches m' lk (enable_upd f intid val (Z.land e 1) 32)) m.
Proof.
  intros HR Hlo Hhi Hhw. unfold write_enabled.
  apply (wp_for_range (fun i m' => reaches m' lk (enable_upd f intid val (Z.land e 1) i)) 0 32); [lia| |].
  - eapply reaches_ext; [exact HR|]. intros i Hi. unfold enable_upd.
    destruct (Z.leb_spec intid i), (Z.ltb_spec i (intid + 0)); try lia; done.
  - intros i m' Hi HR'. eapply wp_bind_Ok; [eapply vgic_irq_get_ok; [exact HR'|lia]|].
    rewrite land_shiftr_1 by lia. destruct (Z.testbit val i) eqn:Eb; simpl.
    + rewrite wp_bind. eapply wp_mono; [|apply (set_enabled_ok _ _ _ (intid + i) e HR'); lia].
      cbn beta. intros _ m1 HR1. eapply wp_mono; [|apply Hhw; lia]. cbn beta. intros _ m2 [h ->].
      apply reaches_hw. eapply reaches_ext; [exact HR1|]. intros j Hj. unfold fupd, enable_upd.
      destruct (Z.eqb_spec j (intid + i)) as [->|].
      * replace (intid + i - intid) with i by lia. rewrite Eb, !andb_true_r.
        destruct (Z.leb_spec intid (intid + i)), (Z.ltb_spec (intid + i) (intid + i)), (Z.ltb_spec (intid + i) (intid + (i + 1))); try lia. done.
      * destruct (Z.leb_spec intid j), (Z.ltb_spec j (intid + i)), (Z.ltb_spec j (intid + (i + 1))); try lia; done.
    + rewrite wp_ret. eapply reaches_ext; [exact HR'|]. intros j Hj. unfold enable_upd.
      destruct (Z.eqb_spec j (intid + i)) as [->|].
      * replace (intid + i - intid) with i by lia. by rewrite Eb, !andb_false_r.
      * destruct (Z.leb_spec intid j), (Z.ltb_spec j (intid + i)), (Z.ltb_spec j (intid + (i + 1))); try lia; done.
Qed.

(** A write of four priorities. *)
Definition priority_upd (f : Z -> vgic_irq) (intid val n : Z) : Z -> vgic_irq :=
  fun j => if (intid <=? j) && (j <? intid + n)
           then set_irq_priority (Z.land (Z.shiftr val ((j - intid) * 8)) 0xff) (f j) else f j.

Lemma write_priorities_ok m lk f intid val :
  reaches m lk f -> 0 <= intid -> intid + 4 <= 1024 ->
  wp (write_priorities c intid val) (fun _ m' => reaches m' lk (priority_upd f intid val 4)) m.
Proof.
  intros HR Hlo Hhi. unfold write_priorities.
  apply (wp_for_range (fun i m' => reaches m' lk (priority_upd f intid val i)) 0 4); [lia| |].
  - eapply reaches_ext; [exact HR|]. intros i Hi. unfold priority_upd.
    destruct (Z.leb_spec intid i), (Z.ltb_spec i (intid + 0)); try lia; done.
  - intros i m' Hi HR'. eapply wp_bind_Ok; [eapply vgic_irq_get_ok; [exact HR'|lia]|].
    eapply wp_mono; [|apply (set_priority_ok _ _ _ (intid + i) _ HR'); lia].
    cbn beta. intros _ m1 HR1. eapply reaches_ext; [exact HR1|]. intros j Hj. unfold fupd, priority_upd.
    assert (forall x, u8 (Z.land x 0xff) = Z.land x 0xff) as E8.
    { intros x. change 0xff with (Z.ones 8). rewrite Z.land_ones by lia. apply Z.mod_mod. lia. }
    destruct (Z.eqb_spec j (intid + i)) as [->|].
    + replace (intid + i - intid) with i by lia. rewrite E8.
      destruct (Z.leb_spec intid (intid + i)), (Z.ltb_spec (intid + i) (intid + i)), (Z.ltb_spec (intid + i) (intid + (i + 1))); try lia. done.
    + destruct (Z.leb_spec intid j), (Z.ltb_spec j (intid + i)), (Z.ltb_spec j (intid + (i + 1))); try lia; done.
Qed.

End View.

(** * The distributor *)

Lemma in_case_true off lo hi : lo <= off <= hi -> in_case off lo hi = true.
Proof. unfold in_case. lia. Qed.

(** Decide the tests of a chain of cases on an offset with known bounds. *)
Ltac case_off :=
  repeat match goal with
  | |- context [if ?b then _ else _] =>
      first
        [ replace b with false by
            (symmetry; unfold in_case, GICD_CTLR, GICD_TYPER, GICD_IIDR, GICD_TYPER2, GICD_IGROUPR, GICD_ISENABLER,
               GICD_ICENABLER, GICD_ISPENDR, GICD_ICPENDR, GICD_ISACTIVER, GICD_ICACTIVER, GICD_IPRIORITYR,
               GICD_ITARGETSR, GICD_ICFGR, GICD_IROUTER in *; lia)
        | replace b with true by
            (symmetry; unfold in_case, GICD_CTLR, GICD_TYPER, GICD_IIDR, GICD_TYPER2, GICD_IGROUPR, GICD_ISENABLER,
               GICD_ICENABLER, GICD_ISPENDR, GICD_ICPENDR, GICD_ISACTIVER, GICD_ICACTIVER, GICD_IPRIORITYR,
               GICD_ITARGETSR, GICD_ICFGR, GICD_IROUTER in *; lia) ]
  end.

Lemma store_reg_ok {H} (m : machine H) c r v x y :
  m_vcpus m !! c = Some v -> v_x v !! r = Some y ->
  store_reg (Some (c, r)) x m = Ok tt (set_vcpus (<[c := set_v_x (<[r := u64 x]> (v_x v)) v]> (m_vcpus m)) m).
Proof.
  intros Ev Ey. unfold store_reg. erewrite bind_Ok by done. simpl fst. simpl snd.
  erewrite bind_Ok by (apply get_vcpu_ok, Ev). rewrite Ey. erewrite bind_Ok by done. by apply upd_vcpu_ok.
Qed.

Section Distributor.
Context {H : Type} `{!Hardware H} `{!PollFuel} `{!SysregLaws H} `{!GicLaws H}.
Implicit Types m : machine H.
Context (m0 : machine H) (c : nat) (v : vcpu) (k : nat) (vc : vgic_cpu) (wi : nat) (w : vm) (g : nat) (vg : vgic).
Context (Hwf : vgic_wf m0 c v k vc wi w g vg).
Let reaches := reaches m0 k vc vg.

Lemma wp_vcpu_vm {A} (K : nat -> M (machine H) A) Q m lk f :
  reaches m lk f -> wp (K wi) Q m -> wp (let! x := vcpu_vm c in K x) Q m.
Proof.
  intros (h & mem & vc' & -> & _) HK. eapply wp_bind_Ok; [|exact HK]. unfold vcpu_vm.
  erewrite bind_Ok by (apply get_vcpu_ok; cbn; apply Hwf). by rewrite (wf_v_vm _ _ _ _ _ _ _ _ _ Hwf).
Qed.

Lemma wp_get_vm {A} (K : vm -> M (machine H) A) Q m lk f :
  reaches m lk f -> wp (K w) Q m -> wp (let! x := get_vm wi in K x) Q m.
Proof. intros (h & mem & vc' & -> & _) HK. eapply wp_bind_Ok; [|exact HK]. apply get_vm_ok. cbn. apply Hwf. Qed.

(** The register the handler writes. *)
Context (rc r : nat) (rv : vcpu) (ry : Z) (Hrv : m_vcpus m0 !! rc = Some rv) (Hry : v_x rv !! r = Some ry).

Definition with_reg (x : Z) m : machine H := set_vcpus (<[rc := set_v_x (<[r := u64 x]> (v_x rv)) rv]> (m_vcpus m0)) m.

Lemma wp_store_reg x Q m lk f : reaches m lk f -> Q tt (with_reg x m) -> wp (store_reg (Some (rc, r)) x) Q m.
Proof.
  intros (h & mem & vc' & -> & _) HQ. unfold wp. erewrite store_reg_ok by (cbn; eassumption). exact HQ.
Qed.

Lemma isenabler_intid off :
  GICD_ISENABLER 0 <= off <= GICD_ISENABLER 31 ->
  0 <= (off - GICD_ISENABLER 0) / 4 * 32 /\ (off - GICD_ISENABLER 0) / 4 * 32 + 32 <= 1024.
Proof.
  unfold GICD_ISENABLER. intros Hoff. assert (0 <= (off - (256 + 0 * 4)) / 4 < 32) by (split; [apply Z.div_pos|apply Z.div_lt_upper_bound]; lia).
  lia.
Qed.

Lemma ipriorityr_intid off :
  GICD_IPRIORITYR 0 <= off <= GICD_IPRIORITYR 254 ->
  0 <= (off - GICD_IPRIORITYR 0) / 4 * 4 /\ (off - GICD_IPRIORITYR 0) / 4 * 4 + 4 <= 1024.
Proof.
  unfold GICD_IPRIORITYR. intros Hoff. assert (0 <= (off - (1024 + 0 * 4)) / 4 < 255) by (split; [apply Z.div_pos|apply Z.div_lt_upper_bound]; lia).
  lia.
Qed.

Lemma locked_read {A} m lk f (e : M (machine H) A) (P : A -> Prop) (K : A -> M (machine H) unit) Q :
  reaches m lk f -> Seq.unlocked lk ->
  (forall m' lk', reaches m' lk' f -> wp e (fun x m'' => m'' = m' /\ P x) m') ->
  (forall x m' lk', reaches m' lk' f -> Seq.unlocked lk' -> P x -> m' = set_vgic_lock lk' m -> wp (K x) Q m') ->
  wp (vgic_lock ;; let! x := e in vgic_unlock ;; K x) Q m.
Proof.
  intros HR Hu He HK. rewrite wp_bind. eapply wp_mono; [|by eapply vgic_lock_ok]. cbn beta.
  intros _ m1 (lk1 & Hl1 & HR1 & E1). rewrite wp_bind. eapply wp_mono; [|by eapply He]. cbn beta.
  intros x m2 [-> Hx]. rewrite wp_bind. eapply wp_mono; [|by eapply vgic_unlock_ok]. cbn beta.
  intros _ m3 (lk3 & Hl3 & HR3 & E3). eapply HK; [done..|]. rewrite E3, E1. done.
Qed.

Lemma vgicd_read_isenabler m lk f off a :
  reaches m lk f -> Seq.unlocked lk -> GICD_ISENABLER 0 <= off <= GICD_ISENABLER 31 ->
  wp (vgicd_mmio_read c off (Some (rc, r)) a) (fun res m' => res = 0 /\
    exists x lk', Seq.unlocked lk' /\ enabled_word f ((off - GICD_ISENABLER 0) / 4 * 32) x /\
      m' = with_reg x (set_vgic_lock lk' m)) m.
Proof.
  intros HR Hu Hoff. unfold vgicd_mmio_read. eapply wp_vcpu_vm; [done|]. eapply wp_get_vm; [done|]. rewrite wp_bind.
  case_off. destruct (isenabler_intid off Hoff) as [? ?].
  eapply locked_read; [done..| |].
  - intros m' lk' HR'. apply (read_enabled_ok m0 c v k vc wi w g vg Hwf m' lk' f); done.
  - cbn beta. intros x m' lk' HR' Hu' Hx ->. eapply wp_store_reg; [done|]. rewrite wp_ret. eauto 6.
Qed.

Lemma vgicd_read_ipriorityr m lk f off a :
  reaches m lk f -> Seq.unlocked lk -> GICD_IPRIORITYR 0 <= off <= GICD_IPRIORITYR 254 ->
  (let intid := (off - GICD_IPRIORITYR 0) / 4 * 4 in
   forall i, intid <= i < intid + 4 -> is_u8 (irq_priority (f i))) ->
  wp (vgicd_mmio_read c off (Some (rc, r)) a) (fun res m' => res = 0 /\
    exists lk', Seq.unlocked lk' /\
      m' = with_reg (byte_word irq_priority f ((off - GICD_IPRIORITYR 0) / 4 * 4)) (set_vgic_lock lk' m)) m.
Proof.
  intros HR Hu Hoff H8. unfold vgicd_mmio_read. eapply wp_vcpu_vm; [done|]. eapply wp_get_vm; [done|]. rewrite wp_bind.
  case_off. destruct (ipriorityr_intid off Hoff) as [? ?].
  eapply locked_read; [done..| |].
  - intros m' lk' HR'. apply (read_bytes_ok m0 c v k vc wi w g vg Hwf m' lk' f); done.
  - cbn beta. intros x m' lk' HR' Hu' -> ->. eapply wp_store_reg; [done|]. rewrite wp_ret. eauto.
Qed.

Lemma vgicd_write_isenabler m lk f off val a :
  reaches m lk f -> Seq.unlocked lk -> GICD_ISENABLER 0 <= off <= GICD_ISENABLER 31 ->
  wp (vgicd_mmio_write c off val a) (fun res m' => res = 0 /\ exists lk', Seq.unlocked lk' /\
    reaches m' lk' (enable_upd f ((off - GICD_ISENABLER 0) / 4 * 32) val 1 32)) m.
Proof.
  intros HR Hu Hoff. unfold vgicd_mmio_write. eapply wp_vcpu_vm; [done|]. eapply wp_get_vm; [done|]. rewrite wp_bind.
  case_off. destruct (isenabler_intid off Hoff) as [? ?].
  rewrite wp_bind. eapply wp_mono; [|by eapply vgic_lock_ok]. cbn beta. intros _ m1 (lk1 & Hl1 & HR1 & _).
  rewrite wp_bind. eapply wp_mono; [|apply (write_enabled_ok m0 c v k vc wi w g vg Hwf m1 lk1 f); [done..|]].
  - cbn beta. intros _ m2 HR2. eapply wp_mono; [|by eapply vgic_unlock_ok]. cbn beta. intros _ m3 (lk3 & Hl3 & HR3 & _).
    rewrite wp_ret. eauto.
  - intros i m' Hi. unfold vgic_irq_enable, is_sgi_ppi, is_sgi, is_ppi, is_spi.
    destruct (((0 <=? i) && (i <? 16) || (16 <=? i) && (i <? 32)) || (32 <=? i)) eqn:E; [apply hw_only_enable|lia].
Qed.

Lemma vgicd_write_ipriorityr m lk f off val a :
  reaches m lk f -> GICD_IPRIORITYR 0 <= off <= GICD_IPRIORITYR 254 ->
  wp (vgicd_mmio_write c off val a) (fun res m' => res = 0 /\
    reaches m' lk (priority_upd f ((off - GICD_IPRIORITYR 0) / 4 * 4) val 4)) m.
Proof.
  intros HR Hoff. unfold vgicd_mmio_write. eapply wp_vcpu_vm; [done|]. eapply wp_get_vm; [done|]. rewrite wp_bind.
  case_off. destruct (ipriorityr_intid off Hoff) as [? ?].
  eapply wp_mono; [|apply (write_priorities_ok m0 c v k vc wi w g vg Hwf m lk f); done].
  cbn beta. intros _ m1 HR1. by rewrite wp_ret.
Qed.

(** ** Properties *)

(** Loops that only read interrupts. *)
Lemma fold_irqs m lk f n acc intid (step : Z -> Z -> vgic_irq -> Z) :
  reaches m lk f -> 0 <= intid -> intid + Z.of_nat n <= 1024 ->
  wp (fold_n n 0 acc (fun i val64 => let! p := vgic_irq_get c (intid + i) in let! irq := irq_load p in ret (step i val64 irq)))
    (fun _ m' => m' = m /\ True) m.
Proof.
  intros HR Hlo Hhi. eapply wp_mono; [|apply (wp_fold_n (fun _ _ m' => m' = m))]; [done|done|].
  intros i x m' Hi ->. eapply read_irq_ok; [exact Hwf|done|lia|]. by rewrite wp_ret.
Qed.

Lemma case_intid off lo n k' :
  0 < n -> 0 <= k' -> in_case off lo (lo + n * 4) = true -> (n + 1) * k' <= 1024 ->
  0 <= (off - lo) / 4 * k' /\ (off - lo) / 4 * k' + k' <= 1024.
Proof.
  unfold in_case. intros Hn Hk Hc Hb. bool_to_Z.
  assert (0 <= (off - lo) / 4 < n + 1) by (split; [apply Z.div_pos|apply Z.div_lt_upper_bound]; lia). nia.
Qed.

(** Only the destination register, the lock's counters and devices changed. *)
Definition only_reg (res : Z) (m' : machine H) : Prop :=
  res = 0 /\ exists h lk, Seq.unlocked lk /\
    (m' = set_hw h (set_vgic_lock lk m0) \/ exists x, m' = with_reg x (set_hw h (set_vgic_lock lk m0))).

(** The offsets at which the handler has a value for the guest. *)
Definition gicd_readable (off : Z) : bool :=
  (off =? GICD_CTLR) || (off =? GICD_TYPER) || (off =? GICD_IIDR) || (off =? GICD_TYPER2) ||
  in_case off (GICD_IGROUPR 0) (GICD_IGROUPR 31) || in_case off (GICD_ISENABLER 0) (GICD_ISENABLER 31) ||
  in_case off (GICD_ICENABLER 0) (GICD_ICENABLER 31) || in_case off (GICD_IPRIORITYR 0) (GICD_IPRIORITYR 254) ||
  in_case off (GICD_ITARGETSR 0) (GICD_ITARGETSR 254).

Lemma case_apart off lo hi lo' hi' : in_case off lo hi = true -> hi' < lo \/ hi < lo' -> in_case off lo' hi' = false.
Proof. unfold in_case. intros E Ha. bool_to_Z. destruct (Z.leb_spec lo' off), (Z.leb_spec off hi'); try done; lia. Qed.
Lemma bind_fault {A B} (e : M (machine H) A) (f : A -> M (machine H) B) m : wp e (fun x m' => f x m' = Fault) m -> (let! x := e in f x) m = Fault.
Proof. unfold wp, bind. by destruct (e m). Qed.
Lemma fault_bind {A B} (e : M (machine H) A) (f : A -> M (machine H) B) m : e m = Fault -> (let! x := e in f x) m = Fault.
Proof. unfold bind. by intros ->. Qed.

(** A value for no register: the handler writes through a null pointer. *)
Lemma locked_fault {A} m lk f (e : M (machine H) A) (P : A -> Prop) (K : A -> M (machine H) unit) :
  reaches m lk f -> Seq.unlocked lk ->
  (forall m' lk', reaches m' lk' f -> wp e (fun x m'' => m'' = m' /\ P x) m') -> (forall x m', K x m' = Fault) ->
  (vgic_lock ;; let! x := e in vgic_unlock ;; K x) m = Fault.
Proof.
  intros HR Hu He HK. apply bind_fault. eapply wp_mono; [|by eapply vgic_lock_ok]. cbn beta.
  intros _ m1 (lk1 & Hl1 & HR1 & _). apply bind_fault. eapply wp_mono; [|by eapply He]. cbn beta.
  intros x m2 [-> _]. apply bind_fault. eapply wp_mono; [|by eapply vgic_unlock_ok]. cbn beta. by intros _ m3 _.
Qed.

Lemma vgicd_read_register off a :
  Seq.unlocked (m_vgic_lock m0) -> 0 <= off ->
  wp (vgicd_mmio_read c off (Some (rc, r)) a) only_reg m0.
Proof.
  intros Hu Hoff. pose proof (reaches_refl m0 c v k vc wi w g vg Hwf) as HR.
  assert (Hreg : forall x lk, Seq.unlocked lk -> wp (store_reg (Some (rc, r)) x) (fun _ m' => wp (ret 0) only_reg m') (set_vgic_lock lk m0)).
  { intros x lk Hlk. eapply wp_store_reg; [by apply (reaches_lock m0 k vc vg m0 (m_vgic_lock m0) _ lk)|]. rewrite wp_ret.
    split; [done|]. exists (m_hw m0), lk. split; [done|]. by right; exists x. }
  assert (Hhw : forall (e : M (machine H) Z), hw_only e -> wp (let! x := e in store_reg (Some (rc, r)) x)
    (fun _ m' => wp (ret 0) only_reg m') m0).
  { intros e He. rewrite wp_bind. eapply wp_mono; [|apply He]. cbn beta. intros x m' [h ->].
    eapply wp_store_reg; [by apply reaches_hw|]. rewrite wp_ret. split; [done|]. exists h, (m_vgic_lock m0). split; [done|].
    by right; exists x. }
  assert (Hm0 : set_vgic_lock (m_vgic_lock m0) m0 = m0) by (by destruct m0).
  assert (Hfold : forall n acc intid step, 0 <= intid -> intid + Z.of_nat n <= 1024 ->
    wp (vgic_lock ;; let! val64 := fold_n n 0 acc (fun i val64 => let! p := vgic_irq_get c (intid + i) in
      let! irq := irq_load p in ret (step i val64 irq)) in vgic_unlock ;; store_reg (Some (rc, r)) val64)
    (fun _ m' => wp (ret 0) only_reg m') m0).
  { intros n acc intid step Hlo Hhi. eapply locked_read; [exact HR|exact Hu| |].
    - intros m' lk' HR'. by eapply fold_irqs.
    - cbn beta. intros x m' lk' HR' Hu' _ ->. by apply Hreg. }
  unfold vgicd_mmio_read. eapply wp_vcpu_vm; [exact HR|]. eapply wp_get_vm; [exact HR|]. rewrite wp_bind.
  repeat match goal with |- wp (if ?b then _ else _) _ _ => destruct b eqn:? end;
    try (rewrite !wp_ret; split; [done|]; exists (m_hw m0), (m_vgic_lock m0); rewrite Hm0, set_hw_id; by auto).
  all: try (apply Hhw, hw_only_gicd_r).
  all: unfold read_enabled, read_bytes; 
    try (apply Hfold; first
      [ apply (case_intid off (GICD_ISENABLER 0) 31 32); [lia|lia|assumption|lia]
      | apply (case_intid off (GICD_ICENABLER 0) 31 32); [lia|lia|assumption|lia]
      | apply (case_intid off (GICD_IPRIORITYR 0) 254 4); [lia|lia|assumption|lia]
      | apply (case_intid off (GICD_ITARGETSR 0) 254 4); [lia|lia|assumption|lia] ]).
  - rewrite wp_bind. eapply wp_mono; [|by eapply vgic_lock_ok]. cbn beta. intros _ m1 (lk1 & Hl1 & HR1 & ->).
    rewrite (wf_vm_vgic _ _ _ _ _ _ _ _ _ Hwf). eapply wp_bind_Ok; [done|].
    eapply wp_bind_Ok; [apply get_vgic_ok; cbn; apply Hwf|]. rewrite wp_bind.
    eapply wp_mono; [|by eapply vgic_unlock_ok]. cbn beta. intros _ m3 (lk3 & Hl3 & HR3 & ->). by apply Hreg.
  - pose proof (Hreg 0xffffffff _ Hu) as Hst. by rewrite Hm0 in Hst.
Qed.

Lemma vgicd_read_null off a :
  Seq.unlocked (m_vgic_lock m0) -> 0 <= off ->
  vgicd_mmio_read c off None a m0 = if gicd_readable off then Fault else Ok 0 m0.
Proof.
  intros Hu Hoff. pose proof (reaches_refl m0 c v k vc wi w g vg Hwf) as HR.
  assert (Hhw : forall e : M (machine H) Z, hw_only e -> ((let! x := e in store_reg None x) ;; ret 0) m0 = Fault).
  { intros e He. apply fault_bind, bind_fault. eapply wp_mono; [|apply He]. done. }
  assert (Hfold : forall n acc intid step, 0 <= intid -> intid + Z.of_nat n <= 1024 ->
    ((vgic_lock ;; let! val64 := fold_n n 0 acc (fun i val64 => let! p := vgic_irq_get c (intid + i) in
      let! irq := irq_load p in ret (step i val64 irq)) in vgic_unlock ;; store_reg None val64) ;; ret 0) m0 = Fault).
  { intros n acc intid step Hlo Hhi. apply fault_bind. eapply locked_fault; [exact HR|exact Hu| |done].
    intros m' lk' HR'. by eapply fold_irqs. }
  assert (vcpu_vm c m0 = Ok wi m0) as Ev by (unfold vcpu_vm; erewrite bind_Ok by (apply get_vcpu_ok; apply Hwf); by rewrite (wf_v_vm _ _ _ _ _ _ _ _ _ Hwf)).
  assert (get_vm wi m0 = Ok w m0) as Ew by (apply get_vm_ok; apply Hwf).
  unfold vgicd_mmio_read, gicd_readable. rewrite (bind_Ok _ _ _ _ _ Ev), (bind_Ok _ _ _ _ _ Ew). cbv zeta.
  destruct (off =? GICD_CTLR); cbn [orb].
  { apply fault_bind, bind_fault. eapply wp_mono; [|by eapply vgic_lock_ok]. cbn beta. intros _ m1 (lk1 & Hl1 & HR1 & ->).
    rewrite (wf_vm_vgic _ _ _ _ _ _ _ _ _ Hwf). erewrite bind_Ok by done. erewrite bind_Ok by (apply get_vgic_ok; cbn; apply Hwf).
    apply bind_fault. eapply wp_mono; [|by eapply vgic_unlock_ok]. done. }
  destruct (off =? GICD_TYPER); cbn [orb]; [apply Hhw, hw_only_gicd_r|]. destruct (off =? GICD_IIDR); cbn [orb]; [apply Hhw, hw_only_gicd_r|].
  destruct (off =? GICD_TYPER2); cbn [orb]; [apply Hhw, hw_only_gicd_r|].
  destruct (in_case off (GICD_IGROUPR 0) (GICD_IGROUPR 31)); cbn [orb]; [done|]. unfold read_enabled, read_bytes.
  destruct (in_case off (GICD_ISENABLER 0) (GICD_ISENABLER 31)) eqn:E1; cbn [orb]; [apply Hfold; apply (case_intid off (GICD_ISENABLER 0) 31 32); done || lia|].
  destruct (in_case off (GICD_ICENABLER 0) (GICD_ICENABLER 31)) eqn:E2; cbn [orb]; [apply Hfold; apply (case_intid off (GICD_ICENABLER 0) 31 32); done || lia|].
  destruct (in_case off (GICD_IPRIORITYR 0) (GICD_IPRIORITYR 254)) eqn:E3; cbn [orb].
  { rewrite (case_apart off _ _ (GICD_ISPENDR 0) (GICD_ISPENDR 31) E3), (case_apart off _ _ (GICD_ICPENDR 0) (GICD_ICPENDR 31) E3),
      (case_apart off _ _ (GICD_ISACTIVER 0) (GICD_ISACTIVER 31) E3), (case_apart off _ _ (GICD_ICACTIVER 0) (GICD_ICACTIVER 31) E3) by by left.
    apply Hfold; apply (case_intid off (GICD_IPRIORITYR 0) 254 4); done || lia. }
  destruct (in_case off (GICD_ITARGETSR 0) (GICD_ITARGETSR 254)) eqn:E4; cbn [orb].
  { rewrite (case_apart off _ _ (GICD_ISPENDR 0) (GICD_ISPENDR 31) E4), (case_apart off _ _ (GICD_ICPENDR 0) (GICD_ICPENDR 31) E4),
      (case_apart off _ _ (GICD_ISACTIVER 0) (GICD_ISACTIVER 31) E4), (case_apart off _ _ (GICD_ICACTIVER 0) (GICD_ICACTIVER 31) E4) by by left.
    apply Hfold; apply (case_intid off (GICD_ITARGETSR 0) 254 4); done || lia. }
  by repeat match goal with |- bind (if ?b then _ else _) _ _ = _ => destruct b end.
Qed.

(** C40 Reading the virtual distributor, at whatever 64-bit offset.  Into a register of the
    guest the handler returns 0 without a fault, a panic or an endless wait, releases the lock
    it takes, and changes nothing but the register (devices aside).  A load to the zero
    register ([Rt] = 31), for which [mmio_emulate] has a null pointer, changes nothing and
    returns 0 at the offsets that are ignored, and faults at those that have a value: the
    handler writes through the null pointer. *)
Theorem vgicd_read_outcome off a :
  Seq.unlocked (m_vgic_lock m0) -> 0 <= off ->
  wp (vgicd_mmio_read c off (Some (rc, r)) a) only_reg m0 /\
  vgicd_mmio_read c off (access_reg c 31) a m0 = if gicd_readable off then Fault else Ok 0 m0.
Proof. intros Hu Hoff. split; [by apply vgicd_read_register|by apply vgicd_read_null]. Qed.


(** A guest that writes [val] to GICD_ISENABLER<n> and reads the register back
    sees, for each of the 32 interrupts, its bit of [val] or its previous enable
    bit; but bit 31 is copied into bits 32 to 63 of the guest's register, since the
    handler builds the word from [int] constants. *)
Theorem vgicd_enable_roundtrip off val a a' :
  Seq.unlocked (m_vgic_lock m0) -> GICD_ISENABLER 0 <= off <= GICD_ISENABLER 31 ->
  wp (vgicd_mmio_write c off val a ;; vgicd_mmio_read c off (Some (rc, r)) a') (fun res m' => res = 0 /\
    exists x, is_u64 x /\ m_vcpus m' = <[rc := set_v_x (<[r := x]> (v_x rv)) rv]> (m_vcpus m0) /\
      forall j, 0 <= j < 64 ->
        Z.testbit x j = Z.testbit val (Z.min j 31) ||
          (irq_enabled (irq_view vc (spis vg) (p_mem (m_phys m0)) ((off - GICD_ISENABLER 0) / 4 * 32 + Z.min j 31)) =? 1)) m0.
Proof.
  intros Hu Hoff. pose proof (reaches_refl m0 c v k vc wi w g vg Hwf) as HR0.
  rewrite wp_bind. eapply wp_mono; [|by eapply vgicd_write_isenabler]. cbn beta. intros _ m1 (_ & lk1 & Hu1 & HR1).
  eapply wp_mono; [|by eapply vgicd_read_isenabler]. cbn beta. intros res m2 (-> & x & lk2 & _ & [Hx Hb] & ->).
  split; [done|]. exists x. split; [done|]. split; [by cbn; rewrite u64_small by done|].
  intros j Hj. rewrite Hb by done. unfold enable_upd. set (i := (off - GICD_ISENABLER 0) / 4 * 32).
  replace (i + Z.min j 31 - i) with (Z.min j 31) by lia.
  destruct (Z.leb_spec i (i + Z.min j 31)), (Z.ltb_spec (i + Z.min j 31) (i + 32)); try lia. simpl.
  by destruct (Z.testbit val (Z.min j 31)).
Qed.

(** Interrupt priorities round trip: a guest that writes [val] to
    GICD_IPRIORITYR<n> reads back the low 32 bits of [val], for every register
    from 0 to 254, private and shared interrupts alike. *)
Theorem vgicd_priority_roundtrip off val a a' :
  Seq.unlocked (m_vgic_lock m0) -> GICD_IPRIORITYR 0 <= off <= GICD_IPRIORITYR 254 -> is_u64 val ->
  wp (vgicd_mmio_write c off val a ;; vgicd_mmio_read c off (Some (rc, r)) a') (fun res m' => res = 0 /\
    m_vcpus m' = <[rc := set_v_x (<[r := val mod 2 ^ 32]> (v_x rv)) rv]> (m_vcpus m0)) m0.
Proof.
  intros Hu Hoff Hval. pose proof (reaches_refl m0 c v k vc wi w g vg Hwf) as HR0.
  rewrite wp_bind. eapply wp_mono; [|by eapply vgicd_write_ipriorityr]. cbn beta. intros _ m1 (_ & HR1).
  set (i := (off - GICD_IPRIORITYR 0) / 4 * 4) in *. set (f := priority_upd _ i val 4) in HR1.
  assert (Hf : forall d, 0 <= d < 4 -> irq_priority (f (i + d)) = (val / 2 ^ (d * 8)) mod 2 ^ 8).
  { intros d Hd. unfold f, priority_upd. replace (i + d - i) with d by lia.
    destruct (Z.leb_spec i (i + d)), (Z.ltb_spec (i + d) (i + 4)); try lia. simpl.
    change 0xff with (Z.ones 8). by rewrite Z.land_ones, Z.shiftr_div_pow2 by lia. }
  eapply wp_mono; [|eapply vgicd_read_ipriorityr; [exact HR1|exact Hu|exact Hoff|]].
  - cbn beta. intros res m2 (-> & lk2 & _ & ->). split; [done|]. cbn. do 4 f_equal. fold i. unfold byte_word.
    rewrite <- (Z.add_0_r i) at 1. rewrite !Hf by lia.
    assert (E : val mod 2 ^ 32 = val / 2 ^ (0 * 8) mod 2 ^ 8 + val / 2 ^ (1 * 8) mod 2 ^ 8 * 2 ^ 8 +
      val / 2 ^ (2 * 8) mod 2 ^ 8 * 2 ^ 16 + val / 2 ^ (3 * 8) mod 2 ^ 8 * 2 ^ 24).
    { change (2 ^ (0 * 8)) with 1. change (2 ^ (1 * 8)) with 256. change (2 ^ (2 * 8)) with 65536.
      change (2 ^ (3 * 8)) with 16777216. Z.div_mod_to_equations. lia. }
    rewrite <- E. apply u64_small. pose proof (Z.mod_pos_bound val (2 ^ 32)). unfold is_u64. lia.
  - cbn beta zeta. fold i. intros j Hj. replace j with (i + (j - i)) by lia. rewrite Hf by lia. apply Z.mod_pos_bound. lia.
Qed.

End Distributor.

(** * Injection *)

Section Inject.
Context {H : Type} `{!Hardware H} `{!SysregLaws H}.
Implicit Types m : machine H.

Definition set_lr_bits m (k : nat) (vc : vgic_cpu) (u : Z) : machine H :=
  set_vgic_cpu (<[k := set_used_lr u vc]> (m_vgic_cpu m)) m.

(** The lowest clear bit of [u] below [n], if any, at or above [i]. *)
Fixpoint first_free (n : nat) (i u : Z) : option Z :=
  match n with
  | O => None
  | S n' => if Z.testbit u i then first_free n' (i + 1) u else Some i
  end.

Lemma first_free_Some n i u j :
  first_free n i u = Some j -> i <= j < i + Z.of_nat n /\ Z.testbit u j = false.
Proof.
  revert i. induction n as [|n IH]; intros i; simpl; [done|].
  destruct (Z.testbit u i) eqn:E; [|intros [= <-]; split; [lia|done]]. intros Hf. apply IH in Hf as [? ?]. split; [lia|done].
Qed.

Lemma first_free_None n i u j : first_free n i u = None -> i <= j < i + Z.of_nat n -> Z.testbit u j = true.
Proof.
  revert i. induction n as [|n IH]; intros i; simpl; [lia|].
  destruct (Z.testbit u i) eqn:E; [|done]. intros Hf Hj. destruct (decide (j = i)) as [->|]; [done|].
  apply (IH (i + 1)); [done|lia].
Qed.

Lemma vgic_lr_alloc_ok m n i k vc :
  m_vgic_cpu m !! k = Some vc -> 0 <= i -> i + Z.of_nat n <= 16 -> is_u16 (used_lr vc) ->
  vgic_lr_alloc_from n i (Some k) m =
    match first_free n i (used_lr vc) with
    | Some j => Ok j (set_lr_bits m k vc (Z.lor (used_lr vc) (2 ^ j)))
    | None => Ok (-1) m
    end.
Proof.
  intros Hk. revert i. induction n as [|n IH]; intros i Hi Hn Hu; simpl; [done|].
  erewrite bind_Ok by done. erewrite bind_Ok by (apply get_vgic_cpu_ok, Hk).
  rewrite shiftl_1 by lia. pose proof (land_pow2_nonzero (used_lr vc) i Hi) as E.
  destruct (Z.testbit (used_lr vc) i) eqn:Eb.
  - apply negb_true_iff in E. rewrite E. rewrite IH by (done || lia). by destruct (first_free n (i + 1) (used_lr vc)).
  - apply negb_false_iff in E. rewrite E. erewrite bind_Ok by (apply upd_vgic_cpu_ok, Hk).
    unfold set_lr_bits. rewrite u16_small; [done|]. apply (lor_bound 16); [lia|done|].
    split; [apply Z.pow_nonneg; lia|apply Z.pow_lt_mono_r; lia].
Qed.

Lemma vgic_inject_virq_ok m (c k : nat) v vc pirq virq group :
  m_vcpus m !! c = Some v -> v_vgic v = Some k -> m_vgic_cpu m !! k = Some vc -> is_u16 (used_lr vc) ->
  0 <= m_lr_max m <= 16 ->
  wp (vgic_inject_virq c pirq virq group) (fun res m' =>
    match first_free (Z.to_nat (m_lr_max m)) 0 (used_lr vc) with
    | Some j => res = 0 /\ exists h, m' = set_hw h (set_lr_bits m k vc (Z.lor (used_lr vc) (2 ^ j))) /\
        0 <= j < m_lr_max m /\ Z.testbit (used_lr vc) j = false /\
        forall r, sysreg_of h r =
          if bool_decide (r = ich_lr_el2 j) then Z.land (u64 (gic_make_lr pirq virq group)) (rw_bits r)
          else sysreg_of (m_hw m) r
    | None => res = -1 /\ m' = m /\ forall j, 0 <= j < m_lr_max m -> Z.testbit (used_lr vc) j = true
    end) m.
Proof.
  intros Hc Hv Hk Hu Hm. unfold vgic_inject_virq, vgic_lr_alloc. eapply wp_bind_Ok; [apply get_vcpu_ok, Hc|].
  rewrite Hv. rewrite wp_bind, wp_bind, wp_gets. unfold wp at 1. rewrite (vgic_lr_alloc_ok m _ 0 k vc) by (done || lia).
  destruct (first_free _ 0 (used_lr vc)) as [j|] eqn:Ef.
  - apply first_free_Some in Ef as [Hj Hb]. destruct (Z.ltb_spec j 0); [lia|]. unfold gic_write_lr.
    destruct (Z.leb_spec 0 j); [|lia]. destruct (Z.leb_spec j 15); [|lia]. simpl. rewrite wp_bind. apply wp_write_sysreg.
    rewrite wp_ret. split; [done|]. eexists. split; [done|]. split; [lia|]. split; [done|]. intros r.
    rewrite msr_holds by (simpl; lia). by case_bool_decide as E; [rewrite E|].
  - simpl. rewrite wp_ret. split; [done|]. split; [done|]. intros j Hj. eapply first_free_None; [exact Ef|lia].
Qed.

(** C38 Injection puts the interrupt into the lowest list register that is not in
    use, marks it in use and leaves every other list register alone; when all are
    in use it returns -1 and changes nothing (the interrupt is not injected). *)
Theorem vgic_inject_virq_spec m (c k : nat) v vc pirq virq group :
  m_vcpus m !! c = Some v -> v_vgic v = Some k -> m_vgic_cpu m !! k = Some vc -> is_u16 (used_lr vc) ->
  0 <= m_lr_max m <= 16 ->
  wp (vgic_inject_virq c pirq virq group) (fun res m' =>
    match first_free (Z.to_nat (m_lr_max m)) 0 (used_lr vc) with
    | Some j => res = 0 /\ exists h, m' = set_hw h (set_lr_bits m k vc (Z.lor (used_lr vc) (2 ^ j))) /\
        0 <= j < m_lr_max m /\ Z.testbit (used_lr vc) j = false /\
        forall r, sysreg_of h r =
          if bool_decide (r = ich_lr_el2 j) then Z.land (u64 (gic_make_lr pirq virq group)) (rw_bits r)
          else sysreg_of (m_hw m) r
    | None => res = -1 /\ m' = m /\ forall j, 0 <= j < m_lr_max m -> Z.testbit (used_lr vc) j = true
    end) m.
Proof. apply vgic_inject_virq_ok. Qed.

(** The bits of [used_lr] that stay set after the registers below [n] were checked. *)
Definition still_used (h : H) (u n : Z) (j : Z) : bool :=
  Z.testbit u j && negb ((j <? n) && lr_is_inactive (sysreg_of h (ich_lr_el2 j))).

Lemma testbit_clear u j i :
  is_u16 u -> 0 <= j < 16 -> 0 <= i -> Z.testbit (Z.land u (notw 16 (Z.shiftl 1 j))) i = Z.testbit u i && negb (i =? j).
Proof.
  intros Hu Hj Hi. rewrite Z.land_spec, testbit_notw, shiftl_1, testbit_pow2 by lia.
  destruct (Z.ltb_spec i 16); [done|]. rewrite (testbit_high 16 u) by (unfold is_u16 in Hu; lia). done.
Qed.

Lemma vgic_used_lr_update_ok m (c k : nat) v vc :
  m_vcpus m !! c = Some v -> v_vgic v = Some k -> m_vgic_cpu m !! k = Some vc -> is_u16 (used_lr vc) ->
  0 <= m_lr_max m <= 16 ->
  wp (vgic_used_lr_update c) (fun _ m' => exists u, is_u16 u /\ m' = set_lr_bits m k vc u /\
    forall j, 0 <= j -> Z.testbit u j = still_used (m_hw m) (used_lr vc) (m_lr_max m) j) m.
Proof.
  intros Hc Hv Hk Hu Hm. unfold vgic_used_lr_update. eapply wp_bind_Ok; [apply get_vcpu_ok, Hc|].
  rewrite wp_bind, wp_gets. pose proof (lookup_lt_Some _ _ _ Hk) as Hlt.
  apply (wp_for_range (fun n m' => exists u, is_u16 u /\ m' = set_lr_bits m k vc u /\
    forall j, 0 <= j -> Z.testbit u j = still_used (m_hw m) (used_lr vc) n j) 0 (m_lr_max m)); [lia| |].
  - exists (used_lr vc). split; [done|]. split.
    + unfold set_lr_bits, set_used_lr. replace (mkVgicCpu (vc_used vc) (used_lr vc) (sgis vc) (ppis vc)) with vc by (by destruct vc).
      rewrite list_insert_id by done. by destruct m.
    + intros j Hj. unfold still_used. destruct (Z.ltb_spec j 0); [lia|]. by rewrite andb_true_r.
  - intros i m' Hi (u & Hu' & -> & Hb). rewrite Hv. eapply wp_bind_Ok; [done|].
    eapply wp_bind_Ok; [apply get_vgic_cpu_ok; cbn; by apply list_lookup_insert_eq|]. simpl used_lr.
    rewrite (shiftl_1 i), land_pow2_nonzero by lia.
    assert (Hsame : Z.testbit u i = Z.testbit (used_lr vc) i).
    { rewrite Hb by lia. unfold still_used. destruct (Z.ltb_spec i i); [lia|]. by rewrite andb_true_r. }
    assert (Hnext : forall j, 0 <= j -> j <> i -> still_used (m_hw m) (used_lr vc) (i + 1) j = still_used (m_hw m) (used_lr vc) i j).
    { intros j Hj Hne. unfold still_used. destruct (Z.ltb_spec j i), (Z.ltb_spec j (i + 1)); try lia; done. }
    assert (Hi1 : still_used (m_hw m) (used_lr vc) (i + 1) i =
      Z.testbit u i && negb (lr_is_inactive (sysreg_of (m_hw m) (ich_lr_el2 i)))).
    { unfold still_used. destruct (Z.ltb_spec i (i + 1)); [|lia]. by rewrite Hsame. }
    destruct (Z.testbit u i) eqn:Eu.
    + unfold gic_read_lr. destruct (Z.leb_spec 0 i); [|lia]. destruct (Z.leb_spec i 15); [|lia]. cbn [andb].
      rewrite wp_bind. apply wp_read_sysreg; [unfold holds; lia|]. cbn [m_hw set_lr_bits set_vgic_cpu].
      destruct (lr_is_inactive (sysreg_of (m_hw m) (ich_lr_el2 i))) eqn:El.
      * unfold wp. erewrite upd_vgic_cpu_ok by (cbn; by apply list_lookup_insert_eq).
        exists (Z.land u (notw 16 (Z.shiftl 1 i))). split; [by apply (land_bound_l 16)|]. split.
        { unfold set_lr_bits. cbn. rewrite list_insert_insert_eq. rewrite shiftl_1 by lia. done. }
        intros j Hj. rewrite testbit_clear by (done || lia). destruct (Z.eqb_spec j i) as [->|].
        -- rewrite Hi1, andb_false_r. done.
        -- rewrite Hnext, andb_true_r by done. auto.
      * rewrite wp_ret. exists u. split; [done|]. split; [done|]. intros j Hj.
        destruct (decide (j = i)) as [->|]; [by rewrite Hi1, Eu|]. rewrite Hnext by done. auto.
    + rewrite wp_ret. exists u. split; [done|]. split; [done|]. intros j Hj.
      destruct (decide (j = i)) as [->|]; [by rewrite Hi1, Eu|]. rewrite Hnext by done. auto.
Qed.

End Inject.

(** * An example: a vm with two virtual cpus *)

Definition example_vgic : vgic := mkVgic 1 95 64 false 0x40130000 (mkSpinlock 0 0).
Definition example_vm : vm :=
  mkVm (replicate 64 0) 2 [Some 0%nat; Some 1%nat; None; None] 0x40122000 (Some 0%nat) None 1 0.
Definition example_vcpu (i : nat) : vcpu :=
  set_v_cpuid (Z.of_nat i) (set_v_vgic (Some i) (set_v_vm (Some 0%nat) vcpu0)).
Definition vgic_machine : machine sim :=
  set_vcpus [example_vcpu 0; example_vcpu 1; vcpu0; vcpu0] (set_vms [example_vm; vm0]
    (set_vgic [example_vgic; vgic0] (set_lr_max 4 sim_machine))).

Lemma example_vgic_wf :
  vgic_wf vgic_machine 0 (example_vcpu 0) 0 vgic_cpu0 0 example_vm 0 example_vgic.
Proof. split; try reflexivity. split; [done|vm_compute; reflexivity]. Qed.

Lemma example_unlocked : Seq.unlocked (m_vgic_lock vgic_machine).
Proof. by split. Qed.

Definition example_access : mmio_access := mkAccess 0 0 2 0.

Lemma vgicd_enable_roundtrip_witness :
  wp (vgicd_mmio_write 0 0x104 0x80000002 example_access ;; vgicd_mmio_read 0 0x104 (Some (0%nat, 3%nat)) example_access)
    (fun res m' => res = 0 /\ exists x, Z.testbit x 1 = true /\ Z.testbit x 0 = false /\ Z.testbit x 40 = true) vgic_machine.
Proof.
  eapply wp_mono; [|apply (vgicd_enable_roundtrip vgic_machine 0 (example_vcpu 0) 0 vgic_cpu0 0 example_vm 0 example_vgic
    example_vgic_wf 0 3 (example_vcpu 0) 0)].
  - cbn beta. intros res m' (-> & x & _ & _ & Hx). split; [done|]. exists x. rewrite !Hx by lia. done.
  - reflexivity.
  - reflexivity.
  - exact example_unlocked.
  - vm_compute. split; congruence.
Defined.

Lemma vgicd_priority_roundtrip_witness :
  wp (vgicd_mmio_write 0 0x420 0xa0b0c0d0 example_access ;; vgicd_mmio_read 0 0x420 (Some (0%nat, 3%nat)) example_access)
    (fun res m' => res = 0) vgic_machine.
Proof.
  eapply wp_mono; [|apply (vgicd_priority_roundtrip vgic_machine 0 (example_vcpu 0) 0 vgic_cpu0 0 example_vm 0 example_vgic
    example_vgic_wf 0 3 (example_vcpu 0) 0)].
  - cbn beta. by intros res m' [-> _].
  - reflexivity.
  - reflexivity.
  - exact example_unlocked.
  - vm_compute. split; congruence.
  - vm_compute. split; congruence.
Defined.

Lemma vgicd_read_outcome_witness :
  wp (vgicd_mmio_read 0 0xdeadbeef (Some (0%nat, 3%nat)) example_access) (fun res m' => res = 0) vgic_machine /\
  vgicd_mmio_read 0 (GICD_ISENABLER 1) (access_reg 0 31) example_access vgic_machine = Fault.
Proof.
  pose proof (fun off => vgicd_read_outcome vgic_machine 0 (example_vcpu 0) 0 vgic_cpu0 0 example_vm 0 example_vgic
    example_vgic_wf 0 3 (example_vcpu 0) 0 eq_refl eq_refl off example_access example_unlocked) as S.
  split; [|by apply (S (GICD_ISENABLER 1))]. eapply wp_mono; [|apply (S 0xdeadbeef); lia]. by intros res m' [-> _].
Defined.

Lemma vgic_inject_virq_spec_witness :
  wp (vgic_inject_virq 0 27 27 1) (fun res m' => res = 0 /\ lr_is_pending (sysreg_of (m_hw m') (ich_lr_el2 0)) = true) vgic_machine.
Proof.
  eapply wp_mono; [|apply (vgic_inject_virq_spec vgic_machine 0 0 (example_vcpu 0) vgic_cpu0 27 27 1)].
  - cbn beta. change (first_free _ 0 (used_lr vgic_cpu0)) with (Some 0).
    intros res m' (-> & h & -> & _ & _ & Hr). split; [done|]. cbn [m_hw set_hw]. rewrite Hr. reflexivity.
  - reflexivity.
  - reflexivity.
  - reflexivity.
  - by vm_compute.
  - simpl. lia.
Defined.

(** The redistributor emulation computes the interrupt of a priority register
    from the offset into the whole redistributor region instead of the offset into
    the redistributor: a guest that writes GICR_IPRIORITYR0 of its second
    redistributor succeeds, leaves the priorities of that cpu's interrupts as they
    were and changes memory of the hypervisor 393120 bytes past the vm's table. *)
Theorem vgicr_priority_write_escapes :
  match vgicr_mmio_write 0 (GICRSTRIDE + GICR_IPRIORITYR 0) 0x5a example_access vgic_machine with
  | Ok res m' => res = 0 /\ m_vgic_cpu m' = m_vgic_cpu vgic_machine /\
      peek (p_mem (m_phys vgic_machine)) (spis example_vgic + 393120) = 0 /\
      peek (p_mem (m_phys m')) (spis example_vgic + 393120) = 0x5a
  | _ => False
  end.
Proof. vm_compute. split_and!; reflexivity. Qed.
