(* ===== verification/Vcpu.v ===== *)
(** Virtual cpus: creation, entry into the guest, saving and restoring the EL1
    registers (src/src/vcpu.c, src/include/vcpu.h), and the stage-2 set-up of a
    core (src/src/mmu.c, [stage2_mmu_init]). *)
From stdpp Require Import base gmap list numbers tactics.
From S2P Require Import Prelude Spinlock PageAlloc Mem Mmu Machine Gic Hw GicProofs Mmio Vgic.

Definition SPSR_EL2_MODE_EL1H : Z := 0x5.
Definition SPSR_EL2_F : Z := Z.shiftl 1 6.
Definition SPSR_EL2_I : Z := Z.shiftl 1 7.
Definition SPSR_EL2_A : Z := Z.shiftl 1 8.
Definition SPSR_EL2_D : Z := Z.shiftl 1 9.
(** [1 << 31], an [int]. *)
Definition MPIDR_RES1 : Z := i32 (Z.shiftl 1 31).

Definition VTCR_T0SZ (n : Z) : Z := Z.land n 0x3f.
Definition VTCR_SL0 (n : Z) : Z := Z.shiftl (Z.land n 0x3) 6.
Definition VTCR_SH0 (n : Z) : Z := Z.shiftl (Z.land n 0x3) 12.
Definition VTCR_TG0 (n : Z) : Z := Z.shiftl (Z.land n 0x3) 14.
Definition VTCR_PS (n : Z) : Z := Z.shiftl (Z.land n 0x7) 16.
Definition VTCR_NSW : Z := Z.shiftl 1 29.
Definition VTCR_NSA : Z := Z.shiftl 1 30.

(** [1 << n] of HCR_EL2. *)
Definition HCR_VM : Z := Z.shiftl 1 0.
Definition HCR_SWIO : Z := Z.shiftl 1 1.
Definition HCR_IMO : Z := Z.shiftl 1 4.
Definition HCR_TWI : Z := Z.shiftl 1 13.
Definition HCR_TWE : Z := Z.shiftl 1 14.
Definition HCR_TSC : Z := Z.shiftl 1 19.
Definition HCR_RW : Z := i32 (Z.shiftl 1 31).

Section Vcpu.
Context {H : Type} `{!Hardware H} `{!Image}.

Definition vcpu_init : M (machine H) unit := on_lock m_vcpus_lock set_vcpus_lock Seq.spinlock_init.

Fixpoint vcpu_alloc_from (n i : nat) : M (machine H) (option nat) :=
  match n with
  | O => ret None
  | S n' =>
      let! v := get_vcpu i in
      if bool_decide (v_state v = UNUSED) then upd_vcpu i (set_v_state CREATED) ;; ret (Some i)
      else vcpu_alloc_from n' (S i)
  end.

Definition vcpu_alloc : M (machine H) (option nat) :=
  on_lock m_vcpus_lock set_vcpus_lock Seq.spin_lock ;;
  let! r := vcpu_alloc_from (Z.to_nat VCPU_MAX) 0 in
  on_lock m_vcpus_lock set_vcpus_lock Seq.spin_unlock ;;
  ret r.

(** Assignments to the fields of [vcpu->sys]. *)
Definition set_sys (s : vcpu_sys) (mpidr midr sctlr cntfrq : Z) : vcpu_sys :=
  mkSys (s_spsr_el1 s) (s_elr_el1 s) mpidr midr (s_sp_el0 s) (s_sp_el1 s) (s_ttbr0_el1 s) (s_ttbr1_el1 s)
    (s_tcr_el1 s) (s_vbar_el1 s) sctlr (s_cntv_ctl_el0 s) (s_cntv_tval_el0 s) cntfrq.

(** [vcpuid | MPIDR_RES1] is an [int], sign-extended when it is stored. *)
Definition new_vcpu (vm : nat) (vcpuid entrypoint : Z) : M (machine H) (option nat) :=
  let! r := vcpu_alloc in
  match r with
  | None => ret None
  | Some c =>
      upd_vcpu c (set_v_vm (Some vm)) ;;
      upd_vcpu c (set_v_cpuid vcpuid) ;;
      upd_vcpu c (set_v_elr_el2 entrypoint) ;;
      upd_vcpu c (set_v_spsr_el2
        (Z.lor (Z.lor (Z.lor (Z.lor SPSR_EL2_MODE_EL1H SPSR_EL2_F) SPSR_EL2_I) SPSR_EL2_A) SPSR_EL2_D)) ;;
      upd_vcpu c (fun v => set_v_sys (set_sys (v_sys v)
        (u64 (Z.lor vcpuid MPIDR_RES1)) 0x410fd081 0x30C50830 62500000) v) ;;
      vm_gic_state_init c ;;
      let! v := get_vcpu c in
      let! vg := new_vgic_cpu (v_cpuid v) in
      upd_vcpu c (set_v_vgic vg) ;;
      ret (Some c)
  end.

Definition free_vcpu (vcpu : nat) : M (machine H) unit := ret tt.

(** The pointer comes from [vm->vcpus[...]]: it may be NULL. *)
Definition vcpu_ready (vcpu : option nat) : M (machine H) unit :=
  let! c := deref vcpu in upd_vcpu c (set_v_state READY).

Definition vcpu_running (vcpu : nat) : M (machine H) bool :=
  let! v := get_vcpu vcpu in ret (bool_decide (v_state v = RUNNING)).

Definition save_sysreg (vcpu : nat) : M (machine H) unit :=
  let! v_spsr := read_sysreg spsr_el1 in
  let! v_elr := read_sysreg elr_el1 in
  let! v_mpidr := read_sysreg mpidr_el1 in
  let! v_midr := read_sysreg midr_el1 in
  let! v_sp0 := read_sysreg sp_el0 in
  let! v_sp1 := read_sysreg sp_el1 in
  let! v_ttbr0 := read_sysreg ttbr0_el1 in
  let! v_ttbr1 := read_sysreg ttbr1_el1 in
  let! v_tcr := read_sysreg tcr_el1 in
  let! v_vbar := read_sysreg vbar_el1 in
  let! v_sctlr := read_sysreg sctlr_el1 in
  let! v_ctl := read_sysreg cntv_ctl_el0 in
  let! v_tval := read_sysreg cntv_tval_el0 in
  upd_vcpu vcpu (fun v => set_v_sys (mkSys v_spsr v_elr v_mpidr v_midr v_sp0 v_sp1 v_ttbr0 v_ttbr1 v_tcr
    v_vbar v_sctlr v_ctl v_tval (s_cntfrq_el0 (v_sys v))) v).

Definition restore_sysreg (vcpu : nat) : M (machine H) unit :=
  let! v := get_vcpu vcpu in
  let s := v_sys v in
  write_sysreg spsr_el1 (s_spsr_el1 s) ;;
  write_sysreg elr_el1 (s_elr_el1 s) ;;
  write_sysreg vmpidr_el2 (s_mpidr_el1 s) ;;
  write_sysreg vpidr_el2 (s_midr_el1 s) ;;
  write_sysreg sp_el0 (s_sp_el0 s) ;;
  write_sysreg sp_el1 (s_sp_el1 s) ;;
  write_sysreg ttbr0_el1 (s_ttbr0_el1 s) ;;
  write_sysreg ttbr1_el1 (s_ttbr1_el1 s) ;;
  write_sysreg tcr_el1 (s_tcr_el1 s) ;;
  write_sysreg vbar_el1 (s_vbar_el1 s) ;;
  write_sysreg sctlr_el1 (s_sctlr_el1 s) ;;
  write_sysreg cntv_ctl_el0 (s_cntv_ctl_el0 s) ;;
  write_sysreg cntv_tval_el0 (s_cntv_tval_el0 s) ;;
  write_sysreg cntfrq_el0 (s_cntfrq_el0 s).

(** [vcpu_dump] saves the registers, then prints. *)
Definition vcpu_dump (vcpu : option nat) : M (machine H) unit :=
  match vcpu with None => ret tt | Some c => save_sysreg c end.

(** The C part of entering the guest, up to the call of [eret_vm], which loads
    the registers from [vcpu->reg] and does not return. *)
Definition switch_to_vcpu (vcpu : nat) : M (machine H) unit :=
  write_sysreg tpidr_el2 (vcpu_ptr vcpu) ;;
  let! id := cpuid in
  let! v := get_vcpu vcpu in
  (if negb (id =? v_cpuid v) then panic else ret tt) ;;
  upd_vcpu vcpu (set_v_state RUNNING) ;;
  let! vm := deref (v_vm v) in
  let! w := get_vm vm in
  write_sysreg vttbr_el2 (vm_stage2_pt w) ;;
  tlb_flush ;;
  restore_sysreg vcpu ;;
  let! v := get_vcpu vcpu in
  gic_restore_state (v_gic v).

Definition enter_vcpu : M (machine H) unit :=
  let! id := cpuid in
  let! v := get_vcpu (Z.to_nat id) in
  (if negb (bool_decide (v_state v = READY)) then panic else ret tt) ;;
  switch_to_vcpu (Z.to_nat id).

Definition hcr_setup : M (machine H) unit :=
  let hcr := u64 (Z.lor (Z.lor (Z.lor (Z.lor (Z.lor (Z.lor HCR_VM HCR_SWIO) HCR_IMO) HCR_RW) HCR_TSC) HCR_TWI) HCR_TWE) in
  write_sysreg hcr_el2 hcr.

Definition stage2_mmu_init : M (machine H) unit :=
  let! _ := read_sysreg id_aa64mmfr0_el1 in
  let vtcr := Z.lor (Z.lor (Z.lor (Z.lor (Z.lor (Z.lor (VTCR_T0SZ 20) (VTCR_SH0 0)) (VTCR_SL0 2))
    (VTCR_TG0 0)) VTCR_NSW) VTCR_NSA) (VTCR_PS 4) in
  write_sysreg vtcr_el2 vtcr ;;
  let mair := Z.lor (Z.shiftl AI_DEVICE_nGnRnE (8 * AI_DEVICE_nGnRnE_IDX))
    (Z.shiftl AI_NORMAL_NC (8 * AI_NORMAL_NC_IDX)) in
  write_sysreg mair_el2 mair.

End Vcpu.

(** * Entering the guest *)

(** Registers whose value [restore_sysreg] determines, and from which field. *)
Definition restored (s : vcpu_sys) : list (sysreg * Z) :=
  [(spsr_el1, s_spsr_el1 s); (elr_el1, s_elr_el1 s); (vmpidr_el2, s_mpidr_el1 s); (vpidr_el2, s_midr_el1 s);
   (sp_el0, s_sp_el0 s); (sp_el1, s_sp_el1 s); (ttbr0_el1, s_ttbr0_el1 s); (ttbr1_el1, s_ttbr1_el1 s);
   (tcr_el1, s_tcr_el1 s); (vbar_el1, s_vbar_el1 s); (sctlr_el1, s_sctlr_el1 s)].

Section Enter.
Context {H : Type} `{!Hardware H} `{!SysregLaws H} `{!Image}.
Implicit Types m : machine H.

(** A list of register writes, the last one first. *)
Fixpoint msrs (l : list (sysreg * Z)) (h : H) : H :=
  match l with [] => h | (r, v) :: l' => hw_msr r (u64 v) (msrs l' h) end.

Lemma msrs_other l h r :
  (forall v, (r, v) ∉ l) -> holds r = true \/ r = mpidr_el1 -> sysreg_of (msrs l h) r = sysreg_of h r.
Proof.
  intros Hl Hr. induction l as [|[r' v] l IH]; [done|]. simpl. rewrite msr_frame; [|done|].
  - apply IH. intros v' Hv'. apply (Hl v'). by right.
  - intros ->. apply (Hl v). by left.
Qed.

Lemma msrs_in l h r v :
  NoDup l.*1 -> (r, v) ∈ l -> holds r = true -> sysreg_of (msrs l h) r = Z.land (u64 v) (rw_bits r).
Proof.
  induction l as [|[r' v'] l IH]; [by rewrite elem_of_nil|]. simpl. rewrite list.NoDup_cons, elem_of_cons.
  intros [Hn Hnd] [[= <- <-]|Hin] Hr.
  - rewrite msr_holds by done. by rewrite bool_decide_true.
  - rewrite msr_frame; [by apply IH|by left|]. intros ->. apply Hn. apply list_elem_of_fmap. by exists (r', v).
Qed.

(** The registers [restore_sysreg] writes, the last one first. *)
Definition restore_writes (s : vcpu_sys) : list (sysreg * Z) :=
  (cntfrq_el0, s_cntfrq_el0 s) :: (cntv_tval_el0, s_cntv_tval_el0 s) :: (cntv_ctl_el0, s_cntv_ctl_el0 s) ::
  reverse (restored s).

Lemma restore_sysreg_ok m c v :
  m_vcpus m !! c = Some v -> restore_sysreg c m = Ok tt (set_hw (msrs (restore_writes (v_sys v)) (m_hw m)) m).
Proof. intros Hv. unfold restore_sysreg. by erewrite bind_Ok by (apply get_vcpu_ok, Hv). Qed.

Lemma restored_holds s r x : (r, x) ∈ restored s -> holds r = true.
Proof. unfold restored. rewrite !elem_of_cons, elem_of_nil. naive_solver. Qed.

(** C33 Entering the guest on a core whose virtual cpu is READY and belongs to the
    core succeeds: the virtual cpu becomes RUNNING, TPIDR_EL2 holds its address (what
    [cur_vcpu] reads on the next trap), VTTBR_EL2 the page table of its vm, every EL1
    register its saved value, and every list register its saved value; nothing else
    of the hypervisor's state changes. *)
Theorem enter_vcpu_spec m v wi w :
  let id := cpu_of (m_hw m) in
  m_vcpus m !! Z.to_nat id = Some v -> v_state v = READY -> v_cpuid v = id ->
  v_vm v = Some wi -> m_vms m !! wi = Some w -> 1 <= m_lr_max m <= 16 -> length (gs_lr (v_gic v)) = 16%nat ->
  wp enter_vcpu (fun _ m' => exists h,
    m' = set_hw h (set_vcpus (<[Z.to_nat id := set_v_state RUNNING v]> (m_vcpus m)) m) /\
    sysreg_of h tpidr_el2 = Z.land (u64 (vcpu_ptr (Z.to_nat id))) (rw_bits tpidr_el2) /\
    sysreg_of h vttbr_el2 = Z.land (u64 (vm_stage2_pt w)) (rw_bits vttbr_el2) /\
    (forall r x, (r, x) ∈ restored (v_sys v) -> sysreg_of h r = Z.land (u64 x) (rw_bits r)) /\
    (forall k, 0 <= k < m_lr_max m -> sysreg_of h (ich_lr_el2 k) =
       Z.land (u64 (nth (Z.to_nat k) (gs_lr (v_gic v)) 0)) (rw_bits (ich_lr_el2 k)))) m.
Proof.
  intros id Hv Hst Hid Hvm Hw Hlr Hl. unfold enter_vcpu. rewrite wp_bind. apply wp_cpuid. fold id.
  eapply wp_bind_Ok; [apply get_vcpu_ok, Hv|]. rewrite bool_decide_true by done. simpl negb. cbn iota.
  rewrite wp_bind, wp_ret. unfold switch_to_vcpu. rewrite wp_bind. apply wp_write_sysreg. rewrite wp_bind. apply wp_cpuid.
  cbn [m_hw set_hw]. set (h1 := hw_msr tpidr_el2 _ _).
  assert (Hc1 : cpu_of h1 = id) by (unfold cpu_of, h1; rewrite msr_frame; [done|by right|done]).
  rewrite Hc1. eapply wp_bind_Ok; [apply get_vcpu_ok, Hv|]. rewrite Hid, Z.eqb_refl. simpl negb. cbn iota.
  rewrite wp_bind, wp_ret. eapply wp_bind_Ok; [apply upd_vcpu_ok, Hv|]. rewrite Hvm. eapply wp_bind_Ok; [done|].
  eapply wp_bind_Ok; [apply get_vm_ok, Hw|]. rewrite wp_bind. apply wp_write_sysreg. cbn [m_hw set_hw set_vcpus].
  rewrite wp_bind. unfold tlb_flush, hw_do. rewrite wp_modify.
  pose proof (lookup_lt_Some _ _ _ Hv) as Hlt.
  assert (Hv2 : forall h, m_vcpus (set_hw h (set_vcpus (<[Z.to_nat id := set_v_state RUNNING v]> (m_vcpus m)) m)) !! Z.to_nat id =
    Some (set_v_state RUNNING v)) by (intros; cbn; by apply list_lookup_insert_eq).
  eapply wp_bind_Ok; [apply restore_sysreg_ok; by apply Hv2|]. eapply wp_bind_Ok; [apply get_vcpu_ok; by apply Hv2|].
  cbn [m_hw set_hw set_vcpus v_gic set_v_state v_sys]. set (h2 := msrs _ _).
  eapply wp_mono; [|apply (gic_restore_state_ok (set_hw h2 (set_vcpus (<[Z.to_nat id := set_v_state RUNNING v]> (m_vcpus m)) m)) (v_gic v)); done].
  cbn beta. intros _ m' (h & -> & Hlrs & _ & _ & Hother). exists h. cbn [m_hw set_hw] in Hother.
  assert (Hnd : NoDup (restore_writes (v_sys v)).*1) by (apply (bool_decide_unpack _); by vm_compute).
  split_and!; [done| | | |exact Hlrs].
  - rewrite Hother by done. unfold h2. rewrite msrs_other; [|unfold restore_writes, restored; intros x; rewrite !elem_of_cons, elem_of_reverse, !elem_of_cons, elem_of_nil; naive_solver|by left].
    rewrite tlbi_sysreg, msr_frame by (done || by left). unfold h1. rewrite msr_holds by done. by rewrite bool_decide_true.
  - rewrite Hother by done. unfold h2. rewrite msrs_other; [|unfold restore_writes, restored; intros x; rewrite !elem_of_cons, elem_of_reverse, !elem_of_cons, elem_of_nil; naive_solver|by left].
    rewrite tlbi_sysreg, msr_holds by done. by rewrite bool_decide_true.
  - intros r x Hr. pose proof (restored_holds _ _ _ Hr) as Hh.
    assert (Hin : (r, x) ∈ restore_writes (v_sys v)) by (unfold restore_writes; do 3 right; by apply elem_of_reverse).
    rewrite Hother.
    + by apply msrs_in.
    + intros k ->. unfold restored in Hr. rewrite !elem_of_cons, elem_of_nil in Hr. naive_solver.
    + intros ->. unfold restored in Hr. rewrite !elem_of_cons, elem_of_nil in Hr. naive_solver.
    + intros ->. unfold restored in Hr. rewrite !elem_of_cons, elem_of_nil in Hr. naive_solver.
Qed.

(** A core panics instead of entering a virtual cpu that is not READY, or that
    was created for another core. *)
Theorem enter_vcpu_rejects m v :
  m_vcpus m !! Z.to_nat (cpu_of (m_hw m)) = Some v ->
  v_state v <> READY \/ v_cpuid v <> cpu_of (m_hw m) ->
  exists m', enter_vcpu m = Panic m'.
Proof.
  intros Hv Hr. unfold enter_vcpu.
  assert (Hid : forall m, cpuid m = Ok (cpu_of (m_hw m)) m).
  { intros m'. pose proof (wp_cpuid (fun x s => x = cpu_of (m_hw m') /\ s = m') m' ltac:(done)) as W. apply wp_Ok in W as (a & s' & E & -> & ->). done. }
  erewrite bind_Ok by apply Hid. erewrite bind_Ok by (apply get_vcpu_ok, Hv).
  case_bool_decide as Hs; simpl negb; cbn iota; [|by eexists].
  destruct Hr as [?|Hne]; [done|]. erewrite bind_Ok by done. unfold switch_to_vcpu.
  erewrite bind_Ok by done. erewrite bind_Ok by apply Hid. erewrite bind_Ok by (apply get_vcpu_ok, Hv).
  cbn [m_hw set_hw]. assert (cpu_of (hw_msr tpidr_el2 (u64 (vcpu_ptr (Z.to_nat (cpu_of (m_hw m))))) (m_hw m)) = cpu_of (m_hw m)) as ->.
  { unfold cpu_of. rewrite msr_frame; [done|by right|done]. }
  destruct (Z.eqb_spec (cpu_of (m_hw m)) (v_cpuid v)); [congruence|]. by eexists.
Qed.

(** Saving the EL1 registers, anything happening to the hardware, and restoring them
    gives the guest its registers back (their implemented bits); VMPIDR_EL2 however
    becomes the core's own MPIDR_EL1, which is what is read on saving. *)
Theorem sysreg_roundtrip m c v (h : H) :
  m_vcpus m !! c = Some v ->
  wp (save_sysreg c ;; hw_do (fun _ => h) ;; restore_sysreg c) (fun _ m' =>
    (forall r, r ∈ [spsr_el1; elr_el1; sp_el0; sp_el1; ttbr0_el1; ttbr1_el1; tcr_el1; vbar_el1; sctlr_el1] ->
       sysreg_of (m_hw m') r = Z.land (sysreg_of (m_hw m) r) (rw_bits r)) /\
    sysreg_of (m_hw m') vmpidr_el2 = Z.land (sysreg_of (m_hw m) mpidr_el1) (rw_bits vmpidr_el2)) m.
Proof.
  intros Hv. pose proof (lookup_lt_Some _ _ _ Hv). rewrite wp_bind. unfold save_sysreg.
  rewrite wp_bind. apply wp_read_sysreg; [done|]. rewrite wp_bind. apply wp_read_sysreg; [done|].
  rewrite wp_bind. apply wp_read_mpidr. rewrite wp_bind. apply wp_mrs_any. intros midr h1 _ S1.
  do 7 (rewrite wp_bind; apply wp_read_sysreg; [done|]). cbn [m_hw set_hw]. rewrite !S1 by done.
  rewrite wp_bind. apply wp_mrs_any. intros ctl h2 _ _. rewrite wp_bind. apply wp_mrs_any. intros tval h3 _ _.
  rewrite !set_hw_hw. unfold wp at 1. erewrite upd_vcpu_ok by (cbn; exact Hv).
  rewrite wp_bind. unfold hw_do. rewrite wp_modify. unfold wp. erewrite restore_sysreg_ok by (cbn; by apply list_lookup_insert_eq).
  cbn [m_hw set_hw set_vcpus v_sys set_v_sys].
  set (s := mkSys _ _ _ _ _ _ _ _ _ _ _ _ _ _).
  assert (Hr : forall r x, (r, x) ∈ restored s -> sysreg_of (msrs (restore_writes s) h) r = Z.land (u64 x) (rw_bits r)).
  { intros r x Hin. apply msrs_in; [apply (bool_decide_unpack _); by vm_compute| |by eapply restored_holds].
    unfold restore_writes. do 3 right. by apply elem_of_reverse. }
  split.
  - intros r Hin. rewrite (Hr r (sysreg_of (m_hw m) r)), u64_small; [done|apply sysreg_range|].
    rewrite !elem_of_cons, elem_of_nil in Hin. unfold restored, s. simpl. rewrite !elem_of_cons. naive_solver.
  - rewrite (Hr vmpidr_el2 (sysreg_of (m_hw m) mpidr_el1)), u64_small; [done|apply sysreg_range|].
    unfold restored, s. simpl. set_solver.
Qed.

End Enter.

(** [hcr_setup] writes 0xffffffff80086013 to HCR_EL2: the bits it names (VM, SWIO,
    IMO, TWI, TWE, TSC, RW), and, because [HCR_RW] is the negative [int] [1 << 31],
    also every bit from 32 to 63. *)
Theorem hcr_setup_value {H} `{!Hardware H} (m : machine H) :
  hcr_setup m = Ok tt (set_hw (hw_msr hcr_el2 0xffffffff80086013 (m_hw m)) m).
Proof. reflexivity. Qed.

(** A machine whose virtual cpu 0 is ready. *)
Definition ready_vcpu : vcpu := set_v_state READY (set_v_vm (Some 0%nat) vcpu0).
Definition ready_machine : machine sim :=
  set_vcpus (<[0%nat := ready_vcpu]> (replicate 4 vcpu0)) (set_lr_max 4 sim_machine).

Lemma enter_vcpu_spec_witness :
  wp enter_vcpu (fun _ m' => sysreg_of (m_hw m') tpidr_el2 = 0x40010000) ready_machine.
Proof.
  eapply wp_mono; [|apply (enter_vcpu_spec ready_machine ready_vcpu 0 vm0)].
  - intros _ m' (h & -> & Ht & _). cbn [m_hw set_hw]. rewrite Ht. reflexivity.
  - reflexivity.
  - reflexivity.
  - reflexivity.
  - reflexivity.
  - reflexivity.
  - simpl. lia.
  - reflexivity.
Defined.

Lemma enter_vcpu_rejects_witness : exists m', enter_vcpu sim_machine = Panic m'.
Proof. apply (enter_vcpu_rejects sim_machine vcpu0); [reflexivity|left; discriminate]. Defined.

Lemma sysreg_roundtrip_witness :
  wp (save_sysreg 0 ;; hw_do (fun _ => sim0) ;; restore_sysreg 0)
    (fun _ m' => sysreg_of (m_hw m') ttbr0_el1 = 0x1234000)
    (set_hw (mkSim (fun r => if bool_decide (r = ttbr0_el1) then 0x1234000 else 0) ∅) ready_machine).
Proof.
  eapply wp_mono; [|apply (sysreg_roundtrip _ 0 ready_vcpu sim0)].
  - cbn beta. intros _ m' [Hr _]. rewrite Hr by set_solver. reflexivity.
  - reflexivity.
Defined.
