(* ===== verification/Psci.v ===== *)
(** Power control calls of the guest (src/src/psci.c, src/include/psci.h). *)
From stdpp Require Import base gmap list numbers tactics.
From S2P Require Import Prelude Spinlock PageAlloc Mem Mmu Machine Gic Hw GicProofs Mmio Vgic Vcpu.

Definition PSCI_VERSION : Z := 0x84000000.
Definition PSCI_CPU_SUSPEND_SMC32 : Z := 0x84000001.
Definition PSCI_CPU_SUSPEND_SMC64 : Z := 0xc4000001.
Definition PSCI_CPU_OFF : Z := 0x84000002.
Definition PSCI_CPU_ON_SMC32 : Z := 0x84000003.
Definition PSCI_CPU_ON_SMC64 : Z := 0xc4000003.
Definition PSCI_AFFINITY_INFO_SMC32 : Z := 0x84000004.
Definition PSCI_AFFINITY_INFO_SMC64 : Z := 0xc4000004.
Definition PSCI_FEATURES : Z := 0x8400000A.
Definition PSCI_CPU_ON : Z := PSCI_CPU_ON_SMC64.
Definition PSCI_VERSION_0_2 : Z := 2.
Definition PSCI_E_SUCCESS : Z := 0.
Definition PSCI_E_NOT_SUPPORTED : Z := -1.

Definition SMC_FID_MASK : Z := 0xff000000.
Definition is_smc32_stdsrvc_fid (fid : Z) : bool := Z.land fid SMC_FID_MASK =? 0x84000000.
Definition is_smc64_stdsrvc_fid (fid : Z) : bool := Z.land fid SMC_FID_MASK =? 0xc4000000.
Definition is_smc_stdsrvc_fid (fid : Z) : bool := is_smc64_stdsrvc_fid fid || is_smc32_stdsrvc_fid fid.
Definition PSCI_FID_MASK : Z := 0xffe0.
Definition is_psci_fid (fid : Z) : bool := is_smc_stdsrvc_fid fid && (Z.land fid PSCI_FID_MASK =? 0).

Definition psci_features_handler (smc_fid : Z) : Z :=
  if (smc_fid =? PSCI_VERSION) || (smc_fid =? PSCI_CPU_OFF) || (smc_fid =? PSCI_CPU_SUSPEND_SMC32)
    || (smc_fid =? PSCI_CPU_SUSPEND_SMC64) || (smc_fid =? PSCI_CPU_ON_SMC32) || (smc_fid =? PSCI_CPU_ON_SMC64)
    || (smc_fid =? PSCI_AFFINITY_INFO_SMC32) || (smc_fid =? PSCI_AFFINITY_INFO_SMC64)
    || (smc_fid =? PSCI_FEATURES)
  then PSCI_E_SUCCESS else PSCI_E_NOT_SUPPORTED.

Section Psci.
Context {H : Type} `{!Hardware H} `{!Image}.

(** [psci_call] of boot.S: [smc #0] with its arguments in place. *)
Definition psci_call (func cpuid entry ctxid : Z) : M (machine H) Z :=
  let! r := hw_read (hw_smc (u32 func) (u64 cpuid) (u64 entry) (u64 ctxid)) in ret (u64 r).

(** The result is a [long]. *)
Definition psci_cpu_on (vcpu : nat) (x1 x2 x3 : Z) : M (machine H) Z :=
  let target_cpu := x1 in
  let entry_addr := x2 in
  let! vm := vcpu_vm vcpu in
  let! w := get_vm vm in
  let! target := deref (vm_vcpus w !! Z.to_nat target_cpu) in
  let! t := deref target in
  upd_vcpu t (set_v_elr_el2 entry_addr) ;;
  vcpu_ready target ;;
  let! r := psci_call PSCI_CPU_ON target_cpu start_addr 0 in
  ret (i64 r).

Definition psci_handler (vcpu : nat) (smc_fid x1 x2 x3 : Z) : M (machine H) Z :=
  if smc_fid =? PSCI_VERSION then ret PSCI_VERSION_0_2
  else if smc_fid =? PSCI_CPU_ON_SMC64 then psci_cpu_on vcpu x1 x2 x3
  else if smc_fid =? PSCI_FEATURES then ret (psci_features_handler (u32 x1))
  else panic.

End Psci.
