(* ===== verification/Uart.v ===== *)
(** The PL011 serial port (src/src/uart.c). *)
From stdpp Require Import base gmap list numbers tactics.
From S2P Require Import Prelude Spinlock PageAlloc Mem Mmu Machine Gic Hw.

Definition UARTBASE : Z := 0x09000000.
Definition DR : Z := 0x00.
Definition FR : Z := 0x18.
Definition FR_RXFE : Z := Z.shiftl 1 4.
Definition FR_TXFF : Z := Z.shiftl 1 5.
Definition LCRH : Z := 0x2c.
Definition LCRH_FEN : Z := Z.shiftl 1 4.
Definition LCRH_WLEN_8BIT : Z := Z.shiftl 3 5.
Definition CR : Z := 0x30.
Definition IMSC : Z := 0x38.
Definition INT_RX_ENABLE : Z := Z.shiftl 1 4.
Definition MIS : Z := 0x40.
Definition ICR : Z := 0x44.

Section Uart.
Context {H : Type} `{!Hardware H} `{!PollFuel}.

(** [*R(reg)] *)
Definition uart_r (reg : Z) : M (machine H) Z := let! v := hw_read (hw_r32 (UARTBASE + reg)) in ret (u32 v).
Definition uart_w (reg v : Z) : M (machine H) unit := hw_do (hw_w32 (UARTBASE + reg) (u32 v)).

Definition uart_putc (c : Z) : M (machine H) unit :=
  while_do poll_fuel (let! fr := uart_r FR in ret (negb (Z.land fr FR_TXFF =? 0))) (ret tt) ;;
  uart_w DR c.

(** The characters before the NUL of [s]. *)
Fixpoint uart_puts (s : list Z) : M (machine H) unit :=
  match s with
  | [] => ret tt
  | c :: s' => uart_putc c ;; uart_puts s'
  end.

(** An [int]: -1 or the data register. *)
Definition uart_getc : M (machine H) Z :=
  let! fr := uart_r FR in
  if negb (Z.land fr FR_RXFE =? 0) then ret (-1)
  else let! c := uart_r DR in ret (i32 c).

Fixpoint uart_drain (fuel : nat) : M (machine H) unit :=
  match fuel with
  | O => spin
  | S fuel' => let! c := uart_getc in if c <? 0 then ret tt else uart_drain fuel'
  end.

Definition uartintr : M (machine H) unit :=
  let! status := uart_r MIS in
  (if negb (Z.land status INT_RX_ENABLE =? 0) then uart_drain poll_fuel else ret tt) ;;
  uart_w ICR (Z.shiftl 1 4).

Definition clear_uart_interrupt : M (machine H) unit := uart_w ICR 0xFFFF.

Definition uart_get_interrupt_status : M (machine H) Z := uart_r MIS.

Definition uart_init : M (machine H) unit :=
  uart_w CR 0 ;;
  uart_w IMSC 0 ;;
  uart_w LCRH (Z.lor LCRH_FEN LCRH_WLEN_8BIT) ;;
  uart_w CR 0x301 ;;
  uart_w IMSC (Z.shiftl 1 4).

End Uart.
