(* ===== verification/Virtio.v ===== *)
(** The virtio block device (src/src/virtio_dev.c, src/include/virtio.h) and the
    ram disk behind it (src/src/ramdisk.c).

    The rings live in guest memory; the device reads and writes them at the
    physical address of their first page.  [ring[NUM]] has 8 entries in the header
    while the guest chooses the queue size: as in the compiled code, an index is an
    address computation only.  Division by a queue size of 0 is undefined: [fault]. *)
From stdpp Require Import base gmap list numbers tactics.
From S2P Require Import Prelude Spinlock PageAlloc Mem Mmu Machine Gic Hw GicProofs Mmio.

Definition VIRTIO_MMIO_MAGIC_VALUE : Z := 0x000.
Definition VIRTIO_MMIO_VERSION : Z := 0x004.
Definition VIRTIO_MMIO_DEVICE_ID : Z := 0x008.
Definition VIRTIO_MMIO_VENDOR_ID : Z := 0x00c.
Definition VIRTIO_MMIO_DEVICE_FEATURES : Z := 0x010.
Definition VIRTIO_MMIO_DRIVER_FEATURES : Z := 0x020.
Definition VIRTIO_MMIO_GUEST_PAGE_SIZE : Z := 0x028.
Definition VIRTIO_MMIO_QUEUE_SEL : Z := 0x030.
Definition VIRTIO_MMIO_QUEUE_NUM_MAX : Z := 0x034.
Definition VIRTIO_MMIO_QUEUE_NUM : Z := 0x038.
Definition VIRTIO_MMIO_QUEUE_ALIGN : Z := 0x03c.
Definition VIRTIO_MMIO_QUEUE_PFN : Z := 0x040.
Definition VIRTIO_MMIO_QUEUE_READY : Z := 0x044.
Definition VIRTIO_MMIO_QUEUE_NOTIFY : Z := 0x050.
Definition VIRTIO_MMIO_INTERRUPT_STATUS : Z := 0x060.
Definition VIRTIO_MMIO_INTERRUPT_ACK : Z := 0x064.
Definition VIRTIO_MMIO_STATUS : Z := 0x070.
Definition VIRTIO0 : Z := 0x0a000000.
Definition VIRTIO0_SIZE : Z := 0x10000.
Definition VIRTIO0_IRQ : Z := 48.
Definition VRING_DESC_F_NEXT : Z := 1.
Definition VIRTIO_BLK_T_OUT : Z := 1.
Definition FSIMG_SIZE : Z := 1000.
Definition BLOCK_SIZE : Z := 1024.
Definition DESC_SIZE : Z := 16.

(** [struct virtq_desc] *)
Record virtq_desc := mkDesc { d_addr : Z; d_len : Z; d_flags : Z; d_next : Z }.

Definition vq_set_lock (l : spinlock_t) (q : virt_queue) : virt_queue :=
  mkVq l (vring_num q) (vring_ipa q) (vring_pa q) (avail_idx q) (vq_desc q) (vq_avail q) (vq_used q).
Definition vq_set_num (n : Z) (q : virt_queue) : virt_queue :=
  mkVq (virtq_lock q) n (vring_ipa q) (vring_pa q) (avail_idx q) (vq_desc q) (vq_avail q) (vq_used q).
Definition vq_set_ipa (a : Z) (q : virt_queue) : virt_queue :=
  mkVq (virtq_lock q) (vring_num q) a (vring_pa q) (avail_idx q) (vq_desc q) (vq_avail q) (vq_used q).
Definition vq_set_pa (a : Z) (q : virt_queue) : virt_queue :=
  mkVq (virtq_lock q) (vring_num q) (vring_ipa q) a (avail_idx q) (vq_desc q) (vq_avail q) (vq_used q).
Definition vq_set_avail_idx (i : Z) (q : virt_queue) : virt_queue :=
  mkVq (virtq_lock q) (vring_num q) (vring_ipa q) (vring_pa q) i (vq_desc q) (vq_avail q) (vq_used q).
Definition vq_set_desc (a : Z) (q : virt_queue) : virt_queue :=
  mkVq (virtq_lock q) (vring_num q) (vring_ipa q) (vring_pa q) (avail_idx q) a (vq_avail q) (vq_used q).
Definition vq_set_avail (a : Z) (q : virt_queue) : virt_queue :=
  mkVq (virtq_lock q) (vring_num q) (vring_ipa q) (vring_pa q) (avail_idx q) (vq_desc q) a (vq_used q).
Definition vq_set_used (a : Z) (q : virt_queue) : virt_queue :=
  mkVq (virtq_lock q) (vring_num q) (vring_ipa q) (vring_pa q) (avail_idx q) (vq_desc q) (vq_avail q) a.

(** [x % n], undefined for 0. *)
Definition umod {S} (x n : Z) : M S Z := if n =? 0 then fault else ret (x mod n).

(** More requests than a 16-bit ring index can distinguish. *)
Definition VQ_FUEL : nat := Z.to_nat 65537.

(** ** The ram disk *)

Section Virtio.
Context {H : Type} `{!Hardware H} `{!Image}.

Definition ram_load (n : nat) (a : Z) : M (machine H) Z := on_phys (on_mem (load n a)).
Definition ram_store (n : nat) (a v : Z) : M (machine H) unit := on_phys (on_mem (store n a v)).

Definition ramdisk_init : M (machine H) unit :=
  modify (set_ramdisk_start guest_xv6_fs_img_start) ;;
  modify (set_ramdisk_size guest_xv6_fs_img_size).

Definition ramdisk_rw (blk_num buf_addr is_write : Z) : M (machine H) Z :=
  if FSIMG_SIZE <=? blk_num then ret (-1)
  else
    let! ramdisk_start := gets m_ramdisk_start in
    let disk_addr := u64 (ramdisk_start + u64 (blk_num * BLOCK_SIZE)) in
    (if negb (is_write =? 0)
     then on_phys (on_mem (Lib.memmove disk_addr buf_addr BLOCK_SIZE))
     else on_phys (on_mem (Lib.memmove buf_addr disk_addr BLOCK_SIZE))) ;;
    ret 0.

(** ** The queue *)

Definition upd_vq (f : virt_queue -> virt_queue) : M (machine H) unit := modify (fun m => set_vq (f (m_vq m)) m).

Definition virtio_guest_to_host (ipa : Z) : M (machine H) Z :=
  let! p := cur_vcpu in
  let! vcpu := deref p in
  let! vm := vcpu_vm vcpu in
  let! w := get_vm vm in
  on_phys (ipa2pa (vm_stage2_pt w) ipa).

Definition vq_ring_init (ipa : Z) : M (machine H) unit :=
  upd_vq (vq_set_lock (mkSpinlock 0 0)) ;;
  upd_vq (vq_set_ipa ipa) ;;
  let! pa := virtio_guest_to_host ipa in
  upd_vq (vq_set_pa pa) ;;
  upd_vq (fun q => vq_set_avail (u64 (vring_pa q + u64 (vring_num q * DESC_SIZE))) q) ;;
  upd_vq (fun q => vq_set_desc (vring_pa q) q) ;;
  upd_vq (fun q => vq_set_used (u64 (vring_pa q + PAGE_SIZE)) q).

Definition virtio_signal_vq : M (machine H) unit := gic_set_pending_irq VIRTIO0_IRQ.

(** [used->idx] is at offset 2, [used->ring[i]] at [4 + 8 * i]. *)
Definition used_idx : M (machine H) Z := let! q := gets m_vq in ram_load 2 (vq_used q + 2).
Definition used_slot : M (machine H) Z :=
  let! i := used_idx in
  let! q := gets m_vq in
  let! j := umod i (vring_num q) in
  ret (vq_used q + 4 + 8 * j).

Definition vqueue_set_used_elem (desc_idx len : Z) : M (machine H) unit :=
  let! a := used_slot in
  ram_store 4 a desc_idx ;;
  let! a := used_slot in
  ram_store 4 (a + 4) len ;;
  let! q := gets m_vq in
  let! i := used_idx in
  ram_store 2 (vq_used q + 2) (u16 (i + 1)).

(** [avail->idx] is at offset 2, [avail->ring[i]] at [4 + 2 * i]. *)
Definition virtq_available : M (machine H) bool :=
  let! q := gets m_vq in
  let! idx := ram_load 2 (vq_avail q + 2) in
  ret (negb (avail_idx q =? idx)).

Definition load_desc (desc i : Z) : M (machine H) virtq_desc :=
  let a := desc + DESC_SIZE * i in
  let! addr := ram_load 8 a in
  let! len := ram_load 4 (a + 8) in
  let! flags := ram_load 2 (a + 12) in
  let! next := ram_load 2 (a + 14) in
  ret (mkDesc addr len flags next).

Definition virt_desc_test_flag (desc i flags : Z) : M (machine H) bool :=
  let! f := ram_load 2 (desc + DESC_SIZE * i + 12) in ret (negb (Z.land f flags =? 0)).

Definition next_desc (desc i max : Z) : M (machine H) Z :=
  let! more := virt_desc_test_flag desc i VRING_DESC_F_NEXT in
  if negb more then ret max
  else
    let! next := ram_load 2 (desc + DESC_SIZE * i + 14) in
    ret (if next <? max then next else max).

(** The loop of [virtio_blk_process_desc]: the copies made so far are [ds]; the
    local array has [g_vq.vring_num] elements. *)
Fixpoint collect_descs (fuel : nat) (idx max : Z) (ds : list virtq_desc) : M (machine H) (list virtq_desc) :=
  match fuel with
  | O => spin
  | S fuel' =>
      let! q := gets m_vq in
      let! d := load_desc (vq_desc q) idx in
      if vring_num q <=? Z.of_nat (length ds) then fault
      else
        let ds := ds ++ [d] in
        let! idx := next_desc (vq_desc q) idx max in
        if negb (idx =? max) then collect_descs fuel' idx max ds else ret ds
  end.

(** The local array of [g_vq.vring_num] descriptors is on the core's stack of one
    page; from 2^16 elements on, not even its index is 16 bits wide: [fault]. *)
Definition virtio_blk_process_desc (desc_idx : Z) : M (machine H) Z :=
  let! q := gets m_vq in
  (if 2 ^ 16 <=? vring_num q then fault else ret tt) ;;
  let idx := desc_idx in
  let max := u16 (vring_num q) in
  let! desc := collect_descs (S (Z.to_nat (vring_num q))) idx max [] in
  let desc_len := u16 (Z.of_nat (length desc)) in
  match desc with
  | [d_req; d_buf; d_status] =>
      let! virt_blk_req := virtio_guest_to_host (d_addr d_req) in
      let! sector := ram_load 8 (virt_blk_req + 8) in
      let blk_num := sector / (BLOCK_SIZE / 512) in
      let! type := ram_load 4 virt_blk_req in
      let is_write := if type =? VIRTIO_BLK_T_OUT then 1 else 0 in
      let! buf_addr := virtio_guest_to_host (d_addr d_buf) in
      let! r := ramdisk_rw blk_num buf_addr is_write in
      let! status_pa := virtio_guest_to_host (d_addr d_status) in
      (if r =? 0 then ram_store 1 status_pa 0 else ram_store 1 status_pa 0xee) ;;
      ret desc_len
  | _ => ret desc_len
  end.

Definition virtio_blk_req_handler : M (machine H) unit :=
  on_lock (fun m => virtq_lock (m_vq m)) (fun l m => set_vq (vq_set_lock l (m_vq m)) m) Seq.spin_lock ;;
  while_do VQ_FUEL virtq_available (
    let! q := gets m_vq in
    let! i := umod (avail_idx q) (vring_num q) in
    let! desc_idx := ram_load 2 (vq_avail q + 4 + 2 * i) in
    let! desc_len := virtio_blk_process_desc desc_idx in
    vqueue_set_used_elem desc_idx desc_len ;;
    upd_vq (fun q => vq_set_avail_idx (u16 (avail_idx q + 1)) q)) ;;
  on_lock (fun m => virtq_lock (m_vq m)) (fun l m => set_vq (vq_set_lock l (m_vq m)) m) Seq.spin_unlock ;;
  virtio_signal_vq.

(** ** Registers *)

Definition virtio_mmio_read (vcpu : nat) (offset : Z) (val : regptr) (mmio : mmio_access) : M (machine H) Z :=
  (if offset =? VIRTIO_MMIO_MAGIC_VALUE then store_reg val 0x74726976
   else if offset =? VIRTIO_MMIO_VERSION then store_reg val 1
   else if offset =? VIRTIO_MMIO_DEVICE_ID then store_reg val 2
   else if offset =? VIRTIO_MMIO_VENDOR_ID then store_reg val 0x554d4551
   else if offset =? VIRTIO_MMIO_DEVICE_FEATURES then store_reg val 0
   else if offset =? VIRTIO_MMIO_QUEUE_NUM_MAX then store_reg val 64
   else if offset =? VIRTIO_MMIO_QUEUE_PFN then ret tt
   else if offset =? VIRTIO_MMIO_QUEUE_READY then ret tt
   else if offset =? VIRTIO_MMIO_INTERRUPT_STATUS then ret tt
   else if offset =? VIRTIO_MMIO_STATUS then ret tt
   else panic) ;;
  ret 0.

Definition virtio_mmio_write (vcpu : nat) (offset val : Z) (mmio : mmio_access) : M (machine H) Z :=
  (if offset =? VIRTIO_MMIO_DRIVER_FEATURES then ret tt
   else if offset =? VIRTIO_MMIO_GUEST_PAGE_SIZE then
     (if negb (val =? PAGE_SIZE) then panic else ret tt) ;;
     modify (set_guest_pagesz val)
   else if offset =? VIRTIO_MMIO_QUEUE_SEL then modify (set_queue_sel val)
   else if offset =? VIRTIO_MMIO_QUEUE_NUM then upd_vq (vq_set_num val)
   else if offset =? VIRTIO_MMIO_QUEUE_ALIGN then ret tt
   else if offset =? VIRTIO_MMIO_QUEUE_PFN then vq_ring_init (u64 (Z.shiftl val 12))
   else if offset =? VIRTIO_MMIO_QUEUE_READY then ret tt
   else if offset =? VIRTIO_MMIO_QUEUE_NOTIFY then virtio_blk_req_handler
   else if offset =? VIRTIO_MMIO_INTERRUPT_ACK then ret tt
   else if offset =? VIRTIO_MMIO_STATUS then ret tt
   else panic) ;;
  ret 0.

Definition virtio_mmio_init (vm : nat) : M (machine H) unit :=
  s2_pt_trap vm VIRTIO0 VIRTIO0_SIZE (Some virtio_read_fn) (Some virtio_write_fn).

End Virtio.
