(* ===== verification/Trap.v ===== *)
(** Exceptions (src/src/trap.c): the handlers of synchronous exceptions and
    interrupts, of the guest and of the hypervisor itself; the register dump of
    src/src/sysreg.c.  [handlers] ties the function pointers of the trapped device
    regions to the code of the virtual devices. *)
From stdpp Require Import base gmap list numbers tactics.
From S2P Require Import Prelude Spinlock PageAlloc Mem Mmu Machine Gic Hw GicProofs Timer Mmio Vgic Vcpu Psci Uart Virtio.

Definition WFI_POLL_TIMEOUT_NS : Z := 10000.
Definition UART_IRQ : Z := 33.

Definition ESR_EC_OFFSET : Z := 26.
Definition ESR_EC_MASK : Z := u64 (i32 (Z.shiftl 0x3f 26)).
Definition ESR_ISS_OFFSET : Z := 0.
Definition ESR_ISS_MASK : Z := Z.shiftl 0x1ffffff 0.
Definition DA_ISS_SAS_MASK : Z := Z.shiftl 0x3 22.
Definition DA_ISS_SAS_OFFSET : Z := 22.
Definition DA_ISS_SRT_MASK : Z := Z.shiftl 0x1f 16.
Definition DA_ISS_SRT_OFFSET : Z := 16.
Definition DA_ISS_FnV_MASK : Z := Z.shiftl 1 10.
Definition DA_ISS_FnV_OFFSET : Z := 10.
Definition DA_ISS_WnR_MASK : Z := Z.shiftl 1 6.
Definition DA_ISS_WnR_OFFSET : Z := 6.
Definition HPFAR_FIPA_MASK : Z := 0xffffffffff0.

Definition ESR_EC_WFx : Z := 0x1.
Definition ESR_EC_HVC64 : Z := 0x16.
Definition ESR_EC_SMC64 : Z := 0x17.
Definition ESR_EC_SYSRG : Z := 0x18.
Definition ESR_EC_IALEL : Z := 0x20.
Definition ESR_EC_PCALG : Z := 0x22.
Definition ESR_EC_DALEL : Z := 0x24.
Definition ESR_EC_DAEL2 : Z := 0x25.
Definition ESR_EC_SPALG : Z := 0x26.

Definition SMCC64_FID_STD_SRVC : Z := Z.lor 0x84000000 0x40000000.
Definition SMCC_FID_FN_NUM_MSK : Z := 0xFFFF.

Section Trap.
Context {H : Type} `{!Hardware H} `{!PollFuel} `{!Image}.

(** What the function pointers in [g_mmio_info] stand for. *)
#[export] Instance handlers : MmioHandlers H := {|
  call_read f := match f with
    | vgicd_read_fn => vgicd_mmio_read | vgicr_read_fn => vgicr_mmio_read | virtio_read_fn => virtio_mmio_read
    end;
  call_write f := match f with
    | vgicd_write_fn => vgicd_mmio_write | vgicr_write_fn => vgicr_mmio_write | virtio_write_fn => virtio_mmio_write
    end
|}.

(** [vm_reg_dump] reads system registers and the current vcpu, and prints. *)
Definition vm_reg_dump : M (machine H) unit :=
  let! p := cur_vcpu in
  read_sysreg sp_el0 ;; read_sysreg sp_el1 ;; read_sysreg elr_el1 ;; read_sysreg par_el1 ;;
  read_sysreg sctlr_el1 ;; read_sysreg far_el1 ;; read_sysreg far_el2 ;; read_sysreg esr_el1 ;;
  read_sysreg esr_el2 ;; read_sysreg hpfar_el2 ;;
  let! c := deref p in
  let! vm := vcpu_vm c in
  get_vm vm ;;
  ret tt.

(** ** Exceptions of the hypervisor *)

(** It never returns. *)
Definition el2_sync_handler : M (machine H) unit :=
  read_sysreg far_el2 ;; read_sysreg elr_el2 ;; read_sysreg esr_el2 ;; read_sysreg spsr_el2 ;; spin.

Definition el2_irq_handler : M (machine H) unit :=
  read_sysreg far_el2 ;; read_sysreg elr_el2 ;; read_sysreg esr_el2 ;; read_sysreg spsr_el2 ;;
  let! irq := read_sysreg icc_iar1_el1 in
  (if irq =? UART_IRQ then
     uart_get_interrupt_status ;; clear_uart_interrupt ;; uart_get_interrupt_status ;; ret tt
   else if irq =? PHYSICAL_TIMER_IRQ then
     disable_timer ;; reload_timer ;; enable_timer
   else ret tt) ;;
  write_sysreg icc_eoir1_el1 irq.

(** ** Synchronous exceptions of the guest *)

Definition advance_pc (vcpu : nat) : M (machine H) unit :=
  upd_vcpu vcpu (fun v => set_v_elr_el2 (u64 (v_elr_el2 v + 4)) v).

(** The local variables are [u32]; a field of the 25-bit syndrome fits. *)
Definition data_abort_handler (vcpu : nat) (esr : Z) : M (machine H) Z :=
  let iss := Z.shiftr (Z.land esr ESR_ISS_MASK) ESR_ISS_OFFSET in
  let! far := read_sysreg far_el2 in
  let! hpfar := read_sysreg hpfar_el2 in
  let! elr := read_sysreg elr_el2 in
  let iss_srt := Z.shiftr (Z.land iss DA_ISS_SRT_MASK) DA_ISS_SRT_OFFSET in
  let iss_fnv := Z.shiftr (Z.land iss DA_ISS_FnV_MASK) DA_ISS_FnV_OFFSET in
  let iss_sas := Z.shiftr (Z.land iss DA_ISS_SAS_MASK) DA_ISS_SAS_OFFSET in
  let iss_wnr := Z.shiftr (Z.land iss DA_ISS_WnR_MASK) DA_ISS_WnR_OFFSET in
  if negb (iss_fnv =? 0) then ret (-1)
  else
    let ipa := Z.lor (u64 (Z.shiftl (Z.land hpfar HPFAR_FIPA_MASK) 8)) (Z.land far (PAGE_SIZE - 1)) in
    let! r := mmio_emulate vcpu iss_srt (mkAccess ipa elr iss_sas iss_wnr) in
    if r <? 0 then ret (-1)
    else advance_pc vcpu ;; ret 0.

(** Whether a list register is pending is asked at most once more than the clock
    can be read before it passes [end_time]: the fuel. *)
Fixpoint wfx_poll (fuel : nat) (end_time : Z) : M (machine H) unit :=
  match fuel with
  | O => spin
  | S fuel' =>
      let! p := gic_has_pending_lr in
      if p then ret tt
      else
        let! t := get_syscount in
        let! cur_time := count_to_time_ns t in
        if cur_time <? end_time then wfx_poll fuel' end_time else ret tt
  end.

Definition wfx_emulate_handler (vcpu : nat) (esr : Z) : M (machine H) Z :=
  let! t := get_syscount in
  let! ns := count_to_time_ns t in
  let end_time := u64 (ns + WFI_POLL_TIMEOUT_NS) in
  wfx_poll poll_fuel end_time ;;
  advance_pc vcpu ;;
  ret 0.

Definition get_x (v : vcpu) (i : nat) : M (machine H) Z := deref (v_x v !! i).

Definition standard_service_call (vcpu : nat) : M (machine H) Z :=
  let! v := get_vcpu vcpu in
  let! smc_fid := get_x v 0 in
  let! x1 := get_x v 1 in
  let! x2 := get_x v 2 in
  let! x3 := get_x v 3 in
  if is_psci_fid smc_fid then psci_handler vcpu (u32 smc_fid) x1 x2 x3 else panic.

(** Returns the [long] result as an [int]. *)
Definition syscall_handler (vcpu : nat) : M (machine H) Z :=
  let! v := get_vcpu vcpu in
  let! fid := get_x v 0 in
  let! r := (if Z.land fid (notw 32 SMCC_FID_FN_NUM_MSK) =? SMCC64_FID_STD_SRVC
             then standard_service_call vcpu else panic) in
  store_reg (Some (vcpu, 0%nat)) (u64 r) ;;
  ret (i32 r).

Definition hvc_handler (vcpu : nat) (esr : Z) : M (machine H) Z := syscall_handler vcpu.

Definition smc_handler (vcpu : nat) (esr : Z) : M (machine H) Z :=
  let! r := syscall_handler vcpu in
  advance_pc vcpu ;;
  ret r.

(** The handlers that [get_sync_trap_handler] returns a pointer to. *)
Inductive sync_trap_handler_t := wfx_fn | hvc_fn | data_abort_fn.

Definition get_sync_trap_handler (esr : Z) : option sync_trap_handler_t :=
  let ec := Z.shiftr (Z.land esr ESR_EC_MASK) ESR_EC_OFFSET in
  if ec =? ESR_EC_WFx then Some wfx_fn
  else if ec =? ESR_EC_HVC64 then Some hvc_fn
  else if ec =? ESR_EC_SMC64 then None
  else if ec =? ESR_EC_SYSRG then None
  else if ec =? ESR_EC_IALEL then None
  else if ec =? ESR_EC_PCALG then None
  else if ec =? ESR_EC_DALEL then Some data_abort_fn
  else if ec =? ESR_EC_DAEL2 then None
  else if ec =? ESR_EC_SPALG then None
  else None.

Definition call_sync (h : sync_trap_handler_t) : nat -> Z -> M (machine H) Z :=
  match h with wfx_fn => wfx_emulate_handler | hvc_fn => hvc_handler | data_abort_fn => data_abort_handler end.

Definition lower_el_sync_handler : M (machine H) unit :=
  let! p := cur_vcpu in
  let! esr := read_sysreg esr_el2 in
  match get_sync_trap_handler esr with
  | Some h =>
      let! vcpu := deref p in
      let! r := call_sync h vcpu esr in
      if negb (r =? 0) then vm_reg_dump ;; panic else ret tt
  | None => vm_reg_dump ;; panic
  end.

(** ** Interrupts while the guest runs *)

Definition lower_el_irq_handler : M (machine H) unit :=
  let! p := cur_vcpu in
  read_sysreg mpidr_el1 ;;
  gicr_r32 0 GICR_ICPENDR0 ;;
  gicd_r (GICD_ICPENDR (UART_IRQ / 32)) ;;
  let! vcpu := deref p in
  vgic_used_lr_update vcpu ;;
  let! iar := gic_read_iar in
  let pirq := Z.land iar 0xffffff in
  let virq := pirq in
  gic_guest_eoi pirq 1 ;;
  vgic_inject_virq vcpu pirq virq 1 ;;
  ret tt.

End Trap.
