(* ===== verification/Vm.v ===== *)
(** Virtual machines (src/src/vm.c, src/src/guest.c): allocation, and building the
    guest's address space, devices and virtual cpus from a configuration. *)
From stdpp Require Import base gmap list numbers tactics.
From S2P Require Import Prelude Spinlock PageAlloc Mem Mmu Machine Gic Hw GicProofs Mmio Vgic Vcpu Uart Virtio.

Section Vm.
Context {H : Type} `{!Hardware H} `{!PollFuel} `{!Image}.

Fixpoint allocvm_from (n i : nat) : M (machine H) (option nat) :=
  match n with
  | O => ret None
  | S n' =>
      let! v := get_vm i in
      if vm_used v =? 0 then upd_vm i (set_vm_used 1) ;; ret (Some i) else allocvm_from n' (S i)
  end.

Definition allocvm : M (machine H) (option nat) := allocvm_from (Z.to_nat VM_MAX) 0.

(** [strcpy(vm->name, name)]: 64 characters, the NUL included. *)
Definition copy_name (vm : nat) (name : list Z) : M (machine H) unit :=
  let! v := get_vm vm in
  let s := name ++ [0] in
  if (length s <=? length (vm_name v))%nat
  then upd_vm vm (set_vm_name (s ++ drop (length s) (vm_name v)))
  else fault.

Definition set_vm_vcpu (vm : nat) (i : Z) (c : option nat) : M (machine H) unit :=
  let! v := get_vm vm in
  let! _ := deref (vm_vcpus v !! Z.to_nat i) in
  upd_vm vm (set_vm_vcpus (<[Z.to_nat i := c]> (vm_vcpus v))).

(** [alloc_page] and the test of its result against NULL. *)
Definition alloc_page_or_panic : M (machine H) Z :=
  let! page := on_phys (on_pa alloc_page) in
  if page =? 0 then panic else ret page.

Definition map_guest_page (vm : nat) (ipa pa : Z) : M (machine H) unit :=
  let! v := get_vm vm in
  on_phys (pagemap (vm_stage2_pt v) ipa pa PAGE_SIZE (Z.lor S2PTE_NORMAL S2PTE_RW)).

(** The three loops [for (; p < bound; p += PAGE_SIZE)]; the result is [p]. *)
Fixpoint page_loop (fuel : nat) (p bound : Z) (body : Z -> M (machine H) unit) : M (machine H) Z :=
  match fuel with
  | O => spin
  | S fuel' =>
      if p <? bound then body p ;; page_loop fuel' (u64 (p + PAGE_SIZE)) bound body else ret p
  end.

Definition page_fuel (bound : Z) : nat := S (S (Z.to_nat (bound / PAGE_SIZE))).

Definition copy_file_page (vm : nat) (img : guest) (entry filesz p : Z) : M (machine H) unit :=
  let! page := alloc_page_or_panic in
  let size := if u64 (filesz - p) <? PAGE_SIZE then u64 (filesz - p) else PAGE_SIZE in
  on_phys (on_mem (Lib.memcpy page (u64 (g_start img + p)) size)) ;;
  map_guest_page vm (u64 (entry + p)) page.

Definition zero_page (vm : nat) (entry p : Z) : M (machine H) unit :=
  let! page := alloc_page_or_panic in
  on_phys (on_mem (Lib.memset page 0 PAGE_SIZE)) ;;
  map_guest_page vm (u64 (entry + p)) page.

Definition ram_page (vm : nat) (entry p : Z) : M (machine H) unit :=
  let! page := alloc_page_or_panic in
  map_guest_page vm (u64 (entry + p)) page.

(** The part of [create_vm] that builds the guest's memory; the result is the
    final value of [p]. *)
Definition load_guest (vm : nat) (cfg : vmconfig) (img : guest) : M (machine H) Z :=
  let guest_filesz := u64 (g_end img - g_start img) in
  let entry := cfg_entrypoint cfg in
  let! p := page_loop (page_fuel guest_filesz) 0 guest_filesz (copy_file_page vm img entry guest_filesz) in
  let! p := page_loop (page_fuel (g_size img)) p (g_size img) (zero_page vm entry) in
  page_loop (page_fuel (cfg_ram_size cfg)) p (cfg_ram_size cfg) (ram_page vm entry).

Definition create_vm (vmcfg : option vmconfig) : M (machine H) unit :=
  match vmcfg with
  | None => panic
  | Some cfg =>
  match guest_img cfg with
  | None => panic
  | Some img =>
  let! r := allocvm in
  match r with
  | None => panic
  | Some vm =>
      upd_vm vm (set_vm_nvcpu (cfg_nvcpu cfg)) ;;
      copy_name vm (g_name img) ;;
      let! c := new_vcpu vm 0 (cfg_entrypoint cfg) in
      set_vm_vcpu vm 0 c ;;
      for_range 1 (cfg_nvcpu cfg) (fun i => let! c := new_vcpu vm i 0 in set_vm_vcpu vm i c) ;;
      let! pt := on_phys (on_pa alloc_page) in
      upd_vm vm (set_vm_stage2_pt pt) ;;
      (if pt =? 0 then panic else ret tt) ;;
      load_guest vm cfg img ;;
      let! v := get_vm vm in
      on_phys (pagemap (vm_stage2_pt v) Uart.UARTBASE Uart.UARTBASE PAGE_SIZE (Z.lor S2PTE_DEVICE S2PTE_RW)) ;;
      virtio_mmio_init vm ;;
      let! g := new_vgic vm in
      upd_vm vm (set_vm_vgic g) ;;
      let! v := get_vm vm in
      let! c0 := deref (vm_vcpus v !! 0%nat) in
      vcpu_ready c0
  end end end.

(** [guest_xv6[GUEST_IMAGE]] and [xv6_vmcfg]. *)
Definition guest_xv6 : guest :=
  mkGuest [120; 118; 54] guest_xv6_start guest_xv6_size guest_xv6_end.
Definition xv6_vmcfg : vmconfig :=
  mkVmconfig (Some guest_xv6) 4 (128 * 1024 * 1024) 0x40000000.

End Vm.
