(* ===== verification/Boot.v ===== *)
(** Start of the hypervisor (src/src/init.c), the stacks of the cores with their
    canaries (src/src/sp_init.c), and the stack traces (src/src/calltrace.c). *)
From stdpp Require Import base gmap list numbers tactics.
From S2P Require Import Prelude Spinlock PageAlloc Mem Mmu Machine Gic Hw GicProofs Timer Mmio Vgic Vcpu Uart Virtio Vm.

Definition SP_MAGIC : Z := 0xDEADBEEFDEAD0000.
Definition PCPU_NUM : Z := 4.                  (* SMP_NUM of the build *)
Definition RAM_SIZE : Z := 0x10000000.
Definition RAM_PAGE_NUM : Z := RAM_SIZE / 4096.
Definition BITMAP_SIZE : Z := (RAM_PAGE_NUM + 64 - 1) / 64.
Definition SPSR_EL2_MODE_EL1 : Z := 4.
Definition SCTLR_EL1_M : Z := 1.

Section Boot.
Context {H : Type} `{!Hardware H} `{!PollFuel} `{!Image}.

(** ** Stacks *)

Definition set_sp_top_at (i v : Z) : M (machine H) unit :=
  let! m := get in
  let! _ := deref (m_sp_top m !! Z.to_nat i) in
  modify (set_sp_top (<[Z.to_nat i := v]> (m_sp_top m))).
Definition set_sp_bottom_at (i v : Z) : M (machine H) unit :=
  let! m := get in
  let! _ := deref (m_sp_bottom m !! Z.to_nat i) in
  modify (set_sp_bottom (<[Z.to_nat i := v]> (m_sp_bottom m))).
Definition sp_top_at (i : Z) : M (machine H) Z := let! m := get in deref (m_sp_top m !! Z.to_nat i).
Definition sp_bottom_at (i : Z) : M (machine H) Z := let! m := get in deref (m_sp_bottom m !! Z.to_nat i).

Definition primary_stack_init : M (machine H) unit :=
  set_sp_top_at 0 primary_stack_start ;;
  set_sp_bottom_at 0 primary_stack_end ;;
  let! top := sp_top_at 0 in
  ram_store 8 top (Z.lor SP_MAGIC 0).

Definition secondary_stacks_init : M (machine H) unit :=
  for_range 1 PCPU_NUM (fun cpuid =>
    let! p := alloc_page_or_panic in
    set_sp_top_at cpuid p ;;
    set_sp_bottom_at cpuid (u64 (p + PAGE_SIZE)) ;;
    let! top := sp_top_at cpuid in
    ram_store 8 top (Z.lor SP_MAGIC cpuid)).

Definition sp_canary_check : M (machine H) bool :=
  for_range 0 PCPU_NUM (fun cpuid =>
    let! top := sp_top_at cpuid in
    let! x := ram_load 8 top in
    if negb (x =? Z.lor SP_MAGIC cpuid) then panic else ret tt) ;;
  ret true.

(** ** Initialisation *)

(** [primary_cpuid_set] of boot.S. *)
Definition primary_cpuid_set : M (machine H) unit := write_sysreg tpidr_el2 0.

Definition enable_uart_irq_el2 : M (machine H) unit :=
  gic_set_target_by_affinity 33 0 ;;
  gic_irq_enable 33.

Definition is_pa_valid (pa : Z) : bool := (txt_start <=? pa) && (pa <? u64 (ram_start + RAM_SIZE)).

(** [g_bitmap] is in BSS: all zero. *)
Definition g_bitmap : list Z := replicate (Z.to_nat BITMAP_SIZE) 0.

(** Up to [eret_vm], which does not return. *)
Definition vmm_init_primary : M (machine H) unit :=
  primary_stack_init ;;
  uart_init ;;
  primary_cpuid_set ;;
  on_phys (on_pa (page_allocator_init (Some g_bitmap) RAM_PAGE_NUM ram_start)) ;;
  secondary_stacks_init ;;
  gicv3_init ;;
  vgic_init ;;
  vcpu_init ;;
  freq_init ;;
  enable_uart_irq_el2 ;;
  hcr_setup ;;
  stage2_mmu_init ;;
  ramdisk_init ;;
  create_vm (Some xv6_vmcfg) ;;
  enter_vcpu.

Definition vmm_init_secondary : M (machine H) unit :=
  let! _ := cpuid in
  uart_init ;;
  write_sysreg vbar_el2 hyp_vector_table ;;
  init_gicv3_percpu ;;
  hcr_setup ;;
  stage2_mmu_init ;;
  enter_vcpu.

(** ** Stack traces

    [do { ... } while (1)]: the frames visited are the result; a frame pointer that
    never leaves the stack makes the loop endless ([spin]). *)
Fixpoint unwind (fuel : nat) (fp top bottom : Z) : M (machine H) (list (Z * Z)) :=
  match fuel with
  | O => spin
  | S fuel' =>
      let! lr := ram_load 8 (u64 (fp + 8)) in
      let lr := u64 (lr - 4) in
      let! fp' := ram_load 8 fp in
      if (bottom <? fp') || (fp' <? top) then ret [(lr, fp)]
      else let! l := unwind fuel' fp' top bottom in ret ((lr, fp) :: l)
  end.

Definition dump_hyper_calltrace (fuel : nat) (fp lr : Z) : M (machine H) (list (Z * Z)) :=
  let! cpu_id := cpuid in
  let! stack_bottom := sp_bottom_at cpu_id in
  let! stack_top := sp_top_at cpu_id in
  if (stack_top =? 0) || (stack_bottom =? 0) then panic
  else unwind fuel fp stack_top stack_bottom.

(** The guest's frames; [va_to_pa] is the address translation instruction behind
    [vm_va_to_pa]. *)
Fixpoint unwind_vm (n : nat) (translate : Z -> M (machine H) Z) (fp : Z) : M (machine H) (list (Z * Z)) :=
  match n with
  | O => ret []
  | S n' =>
      let! pa := translate (u64 (fp + 8)) in
      if negb (is_pa_valid pa) then ret []
      else
        let! lr := ram_load 8 pa in
        let lr := u64 (lr - 4) in
        let! pa := translate fp in
        if negb (is_pa_valid pa) then ret [(lr, fp)]
        else
          let! fp' := ram_load 8 pa in
          let! l := unwind_vm n' translate fp' in
          ret ((lr, fp) :: l)
  end.

Definition dump_vm_calltrace (va_to_pa : bool -> Z -> M (machine H) Z) : M (machine H) (list (Z * Z)) :=
  let! p := cur_vcpu in
  let! c := deref p in
  let! v := get_vcpu c in
  if negb (bool_decide (v_state v = RUNNING)) then ret []
  else
    let trap_from_el1 := negb (Z.land (v_spsr_el2 v) SPSR_EL2_MODE_EL1 =? 0) in
    let is_el0 := negb trap_from_el1 in
    let! sctlr := read_sysreg sctlr_el1 in
    let vm_enable_mmu := negb (Z.land sctlr SCTLR_EL1_M =? 0) in
    (if vm_enable_mmu then read_sysreg ttbr0_el1 ;; read_sysreg ttbr1_el1 ;; ret tt else ret tt) ;;
    let! fp := deref (v_x v !! 29%nat) in
    let! vm := deref (v_vm v) in
    let! w := get_vm vm in
    unwind_vm 5 (if vm_enable_mmu then va_to_pa is_el0 else fun ipa => on_phys (ipa2pa (vm_stage2_pt w) ipa)) fp.

End Boot.
