(* ===== verification/Printf.v ===== *)
(** Formatted output (src/src/printf.c).

    A string is its characters before the NUL.  The buffer of [printiu64], filled
    from its end, is the list of the characters written so far, first to last.
    Variable arguments are the list of the argument slots. *)
From stdpp Require Import base gmap list numbers tactics.
From S2P Require Import Prelude Spinlock PageAlloc Mem Mmu Machine Gic Hw GicProofs Uart.

(** [enum printopt] *)
Definition PRINT_0X : Z := 1.
Definition ZERO_PADDING : Z := 2.

Definition chr_space : Z := 32.
Definition chr_percent : Z := 37.
Definition chr_minus : Z := 45.
Definition chr_0 : Z := 48.
Definition chr_9 : Z := 57.
Definition chr_colon : Z := 58.
Definition chr_x : Z := 120.

(** ["0123456789abcdef"[d]] *)
Definition hexdigit (d : Z) : Z := if d <? 10 then 48 + d else 87 + d.

(** [sizeof(num) * 8 + 1] bytes, the last one for the NUL. *)
Definition BUF_CHARS : nat := 64.

(** [*--cur = c], on a buffer that holds [s]. *)
Definition push (c : Z) (s : list Z) : option (list Z) :=
  if (length s <? BUF_CHARS)%nat then Some (c :: s) else None.

(** [do { *--cur = ...; } while (unum /= base);] *)
Fixpoint digits (fuel : nat) (unum base : Z) (s : list Z) : option (list Z) :=
  match fuel with
  | O => None
  | S fuel' =>
      match push (hexdigit (unum mod base)) s with
      | None => None
      | Some s => if unum / base =? 0 then Some s else digits fuel' (unum / base) base s
      end
  end.

(** The characters of the number, before padding. *)
Definition number (num base : Z) (sign : bool) (opt : Z) : option (list Z) :=
  let neg := sign && (num <? 0) in
  let unum := if neg then u64 (u64 (- (num + 1)) + 1) else u64 num in
  match digits 64 unum base [] with
  | None => None
  | Some s =>
      match (if negb (Z.land opt PRINT_0X =? 0)
             then match push chr_x s with Some s => push chr_0 s | None => None end else Some s) with
      | None => None
      | Some s => if neg then push chr_minus s else Some s
      end
  end.

Definition isdigit (c : Z) : bool := (chr_0 <=? c) && (c <=? chr_9).

(** [while (isdigit( *fmt)) n = n * 10 + *fmt++ - '0';] *)
Fixpoint fetch_number (n : Z) (fmt : list Z) : Z * list Z :=
  match fmt with
  | c :: fmt' => if isdigit c then fetch_number (i32 (n * 10 + c - chr_0)) fmt' else (n, fmt)
  | [] => (n, [])
  end.

Definition fetch_digit (fmt : list Z) : Z * list Z :=
  match fmt with
  | c :: fmt' =>
      if c =? chr_minus then let '(n, r) := fetch_number 0 fmt' in (i32 (- n), r) else fetch_number 0 fmt
  | [] => (0, [])
  end.

(** An argument slot: an integer, a string (or NULL), the 6 bytes of an address. *)
Inductive varg := VInt (x : Z) | VStr (s : option (list Z)) | VMac (mac : list Z).

Section Printf.
Context {H : Type} `{!Hardware H} `{!PollFuel}.

Definition printiu64 (num base : Z) (sign : bool) (digit opt : Z) : M (machine H) unit :=
  let! cur := deref (number num base sign opt) in
  let len := Z.of_nat (length cur) in
  for_range len digit (fun _ => uart_putc chr_space) ;;
  uart_puts cur ;;
  (if digit <? 0 then for_range len (- digit) (fun _ => uart_putc chr_space) else ret tt).

Definition printmacaddr (mac : list Z) : M (machine H) unit :=
  for_range 0 6 (fun i =>
    let! b := deref (mac !! Z.to_nat i) in
    printiu64 b 16 false 2 0 ;;
    if negb (i =? 5) then uart_putc chr_colon else ret tt).

Definition null_str : list Z := [40; 110; 117; 108; 108; 41].    (* "(null)" *)

(** One directive; [c] is the character after the width. *)
Definition directive (c digit : Z) (args : list varg) : M (machine H) (list varg) :=
  if c =? 100 then      (* d *)
    match args with VInt x :: args => printiu64 (i32 x) 10 true digit 0 ;; ret args | _ => fault end
  else if c =? 117 then (* u *)
    match args with VInt x :: args => printiu64 (u32 x) 10 false digit 0 ;; ret args | _ => fault end
  else if c =? 120 then (* x *)
    match args with VInt x :: args => printiu64 (i64 x) 16 false digit 0 ;; ret args | _ => fault end
  else if c =? 112 then (* p *)
    match args with VInt x :: args => printiu64 (i64 x) 16 false digit PRINT_0X ;; ret args | _ => fault end
  else if c =? 99 then  (* c *)
    match args with VInt x :: args => uart_putc (u8 x) ;; ret args | _ => fault end
  else if c =? 115 then (* s *)
    match args with VStr s :: args => uart_puts (default null_str s) ;; ret args | _ => fault end
  else if c =? 109 then (* m *)
    match args with VMac mac :: args => printmacaddr mac ;; ret args | _ => fault end
  else if c =? chr_percent then uart_putc chr_percent ;; ret args
  else uart_putc chr_percent ;; uart_putc c ;; ret args.

(** The loop advances past the NUL when the format ends after a [%]. *)
Fixpoint vprintf_loop (fuel : nat) (fmt : list Z) (args : list varg) : M (machine H) unit :=
  match fuel with
  | O => spin
  | S fuel' =>
      match fmt with
      | [] => ret tt
      | c :: fmt =>
          if c =? chr_percent then
            let '(digit, fmt) := fetch_digit fmt in
            match fmt with
            | [] => directive 0 digit args ;; fault
            | c :: fmt => let! args := directive c digit args in vprintf_loop fuel' fmt args
            end
          else uart_putc c ;; vprintf_loop fuel' fmt args
      end
  end.

Definition vprintf (fmt : list Z) (args : list varg) : M (machine H) unit :=
  vprintf_loop (S (length fmt)) fmt args.

Definition printf (fmt : list Z) (args : list varg) : M (machine H) unit := vprintf fmt args.

Definition printf_debug (log_level level : Z) (fmt : list Z) (args : list varg) : M (machine H) unit :=
  if level <=? log_level then vprintf fmt args else ret tt.

End Printf.

(** * What is printed *)

(** Positional notation: the value of digits, most significant first. *)
Definition digit_value (c : Z) : Z := if c <? 58 then c - 48 else c - 87.
Definition value (base : Z) (s : list Z) : Z := fold_left (fun acc c => acc * base + digit_value c) s 0.

(** A signed number: an optional minus sign and digits. *)
Definition parse (base : Z) (s : list Z) : Z :=
  match s with
  | c :: s' => if c =? chr_minus then - value base s' else value base s
  | [] => 0
  end.

(** [s] padded with spaces to the width: on the left if it is positive. *)
Definition pad (digit : Z) (s : list Z) : list Z :=
  replicate (Z.to_nat (digit - Z.of_nat (length s))) chr_space ++ s ++
  replicate (Z.to_nat (- digit - Z.of_nat (length s))) chr_space.

Lemma digit_value_hexdigit d : 0 <= d < 16 -> digit_value (hexdigit d) = d /\ hexdigit d <> chr_minus.
Proof.
  intros Hd. unfold digit_value, hexdigit, chr_minus. destruct (Z.ltb_spec d 10).
  - destruct (Z.ltb_spec (48 + d) 58); lia.
  - destruct (Z.ltb_spec (87 + d) 58); lia.
Qed.

Lemma value_app base s acc :
  fold_left (fun acc c => acc * base + digit_value c) s acc = acc * base ^ Z.of_nat (length s) + value base s.
Proof.
  unfold value. revert acc. induction s as [|c s IH]; intros acc; [simpl; lia|].
  simpl fold_left. rewrite IH, (IH (0 * base + digit_value c)).
  replace (Z.of_nat (length (c :: s))) with (Z.of_nat (length s) + 1) by (simpl; lia).
  rewrite Z.pow_add_r by lia. ring.
Qed.

Lemma value_cons base c s : value base (c :: s) = digit_value c * base ^ Z.of_nat (length s) + value base s.
Proof. unfold value at 1. simpl fold_left. rewrite value_app. ring. Qed.

(** [digits] writes the number in front of what is there, with as many characters
    as the number has digits. *)
Lemma digits_ok fuel u base s (d : nat) :
  2 <= base <= 16 -> 0 <= u < base ^ Z.of_nat d -> (1 <= d)%nat -> (d <= fuel)%nat -> (length s + d <= BUF_CHARS)%nat ->
  exists t, digits fuel u base s = Some (t ++ s) /\ value base t = u /\ (1 <= length t <= d)%nat /\
    Forall (fun c => c <> chr_minus) t.
Proof.
  revert u s d. induction fuel as [|fuel IH]; intros u s d Hb Hu Hd Hf Hs; [lia|].
  pose proof (Z.mod_pos_bound u base ltac:(lia)) as Hm. destruct (digit_value_hexdigit (u mod base)) as [Ev Em]; [lia|].
  simpl digits. unfold push. destruct (Nat.ltb_spec (length s) BUF_CHARS); [|lia].
  pose proof (Z.div_mod u base ltac:(lia)) as Ed. destruct (Z.eqb_spec (u / base) 0) as [E0|E0].
  - exists [hexdigit (u mod base)]. split; [done|]. split; [unfold value; simpl; rewrite Ev; lia|].
    split; [simpl; lia|]. by constructor.
  - assert (0 <= u / base) by (apply Z.div_pos; lia).
    destruct d as [|[|d]]; [lia|exfalso; apply E0, Z.div_small; change (base ^ Z.of_nat 1) with (base ^ 1) in Hu; lia|].
    destruct (IH (u / base) (hexdigit (u mod base) :: s) (S d)) as (t & Et & Hv & Hl & Ht); [lia| |lia|lia|simpl; lia|].
    + split; [done|]. apply Z.div_lt_upper_bound; [lia|].
      replace (Z.of_nat (S (S d))) with (Z.of_nat (S d) + 1) in Hu by lia. rewrite Z.pow_add_r in Hu by lia. lia.
    + exists (t ++ [hexdigit (u mod base)]). rewrite Et, <- app_assoc. split; [done|]. split.
      * unfold value. rewrite fold_left_app. simpl. fold (value base t). rewrite Hv, Ev. lia.
      * split; [rewrite length_app; simpl; lia|]. rewrite Forall_app. split; [done|]. by constructor.
Qed.

(** Decimal and hexadecimal numbers of 64 bits have at most 20 digits. *)
Lemma digits_u64 u base :
  base = 10 \/ base = 16 -> is_u64 u ->
  exists t, digits 64 u base [] = Some t /\ value base t = u /\ (1 <= length t <= 20)%nat /\ Forall (fun c => c <> chr_minus) t.
Proof.
  intros Hb Hu. destruct (digits_ok 64 u base [] 20) as (t & Et & H); [lia| |lia|lia|unfold BUF_CHARS; simpl; lia|].
  - unfold is_u64 in Hu. split; [lia|]. assert (2 ^ 64 <= base ^ Z.of_nat 20) by (destruct Hb as [-> | ->]; vm_compute; congruence). lia.
  - exists t. by rewrite app_nil_r in Et.
Qed.

Section Print.
Context {H : Type} `{!Hardware H} `{!PollFuel}.
Implicit Types m : machine H.

Lemma uart_puts_app s t m : uart_puts (s ++ t) m = (uart_puts s ;; uart_puts t) m.
Proof.
  revert m. induction s as [|c s IH]; intros m; [done|]. cbn [app uart_puts]. unfold bind in *.
  destruct (uart_putc c m); try done.
Qed.

Lemma put_spaces n from m : for_n n from (fun _ => uart_putc chr_space) m = uart_puts (replicate n chr_space) m.
Proof.
  revert from m. induction n as [|n IH]; intros from m; [done|]. simpl. unfold bind.
  destruct (uart_putc chr_space m); try done.
Qed.

(** What [printiu64] prints. *)
Lemma printiu64_puts num base sign digit opt s m :
  number num base sign opt = Some s -> printiu64 num base sign digit opt m = uart_puts (pad digit s) m.
Proof.
  intros E. unfold printiu64, pad. rewrite E. erewrite bind_Ok by done. unfold for_range.
  rewrite uart_puts_app. unfold bind at 1 3. rewrite put_spaces.
  destruct (uart_puts _ m) as [[] m1|m1| |]; try done. rewrite uart_puts_app. unfold bind.
  destruct (uart_puts s m1) as [[] m2|m2| |]; try done. destruct (Z.ltb_spec digit 0).
  - by rewrite put_spaces.
  - by replace (Z.to_nat (- digit - Z.of_nat (length s))) with 0%nat by lia.
Qed.

(** Printing a number and reading it back is the identity: for every 64-bit
    signed number in decimal or hexadecimal, [printiu64] never overflows its buffer
    and prints a string, padded with spaces to the requested width, whose value (with
    its sign) is the number; unsigned, the value is the number modulo [2^64]. *)
Theorem printiu64_roundtrip num base sign digit m :
  - 2 ^ 63 <= num < 2 ^ 63 -> base = 10 \/ base = 16 ->
  exists s, printiu64 num base sign digit 0 m = uart_puts (pad digit s) m /\
    parse base s = (if sign then num else u64 num) /\ (length s <= 21)%nat.
Proof.
  intros Hn Hb. set (neg := sign && (num <? 0)).
  set (u := if neg then u64 (u64 (- (num + 1)) + 1) else u64 num).
  assert (Hu : is_u64 u /\ (if neg then u = - num else u = u64 num)).
  { unfold u, neg. destruct sign, (Z.ltb_spec num 0); simpl; split; auto with hyp_int.
    rewrite (u64_small (- (num + 1))), u64_small by (unfold is_u64; lia). lia. }
  destruct Hu as [Hu Eu]. destruct (digits_u64 u base Hb Hu) as (t & Et & Hv & Hl & Hc).
  assert (Hp : parse base t = u).
  { destruct t as [|c t]; [simpl in Hl; lia|]. unfold parse. apply Forall_inv in Hc. by destruct (Z.eqb_spec c chr_minus). }
  exists (if neg then chr_minus :: t else t). assert (En : number num base sign 0 = Some (if neg then chr_minus :: t else t)).
  { unfold number. fold neg. fold u. rewrite Et. simpl. destruct neg; [|done].
    unfold push, BUF_CHARS. destruct (Nat.ltb_spec (length t) 64); [done|lia]. }
  split; [by apply printiu64_puts|]. split.
  - destruct neg eqn:Eneg.
    + unfold parse. rewrite Z.eqb_refl, Hv, Eu. unfold neg in Eneg. apply andb_prop in Eneg as [-> _]. lia.
    + rewrite Hp, Eu. destruct sign; [|done]. unfold neg in Eneg. simpl in Eneg. apply Z.ltb_ge in Eneg. apply u64_small. unfold is_u64. lia.
  - destruct neg; simpl; lia.
Qed.

End Print.

Lemma printiu64_roundtrip_witness :
  exists s, printiu64 (-42) 10 true 6 0 sim_machine = uart_puts (pad 6 s) sim_machine /\ parse 10 s = -42.
Proof.
  destruct (printiu64_roundtrip (-42) 10 true 6 sim_machine) as (s & E & P & _); [lia|by left|]. by exists s.
Defined.
