(* ===== verification/VmProofs.v ===== *)
(** The memory of a virtual machine: what the three loops of [create_vm] build. *)
From stdpp Require Import base gmap list numbers tactics.
From S2P Require Import Prelude Spinlock PageAlloc Mem Mmu Machine Gic Hw GicProofs Mmio Vgic Vcpu Uart Virtio Vm VgicProofs.

(** * Changes that leave the tables alone *)

Lemma entry_ext m m' p i :
  0 <= i < 512 -> (forall b, p <= b < p + 4096 -> peek m' b = peek m b) -> entry m' p i = entry m p i.
Proof. intros Hi Hp. unfold entry. apply rd_ext. intros b Hb. apply Hp. lia. Qed.

Section Frames.
Context (s : phys) (root : Z) (T : gmap Z Z) (I : pt_inv s root T).

(** Another content of the memory that agrees on the tables. *)
Context (m' : memory).
Context (Hlo : ram_lo m' = ram_lo (p_mem s)) (Hhi : ram_hi m' = ram_hi (p_mem s)).
Context (Htab : forall p b, is_Some (T !! p) -> p <= b < p + 4096 -> peek m' b = peek (p_mem s) b).

Lemma entry_tab p i : is_Some (T !! p) -> 0 <= i < 512 -> entry m' p i = entry (p_mem s) p i.
Proof. intros Hp Hi. apply entry_ext; [done|]. intros b Hb. by apply (Htab p). Qed.

Lemma edge_tab p i q : edge m' T p i q <-> edge (p_mem s) T p i q.
Proof.
  unfold edge. split; intros (l & Hp & Hl & Hi & He).
  - rewrite entry_tab in He by (by eauto). by exists l.
  - exists l. rewrite entry_tab by (by eauto). done.
Qed.

Lemma xlate_tab va : xlate m' root va = xlate (p_mem s) root va.
Proof.
  unfold xlate. assert (forall n l p, T !! p = Some l -> l + Z.of_nat n = 3 ->
    xlate_from n m' l p va = xlate_from n (p_mem s) l p va) as H; [|apply H; [apply I|done]].
  induction n as [|n IH]; intros l p Hp Hn; cbn [xlate_from].
  - apply entry_tab; [by eauto|apply PIDX_range].
  - rewrite entry_tab by (by eauto || apply PIDX_range).
    destruct (is_table (entry (p_mem s) p (PIDX l va))) eqn:E; [|done]. apply IH; [|lia].
    eapply (pi_edge _ _ _ I p (PIDX l va)); [done|]. exists l. split_and!; (done || lia || apply PIDX_range).
Qed.

Lemma table_at_tab va : table_at 3 m' 0 root va = table_at 3 (p_mem s) 0 root va.
Proof.
  assert (forall n l p, T !! p = Some l -> l + Z.of_nat n = 3 ->
    table_at n m' l p va = table_at n (p_mem s) l p va) as H; [|apply H; [apply I|done]].
  induction n as [|n IH]; intros l p Hp Hn; cbn [table_at]; [done|].
  rewrite entry_tab by (by eauto || apply PIDX_range).
  destruct (is_table (entry (p_mem s) p (PIDX l va))) eqn:E; [|done]. apply IH; [|lia].
  eapply (pi_edge _ _ _ I p (PIDX l va)); [done|]. exists l. split_and!; (done || lia || apply PIDX_range).
Qed.

Lemma pt_inv_mem :
  (forall i b, i ∈ free_set (p_pa s) -> frame_addr (p_pa s) i <= b < frame_addr (p_pa s) i + 4096 -> peek m' b = 0) ->
  pt_inv (set_mem m' s) root T.
Proof.
  intros Hz. destruct I as [H1 H2 H3 H4 H5 H6 H7 H8 H9]. split; simpl; try done.
  - by rewrite Hlo, Hhi.
  - intros i Hi. specialize (H3 i Hi). unfold in_ram in *. by rewrite Hlo, Hhi.
  - intros p i q l Hp He. eapply H7; [done|]. by apply edge_tab.
  - intros p i p' i' q He He'. eapply H8; by apply edge_tab.
Qed.

End Frames.

Lemma pt_inv_alloc s root T a' :
  pt_inv s root T -> wf a' -> total_pages a' = total_pages (p_pa s) -> base_pfn a' = base_pfn (p_pa s) ->
  free_set a' ⊆ free_set (p_pa s) -> pt_inv (set_pa a' s) root T.
Proof.
  intros [H1 H2 H3 H4 H5 H6 H7 H8 H9] Hwf Et Eb Hsub.
  assert (Hfa : forall i, frame_addr a' i = frame_addr (p_pa s) i) by (intros; by apply frame_addr_base).
  split; simpl; try done.
  - intros i. rewrite Et, Hfa. apply H3.
  - by rewrite Et, Eb.
  - intros p l Hp. destruct (H6 p l Hp) as (Hl & i & Hi & Hu & ->). split; [done|]. exists i. rewrite Et, Hfa.
    split_and!; try done; try lia. destruct (used a' i) eqn:E; [done|].
    assert (i ∈ free_set (p_pa s)) as Hf by (apply Hsub, elem_free_set; rewrite Et; done).
    apply elem_free_set in Hf as [_ Hf]. congruence.
  - intros i b Hi. rewrite Hfa. apply H9. by apply Hsub.
Qed.

(** * The guest's memory *)

Section Guest.
Context (entry : Z) (C : Z -> Z) (attr : Z).

(** [G] gives the frame of every guest page mapped so far, by its offset. *)
Record guest_inv (s : phys) (root : Z) (T G : gmap Z Z) (p : Z) : Prop := {
  gi_pt : pt_inv s root T;
  gi_dom : forall q, is_Some (G !! q) <-> 0 <= q < p /\ q mod 4096 = 0;
  gi_frame : forall q pa, G !! q = Some pa -> used_page (p_pa s) pa /\ T !! pa = None;
  gi_inj : forall q q' pa, G !! q = Some pa -> G !! q' = Some pa -> q = q';
  gi_xlate : forall q pa, G !! q = Some pa -> xlate (p_mem s) root (entry + q) = leaf_pte pa attr;
  gi_data : forall q pa j, G !! q = Some pa -> 0 <= j < 4096 -> peek (p_mem s) (pa + j) = C (q + j)
}.

Lemma frame_disjoint a i j b :
  frame_addr a i <= b < frame_addr a i + 4096 -> frame_addr a j <= b < frame_addr a j + 4096 -> i = j.
Proof. unfold frame_addr. lia. Qed.

(** ** Taking a frame and filling it *)

Lemma take_frame s root T G p f a' m' :
  guest_inv s root T G p -> f ∈ free_set (p_pa s) -> wf a' ->
  total_pages a' = total_pages (p_pa s) -> base_pfn a' = base_pfn (p_pa s) -> free_set a' = free_set (p_pa s) ∖ {[f]} ->
  ram_lo m' = ram_lo (p_mem s) -> ram_hi m' = ram_hi (p_mem s) ->
  (forall b, b < frame_addr (p_pa s) f \/ frame_addr (p_pa s) f + 4096 <= b -> peek m' b = peek (p_mem s) b) ->
  let s' := mkPhys m' a' in
  guest_inv s' root T G p /\ T !! frame_addr a' f = None /\ (forall q, G !! q <> Some (frame_addr a' f)) /\
  used_page a' (frame_addr a' f) /\ (forall va, xlate m' root va = xlate (p_mem s) root va).
Proof.
  intros [I Hd Hf Hi Hx Hc] Hfree Hwf Et Eb Ef El Eh Hm s'.
  assert (Hfa : forall i, frame_addr a' i = frame_addr (p_pa s) i) by (intros; by apply frame_addr_base).
  pose proof (free_not_table s root T I f Hfree) as HT.
  pose proof Hfree as Hfree'. apply elem_free_set in Hfree' as [Hfr Hfu].
  assert (Hother : forall q, used_page (p_pa s) q -> q <> frame_addr (p_pa s) f /\
    (forall b, q <= b < q + 4096 -> peek m' b = peek (p_mem s) b)).
  { intros q (i & Hi' & Hu & ->). assert (i <> f) by (intros ->; congruence). split.
    - intros E. apply frame_addr_inj in E. done.
    - intros b Hb. apply Hm. unfold frame_addr in *. lia. }
  assert (I1 : pt_inv (set_pa a' s) root T) by (apply pt_inv_alloc; try done; rewrite Ef; set_solver).
  assert (Htab : forall q b, is_Some (T !! q) -> q <= b < q + 4096 -> peek m' b = peek (p_mem (set_pa a' s)) b).
  { intros q b [l Hq] Hb. destruct (pi_tables _ _ _ I q l Hq) as [_ Hu]. by apply (Hother q Hu). }
  assert (I2 : pt_inv s' root T).
  { apply (pt_inv_mem (set_pa a' s) root T I1 m'); [done|done|done|]. simpl. intros i b Hi' Hb. rewrite Ef in Hi'.
    apply elem_of_difference in Hi' as [Hi' Hne]. rewrite elem_of_singleton in Hne. rewrite Hfa in Hb. rewrite Hm.
    - by apply (pi_zero _ _ _ I i).
    - unfold frame_addr in *. lia. }
  assert (Hxl : forall va, xlate m' root va = xlate (p_mem s) root va) by (intros va; by apply (xlate_tab (set_pa a' s) root T I1)).
  split_and!; [|by rewrite Hfa| | |done].
  - split; try done.
    + intros q pa Hq. destruct (Hf q pa Hq) as [(i & Hi' & Hu & ->) Hn]. split; [|done]. exists i. simpl. rewrite Et, Hfa.
      split_and!; try done; try lia. destruct (used a' i) eqn:E; [done|].
      assert (i ∈ free_set a') as Hin by (apply elem_free_set; rewrite Et; done). rewrite Ef in Hin.
      apply elem_of_difference in Hin as [Hin _]. apply elem_free_set in Hin as [_ ?]. congruence.
    + intros q pa Hq. simpl. rewrite Hxl. by apply Hx.
    + intros q pa j Hq Hj. simpl. destruct (Hf q pa Hq) as [Hu _]. destruct (Hother pa Hu) as [_ Hpk]. rewrite Hpk by lia. by apply Hc.
  - intros q Hq. destruct (Hf q _ Hq) as [Hu _]. destruct (Hother _ Hu) as [Hne _]. by rewrite Hfa in Hne.
  - exists f. rewrite Et. split_and!; try done; try lia. destruct (used a' f) eqn:E; [done|].
    assert (f ∈ free_set a') as Hin by (apply elem_free_set; rewrite Et; done). rewrite Ef in Hin. set_solver.
Qed.

(** ** Mapping it *)

Lemma map_frame s root T G p pa :
  guest_inv s root T G p -> p mod 4096 = 0 -> 0 <= p -> is_u64 attr ->
  used_page (p_pa s) pa -> T !! pa = None -> (forall q, G !! q <> Some pa) ->
  (forall j, 0 <= j < 4096 -> peek (p_mem s) (pa + j) = C (p + j)) ->
  entry mod 4096 = 0 -> 0 <= entry -> entry + p + 4096 <= 2 ^ 48 ->
  (3 <= size (free_set (p_pa s)))%nat -> Z.land (xlate (p_mem s) root (entry + p)) PTE_AF = 0 ->
  wp (pagemap root (entry + p) pa PAGE_SIZE attr) (fun _ s' => exists T',
    guest_inv s' root T' (<[p := pa]> G) (p + 4096) /\
    (forall va, vpn va <> vpn (entry + p) -> xlate (p_mem s') root va = xlate (p_mem s) root va) /\
    (forall b, (forall i, 0 <= i < total_pages (p_pa s) -> b < frame_addr (p_pa s) i \/ frame_addr (p_pa s) i + 4096 <= b) ->
       peek (p_mem s') b = peek (p_mem s) b) /\
    total_pages (p_pa s') = total_pages (p_pa s) /\ base_pfn (p_pa s') = base_pfn (p_pa s) /\
    ram_lo (p_mem s') = ram_lo (p_mem s) /\ ram_hi (p_mem s') = ram_hi (p_mem s) /\
    (size (free_set (p_pa s)) <= 3 + size (free_set (p_pa s')))%nat) s.
Proof.
  intros HG Hp Hp0 Ha Hu HT HGn Hc He He0 Hb Hsz Haf. destruct HG as [I Hd Hf Hi Hx Hdat].
  destruct Hu as (i & Hi' & Hui & Epa). pose proof (frame_bounds s root T I i Hi') as Hpab.
  unfold pagemap, PAGE_SIZE.
  assert ((entry + p) mod 4096 = 0) as -> by (rewrite Z.add_mod, He, Hp by lia; done).
  assert (pa mod 4096 = 0) as -> by (subst pa; apply frame_addr_aligned). simpl.
  eapply wp_mono; [|apply (pagemap_loop_ok s root T 1 (entry + p) pa attr); try done; try lia].
  - cbn beta. intros _ s' (T' & I' & [X1 X2 X3 X4 X5 X6 X7 X8] & Hxl & Hs').
    assert (Hfa : forall i, frame_addr (p_pa s') i = frame_addr (p_pa s) i) by (intros; by apply frame_addr_base).
    assert (Hup : forall q, used_page (p_pa s) q -> used_page (p_pa s') q).
    { intros q (k & Hk & Hku & ->). exists k. rewrite X3, Hfa. split_and!; try done; try lia.
      destruct (used (p_pa s') k) eqn:E; [done|]. assert (k ∈ free_set (p_pa s)) as Hin.
      { apply X5, elem_free_set. rewrite X3. done. } apply elem_free_set in Hin as [_ ?]. congruence. }
    assert (HnT : forall q, used_page (p_pa s) q -> T !! q = None -> T' !! q = None /\
      (forall b, q <= b < q + 4096 -> peek (p_mem s') b = peek (p_mem s) b)).
    { intros q (k & Hk & Hku & ->) Hq. assert (T' !! frame_addr (p_pa s) k = None) as Hnone.
      { destruct (T' !! frame_addr (p_pa s) k) eqn:E; [|done]. destruct (X2 (frame_addr (p_pa s) k)) as (k' & Hk' & _ & Ek); [by eauto|done|].
        apply frame_addr_inj in Ek as ->. apply elem_free_set in Hk' as [_ ?]. congruence. }
      split; [done|]. intros b Hbb. apply X8. intros q' [l' Hq']. destruct (pi_tables _ _ _ I' q' l' Hq') as (_ & k' & Hk' & _ & ->).
      rewrite Hfa in *. assert (k' <> k) by (intros ->; congruence). unfold frame_addr in *. lia. }
    assert (Hx0 : forall va, vpn va <> vpn (entry + p) -> xlate (p_mem s') root va = xlate (p_mem s) root va).
    { intros va Hne. rewrite Hxl. unfold mapped.
      destruct (Z.leb_spec 0 (vpn va - vpn (entry + p))), (Z.ltb_spec (vpn va - vpn (entry + p)) (Z.of_nat 1)); simpl; try done. lia. }
    assert (Hvq : forall q, 0 <= q < p -> q mod 4096 = 0 -> vpn (entry + q) <> vpn (entry + p)).
    { intros q Hq Hqm. rewrite !vpn_small by lia. Z.div_mod_to_equations. lia. }
    exists T'. split; [|split_and!; try done; try lia].
    + split; [done| | | | |].
      * intros q. rewrite lookup_insert_is_Some'. rewrite Hd. split; [intros [<-|[? ?]]; split; (lia || done)|].
        intros [Hq Hqm]. destruct (decide (p = q)); [by left|right]. split; [|done].
        Z.div_mod_to_equations. lia.
      * intros q pa'. rewrite lookup_insert_Some. intros [[<- <-]|[_ Hq]].
        -- split; [by apply Hup; exists i|]. by apply HnT; [exists i|].
        -- destruct (Hf q pa' Hq) as [? ?]. split; [by apply Hup|by apply HnT].
      * intros q q' pa'. rewrite !lookup_insert_Some. intros [[<- <-]|[_ Hq]] [[<- E]|[_ Hq']]; try done.
        -- by destruct (HGn q').
        -- subst pa'. by destruct (HGn q).
        -- by eapply Hi.
      * intros q pa'. rewrite lookup_insert_Some. intros [[<- <-]|[Hne Hq]].
        -- rewrite Hxl. unfold mapped. rewrite Z.sub_diag. simpl. f_equal. lia.
        -- assert (0 <= q < p /\ q mod 4096 = 0) as [? ?] by (apply Hd; by eauto). rewrite Hx0 by auto. by apply Hx.
      * intros q pa' j. rewrite lookup_insert_Some. intros [[<- <-]|[Hne Hq]] Hj.
        -- destruct (HnT pa) as [_ Hpk]; [by exists i|done|]. rewrite Hpk by lia. by apply Hc.
        -- destruct (Hf q pa' Hq) as [? ?]. destruct (HnT pa') as [_ Hpk]; [done|done|]. rewrite Hpk by lia. by apply Hdat.
    + intros b Hbb. apply X8. intros q [l Hq]. destruct (pi_tables _ _ _ I' q l Hq) as (_ & k & Hk & _ & ->).
      rewrite Hfa. rewrite X3 in Hk. by apply Hbb.
  - rewrite Z.add_mod, He, Hp by lia. done.
  - intros k Hk. replace k with 0 by lia. by rewrite Z.mul_0_r, Z.add_0_r.
Qed.

End Guest.

(** * The loops of [create_vm] *)

Definition guest_attr : Z := Z.lor S2PTE_NORMAL S2PTE_RW.

Lemma guest_attr_u64 : is_u64 guest_attr.
Proof. split; vm_compute; [discriminate|reflexivity]. Qed.

(** Outside the frames of the allocator. *)
Definition not_frame (a : page_allocator) (b : Z) : Prop :=
  forall i, 0 <= i < total_pages a -> b < frame_addr a i \/ frame_addr a i + 4096 <= b.

(** What stays the same while the guest's memory is built. *)
Record same_ground (s0 s : phys) : Prop := {
  sg_total : total_pages (p_pa s) = total_pages (p_pa s0);
  sg_base : base_pfn (p_pa s) = base_pfn (p_pa s0);
  sg_lo : ram_lo (p_mem s) = ram_lo (p_mem s0);
  sg_hi : ram_hi (p_mem s) = ram_hi (p_mem s0);
  sg_mem : forall b, not_frame (p_pa s0) b -> peek (p_mem s) b = peek (p_mem s0) b
}.

Lemma same_ground_refl s : same_ground s s.
Proof. by split. Qed.

Section Loops.
Context {H : Type} `{!Hardware H} `{!PollFuel} `{!Image}.
Implicit Types m : machine H.
Context (m0 : machine H) (vm : nat) (v : Machine.vm) (Hvm : m_vms m0 !! vm = Some v).
Context (entry : Z) (C : Z -> Z) (limit : Z).
Context (He : entry mod 4096 = 0) (He0 : 0 <= entry) (Hlim : limit mod 4096 = 0) (Hl48 : entry + limit <= 2 ^ 48).
Let root := vm_stage2_pt v.
Let s0 := m_phys m0.

(** The loop invariant at offset [p]. *)
Definition built (m : machine H) (p : Z) : Prop := exists T G,
  guest_inv entry C guest_attr (m_phys m) root T G p /\ m = set_phys (m_phys m) m0 /\ same_ground s0 (m_phys m) /\
  0 <= p <= limit /\ p mod 4096 = 0 /\
  (forall q, p <= q < limit -> q mod 4096 = 0 -> Z.land (xlate (p_mem (m_phys m)) root (entry + q)) PTE_AF = 0) /\
  4 * ((limit - p) / 4096) <= Z.of_nat (size (free_set (p_pa (m_phys m)))).

(** Filling a fresh, zero frame with the guest's bytes at [p]. *)
Definition fills {A} (fill : Z -> M (machine H) A) (p : Z) : Prop := forall m1 f,
  in_ram (p_mem (m_phys m1)) (frame_addr (p_pa s0) f) 4096 = true -> same_ground s0 (m_phys m1) ->
  0 <= f < total_pages (p_pa s0) ->
  0 <= ram_lo (p_mem (m_phys m1)) /\ ram_hi (p_mem (m_phys m1)) < 2 ^ 64 ->
  (forall j, 0 <= j < 4096 -> peek (p_mem (m_phys m1)) (frame_addr (p_pa s0) f + j) = 0) ->
  wp (fill (frame_addr (p_pa s0) f)) (fun _ m2 => exists mem',
    m2 = set_phys (set_mem mem' (m_phys m1)) m1 /\
    ram_lo mem' = ram_lo (p_mem (m_phys m1)) /\ ram_hi mem' = ram_hi (p_mem (m_phys m1)) /\
    (forall b, b < frame_addr (p_pa s0) f \/ frame_addr (p_pa s0) f + 4096 <= b ->
       peek mem' b = peek (p_mem (m_phys m1)) b) /\
    (forall j, 0 <= j < 4096 -> peek mem' (frame_addr (p_pa s0) f + j) = C (p + j))) m1.

Lemma set_phys_id m : set_phys (m_phys m) m = m.
Proof. by destruct m. Qed.

Lemma frame_addr_sg s i : same_ground s0 s -> frame_addr (p_pa s) i = frame_addr (p_pa s0) i.
Proof. intros Hs. apply frame_addr_base, Hs. Qed.

Lemma page_body_ok {A} (fill : Z -> M (machine H) A) m p :
  fills fill p -> built m p -> p < limit ->
  wp (let! page := alloc_page_or_panic in fill page ;; map_guest_page vm (u64 (entry + p)) page)
    (fun _ m' => built m' (p + 4096)) m.
Proof.
  intros Hfill (T & G & HG & Em & Hs & Hp & Hpm & Haf & Hfree) Hlt. pose proof (gi_pt _ _ _ _ _ _ _ _ HG) as I.
  assert (m_vms m !! vm = Some v) as Hvm1 by (rewrite Em; exact Hvm).
  assert (p + 4096 <= limit) as Hp4 by (Z.div_mod_to_equations; lia).
  assert (1 <= (limit - p) / 4096) as Hn by (Z.div_mod_to_equations; lia).
  assert (free_set (p_pa (m_phys m)) <> ∅) as Hne.
  { intros E. rewrite E, size_empty in Hfree. lia. }
  unfold alloc_page_or_panic. rewrite !wp_bind. unfold on_phys, on_pa. rewrite !wp_zoom.
  eapply wp_mono; [|by apply alloc_page_frame; [apply I|]].
  cbn beta. intros r a' (f & Hf & -> & Hwf & Et & Eb & Ef). rewrite ?wp_bind.
  pose proof Hf as Hf'. apply elem_free_set in Hf' as [Hfr Hfu]. pose proof (frame_bounds _ _ _ I f Hfr) as Hfb.
  destruct (Z.eqb_spec (frame_addr (p_pa (m_phys m)) f) 0); [lia|]. rewrite wp_ret.
  set (m1 := set_phys (set_pa a' (m_phys m)) m).
  assert (Hs1 : same_ground s0 (m_phys m1)) by (destruct Hs; split; simpl; try congruence; done).
  rewrite (frame_addr_sg (m_phys m)) by done.
  match goal with |- wp _ _ ?x => change x with m1 end. rewrite ?wp_bind.
  eapply wp_mono; [|apply (Hfill m1 f)].
  - cbn beta. intros _ m2 (mem' & -> & El & Eh & Ho & Hdata). rewrite <- (frame_addr_sg (m_phys m)) in Ho, Hdata |- * by done.
    destruct (take_frame entry C guest_attr (m_phys m) root T G p f a' mem') as (HG' & HT' & HGn & Hu & Hx); try done.
    rewrite <- (frame_addr_base (p_pa (m_phys m)) a') in Hdata |- * by done.
    unfold map_guest_page. eapply wp_bind_Ok; [apply (get_vm_ok _ v); exact Hvm1|]. fold root.
    unfold on_phys. rewrite wp_zoom. cbn [m_phys set_phys set_mem m1 p_mem p_pa set_pa].
    assert (Hsz : (size (free_set (p_pa (m_phys m))) = S (size (free_set a')))%nat).
    { rewrite Ef, size_difference, size_singleton by set_solver.
      assert (0 < size (free_set (p_pa (m_phys m))))%nat; [|lia]. destruct (size (free_set (p_pa (m_phys m)))) eqn:E; [|lia].
      apply size_empty_inv in E. set_solver. }
    rewrite u64_small by (unfold is_u64; lia).
    eapply wp_mono; [|apply (map_frame entry C guest_attr (mkPhys mem' a') root T G p (frame_addr a' f) HG'); try done; simpl; try lia; try exact guest_attr_u64].
    + cbn beta. intros _ s' (T' & HG2 & Hx2 & Hnf & Et2 & Eb2 & El2 & Eh2 & Hsz2). simpl in *.
      exists T', (<[p := frame_addr a' f]> G). split; [done|]. split; [subst m1; rewrite Em; reflexivity|]. split.
      { destruct Hs as [A1 A2 A3 A4 A5]. split; simpl; try congruence. intros b Hb. rewrite Hnf, Ho, A5; try done.
        - specialize (Hb f). rewrite (frame_addr_base (p_pa s0)) by done. apply Hb. lia.
        - intros i Hi. rewrite (frame_addr_base (p_pa s0) a') by congruence. apply Hb. lia. }
      split; [Z.div_mod_to_equations; lia|]. split; [rewrite Z.add_mod, Hpm by lia; done|]. split.
      { intros q Hq Hqm. simpl. rewrite Hx2, Hx; [apply Haf; (done || lia)|].
        rewrite !vpn_small by lia. Z.div_mod_to_equations. lia. }
      simpl. replace (limit - (p + 4096)) with (limit - p + (-1) * 4096) by lia. rewrite Z.div_add by lia. lia.
    + rewrite Hx. apply Haf; (done || lia).
  - simpl. rewrite <- (frame_addr_sg (m_phys m)) by done. apply (pi_frames _ _ _ I). done.
  - done.
  - destruct Hs as [A1 _ _ _ _]. lia.
  - simpl. apply I.
  - intros j Hj. simpl. rewrite <- (frame_addr_sg (m_phys m)) by done. apply (pi_zero _ _ _ I f); [done|lia].
Qed.

Lemma page_loop_ok fuel bound body m p :
  built m p -> bound <= limit -> (Z.to_nat ((bound - p + 4095) / 4096) < fuel)%nat ->
  (forall m' q, built m' q -> p <= q < bound -> wp (body q) (fun _ m'' => built m'' (q + 4096)) m') ->
  wp (page_loop fuel p bound body) (fun p' m' => built m' p' /\ p <= p' /\ bound <= p') m.
Proof.
  revert m p. induction fuel as [|fuel IH]; intros m p Hb Hbl Hf Hbody; [lia|]. simpl page_loop.
  assert (0 <= p <= limit) as Hp by (by destruct Hb as (? & ? & _ & _ & _ & ? & _)).
  destruct (Z.ltb_spec p bound).
  - rewrite wp_bind. eapply wp_mono; [|apply Hbody; [done|lia]]. cbn beta. intros _ m1 Hb1.
    assert (0 <= p + 4096 <= limit) as Hp1 by (by destruct Hb1 as (? & ? & _ & _ & _ & ? & _)).
    unfold PAGE_SIZE. rewrite u64_small by (unfold is_u64; lia).
    eapply wp_mono; [|apply (IH m1 (p + 4096)); try done].
    + cbn beta. intros p' m' (? & ? & ?). split; [done|lia].
    + replace (bound - p + 4095) with (bound - (p + 4096) + 4095 + 1 * 4096) in Hf by lia. rewrite Z.div_add in Hf by lia.
      assert (0 <= (bound - (p + 4096) + 4095) / 4096) by (apply Z.div_pos; lia). lia.
    + intros m' q Hq Hqr. apply Hbody; [done|lia].
  - rewrite wp_ret. split; [done|lia].
Qed.

(** ** The three bodies *)

Context (cfg : vmconfig) (img : guest).
Let filesz := u64 (g_end img - g_start img).

Lemma zero_fills p :
  (forall j, 0 <= j < 4096 -> C (p + j) = 0) ->
  fills (fun page => on_phys (on_mem (Lib.memset page 0 PAGE_SIZE))) p.
Proof.
  intros HC m1 f Hr _ _ Hok _. unfold on_phys, on_mem. rewrite !wp_zoom.
  eapply wp_mono; [|apply Lib.memset_ok; (done || unfold PAGE_SIZE; lia)].
  cbn beta. intros _ mem' (_ & El & Eh & Hpk). unfold PAGE_SIZE in Hpk. exists mem'. split_and!; try done.
  - intros b Hb. rewrite Hpk. destruct (_ && _) eqn:E; [|done]. lia.
  - intros j Hj. rewrite Hpk, HC by done. destruct (_ && _) eqn:E; [done|]. lia.
Qed.

Lemma ram_fills p :
  (forall j, 0 <= j < 4096 -> C (p + j) = 0) -> fills (fun _ => ret tt) p.
Proof.
  intros HC m1 f _ _ _ _ Hz. rewrite wp_ret. exists (p_mem (m_phys m1)).
  split; [by destruct m1 as [? [] ?]|]. split_and!; try done. intros j Hj. rewrite HC; auto.
Qed.

Definition image_ok : Prop :=
  0 <= g_start img /\ in_ram (p_mem s0) (g_start img) filesz = true /\
  (forall b, g_start img <= b < g_start img + filesz -> not_frame (p_pa s0) b).

Lemma copy_fills p :
  image_ok -> 0 <= p < filesz ->
  (forall j, 0 <= j < 4096 -> C (p + j) = if p + j <? filesz then peek (p_mem s0) (g_start img + (p + j)) else 0) ->
  fills (fun page => on_phys (on_mem (Lib.memcpy page (u64 (g_start img + p))
    (if u64 (filesz - p) <? PAGE_SIZE then u64 (filesz - p) else PAGE_SIZE)))) p.
Proof.
  intros (Hs & Hin & Hout) Hp HC m1 f Hr Hsg Hf Hok Hz. unfold on_phys, on_mem. rewrite !wp_zoom.
  assert (filesz < 2 ^ 64) by (apply u64_range).
  assert (ram_lo (p_mem s0) = ram_lo (p_mem (m_phys m1)) /\ ram_hi (p_mem s0) = ram_hi (p_mem (m_phys m1))) as [E1 E2]
    by (by rewrite (sg_lo _ _ Hsg), (sg_hi _ _ Hsg)).
  unfold in_ram in Hr, Hin. rewrite E1, E2 in Hin. unfold PAGE_SIZE. clearbody filesz. bool_to_Z.
  rewrite (u64_small (filesz - p)), (u64_small (g_start img + p)) by (unfold is_u64; lia).
  set (n := if filesz - p <? 4096 then filesz - p else 4096).
  assert (0 <= n <= 4096 /\ p + n <= filesz) as Hn by (unfold n; destruct (Z.ltb_spec (filesz - p) 4096); lia).
  eapply wp_mono; [|apply Lib.memmove_ok; (done || lia || (unfold in_ram; lia))].
  cbn beta. intros _ mem' (_ & El & Eh & Hpk). exists mem'. split_and!; try done.
  - intros b Hb. rewrite Hpk. destruct (_ && _) eqn:E; [|done]. lia.
  - intros j Hj. rewrite Hpk, HC by done. destruct (Z.ltb_spec (p + j) filesz).
    + assert (j < n) by (unfold n; destruct (Z.ltb_spec (filesz - p) 4096); lia).
      replace ((_ <=? _) && (_ <? _)) with true by (symmetry; lia).
      rewrite (sg_mem _ _ Hsg); [f_equal; lia|]. apply Hout. lia.
    + replace ((_ <=? _) && (_ <? _)) with false; [by apply Hz|].
      symmetry. assert (n <= j) by (unfold n; destruct (Z.ltb_spec (filesz - p) 4096); lia). lia.
Qed.

End Loops.

(** * The guest's memory, end to end *)

(** Byte [x] of the guest's memory: the image, then zeros. *)
Definition guest_byte (s : phys) (img : guest) (x : Z) : Z :=
  if x <? u64 (g_end img - g_start img) then peek (p_mem s) (g_start img + x) else 0.

Lemma xlate_from_page n mem l p va va' :
  0 <= l -> l + Z.of_nat n <= 3 -> vpn va = vpn va' -> xlate_from n mem l p va = xlate_from n mem l p va'.
Proof.
  intros H0 H3 E. rewrite vpn_PIDX in E. revert l p H0 H3. induction n as [|n IH]; intros l p H0 H3; cbn [xlate_from].
  - rewrite E by lia. done.
  - rewrite <- E by lia. destruct (is_table _); [|done]. apply IH; lia.
Qed.

Lemma xlate_page mem root va va' : vpn va = vpn va' -> xlate mem root va = xlate mem root va'.
Proof. intros E. by apply xlate_from_page. Qed.

Section Load.
Context {H : Type} `{!Hardware H} `{!PollFuel} `{!Image}.
Implicit Types m : machine H.

Lemma guest_inv_nil entry C attr s root T : pt_inv s root T -> guest_inv entry C attr s root T ∅ 0.
Proof.
  intros I. split; try done. intros q. rewrite lookup_empty. split; [by intros [? ?]|lia].
Qed.

Lemma load_guest_ok m vm v T cfg img :
  let entry := cfg_entrypoint cfg in let limit := cfg_ram_size cfg in let root := vm_stage2_pt v in
  m_vms m !! vm = Some v -> pt_inv (m_phys m) root T ->
  entry mod 4096 = 0 -> 0 <= entry -> limit mod 4096 = 0 -> entry + limit <= 2 ^ 48 ->
  u64 (g_end img - g_start img) <= limit -> 0 <= g_size img <= limit -> image_ok m img ->
  (forall q, 0 <= q < limit -> q mod 4096 = 0 -> Z.land (xlate (p_mem (m_phys m)) root (entry + q)) PTE_AF = 0) ->
  4 * (limit / 4096) <= Z.of_nat (size (free_set (p_pa (m_phys m)))) ->
  wp (load_guest vm cfg img) (fun p m' => p = limit /\ built m v entry (guest_byte (m_phys m) img) limit m' limit) m.
Proof.
  intros entry limit root Hvm I He He0 Hl Hl48 Hfs Hsz Him Haf Hfree. unfold load_guest. fold entry limit.
  set (filesz := u64 (g_end img - g_start img)) in *. pose proof (u64_range (g_end img - g_start img)) as Hfr. fold filesz in Hfr.
  assert (0 <= limit) as Hl0 by (unfold is_u64 in Hfr; lia).
  set (B := built m v entry (guest_byte (m_phys m) img) limit).
  assert (HB0 : B m 0).
  { exists T, ∅. split_and!; try done; try lia.
    - by apply guest_inv_nil.
    - by rewrite set_phys_id.
    - by rewrite Z.sub_0_r. }
  assert (Hal : forall m' q, B m' q -> 0 <= q <= limit /\ q mod 4096 = 0).
  { intros m' q (? & ? & _ & _ & _ & ? & ? & _). done. }
  assert (Hz : forall q j, filesz <= q -> 0 <= j < 4096 -> guest_byte (m_phys m) img (q + j) = 0).
  { intros q j Hq Hj. unfold guest_byte. fold filesz. destruct (Z.ltb_spec (q + j) filesz); [lia|done]. }
  assert (Hfuel : forall bound p, 0 <= p -> 0 <= bound -> (Z.to_nat ((bound - p + 4095) / 4096) < page_fuel bound)%nat).
  { intros bound p Hp Hb. unfold page_fuel, PAGE_SIZE.
    assert ((bound - p + 4095) / 4096 <= bound / 4096 + 1) by (Z.div_mod_to_equations; lia).
    assert (0 <= bound / 4096) by (apply Z.div_pos; lia). lia. }
  rewrite wp_bind. eapply wp_mono; [|apply (page_loop_ok m v entry (guest_byte (m_phys m) img) limit); try done].
  2: { apply Hfuel; unfold is_u64 in Hfr; lia. }
  2: { intros m' q Hq Hqr. apply (page_body_ok m vm v Hvm entry _ limit He He0 Hl Hl48
         (fun page => on_phys (on_mem (Lib.memcpy page (u64 (g_start img + q))
            (if u64 (filesz - q) <? PAGE_SIZE then u64 (filesz - q) else PAGE_SIZE))))); [|done|lia].
       refine (copy_fills m v _ img q Him _ _); [destruct (Hal _ _ Hq); lia|]. intros j _. done. }
  cbn beta. intros p1 m1 (HB1 & _ & Hp1). pose proof (Hal _ _ HB1) as [Hr1 _].
  rewrite wp_bind. eapply wp_mono; [|apply (page_loop_ok m v entry (guest_byte (m_phys m) img) limit); try done; try lia].
  2: { apply Hfuel; lia. }
  2: { intros m' q Hq Hqr. apply (page_body_ok m vm v Hvm entry _ limit He He0 Hl Hl48
         (fun page => on_phys (on_mem (Lib.memset page 0 PAGE_SIZE)))); [|done|lia].
       refine (zero_fills m v _ img q _). intros j. apply Hz. lia. }
  cbn beta. intros p2 m2 (HB2 & Hp2 & _). pose proof (Hal _ _ HB2) as [Hr2 _].
  eapply wp_mono; [|apply (page_loop_ok m v entry (guest_byte (m_phys m) img) limit); try done; try lia].
  2: { apply Hfuel; lia. }
  2: { intros m' q Hq Hqr. apply (page_body_ok m vm v Hvm entry _ limit He He0 Hl Hl48 (fun _ => ret tt)); [|done|lia].
       refine (ram_fills m _ q _). intros j. apply Hz. lia. }
  cbn beta. intros p3 m3 (HB3 & _ & Hp3). pose proof (Hal _ _ HB3) as [Hr3 _]. replace p3 with limit in * by lia. done.
Qed.

(** C2 The memory of a new machine: the three loops of [create_vm] return, and
    afterwards every guest-physical byte [entry + x] below the RAM size is
    translated to a frame of the allocator that holds the guest's byte [x] - the
    kernel image, then zeros -, read-write, with a frame of its own for every
    page, which is none of the translation tables; nothing outside the frames
    has changed. *)
Theorem load_guest_spec m vm v T cfg img :
  let entry := cfg_entrypoint cfg in let limit := cfg_ram_size cfg in let root := vm_stage2_pt v in
  m_vms m !! vm = Some v -> pt_inv (m_phys m) root T ->
  entry mod 4096 = 0 -> 0 <= entry -> limit mod 4096 = 0 -> entry + limit <= 2 ^ 48 ->
  u64 (g_end img - g_start img) <= limit -> 0 <= g_size img <= limit -> image_ok m img ->
  (forall q, 0 <= q < limit -> q mod 4096 = 0 -> Z.land (xlate (p_mem (m_phys m)) root (entry + q)) PTE_AF = 0) ->
  4 * (limit / 4096) <= Z.of_nat (size (free_set (p_pa (m_phys m)))) ->
  wp (load_guest vm cfg img) (fun p m' => p = limit /\ m' = set_phys (m_phys m') m /\
    same_ground (m_phys m) (m_phys m') /\
    exists T' F, pt_inv (m_phys m') root T' /\
      (forall x, 0 <= x < limit ->
         xlate (p_mem (m_phys m')) root (entry + x) = leaf_pte (F (x / 4096)) (Z.lor S2PTE_NORMAL S2PTE_RW) /\
         peek (p_mem (m_phys m')) (F (x / 4096) + x mod 4096) = guest_byte (m_phys m) img x /\
         used_page (p_pa (m_phys m')) (F (x / 4096)) /\ T' !! F (x / 4096) = None) /\
      (forall x y, 0 <= x < limit -> 0 <= y < limit -> F (x / 4096) = F (y / 4096) -> x / 4096 = y / 4096)) m.
Proof.
  intros entry limit root Hvm I He He0 Hl Hl48 Hfs Hsz Him Haf Hfree.
  eapply wp_mono; [|by apply (load_guest_ok m vm v T)].
  cbn beta. intros p m' (-> & T' & G & [I' Hd Hf Hi Hx Hc] & Em & Hs & _). split_and!; try done.
  exists T', (fun k => default 0 (G !! (k * 4096))). split; [done|].
  assert (HG : forall x, 0 <= x < limit -> exists pa, G !! (x / 4096 * 4096) = Some pa).
  { intros x Hxr. apply Hd. rewrite Z.mod_mul by lia. split; [|done]. Z.div_mod_to_equations. lia. }
  split.
  - intros x Hxr. destruct (HG x Hxr) as [pa E]. rewrite E. simpl. destruct (Hf _ _ E) as [Hu HT].
    pose proof (Z.div_mod x 4096). pose proof (Z.mod_pos_bound x 4096). split_and!; try done.
    + transitivity (xlate (p_mem (m_phys m')) root (entry + x / 4096 * 4096)); [|exact (Hx _ _ E)].
      apply xlate_page. rewrite !vpn_small by lia. Z.div_mod_to_equations. lia.
    + rewrite (Hc _ _ _ E) by lia. f_equal. lia.
  - intros x y Hxr Hyr. destruct (HG x Hxr) as [pa E], (HG y Hyr) as [pb E']. rewrite E, E'. simpl. intros ->.
    pose proof (Hi _ _ _ E E'). lia.
Qed.

End Load.

(** ** A concrete machine: two pages, an image of 5000 bytes *)

Definition example_image : guest := mkGuest [120] 0x40020000 6000 0x40021388.
Definition example_config : vmconfig := mkVmconfig (Some example_image) 1 8192 0x40000000.
Definition image_mem : memory := poke 0x40020fff 42 (p_mem example_phys).
Definition image_machine : machine sim := set_phys (set_mem image_mem example_phys) vgic_machine.

Lemma image_mem_peek b : peek image_mem b = if b =? 0x40020fff then 42 else 0.
Proof. unfold image_mem, peek, poke, cells. destruct (Z.eqb_spec b 0x40020fff) as [->|Hb]; [done|]. by rewrite lookup_insert_ne. Qed.

Lemma image_pt_inv : pt_inv (m_phys image_machine) 0x40122000 {[0x40122000 := 0]}.
Proof.
  apply (pt_inv_mem example_phys _ _ example_pt_inv); [done|done| |].
  - intros p b [l Hp] Hb. apply lookup_singleton_Some in Hp as [<- _]. rewrite image_mem_peek.
    destruct (Z.eqb_spec b 0x40020fff); [lia|done].
  - intros i b Hi Hb. apply elem_free_set in Hi as [Hi _]. rewrite image_mem_peek. unfold frame_addr in Hb. simpl in Hi, Hb.
    destruct (Z.eqb_spec b 0x40020fff); [lia|done].
Qed.

Lemma load_guest_spec_witness :
  wp (load_guest 0 example_config example_image) (fun p m' => p = 8192 /\ exists pa,
    xlate (p_mem (m_phys m')) 0x40122000 0x40000fff = leaf_pte pa (Z.lor S2PTE_NORMAL S2PTE_RW) /\
    peek (p_mem (m_phys m')) (pa + 0xfff) = 42) image_machine.
Proof.
  eapply wp_mono; [|apply (load_guest_spec image_machine 0 example_vm {[0x40122000 := 0]} example_config example_image)].
  - cbn beta. intros p m' (-> & _ & _ & T' & F & _ & Hx & _). split; [done|]. exists (F 0).
    destruct (Hx 0xfff) as (E1 & E2 & _); [done|]. split; [exact E1|]. etransitivity; [exact E2|reflexivity].
  - reflexivity.
  - exact image_pt_inv.
  - reflexivity.
  - discriminate.
  - reflexivity.
  - discriminate.
  - discriminate.
  - split; discriminate.
  - split; [discriminate|]. split; [reflexivity|]. intros b Hb i Hi. left.
    change (u64 _) with 5000 in Hb. simpl in *. unfold frame_addr. simpl. lia.
  - intros q Hq Hm. assert (q = 0 \/ q = 4096) as [-> | ->]; [|reflexivity..].
    change (cfg_ram_size _) with 8192 in Hq. Z.div_mod_to_equations. lia.
  - change (cfg_ram_size _) with 8192. vm_compute. discriminate.
Defined.
