(* ===== verification/TrapProofs.v ===== *)
(** The trap handlers: list registers are never overwritten while an interrupt is
    in one, a data abort is emulated once, and which hypervisor calls exist. *)
From stdpp Require Import base gmap list numbers tactics relations.
From S2P Require Import Prelude Spinlock PageAlloc Mem Mmu Machine Gic Hw GicProofs Timer Mmio Vgic VgicProofs Vcpu Psci Trap.

Section Wp.
Context {H : Type} `{!Hardware H} `{!PollFuel} `{!Image} `{!SysregLaws H}.
Implicit Types m : machine H.

Lemma wp_mrs_syndrome r Q m : syndrome r = true -> Q (sysreg_of (m_hw m) r) m -> wp (read_sysreg r) Q m.
Proof.
  intros Hr HQ. unfold read_sysreg. rewrite wp_bind. eapply wp_hw_read; [by apply mrs_syndrome|].
  rewrite wp_ret, set_hw_id. by rewrite u64_small by apply sysreg_range.
Qed.

Lemma wp_cur_vcpu Q m : Q (ptr_vcpu (sysreg_of (m_hw m) tpidr_el2)) m -> wp cur_vcpu Q m.
Proof. intros HQ. unfold cur_vcpu. rewrite wp_bind. apply wp_read_sysreg; [done|]. by rewrite wp_ret. Qed.

End Wp.

(** * Forwarding an interrupt *)

Section Irq.
Context {H : Type} `{!Hardware H} `{!PollFuel} `{!Image} `{!SysregLaws H}.
Implicit Types m : machine H.

(** An interrupt is in list register [j]. *)
Definition lr_live (h : H) (j : Z) : bool := negb (lr_is_inactive (sysreg_of h (ich_lr_el2 j))).

(** [c] is the virtual cpu running on the core, [k] its interrupt interface, and
    [used_lr] covers every list register with an interrupt in it. *)
Record lr_inv (c k : nat) m : Prop := {
  li_cur : ptr_vcpu (sysreg_of (m_hw m) tpidr_el2) = Some c;
  li_max : 0 <= m_lr_max m <= 16;
  li_vcpu : exists v, m_vcpus m !! c = Some v /\ v_vgic v = Some k;
  li_cover : exists vc, m_vgic_cpu m !! k = Some vc /\ is_u16 (used_lr vc) /\
    forall j, 0 <= j < m_lr_max m -> lr_live (m_hw m) j = true -> Z.testbit (used_lr vc) j = true
}.

(** What handling one interrupt may do to the list registers: those in use stay;
    the interrupt goes to one that is not, if there is one. *)
Definition lr_forwarded (n : Z) (h h' : H) (pirq : Z) : Prop :=
  (forall j, 0 <= j < n -> lr_live h j = true -> sysreg_of h' (ich_lr_el2 j) = sysreg_of h (ich_lr_el2 j)) /\
  ((exists j, 0 <= j < n /\ lr_live h j = false /\
      sysreg_of h' (ich_lr_el2 j) = Z.land (u64 (gic_make_lr pirq pirq 1)) (rw_bits (ich_lr_el2 j))) \/
   (forall j, 0 <= j < n -> lr_live h j = true)).

Lemma lr_live_held h h' j : same_held h h' -> 0 <= j < 16 -> lr_live h' j = lr_live h j.
Proof. intros Hs Hj. unfold lr_live. rewrite Hs; [done|]. simpl. lia. Qed.

Lemma ptr_held h h' c : same_held h h' -> ptr_vcpu (sysreg_of h tpidr_el2) = Some c -> ptr_vcpu (sysreg_of h' tpidr_el2) = Some c.
Proof. intros Hs. by rewrite Hs. Qed.

Lemma lr_inv_hw c k m h :
  lr_inv c k m -> ptr_vcpu (sysreg_of h tpidr_el2) = Some c ->
  (forall j, 0 <= j < 16 -> lr_live h j = true -> lr_live (m_hw m) j = true) -> lr_inv c k (set_hw h m).
Proof.
  intros [H1' H2' H3' (vc & Hk & Hu & Hl)] Hp Hh. split; try done. exists vc. split_and!; try done.
  intros j Hj Hlive. cbn [m_lr_max set_hw] in Hj. apply Hl; [done|]. apply Hh; [lia|done].
Qed.

Lemma lower_el_irq_ok c k m :
  lr_inv c k m ->
  wp lower_el_irq_handler (fun _ m' => lr_inv c k m' /\ m_lr_max m' = m_lr_max m /\
    exists pirq, lr_forwarded (m_lr_max m) (m_hw m) (m_hw m') pirq) m.
Proof.
  intros [Hcur Hmax (v & Hv & Hvk) (vc & Hk & Hu & Hcov)]. pose proof (lookup_lt_Some _ _ _ Hk) as Hlt. unfold lower_el_irq_handler.
  rewrite wp_bind. apply wp_cur_vcpu. rewrite Hcur.
  rewrite wp_bind. apply wp_read_mpidr. rewrite wp_bind. apply wp_r32_any. intros _ h1 S1.
  rewrite wp_bind. apply wp_r32_any. intros _ h2 S2. cbn [m_hw set_hw] in S2. rewrite set_hw_hw.
  pose proof (same_held_trans _ _ _ S1 S2) as S. clear S1 S2 h1.
  eapply wp_bind_Ok; [done|]. rewrite wp_bind.
  eapply wp_mono; [|apply (vgic_used_lr_update_ok (set_hw h2 m) c k v vc); done].
  cbn beta. intros _ m1 (u & Hu1 & -> & Hbits). cbn [m_hw set_hw m_lr_max] in Hbits.
  unfold gic_read_iar. rewrite !wp_bind. apply wp_mrs_any. intros iar h3 _ S3. rewrite wp_ret.
  cbn [m_hw set_hw set_lr_bits set_vgic_cpu] in S3. pose proof (same_held_trans _ _ _ S S3) as S'. clear S3.
  set (pirq := Z.land (u32 iar) 0xffffff). unfold gic_guest_eoi, gic_eoi. cbn [Z.eqb]. rewrite wp_bind. apply wp_write_sysreg.
  cbn [m_hw set_hw]. set (h4 := hw_msr icc_eoir1_el1 _ h3).
  assert (same_held (m_hw m) h4) as S4.
  { intros r Hr. unfold h4. rewrite msr_frame; [by apply S'|by left|]. intros ->. done. }
  rewrite wp_bind. eapply wp_mono; [|eapply (vgic_inject_virq_ok _ c k v (set_used_lr u vc) pirq pirq 1); try done].
  2: { cbn. by apply list_lookup_insert_eq. }
  cbn beta. intros res m' Hres. rewrite wp_ret. cbn [m_lr_max set_hw set_lr_bits set_vgic_cpu used_lr set_used_lr m_hw] in Hres.
  assert (Hu2 : forall j, 0 <= j < m_lr_max m -> Z.testbit u j = lr_live (m_hw m) j).
  { intros j Hj. rewrite Hbits by lia. unfold still_used. destruct (Z.ltb_spec j (m_lr_max m)); [|lia]. cbn [andb].
    change (negb _) with (lr_live h2 j). rewrite (lr_live_held _ _ _ S) by lia.
    destruct (lr_live (m_hw m) j) eqn:E; [|apply andb_false_r]. rewrite Hcov by done. done. }
  destruct (first_free _ 0 u) as [j|] eqn:Ef.
  - destruct Hres as (_ & h5 & -> & Hj & Hb & Hr). cbn [m_hw set_hw m_lr_max set_lr_bits set_vgic_cpu].
    rewrite Hu2 in Hb by done. split; [|split; [done|]].
    + split; cbn [m_hw set_hw m_lr_max m_vcpus m_vgic_cpu set_lr_bits set_vgic_cpu]; [|done|by exists v|].
      * rewrite Hr. by apply (ptr_held (m_hw m)).
      * eexists. split; [rewrite !list_insert_insert_eq; by apply list_lookup_insert_eq|]. cbn [used_lr set_used_lr]. split.
        { apply (lor_bound 16); [lia|done|]. split; [apply Z.pow_nonneg; lia|apply Z.pow_lt_mono_r; lia]. }
        intros i Hi Hlive. rewrite Z.lor_spec, Z.pow2_bits_eqb by lia. destruct (Z.eqb_spec j i) as [|Hne]; [apply orb_true_r|].
        rewrite orb_false_r, Hu2 by done. rewrite <- Hlive. unfold lr_live. rewrite Hr, bool_decide_false by congruence.
        rewrite S4; [done|simpl; lia].
    + exists pirq. split.
      * intros i Hi Hlive. rewrite Hr. rewrite bool_decide_false by (intros [= ->]; congruence). apply S4. simpl. lia.
      * left. exists j. split_and!; try done; try lia. rewrite Hr. by rewrite bool_decide_true.
  - destruct Hres as (_ & -> & Hall). cbn [m_hw set_hw m_lr_max set_lr_bits set_vgic_cpu]. split; [|split; [done|]].
    + split; cbn [m_hw set_hw m_lr_max m_vcpus m_vgic_cpu set_lr_bits set_vgic_cpu]; [by apply (ptr_held (m_hw m))|done|by exists v|].
      eexists. split; [by apply list_lookup_insert_eq|]. split; [done|]. intros i Hi _. by apply Hall.
    + exists pirq. split; [intros i Hi _; apply S4; simpl; lia|]. right. intros i Hi. rewrite <- Hu2 by done. by apply Hall.
Qed.

(** What happens on the core while the virtual cpu runs: an interrupt is taken, or
    the guest runs, which acknowledges and completes the interrupts in the list
    registers and so never makes one live. *)
Inductive core_step : machine H -> machine H -> Prop :=
| step_irq m m' : lower_el_irq_handler m = Ok tt m' -> core_step m m'
| step_guest m h : sysreg_of h tpidr_el2 = sysreg_of (m_hw m) tpidr_el2 ->
    (forall j, 0 <= j < 16 -> lr_live h j = true -> lr_live (m_hw m) j = true) -> core_step m (set_hw h m).

Lemma core_step_inv c k m m' : core_step m m' -> lr_inv c k m -> lr_inv c k m'.
Proof.
  intros [m1 m1' E|m1 h Ht Hh] I.
  - pose proof (lower_el_irq_ok c k m1 I) as W. unfold wp in W. rewrite E in W. apply W.
  - apply lr_inv_hw; [done| |done]. rewrite Ht. apply I.
Qed.

(** C30 However interrupts and the guest's own steps interleave: the handler of the
    next interrupt returns, no list register that holds an interrupt is overwritten,
    and the new interrupt is put into a list register that held none - or, when all
    of them are taken, it is dropped. *)
Theorem irq_never_overwritten c k m0 m :
  lr_inv c k m0 -> rtc core_step m0 m ->
  wp lower_el_irq_handler (fun _ m' => lr_inv c k m' /\
    exists pirq, lr_forwarded (m_lr_max m) (m_hw m) (m_hw m') pirq) m.
Proof.
  intros I R. assert (lr_inv c k m) as I' by (induction R; eauto using core_step_inv).
  eapply wp_mono; [|by apply lower_el_irq_ok]. cbn beta. intros _ m' (? & _ & ?). done.
Qed.

End Irq.

(** * Synchronous exceptions *)

(** ** The fields of the syndrome *)

Definition esr_ec (esr : Z) : Z := esr / 2 ^ 26.
Definition esr_field (esr off w : Z) : Z := esr / 2 ^ off mod 2 ^ w.

Lemma iss_field esr off w :
  0 <= off -> 0 <= w -> off + w <= 25 ->
  Z.shiftr (Z.land (Z.shiftr (Z.land esr ESR_ISS_MASK) ESR_ISS_OFFSET) (Z.shiftl (Z.ones w) off)) off = esr_field esr off w.
Proof.
  intros Ho Hw Hs. unfold esr_field, ESR_ISS_OFFSET. rewrite Z.shiftr_0_r.
  change ESR_ISS_MASK with (Z.ones 25). rewrite <- Z.shiftr_div_pow2, <- Z.land_ones by lia.
  apply Z.bits_inj'. intros i Hi. rewrite Z.shiftr_spec, !Z.land_spec, Z.shiftl_spec, Z.shiftr_spec by lia.
  replace (i + off - off) with i by lia. destruct (Z.lt_ge_cases i w).
  - rewrite !Z.ones_spec_low by lia. by rewrite !andb_true_r.
  - rewrite (Z.ones_spec_high w) by lia. by rewrite !andb_false_r.
Qed.

Lemma fault_ipa hpfar far :
  Z.lor (u64 (Z.shiftl (Z.land hpfar HPFAR_FIPA_MASK) 8)) (Z.land far (PAGE_SIZE - 1)) =
  hpfar / 16 mod 2 ^ 40 * 4096 + far mod 4096.
Proof.
  change (PAGE_SIZE - 1) with (Z.ones 12). rewrite Z.land_ones by lia.
  assert (E : Z.shiftl (Z.land hpfar HPFAR_FIPA_MASK) 8 = Z.shiftl (hpfar / 16 mod 2 ^ 40) 12).
  { change HPFAR_FIPA_MASK with (Z.shiftl (Z.ones 40) 4). change 16 with (2 ^ 4).
    rewrite <- Z.shiftr_div_pow2, <- Z.land_ones by lia.
    apply Z.bits_inj'. intros i Hi. rewrite !Z.shiftl_spec, Z.land_spec by lia.
    destruct (Z.lt_ge_cases i 12).
    - rewrite (Z.testbit_neg_r _ (i - 12)) by lia. destruct (Z.lt_ge_cases i 8).
      + by rewrite (Z.testbit_neg_r hpfar) by lia.
      + rewrite Z.shiftl_spec, (Z.testbit_neg_r _ (i - 8 - 4)) by lia. by rewrite andb_false_r.
    - rewrite Z.land_spec, Z.shiftr_spec, Z.shiftl_spec by lia. do 2 f_equal; lia. }
  rewrite E, Z.shiftl_mul_pow2 by lia. set (q := hpfar / 16 mod 2 ^ 40).
  assert (0 <= q < 2 ^ 40) by (apply Z.mod_pos_bound; lia). change (2 ^ 12) with 4096.
  rewrite u64_small by (unfold is_u64; lia).
  pose proof (lor_disjoint_add (far mod 4096) q 12) as E2. rewrite Z.shiftl_mul_pow2 in E2 by lia.
  pose proof (Z.mod_pos_bound far 4096). rewrite Z.lor_comm. change 4096 with (2 ^ 12) in *. rewrite E2 by lia. lia.
Qed.

Lemma sync_handler_ec esr : is_u32 esr ->
  get_sync_trap_handler esr =
    if esr_ec esr =? ESR_EC_WFx then Some wfx_fn
    else if esr_ec esr =? ESR_EC_HVC64 then Some hvc_fn
    else if esr_ec esr =? ESR_EC_DALEL then Some data_abort_fn else None.
Proof.
  intros He. unfold get_sync_trap_handler.
  assert (Z.shiftr (Z.land esr ESR_EC_MASK) ESR_EC_OFFSET = esr_ec esr) as ->.
  { unfold esr_ec, ESR_EC_OFFSET. rewrite <- Z.shiftr_div_pow2 by lia. change ESR_EC_MASK with (Z.shiftl (Z.ones 38) 26).
    apply Z.bits_inj'. intros i Hi. rewrite !Z.shiftr_spec, Z.land_spec, Z.shiftl_spec by lia. replace (i + 26 - 26) with i by lia.
    destruct (Z.lt_ge_cases i 38); [by rewrite Z.ones_spec_low, andb_true_r by lia|].
    rewrite (testbit_high 32 esr) by (unfold is_u32 in He; lia). done. }
  unfold ESR_EC_WFx, ESR_EC_HVC64, ESR_EC_SMC64, ESR_EC_SYSRG, ESR_EC_IALEL, ESR_EC_PCALG, ESR_EC_DALEL, ESR_EC_DAEL2, ESR_EC_SPALG.
  repeat (case_match; try done); lia.
Qed.

Section Sync.
Context {H : Type} `{!Hardware H} `{!PollFuel} `{!Image} `{!SysregLaws H}.
Implicit Types m : machine H.

(** The exception taken on the core that runs virtual cpu [c]. *)
Record trapped m (c : nat) (v : vcpu) (vi : nat) (w : vm) (esr : Z) : Prop := {
  tr_cur : ptr_vcpu (sysreg_of (m_hw m) tpidr_el2) = Some c;
  tr_esr : sysreg_of (m_hw m) esr_el2 = esr;
  tr_u32 : is_u32 esr;
  tr_vcpu : m_vcpus m !! c = Some v;
  tr_vm : v_vm v = Some vi;
  tr_get_vm : m_vms m !! vi = Some w;
  tr_regs : length (v_x v) = 31%nat
}.

Lemma read_ok r m : holds r = true -> read_sysreg r m = Ok (sysreg_of (m_hw m) r) m.
Proof.
  intros Hr. unfold read_sysreg, hw_read, bind, get. rewrite mrs_holds by done. unfold ret.
  by rewrite set_hw_id, u64_small by apply sysreg_range.
Qed.

Lemma cur_vcpu_ok m : cur_vcpu m = Ok (ptr_vcpu (sysreg_of (m_hw m) tpidr_el2)) m.
Proof. unfold cur_vcpu. by erewrite bind_Ok by (by apply read_ok). Qed.

Lemma syndrome_ok r m : syndrome r = true -> read_sysreg r m = Ok (sysreg_of (m_hw m) r) m.
Proof.
  intros Hr. unfold read_sysreg, hw_read, bind, get. rewrite mrs_syndrome by done. unfold ret.
  by rewrite set_hw_id, u64_small by apply sysreg_range.
Qed.

Lemma dump_panics m c v vi :
  ptr_vcpu (sysreg_of (m_hw m) tpidr_el2) = Some c -> m_vcpus m !! c = Some v -> v_vm v = Some vi -> is_Some (m_vms m !! vi) ->
  exists m', (vm_reg_dump ;; panic (A := unit)) m = Panic m'.
Proof.
  intros Hcur Hv Hvm [w Hw]. assert (wp vm_reg_dump (fun _ _ => True) m) as W.
  { unfold vm_reg_dump. rewrite wp_bind. apply wp_cur_vcpu. rewrite Hcur.
    do 10 (rewrite wp_bind; apply wp_mrs_any; intros ? ? _ _; rewrite ?set_hw_hw).
    eapply wp_bind_Ok; [done|]. eapply wp_bind_Ok.
    { unfold vcpu_vm. erewrite bind_Ok by (by apply get_vcpu_ok). by rewrite Hvm. }
    eapply wp_bind_Ok; [by apply get_vm_ok|]. done. }
  apply wp_Ok in W as ([] & m' & E & _). exists m'. by erewrite bind_Ok by exact E.
Qed.

Lemma sync_eq m c v vi w esr :
  trapped m c v vi w esr ->
  lower_el_sync_handler m =
    match get_sync_trap_handler esr with
    | Some h => (let! r := call_sync h c esr in if negb (r =? 0) then vm_reg_dump ;; panic else ret tt) m
    | None => (vm_reg_dump ;; panic) m
    end.
Proof.
  intros [Hc He _ Hv Hvm Hw _]. unfold lower_el_sync_handler. erewrite bind_Ok by apply cur_vcpu_ok.
  erewrite bind_Ok by (by apply syndrome_ok). rewrite He, Hc. by destruct (get_sync_trap_handler esr).
Qed.

(** ** Data aborts *)

(** The access that the syndrome describes. *)
Definition fault_access (h : H) (esr : Z) : mmio_access :=
  mkAccess (sysreg_of h hpfar_el2 / 16 mod 2 ^ 40 * 4096 + sysreg_of h far_el2 mod 4096) (sysreg_of h elr_el2)
    (esr_field esr 22 2) (esr_field esr 6 1).

Lemma data_abort_eq m c esr :
  data_abort_handler c esr m =
    if negb (esr_field esr 10 1 =? 0) then Ok (-1) m
    else (let! r := mmio_emulate c (esr_field esr 16 5) (fault_access (m_hw m) esr) in
          if r <? 0 then ret (-1) else advance_pc c ;; ret 0) m.
Proof.
  unfold data_abort_handler. do 3 (erewrite bind_Ok by (by apply syndrome_ok)). rewrite fault_ipa.
  change DA_ISS_SRT_MASK with (Z.shiftl (Z.ones 5) 16). change DA_ISS_FnV_MASK with (Z.shiftl (Z.ones 1) 10).
  change DA_ISS_SAS_MASK with (Z.shiftl (Z.ones 2) 22). change DA_ISS_WnR_MASK with (Z.shiftl (Z.ones 1) 6).
  unfold DA_ISS_SRT_OFFSET, DA_ISS_FnV_OFFSET, DA_ISS_SAS_OFFSET, DA_ISS_WnR_OFFSET. rewrite !iss_field by lia.
  by destruct (negb _).
Qed.

(** C31 A data abort of the guest is emulated once: when the address lies in a region
    and the region's handler succeeds, the trap returns with that handler's effect
    and the guest's PC moved past the instruction - nothing else; when the syndrome
    gives no valid address, or no region contains it, the core panics. *)
Theorem data_abort_emulated m c v vi w esr l :
  trapped m c v vi w esr -> esr_ec esr = ESR_EC_DALEL ->
  length (m_mmio m) = 64%nat -> chain (m_mmio m) (vm_mmio_list w) l ->
  let a := fault_access (m_hw m) esr in
  let rt := esr_field esr 16 5 in
  match find_region (regions (m_mmio m) l) (ma_ipa a) with
  | Some e => esr_field esr 10 1 = 0 ->
      forall r m2 v2, dispatch e c (access_reg c rt) (access_val (v_x v) rt) a m = Ok r m2 -> 0 <= r -> m_vcpus m2 !! c = Some v2 ->
      lower_el_sync_handler m = Ok tt (set_vcpus (<[c := set_v_elr_el2 (u64 (v_elr_el2 v2 + 4)) v2]> (m_vcpus m2)) m2)
  | None => exists m', lower_el_sync_handler m = Panic m'
  end /\
  (esr_field esr 10 1 <> 0 -> exists m', lower_el_sync_handler m = Panic m').
Proof.
  intros T Hec Hlen Hch a rt. pose proof T as [Hc He Hu Hv Hvm Hw Hx]. rewrite (sync_eq m c v vi w esr T), (sync_handler_ec _ Hu), Hec. simpl.
  assert (0 <= rt <= 31) as Hrt by (unfold rt, esr_field; pose proof (Z.mod_pos_bound (esr / 2 ^ 16) (2 ^ 5)); lia).
  pose proof (mmio_emulate_ok m c vi v w l rt a Hv Hvm Hw Hlen Hx Hrt Hch) as Hem. unfold lookup_region in Hem.
  assert (Hfail : forall x, data_abort_handler c esr m = Ok x m -> x <> 0 -> exists m',
    (let! r := data_abort_handler c esr in if negb (r =? 0) then vm_reg_dump ;; panic (A := unit) else ret tt) m = Panic m').
  { intros x Ex Hx0. erewrite bind_Ok by exact Ex. destruct (Z.eqb_spec x 0); [done|]. simpl. by eapply dump_panics. }
  pose proof (data_abort_eq m c esr) as Ed. fold a rt in Ed. split.
  - destruct (find_region _ _) as [e|] eqn:Ef.
    + intros Hfnv r m2 v2 Edisp Hr Hv2. rewrite Hfnv in Ed. cbn [Z.eqb negb] in Ed. erewrite bind_Ok; [|].
      2: { rewrite Ed. erewrite bind_Ok by (rewrite Hem; exact Edisp). destruct (Z.ltb_spec r 0); [lia|].
           unfold advance_pc. erewrite bind_Ok by (by apply upd_vcpu_ok). done. }
      done.
    + destruct (Z.eqb_spec (esr_field esr 10 1) 0); simpl in Ed; [|by apply (Hfail (-1))].
      apply (Hfail (-1)); [|done]. rewrite Ed. by erewrite bind_Ok by (rewrite Hem; done).
  - intros Hfnv. apply (Hfail (-1)); [|done]. rewrite Ed. by destruct (Z.eqb_spec (esr_field esr 10 1) 0).
Qed.

(** ** Hypervisor calls *)

Lemma land_u32 x k : is_u32 k -> Z.land x k = Z.land (u32 x) k.
Proof.
  intros Hk. apply Z.bits_inj'. intros i Hi. rewrite !Z.land_spec, testbit_u32 by done.
  destruct (Z.ltb_spec i 32); [done|]. rewrite (testbit_high 32 k) by (unfold is_u32 in Hk; lia). by rewrite !andb_false_r.
Qed.

(** The identifiers that get through to [psci_cpu_on]. *)
Lemma hvc_fid fid :
  Z.land fid (notw 32 SMCC_FID_FN_NUM_MSK) = SMCC64_FID_STD_SRVC -> u32 fid <> PSCI_VERSION /\ u32 fid <> PSCI_FEATURES.
Proof.
  intros E. rewrite land_u32 in E by (split; [by vm_compute|reflexivity]).
  split; intros Ef; rewrite Ef in E; vm_compute in E; discriminate.
Qed.

Lemma hvc_fid_cpu_on fid :
  u32 fid = PSCI_CPU_ON_SMC64 ->
  Z.land fid (notw 32 SMCC_FID_FN_NUM_MSK) =? SMCC64_FID_STD_SRVC = true /\ is_psci_fid fid = true.
Proof.
  intros E. unfold is_psci_fid, is_smc_stdsrvc_fid, is_smc64_stdsrvc_fid, is_smc32_stdsrvc_fid.
  rewrite !(land_u32 fid), E by (split; [by vm_compute|reflexivity]). split; reflexivity.
Qed.

Definition xreg (v : vcpu) (i : nat) : Z := nth i (v_x v) 0.

Lemma get_x_ok (v : vcpu) i m : length (v_x v) = 31%nat -> (i < 31)%nat -> get_x v i m = Ok (xreg v i) m.
Proof.
  intros Hl Hi. unfold get_x, xreg. destruct (lookup_lt_is_Some_2 (v_x v) i) as [x E]; [lia|].
  rewrite (nth_lookup_Some _ _ _ _ E), E. done.
Qed.

(** The handler up to the call of the PSCI code. *)
Lemma syscall_eq m c v :
  m_vcpus m !! c = Some v -> length (v_x v) = 31%nat ->
  syscall_handler c m =
    (let! r := (if Z.land (xreg v 0) (notw 32 SMCC_FID_FN_NUM_MSK) =? SMCC64_FID_STD_SRVC
                then if is_psci_fid (xreg v 0) then psci_handler c (u32 (xreg v 0)) (xreg v 1) (xreg v 2) (xreg v 3) else panic
                else panic) in
     store_reg (Some (c, 0%nat)) (u64 r) ;; ret (i32 r)) m.
Proof.
  intros Hv Hl. unfold syscall_handler. erewrite bind_Ok by (by apply get_vcpu_ok).
  erewrite bind_Ok by (apply get_x_ok; (done || lia)). destruct (_ =? SMCC64_FID_STD_SRVC); [|done].
  unfold bind at 1 3. unfold standard_service_call. erewrite bind_Ok by (by apply get_vcpu_ok).
  do 4 (erewrite bind_Ok by (apply get_x_ok; (done || lia))). done.
Qed.

(** The virtual cpus after a successful call: the target is ready at its entry. *)
Definition cpu_on_vcpus (vs : list vcpu) (t : nat) (tv : vcpu) (entry : Z) : list vcpu :=
  <[t := set_v_state READY (set_v_elr_el2 entry tv)]> vs.

Lemma psci_cpu_on_ok m c v vi w t tv x1 x2 x3 r h :
  m_vcpus m !! c = Some v -> v_vm v = Some vi -> m_vms m !! vi = Some w ->
  vm_vcpus w !! Z.to_nat x1 = Some (Some t) -> m_vcpus m !! t = Some tv ->
  hw_smc PSCI_CPU_ON (u64 x1) (u64 start_addr) 0 (m_hw m) = (r, h) ->
  psci_cpu_on c x1 x2 x3 m = Ok (i64 (u64 r)) (set_hw h (set_vcpus (cpu_on_vcpus (m_vcpus m) t tv x2) m)).
Proof.
  intros Hv Hvm Hw Ht Htv Hsmc. unfold psci_cpu_on. pose proof (lookup_lt_Some _ _ _ Htv).
  erewrite bind_Ok. 2: { unfold vcpu_vm. erewrite bind_Ok by (by apply get_vcpu_ok). by rewrite Hvm. }
  erewrite bind_Ok by (by apply get_vm_ok). rewrite Ht. erewrite bind_Ok by done. erewrite bind_Ok by done.
  erewrite bind_Ok by (by apply upd_vcpu_ok). erewrite bind_Ok.
  2: { unfold vcpu_ready. erewrite bind_Ok by done. apply upd_vcpu_ok. cbn. by apply list_lookup_insert_eq. }
  unfold psci_call. change (u32 PSCI_CPU_ON) with PSCI_CPU_ON. change (u64 0) with 0. erewrite bind_Ok.
  2: { erewrite bind_Ok by (unfold hw_read; cbn; by rewrite Hsmc). done. }
  unfold cpu_on_vcpus. cbn. by rewrite list_insert_insert_eq.
Qed.

Lemma cpu_on_lookup vs t tv e c v vc :
  vs !! t = Some tv -> vs !! c = Some v -> cpu_on_vcpus vs t tv e !! c = Some vc -> v_x vc = v_x v /\ v_vm vc = v_vm v.
Proof.
  unfold cpu_on_vcpus. intros Ht Hc. destruct (decide (t = c)) as [->|].
  - rewrite list_lookup_insert_eq by (by eapply lookup_lt_Some). intros [= <-]. by assert (tv = v) as -> by congruence.
  - rewrite list_lookup_insert_ne by done. intros E. by assert (vc = v) as -> by congruence.
Qed.

Lemma psci_cpu_on_escapes m c v vi w x1 x2 x3 :
  m_vcpus m !! c = Some v -> v_vm v = Some vi -> m_vms m !! vi = Some w ->
  vm_vcpus w !! Z.to_nat x1 = None \/ vm_vcpus w !! Z.to_nat x1 = Some None -> psci_cpu_on c x1 x2 x3 m = Fault.
Proof.
  intros Hv Hvm Hw Hx. unfold psci_cpu_on.
  erewrite bind_Ok. 2: { unfold vcpu_vm. erewrite bind_Ok by (by apply get_vcpu_ok). by rewrite Hvm. }
  erewrite bind_Ok by (by apply get_vm_ok). by destruct Hx as [-> | ->].
Qed.

(** C37 The hypervisor calls of the guest.  CPU_ON (64-bit) marks the virtual cpu
    that x1 selects ready at the entry point x2, asks the firmware to start the core,
    and returns to the guest with 0 in x0; when the firmware refuses, or for any other
    function, PSCI_VERSION and PSCI_FEATURES included, the core panics; an x1 that
    selects no virtual cpu of the vm reads outside its table. *)
Theorem hvc_spec m c v vi w esr :
  trapped m c v vi w esr -> esr_ec esr = ESR_EC_HVC64 ->
  (u32 (xreg v 0) <> PSCI_CPU_ON_SMC64 -> exists m', lower_el_sync_handler m = Panic m') /\
  (u32 (xreg v 0) = PSCI_CPU_ON_SMC64 ->
   match vm_vcpus w !! Z.to_nat (xreg v 1) with
   | Some (Some t) => forall tv r h vc,
       m_vcpus m !! t = Some tv -> hw_smc PSCI_CPU_ON (u64 (xreg v 1)) (u64 start_addr) 0 (m_hw m) = (r, h) ->
       cpu_on_vcpus (m_vcpus m) t tv (xreg v 2) !! c = Some vc ->
       (u64 r = 0 -> lower_el_sync_handler m =
          Ok tt (set_hw h (set_vcpus (<[c := set_v_x (<[0%nat := 0]> (v_x vc)) vc]> (cpu_on_vcpus (m_vcpus m) t tv (xreg v 2))) m))) /\
       (i32 (i64 (u64 r)) <> 0 -> same_held (m_hw m) h -> exists m', lower_el_sync_handler m = Panic m')
   | _ => lower_el_sync_handler m = Fault
   end).
Proof.
  intros T Hec. pose proof T as [Hc He Hu Hv Hvm Hw Hx].
  rewrite (sync_eq m c v vi w esr T), (sync_handler_ec _ Hu), Hec. cbn [Z.eqb ESR_EC_HVC64 ESR_EC_WFx Pos.eqb call_sync]. unfold hvc_handler.
  pose proof (syscall_eq m c v Hv Hx) as Es. split.
  - intros Hne. exists m. unfold bind. rewrite Es. destruct (Z.eqb_spec (Z.land (xreg v 0) (notw 32 SMCC_FID_FN_NUM_MSK)) SMCC64_FID_STD_SRVC) as [E|]; [|done].
    destruct (is_psci_fid (xreg v 0)); [|done]. apply hvc_fid in E as [? ?]. unfold psci_handler.
    destruct (Z.eqb_spec (u32 (xreg v 0)) PSCI_VERSION), (Z.eqb_spec (u32 (xreg v 0)) PSCI_CPU_ON_SMC64), (Z.eqb_spec (u32 (xreg v 0)) PSCI_FEATURES); done.
  - intros Hf. destruct (hvc_fid_cpu_on _ Hf) as [E1 E2]. rewrite E1, E2, Hf in Es.
    change (psci_handler c PSCI_CPU_ON_SMC64) with (psci_cpu_on (H := H) c) in Es.
    destruct (vm_vcpus w !! Z.to_nat (xreg v 1)) as [[t|]|] eqn:Et.
    + intros tv r h vc Htv Hsmc Hvc. pose proof (psci_cpu_on_ok m c v vi w t tv (xreg v 1) (xreg v 2) (xreg v 3) r h Hv Hvm Hw Et Htv Hsmc) as Eon.
      destruct (cpu_on_lookup _ _ _ _ _ _ _ Htv Hv Hvc) as [Hxc Hmc].
      assert (Hvx : exists y, v_x vc !! 0%nat = Some y) by (apply lookup_lt_is_Some_2; rewrite Hxc; lia).
      destruct Hvx as [y Hy]. erewrite bind_Ok in Es by exact Eon.
      erewrite bind_Ok in Es by (apply (store_reg_ok _ c 0%nat vc _ y); [exact Hvc|exact Hy]). split.
      * intros Hr. rewrite Hr in Es. erewrite bind_Ok by exact Es. done.
      * intros Hr Hs. erewrite bind_Ok by exact Es. destruct (Z.eqb_spec (i32 (i64 (u64 r))) 0); [done|]. simpl negb. cbn iota.
        eapply (dump_panics _ c (set_v_x (<[0%nat := u64 (u64 (i64 (u64 r)))]> (v_x vc)) vc) vi).
        -- cbn. by apply (ptr_held (m_hw m)).
        -- cbn. apply list_lookup_insert_eq. by eapply lookup_lt_Some.
        -- cbn. congruence.
        -- cbn. by eexists.
    + unfold bind at 1. rewrite Es. unfold bind at 1. erewrite psci_cpu_on_escapes by eauto. done.
    + unfold bind at 1. rewrite Es. unfold bind at 1. erewrite psci_cpu_on_escapes by eauto. done.
Qed.

End Sync.

(** A core that runs virtual cpu 0, with four list registers, before and after a
    first interrupt. *)
Definition irq_machine : machine sim :=
  set_hw (mkSim (fun r => if bool_decide (r = tpidr_el2) then 0x40010000 else 0) ∅) vgic_machine.
Definition irq_machine1 : machine sim :=
  match lower_el_irq_handler irq_machine with Ok _ m => m | _ => irq_machine end.

Lemma irq_machine_inv : lr_inv 0 0 irq_machine.
Proof.
  split; [reflexivity|simpl; lia|by exists (example_vcpu 0)|]. exists vgic_cpu0. split_and!; [done|by vm_compute|].
  intros j Hj. discriminate.
Qed.

Lemma irq_never_overwritten_witness :
  lr_live (m_hw irq_machine1) 0 = true /\
  wp lower_el_irq_handler (fun _ m' => sysreg_of (m_hw m') (ich_lr_el2 0) = sysreg_of (m_hw irq_machine1) (ich_lr_el2 0))
    irq_machine1.
Proof.
  assert (E : lr_live (m_hw irq_machine1) 0 = true) by (vm_compute; reflexivity). split; [exact E|].
  eapply wp_mono; [|apply (irq_never_overwritten 0 0 irq_machine irq_machine1)].
  - cbn beta. intros _ m' (_ & pirq & Hf & _). apply Hf; [|exact E]. split; [lia|by vm_compute].
  - exact irq_machine_inv.
  - apply rtc_once, step_irq. vm_compute. reflexivity.
Defined.

(** A load of x3 from the first register of the disk of [irq_machine]; a call of
    PSCI_VERSION; CPU_ON of virtual cpu 1 at 0x80000000. *)
Definition trap_machine (esr x0 x1 x2 : Z) : machine sim :=
  let v := set_v_x (<[0%nat := x0]> (<[1%nat := x1]> (<[2%nat := x2]> (replicate 31 0)))) (example_vcpu 0) in
  set_hw (mkSim (fun r => match r with tpidr_el2 => 0x40010000 | esr_el2 => esr | hpfar_el2 => 0xa0000 | _ => 0 end) ∅)
    (set_mmio (<[0%nat := mkMmio None 0xa000000 0x10000 (Some virtio_read_fn) (Some virtio_write_fn)]> (replicate 64 mmio0))
      (set_vms [set_vm_mmio_list (Some 0%nat) example_vm; vm0]
        (set_vcpus (<[0%nat := v]> (m_vcpus vgic_machine)) vgic_machine))).

Lemma trap_machine_trapped esr x0 x1 x2 : is_u32 esr ->
  trapped (trap_machine esr x0 x1 x2) 0
    (set_v_x (<[0%nat := x0]> (<[1%nat := x1]> (<[2%nat := x2]> (replicate 31 0)))) (example_vcpu 0)) 0
    (set_vm_mmio_list (Some 0%nat) example_vm) esr.
Proof. intros He. split; try done. cbn. apply u64_small. unfold is_u32, is_u64 in *. lia. Qed.

Definition trap_vcpu (x0 x1 x2 : Z) : vcpu :=
  set_v_x (<[0%nat := x0]> (<[1%nat := x1]> (<[2%nat := x2]> (replicate 31 0)))) (example_vcpu 0).
Definition trap_vm : vm := set_vm_mmio_list (Some 0%nat) example_vm.
Definition disk_region : mmio_info := mkMmio None 0xa000000 0x10000 (Some virtio_read_fn) (Some virtio_write_fn).
Definition abort_machine : machine sim := trap_machine 0x91830000 0 0 0.
Definition after_load : machine sim :=
  set_vcpus (<[0%nat := set_v_x (<[3%nat := 0x74726976]> (v_x (trap_vcpu 0 0 0))) (trap_vcpu 0 0 0)]> (m_vcpus abort_machine)) abort_machine.

Lemma data_abort_emulated_witness :
  exists m', lower_el_sync_handler abort_machine = Ok tt m' /\
    exists v, m_vcpus m' !! 0%nat = Some v /\ xreg v 3 = 0x74726976 /\ v_elr_el2 v = 4.
Proof.
  assert (Hu : is_u32 0x91830000) by (split; [discriminate|reflexivity]).
  assert (Hch : chain (m_mmio abort_machine) (vm_mmio_list trap_vm) [0%nat])
    by (econstructor; [reflexivity|discriminate|constructor|apply not_elem_of_nil]).
  pose proof (data_abort_emulated abort_machine 0 (trap_vcpu 0 0 0) 0 trap_vm 0x91830000 [0%nat]
    (trap_machine_trapped 0x91830000 0 0 0 Hu) eq_refl eq_refl Hch) as D.
  cbv zeta in D. destruct D as [D _].
  assert (Ef : find_region (regions (m_mmio abort_machine) [0%nat]) (ma_ipa (fault_access (m_hw abort_machine) 0x91830000)) = Some disk_region)
    by (vm_compute; reflexivity).
  rewrite Ef in D.
  assert (Ed : dispatch disk_region 0 (access_reg 0 (esr_field 0x91830000 16 5))
    (access_val (v_x (trap_vcpu 0 0 0)) (esr_field 0x91830000 16 5)) (fault_access (m_hw abort_machine) 0x91830000) abort_machine =
    Ok 0 after_load) by (vm_compute; reflexivity).
  assert (E10 : esr_field 0x91830000 10 1 = 0) by (vm_compute; reflexivity).
  eexists. split; [exact (D E10 0 after_load _ Ed (Z.le_refl 0) eq_refl)|].
  eexists. split; [reflexivity|]. split; reflexivity.
Defined.

Definition on_machine : machine sim := trap_machine 0x5a000000 PSCI_CPU_ON_SMC64 1 0x80000000.

Lemma hvc_spec_witness :
  (exists m', lower_el_sync_handler (trap_machine 0x5a000000 PSCI_VERSION 0 0) = Panic m') /\
  (exists m', lower_el_sync_handler on_machine = Ok tt m' /\ v_elr_el2 <$> m_vcpus m' !! 1%nat = Some 0x80000000).
Proof.
  assert (Hu : is_u32 0x5a000000) by (split; [discriminate|reflexivity]). split.
  - apply (hvc_spec (trap_machine 0x5a000000 PSCI_VERSION 0 0) 0 (trap_vcpu PSCI_VERSION 0 0) 0 trap_vm 0x5a000000
      (trap_machine_trapped _ _ _ _ Hu) eq_refl). vm_compute. discriminate.
  - pose proof (hvc_spec on_machine 0 (trap_vcpu PSCI_CPU_ON_SMC64 1 0x80000000) 0 trap_vm 0x5a000000
      (trap_machine_trapped _ _ _ _ Hu) eq_refl) as [_ D].
    specialize (D ltac:(vm_compute; reflexivity)).
    destruct (D (example_vcpu 1) 0 (m_hw on_machine) (trap_vcpu PSCI_CPU_ON_SMC64 1 0x80000000) eq_refl eq_refl eq_refl) as [E _].
    eexists. split; [apply E; reflexivity|]. reflexivity.
Defined.
