(* ===== verification/VirtioProofs.v ===== *)
(** The virtio block device: one request from its descriptors to the status byte,
    and what becomes of a chain of descriptors that does not end. *)
From stdpp Require Import base gmap list numbers tactics.
From S2P Require Import Prelude Spinlock PageAlloc Mem Mmu Machine Gic Hw GicProofs Mmio Vgic Vcpu Virtio Vm VgicProofs VmProofs TrapProofs.

(** * Descriptors in memory *)

Definition desc_of (mem : memory) (desc i : Z) : virtq_desc :=
  let a := desc + DESC_SIZE * i in mkDesc (rd 8 mem a) (rd 4 mem (a + 8)) (rd 2 mem (a + 12)) (rd 2 mem (a + 14)).
Definition has_next (d : virtq_desc) : bool := negb (Z.land (d_flags d) VRING_DESC_F_NEXT =? 0).
Definition desc_in_ram (mem : memory) (desc i : Z) : Prop := in_ram mem (desc + DESC_SIZE * i) DESC_SIZE = true.

Section Desc.
Context {H : Type}.
Implicit Types m : machine H.

Lemma ram_load_ok n a m : in_ram (p_mem (m_phys m)) a (Z.of_nat n) = true -> ram_load n a m = Ok (rd n (p_mem (m_phys m)) a) m.
Proof.
  intros Hin. unfold ram_load, on_phys, on_mem, zoom, load, bind, get. rewrite Hin. unfold ret. by destruct m as [? [] ?].
Qed.

Lemma ram_store_ok n a v m :
  in_ram (p_mem (m_phys m)) a (Z.of_nat n) = true ->
  ram_store n a v m = Ok tt (set_phys (set_mem (wr n a v (p_mem (m_phys m))) (m_phys m)) m).
Proof. intros Hin. unfold ram_store, on_phys, on_mem, zoom, store, bind, get. by rewrite Hin. Qed.

Lemma load_desc_ok desc i m :
  desc_in_ram (p_mem (m_phys m)) desc i -> load_desc desc i m = Ok (desc_of (p_mem (m_phys m)) desc i) m.
Proof.
  intros Hd. unfold load_desc. unfold desc_in_ram, DESC_SIZE in *.
  do 4 (erewrite bind_Ok by (apply ram_load_ok; eapply in_ram_sub; [exact Hd|lia|lia])). done.
Qed.

Lemma next_desc_ok desc i max m :
  desc_in_ram (p_mem (m_phys m)) desc i ->
  next_desc desc i max m =
    Ok (let d := desc_of (p_mem (m_phys m)) desc i in if has_next d && (d_next d <? max) then d_next d else max) m.
Proof.
  intros Hd. unfold next_desc, virt_desc_test_flag. unfold desc_in_ram, DESC_SIZE in Hd.
  erewrite bind_Ok by (erewrite bind_Ok by (apply ram_load_ok; eapply in_ram_sub; [exact Hd|unfold DESC_SIZE; lia|unfold DESC_SIZE; lia]); done).
  change (negb (Z.land (rd 2 _ _) _ =? 0)) with (has_next (desc_of (p_mem (m_phys m)) desc i)).
  destruct (has_next _); [|done]. cbn [negb andb].
  erewrite bind_Ok by (apply ram_load_ok; eapply in_ram_sub; [exact Hd|unfold DESC_SIZE; lia|unfold DESC_SIZE; lia]). done.
Qed.

(** One step of the loop. *)
Lemma collect_step fuel idx max ds m :
  let q := m_vq m in let d := desc_of (p_mem (m_phys m)) (vq_desc q) idx in
  desc_in_ram (p_mem (m_phys m)) (vq_desc q) idx ->
  collect_descs (S fuel) idx max ds m =
    if vring_num q <=? Z.of_nat (length ds) then Fault
    else if has_next d && (d_next d <? max) then collect_descs fuel (d_next d) max (ds ++ [d]) m
    else Ok (ds ++ [d]) m.
Proof.
  intros q d Hd. cbn [collect_descs]. erewrite bind_Ok by done. fold q. erewrite bind_Ok by (by apply load_desc_ok). fold d.
  destruct (vring_num q <=? _); [done|]. erewrite bind_Ok by (by apply next_desc_ok). fold d. cbv zeta.
  destruct (has_next d); cbn [andb]; [|by rewrite Z.eqb_refl]. destruct (Z.ltb_spec (d_next d) max); [|by rewrite Z.eqb_refl].
  destruct (Z.eqb_spec (d_next d) max); [lia|]. done.
Qed.

(** [virtio_blk_process_desc] keeps the descriptors in a local array with one element
    per entry of the ring and never counts them. *)
Lemma collect_overflows (P : Z -> Prop) fuel idx ds m :
  let q := m_vq m in let mem := p_mem (m_phys m) in
  (forall i, P i -> desc_in_ram mem (vq_desc q) i /\ has_next (desc_of mem (vq_desc q) i) = true /\
     d_next (desc_of mem (vq_desc q) i) < vring_num q /\ P (d_next (desc_of mem (vq_desc q) i))) ->
  P idx -> Z.of_nat (length ds) <= vring_num q -> (Z.to_nat (vring_num q) - length ds < fuel)%nat ->
  collect_descs fuel idx (vring_num q) ds m = Fault.
Proof.
  intros q mem HP. revert idx ds. induction fuel as [|fuel IH]; intros idx ds Hi Hl Hf; [lia|].
  destruct (HP idx Hi) as (Hd & Hn & Hlt & Hi'). rewrite collect_step by done. fold q mem.
  destruct (Z.leb_spec (vring_num q) (Z.of_nat (length ds))); [done|]. rewrite Hn. destruct (Z.ltb_spec (d_next (desc_of mem (vq_desc q) idx)) (vring_num q)); [|lia].
  apply IH; [done|rewrite length_app; simpl; lia..].
Qed.

End Desc.

(** * A request *)

(** The physical address that [virtio_guest_to_host] gives. *)
Definition host_addr (mem : memory) (root ipa : Z) : Z :=
  match table_at 3 mem 0 root ipa with
  | Some _ => PTE_PA (xlate mem root ipa) + ipa mod 4096
  | None => 0
  end.

(** The guest's bytes from [ipa] on lie side by side in memory. *)
Definition contiguous (mem : memory) (root ipa n : Z) : Prop :=
  forall j, 0 <= j < n -> host_addr mem root (ipa + j) = host_addr mem root ipa + j.

(** They do within a page. *)
Lemma page_contiguous mem root ipa n : host_addr mem root ipa <> 0 -> ipa mod 4096 + n <= 4096 -> contiguous mem root ipa n.
Proof.
  intros Hne Hn j Hj. pose proof (Z.mod_pos_bound ipa 4096 ltac:(done)) as Hm. pose proof (Z.div_mod ipa 4096 ltac:(done)) as D.
  assert ((ipa + j) / 4096 = ipa / 4096 /\ (ipa + j) mod 4096 = ipa mod 4096 + j) as [E1 E2].
  { apply (Z.div_mod_unique 4096); [left; apply Z.mod_pos_bound; lia|left; lia|]. pose proof (Z.div_mod (ipa + j) 4096 ltac:(done)). lia. }
  assert (vpn (ipa + j) = vpn ipa) as Ev by (unfold vpn; by rewrite E1). rewrite vpn_PIDX in Ev.
  unfold host_addr in *. unfold xlate in *. rewrite !table_at_xlate in *. change (0 + Z.of_nat 3) with 3 in *.
  assert (table_at 3 mem 0 root (ipa + j) = table_at 3 mem 0 root ipa) as -> by (cbn [table_at]; by rewrite !Ev by lia).
  destruct (table_at 3 mem 0 root ipa) as [q|]; [|done]. rewrite Ev, E2 by lia. lia.
Qed.

(** [n] bytes at [a], outside the translation tables and the free frames. *)
Definition data_range (s : phys) (T : gmap Z Z) (a n : Z) : Prop := forall b, a <= b < a + n ->
  (forall p, is_Some (T !! p) -> b < p \/ p + 4096 <= b) /\
  (forall i, i ∈ free_set (p_pa s) -> b < frame_addr (p_pa s) i \/ frame_addr (p_pa s) i + 4096 <= b).

(** What a request for block [blk] does to the memory. *)
Definition request_done (mem mem' : memory) (status blk src dst : Z) : Prop :=
  forall b, peek mem' b =
    if b =? status then (if FSIMG_SIZE <=? blk then 0xee else 0)
    else if (blk <? FSIMG_SIZE) && (dst <=? b) && (b <? dst + BLOCK_SIZE) then peek mem (b - dst + src)
    else peek mem b.

(** Then every byte of a buffer that lies side by side is the block's, or the block the buffer's. *)
Lemma request_guest mem mem' root ipa status blk disk (is_write : bool) :
  let buf := host_addr mem root ipa in
  request_done mem mem' status blk (if is_write then buf else disk) (if is_write then disk else buf) ->
  contiguous mem root ipa BLOCK_SIZE \/ (ipa mod 4096 + BLOCK_SIZE <= 4096 /\ buf <> 0) -> blk < FSIMG_SIZE ->
  forall j, 0 <= j < BLOCK_SIZE -> let guest := host_addr mem root (ipa + j) in
    if is_write then disk + j <> status -> peek mem' (disk + j) = peek mem guest
    else guest <> status -> peek mem' guest = peek mem (disk + j).
Proof.
  intros buf D C Hb j Hj guest. assert (guest = buf + j) as Eg.
  { destruct C as [C|[C Hne]]; [by apply C|]. by apply (page_contiguous mem root ipa BLOCK_SIZE). }
  rewrite Eg. destruct is_write; intros Hne; rewrite D; rewrite (proj2 (Z.eqb_neq _ _) Hne), (proj2 (Z.ltb_lt _ _) Hb); cbn [andb].
  - destruct (Z.leb_spec disk (disk + j)), (Z.ltb_spec (disk + j) (disk + BLOCK_SIZE)); try lia. cbn [andb]. f_equal. lia.
  - destruct (Z.leb_spec buf (buf + j)), (Z.ltb_spec (buf + j) (buf + BLOCK_SIZE)); try lia. cbn [andb]. f_equal. lia.
Qed.

Section Request.
Context {H : Type} `{!Hardware H} `{!PollFuel} `{!Image} `{!SysregLaws H}.
Implicit Types m : machine H.

Lemma guest_to_host_ok m c v vi w T ipa :
  ptr_vcpu (sysreg_of (m_hw m) tpidr_el2) = Some c -> m_vcpus m !! c = Some v -> v_vm v = Some vi -> m_vms m !! vi = Some w ->
  pt_inv (m_phys m) (vm_stage2_pt w) T ->
  virtio_guest_to_host ipa m = Ok (host_addr (p_mem (m_phys m)) (vm_stage2_pt w) ipa) m.
Proof.
  intros Hc Hv Hvm Hw I. unfold virtio_guest_to_host. erewrite bind_Ok by apply cur_vcpu_ok. rewrite Hc.
  erewrite bind_Ok by done. erewrite bind_Ok. 2: { unfold vcpu_vm. erewrite bind_Ok by (by apply get_vcpu_ok). by rewrite Hvm. }
  erewrite bind_Ok by (by apply get_vm_ok). pose proof (ipa2pa_ok (m_phys m) _ T ipa I) as W.
  apply wp_Ok in W as (r & s' & E & -> & ->). unfold on_phys, zoom. rewrite E. f_equal. apply set_phys_id.
Qed.

Lemma ramdisk_rw_ok m blk buf wr :
  let start := m_ramdisk_start m in let mem := p_mem (m_phys m) in
  let disk := start + blk * BLOCK_SIZE in
  Lib.ram_ok mem -> 0 <= blk -> 0 <= start ->
  (blk < FSIMG_SIZE -> in_ram mem disk BLOCK_SIZE = true /\ in_ram mem buf BLOCK_SIZE = true) ->
  wp (ramdisk_rw blk buf wr) (fun r m' => exists mem', m' = set_phys (set_mem mem' (m_phys m)) m /\
    r = (if FSIMG_SIZE <=? blk then -1 else 0) /\
    let src := if wr =? 0 then disk else buf in let dst := if wr =? 0 then buf else disk in
    ram_lo mem' = ram_lo mem /\ ram_hi mem' = ram_hi mem /\
    forall b, peek mem' b = if (blk <? FSIMG_SIZE) && (dst <=? b) && (b <? dst + BLOCK_SIZE) then peek mem (b - dst + src) else peek mem b) m.
Proof.
  intros start mem disk Hok Hb Hs Hin. unfold ramdisk_rw. destruct (Z.leb_spec FSIMG_SIZE blk).
  - rewrite wp_ret. exists mem. split; [by destruct m as [? [] ?]|]. destruct (Z.ltb_spec blk FSIMG_SIZE); [lia|]. done.
  - destruct Hin as [Hd Hbuf]; [done|]. rewrite wp_bind, wp_gets. fold start.
    assert (u64 (start + u64 (blk * BLOCK_SIZE)) = disk) as ->.
    { unfold disk, in_ram, Lib.ram_ok, FSIMG_SIZE, BLOCK_SIZE in *.
      rewrite (u64_small (blk * 1024)), u64_small by (unfold is_u64; lia). done. }
    destruct (Z.ltb_spec blk FSIMG_SIZE); [|lia]. cbn [andb].
    rewrite wp_bind. destruct (wr =? 0); cbn [negb]; unfold on_phys, on_mem; rewrite !wp_zoom;
      (eapply wp_mono; [|apply Lib.memmove_ok; done]); cbn beta; intros _ mem' (_ & El & Eh & Hpk); rewrite wp_ret; by exists mem'.
Qed.

(** A request of three descriptors that starts at descriptor [i]. *)
Record request m (i : Z) (d0 d1 d2 : virtq_desc) : Prop := {
  rq_num : 3 <= vring_num (m_vq m) < 2 ^ 16;
  rq_d0 : desc_of (p_mem (m_phys m)) (vq_desc (m_vq m)) i = d0;
  rq_d1 : desc_of (p_mem (m_phys m)) (vq_desc (m_vq m)) (d_next d0) = d1;
  rq_d2 : desc_of (p_mem (m_phys m)) (vq_desc (m_vq m)) (d_next d1) = d2;
  rq_next : has_next d0 = true /\ has_next d1 = true /\ has_next d2 = false;
  rq_lt : d_next d0 < vring_num (m_vq m) /\ d_next d1 < vring_num (m_vq m);
  rq_ram : forall k, k ∈ [i; d_next d0; d_next d1] -> desc_in_ram (p_mem (m_phys m)) (vq_desc (m_vq m)) k
}.

Lemma request_collect m i d0 d1 d2 :
  request m i d0 d1 d2 ->
  collect_descs (S (Z.to_nat (vring_num (m_vq m)))) i (vring_num (m_vq m)) [] m = Ok [d0; d1; d2] m.
Proof.
  intros [Hn E0 E1 E2 (H0' & H1' & H2') [L0 L1] Hr]. set (n := vring_num (m_vq m)) in *.
  destruct (Z.to_nat n) as [|[|f]] eqn:En; [lia|lia|].
  rewrite collect_step by (apply Hr; set_solver). rewrite E0, H0'. fold n. cbn [length app andb].
  destruct (Z.leb_spec n (Z.of_nat 0)); [lia|]. destruct (Z.ltb_spec (d_next d0) n); [|lia].
  rewrite collect_step by (apply Hr; set_solver). rewrite E1, H1'. fold n. cbn [length app andb].
  destruct (Z.leb_spec n (Z.of_nat 1)); [lia|]. destruct (Z.ltb_spec (d_next d1) n); [|lia].
  rewrite collect_step by (apply Hr; set_solver). rewrite E2, H2'. fold n. cbn [length app andb].
  destruct (Z.leb_spec n (Z.of_nat 2)); [lia|]. done.
Qed.

Lemma data_range_pt_inv s root T mem' a n :
  pt_inv s root T -> ram_lo mem' = ram_lo (p_mem s) -> ram_hi mem' = ram_hi (p_mem s) -> data_range s T a n ->
  (forall b, b < a \/ a + n <= b -> peek mem' b = peek (p_mem s) b) ->
  pt_inv (set_mem mem' s) root T /\ forall ipa, host_addr mem' root ipa = host_addr (p_mem s) root ipa.
Proof.
  intros I El Eh Hd Hp.
  assert (Htab : forall p b, is_Some (T !! p) -> p <= b < p + 4096 -> peek mem' b = peek (p_mem s) b).
  { intros p b HT Hb. apply Hp. destruct (Z.lt_ge_cases b a); [by left|]. destruct (Z.lt_ge_cases b (a + n)); [|by right].
    destruct (Hd b) as [Ht _]; [lia|]. specialize (Ht p HT). lia. }
  split.
  - apply (pt_inv_mem s root T I mem'); try done. intros i b Hi Hb. rewrite Hp; [by apply (pi_zero _ _ _ I i)|].
    destruct (Z.lt_ge_cases b a); [by left|]. destruct (Z.lt_ge_cases b (a + n)); [|by right].
    destruct (Hd b) as [_ Hf]; [lia|]. specialize (Hf i Hi). lia.
  - intros ipa. unfold host_addr. by rewrite (table_at_tab s root T I mem' Htab), (xlate_tab s root T I mem' Htab).
Qed.

(** C32 A block request of three descriptors (header, buffer, status) is carried out:
    1024 bytes are copied between the block of the ram disk and the memory that starts
    where the guest's tables put the first byte of the buffer, to the disk for type 1 and
    from it otherwise.  When the guest's buffer lies side by side in memory, as it does
    within a page, these are the bytes of the buffer: each byte of the block becomes the
    guest's, or the guest's the block's.  (A buffer that crosses into a page which is
    elsewhere is not followed: the copy runs on into other memory.)  The status byte
    becomes 0 - or 0xee, without a copy, for a block the disk does not have; no other byte
    and nothing else of the state changes, and the length reported is 3. *)
Theorem virtio_request_spec m c v vi w T i d0 d1 d2 :
  let mem := p_mem (m_phys m) in let root := vm_stage2_pt w in
  ptr_vcpu (sysreg_of (m_hw m) tpidr_el2) = Some c -> m_vcpus m !! c = Some v -> v_vm v = Some vi -> m_vms m !! vi = Some w ->
  pt_inv (m_phys m) root T -> request m i d0 d1 d2 ->
  let req := host_addr mem root (d_addr d0) in
  let buf := host_addr mem root (d_addr d1) in
  let status := host_addr mem root (d_addr d2) in
  let blk := rd 8 mem (req + 8) / 2 in
  let disk := m_ramdisk_start m + blk * BLOCK_SIZE in
  let is_write := rd 4 mem req =? VIRTIO_BLK_T_OUT in
  let src := if is_write then buf else disk in
  let dst := if is_write then disk else buf in
  in_ram mem req 16 = true -> in_ram mem status 1 = true -> 0 <= m_ramdisk_start m ->
  (blk < FSIMG_SIZE -> in_ram mem disk BLOCK_SIZE = true /\ in_ram mem buf BLOCK_SIZE = true /\ data_range (m_phys m) T dst BLOCK_SIZE) ->
  wp (virtio_blk_process_desc i) (fun r m' => r = 3 /\ exists mem', m' = set_phys (set_mem mem' (m_phys m)) m /\
    request_done mem mem' status blk src dst /\
    (contiguous mem root (d_addr d1) BLOCK_SIZE \/ (d_addr d1 mod 4096 + BLOCK_SIZE <= 4096 /\ buf <> 0) -> blk < FSIMG_SIZE ->
     forall j, 0 <= j < BLOCK_SIZE -> let guest := host_addr mem root (d_addr d1 + j) in
       if is_write then disk + j <> status -> peek mem' (disk + j) = peek mem guest
       else guest <> status -> peek mem' guest = peek mem (disk + j))) m.
Proof.
  intros mem root Hc Hv Hvm Hw I R req buf status blk disk is_write src dst Hreq Hst Hrs Hdata.
  pose proof (rq_num _ _ _ _ _ R) as Hn. unfold virtio_blk_process_desc.
  rewrite wp_bind, wp_gets. destruct (Z.leb_spec (2 ^ 16) (vring_num (m_vq m))); [lia|]. rewrite wp_bind, wp_ret. cbv zeta.
  rewrite (u16_small (vring_num (m_vq m))) by (unfold is_u16; lia).
  eapply wp_bind_Ok; [by apply request_collect|]. change (u16 (Z.of_nat (length [d0; d1; d2]))) with 3.
  assert (Hg : forall ipa, virtio_guest_to_host ipa m = Ok (host_addr mem root ipa) m) by (intros; by apply (guest_to_host_ok m c v vi w T)).
  eapply wp_bind_Ok; [apply Hg|]. fold req. eapply wp_bind_Ok; [apply ram_load_ok; eapply in_ram_sub; [exact Hreq|lia..]|].
  change (BLOCK_SIZE / 512) with 2. fold mem blk. eapply wp_bind_Ok; [apply ram_load_ok; eapply in_ram_sub; [exact Hreq|lia..]|].
  fold mem is_write. eapply wp_bind_Ok; [apply Hg|]. fold buf. rewrite wp_bind.
  assert (0 <= blk) as Hb0 by (unfold blk; apply Z.div_pos; [apply rd_range|lia]).
  eapply wp_mono; [|apply ramdisk_rw_ok; [apply I|done|done|]; intros Hlt; split; apply (Hdata Hlt)].
  cbn beta zeta. intros r m1 (mem1 & -> & -> & El & Eh & Hpk). fold mem disk in El, Eh, Hpk.
  assert (Hpk1 : forall b, peek mem1 b = if (blk <? FSIMG_SIZE) && (dst <=? b) && (b <? dst + BLOCK_SIZE) then peek mem (b - dst + src) else peek mem b).
  { intros b. rewrite Hpk. unfold src, dst. by destruct is_write. }
  assert (pt_inv (set_mem mem1 (m_phys m)) root T /\ forall ipa, host_addr mem1 root ipa = host_addr mem root ipa) as [I1 Hh].
  { destruct (Z.ltb_spec blk FSIMG_SIZE) as [Hlt|].
    - apply (data_range_pt_inv _ _ _ mem1 dst BLOCK_SIZE I El Eh); [by apply Hdata|]. intros b Hb. rewrite Hpk1.
      destruct (true && _ && _) eqn:E; [|done]. lia.
    - apply (data_range_pt_inv _ _ _ mem1 0 0 I El Eh); [intros b; lia|]. intros b _. by rewrite Hpk1. }
  set (m1 := set_phys (set_mem mem1 (m_phys m)) m).
  eapply wp_bind_Ok; [apply (guest_to_host_ok m1 c v vi w T); (exact Hc || exact Hv || exact Hvm || exact Hw || exact I1)|].
  change (host_addr (p_mem (m_phys m1)) (vm_stage2_pt w) (d_addr d2)) with (host_addr mem1 root (d_addr d2)). rewrite Hh. fold status.
  set (code := if FSIMG_SIZE <=? blk then 0xee else 0).
  eapply (wp_bind_Ok _ _ _ tt m1 (set_phys (set_mem (wr 1 status code mem1) (m_phys m)) m)).
  { assert (Hin : in_ram (p_mem (m_phys m1)) status 1 = true) by (unfold in_ram in *; cbn; by rewrite El, Eh).
    unfold code. destruct (FSIMG_SIZE <=? blk); cbn [Z.eqb]; by rewrite ram_store_ok. }
  assert (request_done mem (wr 1 status code mem1) status blk src dst) as Hdone.
  { intros b. rewrite peek_wr1. destruct (Z.eqb_spec b status); [|apply Hpk1]. unfold code. by destruct (FSIMG_SIZE <=? blk). }
  rewrite wp_ret. split; [done|]. eexists. split; [done|]. split; [exact Hdone|].
  by apply (request_guest mem _ root (d_addr d1) status blk disk is_write).
Qed.

(** Descriptors that form no list: when every descriptor reached has a next one, the
    loop writes past the end of its local array of [vring_num] descriptors (on the
    hypervisor's stack) instead of stopping. *)
Theorem virtio_endless_chain_overflows m (P : Z -> Prop) i :
  let q := m_vq m in let mem := p_mem (m_phys m) in
  0 <= vring_num q < 2 ^ 16 -> P i ->
  (forall k, P k -> desc_in_ram mem (vq_desc q) k /\ has_next (desc_of mem (vq_desc q) k) = true /\
     d_next (desc_of mem (vq_desc q) k) < vring_num q /\ P (d_next (desc_of mem (vq_desc q) k))) ->
  virtio_blk_process_desc i m = Fault.
Proof.
  intros q mem Hn Hi HP. unfold virtio_blk_process_desc. erewrite bind_Ok by done. fold q.
  destruct (Z.leb_spec (2 ^ 16) (vring_num q)); [lia|]. erewrite bind_Ok by done. cbv zeta.
  rewrite (u16_small (vring_num q)) by (unfold is_u16; lia). unfold bind at 1.
  rewrite (collect_overflows P _ i [] m); try done; simpl; fold q; lia.
Qed.

End Request.

(** * An example: the guest writes block 2

    The ring has 8 entries at 0x40200000; the guest's page 0x80000000 is the physical
    page 0x40210000: header at 0, status byte at 0x10, buffer at 0x400. *)

Lemma data_range_above s root T a n :
  pt_inv s root T -> frame_addr (p_pa s) (total_pages (p_pa s)) <= a -> data_range s T a n.
Proof.
  intros I Ha b Hb. assert (Hf : forall i, 0 <= i < total_pages (p_pa s) -> frame_addr (p_pa s) i + 4096 <= b) by (unfold frame_addr in *; lia).
  split.
  - intros p [l Hp]. destruct (pi_tables _ _ _ I p l Hp) as (_ & i & Hi & _ & ->). right. by apply Hf.
  - intros i Hi. apply elem_free_set in Hi as [Hi _]. right. by apply Hf.
Qed.

Definition wr_desc (i addr len flags next : Z) (mem : memory) : memory :=
  let a := 0x40200000 + 16 * i in wr 8 a addr (wr 4 (a + 8) len (wr 2 (a + 12) flags (wr 2 (a + 14) next mem))).
Definition ring_mem : memory :=
  wr_desc 0 0x80000000 16 1 1 (wr_desc 1 0x80000400 1024 1 2 (wr_desc 2 0x80000010 1 2 0
    (wr 4 0x40210000 1 (wr 8 0x40210008 4 (wr 1 0x40210400 77 (p_mem example_phys)))))).
Definition ring_phys : phys := set_mem ring_mem example_phys.
Definition mapped_phys : phys :=
  match pagemap_loop 1 0x40122000 0x80000000 0x40210000 guest_attr ring_phys with Ok _ s => s | _ => ring_phys end.
Definition disk_machine (s : phys) : machine sim :=
  set_vq (mkVq (mkSpinlock 0 0) 8 0x80001000 0x40200000 0 0x40200000 0x40200080 0x40201000) (set_phys s irq_machine).

Lemma ring_mem_low b : b < 0x40200000 -> peek ring_mem b = 0.
Proof.
  intros Hb. unfold ring_mem, wr_desc. cbv zeta. rewrite !peek_wr_other by lia. reflexivity.
Qed.

Lemma ring_pt_inv : pt_inv ring_phys 0x40122000 {[0x40122000 := 0]}.
Proof.
  apply (pt_inv_mem example_phys _ _ example_pt_inv).
  - reflexivity.
  - reflexivity.
  - intros p b [l Hp] Hb. apply lookup_singleton_Some in Hp as [<- _]. rewrite ring_mem_low by lia. reflexivity.
  - intros i b Hi Hb. apply elem_free_set in Hi as [Hi _]. unfold frame_addr in Hb. cbn in Hi, Hb. apply ring_mem_low. lia.
Qed.

Lemma mapped_pt_inv : exists T, pt_inv mapped_phys 0x40122000 T /\ extends ring_phys {[0x40122000 := 0]} mapped_phys T.
Proof.
  assert (W : wp (pagemap_loop 1 0x40122000 0x80000000 0x40210000 guest_attr) (fun _ s' => exists T,
    pt_inv s' 0x40122000 T /\ extends ring_phys {[0x40122000 := 0]} s' T) ring_phys).
  { eapply wp_mono; [|apply (pagemap_loop_ok ring_phys _ _ 1 0x80000000 0x40210000 guest_attr ring_pt_inv guest_attr_u64)]; try done; try lia.
    - intros _ s' (T & I & X & _). by exists T.
    - vm_compute. lia.
    - intros k Hk. replace k with 0 by lia. vm_compute. reflexivity. }
  revert W. unfold mapped_phys, wp. generalize (pagemap_loop 1 0x40122000 0x80000000 0x40210000 guest_attr ring_phys).
  intros [? s'| | |] W; [exact W|destruct W..].
Qed.

Lemma mapped_request : request (disk_machine mapped_phys) 0
  (mkDesc 0x80000000 16 1 1) (mkDesc 0x80000400 1024 1 2) (mkDesc 0x80000010 1 2 0).
Proof.
  split.
  - split; [discriminate|reflexivity].
  - vm_compute. reflexivity.
  - vm_compute. reflexivity.
  - vm_compute. reflexivity.
  - split_and!; vm_compute; reflexivity.
  - split; vm_compute; reflexivity.
  - intros k. rewrite !elem_of_cons, elem_of_nil. intros [-> |[-> |[-> |[]]]]; vm_compute; reflexivity.
Qed.

Lemma virtio_request_spec_witness :
  wp (virtio_blk_process_desc 0) (fun r m' => r = 3 /\ peek (p_mem (m_phys m')) (0x4f000000 + 2048) = 77 /\
    peek (p_mem (m_phys m')) 0x40210010 = 0) (disk_machine mapped_phys).
Proof.
  destruct mapped_pt_inv as (T & I & X).
  pose proof (virtio_request_spec (disk_machine mapped_phys) 0 (example_vcpu 0) 0 example_vm T 0 _ _ _
    eq_refl eq_refl eq_refl eq_refl I mapped_request) as W. cbv zeta in W.
  assert (E0 : host_addr (p_mem (m_phys (disk_machine mapped_phys))) (vm_stage2_pt example_vm) 0x80000000 = 0x40210000) by (vm_compute; reflexivity).
  assert (E1 : host_addr (p_mem (m_phys (disk_machine mapped_phys))) (vm_stage2_pt example_vm) 0x80000400 = 0x40210400) by (vm_compute; reflexivity).
  assert (E2 : host_addr (p_mem (m_phys (disk_machine mapped_phys))) (vm_stage2_pt example_vm) 0x80000010 = 0x40210010) by (vm_compute; reflexivity).
  cbn [d_addr] in W. rewrite E0, E1, E2 in W.
  assert (Es : rd 8 (p_mem (m_phys (disk_machine mapped_phys))) (0x40210000 + 8) / 2 = 2) by (vm_compute; reflexivity).
  assert (Et : rd 4 (p_mem (m_phys (disk_machine mapped_phys))) 0x40210000 =? VIRTIO_BLK_T_OUT = true) by (vm_compute; reflexivity).
  rewrite Es, Et in W. change (m_ramdisk_start (disk_machine mapped_phys)) with 0x4f000000 in W.
  eapply wp_mono; [|apply W].
  - cbn beta. intros r m' (-> & mem' & -> & Hd & _). split; [done|].
    change (p_mem (m_phys (set_phys (set_mem mem' ?s) ?m))) with mem'. split.
    + etransitivity; [apply Hd|]. vm_compute. reflexivity.
    + etransitivity; [apply Hd|]. vm_compute. reflexivity.
  - vm_compute. reflexivity.
  - vm_compute. reflexivity.
  - discriminate.
  - intros _. split; [vm_compute; reflexivity|]. split; [vm_compute; reflexivity|].
    apply (data_range_above _ _ _ _ _ I). vm_compute. discriminate.
Defined.

(** A ring whose descriptor 0 is its own successor. *)
Definition loop_phys : phys := set_mem (wr_desc 0 0x80000000 16 1 0 (p_mem example_phys)) example_phys.

Lemma virtio_endless_chain_overflows_witness :
  virtio_blk_process_desc 0 (disk_machine loop_phys) = Fault.
Proof.
  apply (virtio_endless_chain_overflows (disk_machine loop_phys) (fun k => k = 0) 0).
  - split; [discriminate|reflexivity].
  - reflexivity.
  - intros k ->. split; [vm_compute; reflexivity|]. split; [vm_compute; reflexivity|]. split; vm_compute; reflexivity.
Defined.
