(* ===== verification/BootProofs.v ===== *)
(** The stacks of the cores: one page each, with a canary that the check finds. *)
From stdpp Require Import base gmap list numbers tactics.
From S2P Require Import Prelude Spinlock PageAlloc Mem Mmu Machine Gic Hw GicProofs Timer Mmio Vgic Vcpu Uart Virtio Vm Boot VgicProofs VmProofs TrapProofs VirtioProofs.

Section Stacks.
Context {H : Type} `{!Hardware H} `{!PollFuel} `{!Image}.
Implicit Types m : machine H.

Definition canary (i : nat) : Z := Z.lor SP_MAGIC (Z.of_nat i).

Lemma canary_u64 i : (i < 4)%nat -> canary i mod 2 ^ (8 * Z.of_nat 8) = canary i.
Proof. intros Hi. do 4 (destruct i as [|i]; [reflexivity|]). lia. Qed.

(** The canaries at [tops] are in place in [mem]. *)
Definition intact (mem : memory) (tops : list Z) : bool :=
  forallb (fun it => rd 8 mem (snd it) =? canary (fst it)) (zip (seq 0 (length tops)) tops).

Lemma intact_spec mem tops :
  intact mem tops = true <-> forall i t, tops !! i = Some t -> rd 8 mem t = canary i.
Proof.
  unfold intact. rewrite forallb_forall. split.
  - intros Hf i t Ht. specialize (Hf (i, t)). rewrite Z.eqb_eq in Hf. apply Hf. apply list_elem_of_In, list_elem_of_lookup.
    exists i. apply lookup_zip_Some. split; [|done]. apply lookup_seq. split; [done|]. by eapply lookup_lt_Some.
  - intros Hf [i t] Hin. apply list_elem_of_In, list_elem_of_lookup in Hin as [k Hk]. apply lookup_zip_Some in Hk as [Hs Ht].
    apply lookup_seq in Hs as [-> _]. apply Z.eqb_eq. by apply Hf.
Qed.

(** The stacks of the cores [0 .. length tops - 1]. *)
Record stacks m0 (fs : list Z) m : Prop := {
  st_wf : wf (p_pa (m_phys m));
  st_same : total_pages (p_pa (m_phys m)) = total_pages (p_pa (m_phys m0)) /\ base_pfn (p_pa (m_phys m)) = base_pfn (p_pa (m_phys m0));
  st_bounds : ram_lo (p_mem (m_phys m)) = ram_lo (p_mem (m_phys m0)) /\ ram_hi (p_mem (m_phys m)) = ram_hi (p_mem (m_phys m0));
  st_len : length (m_sp_top m) = 32%nat /\ length (m_sp_bottom m) = 32%nat;
  st_nodup : NoDup fs;
  st_frames : forall f, f ∈ fs -> f ∈ free_set (p_pa (m_phys m0));
  st_free : free_set (p_pa (m_phys m)) = free_set (p_pa (m_phys m0)) ∖ list_to_set fs;
  st_tops : forall i f, fs !! i = Some f -> m_sp_top m !! S i = Some (frame_addr (p_pa (m_phys m0)) f) /\
    m_sp_bottom m !! S i = Some (frame_addr (p_pa (m_phys m0)) f + 4096) /\
    rd 8 (p_mem (m_phys m)) (frame_addr (p_pa (m_phys m0)) f) = canary (S i);
  st_top0 : m_sp_top m !! 0%nat = Some primary_stack_start /\ m_sp_bottom m !! 0%nat = Some primary_stack_end /\
    rd 8 (p_mem (m_phys m)) primary_stack_start = canary 0
}.

(** What the start-up code relies on: frames in RAM, the primary stack outside them. *)
Record stack_ground m : Prop := {
  sk_wf : wf (p_pa (m_phys m));
  sk_len : length (m_sp_top m) = 32%nat /\ length (m_sp_bottom m) = 32%nat;
  sk_ram : forall i, 0 <= i < total_pages (p_pa (m_phys m)) -> in_ram (p_mem (m_phys m)) (frame_addr (p_pa (m_phys m)) i) 4096 = true;
  sk_hi : 0 < base_pfn (p_pa (m_phys m)) /\ ram_hi (p_mem (m_phys m)) < 2 ^ 64;
  sk_stack : in_ram (p_mem (m_phys m)) primary_stack_start 8 = true;
  sk_out : forall i, 0 <= i < total_pages (p_pa (m_phys m)) ->
    primary_stack_start + 8 <= frame_addr (p_pa (m_phys m)) i \/ frame_addr (p_pa (m_phys m)) i + 4096 <= primary_stack_start
}.

Lemma set_sp_top_ok m i v : (Z.to_nat i < length (m_sp_top m))%nat ->
  set_sp_top_at i v m = Ok tt (set_sp_top (<[Z.to_nat i := v]> (m_sp_top m)) m).
Proof. intros Hi. apply lookup_lt_is_Some_2 in Hi as [x E]. unfold set_sp_top_at, bind, get. by rewrite E. Qed.
Lemma set_sp_bottom_ok m i v : (Z.to_nat i < length (m_sp_bottom m))%nat ->
  set_sp_bottom_at i v m = Ok tt (set_sp_bottom (<[Z.to_nat i := v]> (m_sp_bottom m)) m).
Proof. intros Hi. apply lookup_lt_is_Some_2 in Hi as [x E]. unfold set_sp_bottom_at, bind, get. by rewrite E. Qed.
Lemma sp_top_ok m i t : m_sp_top m !! Z.to_nat i = Some t -> sp_top_at i m = Ok t m.
Proof. intros E. unfold sp_top_at, bind, get. by rewrite E. Qed.

Lemma primary_stack_ok m : stack_ground m -> wp primary_stack_init (fun _ m' => stacks m [] m') m.
Proof.
  intros [Hwf [Hl1 Hl2] _ _ Hst _]. unfold primary_stack_init. change 0 with (Z.of_nat 0) at 1 2 3.
  eapply wp_bind_Ok; [apply set_sp_top_ok; rewrite Nat2Z.id; lia|].
  eapply wp_bind_Ok; [apply set_sp_bottom_ok; rewrite Nat2Z.id; cbn; lia|]. rewrite Nat2Z.id.
  eapply wp_bind_Ok; [apply sp_top_ok; rewrite Nat2Z.id; cbn; apply list_lookup_insert_eq; lia|].
  unfold wp. rewrite ram_store_ok by done. destruct (wr_bounds 8 primary_stack_start (Z.lor SP_MAGIC 0) (p_mem (m_phys m))) as [B1 B2].
  split; cbn; try done.
  - by rewrite !length_insert.
  - by apply NoDup_nil_2.
  - intros f Hf. by apply elem_of_nil in Hf.
  - by rewrite difference_empty_L.
  - rewrite !list_lookup_insert_eq by lia. by rewrite rd_wr_same.
Qed.

Lemma secondary_stack_ok m0 fs m :
  stack_ground m0 -> stacks m0 fs m -> (length fs < 3)%nat -> (length fs < size (free_set (p_pa (m_phys m0))))%nat ->
  wp (let! p := alloc_page_or_panic in
      set_sp_top_at (Z.of_nat (S (length fs))) p ;;
      set_sp_bottom_at (Z.of_nat (S (length fs))) (u64 (p + PAGE_SIZE)) ;;
      let! top := sp_top_at (Z.of_nat (S (length fs))) in
      ram_store 8 top (Z.lor SP_MAGIC (Z.of_nat (S (length fs))))) (fun _ m' => exists f, stacks m0 (fs ++ [f]) m') m.
Proof.
  intros G [Hwf [Et Eb] [El Eh] [Hl1 Hl2] Hnd Hfr Hfree Htops Htop0] Hn Hsz. set (k := length fs) in *.
  assert (Hne : free_set (p_pa (m_phys m)) <> ∅).
  { rewrite Hfree. intros E. assert (free_set (p_pa (m_phys m0)) ⊆ list_to_set fs) as Hs by set_solver.
    apply subseteq_size in Hs. rewrite size_list_to_set in Hs by done. fold k in Hs. lia. }
  unfold alloc_page_or_panic. rewrite !wp_bind. unfold on_phys, on_pa. rewrite !wp_zoom.
  eapply wp_mono; [|by apply alloc_page_frame]. cbn beta. intros r a' (f & Hf & -> & Hwf' & Et' & Eb' & Ef').
  rewrite (frame_addr_base (p_pa (m_phys m0))) by done. set (p := frame_addr (p_pa (m_phys m0)) f).
  assert (Hf0 : f ∈ free_set (p_pa (m_phys m0)) /\ f ∉ fs) by (rewrite Hfree in Hf; set_solver).
  destruct Hf0 as [Hf0 Hnew]. pose proof Hf0 as Hr. apply elem_free_set in Hr as [Hr _].
  pose proof (sk_ram _ G f Hr) as Hin. destruct (sk_hi _ G) as [Hbase Hhi].
  assert (Hp : 0 < p /\ p + 4096 < 2 ^ 64) by (unfold p in *; unfold in_ram in Hin; unfold frame_addr in *; lia).
  destruct (Z.eqb_spec p 0); [lia|]. rewrite wp_ret, u64_small by (unfold is_u64, PAGE_SIZE; lia).
  eapply wp_bind_Ok; [apply set_sp_top_ok; rewrite Nat2Z.id; cbn; lia|].
  eapply wp_bind_Ok; [apply set_sp_bottom_ok; rewrite Nat2Z.id; cbn; lia|]. rewrite Nat2Z.id.
  eapply wp_bind_Ok; [apply sp_top_ok; rewrite Nat2Z.id; cbn; apply list_lookup_insert_eq; lia|].
  assert (Hin8 : in_ram (p_mem (m_phys m)) p 8 = true) by (unfold in_ram in *; fold p in Hin; lia).
  unfold wp. rewrite ram_store_ok by exact Hin8.
  exists f. change (Z.lor SP_MAGIC (Z.of_nat (S k))) with (canary (S k)) in *. split; cbn -[canary]; try done.
  - by rewrite Et', Eb'.
  - by rewrite !length_insert.
  - apply list.NoDup_app. split_and!; [done|intros x Hx; set_solver|apply list.NoDup_singleton].
  - intros x. rewrite elem_of_app, list_elem_of_singleton. intros [?| ->]; auto.
  - rewrite Ef', Hfree. set_solver.
  - intros i x. rewrite lookup_app_Some. intros [Hi|[Hi Hx]].
    + destruct (Htops i x Hi) as (T1 & T2 & T3). assert (i < k)%nat by (by eapply lookup_lt_Some).
      rewrite !list_lookup_insert_ne by lia. split_and!; [done..|]. rewrite rd_wr_other; [done|].
      assert (x <> f) by (intros ->; apply Hnew; by eapply list_elem_of_lookup_2).
      unfold p, frame_addr. simpl. lia.
    + apply list_lookup_singleton_Some in Hx as [Hi0 ->]. assert (i = k) as -> by (fold k in Hi; lia). fold p.
      rewrite !list_lookup_insert_eq by lia. split_and!; [done..|]. rewrite rd_wr_same. apply canary_u64. lia.
  - rewrite !list_lookup_insert_ne by lia. destruct Htop0 as (T1 & T2 & T3). split_and!; [done..|].
    rewrite rd_wr_other; [done|]. pose proof (sk_out _ G f Hr) as Ho. fold p in Ho. simpl. lia.
Qed.

Lemma canary_step m i t :
  m_sp_top m !! i = Some t -> in_ram (p_mem (m_phys m)) t 8 = true ->
  (let! top := sp_top_at (Z.of_nat i) in
   let! x := ram_load 8 top in
   if negb (x =? Z.lor SP_MAGIC (Z.of_nat i)) then panic else ret tt) m =
  if rd 8 (p_mem (m_phys m)) t =? canary i then Ok tt m else Panic m.
Proof.
  intros Ht Hin. erewrite bind_Ok by (apply sp_top_ok; by rewrite Nat2Z.id). erewrite bind_Ok by (by apply ram_load_ok).
  unfold canary. by destruct (_ =? _).
Qed.

(** The check, core by core, is the predicate [intact]. *)
Lemma canary_check_ok m t0 t1 t2 t3 :
  (forall i t, [t0; t1; t2; t3] !! i = Some t -> m_sp_top m !! i = Some t /\ in_ram (p_mem (m_phys m)) t 8 = true) ->
  sp_canary_check m = if intact (p_mem (m_phys m)) [t0; t1; t2; t3] then Ok true m else Panic m.
Proof.
  intros Ht. destruct (Ht 0%nat t0 eq_refl) as [A0 B0]. destruct (Ht 1%nat t1 eq_refl) as [A1 B1].
  destruct (Ht 2%nat t2 eq_refl) as [A2 B2]. destruct (Ht 3%nat t3 eq_refl) as [A3 B3].
  unfold sp_canary_check, for_range. change (Z.to_nat (PCPU_NUM - 0)) with 4%nat. cbn [for_n].
  pose proof (canary_step m 0 t0 A0 B0) as C0. pose proof (canary_step m 1 t1 A1 B1) as C1.
  pose proof (canary_step m 2 t2 A2 B2) as C2. pose proof (canary_step m 3 t3 A3 B3) as C3.
  unfold intact. cbn [length seq zip forallb fst snd].
  change (Z.of_nat 0) with 0 in *. change (Z.of_nat 1) with (0 + 1) in *. change (Z.of_nat 2) with (0 + 1 + 1) in *. change (Z.of_nat 3) with (0 + 1 + 1 + 1) in *.
  unfold bind at 1. unfold bind at 1. rewrite C0. destruct (_ =? _); cbn [andb]; [|done].
  unfold bind at 1. rewrite C1. destruct (_ =? _); cbn [andb]; [|done].
  unfold bind at 1. rewrite C2. destruct (_ =? _); cbn [andb]; [|done].
  unfold bind at 1. rewrite C3. destruct (_ =? _); cbn [andb]; done.
Qed.

Lemma secondary_stacks_ok m0 m :
  stack_ground m0 -> stacks m0 [] m -> (3 <= size (free_set (p_pa (m_phys m0))))%nat ->
  wp secondary_stacks_init (fun _ m' => exists fs, length fs = 3%nat /\ stacks m0 fs m') m.
Proof.
  intros G S0 Hsz. unfold secondary_stacks_init.
  eapply wp_mono; [|apply (wp_for_range (fun i m' => exists fs, Z.of_nat (S (length fs)) = i /\ stacks m0 fs m')); [done|by exists []|]].
  - cbn beta. intros _ m' (fs & Hl & Hs). exists fs. split; [unfold PCPU_NUM in Hl; lia|done].
  - intros i m' Hi (fs & <- & Hs). unfold PCPU_NUM in Hi.
    eapply wp_mono; [|apply (secondary_stack_ok m0 fs m' G Hs); lia]. cbn beta. intros _ m'' (f & Hf). exists (fs ++ [f]).
    split; [rewrite length_app; simpl; lia|done].
Qed.

(** The lowest and highest addresses of the stacks. *)
Definition stack_tops (a : page_allocator) (fs : list Z) : list Z := primary_stack_start :: (frame_addr a <$> fs).
Definition stack_bottoms (a : page_allocator) (fs : list Z) : list Z :=
  primary_stack_end :: ((fun f => frame_addr a f + 4096) <$> fs).

(** The stacks of the hypervisor: start-up gives each secondary core a page of its
    own, taken from the free ones, and records its bounds; afterwards the canary check
    returns [true]; and whatever is written to memory later, it returns exactly when
    all four canaries are in place and panics otherwise. *)
Theorem stacks_spec m :
  stack_ground m -> (3 <= size (free_set (p_pa (m_phys m))))%nat ->
  wp (primary_stack_init ;; secondary_stacks_init) (fun _ m' => exists fs,
    length fs = 3%nat /\ NoDup fs /\ (forall f, f ∈ fs -> f ∈ free_set (p_pa (m_phys m))) /\
    free_set (p_pa (m_phys m')) = free_set (p_pa (m_phys m)) ∖ list_to_set fs /\
    let tops := stack_tops (p_pa (m_phys m)) fs in
    (forall i, (i < 4)%nat -> m_sp_top m' !! i = tops !! i /\ m_sp_bottom m' !! i = stack_bottoms (p_pa (m_phys m)) fs !! i) /\
    sp_canary_check m' = Ok true m' /\
    forall mem, ram_lo mem = ram_lo (p_mem (m_phys m)) -> ram_hi mem = ram_hi (p_mem (m_phys m)) ->
      let m'' := set_phys (set_mem mem (m_phys m')) m' in
      sp_canary_check m'' = if intact mem tops then Ok true m'' else Panic m'') m.
Proof.
  intros G Hsz. rewrite wp_bind. eapply wp_mono; [|by apply primary_stack_ok]. cbn beta. intros _ m1 S1.
  eapply wp_mono; [|by apply (secondary_stacks_ok m m1)]. cbn beta. intros _ m' (fs & Hl & [S1' S2 [El Eh] S4 Hnd Hfr Hfree Htops (P1 & P2 & P3)]).
  exists fs. split_and!; try done. cbv zeta. destruct fs as [|f1 [|f2 [|f3 [|? ?]]]]; try done.
  set (a := p_pa (m_phys m)) in *. unfold stack_tops, stack_bottoms. cbn [fmap list_fmap].
  destruct (Htops 0%nat f1 eq_refl) as (A1 & B1 & C1). destruct (Htops 1%nat f2 eq_refl) as (A2 & B2 & C2). destruct (Htops 2%nat f3 eq_refl) as (A3 & B3 & C3).
  assert (Hbounds : forall i, (i < 4)%nat -> m_sp_top m' !! i = [primary_stack_start; frame_addr a f1; frame_addr a f2; frame_addr a f3] !! i /\
    m_sp_bottom m' !! i = [primary_stack_end; frame_addr a f1 + 4096; frame_addr a f2 + 4096; frame_addr a f3 + 4096] !! i).
  { intros i Hi. do 4 (destruct i as [|i]; [done|]). lia. }
  assert (Hin : forall mem, ram_lo mem = ram_lo (p_mem (m_phys m)) -> ram_hi mem = ram_hi (p_mem (m_phys m)) ->
    forall t, t ∈ [primary_stack_start; frame_addr a f1; frame_addr a f2; frame_addr a f3] -> in_ram mem t 8 = true).
  { intros mem E1 E2 t. pose proof (sk_stack _ G) as Hs. unfold in_ram in *. rewrite E1, E2.
    rewrite !elem_of_cons, elem_of_nil. intros [->|Ht]; [done|].
    assert (exists f, f ∈ [f1; f2; f3] /\ t = frame_addr a f) as (f & Hf & ->) by (destruct Ht as [->|[->|[->|[]]]]; eexists; (split; [|done]); set_solver).
    apply Hfr, elem_free_set in Hf as [Hf _]. pose proof (sk_ram _ G f Hf) as Hr. unfold in_ram in Hr. fold a in Hr. lia. }
  assert (Hck : forall mem, ram_lo mem = ram_lo (p_mem (m_phys m)) -> ram_hi mem = ram_hi (p_mem (m_phys m)) ->
    let m'' := set_phys (set_mem mem (m_phys m')) m' in
    sp_canary_check m'' = if intact mem [primary_stack_start; frame_addr a f1; frame_addr a f2; frame_addr a f3] then Ok true m'' else Panic m'').
  { intros mem E1 E2 m''. apply (canary_check_ok m''). intros i t Ht. split.
    - cbn. rewrite <- Ht. apply Hbounds. by apply lookup_lt_Some in Ht.
    - apply (Hin mem E1 E2). by eapply list_elem_of_lookup_2. }
  split_and!; [exact Hbounds| |exact Hck].
  specialize (Hck (p_mem (m_phys m')) El Eh). cbv zeta in Hck. replace (set_phys (set_mem (p_mem (m_phys m')) (m_phys m')) m') with m' in Hck by (by destruct m' as [? [] ?]).
  rewrite Hck. replace (intact _ _) with true; [done|]. symmetry. apply intact_spec. intros i t Ht.
  destruct i as [|[|[|[|i]]]]; cbn in Ht; simplify_eq; done.
Qed.

End Stacks.

(** The machine at reset with arrays of 32 stacks. *)
Definition boot_machine : machine sim :=
  set_sp_top (replicate 32 0) (set_sp_bottom (replicate 32 0) sim_machine).

Lemma boot_ground : stack_ground boot_machine.
Proof.
  split.
  - apply example_pt_inv.
  - done.
  - apply (pi_frames _ _ _ example_pt_inv).
  - split; reflexivity.
  - reflexivity.
  - intros i Hi. left. unfold frame_addr. cbn in *. lia.
Qed.

Lemma stacks_spec_witness :
  wp (primary_stack_init ;; secondary_stacks_init) (fun _ m' => sp_canary_check m' = Ok true m') boot_machine.
Proof.
  eapply wp_mono; [|apply (stacks_spec boot_machine boot_ground)].
  - cbn beta. intros _ m' (fs & _ & _ & _ & _ & _ & Hck & _). exact Hck.
  - vm_compute. lia.
Defined.
