(* ===== verification/KMachine.v ===== *)
(** The guest kernel (src/guest/xv6/kernel): its structures, its global variables
    as one record, and the parts that are not C.

    A structure is a record of the same name, a pointer to an element of a static
    array its index ([option nat] where the code compares it with 0).  Spinlocks are
    kept apart from the structures that contain them: a pointer to one is a [lockid],
    and [k_locks] says what is there.  Kernel pages are bytes of [k_mem].
    [Platform] stands for the device registers, the system registers and the two
    assembly routines that C calls ([swtch], [psci_call]); [Symbols] for the addresses
    the linker chooses.  What [swtch] does to the state is what other processes and
    interrupt handlers do until this one runs again. *)
From stdpp Require Import base gmap list numbers strings tactics countable.
From S2P Require Import Prelude Mem.

(** * param.h, memlayout.h, aarch64.h *)

Definition NPROC : Z := 64.
Definition NCPU : Z := 4.
Definition NOFILE : Z := 16.
Definition NFILE : Z := 100.
Definition NINODE : Z := 50.
Definition NDEV : Z := 10.
Definition ROOTDEV : Z := 1.
Definition MAXARG : Z := 32.
Definition MAXOPBLOCKS : Z := 10.
Definition LOGSIZE : Z := MAXOPBLOCKS * 3.
Definition NBUF : nat := 30.           (* MAXOPBLOCKS*3 *)
Definition MAXPATH : Z := 128.
Definition BSIZE : Z := 1024.

Definition EXTMEM : Z := 0x40000000.
Definition PHYSTOP : Z := EXTMEM + 128 * 1024 * 1024.
Definition KERNBASE : Z := 0xffffff8000000000.
Definition KERNLINK : Z := KERNBASE + EXTMEM.
Definition V2P (a : Z) : Z := u64 (a - KERNBASE).
Definition P2V (a : Z) : Z := u64 (a + KERNBASE).
Definition MAXVA : Z := KERNBASE + Z.shiftl 1 38.
Definition PGSIZE : Z := 4096.
Definition KSTACK (p : Z) : Z := MAXVA - (p + 1) * 2 * PGSIZE.
(** The mask [~(PGSIZE-1)] is an [int]: it is sign-extended. *)
Definition PGROUNDUP (sz : Z) : Z := Z.land (u64 (sz + PGSIZE - 1)) (notw 64 (PGSIZE - 1)).
Definition PGROUNDDOWN (a : Z) : Z := Z.land a (notw 64 (PGSIZE - 1)).

(** * Names for addresses *)

(** A pointer to a [struct spinlock], by the variable that contains it. *)
Inductive lockid :=
| LKmem | LBcache | LBuf (i : nat) | LLog | LPid | LWait | LProc (i : nat) | LFtable | LItable
| LInode (i : nat) | LVdisk | LPipe (pi : Z) | LTicks | LCons | LUartTx | LPr.

(** A pointer to a [struct sleeplock]. *)
Inductive sleepid := SBuf (i : nat) | SInode (i : nat).

(** A wait channel: an address that names what a process waits for. *)
Inductive chan :=
| ChLog | ChSleep (l : sleepid) | ChBuf (i : nat) | ChProc (i : nat) | ChNread (pi : Z) | ChNwrite (pi : Z)
| ChDisk | ChTicks | ChCons | ChUart.

Inductive procstate := UNUSED | USED | SLEEPING | RUNNABLE | RUNNING | ZOMBIE.
Inductive fdtype := FD_NONE | FD_PIPE | FD_INODE | FD_DEVICE.

(** What the pointers of [struct devsw] designate. *)
Inductive dev_read_fn := consoleread_fn.
Inductive dev_write_fn := consolewrite_fn.

#[export] Instance lockid_eq_dec : EqDecision lockid.
Proof. solve_decision. Defined.
#[export] Instance sleepid_eq_dec : EqDecision sleepid.
Proof. solve_decision. Defined.
#[export] Instance chan_eq_dec : EqDecision chan.
Proof. solve_decision. Defined.
#[export] Instance procstate_eq_dec : EqDecision procstate.
Proof. solve_decision. Defined.
#[export] Instance fdtype_eq_dec : EqDecision fdtype.
Proof. solve_decision. Defined.

Definition lockid_code (l : lockid) : Z * Z :=
  match l with
  | LKmem => (0, 0) | LBcache => (1, 0) | LBuf i => (2, Z.of_nat i) | LLog => (3, 0) | LPid => (4, 0)
  | LWait => (5, 0) | LProc i => (6, Z.of_nat i) | LFtable => (7, 0) | LItable => (8, 0)
  | LInode i => (9, Z.of_nat i) | LVdisk => (10, 0) | LPipe pi => (11, pi) | LTicks => (12, 0)
  | LCons => (13, 0) | LUartTx => (14, 0) | LPr => (15, 0)
  end.
Definition lockid_decode (c : Z * Z) : option lockid :=
  match fst c with
  | 0 => Some LKmem | 1 => Some LBcache | 2 => Some (LBuf (Z.to_nat (snd c))) | 3 => Some LLog
  | 4 => Some LPid | 5 => Some LWait | 6 => Some (LProc (Z.to_nat (snd c))) | 7 => Some LFtable
  | 8 => Some LItable | 9 => Some (LInode (Z.to_nat (snd c))) | 10 => Some LVdisk
  | 11 => Some (LPipe (snd c)) | 12 => Some LTicks | 13 => Some LCons | 14 => Some LUartTx
  | 15 => Some LPr | _ => None
  end.
#[export] Instance lockid_countable : Countable lockid.
Proof.
  apply (inj_countable lockid_code lockid_decode). by intros []; cbn; rewrite ?Nat2Z.id.
Defined.

(** * Structures *)

(** [struct spinlock] *)
Record spinlock := mkLk { lk_locked : Z; lk_name : string; lk_cpu : option nat }.
(** [struct sleeplock]; its spinlock [lk] is in the store of spinlocks. *)
Record sleeplock := mkSleep { sk_locked : Z; sk_name : string; sk_pid : Z }.
(** [struct context]; [ctx_x] is [x18] .. [x30]. *)
Record context := mkCtx { ctx_sp : Z; ctx_x : list Z }.
(** [struct trapframe]; [tf_x] is [x0] .. [x30]. *)
Record trapframe := mkTf { tf_x : list Z; tf_elr : Z; tf_spsr : Z; tf_sp : Z }.
(** [struct cpu] *)
Record cpu := mkCpu { c_proc : option nat; c_context : context; c_noff : Z; c_intena : Z }.
(** [struct proc]; its lock is in the store of spinlocks. *)
Record proc := mkProc { p_state : procstate; p_chan : option chan; p_killed : Z; p_xstate : Z; p_pid
  : Z; p_parent : option nat; p_kstack : Z; p_sz : Z; p_pagetable : Z; p_trapframe : option nat;
  p_context : context; p_ofile : list (option nat); p_cwd : option nat; p_name : list Z }.
(** [struct buf]; a link is an index into [bcache.buf], or [NBUF] for [bcache.head]. *)
Record buf := mkBuf { b_valid : Z; b_disk : Z; b_dev : Z; b_blockno : Z; b_lock : sleeplock;
  b_refcnt : Z; b_prev : nat; b_next : nat; b_data : list Z }.
(** [struct logheader] *)
Record logheader := mkLh { lh_n : Z; lh_block : list Z }.
(** [struct log]; its lock is in the store of spinlocks. *)
Record log := mkLog { lg_start : Z; lg_size : Z; lg_outstanding : Z; lg_committing : Z; lg_dev : Z;
  lg_lh : logheader }.
(** [struct superblock] *)
Record superblock := mkSb { sb_magic : Z; sb_size : Z; sb_nblocks : Z; sb_ninodes : Z; sb_nlog : Z;
  sb_logstart : Z; sb_inodestart : Z; sb_bmapstart : Z }.
(** [struct inode] *)
Record inode := mkInode { i_dev : Z; i_inum : Z; i_ref : Z; i_lock : sleeplock; i_valid : Z; i_type
  : Z; i_major : Z; i_minor : Z; i_nlink : Z; i_size : Z; i_addrs : list Z }.
(** [struct file]; [f_pipe] is an address. *)
Record file := mkFile { f_type : fdtype; f_ref : Z; f_readable : Z; f_writable : Z; f_pipe : Z; f_ip
  : option nat; f_off : Z; f_major : Z }.
(** [struct devsw] *)
Record devsw := mkDevsw { dv_read : option dev_read_fn; dv_write : option dev_write_fn }.
(** [struct virtq_desc] *)
Record virtq_desc := mkDesc { d_addr : Z; d_len : Z; d_flags : Z; d_next : Z }.
(** [struct virtio_blk_req] *)
Record virtio_blk_req := mkReq { rq_type : Z; rq_reserved : Z; rq_sector : Z }.
(** [struct virtq_avail] *)
Record virtq_avail := mkAvail { av_idx : Z; av_ring : list Z }.
(** [struct virtq_used]; an element is its [id] and its [len]. *)
Record virtq_used := mkUsed { us_idx : Z; us_ring : list (Z * Z) }.
(** [struct disk]; [vd_info] is the buffer and the status byte of each request. *)
Record vdisk := mkVdisk { vd_desc : list virtq_desc; vd_avail : virtq_avail; vd_used : virtq_used;
  vd_free : list Z; vd_used_idx : Z; vd_info : list (option nat * Z); vd_ops : list virtio_blk_req
  }.
(** The anonymous structure [cons]. *)
Record console := mkCons { cn_buf : list Z; cn_r : Z; cn_w : Z; cn_e : Z }.
(** The transmit buffer of uart.c. *)
Record uart_tx := mkUart { ut_buf : list Z; ut_w : Z; ut_r : Z }.

(** The anonymous structure [gicv3]: the address of the distributor and of the redistributor
    of each core. *)
Record gicv3 := mkGicv3 { gv_gicd : Z; gv_rdist_addrs : list Z }.

(** * The global variables *)

Record kernel (H : Type) := mkKernel {
  k_hw : H;   (* device registers, system registers *)
  k_mem : memory;   (* RAM, at its kernel virtual addresses *)
  k_mpidr : Z;   (* mpidr_el1 of the core *)
  k_daif : Z;   (* the DAIF mask of the core *)
  k_locks : gmap lockid spinlock;   (* every struct spinlock *)
  k_cpus : list cpu;   (* cpus *)
  k_proc : list proc;   (* proc *)
  k_tf : list trapframe;   (* trap frames, at the top of each kernel stack *)
  k_initproc : option nat;   (* initproc *)
  k_nextpid : Z;   (* nextpid *)
  k_first : Z;   (* first, of forkret *)
  k_freelist : Z;   (* kmem.freelist *)
  k_kpt : Z;   (* kernel_pagetable *)
  k_bufs : list buf;   (* bcache.buf, then bcache.head *)
  k_log : log;   (* log *)
  k_sb : superblock;   (* sb *)
  k_inodes : list inode;   (* itable.inode *)
  k_files : list file;   (* ftable.file *)
  k_devsw : list devsw;   (* devsw *)
  k_vdisk : vdisk;   (* disk *)
  k_cons : console;   (* cons *)
  k_uart : uart_tx;   (* uart_tx_buf, uart_tx_w, uart_tx_r *)
  k_locking : Z;   (* pr.locking *)
  k_panicked : Z;   (* panicked *)
  k_ticks : Z;   (* ticks *)
  k_started : Z;   (* started *)
  k_gicv3 : gicv3   (* gicv3 *)
}.
Arguments mkKernel {H}. Arguments k_hw {H}. Arguments k_mem {H}. Arguments k_mpidr {H}. Arguments
k_daif {H}. Arguments k_locks {H}. Arguments k_cpus {H}. Arguments k_proc {H}. Arguments k_tf {H}.
Arguments k_initproc {H}. Arguments k_nextpid {H}. Arguments k_first {H}. Arguments k_freelist {H}.
Arguments k_kpt {H}. Arguments k_bufs {H}. Arguments k_log {H}. Arguments k_sb {H}. Arguments
k_inodes {H}. Arguments k_files {H}. Arguments k_devsw {H}. Arguments k_vdisk {H}. Arguments k_cons
{H}. Arguments k_uart {H}. Arguments k_locking {H}. Arguments k_panicked {H}. Arguments k_ticks {H}.
Arguments k_started {H}. Arguments k_gicv3 {H}.

(** Field updates. *)
Definition set_tf_x (v : list Z) (r : trapframe) : trapframe := mkTf v (tf_elr r) (tf_spsr r) (tf_sp
  r).
Definition set_tf_elr (v : Z) (r : trapframe) : trapframe := mkTf (tf_x r) v (tf_spsr r) (tf_sp r).
Definition set_tf_spsr (v : Z) (r : trapframe) : trapframe := mkTf (tf_x r) (tf_elr r) v (tf_sp r).
Definition set_tf_sp (v : Z) (r : trapframe) : trapframe := mkTf (tf_x r) (tf_elr r) (tf_spsr r) v.
Definition set_c_proc (v : option nat) (r : cpu) : cpu := mkCpu v (c_context r) (c_noff r) (c_intena
  r).
Definition set_c_context (v : context) (r : cpu) : cpu := mkCpu (c_proc r) v (c_noff r) (c_intena
  r).
Definition set_c_noff (v : Z) (r : cpu) : cpu := mkCpu (c_proc r) (c_context r) v (c_intena r).
Definition set_c_intena (v : Z) (r : cpu) : cpu := mkCpu (c_proc r) (c_context r) (c_noff r) v.
Definition set_p_state (v : procstate) (r : proc) : proc := mkProc v (p_chan r) (p_killed r)
  (p_xstate r) (p_pid r) (p_parent r) (p_kstack r) (p_sz r) (p_pagetable r) (p_trapframe r)
  (p_context r) (p_ofile r) (p_cwd r) (p_name r).
Definition set_p_chan (v : option chan) (r : proc) : proc := mkProc (p_state r) v (p_killed r)
  (p_xstate r) (p_pid r) (p_parent r) (p_kstack r) (p_sz r) (p_pagetable r) (p_trapframe r)
  (p_context r) (p_ofile r) (p_cwd r) (p_name r).
Definition set_p_killed (v : Z) (r : proc) : proc := mkProc (p_state r) (p_chan r) v (p_xstate r)
  (p_pid r) (p_parent r) (p_kstack r) (p_sz r) (p_pagetable r) (p_trapframe r) (p_context r)
  (p_ofile r) (p_cwd r) (p_name r).
Definition set_p_xstate (v : Z) (r : proc) : proc := mkProc (p_state r) (p_chan r) (p_killed r) v
  (p_pid r) (p_parent r) (p_kstack r) (p_sz r) (p_pagetable r) (p_trapframe r) (p_context r)
  (p_ofile r) (p_cwd r) (p_name r).
Definition set_p_pid (v : Z) (r : proc) : proc := mkProc (p_state r) (p_chan r) (p_killed r)
  (p_xstate r) v (p_parent r) (p_kstack r) (p_sz r) (p_pagetable r) (p_trapframe r) (p_context r)
  (p_ofile r) (p_cwd r) (p_name r).
Definition set_p_parent (v : option nat) (r : proc) : proc := mkProc (p_state r) (p_chan r)
  (p_killed r) (p_xstate r) (p_pid r) v (p_kstack r) (p_sz r) (p_pagetable r) (p_trapframe r)
  (p_context r) (p_ofile r) (p_cwd r) (p_name r).
Definition set_p_kstack (v : Z) (r : proc) : proc := mkProc (p_state r) (p_chan r) (p_killed r)
  (p_xstate r) (p_pid r) (p_parent r) v (p_sz r) (p_pagetable r) (p_trapframe r) (p_context r)
  (p_ofile r) (p_cwd r) (p_name r).
Definition set_p_sz (v : Z) (r : proc) : proc := mkProc (p_state r) (p_chan r) (p_killed r)
  (p_xstate r) (p_pid r) (p_parent r) (p_kstack r) v (p_pagetable r) (p_trapframe r) (p_context r)
  (p_ofile r) (p_cwd r) (p_name r).
Definition set_p_pagetable (v : Z) (r : proc) : proc := mkProc (p_state r) (p_chan r) (p_killed r)
  (p_xstate r) (p_pid r) (p_parent r) (p_kstack r) (p_sz r) v (p_trapframe r) (p_context r) (p_ofile
  r) (p_cwd r) (p_name r).
Definition set_p_trapframe (v : option nat) (r : proc) : proc := mkProc (p_state r) (p_chan r)
  (p_killed r) (p_xstate r) (p_pid r) (p_parent r) (p_kstack r) (p_sz r) (p_pagetable r) v
  (p_context r) (p_ofile r) (p_cwd r) (p_name r).
Definition set_p_context (v : context) (r : proc) : proc := mkProc (p_state r) (p_chan r) (p_killed
  r) (p_xstate r) (p_pid r) (p_parent r) (p_kstack r) (p_sz r) (p_pagetable r) (p_trapframe r) v
  (p_ofile r) (p_cwd r) (p_name r).
Definition set_p_ofile (v : list (option nat)) (r : proc) : proc := mkProc (p_state r) (p_chan r)
  (p_killed r) (p_xstate r) (p_pid r) (p_parent r) (p_kstack r) (p_sz r) (p_pagetable r)
  (p_trapframe r) (p_context r) v (p_cwd r) (p_name r).
Definition set_p_cwd (v : option nat) (r : proc) : proc := mkProc (p_state r) (p_chan r) (p_killed
  r) (p_xstate r) (p_pid r) (p_parent r) (p_kstack r) (p_sz r) (p_pagetable r) (p_trapframe r)
  (p_context r) (p_ofile r) v (p_name r).
Definition set_p_name (v : list Z) (r : proc) : proc := mkProc (p_state r) (p_chan r) (p_killed r)
  (p_xstate r) (p_pid r) (p_parent r) (p_kstack r) (p_sz r) (p_pagetable r) (p_trapframe r)
  (p_context r) (p_ofile r) (p_cwd r) v.
Definition set_b_valid (v : Z) (r : buf) : buf := mkBuf v (b_disk r) (b_dev r) (b_blockno r) (b_lock
  r) (b_refcnt r) (b_prev r) (b_next r) (b_data r).
Definition set_b_disk (v : Z) (r : buf) : buf := mkBuf (b_valid r) v (b_dev r) (b_blockno r) (b_lock
  r) (b_refcnt r) (b_prev r) (b_next r) (b_data r).
Definition set_b_dev (v : Z) (r : buf) : buf := mkBuf (b_valid r) (b_disk r) v (b_blockno r) (b_lock
  r) (b_refcnt r) (b_prev r) (b_next r) (b_data r).
Definition set_b_blockno (v : Z) (r : buf) : buf := mkBuf (b_valid r) (b_disk r) (b_dev r) v (b_lock
  r) (b_refcnt r) (b_prev r) (b_next r) (b_data r).
Definition set_b_lock (v : sleeplock) (r : buf) : buf := mkBuf (b_valid r) (b_disk r) (b_dev r)
  (b_blockno r) v (b_refcnt r) (b_prev r) (b_next r) (b_data r).
Definition set_b_refcnt (v : Z) (r : buf) : buf := mkBuf (b_valid r) (b_disk r) (b_dev r) (b_blockno
  r) (b_lock r) v (b_prev r) (b_next r) (b_data r).
Definition set_b_prev (v : nat) (r : buf) : buf := mkBuf (b_valid r) (b_disk r) (b_dev r) (b_blockno
  r) (b_lock r) (b_refcnt r) v (b_next r) (b_data r).
Definition set_b_next (v : nat) (r : buf) : buf := mkBuf (b_valid r) (b_disk r) (b_dev r) (b_blockno
  r) (b_lock r) (b_refcnt r) (b_prev r) v (b_data r).
Definition set_b_data (v : list Z) (r : buf) : buf := mkBuf (b_valid r) (b_disk r) (b_dev r)
  (b_blockno r) (b_lock r) (b_refcnt r) (b_prev r) (b_next r) v.
Definition set_lh_n (v : Z) (r : logheader) : logheader := mkLh v (lh_block r).
Definition set_lh_block (v : list Z) (r : logheader) : logheader := mkLh (lh_n r) v.
Definition set_lg_start (v : Z) (r : log) : log := mkLog v (lg_size r) (lg_outstanding r)
  (lg_committing r) (lg_dev r) (lg_lh r).
Definition set_lg_size (v : Z) (r : log) : log := mkLog (lg_start r) v (lg_outstanding r)
  (lg_committing r) (lg_dev r) (lg_lh r).
Definition set_lg_outstanding (v : Z) (r : log) : log := mkLog (lg_start r) (lg_size r) v
  (lg_committing r) (lg_dev r) (lg_lh r).
Definition set_lg_committing (v : Z) (r : log) : log := mkLog (lg_start r) (lg_size r)
  (lg_outstanding r) v (lg_dev r) (lg_lh r).
Definition set_lg_dev (v : Z) (r : log) : log := mkLog (lg_start r) (lg_size r) (lg_outstanding r)
  (lg_committing r) v (lg_lh r).
Definition set_lg_lh (v : logheader) (r : log) : log := mkLog (lg_start r) (lg_size r)
  (lg_outstanding r) (lg_committing r) (lg_dev r) v.
Definition set_i_dev (v : Z) (r : inode) : inode := mkInode v (i_inum r) (i_ref r) (i_lock r)
  (i_valid r) (i_type r) (i_major r) (i_minor r) (i_nlink r) (i_size r) (i_addrs r).
Definition set_i_inum (v : Z) (r : inode) : inode := mkInode (i_dev r) v (i_ref r) (i_lock r)
  (i_valid r) (i_type r) (i_major r) (i_minor r) (i_nlink r) (i_size r) (i_addrs r).
Definition set_i_ref (v : Z) (r : inode) : inode := mkInode (i_dev r) (i_inum r) v (i_lock r)
  (i_valid r) (i_type r) (i_major r) (i_minor r) (i_nlink r) (i_size r) (i_addrs r).
Definition set_i_lock (v : sleeplock) (r : inode) : inode := mkInode (i_dev r) (i_inum r) (i_ref r)
  v (i_valid r) (i_type r) (i_major r) (i_minor r) (i_nlink r) (i_size r) (i_addrs r).
Definition set_i_valid (v : Z) (r : inode) : inode := mkInode (i_dev r) (i_inum r) (i_ref r) (i_lock
  r) v (i_type r) (i_major r) (i_minor r) (i_nlink r) (i_size r) (i_addrs r).
Definition set_i_type (v : Z) (r : inode) : inode := mkInode (i_dev r) (i_inum r) (i_ref r) (i_lock
  r) (i_valid r) v (i_major r) (i_minor r) (i_nlink r) (i_size r) (i_addrs r).
Definition set_i_major (v : Z) (r : inode) : inode := mkInode (i_dev r) (i_inum r) (i_ref r) (i_lock
  r) (i_valid r) (i_type r) v (i_minor r) (i_nlink r) (i_size r) (i_addrs r).
Definition set_i_minor (v : Z) (r : inode) : inode := mkInode (i_dev r) (i_inum r) (i_ref r) (i_lock
  r) (i_valid r) (i_type r) (i_major r) v (i_nlink r) (i_size r) (i_addrs r).
Definition set_i_nlink (v : Z) (r : inode) : inode := mkInode (i_dev r) (i_inum r) (i_ref r) (i_lock
  r) (i_valid r) (i_type r) (i_major r) (i_minor r) v (i_size r) (i_addrs r).
Definition set_i_size (v : Z) (r : inode) : inode := mkInode (i_dev r) (i_inum r) (i_ref r) (i_lock
  r) (i_valid r) (i_type r) (i_major r) (i_minor r) (i_nlink r) v (i_addrs r).
Definition set_i_addrs (v : list Z) (r : inode) : inode := mkInode (i_dev r) (i_inum r) (i_ref r)
  (i_lock r) (i_valid r) (i_type r) (i_major r) (i_minor r) (i_nlink r) (i_size r) v.
Definition set_f_type (v : fdtype) (r : file) : file := mkFile v (f_ref r) (f_readable r)
  (f_writable r) (f_pipe r) (f_ip r) (f_off r) (f_major r).
Definition set_f_ref (v : Z) (r : file) : file := mkFile (f_type r) v (f_readable r) (f_writable r)
  (f_pipe r) (f_ip r) (f_off r) (f_major r).
Definition set_f_readable (v : Z) (r : file) : file := mkFile (f_type r) (f_ref r) v (f_writable r)
  (f_pipe r) (f_ip r) (f_off r) (f_major r).
Definition set_f_writable (v : Z) (r : file) : file := mkFile (f_type r) (f_ref r) (f_readable r) v
  (f_pipe r) (f_ip r) (f_off r) (f_major r).
Definition set_f_pipe (v : Z) (r : file) : file := mkFile (f_type r) (f_ref r) (f_readable r)
  (f_writable r) v (f_ip r) (f_off r) (f_major r).
Definition set_f_ip (v : option nat) (r : file) : file := mkFile (f_type r) (f_ref r) (f_readable r)
  (f_writable r) (f_pipe r) v (f_off r) (f_major r).
Definition set_f_off (v : Z) (r : file) : file := mkFile (f_type r) (f_ref r) (f_readable r)
  (f_writable r) (f_pipe r) (f_ip r) v (f_major r).
Definition set_f_major (v : Z) (r : file) : file := mkFile (f_type r) (f_ref r) (f_readable r)
  (f_writable r) (f_pipe r) (f_ip r) (f_off r) v.
Definition set_vd_desc (v : list virtq_desc) (r : vdisk) : vdisk := mkVdisk v (vd_avail r) (vd_used
  r) (vd_free r) (vd_used_idx r) (vd_info r) (vd_ops r).
Definition set_vd_avail (v : virtq_avail) (r : vdisk) : vdisk := mkVdisk (vd_desc r) v (vd_used r)
  (vd_free r) (vd_used_idx r) (vd_info r) (vd_ops r).
Definition set_vd_used (v : virtq_used) (r : vdisk) : vdisk := mkVdisk (vd_desc r) (vd_avail r) v
  (vd_free r) (vd_used_idx r) (vd_info r) (vd_ops r).
Definition set_vd_free (v : list Z) (r : vdisk) : vdisk := mkVdisk (vd_desc r) (vd_avail r) (vd_used
  r) v (vd_used_idx r) (vd_info r) (vd_ops r).
Definition set_vd_used_idx (v : Z) (r : vdisk) : vdisk := mkVdisk (vd_desc r) (vd_avail r) (vd_used
  r) (vd_free r) v (vd_info r) (vd_ops r).
Definition set_vd_info (v : list (option nat * Z)) (r : vdisk) : vdisk := mkVdisk (vd_desc r)
  (vd_avail r) (vd_used r) (vd_free r) (vd_used_idx r) v (vd_ops r).
Definition set_vd_ops (v : list virtio_blk_req) (r : vdisk) : vdisk := mkVdisk (vd_desc r) (vd_avail
  r) (vd_used r) (vd_free r) (vd_used_idx r) (vd_info r) v.
Definition set_cn_buf (v : list Z) (r : console) : console := mkCons v (cn_r r) (cn_w r) (cn_e r).
Definition set_cn_r (v : Z) (r : console) : console := mkCons (cn_buf r) v (cn_w r) (cn_e r).
Definition set_cn_w (v : Z) (r : console) : console := mkCons (cn_buf r) (cn_r r) v (cn_e r).
Definition set_cn_e (v : Z) (r : console) : console := mkCons (cn_buf r) (cn_r r) (cn_w r) v.
Definition set_ut_buf (v : list Z) (r : uart_tx) : uart_tx := mkUart v (ut_w r) (ut_r r).
Definition set_ut_w (v : Z) (r : uart_tx) : uart_tx := mkUart (ut_buf r) v (ut_r r).
Definition set_ut_r (v : Z) (r : uart_tx) : uart_tx := mkUart (ut_buf r) (ut_w r) v.

Section Setters.
Context {H : Type}.
Definition set_k_hw (v : H) (r : kernel H) : kernel H := mkKernel v (k_mem r) (k_mpidr r) (k_daif r)
  (k_locks r) (k_cpus r) (k_proc r) (k_tf r) (k_initproc r) (k_nextpid r) (k_first r) (k_freelist r)
  (k_kpt r) (k_bufs r) (k_log r) (k_sb r) (k_inodes r) (k_files r) (k_devsw r) (k_vdisk r) (k_cons
  r) (k_uart r) (k_locking r) (k_panicked r) (k_ticks r) (k_started r) (k_gicv3 r).
Definition set_k_mem (v : memory) (r : kernel H) : kernel H := mkKernel (k_hw r) v (k_mpidr r)
  (k_daif r) (k_locks r) (k_cpus r) (k_proc r) (k_tf r) (k_initproc r) (k_nextpid r) (k_first r)
  (k_freelist r) (k_kpt r) (k_bufs r) (k_log r) (k_sb r) (k_inodes r) (k_files r) (k_devsw r)
  (k_vdisk r) (k_cons r) (k_uart r) (k_locking r) (k_panicked r) (k_ticks r) (k_started r) (k_gicv3
  r).
Definition set_k_mpidr (v : Z) (r : kernel H) : kernel H := mkKernel (k_hw r) (k_mem r) v (k_daif r)
  (k_locks r) (k_cpus r) (k_proc r) (k_tf r) (k_initproc r) (k_nextpid r) (k_first r) (k_freelist r)
  (k_kpt r) (k_bufs r) (k_log r) (k_sb r) (k_inodes r) (k_files r) (k_devsw r) (k_vdisk r) (k_cons
  r) (k_uart r) (k_locking r) (k_panicked r) (k_ticks r) (k_started r) (k_gicv3 r).
Definition set_k_daif (v : Z) (r : kernel H) : kernel H := mkKernel (k_hw r) (k_mem r) (k_mpidr r) v
  (k_locks r) (k_cpus r) (k_proc r) (k_tf r) (k_initproc r) (k_nextpid r) (k_first r) (k_freelist r)
  (k_kpt r) (k_bufs r) (k_log r) (k_sb r) (k_inodes r) (k_files r) (k_devsw r) (k_vdisk r) (k_cons
  r) (k_uart r) (k_locking r) (k_panicked r) (k_ticks r) (k_started r) (k_gicv3 r).
Definition set_k_locks (v : gmap lockid spinlock) (r : kernel H) : kernel H := mkKernel (k_hw r)
  (k_mem r) (k_mpidr r) (k_daif r) v (k_cpus r) (k_proc r) (k_tf r) (k_initproc r) (k_nextpid r)
  (k_first r) (k_freelist r) (k_kpt r) (k_bufs r) (k_log r) (k_sb r) (k_inodes r) (k_files r)
  (k_devsw r) (k_vdisk r) (k_cons r) (k_uart r) (k_locking r) (k_panicked r) (k_ticks r) (k_started
  r) (k_gicv3 r).
Definition set_k_cpus (v : list cpu) (r : kernel H) : kernel H := mkKernel (k_hw r) (k_mem r)
  (k_mpidr r) (k_daif r) (k_locks r) v (k_proc r) (k_tf r) (k_initproc r) (k_nextpid r) (k_first r)
  (k_freelist r) (k_kpt r) (k_bufs r) (k_log r) (k_sb r) (k_inodes r) (k_files r) (k_devsw r)
  (k_vdisk r) (k_cons r) (k_uart r) (k_locking r) (k_panicked r) (k_ticks r) (k_started r) (k_gicv3
  r).
Definition set_k_proc (v : list proc) (r : kernel H) : kernel H := mkKernel (k_hw r) (k_mem r)
  (k_mpidr r) (k_daif r) (k_locks r) (k_cpus r) v (k_tf r) (k_initproc r) (k_nextpid r) (k_first r)
  (k_freelist r) (k_kpt r) (k_bufs r) (k_log r) (k_sb r) (k_inodes r) (k_files r) (k_devsw r)
  (k_vdisk r) (k_cons r) (k_uart r) (k_locking r) (k_panicked r) (k_ticks r) (k_started r) (k_gicv3
  r).
Definition set_k_tf (v : list trapframe) (r : kernel H) : kernel H := mkKernel (k_hw r) (k_mem r)
  (k_mpidr r) (k_daif r) (k_locks r) (k_cpus r) (k_proc r) v (k_initproc r) (k_nextpid r) (k_first
  r) (k_freelist r) (k_kpt r) (k_bufs r) (k_log r) (k_sb r) (k_inodes r) (k_files r) (k_devsw r)
  (k_vdisk r) (k_cons r) (k_uart r) (k_locking r) (k_panicked r) (k_ticks r) (k_started r) (k_gicv3
  r).
Definition set_k_initproc (v : option nat) (r : kernel H) : kernel H := mkKernel (k_hw r) (k_mem r)
  (k_mpidr r) (k_daif r) (k_locks r) (k_cpus r) (k_proc r) (k_tf r) v (k_nextpid r) (k_first r)
  (k_freelist r) (k_kpt r) (k_bufs r) (k_log r) (k_sb r) (k_inodes r) (k_files r) (k_devsw r)
  (k_vdisk r) (k_cons r) (k_uart r) (k_locking r) (k_panicked r) (k_ticks r) (k_started r) (k_gicv3
  r).
Definition set_k_nextpid (v : Z) (r : kernel H) : kernel H := mkKernel (k_hw r) (k_mem r) (k_mpidr
  r) (k_daif r) (k_locks r) (k_cpus r) (k_proc r) (k_tf r) (k_initproc r) v (k_first r) (k_freelist
  r) (k_kpt r) (k_bufs r) (k_log r) (k_sb r) (k_inodes r) (k_files r) (k_devsw r) (k_vdisk r)
  (k_cons r) (k_uart r) (k_locking r) (k_panicked r) (k_ticks r) (k_started r) (k_gicv3 r).
Definition set_k_first (v : Z) (r : kernel H) : kernel H := mkKernel (k_hw r) (k_mem r) (k_mpidr r)
  (k_daif r) (k_locks r) (k_cpus r) (k_proc r) (k_tf r) (k_initproc r) (k_nextpid r) v (k_freelist
  r) (k_kpt r) (k_bufs r) (k_log r) (k_sb r) (k_inodes r) (k_files r) (k_devsw r) (k_vdisk r)
  (k_cons r) (k_uart r) (k_locking r) (k_panicked r) (k_ticks r) (k_started r) (k_gicv3 r).
Definition set_k_freelist (v : Z) (r : kernel H) : kernel H := mkKernel (k_hw r) (k_mem r) (k_mpidr
  r) (k_daif r) (k_locks r) (k_cpus r) (k_proc r) (k_tf r) (k_initproc r) (k_nextpid r) (k_first r)
  v (k_kpt r) (k_bufs r) (k_log r) (k_sb r) (k_inodes r) (k_files r) (k_devsw r) (k_vdisk r) (k_cons
  r) (k_uart r) (k_locking r) (k_panicked r) (k_ticks r) (k_started r) (k_gicv3 r).
Definition set_k_kpt (v : Z) (r : kernel H) : kernel H := mkKernel (k_hw r) (k_mem r) (k_mpidr r)
  (k_daif r) (k_locks r) (k_cpus r) (k_proc r) (k_tf r) (k_initproc r) (k_nextpid r) (k_first r)
  (k_freelist r) v (k_bufs r) (k_log r) (k_sb r) (k_inodes r) (k_files r) (k_devsw r) (k_vdisk r)
  (k_cons r) (k_uart r) (k_locking r) (k_panicked r) (k_ticks r) (k_started r) (k_gicv3 r).
Definition set_k_bufs (v : list buf) (r : kernel H) : kernel H := mkKernel (k_hw r) (k_mem r)
  (k_mpidr r) (k_daif r) (k_locks r) (k_cpus r) (k_proc r) (k_tf r) (k_initproc r) (k_nextpid r)
  (k_first r) (k_freelist r) (k_kpt r) v (k_log r) (k_sb r) (k_inodes r) (k_files r) (k_devsw r)
  (k_vdisk r) (k_cons r) (k_uart r) (k_locking r) (k_panicked r) (k_ticks r) (k_started r) (k_gicv3
  r).
Definition set_k_log (v : log) (r : kernel H) : kernel H := mkKernel (k_hw r) (k_mem r) (k_mpidr r)
  (k_daif r) (k_locks r) (k_cpus r) (k_proc r) (k_tf r) (k_initproc r) (k_nextpid r) (k_first r)
  (k_freelist r) (k_kpt r) (k_bufs r) v (k_sb r) (k_inodes r) (k_files r) (k_devsw r) (k_vdisk r)
  (k_cons r) (k_uart r) (k_locking r) (k_panicked r) (k_ticks r) (k_started r) (k_gicv3 r).
Definition set_k_sb (v : superblock) (r : kernel H) : kernel H := mkKernel (k_hw r) (k_mem r)
  (k_mpidr r) (k_daif r) (k_locks r) (k_cpus r) (k_proc r) (k_tf r) (k_initproc r) (k_nextpid r)
  (k_first r) (k_freelist r) (k_kpt r) (k_bufs r) (k_log r) v (k_inodes r) (k_files r) (k_devsw r)
  (k_vdisk r) (k_cons r) (k_uart r) (k_locking r) (k_panicked r) (k_ticks r) (k_started r) (k_gicv3
  r).
Definition set_k_inodes (v : list inode) (r : kernel H) : kernel H := mkKernel (k_hw r) (k_mem r)
  (k_mpidr r) (k_daif r) (k_locks r) (k_cpus r) (k_proc r) (k_tf r) (k_initproc r) (k_nextpid r)
  (k_first r) (k_freelist r) (k_kpt r) (k_bufs r) (k_log r) (k_sb r) v (k_files r) (k_devsw r)
  (k_vdisk r) (k_cons r) (k_uart r) (k_locking r) (k_panicked r) (k_ticks r) (k_started r) (k_gicv3
  r).
Definition set_k_files (v : list file) (r : kernel H) : kernel H := mkKernel (k_hw r) (k_mem r)
  (k_mpidr r) (k_daif r) (k_locks r) (k_cpus r) (k_proc r) (k_tf r) (k_initproc r) (k_nextpid r)
  (k_first r) (k_freelist r) (k_kpt r) (k_bufs r) (k_log r) (k_sb r) (k_inodes r) v (k_devsw r)
  (k_vdisk r) (k_cons r) (k_uart r) (k_locking r) (k_panicked r) (k_ticks r) (k_started r) (k_gicv3
  r).
Definition set_k_devsw (v : list devsw) (r : kernel H) : kernel H := mkKernel (k_hw r) (k_mem r)
  (k_mpidr r) (k_daif r) (k_locks r) (k_cpus r) (k_proc r) (k_tf r) (k_initproc r) (k_nextpid r)
  (k_first r) (k_freelist r) (k_kpt r) (k_bufs r) (k_log r) (k_sb r) (k_inodes r) (k_files r) v
  (k_vdisk r) (k_cons r) (k_uart r) (k_locking r) (k_panicked r) (k_ticks r) (k_started r) (k_gicv3
  r).
Definition set_k_vdisk (v : vdisk) (r : kernel H) : kernel H := mkKernel (k_hw r) (k_mem r) (k_mpidr
  r) (k_daif r) (k_locks r) (k_cpus r) (k_proc r) (k_tf r) (k_initproc r) (k_nextpid r) (k_first r)
  (k_freelist r) (k_kpt r) (k_bufs r) (k_log r) (k_sb r) (k_inodes r) (k_files r) (k_devsw r) v
  (k_cons r) (k_uart r) (k_locking r) (k_panicked r) (k_ticks r) (k_started r) (k_gicv3 r).
Definition set_k_cons (v : console) (r : kernel H) : kernel H := mkKernel (k_hw r) (k_mem r)
  (k_mpidr r) (k_daif r) (k_locks r) (k_cpus r) (k_proc r) (k_tf r) (k_initproc r) (k_nextpid r)
  (k_first r) (k_freelist r) (k_kpt r) (k_bufs r) (k_log r) (k_sb r) (k_inodes r) (k_files r)
  (k_devsw r) (k_vdisk r) v (k_uart r) (k_locking r) (k_panicked r) (k_ticks r) (k_started r)
  (k_gicv3 r).
Definition set_k_uart (v : uart_tx) (r : kernel H) : kernel H := mkKernel (k_hw r) (k_mem r)
  (k_mpidr r) (k_daif r) (k_locks r) (k_cpus r) (k_proc r) (k_tf r) (k_initproc r) (k_nextpid r)
  (k_first r) (k_freelist r) (k_kpt r) (k_bufs r) (k_log r) (k_sb r) (k_inodes r) (k_files r)
  (k_devsw r) (k_vdisk r) (k_cons r) v (k_locking r) (k_panicked r) (k_ticks r) (k_started r)
  (k_gicv3 r).
Definition set_k_locking (v : Z) (r : kernel H) : kernel H := mkKernel (k_hw r) (k_mem r) (k_mpidr
  r) (k_daif r) (k_locks r) (k_cpus r) (k_proc r) (k_tf r) (k_initproc r) (k_nextpid r) (k_first r)
  (k_freelist r) (k_kpt r) (k_bufs r) (k_log r) (k_sb r) (k_inodes r) (k_files r) (k_devsw r)
  (k_vdisk r) (k_cons r) (k_uart r) v (k_panicked r) (k_ticks r) (k_started r) (k_gicv3 r).
Definition set_k_panicked (v : Z) (r : kernel H) : kernel H := mkKernel (k_hw r) (k_mem r) (k_mpidr
  r) (k_daif r) (k_locks r) (k_cpus r) (k_proc r) (k_tf r) (k_initproc r) (k_nextpid r) (k_first r)
  (k_freelist r) (k_kpt r) (k_bufs r) (k_log r) (k_sb r) (k_inodes r) (k_files r) (k_devsw r)
  (k_vdisk r) (k_cons r) (k_uart r) (k_locking r) v (k_ticks r) (k_started r) (k_gicv3 r).
Definition set_k_ticks (v : Z) (r : kernel H) : kernel H := mkKernel (k_hw r) (k_mem r) (k_mpidr r)
  (k_daif r) (k_locks r) (k_cpus r) (k_proc r) (k_tf r) (k_initproc r) (k_nextpid r) (k_first r)
  (k_freelist r) (k_kpt r) (k_bufs r) (k_log r) (k_sb r) (k_inodes r) (k_files r) (k_devsw r)
  (k_vdisk r) (k_cons r) (k_uart r) (k_locking r) (k_panicked r) v (k_started r) (k_gicv3 r).
Definition set_k_started (v : Z) (r : kernel H) : kernel H := mkKernel (k_hw r) (k_mem r) (k_mpidr
  r) (k_daif r) (k_locks r) (k_cpus r) (k_proc r) (k_tf r) (k_initproc r) (k_nextpid r) (k_first r)
  (k_freelist r) (k_kpt r) (k_bufs r) (k_log r) (k_sb r) (k_inodes r) (k_files r) (k_devsw r)
  (k_vdisk r) (k_cons r) (k_uart r) (k_locking r) (k_panicked r) (k_ticks r) v (k_gicv3 r).
Definition set_k_gicv3 (v : gicv3) (r : kernel H) : kernel H := mkKernel (k_hw r) (k_mem r) (k_mpidr
  r) (k_daif r) (k_locks r) (k_cpus r) (k_proc r) (k_tf r) (k_initproc r) (k_nextpid r) (k_first r)
  (k_freelist r) (k_kpt r) (k_bufs r) (k_log r) (k_sb r) (k_inodes r) (k_files r) (k_devsw r)
  (k_vdisk r) (k_cons r) (k_uart r) (k_locking r) (k_panicked r) (k_ticks r) (k_started r) v.
End Setters.

(** * What is not C *)

(** System registers the kernel names. *)
Inductive ksysreg :=
| vbar_el1 | ttbr0_el1 | ttbr1_el1 | esr_el1 | elr_el1 | far_el1 | cntv_ctl_el0 | cntv_tval_el0 | cntvct_el0
| cntfrq_el0 | icc_igrpen1_el1 | icc_pmr_el1 | icc_iar1_el1 | icc_eoir1_el1 | icc_sre_el1.
#[export] Instance ksysreg_eq_dec : EqDecision ksysreg.
Proof. solve_decision. Defined.

(** A saved context: that of a cpu's scheduler or of a process. *)
Inductive ctxref := CtxCpu (i : nat) | CtxProc (i : nat).

Class Platform (H : Type) := {
  pf_r32 : Z -> H -> Z * H;
  pf_w32 : Z -> Z -> H -> H;
  pf_mrs : ksysreg -> H -> Z * H;
  pf_msr : ksysreg -> Z -> H -> H;
  pf_tlbi : H -> H;                                   (* tlbi vmalle1is *)
  psci_call : Z -> Z -> Z -> Z -> M (kernel H) unit;  (* entry.S *)
  swtch : ctxref -> ctxref -> M (kernel H) unit       (* swtch.S *)
}.

Class Symbols := {
  sym_end : Z; sym_etext : Z; sym_entry : Z; sym_forkret : Z; sym_alltraps : Z;
  sym_pages : Z;                    (* disk.pages *)
  sym_ops : nat -> Z;               (* &disk.ops[i] *)
  sym_status : nat -> Z;            (* &disk.info[i].status *)
  sym_bufdata : nat -> Z            (* bcache.buf[i].data *)
}.

(** * Access to the state *)

Lemma bind_assoc {S A B C} (m : M S A) (f : A -> M S B) (g : B -> M S C) s :
  bind (bind m f) g s = bind m (fun a => bind (f a) g) s.
Proof. unfold bind. by destruct (m s). Qed.

Section Access.
Context {H : Type}.

(** Read and update an element of an array in place; out of range faults. *)
Definition aget {R} (prj : kernel H -> list R) (i : nat) : M (kernel H) R :=
  let! k := get in deref (prj k !! i).
Definition aupd {R} (prj : kernel H -> list R) (set : list R -> kernel H -> kernel H) (i : nat) (f : R -> R) :
    M (kernel H) unit :=
  let! r := aget prj i in modify (fun k => set (<[i := f r]> (prj k)) k).

Lemma aget_ok {R} (prj : kernel H -> list R) i r k : prj k !! i = Some r -> aget prj i k = Ok r k.
Proof. intros E. unfold aget, bind, get. by rewrite E. Qed.
Lemma aupd_ok {R} (prj : kernel H -> list R) set i f r k :
  prj k !! i = Some r -> aupd prj set i f k = Ok tt (set (<[i := f r]> (prj k)) k).
Proof. intros E. unfold aupd. by rewrite (bind_Ok _ _ _ _ _ (aget_ok _ _ _ _ E)). Qed.

Definition get_proc (i : nat) : M (kernel H) proc := aget k_proc i.
Definition upd_proc (i : nat) (f : proc -> proc) : M (kernel H) unit := aupd k_proc set_k_proc i f.
Definition get_cpu (i : nat) : M (kernel H) cpu := aget k_cpus i.
Definition upd_cpu (i : nat) (f : cpu -> cpu) : M (kernel H) unit := aupd k_cpus set_k_cpus i f.
Definition get_buf (i : nat) : M (kernel H) buf := aget k_bufs i.
Definition upd_buf (i : nat) (f : buf -> buf) : M (kernel H) unit := aupd k_bufs set_k_bufs i f.
Definition get_inode (i : nat) : M (kernel H) inode := aget k_inodes i.
Definition upd_inode (i : nat) (f : inode -> inode) : M (kernel H) unit := aupd k_inodes set_k_inodes i f.
Definition get_file (i : nat) : M (kernel H) file := aget k_files i.
Definition upd_file (i : nat) (f : file -> file) : M (kernel H) unit := aupd k_files set_k_files i f.

(** Code on RAM. *)
Definition on_mem {A} (c : M memory A) : M (kernel H) A := zoom k_mem set_k_mem c.

Context `{!Platform H}.

Definition pf_read (f : H -> Z * H) : M (kernel H) Z :=
  fun k => let '(v, h) := f (k_hw k) in Ok v (set_k_hw h k).
Definition pf_do (f : H -> H) : M (kernel H) unit := modify (fun k => set_k_hw (f (k_hw k)) k).
Definition r_sysreg (r : ksysreg) : M (kernel H) Z := let! v := pf_read (pf_mrs r) in ret (u64 v).
Definition w_sysreg (r : ksysreg) (v : Z) : M (kernel H) unit := pf_do (pf_msr r (u64 v)).
Definition reg_read (a : Z) : M (kernel H) Z := let! v := pf_read (pf_r32 a) in ret (u32 v).
Definition reg_write (a v : Z) : M (kernel H) unit := pf_do (pf_w32 a (u32 v)).
Definition flush_tlb : M (kernel H) unit := pf_do pf_tlbi.

(** [daif], [intr_on], [intr_off], [intr_get]: the mask bits are 6 .. 9. *)
Definition intr_on : M (kernel H) unit := modify (fun k => set_k_daif (Z.land (k_daif k) (notw 64 0x3c0)) k).
Definition intr_off : M (kernel H) unit := modify (fun k => set_k_daif (Z.lor (k_daif k) 0x3c0) k).
Definition daif : M (kernel H) Z := gets k_daif.
Definition intr_get : M (kernel H) Z :=
  let! x := daif in ret (Z.b2z (Z.land (Z.shiftr x 6) 0x2 =? 0)).

Definition cpuid : M (kernel H) Z := gets (fun k => Z.land (k_mpidr k) 0xff).

End Access.
