(* ===== verification/KString.v ===== *)
(** The guest kernel's memory and string routines (string.c).

    They are written on RAM, where a [char*] is an address.  The kernel also applies
    them to small arrays of its own (names of files and processes), which the model keeps
    as lists of bytes: [arr_strncmp], [arr_strncpy] and [arr_safestrcpy] are the same
    routines there, and the theorems say that they agree. *)
From stdpp Require Import base gmap list numbers tactics.
From S2P Require Import Prelude Mem Ram.

Definition memset (dst c n : Z) : M memory Z :=
  Lib.fill (Z.to_nat n) dst (u8 c) ;; ret dst.

(** [while(n-- > 0)]; the bytes are [uchar]. *)
Fixpoint memcmp_loop (n : nat) (s1 s2 : Z) : M memory Z :=
  match n with
  | O => ret 0
  | S n' =>
      let! a := load8 s1 in
      let! b := load8 s2 in
      if negb (a =? b) then ret (a - b) else memcmp_loop n' (u64 (s1 + 1)) (u64 (s2 + 1))
  end.
Definition memcmp (v1 v2 n : Z) : M memory Z := memcmp_loop (Z.to_nat n) v1 v2.

Definition memmove (dst src n : Z) : M memory Z :=
  if n =? 0 then ret dst else
  (if (src <? dst) && (u64 (src + n) >? dst)
   then Lib.move_down (Z.to_nat n) (u64 (dst + n)) (u64 (src + n))
   else Lib.move_up (Z.to_nat n) dst src) ;;
  ret dst.

Definition memcpy (dst src n : Z) : M memory Z := memmove dst src n.

(** [while(n > 0 && *p && *p == *q)], then the difference of the two characters. *)
Fixpoint strncmp_loop (n : nat) (p q : Z) : M memory Z :=
  match n with
  | O => ret 0
  | S n' =>
      let! a := load8 p in
      if a =? 0 then let! b := load8 q in ret (a - b) else
      let! b := load8 q in
      if a =? b then strncmp_loop n' (u64 (p + 1)) (u64 (q + 1)) else ret (a - b)
  end.
Definition strncmp (p q n : Z) : M memory Z := strncmp_loop (Z.to_nat n) p q.

(** Copy up to and with a NUL, at most [n] bytes, then zeros to the end. *)
Fixpoint strncpy_loop (n : nat) (s t : Z) : M memory unit :=
  match n with
  | O => ret tt
  | S n' =>
      let! c := load8 t in
      store8 s c ;;
      if c =? 0 then Lib.fill n' (u64 (s + 1)) 0
      else strncpy_loop n' (u64 (s + 1)) (u64 (t + 1))
  end.
Definition strncpy (s t n : Z) : M memory Z := strncpy_loop (Z.to_nat n) s t ;; ret s.

(** Copy up to and with a NUL, then store a NUL behind; [n] counts what [--n] leaves. *)
Fixpoint safestrcpy_loop (n : nat) (s t : Z) : M memory unit :=
  match n with
  | O => store8 s 0
  | S n' =>
      let! c := load8 t in
      store8 s c ;;
      if c =? 0 then store8 (u64 (s + 1)) 0
      else safestrcpy_loop n' (u64 (s + 1)) (u64 (t + 1))
  end.
Definition safestrcpy (s t n : Z) : M memory Z :=
  if n <=? 0 then ret s else safestrcpy_loop (Z.to_nat (n - 1)) s t ;; ret s.

(** [for(n = 0; s[n]; n++)]; the string ends before the end of RAM or the loop faults. *)
Fixpoint strlen_loop (fuel : nat) (s n : Z) : M memory Z :=
  match fuel with
  | O => spin
  | S fuel' =>
      let! c := load8 (u64 (s + n)) in
      if c =? 0 then ret n else strlen_loop fuel' s (i32 (n + 1))
  end.
Definition strlen (s : Z) : M memory Z := let! fuel := Lib.fuel_from s in strlen_loop fuel s 0.

(** * The same on arrays *)

Fixpoint arr_strncmp (p q : list Z) (n : nat) : Z :=
  match n, p, q with
  | S n', a :: p', b :: q' => if negb (a =? 0) && (a =? b) then arr_strncmp p' q' n' else a - b
  | _, _, _ => 0
  end.

Fixpoint arr_strncpy (t : list Z) (n : nat) : list Z :=
  match n, t with
  | O, _ => []
  | S n', c :: t' => if c =? 0 then replicate n 0 else c :: arr_strncpy t' n'
  | _, [] => replicate n 0
  end.

(** [safestrcpy(s, t, sizeof(s))] for an array [s]: what it leaves beyond the NUL stays. *)
Fixpoint arr_safestrcpy (s t : list Z) (n : nat) : list Z :=
  match n, t with
  | S n', c :: t' =>
      match s with
      | [] => []
      | _ :: s' => if c =? 0 then 0 :: (match s' with [] => [] | _ :: s'' => 0 :: s'' end)
                   else c :: arr_safestrcpy s' t' n'
      end
  | _, _ => match s with [] => [] | _ :: s' => 0 :: s' end
  end.

(** The characters before the first NUL. *)
Fixpoint arr_str (l : list Z) : list Z :=
  match l with [] => [] | c :: l' => if c =? 0 then [] else c :: arr_str l' end.

(** * Moving bytes *)

(** Part of a region of RAM is RAM. *)
Ltac sub_ram :=
  match goal with
  | R : in_ram ?m _ _ = true |- in_ram ?m _ _ = true => solve [eapply in_ram_sub; [exact R|lia|lia]]
  end.

Lemma k_move_up_ok m0 m n d s :
  Lib.ram_ok m -> in_ram m d (Z.of_nat n) = true -> in_ram m s (Z.of_nat n) = true ->
  d <= s \/ s + Z.of_nat n <= d ->
  (forall b, s <= b < s + Z.of_nat n -> peek m b = peek m0 b) ->
  wp (Lib.move_up n d s) (fun _ m' => Lib.copied m0 m m' d s (Z.of_nat n)) m.
Proof.
  revert m d s. induction n as [|n IH]; intros m d s Hok Hd Hs Hlt Heq; simpl Lib.move_up.
  - wp_steps. split_and!; try done. intros b.
    destruct (Z.leb_spec d b), (Z.ltb_spec b (d + Z.of_nat 0)); try done; lia.
  - rewrite wp_bind. apply wp_load; [sub_ram|]. rewrite rd1, Heq by lia.
    rewrite wp_bind. apply wp_store; [sub_ram|].
    unfold in_ram, Lib.ram_ok in *. bool_to_Z. destruct (wr_bounds 1 d (peek m0 s) m) as [E1 E2].
    destruct n as [|n0].
    { simpl Lib.move_up. wp_steps. split_and!; try done. intros b. rewrite peek_wr1.
      destruct (Z.leb_spec d b), (Z.ltb_spec b (d + Z.of_nat 1)), (Z.eqb_spec b d); cbn; try lia; try done.
      subst b. rewrite u8_small by apply peek_range. f_equal. lia. }
    rewrite !u64_small by (unfold is_u64; lia). set (n := S n0) in *.
    eapply wp_mono; [|apply (IH (wr 1 d (peek m0 s) m))].
    + intros ? m' (L & H' & P). split_and!; [congruence..|]. intros b. rewrite P, peek_wr1.
      destruct (Z.leb_spec (d + 1) b), (Z.ltb_spec b (d + 1 + Z.of_nat n)), (Z.leb_spec d b),
        (Z.ltb_spec b (d + Z.of_nat (S n))), (Z.eqb_spec b d); cbn; try lia; try done.
      * f_equal. lia.
      * subst b. rewrite u8_small by apply peek_range. f_equal. lia.
    + unfold Lib.ram_ok. lia.
    + rewrite E1, E2. apply andb_true_iff. rewrite !Z.leb_le. lia.
    + rewrite E1, E2. apply andb_true_iff. rewrite !Z.leb_le. lia.
    + lia.
    + intros b Hb. rewrite peek_wr1. destruct (Z.eqb_spec b d); [lia|apply Heq; lia].
Qed.

Lemma k_memmove_ok m dst src n :
  Lib.ram_ok m -> 0 <= n -> in_ram m dst n = true -> in_ram m src n = true ->
  wp (memmove dst src n) (fun r m' => r = dst /\ Lib.copied m m m' dst src n) m.
Proof.
  intros Hok Hn Hd Hs. unfold memmove. destruct (Z.eqb_spec n 0) as [->|Hn0].
  { wp_steps. split; [done|]. split_and!; try done. intros b.
    destruct (Z.leb_spec dst b), (Z.ltb_spec b (dst + 0)); try done; lia. }
  pose proof Hd as Hd'. pose proof Hs as Hs'. unfold in_ram, Lib.ram_ok in Hd', Hs', Hok. bool_to_Z.
  rewrite !u64_small by (unfold is_u64; lia).
  rewrite <- (Z2Nat.id n) in Hd, Hs |- * by done. rewrite Nat2Z.id. set (k := Z.to_nat n) in *.
  rewrite wp_bind. apply (wp_mono _ (fun _ m' => Lib.copied m m m' dst src (Z.of_nat k))); [intros [] m' W; by wp_steps|].
  destruct (Z.ltb_spec src dst), (Z.gtb_spec (src + Z.of_nat k) dst); cbn [andb].
  - apply (Lib.move_down_ok m); try done. lia.
  - apply (k_move_up_ok m); try done. lia.
  - apply (k_move_up_ok m); try done. lia.
  - apply (k_move_up_ok m); try done. lia.
Qed.

Lemma k_memset_ok m dst c n :
  Lib.ram_ok m -> 0 <= n -> in_ram m dst n = true ->
  wp (memset dst c n) (fun r m' => r = dst /\ ram_lo m' = ram_lo m /\ ram_hi m' = ram_hi m /\
    forall b, peek m' b = if (dst <=? b) && (b <? dst + n) then u8 c else peek m b) m.
Proof. apply Lib.memset_ok. Qed.

(** * RAM and arrays *)

(** The [n] bytes at [a]. *)

Lemma strncmp_loop_ok m n p q :
  Lib.ram_ok m -> in_ram m p (Z.of_nat n) = true -> in_ram m q (Z.of_nat n) = true ->
  wp (strncmp_loop n p q) (fun r m' => m' = m /\ r = arr_strncmp (ram_bytes m p n) (ram_bytes m q n) n) m.
Proof.
  intros Hok. revert p q. induction n as [|n IH]; intros p q Hp Hq; [by wp_steps|].
  rewrite !ram_bytes_S. cbn [strncmp_loop arr_strncmp].
  rewrite wp_bind. apply wp_load; [sub_ram|]. rewrite rd1.
  destruct (Z.eqb_spec (peek m p) 0) as [->|Ha]; cbn [negb andb].
  - rewrite wp_bind. apply wp_load; [sub_ram|]. rewrite rd1. by wp_steps.
  - rewrite wp_bind. apply wp_load; [sub_ram|]. rewrite rd1.
    destruct (Z.eqb_spec (peek m p) (peek m q)) as [E|Hne]; [|by wp_steps].
    rewrite !(Lib.u64_next m) by (done || sub_ram).
    apply IH; sub_ram.
Qed.

Lemma strncpy_loop_ok m0 m n s t :
  Lib.ram_ok m -> in_ram m s (Z.of_nat n) = true -> in_ram m t (Z.of_nat n) = true ->
  s + Z.of_nat n <= t \/ t + Z.of_nat n <= s ->
  (forall b, t <= b < t + Z.of_nat n -> peek m b = peek m0 b) ->
  wp (strncpy_loop n s t) (fun _ m' => ram_lo m' = ram_lo m /\ ram_hi m' = ram_hi m /\
    ram_bytes m' s n = arr_strncpy (ram_bytes m0 t n) n /\
    forall b, b < s \/ s + Z.of_nat n <= b -> peek m' b = peek m b) m.
Proof.
  revert m s t. induction n as [|n IH]; intros m s t Hok Hs Ht Hdis Heq; [by wp_steps|].
  rewrite (ram_bytes_S m0). cbn [strncpy_loop arr_strncpy].
  rewrite wp_bind. apply wp_load; [sub_ram|]. rewrite rd1, Heq by lia.
  rewrite wp_bind. apply wp_store; [sub_ram|].
  rewrite !(Lib.u64_next m) by (done || sub_ram).
  set (c := peek m0 t). set (m1 := wr 1 s c m). destruct (wr_bounds 1 s c m) as [E1 E2]. fold m1 in E1, E2.
  assert (Lib.ram_ok m1) as Hok1 by (unfold Lib.ram_ok in *; by rewrite E1, E2).
  assert (in_ram m1 (s + 1) (Z.of_nat n) = true) as Hs1.
  { unfold m1. rewrite in_ram_wr. eapply in_ram_sub; [exact Hs|lia..]. }
  assert (peek m1 s = c) as Hc.
  { unfold m1. rewrite peek_wr1, Z.eqb_refl. apply u8_small, peek_range. }
  destruct (Z.eqb_spec c 0) as [E0|Hc0].
  - eapply wp_mono; [|apply (Lib.fill_ok m1 n (s + 1) 0); done].
    intros _ m' (F1 & F2 & F3). split_and!; [congruence..| |].
    + rewrite ram_bytes_S, F3. destruct (Z.leb_spec (s + 1) s); [lia|]. cbn [andb]. rewrite Hc, E0. cbn [replicate].
      f_equal. apply list_eq_same_length with n; [by rewrite length_replicate|by rewrite ram_bytes_length|].
      intros i x y Hi Hx Hy. apply lookup_replicate_1 in Hy as [-> _].
      unfold ram_bytes in Hx. rewrite list_lookup_fmap, lookup_seq_lt in Hx by done. cbn in Hx. injection Hx as <-.
      rewrite F3. destruct (Z.leb_spec (s + 1) (s + 1 + Z.of_nat i)), (Z.ltb_spec (s + 1 + Z.of_nat i) (s + 1 + Z.of_nat n)); try lia. done.
    + intros b Hb. rewrite F3. unfold m1. rewrite peek_wr1.
      destruct (Z.leb_spec (s + 1) b), (Z.ltb_spec b (s + 1 + Z.of_nat n)), (Z.eqb_spec b s); cbn; try lia; done.
  - eapply wp_mono; [|apply (IH m1 (s + 1) (t + 1)); try done].
    + intros _ m' (F1 & F2 & F3 & F4). split_and!; [congruence..| |].
      * rewrite ram_bytes_S, F4, Hc by lia. by f_equal.
      * intros b Hb. rewrite F4 by lia. unfold m1. rewrite peek_wr1. destruct (Z.eqb_spec b s); [lia|done].
    + unfold m1. rewrite in_ram_wr. eapply in_ram_sub; [exact Ht|lia..].
    + lia.
    + intros b Hb. unfold m1. rewrite peek_wr1. destruct (Z.eqb_spec b s); [lia|]. apply Heq. lia.
Qed.

(** * Properties *)

(** The guest kernel's [memmove] and the hypervisor's (lib.c) are the same function: on
    any two regions of RAM, overlapping or not, both return the destination and leave
    the same memory, although they choose the direction of the copy differently. *)
Theorem memmove_equivalent (m : memory) (dst src n : Z) :
  Lib.ram_ok m -> 0 <= n -> in_ram m dst n = true -> in_ram m src n = true ->
  exists m1 m2, memmove dst src n m = Ok dst m1 /\ Lib.memmove dst src n m = Ok dst m2 /\ mem_eq m1 m2.
Proof.
  intros Hok Hn Hd Hs.
  pose proof (k_memmove_ok m dst src n Hok Hn Hd Hs) as (r1 & m1 & E1 & -> & L1 & H1 & P1)%wp_Ok.
  pose proof (Lib.memmove_ok m dst src n Hok Hn Hd Hs) as (r2 & m2 & E2 & -> & L2 & H2 & P2)%wp_Ok.
  exists m1, m2. split_and!; try done. split_and!; [congruence..|]. intros a. by rewrite P1, P2.
Qed.

Lemma memmove_equivalent_witness :
  exists m1 m2, memmove 9 8 3 Lib.example_mem = Ok 9 m1 /\ Lib.memmove 9 8 3 Lib.example_mem = Ok 9 m2 /\
    mem_eq m1 m2 /\ ram_bytes m1 8 4 = [97; 97; 98; 99].
Proof.
  destruct (memmove_equivalent Lib.example_mem 9 8 3) as (m1 & m2 & E1 & E2 & E).
  - unfold Lib.ram_ok. cbn. lia.
  - lia.
  - reflexivity.
  - reflexivity.
  - exists m1, m2. split; [exact E1|]. split; [exact E2|]. split; [exact E|]. vm_compute in E1. by injection E1 as <-.
Defined.

(** [strncmp] and [strncpy] on RAM are the routines on arrays that the file system uses:
    [strncmp] compares up to a NUL or [n] characters, by the difference of the first two that
    differ, and changes nothing; [strncpy] to a region that does not overlap leaves there the
    string padded with zeros to [n] bytes, or its first [n] bytes without a NUL, and changes
    no other byte. *)
Theorem string_arrays (m : memory) (p q n : Z) :
  Lib.ram_ok m -> 0 <= n -> in_ram m p n = true -> in_ram m q n = true ->
  wp (strncmp p q n) (fun r m' => m' = m /\
    r = arr_strncmp (ram_bytes m p (Z.to_nat n)) (ram_bytes m q (Z.to_nat n)) (Z.to_nat n)) m /\
  (p + n <= q \/ q + n <= p ->
   wp (strncpy p q n) (fun r m' => r = p /\
     ram_bytes m' p (Z.to_nat n) = arr_strncpy (ram_bytes m q (Z.to_nat n)) (Z.to_nat n) /\
     forall b, b < p \/ p + n <= b -> peek m' b = peek m b) m).
Proof.
  intros Hok Hn Hp Hq. rewrite <- (Z2Nat.id n) in Hp, Hq |- * by done. rewrite Nat2Z.id. set (k := Z.to_nat n) in *.
  split.
  - unfold strncmp. rewrite Nat2Z.id. by apply strncmp_loop_ok.
  - intros Hdis. unfold strncpy. rewrite Nat2Z.id, wp_bind.
    eapply wp_mono; [|by apply (strncpy_loop_ok m)]. intros [] m' (_ & _ & E & F). by wp_steps.
Qed.

Lemma string_arrays_witness :
  wp (strncmp 8 9 3) (fun r m' => m' = Lib.example_mem /\ r = -1) Lib.example_mem /\
  wp (strncpy 20 8 6) (fun r m' => r = 20 /\ ram_bytes m' 20 6 = [97; 98; 99; 0; 0; 0]) Lib.example_mem.
Proof.
  split.
  - apply (string_arrays Lib.example_mem 8 9 3); vm_compute; split || done; congruence.
  - eapply wp_mono; [|apply (string_arrays Lib.example_mem 20 8 6)].
    + intros r m' (-> & E & _). split; [reflexivity|exact E].
    + vm_compute. split; congruence.
    + lia.
    + reflexivity.
    + reflexivity.
    + lia.
Defined.
