(* ===== verification/KBytes.v ===== *)
(** C structures laid over the bytes of a buffer: little-endian fields at offsets. *)
From stdpp Require Import base list numbers strings tactics.
From S2P Require Import Prelude.

(** A small number is the same as an [int]. *)
Lemma i32_id x : 0 <= x < 2 ^ 31 -> i32 x = x.
Proof. intros Hx. unfold i32, sext. rewrite Z.mod_small by lia. change (2 ^ (32 - 1)) with (2 ^ 31). destruct (Z.ltb_spec x (2 ^ 31)); [done|lia]. Qed.

(** Characters of a string literal. *)
Fixpoint chars (s : string) : list Z :=
  match s with EmptyString => [] | String c s' => Z.of_nat (Ascii.nat_of_ascii c) :: chars s' end.

(** The value of some bytes, and the [n] bytes of a value. *)
Fixpoint le_val (l : list Z) : Z :=
  match l with [] => 0 | x :: l' => x + 2 ^ 8 * le_val l' end.
Fixpoint le_bytes (n : nat) (v : Z) : list Z :=
  match n with O => [] | S n' => v mod 2 ^ 8 :: le_bytes n' (v / 2 ^ 8) end.

(** [l] with the bytes [v] at offset [off]. *)
Definition splice (off : nat) (v l : list Z) : list Z := take off l ++ v ++ drop (off + length v) l.
Definition slice (off n : nat) (l : list Z) : list Z := take n (drop off l).

(** An unsigned field of [n] bytes. *)
Definition get_le (n off : nat) (d : list Z) : Z := le_val (slice off n d).
Definition put_le (n off : nat) (v : Z) (d : list Z) : list Z := splice off (le_bytes n v) d.

(** All bytes are bytes. *)
Definition bytes (l : list Z) : Prop := Forall (fun x => 0 <= x < 2 ^ 8) l.

Lemma le_bytes_length n v : length (le_bytes n v) = n.
Proof. revert v. induction n as [|n IH]; intros v; simpl; [done|by rewrite IH]. Qed.

Lemma le_bytes_bytes n v : bytes (le_bytes n v).
Proof. revert v. induction n as [|n IH]; intros v; simpl; constructor; [by apply Z.mod_pos_bound|apply IH]. Qed.

Lemma le_val_bytes n v : le_val (le_bytes n v) = v mod 2 ^ (8 * Z.of_nat n).
Proof.
  revert v. induction n as [|n IH]; intros v; simpl le_val.
  - by rewrite Z.mod_1_r.
  - rewrite IH. replace (8 * Z.of_nat (S n)) with (8 + 8 * Z.of_nat n) by lia.
    rewrite Z.pow_add_r by lia. rewrite Z.rem_mul_r; [done|lia|apply Z.pow_pos_nonneg; lia].
Qed.

Lemma le_val_range l : bytes l -> 0 <= le_val l < 2 ^ (8 * Z.of_nat (length l)).
Proof.
  induction 1 as [|x l Hx _ IH]; [simpl; lia|]. simpl le_val. simpl length.
  replace (8 * Z.of_nat (S (length l))) with (8 + 8 * Z.of_nat (length l)) by lia.
  rewrite Z.pow_add_r by lia. lia.
Qed.

Lemma splice_length off v l : (off + length v <= length l)%nat -> length (splice off v l) = length l.
Proof. intros. unfold splice. rewrite !length_app, length_take, length_drop. lia. Qed.

Lemma slice_splice_same off v l : (off <= length l)%nat -> slice off (length v) (splice off v l) = v.
Proof.
  intros Hl. unfold slice, splice. rewrite drop_app_length' by (rewrite length_take; lia). by rewrite take_app_length.
Qed.

Lemma lookup_splice off v l i :
  (off + length v <= length l)%nat ->
  splice off v l !! i = if decide (off <= i < off + length v)%nat then v !! (i - off)%nat else l !! i.
Proof.
  intros Hl. unfold splice. case_decide as Hi.
  - rewrite lookup_app_r by (rewrite length_take; lia). rewrite length_take.
    replace (off `min` length l)%nat with off by lia. by rewrite lookup_app_l by lia.
  - destruct (decide (i < off)%nat).
    + rewrite lookup_app_l by (rewrite length_take; lia). by rewrite lookup_take_lt.
    + rewrite lookup_app_r, lookup_app_r, lookup_drop, length_take by (rewrite ?length_take; lia). f_equal. lia.
Qed.

Lemma slice_ext off n l l' :
  (forall i, (off <= i < off + n)%nat -> l !! i = l' !! i) -> slice off n l = slice off n l'.
Proof.
  intros H. apply list_eq. intros i. unfold slice. destruct (decide (i < n)%nat).
  - rewrite !lookup_take_lt, !lookup_drop by done. apply H. lia.
  - rewrite !lookup_take_ge by lia. done.
Qed.

Lemma slice_splice_other o n off v l :
  (off + length v <= length l)%nat -> (o + n <= off \/ off + length v <= o)%nat ->
  slice o n (splice off v l) = slice o n l.
Proof. intros Hl Ho. apply slice_ext. intros i Hi. rewrite lookup_splice by done. by rewrite decide_False by lia. Qed.

Lemma put_le_length n off v d : (off + n <= length d)%nat -> length (put_le n off v d) = length d.
Proof. intros. apply splice_length. by rewrite le_bytes_length. Qed.

Lemma get_put_same n off v d :
  (off + n <= length d)%nat -> get_le n off (put_le n off v d) = v mod 2 ^ (8 * Z.of_nat n).
Proof.
  intros. unfold get_le, put_le. rewrite <- (le_bytes_length n v) at 1.
  rewrite slice_splice_same by lia. apply le_val_bytes.
Qed.

Lemma get_put_other n off m o v d :
  (off + n <= length d)%nat -> (o + m <= off \/ off + n <= o)%nat ->
  get_le m o (put_le n off v d) = get_le m o d.
Proof. intros. unfold get_le, put_le. rewrite slice_splice_other; rewrite ?le_bytes_length; done || lia. Qed.

(** A field depends on its bytes only. *)
Lemma get_le_ext n off d d' :
  (forall i, (off <= i < off + n)%nat -> d !! i = d' !! i) -> get_le n off d = get_le n off d'.
Proof. intros H. unfold get_le. by rewrite (slice_ext off n d d'). Qed.
