(* ===== verification/KSched.v ===== *)
(** Locks and scheduling of the guest kernel: spinlock.c, sleeplock.c, and the part
    of proc.c that gives up the processor ([mycpu], [myproc], [sched], [yield],
    [sleep], [wakeup]).

    The code runs on one core; a spinlock that is taken by another core never
    becomes free while this one spins, so [acquire] of it gives [Spin].  Other
    processes run inside [swtch] only.  The lemmas say what the locks do to a
    [quiet] state, one in which this core could take any lock: a section
    [acquire l ;; body ;; release l] changes what its body changes, no more. *)
From stdpp Require Import base gmap list numbers strings tactics.
From S2P Require Import Prelude Mem KMachine.

(** How often a process that sleeps in a loop may be woken before it is served. *)
Class SleepFuel := sleep_fuel : nat.

Section Sched.
Context {H : Type} `{!Platform H} `{!SleepFuel}.
Implicit Types k : kernel H.

(** * spinlock.c *)

Definition get_lock (lk : lockid) : M (kernel H) spinlock := let! k := get in deref (k_locks k !! lk).
Definition set_lock (lk : lockid) (v : spinlock) : M (kernel H) unit :=
  modify (fun k => set_k_locks (<[lk := v]> (k_locks k)) k).

Definition initlock (lk : lockid) (name : string) : M (kernel H) unit := set_lock lk (mkLk 0 name None).

(** [&cpus[cpuid()]] *)
Definition mycpu : M (kernel H) nat := let! id := cpuid in ret (Z.to_nat id).

Definition push_off : M (kernel H) unit :=
  let! old := intr_get in
  intr_off ;;
  let! c := mycpu in
  let! r := get_cpu c in
  (if c_noff r =? 0 then upd_cpu c (set_c_intena old) else ret tt) ;;
  upd_cpu c (fun r => set_c_noff (c_noff r + 1) r).

Definition pop_off : M (kernel H) unit :=
  let! c := mycpu in
  let! on := intr_get in
  if negb (on =? 0) then panic else
  let! r := get_cpu c in
  if c_noff r <? 1 then panic else
  upd_cpu c (set_c_noff (c_noff r - 1)) ;;
  if (c_noff r - 1 =? 0) && negb (c_intena r =? 0) then intr_on else ret tt.

Definition holding (lk : lockid) : M (kernel H) bool :=
  let! l := get_lock lk in
  let! c := mycpu in
  ret (negb (lk_locked l =? 0) && bool_decide (lk_cpu l = Some c)).

(** The exclusive load and store in a loop: they set [locked] when it is 0. *)
Definition acquire (lk : lockid) : M (kernel H) unit :=
  push_off ;;
  let! h := holding lk in
  if (h : bool) then panic else
  let! l := get_lock lk in
  if negb (lk_locked l =? 0) then spin else
  set_lock lk (mkLk 1 (lk_name l) (lk_cpu l)) ;;
  let! c := mycpu in
  set_lock lk (mkLk 1 (lk_name l) (Some c)).

Definition release (lk : lockid) : M (kernel H) unit :=
  let! h := holding lk in
  if negb h then panic else
  let! l := get_lock lk in
  set_lock lk (mkLk (lk_locked l) (lk_name l) None) ;;
  set_lock lk (mkLk 0 (lk_name l) None) ;;
  pop_off.

(** * proc.c: the current process, and giving up the processor *)

Definition myproc : M (kernel H) (option nat) :=
  push_off ;;
  let! c := mycpu in
  let! r := get_cpu c in
  let p := c_proc r in
  pop_off ;;
  ret p.

Definition sched : M (kernel H) unit :=
  let! mp := myproc in
  let! p := deref mp in
  let! h := holding (LProc p) in
  if negb h then panic else
  let! c := mycpu in
  let! r := get_cpu c in
  if negb (c_noff r =? 1) then panic else
  let! ps := get_proc p in
  if bool_decide (p_state ps = RUNNING) then panic else
  let! on := intr_get in
  if negb (on =? 0) then panic else
  let intena := c_intena r in
  swtch (CtxProc p) (CtxCpu c) ;;
  let! c' := mycpu in
  upd_cpu c' (set_c_intena intena).

Definition yield : M (kernel H) unit :=
  let! mp := myproc in
  let! p := deref mp in
  acquire (LProc p) ;;
  upd_proc p (set_p_state RUNNABLE) ;;
  sched ;;
  release (LProc p).

Definition sleep (ch : chan) (lk : lockid) : M (kernel H) unit :=
  let! mp := myproc in
  let! p := deref mp in
  acquire (LProc p) ;;
  release lk ;;
  upd_proc p (set_p_chan (Some ch)) ;;
  upd_proc p (set_p_state SLEEPING) ;;
  sched ;;
  upd_proc p (set_p_chan None) ;;
  release (LProc p) ;;
  acquire lk.

(** A channel may be null: the parent of the first process is. *)
Definition wakeup_at (ch : option chan) : M (kernel H) unit :=
  for_range 0 NPROC (fun i =>
    let p := Z.to_nat i in
    let! me := myproc in
    if bool_decide (me = Some p) then ret tt else
    acquire (LProc p) ;;
    let! ps := get_proc p in
    (if bool_decide (p_state ps = SLEEPING) && bool_decide (p_chan ps = ch)
     then upd_proc p (set_p_state RUNNABLE) else ret tt) ;;
    release (LProc p)).
Definition wakeup (ch : chan) : M (kernel H) unit := wakeup_at (Some ch).

(** * sleeplock.c *)

(** Where the sleep lock is, and the spinlock inside it. *)
Definition get_sleep (s : sleepid) : M (kernel H) sleeplock :=
  match s with
  | SBuf i => let! b := get_buf i in ret (b_lock b)
  | SInode i => let! ip := get_inode i in ret (i_lock ip)
  end.
Definition set_sleep (s : sleepid) (v : sleeplock) : M (kernel H) unit :=
  match s with
  | SBuf i => upd_buf i (set_b_lock v)
  | SInode i => upd_inode i (set_i_lock v)
  end.
Definition sleep_lk (s : sleepid) : lockid :=
  match s with SBuf i => LBuf i | SInode i => LInode i end.

Definition initsleeplock (s : sleepid) (name : string) : M (kernel H) unit :=
  initlock (sleep_lk s) "sleep lock" ;;
  set_sleep s (mkSleep 0 name 0).

Definition mypid : M (kernel H) Z :=
  let! mp := myproc in let! p := deref mp in let! r := get_proc p in ret (p_pid r).

(** The loop ends when the holder has released the lock: [fuel] bounds how often
    this process is tested before it gets it. *)
Fixpoint acquiresleep_loop (fuel : nat) (s : sleepid) : M (kernel H) unit :=
  match fuel with
  | O => spin
  | S fuel' =>
      let! l := get_sleep s in
      if negb (sk_locked l =? 0) then sleep (ChSleep s) (sleep_lk s) ;; acquiresleep_loop fuel' s else ret tt
  end.

Definition acquiresleep (s : sleepid) : M (kernel H) unit :=
  acquire (sleep_lk s) ;;
  acquiresleep_loop (S sleep_fuel) s ;;
  let! l := get_sleep s in
  let! pid := mypid in
  set_sleep s (mkSleep 1 (sk_name l) pid) ;;
  release (sleep_lk s).

Definition releasesleep (s : sleepid) : M (kernel H) unit :=
  acquire (sleep_lk s) ;;
  let! l := get_sleep s in
  set_sleep s (mkSleep 0 (sk_name l) 0) ;;
  wakeup (ChSleep s) ;;
  release (sleep_lk s).

Definition holdingsleep (s : sleepid) : M (kernel H) bool :=
  acquire (sleep_lk s) ;;
  let! l := get_sleep s in
  let! r := (if negb (sk_locked l =? 0) then let! pid := mypid in ret (sk_pid l =? pid) else ret false) in
  release (sleep_lk s) ;;
  ret r.

(** * Quiet states *)

(** The index of this core, its [struct cpu]. *)
Definition cid k : nat := Z.to_nat (Z.land (k_mpidr k) 0xff).

(** [struct cpu] and the interrupt mask of this core agree: either no spinlock is
    held, and [intena] is what it would be set to, or interrupts are off. *)
Definition cpu_steady (daif : Z) (c : cpu) : Prop :=
  (c_noff c = 0 /\ (daif = 0 /\ c_intena c = 1 \/ daif = 0x3c0 /\ c_intena c = 0)) \/
  (0 < c_noff c /\ daif = 0x3c0).

Definition on_cpu (c : cpu) k : Prop := k_cpus k !! cid k = Some c /\ cpu_steady (k_daif k) c.

Definition free (l : lockid) k : Prop := exists nm, k_locks k !! l = Some (mkLk 0 nm None).

(** Interrupts off, one level deeper. *)
Definition off (c : cpu) k : kernel H :=
  set_k_daif 0x3c0 (set_k_cpus (<[cid k := set_c_noff (c_noff c + 1) c]> (k_cpus k)) k).

(** With lock [l] of name [nm] taken. *)
Definition enter (c : cpu) (nm : string) (l : lockid) k : kernel H :=
  off c (set_k_locks (<[l := mkLk 1 nm (Some (cid k))]> (k_locks k)) k).

Lemma set_c_intena_same c v : v = c_intena c -> set_c_intena v c = c.
Proof. intros ->. by destruct c. Qed.

Lemma set_k_cpus_same k cs d : cs = k_cpus k -> d = k_daif k -> set_k_daif d (set_k_cpus cs k) = k.
Proof. intros -> ->. by destruct k. Qed.

Lemma set_k_locks_same k ls : ls = k_locks k -> set_k_locks ls k = k.
Proof. intros ->. by destruct k. Qed.

Lemma push_off_ok c k : on_cpu c k -> push_off k = Ok tt (off c k).
Proof.
  intros [Ec Hs]. unfold push_off, get_cpu, upd_cpu.
  erewrite bind_Ok by reflexivity. erewrite bind_Ok by reflexivity. erewrite bind_Ok by reflexivity.
  erewrite bind_Ok by (by apply aget_ok). cbv beta.
  destruct (Z.eqb_spec (c_noff c) 0) as [E0|].
  - erewrite bind_Ok by (by eapply aupd_ok).
    erewrite aupd_ok by (apply list_lookup_insert_eq; by eapply lookup_lt_Some).
    unfold off. cbn. rewrite list_insert_insert_eq, set_c_intena_same.
    + do 2 f_equal. destruct Hs as [(_ & [[-> _]|[-> _]])|[? _]]; reflexivity || lia.
    + destruct Hs as [(_ & [[-> ->]|[-> ->]])|[? _]]; reflexivity || lia.
  - rewrite (bind_Ok (ret tt) _ tt (set_k_daif (Z.lor (k_daif k) 960) k) _) by reflexivity.
    erewrite aupd_ok by exact Ec. unfold off. cbn. do 2 f_equal. destruct Hs as [[? _]|[_ ->]]; [lia|reflexivity].
Qed.

Lemma pop_off_ok c k : on_cpu c k -> pop_off (off c k) = Ok tt k.
Proof.
  intros [Ec Hs]. unfold pop_off, get_cpu, upd_cpu. erewrite bind_Ok by reflexivity. erewrite bind_Ok by reflexivity.
  cbn [negb Z.eqb]. change (Z.b2z _) with 0. cbn [negb Z.eqb].
  assert (k_cpus (off c k) !! cid k = Some (set_c_noff (c_noff c + 1) c)) as E'.
  { cbn. apply list_lookup_insert_eq. by eapply lookup_lt_Some. }
  erewrite bind_Ok by (by apply aget_ok). cbn [c_noff set_c_noff c_intena].
  destruct (Z.ltb_spec (c_noff c + 1) 1); [destruct Hs as [[? _]|[? _]]; lia|].
  erewrite bind_Ok by (by eapply aupd_ok).
  replace (c_noff c + 1 - 1) with (c_noff c) by lia.
  assert (set_c_noff (c_noff c) (set_c_noff (c_noff c + 1) c) = c) as -> by (by destruct c).
  cbn [k_cpus off set_k_cpus set_k_daif]. rewrite list_insert_insert_eq.
  assert (<[cid k := c]> (k_cpus k) = k_cpus k) as -> by by apply list_insert_id.
  unfold intr_on, modify, ret, off. destruct Hs as [(-> & [[Ed ->]|[Ed ->]])|[Hn Ed]].
  - cbn. f_equal. destruct k; cbn in *. by subst.
  - cbn. f_equal. destruct k; cbn in *. by subst.
  - destruct (Z.eqb_spec (c_noff c) 0); [lia|]. cbn. f_equal. destruct k; cbn in *. by subst.
Qed.

Lemma on_cpu_off c k : on_cpu c k -> on_cpu (set_c_noff (c_noff c + 1) c) (off c k).
Proof.
  intros [Ec Hs]. split; cbn.
  - apply list_lookup_insert_eq. by eapply lookup_lt_Some.
  - right. cbn. split; [|done]. destruct Hs as [[? _]|[? _]]; lia.
Qed.

Lemma on_cpu_enter c nm l k : on_cpu c k -> on_cpu (set_c_noff (c_noff c + 1) c) (enter c nm l k).
Proof. intros Hc. by apply (on_cpu_off c (set_k_locks _ k)). Qed.

Lemma free_enter c nm l l' k : l' <> l -> free l' k -> free l' (enter c nm l k).
Proof. intros Hne [nm' E]. exists nm'. cbn. by rewrite lookup_insert_ne. Qed.

Lemma myproc_ok c k : on_cpu c k -> myproc k = Ok (c_proc c) k.
Proof.
  intros Hc. unfold myproc. rewrite (bind_Ok _ _ _ _ _ (push_off_ok c k Hc)).
  erewrite bind_Ok by reflexivity. destruct (on_cpu_off c k Hc) as [E _].
  rewrite (bind_Ok _ _ _ _ _ (aget_ok _ _ _ _ E)). cbv beta zeta.
  by rewrite (bind_Ok _ _ _ _ _ (pop_off_ok c k Hc)).
Qed.

Lemma acquire_ok c nm l k :
  on_cpu c k -> k_locks k !! l = Some (mkLk 0 nm None) -> acquire l k = Ok tt (enter c nm l k).
Proof.
  intros Hc El. unfold acquire. rewrite (bind_Ok _ _ _ _ _ (push_off_ok c k Hc)).
  assert (get_lock l (off c k) = Ok (mkLk 0 nm None) (off c k)) as Eg.
  { unfold get_lock, bind, get. cbn. by rewrite El. }
  rewrite (bind_Ok (holding l) _ false (off c k) (off c k)).
  2:{ unfold holding. erewrite bind_Ok by exact Eg. reflexivity. }
  cbv beta iota. erewrite bind_Ok by exact Eg. cbn [lk_locked lk_name lk_cpu Z.eqb negb].
  erewrite bind_Ok by reflexivity. erewrite bind_Ok by reflexivity.
  unfold set_lock, modify. cbn. rewrite insert_insert_eq. reflexivity.
Qed.

Lemma release_ok c nm l k :
  on_cpu c k -> k_locks k !! l = Some (mkLk 0 nm None) -> release l (enter c nm l k) = Ok tt k.
Proof.
  intros Hc El. unfold release.
  assert (get_lock l (enter c nm l k) = Ok (mkLk 1 nm (Some (cid k))) (enter c nm l k)) as Eg.
  { unfold get_lock, bind, get. cbn. by rewrite lookup_insert_eq. }
  rewrite (bind_Ok (holding l) _ true (enter c nm l k) (enter c nm l k)).
  2:{ unfold holding. erewrite bind_Ok by exact Eg. erewrite bind_Ok by reflexivity.
      cbn. by rewrite bool_decide_eq_true_2. }
  cbn [negb]. erewrite bind_Ok by exact Eg. erewrite bind_Ok by reflexivity. erewrite bind_Ok by reflexivity.
  cbn [k_locks set_k_locks enter off set_k_daif set_k_cpus]. rewrite !insert_insert_eq, insert_id by done.
  etransitivity; [|exact (pop_off_ok c k Hc)]. by destruct k.
Qed.

(** * Waking up *)

Definition wake (ch : chan) (p : proc) : proc :=
  if bool_decide (p_state p = SLEEPING) && bool_decide (p_chan p = Some ch) then set_p_state RUNNABLE p else p.

(** Processes [from .. to-1] but [me] woken. *)
Definition wake_range (ch : chan) (me : option nat) (from to : Z) (ps : list proc) : list proc :=
  imap (fun i p => if (from <=? Z.of_nat i) && (Z.of_nat i <? to) && negb (bool_decide (me = Some i)) then wake ch p else p) ps.
Definition woken (ch : chan) (me : option nat) (ps : list proc) : list proc := wake_range ch me 0 NPROC ps.

Lemma wake_range_nil ch me from ps : wake_range ch me from from ps = ps.
Proof.
  apply list_eq. intros i. unfold wake_range. rewrite list_lookup_imap.
  destruct (ps !! i); [|done]. cbn. f_equal.
  destruct (Z.leb_spec from (Z.of_nat i)), (Z.ltb_spec (Z.of_nat i) from); try done; lia.
Qed.

Lemma wake_range_length ch me from to ps : length (wake_range ch me from to ps) = length ps.
Proof. apply length_imap. Qed.

(** One more process. *)
Lemma wake_range_step ch me i ps p :
  0 <= i -> ps !! Z.to_nat i = Some p ->
  wake_range ch me 0 (i + 1) ps =
    <[Z.to_nat i := if bool_decide (me = Some (Z.to_nat i)) then p else wake ch p]> (wake_range ch me 0 i ps).
Proof.
  intros Hi Ep. apply list_eq. intros j. destruct (decide (j = Z.to_nat i)) as [->|Hne].
  - rewrite list_lookup_insert_eq by (rewrite wake_range_length; by eapply lookup_lt_Some).
    unfold wake_range. rewrite list_lookup_imap, Ep. cbn. f_equal. rewrite Z2Nat.id by done.
    destruct (Z.leb_spec 0 i), (Z.ltb_spec i (i + 1)); try lia. cbn. by case_bool_decide.
  - rewrite list_lookup_insert_ne by done. unfold wake_range. rewrite !list_lookup_imap.
    destruct (ps !! j); [|done]. cbn. f_equal.
    destruct (Z.ltb_spec (Z.of_nat j) (i + 1)), (Z.ltb_spec (Z.of_nat j) i); try done; lia.
Qed.

Lemma wake_range_lookup ch me i ps p :
  0 <= i -> ps !! Z.to_nat i = Some p -> wake_range ch me 0 i ps !! Z.to_nat i = Some p.
Proof.
  intros Hi Ep. unfold wake_range. rewrite list_lookup_imap, Ep. cbn. f_equal. rewrite Z2Nat.id by done.
  destruct (Z.ltb_spec i i); [lia|]. by rewrite andb_false_r.
Qed.

(** Every process lock is free. *)
Definition procs_free k : Prop :=
  length (k_proc k) = Z.to_nat NPROC /\ forall i, (i < Z.to_nat NPROC)%nat -> free (LProc i) k.

Lemma wakeup_ok c ch k :
  on_cpu c k -> procs_free k -> wakeup ch k = Ok tt (set_k_proc (woken ch (c_proc c) (k_proc k)) k).
Proof.
  intros Hc [Hlen Hfree]. unfold wakeup, wakeup_at, NPROC in *. set (ps := k_proc k) in *.
  match goal with |- for_range 0 64 ?body k = _ => set (b := body) end.
  enough (wp (for_range 0 64 b) (fun _ k' => k' = set_k_proc (woken ch (c_proc c) ps) k) k) as W.
  { apply wp_Ok in W as ([] & ? & E & ->). exact E. }
  apply (wp_for_range (fun i k' => k' = set_k_proc (wake_range ch (c_proc c) 0 i ps) k)); [lia| |].
  - rewrite wake_range_nil. by destruct k.
  - intros i ? Hi ->. set (k1 := set_k_proc (wake_range ch (c_proc c) 0 i ps) k).
    assert (on_cpu c k1) as Hc1 by done. destruct (lookup_lt_is_Some_2 ps (Z.to_nat i)) as [p Ep]; [lia|].
    pose proof (wake_range_step ch (c_proc c) i ps p ltac:(lia) Ep) as Es.
    apply (wp_mono _ (fun _ k' => k' = set_k_proc (<[Z.to_nat i :=
      if bool_decide (c_proc c = Some (Z.to_nat i)) then p else wake ch p]> (wake_range ch (c_proc c) 0 i ps)) k));
      [intros [] k' ->; by rewrite Es|].
    unfold b. eapply wp_bind_Ok; [by apply (myproc_ok c)|].
    case_bool_decide as Hme.
    + rewrite wp_ret. unfold k1. rewrite list_insert_id; [done|]. apply wake_range_lookup; [lia|done].
    + destruct (Hfree (Z.to_nat i) ltac:(lia)) as [nm El].
      eapply wp_bind_Ok; [by apply (acquire_ok c nm)|].
      assert (forall cs, get_proc (Z.to_nat i) (enter c nm cs k1) = Ok p (enter c nm cs k1)) as Eg.
      { intros cs. apply aget_ok. cbn. apply wake_range_lookup; [lia|done]. }
      eapply wp_bind_Ok; [apply Eg|]. unfold wake.
      destruct (bool_decide (p_state p = SLEEPING) && bool_decide (p_chan p = Some ch)).
      * eapply wp_bind_Ok; [eapply aupd_ok; cbn; apply wake_range_lookup; [lia|done]|].
        set (k2 := set_k_proc (<[Z.to_nat i := set_p_state RUNNABLE p]> (wake_range ch (c_proc c) 0 i ps)) k).
        unfold wp. change (set_k_proc _ (enter c nm _ k1)) with (enter c nm (LProc (Z.to_nat i)) k2).
        by rewrite (release_ok c nm _ k2).
      * rewrite wp_bind, wp_ret. unfold wp. rewrite (release_ok c nm _ k1) by done.
        unfold k1. rewrite list_insert_id; [done|]. apply wake_range_lookup; [lia|done].
Qed.

(** Reading and changing a buffer with a lock held. *)
Lemma get_buf_ok i r k : k_bufs k !! i = Some r -> get_buf i k = Ok r k.
Proof. intros E. by apply aget_ok. Qed.
Lemma upd_buf_ok i f r k :
  k_bufs k !! i = Some r -> upd_buf i f k = Ok tt (set_k_bufs (<[i := f r]> (k_bufs k)) k).
Proof. intros E. by apply aupd_ok. Qed.
Lemma get_buf_enter c nm l i r k : k_bufs k !! i = Some r -> get_buf i (enter c nm l k) = Ok r (enter c nm l k).
Proof. intros E. by apply aget_ok. Qed.
Lemma upd_buf_enter c nm l i f r k :
  k_bufs k !! i = Some r ->
  upd_buf i f (enter c nm l k) = Ok tt (enter c nm l (set_k_bufs (<[i := f r]> (k_bufs k)) k)).
Proof. intros E. unfold upd_buf. erewrite aupd_ok by exact E. reflexivity. Qed.

(** * Quiet states

    This core runs process [me] and could take any lock of a static variable. *)

Definition static_lock (l : lockid) : Prop :=
  match l with
  | LBuf i => (i < NBUF)%nat
  | LInode i => (i < Z.to_nat NINODE)%nat
  | LProc i => (i < Z.to_nat NPROC)%nat
  | LPipe _ => False
  | _ => True
  end.

Record quiet (c : cpu) (me : nat) k : Prop := {
  q_cpu : on_cpu c k;
  q_noff : c_noff c = 0;
  q_me : c_proc c = Some me;
  q_lt : (me < Z.to_nat NPROC)%nat;
  q_procs : length (k_proc k) = Z.to_nat NPROC;
  q_run : exists p, k_proc k !! me = Some p /\ p_state p = RUNNING /\ p_chan p = None;
  q_free : forall l, static_lock l -> free l k
}.

Definition pid_of (me : nat) k : Z := from_option p_pid 0 (k_proc k !! me).

Lemma quiet_enter c nm me l k :
  quiet c me k -> on_cpu (set_c_noff (c_noff c + 1) c) (enter c nm l k).
Proof. intros Q. apply on_cpu_enter, Q. Qed.

Lemma mypid_ok c me k :
  on_cpu c k -> c_proc c = Some me -> (me < length (k_proc k))%nat -> mypid k = Ok (pid_of me k) k.
Proof.
  intros Hc Hme Hlt. unfold mypid. rewrite (bind_Ok _ _ _ _ _ (myproc_ok c k Hc)), Hme.
  destruct (lookup_lt_is_Some_2 _ _ Hlt) as [p Ep].
  erewrite bind_Ok by reflexivity. rewrite (bind_Ok _ _ _ _ _ (aget_ok _ _ _ _ Ep)).
  unfold pid_of. by rewrite Ep.
Qed.

(** ** Sleep locks *)

Definition sleep_at (s : sleepid) k : option sleeplock :=
  match s with
  | SBuf i => b_lock <$> k_bufs k !! i
  | SInode i => i_lock <$> k_inodes k !! i
  end.
Definition put_sleep (s : sleepid) (v : sleeplock) k : kernel H :=
  match s with
  | SBuf i => set_k_bufs (alter (set_b_lock v) i (k_bufs k)) k
  | SInode i => set_k_inodes (alter (set_i_lock v) i (k_inodes k)) k
  end.

Lemma alter_insert {A} (f : A -> A) (l : list A) i x : l !! i = Some x -> alter f i l = <[i := f x]> l.
Proof. intros E. rewrite list_insert_alter. apply list_alter_ext; [|done]. intros y Ey. congruence. Qed.

Lemma get_sleep_ok s v k : sleep_at s k = Some v -> get_sleep s k = Ok v k.
Proof.
  destruct s as [i|i]; cbn; intros (b & Eb & ->)%fmap_Some; unfold get_buf, get_inode;
    by rewrite (bind_Ok _ _ _ _ _ (aget_ok _ _ _ _ Eb)).
Qed.

Lemma set_sleep_ok s v v' k : sleep_at s k = Some v -> set_sleep s v' k = Ok tt (put_sleep s v' k).
Proof.
  destruct s as [i|i]; cbn; intros (b & Eb & ->)%fmap_Some;
    rewrite (alter_insert _ _ _ b) by done; by apply aupd_ok.
Qed.

Lemma sleep_at_enter s c nm l k : sleep_at s (enter c nm l k) = sleep_at s k.
Proof. by destruct s. Qed.
Lemma put_sleep_enter s v c nm l k : put_sleep s v (enter c nm l k) = enter c nm l (put_sleep s v k).
Proof. by destruct s. Qed.

Lemma quiet_put_sleep s v c me k : quiet c me k -> quiet c me (put_sleep s v k).
Proof. intros []. by destruct s. Qed.
Lemma quiet_set_proc ps c me k :
  length ps = length (k_proc k) -> ps !! me = k_proc k !! me -> quiet c me k -> quiet c me (set_k_proc ps k).
Proof. intros E Em []. by split; cbn; rewrite ?E, ?Em. Qed.

Lemma sleep_lk_static s v k :
  length (k_bufs k) = S NBUF -> length (k_inodes k) = Z.to_nat NINODE -> s <> SBuf NBUF ->
  sleep_at s k = Some v -> static_lock (sleep_lk s).
Proof.
  intros Eb Ei Hs. destruct s as [i|i]; cbn; intros (b & E%lookup_lt_Some & _)%fmap_Some; [|lia].
  assert (i <> NBUF) by congruence. lia.
Qed.

Section SleepLocks.
Context (c : cpu) (me : nat) (s : sleepid) (v : sleeplock) (k : kernel H).
Context (Q : quiet c me k) (Hs : static_lock (sleep_lk s)) (Hv : sleep_at s k = Some v).

Lemma acquiresleep_ok :
  sk_locked v = 0 -> acquiresleep s k = Ok tt (put_sleep s (mkSleep 1 (sk_name v) (pid_of me k)) k).
Proof.
  intros H0'. unfold acquiresleep. destruct (q_free _ _ _ Q _ Hs) as [nm El].
  rewrite (bind_Ok _ _ _ _ _ (acquire_ok c nm _ k (q_cpu _ _ _ Q) El)).
  pose proof Hv as Hv'. rewrite <- (sleep_at_enter s c nm (sleep_lk s) k) in Hv'.
  rewrite (bind_Ok _ _ tt _ (enter c nm (sleep_lk s) k)).
  2:{ cbn. rewrite (bind_Ok _ _ _ _ _ (get_sleep_ok s v _ Hv')), H0'. reflexivity. }
  rewrite (bind_Ok _ _ _ _ _ (get_sleep_ok s v _ Hv')).
  rewrite (bind_Ok _ _ _ _ _ (mypid_ok _ me _ (quiet_enter _ _ _ _ _ Q) (q_me _ _ _ Q)
    ltac:(cbn; rewrite (q_procs _ _ _ Q); apply Q))).
  rewrite (bind_Ok _ _ _ _ _ (set_sleep_ok s v _ _ Hv')), put_sleep_enter.
  apply release_ok; [by destruct s; apply Q|by destruct s].
Qed.

Lemma holdingsleep_ok : holdingsleep s k = Ok (negb (sk_locked v =? 0) && (sk_pid v =? pid_of me k)) k.
Proof.
  unfold holdingsleep. destruct (q_free _ _ _ Q _ Hs) as [nm El].
  rewrite (bind_Ok _ _ _ _ _ (acquire_ok c nm _ k (q_cpu _ _ _ Q) El)).
  pose proof Hv as Hv'. rewrite <- (sleep_at_enter s c nm (sleep_lk s) k) in Hv'.
  rewrite (bind_Ok _ _ _ _ _ (get_sleep_ok s v _ Hv')).
  rewrite (bind_Ok _ _ (negb (sk_locked v =? 0) && (sk_pid v =? pid_of me k)) _ (enter c nm (sleep_lk s) k)).
  2:{ destruct (negb (sk_locked v =? 0)); [|done].
      by rewrite (bind_Ok _ _ _ _ _ (mypid_ok _ me _ (quiet_enter _ _ _ _ _ Q) (q_me _ _ _ Q)
        ltac:(cbn; rewrite (q_procs _ _ _ Q); apply Q))). }
  rewrite (bind_Ok _ _ _ _ _ (release_ok c nm _ k (q_cpu _ _ _ Q) El)). reflexivity.
Qed.

Lemma releasesleep_ok :
  releasesleep s k = Ok tt (set_k_proc (woken (ChSleep s) (Some me) (k_proc k)) (put_sleep s (mkSleep 0 (sk_name v) 0) k)).
Proof.
  unfold releasesleep. destruct (q_free _ _ _ Q _ Hs) as [nm El].
  rewrite (bind_Ok _ _ _ _ _ (acquire_ok c nm _ k (q_cpu _ _ _ Q) El)).
  pose proof Hv as Hv'. rewrite <- (sleep_at_enter s c nm (sleep_lk s) k) in Hv'.
  rewrite (bind_Ok _ _ _ _ _ (get_sleep_ok s v _ Hv')).
  rewrite (bind_Ok _ _ _ _ _ (set_sleep_ok s v _ _ Hv')), put_sleep_enter.
  set (k1 := put_sleep s _ k).
  assert (quiet c me k1) as Q1 by by apply quiet_put_sleep.
  assert (k_proc k1 = k_proc k) as Ep by by destruct s.
  assert (k_locks k1 = k_locks k) as Elk by by destruct s.
  rewrite (bind_Ok _ _ tt _ (enter c nm (sleep_lk s) (set_k_proc (woken (ChSleep s) (Some me) (k_proc k)) k1))).
  - apply release_ok; [apply Q1|]. cbn. by rewrite Elk.
  - rewrite (wakeup_ok _ _ _ (quiet_enter _ _ _ _ _ Q1)).
    + cbn. by rewrite (q_me _ _ _ Q), Ep.
    + split; [apply Q1|]. intros i Hi. apply free_enter; [by destruct s|]. by apply Q1.
Qed.

End SleepLocks.

End Sched.

(** * Sleeping: what [sleep] does, given what [swtch] does *)

Section Sleep.
Context {H : Type} `{!Platform H} `{!SleepFuel}.
Implicit Types k : kernel H.

Lemma get_proc_ok i p k : k_proc k !! i = Some p -> get_proc i k = Ok p k.
Proof. apply aget_ok. Qed.
Lemma upd_proc_ok i f p k : k_proc k !! i = Some p -> upd_proc i f k = Ok tt (set_k_proc (<[i := f p]> (k_proc k)) k).
Proof. apply aupd_ok. Qed.

(** Two locks are held in either order. *)
Lemma enter_swap c c1 n1 n2 l1 l2 k :
  l1 <> l2 -> c1 = set_c_noff (c_noff c + 1) c ->
  enter c1 n2 l2 (enter c n1 l1 k) = enter c1 n1 l1 (enter c n2 l2 k).
Proof.
  intros Hne ->. unfold enter, off. cbn. rewrite !list_insert_insert_eq. rewrite insert_insert_ne by done. reflexivity.
Qed.

(** A process that sleeps on [ch]. *)
Definition asleep (ch : chan) (p : proc) : proc := set_p_state SLEEPING (set_p_chan (Some ch) p).

Section Step.
Context (c : cpu) (me : nat) (ch : chan) (lk : lockid) (nm nmp : string) (p : proc) (k : kernel H).
Context (Q : quiet c me k) (Hne : lk <> LProc me) (El : k_locks k !! lk = Some (mkLk 0 nm None)).
Context (Ep : k_locks k !! LProc me = Some (mkLk 0 nmp None)) (Em : k_proc k !! me = Some p).

(** The state in which [sched] gives up the processor. *)
Definition sleeping : kernel H := set_k_proc (<[me := asleep ch p]> (k_proc k)) k.

Lemma sched_ok k1 c1 :
  swtch (CtxProc me) (CtxCpu (cid k)) (enter c nmp (LProc me) sleeping) = Ok tt (enter c1 nmp (LProc me) k1) ->
  on_cpu c1 k1 -> cid k1 = cid k -> c_intena c1 = c_intena c ->
  sched (enter c nmp (LProc me) sleeping) = Ok tt (enter c1 nmp (LProc me) k1).
Proof.
  intros Hsw Hc1 Hcid Hint. set (s := enter c nmp (LProc me) sleeping).
  assert (on_cpu c sleeping) as Hc by by destruct (q_cpu _ _ _ Q).
  pose proof (on_cpu_enter c nmp (LProc me) _ Hc) as Hs. fold s in Hs.
  unfold sched. rewrite (bind_Ok _ _ _ _ _ (myproc_ok _ s Hs)). cbn [c_proc set_c_noff]. rewrite (q_me _ _ _ Q).
  erewrite bind_Ok by reflexivity.
  assert (holding (LProc me) s = Ok true s) as Hh.
  { unfold holding, get_lock. rewrite bind_assoc. erewrite bind_Ok by reflexivity. erewrite bind_Ok.
    2:{ unfold s. cbn. by rewrite lookup_insert_eq. }
    erewrite bind_Ok by reflexivity. cbn. by rewrite bool_decide_eq_true_2. }
  rewrite (bind_Ok _ _ _ _ _ Hh). cbn [negb]. erewrite bind_Ok by reflexivity. destruct Hs as [Es _].
  change (Z.to_nat (Z.land (k_mpidr s) 255)) with (cid s).
  rewrite (bind_Ok _ _ _ _ _ (aget_ok _ _ _ _ Es)). cbn [c_noff set_c_noff]. rewrite (q_noff _ _ _ Q). change (negb (0 + 1 =? 1)) with false. cbn iota.
  assert (k_proc s !! me = Some (asleep ch p)) as Ea by (apply list_lookup_insert_eq; by eapply lookup_lt_Some).
  rewrite (bind_Ok _ _ _ _ _ (get_proc_ok _ _ _ Ea)). rewrite bool_decide_eq_false_2 by done.
  erewrite bind_Ok by reflexivity. cbn [negb Z.eqb]. change (Z.b2z _) with 0. cbn [negb Z.eqb c_intena set_c_noff].
  rewrite (bind_Ok _ _ _ _ _ Hsw). erewrite bind_Ok by reflexivity.
  destruct (on_cpu_enter c1 nmp (LProc me) k1 Hc1) as [E1 _].
  change (Z.to_nat (Z.land (k_mpidr (enter c1 nmp (LProc me) k1)) 255)) with (cid (enter c1 nmp (LProc me) k1)).
  unfold upd_cpu. rewrite (aupd_ok _ _ _ _ _ _ E1). f_equal. cbn.
  rewrite list_insert_insert_eq, set_c_intena_same by by rewrite <- Hint.
  reflexivity.
Qed.

(** [sleep] gives up [lk], and has it again when it returns. *)
Lemma sleep_ok k1 p1 :
  swtch (CtxProc me) (CtxCpu (cid k)) (enter c nmp (LProc me) sleeping) = Ok tt (enter c nmp (LProc me) k1) ->
  on_cpu c k1 -> cid k1 = cid k -> k_locks k1 = k_locks k -> k_proc k1 !! me = Some p1 ->
  sleep ch lk (enter c nm lk k) = Ok tt (enter c nm lk (set_k_proc (<[me := set_p_chan None p1]> (k_proc k1)) k1)).
Proof.
  intros Hsw Hc1 Hcid Hl Ep1. pose proof (q_cpu _ _ _ Q) as Hc. set (c' := set_c_noff (c_noff c + 1) c).
  pose proof (on_cpu_enter c nm lk k Hc) as Hs.
  unfold sleep. rewrite (bind_Ok _ _ _ _ _ (myproc_ok _ _ Hs)). cbn [c_proc set_c_noff]. rewrite (q_me _ _ _ Q).
  erewrite bind_Ok by reflexivity.
  assert (k_locks (enter c nm lk k) !! LProc me = Some (mkLk 0 nmp None)) as Ep' by (cbn; by rewrite lookup_insert_ne).
  rewrite (bind_Ok _ _ _ _ _ (acquire_ok c' nmp _ _ Hs Ep')). rewrite (enter_swap c c' nm nmp lk (LProc me)) by done.
  assert (k_locks (enter c nmp (LProc me) k) !! lk = Some (mkLk 0 nm None)) as El' by (cbn; by rewrite lookup_insert_ne).
  rewrite (bind_Ok _ _ _ _ _ (release_ok c' nm lk _ (on_cpu_enter c nmp (LProc me) k Hc) El')).
  assert (k_proc (enter c nmp (LProc me) k) !! me = Some p) as Em' by done.
  rewrite (bind_Ok _ _ _ _ _ (upd_proc_ok _ _ _ _ Em')). set (s1 := set_k_proc _ _).
  assert (k_proc s1 !! me = Some (set_p_chan (Some ch) p)) as Em1 by (apply list_lookup_insert_eq; by eapply lookup_lt_Some).
  rewrite (bind_Ok _ _ _ _ _ (upd_proc_ok _ _ _ _ Em1)). unfold s1. cbn [k_proc set_k_proc]. rewrite list_insert_insert_eq.
  change (set_k_proc (<[me := _]> _) (set_k_proc _ (enter c nmp (LProc me) k))) with (enter c nmp (LProc me) sleeping).
  rewrite (bind_Ok _ _ _ _ _ (sched_ok k1 c Hsw Hc1 Hcid eq_refl)).
  assert (k_proc (enter c nmp (LProc me) k1) !! me = Some p1) as Em2 by done.
  rewrite (bind_Ok _ _ _ _ _ (upd_proc_ok _ _ _ _ Em2)). set (k2 := set_k_proc (<[me := set_p_chan None p1]> (k_proc k1)) k1).
  change (set_k_proc _ (enter c nmp (LProc me) k1)) with (enter c nmp (LProc me) k2).
  rewrite (bind_Ok _ _ _ _ _ (release_ok c nmp _ k2 Hc1 ltac:(cbn; by rewrite Hl))).
  apply acquire_ok; [exact Hc1|]. cbn. by rewrite Hl.
Qed.
End Step.
End Sleep.
