(* ===== verification/KBss.v ===== *)
(** The guest kernel as it is loaded: the zeroed [.bss], then a core that runs process 0.
    The properties of the guest kernel are tried on this state. *)
From stdpp Require Import base gmap sets list numbers strings tactics.
From S2P Require Import Prelude Mem KMachine KSched.

(** * The zeroed [.bss] *)

Definition no_sleep : sleeplock := mkSleep 0 "" 0.
Definition no_ctx : context := mkCtx 0 (replicate 13 0).
Definition no_cpu : cpu := mkCpu None no_ctx 0 0.
Definition no_proc : proc :=
  mkProc UNUSED None 0 0 0 None 0 0 0 None no_ctx (replicate (Z.to_nat NOFILE) None) None (replicate 16 0).
Definition no_buf : buf := mkBuf 0 0 0 0 no_sleep 0 0 0 (replicate (Z.to_nat BSIZE) 0).
Definition no_inode : inode := mkInode 0 0 0 no_sleep 0 0 0 0 0 0 (replicate 13 0).
Definition no_file : file := mkFile FD_NONE 0 0 0 0 None 0 0.
Definition no_log : log := mkLog 0 0 0 0 0 (mkLh 0 (replicate (Z.to_nat LOGSIZE) 0)).
Definition no_tf : trapframe := mkTf (replicate 31 0) 0 0 0.
Definition no_vdisk : vdisk :=
  mkVdisk (replicate 8 (mkDesc 0 0 0 0)) (mkAvail 0 (replicate 8 0)) (mkUsed 0 (replicate 8 (0, 0)))
    (replicate 8 0) 0 (replicate 8 (None, 0)) (replicate 8 (mkReq 0 0 0)).

Definition all_locks : list lockid :=
  [LKmem; LBcache; LLog; LPid; LWait; LFtable; LItable; LVdisk; LTicks; LCons; LUartTx; LPr] ++
  map LBuf (seq 0 NBUF) ++ map LProc (seq 0 (Z.to_nat NPROC)) ++ map LInode (seq 0 (Z.to_nat NINODE)).

Definition no_locks : gmap lockid spinlock := list_to_map (map (fun l => (l, mkLk 0 "" None)) all_locks).

Definition bss {H} (hw : H) (m : memory) : kernel H :=
  mkKernel hw m 0 0 no_locks (replicate (Z.to_nat NCPU) no_cpu) (replicate (Z.to_nat NPROC) no_proc)
    (replicate (Z.to_nat NPROC) no_tf) None 1 1 0 0 (replicate (S NBUF) no_buf) no_log
    (mkSb 0 0 0 0 0 0 0 0) (replicate (Z.to_nat NINODE) no_inode) (replicate (Z.to_nat NFILE) no_file)
    (replicate (Z.to_nat NDEV) (mkDevsw None None)) no_vdisk (mkCons (replicate 128 0) 0 0 0)
    (mkUart (replicate 32 0) 0 0) 0 0 0 0 (mkGicv3 0 (replicate (Z.to_nat NCPU) 0)).

(** * A process that runs *)

(** Process 0 runs on core 0. *)
Definition running {H} (k : kernel H) : kernel H :=
  set_k_proc (<[O := set_p_pid 1 (set_p_state RUNNING no_proc)]> (k_proc k))
    (set_k_cpus (<[O := set_c_intena 1 (set_c_proc (Some O) no_cpu)]> (k_cpus k)) k).

Definition cpu0 : cpu := set_c_intena 1 (set_c_proc (Some O) no_cpu).

Lemma no_locks_free l : static_lock l -> no_locks !! l = Some (mkLk 0 "" None).
Proof.
  intros Hl. assert (l ∈ all_locks) as Hin.
  { unfold all_locks. rewrite !elem_of_app, !list_elem_of_fmap.
    destruct l as [| |i| | | |i| | |i| |pi| | | |]; cbn in Hl; try done; try (left; set_solver); right; [left|right; left|right; right];
      exists i; rewrite elem_of_seq; (split; [done|lia]). }
  unfold no_locks. apply elem_of_list_to_map.
  - rewrite <- list_fmap_compose. change (NoDup (map (fun l => l) all_locks)). rewrite map_id.
    apply (bool_decide_unpack _). by vm_compute.
  - apply list_elem_of_fmap. by exists l.
Qed.

Lemma running_quiet {H} `{!Platform H} (hw : H) m : quiet cpu0 0 (running (bss hw m)).
Proof.
  split; cbn; try done.
  - split; [done|]. left. split; [done|]. by left.
  - by vm_compute; lia.
  - by eexists.
  - intros l Hl. exists "". by apply no_locks_free.
Qed.

Lemma running_bufs {H} (hw : H) m : k_bufs (running (bss hw m)) = replicate (S NBUF) no_buf.
Proof. done. Qed.

(** * A machine without devices *)

#[export] Instance null_platform : Platform unit := {
  pf_r32 _ h := (0, h);
  pf_w32 _ _ h := h;
  pf_mrs _ h := (0, h);
  pf_msr _ _ h := h;
  pf_tlbi h := h;
  psci_call _ _ _ _ := ret tt;
  swtch _ _ := ret tt
}.

(** The kernel ends 1 MB after the start of RAM. *)
#[export] Instance null_symbols : Symbols := {
  sym_end := KERNLINK + 0x100000; sym_etext := KERNLINK + 0x8000; sym_entry := KERNLINK;
  sym_forkret := KERNLINK + 0x1000; sym_alltraps := KERNLINK + 0x2000; sym_pages := KERNLINK + 0x20000;
  sym_ops i := KERNLINK + 0x22100 + 16 * Z.of_nat i; sym_status i := KERNLINK + 0x22008 + 16 * Z.of_nat i;
  sym_bufdata i := KERNLINK + 0x30000 + 1100 * Z.of_nat i
}.

(** RAM from the end of the kernel, four pages of it. *)
Definition null_ram : memory := mkMem (KERNLINK + 0x100000) (KERNLINK + 0x104000) ∅.
Definition null_kernel : kernel unit := running (bss tt null_ram).

Lemma null_quiet : quiet cpu0 0 null_kernel.
Proof. apply running_quiet. Qed.
