(* ===== verification/KAlloc.v ===== *)
(** The page allocator of the guest kernel (kalloc.c): the free pages are a linked list
    that runs through the pages themselves. *)
From stdpp Require Import base gmap list numbers strings tactics.
From S2P Require Import Prelude Mem KMachine KString KSched KBss.

Section Kalloc.
Context {H : Type} `{!Platform H} `{!Symbols}.
Implicit Types k : kernel H.

(** [r->next], the first word of a free page. *)
Definition run_next (r : Z) : M (kernel H) Z := on_mem (load64 r).
Definition set_run_next (r v : Z) : M (kernel H) unit := on_mem (store64 r v).
Definition set_freelist (v : Z) : M (kernel H) unit := modify (set_k_freelist v).

Definition kfree (va : Z) : M (kernel H) unit :=
  if negb (va mod PGSIZE =? 0) || (va <? sym_end) || (va >=? P2V PHYSTOP) then panic else
  let! _ := on_mem (memset va 1 PGSIZE) in
  acquire LKmem ;;
  let! head := gets k_freelist in
  set_run_next va head ;;
  set_freelist va ;;
  release LKmem.

Definition kalloc : M (kernel H) Z :=
  acquire LKmem ;;
  let! r := gets k_freelist in
  (if negb (r =? 0) then let! n := run_next r in set_freelist n else ret tt) ;;
  release LKmem ;;
  if negb (r =? 0) then let! _ := on_mem (memset r 5 PGSIZE) in ret r else ret r.

(** [for(; p + PGSIZE <= vend; p += PGSIZE) kfree(p);] *)
Fixpoint freerange_loop (fuel : nat) (p vend : Z) : M (kernel H) unit :=
  match fuel with
  | O => spin
  | S fuel' =>
      if u64 (p + PGSIZE) <=? vend then kfree p ;; freerange_loop fuel' (u64 (p + PGSIZE)) vend else ret tt
  end.
Definition freerange (vstart vend : Z) : M (kernel H) unit :=
  let p := PGROUNDUP vstart in
  freerange_loop (S (Z.to_nat ((vend - p) / PGSIZE))) p vend.

Definition kinit1 (vstart vend : Z) : M (kernel H) unit :=
  initlock LKmem "kmem" ;; freerange vstart vend.
Definition kinit2 (vstart vend : Z) : M (kernel H) unit := freerange vstart vend.

(** * Rounding to pages *)

Lemma pgrounddown a : is_u64 a -> PGROUNDDOWN a = a - a mod PGSIZE.
Proof.
  intros Ha. unfold PGROUNDDOWN, PGSIZE. apply Z.bits_inj'. intros i Hi.
  replace (a - a mod 4096) with (Z.shiftl (Z.shiftr a 12) 12).
  2:{ rewrite Z.shiftl_mul_pow2, Z.shiftr_div_pow2 by lia. change (2 ^ 12) with 4096. pose proof (Z.div_mod a 4096 ltac:(lia)). lia. }
  rewrite Z.land_spec, Z.shiftl_spec by done. destruct (decide (i < 64)).
  - rewrite testbit_notw by lia. change (4096 - 1) with (Z.ones 12). rewrite Z.testbit_ones_nonneg by lia.
    destruct (Z.ltb_spec i 64); [|lia]. destruct (Z.ltb_spec i 12); cbn [negb andb].
    + rewrite andb_false_r. symmetry. apply Z.testbit_neg_r. lia.
    + rewrite andb_true_r, Z.shiftr_spec by lia. f_equal. lia.
  - rewrite Z.shiftr_spec by lia. replace (i - 12 + 12) with i by lia.
    replace (Z.testbit a i) with false; [done|]. rewrite <- (Z.mod_small a (2 ^ 64)) by apply Ha. symmetry. apply Z.mod_pow2_bits_high. lia.
Qed.

Lemma pgrounddown_aligned a : is_u64 a -> PGROUNDDOWN a mod PGSIZE = 0 /\ a - PGSIZE < PGROUNDDOWN a <= a.
Proof.
  intros Ha. rewrite pgrounddown by done. pose proof (Z.mod_pos_bound a PGSIZE ltac:(done)).
  split; [|unfold PGSIZE in *; lia]. rewrite Zminus_mod, Zmod_mod, Z.sub_diag. done.
Qed.

Lemma pgroundup_aligned a : 0 <= a -> a + PGSIZE <= 2 ^ 64 -> PGROUNDUP a mod PGSIZE = 0 /\ a <= PGROUNDUP a < a + PGSIZE.
Proof.
  intros Ha Hm. change (PGROUNDUP a) with (PGROUNDDOWN (u64 (a + PGSIZE - 1))).
  assert (is_u64 (a + PGSIZE - 1)) as Hu by (unfold is_u64, PGSIZE in *; lia). rewrite u64_small by done.
  destruct (pgrounddown_aligned _ Hu) as [E B]. split; [done|lia].
Qed.

(** * The free list *)

(** A page that [kfree] accepts. *)
Definition page_ok (m : memory) (p : Z) : Prop :=
  p mod PGSIZE = 0 /\ sym_end <= p < P2V PHYSTOP /\ 0 < p /\ in_ram m p PGSIZE = true.

(** From [head], the list of the pages [l]. *)
Fixpoint chain (m : memory) (head : Z) (l : list Z) : Prop :=
  match l with
  | [] => head = 0
  | p :: l' => head = p /\ page_ok m p /\ chain m (rd 8 m p) l'
  end.

Record heap (k : kernel H) (l : list Z) : Prop := {
  hp_ram : Lib.ram_ok (k_mem k);
  hp_chain : chain (k_mem k) (k_freelist k) l;
  hp_nodup : NoDup l
}.

Lemma chain_pages m h l p : chain m h l -> p ∈ l -> page_ok m p.
Proof.
  revert h. induction l as [|q l IH]; intros h Hc Hp; [by apply not_elem_of_nil in Hp|].
  destruct Hc as (_ & Hq & Hc). apply elem_of_cons in Hp as [->|Hp]; [done|by eapply IH].
Qed.

Lemma page_u64 m p : Lib.ram_ok m -> page_ok m p -> is_u64 p.
Proof. unfold Lib.ram_ok. intros ? (_ & _ & ? & Hin). unfold in_ram, PGSIZE in Hin. bool_to_Z. unfold is_u64. lia. Qed.

Lemma chain_head m h l : Lib.ram_ok m -> chain m h l -> is_u64 h.
Proof. intros Hok. destruct l as [|q l]; cbn; [intros ->; by vm_compute|]. intros (-> & Hq & _). by apply (page_u64 m). Qed.

(** Two distinct pages do not overlap. *)
Lemma pages_disjoint p q : p mod PGSIZE = 0 -> q mod PGSIZE = 0 -> p <> q -> p + PGSIZE <= q \/ q + PGSIZE <= p.
Proof.
  unfold PGSIZE. intros Hp Hq Hne. apply Z.mod_divide in Hp as [a ->], Hq as [b ->]; lia.
Qed.

Lemma chain_ext m m' h l :
  ram_lo m' = ram_lo m -> ram_hi m' = ram_hi m ->
  (forall p, p ∈ l -> rd 8 m' p = rd 8 m p) -> chain m h l -> chain m' h l.
Proof.
  intros E1 E2. revert h. induction l as [|p l IH]; intros h Hr Hc; [done|].
  destruct Hc as (-> & (A & B & C & D) & Hc). split; [done|]. split.
  - split_and!; try done; try apply B. unfold in_ram in *. by rewrite E1, E2.
  - rewrite Hr by set_solver. apply IH; [|done]. intros q Hq. apply Hr. set_solver.
Qed.

(** Writing to a page that is not in the list leaves the list. *)
Lemma chain_write m m' h l p :
  ram_lo m' = ram_lo m -> ram_hi m' = ram_hi m -> p mod PGSIZE = 0 -> p ∉ l ->
  (forall b, ~ (p <= b < p + PGSIZE) -> peek m' b = peek m b) -> chain m h l -> chain m' h l.
Proof.
  intros E1 E2 Hp Hnot Hsame Hc. apply (chain_ext m); try done. intros q Hq.
  pose proof (chain_pages _ _ _ _ Hc Hq) as (Hq0 & _). apply rd_ext. intros b Hb. apply Hsame.
  destruct (pages_disjoint p q) as [?|?]; try done; [congruence| |]; unfold PGSIZE in *; lia.
Qed.

(** ** The two operations *)

(** The page is filled with junk. *)
Definition junk (m : memory) (p c : Z) : memory -> Prop := fun m' =>
  ram_lo m' = ram_lo m /\ ram_hi m' = ram_hi m /\
  forall b, peek m' b = if (p <=? b) && (b <? p + PGSIZE) then c else peek m b.

Lemma fill_page k p c :
  Lib.ram_ok (k_mem k) -> in_ram (k_mem k) p PGSIZE = true -> is_u8 c ->
  exists m', on_mem (memset p c PGSIZE) k = Ok p (set_k_mem m' k) /\ junk (k_mem k) p c m'.
Proof.
  intros Hok Hin Hc. pose proof (k_memset_ok (k_mem k) p c PGSIZE Hok ltac:(unfold PGSIZE; lia) Hin)
    as (r & m' & E & -> & L1 & L2 & P)%wp_Ok.
  exists m'. unfold on_mem, zoom. rewrite E. split; [done|]. split_and!; try done. intros b.
  by rewrite P, u8_small.
Qed.

Section Ops.
Context (c : cpu) (k : kernel H) (l : list Z).
Context (Hc : on_cpu c k) (Hf : free LKmem k) (Hh : heap k l).

(** What an operation leaves alone. *)
Definition mem_frame (k' : kernel H) : Prop := k' = set_k_mem (k_mem k') (set_k_freelist (k_freelist k') k).

Lemma kalloc_none : l = [] -> kalloc k = Ok 0 k.
Proof.
  intros ->. destruct Hh as [_ Hcn _]. cbn in Hcn. destruct Hf as [nm El]. unfold kalloc.
  rewrite (bind_Ok _ _ _ _ _ (acquire_ok c nm _ k Hc El)). erewrite bind_Ok by reflexivity.
  change (k_freelist (enter c nm LKmem k)) with (k_freelist k). rewrite Hcn. cbn [Z.eqb negb].
  erewrite bind_Ok by reflexivity. by rewrite (bind_Ok _ _ _ _ _ (release_ok c nm LKmem k Hc El)).
Qed.

Lemma kalloc_some p l' :
  l = p :: l' -> exists k', kalloc k = Ok p k' /\ mem_frame k' /\ heap k' l' /\ junk (k_mem k) p 5 (k_mem k').
Proof.
  intros ->. destruct Hh as [Hok (Ep & Hpage & Hcn) Hnd]. apply list.NoDup_cons in Hnd as [Hp Hnd].
  destruct Hf as [nm El]. pose proof Hpage as (Hmod & Hrange & Hpos & Hin). unfold kalloc.
  rewrite (bind_Ok _ _ _ _ _ (acquire_ok c nm _ k Hc El)). erewrite bind_Ok by reflexivity.
  change (k_freelist (enter c nm LKmem k)) with (k_freelist k). rewrite Ep. destruct (Z.eqb_spec p 0); [lia|]. cbn [negb].
  rewrite (bind_Ok _ _ tt _ (enter c nm LKmem (set_k_freelist (rd 8 (k_mem k) p) k))).
  2:{ rewrite (bind_Ok (run_next p) _ (rd 8 (k_mem k) p) _ (enter c nm LKmem k)); [done|].
      unfold run_next, on_mem, zoom, load, bind, get. cbn [k_mem enter off set_k_daif set_k_cpus set_k_locks].
      rewrite (in_ram_sub _ p PGSIZE) by (done || unfold PGSIZE; lia). reflexivity. }
  set (k1 := set_k_freelist (rd 8 (k_mem k) p) k).
  rewrite (bind_Ok _ _ _ _ _ (release_ok c nm LKmem k1 Hc El)).
  destruct (fill_page k1 p 5 Hok Hin ltac:(unfold is_u8; lia)) as (m' & E & J). rewrite (bind_Ok _ _ _ _ _ E).
  exists (set_k_mem m' k1). split; [done|]. split; [done|]. split; [|done]. destruct J as (L1 & L2 & P). split; cbn; try done.
  - unfold Lib.ram_ok in *. by rewrite L1, L2.
  - apply (chain_write (k_mem k) m' _ _ p); try done. intros b Hb. rewrite P.
    destruct (Z.leb_spec p b), (Z.ltb_spec b (p + PGSIZE)); try done; lia.
Qed.

Lemma kfree_ok p :
  page_ok (k_mem k) p -> p ∉ l ->
  exists k', kfree p k = Ok tt k' /\ mem_frame k' /\ heap k' (p :: l) /\
    ram_lo (k_mem k') = ram_lo (k_mem k) /\ ram_hi (k_mem k') = ram_hi (k_mem k) /\
    forall b, ~ (p <= b < p + PGSIZE) -> peek (k_mem k') b = peek (k_mem k) b.
Proof.
  intros (Hmod & Hrange & Hpos & Hin) Hp. destruct Hh as [Hok Hcn Hnd]. destruct Hf as [nm El]. unfold kfree.
  rewrite Hmod. destruct (Z.ltb_spec p sym_end), (Z.geb_spec p (P2V PHYSTOP)); try lia. cbn [Z.eqb negb orb].
  destruct (fill_page k p 1 Hok Hin ltac:(unfold is_u8; lia)) as (m1 & E & L1 & L2 & P). rewrite (bind_Ok _ _ _ _ _ E).
  set (k1 := set_k_mem m1 k). rewrite (bind_Ok _ _ _ _ _ (acquire_ok c nm _ k1 Hc El)). erewrite bind_Ok by reflexivity.
  set (m2 := wr 8 p (k_freelist k) m1). set (k2 := set_k_mem m2 k).
  assert (set_run_next p (k_freelist (enter c nm LKmem k1)) (enter c nm LKmem k1) = Ok tt (enter c nm LKmem k2)) as Es.
  { unfold set_run_next, on_mem, zoom, store, bind, get. cbn [k_mem enter off set_k_daif set_k_cpus set_k_locks k1 set_k_mem].
    unfold in_ram in *. rewrite L1, L2. fold (in_ram (k_mem k) p (Z.of_nat 8)). rewrite (in_ram_sub _ p PGSIZE); [done|done|lia|unfold PGSIZE; lia]. }
  rewrite (bind_Ok _ _ _ _ _ Es). erewrite bind_Ok by reflexivity.
  change (set_k_freelist p (enter c nm LKmem k2)) with (enter c nm LKmem (set_k_freelist p k2)).
  exists (set_k_freelist p k2). split; [by apply release_ok|]. split; [done|].
  destruct (wr_bounds 8 p (k_freelist k) m1) as [W1 W2]. fold m2 in W1, W2.
  assert (forall b, ~ (p <= b < p + PGSIZE) -> peek m2 b = peek (k_mem k) b) as Hsame.
  { intros b Hb. unfold m2. rewrite peek_wr_other by (unfold PGSIZE in *; lia). rewrite P.
    destruct (Z.leb_spec p b), (Z.ltb_spec b (p + PGSIZE)); try done; lia. }
  split_and!; [|cbn; congruence..|exact Hsame]. split; cbn.
  - unfold Lib.ram_ok in *. by rewrite W1, W2, L1, L2.
  - split; [done|]. split.
    + split_and!; try done; try apply Hrange. unfold in_ram in *. by rewrite W1, W2, L1, L2.
    + assert (rd 8 m2 p = k_freelist k) as ->.
      { unfold m2. rewrite rd_wr_same. apply Z.mod_small, (chain_head (k_mem k) _ l); done. }
      apply (chain_write (k_mem k) m2 _ l p); try done; congruence.
  - by apply list.NoDup_cons.
Qed.
End Ops.

(** ** freerange *)

Lemma mem_frame_cpu c k k' : mem_frame k k' -> on_cpu c k -> free LKmem k -> on_cpu c k' /\ free LKmem k'.
Proof. intros -> Hc Hf. by split. Qed.

Fixpoint pages (n : nat) (p : Z) : list Z :=
  match n with O => [] | S n' => p :: pages n' (p + PGSIZE) end.

Lemma pages_ge n p q : q ∈ pages n p -> p <= q.
Proof.
  revert p. induction n as [|n IH]; intros p Hq; [by apply not_elem_of_nil in Hq|].
  cbn in Hq. apply elem_of_cons in Hq as [->|Hq]; [done|]. apply IH in Hq. unfold PGSIZE in Hq. lia.
Qed.

(** [n] whole pages from [p] fit below [vend], and no more. *)
Lemma freerange_loop_ok c k l n fuel p vend :
  on_cpu c k -> free LKmem k -> heap k l -> (n < fuel)%nat -> 0 <= p -> vend < 2 ^ 64 - PGSIZE ->
  p + Z.of_nat n * PGSIZE <= vend < p + (Z.of_nat n + 1) * PGSIZE ->
  (forall q, q ∈ pages n p -> page_ok (k_mem k) q /\ q ∉ l) ->
  exists k', freerange_loop fuel p vend k = Ok tt k' /\ mem_frame k k' /\ heap k' (rev (pages n p) ++ l).
Proof.
  revert k l fuel p. induction n as [|n IH]; intros k l fuel p Hc Hf Hh Hfuel Hp Hv Hn Hpg;
    (destruct fuel as [|fuel]; [lia|]); cbn [freerange_loop]; unfold PGSIZE in Hn, Hv.
  - destruct (Z.leb_spec (u64 (p + PGSIZE)) vend) as [Hle|_].
    { rewrite u64_small in Hle by (unfold is_u64, PGSIZE; lia). unfold PGSIZE in Hle. lia. }
    exists k. split_and!; try done. by destruct k.
  - rewrite u64_small by (unfold is_u64, PGSIZE; lia).
    destruct (Z.leb_spec (p + PGSIZE) vend) as [_|Hlt]; [|unfold PGSIZE in Hlt; lia].
    destruct (Hpg p) as [Hok Hnot]; [cbn; set_solver|].
    destruct (kfree_ok c k l Hc Hf Hh p Hok Hnot) as (k1 & E1 & F1 & H1 & R1 & R2 & _). rewrite (bind_Ok _ _ _ _ _ E1).
    destruct (mem_frame_cpu c k k1 F1 Hc Hf) as [Hc1 Hf1].
    destruct (IH k1 (p :: l) fuel (p + PGSIZE) Hc1 Hf1 H1) as (k2 & E2 & F2 & H2); try (unfold PGSIZE; lia).
    + intros q Hq. destruct (Hpg q) as [Hq1 Hq2]; [cbn; set_solver|]. split.
      * unfold page_ok, in_ram in *. by rewrite R1, R2.
      * apply pages_ge in Hq. unfold PGSIZE in Hq. intros [->|?]%elem_of_cons; [lia|done].
    + exists k2. split; [done|]. split; [by rewrite F2, F1|]. cbn [pages rev]. by rewrite <- (assoc_L (++)).
Qed.

(** ** The theorems *)

(** [kalloc] takes the first page off the free list, fills it with 5s and returns it; it
    returns 0, and changes nothing, exactly when no page is free.  [kfree] of a page that is
    not free puts it there, and [kalloc] after it returns that page and leaves the list as it
    was.  No page of the list other than the one given or taken changes, and the pages of
    the list stay distinct. *)
Theorem kalloc_spec c k l :
  on_cpu c k -> free LKmem k -> heap k l ->
  (match l with
   | [] => kalloc k = Ok 0 k
   | p :: l' => exists k', kalloc k = Ok p k' /\ p <> 0 /\ heap k' l' /\ p ∉ l' /\ junk (k_mem k) p 5 (k_mem k')
   end) /\
  (forall p, page_ok (k_mem k) p -> p ∉ l ->
   exists k1 k2, kfree p k = Ok tt k1 /\ heap k1 (p :: l) /\ kalloc k1 = Ok p k2 /\ heap k2 l /\
     forall b, ~ (p <= b < p + PGSIZE) -> peek (k_mem k2) b = peek (k_mem k) b).
Proof.
  intros Hc Hf Hh. split.
  - destruct l as [|p l']; [by apply (kalloc_none c k [])|].
    destruct (kalloc_some c k (p :: l') Hc Hf Hh p l' eq_refl) as (k' & E & _ & Hh' & J). exists k'.
    pose proof (hp_nodup _ _ Hh) as [Hp _]%list.NoDup_cons. destruct (hp_chain _ _ Hh) as (_ & (_ & _ & ? & _) & _).
    split_and!; try done. lia.
  - intros p Hp Hnot. destruct (kfree_ok c k l Hc Hf Hh p Hp Hnot) as (k1 & E1 & F1 & H1 & _ & _ & S1).
    destruct (mem_frame_cpu c k k1 F1 Hc Hf) as [Hc1 Hf1].
    destruct (kalloc_some c k1 (p :: l) Hc1 Hf1 H1 p l eq_refl) as (k2 & E2 & _ & H2 & _ & _ & P2).
    exists k1, k2. split_and!; try done. intros b Hb. rewrite P2, <- S1 by done.
    destruct (Z.leb_spec p b), (Z.ltb_spec b (p + PGSIZE)); try done; lia.
Qed.

(** [kinit1] on an empty allocator makes a free list of exactly the whole pages between
    its two addresses, however they are aligned, each once; it ends. *)
Theorem kinit_spec c k vstart vend :
  on_cpu c k -> Lib.ram_ok (k_mem k) -> k_freelist k = 0 ->
  0 < vstart -> sym_end <= vstart -> vstart + PGSIZE <= 2 ^ 64 -> vend <= P2V PHYSTOP -> vend < 2 ^ 64 - PGSIZE ->
  PGROUNDUP vstart <= vend -> in_ram (k_mem k) vstart (vend - vstart) = true ->
  let first := PGROUNDUP vstart in
  let n := Z.to_nat ((vend - first) / PGSIZE) in
  exists k', kinit1 vstart vend k = Ok tt k' /\ heap k' (rev (pages n first)) /\ NoDup (pages n first).
Proof.
  intros Hc Hok Hz Hs0 Hs1 Hs2 Hv1 Hv2 Hle Hin first n.
  destruct (pgroundup_aligned vstart ltac:(lia) Hs2) as [Hal Hb]. fold first in Hal, Hb, Hle.
  set (k1 := set_k_locks (<[LKmem := mkLk 0 "kmem" None]> (k_locks k)) k).
  assert (free LKmem k1) as Hf by (exists "kmem"; apply lookup_insert_eq).
  assert (heap k1 []) as Hh by (split; [done|done|constructor]).
  assert (first + Z.of_nat n * PGSIZE <= vend < first + (Z.of_nat n + 1) * PGSIZE) as Hn.
  { unfold n. pose proof (Z.div_mod (vend - first) PGSIZE ltac:(done)).
    pose proof (Z.mod_pos_bound (vend - first) PGSIZE ltac:(done)).
    rewrite Z2Nat.id by (apply Z.div_pos; unfold PGSIZE; lia). unfold PGSIZE in *. lia. }
  assert (forall i p, p mod PGSIZE = 0 -> first <= p -> p + Z.of_nat i * PGSIZE <= vend ->
    forall q, q ∈ pages i p -> page_ok (k_mem k1) q /\ q ∉ []) as Hpg.
  { induction i as [|i IH]; intros p Hp Hf1 Hf2 q Hq; [by apply not_elem_of_nil in Hq|].
    cbn in Hq. apply elem_of_cons in Hq as [->|Hq].
    - split; [|apply not_elem_of_nil]. unfold in_ram in Hin. bool_to_Z. unfold PGSIZE in Hf2.
      split_and!; [done|lia|lia|lia|]. unfold in_ram, PGSIZE. cbn. rewrite andb_true_iff, !Z.leb_le. lia.
    - apply (IH (p + PGSIZE)); try done; [|unfold PGSIZE in *; lia..].
      by rewrite Zplus_mod, Hp. }
  destruct (freerange_loop_ok c k1 [] n (S n) first vend Hc Hf Hh) as (k2 & E & _ & H2); try lia; try done.
  - apply Hpg; try done. lia.
  - rewrite app_nil_r in H2. exists k2. split_and!; [exact E|done|].
    pose proof (hp_nodup _ _ H2) as Hnd. by rewrite <- Permutation_rev in Hnd.
Qed.

End Kalloc.

(** * At work *)

(** An allocator with the page at [KERNLINK + 0x101000] free. *)
Definition one_page : Z := KERNLINK + 0x101000.

Lemma kinit_spec_witness :
  exists k', kinit1 (KERNLINK + 0x100800) (KERNLINK + 0x104000) null_kernel = Ok tt k' /\
    heap k' [KERNLINK + 0x103000; KERNLINK + 0x102000; KERNLINK + 0x101000].
Proof.
  destruct (kinit_spec cpu0 null_kernel (KERNLINK + 0x100800) (KERNLINK + 0x104000)) as (k' & E & Hh & _).
  - exact (q_cpu _ _ _ null_quiet).
  - split; vm_compute; congruence.
  - reflexivity.
  - reflexivity.
  - vm_compute. congruence.
  - vm_compute. congruence.
  - vm_compute. congruence.
  - reflexivity.
  - vm_compute. congruence.
  - reflexivity.
  - exists k'. split; [exact E|exact Hh].
Defined.

Definition one_page_kernel : kernel unit := set_k_freelist one_page null_kernel.

Lemma one_page_heap : heap one_page_kernel [one_page].
Proof.
  split.
  - split; vm_compute; congruence.
  - cbn [chain]. split; [done|]. split; [|by vm_compute].
    split_and!; try (vm_compute; congruence).
  - apply list.NoDup_singleton.
Qed.

Lemma kalloc_spec_witness :
  (exists k', kalloc one_page_kernel = Ok one_page k' /\ heap k' []) /\
  exists k1 k2, kfree (one_page + PGSIZE) one_page_kernel = Ok tt k1 /\ kalloc k1 = Ok (one_page + PGSIZE) k2.
Proof.
  pose proof (kalloc_spec cpu0 one_page_kernel [one_page] (q_cpu _ _ _ null_quiet)
    (q_free _ _ _ null_quiet LKmem I) one_page_heap) as [A F]. split.
  - destruct A as (k' & E & _ & Hh & _). exists k'. split; [exact E|exact Hh].
  - destruct (F (one_page + PGSIZE)) as (k1 & k2 & E1 & _ & E2 & _).
    + split; [|split; [|split]]; vm_compute; try (split; congruence); congruence.
    + intros Hin%list_elem_of_singleton. vm_compute in Hin. congruence.
    + exists k1, k2. split; [exact E1|exact E2].
Defined.
