(* ===== verification/KVm.v ===== *)
(** Page tables of the guest kernel, and copies to and from user memory (vm.c).

    Tables are pages of RAM; [pte_t*] is the kernel address of an entry.  The kernel's
    own buffers are lists of bytes: [copyin] and [copyinstr] return what they have
    copied, [copyout] is given the bytes. *)
From stdpp Require Import base gmap list numbers strings tactics.
From S2P Require Import Prelude Mem Ram KMachine KString KSched KAlloc.

(** * aarch64.h *)

Definition PTE_VALID : Z := 1.
Definition PTE_TABLE : Z := 2.
Definition PTE_V : Z := 3.
Definition PTE_AF : Z := Z.shiftl 1 10.
Definition PTE_AP (ap : Z) : Z := Z.shiftl (Z.land ap 3) 6.
Definition PTE_U : Z := PTE_AP 1.
Definition PTE_RO : Z := PTE_AP 2.
Definition PTE_URO : Z := PTE_AP 3.
Definition PTE_PXN : Z := Z.shiftl 1 53.
Definition PTE_UXN : Z := Z.shiftl 1 54.
Definition PTE_XN : Z := Z.lor PTE_PXN PTE_UXN.
Definition PTE_INDX (i : Z) : Z := Z.shiftl (Z.land i 7) 2.
Definition PTE_DEVICE : Z := PTE_INDX 0.
Definition PTE_NORMAL : Z := PTE_INDX 1.
Definition PA2PTE (pa : Z) : Z := Z.land pa 0xfffffffff000.
Definition PTE2PA (pte : Z) : Z := Z.land pte 0xfffffffff000.
Definition PTE_FLAGS (pte : Z) : Z := Z.land pte 0x600000000003ff.
Definition PXMASK : Z := 0x1FF.
Definition PXSHIFT (level : Z) : Z := 39 - level * 9.
Definition PX (level va : Z) : Z := Z.land (Z.shiftr va (PXSHIFT level)) PXMASK.

(** * memlayout.h *)

Definition UART0 : Z := KERNBASE + 0x09000000.
Definition VIRTIO0 : Z := KERNBASE + 0x0a000000.
Definition GICV3 : Z := KERNBASE + 0x08000000.
Definition GICV3_REDIST : Z := KERNBASE + 0x080a0000.

(** Some bit of [mask] is set in [x]. *)
Definition has (x mask : Z) : bool := negb (Z.land x mask =? 0).

Section Vm.
Context {H : Type} `{!Platform H} `{!Symbols}.
Implicit Types k : kernel H.

(** [pte_t] values and whole pages in RAM. *)
Definition get_pte (a : Z) : M (kernel H) Z := on_mem (load64 a).
Definition set_pte (a v : Z) : M (kernel H) unit := on_mem (store64 a v).
Definition zero_page (a : Z) : M (kernel H) unit := let! _ := on_mem (memset a 0 PGSIZE) in ret tt.

(** [&pagetable[i]] *)
Definition pte_at (pagetable i : Z) : Z := u64 (pagetable + 8 * i).

(** One level of [walk]: the table below, or [None] where [walk] returns 0. *)
Definition walk_level (pagetable va : Z) (alloc : bool) (level : Z) : M (kernel H) (option Z) :=
  let pte := pte_at pagetable (PX level va) in
  let! e := get_pte pte in
  if has e PTE_VALID && has e PTE_TABLE then ret (Some (P2V (PTE2PA e))) else
  if negb alloc then ret None else
  let! page := kalloc in
  if page =? 0 then ret None else
  zero_page page ;;
  set_pte pte (Z.lor (Z.lor (PA2PTE (V2P page)) PTE_TABLE) PTE_VALID) ;;
  ret (Some page).

(** [None] is a null pointer. *)
Definition walk (pagetable va : Z) (alloc : bool) : M (kernel H) (option Z) :=
  if va >=? MAXVA then panic else
  let! t2 := walk_level pagetable va alloc 1 in
  match t2 with
  | None => ret None
  | Some t2 =>
      let! t3 := walk_level t2 va alloc 2 in
      match t3 with
      | None => ret None
      | Some t3 => ret (Some (pte_at t3 (PX 3 va)))
      end
  end.

Definition walkaddr (pagetable va : Z) : M (kernel H) Z :=
  if va >=? MAXVA then ret 0 else
  let! pte := walk pagetable va false in
  match pte with
  | None => ret 0
  | Some pte =>
      let! e := get_pte pte in
      if negb (Z.land e PTE_V =? PTE_V) then ret 0 else
      if negb (has e PTE_AF) then ret 0 else
      if negb (has e PTE_U) then ret 0 else
      ret (PTE2PA e)
  end.

Definition uva2ka (pagetable va : Z) : M (kernel H) Z :=
  let! pa := walkaddr pagetable va in
  if pa =? 0 then ret 0 else ret (P2V pa).

(** The loop ends at [last], after at most that many pages. *)
Fixpoint mappages_loop (fuel : nat) (pagetable a last pa perm : Z) : M (kernel H) Z :=
  match fuel with
  | O => spin
  | S fuel' =>
      let! pte := walk pagetable a true in
      match pte with
      | None => ret (-1)
      | Some pte =>
          let! e := get_pte pte in
          if has e PTE_AF then panic else
          set_pte pte (Z.lor (Z.lor (Z.lor (PA2PTE pa) perm) PTE_AF) PTE_V) ;;
          if a =? last then ret 0
          else mappages_loop fuel' pagetable (u64 (a + PGSIZE)) last (u64 (pa + PGSIZE)) perm
      end
  end.
Definition mappages (pagetable va size pa perm : Z) : M (kernel H) Z :=
  if size =? 0 then panic else
  if pa >=? PHYSTOP then panic else
  let a := PGROUNDDOWN va in
  let last := PGROUNDDOWN (u64 (va + size - 1)) in
  mappages_loop (S (Z.to_nat (u64 (last - a) / PGSIZE))) pagetable a last pa perm.

Definition kvmmap (kpgtbl va pa sz perm : Z) : M (kernel H) unit :=
  let! r := mappages kpgtbl va sz pa perm in
  if negb (r =? 0) then panic else ret tt.

(** The mappings that [kvmmake] and [kvminit2] make. *)
Definition kvmmake_maps (kpgtbl : Z) : M (kernel H) unit :=
  kvmmap kpgtbl UART0 (V2P UART0) PGSIZE (Z.lor PTE_DEVICE PTE_XN) ;;
  kvmmap kpgtbl VIRTIO0 (V2P VIRTIO0) PGSIZE (Z.lor PTE_DEVICE PTE_XN) ;;
  kvmmap kpgtbl GICV3 (V2P GICV3) 0x10000 (Z.lor PTE_DEVICE PTE_XN) ;;
  kvmmap kpgtbl GICV3_REDIST (V2P GICV3_REDIST) 0xf60000 (Z.lor PTE_DEVICE PTE_XN) ;;
  kvmmap kpgtbl KERNLINK (V2P KERNLINK) (u64 (sym_etext - KERNLINK)) (Z.lor PTE_NORMAL PTE_RO) ;;
  kvmmap kpgtbl sym_etext (V2P sym_etext) (u64 (P2V PHYSTOP - sym_etext)) (Z.lor PTE_NORMAL PTE_XN).

Definition kvmmake : M (kernel H) Z :=
  let! kpgtbl := kalloc in
  zero_page kpgtbl ;;
  kvmmake_maps kpgtbl ;;
  ret kpgtbl.

Definition kvminit : M (kernel H) unit := let! t := kvmmake in modify (set_k_kpt t).

Definition kvminit2 : M (kernel H) unit :=
  let kpgtbl := P2V 0x40032000 in
  zero_page kpgtbl ;;
  kvmmake_maps kpgtbl ;;
  modify (set_k_kpt kpgtbl).

Definition kvminithart : M (kernel H) unit :=
  let! t := gets k_kpt in
  w_sysreg ttbr1_el1 (V2P t) ;;
  w_sysreg ttbr0_el1 0 ;;
  flush_tlb.

(** * User memory *)

Fixpoint uvmunmap_loop (fuel : nat) (pagetable a end_ : Z) (do_free : bool) : M (kernel H) unit :=
  match fuel with
  | O => spin
  | S fuel' =>
      if negb (a <? end_) then ret tt else
      let! pte := walk pagetable a false in
      match pte with
      | None => panic
      | Some pte =>
          let! e := get_pte pte in
          if negb (Z.land e PTE_V =? PTE_V) then panic else
          if negb (has e PTE_AF) then panic else
          (if do_free then kfree (P2V (PTE2PA e)) else ret tt) ;;
          set_pte pte 0 ;;
          uvmunmap_loop fuel' pagetable (u64 (a + PGSIZE)) end_ do_free
      end
  end.
Definition uvmunmap (pagetable va npages : Z) (do_free : bool) : M (kernel H) unit :=
  if negb (va mod PGSIZE =? 0) then panic else
  uvmunmap_loop (S (Z.to_nat npages)) pagetable va (u64 (va + npages * PGSIZE)) do_free.

Definition uvmcreate : M (kernel H) Z :=
  let! pagetable := kalloc in
  if pagetable =? 0 then ret 0 else
  zero_page pagetable ;;
  ret pagetable.

(** The results of [kalloc] and [mappages] are not tested. *)
Definition uvminit (pagetable : Z) (src : list Z) : M (kernel H) unit :=
  if Z.of_nat (length src) >=? PGSIZE then panic else
  let! mem := kalloc in
  zero_page mem ;;
  let! _ := mappages pagetable 0 PGSIZE (V2P mem) (Z.lor PTE_NORMAL PTE_U) in
  on_mem (store_bytes mem src).

(** The count of pages is an [int]. *)
Definition uvmdealloc (pagetable oldsz newsz : Z) : M (kernel H) Z :=
  if newsz >=? oldsz then ret oldsz else
  (if PGROUNDUP newsz <? PGROUNDUP oldsz then
     let npages := i32 ((PGROUNDUP oldsz - PGROUNDUP newsz) / PGSIZE) in
     uvmunmap pagetable (PGROUNDUP newsz) (u64 npages) true
   else ret tt) ;;
  ret newsz.

Fixpoint uvmalloc_loop (fuel : nat) (pagetable oldsz a newsz : Z) : M (kernel H) Z :=
  match fuel with
  | O => spin
  | S fuel' =>
      if negb (a <? newsz) then ret newsz else
      let! mem := kalloc in
      if mem =? 0 then let! _ := uvmdealloc pagetable a oldsz in ret 0 else
      zero_page mem ;;
      let! r := mappages pagetable a PGSIZE (V2P mem) (Z.lor PTE_NORMAL PTE_U) in
      if negb (r =? 0) then
        kfree mem ;;
        let! _ := uvmdealloc pagetable a oldsz in ret 0
      else uvmalloc_loop fuel' pagetable oldsz (u64 (a + PGSIZE)) newsz
  end.
Definition uvmalloc (pagetable oldsz newsz : Z) : M (kernel H) Z :=
  if newsz <? oldsz then ret oldsz else
  let oldsz := PGROUNDUP oldsz in
  uvmalloc_loop (S (Z.to_nat ((newsz - oldsz) / PGSIZE + 1))) pagetable oldsz oldsz newsz.

Definition switchuvm (p : nat) : M (kernel H) unit :=
  let! r := get_proc p in
  if p_pagetable r =? 0 then panic else
  w_sysreg ttbr0_el1 (V2P (p_pagetable r)) ;;
  flush_tlb.

Definition switchkvm : M (kernel H) unit := w_sysreg ttbr0_el1 0 ;; flush_tlb.

(** A tree has three levels of tables: [fuel] of 3 is enough. *)
Fixpoint freewalk (fuel : nat) (pagetable : Z) : M (kernel H) unit :=
  match fuel with
  | O => spin
  | S fuel' =>
      for_range 0 512 (fun i =>
        let! pte := get_pte (pte_at pagetable i) in
        if has pte PTE_VALID && has pte PTE_TABLE && negb (has pte PTE_AF) then
          freewalk fuel' (P2V (PTE2PA pte)) ;;
          set_pte (pte_at pagetable i) 0
        else ret tt) ;;
      kfree pagetable
  end.

Definition uvmfree (pagetable sz : Z) : M (kernel H) unit :=
  (if sz >? 0 then uvmunmap pagetable 0 (PGROUNDUP sz / PGSIZE) true else ret tt) ;;
  freewalk 3 pagetable.

Fixpoint uvmcopy_loop (fuel : nat) (old new i sz : Z) : M (kernel H) Z :=
  match fuel with
  | O => spin
  | S fuel' =>
      if negb (i <? sz) then ret 0 else
      let! pte := walk old i false in
      match pte with
      | None => panic
      | Some pte =>
          let! e := get_pte pte in
          if negb (has e PTE_AF) then panic else
          let! mem := kalloc in
          if mem =? 0 then uvmunmap new 0 (i / PGSIZE) true ;; ret (-1) else
          let! _ := on_mem (memmove mem (P2V (PTE2PA e)) PGSIZE) in
          let! r := mappages new i PGSIZE (V2P mem) (PTE_FLAGS e) in
          if negb (r =? 0) then kfree mem ;; uvmunmap new 0 (i / PGSIZE) true ;; ret (-1)
          else uvmcopy_loop fuel' old new (u64 (i + PGSIZE)) sz
      end
  end.
Definition uvmcopy (old new sz : Z) : M (kernel H) Z :=
  uvmcopy_loop (S (Z.to_nat (sz / PGSIZE + 1))) old new 0 sz.

Definition uvmclear (pagetable va : Z) : M (kernel H) unit :=
  let! pte := walk pagetable va false in
  match pte with
  | None => panic
  | Some pte => let! e := get_pte pte in set_pte pte (Z.land e (notw 64 PTE_U))
  end.

(** * Copies *)

(** How much of [len] bytes lies in the page of [va]. *)
Definition in_page (va len : Z) : Z :=
  let n := PGSIZE - (va - PGROUNDDOWN va) in if n >? len then len else n.

(** Every page takes at least one byte: the count of bytes is enough fuel. *)
Fixpoint copyout_loop (fuel : nat) (pagetable dstva : Z) (src : list Z) : M (kernel H) Z :=
  match src, fuel with
  | [], _ => ret 0
  | _, O => spin
  | _, S fuel' =>
      let va0 := PGROUNDDOWN dstva in
      let! pa0 := uva2ka pagetable va0 in
      if pa0 =? 0 then ret (-1) else
      let n := Z.to_nat (in_page dstva (Z.of_nat (length src))) in
      on_mem (store_bytes (u64 (pa0 + (dstva - va0))) (take n src)) ;;
      copyout_loop fuel' pagetable (u64 (va0 + PGSIZE)) (skipn n src)
  end.
Definition copyout (pagetable dstva : Z) (src : list Z) : M (kernel H) Z :=
  copyout_loop (length src) pagetable dstva src.

(** The result, and the bytes copied before it. *)
Fixpoint copyin_loop (fuel : nat) (pagetable srcva len : Z) (got : list Z) : M (kernel H) (Z * list Z) :=
  if len <=? 0 then ret (0, got) else
  match fuel with
  | O => spin
  | S fuel' =>
      let va0 := PGROUNDDOWN srcva in
      let! pa0 := uva2ka pagetable va0 in
      if pa0 =? 0 then ret (-1, got) else
      let n := in_page srcva len in
      let! bs := on_mem (load_bytes (Z.to_nat n) (u64 (pa0 + (srcva - va0)))) in
      copyin_loop fuel' pagetable (u64 (va0 + PGSIZE)) (len - n) (got ++ bs)
  end.
Definition copyin (pagetable srcva len : Z) : M (kernel H) (Z * list Z) :=
  copyin_loop (Z.to_nat len) pagetable srcva len [].

(** Up to [n] bytes at [p], to a NUL: the bytes, the NUL with them, and whether it was there. *)
Fixpoint load_str (n : nat) (p : Z) : M memory (list Z * bool) :=
  match n with
  | O => ret ([], false)
  | S n' =>
      let! c := load8 p in
      if c =? 0 then ret ([0], true) else
      let! r := load_str n' (u64 (p + 1)) in
      ret (c :: fst r, snd r)
  end.
Fixpoint copyinstr_loop (fuel : nat) (pagetable srcva max : Z) (got : list Z) : M (kernel H) (Z * list Z) :=
  if max <=? 0 then ret (-1, got) else
  match fuel with
  | O => spin
  | S fuel' =>
      let va0 := PGROUNDDOWN srcva in
      let! pa0 := uva2ka pagetable va0 in
      if pa0 =? 0 then ret (-1, got) else
      let n := in_page srcva max in
      let! r := on_mem (load_str (Z.to_nat n) (u64 (pa0 + (srcva - va0)))) in
      if (snd r : bool) then ret (0, got ++ fst r)
      else copyinstr_loop fuel' pagetable (u64 (va0 + PGSIZE)) (max - n) (got ++ fst r)
  end.
Definition copyinstr (pagetable srcva max : Z) : M (kernel H) (Z * list Z) :=
  copyinstr_loop (Z.to_nat max) pagetable srcva max [].

End Vm.
