(* ===== verification/KProc.v ===== *)
(** Processes of the guest kernel (proc.c), but for what needs the file system. *)
From stdpp Require Import base gmap list numbers strings tactics.
From S2P Require Import Prelude Mem Ram KMachine KString KSched KBytes KAlloc KVm.

(** [sizeof(struct trapframe)], the offset of [x30] in [struct context], [sizeof(p->name)]. *)
Definition TRAPFRAME_SIZE : Z := 34 * 8.
Definition CTX_X30 : nat := 12.
Definition NAME_SIZE : nat := 16.

(** Where a copy goes to or comes from: user memory, kernel memory, or a local variable
    of the caller, whose bytes are passed as a list. *)
Inductive place := User (va : Z) | Kern (a : Z) | Local.

Definition place_add (p : place) (n : Z) : place :=
  match p with User va => User (u64 (va + n)) | Kern a => Kern (u64 (a + n)) | Local => Local end.

Section Proc.
Context {H : Type} `{!Platform H} `{!Symbols} `{!SleepFuel}.
Implicit Types k : kernel H.

(** The current process, which must be there. *)
Definition cur : M (kernel H) nat := let! mp := myproc in deref mp.

(** The trap frame of a process. *)
Definition get_tf (p : nat) : M (kernel H) trapframe :=
  let! r := get_proc p in let! t := deref (p_trapframe r) in aget k_tf t.
Definition upd_tf (p : nat) (f : trapframe -> trapframe) : M (kernel H) unit :=
  let! r := get_proc p in let! t := deref (p_trapframe r) in aupd k_tf set_k_tf t f.

(** * Start-up *)

Definition proc_mapstacks (kpgtbl : Z) : M (kernel H) unit :=
  for_range 0 NPROC (fun i =>
    let! ka := kalloc in
    if ka =? 0 then panic else
    kvmmap kpgtbl (KSTACK i) (V2P ka) PGSIZE PTE_NORMAL).

Definition procinit : M (kernel H) unit :=
  let! t := gets k_kpt in
  proc_mapstacks t ;;
  initlock LPid "nextpid" ;;
  initlock LWait "wait_lock" ;;
  for_range 0 NPROC (fun i =>
    initlock (LProc (Z.to_nat i)) "proc" ;;
    upd_proc (Z.to_nat i) (set_p_kstack (KSTACK i))).

(** * The process table *)

Definition allocpid : M (kernel H) Z :=
  acquire LPid ;;
  let! pid := gets k_nextpid in
  modify (set_k_nextpid (i32 (pid + 1))) ;;
  release LPid ;;
  ret pid.

Definition freeproc (p : nat) : M (kernel H) unit :=
  upd_proc p (set_p_trapframe None) ;;
  let! r := get_proc p in
  (if negb (p_pagetable r =? 0) then uvmfree (p_pagetable r) (p_sz r) else ret tt) ;;
  upd_proc p (set_p_pagetable 0) ;;
  upd_proc p (set_p_sz 0) ;;
  upd_proc p (set_p_pid 0) ;;
  upd_proc p (set_p_parent None) ;;
  upd_proc p (fun r => set_p_name (<[O := 0]> (p_name r)) r) ;;
  upd_proc p (set_p_chan None) ;;
  upd_proc p (set_p_killed 0) ;;
  upd_proc p (set_p_xstate 0) ;;
  upd_proc p (set_p_state UNUSED).

(** The first unused slot from [i], with its lock held. *)
Fixpoint find_unused_proc (n i : nat) : M (kernel H) (option nat) :=
  match n with
  | O => ret None
  | S n' =>
      acquire (LProc i) ;;
      let! r := get_proc i in
      if bool_decide (p_state r = UNUSED) then ret (Some i) else
      release (LProc i) ;;
      find_unused_proc n' (S i)
  end.

Definition allocproc : M (kernel H) (option nat) :=
  let! found := find_unused_proc (Z.to_nat NPROC) 0 in
  match found with
  | None => ret None
  | Some p =>
      let! pid := allocpid in
      upd_proc p (set_p_pid pid) ;;
      upd_proc p (set_p_state USED) ;;
      let! r := get_proc p in
      let sp := u64 (p_kstack r + PGSIZE - TRAPFRAME_SIZE) in
      upd_proc p (set_p_trapframe (Some p)) ;;
      let! pt := uvmcreate in
      upd_proc p (set_p_pagetable pt) ;;
      if pt =? 0 then
        freeproc p ;;
        release (LProc p) ;;
        ret None
      else
        upd_proc p (set_p_context (mkCtx sp (<[CTX_X30 := sym_forkret]> (replicate 13 0)))) ;;
        ret (Some p)
  end.

(** [sz] is a [uint]: the size is cut to 32 bits. *)
Definition growproc (n : Z) : M (kernel H) Z :=
  let! p := cur in
  let! r := get_proc p in
  let sz := u32 (p_sz r) in
  if n >? 0 then
    let! sz' := uvmalloc (p_pagetable r) sz (u32 (sz + n)) in
    if u32 sz' =? 0 then ret (-1) else upd_proc p (set_p_sz (u32 sz')) ;; ret 0
  else
    let! sz' := (if n <? 0 then uvmdealloc (p_pagetable r) sz (u32 (sz + n)) else ret sz) in
    upd_proc p (set_p_sz (u32 sz')) ;;
    ret 0.

Definition reparent (p : nat) : M (kernel H) unit :=
  for_range 0 NPROC (fun i =>
    let! r := get_proc (Z.to_nat i) in
    if bool_decide (p_parent r = Some p) then
      let! init := gets k_initproc in
      upd_proc (Z.to_nat i) (set_p_parent init) ;;
      wakeup_at (ChProc <$> init)
    else ret tt).

(** One pass over the table: a child that has exited, or whether there are children. *)
Fixpoint wait_scan (n i : nat) (p : nat) (addr : Z) (havekids : bool) : M (kernel H) (Z + bool) :=
  match n with
  | O => ret (inr havekids)
  | S n' =>
      let! np := get_proc i in
      if bool_decide (p_parent np = Some p) then
        acquire (LProc i) ;;
        let! np := get_proc i in
        if bool_decide (p_state np = ZOMBIE) then
          let pid := p_pid np in
          let! me := get_proc p in
          let! e := (if negb (addr =? 0)
                     then copyout (p_pagetable me) addr (le_bytes 4 (u32 (p_xstate np))) else ret 0) in
          if e <? 0 then
            release (LProc i) ;; release LWait ;; ret (inl (-1))
          else
            freeproc i ;; release (LProc i) ;; release LWait ;; ret (inl pid)
        else
          release (LProc i) ;;
          wait_scan n' (S i) p addr true
      else wait_scan n' (S i) p addr havekids
  end.

Fixpoint wait_loop (fuel : nat) (p : nat) (addr : Z) : M (kernel H) Z :=
  match fuel with
  | O => spin
  | S fuel' =>
      let! r := wait_scan (Z.to_nat NPROC) 0 p addr false in
      match r with
      | inl pid => ret pid
      | inr havekids =>
          let! me := get_proc p in
          if negb havekids || negb (p_killed me =? 0) then release LWait ;; ret (-1)
          else sleep (ChProc p) LWait ;; wait_loop fuel' p addr
      end
  end.

Definition wait (addr : Z) : M (kernel H) Z :=
  let! p := cur in
  acquire LWait ;;
  wait_loop (S sleep_fuel) p addr.

(** One turn of the scheduler's endless loop, on core [c]. *)
Definition scheduler_pass (c : nat) : M (kernel H) unit :=
  intr_on ;;
  for_range 0 NPROC (fun i =>
    let p := Z.to_nat i in
    acquire (LProc p) ;;
    let! r := get_proc p in
    (if bool_decide (p_state r = RUNNABLE) then
       upd_proc p (set_p_state RUNNING) ;;
       upd_cpu c (set_c_proc (Some p)) ;;
       switchuvm p ;;
       swtch (CtxCpu c) (CtxProc p) ;;
       switchkvm ;;
       upd_cpu c (set_c_proc None)
     else ret tt) ;;
    release (LProc p)).

Fixpoint scheduler_loop (turns : nat) (c : nat) : M (kernel H) unit :=
  match turns with
  | O => spin
  | S turns' => scheduler_pass c ;; scheduler_loop turns' c
  end.
(** It never returns: [turns] are observed. *)
Definition scheduler (turns : nat) : M (kernel H) unit :=
  let! c := mycpu in
  upd_cpu c (set_c_proc None) ;;
  scheduler_loop turns c.

Fixpoint kill_loop (n i : nat) (pid : Z) : M (kernel H) Z :=
  match n with
  | O => ret (-1)
  | S n' =>
      acquire (LProc i) ;;
      let! r := get_proc i in
      if p_pid r =? pid then
        upd_proc i (set_p_killed 1) ;;
        (if bool_decide (p_state r = SLEEPING) then upd_proc i (set_p_state RUNNABLE) else ret tt) ;;
        release (LProc i) ;;
        ret 0
      else
        release (LProc i) ;;
        kill_loop n' (S i) pid
  end.
Definition kill (pid : Z) : M (kernel H) Z := kill_loop (Z.to_nat NPROC) 0 pid.

(** * Copies to and from user or kernel memory *)

Definition either_copyout (dst : place) (src : list Z) : M (kernel H) Z :=
  let! p := cur in
  match dst with
  | User va => let! r := get_proc p in copyout (p_pagetable r) va src
  | Kern a => on_mem (store_bytes a src) ;; ret 0
  | Local => ret 0
  end.

(** [len] bytes; those of a local variable are given. *)
Definition either_copyin (src : place) (local : list Z) (len : Z) : M (kernel H) (Z * list Z) :=
  let! p := cur in
  match src with
  | User va => let! r := get_proc p in copyin (p_pagetable r) va len
  | Kern a => let! bs := on_mem (load_bytes (Z.to_nat len) a) in ret (0, bs)
  | Local => ret (0, take (Z.to_nat len) local)
  end.

End Proc.
