(* ===== verification/KCons.v ===== *)
(** The guest kernel's serial line, formatted output and console (uart.c, printf.c,
    console.c, and [procdump] of proc.c).

    [kpoll_fuel] bounds how long the driver polls the line, and how many characters one
    interrupt brings. *)
From stdpp Require Import base gmap list numbers strings tactics.
From S2P Require Import Prelude Mem KMachine KString KSched KBytes KAlloc KVm KProc.

Class KPollFuel := kpoll_fuel : nat.

(** * uart.c *)

Definition DR : Z := 0x00.
Definition FR : Z := 0x18.
Definition FR_RXFE : Z := Z.shiftl 1 4.
Definition FR_TXFF : Z := Z.shiftl 1 5.
Definition FR_RXFF : Z := Z.shiftl 1 6.
Definition FR_TXFE : Z := Z.shiftl 1 7.
Definition IBRD : Z := 0x24.
Definition FBRD : Z := 0x28.
Definition LCRH : Z := 0x2c.
Definition LCRH_FEN : Z := Z.shiftl 1 4.
Definition LCRH_WLEN_8BIT : Z := Z.shiftl 3 5.
Definition CR : Z := 0x30.
Definition IMSC : Z := 0x38.
Definition INT_RX_ENABLE : Z := Z.shiftl 1 4.
Definition INT_TX_ENABLE : Z := Z.shiftl 1 5.
Definition ICR : Z := 0x44.
Definition UART_TX_BUF_SIZE : Z := 32.

(** * console.c *)

Definition BACKSPACE : Z := 0x100.
Definition Ctrl (x : Z) : Z := x - 64.      (* C(x), x - '@' *)
Definition INPUT_BUF : Z := 128.
Definition CONSOLE : nat := 1.

(** * printf.c *)

(** A variadic argument: an integer or pointer, or a string. *)
Inductive va_arg := ANum (v : Z) | AStr (s : option (list Z)).

Definition digits : list Z := chars "0123456789abcdef".

Section Cons.
Context {H : Type} `{!Platform H} `{!Symbols} `{!SleepFuel} `{!KPollFuel}.
Implicit Types k : kernel H.

Definition ReadReg (reg : Z) : M (kernel H) Z := reg_read (UART0 + reg).
Definition WriteReg (reg v : Z) : M (kernel H) unit := reg_write (UART0 + reg) v.

Definition uartinit : M (kernel H) unit :=
  WriteReg CR 0 ;;
  WriteReg IMSC 0 ;;
  WriteReg LCRH (Z.lor LCRH_FEN LCRH_WLEN_8BIT) ;;
  WriteReg CR 0x301 ;;
  WriteReg IMSC (Z.lor INT_RX_ENABLE INT_TX_ENABLE) ;;
  initlock LUartTx "uart".

(** [while(ReadReg(FR) & FR_TXFF);] *)
Fixpoint wait_tx (fuel : nat) : M (kernel H) unit :=
  match fuel with
  | O => spin
  | S fuel' => let! fr := ReadReg FR in if has fr FR_TXFF then wait_tx fuel' else ret tt
  end.

Definition uartputc_sync (c : Z) : M (kernel H) unit :=
  push_off ;;
  let! p := gets k_panicked in
  if negb (p =? 0) then spin else
  wait_tx kpoll_fuel ;;
  WriteReg DR c ;;
  pop_off.

Definition upd_uart (f : uart_tx -> uart_tx) : M (kernel H) unit := modify (fun k => set_k_uart (f (k_uart k)) k).

(** One character leaves the buffer in every turn: their count is enough fuel. *)
Fixpoint uartstart_loop (fuel : nat) : M (kernel H) unit :=
  match fuel with
  | O => spin
  | S fuel' =>
      let! u := gets k_uart in
      if ut_w u =? ut_r u then ret tt else
      let! fr := ReadReg FR in
      if has fr FR_TXFF then ret tt else
      let! c := deref (ut_buf u !! Z.to_nat (ut_r u mod UART_TX_BUF_SIZE)) in
      upd_uart (set_ut_r (u64 (ut_r u + 1))) ;;
      wakeup ChUart ;;
      WriteReg DR c ;;
      uartstart_loop fuel'
  end.
Definition uartstart : M (kernel H) unit :=
  let! u := gets k_uart in uartstart_loop (S (Z.to_nat (u64 (ut_w u - ut_r u)))).

Fixpoint uartputc_loop (fuel : nat) (c : Z) : M (kernel H) unit :=
  match fuel with
  | O => spin
  | S fuel' =>
      let! u := gets k_uart in
      if ut_w u =? u64 (ut_r u + UART_TX_BUF_SIZE) then
        sleep ChUart LUartTx ;; uartputc_loop fuel' c
      else
        let i := Z.to_nat (ut_w u mod UART_TX_BUF_SIZE) in
        let! _ := deref (ut_buf u !! i) in
        upd_uart (fun u => set_ut_buf (<[i := u8 c]> (ut_buf u)) u) ;;
        upd_uart (set_ut_w (u64 (ut_w u + 1))) ;;
        uartstart ;;
        release LUartTx
  end.
Definition uartputc (c : Z) : M (kernel H) unit :=
  acquire LUartTx ;;
  let! p := gets k_panicked in
  if negb (p =? 0) then spin else
  uartputc_loop (S sleep_fuel) c.

Definition uartgetc : M (kernel H) Z :=
  let! fr := ReadReg FR in
  if has fr FR_RXFE then ret (-1) else let! d := ReadReg DR in ret (i32 d).

Definition consputc (c : Z) : M (kernel H) unit :=
  if c =? BACKSPACE then uartputc_sync 8 ;; uartputc_sync 32 ;; uartputc_sync 8
  else uartputc_sync c.

Fixpoint putchars (cs : list Z) : M (kernel H) unit :=
  match cs with [] => ret tt | c :: cs' => consputc c ;; putchars cs' end.

(** ** printf *)

(** The digits of [x], the last one first: 16 are enough for 32 bits in any base over 3. *)
Fixpoint int_digits (fuel : nat) (x base : Z) : list Z :=
  match fuel with
  | O => []
  | S fuel' =>
      nth (Z.to_nat (x mod base)) digits 0 ::
      (if x / base =? 0 then [] else int_digits fuel' (x / base) base)
  end.
(** What [printint] sends, in order. *)
Definition int_chars (xx base : Z) (sign : bool) : list Z :=
  let neg := sign && (xx <? 0) in
  let x := if neg then u32 (- xx) else u32 xx in
  rev (int_digits 16 x base ++ (if neg then [45] else [])).
Definition printint (xx base : Z) (sign : bool) : M (kernel H) unit := putchars (int_chars xx base sign).

Definition printptr (x : Z) : M (kernel H) unit :=
  consputc 48 ;;
  consputc 120 ;;
  for_range 0 16 (fun i => consputc (nth (Z.to_nat (Z.shiftr (u64 (Z.shiftl x (4 * i))) 60)) digits 0)).

Definition va_num (args : list va_arg) : M (kernel H) (Z * list va_arg) :=
  match args with ANum v :: args' => ret (v, args') | _ => fault end.
Definition va_str (args : list va_arg) : M (kernel H) (option (list Z) * list va_arg) :=
  match args with AStr s :: args' => ret (s, args') | _ => fault end.

(** The end of [fmt] is the end of the list. *)
Fixpoint printf_loop (fmt : list Z) (args : list va_arg) : M (kernel H) unit :=
  match fmt with
  | [] => ret tt
  | c :: fmt' =>
      if negb (c =? 37) then consputc c ;; printf_loop fmt' args else
      match fmt' with
      | [] => ret tt
      | d :: fmt'' =>
          if d =? 100 then
            let! a := va_num args in printint (i32 (fst a)) 10 true ;; printf_loop fmt'' (snd a)
          else if d =? 120 then
            let! a := va_num args in printint (i32 (fst a)) 16 true ;; printf_loop fmt'' (snd a)
          else if d =? 112 then
            let! a := va_num args in printptr (u64 (fst a)) ;; printf_loop fmt'' (snd a)
          else if d =? 115 then
            let! a := va_str args in
            putchars (default (chars "(null)") (fst a)) ;; printf_loop fmt'' (snd a)
          else if d =? 37 then consputc 37 ;; printf_loop fmt'' args
          else consputc 37 ;; consputc d ;; printf_loop fmt'' args
      end
  end.
Definition printf (fmt : string) (args : list va_arg) : M (kernel H) unit :=
  let! locking := gets k_locking in
  (if negb (locking =? 0) then acquire LPr else ret tt) ;;
  printf_loop (chars fmt) args ;;
  (if negb (locking =? 0) then release LPr else ret tt).

(** The end of every [panic] of the kernel, with its message. *)
Definition kpanic (s : string) : M (kernel H) unit :=
  modify (set_k_locking 0) ;;
  printf "panic: " [] ;;
  printf s [] ;;
  modify (set_k_panicked 1) ;;
  panic.

Definition printfinit : M (kernel H) unit := initlock LPr "pr" ;; modify (set_k_locking 1).

(** ** procdump *)

Definition state_name (s : procstate) : string :=
  match s with
  | UNUSED => "unused" | USED => "???" | SLEEPING => "sleep " | RUNNABLE => "runble"
  | RUNNING => "run   " | ZOMBIE => "zombie"
  end.

(** A newline. *)
Definition nl : string := String (Ascii.ascii_of_nat 10) EmptyString.

Definition procdump : M (kernel H) unit :=
  printf nl [] ;;
  for_range 0 NPROC (fun i =>
    let! r := get_proc (Z.to_nat i) in
    if bool_decide (p_state r = UNUSED) then ret tt else
    printf "%d %s %s" [ANum (p_pid r); AStr (Some (chars (state_name (p_state r)))); AStr (Some (arr_str (p_name r)))] ;;
    printf nl []).

(** ** The console *)

Definition upd_cons (f : console -> console) : M (kernel H) unit := modify (fun k => set_k_cons (f (k_cons k)) k).
Definition cons_at (i : Z) : M (kernel H) Z := let! s := gets k_cons in deref (cn_buf s !! Z.to_nat (i mod INPUT_BUF)).

(** The result is the count of bytes taken. *)
Fixpoint consolewrite_loop (n : nat) (src : place) (local : list Z) (i : Z) : M (kernel H) Z :=
  match n with
  | O => ret i
  | S n' =>
      let! r := either_copyin src (skipn (Z.to_nat i) local) 1 in
      if fst r =? -1 then ret i else
      let! c := deref (head (snd r)) in
      uartputc c ;;
      consolewrite_loop n' (place_add src 1) local (i + 1)
  end.
Definition consolewrite (src : place) (local : list Z) (n : Z) : M (kernel H) Z :=
  consolewrite_loop (Z.to_nat n) src local 0.

(** Wait for input: [false] when the process has been killed. *)
Fixpoint cons_wait (fuel : nat) : M (kernel H) bool :=
  match fuel with
  | O => spin
  | S fuel' =>
      let! s := gets k_cons in
      if negb (cn_r s =? cn_w s) then ret true else
      let! p := cur in
      let! r := get_proc p in
      if negb (p_killed r =? 0) then release LCons ;; ret false
      else sleep ChCons LCons ;; cons_wait fuel'
  end.

(** [rest] is [n] at this point; [None] is the return of -1. *)
Fixpoint consoleread_loop (rest : nat) (dst : place) (target : Z) : M (kernel H) (option Z) :=
  match rest with
  | O => ret (Some 0)
  | S rest' =>
      let! ok := cons_wait (S sleep_fuel) in
      if negb ok then ret None else
      let! s := gets k_cons in
      let! c := cons_at (cn_r s) in
      upd_cons (set_cn_r (u32 (cn_r s + 1))) ;;
      if c =? Ctrl 68 then
        (if Z.of_nat rest <? target then upd_cons (set_cn_r (cn_r s)) else ret tt) ;;
        ret (Some (Z.of_nat rest))
      else
        let! e := either_copyout dst [c] in
        if e =? -1 then ret (Some (Z.of_nat rest)) else
        if c =? 10 then ret (Some (Z.of_nat rest')) else
        consoleread_loop rest' (place_add dst 1) target
  end.
Definition consoleread (dst : place) (n : Z) : M (kernel H) Z :=
  let target := u32 n in
  acquire LCons ;;
  let! r := consoleread_loop (Z.to_nat n) dst target in
  match r with
  | None => ret (-1)
  | Some rest => release LCons ;; ret (i32 (target - (if n <=? 0 then n else rest)))
  end.

(** Back to the last newline, or to the start of the line. *)
Fixpoint kill_line (fuel : nat) : M (kernel H) unit :=
  match fuel with
  | O => spin
  | S fuel' =>
      let! s := gets k_cons in
      if cn_e s =? cn_w s then ret tt else
      let! c := cons_at (u32 (cn_e s - 1)) in
      if c =? 10 then ret tt else
      upd_cons (set_cn_e (u32 (cn_e s - 1))) ;;
      consputc BACKSPACE ;;
      kill_line fuel'
  end.

Definition consoleintr (c : Z) : M (kernel H) unit :=
  acquire LCons ;;
  (if c =? Ctrl 80 then procdump
   else if c =? Ctrl 85 then
     let! s := gets k_cons in kill_line (S (Z.to_nat (u32 (cn_e s - cn_w s))))
   else if (c =? Ctrl 72) || (c =? 0x7f) then
     let! s := gets k_cons in
     if negb (cn_e s =? cn_w s) then
       upd_cons (set_cn_e (u32 (cn_e s - 1))) ;; consputc BACKSPACE
     else ret tt
   else
     let! s := gets k_cons in
     if negb (c =? 0) && (u32 (cn_e s - cn_r s) <? INPUT_BUF) then
       let c := if c =? 13 then 10 else c in
       consputc c ;;
       let i := Z.to_nat (cn_e s mod INPUT_BUF) in
       let! _ := cons_at (cn_e s) in
       upd_cons (fun s => set_cn_buf (<[i := u8 c]> (cn_buf s)) s) ;;
       upd_cons (set_cn_e (u32 (cn_e s + 1))) ;;
       if (c =? 10) || (c =? Ctrl 68) || (u32 (cn_e s + 1) =? u32 (cn_r s + INPUT_BUF)) then
         upd_cons (set_cn_w (u32 (cn_e s + 1))) ;;
         wakeup ChCons
       else ret tt
     else ret tt) ;;
  release LCons.

Fixpoint uartintr_loop (fuel : nat) : M (kernel H) unit :=
  match fuel with
  | O => spin
  | S fuel' =>
      let! c := uartgetc in
      if c =? -1 then ret tt else consoleintr c ;; uartintr_loop fuel'
  end.
Definition uartintr : M (kernel H) unit :=
  uartintr_loop kpoll_fuel ;;
  acquire LUartTx ;;
  uartstart ;;
  release LUartTx ;;
  WriteReg ICR (Z.lor INT_RX_ENABLE INT_TX_ENABLE).

Definition consoleinit : M (kernel H) unit :=
  initlock LCons "cons" ;;
  uartinit ;;
  let! d := aget k_devsw CONSOLE in
  aupd k_devsw set_k_devsw CONSOLE (fun _ => mkDevsw (Some consoleread_fn) (Some consolewrite_fn)).

End Cons.
