(* ===== verification/KBio.v ===== *)
(** The buffer cache of the guest kernel (bio.c).

    [bcache.buf] and [bcache.head] are the [NBUF + 1] elements of [k_bufs]; the head
    is number [NBUF].  The disk driver is an interface, [DiskDriver]; [DiskLaws] says
    what the cache relies on: a read fetches the block, a write goes through the
    states of the medium that [dk_hist] records, so that a crash can be stated. *)
From stdpp Require Import base gmap list numbers strings tactics.
From S2P Require Import Prelude Mem KMachine KSched.

(** [void virtio_disk_rw(struct buf *b, int write)] *)
Class DiskDriver (H : Type) := virtio_disk_rw : nat -> bool -> M (kernel H) unit.

Section Bio.
Context {H : Type} `{!Platform H} `{!SleepFuel} `{!DiskDriver H}.
Implicit Types k : kernel H.

(** [&bcache.head] *)
Definition bhead : nat := NBUF.

Definition binit : M (kernel H) unit :=
  initlock LBcache "bcache" ;;
  upd_buf bhead (set_b_prev bhead) ;;
  upd_buf bhead (set_b_next bhead) ;;
  for_range 0 (Z.of_nat NBUF) (fun i =>
    let b := Z.to_nat i in
    let! h := get_buf bhead in
    upd_buf b (set_b_next (b_next h)) ;;
    upd_buf b (set_b_prev bhead) ;;
    initsleeplock (SBuf b) "buffer" ;;
    let! h := get_buf bhead in
    upd_buf (b_next h) (set_b_prev b) ;;
    upd_buf bhead (set_b_next b)).

(** The two loops of [bget].  The list has [NBUF] elements and the head. *)
Fixpoint find_cached (fuel : nat) (dev blockno : Z) (b : nat) : M (kernel H) (option nat) :=
  match fuel with
  | O => spin
  | S fuel' =>
      if (b =? bhead)%nat then ret None else
      let! r := get_buf b in
      if (b_dev r =? dev) && (b_blockno r =? blockno) then ret (Some b)
      else find_cached fuel' dev blockno (b_next r)
  end.

Fixpoint find_unused (fuel : nat) (b : nat) : M (kernel H) (option nat) :=
  match fuel with
  | O => spin
  | S fuel' =>
      if (b =? bhead)%nat then ret None else
      let! r := get_buf b in
      if b_refcnt r =? 0 then ret (Some b) else find_unused fuel' (b_prev r)
  end.

Definition bget (dev blockno : Z) : M (kernel H) nat :=
  acquire LBcache ;;
  let! h := get_buf bhead in
  let! hit := find_cached (S NBUF) dev blockno (b_next h) in
  match hit with
  | Some b =>
      upd_buf b (fun r => set_b_refcnt (u32 (b_refcnt r + 1)) r) ;;
      release LBcache ;;
      acquiresleep (SBuf b) ;;
      ret b
  | None =>
      let! lru := find_unused (S NBUF) (b_prev h) in
      match lru with
      | Some b =>
          upd_buf b (set_b_dev dev) ;;
          upd_buf b (set_b_blockno blockno) ;;
          upd_buf b (set_b_valid 0) ;;
          upd_buf b (set_b_refcnt 1) ;;
          release LBcache ;;
          acquiresleep (SBuf b) ;;
          ret b
      | None => panic
      end
  end.

Definition bread (dev blockno : Z) : M (kernel H) nat :=
  let! b := bget dev blockno in
  let! r := get_buf b in
  (if b_valid r =? 0 then virtio_disk_rw b false ;; upd_buf b (set_b_valid 1) else ret tt) ;;
  ret b.

Definition bwrite (b : nat) : M (kernel H) unit :=
  let! h := holdingsleep (SBuf b) in
  if negb h then panic else virtio_disk_rw b true.

(** Unlink [b], then link it behind the head. *)
Definition move_front (b : nat) : M (kernel H) unit :=
  let! r := get_buf b in
  upd_buf (b_next r) (set_b_prev (b_prev r)) ;;
  let! r := get_buf b in
  upd_buf (b_prev r) (set_b_next (b_next r)) ;;
  let! h := get_buf bhead in
  upd_buf b (set_b_next (b_next h)) ;;
  upd_buf b (set_b_prev bhead) ;;
  let! h := get_buf bhead in
  upd_buf (b_next h) (set_b_prev b) ;;
  upd_buf bhead (set_b_next b).

Definition brelse (b : nat) : M (kernel H) unit :=
  let! h := holdingsleep (SBuf b) in
  if negb h then panic else
  releasesleep (SBuf b) ;;
  acquire LBcache ;;
  upd_buf b (fun r => set_b_refcnt (u32 (b_refcnt r - 1)) r) ;;
  let! r := get_buf b in
  (if b_refcnt r =? 0 then move_front b else ret tt) ;;
  release LBcache.

Definition bpin (b : nat) : M (kernel H) unit :=
  acquire LBcache ;;
  upd_buf b (fun r => set_b_refcnt (u32 (b_refcnt r + 1)) r) ;;
  release LBcache.

Definition bunpin (b : nat) : M (kernel H) unit :=
  acquire LBcache ;;
  upd_buf b (fun r => set_b_refcnt (u32 (b_refcnt r - 1)) r) ;;
  release LBcache.

End Bio.
