(* ===== verification/KBioProofs.v ===== *)
(** What the buffer cache promises (bio.c).

    [bio me dev k A] relates the cache of state [k] to an abstract one, [A]: the
    contents the file system sees of each block ([a_view]), how often each block is
    referenced ([a_refs]) and which blocks this process has locked ([a_held]).  Every
    operation of the cache is a simple function of the abstract state. *)
From stdpp Require Import base gmap sets list numbers strings tactics.
From S2P Require Import Prelude Mem KMachine KSched KBio.

(** * Lists of buffers

    A circular doubly linked list with a head, as bio.c keeps one: the links are two
    arrays of indices.  [dll nx pv h l] says that following [next] from the head [h]
    visits [l] and returns to [h], and that [prev] goes back the same way. *)

Section Dll.
Implicit Types (nx pv : nat -> nat) (l : list nat) (h b : nat).

Definition dll nx pv h l : Prop :=
  map nx (h :: l) = l ++ [h] /\ map pv (l ++ [h]) = h :: l.

Definition upd (f : nat -> nat) (a v : nat) : nat -> nat := fun x => if decide (x = a) then v else f x.

Lemma map_upd_notin f a v l : a ∉ l -> map (upd f a v) l = map f l.
Proof.
  intros Ha. apply map_ext_in. intros x Hx. unfold upd. case_decide; [|done]. subst x.
  by apply list_elem_of_In in Hx.
Qed.

Lemma upd_same f a v : upd f a v a = v.
Proof. unfold upd. by case_decide. Qed.
Lemma upd_other f a v x : x <> a -> upd f a v x = f x.
Proof. intros. unfold upd. by case_decide. Qed.

Lemma dll_ext nx pv nx' pv' h l :
  (forall x, x ∈ h :: l -> nx' x = nx x) -> (forall x, x ∈ h :: l -> pv' x = pv x) ->
  dll nx pv h l -> dll nx' pv' h l.
Proof.
  intros Hn Hp [E1 E2]. split.
  - rewrite <- E1. apply map_ext_in. intros x Hx. by apply Hn, list_elem_of_In.
  - rewrite <- E2. apply map_ext_in. intros x Hx. apply Hp. apply list_elem_of_In in Hx. set_solver.
Qed.

(** The neighbours of an element. *)
Lemma dll_split nx pv h l1 b l2 :
  dll nx pv h (l1 ++ b :: l2) ->
  exists q r, h :: l1 = q ++ [pv b] /\ l2 ++ [h] = nx b :: r /\
    map nx q = l1 /\ map nx l2 = r /\ map pv l1 = q /\ map pv r = l2.
Proof.
  intros [E1 E2].
  destruct (exists_last (l := h :: l1) ltac:(done)) as (q & p & Eq).
  destruct (l2 ++ [h]) as [|n r] eqn:Er; [by destruct l2|].
  assert (length q = length l1) as Lq by (apply (f_equal length) in Eq; rewrite length_app in Eq; simpl in Eq; lia).
  assert ((l1 ++ b :: l2) ++ [h] = l1 ++ [b] ++ n :: r) as Ea.
  { rewrite <- Er. by rewrite <- (assoc_L (++)). }
  rewrite Ea in E1, E2. rewrite app_comm_cons, Eq in E1, E2.
  rewrite map_app, map_app, <- (assoc_L (++)) in E1. cbn [map app] in E1.
  apply app_inj_1 in E1 as [E1a E1]; [|by rewrite length_map]. injection E1 as E1b E1c E1d.
  rewrite map_app, <- (assoc_L (++)) in E2. cbn [map app] in E2.
  apply app_inj_1 in E2 as [E2a E2]; [|by rewrite length_map]. injection E2 as E2b E2c E2d.
  subst p n. exists q, r. by rewrite ?Er.
Qed.

Lemma dll_next nx pv h l1 b l2 : dll nx pv h (l1 ++ b :: l2) -> nx b = hd h l2.
Proof. intros (q & r & _ & Er & _)%dll_split. by destruct l2; injection Er. Qed.
Lemma dll_prev nx pv h l1 b l2 : dll nx pv h (l1 ++ b :: l2) -> pv b = List.last l1 h.
Proof.
  intros (q & r & Eq & _)%dll_split. destruct l1 as [|x l1 _] using rev_ind.
  - by destruct q as [|? [|]]; injection Eq.
  - rewrite app_comm_cons in Eq. apply app_inj_2 in Eq as [_ [= <-]]; [|done]. by rewrite List.last_last.
Qed.
Lemma dll_first nx pv h l : dll nx pv h l -> nx h = hd h l.
Proof. intros [E _]. by destruct l; injection E. Qed.
Lemma dll_last nx pv h l : dll nx pv h l -> pv h = List.last l h.
Proof.
  intros [_ E]. destruct l as [|x l _] using rev_ind; [by injection E|].
  rewrite map_app, (app_comm_cons l) in E. apply app_inj_2 in E as [_ [= E]]; [|done]. by rewrite List.last_last.
Qed.

(** [b->next->prev = b->prev; b->prev->next = b->next;] *)
Lemma dll_unlink nx pv h l1 b l2 :
  NoDup (h :: l1 ++ b :: l2) -> dll nx pv h (l1 ++ b :: l2) ->
  dll (upd nx (pv b) (nx b)) (upd pv (nx b) (pv b)) h (l1 ++ l2).
Proof.
  intros Hnd Hd. destruct (dll_split _ _ _ _ _ _ Hd) as (q & r & Eq & Er & Hq & Hr & Hpq & Hpr).
  assert (NoDup (q ++ [pv b] ++ b :: l2)) as Hn1.
  { rewrite (assoc_L (++)), <- Eq. exact Hnd. }
  assert (NoDup (l1 ++ b :: nx b :: r)) as Hn2.
  { rewrite <- Er. apply list.NoDup_cons in Hnd as [Hh Hnd].
    rewrite app_comm_cons, (assoc_L (++)). apply list.NoDup_app. split; [done|]. split; [|apply list.NoDup_singleton].
    intros x Hx ->%list_elem_of_singleton. done. }
  apply list.NoDup_app in Hn1 as (_ & Hq1 & Hn1). cbn in Hn1. apply list.NoDup_cons in Hn1 as [Hp1 _].
  apply list.NoDup_app in Hn2 as (_ & Hl1 & Hn2). apply list.NoDup_cons in Hn2 as [_ Hn2].
  apply list.NoDup_cons in Hn2 as [Hr1 _].
  split.
  - change (h :: l1 ++ l2) with ((h :: l1) ++ l2). rewrite Eq, <- (assoc_L (++)), map_app. cbn [app map].
    rewrite upd_same, !map_upd_notin, Hq, Hr, <- (assoc_L (++)), Er; [done| |].
    + intros Hin. apply Hp1. set_solver.
    + intros Hin. apply (Hq1 _ Hin). set_solver.
  - rewrite <- (assoc_L (++)), Er, map_app. cbn [map]. rewrite upd_same, !map_upd_notin, Hpq, Hpr.
    + change (h :: l1 ++ l2) with ((h :: l1) ++ l2). by rewrite Eq, <- (assoc_L (++)).
    + done.
    + intros Hin. apply (Hl1 _ Hin). set_solver.
Qed.

(** [b->next = head.next; b->prev = &head; head.next->prev = b; head.next = b;] *)
Lemma dll_push nx pv h b l :
  NoDup (h :: b :: l) -> dll nx pv h l ->
  dll (upd (upd nx b (nx h)) h b) (upd (upd pv b h) (nx h) b) h (b :: l).
Proof.
  intros Hnd [E1 E2]. apply list.NoDup_cons in Hnd as [Hh Hnd]. apply list.NoDup_cons in Hnd as [Hb Hl].
  assert (h <> b) as Hhb by set_solver. assert (h ∉ l) as Hhl by set_solver.
  cbn [map] in E1.
  split.
  - cbn [map app]. rewrite upd_same, upd_other, upd_same by done. rewrite !map_upd_notin by done.
    by rewrite <- E1.
  - cbn [app map]. destruct (l ++ [h]) as [|n r] eqn:Er; [by destruct l|]. injection E1 as En Ern. subst n.
    assert (NoDup (nx h :: r)) as Hr.
    { rewrite <- Er. apply list.NoDup_app. split; [done|]. split; [|apply list.NoDup_singleton].
      intros x Hx ->%list_elem_of_singleton. done. }
    apply list.NoDup_cons in Hr as [Hr _].
    assert (b ∉ nx h :: r) as Hbr by (rewrite <- Er; set_solver).
    cbn [map] in E2 |- *. injection E2 as E2a E2b.
    rewrite upd_other, !upd_same, !map_upd_notin, E2b by set_solver. done.
Qed.

End Dll.

(** * The disk *)

Definition disk : Type := Z -> list Z.

(** A write of one block of two sectors that has reached the medium in part. *)
Definition torn (D : disk) (b : Z) (d : list Z) (D' : disk) : Prop :=
  (forall x, x <> b -> D' x = D x) /\
  (D' b = take 512 d ++ drop 512 (D b) \/ D' b = take 512 (D b) ++ drop 512 d).

(** [ps'] is [ps] with some sleeping processes made runnable, never [me]. *)
Definition procs_woken (me : nat) (ps ps' : list proc) : Prop :=
  length ps' = length ps /\ ps' !! me = ps !! me /\
  forall i p, ps !! i = Some p ->
    ps' !! i = Some p \/ p_state p = SLEEPING /\ ps' !! i = Some (set_p_state RUNNABLE p).

#[export] Instance procs_woken_preorder me : PreOrder (procs_woken me).
Proof.
  split.
  - intros ps. split_and!; auto.
  - intros p1 p2 p3 (L & M & W) (L' & M' & W'). split_and!; [congruence..|]. intros i p E.
    destruct (W i p E) as [E'|[Es E']]; [by apply W'|]. destruct (W' _ _ E') as [?|[Es' _]]; [by right|done].
Qed.

Lemma woken_procs ch me ps : procs_woken me ps (woken ch (Some me) ps).
Proof.
  unfold woken, wake_range. split_and!.
  - apply length_imap.
  - rewrite list_lookup_imap. destruct (ps !! me); [|done]. cbn. by rewrite bool_decide_eq_true_2, andb_false_r.
  - intros i p E. rewrite list_lookup_imap, E. cbn. destruct (_ && _); [|by left].
    unfold wake. do 2 case_bool_decide; cbn; auto.
Qed.

(** The disk driver, as the cache relies on it, while no other process uses the disk:
    it returns with the request done.  [dk_now] is the medium, [dk_past] the states it
    has gone through, newest first; [dk_ready] says that no request is under way. *)
Class DiskLaws (H : Type) `{!Platform H} `{!DiskDriver H} := {
  dk_now : H -> disk;
  dk_past : H -> list disk;
  dk_ready : H -> vdisk -> Prop;
  dk_size : Z;
  dk_bound : dk_size <= 2 ^ 31;
  dk_block h b : 0 <= b < dk_size -> length (dk_now h b) = Z.to_nat BSIZE;
  rw_read c me (k : kernel H) i r :
    quiet c me k -> dk_ready (k_hw k) (k_vdisk k) -> (i < NBUF)%nat -> k_bufs k !! i = Some r ->
    0 <= b_blockno r < dk_size -> length (b_data r) = Z.to_nat BSIZE ->
    exists h' v' ps', virtio_disk_rw i false k = Ok tt
        (set_k_hw h' (set_k_vdisk v' (set_k_proc ps' (set_k_bufs
          (<[i := set_b_data (dk_now (k_hw k) (b_blockno r)) (set_b_disk 0 r)]> (k_bufs k)) k)))) /\
      procs_woken me (k_proc k) ps' /\ dk_ready h' v' /\ dk_now h' = dk_now (k_hw k) /\ dk_past h' = dk_past (k_hw k);
  rw_write c me (k : kernel H) i r :
    quiet c me k -> dk_ready (k_hw k) (k_vdisk k) -> (i < NBUF)%nat -> k_bufs k !! i = Some r ->
    0 <= b_blockno r < dk_size -> length (b_data r) = Z.to_nat BSIZE ->
    exists h' v' ps' mids, virtio_disk_rw i true k = Ok tt
        (set_k_hw h' (set_k_vdisk v' (set_k_proc ps' (set_k_bufs (<[i := set_b_disk 0 r]> (k_bufs k)) k)))) /\
      procs_woken me (k_proc k) ps' /\ dk_ready h' v' /\
      (forall x, dk_now h' x = if x =? b_blockno r then b_data r else dk_now (k_hw k) x) /\
      dk_past h' = mids ++ dk_now (k_hw k) :: dk_past (k_hw k) /\
      Forall (torn (dk_now (k_hw k)) (b_blockno r) (b_data r)) mids
}.

(** * The abstract cache *)

Record acache := mkA { a_view : disk; a_refs : gmap Z nat; a_held : gset Z }.

Section BioInv.
Context {H : Type} `{!Platform H} `{!SleepFuel} `{!DiskDriver H} `{!DiskLaws H}.
Implicit Types k : kernel H.

Definition nx k (x : nat) : nat := from_option b_next x (k_bufs k !! x).
Definition pv k (x : nat) : nat := from_option b_prev x (k_bufs k !! x).
Definition now k : disk := dk_now (k_hw k).

(** Buffer [r] of an abstract cache. *)
Definition slot_ok (me : nat) k (A : acache) (r : buf) : Prop :=
  b_refcnt r = Z.of_nat (default O (a_refs A !! b_blockno r)) /\
  a_view A (b_blockno r) = (if b_valid r =? 0 then now k (b_blockno r) else b_data r) /\
  sk_locked (b_lock r) = (if decide (b_blockno r ∈ a_held A) then 1 else 0) /\
  (b_blockno r ∈ a_held A -> sk_pid (b_lock r) = pid_of me k).

(** A count of references: not 0, and far from the end of [uint]. *)
Definition count_ok (n : nat) : Prop := (0 < n)%nat /\ Z.of_nat n <= 2 ^ 31.

Record bio (me : nat) (dev : Z) k (A : acache) : Prop := {
  bio_len : length (k_bufs k) = S NBUF;
  bio_lru : exists l, l ≡ₚ seq 0 NBUF /\ dll (nx k) (pv k) bhead l;
  bio_dev : forall i r, (i < NBUF)%nat -> k_bufs k !! i = Some r ->
    b_dev r = dev \/ b_dev r <> dev /\ b_refcnt r = 0 /\ sk_locked (b_lock r) = 0;
  bio_uniq : forall i j ri rj, (i < NBUF)%nat -> (j < NBUF)%nat -> k_bufs k !! i = Some ri -> k_bufs k !! j = Some rj ->
    b_dev ri = dev -> b_dev rj = dev -> b_blockno ri = b_blockno rj -> i = j;
  bio_slot : forall i r, (i < NBUF)%nat -> k_bufs k !! i = Some r -> b_dev r = dev -> slot_ok me k A r;
  bio_clean : forall b, a_refs A !! b = None -> a_view A b = now k b /\ b ∉ a_held A;
  bio_refs : forall b n, a_refs A !! b = Some n -> count_ok n /\
    exists i r, (i < NBUF)%nat /\ k_bufs k !! i = Some r /\ b_dev r = dev /\ b_blockno r = b;
  bio_data : forall i r, (i < NBUF)%nat -> k_bufs k !! i = Some r -> length (b_data r) = Z.to_nat BSIZE;
  bio_ready : dk_ready (k_hw k) (k_vdisk k)
}.

Lemma bio_ext me dev k A A' :
  bio me dev k A -> (forall x, a_view A' x = a_view A x) -> a_refs A' = a_refs A -> a_held A' = a_held A ->
  bio me dev k A'.
Proof.
  intros [] V R Hh. split; rewrite ?R, ?Hh; try done.
  - intros i r Hi Er Dr. unfold slot_ok. rewrite V, R, Hh. by eapply bio_slot0.
  - intros b Hb. rewrite V. by apply bio_clean0.
Qed.

(** What an operation of the cache may change besides the buffers. *)
Definition bframe (me : nat) k k' : Prop :=
  procs_woken me (k_proc k) (k_proc k') /\
  k' = set_k_hw (k_hw k') (set_k_vdisk (k_vdisk k') (set_k_bufs (k_bufs k') (set_k_proc (k_proc k') k))).

#[export] Instance bframe_preorder me : PreOrder (bframe me).
Proof.
  split.
  - intros k. split; [done|by destruct k].
  - intros k1 k2 k3 [W E] [W' E']. split; [by etrans|]. rewrite E', E. by destruct k3.
Qed.

Lemma bframe_quiet c me k k' : bframe me k k' -> quiet c me k -> quiet c me k'.
Proof. intros [(L & M & _) ->] []. split; cbn; rewrite ?L, ?M; done. Qed.

Lemma bframe_pid me k k' : bframe me k k' -> pid_of me k' = pid_of me k.
Proof. intros [(_ & M & _) _]. unfold pid_of. by rewrite M. Qed.

(** Buffer [i] holds block [b], read from the disk. *)
Definition handle (dev : Z) k (i : nat) (b : Z) : Prop :=
  exists r, (i < NBUF)%nat /\ k_bufs k !! i = Some r /\ b_dev r = dev /\ b_blockno r = b /\ b_valid r <> 0.

(** ** Replacing one buffer *)

Lemma bio_set me dev k A A' i r r' :
  bio me dev k A -> (i < NBUF)%nat -> k_bufs k !! i = Some r ->
  b_next r' = b_next r -> b_prev r' = b_prev r -> b_dev r' = dev -> length (b_data r') = Z.to_nat BSIZE ->
  (forall j rj, (j < NBUF)%nat -> j <> i -> k_bufs k !! j = Some rj -> b_dev rj = dev -> b_blockno rj <> b_blockno r') ->
  (b_dev r = dev -> b_blockno r = b_blockno r' \/ a_refs A !! b_blockno r = None) ->
  (forall x, x <> b_blockno r' -> a_view A' x = a_view A x /\ a_refs A' !! x = a_refs A !! x /\ (x ∈ a_held A' <-> x ∈ a_held A)) ->
  slot_ok me k A' r' ->
  (a_refs A' !! b_blockno r' = None -> a_view A' (b_blockno r') = now k (b_blockno r') /\ b_blockno r' ∉ a_held A') ->
  (forall n, a_refs A' !! b_blockno r' = Some n -> count_ok n) ->
  bio me dev (set_k_bufs (<[i := r']> (k_bufs k)) k) A'.
Proof.
  intros [L LRU D U S C R Da Rd] Hi Er En Ep Ed El Hu Hold HA Hs Hc Hn.
  assert (i < length (k_bufs k))%nat as Hil by (rewrite L; lia).
  assert (forall j rj, (<[i := r']> (k_bufs k)) !! j = Some rj -> (j = i /\ rj = r') \/ (j <> i /\ k_bufs k !! j = Some rj)) as Hget.
  { intros j rj. destruct (decide (j = i)) as [->|].
    - rewrite list_lookup_insert_eq by done. intros [= <-]. auto.
    - rewrite list_lookup_insert_ne by done. auto. }
  assert (forall x, from_option b_next x ((<[i := r']> (k_bufs k)) !! x) = nx k x /\
                    from_option b_prev x ((<[i := r']> (k_bufs k)) !! x) = pv k x) as Hlinks.
  { intros x. unfold nx, pv. destruct (decide (x = i)) as [->|].
    - rewrite list_lookup_insert_eq, Er by done. auto.
    - by rewrite list_lookup_insert_ne. }
  split; cbn [k_bufs set_k_bufs k_hw k_vdisk].
  - by rewrite length_insert.
  - destruct LRU as (l & Pl & Hd). exists l. split; [done|].
    eapply dll_ext; [intros x _; exact (proj1 (Hlinks x))|intros x _; exact (proj2 (Hlinks x))|done].
  - intros j rj Hj [[-> ->]|[_ E]]%Hget; [by left|by eapply D].
  - intros j1 j2 r1 r2 H1 H2 [[-> ->]|[N1 E1]]%Hget [[-> ->]|[N2 E2]]%Hget D1 D2 Eb; try done.
    + by destruct (Hu _ _ H2 N2 E2 D2).
    + by destruct (Hu _ _ H1 N1 E1 D1).
    + by eapply (U j1 j2).
  - intros j rj Hj [[-> ->]|[N E]]%Hget Dj; [done|].
    destruct (S j rj Hj E Dj) as (S1 & S2 & S3 & S4).
    destruct (HA (b_blockno rj) (Hu _ _ Hj N E Dj)) as (V & Rf & Hh).
    split_and!; cbn.
    + by rewrite Rf.
    + rewrite V. exact S2.
    + rewrite S3. do 2 case_decide; naive_solver.
    + intros Hx%Hh. by apply S4.
  - intros b Hb. destruct (decide (b = b_blockno r')) as [->|Hne]; [by apply Hc|].
    destruct (HA b Hne) as (V & Rf & Hh). rewrite V, Rf in *. rewrite Hh. by apply C.
  - intros b n Hb. destruct (decide (b = b_blockno r')) as [->|Hne].
    + split; [by apply Hn|]. exists i, r'. by rewrite list_lookup_insert_eq.
    + destruct (HA b Hne) as (_ & Rf & _). rewrite Rf in Hb. destruct (R b n Hb) as (Hp & j & rj & Hj & Ej & Dj & Bj).
      split; [done|]. exists j, rj. rewrite list_lookup_insert_ne; [done|]. intros ->. rewrite Er in Ej. injection Ej as <-.
      destruct (Hold Dj) as [E|E]; [congruence|]. rewrite Bj in E. congruence.
  - intros j rj Hj [[-> ->]|[_ E]]%Hget; [done|by eapply Da].
  - done.
Qed.

(** Nothing about the buffers changes. *)
Lemma bio_same_bufs me dev k k' A :
  bio me dev k A -> bframe me k k' -> k_bufs k' = k_bufs k -> now k' = now k -> dk_ready (k_hw k') (k_vdisk k') ->
  bio me dev k' A.
Proof.
  intros [L LRU D U S C R Da Rd] Hf Eb En Hr. pose proof (bframe_pid _ _ _ Hf) as Epid.
  split; try (unfold nx, pv; rewrite ?Eb, ?En; done).
  - intros i r Hi E Dr. rewrite Eb in E. destruct (S i r Hi E Dr) as (S1 & S2 & S3 & S4).
    unfold slot_ok. rewrite En, Epid. done.
Qed.

(** ** The two searches *)

Definition hit k (dev b : Z) (i : nat) : bool :=
  match k_bufs k !! i with Some r => (b_dev r =? dev) && (b_blockno r =? b) | None => false end.
Definition unused k (i : nat) : bool :=
  match k_bufs k !! i with Some r => b_refcnt r =? 0 | None => false end.

Section Search.
Context (k : kernel H) (l : list nat).
Context (Hl : forall x, x ∈ l -> (x < NBUF)%nat) (Hlen : length (k_bufs k) = S NBUF).
Context (Hd : dll (nx k) (pv k) bhead l).

Lemma find_cached_ok dev b pre suf fuel k' :
  k_bufs k' = k_bufs k -> l = pre ++ suf -> (length suf < fuel)%nat ->
  find_cached fuel dev b (hd bhead suf) k' = Ok (List.find (hit k dev b) suf) k'.
Proof.
  intros Eb. revert pre fuel. induction suf as [|x suf IH]; intros pre [|fuel] El Hf; cbn in Hf; try lia.
  - cbn [find_cached hd]. by rewrite Nat.eqb_refl.
  - cbn [find_cached hd List.find]. pose proof (Hl x ltac:(set_solver)) as Hx.
    destruct (Nat.eqb_spec x bhead) as [->|_]; [unfold bhead in *; lia|].
    destruct (lookup_lt_is_Some_2 (k_bufs k) x) as [r Er]; [lia|].
    assert (k_bufs k' !! x = Some r) as Er' by by rewrite Eb.
    unfold get_buf. rewrite (bind_Ok _ _ _ _ _ (aget_ok _ _ _ _ Er')). unfold hit at 1. rewrite Er.
    destruct ((b_dev r =? dev) && (b_blockno r =? b)); [done|].
    replace (b_next r) with (hd bhead suf).
    + apply (IH (pre ++ [x])); [|lia]. by rewrite <- (assoc_L (++)).
    + rewrite El in Hd. apply dll_next in Hd. unfold nx in Hd. by rewrite Er in Hd.
Qed.

Lemma find_unused_ok pre suf fuel k' :
  k_bufs k' = k_bufs k -> l = pre ++ suf -> (length pre < fuel)%nat ->
  find_unused fuel (List.last pre bhead) k' = Ok (List.find (unused k) (rev pre)) k'.
Proof.
  intros Eb. revert suf fuel. induction pre as [|x pre IH] using rev_ind; intros suf [|fuel] El Hf;
    rewrite ?length_app in Hf; cbn in Hf; try lia.
  - cbn [find_unused List.last]. by rewrite Nat.eqb_refl.
  - rewrite List.last_last, rev_app_distr. cbn [find_unused rev app List.find].
    pose proof (Hl x ltac:(set_solver)) as Hx.
    destruct (Nat.eqb_spec x bhead) as [->|_]; [unfold bhead in *; lia|].
    destruct (lookup_lt_is_Some_2 (k_bufs k) x) as [r Er]; [lia|].
    assert (k_bufs k' !! x = Some r) as Er' by by rewrite Eb.
    unfold get_buf. rewrite (bind_Ok _ _ _ _ _ (aget_ok _ _ _ _ Er')). unfold unused at 1. rewrite Er.
    destruct (b_refcnt r =? 0); [done|].
    replace (b_prev r) with (List.last pre bhead).
    + apply (IH ([x] ++ suf)); [|lia]. by rewrite El, <- (assoc_L (++)).
    + rewrite El, <- (assoc_L (++)) in Hd. apply (dll_prev _ _ _ pre x suf) in Hd. unfold pv in Hd. by rewrite Er in Hd.
Qed.

End Search.

(** There is a buffer to recycle when fewer than [NBUF] blocks are referenced. *)
Lemma some_unused me dev k A l :
  bio me dev k A -> l ≡ₚ seq 0 NBUF -> (size (a_refs A) < NBUF)%nat -> List.find (unused k) (rev l) <> None.
Proof.
  intros B Pl Hsz Hnone. pose proof (List.find_none _ _ Hnone) as Hall.
  set (bn := fun i => from_option b_blockno 0 (k_bufs k !! i)).
  assert (forall i, (i < NBUF)%nat -> exists r, k_bufs k !! i = Some r /\ b_dev r = dev /\
    is_Some (a_refs A !! b_blockno r)) as Href.
  { intros i Hi. destruct (lookup_lt_is_Some_2 (k_bufs k) i) as [r Er]; [rewrite (bio_len _ _ _ _ B); lia|].
    assert (unused k i = false) as Hu.
    { apply Hall. rewrite <- in_rev, <- list_elem_of_In, Pl. apply elem_of_seq. lia. }
    unfold unused in Hu. rewrite Er in Hu. bool_to_Z. exists r. split; [done|].
    destruct (bio_dev _ _ _ _ B i r Hi Er) as [Dr|(_ & ? & _)]; [|done]. split; [done|].
    destruct (bio_slot _ _ _ _ B i r Hi Er Dr) as (E & _). destruct (a_refs A !! b_blockno r); [by eexists|].
    cbn in E. lia. }
  assert (NoDup (bn <$> seq 0 NBUF)) as Hnd.
  { apply NoDup_fmap_2_strong; [|apply NoDup_seq]. intros i j Hi%elem_of_seq Hj%elem_of_seq E.
    destruct (Href i) as (ri & Ei & Di & _); [lia|]. destruct (Href j) as (rj & Ej & Dj & _); [lia|].
    unfold bn in E. rewrite Ei, Ej in E. eapply (bio_uniq _ _ _ _ B i j); eauto; lia. }
  assert (NBUF <= size (dom (a_refs A)))%nat; [|rewrite size_dom in *; lia].
  rewrite <- (length_seq NBUF 0), <- (length_fmap bn (seq 0 NBUF)), <- (size_list_to_set (C := gset Z)) by done.
  apply subseteq_size. intros x (y & -> & Hy%elem_of_seq)%elem_of_list_to_set%list_elem_of_fmap.
  destruct (Href y) as (r & Er & _ & Hr); [lia|]. unfold bn. rewrite Er. by apply elem_of_dom.
Qed.

(** ** bget *)

Definition grab (A : acache) (b : Z) : acache :=
  mkA (a_view A) (<[b := S (default O (a_refs A !! b))]> (a_refs A)) ({[b]} ∪ a_held A).

(** The buffer is locked, the cache's lock released. *)
Lemma lock_buf_ok c me k i r r1 nm :
  quiet c me k -> k_locks k !! LBcache = Some (mkLk 0 nm None) -> (i < NBUF)%nat -> k_bufs k !! i = Some r ->
  sk_locked (b_lock r1) = 0 ->
  (release LBcache ;; acquiresleep (SBuf i) ;; ret i) (enter c nm LBcache (set_k_bufs (<[i := r1]> (k_bufs k)) k)) =
  Ok i (set_k_bufs (<[i := set_b_lock (mkSleep 1 (sk_name (b_lock r1)) (pid_of me k)) r1]> (k_bufs k)) k).
Proof.
  intros Q El Hi Er Hunl. set (k1 := set_k_bufs (<[i := r1]> (k_bufs k)) k).
  assert (quiet c me k1) as Q1 by by destruct Q.
  rewrite (bind_Ok _ _ _ _ _ (release_ok c nm LBcache k1 (q_cpu _ _ _ Q1) El)).
  assert (k_bufs k1 !! i = Some r1) as Er1 by (apply list_lookup_insert_eq; by eapply lookup_lt_Some).
  assert (sleep_at (SBuf i) k1 = Some (b_lock r1)) as Esl by (unfold sleep_at; by rewrite Er1).
  rewrite (bind_Ok _ _ _ _ _ (acquiresleep_ok c me (SBuf i) _ k1 Q1 Hi Esl Hunl)).
  unfold put_sleep. rewrite (alter_insert _ _ _ _ Er1).
  cbn [k_bufs set_k_bufs k1]. by rewrite list_insert_insert_eq.
Qed.

(** Buffer [i] becomes a reference to block [b], locked by this process. *)
Lemma bio_grab me dev k A b i r r' nm :
  bio me dev k A -> (i < NBUF)%nat -> k_bufs k !! i = Some r ->
  b_next r' = b_next r -> b_prev r' = b_prev r -> b_dev r' = dev -> b_blockno r' = b -> b_data r' = b_data r ->
  (forall j rj, (j < NBUF)%nat -> j <> i -> k_bufs k !! j = Some rj -> b_dev rj = dev -> b_blockno rj <> b) ->
  (b_dev r = dev -> (b_blockno r = b /\ b_valid r' = b_valid r) \/ a_refs A !! b_blockno r = None) ->
  b_refcnt r' = Z.of_nat (S (default O (a_refs A !! b))) ->
  a_view A b = (if b_valid r' =? 0 then now k b else b_data r') ->
  b_lock r' = mkSleep 1 nm (pid_of me k) -> Z.of_nat (default O (a_refs A !! b)) < 2 ^ 31 ->
  let k' := set_k_bufs (<[i := r']> (k_bufs k)) k in
  bio me dev k' (grab A b) /\ forall j b', is_Some (a_refs A !! b') -> handle dev k j b' -> handle dev k' j b'.
Proof.
  intros B Hi Er En Ep Ed <- Edt Hu Hold Href Hview Hlk Hmax k'. split.
  - eapply (bio_set _ _ _ A _ i r); try done.
    + rewrite Edt. by apply (bio_data _ _ _ _ B i r).
    + intros Dr. destruct (Hold Dr) as [[? _]|?]; [by left|by right].
    + intros x Hx. cbn. split_and!; [done|by rewrite lookup_insert_ne by congruence|].
      rewrite elem_of_union, elem_of_singleton. naive_solver.
    + unfold slot_ok. cbn. rewrite lookup_insert_eq, Hlk, decide_True by set_solver. done.
    + cbn. by rewrite lookup_insert_eq.
    + cbn. rewrite lookup_insert_eq. intros n [= <-]. split; lia.
  - intros j b' [n Hn] (rj & Hj & Ej & Dj & Bj & Vj). destruct (decide (j = i)) as [->|Hne].
    + rewrite Er in Ej. injection Ej as <-.
      destruct (Hold Dj) as [[Hb Hv]|Hnone]; [|rewrite <- Bj, Hnone in Hn; done].
      exists r'. cbn. rewrite list_lookup_insert_eq by (by eapply lookup_lt_Some). split_and!; try done; congruence.
    + exists rj. cbn. by rewrite list_lookup_insert_ne.
Qed.

Section Bget.
Context (c : cpu) (me : nat) (dev : Z) (k : kernel H) (A : acache) (b : Z) (l : list nat).
Context (Q : quiet c me k) (B : bio me dev k A) (Hb : b ∉ a_held A).
Context (Pl : l ≡ₚ seq 0 NBUF).

Definition got (i : nat) (r' : buf) (o : outcome (kernel H) nat) : Prop :=
  let k' := set_k_bufs (<[i := r']> (k_bufs k)) k in
  o = Ok i k' /\ (i < NBUF)%nat /\ b_dev r' = dev /\ b_blockno r' = b /\ bio me dev k' (grab A b) /\
  (forall j b', is_Some (a_refs A !! b') -> handle dev k j b' -> handle dev k' j b').

Lemma in_lru x : In x l <-> (x < NBUF)%nat.
Proof. rewrite <- list_elem_of_In, Pl, elem_of_seq. lia. Qed.

(** The block is cached. *)
Lemma bget_hit nm i :
  Z.of_nat (default O (a_refs A !! b)) < 2 ^ 31 -> k_locks k !! LBcache = Some (mkLk 0 nm None) ->
  List.find (hit k dev b) l = Some i ->
  exists r', got i r' ((upd_buf i (fun r => set_b_refcnt (u32 (b_refcnt r + 1)) r) ;;
                        release LBcache ;; acquiresleep (SBuf i) ;; ret i) (enter c nm LBcache k)).
Proof.
  intros Hmax El [Hin Hhit]%List.find_some. apply in_lru in Hin.
  unfold hit in Hhit. destruct (k_bufs k !! i) as [r|] eqn:Er; [|done].
  apply andb_prop in Hhit as [Dr%Z.eqb_eq Br%Z.eqb_eq].
  destruct (bio_slot _ _ _ _ B i r Hin Er Dr) as (S1 & S2 & S3 & S4). rewrite Br in *.
  rewrite decide_False in S3 by done.
  eexists. rewrite (bind_Ok _ _ _ _ _ (upd_buf_enter c nm LBcache _ _ _ _ Er)).
  split; [by apply (lock_buf_ok c me k i r)|]. do 3 (split; [done|]).
  eapply (bio_grab me dev k A b i r); try done.
  - intros j rj Hj Hne Ej Dj Bj. apply Hne. symmetry. eapply (bio_uniq _ _ _ _ B i j); eauto. by rewrite Bj.
  - intros _. by left.
  - cbn. rewrite S1, u32_small by (unfold is_u32; lia). lia.
Qed.

(** The block is not cached, another buffer takes it. *)
Lemma bget_miss nm i :
  k_locks k !! LBcache = Some (mkLk 0 nm None) ->
  List.find (hit k dev b) l = None -> List.find (unused k) (rev l) = Some i ->
  exists r', got i r' ((upd_buf i (set_b_dev dev) ;; upd_buf i (set_b_blockno b) ;; upd_buf i (set_b_valid 0) ;;
                        upd_buf i (set_b_refcnt 1) ;; release LBcache ;; acquiresleep (SBuf i) ;; ret i) (enter c nm LBcache k)).
Proof.
  intros El Hmiss [Hin Hu]%List.find_some. rewrite <- in_rev in Hin. apply in_lru in Hin.
  assert (forall j rj, (j < NBUF)%nat -> k_bufs k !! j = Some rj -> b_dev rj = dev -> b_blockno rj <> b) as Hnb.
  { intros j rj Hj Ej Dj Bj. pose proof (List.find_none _ _ Hmiss j ltac:(by apply in_lru)) as Hf.
    unfold hit in Hf. rewrite Ej, Dj, Bj, !Z.eqb_refl in Hf. done. }
  assert (a_refs A !! b = None) as Hnone.
  { destruct (a_refs A !! b) as [n|] eqn:En; [|done].
    destruct (bio_refs _ _ _ _ B b n En) as (_ & j & rj & Hj & Ej & Dj & Bj). by destruct (Hnb j rj). }
  unfold unused in Hu. destruct (k_bufs k !! i) as [r|] eqn:Er; [|done]. apply Z.eqb_eq in Hu.
  assert (sk_locked (b_lock r) = 0 /\ (b_dev r = dev -> a_refs A !! b_blockno r = None)) as [Hunl Hold].
  { destruct (bio_dev _ _ _ _ B i r Hin Er) as [Dr|(Dr & _ & ?)]; [|done].
    destruct (bio_slot _ _ _ _ B i r Hin Er Dr) as (S1 & S2 & S3 & S4).
    destruct (a_refs A !! b_blockno r) as [n|] eqn:En.
    - destruct (bio_refs _ _ _ _ B _ _ En) as [[? _] _]. cbn in S1. lia.
    - split; [|done]. rewrite S3, decide_False; [done|]. by apply (bio_clean _ _ _ _ B). }
  eexists. rewrite (bind_Ok _ _ _ _ _ (upd_buf_enter c nm LBcache _ _ _ _ Er)).
  assert (i < length (k_bufs k))%nat as Hlt by by eapply lookup_lt_Some.
  do 3 (erewrite (bind_Ok (upd_buf i _));
    [|apply upd_buf_enter; cbn; apply list_lookup_insert_eq; by rewrite ?length_insert];
    cbn [k_bufs set_k_bufs]; rewrite list_insert_insert_eq).
  split; [by apply (lock_buf_ok c me k i r)|]. do 3 (split; [done|]).
  eapply (bio_grab me dev k A b i r); try done.
  - intros j rj Hj _ Ej Dj. by apply (Hnb j rj).
  - intros Dr. right. by apply Hold.
  - cbn. by rewrite Hnone.
  - cbn. by apply (bio_clean _ _ _ _ B).
  - by rewrite Hnone.
Qed.

End Bget.

Lemma bget_ok c me dev k A b :
  quiet c me k -> bio me dev k A -> b ∉ a_held A -> Z.of_nat (default O (a_refs A !! b)) < 2 ^ 31 ->
  is_Some (a_refs A !! b) \/ (size (a_refs A) < NBUF)%nat ->
  exists i r', got me dev k A b i r' (bget dev b k).
Proof.
  intros Q B Hb Hmax Hroom. pose proof (bio_len _ _ _ _ B) as Hlen.
  destruct (bio_lru _ _ _ _ B) as (l & Pl & Hd).
  assert (forall x, x ∈ l -> (x < NBUF)%nat) as Hl by (intros x; rewrite Pl, elem_of_seq; lia).
  assert (length l = NBUF) as Ll by (rewrite Pl; apply length_seq).
  destruct (q_free _ _ _ Q LBcache I) as [nm El].
  destruct (lookup_lt_is_Some_2 (k_bufs k) bhead) as [h Eh]; [rewrite Hlen; unfold bhead; lia|].
  unfold bget. rewrite (bind_Ok _ _ _ _ _ (acquire_ok c nm _ k (q_cpu _ _ _ Q) El)).
  rewrite (bind_Ok _ _ _ _ _ (get_buf_enter c nm LBcache _ _ _ Eh)).
  replace (b_next h) with (hd bhead l).
  2:{ pose proof (dll_first _ _ _ _ Hd) as E. unfold nx in E. by rewrite Eh in E. }
  rewrite (bind_Ok _ _ _ _ _ (find_cached_ok k l Hl Hlen Hd dev b [] l (S NBUF) (enter c nm LBcache k)
    eq_refl eq_refl ltac:(lia))).
  destruct (List.find (hit k dev b) l) as [i|] eqn:Efind.
  - exists i. by apply (bget_hit c me dev k A b l).
  - replace (b_prev h) with (List.last l bhead).
    2:{ pose proof (dll_last _ _ _ _ Hd) as E. unfold pv in E. by rewrite Eh in E. }
    rewrite (bind_Ok _ _ _ _ _ (find_unused_ok k l Hl Hlen Hd l [] (S NBUF) (enter c nm LBcache k)
      eq_refl ltac:(by rewrite app_nil_r) ltac:(lia))).
    assert (size (a_refs A) < NBUF)%nat as Hsz.
    { destruct Hroom as [[n En]|?]; [|done].
      destruct (bio_refs _ _ _ _ B b n En) as (_ & i & r & Hi & Er & Dr & Br).
      assert (hit k dev b i = false) as Hf.
      { apply (List.find_none _ _ Efind). rewrite <- list_elem_of_In, Pl. apply elem_of_seq. lia. }
      unfold hit in Hf. rewrite Er, Dr, Br, !Z.eqb_refl in Hf. done. }
    pose proof (some_unused _ _ _ _ l B Pl Hsz) as Hsome.
    destruct (List.find (unused k) (rev l)) as [i|] eqn:Eu; [|done].
    exists i. by apply (bget_miss c me dev k A b l).
Qed.

(** ** Reading and writing *)

Definition past k : list disk := dk_past (k_hw k).
Definition keeps (dev : Z) k k' (P : Z -> Prop) : Prop := forall j b, P b -> handle dev k j b -> handle dev k' j b.

(** The disk block of a buffer is where the abstract cache has it. *)
Lemma held_refs me dev k A b : bio me dev k A -> b ∈ a_held A -> is_Some (a_refs A !! b).
Proof. intros B Hb. destruct (a_refs A !! b) eqn:E; [by eexists|]. by destruct (bio_clean _ _ _ _ B b E). Qed.

(** Replacing a buffer of block [b] by one of the same block with the same count
    and lock; the abstract cache changes its view of [b] at most. *)
Lemma bio_refresh me dev k A A' i r r' :
  bio me dev k A -> (i < NBUF)%nat -> k_bufs k !! i = Some r -> b_dev r = dev -> is_Some (a_refs A !! b_blockno r) ->
  b_next r' = b_next r -> b_prev r' = b_prev r -> b_dev r' = dev -> b_blockno r' = b_blockno r ->
  b_refcnt r' = b_refcnt r -> b_lock r' = b_lock r -> length (b_data r') = Z.to_nat BSIZE ->
  a_refs A' = a_refs A -> a_held A' = a_held A ->
  (forall x, x <> b_blockno r -> a_view A' x = a_view A x) ->
  a_view A' (b_blockno r) = (if b_valid r' =? 0 then now k (b_blockno r) else b_data r') ->
  bio me dev (set_k_bufs (<[i := r']> (k_bufs k)) k) A'.
Proof.
  intros B Hi Er Dr [n Hn] En Ep Ed Eb Ec El Hl ER EH Hv Hvb.
  destruct (bio_slot _ _ _ _ B i r Hi Er Dr) as (S1 & S2 & S3 & S4).
  eapply (bio_set _ _ _ A _ i r); try done.
  - intros j rj Hj Hne Ej Dj Bj. apply Hne. eapply (bio_uniq _ _ _ _ B j i); eauto. congruence.
  - by left.
  - rewrite Eb, ER, EH. intros x Hx. by rewrite Hv.
  - unfold slot_ok. rewrite Eb, Ec, El, ER, EH. done.
  - rewrite Eb, ER. by rewrite Hn.
  - rewrite Eb, ER. intros m Hm. by apply (bio_refs _ _ _ _ B _ _ Hm).
Qed.

Lemma keeps_insert dev k k' i r' :
  (i < NBUF)%nat -> b_dev r' = dev -> b_valid r' <> 0 -> (i < length (k_bufs k))%nat ->
  (forall r, k_bufs k !! i = Some r -> b_blockno r' = b_blockno r) ->
  k_bufs k' = <[i := r']> (k_bufs k) -> keeps dev k k' (fun _ => True).
Proof.
  intros Hi Dr Vr Hlt Hb E j b _ (rj & Hj & Ej & Dj & Bj & Vj). unfold handle. rewrite E.
  destruct (decide (j = i)) as [->|Hne].
  - exists r'. rewrite list_lookup_insert_eq by done. rewrite (Hb _ Ej). done.
  - exists rj. by rewrite list_lookup_insert_ne.
Qed.

Lemma bread_ok c me dev k A b :
  quiet c me k -> bio me dev k A -> b ∉ a_held A -> Z.of_nat (default O (a_refs A !! b)) < 2 ^ 31 ->
  is_Some (a_refs A !! b) \/ (size (a_refs A) < NBUF)%nat -> 0 <= b < dk_size ->
  exists i k', bread dev b k = Ok i k' /\ bframe me k k' /\ now k' = now k /\ past k' = past k /\
    bio me dev k' (grab A b) /\ handle dev k' i b /\ keeps dev k k' (fun b' => is_Some (a_refs A !! b')).
Proof.
  intros Q B Hb Hmax Hroom Hsz. destruct (bget_ok c me dev k A b Q B Hb Hmax Hroom) as (i & r1 & Eg & Hi & D1 & B1 & Bio1 & K1).
  unfold bread. rewrite (bind_Ok _ _ _ _ _ Eg). set (k1 := set_k_bufs (<[i := r1]> (k_bufs k)) k) in *.
  assert (k_bufs k1 !! i = Some r1) as Er1.
  { apply list_lookup_insert_eq. rewrite (bio_len _ _ _ _ B). lia. }
  assert (bframe me k k1) as F1 by by split.
  rewrite (bind_Ok _ _ _ _ _ (get_buf_ok _ _ _ Er1)). destruct (Z.eqb_spec (b_valid r1) 0) as [E0|E0].
  - destruct (rw_read c me k1 i r1 (bframe_quiet _ _ _ _ F1 Q) (bio_ready _ _ _ _ Bio1) Hi Er1
      ltac:(by rewrite B1) ltac:(by apply (bio_data _ _ _ _ Bio1 i))) as (h & v & ps & Erw & Hps & Hr & Hnow & Hpast).
    set (r2 := set_b_data _ _) in Erw. set (k2 := set_k_hw _ _) in Erw.
    assert (k_bufs k2 !! i = Some r2) as Er2.
    { apply list_lookup_insert_eq. by eapply lookup_lt_Some. }
    rewrite (bind_Ok _ _ tt _ (set_k_bufs (<[i := set_b_valid 1 r2]> (k_bufs k1)) k2)).
    2:{ rewrite (bind_Ok _ _ _ _ _ Erw), (upd_buf_ok _ _ _ _ Er2). cbn. by rewrite list_insert_insert_eq. }
    set (k3 := set_k_bufs _ k2). set (k1' := set_k_bufs (k_bufs k1) k2).
    destruct (bio_slot _ _ _ _ Bio1 i r1 Hi Er1 D1) as (S1 & S2 & S3 & S4).
    assert (bframe me k1 k1') as F1' by by split.
    assert (bio me dev k1' (grab A b)) as Bio1' by by eapply (bio_same_bufs _ _ k1).
    exists i, k3. split_and!; try done.
    + apply (bio_refresh me dev k1' (grab A b) _ i r1 (set_b_valid 1 r2)); try done.
      * rewrite B1. cbn. rewrite lookup_insert_eq. by eexists.
      * cbn. apply dk_block. by rewrite B1.
      * rewrite E0 in S2. cbn in S2 |- *. done.
    + exists (set_b_valid 1 r2). cbn. by rewrite list_lookup_insert_eq by (by eapply lookup_lt_Some).
    + intros j b' Hb' Hj. apply (keeps_insert dev k1 k3 i (set_b_valid 1 r2)); try done.
      * by eapply lookup_lt_Some.
      * intros r E. rewrite Er1 in E. by injection E as <-.
      * by apply K1.
  - rewrite (bind_Ok _ _ tt _ k1) by done.
    exists i, k1. split_and!; try done. by exists r1.
Qed.

(** [b->data] of a locked buffer is replaced. *)
Definition view_as (A : acache) (b : Z) (d : list Z) : acache :=
  mkA (fun x => if x =? b then d else a_view A x) (a_refs A) (a_held A).

Lemma set_data_ok me dev k A i b d :
  bio me dev k A -> handle dev k i b -> is_Some (a_refs A !! b) -> length d = Z.to_nat BSIZE ->
  exists k', upd_buf i (set_b_data d) k = Ok tt k' /\ bframe me k k' /\ k_hw k' = k_hw k /\
    bio me dev k' (view_as A b d) /\ keeps dev k k' (fun _ => True).
Proof.
  intros B (r & Hi & Er & Dr & <- & Vr) Hrefs Hd. rewrite (upd_buf_ok _ _ _ _ Er). eexists. split; [done|].
  split; [by split|]. split; [done|]. split.
  - apply (bio_refresh me dev k A _ i r); try done.
    + intros x Hx. cbn. by destruct (Z.eqb_spec x (b_blockno r)).
    + cbn. rewrite Z.eqb_refl. by destruct (Z.eqb_spec (b_valid r) 0).
  - apply (keeps_insert dev k _ i (set_b_data d r)); try done; [by eapply lookup_lt_Some|].
    intros r' E. rewrite Er in E. by injection E as <-.
Qed.

(** What a handle of a locked block says about its lock. *)
Lemma holding_handle c me dev k A i b :
  quiet c me k -> bio me dev k A -> handle dev k i b -> b ∈ a_held A -> holdingsleep (SBuf i) k = Ok true k.
Proof.
  intros Q B (r & Hi & Er & Dr & <- & Vr) Hb.
  destruct (bio_slot _ _ _ _ B i r Hi Er Dr) as (_ & _ & S3 & S4).
  rewrite (holdingsleep_ok c me (SBuf i) (b_lock r) k Q Hi); [|unfold sleep_at; by rewrite Er].
  by rewrite S3, decide_True, S4, Z.eqb_refl by done.
Qed.

(** The medium changed at block [b], which is referenced and valid. *)
Lemma bio_write me dev k A k' b :
  bio me dev k A -> is_Some (a_refs A !! b) ->
  (forall i r, (i < NBUF)%nat -> k_bufs k !! i = Some r -> b_dev r = dev -> b_blockno r = b -> b_valid r <> 0) ->
  bframe me k k' -> k_bufs k' = k_bufs k -> (forall x, x <> b -> now k' x = now k x) -> dk_ready (k_hw k') (k_vdisk k') ->
  bio me dev k' A.
Proof.
  intros [L LRU D U S C R Da Rd] [n Hb] Hv Hf Eb En Hr. pose proof (bframe_pid _ _ _ Hf) as Epid.
  split; try (unfold nx, pv; rewrite ?Eb; done).
  - intros i r Hi E Dr. rewrite Eb in E. destruct (S i r Hi E Dr) as (S1 & S2 & S3 & S4).
    unfold slot_ok. rewrite Epid. split_and!; try done. rewrite S2.
    destruct (Z.eqb_spec (b_valid r) 0) as [E0|]; [|done]. rewrite En; [done|].
    intros Eq. by apply (Hv i r).
  - intros x Hx. rewrite En; [by apply C|]. intros ->. congruence.
Qed.

Lemma bwrite_ok c me dev k A i b :
  quiet c me k -> bio me dev k A -> handle dev k i b -> b ∈ a_held A -> 0 <= b < dk_size ->
  exists k' mids, bwrite i k = Ok tt k' /\ bframe me k k' /\ bio me dev k' A /\
    (forall x, now k' x = if x =? b then a_view A b else now k x) /\
    past k' = mids ++ now k :: past k /\ Forall (torn (now k) b (a_view A b)) mids /\
    keeps dev k k' (fun _ => True).
Proof.
  intros Q B Hh Hb Hsz. unfold bwrite.
  rewrite (bind_Ok _ _ _ _ _ (holding_handle c me dev k A i b Q B Hh Hb)). cbn [negb].
  destruct Hh as (r & Hi & Er & Dr & Br & Vr). pose proof (held_refs _ _ _ _ _ B Hb) as Hrefs.
  destruct (bio_slot _ _ _ _ B i r Hi Er Dr) as (_ & S2 & _).
  destruct (rw_write c me k i r Q (bio_ready _ _ _ _ B) Hi Er ltac:(by rewrite Br) ltac:(by apply (bio_data _ _ _ _ B i)))
    as (h & v & ps & mids & Erw & Hps & Hr & Hnow & Hpast & Hmids).
  destruct (Z.eqb_spec (b_valid r) 0) as [|_]; [done|]. rewrite Br in *. rewrite <- S2 in *.
  set (k' := set_k_hw _ _) in Erw. set (k1 := set_k_bufs (k_bufs k) k').
  assert (bframe me k k1) as F1 by by split.
  assert (bio me dev k1 A) as B1.
  { apply (bio_write me dev k A k1 b); try done.
    - intros j rj Hj Ej Dj Bj. assert (j = i) as -> by (eapply (bio_uniq _ _ _ _ B j i); eauto; congruence). congruence.
    - intros x Hx. unfold now. cbn. rewrite Hnow. by destruct (Z.eqb_spec x b). }
  exists k', mids. split_and!; try done.
  - change k' with (set_k_bufs (<[i := set_b_disk 0 r]> (k_bufs k1)) k1).
    apply (bio_refresh me dev k1 A A i r (set_b_disk 0 r)); try done; cbn; rewrite ?Br; try done.
    + by apply (bio_data _ _ _ _ B i).
    + destruct (Z.eqb_spec (b_valid r) 0); [done|]. done.
  - apply (keeps_insert dev k k' i (set_b_disk 0 r)); try done; [by eapply lookup_lt_Some|].
    intros r' E. rewrite Er in E. by injection E as <-.
Qed.

(** ** Giving references back *)

Definition unref (refs : gmap Z nat) (b : Z) : gmap Z nat :=
  match refs !! b with Some (S (S n)) => <[b := S n]> refs | _ => delete b refs end.
Definition unpin (A : acache) (b : Z) : acache := mkA (a_view A) (unref (a_refs A) b) (a_held A).
Definition drop (A : acache) (b : Z) : acache := mkA (a_view A) (unref (a_refs A) b) (a_held A ∖ {[b]}).
Definition pin (A : acache) (b : Z) : acache :=
  mkA (a_view A) (<[b := S (default O (a_refs A !! b))]> (a_refs A)) (a_held A).

Lemma unref_eq refs b n : refs !! b = Some (S n) -> default O (unref refs b !! b) = n.
Proof. intros E. unfold unref. rewrite E. destruct n; [by rewrite lookup_delete_eq|by rewrite lookup_insert_eq]. Qed.
Lemma unref_ne refs b x : x <> b -> unref refs b !! x = refs !! x.
Proof.
  intros Hx. unfold unref. destruct (refs !! b) as [[|[|n]]|]; rewrite ?lookup_delete_ne, ?lookup_insert_ne by congruence; done.
Qed.
Lemma unref_count refs b n m : refs !! b = Some (S n) -> count_ok (S n) -> unref refs b !! b = Some m -> count_ok m.
Proof.
  intros E [_ ?]. unfold unref. rewrite E. destruct n; rewrite ?lookup_delete_eq, ?lookup_insert_eq; intros [= <-].
  split; lia.
Qed.
Lemma unref_none refs b n : refs !! b = Some (S n) -> unref refs b !! b = None -> n = O.
Proof. intros E. unfold unref. rewrite E. destruct n; [done|]. by rewrite lookup_insert_eq. Qed.

(** The count of the block of a buffer changes, and perhaps its lock. *)
Lemma bio_recount me dev k A A' i r r' :
  bio me dev k A -> (i < NBUF)%nat -> k_bufs k !! i = Some r -> b_dev r = dev ->
  b_next r' = b_next r -> b_prev r' = b_prev r -> b_dev r' = dev -> b_blockno r' = b_blockno r ->
  b_valid r' = b_valid r -> b_data r' = b_data r ->
  a_view A' = a_view A ->
  (forall x, x <> b_blockno r -> a_refs A' !! x = a_refs A !! x /\ (x ∈ a_held A' <-> x ∈ a_held A)) ->
  b_refcnt r' = Z.of_nat (default O (a_refs A' !! b_blockno r)) ->
  sk_locked (b_lock r') = (if decide (b_blockno r ∈ a_held A') then 1 else 0) ->
  (b_blockno r ∈ a_held A' -> sk_pid (b_lock r') = pid_of me k) ->
  (a_refs A' !! b_blockno r = None -> a_view A (b_blockno r) = now k (b_blockno r) /\ b_blockno r ∉ a_held A') ->
  (forall n, a_refs A' !! b_blockno r = Some n -> count_ok n) ->
  bio me dev (set_k_bufs (<[i := r']> (k_bufs k)) k) A'.
Proof.
  intros B Hi Er Dr En Ep Ed Eb Ev Edt EV HA Hc Hl Hpid Hnone Hpos.
  destruct (bio_slot _ _ _ _ B i r Hi Er Dr) as (_ & S2 & _).
  eapply (bio_set _ _ _ A _ i r); try done; rewrite ?Eb; try done.
  - rewrite Edt. by apply (bio_data _ _ _ _ B i).
  - intros j rj Hj Hne Ej Dj Bj. apply Hne. eapply (bio_uniq _ _ _ _ B j i); eauto.
  - by left.
  - intros x Hx. rewrite EV. split; [done|]. by apply HA.
  - unfold slot_ok. rewrite Eb, Ev, Edt, EV. done.
  - rewrite EV. done.
Qed.

Lemma bpin_run c k i r :
  on_cpu c k -> free LBcache k -> k_bufs k !! i = Some r ->
  bpin i k = Ok tt (set_k_bufs (<[i := set_b_refcnt (u32 (b_refcnt r + 1)) r]> (k_bufs k)) k).
Proof.
  intros Hc [nm El] Er. unfold bpin. rewrite (bind_Ok _ _ _ _ _ (acquire_ok c nm _ k Hc El)).
  rewrite (bind_Ok _ _ _ _ _ (upd_buf_enter c nm LBcache _ _ _ _ Er)). by apply release_ok.
Qed.

Lemma bpin_bio me dev k A i b r :
  bio me dev k A -> handle dev k i b -> is_Some (a_refs A !! b) -> Z.of_nat (default O (a_refs A !! b)) < 2 ^ 31 ->
  k_bufs k !! i = Some r ->
  let k' := set_k_bufs (<[i := set_b_refcnt (u32 (b_refcnt r + 1)) r]> (k_bufs k)) k in
  bio me dev k' (pin A b) /\ keeps dev k k' (fun _ => True).
Proof.
  intros B (r0 & Hi & Er & Dr & <- & Vr) Hrefs Hmax Er'. rewrite Er in Er'. injection Er' as <-. intros k'.
  destruct (bio_slot _ _ _ _ B i r0 Hi Er Dr) as (S1 & S2 & S3 & S4). set (r' := set_b_refcnt _ r0) in *. split.
  - apply (bio_recount me dev k A (pin A (b_blockno r0)) i r0 r'); try done; cbn.
    + intros x Hx. by rewrite lookup_insert_ne.
    + rewrite lookup_insert_eq, S1, u32_small by (unfold is_u32; lia). cbn. lia.
    + by rewrite lookup_insert_eq.
    + rewrite lookup_insert_eq. intros n [= <-]. split; lia.
  - apply (keeps_insert dev k k' i r'); try done; [by eapply lookup_lt_Some|].
    intros r2 E. rewrite Er in E. by injection E as <-.
Qed.

Lemma bpin_ok c me dev k A i b :
  quiet c me k -> bio me dev k A -> handle dev k i b -> is_Some (a_refs A !! b) ->
  Z.of_nat (default O (a_refs A !! b)) < 2 ^ 31 ->
  exists k', bpin i k = Ok tt k' /\ bframe me k k' /\ k_hw k' = k_hw k /\ bio me dev k' (pin A b) /\
    keeps dev k k' (fun _ => True).
Proof.
  intros Q B Hh Hrefs Hmax. pose proof Hh as (r & Hi & Er & _).
  destruct (bpin_bio me dev k A i b r B Hh Hrefs Hmax Er) as [B' K].
  eexists. split; [by apply (bpin_run c); [apply Q|apply Q|]|]. by split_and!.
Qed.

Lemma bunpin_ok c me dev k A i b n :
  quiet c me k -> bio me dev k A -> handle dev k i b -> a_refs A !! b = Some (S n) ->
  (n = O -> a_view A b = now k b /\ b ∉ a_held A) ->
  exists k', bunpin i k = Ok tt k' /\ bframe me k k' /\ k_hw k' = k_hw k /\ bio me dev k' (unpin A b) /\
    keeps dev k k' (fun _ => True).
Proof.
  intros Q B (r & Hi & Er & Dr & <- & Vr) Hrefs Hn. destruct (q_free _ _ _ Q LBcache I) as [nm El].
  unfold bunpin. rewrite (bind_Ok _ _ _ _ _ (acquire_ok c nm _ k (q_cpu _ _ _ Q) El)).
  rewrite (bind_Ok _ _ _ _ _ (upd_buf_enter c nm LBcache _ _ _ _ Er)).
  set (r' := set_b_refcnt _ r). set (k' := set_k_bufs _ k).
  rewrite (release_ok c nm LBcache k') by (done || apply Q).
  destruct (bio_slot _ _ _ _ B i r Hi Er Dr) as (S1 & S2 & S3 & S4). rewrite Hrefs in S1. cbn in S1.
  destruct (bio_refs _ _ _ _ B _ _ Hrefs) as [Hcnt _].
  exists k'. split_and!; try done.
  - apply (bio_recount me dev k A (unpin A (b_blockno r)) i r r'); try done; cbn.
    + intros x Hx. by rewrite unref_ne.
    + rewrite (unref_eq _ _ _ Hrefs), S1. replace (Z.of_nat (S n) - 1) with (Z.of_nat n) by lia.
      apply u32_small. destruct Hcnt. unfold is_u32. lia.
    + intros E. apply Hn. by eapply unref_none.
    + intros m Hm. by eapply unref_count.
  - apply (keeps_insert dev k k' i r'); try done; [by eapply lookup_lt_Some|].
    intros r2 E. rewrite Er in E. by injection E as <-.
Qed.

(** ** Moving a buffer to the front of the list *)

(** A buffer without its links. *)
Definition core (r : buf) : buf := set_b_next 0 (set_b_prev 0 r).

(** [k'] is [k] but for links, which are now [nf] and [pf]. *)
Definition relinked k (nf pf : nat -> nat) k' : Prop :=
  exists bs, k' = set_k_bufs bs k /\ length bs = length (k_bufs k) /\
    (forall j r', bs !! j = Some r' -> exists r, k_bufs k !! j = Some r /\ core r' = core r) /\
    (forall x, nx k' x = nf x) /\ (forall x, pv k' x = pf x).

Lemma relinked_refl k : relinked k (nx k) (pv k) k.
Proof. exists (k_bufs k). split_and!; try done; [by destruct k|]. intros j r' E. by exists r'. Qed.

Lemma relinked_get k nf pf k1 x c nm l :
  relinked k nf pf k1 -> (x < length (k_bufs k))%nat ->
  exists r, get_buf x (enter c nm l k1) = Ok r (enter c nm l k1) /\ b_next r = nf x /\ b_prev r = pf x.
Proof.
  intros (bs & -> & L & C & Hn & Hp) Hx. destruct (lookup_lt_is_Some_2 bs x) as [r Er]; [by rewrite L|].
  exists r. split; [by apply get_buf_enter|]. rewrite <- Hn, <- Hp. unfold nx, pv. cbn. by rewrite Er.
Qed.

Lemma relinked_upd k nf pf k1 x f vn vp c nm l :
  relinked k nf pf k1 -> (x < length (k_bufs k))%nat -> (forall r, core (f r) = core r) ->
  (forall r, b_next r = nf x -> b_next (f r) = vn) -> (forall r, b_prev r = pf x -> b_prev (f r) = vp) ->
  exists k2, upd_buf x f (enter c nm l k1) = Ok tt (enter c nm l k2) /\
    forall nf' pf', (forall y, nf' y = upd nf x vn y) -> (forall y, pf' y = upd pf x vp y) -> relinked k nf' pf' k2.
Proof.
  intros (bs & -> & L & C & Hn & Hp) Hx Hc Hvn Hvp. destruct (lookup_lt_is_Some_2 bs x) as [r Er]; [by rewrite L|].
  assert (b_next r = nf x /\ b_prev r = pf x) as [En Ep].
  { rewrite <- Hn, <- Hp. unfold nx, pv. cbn. by rewrite Er. }
  eexists. split; [by apply upd_buf_enter|]. intros nf' pf' Hn' Hp'. eexists. split; [reflexivity|]. cbn. split_and!.
  - by rewrite length_insert.
  - intros j r'. destruct (decide (j = x)) as [->|].
    + rewrite list_lookup_insert_eq by (by rewrite L). intros [= <-]. rewrite Hc. by apply C.
    + rewrite list_lookup_insert_ne by done. apply C.
  - intros y. rewrite Hn'. unfold nx, upd. cbn. case_decide as E; [subst y|].
    + rewrite list_lookup_insert_eq by (by rewrite L). by apply Hvn.
    + rewrite list_lookup_insert_ne by done. apply Hn.
  - intros y. rewrite Hp'. unfold pv, upd. cbn. case_decide as E; [subst y|].
    + rewrite list_lookup_insert_eq by (by rewrite L). by apply Hvp.
    + rewrite list_lookup_insert_ne by done. apply Hp.
Qed.

Lemma upd_id g x y : upd g x (g x) y = g y.
Proof. unfold upd. by case_decide; subst. Qed.

Lemma relinked_prev k nf pf k1 x v c nm l :
  relinked k nf pf k1 -> (x < length (k_bufs k))%nat ->
  exists k2, upd_buf x (set_b_prev v) (enter c nm l k1) = Ok tt (enter c nm l k2) /\ relinked k nf (upd pf x v) k2.
Proof.
  intros R Hx. destruct (relinked_upd k nf pf k1 x (set_b_prev v) (nf x) v c nm l) as (k2 & E & R'); try done.
  exists k2. split; [done|]. apply R'; [|done]. intros y. by rewrite upd_id.
Qed.
Lemma relinked_next k nf pf k1 x v c nm l :
  relinked k nf pf k1 -> (x < length (k_bufs k))%nat ->
  exists k2, upd_buf x (set_b_next v) (enter c nm l k1) = Ok tt (enter c nm l k2) /\ relinked k (upd nf x v) pf k2.
Proof.
  intros R Hx. destruct (relinked_upd k nf pf k1 x (set_b_next v) v (pf x) c nm l) as (k2 & E & R'); try done.
  exists k2. split; [done|]. apply R'; [done|]. intros y. by rewrite upd_id.
Qed.

(** The links the six assignments leave, from links [n] and [p]. *)
Definition n_out (n p : nat -> nat) (b : nat) : nat -> nat := upd n (p b) (n b).
Definition p_out (n p : nat -> nat) (b : nat) : nat -> nat := upd p (n b) (p b).
Definition n_front (n1 : nat -> nat) (b : nat) : nat -> nat := upd (upd n1 b (n1 bhead)) bhead b.
Definition p_front (n1 p1 : nat -> nat) (b : nat) : nat -> nat := upd (upd p1 b bhead) (n1 bhead) b.

(** The assignments, for a list in which [b] is not its own successor. *)
Lemma move_front_links c nm lk k b :
  let n := nx k in let p := pv k in
  let n1 := n_out n p b in let p1 := p_out n p b in
  n b <> b -> b <> bhead ->
  (forall x, In x [b; bhead; n b; p b; n1 bhead] -> (x < length (k_bufs k))%nat) ->
  exists k', move_front b (enter c nm lk k) = Ok tt (enter c nm lk k') /\
    relinked k (n_front n1 b) (p_front n1 p1 b) k'.
Proof.
  intros n p n1 p1 Hnb Hbh Hlt. pose proof (relinked_refl k) as R. fold n p in R. unfold move_front.
  assert (p1 b = p b) as Ep1 by (apply upd_other; congruence).
  destruct (relinked_get _ _ _ _ b c nm lk R ltac:(apply Hlt; cbn; tauto)) as (r1 & E & En & Ep).
  rewrite (bind_Ok _ _ _ _ _ E), En, Ep. clear E En Ep.
  destruct (relinked_prev _ _ _ _ (n b) (p b) c nm lk R ltac:(apply Hlt; cbn; tauto)) as (k1 & E & R1).
  rewrite (bind_Ok _ _ _ _ _ E). clear E. change (upd p (n b) (p b)) with p1 in R1.
  destruct (relinked_get _ _ _ _ b c nm lk R1 ltac:(apply Hlt; cbn; tauto)) as (r2 & E & En & Ep).
  rewrite (bind_Ok _ _ _ _ _ E), En, Ep, Ep1. clear E En Ep.
  destruct (relinked_next _ _ _ _ (p b) (n b) c nm lk R1 ltac:(apply Hlt; cbn; tauto)) as (k2 & E & R2).
  rewrite (bind_Ok _ _ _ _ _ E). clear E. change (upd n (p b) (n b)) with n1 in R2.
  destruct (relinked_get _ _ _ _ bhead c nm lk R2 ltac:(apply Hlt; cbn; tauto)) as (r3 & E & En & _).
  rewrite (bind_Ok _ _ _ _ _ E), En. clear E En.
  destruct (relinked_next _ _ _ _ b (n1 bhead) c nm lk R2 ltac:(apply Hlt; cbn; tauto)) as (k3 & E & R3).
  rewrite (bind_Ok _ _ _ _ _ E). clear E.
  destruct (relinked_prev _ _ _ _ b bhead c nm lk R3 ltac:(apply Hlt; cbn; tauto)) as (k4 & E & R4).
  rewrite (bind_Ok _ _ _ _ _ E). clear E.
  destruct (relinked_get _ _ _ _ bhead c nm lk R4 ltac:(apply Hlt; cbn; tauto)) as (r5 & E & En5 & _).
  rewrite (bind_Ok _ _ _ _ _ E), En5, (upd_other n1 b (n1 bhead) bhead) by congruence. clear E.
  destruct (relinked_prev _ _ _ _ (n1 bhead) b c nm lk R4 ltac:(apply Hlt; cbn; tauto)) as (k5 & E & R5).
  rewrite (bind_Ok _ _ _ _ _ E). clear E.
  destruct (relinked_next _ _ _ _ bhead b c nm lk R5 ltac:(apply Hlt; cbn; tauto)) as (k6 & E & R6).
  exists k6. by split.
Qed.

Lemma move_front_ok c nm lk k l1 b l2 :
  length (k_bufs k) = S NBUF -> (forall x, x ∈ l1 ++ b :: l2 -> (x < NBUF)%nat) -> NoDup (l1 ++ b :: l2) ->
  dll (nx k) (pv k) bhead (l1 ++ b :: l2) ->
  exists nf pf k', move_front b (enter c nm lk k) = Ok tt (enter c nm lk k') /\ relinked k nf pf k' /\
    dll nf pf bhead (b :: l1 ++ l2).
Proof.
  intros Hlen Hl Hnd Hd.
  assert (NoDup (bhead :: l1 ++ b :: l2)) as Hnd'.
  { apply list.NoDup_cons. split; [|done]. intros Hin. apply Hl in Hin. unfold bhead in Hin. lia. }
  assert (NoDup (bhead :: b :: l1 ++ l2)) as Hnd'' by (by rewrite Permutation_middle).
  destruct (dll_split _ _ _ _ _ _ Hd) as (q & r & Eq & Er & _).
  assert (forall x, x = bhead \/ x ∈ l1 ++ b :: l2 -> (x < length (k_bufs k))%nat) as Hlt.
  { intros x [->|Hx]; [unfold bhead; lia|]. apply Hl in Hx. lia. }
  assert (nx k b ∈ l2 ++ [bhead]) as Hn by (rewrite Er; set_solver).
  assert (pv k b ∈ bhead :: l1) as Hp by (rewrite Eq; set_solver).
  pose proof (dll_unlink _ _ _ _ _ _ Hnd' Hd) as Hd1.
  pose proof (dll_push _ _ _ b _ Hnd'' Hd1) as Hd2.
  apply list.NoDup_cons in Hnd'' as [Hh Hnd'']. apply list.NoDup_cons in Hnd'' as [Hb _].
  destruct (move_front_links c nm lk k b) as (k' & E & R).
  - intros E. rewrite E in Hn. set_solver.
  - set_solver.
  - intros x. rewrite <- list_elem_of_In. intros Hx. apply Hlt.
    assert (n_out (nx k) (pv k) b bhead = hd bhead (l1 ++ l2)) as Eh by (by apply (dll_first _ _ _ _ Hd1)).
    rewrite Eh in Hx. destruct (l1 ++ l2) as [|z l'] eqn:E; cbn in Hx; [set_solver|].
    assert (z ∈ l1 ++ l2) by (rewrite E; set_solver). set_solver.
  - eexists _, _, k'. split; [exact E|]. by split.
Qed.

Lemma bio_links me dev k A nf pf k' l :
  bio me dev k A -> relinked k nf pf k' -> l ≡ₚ seq 0 NBUF -> dll nf pf bhead l -> bio me dev k' A.
Proof.
  intros [L LRU D U S C R Da Rd] (bs & -> & Lb & Hc & Hn & Hp) Pl Hd.
  assert (forall j r', bs !! j = Some r' -> exists r, k_bufs k !! j = Some r /\ b_dev r' = b_dev r /\
    b_blockno r' = b_blockno r /\ b_refcnt r' = b_refcnt r /\ b_lock r' = b_lock r /\ b_valid r' = b_valid r /\
    b_data r' = b_data r) as Hget.
  { intros j r' E. destruct (Hc j r' E) as (r & Er & Ec). exists r. split; [done|].
    destruct r, r'. unfold core in Ec. cbn in *. by injection Ec as -> -> -> -> -> -> ->. }
  split; cbn; try done.
  - by rewrite Lb.
  - exists l. split; [done|]. apply (dll_ext nf pf); auto.
  - intros i r Hi (r0 & E & -> & _ & -> & -> & _)%Hget. by eapply D.
  - intros i j ri rj Hi Hj (r0 & E & -> & -> & _)%Hget (r1 & E1 & -> & -> & _)%Hget. by eapply U.
  - intros i r Hi (r0 & E & -> & Eb & Er & El & Ev & Ed)%Hget Dr. destruct (S i r0 Hi E Dr).
    unfold slot_ok. by rewrite Eb, Er, El, Ev, Ed.
  - intros b n Hb. destruct (R b n Hb) as (? & i & r & Hi & Er & Dr & Br). split; [done|].
    destruct (lookup_lt_is_Some_2 bs i) as [r' Er']; [rewrite Lb; lia|].
    destruct (Hget _ _ Er') as (r0 & E & Ed & Eb & _). exists i, r'. split_and!; try done; congruence.
  - intros i r Hi (r0 & E & _ & _ & _ & _ & _ & ->)%Hget. by eapply Da.
Qed.

Lemma keeps_links dev k nf pf k' : relinked k nf pf k' -> keeps dev k k' (fun _ => True).
Proof.
  intros (bs & -> & Lb & Hc & _) j b _ (r & Hj & Er & Dr & Br & Vr).
  destruct (lookup_lt_is_Some_2 bs j) as [r' Er']; [rewrite Lb; by eapply lookup_lt_Some|].
  exists r'. destruct (Hc _ _ Er') as (r0 & E & Ec). rewrite Er in E. injection E as <-.
  destruct r, r'. unfold core in Ec. cbn in *. injection Ec as ? ? ? ? ? ? ?. subst. done.
Qed.

Lemma move_front_bio me dev c nm lk k A i :
  bio me dev k A -> (i < NBUF)%nat ->
  exists k', move_front i (enter c nm lk k) = Ok tt (enter c nm lk k') /\ bframe me k k' /\ k_hw k' = k_hw k /\
    bio me dev k' A /\ keeps dev k k' (fun _ => True).
Proof.
  intros B Hi. destruct (bio_lru _ _ _ _ B) as (l & Pl & Hd).
  assert (i ∈ l) as (l1 & l2 & ->)%list_elem_of_split by (rewrite Pl; apply elem_of_seq; lia).
  destruct (move_front_ok c nm lk k l1 i l2) as (nf & pf & k' & E & R & Hd').
  - apply (bio_len _ _ _ _ B).
  - intros x. rewrite Pl, elem_of_seq. lia.
  - rewrite Pl. apply NoDup_seq.
  - done.
  - exists k'. split; [done|]. split_and!.
    + destruct R as (bs & -> & _). by split.
    + by destruct R as (bs & -> & _).
    + eapply (bio_links me dev k A _ _ k' (i :: l1 ++ l2)); try done. by rewrite Permutation_middle.
    + by eapply keeps_links.
Qed.

Lemma keeps_trans dev k1 k2 k3 (P : Z -> Prop) :
  keeps dev k1 k2 P -> keeps dev k2 k3 (fun _ => True) -> keeps dev k1 k3 P.
Proof. intros K1 K2 j b Pb Hj. by apply K2, K1. Qed.

(** The lock given back, the count one less. *)
Definition dropped (r : buf) : buf :=
  set_b_refcnt (u32 (b_refcnt r - 1)) (set_b_lock (mkSleep 0 (sk_name (b_lock r)) 0) r).

Lemma drop_ref me dev k A i r n ps :
  bio me dev k A -> (i < NBUF)%nat -> k_bufs k !! i = Some r -> b_dev r = dev -> b_valid r <> 0 ->
  a_refs A !! b_blockno r = Some (S n) -> (n = O -> a_view A (b_blockno r) = now k (b_blockno r)) ->
  procs_woken me (k_proc k) ps ->
  let k2 := set_k_bufs (<[i := dropped r]> (k_bufs k)) (set_k_proc ps k) in
  bframe me k k2 /\ bio me dev k2 (drop A (b_blockno r)) /\ keeps dev k k2 (fun _ => True).
Proof.
  intros B Hi Er Dr Vr Hrefs Hclean Hps. set (k0 := set_k_proc ps k). intros k2.
  destruct (bio_slot _ _ _ _ B i r Hi Er Dr) as (S1 & S2 & S3 & S4). rewrite Hrefs in S1. cbn in S1.
  destruct (bio_refs _ _ _ _ B _ _ Hrefs) as [Hcnt _].
  assert (bio me dev k0 A) as B0 by by eapply (bio_same_bufs me dev k); [| |..|apply B].
  split; [by split|]. split.
  - apply (bio_recount me dev k0 A (drop A (b_blockno r)) i r (dropped r)); try done; cbn.
    + intros x Hx. rewrite unref_ne, elem_of_difference, elem_of_singleton by done. naive_solver.
    + rewrite (unref_eq _ _ _ Hrefs), S1. replace (Z.of_nat (S n) - 1) with (Z.of_nat n) by lia.
      apply u32_small. destruct Hcnt. unfold is_u32. lia.
    + by rewrite decide_False by set_solver.
    + intros [_ Hx]%elem_of_difference. by rewrite elem_of_singleton in Hx.
    + intros E. split; [|set_solver]. apply Hclean. by eapply unref_none.
    + intros m Hm. by eapply unref_count.
  - apply (keeps_insert dev k k2 i (dropped r)); try done; [by eapply lookup_lt_Some|].
    intros r' E. rewrite Er in E. by injection E as <-.
Qed.

Lemma brelse_ok c me dev k A i b n :
  quiet c me k -> bio me dev k A -> handle dev k i b -> b ∈ a_held A -> a_refs A !! b = Some (S n) ->
  (n = O -> a_view A b = now k b) ->
  exists k', brelse i k = Ok tt k' /\ bframe me k k' /\ k_hw k' = k_hw k /\ bio me dev k' (drop A b) /\
    keeps dev k k' (fun _ => True).
Proof.
  intros Q B Hh Hb Hrefs Hclean. unfold brelse.
  rewrite (bind_Ok _ _ _ _ _ (holding_handle c me dev k A i b Q B Hh Hb)). cbn [negb].
  destruct Hh as (r & Hi & Er & Dr & <- & Vr). destruct (q_free _ _ _ Q LBcache I) as [nm El].
  assert (sleep_at (SBuf i) k = Some (b_lock r)) as Esl by (unfold sleep_at; by rewrite Er).
  rewrite (bind_Ok _ _ _ _ _ (releasesleep_ok c me (SBuf i) (b_lock r) k Q Hi Esl)).
  unfold put_sleep. rewrite (alter_insert _ _ _ _ Er). set (ps := woken _ _ _). set (k1 := set_k_proc ps _).
  destruct (drop_ref me dev k A i r n ps B Hi Er Dr Vr Hrefs Hclean ltac:(apply woken_procs)) as (F2 & B2 & K2).
  set (k2 := set_k_bufs _ _) in F2, B2, K2.
  assert (quiet c me k1) as Q1 by (eapply (bframe_quiet _ _ k); [by split; [apply F2|]|done]).
  rewrite (bind_Ok _ _ _ _ _ (acquire_ok c nm _ k1 (q_cpu _ _ _ Q1) El)).
  assert (i < length (k_bufs k))%nat as Hlt by by eapply lookup_lt_Some.
  rewrite (bind_Ok _ _ _ _ _ (upd_buf_enter c nm LBcache i _ _ k1 ltac:(by apply list_lookup_insert_eq))).
  cbn [k_bufs k1 set_k_proc set_k_bufs]. rewrite list_insert_insert_eq. change (set_k_bufs _ k1) with k2.
  rewrite (bind_Ok _ _ _ _ _ (get_buf_enter c nm LBcache i (dropped r) k2 ltac:(by apply list_lookup_insert_eq))).
  assert (forall k3, bframe me k k3 -> release LBcache (enter c nm LBcache k3) = Ok tt k3) as Hrel.
  { intros k3 F3. apply release_ok; [by apply (bframe_quiet _ _ _ _ F3 Q)|]. by destruct F3 as [_ ->]. }
  destruct (b_refcnt (dropped r) =? 0).
  - destruct (move_front_bio me dev c nm LBcache k2 _ i B2 Hi) as (k3 & E & F3 & H3 & B3 & K3).
    rewrite (bind_Ok _ _ _ _ _ E), Hrel by by transitivity k2.
    exists k3. split_and!; [done|by transitivity k2|by rewrite H3|done|by eapply keeps_trans].
  - rewrite (bind_Ok _ _ tt _ (enter c nm LBcache k2)) by done. rewrite Hrel by done. by exists k2.
Qed.

End BioInv.
