(* ===== verification/KLog.v ===== *)
(** The redo log of the guest kernel's file system (log.c).

    The header block holds a count and the home block numbers of the logged blocks;
    the blocks after it hold their contents.  [log.lh] is the same list in memory. *)
From stdpp Require Import base gmap list numbers strings tactics.
From S2P Require Import Prelude Mem KMachine KSched KBytes KBio.

Section Log.
Context {H : Type} `{!Platform H} `{!SleepFuel} `{!DiskDriver H}.
Implicit Types k : kernel H.

Definition get_log : M (kernel H) log := gets k_log.
Definition upd_log (f : log -> log) : M (kernel H) unit := modify (fun k => set_k_log (f (k_log k)) k).
Definition upd_lh (f : logheader -> logheader) : M (kernel H) unit :=
  upd_log (fun l => set_lg_lh (f (lg_lh l)) l).

(** [log.lh.block[i]], an array of [LOGSIZE] elements. *)
Definition lh_block_at (i : Z) : M (kernel H) Z :=
  let! l := get_log in if i <? 0 then fault else deref (lh_block (lg_lh l) !! Z.to_nat i).
Definition set_lh_block_at (i v : Z) : M (kernel H) unit :=
  let! _ := lh_block_at i in
  upd_lh (fun h => set_lh_block (<[Z.to_nat i := v]> (lh_block h)) h).

(** [struct logheader] over the data of a buffer: [n] and [block[i]] are [int]. *)
Definition hdr_n (d : list Z) : Z := i32 (get_le 4 0 d).
Definition hdr_block (d : list Z) (i : Z) : Z := i32 (get_le 4 (Z.to_nat (4 + 4 * i)) d).
Definition set_hdr_n (v : Z) (d : list Z) : list Z := put_le 4 0 v d.
Definition set_hdr_block (i v : Z) (d : list Z) : list Z := put_le 4 (Z.to_nat (4 + 4 * i)) v d.

(** Copy [BSIZE] bytes from one buffer to another. *)
Definition copy_buf (dst src : nat) : M (kernel H) unit :=
  let! s := get_buf src in upd_buf dst (set_b_data (b_data s)).

Definition install_trans (recovering : Z) : M (kernel H) unit :=
  let! l := get_log in
  for_range 0 (lh_n (lg_lh l)) (fun tail =>
    let! l := get_log in
    let! lbuf := bread (u32 (lg_dev l)) (u32 (lg_start l + tail + 1)) in
    let! bn := lh_block_at tail in
    let! dbuf := bread (u32 (lg_dev l)) (u32 bn) in
    copy_buf dbuf lbuf ;;
    bwrite dbuf ;;
    (if recovering =? 0 then bunpin dbuf else ret tt) ;;
    brelse lbuf ;;
    brelse dbuf).

Definition read_head : M (kernel H) unit :=
  let! l := get_log in
  let! b := bread (u32 (lg_dev l)) (u32 (lg_start l)) in
  let! r := get_buf b in
  upd_lh (set_lh_n (hdr_n (b_data r))) ;;
  for_range 0 (hdr_n (b_data r)) (fun i =>
    let! r := get_buf b in
    set_lh_block_at i (hdr_block (b_data r) i)) ;;
  brelse b.

Definition write_head : M (kernel H) unit :=
  let! l := get_log in
  let! b := bread (u32 (lg_dev l)) (u32 (lg_start l)) in
  upd_buf b (fun r => set_b_data (set_hdr_n (lh_n (lg_lh l)) (b_data r)) r) ;;
  for_range 0 (lh_n (lg_lh l)) (fun i =>
    let! bn := lh_block_at i in
    upd_buf b (fun r => set_b_data (set_hdr_block i bn (b_data r)) r)) ;;
  bwrite b ;;
  brelse b.

Definition recover_from_log : M (kernel H) unit :=
  read_head ;;
  install_trans 1 ;;
  upd_lh (set_lh_n 0) ;;
  write_head.

(** [sizeof(struct logheader)] is less than [BSIZE]. *)
Definition initlog (dev : Z) (sb : superblock) : M (kernel H) unit :=
  (if 4 + 4 * LOGSIZE >=? BSIZE then panic else ret tt) ;;
  initlock LLog "log" ;;
  upd_log (set_lg_start (i32 (sb_logstart sb))) ;;
  upd_log (set_lg_size (i32 (sb_nlog sb))) ;;
  upd_log (set_lg_dev dev) ;;
  recover_from_log.

Fixpoint begin_op_loop (fuel : nat) : M (kernel H) unit :=
  match fuel with
  | O => spin
  | S fuel' =>
      let! l := get_log in
      if negb (lg_committing l =? 0) then sleep ChLog LLog ;; begin_op_loop fuel'
      else if lh_n (lg_lh l) + (lg_outstanding l + 1) * MAXOPBLOCKS >? LOGSIZE
      then sleep ChLog LLog ;; begin_op_loop fuel'
      else upd_log (set_lg_outstanding (lg_outstanding l + 1)) ;; release LLog
  end.

Definition begin_op : M (kernel H) unit :=
  acquire LLog ;;
  begin_op_loop (S sleep_fuel).

Definition write_log : M (kernel H) unit :=
  let! l := get_log in
  for_range 0 (lh_n (lg_lh l)) (fun tail =>
    let! l := get_log in
    let! to := bread (u32 (lg_dev l)) (u32 (lg_start l + tail + 1)) in
    let! bn := lh_block_at tail in
    let! from := bread (u32 (lg_dev l)) (u32 bn) in
    copy_buf to from ;;
    bwrite to ;;
    brelse from ;;
    brelse to).

Definition commit : M (kernel H) unit :=
  let! l := get_log in
  if 0 <? lh_n (lg_lh l) then
    write_log ;;
    write_head ;;
    install_trans 0 ;;
    upd_lh (set_lh_n 0) ;;
    write_head
  else ret tt.

Definition end_op : M (kernel H) unit :=
  acquire LLog ;;
  let! l := get_log in
  upd_log (set_lg_outstanding (lg_outstanding l - 1)) ;;
  if negb (lg_committing l =? 0) then panic else
  let! do_commit :=
    (if lg_outstanding l - 1 =? 0 then upd_log (set_lg_committing 1) ;; ret true
     else wakeup ChLog ;; ret false) in
  release LLog ;;
  if (do_commit : bool) then
    commit ;;
    acquire LLog ;;
    upd_log (set_lg_committing 0) ;;
    wakeup ChLog ;;
    release LLog
  else ret tt.

(** The first index from [i] that holds block [bn], or [i + n]. *)
Fixpoint find_logged (n : nat) (i bn : Z) : M (kernel H) Z :=
  match n with
  | O => ret i
  | S n' => let! x := lh_block_at i in if u32 x =? bn then ret i else find_logged n' (i + 1) bn
  end.

Definition log_write (b : nat) : M (kernel H) unit :=
  acquire LLog ;;
  let! l := get_log in
  if (lh_n (lg_lh l) >=? LOGSIZE) || (lh_n (lg_lh l) >=? lg_size l - 1) then panic else
  if lg_outstanding l <? 1 then panic else
  let! r := get_buf b in
  let! i := find_logged (Z.to_nat (lh_n (lg_lh l))) 0 (b_blockno r) in
  set_lh_block_at i (i32 (b_blockno r)) ;;
  (if i =? lh_n (lg_lh l) then
     bpin b ;;
     upd_lh (fun h => set_lh_n (lh_n h + 1) h)
   else ret tt) ;;
  release LLog.

End Log.
