(* ===== verification/KFs.v ===== *)
(** The guest kernel's file system: blocks, inodes, directories, paths (fs.c).

    A pointer to an inode is its index in [itable.inode]; the code never passes a null
    one to a function that tests for it.  Local structures and arrays are lists of
    bytes; [readi] returns, next to its result, the bytes it has copied. *)
From stdpp Require Import base gmap list numbers strings tactics.
From S2P Require Import Prelude Mem KMachine KString KSched KBytes KAlloc KVm KProc KBio KLog.

(** * fs.h *)

Definition ROOTINO : Z := 1.
Definition FSMAGIC : Z := 0x10203040.
Definition NDIRECT : Z := 12.
Definition NINDIRECT : Z := BSIZE / 4.
Definition MAXFILE : Z := NDIRECT + NINDIRECT.
Definition DINODE_SIZE : Z := 64.
Definition IPB : Z := BSIZE / DINODE_SIZE.
Definition IBLOCK (i : Z) (sb : superblock) : Z := u32 (i / IPB + sb_inodestart sb).
Definition BPB : Z := BSIZE * 8.
Definition BBLOCK (b : Z) (sb : superblock) : Z := u32 (b / BPB + sb_bmapstart sb).
Definition DIRSIZ : nat := 14.
Definition DIRENT_SIZE : Z := 16.
Definition T_DIR : Z := 1.
Definition T_FILE : Z := 2.
Definition T_DEVICE : Z := 3.

(** [short] *)
Definition i16 (x : Z) : Z := sext 16 x.

(** [struct superblock] over the data of a buffer. *)
Definition sb_of (d : list Z) : superblock :=
  mkSb (get_le 4 0 d) (get_le 4 4 d) (get_le 4 8 d) (get_le 4 12 d) (get_le 4 16 d) (get_le 4 20 d)
    (get_le 4 24 d) (get_le 4 28 d).

(** The [struct dinode] at offset [o] of a block: into an inode, and back. *)
Definition dinode_off (inum : Z) : nat := Z.to_nat (inum mod IPB * DINODE_SIZE).
Definition dip_type (o : nat) (d : list Z) : Z := i16 (get_le 2 o d).
Definition dinode_load (o : nat) (d : list Z) (ip : inode) : inode :=
  set_i_addrs (map (fun j => get_le 4 (o + 12 + 4 * j) d) (seq 0 13))
    (set_i_size (get_le 4 (o + 8) d) (set_i_nlink (i16 (get_le 2 (o + 6) d))
      (set_i_minor (i16 (get_le 2 (o + 4) d)) (set_i_major (i16 (get_le 2 (o + 2) d))
        (set_i_type (i16 (get_le 2 o d)) ip))))).
(** [memmove(dip->addrs, ip->addrs, sizeof(ip->addrs))] *)
Fixpoint put_words (o : nat) (ws d : list Z) : list Z :=
  match ws with [] => d | w :: ws' => put_words (o + 4) ws' (put_le 4 o (u32 w) d) end.
Definition dinode_store (o : nat) (ip : inode) (d : list Z) : list Z :=
  put_words (o + 12) (i_addrs ip) (put_le 4 (o + 8) (i_size ip) (put_le 2 (o + 6) (u16 (i_nlink ip))
    (put_le 2 (o + 4) (u16 (i_minor ip)) (put_le 2 (o + 2) (u16 (i_major ip)) (put_le 2 o (u16 (i_type ip)) d))))).
(** [memset(dip, 0, sizeof( *dip)); dip->type = type;] *)
Definition dinode_clear (o : nat) (type : Z) (d : list Z) : list Z :=
  put_le 2 o (u16 type) (splice o (replicate (Z.to_nat DINODE_SIZE) 0) d).

(** [struct dirent] as bytes. *)
Definition de_inum (de : list Z) : Z := get_le 2 0 de.
Definition de_name (de : list Z) : list Z := skipn 2 de.
Definition mk_dirent (inum : Z) (name : list Z) : list Z := le_bytes 2 (u16 inum) ++ name.

(** Bit [bi] of a bitmap block. *)
Definition bit_set (d : list Z) (bi : Z) : bool := Z.testbit (nth (Z.to_nat (bi / 8)) d 0) (bi mod 8).
Definition set_bit (d : list Z) (bi : Z) : list Z :=
  <[Z.to_nat (bi / 8) := Z.lor (nth (Z.to_nat (bi / 8)) d 0) (Z.shiftl 1 (bi mod 8))]> d.
Definition clear_bit (d : list Z) (bi : Z) : list Z :=
  <[Z.to_nat (bi / 8) := Z.land (nth (Z.to_nat (bi / 8)) d 0) (notw 8 (Z.shiftl 1 (bi mod 8)))]> d.

(** * Paths *)

(** '/' is 47. *)
Fixpoint skip_slashes (path : list Z) : list Z :=
  match path with c :: path' => if c =? 47 then skip_slashes path' else path | [] => [] end.
Fixpoint take_elem (path : list Z) : list Z * list Z :=
  match path with
  | c :: path' => if c =? 47 then ([], path) else let '(e, r) := take_elem path' in (c :: e, r)
  | [] => ([], [])
  end.
Definition skipelem (path name : list Z) : option (list Z * list Z) :=
  match skip_slashes path with
  | [] => None
  | s =>
      let '(e, r) := take_elem s in
      let len := length e in
      let name' := if (DIRSIZ <=? len)%nat then take DIRSIZ e else e ++ 0 :: skipn (S len) name in
      Some (skip_slashes r, name')
  end.
(** A local [char name[DIRSIZ]]; its first contents do not matter. *)
Definition no_name : list Z := replicate DIRSIZ 0.

Definition namecmp (s t : list Z) : Z := arr_strncmp s t DIRSIZ.

Section Fs.
Context {H : Type} `{!Platform H} `{!Symbols} `{!SleepFuel} `{!DiskDriver H}.
Implicit Types k : kernel H.

Definition get_sb : M (kernel H) superblock := gets k_sb.
Definition upd_data (b : nat) (f : list Z -> list Z) : M (kernel H) unit :=
  upd_buf b (fun r => set_b_data (f (b_data r)) r).
Definition buf_data (b : nat) : M (kernel H) (list Z) := let! r := get_buf b in ret (b_data r).

(** * Blocks *)

Definition readsb (dev : Z) : M (kernel H) unit :=
  let! bp := bread (u32 dev) 1 in
  let! d := buf_data bp in
  modify (set_k_sb (sb_of d)) ;;
  brelse bp.

Definition fsinit (dev : Z) : M (kernel H) unit :=
  readsb dev ;;
  let! sb := get_sb in
  if negb (sb_magic sb =? FSMAGIC) then panic else
  initlog dev sb.

Definition bzero (dev bno : Z) : M (kernel H) unit :=
  let! bp := bread (u32 dev) (u32 bno) in
  upd_data bp (fun _ => replicate (Z.to_nat BSIZE) 0) ;;
  log_write bp ;;
  brelse bp.

(** The first clear bit from [bi], of blocks below [size]. *)
Fixpoint first_free (n : nat) (b bi size : Z) (d : list Z) : option Z :=
  match n with
  | O => None
  | S n' =>
      if negb (u32 (b + bi) <? size) then None else
      if negb (bit_set d bi) then Some bi else first_free n' b (bi + 1) size d
  end.

Fixpoint balloc_loop (fuel : nat) (dev b : Z) : M (kernel H) Z :=
  match fuel with
  | O => spin
  | S fuel' =>
      let! sb := get_sb in
      if negb (b <? sb_size sb) then panic else
      let! bp := bread (u32 dev) (BBLOCK b sb) in
      let! d := buf_data bp in
      match first_free (Z.to_nat BPB) b 0 (sb_size sb) d with
      | Some bi =>
          upd_data bp (fun d => set_bit d bi) ;;
          log_write bp ;;
          brelse bp ;;
          bzero dev (b + bi) ;;
          ret (u32 (b + bi))
      | None => brelse bp ;; balloc_loop fuel' dev (b + BPB)
      end
  end.
Definition balloc (dev : Z) : M (kernel H) Z :=
  let! sb := get_sb in balloc_loop (S (S (Z.to_nat (sb_size sb / BPB)))) dev 0.

Definition bfree (dev b : Z) : M (kernel H) unit :=
  let! sb := get_sb in
  let! bp := bread (u32 dev) (BBLOCK b sb) in
  let bi := b mod BPB in
  let! d := buf_data bp in
  if negb (bit_set d bi) then panic else
  upd_data bp (fun d => clear_bit d bi) ;;
  log_write bp ;;
  brelse bp.

(** * Inodes *)

Definition iinit : M (kernel H) unit :=
  initlock LItable "itable" ;;
  for_range 0 NINODE (fun i => initsleeplock (SInode (Z.to_nat i)) "inode").

(** The scan of [iget]: the entry of the inode, or the first empty one. *)
Fixpoint iget_scan (n i : nat) (dev inum : Z) (empty : option nat) : M (kernel H) (nat + option nat) :=
  match n with
  | O => ret (inr empty)
  | S n' =>
      let! ip := get_inode i in
      if (i_ref ip >? 0) && (i_dev ip =? dev) && (i_inum ip =? inum) then ret (inl i) else
      iget_scan n' (S i) dev inum
        (if bool_decide (empty = None) && (i_ref ip =? 0) then Some i else empty)
  end.
Definition iget (dev inum : Z) : M (kernel H) nat :=
  acquire LItable ;;
  let! r := iget_scan (Z.to_nat NINODE) 0 dev inum None in
  match r with
  | inl i =>
      upd_inode i (fun ip => set_i_ref (i32 (i_ref ip + 1)) ip) ;;
      release LItable ;;
      ret i
  | inr None => panic
  | inr (Some i) =>
      upd_inode i (set_i_dev dev) ;;
      upd_inode i (set_i_inum inum) ;;
      upd_inode i (set_i_ref 1) ;;
      upd_inode i (set_i_valid 0) ;;
      release LItable ;;
      ret i
  end.

Fixpoint ialloc_loop (fuel : nat) (dev inum type : Z) : M (kernel H) nat :=
  match fuel with
  | O => panic
  | S fuel' =>
      let! sb := get_sb in
      let! bp := bread (u32 dev) (IBLOCK inum sb) in
      let o := dinode_off inum in
      let! d := buf_data bp in
      if dip_type o d =? 0 then
        upd_data bp (dinode_clear o type) ;;
        log_write bp ;;
        brelse bp ;;
        iget (u32 dev) (u32 inum)
      else brelse bp ;; ialloc_loop fuel' dev (inum + 1) type
  end.
(** [inum] runs from 1 to [sb.ninodes - 1]. *)
Definition ialloc (dev type : Z) : M (kernel H) nat :=
  let! sb := get_sb in ialloc_loop (Z.to_nat (sb_ninodes sb - 1)) dev 1 type.

Definition iupdate (ip : nat) : M (kernel H) unit :=
  let! sb := get_sb in
  let! r := get_inode ip in
  let! bp := bread (i_dev r) (IBLOCK (i_inum r) sb) in
  upd_data bp (dinode_store (dinode_off (i_inum r)) r) ;;
  log_write bp ;;
  brelse bp.

Definition idup (ip : nat) : M (kernel H) nat :=
  acquire LItable ;;
  upd_inode ip (fun r => set_i_ref (i32 (i_ref r + 1)) r) ;;
  release LItable ;;
  ret ip.

Definition ilock (ip : nat) : M (kernel H) unit :=
  let! r := get_inode ip in
  if i_ref r <? 1 then panic else
  acquiresleep (SInode ip) ;;
  let! r := get_inode ip in
  if i_valid r =? 0 then
    let! sb := get_sb in
    let! bp := bread (i_dev r) (IBLOCK (i_inum r) sb) in
    let! d := buf_data bp in
    upd_inode ip (dinode_load (dinode_off (i_inum r)) d) ;;
    brelse bp ;;
    upd_inode ip (set_i_valid 1) ;;
    let! r := get_inode ip in
    if i_type r =? 0 then panic else ret tt
  else ret tt.

Definition iunlock (ip : nat) : M (kernel H) unit :=
  let! h := holdingsleep (SInode ip) in
  if negb h then panic else
  let! r := get_inode ip in
  if i_ref r <? 1 then panic else
  releasesleep (SInode ip).

(** The entries of an indirect block. *)
Definition addr_at (d : list Z) (j : Z) : Z := get_le 4 (Z.to_nat (4 * j)) d.

Definition itrunc (ip : nat) : M (kernel H) unit :=
  for_range 0 NDIRECT (fun i =>
    let! r := get_inode ip in
    let! a := deref (i_addrs r !! Z.to_nat i) in
    if negb (a =? 0) then
      bfree (i_dev r) a ;;
      upd_inode ip (fun r => set_i_addrs (<[Z.to_nat i := 0]> (i_addrs r)) r)
    else ret tt) ;;
  let! r := get_inode ip in
  let! ind := deref (i_addrs r !! Z.to_nat NDIRECT) in
  (if negb (ind =? 0) then
     let! bp := bread (i_dev r) ind in
     for_range 0 NINDIRECT (fun j =>
       let! d := buf_data bp in
       if negb (addr_at d j =? 0) then bfree (i_dev r) (addr_at d j) else ret tt) ;;
     brelse bp ;;
     bfree (i_dev r) ind ;;
     upd_inode ip (fun r => set_i_addrs (<[Z.to_nat NDIRECT := 0]> (i_addrs r)) r)
   else ret tt) ;;
  upd_inode ip (set_i_size 0) ;;
  iupdate ip.

Definition iput (ip : nat) : M (kernel H) unit :=
  acquire LItable ;;
  let! r := get_inode ip in
  (if (i_ref r =? 1) && negb (i_valid r =? 0) && (i_nlink r =? 0) then
     acquiresleep (SInode ip) ;;
     release LItable ;;
     itrunc ip ;;
     upd_inode ip (set_i_type 0) ;;
     iupdate ip ;;
     upd_inode ip (set_i_valid 0) ;;
     releasesleep (SInode ip) ;;
     acquire LItable
   else ret tt) ;;
  upd_inode ip (fun r => set_i_ref (i32 (i_ref r - 1)) r) ;;
  release LItable.

Definition iunlockput (ip : nat) : M (kernel H) unit := iunlock ip ;; iput ip.

(** * Inode content *)

Definition bmap (ip : nat) (bn : Z) : M (kernel H) Z :=
  let! r := get_inode ip in
  if bn <? NDIRECT then
    let! addr := deref (i_addrs r !! Z.to_nat bn) in
    if addr =? 0 then
      let! addr := balloc (i_dev r) in
      upd_inode ip (fun r => set_i_addrs (<[Z.to_nat bn := addr]> (i_addrs r)) r) ;;
      ret addr
    else ret addr
  else
    let bn := u32 (bn - NDIRECT) in
    if bn <? NINDIRECT then
      let! ind := deref (i_addrs r !! Z.to_nat NDIRECT) in
      let! ind := (if ind =? 0 then
          let! addr := balloc (i_dev r) in
          upd_inode ip (fun r => set_i_addrs (<[Z.to_nat NDIRECT := addr]> (i_addrs r)) r) ;;
          ret addr
        else ret ind) in
      let! bp := bread (i_dev r) ind in
      let! d := buf_data bp in
      let! addr := (if addr_at d bn =? 0 then
          let! addr := balloc (i_dev r) in
          upd_data bp (put_le 4 (Z.to_nat (4 * bn)) addr) ;;
          log_write bp ;;
          ret addr
        else ret (addr_at d bn)) in
      brelse bp ;;
      ret addr
    else panic.

(** How much of [n] bytes lies in the block of [off]. *)
Definition in_block (off n : Z) : Z := Z.min n (BSIZE - off mod BSIZE).

(** The bytes copied, and whether all were. *)
Fixpoint readi_loop (fuel : nat) (ip : nat) (dst : place) (off n tot : Z) (got : list Z) : M (kernel H) (Z * list Z) :=
  if negb (tot <? n) then ret (i32 tot, got) else
  match fuel with
  | O => spin
  | S fuel' =>
      let! r := get_inode ip in
      let! bn := bmap ip (off / BSIZE) in
      let! bp := bread (i_dev r) bn in
      let m := in_block off (n - tot) in
      let! d := buf_data bp in
      let bs := slice (Z.to_nat (off mod BSIZE)) (Z.to_nat m) d in
      let! e := either_copyout dst bs in
      brelse bp ;;
      if e =? -1 then ret (-1, got)
      else readi_loop fuel' ip (place_add dst m) (u32 (off + m)) n (tot + m) (got ++ bs)
  end.
Definition readi (ip : nat) (dst : place) (off n : Z) : M (kernel H) (Z * list Z) :=
  let! r := get_inode ip in
  if (off >? i_size r) || (u32 (off + n) <? off) then ret (0, []) else
  let n := if u32 (off + n) >? i_size r then u32 (i_size r - off) else n in
  readi_loop (Z.to_nat n) ip dst off n 0 [].

(** When the copy fails, what it has copied stays in the buffer, which is not logged. *)
Fixpoint writei_loop (fuel : nat) (ip : nat) (src : place) (local : list Z) (off n tot : Z) : M (kernel H) (Z * Z) :=
  if negb (tot <? n) then ret (tot, off) else
  match fuel with
  | O => spin
  | S fuel' =>
      let! r := get_inode ip in
      let! bn := bmap ip (off / BSIZE) in
      let! bp := bread (i_dev r) bn in
      let m := in_block off (n - tot) in
      let! c := either_copyin src (skipn (Z.to_nat tot) local) m in
      upd_data bp (splice (Z.to_nat (off mod BSIZE)) (snd c)) ;;
      if fst c =? -1 then brelse bp ;; ret (tot, off) else
      log_write bp ;;
      brelse bp ;;
      writei_loop fuel' ip (place_add src m) local (u32 (off + m)) n (tot + m)
  end.
Definition writei (ip : nat) (src : place) (local : list Z) (off n : Z) : M (kernel H) Z :=
  let! r := get_inode ip in
  if (off >? i_size r) || (u32 (off + n) <? off) then ret (-1) else
  if u32 (off + n) >? MAXFILE * BSIZE then ret (-1) else
  let! w := writei_loop (Z.to_nat n) ip src local off n 0 in
  let '(tot, off) := w in
  let! r := get_inode ip in
  (if off >? i_size r then upd_inode ip (set_i_size off) else ret tt) ;;
  iupdate ip ;;
  ret (i32 tot).

(** * Directories *)

(** One [struct dirent]; the size must be read in full. *)
Definition read_dirent (dp : nat) (off : Z) : M (kernel H) (list Z) :=
  let! r := readi dp Local off DIRENT_SIZE in
  if negb (fst r =? DIRENT_SIZE) then panic else ret (snd r).

Fixpoint dirlookup_loop (fuel : nat) (dp : nat) (name : list Z) (off : Z) : M (kernel H) (option (nat * Z)) :=
  match fuel with
  | O => spin
  | S fuel' =>
      let! r := get_inode dp in
      if negb (off <? i_size r) then ret None else
      let! de := read_dirent dp off in
      if de_inum de =? 0 then dirlookup_loop fuel' dp name (u32 (off + DIRENT_SIZE)) else
      if namecmp name (de_name de) =? 0 then
        let! ip := iget (i_dev r) (de_inum de) in ret (Some (ip, off))
      else dirlookup_loop fuel' dp name (u32 (off + DIRENT_SIZE))
  end.
(** The inode of the entry, and its offset, that [poff] gets. *)
Definition dirlookup (dp : nat) (name : list Z) : M (kernel H) (option (nat * Z)) :=
  let! r := get_inode dp in
  if negb (i_type r =? T_DIR) then panic else
  dirlookup_loop (S (S (Z.to_nat (i_size r / DIRENT_SIZE)))) dp name 0.

(** The first free entry: its offset, and its bytes if it was read. *)
Fixpoint find_dirent (fuel : nat) (dp : nat) (off : Z) (de : list Z) : M (kernel H) (Z * list Z) :=
  match fuel with
  | O => spin
  | S fuel' =>
      let! r := get_inode dp in
      if negb (off <? i_size r) then ret (off, de) else
      let! de := read_dirent dp off in
      if de_inum de =? 0 then ret (off, de) else find_dirent fuel' dp (off + DIRENT_SIZE) de
  end.
Definition dirlink (dp : nat) (name : list Z) (inum : Z) : M (kernel H) Z :=
  let! l := dirlookup dp name in
  match l with
  | Some (ip, _) => iput ip ;; ret (-1)
  | None =>
      let! r := get_inode dp in
      let! f := find_dirent (S (S (Z.to_nat (i_size r / DIRENT_SIZE)))) dp 0 [] in
      let! w := writei dp Local (mk_dirent inum (arr_strncpy name DIRSIZ)) (u32 (fst f)) DIRENT_SIZE in
      if negb (w =? DIRENT_SIZE) then panic else ret 0
  end.

(** * Path names *)

(** [None] is a null pointer; the name is what [name] holds at the end. *)
Fixpoint namex_loop (fuel : nat) (ip : nat) (path name : list Z) (parent : bool) : M (kernel H) (option nat * list Z) :=
  match fuel with
  | O => spin
  | S fuel' =>
      match skipelem path name with
      | None => if parent then iput ip ;; ret (None, name) else ret (Some ip, name)
      | Some (path, name) =>
          ilock ip ;;
          let! r := get_inode ip in
          if negb (i_type r =? T_DIR) then iunlockput ip ;; ret (None, name) else
          if parent && bool_decide (path = []) then iunlock ip ;; ret (Some ip, name) else
          let! next := dirlookup ip name in
          match next with
          | None => iunlockput ip ;; ret (None, name)
          | Some (next, _) => iunlockput ip ;; namex_loop fuel' next path name parent
          end
      end
  end.
(** Every element of the path takes a character: its length is enough fuel. *)
Definition namex_start (path : list Z) : M (kernel H) nat :=
  match path with
  | c :: _ => if c =? 47 then iget ROOTDEV ROOTINO
              else let! p := cur in let! r := get_proc p in let! d := deref (p_cwd r) in idup d
  | [] => let! p := cur in let! r := get_proc p in let! d := deref (p_cwd r) in idup d
  end.
Definition namex (path : list Z) (parent : bool) : M (kernel H) (option nat * list Z) :=
  let! ip := namex_start path in namex_loop (S (length path)) ip path no_name parent.

Definition namei (path : list Z) : M (kernel H) (option nat) := let! r := namex path false in ret (fst r).
Definition nameiparent (path : list Z) : M (kernel H) (option nat * list Z) := namex path true.

End Fs.
