(* ===== verification/KFile.v ===== *)
(** Pipes and open files of the guest kernel (pipe.c, file.c).

    A pipe is a page of RAM: its fields are at their offsets in [struct pipe].  A pointer
    to a [struct file] is an index in [ftable.file]. *)
From stdpp Require Import base gmap list numbers strings tactics.
From S2P Require Import Prelude Mem KMachine KString KSched KBytes KAlloc KVm KProc KCons KBio KLog KFs.

(** * struct pipe *)

Definition PIPESIZE : Z := 512.
Definition PI_DATA : Z := 24.
Definition PI_NREAD : Z := 536.
Definition PI_NWRITE : Z := 540.
Definition PI_READOPEN : Z := 544.
Definition PI_WRITEOPEN : Z := 548.

Section File.
Context {H : Type} `{!Platform H} `{!Symbols} `{!SleepFuel} `{!KPollFuel} `{!DiskDriver H}.
Implicit Types k : kernel H.

Definition pi_get (pi off : Z) : M (kernel H) Z := on_mem (load32 (u64 (pi + off))).
Definition pi_set (pi off v : Z) : M (kernel H) unit := on_mem (store32 (u64 (pi + off)) (u32 v)).

Definition pipeclose (pi : Z) (writable : bool) : M (kernel H) unit :=
  acquire (LPipe pi) ;;
  (if writable then pi_set pi PI_WRITEOPEN 0 ;; wakeup (ChNread pi)
   else pi_set pi PI_READOPEN 0 ;; wakeup (ChNwrite pi)) ;;
  let! r := pi_get pi PI_READOPEN in
  let! w := pi_get pi PI_WRITEOPEN in
  if (r =? 0) && (w =? 0) then
    release (LPipe pi) ;;
    kfree pi
  else release (LPipe pi).

(** Every turn writes a byte or sleeps. *)
Fixpoint pipewrite_loop (fuel : nat) (pr : nat) (pi addr n i : Z) : M (kernel H) Z :=
  if negb (i <? n) then wakeup (ChNread pi) ;; release (LPipe pi) ;; ret i else
  match fuel with
  | O => spin
  | S fuel' =>
      let! ro := pi_get pi PI_READOPEN in
      let! p := get_proc pr in
      if (ro =? 0) || negb (p_killed p =? 0) then release (LPipe pi) ;; ret (-1) else
      let! nw := pi_get pi PI_NWRITE in
      let! nr := pi_get pi PI_NREAD in
      if nw =? u32 (nr + PIPESIZE) then
        wakeup (ChNread pi) ;;
        sleep (ChNwrite pi) (LPipe pi) ;;
        pipewrite_loop fuel' pr pi addr n i
      else
        let! c := copyin (p_pagetable p) (u64 (addr + i)) 1 in
        if fst c =? -1 then wakeup (ChNread pi) ;; release (LPipe pi) ;; ret i else
        let! ch := deref (head (snd c)) in
        pi_set pi PI_NWRITE (nw + 1) ;;
        on_mem (store8 (u64 (pi + PI_DATA + nw mod PIPESIZE)) ch) ;;
        pipewrite_loop fuel' pr pi addr n (i + 1)
  end.
Definition pipewrite (pi addr n : Z) : M (kernel H) Z :=
  let! pr := cur in
  acquire (LPipe pi) ;;
  pipewrite_loop (Z.to_nat n + sleep_fuel) pr pi addr n 0.

(** Wait until there is a byte or no writer; [false] when the process has been killed. *)
Fixpoint piperead_wait (fuel : nat) (pr : nat) (pi : Z) : M (kernel H) bool :=
  match fuel with
  | O => spin
  | S fuel' =>
      let! nr := pi_get pi PI_NREAD in
      let! nw := pi_get pi PI_NWRITE in
      let! wo := pi_get pi PI_WRITEOPEN in
      if (nr =? nw) && negb (wo =? 0) then
        let! p := get_proc pr in
        if negb (p_killed p =? 0) then release (LPipe pi) ;; ret false
        else sleep (ChNread pi) (LPipe pi) ;; piperead_wait fuel' pr pi
      else ret true
  end.
(** The byte is taken out of the pipe before it is copied. *)
Fixpoint piperead_copy (n : nat) (pr : nat) (pi addr i : Z) : M (kernel H) Z :=
  match n with
  | O => ret i
  | S n' =>
      let! nr := pi_get pi PI_NREAD in
      let! nw := pi_get pi PI_NWRITE in
      if nr =? nw then ret i else
      let! ch := on_mem (load8 (u64 (pi + PI_DATA + nr mod PIPESIZE))) in
      pi_set pi PI_NREAD (nr + 1) ;;
      let! p := get_proc pr in
      let! e := copyout (p_pagetable p) (u64 (addr + i)) [ch] in
      if e =? -1 then ret i else piperead_copy n' pr pi addr (i + 1)
  end.
Definition piperead (pi addr n : Z) : M (kernel H) Z :=
  let! pr := cur in
  acquire (LPipe pi) ;;
  let! ok := piperead_wait (S sleep_fuel) pr pi in
  if negb ok then ret (-1) else
  let! i := piperead_copy (Z.to_nat n) pr pi addr 0 in
  wakeup (ChNwrite pi) ;;
  release (LPipe pi) ;;
  ret i.

(** * file.c *)

Definition fileinit : M (kernel H) unit := initlock LFtable "ftable".

Fixpoint filealloc_loop (n i : nat) : M (kernel H) (option nat) :=
  match n with
  | O => release LFtable ;; ret None
  | S n' =>
      let! f := get_file i in
      if f_ref f =? 0 then
        upd_file i (set_f_ref 1) ;;
        release LFtable ;;
        ret (Some i)
      else filealloc_loop n' (S i)
  end.
Definition filealloc : M (kernel H) (option nat) :=
  acquire LFtable ;; filealloc_loop (Z.to_nat NFILE) 0.

Definition filedup (f : nat) : M (kernel H) nat :=
  acquire LFtable ;;
  let! r := get_file f in
  if f_ref r <? 1 then panic else
  upd_file f (set_f_ref (i32 (f_ref r + 1))) ;;
  release LFtable ;;
  ret f.

Definition fileclose (f : nat) : M (kernel H) unit :=
  acquire LFtable ;;
  let! r := get_file f in
  if f_ref r <? 1 then panic else
  upd_file f (set_f_ref (f_ref r - 1)) ;;
  if f_ref r - 1 >? 0 then release LFtable else
  let! ff := get_file f in
  upd_file f (set_f_ref 0) ;;
  upd_file f (set_f_type FD_NONE) ;;
  release LFtable ;;
  match f_type ff with
  | FD_PIPE => pipeclose (f_pipe ff) (negb (f_writable ff =? 0))
  | FD_INODE | FD_DEVICE =>
      begin_op ;;
      let! ip := deref (f_ip ff) in
      iput ip ;;
      end_op
  | FD_NONE => ret tt
  end.

(** [pipealloc] of pipe.c: the read end and the write end. *)
Definition pipealloc_undo (f0 f1 : option nat) : M (kernel H) (option (nat * nat)) :=
  (match f0 with Some f => fileclose f | None => ret tt end) ;;
  (match f1 with Some f => fileclose f | None => ret tt end) ;;
  ret None.
Definition pipealloc : M (kernel H) (option (nat * nat)) :=
  let! f0 := filealloc in
  match f0 with
  | None => pipealloc_undo None None
  | Some r =>
      let! f1 := filealloc in
      match f1 with
      | None => pipealloc_undo (Some r) None
      | Some w =>
          let! pi := kalloc in
          if pi =? 0 then pipealloc_undo (Some r) (Some w) else
          pi_set pi PI_READOPEN 1 ;;
          pi_set pi PI_WRITEOPEN 1 ;;
          pi_set pi PI_NWRITE 0 ;;
          pi_set pi PI_NREAD 0 ;;
          initlock (LPipe pi) "pipe" ;;
          upd_file r (fun f => set_f_pipe pi (set_f_writable 0 (set_f_readable 1 (set_f_type FD_PIPE f)))) ;;
          upd_file w (fun f => set_f_pipe pi (set_f_writable 1 (set_f_readable 0 (set_f_type FD_PIPE f)))) ;;
          ret (Some (r, w))
      end
  end.

(** [struct stat]; the four bytes that align [size] are not set by the code: here 0. *)
Definition stati (ip : inode) : list Z :=
  le_bytes 4 (i_dev ip) ++ le_bytes 4 (i_inum ip) ++ le_bytes 2 (u16 (i_type ip)) ++ le_bytes 2 (u16 (i_nlink ip)) ++
  replicate 4 0 ++ le_bytes 8 (i_size ip).

Definition filestat (f : nat) (addr : Z) : M (kernel H) Z :=
  let! p := cur in
  let! r := get_file f in
  match f_type r with
  | FD_INODE | FD_DEVICE =>
      let! ip := deref (f_ip r) in
      ilock ip ;;
      let! i := get_inode ip in
      iunlock ip ;;
      let! pr := get_proc p in
      let! e := copyout (p_pagetable pr) addr (stati i) in
      ret (if e <? 0 then -1 else 0)
  | _ => ret (-1)
  end.

(** [devsw[major]], if its number is in range. *)
Definition dev_of (major : Z) : M (kernel H) (option devsw) :=
  if (major <? 0) || (major >=? NDEV) then ret None else
  let! d := aget k_devsw (Z.to_nat major) in ret (Some d).
Definition dev_read (fn : dev_read_fn) (dst : place) (n : Z) : M (kernel H) Z :=
  match fn with consoleread_fn => consoleread dst n end.
Definition dev_write (fn : dev_write_fn) (src : place) (n : Z) : M (kernel H) Z :=
  match fn with consolewrite_fn => consolewrite src [] n end.

Definition fileread (f : nat) (addr n : Z) : M (kernel H) Z :=
  let! r := get_file f in
  if f_readable r =? 0 then ret (-1) else
  match f_type r with
  | FD_PIPE => piperead (f_pipe r) addr n
  | FD_DEVICE =>
      let! d := dev_of (f_major r) in
      match d ≫= dv_read with
      | None => ret (-1)
      | Some fn => dev_read fn (User addr) n
      end
  | FD_INODE =>
      let! ip := deref (f_ip r) in
      ilock ip ;;
      let! c := readi ip (User addr) (f_off r) (u32 n) in
      (if fst c >? 0 then upd_file f (fun r => set_f_off (u32 (f_off r + fst c)) r) else ret tt) ;;
      iunlock ip ;;
      ret (fst c)
  | FD_NONE => panic
  end.

(** The most that one transaction writes. *)
Definition write_max : Z := (MAXOPBLOCKS - 1 - 1 - 2) / 2 * BSIZE.

Fixpoint filewrite_loop (fuel : nat) (f ip : nat) (addr n i : Z) : M (kernel H) Z :=
  if negb (i <? n) then ret i else
  match fuel with
  | O => spin
  | S fuel' =>
      let n1 := Z.min (n - i) write_max in
      begin_op ;;
      ilock ip ;;
      let! r := get_file f in
      let! w := writei ip (User (u64 (addr + i))) [] (f_off r) n1 in
      (if w >? 0 then upd_file f (fun r => set_f_off (u32 (f_off r + w)) r) else ret tt) ;;
      iunlock ip ;;
      end_op ;;
      if negb (w =? n1) then ret i else filewrite_loop fuel' f ip addr n (i + w)
  end.

Definition filewrite (f : nat) (addr n : Z) : M (kernel H) Z :=
  let! r := get_file f in
  if f_writable r =? 0 then ret (-1) else
  match f_type r with
  | FD_PIPE => pipewrite (f_pipe r) addr n
  | FD_DEVICE =>
      let! d := dev_of (f_major r) in
      match d ≫= dv_write with
      | None => ret (-1)
      | Some fn => dev_write fn (User addr) n
      end
  | FD_INODE =>
      let! ip := deref (f_ip r) in
      let! i := filewrite_loop (Z.to_nat n) f ip addr n 0 in
      ret (if i =? n then n else -1)
  | FD_NONE => panic
  end.

End File.
