(* ===== verification/KFork.v ===== *)
(** The life of a process (proc.c): the first one, [fork], [exit]. *)
From stdpp Require Import base gmap list numbers strings tactics.
From S2P Require Import Prelude Mem KMachine KString KSched KBytes KAlloc KVm KProc KCons KBio KLog KFs KFile.

Definition initcode : list Z := [
  0xc0; 0x01; 0x00; 0x58; 0xe1; 0x01; 0x00; 0x58; 0xe7;
  0x00; 0x80; 0xd2; 0x01; 0x00; 0x00; 0xd4; 0x47; 0x00;
  0x80; 0xd2; 0x01; 0x00; 0x00; 0xd4; 0xfe; 0xff; 0xff;
  0x17; 0x2f; 0x69; 0x6e; 0x69; 0x74; 0x00; 0x00; 0x00;
  0x1f; 0x20; 0x03; 0xd5; 0x1c; 0x00; 0x00; 0x00; 0x00;
  0x00; 0x00; 0x00; 0x00; 0x00; 0x00; 0x00; 0x00; 0x00;
  0x00; 0x00; 0x1c; 0x00; 0x00; 0x00; 0x00; 0x00; 0x00;
  0x00; 0x28; 0x00; 0x00; 0x00; 0x00; 0x00; 0x00; 0x00].

(** [safestrcpy(p->name, name, sizeof(p->name))] *)
Definition set_name (name : list Z) (p : proc) : proc :=
  set_p_name (arr_safestrcpy (p_name p) name (NAME_SIZE - 1)) p.

Section Fork.
Context {H : Type} `{!Platform H} `{!Symbols} `{!SleepFuel} `{!KPollFuel} `{!DiskDriver H}.
Implicit Types k : kernel H.

Definition userinit : M (kernel H) unit :=
  let! mp := allocproc in
  modify (set_k_initproc mp) ;;
  let! p := deref mp in
  let! r := get_proc p in
  uvminit (p_pagetable r) initcode ;;
  upd_proc p (set_p_sz PGSIZE) ;;
  upd_tf p (set_tf_elr 0) ;;
  upd_tf p (set_tf_spsr 0) ;;
  upd_tf p (set_tf_sp PGSIZE) ;;
  upd_proc p (set_name (chars "initcode" ++ [0])) ;;
  let! d := namei (chars "/") in
  upd_proc p (set_p_cwd d) ;;
  upd_proc p (set_p_state RUNNABLE) ;;
  release (LProc p).

Definition fork : M (kernel H) Z :=
  let! p := cur in
  let! mnp := allocproc in
  match mnp with
  | None => ret (-1)
  | Some np =>
      let! rp := get_proc p in
      let! rn := get_proc np in
      let! e := uvmcopy (p_pagetable rp) (p_pagetable rn) (p_sz rp) in
      if e <? 0 then freeproc np ;; release (LProc np) ;; ret (-1) else
      upd_proc np (set_p_sz (p_sz rp)) ;;
      let! tf := get_tf p in
      upd_tf np (fun _ => tf) ;;
      upd_tf np (fun t => set_tf_x (<[O := 0]> (tf_x t)) t) ;;
      for_range 0 NOFILE (fun i =>
        let! rp := get_proc p in
        let! ofile := deref (p_ofile rp !! Z.to_nat i) in
        match ofile with
        | Some f =>
            let! f' := filedup f in
            upd_proc np (fun r => set_p_ofile (<[Z.to_nat i := Some f']> (p_ofile r)) r)
        | None => ret tt
        end) ;;
      let! cwd := deref (p_cwd rp) in
      let! cwd' := idup cwd in
      upd_proc np (set_p_cwd (Some cwd')) ;;
      upd_proc np (set_name (p_name rp)) ;;
      let! rn := get_proc np in
      let pid := p_pid rn in
      release (LProc np) ;;
      acquire LWait ;;
      upd_proc np (set_p_parent (Some p)) ;;
      release LWait ;;
      acquire (LProc np) ;;
      upd_proc np (set_p_state RUNNABLE) ;;
      release (LProc np) ;;
      ret pid
  end.

Definition close_files (p : nat) : M (kernel H) unit :=
  for_range 0 NOFILE (fun fd =>
    let! r := get_proc p in
    let! ofile := deref (p_ofile r !! Z.to_nat fd) in
    match ofile with
    | Some f =>
        fileclose f ;;
        upd_proc p (fun r => set_p_ofile (<[Z.to_nat fd := None]> (p_ofile r)) r)
    | None => ret tt
    end).

(** It does not return: [sched] comes back only to panic. *)
Definition exit {A} (status : Z) : M (kernel H) A :=
  let! p := cur in
  let! init := gets k_initproc in
  if bool_decide (init = Some p) then panic else
  close_files p ;;
  begin_op ;;
  let! r := get_proc p in
  let! cwd := deref (p_cwd r) in
  iput cwd ;;
  end_op ;;
  upd_proc p (set_p_cwd None) ;;
  acquire LWait ;;
  reparent p ;;
  let! r := get_proc p in
  wakeup_at (ChProc <$> p_parent r) ;;
  acquire (LProc p) ;;
  upd_proc p (set_p_xstate status) ;;
  upd_proc p (set_p_state ZOMBIE) ;;
  release LWait ;;
  sched ;;
  panic.

(** Then [usertrapret(tf)], in assembly, with the trap frame that is returned here. *)
Definition forkret : M (kernel H) (option nat) :=
  let! p := cur in
  let! r := get_proc p in
  release (LProc p) ;;
  let! first := gets k_first in
  (if negb (first =? 0) then
     modify (set_k_first 0) ;;
     fsinit ROOTDEV
   else ret tt) ;;
  ret (p_trapframe r).

End Fork.
