(* ===== verification/KExec.v ===== *)
(** Loading a program (exec.c, elf.h). *)
From stdpp Require Import base gmap list numbers strings tactics.
From S2P Require Import Prelude Mem Ram KMachine KString KSched KBytes KAlloc KVm KProc KCons KBio KLog KFs KFile KFork.

(** * elf.h *)

Definition ELF_MAGIC : Z := 0x464C457F.
Definition ELF_PROG_LOAD : Z := 1.
Definition ELFHDR_SIZE : Z := 64.
Definition PROGHDR_SIZE : Z := 56.

(** [struct elfhdr] and [struct proghdr] as bytes. *)
Definition eh_magic (d : list Z) : Z := get_le 4 0 d.
Definition eh_entry (d : list Z) : Z := get_le 8 24 d.
Definition eh_phoff (d : list Z) : Z := get_le 8 32 d.
Definition eh_phnum (d : list Z) : Z := get_le 2 56 d.
Definition ph_type (d : list Z) : Z := get_le 4 0 d.
Definition ph_off (d : list Z) : Z := get_le 8 8 d.
Definition ph_vaddr (d : list Z) : Z := get_le 8 16 d.
Definition ph_filesz (d : list Z) : Z := get_le 8 32 d.
Definition ph_memsz (d : list Z) : Z := get_le 8 40 d.

(** The part of [path] after the last slash. *)
Fixpoint last_elem (path last : list Z) : list Z :=
  match path with c :: path' => last_elem path' (if c =? 47 then path' else last) | [] => last end.

Section Exec.
Context {H : Type} `{!Platform H} `{!Symbols} `{!SleepFuel} `{!KPollFuel} `{!DiskDriver H}.
Implicit Types k : kernel H.

Fixpoint loadseg_loop (fuel : nat) (pagetable va : Z) (ip : nat) (offset sz i : Z) : M (kernel H) Z :=
  match fuel with
  | O => spin
  | S fuel' =>
      if negb (i <? sz) then ret 0 else
      let! pa := uva2ka pagetable (u64 (va + i)) in
      if pa =? 0 then panic else
      let n := if sz - i <? PGSIZE then sz - i else PGSIZE in
      let! r := readi ip (Kern pa) (u32 (offset + i)) n in
      if negb (u32 (fst r) =? n) then ret (-1)
      else loadseg_loop fuel' pagetable va ip offset sz (i + PGSIZE)
  end.
(** [offset] and [sz] are [uint]: the 64-bit fields of the program header are cut. *)
Definition loadseg (pagetable va : Z) (ip : nat) (offset sz : Z) : M (kernel H) Z :=
  loadseg_loop (S (S (Z.to_nat (u32 sz / PGSIZE)))) pagetable va ip (u32 offset) (u32 sz) 0.

(** [goto bad], with the page table made so far, and the inode if it is still locked. *)
Definition exec_bad (pagetable sz : Z) (ip : option nat) : M (kernel H) Z :=
  (if negb (pagetable =? 0) then uvmfree pagetable sz else ret tt) ;;
  (match ip with Some ip => iunlockput ip ;; end_op | None => ret tt end) ;;
  ret (-1).

(** The segments: the new size, or [None] where the code goes to [bad] with the size. *)
Fixpoint load_segments (n : nat) (pagetable : Z) (ip : nat) (off sz : Z) : M (kernel H) (Z * bool) :=
  match n with
  | O => ret (sz, true)
  | S n' =>
      let! ph := readi ip Local (u32 off) PROGHDR_SIZE in
      let d := snd ph in
      if negb (fst ph =? PROGHDR_SIZE) then ret (sz, false) else
      if negb (ph_type d =? ELF_PROG_LOAD) then load_segments n' pagetable ip (i32 (off + PROGHDR_SIZE)) sz else
      if ph_memsz d <? ph_filesz d then ret (sz, false) else
      if u64 (ph_vaddr d + ph_memsz d) <? ph_vaddr d then ret (sz, false) else
      let! sz1 := uvmalloc pagetable sz (u64 (ph_vaddr d + ph_memsz d)) in
      if sz1 =? 0 then ret (sz, false) else
      if negb (ph_vaddr d mod PGSIZE =? 0) then ret (sz1, false) else
      let! e := loadseg pagetable (ph_vaddr d) ip (ph_off d) (ph_filesz d) in
      if e <? 0 then ret (sz1, false) else load_segments n' pagetable ip (i32 (off + PROGHDR_SIZE)) sz1
  end.

(** The argument strings are pushed, up to the null pointer that ends [argv]: the stack
    pointers so far. *)
Fixpoint push_args (argv : list Z) (pagetable sp stackbase : Z) (ustack : list Z) : M (kernel H) (option (Z * list Z)) :=
  match argv with
  | [] => fault
  | a :: argv' =>
      if a =? 0 then ret (Some (sp, ustack)) else
      if Z.of_nat (length ustack) >=? MAXARG then ret None else
      let! len := on_mem (strlen a) in
      let sp := u64 (sp - (len + 1)) in
      let sp := sp - sp mod 16 in
      if sp <? stackbase then ret None else
      let! s := on_mem (load_bytes (Z.to_nat (len + 1)) a) in
      let! e := copyout pagetable sp s in
      if e <? 0 then ret None else push_args argv' pagetable sp stackbase (ustack ++ [sp])
  end.

(** [exec] after the segments are loaded and the inode is released. *)
Definition exec_stack (path : list Z) (argv : list Z) (pagetable sz entry : Z) : M (kernel H) Z :=
  let! p := cur in
  let! r := get_proc p in
  let oldsz := p_sz r in
  let sz := PGROUNDUP sz in
  let! sz1 := uvmalloc pagetable sz (u64 (sz + 2 * PGSIZE)) in
  if sz1 =? 0 then exec_bad pagetable sz None else
  uvmclear pagetable (u64 (sz1 - 2 * PGSIZE)) ;;
  let stackbase := u64 (sz1 - PGSIZE) in
  let! a := push_args argv pagetable sz1 stackbase [] in
  match a with
  | None => exec_bad pagetable sz1 None
  | Some (sp, ustack) =>
      let argc := Z.of_nat (length ustack) in
      let sp := u64 (sp - (argc + 1) * 8) in
      let sp := sp - sp mod 16 in
      if sp <? stackbase then exec_bad pagetable sz1 None else
      let! e := copyout pagetable sp (concat (map (le_bytes 8) (ustack ++ [0]))) in
      if e <? 0 then exec_bad pagetable sz1 None else
      upd_tf p (fun t => set_tf_x (<[1%nat := sp]> (tf_x t)) t) ;;
      upd_proc p (set_name (last_elem path path ++ [0])) ;;
      let! r := get_proc p in
      let oldpagetable := p_pagetable r in
      upd_proc p (set_p_pagetable pagetable) ;;
      upd_proc p (set_p_sz sz1) ;;
      upd_tf p (set_tf_elr entry) ;;
      upd_tf p (set_tf_spsr 0) ;;
      upd_tf p (set_tf_sp sp) ;;
      switchuvm p ;;
      uvmfree oldpagetable oldsz ;;
      ret (i32 argc)
  end.

Definition exec (path : list Z) (argv : list Z) : M (kernel H) Z :=
  begin_op ;;
  let! mip := namei path in
  match mip with
  | None => end_op ;; ret (-1)
  | Some ip =>
      ilock ip ;;
      let! eh := readi ip Local 0 ELFHDR_SIZE in
      if negb (fst eh =? ELFHDR_SIZE) then exec_bad 0 0 (Some ip) else
      if negb (eh_magic (snd eh) =? ELF_MAGIC) then exec_bad 0 0 (Some ip) else
      let! pagetable := uvmcreate in
      if pagetable =? 0 then exec_bad 0 0 (Some ip) else
      let! l := load_segments (Z.to_nat (eh_phnum (snd eh))) pagetable ip (i32 (eh_phoff (snd eh))) 0 in
      if negb (snd l) then exec_bad pagetable (fst l) (Some ip) else
      iunlockput ip ;;
      end_op ;;
      exec_stack path argv pagetable (fst l) (eh_entry (snd eh))
  end.

End Exec.
