(* ===== verification/KSys.v ===== *)
(** The system calls of the guest kernel (syscall.c, sysproc.c, sysfile.c).

    A result is the value that goes to [x0] of the trap frame. *)
From stdpp Require Import base gmap list numbers strings tactics.
From S2P Require Import Prelude Mem Ram KMachine KString KSched KBytes KAlloc KVm KProc KCons KBio KLog KFs KFile KFork KExec.

(** * syscall.h, fcntl.h *)

Definition SYS_fork : Z := 1.
Definition SYS_exit : Z := 2.
Definition SYS_wait : Z := 3.
Definition SYS_pipe : Z := 4.
Definition SYS_read : Z := 5.
Definition SYS_kill : Z := 6.
Definition SYS_exec : Z := 7.
Definition SYS_fstat : Z := 8.
Definition SYS_chdir : Z := 9.
Definition SYS_dup : Z := 10.
Definition SYS_getpid : Z := 11.
Definition SYS_sbrk : Z := 12.
Definition SYS_sleep : Z := 13.
Definition SYS_uptime : Z := 14.
Definition SYS_open : Z := 15.
Definition SYS_write : Z := 16.
Definition SYS_mknod : Z := 17.
Definition SYS_unlink : Z := 18.
Definition SYS_link : Z := 19.
Definition SYS_mkdir : Z := 20.
Definition SYS_close : Z := 21.

Definition O_RDONLY : Z := 0x000.
Definition O_WRONLY : Z := 0x001.
Definition O_RDWR : Z := 0x002.
Definition O_CREATE : Z := 0x200.
Definition O_TRUNC : Z := 0x400.

Section Sys.
Context {H : Type} `{!Platform H} `{!Symbols} `{!SleepFuel} `{!KPollFuel} `{!DiskDriver H}.
Implicit Types k : kernel H.

(** * Arguments *)

(** The value at [addr], if it is there. *)
Definition fetchaddr (addr : Z) : M (kernel H) (option Z) :=
  let! p := cur in
  let! r := get_proc p in
  if (addr >=? p_sz r) || (u64 (addr + 8) >? p_sz r) then ret None else
  let! c := copyin (p_pagetable r) addr 8 in
  if negb (fst c =? 0) then ret None else ret (Some (get_le 8 0 (snd c))).

(** The length of the string, and what has been copied to the buffer. *)
Definition fetchstr (addr max : Z) : M (kernel H) (Z * list Z) :=
  let! p := cur in
  let! r := get_proc p in
  let! c := copyinstr (p_pagetable r) addr max in
  if fst c <? 0 then ret c else ret (Z.of_nat (length (arr_str (snd c))), snd c).

Definition argraw (n : nat) : M (kernel H) Z :=
  let! p := cur in
  let! tf := get_tf p in
  if (n <? 6)%nat then deref (tf_x tf !! n) else panic.
Definition argint (n : nat) : M (kernel H) Z := let! v := argraw n in ret (i32 v).
Definition argaddr (n : nat) : M (kernel H) Z := argraw n.

(** The characters of the path, or [None] where [argstr] returns -1. *)
Definition argstr (n : nat) (max : Z) : M (kernel H) (option (list Z)) :=
  let! addr := argaddr n in
  let! s := fetchstr addr max in
  ret (if fst s <? 0 then None else Some (arr_str (snd s))).

(** * sysproc.c *)

Definition sys_exit : M (kernel H) Z := let! n := argint 0 in exit n.
Definition sys_getpid : M (kernel H) Z := let! p := cur in let! r := get_proc p in ret (p_pid r).
Definition sys_fork : M (kernel H) Z := fork.
Definition sys_wait : M (kernel H) Z := let! p := argaddr 0 in wait p.

Definition sys_sbrk : M (kernel H) Z :=
  let! n := argint 0 in
  let! p := cur in
  let! r := get_proc p in
  let addr := i32 (p_sz r) in
  let! e := growproc n in
  ret (if e <? 0 then -1 else addr).

(** A negative [n] is compared as [uint]. *)
Fixpoint sys_sleep_loop (fuel : nat) (ticks0 n : Z) : M (kernel H) Z :=
  match fuel with
  | O => spin
  | S fuel' =>
      let! ticks := gets k_ticks in
      if negb (u32 (ticks - ticks0) <? u32 n) then release LTicks ;; ret 0 else
      let! p := cur in
      let! r := get_proc p in
      if negb (p_killed r =? 0) then release LTicks ;; ret (-1)
      else sleep ChTicks LTicks ;; sys_sleep_loop fuel' ticks0 n
  end.
Definition sys_sleep : M (kernel H) Z :=
  let! n := argint 0 in
  acquire LTicks ;;
  let! ticks0 := gets k_ticks in
  sys_sleep_loop (S sleep_fuel) ticks0 n.

Definition sys_kill : M (kernel H) Z := let! pid := argint 0 in kill pid.

Definition sys_uptime : M (kernel H) Z :=
  acquire LTicks ;;
  let! xticks := gets k_ticks in
  release LTicks ;;
  ret xticks.

(** * sysfile.c *)

(** The descriptor and the file. *)
Definition argfd (n : nat) : M (kernel H) (option (Z * nat)) :=
  let! fd := argint n in
  if (fd <? 0) || (fd >=? NOFILE) then ret None else
  let! p := cur in
  let! r := get_proc p in
  let! f := deref (p_ofile r !! Z.to_nat fd) in
  ret ((fun f => (fd, f)) <$> f).

Fixpoint fdalloc_loop (n fd : nat) (p f : nat) : M (kernel H) Z :=
  match n with
  | O => ret (-1)
  | S n' =>
      let! r := get_proc p in
      let! o := deref (p_ofile r !! fd) in
      match o with
      | None => upd_proc p (fun r => set_p_ofile (<[fd := Some f]> (p_ofile r)) r) ;; ret (Z.of_nat fd)
      | Some _ => fdalloc_loop n' (S fd) p f
      end
  end.
Definition fdalloc (f : nat) : M (kernel H) Z := let! p := cur in fdalloc_loop (Z.to_nat NOFILE) 0 p f.

(** [myproc()->ofile[fd] = 0] *)
Definition clear_fd (fd : Z) : M (kernel H) unit :=
  let! p := cur in upd_proc p (fun r => set_p_ofile (<[Z.to_nat fd := None]> (p_ofile r)) r).

Definition sys_dup : M (kernel H) Z :=
  let! a := argfd 0 in
  match a with
  | None => ret (-1)
  | Some (_, f) =>
      let! fd := fdalloc f in
      if fd <? 0 then ret (-1) else let! _ := filedup f in ret fd
  end.

Definition sys_read : M (kernel H) Z :=
  let! a := argfd 0 in
  match a with
  | None => ret (-1)
  | Some (_, f) => let! n := argint 2 in let! p := argaddr 1 in fileread f p n
  end.

Definition sys_write : M (kernel H) Z :=
  let! a := argfd 0 in
  match a with
  | None => ret (-1)
  | Some (_, f) => let! n := argint 2 in let! p := argaddr 1 in filewrite f p n
  end.

Definition sys_close : M (kernel H) Z :=
  let! a := argfd 0 in
  match a with
  | None => ret (-1)
  | Some (fd, f) => clear_fd fd ;; fileclose f ;; ret 0
  end.

Definition sys_fstat : M (kernel H) Z :=
  let! a := argfd 0 in
  match a with
  | None => ret (-1)
  | Some (_, f) => let! st := argaddr 1 in filestat f st
  end.

(** Change the link count of a locked inode, and write it. *)
Definition add_nlink (ip : nat) (d : Z) : M (kernel H) unit :=
  upd_inode ip (fun r => set_i_nlink (i16 (i_nlink r + d)) r) ;; iupdate ip.

Definition sys_link_bad (ip : nat) : M (kernel H) Z :=
  ilock ip ;;
  add_nlink ip (-1) ;;
  iunlockput ip ;;
  end_op ;;
  ret (-1).

Definition sys_link : M (kernel H) Z :=
  let! old := argstr 0 MAXPATH in
  match old with None => ret (-1) | Some old =>
  let! new := argstr 1 MAXPATH in
  match new with None => ret (-1) | Some new =>
  begin_op ;;
  let! mip := namei old in
  match mip with None => end_op ;; ret (-1) | Some ip =>
  ilock ip ;;
  let! r := get_inode ip in
  if i_type r =? T_DIR then iunlockput ip ;; end_op ;; ret (-1) else
  add_nlink ip 1 ;;
  iunlock ip ;;
  let! np := nameiparent new in
  match fst np with None => sys_link_bad ip | Some dp =>
  ilock dp ;;
  let! rd := get_inode dp in
  let! ri := get_inode ip in
  let! e := (if negb (i_dev rd =? i_dev ri) then ret (-1) else dirlink dp (snd np) (i_inum ri)) in
  if e <? 0 then iunlockput dp ;; sys_link_bad ip else
  iunlockput dp ;;
  iput ip ;;
  end_op ;;
  ret 0
  end end end end.

(** Only "." and ".." are in use. *)
Fixpoint isdirempty_loop (fuel : nat) (dp : nat) (off : Z) : M (kernel H) bool :=
  match fuel with
  | O => spin
  | S fuel' =>
      let! r := get_inode dp in
      if negb (off <? i_size r) then ret true else
      let! de := read_dirent dp off in
      if negb (de_inum de =? 0) then ret false else isdirempty_loop fuel' dp (off + DIRENT_SIZE)
  end.
Definition isdirempty (dp : nat) : M (kernel H) bool :=
  let! r := get_inode dp in
  isdirempty_loop (S (S (Z.to_nat (i_size r / DIRENT_SIZE)))) dp (2 * DIRENT_SIZE).

Definition sys_unlink_bad (dp : nat) : M (kernel H) Z := iunlockput dp ;; end_op ;; ret (-1).

Definition sys_unlink : M (kernel H) Z :=
  let! path := argstr 0 MAXPATH in
  match path with None => ret (-1) | Some path =>
  begin_op ;;
  let! np := nameiparent path in
  let name := snd np in
  match fst np with None => end_op ;; ret (-1) | Some dp =>
  ilock dp ;;
  if (namecmp name (chars "." ++ [0]) =? 0) || (namecmp name (chars ".." ++ [0]) =? 0) then sys_unlink_bad dp else
  let! l := dirlookup dp name in
  match l with None => sys_unlink_bad dp | Some (ip, off) =>
  ilock ip ;;
  let! r := get_inode ip in
  if i_nlink r <? 1 then panic else
  let! empty := (if i_type r =? T_DIR then isdirempty ip else ret true) in
  if negb empty then iunlockput ip ;; sys_unlink_bad dp else
  let! w := writei dp Local (replicate (Z.to_nat DIRENT_SIZE) 0) off DIRENT_SIZE in
  if negb (w =? DIRENT_SIZE) then panic else
  (if i_type r =? T_DIR then add_nlink dp (-1) else ret tt) ;;
  iunlockput dp ;;
  add_nlink ip (-1) ;;
  iunlockput ip ;;
  end_op ;;
  ret 0
  end end end.

(** The inode is returned locked. *)
Definition create (path : list Z) (type major minor : Z) : M (kernel H) (option nat) :=
  let! np := nameiparent path in
  let name := snd np in
  match fst np with None => ret None | Some dp =>
  ilock dp ;;
  let! l := dirlookup dp name in
  match l with
  | Some (ip, _) =>
      iunlockput dp ;;
      ilock ip ;;
      let! r := get_inode ip in
      if (type =? T_FILE) && ((i_type r =? T_FILE) || (i_type r =? T_DEVICE)) then ret (Some ip) else
      iunlockput ip ;;
      ret None
  | None =>
      let! rd := get_inode dp in
      let! ip := ialloc (i_dev rd) type in
      ilock ip ;;
      upd_inode ip (fun r => set_i_nlink 1 (set_i_minor (i16 minor) (set_i_major (i16 major) r))) ;;
      iupdate ip ;;
      (if type =? T_DIR then
         add_nlink dp 1 ;;
         let! ri := get_inode ip in
         let! e1 := dirlink ip (chars ".") (i_inum ri) in
         if e1 <? 0 then panic else
         let! rd := get_inode dp in
         let! e2 := dirlink ip (chars "..") (i_inum rd) in
         if e2 <? 0 then panic else ret tt
       else ret tt) ;;
      let! ri := get_inode ip in
      let! e := dirlink dp name (i_inum ri) in
      if e <? 0 then panic else
      iunlockput dp ;;
      ret (Some ip)
  end end.

(** From the locked inode of [sys_open] to the descriptor. *)
Definition open_file (ip : nat) (omode : Z) : M (kernel H) Z :=
  let! r := get_inode ip in
  if (i_type r =? T_DEVICE) && ((i_major r <? 0) || (i_major r >=? NDEV)) then
    iunlockput ip ;; end_op ;; ret (-1)
  else
  let! mf := filealloc in
  let! fd := (match mf with Some f => fdalloc f | None => ret (-1) end) in
  match mf with
  | Some f =>
      if fd <? 0 then fileclose f ;; iunlockput ip ;; end_op ;; ret (-1) else
      (if i_type r =? T_DEVICE then upd_file f (fun f => set_f_major (i_major r) (set_f_type FD_DEVICE f))
       else upd_file f (fun f => set_f_off 0 (set_f_type FD_INODE f))) ;;
      upd_file f (set_f_ip (Some ip)) ;;
      upd_file f (set_f_readable (Z.b2z (negb (has omode O_WRONLY)))) ;;
      upd_file f (set_f_writable (Z.b2z (has omode O_WRONLY || has omode O_RDWR))) ;;
      (if has omode O_TRUNC && (i_type r =? T_FILE) then itrunc ip else ret tt) ;;
      iunlock ip ;;
      end_op ;;
      ret fd
  | None => iunlockput ip ;; end_op ;; ret (-1)
  end.

Definition sys_open : M (kernel H) Z :=
  let! path := argstr 0 MAXPATH in
  match path with None => ret (-1) | Some path =>
  let! omode := argint 1 in
  begin_op ;;
  if has omode O_CREATE then
    let! mip := create path T_FILE 0 0 in
    match mip with None => end_op ;; ret (-1) | Some ip => open_file ip omode end
  else
    let! mip := namei path in
    match mip with
    | None => end_op ;; ret (-1)
    | Some ip =>
        ilock ip ;;
        let! r := get_inode ip in
        if (i_type r =? T_DIR) && negb (omode =? O_RDONLY) then iunlockput ip ;; end_op ;; ret (-1)
        else open_file ip omode
    end
  end.

Definition sys_mkdir : M (kernel H) Z :=
  begin_op ;;
  let! path := argstr 0 MAXPATH in
  let! mip := (match path with None => ret None | Some path => create path T_DIR 0 0 end) in
  match mip with
  | None => end_op ;; ret (-1)
  | Some ip => iunlockput ip ;; end_op ;; ret 0
  end.

Definition sys_mknod : M (kernel H) Z :=
  begin_op ;;
  let! path := argstr 0 MAXPATH in
  let! mip := (match path with
    | None => ret None
    | Some path =>
        let! major := argint 1 in
        let! minor := argint 2 in
        create path T_DEVICE major minor
    end) in
  match mip with
  | None => end_op ;; ret (-1)
  | Some ip => iunlockput ip ;; end_op ;; ret 0
  end.

Definition sys_chdir : M (kernel H) Z :=
  let! p := cur in
  begin_op ;;
  let! path := argstr 0 MAXPATH in
  let! mip := (match path with None => ret None | Some path => namei path end) in
  match mip with
  | None => end_op ;; ret (-1)
  | Some ip =>
      ilock ip ;;
      let! r := get_inode ip in
      if negb (i_type r =? T_DIR) then iunlockput ip ;; end_op ;; ret (-1) else
      iunlock ip ;;
      let! rp := get_proc p in
      let! cwd := deref (p_cwd rp) in
      iput cwd ;;
      end_op ;;
      upd_proc p (set_p_cwd (Some ip)) ;;
      ret 0
  end.

Fixpoint free_pages (pages : list Z) : M (kernel H) unit :=
  match pages with [] => ret tt | a :: pages' => kfree a ;; free_pages pages' end.

(** The pages of the arguments so far, and whether all were fetched. *)
Fixpoint fetch_args (n : nat) (uargv : Z) (argv : list Z) : M (kernel H) (list Z * bool) :=
  match n with
  | O => ret (argv, false)
  | S n' =>
      let! a := fetchaddr (u64 (uargv + 8 * Z.of_nat (length argv))) in
      match a with
      | None => ret (argv, false)
      | Some uarg =>
          if uarg =? 0 then ret (argv, true) else
          let! page := kalloc in
          if page =? 0 then ret (argv, false) else
          let! s := fetchstr uarg PGSIZE in
          on_mem (store_bytes page (snd s)) ;;
          if fst s <? 0 then ret (argv ++ [page], false) else fetch_args n' uargv (argv ++ [page])
      end
  end.

Definition sys_exec : M (kernel H) Z :=
  let! path := argstr 0 MAXPATH in
  match path with None => ret (-1) | Some path =>
  let! uargv := argaddr 1 in
  let! a := fetch_args (Z.to_nat MAXARG) uargv [] in
  let '(pages, ok) := a in
  let! r := (if (ok : bool) then exec path (pages ++ replicate (Z.to_nat MAXARG - length pages) 0) else ret (-1)) in
  free_pages pages ;;
  ret r
  end.

Definition sys_pipe : M (kernel H) Z :=
  let! p := cur in
  let! fdarray := argaddr 0 in
  let! pa := pipealloc in
  match pa with
  | None => ret (-1)
  | Some (rf, wf) =>
      let! fd0 := fdalloc rf in
      let! fd1 := (if fd0 <? 0 then ret (-1) else fdalloc wf) in
      if (fd0 <? 0) || (fd1 <? 0) then
        (if fd0 >=? 0 then clear_fd fd0 else ret tt) ;;
        fileclose rf ;; fileclose wf ;; ret (-1)
      else
      let! r := get_proc p in
      let! e0 := copyout (p_pagetable r) fdarray (le_bytes 4 fd0) in
      let! e1 := (if e0 <? 0 then ret (-1) else copyout (p_pagetable r) (u64 (fdarray + 4)) (le_bytes 4 fd1)) in
      if e1 <? 0 then
        clear_fd fd0 ;; clear_fd fd1 ;; fileclose rf ;; fileclose wf ;; ret (-1)
      else ret 0
  end.

(** * Dispatch *)

Definition syscalls (num : Z) : option (M (kernel H) Z) :=
  match num with
  | 1 => Some sys_fork | 2 => Some sys_exit | 3 => Some sys_wait | 4 => Some sys_pipe | 5 => Some sys_read
  | 6 => Some sys_kill | 7 => Some sys_exec | 8 => Some sys_fstat | 9 => Some sys_chdir | 10 => Some sys_dup
  | 11 => Some sys_getpid | 12 => Some sys_sbrk | 13 => Some sys_sleep | 14 => Some sys_uptime
  | 15 => Some sys_open | 16 => Some sys_write | 17 => Some sys_mknod | 18 => Some sys_unlink
  | 19 => Some sys_link | 20 => Some sys_mkdir | 21 => Some sys_close | _ => None
  end.

Definition syscall : M (kernel H) unit :=
  let! p := cur in
  let! tf := get_tf p in
  let! x7 := deref (tf_x tf !! 7%nat) in
  let num := i32 x7 in
  let! r := (match syscalls num with
    | Some f => f
    | None =>
        let! r := get_proc p in
        printf ("%d %s: unknown sys call %d" +:+ nl) [ANum (p_pid r); AStr (Some (arr_str (p_name r))); ANum num] ;;
        ret (-1)
    end) in
  upd_tf p (fun t => set_tf_x (<[O := u64 r]> (tf_x t)) t).

End Sys.
