(* ===== verification/KDisk.v ===== *)
(** The guest kernel's driver of the virtio disk (virtio_disk.c, virtio.h).

    [struct disk] is the record [vdisk]: the descriptors, the available ring and the used
    ring of its two pages, then the driver's own data.  [sym_pages], [sym_ops] and
    [sym_status] are the addresses of its parts that the device is told.  The device
    works while the process that asked sleeps, inside [swtch]. *)
From stdpp Require Import base gmap list numbers strings tactics.
From S2P Require Import Prelude Mem KMachine KSched KVm KBio.

Definition VIRTIO_MMIO_MAGIC_VALUE : Z := 0x000.
Definition VIRTIO_MMIO_VERSION : Z := 0x004.
Definition VIRTIO_MMIO_DEVICE_ID : Z := 0x008.
Definition VIRTIO_MMIO_VENDOR_ID : Z := 0x00c.
Definition VIRTIO_MMIO_DEVICE_FEATURES : Z := 0x010.
Definition VIRTIO_MMIO_DRIVER_FEATURES : Z := 0x020.
Definition VIRTIO_MMIO_GUEST_PAGE_SIZE : Z := 0x028.
Definition VIRTIO_MMIO_QUEUE_SEL : Z := 0x030.
Definition VIRTIO_MMIO_QUEUE_NUM_MAX : Z := 0x034.
Definition VIRTIO_MMIO_QUEUE_NUM : Z := 0x038.
Definition VIRTIO_MMIO_QUEUE_PFN : Z := 0x040.
Definition VIRTIO_MMIO_QUEUE_NOTIFY : Z := 0x050.
Definition VIRTIO_MMIO_INTERRUPT_STATUS : Z := 0x060.
Definition VIRTIO_MMIO_INTERRUPT_ACK : Z := 0x064.
Definition VIRTIO_MMIO_STATUS : Z := 0x070.

Definition VIRTIO_CONFIG_S_ACKNOWLEDGE : Z := 1.
Definition VIRTIO_CONFIG_S_DRIVER : Z := 2.
Definition VIRTIO_CONFIG_S_DRIVER_OK : Z := 4.
Definition VIRTIO_CONFIG_S_FEATURES_OK : Z := 8.

Definition VIRTIO_BLK_F_RO : Z := 5.
Definition VIRTIO_BLK_F_SCSI : Z := 7.
Definition VIRTIO_BLK_F_CONFIG_WCE : Z := 11.
Definition VIRTIO_BLK_F_MQ : Z := 12.
Definition VIRTIO_F_ANY_LAYOUT : Z := 27.
Definition VIRTIO_RING_F_INDIRECT_DESC : Z := 28.
Definition VIRTIO_RING_F_EVENT_IDX : Z := 29.

Definition NUM : Z := 8.
Definition VRING_DESC_F_NEXT : Z := 1.
Definition VRING_DESC_F_WRITE : Z := 2.
Definition VIRTIO_BLK_T_IN : Z := 0.
Definition VIRTIO_BLK_T_OUT : Z := 1.
(** [sizeof(struct virtio_blk_req)] *)
Definition BLK_REQ_SIZE : Z := 16.
Definition PGSHIFT : Z := 12.

(** A descriptor, the ring of heads and the used ring as [memset] leaves them. *)
Definition zero_desc : virtq_desc := mkDesc 0 0 0 0.
Definition zero_avail : virtq_avail := mkAvail 0 (replicate (Z.to_nat NUM) 0).
Definition zero_used : virtq_used := mkUsed 0 (replicate (Z.to_nat NUM) (0, 0)).

(** [features &= ~(1 << bit)], in the order of the source. *)
Definition drop_bit (features bit : Z) : Z := Z.land features (notw 64 (Z.shiftl 1 bit)).
Definition our_features (features : Z) : Z :=
  fold_left drop_bit [VIRTIO_BLK_F_RO; VIRTIO_BLK_F_SCSI; VIRTIO_BLK_F_CONFIG_WCE; VIRTIO_BLK_F_MQ;
    VIRTIO_F_ANY_LAYOUT; VIRTIO_RING_F_EVENT_IDX; VIRTIO_RING_F_INDIRECT_DESC] features.

(** The first free descriptor. *)
Fixpoint free_index (fr : list Z) (i : nat) : option nat :=
  match fr with
  | [] => None
  | f :: fr' => if negb (f =? 0) then Some i else free_index fr' (S i)
  end.

Section Disk.
Context {H : Type} `{!Platform H} `{!Symbols} `{!SleepFuel}.
Implicit Types k : kernel H.

Definition rd (r : Z) : M (kernel H) Z := reg_read (u64 (VIRTIO0 + r)).
Definition wr (r v : Z) : M (kernel H) unit := reg_write (u64 (VIRTIO0 + r)) v.

Definition get_disk : M (kernel H) vdisk := gets k_vdisk.
Definition upd_disk (f : vdisk -> vdisk) : M (kernel H) unit := modify (fun k => set_k_vdisk (f (k_vdisk k)) k).

(** Assignments to [disk.desc[i]], [disk.free[i]], [disk.info[i]], [disk.ops[i]]. *)
Definition set_desc (i : nat) (d : virtq_desc) : M (kernel H) unit :=
  let! v := get_disk in
  let! _ := deref (vd_desc v !! i) in
  upd_disk (set_vd_desc (<[i := d]> (vd_desc v))).
Definition set_free (i : nat) (f : Z) : M (kernel H) unit :=
  let! v := get_disk in
  let! _ := deref (vd_free v !! i) in
  upd_disk (set_vd_free (<[i := f]> (vd_free v))).
Definition set_info (i : nat) (f : option nat * Z -> option nat * Z) : M (kernel H) unit :=
  let! v := get_disk in
  let! e := deref (vd_info v !! i) in
  upd_disk (set_vd_info (<[i := f e]> (vd_info v))).
Definition set_op (i : nat) (r : virtio_blk_req) : M (kernel H) unit :=
  let! v := get_disk in
  let! _ := deref (vd_ops v !! i) in
  upd_disk (set_vd_ops (<[i := r]> (vd_ops v))).

(** [memset(disk.pages, 0, sizeof(disk.pages))] *)
Definition clear_pages : M (kernel H) unit :=
  upd_disk (set_vd_desc (replicate (Z.to_nat NUM) zero_desc)) ;;
  upd_disk (set_vd_avail zero_avail) ;;
  upd_disk (set_vd_used zero_used).

Definition virtio_disk_init : M (kernel H) unit :=
  initlock LVdisk "virtio_disk" ;;
  let! magic := rd VIRTIO_MMIO_MAGIC_VALUE in
  if negb (magic =? 0x74726976) then panic else
  let! version := rd VIRTIO_MMIO_VERSION in
  if negb (version =? 1) then panic else
  let! device := rd VIRTIO_MMIO_DEVICE_ID in
  if negb (device =? 2) then panic else
  let! vendor := rd VIRTIO_MMIO_VENDOR_ID in
  if negb (vendor =? 0x554d4551) then panic else
  let status := VIRTIO_CONFIG_S_ACKNOWLEDGE in
  wr VIRTIO_MMIO_STATUS status ;;
  let status := Z.lor status VIRTIO_CONFIG_S_DRIVER in
  wr VIRTIO_MMIO_STATUS status ;;
  let! features := rd VIRTIO_MMIO_DEVICE_FEATURES in
  wr VIRTIO_MMIO_DRIVER_FEATURES (our_features features) ;;
  let status := Z.lor status VIRTIO_CONFIG_S_FEATURES_OK in
  wr VIRTIO_MMIO_STATUS status ;;
  let status := Z.lor status VIRTIO_CONFIG_S_DRIVER_OK in
  wr VIRTIO_MMIO_STATUS status ;;
  wr VIRTIO_MMIO_GUEST_PAGE_SIZE PGSIZE ;;
  wr VIRTIO_MMIO_QUEUE_SEL 0 ;;
  let! max := rd VIRTIO_MMIO_QUEUE_NUM_MAX in
  if max =? 0 then panic else
  if max <? NUM then panic else
  wr VIRTIO_MMIO_QUEUE_NUM NUM ;;
  clear_pages ;;
  wr VIRTIO_MMIO_QUEUE_PFN (Z.shiftr (V2P sym_pages) PGSHIFT) ;;
  for_range 0 NUM (fun i => set_free (Z.to_nat i) 1).

(** [None] is the return of -1. *)
Definition alloc_desc : M (kernel H) (option nat) :=
  let! v := get_disk in
  match free_index (vd_free v) 0 with
  | Some i => set_free i 0 ;; ret (Some i)
  | None => ret None
  end.

Definition free_desc (i : nat) : M (kernel H) unit :=
  if (Z.to_nat NUM <=? i)%nat then panic else
  let! v := get_disk in
  let! f := deref (vd_free v !! i) in
  if negb (f =? 0) then panic else
  set_desc i zero_desc ;;
  set_free i 1 ;;
  wakeup ChDisk.

(** Every turn frees a descriptor, and a descriptor is freed once: [NUM] turns and
    the one that panics are enough.  Outside the array [free_desc] panics, whatever
    was read there. *)
Fixpoint free_chain_loop (fuel : nat) (i : nat) : M (kernel H) unit :=
  match fuel with
  | O => spin
  | S fuel' =>
      let! v := get_disk in
      match vd_desc v !! i with
      | None => panic
      | Some d =>
          free_desc i ;;
          if negb (Z.land (d_flags d) VRING_DESC_F_NEXT =? 0) then free_chain_loop fuel' (Z.to_nat (d_next d))
          else ret tt
      end
  end.
Definition free_chain (i : nat) : M (kernel H) unit := free_chain_loop (S (Z.to_nat NUM)) i.

Fixpoint free_descs (idx : list nat) : M (kernel H) unit :=
  match idx with [] => ret tt | i :: idx' => free_desc i ;; free_descs idx' end.

(** [idx] is what has been allocated so far; [None] is the return of -1. *)
Fixpoint alloc_descs (n : nat) (idx : list nat) : M (kernel H) (option (list nat)) :=
  match n with
  | O => ret (Some idx)
  | S n' =>
      let! i := alloc_desc in
      match i with
      | Some i => alloc_descs n' (idx ++ [i])
      | None => free_descs idx ;; ret None
      end
  end.
Definition alloc3_desc : M (kernel H) (option (list nat)) := alloc_descs 3 [].

Fixpoint wait_descs (fuel : nat) : M (kernel H) (list nat) :=
  match fuel with
  | O => spin
  | S fuel' =>
      let! idx := alloc3_desc in
      match idx with
      | Some idx => ret idx
      | None => sleep ChDisk LVdisk ;; wait_descs fuel'
      end
  end.

(** The three descriptors of a request, and what goes with them. *)
Definition format_request (b : nat) (write : bool) (sector : Z) (i0 i1 i2 : nat) : M (kernel H) unit :=
  set_op i0 (mkReq (if write then VIRTIO_BLK_T_OUT else VIRTIO_BLK_T_IN) 0 sector) ;;
  set_desc i0 (mkDesc (V2P (sym_ops i0)) BLK_REQ_SIZE VRING_DESC_F_NEXT (Z.of_nat i1)) ;;
  set_desc i1 (mkDesc (V2P (sym_bufdata b)) BSIZE
    (Z.lor (if write then 0 else VRING_DESC_F_WRITE) VRING_DESC_F_NEXT) (Z.of_nat i2)) ;;
  set_info i0 (fun e => (fst e, 0xff)) ;;
  set_desc i2 (mkDesc (V2P (sym_status i0)) 1 VRING_DESC_F_WRITE 0) ;;
  upd_buf b (set_b_disk 1) ;;
  set_info i0 (fun e => (Some b, snd e)).

(** The head goes to the ring, then the index says so, then the device is told. *)
Definition submit (i0 : nat) : M (kernel H) unit :=
  let! v := get_disk in
  let av := vd_avail v in
  upd_disk (set_vd_avail (mkAvail (av_idx av) (<[Z.to_nat (av_idx av mod NUM) := Z.of_nat i0]> (av_ring av)))) ;;
  let! v := get_disk in
  upd_disk (set_vd_avail (mkAvail (u16 (av_idx (vd_avail v) + 1)) (av_ring (vd_avail v)))) ;;
  wr VIRTIO_MMIO_QUEUE_NOTIFY 0.

(** [while(b->disk == 1) sleep(b, &disk.vdisk_lock);] *)
Fixpoint wait_disk (fuel : nat) (b : nat) : M (kernel H) unit :=
  match fuel with
  | O => spin
  | S fuel' =>
      let! r := get_buf b in
      if b_disk r =? 1 then sleep (ChBuf b) LVdisk ;; wait_disk fuel' b else ret tt
  end.

(** The sector number is a [uint] before it is widened. *)
Definition sector_of (blockno : Z) : Z := u32 (blockno * (BSIZE / 512)).

(** [virtio_disk_rw] of virtio_disk.c, the driver of the buffer cache. *)
Definition disk_rw (b : nat) (write : bool) : M (kernel H) unit :=
  let! r := get_buf b in
  let sector := sector_of (b_blockno r) in
  acquire LVdisk ;;
  let! idx := wait_descs (S sleep_fuel) in
  match idx with
  | [i0; i1; i2] =>
      format_request b write sector i0 i1 i2 ;;
      submit i0 ;;
      wait_disk (S sleep_fuel) b ;;
      set_info i0 (fun e => (None, snd e)) ;;
      free_chain i0 ;;
      release LVdisk
  | _ => fault
  end.

(** The completions between [used_idx] and the device's index: at most [2^16]. *)
Fixpoint intr_loop (fuel : nat) : M (kernel H) unit :=
  match fuel with
  | O => spin
  | S fuel' =>
      let! v := get_disk in
      if vd_used_idx v =? us_idx (vd_used v) then ret tt else
      let! e := deref (us_ring (vd_used v) !! Z.to_nat (vd_used_idx v mod NUM)) in
      let! info := deref (vd_info v !! Z.to_nat (fst e)) in
      if negb (snd info =? 0) then panic else
      let! b := deref (fst info) in
      upd_buf b (set_b_disk 0) ;;
      wakeup (ChBuf b) ;;
      upd_disk (fun v => set_vd_used_idx (u16 (vd_used_idx v + 1)) v) ;;
      intr_loop fuel'
  end.

Definition virtio_disk_intr : M (kernel H) unit :=
  acquire LVdisk ;;
  let! status := rd VIRTIO_MMIO_INTERRUPT_STATUS in
  wr VIRTIO_MMIO_INTERRUPT_ACK (Z.land status 0x3) ;;
  let! v := get_disk in
  intr_loop (S (Z.to_nat (u16 (us_idx (vd_used v) - vd_used_idx v)))) ;;
  release LVdisk.

End Disk.

(** The driver of the kernel as it is built. *)
Definition virtio_driver {H : Type} `{!Platform H} `{!Symbols} `{!SleepFuel} : DiskDriver H := disk_rw.
