(* ===== verification/KGic.v ===== *)
(** The guest kernel's interrupt controller and timer (gicv3.c, timer.c).

    The pointers [gicv3.gicd] and [gicv3.rdist_addrs] are null until [gicv3init]. *)
From stdpp Require Import base gmap list numbers strings tactics.
From S2P Require Import Prelude Mem KMachine KString KSched KVm KCons.

(** * gicv3.c *)

Definition UART0_IRQ : Z := 33.
Definition VIRTIO0_IRQ : Z := 48.
Definition TIMER0_IRQ : Z := 27.

Definition D_CTLR : Z := 0x0.
Definition D_TYPER : Z := 0x4.
Definition D_IGROUPR (n : Z) : Z := 0x80 + n * 4.
Definition D_ISENABLER (n : Z) : Z := 0x100 + n * 4.
Definition D_ICPENDR (n : Z) : Z := 0x280 + n * 4.
Definition D_IPRIORITYR (n : Z) : Z := 0x400 + n * 4.
Definition D_ITARGETSR (n : Z) : Z := 0x800 + n * 4.
Definition R_CTLR : Z := 0x0.
Definition R_WAKER : Z := 0x14.
Definition SGI_BASE : Z := 0x10000.
Definition R_IGROUPR0 : Z := SGI_BASE + 0x80.
Definition R_ISENABLER0 : Z := SGI_BASE + 0x100.
Definition R_ICPENDR0 : Z := SGI_BASE + 0x280.
Definition R_IPRIORITYR (n : Z) : Z := SGI_BASE + 0x400 + n * 4.
Definition R_IGRPMODR0 : Z := SGI_BASE + 0xd00.

(** * timer.c *)

Definition CNTV_CTL_ENABLE : Z := Z.shiftl 1 0.
Definition CNTV_CTL_IMASK : Z := Z.shiftl 1 1.

(** [w &= ~((uint32)0xff << (intid % 4 * 8))] *)
Definition clear_byte (w intid : Z) : Z := Z.land w (notw 32 (Z.shiftl 0xff (intid mod 4 * 8))).
(** [1 << (intid % 32)], in a [uint32]. *)
Definition irq_bit (intid : Z) : Z := u32 (Z.shiftl 1 (intid mod 32)).

Section Gic.
Context {H : Type} `{!Platform H} `{!Symbols} `{!SleepFuel} `{!KPollFuel}.
Implicit Types k : kernel H.

(** ** Registers *)

Definition w_icc_igrpen1_el1 (x : Z) : M (kernel H) unit := w_sysreg icc_igrpen1_el1 (u32 x).
Definition w_icc_pmr_el1 (x : Z) : M (kernel H) unit := w_sysreg icc_pmr_el1 (u32 x).
Definition r_icc_iar1_el1 : M (kernel H) Z := let! x := r_sysreg icc_iar1_el1 in ret (u32 x).
Definition w_icc_eoir1_el1 (x : Z) : M (kernel H) unit := w_sysreg icc_eoir1_el1 (u32 x).
Definition r_icc_sre_el1 : M (kernel H) Z := let! x := r_sysreg icc_sre_el1 in ret (u32 x).
Definition w_icc_sre_el1 (x : Z) : M (kernel H) unit := w_sysreg icc_sre_el1 (u32 x).

Definition gicd_write (off val : Z) : M (kernel H) unit :=
  let! g := gets k_gicv3 in reg_write (u64 (gv_gicd g + u32 off)) val.
Definition gicd_read (off : Z) : M (kernel H) Z :=
  let! g := gets k_gicv3 in reg_read (u64 (gv_gicd g + u32 off)).
Definition rdist (cpuid : Z) : M (kernel H) Z :=
  let! g := gets k_gicv3 in deref (gv_rdist_addrs g !! Z.to_nat cpuid).
Definition gicr_write (cpuid off val : Z) : M (kernel H) unit :=
  let! base := rdist cpuid in reg_write (u64 (base + u32 off)) val.
Definition gicr_read (cpuid off : Z) : M (kernel H) Z :=
  let! base := rdist cpuid in reg_read (u64 (base + u32 off)).

(** ** Interrupts of devices *)

Definition gic_enable_int (intid : Z) : M (kernel H) unit :=
  let! en := gicd_read (D_ISENABLER (intid / 32)) in
  gicd_write (D_ISENABLER (intid / 32)) (Z.lor en (irq_bit intid)).

Definition gic_int_enabled (intid : Z) : M (kernel H) Z :=
  let! en := gicd_read (D_ISENABLER (intid / 32)) in
  ret (i32 (Z.land en (irq_bit intid))).

Definition gic_clear_pending (intid : Z) : M (kernel H) unit :=
  let! ic := gicd_read (D_ICPENDR (intid / 32)) in
  gicd_write (D_ICPENDR (intid / 32)) (Z.lor ic (irq_bit intid)).

Definition gic_set_prio0 (intid : Z) : M (kernel H) unit :=
  let! p := gicd_read (D_IPRIORITYR (intid / 4)) in
  gicd_write (D_IPRIORITYR (intid / 4)) (clear_byte p intid).

Definition gic_set_target (intid cpuid : Z) : M (kernel H) unit :=
  let! t := gicd_read (D_ITARGETSR (intid / 4)) in
  let bit := u32 (Z.shiftl (u32 (Z.shiftl 1 cpuid)) (intid mod 4 * 8)) in
  gicd_write (D_ITARGETSR (intid / 4)) (Z.lor (clear_byte t intid) bit).

Definition gic_setup_spi (intid : Z) : M (kernel H) unit :=
  gic_set_prio0 intid ;;
  gic_set_target intid 0 ;;
  gic_clear_pending intid ;;
  gic_enable_int intid.

(** ** Interrupts of a core *)

Definition gicr_enable_int (cpuid intid : Z) : M (kernel H) unit :=
  let! en := gicr_read cpuid R_ISENABLER0 in
  gicr_write cpuid R_ISENABLER0 (Z.lor en (irq_bit intid)).

Definition gicr_clear_pending (cpuid intid : Z) : M (kernel H) unit :=
  let! ic := gicr_read cpuid R_ICPENDR0 in
  gicr_write cpuid R_ICPENDR0 (Z.lor ic (irq_bit intid)).

Definition gicr_set_prio0 (cpuid intid : Z) : M (kernel H) unit :=
  let! p := gicr_read cpuid (R_IPRIORITYR (intid / 4)) in
  gicr_write cpuid (R_IPRIORITYR (intid / 4)) (clear_byte p intid).

Definition gic_setup_ppi (cpuid intid : Z) : M (kernel H) unit :=
  gicr_set_prio0 cpuid intid ;;
  gicr_clear_pending cpuid intid ;;
  gicr_enable_int cpuid intid.

(** ** Start-up *)

Definition giccinit : M (kernel H) unit :=
  w_icc_igrpen1_el1 0 ;;
  w_icc_pmr_el1 0xff.

Definition gicdinit : M (kernel H) unit :=
  gicd_write D_CTLR 0 ;;
  let! typer := gicd_read D_TYPER in
  let lines := Z.land typer 0x1f in
  printf ("lines %d" +:+ nl) [ANum lines] ;;
  for_range 0 lines (fun i => gicd_write (D_IGROUPR i) (notw 32 0)).

(** [while(gicr_read(cpuid, R_WAKER) & (1<<2));] *)
Fixpoint wait_awake (fuel : nat) (cpuid : Z) : M (kernel H) unit :=
  match fuel with
  | O => spin
  | S fuel' =>
      let! w := gicr_read cpuid R_WAKER in
      if has w (Z.shiftl 1 2) then wait_awake fuel' cpuid else ret tt
  end.

Definition gicrinit (cpuid : Z) : M (kernel H) unit :=
  gicr_write cpuid R_CTLR 0 ;;
  let! sre := r_icc_sre_el1 in
  w_icc_sre_el1 (Z.lor sre 1) ;;
  gicr_write cpuid R_IGROUPR0 (notw 32 0) ;;
  gicr_write cpuid R_IGRPMODR0 0 ;;
  let! waker := gicr_read cpuid R_WAKER in
  gicr_write cpuid R_WAKER (Z.land waker (notw 32 (Z.shiftl 1 1))) ;;
  wait_awake kpoll_fuel cpuid.

Definition gic_enable : M (kernel H) unit :=
  gicd_write D_CTLR (Z.shiftl 1 1) ;;
  w_icc_igrpen1_el1 1.

Definition upd_gic (f : gicv3 -> gicv3) : M (kernel H) unit := modify (fun k => set_k_gicv3 (f (k_gicv3 k)) k).

Definition gicv3init : M (kernel H) unit :=
  upd_gic (fun g => mkGicv3 GICV3 (gv_rdist_addrs g)) ;;
  for_range 0 NCPU (fun i =>
    upd_gic (fun g => mkGicv3 (gv_gicd g) (<[Z.to_nat i := GICV3_REDIST + i * 0x20000]> (gv_rdist_addrs g)))) ;;
  gicdinit ;;
  gic_setup_spi UART0_IRQ ;;
  gic_setup_spi VIRTIO0_IRQ.

Definition gicv3inithart : M (kernel H) unit :=
  let! cpu := cpuid in
  giccinit ;;
  gicrinit cpu ;;
  gic_setup_ppi cpu TIMER0_IRQ ;;
  gic_enable.

(** ** Serving an interrupt *)

Definition gic_iar_irq (iar : Z) : Z := Z.land iar 0x3ff.
Definition gic_iar : M (kernel H) Z := r_icc_iar1_el1.
Definition gic_eoi (iar : Z) : M (kernel H) unit := w_icc_eoir1_el1 iar.

(** ** The timer *)

Definition enable_timer : M (kernel H) unit :=
  let! c := r_sysreg cntv_ctl_el0 in
  w_sysreg cntv_ctl_el0 (Z.land (Z.lor c CNTV_CTL_ENABLE) (notw 64 CNTV_CTL_IMASK)).
Definition disable_timer : M (kernel H) unit :=
  let! c := r_sysreg cntv_ctl_el0 in
  w_sysreg cntv_ctl_el0 (Z.lor (Z.land c (notw 64 CNTV_CTL_ENABLE)) CNTV_CTL_IMASK).
Definition reload_timer : M (kernel H) unit :=
  let! f := r_sysreg cntfrq_el0 in
  w_sysreg cntv_tval_el0 (u64 (100000 * (f / 1000000))).

Definition timerinit : M (kernel H) unit := disable_timer ;; reload_timer ;; enable_timer.
Definition timerintr : M (kernel H) unit := disable_timer ;; reload_timer ;; enable_timer.

Fixpoint delay_loop (fuel : nat) (start cycles : Z) : M (kernel H) unit :=
  match fuel with
  | O => spin
  | S fuel' =>
      let! now := r_sysreg cntvct_el0 in
      if u64 (now - start) <? cycles then delay_loop fuel' start cycles else ret tt
  end.
Definition delay (cycles : Z) : M (kernel H) unit :=
  let! start := r_sysreg cntvct_el0 in delay_loop kpoll_fuel start (u32 cycles).

End Gic.
