(* ===== verification/KTrap.v ===== *)
(** Traps and interrupts of the guest kernel (trap.c), and its start on every core (main.c).

    The disk driver is the one of [KDisk]. *)
From stdpp Require Import base gmap list numbers strings tactics.
From S2P Require Import Prelude Mem KMachine KString KSched KBytes KAlloc KVm KProc KCons KBio KLog KFs KFile KFork.
From S2P Require Import KExec KSys KDisk KGic.

Definition PSCI_CPUON : Z := 0xc4000003.

Section Trap.
Context {H : Type} `{!Platform H} `{!Symbols} `{!SleepFuel} `{!KPollFuel}.
Implicit Types k : kernel H.

#[local] Existing Instance virtio_driver.

Definition trapinit : M (kernel H) unit := initlock LTicks "time".
Definition trapinithart : M (kernel H) unit := w_sysreg vbar_el1 sym_alltraps.

Definition clockintr : M (kernel H) unit :=
  acquire LTicks ;;
  modify (fun k => set_k_ticks (u32 (k_ticks k + 1)) k) ;;
  wakeup ChTicks ;;
  release LTicks.

(** 2 is the timer, 1 another device, 0 neither. *)
Definition devintr : M (kernel H) Z :=
  let! iar := gic_iar in
  let irq := gic_iar_irq iar in
  let! dev :=
    (if irq =? UART0_IRQ then uartintr ;; ret 1
     else if irq =? VIRTIO0_IRQ then virtio_disk_intr ;; ret 1
     else if irq =? TIMER0_IRQ then
       let! c := cpuid in
       (if c =? 0 then clockintr else ret tt) ;;
       timerintr ;;
       ret 2
     else if irq =? 1023 then ret 0
     else if negb (irq =? 0) then
       printf ("unexpected interrupt irq=%d" +:+ nl) [ANum irq] ;; ret 0
     else ret 0) in
  (if negb (dev =? 0) then gic_eoi iar else ret tt) ;;
  ret dev.

(** [if(p->killed) exit(-1);] *)
Definition exit_if_killed (p : nat) : M (kernel H) unit :=
  let! r := get_proc p in
  if negb (p_killed r =? 0) then exit (-1) else ret tt.

(** [myproc()] may be null until [p->killed] is read. *)
Definition userirq : M (kernel H) unit :=
  let! mp := myproc in
  let! which_dev := devintr in
  (if which_dev =? 2 then yield else ret tt) ;;
  let! p := deref mp in
  exit_if_killed p ;;
  intr_off.

Definition usertrap : M (kernel H) unit :=
  let! mp := myproc in
  let! esr := r_sysreg esr_el1 in
  let ec := Z.land (Z.shiftr esr 26) 0x3f in
  w_sysreg esr_el1 0 ;;
  let! p := deref mp in
  (if ec =? 21 then
     exit_if_killed p ;;
     intr_on ;;
     syscall
   else
     let! esr' := r_sysreg esr_el1 in
     let! r := get_proc p in
     printf ("usertrap(): unexpected ec %p pid=%d" +:+ nl) [ANum esr'; ANum (p_pid r)] ;;
     let! elr := r_sysreg elr_el1 in
     let! far := r_sysreg far_el1 in
     printf ("            elr=%p far=%p" +:+ nl) [ANum elr; ANum far] ;;
     upd_proc p (set_p_killed 1)) ;;
  exit_if_killed p ;;
  intr_off.

Definition kerneltrap : M (kernel H) unit :=
  let! esr := r_sysreg esr_el1 in
  w_sysreg esr_el1 0 ;;
  let! on := intr_get in
  if negb (on =? 0) then kpanic "kerneltrap: interrupts enabled" else
  let ec := Z.land (Z.shiftr esr 26) 0x3f in
  let iss := Z.land esr 0x1ffffff in
  printf ("esr %p %p %p" +:+ nl) [ANum esr; ANum ec; ANum iss] ;;
  let! elr := r_sysreg elr_el1 in
  let! far := r_sysreg far_el1 in
  printf ("elr=%p far=%p" +:+ nl) [ANum elr; ANum far] ;;
  kpanic "kerneltrap".

Definition kernelirq : M (kernel H) unit :=
  let! which_dev := devintr in
  if which_dev =? 2 then
    let! mp := myproc in
    match mp with
    | None => ret tt
    | Some _ =>
        let! p := cur in
        let! r := get_proc p in
        if bool_decide (p_state r = RUNNING) then yield else ret tt
    end
  else ret tt.

(** * main.c *)

(** The boot core's half of [main]. *)
Definition main_boot : M (kernel H) unit :=
  for_range 1 NCPU (fun i => psci_call PSCI_CPUON i (V2P sym_entry) 0) ;;
  kinit1 sym_end (u64 (KERNLINK + 2 * 1024 * 1024)) ;;
  kvminit ;;
  kvminithart ;;
  kinit2 (u64 (KERNLINK + 2 * 1024 * 1024)) (P2V PHYSTOP) ;;
  consoleinit ;;
  printfinit ;;
  printf nl [] ;;
  printf ("xv6 kernel is booting..." +:+ nl) [] ;;
  printf nl [] ;;
  procinit ;;
  trapinit ;;
  trapinithart ;;
  gicv3init ;;
  gicv3inithart ;;
  timerinit ;;
  binit ;;
  iinit ;;
  fileinit ;;
  virtio_disk_init ;;
  userinit ;;
  let! intr_status := daif in
  printf ("After userinit, intr_status=0x%x" +:+ nl) [ANum intr_status] ;;
  modify (set_k_started 1).

(** The other cores wait for [started]; it does not change while this core spins. *)
Definition main_other : M (kernel H) unit :=
  let! started := gets k_started in
  if started =? 0 then spin else
  kvminithart ;;
  let! intr_status := daif in
  let! c := cpuid in
  printf ("hart %d starting, intr_status=0x%x" +:+ nl) [ANum c; ANum intr_status] ;;
  trapinithart ;;
  gicv3inithart ;;
  timerinit.

(** [turns] of the scheduler are observed. *)
Definition main (turns : nat) : M (kernel H) unit :=
  let! c := cpuid in
  (if c =? 0 then main_boot else main_other) ;;
  let! c := cpuid in
  printf (nl +:+ ">>>>>>> xv6 cpu(%d) ready to call scheduler" +:+ nl +:+ nl) [ANum c] ;;
  scheduler turns.

(** start.c: [entry.S] comes here on the stack of its core. *)
Definition start (turns : nat) : M (kernel H) unit := main turns.

End Trap.
