(* ===== verification/KCrash.v ===== *)
(** The log as a disk format: what a disk holds, and what recovery makes of it.

    [replay start D] is the disk that the file system finds after recovery from [D]:
    a committed transaction has its blocks taken from the log.  The lemmas say how the
    writes of a commit, and writes that a crash has torn, act on [replay]. *)
From stdpp Require Import base gmap sets list numbers tactics.
From S2P Require Import Prelude KMachine KBytes KBio KBioProofs KLog.

(** * The header block *)

(** [hb->block[i ..] = bs] *)
Fixpoint hdr_fill (bs : list Z) (i : nat) (d : list Z) : list Z :=
  match bs with
  | [] => d
  | b :: bs' => hdr_fill bs' (S i) (set_hdr_block (Z.of_nat i) b d)
  end.

(** The header that [write_head] makes of block [d]. *)
Definition hdr_make (bs : list Z) (d : list Z) : list Z := hdr_fill bs 0 (set_hdr_n (Z.of_nat (length bs)) d).

Lemma hdr_off i : Z.to_nat (4 + 4 * Z.of_nat i) = (4 + 4 * i)%nat.
Proof. lia. Qed.

Lemma set_hdr_block_length i b d :
  (i < 30)%nat -> length d = Z.to_nat BSIZE -> length (set_hdr_block (Z.of_nat i) b d) = Z.to_nat BSIZE.
Proof.
  intros Hi Hd. unfold set_hdr_block. rewrite hdr_off, put_le_length; [done|]. rewrite Hd. unfold BSIZE. lia.
Qed.

Lemma hdr_fill_snoc bs b i d :
  hdr_fill (bs ++ [b]) i d = set_hdr_block (Z.of_nat (i + length bs)) b (hdr_fill bs i d).
Proof.
  revert i d. induction bs as [|x bs IH]; intros i d; cbn; [by rewrite Nat.add_0_r|].
  rewrite IH. do 2 f_equal. lia.
Qed.

Lemma hdr_fill_length bs i d :
  (i + length bs <= 30)%nat -> length d = Z.to_nat BSIZE -> length (hdr_fill bs i d) = Z.to_nat BSIZE.
Proof.
  revert i d. induction bs as [|x bs IH]; intros i d Hi Hd; cbn in *; [done|].
  apply IH; [lia|]. apply set_hdr_block_length; [lia|done].
Qed.

(** A field before the filled ones stays. *)
Lemma hdr_fill_before bs i d off :
  (off + 4 <= 4 + 4 * i)%nat -> (i + length bs <= 30)%nat -> length d = Z.to_nat BSIZE ->
  get_le 4 off (hdr_fill bs i d) = get_le 4 off d.
Proof.
  revert i d. induction bs as [|x bs IH]; intros i d Ho Hi Hd; cbn in *; [done|].
  rewrite IH; [|lia|lia|apply set_hdr_block_length; [lia|done]].
  unfold set_hdr_block. rewrite hdr_off. apply get_put_other; [rewrite Hd; unfold BSIZE|]; lia.
Qed.

Lemma hdr_fill_at bs i j b d :
  bs !! j = Some b -> (i + length bs <= 30)%nat -> length d = Z.to_nat BSIZE ->
  get_le 4 (4 + 4 * (i + j)) (hdr_fill bs i d) = b mod 2 ^ 32.
Proof.
  revert i j d. induction bs as [|x bs IH]; intros i j d Hb Hi Hd; [done|]. cbn [hdr_fill length] in *.
  assert (length (set_hdr_block (Z.of_nat i) x d) = Z.to_nat BSIZE) as Hd' by (apply set_hdr_block_length; [lia|done]).
  destruct j as [|j]; cbn in Hb.
  - injection Hb as ->. rewrite hdr_fill_before by (lia || done). unfold set_hdr_block.
    rewrite hdr_off, Nat.add_0_r, get_put_same; [done|]. rewrite Hd. unfold BSIZE. lia.
  - replace (i + S j)%nat with (S i + j)%nat by lia. apply IH; [done|lia|done].
Qed.

Lemma i32_small x : 0 <= x < 2 ^ 31 -> i32 (x mod 2 ^ 32) = x.
Proof.
  intros Hx. unfold i32, sext. rewrite Z.mod_mod by lia. rewrite (Z.mod_small x) by lia.
  destruct (Z.ltb_spec x (2 ^ (32 - 1))); [done|lia].
Qed.

(** What [write_head] stores, [read_head] loads. *)
Lemma hdr_make_n bs d :
  (length bs <= 30)%nat -> length d = Z.to_nat BSIZE -> hdr_n (hdr_make bs d) = Z.of_nat (length bs).
Proof.
  intros Hl Hd. unfold hdr_n, hdr_make, set_hdr_n.
  rewrite hdr_fill_before, get_put_same; try (rewrite ?put_le_length; rewrite ?Hd; unfold BSIZE; lia).
  apply i32_small. lia.
Qed.

Lemma hdr_make_length bs d : (length bs <= 30)%nat -> length d = Z.to_nat BSIZE -> length (hdr_make bs d) = Z.to_nat BSIZE.
Proof.
  intros Hl Hd. apply hdr_fill_length; [done|]. unfold set_hdr_n. rewrite put_le_length; [done|]. rewrite Hd. unfold BSIZE. lia.
Qed.

Lemma hdr_make_block bs d j b :
  bs !! j = Some b -> 0 <= b < 2 ^ 31 -> (length bs <= 30)%nat -> length d = Z.to_nat BSIZE ->
  hdr_block (hdr_make bs d) (Z.of_nat j) = b.
Proof.
  intros Hb Hr Hl Hd. unfold hdr_block. rewrite hdr_off. change (4 + 4 * j)%nat with (4 + 4 * (0 + j))%nat.
  unfold hdr_make. erewrite hdr_fill_at; [by apply i32_small|done|done|].
  unfold set_hdr_n. rewrite put_le_length; [done|]. rewrite Hd. unfold BSIZE. lia.
Qed.

(** The blocks a header names. *)
Definition hdr_blocks (d : list Z) : list Z :=
  map (fun i => hdr_block d (Z.of_nat i)) (seq 0 (Z.to_nat (hdr_n d))).

Lemma hdr_make_blocks bs d :
  (length bs <= 30)%nat -> length d = Z.to_nat BSIZE -> Forall (fun b => 0 <= b < 2 ^ 31) bs ->
  hdr_blocks (hdr_make bs d) = bs.
Proof.
  intros Hl Hd Hr. unfold hdr_blocks. rewrite hdr_make_n, Nat2Z.id by done.
  apply list_eq. intros j. rewrite list_lookup_fmap. destruct (decide (j < length bs)%nat) as [Hj|Hj].
  - rewrite lookup_seq_lt by done. destruct (lookup_lt_is_Some_2 bs j Hj) as [b Eb]. cbn. rewrite Eb. f_equal.
    eapply hdr_make_block; try done. exact (Forall_lookup_1 _ _ _ _ Hr Eb).
  - rewrite lookup_seq_ge by lia. symmetry. apply lookup_ge_None_2. lia.
Qed.

(** The header lies in the first sector. *)
Lemma hdr_ext d d' :
  (forall i, (i < 512)%nat -> d !! i = d' !! i) -> hdr_n d = hdr_n d' /\
  (0 <= hdr_n d < LOGSIZE -> hdr_blocks d = hdr_blocks d').
Proof.
  intros H.
  assert (hdr_n d = hdr_n d') as En by (unfold hdr_n; f_equal; apply get_le_ext; intros i Hi; apply H; lia).
  split; [done|]. intros Hn. unfold hdr_blocks. rewrite <- En. apply map_ext_in. intros j Hj%in_seq.
  unfold hdr_block. f_equal. apply get_le_ext. rewrite hdr_off. unfold LOGSIZE, MAXOPBLOCKS in Hn.
  intros i Hi. apply H. lia.
Qed.

(** * The disk *)

Section Disk.
Context (start : Z).

Definition in_log (x : Z) : Prop := start <= x < start + LOGSIZE.
Lemma home_ne x : ~ in_log x -> x <> start.
Proof. unfold in_log, LOGSIZE, MAXOPBLOCKS. lia. Qed.
Lemma home_out x n : ~ in_log x -> n <= 29 -> ~ (start < x <= start + n).
Proof. unfold in_log, LOGSIZE, MAXOPBLOCKS. lia. Qed.

Definition logged (D : disk) : list Z := hdr_blocks (D start).

Definition replay (D : disk) (x : Z) : list Z :=
  match list_find (fun b => x = b) (logged D) with
  | Some (i, _) => D (start + 1 + Z.of_nat i)
  | None => D x
  end.

(** A log that recovery accepts. *)
Record log_ok (size : Z) (D : disk) : Prop := {
  lo_n : 0 <= hdr_n (D start) < LOGSIZE;
  lo_home : forall b, b ∈ logged D -> 0 <= b < size /\ ~ in_log b;
  lo_nodup : NoDup (logged D)
}.

Lemma logged_nil D : hdr_n (D start) = 0 -> logged D = [].
Proof. intros E. unfold logged, hdr_blocks. by rewrite E. Qed.

Lemma log_ok_empty size D : hdr_n (D start) = 0 -> log_ok size D.
Proof.
  intros E. pose proof (logged_nil D E) as El. split; rewrite ?El, ?E.
  - unfold LOGSIZE, MAXOPBLOCKS. lia.
  - intros b Hb. by apply not_elem_of_nil in Hb.
  - constructor.
Qed.

Lemma replay_empty D x : hdr_n (D start) = 0 -> replay D x = D x.
Proof. intros E. unfold replay. by rewrite logged_nil. Qed.

Lemma logged_length D : 0 <= hdr_n (D start) < LOGSIZE -> (length (logged D) <= 29)%nat.
Proof. unfold logged, hdr_blocks, LOGSIZE, MAXOPBLOCKS. rewrite length_map, length_seq. lia. Qed.

Lemma replay_in size D i x :
  log_ok size D -> logged D !! i = Some x -> replay D x = D (start + 1 + Z.of_nat i).
Proof.
  intros [Hn Hh Hd] Hi. unfold replay.
  assert (list_find (fun b => x = b) (logged D) = Some (i, x)) as ->; [|done].
  apply list_find_Some. split_and!; try done. intros j y Hj Hlt <-. pose proof (NoDup_lookup _ _ _ _ Hd Hi Hj). lia.
Qed.

Lemma replay_out D x : x ∉ logged D -> replay D x = D x.
Proof.
  intros Hx. unfold replay. destruct (list_find _ _) as [[i y]|] eqn:E; [|done].
  apply list_find_Some in E as (Hi & -> & _). exfalso. apply Hx. by eapply list_elem_of_lookup_2.
Qed.

(** Disks that agree on the log, and on the blocks it does not name. *)
Lemma replay_agree size D D' :
  log_ok size D -> hdr_n (D' start) = hdr_n (D start) -> logged D' = logged D ->
  (forall x, start < x < start + LOGSIZE -> D' x = D x) ->
  (forall x, ~ in_log x -> x ∉ logged D -> D' x = D x) ->
  log_ok size D' /\ forall x, ~ in_log x -> replay D' x = replay D x.
Proof.
  intros L En El Hlog Hhome. pose proof (logged_length D (lo_n _ _ L)) as Hlen. split.
  - destruct L as [Hn Hh Hd]. split; rewrite ?En, ?El; done.
  - intros x Hx. destruct (decide (x ∈ logged D)) as [Hin|Hin].
    + apply list_elem_of_lookup in Hin as [i Hi].
      assert (log_ok size D') as L' by (destruct L; split; rewrite ?En, ?El; done).
      erewrite (replay_in size D'), (replay_in size D); rewrite ?El; try done.
      apply Hlog. apply lookup_lt_Some in Hi. unfold LOGSIZE, MAXOPBLOCKS. lia.
    + rewrite !replay_out by by rewrite ?El. by apply Hhome.
Qed.

(** ** Torn writes *)

(** The header of a torn header block is the old one or the new one. *)
Lemma torn_header D d D' :
  torn D start d D' -> length d = Z.to_nat BSIZE -> length (D start) = Z.to_nat BSIZE ->
  (forall i, (i < 512)%nat -> D' start !! i = d !! i) \/ (forall i, (i < 512)%nat -> D' start !! i = D start !! i).
Proof.
  intros [_ [E|E]] Hd HD; [left|right]; intros i Hi; rewrite E;
    rewrite lookup_app_l by (rewrite length_take; rewrite ?Hd, ?HD; unfold BSIZE; lia);
    by rewrite lookup_take_lt.
Qed.

Lemma torn_other D b d D' x : torn D b d D' -> x <> b -> D' x = D x.
Proof. intros [H _] Hx. by apply H. Qed.

(** ** Installing a transaction *)

(** [f] with the first [i] blocks of [bs] taken from the log, whose contents is [v]. *)
Definition installed (bs : list Z) (i : nat) (v f : disk) : disk :=
  fun x => match list_find (fun b => x = b) (take i bs) with
           | Some (t, _) => v (start + 1 + Z.of_nat t)
           | None => f x
           end.

Lemma installed_out bs i v f x : x ∉ take i bs -> installed bs i v f x = f x.
Proof.
  intros Hx. unfold installed. destruct (list_find _ _) as [[t y]|] eqn:E; [|done].
  apply list_find_Some in E as (Ht & -> & _). exfalso. apply Hx. by eapply list_elem_of_lookup_2.
Qed.

Lemma installed_in bs i v f x t :
  NoDup bs -> bs !! t = Some x -> (t < i)%nat -> installed bs i v f x = v (start + 1 + Z.of_nat t).
Proof.
  intros Hd Ht Hi. unfold installed.
  assert (list_find (fun b => x = b) (take i bs) = Some (t, x)) as ->; [|done].
  apply list_find_Some. split_and!; [by rewrite lookup_take_lt|done|]. intros j y Hj Hlt <-.
  rewrite lookup_take_lt in Hj by lia. pose proof (NoDup_lookup _ _ _ _ Hd Ht Hj). lia.
Qed.

Lemma take_S_elem (bs : list Z) i b x : bs !! i = Some b -> x ∈ take (S i) bs <-> x ∈ take i bs \/ x = b.
Proof. intros E. rewrite (take_S_r _ _ _ E), elem_of_app, list_elem_of_singleton. done. Qed.

Lemma installed_step bs i v f b x :
  NoDup bs -> bs !! i = Some b ->
  installed bs (S i) v f x = if x =? b then v (start + 1 + Z.of_nat i) else installed bs i v f x.
Proof.
  intros Hd Hb. destruct (Z.eqb_spec x b) as [->|Hne]; [apply installed_in; [done|done|lia]|].
  destruct (decide (x ∈ take i bs)) as [Hin|Hout].
  - apply list_elem_of_lookup in Hin as [t Ht]. apply lookup_take_Some in Ht as [Ht Hlt].
    rewrite (installed_in bs (S i) v f x t), (installed_in bs i v f x t) by (done || lia). done.
  - assert (x ∉ take (S i) bs) as Hout' by (rewrite (take_S_elem _ _ _ _ Hb); tauto).
    by rewrite !installed_out.
Qed.

(** All blocks installed: what recovery would have made. *)
Lemma installed_replay size D x : log_ok size D -> installed (logged D) (length (logged D)) D D x = replay D x.
Proof.
  intros L. destruct (decide (x ∈ logged D)) as [Hin|Hout].
  - apply list_elem_of_lookup in Hin as [t Ht].
    rewrite (replay_in size D t x L Ht). apply installed_in; [apply L|done|by eapply lookup_lt_Some].
  - rewrite replay_out by done. apply installed_out. by rewrite take_ge by lia.
Qed.

End Disk.
