(* ===== verification/KLogProofs.v ===== *)
(** Crash safety of the log (log.c), on the abstract buffer cache of [KBioProofs]. *)
From stdpp Require Import base gmap sets list numbers strings tactics.
From S2P Require Import Prelude Mem KMachine KSched KBytes KBio KBioProofs KLog KCrash.

(** * Taking and giving back references *)

Lemma acache_eq A A' : a_view A = a_view A' -> a_refs A = a_refs A' -> a_held A = a_held A' -> A = A'.
Proof. destruct A, A'. cbn. by intros -> -> ->. Qed.

Lemma drop_grab A b : b ∉ a_held A -> a_refs A !! b <> Some O -> drop (grab A b) b = A.
Proof.
  intros Hb Hn. apply acache_eq; cbn; [done| |set_solver].
  apply map_eq. intros x. destruct (decide (x = b)) as [->|].
  - unfold unref. rewrite lookup_insert_eq. destruct (a_refs A !! b) as [[|n]|] eqn:E; cbn; [done|..].
    + by rewrite lookup_insert_eq.
    + by rewrite lookup_delete_eq.
  - by rewrite unref_ne, lookup_insert_ne by congruence.
Qed.

Lemma grab_comm A x y : x <> y -> grab (grab A x) y = grab (grab A y) x.
Proof.
  intros Hne. apply acache_eq; cbn; [done| |set_solver].
  rewrite !lookup_insert_ne by congruence. by apply insert_insert_ne.
Qed.

Lemma unpin_grab A b n : a_refs A !! b = Some (S n) -> unpin (grab A b) b = grab (unpin A b) b.
Proof.
  intros E. apply acache_eq; cbn; [done| |done]. apply map_eq. intros x. destruct (decide (x = b)) as [->|].
  - rewrite lookup_insert_eq, (unref_eq _ _ _ E). unfold unref. rewrite lookup_insert_eq, E. cbn.
    by rewrite lookup_insert_eq.
  - by rewrite unref_ne, !lookup_insert_ne, unref_ne by congruence.
Qed.

Lemma unpin_grab_ne A b x : x <> b -> unpin (grab A x) b = grab (unpin A b) x.
Proof.
  intros Hne. apply acache_eq; cbn; [done| |done]. rewrite (unref_ne _ b x) by done. apply map_eq. intros y.
  destruct (decide (y = b)) as [->|].
  - rewrite lookup_insert_ne by done. unfold unref. rewrite lookup_insert_ne by done.
    destruct (a_refs A !! b) as [[|[|m]]|]; by rewrite ?lookup_delete_eq, ?lookup_insert_eq.
  - rewrite unref_ne by done. destruct (decide (y = x)) as [->|].
    + by rewrite !lookup_insert_eq.
    + by rewrite !lookup_insert_ne, unref_ne by congruence.
Qed.

Section LogProofs.
Context {H : Type} `{!Platform H} `{!SleepFuel} `{!DiskDriver H} `{!DiskLaws H}.
Implicit Types k : kernel H.

(** The data of a buffer is the view of its block. *)
Lemma handle_data me dev k A i b :
  bio me dev k A -> handle dev k i b -> exists r, k_bufs k !! i = Some r /\ b_data r = a_view A b.
Proof.
  intros B (r & Hi & Er & Dr & <- & Vr). exists r. split; [done|].
  destruct (bio_slot _ _ _ _ B i r Hi Er Dr) as (_ & S2 & _). rewrite S2.
  by destruct (Z.eqb_spec (b_valid r) 0).
Qed.

Lemma copy_buf_ok me dev k A i j src dst :
  bio me dev k A -> handle dev k i src -> handle dev k j dst -> is_Some (a_refs A !! dst) ->
  exists k', copy_buf j i k = Ok tt k' /\ bframe me k k' /\ k_hw k' = k_hw k /\
    bio me dev k' (view_as A dst (a_view A src)) /\ keeps dev k k' (fun _ => True).
Proof.
  intros B Hi Hj Hr. destruct (handle_data _ _ _ _ _ _ B Hi) as (r & Er & Ed). unfold copy_buf.
  rewrite (bind_Ok _ _ _ _ _ (get_buf_ok _ _ _ Er)), Ed. apply (set_data_ok me dev k A j dst); try done.
  rewrite <- Ed. destruct Hi as (r' & Hi & Er' & _). by apply (bio_data _ _ _ _ B i).
Qed.

(** Block [b] of the medium becomes [d]: the states it goes through. *)
Definition wrote k k' (b : Z) (d : list Z) : Prop :=
  (forall x, now k' x = if x =? b then d else now k x) /\
  exists mids, past k' = mids ++ now k :: past k /\ Forall (torn (now k) b d) mids.

Section Copy.
Context (c : cpu) (me : nat) (dev : Z) (k : kernel H) (A : acache).
Context (Q : quiet c me k) (B : bio me dev k A) (Hheld : a_held A = ∅).
Context (Hroom : (size (a_refs A) < NBUF)%nat).
Context (Hsmall : forall b n, a_refs A !! b = Some n -> (n <= 1)%nat).

Lemma refs_small b : Z.of_nat (default O (a_refs A !! b)) < 2 ^ 31.
Proof. destruct (a_refs A !! b) as [n|] eqn:E; cbn; [apply Hsmall in E|]; lia. Qed.

(** Both blocks are read, in the order [x], [y]. *)
Lemma read_two x y :
  x <> y -> is_Some (a_refs A !! y) \/ (size (a_refs A) + 2 <= NBUF)%nat -> 0 <= x < dk_size -> 0 <= y < dk_size ->
  exists i k1 j k2, bread dev x k = Ok i k1 /\ bframe me k k1 /\ bread dev y k1 = Ok j k2 /\
    bframe me k k2 /\ now k2 = now k /\ past k2 = past k /\ bio me dev k2 (grab (grab A x) y) /\
    handle dev k2 i x /\ handle dev k2 j y.
Proof.
  intros Hxy Hroom2 Hx Hy.
  destruct (bread_ok c me dev k A x Q B ltac:(by rewrite Hheld) (refs_small x) (or_intror Hroom) Hx)
    as (i & k1 & E1 & F1 & N1 & P1 & B1 & H1 & _).
  destruct (bread_ok c me dev k1 (grab A x) y) as (j & k2 & E2 & F2 & N2 & P2 & B2 & H2 & K2).
  - by apply (bframe_quiet _ _ _ _ F1).
  - done.
  - cbn. rewrite Hheld. set_solver.
  - cbn. rewrite lookup_insert_ne by done. apply refs_small.
  - cbn. rewrite lookup_insert_ne by done. destruct Hroom2 as [?|?]; [by left|right].
    rewrite map_size_insert. destruct (a_refs A !! x); cbn; lia.
  - done.
  - exists i, k1, j, k2. split_and!; try done; [by transitivity k1|congruence..|].
    apply K2; [|done]. cbn. rewrite lookup_insert_eq. by eexists.
Qed.

End Copy.
(** Two clean blocks are given back. *)
Lemma release_two c me dev k A x y i j :
  quiet c me k -> bio me dev k (grab (grab A x) y) -> a_held A = ∅ -> x <> y ->
  (forall b, a_refs A !! b <> Some O) -> handle dev k i x -> handle dev k j y ->
  (a_refs A !! x = None -> a_view A x = now k x) -> (a_refs A !! y = None -> a_view A y = now k y) ->
  exists k1 k2, brelse i k = Ok tt k1 /\ brelse j k1 = Ok tt k2 /\ bframe me k k2 /\ k_hw k2 = k_hw k /\ bio me dev k2 A.
Proof.
  intros Q B Hh Hxy Hz Hi Hj Hx Hy. rewrite grab_comm in B by done.
  destruct (brelse_ok c me dev k _ i x (default O (a_refs A !! x)) Q B Hi) as (k1 & E1 & F1 & W1 & B1 & K1).
  - cbn. set_solver.
  - cbn. rewrite lookup_insert_eq, lookup_insert_ne by done. done.
  - intros E. apply Hx. destruct (a_refs A !! x) as [[|n]|] eqn:Ex; [by destruct (Hz x)|done|done].
  - rewrite drop_grab in B1; [|cbn; rewrite Hh; set_solver|cbn; rewrite lookup_insert_ne by done; apply Hz].
    destruct (brelse_ok c me dev k1 _ j y (default O (a_refs A !! y)) (bframe_quiet _ _ _ _ F1 Q) B1)
      as (k2 & E2 & F2 & W2 & B2 & K2).
    + by apply K1.
    + cbn. set_solver.
    + cbn. by rewrite lookup_insert_eq.
    + intros E. cbn. unfold now. rewrite W1. apply Hy.
      destruct (a_refs A !! y) as [[|n]|] eqn:Ey; [by destruct (Hz y)|done|done].
    + rewrite drop_grab in B2; [|rewrite Hh; set_solver|apply Hz].
      exists k1, k2. split_and!; try done; [by transitivity k1|congruence].
Qed.

Lemma bio_nozero me dev k A : bio me dev k A -> forall b, a_refs A !! b <> Some O.
Proof. intros B b E. destruct (bio_refs _ _ _ _ B b _ E) as [[? _] _]. lia. Qed.

Lemma lh_block_at_ok k i b :
  0 <= i -> lh_block (lg_lh (k_log k)) !! Z.to_nat i = Some b -> lh_block_at i k = Ok b k.
Proof.
  intros Hi E. unfold lh_block_at, get_log. erewrite bind_Ok by reflexivity.
  destruct (Z.ltb_spec i 0); [lia|]. by rewrite E.
Qed.

Lemma bframe_log me k k' : bframe me k k' -> k_log k' = k_log k.
Proof. by intros [_ ->]. Qed.

Section Steps.
Context (c : cpu) (me : nat) (dev : Z) (k : kernel H) (A : acache) (src dst : Z).
Context (Q : quiet c me k) (B : bio me dev k A) (Hheld : a_held A = ∅).
Context (Hne : src <> dst) (Hsrc : 0 <= src < dk_size) (Hdst : 0 <= dst < dk_size).
Context (Hroom : (size (a_refs A) < NBUF)%nat).
Context (Hsmall : forall b n, a_refs A !! b = Some n -> (n <= 1)%nat).

(** Block [dst] gets the contents of [src], in the cache and on the disk. *)
Lemma copy_write A2 k2 i j :
  bframe me k k2 -> now k2 = now k -> past k2 = past k ->
  bio me dev k2 A2 -> a_view A2 = a_view A -> is_Some (a_refs A2 !! dst) -> dst ∈ a_held A2 ->
  handle dev k2 i src -> handle dev k2 j dst ->
  exists k3 k4, copy_buf j i k2 = Ok tt k3 /\ bwrite j k3 = Ok tt k4 /\ bframe me k k4 /\
    bio me dev k4 (view_as A2 dst (a_view A src)) /\ wrote k k4 dst (a_view A src) /\
    handle dev k4 i src /\ handle dev k4 j dst.
Proof.
  intros F2 N2 P2 B2 V2 Hr Hh Hi Hj. pose proof (bframe_quiet _ _ _ _ F2 Q) as Q2.
  destruct (copy_buf_ok me dev k2 A2 i j src dst B2 Hi Hj Hr) as (k3 & E3 & F3 & W3 & B3 & K3).
  assert (handle dev k3 j dst) as Hj3 by by apply K3.
  destruct (bwrite_ok c me dev k3 _ j dst (bframe_quiet _ _ _ _ F3 Q2) B3 Hj3 Hh Hdst)
    as (k4 & mids & E4 & F4 & B4 & N4 & P4 & T4 & K4).
  cbn in N4, T4. rewrite Z.eqb_refl, V2 in *. unfold now in N4 at 2. unfold now in T4. rewrite W3 in N4, T4.
  fold (now k2) in N4, T4. rewrite N2 in N4, T4.
  exists k3, k4. split_and!; try done.
  - transitivity k2; [done|]. by transitivity k3.
  - by split; [|exists mids; split; [rewrite P4; unfold past, now; rewrite W3; fold (past k2) (now k2); rewrite N2, P2|]].
  - by apply K4, K3.
  - by apply K4.
Qed.

(** One iteration of [write_log]. *)
Lemma write_log_step tail :
  is_Some (a_refs A !! src) \/ (size (a_refs A) + 2 <= NBUF)%nat ->
  0 <= tail -> lh_block (lg_lh (k_log k)) !! Z.to_nat tail = Some src ->
  exists k',
    (let! to := bread dev dst in let! bn := lh_block_at tail in let! from := bread dev (u32 bn) in
     copy_buf to from ;; bwrite to ;; brelse from ;; brelse to) k = Ok tt k' /\
    bframe me k k' /\ bio me dev k' (view_as A dst (a_view A src)) /\ wrote k k' dst (a_view A src).
Proof.
  intros Hroom2 Ht Hbn. pose proof dk_bound as Hmax.
  destruct (read_two c me dev k A Q B Hheld Hroom Hsmall dst src ltac:(done) Hroom2 Hdst Hsrc)
    as (j & k1 & i & k2 & E1 & F1 & E2 & F2 & N2 & P2 & B2 & Hj & Hi).
  rewrite <- (bframe_log _ _ _ F1) in Hbn.
  destruct (copy_write (grab (grab A dst) src) k2 i j) as (k3 & k4 & E3 & E4 & F4 & B4 & W4 & Hi4 & Hj4); try done.
  { cbn. rewrite lookup_insert_ne, lookup_insert_eq by done. by eexists. }
  { cbn. set_solver. }
  change (view_as (grab (grab A dst) src) dst (a_view A src)) with (grab (grab (view_as A dst (a_view A src)) dst) src) in B4.
  rewrite grab_comm in B4 by done. destruct W4 as [N4 P4].
  destruct (release_two c me dev k4 (view_as A dst (a_view A src)) src dst i j) as (k5 & k6 & E5 & E6 & F6 & W6 & B6); try done.
  - by apply (bframe_quiet _ _ _ _ F4).
  - apply (bio_nozero _ _ _ _ B).
  - intros E. cbn. rewrite N4. destruct (Z.eqb_spec src dst); [done|]. by apply (bio_clean _ _ _ _ B).
  - intros _. cbn. by rewrite N4, Z.eqb_refl.
  - exists k6. rewrite (bind_Ok _ _ _ _ _ E1), (bind_Ok _ _ _ _ _ (lh_block_at_ok _ _ _ Ht Hbn)),
      (u32_small src) by (unfold is_u32; lia). rewrite (bind_Ok _ _ _ _ _ E2), (bind_Ok _ _ _ _ _ E3), (bind_Ok _ _ _ _ _ E4),
      (bind_Ok _ _ _ _ _ E5). split_and!; [done|by transitivity k4|done|].
    unfold wrote, now, past. rewrite W6. by split.
Qed.

(** One iteration of [install_trans], after the abstract state in which the home block
    is pinned ([recovering] is 0) or not. *)
Lemma install_step tail recovering :
  (recovering = 0 -> a_refs A !! dst = Some 1%nat) ->
  is_Some (a_refs A !! dst) \/ (size (a_refs A) + 2 <= NBUF)%nat ->
  0 <= tail -> lh_block (lg_lh (k_log k)) !! Z.to_nat tail = Some dst ->
  exists k',
    (let! lbuf := bread dev src in let! bn := lh_block_at tail in let! dbuf := bread dev (u32 bn) in
     copy_buf dbuf lbuf ;; bwrite dbuf ;; (if recovering =? 0 then bunpin dbuf else ret tt) ;;
     brelse lbuf ;; brelse dbuf) k = Ok tt k' /\
    bframe me k k' /\ wrote k k' dst (a_view A src) /\
    bio me dev k' (let A1 := view_as A dst (a_view A src) in if recovering =? 0 then unpin A1 dst else A1).
Proof.
  intros Hpin Hroom2 Ht Hbn. pose proof dk_bound as Hmax. set (A1 := view_as A dst (a_view A src)).
  destruct (read_two c me dev k A Q B Hheld Hroom Hsmall src dst ltac:(done) Hroom2 Hsrc Hdst)
    as (i & k1 & j & k2 & E1 & F1 & E2 & F2 & N2 & P2 & B2 & Hi & Hj).
  rewrite <- (bframe_log _ _ _ F1) in Hbn.
  destruct (copy_write (grab (grab A src) dst) k2 i j) as (k3 & k4 & E3 & E4 & F4 & B4 & W4 & Hi4 & Hj4); try done.
  { cbn. rewrite lookup_insert_eq. by eexists. }
  { cbn. set_solver. }
  change (view_as (grab (grab A src) dst) dst (a_view A src)) with (grab (grab A1 src) dst) in B4.
  destruct W4 as [N4 P4]. pose proof (bframe_quiet _ _ _ _ F4 Q) as Q4.
  set (A2 := if recovering =? 0 then unpin A1 dst else A1).
  assert (exists k5, (if recovering =? 0 then bunpin j else ret tt) k4 = Ok tt k5 /\ bframe me k4 k5 /\ k_hw k5 = k_hw k4 /\
    bio me dev k5 (grab (grab A2 src) dst) /\ handle dev k5 i src /\ handle dev k5 j dst) as (k5 & E5 & F5 & W5 & B5 & Hi5 & Hj5).
  { unfold A2. destruct (Z.eqb_spec recovering 0) as [E0|_].
    - destruct (bunpin_ok c me dev k4 _ j dst 1 Q4 B4 Hj4) as (k5 & E5 & F5 & W5 & B5 & K5).
      + cbn. by rewrite lookup_insert_eq, lookup_insert_ne, (Hpin E0) by congruence.
      + done.
      + exists k5. split_and!; try done; [|by apply K5..].
        rewrite (unpin_grab _ _ O) in B5 by (cbn; rewrite lookup_insert_ne by congruence; by apply Hpin).
        by rewrite unpin_grab_ne in B5 by congruence.
    - by exists k4. }
  assert (bframe me k k5) as F5' by by transitivity k4.
  assert (a_view A2 = a_view A1 /\ a_held A2 = ∅ /\ forall b, a_refs A2 !! b = None -> b <> dst -> a_refs A !! b = None)
    as (V2 & H2 & R2).
  { unfold A2. destruct (recovering =? 0); split_and!; try done. cbn. intros b Hb Hbd. by rewrite unref_ne in Hb. }
  destruct (release_two c me dev k5 A2 src dst i j) as (k6 & k7 & E6 & E7 & F7 & W7 & B7); try done.
  - by apply (bframe_quiet _ _ _ _ F5').
  - unfold A2. destruct (Z.eqb_spec recovering 0) as [E0|_]; [|apply (bio_nozero _ _ _ _ B)].
    intros b Hb. cbn in Hb. destruct (decide (b = dst)) as [->|Hb'].
    + unfold unref in Hb. rewrite (Hpin E0), lookup_delete_eq in Hb. done.
    + rewrite unref_ne in Hb by done. by apply (bio_nozero _ _ _ _ B b).
  - intros E. rewrite V2. unfold now. rewrite W5. fold (now k4). cbn. rewrite N4.
    destruct (Z.eqb_spec src dst); [done|]. apply (bio_clean _ _ _ _ B). by apply R2.
  - intros _. rewrite V2. unfold now. rewrite W5. fold (now k4). cbn. by rewrite N4, Z.eqb_refl.
  - exists k7. rewrite (bind_Ok _ _ _ _ _ E1), (bind_Ok _ _ _ _ _ (lh_block_at_ok _ _ _ Ht Hbn)),
      (u32_small dst) by (unfold is_u32; lia). rewrite (bind_Ok _ _ _ _ _ E2), (bind_Ok _ _ _ _ _ E3), (bind_Ok _ _ _ _ _ E4),
      (bind_Ok _ _ _ _ _ E5), (bind_Ok _ _ _ _ _ E6). split_and!; [done|by transitivity k5| |done].
    unfold wrote, now, past. rewrite W7, W5. by split.
Qed.

End Steps.

(** ** Histories *)

(** Every state the medium went through from [k] to [k'] satisfies [P]. *)
Definition went k k' (P : disk -> Prop) : Prop :=
  exists ds, now k' :: past k' = ds ++ now k :: past k /\ Forall P ds.

Lemma went_refl k k' (P : disk -> Prop) : now k' = now k -> past k' = past k -> went k k' P.
Proof. intros E1 E2. exists []. by rewrite E1, E2. Qed.
Lemma went_trans k1 k2 k3 P : went k1 k2 P -> went k2 k3 P -> went k1 k3 P.
Proof.
  intros (d1 & E1 & P1) (d2 & E2 & P2). exists (d2 ++ d1). split; [by rewrite E2, E1, (assoc_L (++))|by apply Forall_app].
Qed.
Lemma went_mono k k' (P P' : disk -> Prop) : (forall D, P D -> P' D) -> went k k' P -> went k k' P'.
Proof. intros H' (ds & E & F). exists ds. split; [done|]. by eapply Forall_impl. Qed.
Lemma wrote_went k k' b d (P : disk -> Prop) :
  wrote k k' b d -> P (now k') -> (forall D, torn (now k) b d D -> P D) -> went k k' P.
Proof.
  intros [_ (mids & E & F)] Hn Ht. exists (now k' :: mids). rewrite E. split; [done|].
  constructor; [done|]. eapply Forall_impl; [exact Ht|exact F].
Qed.

(** The log in memory: where it is, and the home blocks of the transaction. *)
Record log_mem k (dev start : Z) (bs : list Z) : Prop := {
  lm_dev : lg_dev (k_log k) = dev;
  lm_start : lg_start (k_log k) = start;
  lm_n : lh_n (lg_lh (k_log k)) = Z.of_nat (length bs);
  lm_len : length (lh_block (lg_lh (k_log k))) = 30%nat;
  lm_blocks : forall i b, bs !! i = Some b -> lh_block (lg_lh (k_log k)) !! i = Some b
}.

Lemma bframe_log_mem me k k' dev start bs : bframe me k k' -> log_mem k dev start bs -> log_mem k' dev start bs.
Proof. intros F []. by split; rewrite (bframe_log _ _ _ F). Qed.

(** Where a log fits the disk. *)
Definition log_fits (dev start : Z) : Prop := is_u32 dev /\ 0 <= start /\ start + LOGSIZE <= dk_size.

(** [f] with the first [i] log blocks replaced by the contents [v] has of [bs]. *)
Definition filled (start : Z) (bs : list Z) (i : Z) (v f : disk) : disk :=
  fun x => if (start + 1 <=? x) && (x <? start + 1 + i) then v (bs !!! Z.to_nat (x - start - 1)) else f x.

Lemma filled_0 start bs v f x : filled start bs 0 v f x = f x.
Proof. unfold filled. destruct (Z.leb_spec (start + 1) x), (Z.ltb_spec x (start + 1 + 0)); try done; lia. Qed.
Lemma filled_step start bs i v f x :
  0 <= i -> filled start bs (i + 1) v f x = if x =? start + i + 1 then v (bs !!! Z.to_nat i) else filled start bs i v f x.
Proof.
  intros Hi. unfold filled. destruct (Z.eqb_spec x (start + i + 1)) as [->|].
  - replace (start + i + 1 - start - 1) with i by lia.
    destruct (Z.leb_spec (start + 1) (start + i + 1)), (Z.ltb_spec (start + i + 1) (start + 1 + (i + 1))); try done; lia.
  - destruct (Z.ltb_spec x (start + 1 + (i + 1))), (Z.ltb_spec x (start + 1 + i)); try done; lia.
Qed.
Lemma filled_home start bs i v f x : ~ (start < x <= start + i) -> filled start bs i v f x = f x.
Proof. intros Hx. unfold filled. destruct (Z.leb_spec (start + 1) x), (Z.ltb_spec x (start + 1 + i)); try done; lia. Qed.

(** Changing the data of a buffer. *)
Lemma upd_data_ok me dev k A i b f :
  bio me dev k A -> handle dev k i b -> is_Some (a_refs A !! b) -> length (f (a_view A b)) = Z.to_nat BSIZE ->
  exists k', upd_buf i (fun r => set_b_data (f (b_data r)) r) k = Ok tt k' /\ bframe me k k' /\ k_hw k' = k_hw k /\
    bio me dev k' (view_as A b (f (a_view A b))) /\ keeps dev k k' (fun _ => True).
Proof.
  intros B Hh Hr Hl. destruct (handle_data _ _ _ _ _ _ B Hh) as (r & Er & Ed).
  destruct (set_data_ok me dev k A i b (f (a_view A b)) B Hh Hr Hl) as (k' & E & ?).
  exists k'. split; [|done]. rewrite <- E, !(upd_buf_ok _ _ _ _ Er), Ed. done.
Qed.

Lemma view_length me dev k A i b : bio me dev k A -> handle dev k i b -> length (a_view A b) = Z.to_nat BSIZE.
Proof.
  intros B Hh. destruct (handle_data _ _ _ _ _ _ B Hh) as (r & Er & <-). destruct Hh as (r' & Hi & Er' & _).
  by apply (bio_data _ _ _ _ B i).
Qed.

Section Head.
Context (c : cpu) (me : nat) (dev start : Z) (bs : list Z) (A : acache) (k : kernel H).
Context (Hfit : log_fits dev start) (L : log_mem k dev start bs) (Hlen : (length bs <= 29)%nat).
Context (Q : quiet c me k) (B : bio me dev k A) (Hheld : a_held A = ∅).
Context (Hroom : (size (a_refs A) < NBUF)%nat) (Hnone : a_refs A !! start = None).

(** The header is filled in in memory. *)
Lemma fill_head_ok k1 A1 i :
  bframe me k k1 -> bio me dev k1 A1 -> is_Some (a_refs A1 !! start) -> handle dev k1 i start ->
  exists k2, (upd_buf i (fun r => set_b_data (set_hdr_n (lh_n (lg_lh (k_log k))) (b_data r)) r) ;;
      for_range 0 (lh_n (lg_lh (k_log k))) (fun j =>
        let! bn := lh_block_at j in
        upd_buf i (fun r => set_b_data (set_hdr_block j bn (b_data r)) r))) k1 = Ok tt k2 /\
    bframe me k1 k2 /\ k_hw k2 = k_hw k1 /\ bio me dev k2 (view_as A1 start (hdr_make bs (a_view A1 start))) /\
    handle dev k2 i start.
Proof.
  intros F1 B1 Hr Hi. pose proof (view_length _ _ _ _ _ _ B1 Hi) as Hvl.
  rewrite (lm_n _ _ _ _ L). set (d0 := set_hdr_n (Z.of_nat (length bs)) (a_view A1 start)).
  assert (length d0 = Z.to_nat BSIZE) as Hd0.
  { unfold d0, set_hdr_n. rewrite put_le_length; rewrite Hvl; [done|]. unfold BSIZE. lia. }
  destruct (upd_data_ok me dev k1 A1 i start (set_hdr_n (Z.of_nat (length bs))) B1 Hi Hr Hd0)
    as (k2 & E2 & F2 & W2 & B2 & K2).
  rewrite (bind_Ok _ _ _ _ _ E2).
  match goal with |- context [for_range 0 ?n ?b] => set (body := b) end.
  set (I := fun (j : Z) (k' : kernel H) => bframe me k1 k' /\ k_hw k' = k_hw k1 /\ handle dev k' i start /\
    exists A', bio me dev k' A' /\ a_refs A' = a_refs A1 /\ a_held A' = a_held A1 /\
      (forall x, a_view A' x = if x =? start then hdr_fill (take (Z.to_nat j) bs) 0 d0 else a_view A1 x)).
  assert (wp (for_range 0 (Z.of_nat (length bs)) body) (fun _ k' => I (Z.of_nat (length bs)) k') k2) as W.
  { apply wp_for_range; [lia| |].
    - split_and!; try done; [by apply K2|]. by exists (view_as A1 start d0).
    - intros j k3 Hj (F3 & W3 & Hi3 & A3 & B3 & R3 & H3 & V3).
      destruct (lookup_lt_is_Some_2 bs (Z.to_nat j)) as [b Eb]; [lia|].
      assert (log_mem k3 dev start bs) as L3 by (eapply bframe_log_mem; [|exact L]; by transitivity k1).
      unfold body. eapply wp_bind_Ok; [apply lh_block_at_ok; [lia|by apply (lm_blocks _ _ _ _ L3)]|].
      assert (a_view A3 start = hdr_fill (take (Z.to_nat j) bs) 0 d0) as V3s by (by rewrite V3, Z.eqb_refl).
      assert (set_hdr_block j b (hdr_fill (take (Z.to_nat j) bs) 0 d0) = hdr_fill (take (Z.to_nat (j + 1)) bs) 0 d0) as Estep.
      { replace (Z.to_nat (j + 1)) with (S (Z.to_nat j)) by lia. rewrite (take_S_r _ _ b) by done.
        rewrite hdr_fill_snoc, length_take, Nat.min_l by lia. f_equal. lia. }
      destruct (upd_data_ok me dev k3 A3 i start (set_hdr_block j b) B3 Hi3) as (k4 & E4 & F4 & W4 & B4 & K4).
      { by rewrite R3. }
      { rewrite V3s, Estep. apply hdr_fill_length; [rewrite length_take|]; lia || done. }
      unfold wp. rewrite E4. split_and!; [by transitivity k3|congruence|by apply K4|].
      eexists. split; [exact B4|]. cbn. split_and!; try done.
      intros x. rewrite V3s, Estep. destruct (Z.eqb_spec x start); [done|]. rewrite V3. by destruct (Z.eqb_spec x start). }
  apply wp_Ok in W as ([] & k3 & E & F3 & W3 & Hi3 & A3 & B3 & R3 & H3 & V3).
  exists k3. split_and!; try done.
  apply (bio_ext me dev k3 A3); try done. intros x. cbn. rewrite V3, Nat2Z.id, take_ge by lia.
  by destruct (Z.eqb_spec x start).
Qed.

Lemma write_head_ok :
  let d := hdr_make bs (a_view A start) in
  exists k', write_head k = Ok tt k' /\ bframe me k k' /\ bio me dev k' (view_as A start d) /\ wrote k k' start d.
Proof.
  intros d. destruct Hfit as (Hdev & Hs0 & Hs1). pose proof dk_bound as Hmax. unfold LOGSIZE, MAXOPBLOCKS in Hs1.
  unfold write_head, get_log. erewrite bind_Ok by reflexivity.
  rewrite (lm_dev _ _ _ _ L), (lm_start _ _ _ _ L), (u32_small dev), (u32_small start) by (done || unfold is_u32; lia).
  destruct (bread_ok c me dev k A start Q B) as (i & k1 & E1 & F1 & N1 & P1 & B1 & Hi & _).
  { by rewrite Hheld. }
  { by rewrite Hnone. }
  { by right. }
  { lia. }
  rewrite (bind_Ok _ _ _ _ _ E1).
  destruct (fill_head_ok k1 (grab A start) i F1 B1) as (k2 & E2 & F2 & W2 & B2 & Hi2); try done.
  { cbn. rewrite lookup_insert_eq. by eexists. }
  rewrite <- bind_assoc, (bind_Ok _ _ _ _ _ E2).
  assert (bframe me k k2) as F2' by by transitivity k1.
  cbn [a_view grab] in B2. fold d in B2.
  destruct (bwrite_ok c me dev k2 _ i start (bframe_quiet _ _ _ _ F2' Q) B2 Hi2) as (k3 & mids & E3 & F3 & B3 & N3 & P3 & T3 & K3).
  { cbn. set_solver. }
  { lia. }
  rewrite (bind_Ok _ _ _ _ _ E3). cbn [a_view view_as] in N3, T3. rewrite Z.eqb_refl in N3, T3.
  assert (bframe me k k3) as F3' by by transitivity k2.
  change (view_as (grab A start) start d) with (grab (view_as A start d) start) in B3.
  destruct (brelse_ok c me dev k3 _ i start O (bframe_quiet _ _ _ _ F3' Q) B3) as (k4 & E4 & F4 & W4 & B4 & K4).
  { by apply K3. }
  { cbn. set_solver. }
  { cbn. by rewrite lookup_insert_eq, Hnone. }
  { intros _. cbn. by rewrite N3, Z.eqb_refl. }
  rewrite drop_grab in B4 by (cbn; rewrite ?Hheld, ?Hnone; set_solver || done).
  exists k4. split_and!; [done|by transitivity k3|done|].
  assert (now k2 = now k /\ past k2 = past k) as [N2 P2] by (unfold now, past in *; by rewrite W2).
  rewrite N2, ?P2 in *. split.
  - intros x. unfold now at 1. rewrite W4. fold (now k3). by rewrite N3.
  - exists mids. unfold past at 1. rewrite W4. fold (past k3). by split.
Qed.

End Head.

Section Commit.
Context (c : cpu) (me : nat) (dev start : Z) (bs : list Z) (A : acache) (k : kernel H).
Context (Hfit : log_fits dev start) (L : log_mem k dev start bs).
Context (Q : quiet c me k) (B : bio me dev k A) (Hheld : a_held A = ∅).
Context (Hbs : forall b, b ∈ bs -> 0 <= b < dk_size /\ ~ in_log start b).
Context (Hlen : (length bs <= 29)%nat) (Hnd : NoDup bs).
Context (Hrefs : forall b n, a_refs A !! b = Some n <-> n = 1%nat /\ b ∈ bs).

Lemma refs_size : size (a_refs A) = length bs.
Proof.
  rewrite <- size_dom, <- (size_list_to_set (C := gset Z) bs) by done. f_equal. apply set_eq. intros x.
  rewrite elem_of_dom, elem_of_list_to_set. split; [intros [n Hx]; by apply Hrefs in Hx as [_ ?]|].
  intros Hx. exists 1%nat. by apply Hrefs.
Qed.

Lemma write_log_ok (P : disk -> Prop) :
  (forall D, (forall x, ~ (start < x < start + LOGSIZE) -> D x = now k x) -> P D) ->
  exists k' A', write_log k = Ok tt k' /\ bframe me k k' /\ bio me dev k' A' /\
    a_refs A' = a_refs A /\ a_held A' = ∅ /\
    (forall x, a_view A' x = filled start bs (Z.of_nat (length bs)) (a_view A) (a_view A) x) /\
    (forall x, now k' x = filled start bs (Z.of_nat (length bs)) (a_view A) (now k) x) /\
    went k k' P.
Proof.
  intros HP. destruct Hfit as (Hdev & Hs0 & Hs1). pose proof dk_bound as Hmax. unfold write_log, get_log.
  erewrite bind_Ok by reflexivity. rewrite (lm_n _ _ _ _ L).
  match goal with |- context [for_range 0 ?n ?b] => set (body := b) end.
  set (I := fun (i : Z) (k' : kernel H) => exists A', bframe me k k' /\ bio me dev k' A' /\
    a_refs A' = a_refs A /\ a_held A' = ∅ /\ (forall x, a_view A' x = filled start bs i (a_view A) (a_view A) x) /\
    (forall x, now k' x = filled start bs i (a_view A) (now k) x) /\ went k k' P).
  assert (wp (for_range 0 (Z.of_nat (length bs)) body) (fun _ k' => I (Z.of_nat (length bs)) k') k) as W.
  { apply wp_for_range; [lia| |].
    - exists A. split_and!; try done; [by intros x; rewrite filled_0..|by apply went_refl].
    - intros i k1 Hi (A1 & F1 & B1 & R1 & H1 & V1 & N1 & W1).
      destruct (lookup_lt_is_Some_2 bs (Z.to_nat i)) as [b Eb]; [lia|].
      destruct (Hbs b ltac:(by eapply list_elem_of_lookup_2)) as [Hb Hhome]. unfold in_log, LOGSIZE, MAXOPBLOCKS in *.
      pose proof (bframe_log_mem _ _ _ _ _ _ F1 L) as L1.
      destruct (write_log_step c me dev k1 A1 b (start + i + 1) (bframe_quiet _ _ _ _ F1 Q) B1 H1 ltac:(lia) Hb ltac:(lia))
        with (tail := i) as (k2 & E2 & F2 & B2 & W2).
      { rewrite R1, refs_size. unfold NBUF. lia. }
      { rewrite R1. intros x n Hx. apply Hrefs in Hx as [-> _]. lia. }
      { left. rewrite R1. exists 1%nat. apply Hrefs. split; [done|]. by eapply list_elem_of_lookup_2. }
      { lia. }
      { by apply (lm_blocks _ _ _ _ L1). }
      assert (a_view A1 b = a_view A b) as Eab by (rewrite V1; apply filled_home; lia).
      unfold body, get_log. rewrite wp_bind, wp_gets. rewrite (lm_dev _ _ _ _ L1), (lm_start _ _ _ _ L1).
      rewrite (u32_small dev) by done. rewrite (u32_small (start + i + 1)) by (unfold is_u32; lia).
      unfold wp. rewrite E2. exists (view_as A1 (start + i + 1) (a_view A1 b)). destruct W2 as [N2 P2].
      assert (forall x, now k2 x = filled start bs (i + 1) (a_view A) (now k) x) as N2'.
      { intros x. rewrite N2, filled_step, Eab, (N1 x) by lia. by rewrite (list_lookup_total_correct _ _ _ Eb). }
      split_and!; try done.
      + by transitivity k1.
      + intros x. cbn. rewrite filled_step, Eab, (V1 x) by lia. by rewrite (list_lookup_total_correct _ _ _ Eb).
      + eapply went_trans; [exact W1|]. eapply wrote_went; [by split| |].
        * apply HP. intros x Hx. rewrite N2'. apply filled_home. lia.
        * intros D T. apply HP. intros x Hx. rewrite (torn_other _ _ _ _ _ T), N1 by lia. apply filled_home. lia. }
  apply wp_Ok in W as ([] & k' & E & A' & ?). exists k', A'. tauto.
Qed.

End Commit.
Section Install.
Context (c : cpu) (me : nat) (dev start : Z) (bs : list Z) (A : acache) (k : kernel H) (recovering : Z).
Context (Hfit : log_fits dev start) (L : log_mem k dev start bs).
Context (Q : quiet c me k) (B : bio me dev k A) (Hheld : a_held A = ∅).
Context (Hbs : forall b, b ∈ bs -> 0 <= b < dk_size /\ ~ in_log start b).
Context (Hlen : (length bs <= 29)%nat) (Hnd : NoDup bs).
Context (Hrefs : forall b n, a_refs A !! b = Some n -> n = 1%nat).
Context (Hroom : (size (a_refs A) < NBUF)%nat).
Context (Hpinned : if recovering =? 0 then forall b, b ∈ bs -> a_refs A !! b = Some 1%nat else a_refs A = ∅).

Context (P : disk -> Prop).
Context (HP : forall D, (forall x, in_log start x -> D x = now k x) ->
  (forall x, ~ in_log start x -> x ∉ bs -> D x = now k x) -> P D).

(** After [i] iterations. *)
Definition install_inv (i : nat) (k' : kernel H) : Prop :=
  exists A', bframe me k k' /\ bio me dev k' A' /\ a_held A' = ∅ /\
    (forall x, a_refs A' !! x = if (recovering =? 0) && bool_decide (x ∈ take i bs) then None else a_refs A !! x) /\
    (forall x, a_view A' x = installed start bs i (a_view A) (a_view A) x) /\
    (forall x, now k' x = installed start bs i (a_view A) (now k) x) /\ went k k' P.

Lemma install_iteration i k1 :
  (i < length bs)%nat -> install_inv i k1 ->
  wp (let! lbuf := bread (u32 (lg_dev (k_log k1))) (u32 (lg_start (k_log k1) + Z.of_nat i + 1)) in
      let! bn := lh_block_at (Z.of_nat i) in
      let! dbuf := bread (u32 (lg_dev (k_log k1))) (u32 bn) in
      copy_buf dbuf lbuf ;; bwrite dbuf ;; (if recovering =? 0 then bunpin dbuf else ret tt) ;;
      brelse lbuf ;; brelse dbuf) (fun _ k' => install_inv (S i) k') k1.
Proof.
  intros Hi (A1 & F1 & B1 & H1 & R1 & V1 & N1 & W1).
  destruct Hfit as (Hdev & Hs0 & Hs1). pose proof dk_bound as Hmax. unfold LOGSIZE, MAXOPBLOCKS in Hs1.
  destruct (lookup_lt_is_Some_2 bs i Hi) as [b Eb].
  assert (forall b', b' ∈ bs -> ~ in_log start b') as Hhomes by (intros b' ?%Hbs; tauto).
  destruct (Hbs b ltac:(by eapply list_elem_of_lookup_2)) as [Hb Hhome].
  assert (b ∉ take i bs) as Hfresh.
  { intros [t Ht]%list_elem_of_lookup. apply lookup_take_Some in Ht as [Ht Hlt].
    pose proof (NoDup_lookup _ _ _ _ Hnd Ht Eb). lia. }
  assert (forall x, in_log start x -> x ∉ take i bs) as Hnotin.
  { intros x Hx Hin. apply (Hhomes x); [|done]. rewrite <- (take_drop i bs). set_solver. }
  pose proof (bframe_log_mem _ _ _ _ _ _ F1 L) as L1. unfold in_log, LOGSIZE, MAXOPBLOCKS in *.
  set (src := start + Z.of_nat i + 1).
  assert (a_view A1 src = a_view A (start + 1 + Z.of_nat i)) as Esrc.
  { rewrite V1, installed_out by (apply Hnotin; lia). f_equal. lia. }
  assert (a_refs A1 ⊆ a_refs A) as Hsub.
  { apply map_subseteq_spec. intros x n. rewrite R1. by destruct (_ && _). }
  destruct (install_step c me dev k1 A1 src b (bframe_quiet _ _ _ _ F1 Q) B1 H1 ltac:(lia) ltac:(lia) Hb)
    with (tail := Z.of_nat i) (recovering := recovering) as (k2 & E2 & F2 & W2 & B2).
  { eapply Nat.le_lt_trans; [by apply map_subseteq_size|done]. }
  { intros x n Hx. eapply map_subseteq_spec in Hsub; [|done]. by rewrite (Hrefs _ _ Hsub). }
  { intros ->. rewrite R1, bool_decide_eq_false_2 by done. apply Hpinned. by eapply list_elem_of_lookup_2. }
  { destruct (recovering =? 0) eqn:E0.
    - left. rewrite R1, bool_decide_eq_false_2, Hpinned by (done || by eapply list_elem_of_lookup_2). by eexists.
    - right. apply map_subseteq_size in Hsub. rewrite Hpinned, map_size_empty in Hsub. unfold NBUF. lia. }
  { lia. }
  { rewrite Nat2Z.id. by apply (lm_blocks _ _ _ _ L1). }
  rewrite (lm_dev _ _ _ _ L1), (lm_start _ _ _ _ L1). fold src.
  rewrite (u32_small dev), (u32_small src) by (done || unfold is_u32; lia). unfold wp. rewrite E2. rewrite Esrc in *. destruct W2 as [N2 P2].
  assert (forall x, now k2 x = installed start bs (S i) (a_view A) (now k) x) as N2'.
  { intros x. by rewrite N2, (installed_step _ _ _ _ _ b), (N1 x) by done. }
  eexists. split; [by transitivity k1|]. split; [exact B2|]. split_and!.
  - by destruct (recovering =? 0).
  - intros x. transitivity (if (recovering =? 0) && bool_decide (x = b) then None else a_refs A1 !! x).
    + destruct (Z.eqb_spec recovering 0) as [E0|]; [|done]. cbn. case_bool_decide as Ex; [subst x|by apply unref_ne].
      unfold unref. rewrite R1, bool_decide_eq_false_2, andb_false_r by done.
      rewrite Hpinned by (by eapply list_elem_of_lookup_2). by rewrite lookup_delete_eq.
    + rewrite R1. destruct (recovering =? 0); [|done]. cbn. pose proof (take_S_elem bs i b x Eb).
      repeat case_bool_decide; naive_solver.
  - intros x. transitivity (if x =? b then a_view A (start + 1 + Z.of_nat i) else a_view A1 x); [by destruct (recovering =? 0)|].
    by rewrite (installed_step _ _ _ _ _ b), (V1 x) by done.
  - done.
  - eapply went_trans; [exact W1|].
    assert (forall D, (forall x, x <> b -> D x = now k1 x) -> P D) as HPD.
    { intros D HD. apply HP.
      - intros x Hx. rewrite HD by (intros ->; lia). rewrite N1. apply installed_out. by apply Hnotin.
      - intros x Hx Hxb. rewrite HD by (intros ->; apply Hxb; by eapply list_elem_of_lookup_2).
        rewrite N1. apply installed_out. intros Hin. apply Hxb. rewrite <- (take_drop i bs). set_solver. }
    eapply wrote_went; [by split| |].
    + apply HPD. intros x Hx. rewrite N2. by destruct (Z.eqb_spec x b).
    + intros D T. apply HPD. intros x Hx. by apply (torn_other _ _ _ _ _ T).
Qed.

Lemma install_trans_ok :
  exists k' A', install_trans recovering k = Ok tt k' /\ bframe me k k' /\ bio me dev k' A' /\ a_held A' = ∅ /\
    (forall x, a_refs A' !! x = if (recovering =? 0) && bool_decide (x ∈ bs) then None else a_refs A !! x) /\
    (forall x, a_view A' x = installed start bs (length bs) (a_view A) (a_view A) x) /\
    (forall x, now k' x = installed start bs (length bs) (a_view A) (now k) x) /\ went k k' P.
Proof.
  unfold install_trans, get_log. erewrite bind_Ok by reflexivity. rewrite (lm_n _ _ _ _ L).
  match goal with |- context [for_range 0 ?n ?b] => set (body := b) end.
  assert (wp (for_range 0 (Z.of_nat (length bs)) body) (fun _ k' => install_inv (Z.to_nat (Z.of_nat (length bs))) k') k) as W.
  { apply (wp_for_range (fun i k' => install_inv (Z.to_nat i) k')); [lia| |].
    - exists A. split_and!; try done; [|by apply went_refl].
      intros x. rewrite take_0, bool_decide_eq_false_2, andb_false_r; [done|apply not_elem_of_nil].
    - intros i k1 Hi HI. unfold body, get_log. rewrite wp_bind, wp_gets.
      replace (Z.to_nat (i + 1)) with (S (Z.to_nat i)) by lia.
      pose proof (install_iteration (Z.to_nat i) k1 ltac:(lia) HI) as W. by rewrite Z2Nat.id in W by lia. }
  apply wp_Ok in W as ([] & k' & E & A' & F' & B' & H' & R' & V' & N' & W').
  rewrite Nat2Z.id in *. rewrite take_ge in R' by done. exists k', A'. done.
Qed.

End Install.
(** ** commit *)

Lemma bio_set_log me dev k A l : bio me dev k A -> bio me dev (set_k_log l k) A.
Proof. intros []. by split. Qed.
Lemma quiet_set_log c me k l : quiet c me k -> quiet c me (set_k_log l k).
Proof. intros []. by split. Qed.

(** After recovery the home blocks have contents [f]. *)
Definition means (start : Z) (f : disk) (D : disk) : Prop :=
  log_ok start dk_size D /\ forall x, ~ in_log start x -> replay start D x = f x.

Lemma means_empty start f D : hdr_n (D start) = 0 -> (forall x, ~ in_log start x -> D x = f x) -> means start f D.
Proof. intros E Hf. split; [by apply log_ok_empty|]. intros x Hx. rewrite replay_empty by done. by apply Hf. Qed.

Lemma means_agree start f D D' :
  means start f D -> (forall i, (i < 512)%nat -> D' start !! i = D start !! i) ->
  (forall x, start < x < start + LOGSIZE -> D' x = D x) ->
  (forall x, ~ in_log start x -> x ∉ logged start D -> D' x = D x) -> means start f D'.
Proof.
  intros [L R] Hh Hlog Hhome. destruct (hdr_ext (D start) (D' start)) as [En Eb]; [intros i Hi; by rewrite Hh|].
  destruct (replay_agree start dk_size D D' L) as [L' R']; [done| |done|done|].
  - unfold logged. symmetry. apply Eb. apply L.
  - split; [done|]. intros x Hx. rewrite R' by done. by apply R.
Qed.

(** ** Installing a transaction and erasing it from the log *)

Lemma now_length b k' : 0 <= b < dk_size -> length (now k' b) = Z.to_nat BSIZE.
Proof. intros. by apply dk_block. Qed.

Lemma upd_lh_ok f k1 :
  upd_lh f k1 = Ok tt (set_k_log (set_lg_lh (f (lg_lh (k_log k1))) (k_log k1)) k1).
Proof. reflexivity. Qed.

(** Only the header of the log in memory changes. *)
Definition same_log (k k' : kernel H) : Prop := k_log k' = set_lg_lh (lg_lh (k_log k')) (k_log k).

Lemma bframe_same_log me k k' : bframe me k k' -> same_log k k'.
Proof. intros F. unfold same_log. rewrite (bframe_log _ _ _ F). by destruct (k_log k). Qed.
Lemma same_log_trans k1 k2 k3 : same_log k1 k2 -> same_log k2 k3 -> same_log k1 k3.
Proof. unfold same_log. intros E1 E2. rewrite E2, E1. reflexivity. Qed.

Section Finish.
Context (c : cpu) (me : nat) (dev start : Z) (f : disk).

Lemma clear_log_ok k3 A3 bs :
  log_fits dev start -> log_mem k3 dev start bs -> quiet c me k3 -> bio me dev k3 A3 -> a_refs A3 = ∅ -> a_held A3 = ∅ ->
  means start f (now k3) -> (forall x, ~ in_log start x -> a_view A3 x = f x /\ now k3 x = f x) ->
  exists k4 A4, (upd_lh (set_lh_n 0) ;; write_head) k3 = Ok tt k4 /\
    quiet c me k4 /\ log_mem k4 dev start [] /\ bio me dev k4 A4 /\ a_refs A4 = ∅ /\ a_held A4 = ∅ /\
    (forall x, ~ in_log start x -> a_view A4 x = f x /\ now k4 x = f x) /\
    hdr_n (now k4 start) = 0 /\ same_log k3 k4 /\ went k3 k4 (means start f).
Proof.
  intros Hfit L3' Q3' B3 R3 H3 M3 Hf. destruct Hfit as (Hdev & Hs0 & Hs1). pose proof dk_bound as Hmax.
  pose proof Hs1 as Hs1'. unfold LOGSIZE, MAXOPBLOCKS in Hs1.
  set (k3' := set_k_log (set_lg_lh (set_lh_n 0 (lg_lh (k_log k3))) (k_log k3)) k3).
  assert (log_mem k3' dev start []) as L3 by (destruct L3'; by split).
  pose proof (quiet_set_log c me k3 (k_log k3') Q3') as Q3.
  pose proof (bio_set_log me dev k3 A3 (k_log k3') B3) as B3'.
  destruct (write_head_ok c me dev start [] A3 k3' (conj Hdev (conj Hs0 Hs1')) L3 ltac:(cbn; lia) Q3 B3' H3)
    as (k4 & E4 & F4 & B4 & W4).
  { rewrite R3, map_size_empty. unfold NBUF. lia. }
  { by rewrite R3. }
  set (d := hdr_make [] (a_view A3 start)) in *. destruct W4 as [N4 P4].
  change (now k3') with (now k3) in *.
  assert (length (a_view A3 start) = Z.to_nat BSIZE) as Hv3.
  { destruct (bio_clean _ _ _ _ B3 start) as [-> _]; [by rewrite R3|]. apply now_length. lia. }
  assert (hdr_n d = 0) as Hd0 by (apply hdr_make_n; [cbn; lia|done]).
  assert (forall D, hdr_n (D start) = 0 -> (forall x, x <> start -> D x = now k3 x) -> means start f D) as Hcleared.
  { intros D HD Hx. apply means_empty; [done|]. intros x Hh. rewrite Hx by by apply home_ne. by apply Hf. }
  exists k4, (view_as A3 start d). rewrite (bind_Ok _ _ _ _ _ (upd_lh_ok _ _)).
  split_and!; try done.
  - by apply (bframe_quiet _ _ _ _ F4).
  - by eapply bframe_log_mem.
  - intros x Hx. cbn. rewrite N4. destruct (Z.eqb_spec x start); [by destruct (home_ne _ _ Hx)|]. by apply Hf.
  - by rewrite N4, Z.eqb_refl.
  - apply (same_log_trans _ k3'); [done|by apply (bframe_same_log me)].
  - apply (wrote_went k3' k4 start d); [by split| |].
    + apply Hcleared; [by rewrite N4, Z.eqb_refl|]. intros x Hx. rewrite N4. by destruct (Z.eqb_spec x start).
    + intros D T. change (now k3') with (now k3) in T.
      destruct (torn_header start (now k3) d D T) as [Hh|Hh]; [apply hdr_make_length; [cbn; lia|done]|apply now_length; lia|..].
      * apply Hcleared; [|intros x Hx; by apply (torn_other _ _ _ _ _ T)].
        destruct (hdr_ext (D start) d Hh) as [-> _]. done.
      * apply (means_agree start _ (now k3)); [done|done| |]; intros x Hx.
        -- apply (torn_other _ _ _ _ _ T). lia.
        -- intros _. by apply (torn_other _ _ _ _ _ T), home_ne.
Qed.

Context (bs : list Z) (A : acache) (k : kernel H) (recovering : Z).
Context (Hfit : log_fits dev start) (L : log_mem k dev start bs).
Context (Q : quiet c me k) (B : bio me dev k A) (Hheld : a_held A = ∅).
Context (Hrefs : forall b n, a_refs A !! b = Some n -> n = 1%nat /\ b ∈ bs) (Hroom : (size (a_refs A) < NBUF)%nat).
Context (Hpinned : if recovering =? 0 then forall b, b ∈ bs -> a_refs A !! b = Some 1%nat else a_refs A = ∅).
Context (M : means start f (now k)) (El : logged start (now k) = bs).
Context (Vlog : forall x, start < x <= start + Z.of_nat (length bs) -> a_view A x = now k x).
Context (Hhome : forall x, ~ in_log start x -> x ∉ bs -> a_view A x = f x /\ now k x = f x).

Lemma finish_homes b : b ∈ bs -> 0 <= b < dk_size /\ ~ in_log start b.
Proof. rewrite <- El. apply M. Qed.

(** Every home block is as recovery would make it, once the log is installed. *)
Lemma installed_means g x :
  (forall y, ~ in_log start y -> y ∉ bs -> g y = f y) -> ~ in_log start x ->
  installed start bs (length bs) (a_view A) g x = f x.
Proof.
  destruct M as [L2 M2]. intros Hg Hx. destruct (decide (x ∈ bs)) as [Hin|Hout].
  - apply list_elem_of_lookup in Hin as [t Ht]. pose proof (lookup_lt_Some _ _ _ Ht) as Hlt.
    rewrite (installed_in start bs _ _ _ x t) by (done || by rewrite <- El; apply L2).
    rewrite Vlog, <- M2 by (lia || done). by rewrite (replay_in start dk_size _ t x L2) by by rewrite El.
  - rewrite installed_out by by rewrite take_ge. by apply Hg.
Qed.

Lemma finish_ok :
  exists k' A', (install_trans recovering ;; upd_lh (set_lh_n 0) ;; write_head) k = Ok tt k' /\
    quiet c me k' /\ log_mem k' dev start [] /\ bio me dev k' A' /\ a_refs A' = ∅ /\ a_held A' = ∅ /\
    (forall x, ~ in_log start x -> a_view A' x = f x /\ now k' x = f x) /\
    hdr_n (now k' start) = 0 /\ same_log k k' /\ went k k' (means start f).
Proof.
  assert (length bs <= 29)%nat as Hlen by (rewrite <- El; apply logged_length, M).
  assert (NoDup bs) as Hnd by (rewrite <- El; apply M).
  assert (forall D, (forall x, in_log start x -> D x = now k x) ->
    (forall x, ~ in_log start x -> x ∉ bs -> D x = now k x) -> means start f D) as HP.
  { intros D Hlog Hh. apply (means_agree start _ (now k)); try done.
    - intros i Hi. rewrite Hlog; [done|]. unfold in_log, LOGSIZE, MAXOPBLOCKS. lia.
    - intros x Hx. apply Hlog. unfold in_log. lia.
    - intros x Hx Hb. rewrite El in Hb. by apply Hh. }
  destruct (install_trans_ok c me dev start bs A k recovering Hfit L Q B Hheld finish_homes Hlen Hnd)
    with (P := means start f) as (k3 & A3 & E3 & F3 & B3 & H3 & R3 & V3 & N3 & W3); try done.
  { intros b n Hb. by destruct (Hrefs _ _ Hb). }
  destruct (clear_log_ok k3 A3 bs) as (k4 & A4 & E4 & Q4 & L4 & B4 & R4 & H4 & V4 & Hd4 & G4 & W4); try done.
  - by apply (bframe_log_mem _ _ _ _ _ _ F3).
  - by apply (bframe_quiet _ _ _ _ F3).
  - apply map_eq. intros x. rewrite R3, lookup_empty. destruct (recovering =? 0); [|by rewrite Hpinned].
    cbn. case_bool_decide as Hx; [done|]. destruct (a_refs A !! x) eqn:Ex; [|done]. by destruct (Hrefs _ _ Ex).
  - apply HP; intros x Hx; [|intros Hb]; rewrite N3; apply installed_out; rewrite take_ge by done; [|done].
    intros Hb. by destruct (finish_homes _ Hb).
  - intros x Hx. rewrite V3, N3. split; apply installed_means; try done; intros y Hy Hb; by apply Hhome.
  - exists k4, A4. rewrite (bind_Ok _ _ _ _ _ E3). split_and!; try done; [|by eapply went_trans].
    by apply (same_log_trans _ k3); [apply (bframe_same_log me)|].
Qed.
End Finish.

Section CommitProof.
Context (c : cpu) (me : nat) (dev start : Z) (bs : list Z) (A : acache) (k : kernel H).
Context (Hfit : log_fits dev start) (L : log_mem k dev start bs).
Context (Q : quiet c me k) (B : bio me dev k A) (Hheld : a_held A = ∅).
Context (Hbs : forall b, b ∈ bs -> 0 <= b < dk_size /\ ~ in_log start b).
Context (Hlen : (length bs <= 29)%nat) (Hnd : NoDup bs).
Context (Hrefs : forall b n, a_refs A !! b = Some n <-> n = 1%nat /\ b ∈ bs).
Context (Hclear : hdr_n (now k start) = 0).

Lemma not_logged_none b : b ∉ bs -> a_refs A !! b = None.
Proof. intros Hb. destruct (a_refs A !! b) eqn:E; [|done]. by apply Hrefs in E as [_ ?]. Qed.

Lemma start_not_logged : start ∉ bs.
Proof. intros Hin. destruct (Hbs _ Hin) as [_ Hx]. apply Hx. unfold in_log, LOGSIZE, MAXOPBLOCKS. lia. Qed.

(** The transaction on the disk, not yet installed. *)
Lemma header_means D d :
  d = hdr_make bs (now k start) -> D start = d ->
  (forall x, x <> start -> D x = filled start bs (Z.of_nat (length bs)) (a_view A) (now k) x) ->
  logged start D = bs /\ means start (a_view A) D.
Proof.
  intros -> Ed HD. destruct Hfit as (_ & Hs0 & Hs1). pose proof dk_bound as Hmax. unfold LOGSIZE, MAXOPBLOCKS in Hs1.
  assert (length (now k start) = Z.to_nat BSIZE) as Hl by (apply now_length; lia).
  assert (logged start D = bs) as El.
  { unfold logged. rewrite Ed, hdr_make_blocks; [done|lia|done|]. apply list.Forall_forall. intros b Hb%Hbs. lia. }
  assert (hdr_n (D start) = Z.of_nat (length bs)) as En by (rewrite Ed; apply hdr_make_n; [lia|done]).
  assert (log_ok start dk_size D) as Lo.
  { split; rewrite ?El, ?En; [unfold LOGSIZE, MAXOPBLOCKS; lia|done|done]. }
  split; [done|]. split; [done|]. intros x Hx. destruct (decide (x ∈ bs)) as [Hin|Hout].
  - apply list_elem_of_lookup in Hin as [t Ht]. rewrite (replay_in start dk_size D t x Lo) by by rewrite El.
    pose proof (lookup_lt_Some _ _ _ Ht). rewrite HD by lia. unfold filled.
    destruct (Z.leb_spec (start + 1) (start + 1 + Z.of_nat t)), (Z.ltb_spec (start + 1 + Z.of_nat t) (start + 1 + Z.of_nat (length bs))); try lia.
    cbn. replace (Z.to_nat (start + 1 + Z.of_nat t - start - 1)) with t by lia.
    by rewrite (list_lookup_total_correct _ _ _ Ht).
  - rewrite replay_out by by rewrite El. rewrite HD, filled_home.
    + symmetry. by apply (bio_clean _ _ _ _ B), not_logged_none.
    + unfold in_log, LOGSIZE, MAXOPBLOCKS in Hx. lia.
    + intros ->. apply Hx. unfold in_log, LOGSIZE, MAXOPBLOCKS. lia.
Qed.

Definition committed (k' : kernel H) : Prop :=
  went k k' (fun D => means start (now k) D \/ means start (a_view A) D).

(** Until the header is on the disk. *)
Lemma commit_first_half :
  exists k1 k2 A2, write_log k = Ok tt k1 /\ write_head k1 = Ok tt k2 /\ bframe me k k2 /\ bio me dev k2 A2 /\
    a_refs A2 = a_refs A /\ a_held A2 = ∅ /\ committed k2 /\
    means start (a_view A) (now k2) /\ logged start (now k2) = bs /\
    (forall x, start < x <= start + Z.of_nat (length bs) -> a_view A2 x = now k2 x) /\
    (forall x, ~ in_log start x -> a_view A2 x = a_view A x) /\
    (forall x, ~ in_log start x -> x ∉ bs -> now k2 x = a_view A x).
Proof.
  destruct Hfit as (Hdev & Hs0 & Hs1). pose proof dk_bound as Hmax. pose proof Hs1 as Hs1'. unfold LOGSIZE, MAXOPBLOCKS in Hs1.
  destruct (write_log_ok c me dev start bs A k Hfit L Q B Hheld Hbs Hlen Hnd Hrefs (means start (now k)))
    as (k1 & A1 & E1 & F1 & B1 & R1 & H1 & V1 & N1 & W1).
  { intros D HD. apply means_empty; [rewrite HD by lia; done|]. intros x Hx. apply HD. unfold in_log in Hx. lia. }
  assert (a_view A1 start = now k start) as Vs.
  { rewrite V1, filled_home by lia. by apply (bio_clean _ _ _ _ B), not_logged_none, start_not_logged. }
  destruct (write_head_ok c me dev start bs A1 k1 Hfit (bframe_log_mem _ _ _ _ _ _ F1 L) ltac:(lia)
    (bframe_quiet _ _ _ _ F1 Q) B1 H1) as (k2 & E2 & F2 & B2 & W2).
  { rewrite R1, (refs_size bs A Hnd Hrefs). unfold NBUF. lia. }
  { rewrite R1. apply not_logged_none, start_not_logged. }
  rewrite Vs in *. set (d := hdr_make bs (now k start)) in *. destruct W2 as [N2 P2].
  assert (forall x, x <> start -> now k2 x = filled start bs (Z.of_nat (length bs)) (a_view A) (now k) x) as N2'.
  { intros x Hx. rewrite N2. destruct (Z.eqb_spec x start); [done|]. apply N1. }
  destruct (header_means (now k2) d eq_refl) as [El M2]; [by rewrite N2, Z.eqb_refl|done|].
  assert (length d = Z.to_nat BSIZE) as Hd by (apply hdr_make_length; [lia|apply now_length; lia]).
  exists k1, k2, (view_as A1 start d). split_and!; try done.
  - by transitivity k1.
  - eapply went_trans; [eapply went_mono; [|exact W1]; auto|]. eapply wrote_went; [by split|by right|].
    intros D T. destruct (torn_header start (now k1) d D T Hd ltac:(apply now_length; lia)) as [Hh|Hh].
    + right. apply (means_agree start _ (now k2)); try done.
      * intros i Hi. rewrite Hh by done. by rewrite N2, Z.eqb_refl.
      * intros x Hx. rewrite (torn_other _ _ _ _ _ T), N2 by lia. by destruct (Z.eqb_spec x start); [lia|].
      * intros x Hx _. pose proof (home_ne _ _ Hx).
        rewrite (torn_other _ _ _ _ _ T), N2 by done. by destruct (Z.eqb_spec x start).
    + left. apply (means_agree start _ (now k1)); [|done|intros x Hx|intros x Hx _].
      * apply means_empty; [by rewrite N1, filled_home by lia|]. intros x Hx. rewrite N1. apply filled_home.
        apply home_out; [done|lia].
      * apply (torn_other _ _ _ _ _ T). lia.
      * apply (torn_other _ _ _ _ _ T). by apply home_ne.
  - intros x Hx. cbn. rewrite N2. destruct (Z.eqb_spec x start); [done|]. rewrite V1, N1. unfold filled.
    destruct (Z.leb_spec (start + 1) x), (Z.ltb_spec x (start + 1 + Z.of_nat (length bs))); try lia. done.
  - intros x Hx. cbn. destruct (Z.eqb_spec x start); [by destruct (home_ne _ _ Hx)|].
    rewrite V1. apply filled_home, home_out; [done|lia].
  - intros x Hx Hb. pose proof (home_ne _ _ Hx).
    rewrite N2', filled_home by (done || apply home_out; done || lia). symmetry.
    by apply (bio_clean _ _ _ _ B), not_logged_none.
Qed.

Lemma commit_ok :
  (0 < length bs)%nat ->
  exists k' A', commit k = Ok tt k' /\ quiet c me k' /\ log_mem k' dev start [] /\ bio me dev k' A' /\
    a_refs A' = ∅ /\ a_held A' = ∅ /\
    (forall x, ~ in_log start x -> a_view A' x = a_view A x /\ now k' x = a_view A x) /\
    hdr_n (now k' start) = 0 /\ same_log k k' /\ committed k'.
Proof.
  intros Hpos. destruct commit_first_half as (k1 & k2 & A2 & E1 & E2 & F2 & B2 & R2 & H2 & C2 & M2 & El & Vl & Vh & Nh).
  destruct (finish_ok c me dev start (a_view A) bs A2 k2 0 Hfit (bframe_log_mem _ _ _ _ _ _ F2 L)
    (bframe_quiet _ _ _ _ F2 Q) B2 H2) as (k4 & A4 & E4 & Q4 & L4 & B4 & R4 & H4 & V4 & Hd4 & G4 & W4); try done.
  { intros b n. rewrite R2. apply Hrefs. }
  { rewrite R2, (refs_size bs A Hnd Hrefs). unfold NBUF. lia. }
  { cbn. intros b Hb. rewrite R2. by apply Hrefs. }
  { intros x Hx Hb. split; [by apply Vh|by apply Nh]. }
  exists k4, A4. split_and!; try done.
  - unfold commit, get_log. erewrite bind_Ok by reflexivity. rewrite (lm_n _ _ _ _ L).
    destruct (Z.ltb_spec 0 (Z.of_nat (length bs))); [|lia].
    by rewrite (bind_Ok _ _ _ _ _ E1), (bind_Ok _ _ _ _ _ E2).
  - by apply (same_log_trans _ k2); [apply (bframe_same_log me)|].
  - eapply went_trans; [exact C2|]. eapply went_mono; [|exact W4]. auto.
Qed.

End CommitProof.
End LogProofs.
