(* ===== verification/KRecover.v ===== *)
(** Recovery from the log (log.c), and what survives a crash.

    A crash loses everything but the disk.  [restarted] is a disk found after a crash in
    the middle of a recovery; the theorems say that a transaction whose commit was cut off
    is there in full or not at all, however often the recovery itself is cut off. *)
From stdpp Require Import base gmap sets list numbers relations strings tactics.
From S2P Require Import Prelude Mem KMachine KSched KBytes KBio KBioProofs KLog KCrash KLogProofs.

Section Recover.
Context {H : Type} `{!Platform H} `{!SleepFuel} `{!DiskDriver H} `{!DiskLaws H}.
Implicit Types k : kernel H.

(** ** read_head *)

(** Nothing but the in-memory log changes. *)
Definition relogged (k k' : kernel H) : Prop := k' = set_k_log (k_log k') k.

Lemma relogged_set k k' l : relogged k k' -> relogged k (set_k_log l k').
Proof. unfold relogged. intros R. by rewrite R. Qed.

Lemma set_lh_block_at_ok k i v :
  0 <= i < 30 -> length (lh_block (lg_lh (k_log k))) = 30%nat ->
  set_lh_block_at i v k = Ok tt (set_k_log (set_lg_lh (set_lh_block
    (<[Z.to_nat i := v]> (lh_block (lg_lh (k_log k)))) (lg_lh (k_log k))) (k_log k)) k).
Proof.
  intros Hi Hl. destruct (lookup_lt_is_Some_2 (lh_block (lg_lh (k_log k))) (Z.to_nat i)) as [b Eb]; [lia|].
  unfold set_lh_block_at. by rewrite (bind_Ok _ _ _ _ _ (lh_block_at_ok _ _ _ (proj1 Hi) Eb)).
Qed.

(** The block numbers of header [d] are copied into [log.lh]. *)
Lemma load_head_ok k dev start d b r :
  lg_dev (k_log k) = dev -> lg_start (k_log k) = start -> length (lh_block (lg_lh (k_log k))) = 30%nat ->
  k_bufs k !! b = Some r -> b_data r = d -> 0 <= hdr_n d < LOGSIZE ->
  exists k', (upd_lh (set_lh_n (hdr_n d)) ;;
      for_range 0 (hdr_n d) (fun i =>
        let! r := get_buf b in set_lh_block_at i (hdr_block (b_data r) i))) k = Ok tt k' /\
    relogged k k' /\ log_mem k' dev start (hdr_blocks d) /\ same_log k k'.
Proof.
  intros Ed Es Hl Er Hd Hn. unfold LOGSIZE, MAXOPBLOCKS in Hn. rewrite (bind_Ok _ _ _ _ _ (upd_lh_ok _ _)).
  set (k1 := set_k_log _ k).
  match goal with |- context [for_range 0 ?n ?b] => set (body := b) end.
  assert (wp (for_range 0 (hdr_n d) body) (fun _ k' => (relogged k k' /\ same_log k k') /\
    log_mem k' dev start (take (Z.to_nat (hdr_n d)) (hdr_blocks d))) k1) as W.
  { eapply wp_mono; [|apply (wp_for_range (fun i k' => (relogged k k' /\ same_log k k') /\
        lg_dev (k_log k') = dev /\ lg_start (k_log k') = start /\ lh_n (lg_lh (k_log k')) = hdr_n d /\
        length (lh_block (lg_lh (k_log k'))) = 30%nat /\
        forall j, (j < Z.to_nat i)%nat -> lh_block (lg_lh (k_log k')) !! j = Some (hdr_block d (Z.of_nat j)))); [lia| |]].
    - intros _ k' (R & D1 & D2 & D3 & D4 & D5). split; [done|].
      assert (length (hdr_blocks d) = Z.to_nat (hdr_n d)) as Hlen by (unfold hdr_blocks; by rewrite length_map, length_seq).
      rewrite take_ge by lia. split; try done; [by rewrite Hlen, Z2Nat.id by lia|].
      intros j x Hx. pose proof (lookup_lt_Some _ _ _ Hx) as Hj. rewrite Hlen in Hj. rewrite D5 by done.
      unfold hdr_blocks in Hx. rewrite list_lookup_fmap, lookup_seq_lt in Hx by done. cbn in Hx. done.
    - split_and!; try done. intros j. lia.
    - intros i k' Hi ([R Sl] & D1 & D2 & D3 & D4 & D5). unfold body.
      assert (k_bufs k' !! b = Some r) as Er' by (rewrite R; exact Er).
      unfold wp. rewrite (bind_Ok _ _ _ _ _ (get_buf_ok _ _ _ Er')), set_lh_block_at_ok by (done || lia).
      split_and!; try done; [by apply relogged_set|unfold same_log in *; by rewrite Sl|cbn; by rewrite length_insert|].
      cbn. intros j Hj. destruct (decide (j = Z.to_nat i)) as [->|].
      + rewrite list_lookup_insert_eq by lia. by rewrite Hd, Z2Nat.id by lia.
      + rewrite list_lookup_insert_ne by lia. apply D5. lia. }
  apply wp_Ok in W as ([] & k' & E & [R Sl] & L). exists k'. split_and!; try done.
  rewrite take_ge in L; [done|]. unfold hdr_blocks. rewrite length_map, length_seq. lia.
Qed.

Lemma relogged_quiet c me k k' : relogged k k' -> quiet c me k -> quiet c me k'.
Proof. intros ->. apply quiet_set_log. Qed.
Lemma relogged_bio me dev k k' A : relogged k k' -> bio me dev k A -> bio me dev k' A.
Proof. intros ->. apply bio_set_log. Qed.

(** A machine that has booted: its cache holds nothing that is not on the disk. *)
Record booted (c : cpu) (me : nat) (dev : Z) (A : acache) k : Prop := {
  bt_quiet : quiet c me k;
  bt_bio : bio me dev k A;
  bt_refs : a_refs A = ∅;
  bt_held : a_held A = ∅;
  bt_len : length (lh_block (lg_lh (k_log k))) = 30%nat
}.

Section Boot.
Context (c : cpu) (me : nat) (dev start : Z) (A : acache) (k : kernel H).
Context (Hfit : log_fits dev start) (Hb : booted c me dev A k).
Context (Ed : lg_dev (k_log k) = dev) (Es : lg_start (k_log k) = start).

Lemma booted_view x : a_view A x = now k x.
Proof. apply (bio_clean _ _ _ _ (bt_bio _ _ _ _ _ Hb)). by rewrite (bt_refs _ _ _ _ _ Hb). Qed.

Lemma read_head_ok :
  0 <= hdr_n (now k start) < LOGSIZE ->
  exists k', read_head k = Ok tt k' /\ quiet c me k' /\ bio me dev k' A /\ log_mem k' dev start (logged start (now k)) /\
    same_log k k' /\ now k' = now k /\ past k' = past k.
Proof.
  destruct Hb as [Q B Rf Hh Hl]. intros Hn. destruct Hfit as (Hdev & Hs0 & Hs1). pose proof dk_bound as Hmax.
  unfold LOGSIZE, MAXOPBLOCKS in Hs1. unfold read_head, get_log. erewrite bind_Ok by reflexivity.
  rewrite Ed, Es, (u32_small dev), (u32_small start) by (done || unfold is_u32; lia).
  destruct (bread_ok c me dev k A start Q B) as (i & k1 & E1 & F1 & N1 & P1 & B1 & Hi & _).
  { by rewrite Hh. }
  { by rewrite Rf. }
  { right. rewrite Rf, map_size_empty. unfold NBUF. lia. }
  { lia. }
  destruct (handle_data _ _ _ _ _ _ B1 Hi) as (r & Er & Hr). cbn in Hr. rewrite booted_view in Hr.
  rewrite (bind_Ok _ _ _ _ _ E1), (bind_Ok _ _ _ _ _ (get_buf_ok _ _ _ Er)), <- bind_assoc.
  destruct (load_head_ok k1 dev start (now k start) i r) as (k2 & E2 & R2 & L2 & G2); rewrite ?(bframe_log _ _ _ F1); try done.
  rewrite Hr, (bind_Ok _ _ _ _ _ E2).
  destruct (brelse_ok c me dev k2 (grab A start) i start O) as (k3 & E3 & F3 & W3 & B3 & K3).
  - by apply (relogged_quiet _ _ k1), (bframe_quiet _ _ _ _ F1).
  - by apply (relogged_bio _ _ k1).
  - destruct Hi as (r' & ?). exists r'. by rewrite R2.
  - cbn. set_solver.
  - cbn. by rewrite lookup_insert_eq, Rf.
  - intros _. cbn. rewrite booted_view. rewrite R2. change (now (set_k_log _ k1)) with (now k1). by rewrite N1.
  - rewrite drop_grab in B3 by (rewrite ?Rf, ?Hh; set_solver || done).
    assert (k_hw k3 = k_hw k1) as W by (rewrite W3, R2; done).
    exists k3. split_and!; try done.
    + by apply (bframe_quiet _ _ _ _ F3), (relogged_quiet _ _ k1), (bframe_quiet _ _ _ _ F1).
    + by apply (bframe_log_mem _ _ _ _ _ _ F3).
    + apply (same_log_trans _ k1); [by apply (bframe_same_log me)|].
      apply (same_log_trans _ k2); [done|by apply (bframe_same_log me)].
    + unfold now in *. by rewrite W.
    + unfold past in *. by rewrite W.
Qed.

(** Recovery makes the disk that [f] describes. *)
Lemma recover_from_log_ok f :
  means start f (now k) ->
  exists k' A', recover_from_log k = Ok tt k' /\ booted c me dev A' k' /\ log_mem k' dev start [] /\ same_log k k' /\
    (forall x, ~ in_log start x -> now k' x = f x) /\ hdr_n (now k' start) = 0 /\ went k k' (means start f).
Proof.
  intros M. destruct read_head_ok as (k1 & E1 & Q1 & B1 & L1 & G1 & N1 & P1); [apply M|].
  pose proof booted_view as V. destruct Hb as [Q B Rf Hh Hl].
  destruct (finish_ok c me dev start f (logged start (now k)) A k1 1 Hfit L1 Q1 B1 Hh)
    as (k2 & A2 & E2 & Q2 & L2 & B2 & R2 & H2 & V2 & Z2 & G2 & W2).
  - intros b n. by rewrite Rf.
  - rewrite Rf, map_size_empty. unfold NBUF. lia.
  - done.
  - by rewrite N1.
  - by rewrite N1.
  - intros x _. by rewrite N1, V.
  - intros x Hx Hout. rewrite N1, V. destruct M as [Lo Hf]. by rewrite <- Hf, replay_out.
  - exists k2, A2. unfold recover_from_log. rewrite (bind_Ok _ _ _ _ _ E1).
    split_and!; try done; [split; try done; apply (lm_len _ _ _ _ L2)|by apply (same_log_trans _ k1)|intros x Hx; by apply V2|].
    destruct W2 as (ds & W2 & F2). exists ds. by rewrite <- N1, <- P1.
Qed.
End Boot.

(** ** initlog *)

Lemma initlock_free l nm k l' : free l' k -> free l' (set_k_locks (<[l := mkLk 0 nm None]> (k_locks k)) k).
Proof.
  intros [nm' E]. unfold free. cbn. destruct (decide (l' = l)) as [->|].
  - rewrite lookup_insert_eq. by eexists.
  - rewrite lookup_insert_ne by done. by exists nm'.
Qed.

Lemma initlock_quiet c me l nm k : quiet c me k -> quiet c me (set_k_locks (<[l := mkLk 0 nm None]> (k_locks k)) k).
Proof. intros []. split; try done. intros l' Hl'. by apply initlock_free; auto. Qed.

Lemma booted_locks c me dev A k ls : 
  quiet c me (set_k_locks ls k) -> booted c me dev A k -> booted c me dev A (set_k_locks ls k).
Proof. intros Q [_ [] ? ? ?]. by split. Qed.
Lemma booted_log c me dev A k l : 
  length (lh_block (lg_lh l)) = 30%nat -> booted c me dev A k -> booted c me dev A (set_k_log l k).
Proof. intros Hl [[] [] ? ? ?]. by split. Qed.

Lemma initlog_ok c me dev sb A k f :
  let start := i32 (sb_logstart sb) in
  log_fits dev start -> booted c me dev A k -> means start f (now k) ->
  exists k' A', initlog dev sb k = Ok tt k' /\ booted c me dev A' k' /\ log_mem k' dev start [] /\
    lg_size (k_log k') = i32 (sb_nlog sb) /\ lg_outstanding (k_log k') = lg_outstanding (k_log k) /\
    lg_committing (k_log k') = lg_committing (k_log k) /\
    (forall x, ~ in_log start x -> now k' x = f x) /\ hdr_n (now k' start) = 0 /\ went k k' (means start f).
Proof.
  intros start Hfit Hb M.
  set (k1 := set_k_locks (<[LLog := mkLk 0 "log" None]> (k_locks k)) k).
  set (k2 := set_k_log (set_lg_dev dev (set_lg_size (i32 (sb_nlog sb)) (set_lg_start start (k_log k)))) k1).
  assert (booted c me dev A k2) as Hb2.
  { apply booted_log; [apply Hb|]. apply booted_locks; [|done]. apply initlock_quiet, Hb. }
  destruct (recover_from_log_ok c me dev start A k2 Hfit Hb2 eq_refl eq_refl f M) as (k' & A' & E & B' & L & G & R).
  exists k', A'. rewrite G. by split_and!; try apply R.
Qed.

(** ** Crashes *)

(** [D] is a state of the medium on the way from [k] to [k']. *)
Definition passes k k' (D : disk) : Prop :=
  exists ds, now k' :: past k' = ds ++ now k :: past k /\ D ∈ ds ++ [now k].

Lemma went_passes k k' P D : went k k' P -> P (now k) -> passes k k' D -> P D.
Proof.
  intros (ds & E & F) Pk (ds' & E' & Hin). rewrite E' in E. apply app_inv_tail in E as ->.
  apply elem_of_app in Hin as [Hin|Hin]; [|by apply list_elem_of_singleton in Hin as ->].
  by apply (proj1 (list.Forall_forall _ _) F).
Qed.

(** Disk [D'] is found after a crash during the recovery from disk [D]. *)
Definition cut_off (dev : Z) (sb : superblock) (D D' : disk) : Prop :=
  exists c me A k k', booted c me dev A k /\ now k = D /\ initlog dev sb k = Ok tt k' /\ passes k k' D'.

Lemma cut_off_means dev sb f D D' :
  let start := i32 (sb_logstart sb) in
  log_fits dev start -> rtc (cut_off dev sb) D D' -> means start f D -> means start f D'.
Proof.
  intros start Hfit. induction 1 as [|D1 D2 D3 (c & me & A & k & k' & Hb & <- & E & Hp) _ IH]; [done|].
  intros M. apply IH. destruct (initlog_ok c me dev sb A k f Hfit Hb M) as (k2 & A2 & E2 & _ & _ & _ & _ & _ & _ & _ & W).
  rewrite E2 in E. injection E as <-. by eapply went_passes.
Qed.

(** Recovery after any number of recoveries that were cut off. *)
Lemma recovers dev sb f D D' c me A k :
  let start := i32 (sb_logstart sb) in
  log_fits dev start -> means start f D -> rtc (cut_off dev sb) D D' -> booted c me dev A k -> now k = D' ->
  exists k', initlog dev sb k = Ok tt k' /\ (forall x, ~ in_log start x -> now k' x = f x) /\ hdr_n (now k' start) = 0.
Proof.
  intros start Hfit M Hr Hb E. destruct (initlog_ok c me dev sb A k f Hfit Hb) as (k' & A' & Ek & _ & _ & _ & _ & _ & Hx & Hz & _).
  - rewrite E. by eapply cut_off_means.
  - by exists k'.
Qed.

End Recover.
