(* ===== verification/KTxn.v ===== *)
(** Transactions (log.c): [begin_op], [log_write] and [end_op], and the theorem that a
    crash leaves a transaction done in full or not at all. *)
From stdpp Require Import base gmap sets list numbers relations strings tactics.
From S2P Require Import Prelude Mem KMachine KSched KBytes KBio KBioProofs KLog KCrash KLogProofs KRecover.

Section Txn.
Context {H : Type} `{!Platform H} `{!SleepFuel} `{!DiskDriver H} `{!DiskLaws H}.
Implicit Types k : kernel H.

(** How often a block is referenced: once by the log, once by a process that has it locked. *)
Definition refs_of (bs : list Z) (held : gset Z) (b : Z) : nat :=
  (if decide (b ∈ bs) then 1 else 0) + (if decide (b ∈ held) then 1 else 0).

(** A transaction of the home blocks [bs], all in memory so far. *)
Record txn (c : cpu) (me : nat) (dev start : Z) (bs : list Z) (A : acache) k : Prop := {
  tx_quiet : quiet c me k;
  tx_bio : bio me dev k A;
  tx_log : log_mem k dev start bs;
  tx_homes : forall b, b ∈ bs -> 0 <= b < dk_size /\ ~ in_log start b;
  tx_nodup : NoDup bs;
  tx_refs : forall b, default O (a_refs A !! b) = refs_of bs (a_held A) b;
  tx_clear : hdr_n (now k start) = 0;
  tx_len : Z.of_nat (length bs) < LOGSIZE;
  tx_size : lg_size (k_log k) = LOGSIZE;
  tx_out : 0 <= lg_outstanding (k_log k) <= LOGSIZE
}.

Section State.
Context (c : cpu) (me : nat) (dev start : Z) (bs : list Z) (A : acache) (k : kernel H).
Context (T : txn c me dev start bs A k).

Lemma txn_refs b n : a_refs A !! b = Some n -> n = refs_of bs (a_held A) b /\ n <> O.
Proof.
  intros E. pose proof (tx_refs _ _ _ _ _ _ _ T b) as R. rewrite E in R. cbn in R. split; [done|].
  intros ->. by apply (bio_nozero _ _ _ _ (tx_bio _ _ _ _ _ _ _ T) b).
Qed.

Lemma txn_logged b : b ∈ bs -> is_Some (a_refs A !! b).
Proof.
  intros Hb. destruct (a_refs A !! b) eqn:E; [by eexists|]. pose proof (tx_refs _ _ _ _ _ _ _ T b) as R.
  rewrite E in R. unfold refs_of in R. rewrite decide_True in R by done. cbn in R. lia.
Qed.

(** No process in the middle of anything: the references are the log's. *)
Lemma txn_pinned b n : a_held A = ∅ -> a_refs A !! b = Some n <-> n = 1%nat /\ b ∈ bs.
Proof.
  intros Hh. split.
  - intros E. destruct (txn_refs b n E) as [-> Hn]. unfold refs_of in *. rewrite Hh in *.
    rewrite (decide_False (P := b ∈ (∅ : gset Z))) in * by set_solver. by destruct (decide (b ∈ bs)).
  - intros [-> Hb]. destruct (txn_logged b Hb) as [m Em]. rewrite Em. f_equal.
    destruct (txn_refs b m Em) as [-> _]. unfold refs_of. rewrite Hh, decide_True, decide_False; [done|set_solver|done].
Qed.

Lemma txn_small b : Z.of_nat (default O (a_refs A !! b)) < 2 ^ 31.
Proof. rewrite (tx_refs _ _ _ _ _ _ _ T b). unfold refs_of. do 2 destruct (decide _); lia. Qed.

End State.

(** ** The lock of the log *)

Lemma quiet_set_bufs c me k bs : quiet c me k -> quiet c me (set_k_bufs bs k).
Proof. intros []. by split. Qed.
Lemma bio_enter me dev k A c nm l : bio me dev k A -> bio me dev (enter c nm l k) A.
Proof. intros []. by split. Qed.

(** Every lock a process takes while it holds [log.lock] is free. *)
Lemma quiet_under c me k nm l l' :
  quiet c me k -> static_lock l' -> l' <> l ->
  on_cpu (set_c_noff (c_noff c + 1) c) (enter c nm l k) /\ free l' (enter c nm l k).
Proof. intros Q Hs Hne. split; [by apply (quiet_enter c nm me)|]. apply free_enter; [done|by apply Q]. Qed.

(** What the operations on blocks leave alone. *)
Definition in_op (me : nat) k k' : Prop :=
  lg_outstanding (k_log k') = lg_outstanding (k_log k) /\ lg_committing (k_log k') = lg_committing (k_log k) /\
  now k' = now k /\ past k' = past k /\ procs_woken me (k_proc k) (k_proc k') /\
  k' = set_k_log (k_log k') (set_k_hw (k_hw k') (set_k_vdisk (k_vdisk k') (set_k_bufs (k_bufs k') (set_k_proc (k_proc k') k)))).

#[export] Instance in_op_preorder me : PreOrder (in_op me).
Proof.
  split.
  - intros k. split_and!; try done. by destruct k.
  - intros k1 k2 k3 (? & ? & ? & ? & W & E) (? & ? & ? & ? & W' & E'). split_and!; try congruence; [by etrans|].
    rewrite E', E. by destruct k3.
Qed.

(** Beside that, the buffers of the blocks [hs] stay where they are. *)
Definition in_call (dev : Z) (hs : gset Z) (me : nat) k k' : Prop := in_op me k k' /\ keeps dev k k' (fun x => x ∈ hs).

#[export] Instance in_call_preorder dev hs me : PreOrder (in_call dev hs me).
Proof.
  split; [by intros k; split; [|intros j b]|].
  intros k1 k2 k3 [O1 K1] [O2 K2]. split; [by etrans|]. intros j b Hb Hj. by apply K2, K1.
Qed.

Lemma in_call_all dev hs me k k' : in_op me k k' -> keeps dev k k' (fun _ => True) -> in_call dev hs me k k'.
Proof. intros O K. split; [done|]. intros j b _. by apply K. Qed.
Lemma in_call_sub dev hs hs' me k k' : hs' ⊆ hs -> in_call dev hs me k k' -> in_call dev hs' me k k'.
Proof. intros Hs [O K]. split; [done|]. intros j b Hb. apply K. set_solver. Qed.
Lemma in_call_empty dev me k k' : in_op me k k' -> in_call dev ∅ me k k'.
Proof. intros O. split; [done|]. intros j b Hb. set_solver. Qed.

(** ** log_write *)

Lemma find_logged_ok k bs pre bn :
  (forall i b, (pre ++ bs) !! i = Some b -> lh_block (lg_lh (k_log k)) !! i = Some b) ->
  Forall is_u32 bs ->
  find_logged (length bs) (Z.of_nat (length pre)) bn k =
    Ok (Z.of_nat (match list_find (fun b => bn = b) bs with Some (i, _) => length pre + i | None => length pre + length bs end)%nat) k.
Proof.
  revert pre. induction bs as [|b bs IH]; intros pre Hl HF; cbn [find_logged length list_find].
  - cbn. by rewrite Nat.add_0_r.
  - apply list.Forall_cons in HF as [Hb HF].
    assert (lh_block_at (Z.of_nat (length pre)) k = Ok b k) as E.
    { apply lh_block_at_ok; [lia|]. rewrite Nat2Z.id. apply Hl. by rewrite list_lookup_middle. }
    rewrite (bind_Ok _ _ _ _ _ E), u32_small by done. destruct (Z.eqb_spec b bn) as [->|Hne].
    + rewrite decide_True by done. by rewrite Nat.add_0_r.
    + rewrite decide_False by congruence.
      specialize (IH (pre ++ [b])). rewrite length_app in IH. cbn [length] in IH.
      replace (Z.of_nat (length pre) + 1) with (Z.of_nat (length pre + 1)) by lia. rewrite IH; [| |done].
      * f_equal. f_equal. destruct (list_find _ bs) as [[i x]|]; cbn; lia.
      * intros i x. rewrite <- (assoc_L (++)). apply Hl.
Qed.

Section LogWrite.
Context (c : cpu) (me : nat) (dev start : Z) (bs : list Z) (A : acache) (k : kernel H) (i : nat) (b : Z).
Context (T : txn c me dev start bs A k) (Hi : handle dev k i b) (Hout : 1 <= lg_outstanding (k_log k)).

Lemma txn_u32 x : x ∈ bs -> is_u32 x.
Proof. intros Hx. destruct (tx_homes _ _ _ _ _ _ _ T x Hx) as [? _]. pose proof dk_bound. unfold is_u32. lia. Qed.

Let found : nat := match list_find (fun x => b = x) bs with Some (j, _) => j | None => length bs end.

(** Up to the search. *)
Lemma log_write_search nm :
  k_locks k !! LLog = Some (mkLk 0 nm None) ->
  log_write i k =
    (set_lh_block_at (Z.of_nat found) (i32 b) ;;
     (if Z.of_nat found =? Z.of_nat (length bs) then bpin i ;; upd_lh (fun h => set_lh_n (lh_n h + 1) h) else ret tt) ;;
     release LLog) (enter c nm LLog k) \/ Z.of_nat (length bs) = LOGSIZE - 1.
Proof.
  intros El. destruct (decide (Z.of_nat (length bs) = LOGSIZE - 1)) as [|Hroom]; [by right|left].
  pose proof (tx_log _ _ _ _ _ _ _ T) as L. pose proof (tx_len _ _ _ _ _ _ _ T) as Hlen.
  unfold log_write. rewrite (bind_Ok _ _ _ _ _ (acquire_ok c nm _ k (q_cpu _ _ _ (tx_quiet _ _ _ _ _ _ _ T)) El)).
  unfold get_log. erewrite bind_Ok by reflexivity. change (k_log (enter c nm LLog k)) with (k_log k).
  rewrite (lm_n _ _ _ _ L), (tx_size _ _ _ _ _ _ _ T).
  destruct (Z.geb_spec (Z.of_nat (length bs)) LOGSIZE); [lia|].
  destruct (Z.geb_spec (Z.of_nat (length bs)) (LOGSIZE - 1)); [lia|].
  destruct (Z.ltb_spec (lg_outstanding (k_log k)) 1); [lia|]. cbn [orb].
  destruct Hi as (r & Hin & Er & Dr & Eb & Vr). rewrite (bind_Ok _ _ _ _ _ (get_buf_enter c nm LLog _ _ _ Er)), Eb, Nat2Z.id.
  pose proof (find_logged_ok (enter c nm LLog k) bs [] b (lm_blocks _ _ _ _ L)) as F. cbn [length] in F.
  change (Z.of_nat 0) with 0 in F.
  rewrite (bind_Ok _ _ _ _ _ (F ltac:(apply list.Forall_forall; exact txn_u32))). cbn [Nat.add].
  unfold found. by destruct (list_find _ bs) as [[j x]|].
Qed.

(** A block that is in the transaction already is absorbed. *)
Lemma log_write_hit : b ∈ bs -> Z.of_nat (length bs) < LOGSIZE - 1 -> log_write i k = Ok tt k.
Proof.
  intros Hb Hroom. destruct (q_free _ _ _ (tx_quiet _ _ _ _ _ _ _ T) LLog I) as [nm El].
  destruct (log_write_search nm El) as [->|]; [|lia]. pose proof (tx_log _ _ _ _ _ _ _ T) as L.
  destruct (list_find (fun x => b = x) bs) as [[j x]|] eqn:Ef.
  2:{ apply list_find_None in Ef. exfalso. by apply (proj1 (list.Forall_forall _ _) Ef b Hb). }
  subst found. apply list_find_Some in Ef as (Ej & <- & _). pose proof (lookup_lt_Some _ _ _ Ej) as Hj.
  pose proof (lm_blocks _ _ _ _ L j b Ej) as Eb.
  assert (i32 b = b) as ->.
  { pose proof (txn_u32 b Hb). destruct (tx_homes _ _ _ _ _ _ _ T b Hb) as [? _]. pose proof dk_bound.
    rewrite <- (Z.mod_small b (2 ^ 32)) at 1 by (unfold is_u32 in *; lia). apply i32_small. lia. }
  assert (set_lh_block_at (Z.of_nat j) b (enter c nm LLog k) = Ok tt (enter c nm LLog k)) as Es.
  { rewrite set_lh_block_at_ok, Nat2Z.id; [|unfold LOGSIZE, MAXOPBLOCKS in *; lia|apply (lm_len _ _ _ _ L)].
    cbn. rewrite list_insert_id by done. by destruct k as [? ? ? ? ? ? ? ? ? ? ? ? ? ? [? ? ? ? ? []]]. }
  rewrite (bind_Ok _ _ _ _ _ Es). destruct (Z.eqb_spec (Z.of_nat j) (Z.of_nat (length bs))); [lia|].
  rewrite (bind_Ok (ret tt) _ tt _ (enter c nm LLog k) eq_refl). apply release_ok; [apply (tx_quiet _ _ _ _ _ _ _ T)|done].
Qed.

(** A log without room. *)
Lemma log_write_full : Z.of_nat (length bs) = LOGSIZE - 1 -> exists k', log_write i k = Panic k'.
Proof.
  intros Hfull. destruct (q_free _ _ _ (tx_quiet _ _ _ _ _ _ _ T) LLog I) as [nm El].
  pose proof (tx_log _ _ _ _ _ _ _ T) as L.
  unfold log_write. rewrite (bind_Ok _ _ _ _ _ (acquire_ok c nm _ k (q_cpu _ _ _ (tx_quiet _ _ _ _ _ _ _ T)) El)).
  unfold get_log. erewrite bind_Ok by reflexivity. change (k_log (enter c nm LLog k)) with (k_log k).
  rewrite (lm_n _ _ _ _ L), (tx_size _ _ _ _ _ _ _ T).
  destruct (Z.geb_spec (Z.of_nat (length bs)) (LOGSIZE - 1)); [|lia]. rewrite orb_true_r. by eexists.
Qed.

(** A block that joins the transaction: its number is recorded, its buffer pinned. *)
Lemma log_write_new :
  b ∉ bs -> b ∈ a_held A -> 0 <= b < dk_size -> ~ in_log start b -> Z.of_nat (length bs) < LOGSIZE - 1 ->
  exists k', log_write i k = Ok tt k' /\ txn c me dev start (bs ++ [b]) (pin A b) k' /\
    in_op me k k' /\ keeps dev k k' (fun _ => True).
Proof.
  intros Hb Hheld Hrange Hhome Hroom. pose proof T as [Q B L Hh Hnd Hr Hc Hl Hs Ho].
  pose proof dk_bound as Hmax. unfold LOGSIZE, MAXOPBLOCKS in Hroom, Hl.
  destruct (q_free _ _ _ Q LLog I) as [nm El]. destruct (log_write_search nm El) as [->|]; [|unfold LOGSIZE, MAXOPBLOCKS in *; lia].
  assert (found = length bs) as ->.
  { unfold found. destruct (list_find _ bs) as [[j x]|] eqn:Ef; [|done].
    apply list_find_Some in Ef as (Ej & <- & _). by apply list_elem_of_lookup_2 in Ej. }
  pose proof Hi as (r & Hin & Er & _). assert (i32 b = b) as ->.
  { rewrite <- (Z.mod_small b (2 ^ 32)) at 1 by lia. apply i32_small. lia. }
  rewrite (bind_Ok _ _ _ _ _ (set_lh_block_at_ok (enter c nm LLog k) (Z.of_nat (length bs)) b ltac:(lia) (lm_len _ _ _ _ L))).
  rewrite Nat2Z.id, Z.eqb_refl, bind_assoc.
  set (l1 := set_lg_lh _ _). change (set_k_log l1 (enter c nm LLog k)) with (enter c nm LLog (set_k_log l1 k)).
  destruct (quiet_under c me (set_k_log l1 k) nm LLog LBcache (quiet_set_log _ _ _ _ Q) I ltac:(done)) as [Hc1 Hf1].
  rewrite (bind_Ok _ _ _ _ _ (bpin_run _ (enter c nm LLog (set_k_log l1 k)) i r Hc1 Hf1 Er)).
  rewrite (bind_Ok _ _ _ _ _ (upd_lh_ok _ _)).
  destruct (bpin_bio me dev k A i b r B Hi) as [B' K']; [|apply (txn_small c me dev start bs A k T)|done|].
  { pose proof (Hr b) as R. destruct (a_refs A !! b); [by eexists|]. unfold refs_of in R. cbn in R.
    rewrite (decide_True (P := b ∈ a_held A)) in R by done. lia. }
  set (bufs := <[i := _]> (k_bufs k)) in *. set (l2 := set_lg_lh (set_lh_n (lh_n (lg_lh l1) + 1) (lg_lh l1)) l1).
  set (k' := set_k_log l2 (set_k_bufs bufs k)). exists k'.
  split; [by apply (release_ok c nm LLog k' (q_cpu _ _ _ Q))|]. split; [|by split_and!].
  split; try done.
  - by apply (quiet_set_log _ _ (set_k_bufs bufs k)), quiet_set_bufs.
  - by apply (bio_set_log _ _ (set_k_bufs bufs k)).
  - destruct L as [D1 D2 D3 D4 D5]. split; try done; cbn.
    + rewrite D3, length_app. cbn. lia.
    + by rewrite length_insert.
    + intros j x. destruct (decide (j = length bs)) as [->|Hj].
      * rewrite list_lookup_middle by done. intros [= <-]. apply list_lookup_insert_eq. lia.
      * rewrite list_lookup_insert_ne by done. intros Hx. apply D5. rewrite lookup_app_l in Hx; [done|].
        apply lookup_lt_Some in Hx. rewrite length_app in Hx. cbn in Hx. lia.
  - intros x [Hx|Hx%list_elem_of_singleton]%elem_of_app; [by apply Hh|by subst x].
  - apply list.NoDup_app. split; [done|]. split; [|apply list.NoDup_singleton].
    intros x Hx ->%list_elem_of_singleton. done.
  - intros x. unfold pin, refs_of. cbn. destruct (decide (x = b)) as [->|Hne].
    + rewrite lookup_insert_eq, Hr. unfold refs_of. cbn. rewrite (decide_False (P := b ∈ bs)) by done.
      rewrite (decide_True (P := b ∈ bs ++ [b])) by set_solver. done.
    + rewrite lookup_insert_ne, Hr by done. unfold refs_of. do 2 f_equal.
      destruct (decide (x ∈ bs)), (decide (x ∈ bs ++ [b])); set_solver.
  - rewrite length_app. unfold LOGSIZE, MAXOPBLOCKS. cbn. lia.
Qed.
End LogWrite.

(** ** Blocks in a transaction *)

Lemma txn_bframe c me dev start bs A A' k k' :
  txn c me dev start bs A k -> bframe me k k' -> now k' = now k -> bio me dev k' A' ->
  (forall b, default O (a_refs A' !! b) = refs_of bs (a_held A') b) -> txn c me dev start bs A' k'.
Proof.
  intros [Q B L Hh Hnd Hr Hc Hl Hs Ho] F N B' Hr'. pose proof (bframe_log _ _ _ F) as El.
  split; rewrite ?El, ?N; try done; [by apply (bframe_quiet _ _ _ _ F)|by apply (bframe_log_mem _ _ _ _ _ _ F)].
Qed.

Lemma bframe_in_op me k k' : bframe me k k' -> now k' = now k -> past k' = past k -> in_op me k k'.
Proof.
  intros F N P. pose proof F as [W E]. unfold in_op. rewrite (bframe_log _ _ _ F). split_and!; try done.
  all: by rewrite E; destruct k.
Qed.

Section Blocks.
Context (c : cpu) (me : nat) (dev start : Z) (bs : list Z) (A : acache) (k : kernel H) (b : Z).
Context (T : txn c me dev start bs A k).

Lemma txn_bread :
  b ∉ a_held A -> is_Some (a_refs A !! b) \/ (size (a_refs A) < NBUF)%nat -> 0 <= b < dk_size ->
  exists i k', bread dev b k = Ok i k' /\ txn c me dev start bs (grab A b) k' /\ handle dev k' i b /\ in_call dev (a_held A) me k k'.
Proof.
  intros Hb Hroom Hrange. pose proof T as [Q B L Hh Hnd Hr Hc Hl Hs Ho].
  destruct (bread_ok c me dev k A b Q B Hb (txn_small c me dev start bs A k T b) Hroom Hrange)
    as (i & k' & E & F & N & P & B' & Hi & K).
  exists i, k'. split_and!; try done.
  2:{ split; [by apply (bframe_in_op me)|]. intros j x Hx. apply K. by apply (held_refs me dev k A). }
  apply (txn_bframe c me dev start bs A _ k); try done. intros x. unfold refs_of. cbn.
  destruct (decide (x = b)) as [->|Hne].
  - rewrite lookup_insert_eq, Hr. unfold refs_of. cbn.
    rewrite (decide_False (P := b ∈ a_held A)), (decide_True (P := b ∈ {[b]} ∪ a_held A)) by set_solver. lia.
  - rewrite lookup_insert_ne, Hr by done. unfold refs_of. f_equal.
    destruct (decide (x ∈ a_held A)), (decide (x ∈ {[b]} ∪ a_held A)); set_solver.
Qed.

Lemma txn_refs_held : b ∈ a_held A -> a_refs A !! b = Some (S (if decide (b ∈ bs) then 1 else 0)).
Proof.
  intros Hb. destruct (held_refs me dev k A b (tx_bio _ _ _ _ _ _ _ T) Hb) as [n En]. rewrite En.
  destruct (txn_refs c me dev start bs A k T b n En) as [-> _]. unfold refs_of. rewrite (decide_True (P := b ∈ a_held A)) by done.
  f_equal. lia.
Qed.

Lemma txn_set_data i d :
  b ∈ a_held A -> handle dev k i b -> length d = Z.to_nat BSIZE ->
  exists k', upd_buf i (set_b_data d) k = Ok tt k' /\ txn c me dev start bs (view_as A b d) k' /\ handle dev k' i b /\ in_call dev (a_held A) me k k'.
Proof.
  intros Hb Hi Hd. pose proof T as [Q B L Hh Hnd Hr Hc Hl Hs Ho].
  destruct (set_data_ok me dev k A i b d B Hi ltac:(rewrite txn_refs_held; by eauto) Hd) as (k' & E & F & W & B' & K).
  assert (now k' = now k /\ past k' = past k) as [N P] by (unfold now, past; by rewrite W).
  exists k'. split_and!; try done; [|by apply K|by apply in_call_all; [apply (bframe_in_op me)|]].
  by apply (txn_bframe c me dev start bs A _ k).
Qed.

Lemma txn_brelse i :
  b ∈ a_held A -> handle dev k i b -> b ∈ bs \/ a_view A b = now k b ->
  exists k', brelse i k = Ok tt k' /\ txn c me dev start bs (drop A b) k' /\ in_call dev (a_held A) me k k'.
Proof.
  intros Hb Hi Hclean. pose proof T as [Q B L Hh Hnd Hr Hc Hl Hs Ho].
  pose proof (txn_refs_held Hb) as En.
  destruct (brelse_ok c me dev k A i b _ Q B Hi Hb En) as (k' & E & F & W & B' & K).
  { intros E0. destruct Hclean as [Hin|]; [|done]. by rewrite decide_True in E0. }
  assert (now k' = now k /\ past k' = past k) as [N P] by (unfold now, past; by rewrite W).
  exists k'. split_and!; try done; [|by apply in_call_all; [apply (bframe_in_op me)|]].
  apply (txn_bframe c me dev start bs A _ k); try done. intros x. unfold refs_of, drop. cbn.
  destruct (decide (x = b)) as [->|Hne].
  - rewrite (unref_eq _ _ _ En), (decide_False (P := b ∈ a_held A ∖ {[b]})) by set_solver. lia.
  - rewrite unref_ne, Hr by done. unfold refs_of. f_equal.
    destruct (decide (x ∈ a_held A)), (decide (x ∈ a_held A ∖ {[b]})); set_solver.
Qed.

End Blocks.

(** The transaction after a write of block [b]. *)
Definition join (bs : list Z) (b : Z) : list Z := if decide (b ∈ bs) then bs else bs ++ [b].

(** A block outside the transaction that nobody has locked is as on the disk. *)
Lemma txn_clean c me dev start bs A k b :
  txn c me dev start bs A k -> b ∉ a_held A -> b ∈ bs \/ a_view A b = now k b.
Proof.
  intros T Hh. destruct (decide (b ∈ bs)) as [|Hb]; [by left|right]. pose proof (tx_refs _ _ _ _ _ _ _ T b) as R.
  apply (bio_clean _ _ _ _ (tx_bio _ _ _ _ _ _ _ T)). destruct (a_refs A !! b) as [n|] eqn:E; [|done].
  destruct (txn_refs c me dev start bs A k T b n E) as [-> Hn]. unfold refs_of in Hn.
  by rewrite decide_False, decide_False in Hn by done.
Qed.

(** The cache has a buffer left. *)
Lemma txn_refs_size c me dev start bs A k :
  txn c me dev start bs A k -> (size (a_refs A) <= length bs + size (a_held A))%nat.
Proof.
  intros T. rewrite <- (size_dom (D := gset Z)). rewrite <- (size_list_to_set (C := gset Z) bs) by apply T.
  assert (forall X Y : gset Z, size (X ∪ Y) <= size X + size Y)%nat as Hu.
  { intros X Y. rewrite size_union_alt. apply Nat.add_le_mono_l, subseteq_size. set_solver. }
  etrans; [apply subseteq_size|apply (Hu (list_to_set bs))]. intros x [n Hx]%elem_of_dom.
  destruct (txn_refs c me dev start bs A k T x n Hx) as [-> Hn]. unfold refs_of in Hn. rewrite elem_of_union, elem_of_list_to_set.
  destruct (decide (x ∈ bs)); [by left|]. destruct (decide (x ∈ a_held A)); [by right|done].
Qed.

Lemma txn_room c me dev start bs A k :
  txn c me dev start bs A k -> a_held A = ∅ -> (length bs + size (a_held A) < NBUF)%nat.
Proof. intros T ->. rewrite size_empty. pose proof (tx_len _ _ _ _ _ _ _ T). unfold LOGSIZE, MAXOPBLOCKS, NBUF in *. lia. Qed.

(** A locked block gets new data and joins the transaction; its lock is given back. *)
Lemma txn_edit_held c me dev start bs A k b (T : txn c me dev start bs A k) i f :
  b ∈ a_held A -> handle dev k i b -> 0 <= b < dk_size -> 1 <= lg_outstanding (k_log k) ->
  ~ in_log start b -> length (f (a_view A b)) = Z.to_nat BSIZE -> Z.of_nat (length bs) < LOGSIZE - 1 ->
  exists k' A', (upd_buf i (fun r => set_b_data (f (b_data r)) r) ;; log_write i ;; brelse i) k = Ok tt k' /\
    txn c me dev start (join bs b) A' k' /\ a_held A' = a_held A ∖ {[b]} /\
    (forall x, a_view A' x = if x =? b then f (a_view A b) else a_view A x) /\ in_call dev (a_held A) me k k'.
Proof.
  intros Hb H1 Hrange Hout Hhome Hd Hroom.
  destruct (handle_data _ _ _ _ _ _ (tx_bio _ _ _ _ _ _ _ T) H1) as (r & Er & Ed).
  destruct (txn_set_data c me dev start bs _ k b T i (f (a_view A b))) as (k2 & E2 & T2 & H2 & O2); [done..|].
  assert (upd_buf i (fun r => set_b_data (f (b_data r)) r) k = Ok tt k2) as E2' by (by rewrite <- E2, !(upd_buf_ok _ _ _ _ Er), Ed).
  rewrite (bind_Ok _ _ _ _ _ E2'). set (A2 := view_as A b _) in *.
  assert (exists A3 k3, log_write i k2 = Ok tt k3 /\ txn c me dev start (join bs b) A3 k3 /\ in_call dev (a_held A) me k2 k3 /\
    handle dev k3 i b /\ a_held A3 = a_held A2 /\ a_view A3 = a_view A2) as (A3 & k3 & E3 & T3 & O3 & H3 & Hh3 & V3).
  { assert (1 <= lg_outstanding (k_log k2)) as Hout2 by (by rewrite (proj1 (proj1 O2))).
    unfold join. destruct (decide (b ∈ bs)) as [Hin|Hin].
    - exists A2, k2. split_and!; try done. by apply (log_write_hit c me dev start bs A2 k2 i b).
    - destruct (log_write_new c me dev start bs A2 k2 i b T2 H2 Hout2 Hin) as (k3 & E3 & T3 & O3 & K3); [done..|].
      exists (pin A2 b), k3. split_and!; try done; [by apply in_call_all|by apply K3]. }
  rewrite (bind_Ok _ _ _ _ _ E3).
  destruct (txn_brelse c me dev start (join bs b) A3 k3 b T3 i) as (k4 & E4 & T4 & O4).
  - by rewrite Hh3.
  - done.
  - left. unfold join. destruct (decide _); set_solver.
  - exists k4, (drop A3 b). rewrite Hh3 in O4. split_and!; try done.
    + cbn. by rewrite Hh3.
    + intros x. cbn. by rewrite V3.
    + transitivity k2; [done|]. by transitivity k3.
Qed.

(** A block is opened by [bread], changed by [log_write] after new data, closed by [brelse]. *)
Section Edit.
Context (c : cpu) (me : nat) (dev start : Z) (bs : list Z) (A : acache) (k : kernel H) (b : Z).
Context (T : txn c me dev start bs A k) (Hheld : b ∉ a_held A) (Hrange : 0 <= b < dk_size).

Lemma txn_open :
  (length bs + size (a_held A) < NBUF)%nat ->
  exists i k', bread dev b k = Ok i k' /\ txn c me dev start bs (grab A b) k' /\ handle dev k' i b /\ in_call dev (a_held A) me k k' /\
    length (a_view A b) = Z.to_nat BSIZE /\ exists r, get_buf i k' = Ok r k' /\ b_data r = a_view A b.
Proof.
  intros Hroom. assert ((size (a_refs A) < NBUF)%nat) as Hsize by (pose proof (txn_refs_size c me dev start bs A k T); lia).
  destruct (txn_bread c me dev start bs A k b T) as (i & k1 & E1 & T1 & H1 & O1); [done|by right|done|].
  exists i, k1. split_and!; try done.
  - by apply (view_length _ _ _ _ _ _ (tx_bio _ _ _ _ _ _ _ T1) H1).
  - destruct (handle_data _ _ _ _ _ _ (tx_bio _ _ _ _ _ _ _ T1) H1) as (r & Er & Ed). exists r. split; [by apply get_buf_ok|done].
Qed.

Lemma txn_close_from k1 i :
  txn c me dev start bs (grab A b) k1 -> handle dev k1 i b -> now k1 = now k ->
  exists k', brelse i k1 = Ok tt k' /\ txn c me dev start bs A k' /\ in_call dev (a_held A) me k1 k'.
Proof.
  intros T1 H1 N1. destruct (txn_brelse c me dev start bs _ k1 b T1 i) as (k2 & E2 & T2 & O2); [cbn; set_solver|done| |].
  - cbn. rewrite N1. by apply (txn_clean c me dev start bs A k b).
  - exists k2. split_and!; [done| |eapply in_call_sub, O2; cbn; set_solver]. rewrite drop_grab in T2; [done|done|].
    intros E0. by apply (bio_nozero _ _ _ _ (tx_bio _ _ _ _ _ _ _ T) b).
Qed.

Lemma txn_close k1 i :
  txn c me dev start bs (grab A b) k1 -> handle dev k1 i b -> in_call dev (a_held A) me k k1 ->
  exists k', brelse i k1 = Ok tt k' /\ txn c me dev start bs A k' /\ in_call dev (a_held A) me k k'.
Proof.
  intros T1 H1 O1. destruct (txn_close_from k1 i T1 H1) as (k' & E & T' & O'); [apply O1|]. exists k'. split_and!; [done|done|by etrans].
Qed.

Lemma txn_edit k1 i f :
  txn c me dev start bs (grab A b) k1 -> handle dev k1 i b -> in_call dev (a_held A) me k k1 -> 1 <= lg_outstanding (k_log k) ->
  ~ in_log start b -> length (f (a_view A b)) = Z.to_nat BSIZE -> Z.of_nat (length bs) < LOGSIZE - 1 ->
  exists k' A', (upd_buf i (fun r => set_b_data (f (b_data r)) r) ;; log_write i ;; brelse i) k1 = Ok tt k' /\
    txn c me dev start (join bs b) A' k' /\ a_held A' = a_held A /\
    (forall x, a_view A' x = if x =? b then f (a_view A b) else a_view A x) /\ in_call dev (a_held A) me k k'.
Proof.
  intros T1 H1 O1 Hout Hhome Hd Hroom.
  destruct (txn_edit_held c me dev start bs (grab A b) k1 b T1 i f) as (k' & A' & E & T' & Hh & V & O); try done.
  - cbn. set_solver.
  - by rewrite (proj1 (proj1 O1)).
  - exists k', A'. split_and!; try done; [rewrite Hh; cbn; set_solver|]. transitivity k1; [done|].
    eapply in_call_sub, O. cbn. set_solver.
Qed.
End Edit.

(** [bp = bread(dev, b)], [bp->data] becomes [d], [log_write(bp)], [brelse(bp)] *)
Lemma txn_write c me dev start bs A k b d :
  txn c me dev start bs A k -> a_held A = ∅ -> 1 <= lg_outstanding (k_log k) ->
  0 <= b < dk_size -> ~ in_log start b -> length d = Z.to_nat BSIZE -> Z.of_nat (length bs) < LOGSIZE - 1 ->
  exists k' A', (let! i := bread dev b in upd_buf i (set_b_data d) ;; log_write i ;; brelse i) k = Ok tt k' /\
    txn c me dev start (join bs b) A' k' /\ a_held A' = ∅ /\
    (forall x, a_view A' x = if x =? b then d else a_view A x) /\ in_call dev (a_held A) me k k'.
Proof.
  intros T Hheld Hout Hrange Hhome Hd Hroom. rewrite <- Hheld.
  assert (b ∉ a_held A) as Hb by (rewrite Hheld; set_solver).
  destruct (txn_open c me dev start bs A k b T Hb Hrange (txn_room _ _ _ _ _ _ _ T Hheld)) as (i & k1 & E1 & T1 & H1 & O1 & _).
  rewrite (bind_Ok _ _ _ _ _ E1). by apply (txn_edit c me dev start bs A k b T Hb Hrange k1 i (fun _ => d)).
Qed.

(** ** end_op *)

Lemma quiet_procs_free c me k nm : quiet c me k -> procs_free (enter c nm LLog k).
Proof.
  intros Q. split; [apply Q|]. intros i Hi. apply free_enter; [done|]. by apply Q.
Qed.

(** [acquire(&log.lock); f; wakeup(&log); release(&log.lock)] *)
Lemma log_wakeup_ok c me k f :
  quiet c me k ->
  (acquire LLog ;; upd_log f ;; wakeup ChLog ;; release LLog) k =
    Ok tt (set_k_proc (woken ChLog (Some me) (k_proc k)) (set_k_log (f (k_log k)) k)).
Proof.
  intros Q. destruct (q_free _ _ _ Q LLog I) as [nm El].
  rewrite (bind_Ok _ _ _ _ _ (acquire_ok c nm _ k (q_cpu _ _ _ Q) El)). erewrite bind_Ok by reflexivity.
  set (k1 := set_k_log (f (k_log k)) k). change (set_k_log _ (enter c nm LLog k)) with (enter c nm LLog k1).
  pose proof (quiet_set_log _ _ _ (f (k_log k)) Q : quiet c me k1) as Q1.
  rewrite (bind_Ok _ _ _ _ _ (wakeup_ok _ ChLog _ (quiet_enter c nm me LLog k1 Q1) (quiet_procs_free c me k1 nm Q1))).
  cbn [c_proc set_c_noff]. rewrite (q_me _ _ _ Q1).
  change (set_k_proc _ (enter c nm LLog k1)) with (enter c nm LLog (set_k_proc (woken ChLog (Some me) (k_proc k)) k1)).
  apply release_ok; [apply Q1|done].
Qed.

(** Nothing is written that is not in the transaction. *)
Lemma commit_txn c me dev start bs A k :
  log_fits dev start -> txn c me dev start bs A k -> a_held A = ∅ ->
  exists k' A', commit k = Ok tt k' /\ quiet c me k' /\ log_mem k' dev start [] /\ bio me dev k' A' /\
    a_refs A' = ∅ /\ a_held A' = ∅ /\
    (forall x, ~ in_log start x -> a_view A' x = a_view A x /\ now k' x = a_view A x) /\
    hdr_n (now k' start) = 0 /\ same_log k k' /\ went k k' (fun D => means start (now k) D \/ means start (a_view A) D).
Proof.
  intros Hfit T Hheld. pose proof T as [Q B L Hh Hnd Hr Hc Hl Hs Ho].
  pose proof (fun b n => txn_pinned c me dev start bs A k T b n Hheld) as Hp.
  unfold LOGSIZE, MAXOPBLOCKS in Hl. destruct bs as [|b0 bs'] eqn:Ebs.
  - exists k, A. pose proof (lm_n _ _ _ _ L) as En. assert (a_refs A = ∅) as Er.
    { apply map_eq. intros x. rewrite lookup_empty. destruct (a_refs A !! x) eqn:E; [|done].
      apply Hp in E as [_ E]. by apply not_elem_of_nil in E. }
    assert (forall x, a_view A x = now k x) as Hv by (intros x; apply (bio_clean _ _ _ _ B); by rewrite Er).
    split_and!; try done; [|by destruct k as [? ? ? ? ? ? ? ? ? ? ? ? ? ? []]|by apply went_refl].
    unfold commit, get_log. erewrite bind_Ok by reflexivity. by rewrite En.
  - rewrite <- Ebs in *. apply (commit_ok c me dev start bs A k); try done; [lia|].
    rewrite Ebs. cbn. lia.
Qed.

(** The bookkeeping of [end_op] around [commit]. *)
Lemma end_op_last c me k :
  quiet c me k -> lg_outstanding (k_log k) = 1 -> lg_committing (k_log k) = 0 ->
  end_op k = (commit ;; acquire LLog ;; upd_log (set_lg_committing 0) ;; wakeup ChLog ;; release LLog)
    (set_k_log (set_lg_committing 1 (set_lg_outstanding 0 (k_log k))) k).
Proof.
  intros Q Ho Hid. destruct (q_free _ _ _ Q LLog I) as [nm El].
  unfold end_op. rewrite (bind_Ok _ _ _ _ _ (acquire_ok c nm _ k (q_cpu _ _ _ Q) El)).
  unfold get_log. erewrite bind_Ok by reflexivity. change (k_log (enter c nm LLog k)) with (k_log k). rewrite Ho, Hid.
  erewrite bind_Ok by reflexivity. cbn [negb Z.eqb Z.sub Z.opp Z.add Z.pos_sub].
  erewrite bind_Ok by reflexivity. set (k1 := set_k_log _ k).
  rewrite (bind_Ok (release LLog) _ tt _ k1); [done|]. apply (release_ok c nm LLog k1); [apply Q|done].
Qed.

Lemma end_op_ok c me dev start bs A k :
  log_fits dev start -> txn c me dev start bs A k -> a_held A = ∅ ->
  lg_outstanding (k_log k) = 1 -> lg_committing (k_log k) = 0 ->
  exists k' A', end_op k = Ok tt k' /\ txn c me dev start [] A' k' /\ a_held A' = ∅ /\
    lg_outstanding (k_log k') = 0 /\ lg_committing (k_log k') = 0 /\
    (forall x, ~ in_log start x -> a_view A' x = a_view A x /\ now k' x = a_view A x) /\
    went k k' (fun D => means start (now k) D \/ means start (a_view A) D).
Proof.
  intros Hfit T Hheld Ho Hid. pose proof T as [Q B L Hh Hnd Hr Hc Hl Hs Hou].
  rewrite (end_op_last c me k Q Ho Hid). set (l1 := set_lg_committing 1 _). set (k1 := set_k_log l1 k).
  assert (txn c me dev start bs A k1) as T1.
  { split; try done; [by apply quiet_set_log|by apply bio_set_log|by destruct L]. }
  destruct (commit_txn c me dev start bs A k1 Hfit T1 Hheld) as (k2 & A2 & E2 & Q2 & L2 & B2 & R2 & H2 & V2 & Z2 & G2 & W2).
  rewrite (bind_Ok _ _ _ _ _ E2), (log_wakeup_ok c me k2 _ Q2).
  set (ps := woken ChLog (Some me) (k_proc k2)). set (l3 := set_lg_committing 0 (k_log k2)).
  assert (procs_woken me (k_proc k2) ps) as Hw by (apply woken_procs).
  assert (bframe me k2 (set_k_proc ps k2)) as F by (by split).
  exists (set_k_proc ps (set_k_log l3 k2)), A2. split_and!; try done.
  - split; cbn; try done.
    + apply (quiet_set_log c me (set_k_proc ps k2)). by apply (bframe_quiet _ _ _ _ F).
    + apply (bio_set_log me dev (set_k_proc ps k2)). apply (bio_same_bufs me dev k2); try done. apply B2.
    + by destruct L2.
    + intros b Hb. by apply not_elem_of_nil in Hb.
    + constructor.
    + intros b. rewrite R2, H2. unfold refs_of. rewrite !decide_False; [done|set_solver|apply not_elem_of_nil].
    + by rewrite G2.
    + rewrite G2. cbn. unfold LOGSIZE, MAXOPBLOCKS. lia.
  - cbn. by rewrite G2.
Qed.

(** ** The theorems *)

(** C1 A transaction survives a crash in full or not at all.  The last [end_op] of a
    transaction writes the logged blocks, so that afterwards the disk holds every change.
    If the machine dies at any point of it, with the disk in any state [D] that it passes
    through (a write of two sectors may be torn), and then any number of recoveries are cut
    off in the same way, the next [initlog] that runs to its end succeeds and leaves every
    block outside the log either as it was before the commit, all of them, or as the
    transaction made it, all of them. *)
Theorem transaction_crash_atomic c me dev sb bs A k :
  let start := i32 (sb_logstart sb) in
  log_fits dev start -> txn c me dev start bs A k -> a_held A = ∅ ->
  lg_outstanding (k_log k) = 1 -> lg_committing (k_log k) = 0 ->
  exists k', end_op k = Ok tt k' /\ (forall x, ~ in_log start x -> now k' x = a_view A x) /\
    forall D, passes k k' D -> exists f, (f = now k \/ f = a_view A) /\
      forall D' c' me' A' kb, rtc (cut_off dev sb) D D' -> booted c' me' dev A' kb -> now kb = D' ->
        exists kr, initlog dev sb kb = Ok tt kr /\ forall x, ~ in_log start x -> now kr x = f x.
Proof.
  intros start Hfit T Hh Ho Hc.
  destruct (end_op_ok c me dev start bs A k Hfit T Hh Ho Hc) as (k' & A1 & E & T1 & H1 & _ & _ & V & W).
  exists k'. split_and!; [done|intros x Hx; by apply V|]. intros D HD.
  assert (means start (now k) D \/ means start (a_view A) D) as HM.
  { apply (went_passes k k' _ D W); [|done]. left. apply means_empty; [apply T|done]. }
  assert (exists f, (f = now k \/ f = a_view A) /\ means start f D) as (f & Hf & M) by (destruct HM; eauto).
  exists f. split; [done|]. intros D' c' me' A' kb Hr Hb En.
  destruct (recovers dev sb f D D' c' me' A' kb Hfit M Hr Hb En) as (kr & Er & Hx & _). by exists kr.
Qed.

(** Outside a system call of the file system, or in a log without room, it panics. *)
Lemma log_write_refused c me dev start bs A k i :
  txn c me dev start bs A k -> Z.of_nat (length bs) = LOGSIZE - 1 \/ lg_outstanding (k_log k) < 1 -> exists k', log_write i k = Panic k'.
Proof.
  intros T [Hf|Ho]; [by apply (log_write_full c me dev start bs A)|].
  destruct (q_free _ _ _ (tx_quiet _ _ _ _ _ _ _ T) LLog I) as [nm El].
  unfold log_write. rewrite (bind_Ok _ _ _ _ _ (acquire_ok c nm _ k (q_cpu _ _ _ (tx_quiet _ _ _ _ _ _ _ T)) El)).
  unfold get_log. erewrite bind_Ok by reflexivity. change (k_log (enter c nm LLog k)) with (k_log k).
  destruct (_ || _); [by eexists|]. destruct (Z.ltb_spec (lg_outstanding (k_log k)) 1); [by eexists|lia].
Qed.

(** C27 [log_write] of a locked buffer records its block in the transaction and pins the
    buffer in the cache; a block that the transaction has already is absorbed, without any
    effect.  The kernel panics outside a system call of the file system ([begin_op] has
    not been called), and when the transaction has [LOGSIZE - 1] blocks - the log is full,
    one of its blocks being the header - whether or not the block is one of them. *)
Theorem log_write_spec c me dev start bs A k i b :
  txn c me dev start bs A k -> handle dev k i b ->
  b ∈ a_held A -> 0 <= b < dk_size -> ~ in_log start b ->
  if decide (Z.of_nat (length bs) = LOGSIZE - 1 \/ lg_outstanding (k_log k) < 1) then exists k', log_write i k = Panic k'
  else if decide (b ∈ bs) then log_write i k = Ok tt k
  else exists k', log_write i k = Ok tt k' /\ txn c me dev start (bs ++ [b]) (pin A b) k' /\ in_op me k k'.
Proof.
  intros T Hi Hb Hr Hh. pose proof (tx_len _ _ _ _ _ _ _ T).
  destruct (decide (_ \/ _)) as [Hf|Hf]; [by apply (log_write_refused c me dev start bs A)|].
  assert (1 <= lg_outstanding (k_log k)) as Ho by lia.
  destruct (decide (b ∈ bs)) as [Hin|Hin].
  - apply (log_write_hit c me dev start bs A k i b); try done. lia.
  - destruct (log_write_new c me dev start bs A k i b) as (k' & E & T' & O & _); try done; [lia|].
    by exists k'.
Qed.

(** C35 [begin_op] admits a system call when no commit is under way and the log has room for
    [MAXOPBLOCKS] blocks for every call in the file system, this one included; the room that
    is promised never exceeds the log.  Otherwise it sleeps and looks again. *)
Theorem begin_op_spec c me dev start bs A k :
  txn c me dev start bs A k ->
  if (lg_committing (k_log k) =? 0) && (Z.of_nat (length bs) + (lg_outstanding (k_log k) + 1) * MAXOPBLOCKS <=? LOGSIZE) then
    exists k', begin_op k = Ok tt k' /\ txn c me dev start bs A k' /\ k_hw k' = k_hw k /\
      lg_outstanding (k_log k') = lg_outstanding (k_log k) + 1 /\
      Z.of_nat (length bs) + lg_outstanding (k_log k') * MAXOPBLOCKS <= LOGSIZE
  else exists nm, begin_op k = (sleep ChLog LLog ;; begin_op_loop sleep_fuel) (enter c nm LLog k).
Proof.
  intros T. pose proof T as [Q B L Hh Hnd Hr Hc Hl Hs Ho]. destruct (q_free _ _ _ Q LLog I) as [nm El].
  unfold begin_op. rewrite (bind_Ok _ _ _ _ _ (acquire_ok c nm _ k (q_cpu _ _ _ Q) El)). cbn [begin_op_loop].
  unfold get_log. erewrite bind_Ok by reflexivity. change (k_log (enter c nm LLog k)) with (k_log k).
  rewrite (lm_n _ _ _ _ L). destruct (lg_committing (k_log k) =? 0); cbn [negb andb]; [|by exists nm].
  rewrite Z.gtb_ltb. destruct (Z.leb_spec (Z.of_nat (length bs) + (lg_outstanding (k_log k) + 1) * MAXOPBLOCKS) LOGSIZE) as [Hle|];
    destruct (Z.ltb_spec LOGSIZE (Z.of_nat (length bs) + (lg_outstanding (k_log k) + 1) * MAXOPBLOCKS)); try lia; [|by exists nm].
  erewrite bind_Ok by reflexivity. set (l1 := set_lg_outstanding (lg_outstanding (k_log k) + 1) (k_log k)). exists (set_k_log l1 k).
  split_and!; try done; [by apply (release_ok c nm LLog (set_k_log l1 k)); [apply Q|]|].
  split; try done; [by apply quiet_set_log|by apply bio_set_log|by destruct L|].
  cbn. unfold LOGSIZE, MAXOPBLOCKS in *. lia.
Qed.

End Txn.
