(* ===== verification/KBinit.v ===== *)
(** [binit] (bio.c): the buffer cache starts as a circular list of all the buffers,
    each of them unused, so that [bio] holds of it from the start. *)
From stdpp Require Import base gmap sets list numbers strings tactics.
From S2P Require Import Prelude Mem KMachine KSched KBio KBioProofs.

Section Binit.
Context {H : Type} `{!Platform H} `{!SleepFuel} `{!DiskDriver H} `{!DiskLaws H}.
Context (dev : Z) (k0 : kernel H).
Implicit Types k : kernel H.

(** A buffer that no process uses, of no block of [dev]. *)
Record fresh_buf (r : buf) : Prop := {
  fb_refcnt : b_refcnt r = 0;
  fb_dev : b_dev r <> dev;
  fb_locked : sk_locked (b_lock r) = 0;
  fb_data : length (b_data r) = Z.to_nat BSIZE
}.

(** [k] is [k0] but for locks and buffers, which are fresh; the links are [n] and [p]. *)
Definition blank (n p : nat -> nat) k : Prop :=
  exists bs ls, k = set_k_bufs bs (set_k_locks ls k0) /\ length bs = S NBUF /\
    (forall j r, bs !! j = Some r -> fresh_buf r) /\
    (forall x, nx k x = n x) /\ (forall x, pv k x = p x) /\
    (forall l, free l k0 -> free l k).

Lemma blank_get n p k x :
  blank n p k -> (x <= NBUF)%nat -> exists r, get_buf x k = Ok r k /\ b_next r = n x /\ b_prev r = p x.
Proof.
  intros (bs & ls & -> & L & _ & Hn & Hp & _) Hx. destruct (lookup_lt_is_Some_2 bs x) as [r Er]; [lia|].
  exists r. split; [by apply get_buf_ok|]. rewrite <- Hn, <- Hp. unfold nx, pv. cbn. by rewrite Er.
Qed.

Lemma blank_upd n p k x f vn vp :
  blank n p k -> (x <= NBUF)%nat -> (forall r, fresh_buf r -> fresh_buf (f r)) ->
  (forall r, b_next r = n x -> b_next (f r) = vn) -> (forall r, b_prev r = p x -> b_prev (f r) = vp) ->
  exists k', upd_buf x f k = Ok tt k' /\ blank (upd n x vn) (upd p x vp) k'.
Proof.
  intros (bs & ls & -> & L & Hf & Hn & Hp & Hl) Hx Hff Hvn Hvp. destruct (lookup_lt_is_Some_2 bs x) as [r Er]; [lia|].
  assert (b_next r = n x /\ b_prev r = p x) as [En Ep].
  { rewrite <- Hn, <- Hp. unfold nx, pv. cbn. by rewrite Er. }
  eexists. split; [by eapply upd_buf_ok|]. exists (<[x := f r]> bs), ls. split_and!; try done.
  - by rewrite length_insert.
  - intros j r'. destruct (decide (j = x)) as [->|].
    + rewrite list_lookup_insert_eq by lia. intros [= <-]. by eapply Hff, Hf.
    + rewrite list_lookup_insert_ne by done. apply Hf.
  - intros y. unfold nx, upd. cbn. case_decide as E; [subst y|].
    + rewrite list_lookup_insert_eq by lia. by apply Hvn.
    + rewrite list_lookup_insert_ne by done. apply Hn.
  - intros y. unfold pv, upd. cbn. case_decide as E; [subst y|].
    + rewrite list_lookup_insert_eq by lia. by apply Hvp.
    + rewrite list_lookup_insert_ne by done. apply Hp.
Qed.

Lemma blank_ext n p n' p' k : (forall x, n' x = n x) -> (forall x, p' x = p x) -> blank n p k -> blank n' p' k.
Proof.
  intros En Ep (bs & ls & E & L & Hf & Hn & Hp & Hl). exists bs, ls. split_and!; try done; intros x.
  - by rewrite En.
  - by rewrite Ep.
Qed.

Lemma blank_next n p k x v :
  blank n p k -> (x <= NBUF)%nat -> exists k', upd_buf x (set_b_next v) k = Ok tt k' /\ blank (upd n x v) p k'.
Proof.
  intros B Hx. destruct (blank_upd n p k x (set_b_next v) v (p x) B Hx) as (k' & E & B'); [by intros r []|done|done|].
  exists k'. split; [done|]. apply (blank_ext _ _ _ _ _ (fun _ => eq_refl) (fun y => eq_sym (upd_id p x y)) B').
Qed.
Lemma blank_prev n p k x v :
  blank n p k -> (x <= NBUF)%nat -> exists k', upd_buf x (set_b_prev v) k = Ok tt k' /\ blank n (upd p x v) k'.
Proof.
  intros B Hx. destruct (blank_upd n p k x (set_b_prev v) (n x) v B Hx) as (k' & E & B'); [by intros r []|done|done|].
  exists k'. split; [done|]. apply (blank_ext _ _ _ _ _ (fun y => eq_sym (upd_id n x y)) (fun _ => eq_refl) B').
Qed.

Lemma blank_initlock n p k l nm : blank n p k -> exists k', initlock l nm k = Ok tt k' /\ blank n p k'.
Proof.
  intros (bs & ls & -> & L & Hf & Hn & Hp & Hl). eexists. split; [done|].
  exists bs, (<[l := mkLk 0 nm None]> ls). split_and!; try done.
  intros l' [nm' E]%Hl. unfold free. cbn in *. destruct (decide (l' = l)) as [->|].
  - rewrite lookup_insert_eq. by eexists.
  - rewrite lookup_insert_ne by done. by eexists.
Qed.

Lemma blank_sleeplock n p k b nm :
  blank n p k -> (b < NBUF)%nat -> exists k', initsleeplock (SBuf b) nm k = Ok tt k' /\ blank n p k'.
Proof.
  intros B Hb. destruct (blank_initlock n p k (LBuf b) "sleep lock" B) as (k1 & E1 & B1).
  unfold initsleeplock. rewrite (bind_Ok _ _ _ _ _ E1).
  destruct (blank_upd n p k1 b (set_b_lock (mkSleep 0 nm 0)) (n b) (p b) B1) as (k2 & E2 & B2); try done.
  { lia. }
  { by intros r []. }
  exists k2. split; [done|].
  apply (blank_ext _ _ _ _ _ (fun y => eq_sym (upd_id n b y)) (fun y => eq_sym (upd_id p b y)) B2).
Qed.

(** One buffer is put in front of the list. *)
Lemma binit_step n p k i l :
  blank n p k -> dll n p bhead l -> NoDup (bhead :: i :: l) -> (forall x, x ∈ i :: l -> (x < NBUF)%nat) ->
  exists k' n' p', (let! h := get_buf bhead in
    upd_buf i (set_b_next (b_next h)) ;;
    upd_buf i (set_b_prev bhead) ;;
    initsleeplock (SBuf i) "buffer" ;;
    let! h := get_buf bhead in
    upd_buf (b_next h) (set_b_prev i) ;;
    upd_buf bhead (set_b_next i)) k = Ok tt k' /\ blank n' p' k' /\ dll n' p' bhead (i :: l).
Proof.
  intros B Hd Hnd Hl. assert (i < NBUF)%nat as Hi by (apply Hl; set_solver).
  assert (bhead <= NBUF)%nat as Hh by done. assert (bhead <> i) as Hne by (unfold bhead; lia).
  destruct (blank_get n p k bhead B Hh) as (h & E & En & _). rewrite (bind_Ok _ _ _ _ _ E), En. clear E.
  destruct (blank_next n p k i (n bhead) B ltac:(lia)) as (k1 & E & B1). rewrite (bind_Ok _ _ _ _ _ E). clear E.
  destruct (blank_prev _ _ k1 i bhead B1 ltac:(lia)) as (k2 & E & B2). rewrite (bind_Ok _ _ _ _ _ E). clear E.
  destruct (blank_sleeplock _ _ k2 i "buffer" B2 Hi) as (k3 & E & B3). rewrite (bind_Ok _ _ _ _ _ E). clear E.
  destruct (blank_get _ _ k3 bhead B3 Hh) as (h' & E & En' & _). rewrite (bind_Ok _ _ _ _ _ E), En'. clear E.
  rewrite upd_other by done.
  destruct (blank_prev _ _ k3 (n bhead) i B3) as (k4 & E & B4).
  { rewrite (dll_first _ _ _ _ Hd). destruct l as [|x l]; cbn; [done|]. apply Nat.lt_le_incl, Hl. set_solver. }
  rewrite (bind_Ok _ _ _ _ _ E). clear E.
  destruct (blank_next _ _ k4 bhead i B4 Hh) as (k5 & E & B5).
  eexists k5, _, _. split; [exact E|]. split; [exact B5|]. by apply dll_push.
Qed.

Lemma binit_ok n p :
  blank n p k0 ->
  exists k' n' p' l, binit k0 = Ok tt k' /\ blank n' p' k' /\ dll n' p' bhead l /\ l ≡ₚ seq 0 NBUF.
Proof.
  intros B. unfold binit. destruct (blank_initlock n p k0 LBcache "bcache" B) as (k1 & E & B1).
  rewrite (bind_Ok _ _ _ _ _ E). clear E. assert (bhead <= NBUF)%nat as Hh by done.
  destruct (blank_prev _ _ k1 bhead bhead B1 Hh) as (k2 & E & B2). rewrite (bind_Ok _ _ _ _ _ E). clear E.
  destruct (blank_next _ _ k2 bhead bhead B2 Hh) as (k3 & E & B3). rewrite (bind_Ok _ _ _ _ _ E). clear E.
  match goal with |- context [for_range 0 ?m ?f] => set (body := f) end.
  assert (wp (for_range 0 (Z.of_nat NBUF) body) (fun _ k' => exists n' p',
    blank n' p' k' /\ dll n' p' bhead (rev (seq 0 NBUF))) k3) as W.
  { apply (wp_for_range (fun i k' => exists n' p', blank n' p' k' /\ dll n' p' bhead (rev (seq 0 (Z.to_nat i))))); [lia| |].
    - eexists _, _. split; [exact B3|]. split; change (Z.to_nat 0) with O; cbn [seq rev map app]; by rewrite upd_same.
    - intros i k' Hi (n' & p' & B' & Hd). unfold body.
      destruct (binit_step n' p' k' (Z.to_nat i) _ B' Hd) as (k4 & n4 & p4 & E4 & B4 & D4).
      + apply list.NoDup_cons. split; [|apply list.NoDup_cons; split; [|rewrite <- Permutation_rev; apply NoDup_seq]];
          rewrite ?elem_of_cons, <- Permutation_rev, elem_of_seq; unfold bhead; lia.
      + intros x. rewrite elem_of_cons, <- Permutation_rev, elem_of_seq. lia.
      + unfold wp. rewrite E4. exists n4, p4. split; [done|].
        replace (Z.to_nat (i + 1)) with (S (Z.to_nat i)) by lia. by rewrite seq_S, rev_app_distr. }
  apply wp_Ok in W as ([] & k' & E & n' & p' & B' & D'). exists k', n', p', (rev (seq 0 NBUF)).
  split_and!; try done. by rewrite <- Permutation_rev.
Qed.

(** A cache of fresh buffers holds the disk as it is. *)
Lemma blank_bio me n p k l :
  blank n p k -> dll n p bhead l -> l ≡ₚ seq 0 NBUF -> dk_ready (k_hw k) (k_vdisk k) ->
  bio me dev k (mkA (now k) ∅ ∅).
Proof.
  intros (bs & ls & -> & L & Hf & Hn & Hp & Hl) Hd Pl Hr.
  split; cbn; try done.
  - exists l. split; [done|]. by apply (dll_ext n p).
  - intros i r _ [Hc Hdv Hk _]%Hf. by right.
  - intros i j ri rj _ _ [_ Hdv _ _]%Hf _ Dr. done.
  - intros i r _ [_ Hdv _ _]%Hf Dr. done.
  - intros i r _ [_ _ _ ?]%Hf. done.
Qed.

(** C24 [binit] links all the buffers of an untouched array in a circular list
    and leaves the buffer cache empty: no block is cached, referenced or locked, and what a
    block reads as is what the disk holds.  All other memory stays, and no lock is left taken. *)
Theorem binit_establishes_cache me :
  length (k_bufs k0) = S NBUF -> (forall j r, k_bufs k0 !! j = Some r -> fresh_buf r) -> dk_ready (k_hw k0) (k_vdisk k0) ->
  exists k', binit k0 = Ok tt k' /\ bio me dev k' (mkA (now k0) ∅ ∅) /\
    k' = set_k_bufs (k_bufs k') (set_k_locks (k_locks k') k0) /\ forall l, free l k0 -> free l k'.
Proof.
  intros L Hf Hr.
  assert (blank (nx k0) (pv k0) k0) as B.
  { exists (k_bufs k0), (k_locks k0). split_and!; try done. by destruct k0. }
  destruct (binit_ok _ _ B) as (k' & n & p & l & E & B' & D & Pl). exists k'. split; [done|].
  assert (k_hw k' = k_hw k0 /\ k_vdisk k' = k_vdisk k0) as [Eh Ev] by (by destruct B' as (bs & ls & -> & _)).
  split_and!.
  - replace (now k0) with (now k') by (unfold now; by rewrite Eh). by eapply blank_bio; rewrite ?Eh, ?Ev.
  - destruct B' as (bs & ls & -> & _). done.
  - destruct B' as (bs & ls & _ & _ & _ & _ & _ & Hl). done.
Qed.

End Binit.
