(* ===== verification/KBlocks.v ===== *)
(** The free map of the guest's file system (fs.c: [balloc], [bfree], [bzero]): inside a
    transaction they implement a set of free blocks, kept as bits of the bitmap blocks. *)
From stdpp Require Import base gmap sets list numbers strings tactics.
From S2P Require Import Prelude Mem KMachine KSched KBytes KBio KBioProofs KLog KCrash KLogProofs KTxn KFs KBss.

(** * Bits of a block *)

Lemma nth_insert (l : list Z) i j v : (i < length l)%nat -> nth j (<[i := v]> l) 0 = if decide (j = i) then v else nth j l 0.
Proof.
  intros Hi. rewrite !nth_lookup. destruct (decide (j = i)) as [->|Hne].
  - by rewrite list_lookup_insert_eq.
  - by rewrite list_lookup_insert_ne.
Qed.

Lemma bit_index bi n : 0 <= bi < 8 * Z.of_nat n -> (Z.to_nat (bi / 8) < n)%nat.
Proof. intros. assert (bi / 8 < Z.of_nat n) by (apply Z.div_lt_upper_bound; lia). pose proof (Z.div_pos bi 8). lia. Qed.

Lemma same_bit bi bj : 0 <= bi -> 0 <= bj -> Z.to_nat (bj / 8) = Z.to_nat (bi / 8) -> bj mod 8 = bi mod 8 -> bi = bj.
Proof.
  intros. assert (bj / 8 = bi / 8) by (pose proof (Z.div_pos bi 8); pose proof (Z.div_pos bj 8); lia).
  rewrite (Z.div_mod bi 8), (Z.div_mod bj 8) by lia. congruence.
Qed.

Section Bits.
Context (d : list Z) (bi bj : Z).
Context (Hi : 0 <= bi < 8 * Z.of_nat (length d)) (Hj : 0 <= bj).

Lemma bit_set_set : bit_set (set_bit d bi) bj = (bj =? bi) || bit_set d bj.
Proof.
  unfold bit_set, set_bit. rewrite nth_insert by by apply bit_index. pose proof (Z.mod_pos_bound bj 8).
  pose proof (Z.mod_pos_bound bi 8). destruct (decide _) as [E|E].
  - rewrite E, Z.lor_spec, Z.shiftl_mul_pow2, Z.mul_1_l, Z.pow2_bits_eqb by lia. rewrite orb_comm. f_equal.
    destruct (Z.eqb_spec (bi mod 8) (bj mod 8)) as [Em|Em], (Z.eqb_spec bj bi) as [Eb|Eb]; try done; [|by subst].
    exfalso. apply Eb. symmetry. by apply same_bit; [lia..| |].
  - destruct (Z.eqb_spec bj bi) as [->|]; [by destruct E|done].
Qed.

Lemma bit_set_clear : bit_set (clear_bit d bi) bj = negb (bj =? bi) && bit_set d bj.
Proof.
  unfold bit_set, clear_bit. rewrite nth_insert by by apply bit_index. pose proof (Z.mod_pos_bound bj 8).
  pose proof (Z.mod_pos_bound bi 8). destruct (decide _) as [E|E].
  - rewrite E, Z.land_spec, testbit_notw, Z.shiftl_mul_pow2, Z.mul_1_l, Z.pow2_bits_eqb by lia.
    rewrite (proj2 (Z.ltb_lt (bj mod 8) 8)), andb_true_l by lia. rewrite andb_comm. do 2 f_equal.
    destruct (Z.eqb_spec (bi mod 8) (bj mod 8)) as [Em|Em], (Z.eqb_spec bj bi) as [Eb|Eb]; try done; [|by subst].
    exfalso. apply Eb. symmetry. by apply same_bit; [lia..| |].
  - destruct (Z.eqb_spec bj bi) as [->|]; [by destruct E|done].
Qed.
End Bits.

Lemma set_bit_length d bi : length (set_bit d bi) = length d.
Proof. apply length_insert. Qed.
Lemma clear_bit_length d bi : length (clear_bit d bi) = length d.
Proof. apply length_insert. Qed.

(** The scan of a bitmap block. *)
Lemma first_free_ok n b bi size d :
  0 <= b -> 0 <= bi -> b + bi + Z.of_nat n < 2 ^ 32 ->
  match first_free n b bi size d with
  | Some i => bi <= i < bi + Z.of_nat n /\ b + i < size /\ bit_set d i = false /\ forall x, bi <= x < i -> bit_set d x = true
  | None => forall x, bi <= x < bi + Z.of_nat n -> b + x < size -> bit_set d x = true
  end.
Proof.
  revert bi. induction n as [|n IH]; intros bi Hb Hi Hw; cbn [first_free]; [intros; lia|].
  rewrite u32_small by (unfold is_u32; lia). destruct (Z.ltb_spec (b + bi) size) as [Hlt|Hge]; cbn [negb]; [|intros; lia].
  destruct (bit_set d bi) eqn:Eb; cbn [negb].
  - specialize (IH (bi + 1) Hb ltac:(lia) ltac:(lia)). destruct (first_free n b (bi + 1) size d) as [i|].
    + destruct IH as (? & ? & ? & IH). split_and!; try done; [lia|lia|]. intros x Hx.
      destruct (decide (x = bi)) as [->|]; [done|]. apply IH. lia.
    + intros x Hx Hs. destruct (decide (x = bi)) as [->|]; [done|]. apply IH; lia.
  - split_and!; try done; lia.
Qed.

(** * The map *)

Section Blocks.
Context {H : Type} `{!Platform H} `{!SleepFuel} `{!DiskDriver H} `{!DiskLaws H}.
Implicit Types k : kernel H.

(** The bit of block [b]. *)
Definition in_use (sb : superblock) (V : disk) (b : Z) : bool := bit_set (V (BBLOCK b sb)) (b mod BPB).

(** The bitmap lies on the disk, outside the log. *)
Record bitmap_layout (start : Z) (sb : superblock) : Prop := {
  bl_size : 0 <= sb_size sb < 2 ^ 31;
  bl_start : 0 <= sb_bmapstart sb;
  bl_map : forall b, 0 <= b < sb_size sb -> sb_bmapstart sb + b / BPB < dk_size /\ ~ in_log start (sb_bmapstart sb + b / BPB)
}.

(** A free block is on the disk, outside the log and the bitmap. *)
Definition free_data (start : Z) (sb : superblock) (V : disk) : Prop :=
  forall b, 0 <= b < sb_size sb -> in_use sb V b = false ->
    b < dk_size /\ ~ in_log start b /\ forall x, 0 <= x < sb_size sb -> b <> BBLOCK x sb.

Section Map.
Context (start : Z) (sb : superblock) (L : bitmap_layout start sb).

Lemma BBLOCK_ok b : 0 <= b < sb_size sb -> BBLOCK b sb = sb_bmapstart sb + b / BPB.
Proof.
  intros Hb. destruct (bl_map _ _ L b Hb). pose proof (bl_start _ _ L). pose proof dk_bound.
  pose proof (Z.div_pos b BPB ltac:(lia) ltac:(done)). unfold BBLOCK. rewrite u32_small by (unfold is_u32; lia). lia.
Qed.

Lemma BBLOCK_home b : 0 <= b < sb_size sb -> 0 <= BBLOCK b sb < dk_size /\ ~ in_log start (BBLOCK b sb).
Proof.
  intros Hb. rewrite BBLOCK_ok by done. destruct (bl_map _ _ L b Hb). pose proof (bl_start _ _ L).
  pose proof (Z.div_pos b BPB ltac:(lia) ltac:(done)). split; [lia|done].
Qed.

Lemma BBLOCK_same b x : 0 <= b < sb_size sb -> 0 <= x < sb_size sb -> BBLOCK x sb = BBLOCK b sb -> x / BPB = b / BPB.
Proof. intros Hb Hx. rewrite !BBLOCK_ok by done. lia. Qed.

(** Block [b]'s bitmap block is replaced. *)
Lemma in_use_update (V V' : disk) b d x :
  0 <= b < sb_size sb -> 0 <= x < sb_size sb ->
  (forall y, V' y = if y =? BBLOCK b sb then d else V y) ->
  in_use sb V' x = if x / BPB =? b / BPB then bit_set d (x mod BPB) else in_use sb V x.
Proof.
  intros Hb Hx HV. unfold in_use. rewrite HV. destruct (Z.eqb_spec (BBLOCK x sb) (BBLOCK b sb)) as [E|E].
  - by rewrite (BBLOCK_same b x Hb Hx E), Z.eqb_refl.
  - destruct (Z.eqb_spec (x / BPB) (b / BPB)) as [E'|]; [|done]. exfalso. apply E. by rewrite !BBLOCK_ok, E' by done.
Qed.

Lemma same_block b x : x / BPB = b / BPB -> (x mod BPB =? b mod BPB) = (x =? b).
Proof.
  intros E. destruct (Z.eqb_spec (x mod BPB) (b mod BPB)) as [Em|Em], (Z.eqb_spec x b) as [Eb|Eb]; try done; [|by subst].
  exfalso. apply Eb. rewrite (Z.div_mod x BPB), (Z.div_mod b BPB) by done. congruence.
Qed.

Lemma BPB_mod b n : n = Z.to_nat BSIZE -> 0 <= b mod BPB < 8 * Z.of_nat n.
Proof. intros ->. pose proof (Z.mod_pos_bound b BPB ltac:(done)). unfold BPB, BSIZE in *. lia. Qed.

Lemma in_use_set (V V' : disk) b x :
  0 <= b < sb_size sb -> 0 <= x < sb_size sb -> length (V (BBLOCK b sb)) = Z.to_nat BSIZE ->
  (forall y, V' y = if y =? BBLOCK b sb then set_bit (V (BBLOCK b sb)) (b mod BPB) else V y) ->
  in_use sb V' x = (x =? b) || in_use sb V x.
Proof.
  intros Hb Hx Hl HV. rewrite (in_use_update V V' b _ x Hb Hx HV).
  destruct (Z.eqb_spec (x / BPB) (b / BPB)) as [E|E].
  - rewrite bit_set_set; [|by apply BPB_mod|by apply Z.mod_pos_bound]. rewrite same_block by done. unfold in_use.
    by rewrite !BBLOCK_ok, E by done.
  - destruct (Z.eqb_spec x b) as [->|]; [done|done].
Qed.

Lemma in_use_clear (V V' : disk) b x :
  0 <= b < sb_size sb -> 0 <= x < sb_size sb -> length (V (BBLOCK b sb)) = Z.to_nat BSIZE ->
  (forall y, V' y = if y =? BBLOCK b sb then clear_bit (V (BBLOCK b sb)) (b mod BPB) else V y) ->
  in_use sb V' x = negb (x =? b) && in_use sb V x.
Proof.
  intros Hb Hx Hl HV. rewrite (in_use_update V V' b _ x Hb Hx HV).
  destruct (Z.eqb_spec (x / BPB) (b / BPB)) as [E|E].
  - rewrite bit_set_clear; [|by apply BPB_mod|by apply Z.mod_pos_bound]. rewrite same_block by done. unfold in_use.
    by rewrite !BBLOCK_ok, E by done.
  - destruct (Z.eqb_spec x b) as [->|]; [done|done].
Qed.
End Map.

(** * balloc, bfree *)

Lemma bind3_Ok {S A} (m1 m2 m3 : M S unit) (K : M S A) s s' :
  (m1 ;; m2 ;; m3) s = Ok tt s' -> (m1 ;; m2 ;; m3 ;; K) s = K s'.
Proof. unfold bind. destruct (m1 s) as [u s1| | |]; try done. destruct (m2 s1) as [u2 s2| | |]; try done. by intros ->. Qed.

Section Alloc.
Context (c : cpu) (me : nat) (dev start : Z) (sb : superblock).
Context (Hdev : is_u32 dev) (L : bitmap_layout start sb).

(** A transaction inside a system call; the caller has the blocks [hs] locked. *)
Record fs_ops (hs : gset Z) (bs : list Z) (A : acache) k : Prop := {
  fo_txn : txn c me dev start bs A k;
  fo_held : a_held A = hs;
  fo_out : 1 <= lg_outstanding (k_log k);
  fo_sb : k_sb k = sb
}.
(** Between two operations of the file system nothing is locked. *)
Notation fs_op := (fs_ops ∅).

Lemma fs_op_step hs bs A k bs' A' k' :
  fs_ops hs bs A k -> in_call dev (a_held A) me k k' -> txn c me dev start bs' A' k' -> a_held A' = a_held A -> fs_ops hs bs' A' k'.
Proof.
  intros [T Hh Ho Hs] [(E1 & _ & _ & _ & _ & E) _] T' Hh'. split; try done; [congruence|by rewrite E1|]. by rewrite E.
Qed.

Lemma fs_op_call hs bs A k k' : fs_ops hs bs A k -> in_call dev (a_held A) me k k' -> in_call dev hs me k k'.
Proof. intros F. by rewrite (fo_held _ _ _ _ F). Qed.

(** At most one block is locked, and it is neither one of the bitmap nor a free one. *)
Definition apart (hs : gset Z) (V : disk) : Prop :=
  (size hs <= 1)%nat /\ forall x, 0 <= x < sb_size sb -> BBLOCK x sb ∉ hs /\ (in_use sb V x = false -> x ∉ hs).

Lemma apart_empty V : apart ∅ V.
Proof. split; [by rewrite size_empty; lia|]. intros x _. split; [|intros _]; set_solver. Qed.

Lemma fs_room hs bs A k V :
  fs_ops hs bs A k -> apart hs V -> Z.of_nat (length bs) < LOGSIZE - 1 -> (length bs + size (a_held A) < NBUF)%nat.
Proof. intros F [Hs _] Hl. rewrite (fo_held _ _ _ _ F). unfold LOGSIZE, MAXOPBLOCKS, NBUF in *. lia. Qed.

Section Held.
Context (hs : gset Z).
Notation fs_op := (fs_ops hs).

Lemma bzero_ok bs A k b :
  fs_op bs A k -> (size hs <= 1)%nat -> b ∉ hs -> 0 <= b < dk_size -> ~ in_log start b -> Z.of_nat (length bs) < LOGSIZE - 1 ->
  exists k' A', bzero dev b k = Ok tt k' /\ fs_op (join bs b) A' k' /\
    (forall x, a_view A' x = if x =? b then replicate (Z.to_nat BSIZE) 0 else a_view A x) /\ in_call dev hs me k k'.
Proof.
  intros F Hsz Hbh Hb Hh Hl. pose proof F as [T Hheld' Ho Hs]. pose proof dk_bound. unfold bzero.
  assert (b ∉ a_held A) as Hheld by (by rewrite Hheld').
  assert (length bs + size (a_held A) < NBUF)%nat as Hroom by (rewrite Hheld'; unfold LOGSIZE, MAXOPBLOCKS, NBUF in *; lia).
  rewrite !u32_small by (unfold is_u32 in *; lia).
  destruct (txn_open c me dev start bs A k b T Hheld Hb Hroom) as (i & k1 & E1 & T1 & Hi1 & O1 & _). rewrite (bind_Ok _ _ _ _ _ E1).
  destruct (txn_edit c me dev start bs A k b T Hheld Hb k1 i (fun _ => replicate (Z.to_nat BSIZE) 0) T1 Hi1 O1 Ho Hh) as (k2 & A2 & E2 & T2 & Hh2 & V2 & O2);
    [by rewrite length_replicate|done|].
  exists k2, A2. split_and!; try done; [by apply (fs_op_step hs bs A k)|by apply (fs_op_call hs bs A)].
Qed.

(** What [balloc] does to the free map and to the blocks. *)
Definition balloc_post (bs : list Z) (A : acache) k (b : Z) k' : Prop :=
  exists A', fs_op (join (join bs (BBLOCK b sb)) b) A' k' /\ in_call dev hs me k k' /\
    (forall x, 0 <= x < sb_size sb -> in_use sb (a_view A') x = (x =? b) || in_use sb (a_view A) x) /\
    a_view A' b = replicate (Z.to_nat BSIZE) 0 /\
    (forall x, x <> b -> x <> BBLOCK b sb -> a_view A' x = a_view A x).

Lemma join_length bs b : (length (join bs b) <= S (length bs))%nat.
Proof. unfold join. destruct (decide _); rewrite ?length_app; cbn; lia. Qed.

(** The block that is found is marked and cleared. *)
Lemma balloc_take bs A k k1 i b :
  fs_op bs A k -> apart hs (a_view A) -> free_data start sb (a_view A) -> Z.of_nat (length bs) < LOGSIZE - 2 ->
  0 <= b < sb_size sb -> in_use sb (a_view A) b = false -> length (a_view A (BBLOCK b sb)) = Z.to_nat BSIZE ->
  txn c me dev start bs (grab A (BBLOCK b sb)) k1 -> handle dev k1 i (BBLOCK b sb) -> in_call dev (a_held A) me k k1 ->
  exists k', (upd_data i (fun d => set_bit d (b mod BPB)) ;; log_write i ;; brelse i ;; bzero dev b ;; ret (u32 b)) k1 = Ok b k' /\
    balloc_post bs A k b k'.
Proof.
  intros F Hap FD Hl Hb Hu Hlen T1 Hi1 O1. pose proof F as [T Hheld' Ho Hs].
  destruct (proj2 Hap b Hb) as [Hheld Hbh]. rewrite <- Hheld' in Hheld. destruct (FD b Hb Hu) as (Hbd & Hbl & Hbb).
  destruct (BBLOCK_home start sb L b Hb) as [Hr Hh]. pose proof dk_bound.
  destruct (txn_edit c me dev start bs A k (BBLOCK b sb) T Hheld Hr k1 i (fun d => set_bit d (b mod BPB)) T1 Hi1 O1 Ho Hh)
    as (k2 & A2 & E2 & T2 & Hh2 & V2 & O2); [by rewrite set_bit_length|lia|].
  rewrite (bind3_Ok _ _ _ _ _ _ E2).
  pose proof (join_length bs (BBLOCK b sb)).
  destruct (bzero_ok _ A2 k2 b (fs_op_step _ _ _ _ _ _ _ F O2 T2 Hh2) (proj1 Hap) (Hbh Hu)) as (k3 & A3 & E3 & F3 & V3 & O3); [lia|done|lia|].
  exists k3. split.
  - rewrite (bind_Ok _ _ _ _ _ E3). unfold ret. by rewrite u32_small by (unfold is_u32; lia).
  - exists A3. split_and!; [done|etrans; [by apply (fs_op_call hs bs A)|done]| | |].
    + intros x Hx. assert (in_use sb (a_view A3) x = in_use sb (a_view A2) x) as ->.
      { unfold in_use. rewrite V3. destruct (Z.eqb_spec (BBLOCK x sb) b) as [E|]; [|done]. exfalso. by apply (Hbb x). }
      by apply (in_use_set start sb L).
    + by rewrite V3, Z.eqb_refl.
    + intros x Hx1 Hx2. rewrite V3, V2. by rewrite (proj2 (Z.eqb_neq _ _) Hx1), (proj2 (Z.eqb_neq _ _) Hx2).
Qed.

Lemma balloc_loop_ok fuel b bs A k :
  fs_op bs A k -> apart hs (a_view A) -> free_data start sb (a_view A) -> Z.of_nat (length bs) < LOGSIZE - 2 ->
  0 <= b -> b mod BPB = 0 -> sb_size sb + BPB <= b + BPB * Z.of_nat fuel -> b < sb_size sb + BPB ->
  (forall x, 0 <= x < b -> x < sb_size sb -> in_use sb (a_view A) x = true) ->
  (exists a k', balloc_loop fuel dev b k = Ok a k' /\ 0 <= a < sb_size sb /\ in_use sb (a_view A) a = false /\
    (forall x, 0 <= x < a -> in_use sb (a_view A) x = true) /\ balloc_post bs A k a k') \/
  ((forall x, 0 <= x < sb_size sb -> in_use sb (a_view A) x = true) /\ exists k', balloc_loop fuel dev b k = Panic k').
Proof.
  revert b k. induction fuel as [|fuel IH]; intros b k F Hap FD Hl Hb Hm Hf Hle Hbelow; [lia|].
  pose proof F as [T Hheld' Ho Hs]. pose proof (bl_size _ _ L) as Hsz. cbn [balloc_loop]. unfold get_sb.
  erewrite bind_Ok by reflexivity. rewrite Hs. destruct (Z.ltb_spec b (sb_size sb)) as [Hlt|Hge]; cbn [negb].
  2:{ right. split; [|by eexists]. intros x Hx. apply Hbelow; lia. }
  destruct (BBLOCK_home start sb L b ltac:(lia)) as [Hr Hh]. rewrite u32_small by done.
  destruct (proj2 Hap b ltac:(lia)) as [Hheld _]. rewrite <- Hheld' in Hheld.
  destruct (txn_open c me dev start bs A k _ T Hheld Hr (fs_room _ _ _ _ _ F Hap ltac:(lia))) as (i & k1 & E1 & T1 & Hi1 & O1 & Hlen & r & Er & Ed).
  rewrite (bind_Ok _ _ _ _ _ E1). unfold buf_data. rewrite bind_assoc, (bind_Ok _ _ _ _ _ Er). erewrite bind_Ok by reflexivity.
  rewrite Ed. pose proof (first_free_ok (Z.to_nat BPB) b 0 (sb_size sb) (a_view A (BBLOCK b sb)) Hb) as FF.
  assert (forall x, 0 <= x < BPB -> b + x < sb_size sb -> in_use sb (a_view A) (b + x) = bit_set (a_view A (BBLOCK b sb)) x) as Hbit.
  { intros x Hx Hxs. unfold in_use. rewrite !(BBLOCK_ok start sb L) by lia.
    rewrite (Z.div_mod b BPB) at 1 2 by done. rewrite Hm, Z.add_0_r, (Z.mul_comm BPB), Z.div_add_l, (Z.div_small x) by done.
    by rewrite Z.add_0_r, (Z.add_comm (_ * _)), Z.mod_add, Z.mod_small by done. }
  destruct (first_free _ _ _ _ _) as [bi|].
  - destruct FF as (Hbi & Hbs & Hclr & Hfst); [done|unfold BPB, BSIZE in *; lia|]. left.
    assert (BBLOCK (b + bi) sb = BBLOCK b sb) as EB.
    { rewrite !(BBLOCK_ok start sb L) by lia. f_equal. rewrite (Z.div_mod b BPB) at 1 by done.
      rewrite Hm, Z.add_0_r, (Z.mul_comm BPB), Z.div_add_l, (Z.div_small bi), Z.add_0_r by (done || lia). done. }
    assert ((b + bi) mod BPB = bi) as EM.
    { rewrite Z.add_mod, Hm, Z.add_0_l, Z.mod_mod, Z.mod_small by (done || lia). done. }
    destruct (balloc_take bs A k k1 i (b + bi)) as (k' & E' & P'); try done; [lia|by rewrite Hbit by lia|by rewrite EB..|].
    rewrite EM in E'. exists (b + bi), k'. split_and!; try done; try lia; [by rewrite Hbit by lia|].
    intros x Hx. destruct (decide (x < b)); [apply Hbelow; lia|]. replace x with (b + (x - b)) by lia. rewrite Hbit by lia. apply Hfst. lia.
  - destruct (txn_close c me dev start bs A k _ T Hheld Hr k1 i T1 Hi1 O1) as (k2 & E2 & T2 & O2). rewrite (bind_Ok _ _ _ _ _ E2).
    destruct (IH (b + BPB) k2) as [(a & k' & E' & Ha & Hu & Hx & A' & P1 & P2 & P)|[Hx E']].
    + by apply (fs_op_step hs bs A k).
    + done.
    + done.
    + done.
    + unfold BPB, BSIZE in *. lia.
    + by rewrite Z.add_mod, Hm, Z.mod_same.
    + unfold BPB, BSIZE in *. lia.
    + lia.
    + intros x Hx Hxs. destruct (decide (x < b)); [apply Hbelow; lia|]. replace x with (b + (x - b)) by lia.
      rewrite Hbit by lia. apply FF; [done|unfold BPB, BSIZE in *; lia..].
    + left. exists a, k'. split_and!; try done; try lia. exists A'. split_and!; try done; [etrans; [by apply (fs_op_call hs bs A)|done]|apply P..].
    + by right.
Qed.

Lemma balloc_ok bs A k :
  fs_op bs A k -> apart hs (a_view A) -> free_data start sb (a_view A) -> Z.of_nat (length bs) < LOGSIZE - 2 ->
  (exists b k', balloc dev k = Ok b k' /\ 0 <= b < sb_size sb /\ in_use sb (a_view A) b = false /\
    (forall x, 0 <= x < b -> in_use sb (a_view A) x = true) /\ balloc_post bs A k b k') \/
  ((forall x, 0 <= x < sb_size sb -> in_use sb (a_view A) x = true) /\ exists k', balloc dev k = Panic k').
Proof.
  intros F Hap FD Hl. unfold balloc, get_sb. erewrite bind_Ok by reflexivity. rewrite (fo_sb _ _ _ _ F).
  apply balloc_loop_ok; try done.
  - pose proof (bl_size _ _ L) as [Hs _]. rewrite (Z.div_mod (sb_size sb) BPB) at 1 by done.
    pose proof (Z.mod_pos_bound (sb_size sb) BPB ltac:(done)). pose proof (Z.div_pos (sb_size sb) BPB Hs ltac:(done)).
    rewrite !Nat2Z.inj_succ, Z2Nat.id by done. lia.
  - pose proof (bl_size _ _ L). unfold BPB, BSIZE. lia.
  - lia.
Qed.

Lemma bfree_ok bs A k b :
  fs_op bs A k -> apart hs (a_view A) -> 0 <= b < sb_size sb -> Z.of_nat (length bs) < LOGSIZE - 1 ->
  if in_use sb (a_view A) b then
    exists k' A', bfree dev b k = Ok tt k' /\ fs_op (join bs (BBLOCK b sb)) A' k' /\ in_call dev hs me k k' /\
      (forall x, 0 <= x < sb_size sb -> in_use sb (a_view A') x = negb (x =? b) && in_use sb (a_view A) x) /\
      (forall x, x <> BBLOCK b sb -> a_view A' x = a_view A x)
  else exists k', bfree dev b k = Panic k'.
Proof.
  intros F Hap Hb Hl. pose proof F as [T Hheld' Ho Hs]. destruct (BBLOCK_home start sb L b Hb) as [Hr Hh].
  destruct (proj2 Hap b Hb) as [Hheld _]. rewrite <- Hheld' in Hheld.
  unfold bfree, get_sb. erewrite bind_Ok by reflexivity. rewrite Hs, u32_small by done.
  destruct (txn_open c me dev start bs A k _ T Hheld Hr (fs_room _ _ _ _ _ F Hap ltac:(lia))) as (i & k1 & E1 & T1 & Hi1 & O1 & Hlen & r & Er & Ed).
  rewrite (bind_Ok _ _ _ _ _ E1). unfold buf_data. rewrite bind_assoc, (bind_Ok _ _ _ _ _ Er). erewrite bind_Ok by reflexivity.
  rewrite Ed. unfold in_use at 1. destruct (bit_set _ _); cbn [negb]; [|by eexists].
  destruct (txn_edit c me dev start bs A k _ T Hheld Hr k1 i (fun d => clear_bit d (b mod BPB)) T1 Hi1 O1 Ho Hh)
    as (k2 & A2 & E2 & T2 & Hh2 & V2 & O2); [by rewrite clear_bit_length|done|].
  exists k2, A2. split_and!; try done.
  - by apply (fs_op_step hs bs A k).
  - by apply (fs_op_call hs bs A).
  - intros x Hx. by apply (in_use_clear start sb L).
  - intros x Hx. by rewrite V2, (proj2 (Z.eqb_neq _ _) Hx).
Qed.

End Held.

(** C26 The free map: inside a transaction with room for two more blocks, [balloc] returns the
    lowest block whose bit is clear, with the bit set, the block zeroed and every other
    block as it was; when no bit is clear it panics.  So it refines taking the least
    element out of the set of free blocks. *)
Theorem balloc_spec bs A k :
  fs_op bs A k -> free_data start sb (a_view A) -> Z.of_nat (length bs) < LOGSIZE - 2 ->
  (exists b k', balloc dev k = Ok b k' /\ 0 <= b < sb_size sb /\ in_use sb (a_view A) b = false /\
    (forall x, 0 <= x < b -> in_use sb (a_view A) x = true) /\ balloc_post ∅ bs A k b k') \/
  ((forall x, 0 <= x < sb_size sb -> in_use sb (a_view A) x = true) /\ exists k', balloc dev k = Panic k').
Proof. intros F. by apply balloc_ok, apart_empty. Qed.

(** Freeing what was allocated gives the free map back, and leaves every block but the
    bitmap's and the freed one as before the allocation; freeing the block twice panics. *)
Theorem balloc_bfree_roundtrip bs A k b k1 :
  fs_op bs A k -> free_data start sb (a_view A) -> Z.of_nat (length bs) < LOGSIZE - 4 -> balloc dev k = Ok b k1 ->
  exists k2 A2, bfree dev b k1 = Ok tt k2 /\ in_call dev ∅ me k k2 /\
    (forall x, 0 <= x < sb_size sb -> in_use sb (a_view A2) x = in_use sb (a_view A) x) /\
    (forall x, x <> b -> x <> BBLOCK b sb -> a_view A2 x = a_view A x) /\
    exists bs2, fs_op bs2 A2 k2 /\ exists k3, bfree dev b k2 = Panic k3.
Proof.
  intros F FD Hl E. destruct (balloc_ok ∅ bs A k F (apart_empty _) FD ltac:(lia)) as [(b' & k1' & E' & Hb & Hu & _ & A1 & F1 & O1 & U1 & Z1 & V1)|[_ [k' E']]];
    rewrite E in E'; [|done]. injection E' as <- <-.
  pose proof (join_length bs (BBLOCK b sb)). pose proof (join_length (join bs (BBLOCK b sb)) b).
  pose proof (bfree_ok ∅ _ A1 k1 b F1 (apart_empty _) Hb ltac:(lia)) as P. rewrite U1, Z.eqb_refl, orb_true_l in P by done.
  destruct P as (k2 & A2 & E2 & F2 & O2 & U2 & V2). exists k2, A2. split_and!; [done|by etrans| | |].
  - intros x Hx. rewrite U2, U1 by done. destruct (Z.eqb_spec x b) as [->|]; cbn; [by rewrite Hu|done].
  - intros x Hx1 Hx2. rewrite V2, V1; done.
  - exists (join (join (join bs (BBLOCK b sb)) b) (BBLOCK b sb)). split; [exact F2|]. pose proof (join_length (join (join bs (BBLOCK b sb)) b) (BBLOCK b sb)).
    pose proof (bfree_ok ∅ _ A2 k2 b F2 (apart_empty _) Hb ltac:(lia)) as P. by rewrite U2, Z.eqb_refl in P by done.
Qed.
End Alloc.
End Blocks.
