(* ===== verification/KInode.v ===== *)
(** Inodes on disk and in the table (fs.c: [iupdate], [ilock], [iget], [iput]): the fields of
    a [struct dinode], what an inode written in a transaction is when it is read back, and the
    references to the entries of the table. *)
From stdpp Require Import base gmap sets list numbers strings tactics.
From S2P Require Import Prelude Mem KMachine KBytes KSched KBss KBio KBioProofs KLog KFs KCrash KLogProofs KTxn KBlocks.

(** * Types *)

Definition is_i16 (x : Z) : Prop := - 2 ^ 15 <= x < 2 ^ 15.

(** The fields of an inode that the disk has, with the types of [struct dinode]. *)
Record inode_typed (r : inode) : Prop := {
  it_type : is_i16 (i_type r);
  it_major : is_i16 (i_major r);
  it_minor : is_i16 (i_minor r);
  it_nlink : is_i16 (i_nlink r);
  it_size : is_u32 (i_size r);
  it_addrs : Forall is_u32 (i_addrs r);
  it_count : length (i_addrs r) = 13%nat
}.

(** Those fields agree. *)
Definition same_dinode (r r' : inode) : Prop :=
  i_type r' = i_type r /\ i_major r' = i_major r /\ i_minor r' = i_minor r /\ i_nlink r' = i_nlink r /\
  i_size r' = i_size r /\ i_addrs r' = i_addrs r.

Lemma same_dinode_valid r r' v : same_dinode r r' -> same_dinode r (set_i_valid v r').
Proof. by intros (? & ? & ? & ? & ? & ?). Qed.

Lemma inode_typed_valid r v : inode_typed r -> inode_typed (set_i_valid v r).
Proof. by intros []. Qed.

Lemma sext_range w x : 0 < w -> - 2 ^ (w - 1) <= sext w x < 2 ^ (w - 1).
Proof.
  intros Hw. unfold sext. assert (2 ^ w = 2 * 2 ^ (w - 1)) as E by (rewrite <- Z.pow_succ_r by lia; f_equal; lia).
  pose proof (Z.pow_pos_nonneg 2 (w - 1)). pose proof (Z.mod_pos_bound x (2 ^ w)).
  destruct (Z.ltb_spec (x mod 2 ^ w) (2 ^ (w - 1))); lia.
Qed.
Lemma i16_range x : is_i16 (i16 x).
Proof. by apply (sext_range 16). Qed.

Lemma i16_u16 x : is_i16 x -> i16 (u16 x) = x.
Proof.
  unfold is_i16, i16, sext, u16. intros Hx. rewrite Z.mod_mod by done.
  destruct (decide (0 <= x)).
  - rewrite Z.mod_small by lia. destruct (Z.ltb_spec x (2 ^ (16 - 1))); lia.
  - rewrite <- (Z.mod_add x 1) by done. rewrite Z.mod_small by lia. destruct (Z.ltb_spec (x + 1 * 2 ^ 16) (2 ^ (16 - 1))); lia.
Qed.

Lemma slice_bytes off n l : bytes l -> bytes (slice off n l).
Proof. intros Hl. unfold slice. apply Forall_take, Forall_drop, Hl. Qed.
Lemma get_le_range n off d : bytes d -> 0 <= get_le n off d < 2 ^ (8 * Z.of_nat n).
Proof.
  intros Hd. unfold get_le. pose proof (le_val_range _ (slice_bytes off n d Hd)) as Hr.
  assert (length (slice off n d) <= n)%nat as Hl by (unfold slice; rewrite length_take; lia).
  split; [lia|]. eapply Z.lt_le_trans; [apply Hr|]. apply Z.pow_le_mono_r; lia.
Qed.

Lemma dinode_load_typed o d r : bytes d -> inode_typed (dinode_load o d r).
Proof.
  intros Hd. split; cbn; try apply i16_range; [by apply (get_le_range 4)| |done].
  do 13 (constructor; [by apply (get_le_range 4)|]). constructor.
Qed.

(** * One [struct dinode] in a block *)

Lemma put_le_out n o v d i : (o + n <= length d)%nat -> ~ (o <= i < o + n)%nat -> put_le n o v d !! i = d !! i.
Proof. intros Hl Hi. unfold put_le. rewrite lookup_splice; rewrite le_bytes_length; [by rewrite decide_False|done]. Qed.

Lemma put_words_length ws o d : (o + 4 * length ws <= length d)%nat -> length (put_words o ws d) = length d.
Proof.
  revert o d. induction ws as [|w ws IH]; intros o d Hl; [done|]. cbn [put_words length] in *.
  rewrite IH; rewrite put_le_length; lia.
Qed.
Lemma put_words_out ws o d i :
  (o + 4 * length ws <= length d)%nat -> ~ (o <= i < o + 4 * length ws)%nat -> put_words o ws d !! i = d !! i.
Proof.
  revert o d. induction ws as [|w ws IH]; intros o d Hl Hi; [done|]. cbn [put_words length] in *.
  rewrite IH, put_le_out; [done|lia..|rewrite put_le_length; lia|lia].
Qed.
Lemma get_put_words ws o d j w :
  (o + 4 * length ws <= length d)%nat -> ws !! j = Some w -> is_u32 w -> get_le 4 (o + 4 * j) (put_words o ws d) = w.
Proof.
  revert o d j. induction ws as [|w0 ws IH]; intros o d j Hl Ej Hw; [done|]. cbn [put_words length] in *. destruct j as [|j].
  - injection Ej as ->. rewrite (get_le_ext _ _ _ (put_le 4 o (u32 w) d)).
    + rewrite Nat.mul_0_r, Nat.add_0_r, get_put_same by lia. rewrite u32_small by done. by apply u32_small.
    + intros i Hi. apply put_words_out; [rewrite put_le_length|]; lia.
  - replace (o + 4 * S j)%nat with (o + 4 + 4 * j)%nat by lia. apply IH; [rewrite put_le_length; lia|done..].
Qed.
Lemma get_put_words_other n x ws o d :
  (o + 4 * length ws <= length d)%nat -> (x + n <= o \/ o + 4 * length ws <= x)%nat ->
  get_le n x (put_words o ws d) = get_le n x d.
Proof. intros Hl Hx. apply get_le_ext. intros i Hi. apply put_words_out; lia. Qed.

Ltac dinode_len := repeat (rewrite put_words_length || rewrite put_le_length); lia.

Section Dinode.
Context (o : nat) (r : inode) (d : list Z).
Context (Ho : (o + 64 <= length d)%nat) (T : inode_typed r).

Lemma dinode_store_length : length (dinode_store o r d) = length d.
Proof. unfold dinode_store. pose proof (it_count _ T). dinode_len. Qed.

Lemma dinode_store_out i : ~ (o <= i < o + 64)%nat -> dinode_store o r d !! i = d !! i.
Proof.
  intros Hi. unfold dinode_store. pose proof (it_count _ T).
  rewrite put_words_out by (dinode_len || lia). rewrite !put_le_out by (dinode_len || lia). done.
Qed.

Lemma dinode_addrs_store : map (fun j => get_le 4 (o + 12 + 4 * j) (dinode_store o r d)) (seq 0 13) = i_addrs r.
Proof.
  pose proof T as [_ _ _ _ _ T6 T7]. apply list_eq. intros j. destruct (i_addrs r !! j) as [w|] eqn:Ej.
  - pose proof (lookup_lt_Some _ _ _ Ej) as Hj. rewrite T7 in Hj. rewrite list_lookup_fmap, lookup_seq_lt by done.
    cbn [fmap option_fmap option_map]. f_equal. apply get_put_words; [dinode_len|done|].
    rewrite list.Forall_forall in T6. by apply T6, (list_elem_of_lookup_2 _ j).
  - apply lookup_ge_None in Ej. apply lookup_ge_None. rewrite length_map, length_seq. lia.
Qed.

(** What is written is what is read. *)
Lemma dinode_load_store r0 : same_dinode r (dinode_load o (dinode_store o r d) r0).
Proof.
  pose proof T as [T1 T2 T3 T4 T5 T6 T7].
  assert (forall x, is_i16 x -> i16 (u16 x mod 2 ^ 16) = x) as E16.
  { intros x Hx. unfold u16. rewrite Z.mod_mod by done. by apply (i16_u16 x). }
  unfold same_dinode. split_and!; [..|apply dinode_addrs_store];
    cbn [dinode_load i_type i_major i_minor i_nlink i_size set_i_addrs set_i_size set_i_nlink set_i_minor set_i_major set_i_type];
    unfold dinode_store; rewrite get_put_words_other by (dinode_len || lia);
    repeat first [rewrite get_put_same by dinode_len | rewrite get_put_other by (dinode_len || lia)];
    try by apply E16.
  by apply u32_small.
Qed.

Lemma dinode_load_other o' r0 : (o' + 64 <= o \/ o + 64 <= o')%nat -> dinode_load o' (dinode_store o r d) r0 = dinode_load o' d r0.
Proof.
  intros Ho'. unfold dinode_load.
  assert (forall n x, (o' <= x)%nat -> (x + n <= o' + 64)%nat -> get_le n x (dinode_store o r d) = get_le n x d) as E.
  { intros n x H1 H2. apply get_le_ext. intros i Hi. apply dinode_store_out. lia. }
  rewrite !E by lia. f_equal. apply map_ext_in. intros j Hj%in_seq. apply E; lia.
Qed.
End Dinode.

(** The places of two inodes of a block are apart. *)
Lemma dinode_off_range inum : (dinode_off inum + 64 <= Z.to_nat BSIZE)%nat.
Proof.
  unfold dinode_off, DINODE_SIZE. pose proof (Z.mod_pos_bound inum IPB ltac:(done)).
  assert (IPB = 16) by done. unfold BSIZE. lia.
Qed.
Lemma dinode_off_apart i j :
  i mod IPB <> j mod IPB -> (dinode_off i + 64 <= dinode_off j \/ dinode_off j + 64 <= dinode_off i)%nat.
Proof.
  intros Hne. unfold dinode_off, DINODE_SIZE. pose proof (Z.mod_pos_bound i IPB ltac:(done)).
  pose proof (Z.mod_pos_bound j IPB ltac:(done)). lia.
Qed.

(** * Inodes of a transaction *)

Section Inode.
Context {H : Type} `{!Platform H} `{!SleepFuel} `{!DiskDriver H} `{!DiskLaws H}.
Implicit Types k : kernel H.

(** The blocks of inodes lie on the disk, outside the log. *)
Record inode_layout (start : Z) (sb : superblock) : Prop := {
  il_start : 0 <= sb_inodestart sb;
  il_blocks : forall inum, 0 <= inum < sb_ninodes sb ->
    sb_inodestart sb + inum / IPB < dk_size /\ ~ in_log start (sb_inodestart sb + inum / IPB)
}.

Lemma IBLOCK_ok start sb inum : inode_layout start sb -> 0 <= inum < sb_ninodes sb ->
  IBLOCK inum sb = sb_inodestart sb + inum / IPB /\ 0 <= IBLOCK inum sb < dk_size /\ ~ in_log start (IBLOCK inum sb).
Proof.
  intros L Hi. destruct (il_blocks _ _ L inum Hi). pose proof (il_start _ _ L). pose proof dk_bound.
  pose proof (Z.div_pos inum IPB ltac:(lia) ltac:(done)).
  assert (IBLOCK inum sb = sb_inodestart sb + inum / IPB) as ->.
  { unfold IBLOCK. rewrite u32_small by (unfold is_u32; lia). lia. }
  split; [done|]. split; [lia|done].
Qed.

(** ** The table beside a transaction *)

Lemma txn_set_inodes c me dev start bs A k l : txn c me dev start bs A k -> txn c me dev start bs A (set_k_inodes l k).
Proof. intros [Q B L]. split; try done; [by destruct Q|by destruct B|by destruct L]. Qed.
Lemma in_op_set_inodes me k k' l : in_op me k k' -> in_op me (set_k_inodes l k) (set_k_inodes l k').
Proof. intros (? & ? & ? & ? & ? & E). split_and!; try done. rewrite E. by destruct k. Qed.
Lemma in_call_set_inodes dev hs me k k' l : in_call dev hs me k k' -> in_call dev hs me (set_k_inodes l k) (set_k_inodes l k').
Proof. intros [O K]. split; [by apply in_op_set_inodes|]. intros j b Hb Hj. exact (K j b Hb Hj). Qed.
Lemma in_op_inodes me k k' : in_op me k k' -> k_inodes k' = k_inodes k.
Proof. intros (_ & _ & _ & _ & _ & ->). done. Qed.

Lemma get_inode_ok ip r k : k_inodes k !! ip = Some r -> get_inode ip k = Ok r k.
Proof. apply aget_ok. Qed.
Lemma upd_inode_ok ip f r k : k_inodes k !! ip = Some r -> upd_inode ip f k = Ok tt (set_k_inodes (<[ip := f r]> (k_inodes k)) k).
Proof. apply aupd_ok. Qed.

Section Ops.
Context (c : cpu) (me : nat) (dev start : Z) (sb : superblock) (L : inode_layout start sb).
Notation fs_op := (fs_ops c me dev start sb ∅).

Lemma fs_op_inodes bs A k l : fs_op bs A k -> fs_op bs A (set_k_inodes l k).
Proof. intros []. split; try done. by apply txn_set_inodes. Qed.

Lemma not_held bs A k b : fs_op bs A k -> b ∉ a_held A.
Proof. intros F. rewrite (fo_held _ _ _ _ _ _ _ _ _ F). set_solver. Qed.

(** An entry of the table for inode [inum] of the disk. *)
Record entry (ip : nat) (inum : Z) (r : inode) k : Prop := {
  en_lt : (ip < Z.to_nat NINODE)%nat;
  en_at : k_inodes k !! ip = Some r;
  en_dev : i_dev r = dev;
  en_inum : i_inum r = inum;
  en_range : 0 <= inum < sb_ninodes sb
}.

Lemma iupdate_ok bs A k ip inum r :
  fs_op bs A k -> entry ip inum r k -> inode_typed r -> Z.of_nat (length bs) < LOGSIZE - 1 ->
  exists k' A', iupdate ip k = Ok tt k' /\ fs_op (join bs (IBLOCK inum sb)) A' k' /\ in_op me k k' /\
    length (a_view A (IBLOCK inum sb)) = Z.to_nat BSIZE /\
    forall x, a_view A' x = if x =? IBLOCK inum sb then dinode_store (dinode_off inum) r (a_view A (IBLOCK inum sb)) else a_view A x.
Proof.
  intros F [Hlt Hat Hd Hn Hrg] Ty Hl. pose proof F as [T Hheld' Ho Hs]. destruct (IBLOCK_ok start sb inum L Hrg) as (_ & Hr & Hh).
  pose proof (not_held _ _ _ (IBLOCK inum sb) F) as Hheld.
  unfold iupdate, get_sb. erewrite bind_Ok by reflexivity. rewrite (bind_Ok _ _ _ _ _ (get_inode_ok _ _ _ Hat)), Hs, Hd, Hn.
  destruct (txn_open c me dev start bs A k _ T Hheld Hr (txn_room _ _ _ _ _ _ _ T Hheld')) as (i & k1 & E1 & T1 & Hi1 & O1 & Hlen & _).
  rewrite (bind_Ok _ _ _ _ _ E1).
  destruct (txn_edit c me dev start bs A k _ T Hheld Hr k1 i (dinode_store (dinode_off inum) r) T1 Hi1 O1 Ho Hh)
    as (k2 & A2 & E2 & T2 & Hh2 & V2 & O2); [|done|].
  { rewrite dinode_store_length; [done|rewrite Hlen; apply dinode_off_range|done]. }
  exists k2, A2. split_and!; try done; [|apply O2]. by apply (fs_op_step c me dev start sb ∅ bs A k).
Qed.

(** [ilock] of an entry that has not been read: the sleep lock, then the fields from the disk. *)
Definition loaded (A : acache) k (inum : Z) (r : inode) : inode :=
  set_i_valid 1 (dinode_load (dinode_off inum) (a_view A (IBLOCK inum sb))
    (set_i_lock (mkSleep 1 (sk_name (i_lock r)) (pid_of me k)) r)).

Lemma ilock_ok bs A k ip inum r :
  fs_op bs A k -> entry ip inum r k -> 1 <= i_ref r -> i_valid r = 0 -> sk_locked (i_lock r) = 0 ->
  if i_type (loaded A k inum r) =? 0 then exists k', ilock ip k = Panic k'
  else exists k', ilock ip k = Ok tt k' /\ fs_op bs A k' /\ k_inodes k' = <[ip := loaded A k inum r]> (k_inodes k) /\
    in_op me (set_k_inodes (k_inodes k') k) k'.
Proof.
  intros F [Hlt Hat Hd Hn Hrg] Hrf Hv Hlk. destruct (IBLOCK_ok start sb inum L Hrg) as (_ & Hr & Hh).
  set (r1 := set_i_lock (mkSleep 1 (sk_name (i_lock r)) (pid_of me k)) r). set (k1 := set_k_inodes (<[ip := r1]> (k_inodes k)) k).
  pose proof (lookup_lt_Some _ _ _ Hat) as Hip.
  unfold ilock. rewrite (bind_Ok _ _ _ _ _ (get_inode_ok _ _ _ Hat)). destruct (Z.ltb_spec (i_ref r) 1); [lia|].
  assert (acquiresleep (SInode ip) k = Ok tt k1) as Ea.
  { rewrite (acquiresleep_ok c me (SInode ip) (i_lock r) k (tx_quiet _ _ _ _ _ _ _ (fo_txn _ _ _ _ _ _ _ _ _ F))); try done.
    - unfold put_sleep. by rewrite (alter_insert _ _ _ _ Hat).
    - unfold sleep_at. by rewrite Hat. }
  rewrite (bind_Ok _ _ _ _ _ Ea). pose proof (fs_op_inodes bs A k (<[ip := r1]> (k_inodes k)) F : fs_op bs A k1) as F1.
  pose proof F1 as [T Hheld' Ho Hs]. pose proof (not_held _ _ _ (IBLOCK inum sb) F) as Hheld.
  assert (k_inodes k1 !! ip = Some r1) as Hat1 by by apply list_lookup_insert_eq.
  rewrite (bind_Ok _ _ _ _ _ (get_inode_ok _ _ _ Hat1)). change (i_valid r1) with (i_valid r). rewrite Hv.
  cbn [Z.eqb]. unfold get_sb. erewrite bind_Ok by reflexivity. rewrite Hs.
  change (i_dev r1) with (i_dev r). change (i_inum r1) with (i_inum r). rewrite Hd, Hn.
  destruct (txn_open c me dev start bs A k1 _ T Hheld Hr (txn_room _ _ _ _ _ _ _ T Hheld')) as (i & k2 & E2 & T2 & Hi2 & O2 & Hlen & rb & Er & Ed).
  rewrite (bind_Ok _ _ _ _ _ E2). unfold buf_data. rewrite bind_assoc, (bind_Ok _ _ _ _ _ Er). erewrite bind_Ok by reflexivity.
  rewrite Ed. set (r2 := dinode_load (dinode_off inum) (a_view A (IBLOCK inum sb)) r1).
  assert (k_inodes k2 = <[ip := r1]> (k_inodes k)) as Ek2 by exact (in_op_inodes me k1 k2 (proj1 O2)).
  assert (k_inodes k2 !! ip = Some r1) as Hat2 by by rewrite Ek2.
  rewrite (bind_Ok _ _ _ _ _ (upd_inode_ok _ _ _ _ Hat2)). rewrite Ek2, list_insert_insert_eq. set (l2 := <[ip := r2]> (k_inodes k)).
  destruct (txn_close c me dev start bs A (set_k_inodes l2 k1) (IBLOCK inum sb) (txn_set_inodes _ _ _ _ _ _ _ l2 T) Hheld Hr
    (set_k_inodes l2 k2) i (txn_set_inodes _ _ _ _ _ _ _ l2 T2) Hi2 (in_call_set_inodes dev _ me k1 k2 l2 O2)) as (k3 & E3 & T3 & O3).
  rewrite (bind_Ok _ _ _ _ _ E3).
  assert (k_inodes k3 = l2) as Ek3 by exact (in_op_inodes me _ _ (proj1 O3)).
  assert (k_inodes k3 !! ip = Some r2) as Hat3 by (rewrite Ek3; by apply list_lookup_insert_eq).
  rewrite (bind_Ok _ _ _ _ _ (upd_inode_ok _ _ _ _ Hat3)), Ek3. unfold l2. rewrite list_insert_insert_eq.
  set (l3 := <[ip := set_i_valid 1 r2]> (k_inodes k)).
  assert (k_inodes (set_k_inodes l3 k3) !! ip = Some (set_i_valid 1 r2)) as Hat4 by by apply list_lookup_insert_eq.
  rewrite (bind_Ok _ _ _ _ _ (get_inode_ok _ _ _ Hat4)). change (set_i_valid 1 r2) with (loaded A k inum r).
  destruct (i_type (loaded A k inum r) =? 0); [by eexists|]. exists (set_k_inodes l3 k3). split; [reflexivity|]. split; [|split; [reflexivity|]].
  - apply fs_op_inodes. apply (fs_op_step c me dev start sb ∅ bs A (set_k_inodes l2 k1)); try done. by apply fs_op_inodes.
  - pose proof (in_op_set_inodes me _ _ l3 (proj1 O3)) as O4. by destruct k.
Qed.

(** [ilock] of an entry that has been read takes the sleep lock, no more. *)
Lemma ilock_valid_ok bs A k ip inum r :
  fs_op bs A k -> entry ip inum r k -> 1 <= i_ref r -> i_valid r <> 0 -> sk_locked (i_lock r) = 0 ->
  ilock ip k = Ok tt (set_k_inodes (<[ip := set_i_lock (mkSleep 1 (sk_name (i_lock r)) (pid_of me k)) r]> (k_inodes k)) k).
Proof.
  intros F [Hlt Hat Hd Hn Hrg] Hrf Hv Hlk. pose proof (lookup_lt_Some _ _ _ Hat) as Hip.
  unfold ilock. rewrite (bind_Ok _ _ _ _ _ (get_inode_ok _ _ _ Hat)). destruct (Z.ltb_spec (i_ref r) 1); [lia|].
  set (r1 := set_i_lock _ r). set (k1 := set_k_inodes _ k).
  assert (acquiresleep (SInode ip) k = Ok tt k1) as Ea.
  { rewrite (acquiresleep_ok c me (SInode ip) (i_lock r) k (tx_quiet _ _ _ _ _ _ _ (fo_txn _ _ _ _ _ _ _ _ _ F))); try done.
    - unfold put_sleep. by rewrite (alter_insert _ _ _ _ Hat).
    - unfold sleep_at. by rewrite Hat. }
  rewrite (bind_Ok _ _ _ _ _ Ea).
  assert (k_inodes k1 !! ip = Some r1) as Hat1 by by apply list_lookup_insert_eq.
  rewrite (bind_Ok _ _ _ _ _ (get_inode_ok _ _ _ Hat1)). change (i_valid r1) with (i_valid r).
  by destruct (Z.eqb_spec (i_valid r) 0).
Qed.

(** Every entry that has been read has the types of its fields. *)
Definition table_typed k : Prop := forall i r, k_inodes k !! i = Some r -> i_valid r <> 0 -> inode_typed r.

Lemma table_typed_insert k k' ip r :
  table_typed k -> k_inodes k' = <[ip := r]> (k_inodes k) -> inode_typed r -> table_typed k'.
Proof.
  intros Tk E Ty i x Ei Hv. rewrite E in Ei. destruct (decide (i = ip)) as [->|Hne].
  - apply list_lookup_insert_Some in Ei as [(_ & <- & _)|[? _]]; done.
  - rewrite list_lookup_insert_ne in Ei by done. by apply (Tk i).
Qed.

(** ** The layout of the disk

    The words of [struct dinode] in the bytes of a block, low byte first, by their places. *)
Definition half (d : list Z) (o : nat) : Z := nth o d 0 + 2 ^ 8 * nth (o + 1) d 0.
Definition word (d : list Z) (o : nat) : Z := half d o + 2 ^ 16 * half d (o + 2).
Definition signed (x : Z) : Z := if x <? 2 ^ 15 then x else x - 2 ^ 16.

(** Inode [r] is what the 64 bytes at [o] say. *)
Record on_disk (d : list Z) (o : nat) (r : inode) : Prop := {
  od_type : i_type r = signed (half d o);
  od_major : i_major r = signed (half d (o + 2));
  od_minor : i_minor r = signed (half d (o + 4));
  od_nlink : i_nlink r = signed (half d (o + 6));
  od_size : i_size r = word d (o + 8);
  od_count : length (i_addrs r) = 13%nat;
  od_addr j : (j < 13)%nat -> nth j (i_addrs r) 0 = word d (o + 12 + 4 * j)
}.

Lemma nth_drop_0 (d : list Z) o i : nth (o + i) d 0 = nth i (skipn o d) 0.
Proof. by rewrite nth_skipn. Qed.
Lemma get_le_half d o : get_le 2 o d = half d o.
Proof.
  unfold get_le, slice, half. rewrite nth_drop_0. replace (nth o d 0) with (nth 0 (skipn o d) 0) by by rewrite <- nth_drop_0, Nat.add_0_r.
  destruct (skipn o d) as [|x [|y l]]; cbn [take nth]; rewrite ?take_0; cbn [le_val]; lia.
Qed.
Lemma get_le_word d o : get_le 4 o d = word d o.
Proof.
  unfold get_le, slice, word, half. rewrite <- Nat.add_assoc, !nth_drop_0. replace (nth o d 0) with (nth 0 (skipn o d) 0) by by rewrite <- nth_drop_0, Nat.add_0_r.
  destruct (skipn o d) as [|x [|y [|z [|w l]]]]; cbn [Nat.add skipn take nth]; rewrite ?take_0; cbn [le_val]; lia.
Qed.
Lemma half_range d o : bytes d -> 0 <= half d o < 2 ^ 16.
Proof. intros Hd. rewrite <- get_le_half. by apply (get_le_range 2). Qed.
Lemma i16_signed x : 0 <= x < 2 ^ 16 -> i16 x = signed x.
Proof. intros Hx. unfold i16, sext, signed. by rewrite Z.mod_small. Qed.

Lemma loaded_on_disk A k inum r : bytes (a_view A (IBLOCK inum sb)) -> on_disk (a_view A (IBLOCK inum sb)) (dinode_off inum) (loaded A k inum r).
Proof.
  intros Hd. split; cbn [loaded dinode_load i_type i_major i_minor i_nlink i_size i_addrs set_i_valid set_i_addrs set_i_size set_i_nlink set_i_minor set_i_major set_i_type];
    rewrite ?get_le_half, ?i16_signed by (by apply half_range); try done.
  - by rewrite get_le_word.
  - intros j Hj. rewrite (nth_indep _ 0 (get_le 4 (dinode_off inum + 12 + 4 * 0) (a_view A (IBLOCK inum sb)))) by by rewrite length_map, length_seq.
    rewrite (map_nth (fun j => get_le 4 (dinode_off inum + 12 + 4 * j) (a_view A (IBLOCK inum sb))) (seq 0 13) 0%nat), seq_nth by done. apply get_le_word.
Qed.

(** C29 [ilock] keeps the types of the inode table, whatever bytes the disk has.  An entry that has
    not been read gets its fields from the 64 bytes of the inode, at [64 * (inum mod 16)] of block
    [inum / 16] of the inodes: type, major, minor and nlink as 16-bit signed numbers at 0, 2,
    4 and 6, size at 8 and the 13 addresses from 12 on as 32-bit numbers; when the type
    there is 0, and only then, the kernel panics.  An entry that has been read keeps its
    fields.  The entry is then read, typed, with a type that is not 0, and locked by this
    process; nothing else of the table changes. *)
Theorem ilock_typed bs A k ip inum r :
  fs_op bs A k -> table_typed k -> entry ip inum r k -> 1 <= i_ref r -> sk_locked (i_lock r) = 0 ->
  (i_valid r <> 0 -> i_type r <> 0) ->
  let d := a_view A (sb_inodestart sb + inum / 16) in let o := Z.to_nat (64 * (inum mod 16)) in bytes d ->
  if (i_valid r =? 0) && (half d o =? 0) then exists k', ilock ip k = Panic k'
  else exists k' r', ilock ip k = Ok tt k' /\ k_inodes k' = <[ip := r']> (k_inodes k) /\ table_typed k' /\ fs_op bs A k' /\
    in_op me (set_k_inodes (k_inodes k') k) k' /\ entry ip inum r' k' /\ i_ref r' = i_ref r /\
    inode_typed r' /\ i_valid r' <> 0 /\ i_type r' <> 0 /\ i_lock r' = mkSleep 1 (sk_name (i_lock r)) (pid_of me k) /\
    if i_valid r =? 0 then on_disk d o r' else same_dinode r r'.
Proof.
  intros F Tk En Hrf Hlk Hty d o Hb. pose proof (lookup_lt_Some _ _ _ (en_at _ _ _ _ En)) as Hip. pose proof En as [En1 En2 En3 En4 En5].
  destruct (IBLOCK_ok start sb inum L En5) as (EB & _). change IPB with 16 in EB.
  assert (d = a_view A (IBLOCK inum sb)) as Ed by (unfold d; by rewrite EB). assert (o = dinode_off inum) as Eo by (unfold o, dinode_off; f_equal; change IPB with 16; unfold DINODE_SIZE; lia).
  rewrite Ed in Hb. destruct (Z.eqb_spec (i_valid r) 0) as [Hv|Hv]; cbn [andb].
  - pose proof (ilock_ok bs A k ip inum r F En Hrf Hv Hlk) as P. pose proof (loaded_on_disk A k inum r Hb) as OD.
    assert (inode_typed (loaded A k inum r)) as Ty by by apply inode_typed_valid, dinode_load_typed.
    rewrite Ed, Eo. pose proof (half_range (a_view A (IBLOCK inum sb)) (dinode_off inum) Hb) as Hh. rewrite (od_type _ _ _ OD) in P. unfold signed in P.
    destruct (Z.eqb_spec (half (a_view A (IBLOCK inum sb)) (dinode_off inum)) 0) as [E0|E0]; [by rewrite E0 in P|].
    assert (i_type (loaded A k inum r) <> 0) as Hnz. { rewrite (od_type _ _ _ OD). unfold signed. destruct (Z.ltb_spec (half (a_view A (IBLOCK inum sb)) (dinode_off inum)) (2 ^ 15)); lia. }
    rewrite (proj2 (Z.eqb_neq _ _)) in P by (rewrite (od_type _ _ _ OD) in Hnz; exact Hnz).
    destruct P as (k' & E & F' & Ek & O'). exists k', (loaded A k inum r).
    split; [done|]. split; [done|]. split; [by apply (table_typed_insert k k' ip (loaded A k inum r))|].
    split; [done|]. split; [done|]. split; [split; try done; rewrite Ek; by apply list_lookup_insert_eq|]. by repeat (split; [done|]).
  - pose proof (Tk _ _ En2 Hv) as Ty. set (r1 := set_i_lock (mkSleep 1 (sk_name (i_lock r)) (pid_of me k)) r).
    assert (inode_typed r1) as Ty1 by by destruct Ty.
    exists (set_k_inodes (<[ip := r1]> (k_inodes k)) k), r1. split; [by apply (ilock_valid_ok bs A k ip inum r)|]. split; [done|].
    split; [by apply (table_typed_insert k _ ip r1)|]. split; [by apply fs_op_inodes|]. split; [done|].
    split; [split; try done; by apply list_lookup_insert_eq|]. split; [done|].
    split; [done|]. split; [done|]. split; [by apply Hty|done].
Qed.

(** What is written is what is read: after [iupdate] of a well-typed inode, [ilock] of
    another entry of the table for the same inode, not read yet, gives an inode with the
    same fields, unless the type is 0, when it panics.  No other inode of the disk and
    no other block changes. *)
Theorem inode_roundtrip bs A k ip iq inum r rq :
  fs_op bs A k -> entry ip inum r k -> entry iq inum rq k -> inode_typed r -> Z.of_nat (length bs) < LOGSIZE - 1 ->
  1 <= i_ref rq -> i_valid rq = 0 -> sk_locked (i_lock rq) = 0 ->
  exists k1 A1, iupdate ip k = Ok tt k1 /\ fs_op (join bs (IBLOCK inum sb)) A1 k1 /\
    (forall x, x <> IBLOCK inum sb -> a_view A1 x = a_view A x) /\
    (forall j, 0 <= j < sb_ninodes sb -> j <> inum -> forall r0,
      dinode_load (dinode_off j) (a_view A1 (IBLOCK j sb)) r0 = dinode_load (dinode_off j) (a_view A (IBLOCK j sb)) r0) /\
    if i_type r =? 0 then exists k2, ilock iq k1 = Panic k2
    else exists k2 r', ilock iq k1 = Ok tt k2 /\ k_inodes k2 !! iq = Some r' /\ same_dinode r r' /\ i_valid r' = 1 /\
      fs_op (join bs (IBLOCK inum sb)) A1 k2.
Proof.
  intros F Ep Eq Ty Hl Hrf Hv Hlk. destruct (iupdate_ok bs A k ip inum r F Ep Ty Hl) as (k1 & A1 & E1 & F1 & O1 & Hlen & V1).
  pose proof (dinode_off_range inum) as Hoff. rewrite <- Hlen in Hoff.
  exists k1, A1. split; [done|]. split; [done|]. split; [|split].
  - intros x Hx. by rewrite V1, (proj2 (Z.eqb_neq _ _) Hx).
  - intros j Hj Hne r0. rewrite V1. destruct (Z.eqb_spec (IBLOCK j sb) (IBLOCK inum sb)) as [E|]; [|done]. rewrite <- E.
    rewrite E. apply dinode_load_other; [done|done|]. apply dinode_off_apart. intros Em.
    rewrite (proj1 (IBLOCK_ok start sb j L Hj)), (proj1 (IBLOCK_ok start sb inum L (en_range _ _ _ _ Ep))) in E.
    apply Hne. rewrite (Z.div_mod j IPB), (Z.div_mod inum IPB) by done. rewrite Em. f_equal. f_equal. lia.
  - assert (entry iq inum rq k1) as Eq1 by (destruct Eq; split; try done; by rewrite (in_op_inodes me k k1 O1)).
    pose proof (ilock_ok _ A1 k1 iq inum rq F1 Eq1 Hrf Hv Hlk) as P.
    assert (same_dinode r (loaded A1 k1 inum rq)) as Hs.
    { unfold loaded. rewrite V1, Z.eqb_refl. by apply same_dinode_valid, dinode_load_store. }
    rewrite (proj1 Hs) in P. destruct (i_type r =? 0); [done|]. destruct P as (k2 & E2 & F2 & Ek & _).
    exists k2, (loaded A1 k1 inum rq). split; [done|]. split; [|done].
    rewrite Ek. apply list_lookup_insert_eq. eapply lookup_lt_Some, (en_at _ _ _ _ Eq1).
Qed.
End Ops.
End Inode.

(** * The table of inodes ([iget], [iput])

    One entry for every inode in use, with a count of its references. *)

Section Table.
Context {H : Type} `{!Platform H} `{!Symbols} `{!SleepFuel} `{!DiskDriver H} `{!DiskLaws H}.
Implicit Types k : kernel H.

(** An entry of the inode, and an empty one. *)
Definition names (dev inum : Z) (r : inode) : Prop := 0 < i_ref r /\ i_dev r = dev /\ i_inum r = inum.
Definition empty_entry (r : inode) : Prop := i_ref r = 0.
#[global] Instance names_dec dev inum r : Decision (names dev inum r) := _.
#[global] Instance empty_dec r : Decision (empty_entry r) := _.

(** No inode has two entries. *)
Definition unique (l : list inode) : Prop :=
  forall i j ri rj, l !! i = Some ri -> l !! j = Some rj -> 0 < i_ref ri -> names (i_dev ri) (i_inum ri) rj -> i = j.

Definition claimed (dev inum : Z) (r : inode) : inode := set_i_valid 0 (set_i_ref 1 (set_i_inum inum (set_i_dev dev r))).
Definition more_refs (r : inode) : inode := set_i_ref (i32 (i_ref r + 1)) r.
Definition less_refs (r : inode) : inode := set_i_ref (i32 (i_ref r - 1)) r.

(** The entry that [iget] takes, and what it makes of it. *)
Definition pick (dev inum : Z) (l : list inode) : option (nat * inode) :=
  match list_find (names dev inum) l with
  | Some (j, r) => Some (j, more_refs r)
  | None => match list_find empty_entry l with Some (j, r) => Some (j, claimed dev inum r) | None => None end
  end.

Lemma iget_scan_ok dev inum k n : forall i empty,
  (i + n)%nat = length (k_inodes k) ->
  iget_scan n i dev inum empty k = Ok (match list_find (names dev inum) (skipn i (k_inodes k)) with
    | Some (j, _) => inl (i + j)%nat
    | None => inr (match empty with Some e => Some e | None => (fun p => (i + fst p)%nat) <$> list_find empty_entry (skipn i (k_inodes k)) end)
    end) k.
Proof.
  induction n as [|n IH]; intros i empty Hi; cbn [iget_scan].
  - rewrite (drop_ge (k_inodes k)) by lia. cbn. by destruct empty.
  - destruct (lookup_lt_is_Some_2 (k_inodes k) i ltac:(lia)) as [r Er]. rewrite (bind_Ok _ _ _ _ _ (get_inode_ok _ _ _ Er)).
    rewrite (drop_S _ _ _ Er). cbn [list_find]. destruct (decide (names dev inum r)) as [(Hr & Hd & Hn)|Hne].
    + rewrite Z.gtb_ltb, (proj2 (Z.ltb_lt _ _) Hr), Hd, Hn, !Z.eqb_refl. cbn. by rewrite Nat.add_0_r.
    + assert ((i_ref r >? 0) && (i_dev r =? dev) && (i_inum r =? inum) = false) as ->.
      { rewrite Z.gtb_ltb. destruct (Z.ltb_spec 0 (i_ref r)), (Z.eqb_spec (i_dev r) dev), (Z.eqb_spec (i_inum r) inum); try done.
        exfalso. by apply Hne. }
      rewrite IH by lia. f_equal. destruct (list_find (names dev inum) _) as [[j x]|]; cbn; [f_equal; lia|]. f_equal.
      destruct empty as [e|]; cbn; [done|]. unfold empty_entry at 2. destruct (Z.eqb_spec (i_ref r) 0) as [E0|E0].
      * rewrite decide_True by done. cbn. f_equal. lia.
      * rewrite decide_False by done. destruct (list_find empty_entry _) as [[j x]|]; cbn; [f_equal; lia|done].
Qed.

Lemma set_inodes_twice (l l' : list inode) k : set_k_inodes l (set_k_inodes l' k) = set_k_inodes l k.
Proof. done. Qed.

Lemma upd_inode_at ip f r l k :
  (ip < length l)%nat -> k_inodes k = <[ip := r]> l -> upd_inode ip f k = Ok tt (set_k_inodes (<[ip := f r]> l) k).
Proof.
  intros Hip E. rewrite (upd_inode_ok ip f r); [|by rewrite E, list_lookup_insert_eq]. by rewrite E, list_insert_insert_eq.
Qed.

Section Iget.
Context (c : cpu) (me : nat) (dev inum : Z) (k : kernel H).
Context (Q : quiet c me k) (Hlen : length (k_inodes k) = Z.to_nat NINODE).

Lemma iget_ok :
  match pick dev inum (k_inodes k) with
  | Some (j, r) => iget dev inum k = Ok j (set_k_inodes (<[j := r]> (k_inodes k)) k)
  | None => exists k', iget dev inum k = Panic k'
  end.
Proof.
  destruct (q_free _ _ _ Q LItable I) as [nm El]. unfold iget, pick.
  rewrite (bind_Ok _ _ _ _ _ (acquire_ok c nm _ k (q_cpu _ _ _ Q) El)).
  rewrite (bind_Ok _ _ _ _ _ (iget_scan_ok dev inum (enter c nm LItable k) (Z.to_nat NINODE) 0 None ltac:(cbn; lia))).
  change (k_inodes (enter c nm LItable k)) with (k_inodes k). rewrite drop_0.
  destruct (list_find (names dev inum) (k_inodes k)) as [[j r]|] eqn:E1; cbn [Nat.add].
  - apply list_find_Some in E1 as (Ej & _ & _). assert (k_inodes (enter c nm LItable k) !! j = Some r) as Ej' by done.
    rewrite (bind_Ok _ _ _ _ _ (upd_inode_ok _ _ _ _ Ej')). set (k1 := set_k_inodes _ k).
    rewrite (bind_Ok (release LItable) _ tt _ k1); [done|]. apply (release_ok c nm LItable k1); [apply Q|done].
  - destruct (list_find empty_entry (k_inodes k)) as [[j r]|] eqn:E2; cbn [fmap option_fmap option_map fst]; [|by eexists].
    apply list_find_Some in E2 as (Ej & _ & _). pose proof (lookup_lt_Some _ _ _ Ej) as Hj.
    assert (k_inodes (enter c nm LItable k) !! j = Some r) as Ej' by done.
    rewrite (bind_Ok _ _ _ _ _ (upd_inode_ok _ _ _ _ Ej')).
    do 3 erewrite (bind_Ok (upd_inode _ _)) by (eapply (upd_inode_at _ _ _ (k_inodes k)); [done|reflexivity]).
    set (k1 := set_k_inodes (<[j := claimed dev inum r]> (k_inodes k)) k).
    rewrite (bind_Ok (release LItable) _ tt _ k1); [done|]. apply (release_ok c nm LItable k1); [apply Q|done].
Qed.

(** [iput] while there are other references, or nobody has read the inode. *)
Lemma iput_ok j r :
  k_inodes k !! j = Some r -> i_ref r <> 1 \/ i_valid r = 0 \/ i_nlink r <> 0 ->
  iput j k = Ok tt (set_k_inodes (<[j := less_refs r]> (k_inodes k)) k).
Proof.
  intros Ej Hr. destruct (q_free _ _ _ Q LItable I) as [nm El]. unfold iput.
  rewrite (bind_Ok _ _ _ _ _ (acquire_ok c nm _ k (q_cpu _ _ _ Q) El)).
  assert (k_inodes (enter c nm LItable k) !! j = Some r) as Ej' by done. rewrite (bind_Ok _ _ _ _ _ (get_inode_ok _ _ _ Ej')).
  assert ((i_ref r =? 1) && negb (i_valid r =? 0) && (i_nlink r =? 0) = false) as ->.
  { destruct (Z.eqb_spec (i_ref r) 1), (Z.eqb_spec (i_valid r) 0), (Z.eqb_spec (i_nlink r) 0); try done. naive_solver. }
  erewrite bind_Ok by reflexivity. rewrite (bind_Ok _ _ _ _ _ (upd_inode_ok _ _ _ _ Ej')).
  apply (release_ok c nm LItable (set_k_inodes (<[j := less_refs r]> (k_inodes k)) k)); [apply Q|done].
Qed.
End Iget.

(** What [iget] returns is an entry of the inode, referenced once more. *)
Lemma pick_entry dev inum l j r :
  (forall i x, l !! i = Some x -> 0 <= i_ref x < 2 ^ 31 - 1) -> pick dev inum l = Some (j, r) ->
  names dev inum r /\ exists r0, l !! j = Some r0 /\ i_ref r = i_ref r0 + 1 /\ (0 < i_ref r0 -> r = set_i_ref (i_ref r0 + 1) r0).
Proof.
  intros Hrefs. unfold pick. destruct (list_find (names dev inum) l) as [[j' x]|] eqn:E1.
  - apply list_find_Some in E1 as (Ej & (Hx & Hd & Hn) & _). intros [= <- <-]. pose proof (Hrefs _ _ Ej).
    assert (i32 (i_ref x + 1) = i_ref x + 1) as E32.
    { rewrite <- (Z.mod_small (i_ref x + 1) (2 ^ 32)) at 1 by lia. apply i32_small. lia. }
    unfold more_refs. rewrite E32. split; [split; [cbn; lia|done]|]. by exists x.
  - destruct (list_find empty_entry l) as [[j' x]|] eqn:E2; [|done]. apply list_find_Some in E2 as (Ej & Hx & _).
    intros [= <- <-]. split; [done|]. exists x. rewrite Hx. split; [done|]. split; [done|]. lia.
Qed.

(** Another reference is left, or nobody has read it. *)
Lemma pick_kept dev inum l j r :
  (forall i x, l !! i = Some x -> 0 <= i_ref x < 2 ^ 31 - 1) -> pick dev inum l = Some (j, r) -> i_ref r <> 1 \/ i_valid r = 0.
Proof.
  intros Hrefs E. destruct (pick_entry dev inum l j r Hrefs E) as (_ & r0 & Ej & Hr & Hs). pose proof (Hrefs _ _ Ej).
  destruct (decide (0 < i_ref r0)); [left; lia|right]. unfold pick in E.
  destruct (list_find (names dev inum) l) as [[j' x]|] eqn:E1.
  - injection E as <- <-. apply list_find_Some in E1 as (Ej' & (Hx & _) & _). rewrite Ej in Ej'. injection Ej' as ->. lia.
  - destruct (list_find empty_entry l) as [[j' x]|]; [|done]. by injection E as <- <-.
Qed.

Lemma pick_unique dev inum l j r :
  (forall i x, l !! i = Some x -> 0 <= i_ref x < 2 ^ 31 - 1) -> unique l -> pick dev inum l = Some (j, r) -> unique (<[j := r]> l).
Proof.
  intros Hrefs U E. destruct (pick_entry dev inum l j r Hrefs E) as ((Hr & Hd & Hn) & r0 & Ej & _ & _).
  pose proof (lookup_lt_Some _ _ _ Ej) as Hj.
  assert (forall i x, l !! i = Some x -> names dev inum x -> i = j) as Hone.
  { intros i x Ei Hx. unfold pick in E. destruct (list_find (names dev inum) l) as [[j' y]|] eqn:E1.
    - injection E as <- _. apply list_find_Some in E1 as (Ej' & (Hy & Hyd & Hyn) & _). destruct Hx as (Hx & Hxd & Hxn).
      symmetry. apply (U j' i y x); try done. split; [done|]. by rewrite Hyd, Hyn.
    - apply list_find_None in E1. exfalso. apply (proj1 (list.Forall_forall _ _) E1 x); [by eapply list_elem_of_lookup_2|done]. }
  intros a b ra rb Ea Eb Ha (Hb & Hbd & Hbn).
  apply list_lookup_insert_Some in Ea as [(-> & <- & _)|[Hna Ea]], Eb as [(-> & <- & _)|[Hnb Eb]]; try done.
  - symmetry. apply (Hone b rb Eb). split; [done|]. by rewrite Hbd, Hbn.
  - apply (Hone a ra Ea). split; [done|]. by rewrite <- Hbd, <- Hbn.
  - by apply (U a b ra rb).
Qed.

(** C28 [iget] keeps one entry for every inode in use.  It returns an entry of the inode it
    is asked for, with one reference more, changes no other entry, and no inode gets a
    second one; a table without an empty entry, in which the inode has none, panics. *)
Theorem iget_spec c me dev inum k :
  quiet c me k -> length (k_inodes k) = Z.to_nat NINODE ->
  (forall i r, k_inodes k !! i = Some r -> 0 <= i_ref r < 2 ^ 31 - 1) -> unique (k_inodes k) ->
  (exists j r0 r, iget dev inum k = Ok j (set_k_inodes (<[j := r]> (k_inodes k)) k) /\ k_inodes k !! j = Some r0 /\
     names dev inum r /\ i_ref r = i_ref r0 + 1 /\ (0 < i_ref r0 -> r = set_i_ref (i_ref r0 + 1) r0) /\ unique (<[j := r]> (k_inodes k))) \/
  ((forall i r, k_inodes k !! i = Some r -> 0 < i_ref r /\ ~ names dev inum r) /\ exists k', iget dev inum k = Panic k').
Proof.
  intros Q Hlen Hrefs U. pose proof (iget_ok c me dev inum k Q Hlen) as E. destruct (pick dev inum (k_inodes k)) as [[j r]|] eqn:Ep.
  - left. destruct (pick_entry dev inum _ j r Hrefs Ep) as (Hn & r0 & Ej & Hr & Hs). exists j, r0, r.
    repeat (split; [done|]). by apply (pick_unique dev inum _ j r).
  - right. split; [|done]. intros i r Ei. unfold pick in Ep. destruct (list_find (names dev inum) _) as [[]|] eqn:E1; [done|].
    destruct (list_find empty_entry _) as [[]|] eqn:E2; [done|]. apply list_find_None in E1, E2.
    rewrite list.Forall_forall in E1, E2. pose proof (list_elem_of_lookup_2 _ _ _ Ei) as Hin. pose proof (E2 r Hin) as He. unfold empty_entry in He.
    pose proof (Hrefs i r Ei). split; [lia|by apply E1].
Qed.
End Table.
