(* ===== verification/KData.v ===== *)
(** The blocks of a file (fs.c: [bmap]): a file is a map from block numbers to blocks of the
    disk, and [bmap] extends it with fresh blocks inside a transaction. *)
From stdpp Require Import base gmap sets list numbers strings tactics.
From S2P Require Import Prelude Mem KMachine KSched KBytes KBio KBioProofs KLog KCrash KLogProofs KTxn KFs KBss KBlocks KInode.

(** * The map of a file *)

(** The indirect block, and the disk block of block [bn] of the file; 0 is none. *)
Definition ind_of (r : inode) : Z := nth (Z.to_nat NDIRECT) (i_addrs r) 0.
Definition block_of (V : disk) (r : inode) (bn : Z) : Z :=
  if bn <? NDIRECT then nth (Z.to_nat bn) (i_addrs r) 0
  else if ind_of r =? 0 then 0 else addr_at (V (ind_of r)) (bn - NDIRECT).

(** All blocks of the file; the indirect block has number -1. *)
Definition slot (V : disk) (r : inode) (i : Z) : Z := if i =? -1 then ind_of r else block_of V r i.
Definition is_slot (i : Z) : Prop := -1 <= i < MAXFILE.

(** Byte [off] of the file. *)
Definition file_byte (V : disk) (r : inode) (off : Z) : Z :=
  nth (Z.to_nat (off mod BSIZE)) (V (block_of V r (off / BSIZE))) 0.

Lemma slot_block V r i : 0 <= i -> slot V r i = block_of V r i.
Proof. intros Hi. unfold slot. by destruct (Z.eqb_spec i (-1)); [lia|]. Qed.

(** The blocks depend on the addresses and on the indirect block only. *)
Lemma block_of_ext V V' r bn : (ind_of r <> 0 -> V' (ind_of r) = V (ind_of r)) -> block_of V' r bn = block_of V r bn.
Proof. intros E. unfold block_of. destruct (bn <? NDIRECT); [done|]. destruct (Z.eqb_spec (ind_of r) 0); [done|]. by rewrite E. Qed.
Lemma slot_ext V V' r i : (ind_of r <> 0 -> V' (ind_of r) = V (ind_of r)) -> slot V' r i = slot V r i.
Proof. intros E. unfold slot. destruct (i =? -1); [done|]. by apply block_of_ext. Qed.

Lemma addr_at_put d j bn a :
  0 <= j < NINDIRECT -> 0 <= bn < NINDIRECT -> is_u32 a -> length d = Z.to_nat BSIZE ->
  addr_at (put_le 4 (Z.to_nat (4 * bn)) a d) j = if j =? bn then a else addr_at d j.
Proof.
  unfold addr_at, NINDIRECT. change (BSIZE / 4) with 256. intros Hj Hb Ha Hl. change (Z.to_nat BSIZE) with 1024%nat in Hl.
  destruct (Z.eqb_spec j bn) as [->|Hne].
  - rewrite get_put_same by lia. by apply u32_small.
  - apply get_put_other; lia.
Qed.

Lemma addr_at_zeros j : addr_at (replicate (Z.to_nat BSIZE) 0) j = 0.
Proof.
  unfold addr_at, get_le, slice. rewrite drop_replicate, take_replicate. generalize (4 `min` (Z.to_nat BSIZE - Z.to_nat (4 * j)))%nat.
  intros n. induction n as [|n IH]; [done|]. cbn. by rewrite IH.
Qed.

Lemma addr_at_u32 d j : bytes d -> is_u32 (addr_at d j).
Proof. apply (get_le_range 4). Qed.

(** * Well-formed files *)

(** The blocks depend on the addresses of the inode only. *)
Lemma slot_addrs V r r' n : i_addrs r' = i_addrs r -> slot V r' n = slot V r n.
Proof. intros E. unfold slot, block_of, ind_of. by rewrite E. Qed.
Lemma file_byte_addrs V r r' p : i_addrs r' = i_addrs r -> file_byte V r' p = file_byte V r p.
Proof. intros E. unfold file_byte, block_of, ind_of. by rewrite E. Qed.

Section Data.
Context {H : Type} `{!Platform H} `{!SleepFuel} `{!DiskDriver H} `{!DiskLaws H}.
Implicit Types k : kernel H.
Context (start : Z) (sb : superblock).

(** A block for data: not of the log, the bitmap or the inodes. *)
Record data_block (x : Z) : Prop := {
  db_range : 0 < x < sb_size sb;
  db_disk : x < dk_size;
  db_log : ~ in_log start x;
  db_bitmap : forall b, 0 <= b < sb_size sb -> x <> BBLOCK b sb;
  db_inode : forall j, 0 <= j < sb_ninodes sb -> x <> IBLOCK j sb
}.

(** The blocks of a file are data blocks in use, each with one place in the file. *)
Record file_ok (V : disk) (r : inode) : Prop := {
  fk_data : forall i, is_slot i -> slot V r i <> 0 -> data_block (slot V r i) /\ in_use sb V (slot V r i) = true;
  fk_inj : forall i j, is_slot i -> is_slot j -> slot V r i <> 0 -> slot V r i = slot V r j -> i = j
}.

(** What is free is for data. *)
Definition free_ok (V : disk) : Prop := forall b, 0 <= b < sb_size sb -> in_use sb V b = false -> data_block b.

Lemma free_ok_data V : free_ok V -> free_data start sb V.
Proof. intros F b Hb Hu. destruct (F b Hb Hu). split; [done|]. split; [done|]. intros x Hx. by apply db_bitmap0. Qed.

(** [n] blocks are free. *)
Definition room (V : disk) (n : nat) : Prop :=
  exists l, NoDup l /\ length l = n /\ forall b, b ∈ l -> 0 <= b < sb_size sb /\ in_use sb V b = false.

Lemma room_mono V V' n :
  room V n -> (forall b, 0 <= b < sb_size sb -> in_use sb V b = false -> in_use sb V' b = false) -> room V' n.
Proof. intros (l & Hnd & Hl & Hb) E. exists l. split_and!; try done. intros b Hin. destruct (Hb b Hin). split; [done|]. by apply E. Qed.
Lemma room_le V n m : room V n -> (m <= n)%nat -> room V m.
Proof.
  intros (l & Hnd & Hl & Hb) Hm. exists (take m l). split_and!; [by eapply sublist_NoDup, sublist_take|rewrite length_take; lia|].
  intros b Hin. apply Hb. rewrite <- (take_drop m l), elem_of_app. by left.
Qed.
Lemma room_free V n : room V (S n) -> exists b, 0 <= b < sb_size sb /\ in_use sb V b = false.
Proof. intros ([|b l] & _ & Hl & Hb); [done|]. exists b. apply Hb. by left. Qed.

(** One of them is taken. *)
Lemma room_take V V' n b :
  room V (S n) -> (forall x, 0 <= x < sb_size sb -> in_use sb V' x = (x =? b) || in_use sb V x) -> room V' n.
Proof.
  intros (l & Hnd & Hl & Hb) E.
  assert (room V' (length (List.filter (fun x => negb (x =? b)) l))) as R.
  { exists (List.filter (fun x => negb (x =? b)) l). split; [|split; [done|]].
    - apply NoDup_ListNoDup, List.NoDup_filter, NoDup_ListNoDup, Hnd.
    - intros x [Hx Hne]%list_elem_of_In%filter_In. apply list_elem_of_In in Hx. destruct (Hb x Hx) as [Hr Hu].
      split; [done|]. rewrite E, Hu by done. by destruct (x =? b). }
  apply (room_le _ _ _ R). clear R E Hb. revert n Hl.
  induction Hnd as [|x l Hx Hnd IH]; intros n Hl; [done|]. injection Hl as Hl. cbn [List.filter].
  destruct (Z.eqb_spec x b) as [->|Hne]; cbn [negb].
  - rewrite List.forallb_filter_id; [lia|]. apply forallb_forall. intros y Hy. apply list_elem_of_In in Hy.
    destruct (Z.eqb_spec y b) as [->|]; done.
  - cbn [length]. destruct n as [|n]; [lia|]. specialize (IH n Hl). lia.
Qed.

(** * Growth of a file

    Blocks with a number in [N] may be added, from free blocks, and those with a number in
    [W] written. *)
Definition foreign (W : Z -> Prop) (V : disk) (r : inode) (x : Z) : Prop :=
  (forall b, 0 <= b < sb_size sb -> x <> BBLOCK b sb) /\ (0 <= x < sb_size sb -> in_use sb V x = true) /\
  forall i, is_slot i -> (0 <= i -> W i) -> slot V r i <> 0 -> x <> slot V r i.

Record ext (N W : Z -> Prop) (V : disk) (r : inode) (V' : disk) (r' : inode) : Prop := {
  ex_same : r' = set_i_addrs (i_addrs r') r;
  ex_keep : forall i, is_slot i -> slot V r i <> 0 -> slot V' r' i = slot V r i;
  ex_out : forall i, 0 <= i < MAXFILE -> ~ N i -> slot V' r' i = slot V r i;
  ex_new : forall i, is_slot i -> slot V r i = 0 -> slot V' r' i <> 0 ->
    0 <= slot V' r' i < sb_size sb /\ in_use sb V (slot V' r' i) = false;
  ex_view : forall x, foreign W V r x -> V' x = V x;
  ex_used : forall x, 0 <= x < sb_size sb -> in_use sb V x = true -> in_use sb V' x = true
}.

Lemma ext_refl N W V r : ext N W V r V r.
Proof. split; try done. by destruct r. Qed.

Lemma ext_mono (N N' W W' : Z -> Prop) V r V' r' :
  (forall i, N i -> N' i) -> (forall i, W i -> W' i) -> ext N W V r V' r' -> ext N' W' V r V' r'.
Proof.
  intros HN HW []. split; try done; [intros i Hi HnN; apply ex_out0; naive_solver|].
  intros x (H1 & H2 & H3). apply ex_view0. split_and!; try done. intros i Hi Hw. apply H3; [done|]. auto.
Qed.

Lemma ext_foreign N W V r V' r' x : ext N W V r V' r' -> foreign W V r x -> foreign W V' r' x.
Proof.
  intros [S K O Nw E U] (H1 & H2 & H3). split_and!; [done|by intros Hx; apply U; [|apply H2]|].
  intros i Hi Hw Hnz. destruct (Z.eqb_spec (slot V r i) 0) as [Hz|Hz].
  - destruct (Nw i Hi Hz Hnz) as [Hr Hf]. intros ->. by rewrite (H2 Hr) in Hf.
  - rewrite (K i Hi Hz). by apply H3.
Qed.

Lemma ext_trans N W V1 r1 V2 r2 V3 r3 : ext N W V1 r1 V2 r2 -> ext N W V2 r2 V3 r3 -> ext N W V1 r1 V3 r3.
Proof.
  intros X1 X2. pose proof X1 as [S1 K1 O1 N1 E1 U1]. pose proof X2 as [S2 K2 O2 N2 E2 U2]. split.
  - rewrite S2, S1. by destruct r1.
  - intros i Hi Hz. rewrite <- (K1 i Hi Hz). apply K2; [done|]. by rewrite (K1 i Hi Hz).
  - intros i Hi HW. by rewrite O2, O1.
  - intros i Hi Hz Hnz. destruct (Z.eqb_spec (slot V2 r2 i) 0) as [Hz2|Hz2].
    + destruct (N2 i Hi Hz2 Hnz) as [Hr Hf]. split; [done|]. destruct (in_use sb V1 _) eqn:E; [|done].
      by rewrite (U1 _ Hr E) in Hf.
    + rewrite (K2 i Hi Hz2) in *. by apply N1.
  - intros x Hx. rewrite E2 by by apply (ext_foreign N W V1 r1). by apply E1.
  - intros x Hx Hu. by apply U2, U1.
Qed.

(** ** A block is added *)

Section Add.
Context (L : bitmap_layout start sb) (V V' : disk) (r r' : inode) (j b : Z).
Context (Hok : file_ok V r) (Hfree : free_ok V) (Hj : is_slot j) (Hz : slot V r j = 0).
Context (Hb : 0 <= b < sb_size sb) (Hfb : in_use sb V b = false).
Context (Hused : forall x, 0 <= x < sb_size sb -> in_use sb V' x = (x =? b) || in_use sb V x).
Context (Hview : forall x, x <> b -> x <> BBLOCK b sb -> (ind_of r <> 0 -> x <> ind_of r) -> V' x = V x).
Context (Hsame : r' = set_i_addrs (i_addrs r') r).
Context (Hslots : forall i, is_slot i -> slot V' r' i = if i =? j then b else slot V r i).

Lemma fresh_data : data_block b.
Proof. by apply Hfree. Qed.

Lemma add_ok : file_ok V' r'.
Proof.
  assert (forall i, is_slot i -> slot V r i <> 0 -> slot V r i <> b) as Hne.
  { intros i Hi Hs E. destruct (fk_data _ _ Hok i Hi Hs) as [_ Hu]. by rewrite E, Hfb in Hu. }
  split.
  - intros i Hi. rewrite Hslots by done. destruct (Z.eqb_spec i j) as [->|Hij].
    + intros _. split; [apply fresh_data|]. by rewrite Hused, Z.eqb_refl by done.
    + intros Hs. destruct (fk_data _ _ Hok i Hi Hs) as [Hd Hu]. split; [done|]. pose proof (db_range _ Hd).
      rewrite Hused, Hu by lia. apply orb_true_r.
  - intros i i' Hi Hi'. rewrite !Hslots by done. destruct (Z.eqb_spec i j) as [->|Hij], (Z.eqb_spec i' j) as [->|Hij']; [done|..].
    + intros Hb0 E. exfalso. apply (Hne i' Hi'); [by rewrite <- E|done].
    + intros Hs E. exfalso. by apply (Hne i Hi Hs).
    + by apply (fk_inj _ _ Hok).
Qed.

Lemma add_free : free_ok V'.
Proof. intros x Hx. rewrite Hused by done. intros [_ Hu]%orb_false_iff. by apply Hfree. Qed.

Lemma add_ext (N W : Z -> Prop) : (0 <= j -> N j) -> ext N W V r V' r'.
Proof.
  intros HN. split; try done.
  - intros i Hi Hs. rewrite Hslots by done. by destruct (Z.eqb_spec i j) as [->|].
  - intros i Hi HnN. rewrite Hslots by (unfold is_slot; lia). destruct (Z.eqb_spec i j) as [->|]; [|done]. exfalso. apply HnN, HN. lia.
  - intros i Hi Hs. rewrite Hslots by done. by destruct (Z.eqb_spec i j) as [->|].
  - intros x (H1 & H2 & H3). apply Hview; [|by apply H1|].
    + intros ->. by rewrite (H2 Hb) in Hfb.
    + intros Hi. apply (H3 (-1)); [unfold is_slot, MAXFILE, NDIRECT, NINDIRECT; change (BSIZE / 4) with 256; lia|lia|done].
  - intros x Hx Hu. rewrite Hused, Hu by done. apply orb_true_r.
Qed.
End Add.
End Data.

(** * bmap *)

Section Bmap.
Context {H : Type} `{!Platform H} `{!SleepFuel} `{!DiskDriver H} `{!DiskLaws H}.
Implicit Types k : kernel H.
Context (c : cpu) (me : nat) (dev start : Z) (sb : superblock).
Context (Hdev : is_u32 dev) (LB : bitmap_layout start sb) (Hone : sb_size sb <= BPB).
Notation fs_op := (fs_ops c me dev start sb ∅).

(** The bitmap is one block, as [mkfs] makes it. *)
Lemma BBLOCK_one b : 0 <= b < sb_size sb -> BBLOCK b sb = sb_bmapstart sb.
Proof. intros Hb. rewrite (BBLOCK_ok start sb LB) by done. rewrite Z.div_small by lia. lia. Qed.

(** The blocks of the transaction, with the bitmap and the indirect block of the file. *)
Definition weight (bs : list Z) (r : inode) : Z :=
  Z.of_nat (length bs) + (if decide (sb_bmapstart sb ∈ bs) then 0 else 1) +
  (if decide (ind_of r ∈ bs /\ ind_of r <> 0) then 0 else 1).

Lemma elem_of_join bs b x : x ∈ join bs b <-> x ∈ bs \/ x = b.
Proof. unfold join. destruct (decide (b ∈ bs)); [naive_solver|]. by rewrite elem_of_app, list_elem_of_singleton. Qed.
Lemma join_len bs b : Z.of_nat (length (join bs b)) = Z.of_nat (length bs) + (if decide (b ∈ bs) then 0 else 1).
Proof. unfold join. destruct (decide (b ∈ bs)); rewrite ?length_app; cbn; lia. Qed.

Ltac weigh := unfold weight; rewrite ?join_len; repeat destruct (decide _); rewrite ?elem_of_join in *; try lia; naive_solver lia.

Lemma weight_ge bs r : Z.of_nat (length bs) <= weight bs r.
Proof. unfold weight. repeat destruct (decide _); lia. Qed.
Lemma weight_le bs r : weight bs r <= Z.of_nat (length bs) + 2.
Proof. unfold weight. repeat destruct (decide _); lia. Qed.
Lemma weight_join bs r x : weight (join bs x) r <= weight bs r + 1.
Proof. weigh. Qed.
Lemma weight_bitmap bs r : weight (join bs (sb_bmapstart sb)) r <= weight bs r.
Proof. weigh. Qed.
Lemma weight_ind bs r : ind_of r <> 0 -> weight (join bs (ind_of r)) r <= weight bs r.
Proof. intros. weigh. Qed.
Lemma weight_new_ind bs r r' : ind_of r = 0 -> ind_of r' <> 0 -> weight (join bs (ind_of r')) r' <= weight bs r.
Proof. intros. weigh. Qed.
Lemma weight_same bs r r' : ind_of r' = ind_of r -> weight bs r' = weight bs r.
Proof. unfold weight. by intros ->. Qed.

(** ** Between two blocks of a file *)

(** A transaction, and the entry [ip] of the table, with what it has of the file. *)
Record file_op (bs : list Z) (A : acache) k (ip : nat) (r : inode) : Prop := {
  fp_op : fs_op bs A k;
  fp_at : k_inodes k !! ip = Some r;
  fp_dev : i_dev r = dev;
  fp_typed : inode_typed r;
  fp_file : file_ok start sb (a_view A) r;
  fp_free : free_ok start sb (a_view A)
}.

(** What happens to the file when blocks are added and written. *)
Record grew (N W : Z -> Prop) (ip : nat) (A : acache) (r : inode) k (A' : acache) (r' : inode) k' : Prop := {
  gr_ext : ext sb N W (a_view A) r (a_view A') r';
  gr_call : in_op me (set_k_inodes (k_inodes k') k) k';
  gr_table : k_inodes k' = <[ip := r']> (k_inodes k)
}.

Lemma in_op_table k k' k'' l :
  in_op me (set_k_inodes (k_inodes k') k) k' -> in_op me (set_k_inodes l k') k'' -> k_inodes k'' = l -> in_op me (set_k_inodes l k) k''.
Proof. intros O1 O2 E. etrans; [|exact O2]. apply (in_op_set_inodes me _ _ l) in O1. by destruct k. Qed.

Lemma grew_trans N W ip A1 r1 k1 A2 r2 k2 A3 r3 k3 :
  grew N W ip A1 r1 k1 A2 r2 k2 -> grew N W ip A2 r2 k2 A3 r3 k3 -> grew N W ip A1 r1 k1 A3 r3 k3.
Proof.
  intros [X1 O1 T1] [X2 O2 T2]. split; [by eapply ext_trans| |by rewrite T2, T1, list_insert_insert_eq].
  by eapply in_op_table.
Qed.

Lemma grew_mono (N N' W W' : Z -> Prop) ip A r k A' r' k' :
  (forall i, N i -> N' i) -> (forall i, W i -> W' i) -> grew N W ip A r k A' r' k' -> grew N' W' ip A r k A' r' k'.
Proof. intros HN HW []. split; try done. by eapply ext_mono. Qed.

Lemma grew_call N W ip A r k A' k' :
  k_inodes k !! ip = Some r -> in_op me k k' -> ext sb N W (a_view A) r (a_view A') r -> grew N W ip A r k A' r k'.
Proof.
  intros Hat O X. pose proof (in_op_inodes me k k' O) as E. split; [done| |by rewrite E, list_insert_id].
  rewrite E. by destruct k.
Qed.

Lemma nth_addr r n : inode_typed r -> (n < 13)%nat -> i_addrs r !! n = Some (nth n (i_addrs r) 0).
Proof. intros T Hn. destruct (lookup_lt_is_Some_2 (i_addrs r) n) as [a Ea]; [by rewrite (it_count _ T)|]. by rewrite nth_lookup, Ea. Qed.

Lemma inode_typed_addr r n a : inode_typed r -> is_u32 a -> inode_typed (set_i_addrs (<[n := a]> (i_addrs r)) r).
Proof. intros [] Ha. split; try done; [by apply Forall_insert|by cbn; rewrite length_insert]. Qed.

(** ** An address of the inode is filled *)

Section Addr.
Context (bs : list Z) (A : acache) (k : kernel H) (ip : nat) (r : inode) (n : nat) (j : Z).
Context (F : file_op bs A k ip r) (Hn : (n < 13)%nat) (Hj : j = -1 /\ n = 12%nat \/ 0 <= j < NDIRECT /\ n = Z.to_nat j).
Context (Hz : slot (a_view A) r j = 0).

Lemma MAXFILE_val : MAXFILE = 268.
Proof. done. Qed.

Lemma addr_slots (V' : disk) b :
  in_use sb (a_view A) b = false -> 0 <= b < sb_size sb -> b <> 0 -> V' b = replicate (Z.to_nat BSIZE) 0 ->
  (forall x, x <> b -> x <> BBLOCK b sb -> V' x = a_view A x) ->
  forall i, is_slot i -> slot V' (set_i_addrs (<[n := b]> (i_addrs r)) r) i = if i =? j then b else slot (a_view A) r i.
Proof.
  intros Hu Hb Hb0 HVb HV i Hi. pose proof (it_count _ (fp_typed _ _ _ _ _ F)) as Hc. unfold is_slot in Hi. rewrite MAXFILE_val in Hi.
  assert (forall m, nth m (<[n := b]> (i_addrs r)) 0 = if decide (m = n) then b else nth m (i_addrs r) 0) as Hnth
    by (intros m; apply nth_insert; lia).
  unfold slot, block_of, ind_of in *. cbn [i_addrs set_i_addrs]. change (Z.to_nat NDIRECT) with 12%nat in *. change NDIRECT with 12 in *.
  rewrite !Hnth. destruct Hj as [[-> ->]|[Hj' ->]]; cbn in Hz.
  - destruct (Z.eqb_spec i (-1)) as [->|Hi1]; [done|]. destruct (Z.ltb_spec i 12) as [Hlt|Hge].
    + by rewrite decide_False by lia.
    + rewrite decide_True, Hz by done. cbn. destruct (Z.eqb_spec b 0); [done|]. rewrite HVb. apply addr_at_zeros.
  - rewrite (decide_False (P := 12%nat = _)) by lia. destruct (Z.eqb_spec i (-1)) as [->|Hi1]; [by destruct (Z.eqb_spec (-1) j); [lia|]|].
    destruct (Z.ltb_spec i 12) as [Hlt|Hge].
    + destruct (Z.eqb_spec i j) as [->|Hij]; [by rewrite decide_True|]. by rewrite decide_False by lia.
    + destruct (Z.eqb_spec i j); [lia|]. destruct (Z.eqb_spec (nth 12 (i_addrs r) 0) 0) as [|Hi0]; [done|].
      destruct (fk_data _ _ _ _ (fp_file _ _ _ _ _ F) (-1)) as [Hd Hui]; [unfold is_slot; rewrite MAXFILE_val; lia|done|].
      change (slot (a_view A) r (-1)) with (nth 12 (i_addrs r) 0) in *. rewrite HV; [done| |by apply (db_bitmap _ _ _ Hd)].
      intros E. by rewrite E, Hu in Hui.
Qed.

Lemma alloc_addr (N W : Z -> Prop) m :
  Z.of_nat (length bs) < LOGSIZE - 2 -> room sb (a_view A) (S m) -> (0 <= j -> N j) ->
  exists b k' A' r', (let! addr := balloc dev in
      upd_inode ip (fun r => set_i_addrs (<[n := addr]> (i_addrs r)) r) ;; ret addr) k = Ok b k' /\
    let bs' := join (join bs (sb_bmapstart sb)) b in
    file_op bs' A' k' ip r' /\ grew N W ip A r k A' r' k' /\ room sb (a_view A') m /\ b <> 0 /\
    forall i, is_slot i -> slot (a_view A') r' i = if i =? j then b else slot (a_view A) r i.
Proof.
  intros Hl Hroom HN. pose proof F as [Fo Hat Hd Ty Hok Hfree].
  destruct (balloc_ok c me dev start sb Hdev LB ∅ bs A k Fo (apart_empty dev start sb Hdev LB _) (free_ok_data start sb _ Hfree) Hl)
    as [(b & k1 & E1 & Hb & Hu & _ & A1 & F1 & O1 & U1 & Z1 & V1)|[Hall _]].
  2:{ destruct (room_free _ _ _ Hroom) as (b & Hb & Hu). by rewrite Hall in Hu. }
  pose proof (Hfree b Hb Hu) as Hdb. pose proof (db_range _ _ _ Hdb) as Hb0. rewrite (BBLOCK_one b Hb) in F1.
  rewrite (bind_Ok _ _ _ _ _ E1). pose proof (in_op_inodes me k k1 (proj1 O1)) as Ek.
  assert (k_inodes k1 !! ip = Some r) as Hat1 by by rewrite Ek.
  rewrite (bind_Ok _ _ _ _ _ (upd_inode_ok _ _ _ _ Hat1)), Ek.
  set (r' := set_i_addrs (<[n := b]> (i_addrs r)) r). set (l := <[ip := r']> (k_inodes k)).
  assert (forall i, is_slot i -> slot (a_view A1) r' i = if i =? j then b else slot (a_view A) r i) as Hs
    by (apply addr_slots; [done..|lia|done|done]).
  pose proof (lookup_lt_Some _ _ _ Hat) as Hip. pose proof (bl_size _ _ LB) as Hsz.
  assert (is_slot j) as Hsj by (unfold is_slot; rewrite MAXFILE_val; change NDIRECT with 12 in Hj; lia).
  exists b, (set_k_inodes l k1), A1, r'. split; [done|]. cbn zeta. split; [|split; [|split; [|split; [lia|done]]]].
  - split; [by apply (fs_op_inodes c me dev start sb)|by apply list_lookup_insert_eq|done| | |].
    + apply inode_typed_addr; [done|]. unfold is_u32. lia.
    + by apply (add_ok start sb (a_view A) (a_view A1) r r' j b).
    + by apply (add_free start sb (a_view A) (a_view A1) b).
  - split; [|exact (in_op_set_inodes me k k1 l (proj1 O1))|done].
    apply (add_ext sb (a_view A) (a_view A1) r r' j b); try done. intros x H1 H2 _. by apply V1.
  - by apply (room_take sb (a_view A) _ m b).
Qed.
End Addr.

(** ** An address of the indirect block is filled *)

Definition bmap_ind (ind bn : Z) : M (kernel H) Z :=
  let! bp := bread dev ind in
  let! d := buf_data bp in
  let! addr := (if addr_at d bn =? 0 then
      let! addr := balloc dev in
      upd_data bp (put_le 4 (Z.to_nat (4 * bn)) addr) ;;
      log_write bp ;;
      ret addr
    else ret (addr_at d bn)) in
  brelse bp ;;
  ret addr.

Lemma bind_ret3_Ok {S A} (m1 m2 m3 : M S unit) (a : A) s s' :
  (m1 ;; m2 ;; m3) s = Ok tt s' -> (let! x := (m1 ;; m2 ;; ret a) in m3 ;; ret x) s = Ok a s'.
Proof.
  unfold bind, ret. destruct (m1 s) as [u s1| | |]; try done. destruct (m2 s1) as [u2 s2| | |]; try done. by intros ->.
Qed.

Section Ind.
Context (bs : list Z) (A : acache) (k : kernel H) (ip : nat) (r : inode) (bn : Z).
Context (F : file_op bs A k ip r) (Hi0 : ind_of r <> 0) (Hbn : NDIRECT <= bn < MAXFILE).

Lemma ind_data : data_block start sb (ind_of r) /\ in_use sb (a_view A) (ind_of r) = true.
Proof. apply (fk_data _ _ _ _ (fp_file _ _ _ _ _ F) (-1)); [unfold is_slot; rewrite MAXFILE_val; lia|done]. Qed.

Lemma ind_apart V : V (sb_bmapstart sb) = a_view A (sb_bmapstart sb) -> apart sb {[ind_of r]} V.
Proof.
  intros EV. destruct ind_data as [Hd Hu]. split; [by rewrite size_singleton|]. intros x Hx.
  rewrite !elem_of_singleton. split; [intros E; by apply (db_bitmap _ _ _ Hd x)|].
  intros Hf ->. unfold in_use in Hu, Hf. rewrite (BBLOCK_one _ Hx), EV in Hf. by rewrite (BBLOCK_one _ Hx), Hf in Hu.
Qed.

Lemma ind_slots (V' : disk) b :
  is_u32 b -> length (a_view A (ind_of r)) = Z.to_nat BSIZE ->
  V' (ind_of r) = put_le 4 (Z.to_nat (4 * (bn - NDIRECT))) b (a_view A (ind_of r)) ->
  forall i, is_slot i -> slot V' r i = if i =? bn then b else slot (a_view A) r i.
Proof.
  intros Hb Hl HV i Hi. unfold is_slot in Hi. rewrite MAXFILE_val in *. unfold slot, block_of.
  change NDIRECT with 12 in *. destruct (Z.eqb_spec i (-1)); [destruct (Z.eqb_spec i bn); [lia|done]|].
  destruct (Z.ltb_spec i 12); [destruct (Z.eqb_spec i bn); [lia|done]|]. destruct (Z.eqb_spec (ind_of r) 0); [done|].
  rewrite HV, addr_at_put by (done || (change NINDIRECT with 256; lia)).
  destruct (Z.eqb_spec (i - 12) (bn - 12)), (Z.eqb_spec i bn); try lia; done.
Qed.

(** A fresh block becomes block [bn]. *)
Lemma bmap_ind_new (W : Z -> Prop) m k1 i :
  weight bs r <= LOGSIZE - 3 -> room sb (a_view A) (S m) -> slot (a_view A) r bn = 0 -> length (a_view A (ind_of r)) = Z.to_nat BSIZE ->
  txn c me dev start bs (grab A (ind_of r)) k1 -> handle dev k1 i (ind_of r) -> in_op me k k1 ->
  exists b k' bs' A', (let! addr := (let! addr := balloc dev in
      upd_data i (put_le 4 (Z.to_nat (4 * (bn - NDIRECT))) addr) ;; log_write i ;; ret addr) in brelse i ;; ret addr) k1 = Ok b k' /\
    file_op bs' A' k' ip r /\ grew (eq bn) W ip A r k A' r k' /\ room sb (a_view A') m /\
    slot (a_view A') r bn = b /\ b <> 0 /\ weight bs' r <= weight bs r + 1 /\ weight (join bs' b) r <= weight bs r + 1.
Proof.
  intros Hw Hroom Hz Hlen T1 H1 O1. pose proof F as [Fo Hat Hd Ty Hok Hfree]. pose proof Fo as [_ Hheld Ho Hs].
  destruct ind_data as [Hdi Hui]. pose proof (db_range _ _ _ Hdi) as Hri. pose proof (db_disk _ _ _ Hdi) as Hdk.
  pose proof (weight_ge bs r) as Hwl. change (LOGSIZE - 3) with 27 in Hw.
  assert (fs_ops c me dev start sb {[ind_of r]} bs (grab A (ind_of r)) k1) as F1.
  { destruct O1 as (L1 & _ & _ & _ & _ & K1). split; [done| |by rewrite L1|by rewrite K1]. cbn. rewrite Hheld. set_solver. }
  destruct (balloc_ok c me dev start sb Hdev LB {[ind_of r]} bs _ k1 F1 (ind_apart _ eq_refl) (free_ok_data start sb _ Hfree)
    ltac:(unfold LOGSIZE, MAXOPBLOCKS; lia)) as [(b & k2 & E2 & Hb & Hu & _ & A2 & F2 & O2 & U2 & Z2 & V2)|[Hall _]].
  2:{ destruct (room_free _ _ _ Hroom) as (b & Hb & Hu). by rewrite Hall in Hu. }
  cbn [grab a_view] in Hu, U2, V2. pose proof (db_range _ _ _ (Hfree b Hb Hu)) as Hb0. rewrite (BBLOCK_one b Hb) in F2, V2.
  pose proof (weight_bitmap bs r) as W1. pose proof (weight_join (join bs (sb_bmapstart sb)) r b) as W2.
  set (bs2 := join (join bs (sb_bmapstart sb)) b) in *. pose proof (weight_ge bs2 r) as W3. pose proof (weight_ind bs2 r Hi0) as W4.
  assert (ind_of r <> b) as Hib by (intros E; by rewrite <- E, Hui in Hu).
  assert (forall x, 0 <= x < sb_size sb -> ind_of r <> BBLOCK x sb) as Him by apply (db_bitmap _ _ _ Hdi).
  assert (ind_of r <> sb_bmapstart sb) as Him1 by (rewrite <- (BBLOCK_one b Hb); by apply Him).
  pose proof (V2 _ Hib Him1) as Hv2. pose proof (bl_size _ _ LB) as Hsz.
  destruct (txn_edit_held c me dev start bs2 A2 k2 (ind_of r) (fo_txn _ _ _ _ _ _ _ _ _ F2) i (put_le 4 (Z.to_nat (4 * (bn - NDIRECT))) b))
    as (k3 & A3 & E3 & T3 & Hh3 & V3 & O3).
  { rewrite (fo_held _ _ _ _ _ _ _ _ _ F2). set_solver. }
  { apply O2; [set_solver|done]. }
  { lia. }
  { apply F2. }
  { apply (db_log _ _ _ Hdi). }
  { rewrite Hv2, put_le_length; [done|]. rewrite Hlen. rewrite MAXFILE_val in Hbn. change NDIRECT with 12 in *. change (Z.to_nat BSIZE) with 1024%nat. lia. }
  { unfold LOGSIZE, MAXOPBLOCKS. lia. }
  rewrite bind_assoc, (bind_Ok _ _ _ _ _ E2). exists b, k3, (join bs2 (ind_of r)), A3.
  split; [by apply bind_ret3_Ok|].
  assert (in_op me k k3) as O by (etrans; [done|]; etrans; [apply O2|apply O3]).
  assert (a_view A3 (ind_of r) = put_le 4 (Z.to_nat (4 * (bn - NDIRECT))) b (a_view A (ind_of r))) as HV by (by rewrite V3, Z.eqb_refl, Hv2).
  pose proof (ind_slots (a_view A3) b ltac:(unfold is_u32; lia) Hlen HV) as Hs3.
  assert (forall x, x <> ind_of r -> a_view A3 x = a_view A2 x) as V3' by (intros x Hx; by rewrite V3, (proj2 (Z.eqb_neq _ _) Hx)).
  assert (forall x, 0 <= x < sb_size sb -> in_use sb (a_view A3) x = (x =? b) || in_use sb (a_view A) x) as U3.
  { intros x Hx. rewrite <- U2 by done. unfold in_use. rewrite V3'; [done|]. intros E. by apply (Him x). }
  assert (is_slot bn) as Hsb by (unfold is_slot; change NDIRECT with 12 in *; lia).
  split_and!; try lia.
  - split; try done.
    + split; try done; [by rewrite Hh3, (fo_held _ _ _ _ _ _ _ _ _ F2); set_solver|by rewrite (proj1 O)|].
      destruct O as (_ & _ & _ & _ & _ & ->). done.
    + by rewrite (in_op_inodes me k k3 O).
    + by apply (add_ok start sb (a_view A) (a_view A3) r r bn b).
    + by apply (add_free start sb (a_view A) (a_view A3) b).
  - apply grew_call; [done|done|]. apply (add_ext sb (a_view A) (a_view A3) r r bn b); try done; [|by destruct r].
    intros x Hx1 Hx2 Hx3. rewrite V3' by by apply Hx3. rewrite (BBLOCK_one b Hb) in Hx2. by apply V2.
  - by apply (room_take sb (a_view A) _ m b).
  - by rewrite Hs3, Z.eqb_refl.
  - pose proof (weight_join bs r (sb_bmapstart sb)). unfold join at 1.
    rewrite decide_True by (unfold bs2; rewrite !elem_of_join; left; by right). lia.
Qed.

Lemma bmap_ind_ok (W : Z -> Prop) m :
  weight bs r <= LOGSIZE - 3 -> room sb (a_view A) (S m) ->
  exists a k' bs' A', bmap_ind (ind_of r) (bn - NDIRECT) k = Ok a k' /\
    file_op bs' A' k' ip r /\ grew (eq bn) W ip A r k A' r k' /\ room sb (a_view A') m /\
    slot (a_view A') r bn = a /\ a <> 0 /\ weight bs' r <= weight bs r + 1 /\ weight (join bs' a) r <= weight bs r + 1.
Proof.
  intros Hw Hroom. pose proof F as [Fo Hat Hd Ty Hok Hfree]. pose proof Fo as [T Hheld Ho Hs].
  destruct ind_data as [Hdi Hui]. pose proof (db_range _ _ _ Hdi) as Hri. pose proof (db_disk _ _ _ Hdi) as Hdk.
  assert (ind_of r ∉ a_held A) as Hnh by (rewrite Hheld; set_solver).
  destruct (txn_open c me dev start bs A k (ind_of r) T Hnh ltac:(lia) (txn_room _ _ _ _ _ _ _ T Hheld))
    as (i & k1 & E1 & T1 & H1 & O1 & Hlen & rb & Er & Ed).
  unfold bmap_ind. rewrite (bind_Ok _ _ _ _ _ E1). unfold buf_data. rewrite bind_assoc, (bind_Ok _ _ _ _ _ Er).
  erewrite bind_Ok by reflexivity. rewrite Ed.
  assert (slot (a_view A) r bn = addr_at (a_view A (ind_of r)) (bn - NDIRECT)) as Eslot.
  { rewrite slot_block by (change NDIRECT with 12 in *; lia). unfold block_of. destruct (Z.ltb_spec bn NDIRECT); [lia|].
    by destruct (Z.eqb_spec (ind_of r) 0). }
  destruct (Z.eqb_spec (addr_at (a_view A (ind_of r)) (bn - NDIRECT)) 0) as [Hz|Hnz].
  - apply bmap_ind_new; try done; [by rewrite Eslot|apply O1].
  - destruct (txn_close c me dev start bs A k _ T Hnh ltac:(lia) k1 i T1 H1 O1) as (k2 & E2 & T2 & O2).
    set (a := addr_at _ _) in *. exists a, k2, bs, A. rewrite (bind_Ok (ret a) _ a _ k1 eq_refl), (bind_Ok _ _ _ _ _ E2).
    pose proof (in_op_inodes me k k2 (proj1 O2)) as Ek. pose proof (weight_join bs r a).
    split; [done|]. split; [split; try done; [by apply (fs_op_step c me dev start sb ∅ bs A k)|by rewrite Ek]|].
    split; [by apply grew_call; [|apply O2|apply ext_refl]|]. split; [by apply (room_le sb _ _ m Hroom); lia|].
    split; [done|]. split; [done|]. lia.
Qed.
End Ind.

(** ** bmap *)

(** The indirect block that a file without one may need. *)
Definition ind_need (r : inode) : nat := if ind_of r =? 0 then 1%nat else 0%nat.

Lemma bmap_direct (W : Z -> Prop) bs A k ip r bn m :
  file_op bs A k ip r -> 0 <= bn < NDIRECT -> weight bs r <= LOGSIZE - 3 -> room sb (a_view A) (m + 1 + ind_need r) ->
  exists a k' bs' A' r', bmap ip bn k = Ok a k' /\
    file_op bs' A' k' ip r' /\ grew (eq bn) W ip A r k A' r' k' /\ room sb (a_view A') (m + ind_need r') /\
    slot (a_view A') r' bn = a /\ a <> 0 /\ weight bs' r' <= weight bs r + 1 /\ weight (join bs' a) r' <= weight bs r + 1.
Proof.
  intros F Hbn Hw Hroom. pose proof F as [Fo Hat Hd Ty Hok Hfree]. pose proof (weight_ge bs r).
  unfold bmap. rewrite (bind_Ok _ _ _ _ _ (get_inode_ok _ _ _ Hat)). destruct (Z.ltb_spec bn NDIRECT); [|lia].
  change NDIRECT with 12 in Hbn. rewrite (nth_addr r (Z.to_nat bn) Ty) by lia. erewrite bind_Ok by reflexivity.
  assert (slot (a_view A) r bn = nth (Z.to_nat bn) (i_addrs r) 0) as Es.
  { rewrite slot_block by lia. unfold block_of. change NDIRECT with 12. by destruct (Z.ltb_spec bn 12); [|lia]. }
  rewrite <- Es. destruct (Z.eqb_spec (slot (a_view A) r bn) 0) as [Hz|Hnz].
  - destruct (alloc_addr bs A k ip r (Z.to_nat bn) bn F ltac:(lia) ltac:(right; change NDIRECT with 12; lia) Hz (eq bn) W (m + ind_need r))
      as (b & k' & A' & r' & E & F' & G & R & Hb0 & Hs); [unfold LOGSIZE, MAXOPBLOCKS in *; lia|by replace (S _) with (m + 1 + ind_need r)%nat by lia|done|].
    assert (ind_of r' = ind_of r) as Ei.
    { pose proof (Hs (-1) ltac:(unfold is_slot; rewrite MAXFILE_val; lia)) as E1. by destruct (Z.eqb_spec (-1) bn); [lia|]. }
    exists b, k', (join (join bs (sb_bmapstart sb)) b), A', r'. rewrite Hd. split; [exact E|]. split; [done|]. split; [done|].
    split; [by unfold ind_need; rewrite Ei|]. split; [rewrite Hs by (unfold is_slot; rewrite MAXFILE_val; lia); by rewrite Z.eqb_refl|].
    split; [done|]. rewrite !(weight_same _ r r' Ei). pose proof (weight_bitmap bs r). pose proof (weight_join (join bs (sb_bmapstart sb)) r b).
    split; [lia|]. unfold join at 1. rewrite decide_True by (apply elem_of_join; by right). lia.
  - exists (slot (a_view A) r bn), k, bs, A, r. split; [done|]. split; [done|]. split; [by apply grew_call; [|done|apply ext_refl]|].
    split; [apply (room_le sb _ _ _ Hroom); lia|]. pose proof (weight_join bs r (slot (a_view A) r bn)). repeat (split; [done|]). lia.
Qed.

Lemma bmap_indirect (W : Z -> Prop) bs A k ip r bn m :
  file_op bs A k ip r -> NDIRECT <= bn < MAXFILE -> weight bs r <= LOGSIZE - 3 -> room sb (a_view A) (m + 1 + ind_need r) ->
  exists a k' bs' A' r', bmap ip bn k = Ok a k' /\
    file_op bs' A' k' ip r' /\ grew (eq bn) W ip A r k A' r' k' /\ room sb (a_view A') (m + ind_need r') /\
    slot (a_view A') r' bn = a /\ a <> 0 /\ weight bs' r' <= weight bs r + 1 /\ weight (join bs' a) r' <= weight bs r + 1.
Proof.
  intros F Hbn Hw Hroom. pose proof F as [Fo Hat Hd Ty Hok Hfree]. pose proof (weight_ge bs r).
  unfold bmap. rewrite (bind_Ok _ _ _ _ _ (get_inode_ok _ _ _ Hat)). destruct (Z.ltb_spec bn NDIRECT); [lia|].
  rewrite MAXFILE_val in Hbn. rewrite u32_small by (unfold is_u32; change NDIRECT with 12 in *; lia).
  destruct (Z.ltb_spec (bn - NDIRECT) NINDIRECT); [|change NINDIRECT with 256 in *; change NDIRECT with 12 in *; lia].
  rewrite (nth_addr r (Z.to_nat NDIRECT) Ty) by (change (Z.to_nat NDIRECT) with 12%nat; lia). erewrite bind_Ok by reflexivity.
  change (nth (Z.to_nat NDIRECT) (i_addrs r) 0) with (ind_of r). rewrite Hd.
  destruct (Z.eqb_spec (ind_of r) 0) as [Hz|Hnz].
  - assert (ind_need r = 1%nat) as En by (unfold ind_need; by rewrite Hz).
    destruct (alloc_addr bs A k ip r (Z.to_nat NDIRECT) (-1) F ltac:(change (Z.to_nat NDIRECT) with 12%nat; lia) ltac:(by left) Hz (eq bn) W (S m))
      as (b & k1 & A1 & r1 & E & F1 & G1 & R1 & Hb0 & Hs); [unfold LOGSIZE, MAXOPBLOCKS in *; lia|by replace (S (S m)) with (m + 1 + ind_need r)%nat by lia|lia|].
    rewrite (bind_Ok _ _ _ _ _ E).
    assert (ind_of r1 = b) as Ei by (apply (Hs (-1)); unfold is_slot; rewrite MAXFILE_val; lia).
    pose proof (weight_new_ind (join bs (sb_bmapstart sb)) r r1 Hz ltac:(by rewrite Ei)) as W1. pose proof (weight_bitmap bs r).
    rewrite Ei in W1. destruct (bmap_ind_ok _ A1 k1 ip r1 bn F1 ltac:(by rewrite Ei) ltac:(rewrite MAXFILE_val; lia) W m ltac:(lia) R1)
      as (a & k' & bs' & A' & E' & F' & G' & R' & Hs' & Ha & W2 & W3).
    exists a, k', bs', A', r1. rewrite Ei in E'. split; [exact E'|]. split; [done|]. split; [by eapply grew_trans|].
    split; [unfold ind_need; rewrite Ei; destruct (Z.eqb_spec b 0); [done|]; by rewrite Nat.add_0_r|]. split; [done|]. split; [done|]. lia.
  - assert (ind_need r = 0%nat) as En by (unfold ind_need; by destruct (Z.eqb_spec (ind_of r) 0)).
    rewrite (bind_Ok (ret (ind_of r)) _ _ k k eq_refl).
    destruct (bmap_ind_ok bs A k ip r bn F Hnz ltac:(rewrite MAXFILE_val; lia) W m ltac:(lia)) as (a & k' & bs' & A' & E' & F' & G' & R' & P);
      [by replace (S m) with (m + 1 + ind_need r)%nat by lia|].
    exists a, k', bs', A', r. split; [exact E'|]. split; [done|]. split; [done|]. split; [by rewrite En, Nat.add_0_r|]. exact P.
Qed.

(** [bmap] gives the block of the disk that holds block [bn] of the file; a block that the
    file does not have yet is taken from the free ones. *)
Lemma bmap_ok (W : Z -> Prop) bs A k ip r bn m :
  file_op bs A k ip r -> 0 <= bn < MAXFILE -> weight bs r <= LOGSIZE - 3 -> room sb (a_view A) (m + 1 + ind_need r) ->
  exists a k' bs' A' r', bmap ip bn k = Ok a k' /\
    file_op bs' A' k' ip r' /\ grew (eq bn) W ip A r k A' r' k' /\ room sb (a_view A') (m + ind_need r') /\
    slot (a_view A') r' bn = a /\ a <> 0 /\ weight bs' r' <= weight bs r + 1 /\ weight (join bs' a) r' <= weight bs r + 1.
Proof.
  intros F Hbn. destruct (decide (bn < NDIRECT)); [apply bmap_direct; try done; lia|apply bmap_indirect; try done; lia].
Qed.
End Bmap.
