(* ===== verification/KContent.v ===== *)
(** The contents of a file (fs.c: [readi], [writei]): what a process writes to a file inside
    a transaction is what it reads back, and everything else stays. *)
From stdpp Require Import base gmap sets list numbers strings tactics.
From S2P Require Import Prelude Mem KMachine KSched KBytes KBio KBioProofs KLog KCrash KLogProofs KTxn KVm KProc KFs KBss KBlocks KInode KData.

(** * Bytes *)

(** How many blocks of a file [n] bytes from [off] lie in. *)
Definition touched (off n : Z) : nat := if n <=? 0 then 0%nat else Z.to_nat ((off mod BSIZE + n - 1) / BSIZE + 1).

Lemma in_block_range off n : 0 < n -> 0 < in_block off n <= n /\ off mod BSIZE + in_block off n <= BSIZE.
Proof. intros Hn. unfold in_block. pose proof (Z.mod_pos_bound off BSIZE ltac:(done)). lia. Qed.

(** The first block, then the others. *)
Lemma touched_step off n :
  0 <= off -> 0 < n -> touched off n = S (touched (off + in_block off n) (n - in_block off n)).
Proof.
  intros Hoff Hn. destruct (in_block_range off n Hn) as [Hm Hle]. pose proof (Z.mod_pos_bound off BSIZE ltac:(done)) as Ho.
  unfold touched. destruct (Z.leb_spec n 0); [lia|]. unfold in_block in *. destruct (Z.leb_spec n (BSIZE - off mod BSIZE)) as [Hs|Hs].
  - rewrite Z.min_l by done. rewrite Z.sub_diag. cbn. rewrite Z.div_small by lia. done.
  - rewrite Z.min_r by lia. destruct (Z.leb_spec (n - (BSIZE - off mod BSIZE)) 0); [lia|].
    assert ((off + (BSIZE - off mod BSIZE)) mod BSIZE = 0) as ->.
    { rewrite (Z.div_mod off BSIZE) at 1 by done. replace (_ + _) with ((off / BSIZE + 1) * BSIZE) by lia. by apply Z.mod_mul. }
    replace (off mod BSIZE + n - 1) with (0 + (n - (BSIZE - off mod BSIZE)) - 1 + 1 * BSIZE) by lia.
    rewrite Z.div_add by done. set (q := _ / BSIZE). assert (0 <= q) by (apply Z.div_pos; [lia|done]). lia.
Qed.

Lemma touched_zero off : touched off 0 = O.
Proof. done. Qed.

(** The file has the bytes [data] from [off] on; the other bytes are as before. *)
Definition written (data : list Z) (off : Z) (V : disk) (r : inode) (V' : disk) (r' : inode) : Prop :=
  (forall p, off <= p < off + Z.of_nat (length data) ->
     slot V' r' (p / BSIZE) <> 0 /\ file_byte V' r' p = nth (Z.to_nat (p - off)) data 0) /\
  (forall p, 0 <= p < MAXFILE * BSIZE -> ~ (off <= p < off + Z.of_nat (length data)) -> slot V r (p / BSIZE) <> 0 ->
     slot V' r' (p / BSIZE) <> 0 /\ file_byte V' r' p = file_byte V r p).

Lemma written_nil off V r : written [] off V r V r.
Proof. split; [cbn; lia|done]. Qed.

Lemma written_app d1 d2 off V1 r1 V2 r2 V3 r3 :
  0 <= off -> off + Z.of_nat (length d1) + Z.of_nat (length d2) <= MAXFILE * BSIZE ->
  written d1 off V1 r1 V2 r2 -> written d2 (off + Z.of_nat (length d1)) V2 r2 V3 r3 -> written (d1 ++ d2) off V1 r1 V3 r3.
Proof.
  intros Hoff Hmax [A1 B1] [A2 B2]. split; rewrite length_app; intros p Hp.
  - destruct (decide (p < off + Z.of_nat (length d1))) as [Hlt|Hge].
    + destruct (A1 p ltac:(lia)) as [Hs E]. destruct (B2 p ltac:(lia) ltac:(lia) Hs) as [Hs' E']. split; [done|].
      rewrite E', E, app_nth1 by lia. done.
    + destruct (A2 p ltac:(lia)) as [Hs E]. split; [done|]. rewrite E, app_nth2 by lia. f_equal. lia.
  - intros Hout Hs. destruct (B1 p Hp ltac:(lia) Hs) as [Hs' E]. destruct (B2 p Hp ltac:(lia) Hs') as [Hs'' E']. split; [done|]. congruence.
Qed.

Lemma nth_splice o v l i :
  (o + length v <= length l)%nat -> nth i (splice o v l) 0 = if decide (o <= i < o + length v)%nat then nth (i - o) v 0 else nth i l 0.
Proof. intros Hl. rewrite !nth_lookup, lookup_splice by done. by destruct (decide _). Qed.

Lemma block_pos bn o : 0 <= o < BSIZE -> (bn * BSIZE + o) / BSIZE = bn /\ (bn * BSIZE + o) mod BSIZE = o.
Proof. intros Ho. rewrite Z.add_comm, Z.div_add, Z.mod_add, Z.div_small, Z.mod_small by (done || lia). lia. Qed.

(** One block is written. *)
Lemma written_block v bn o V r V1 r' V2 a :
  0 <= bn < MAXFILE -> 0 <= o -> o + Z.of_nat (length v) <= BSIZE -> length (V1 a) = Z.to_nat BSIZE ->
  slot V1 r' bn = a -> a <> 0 ->
  (forall i, 0 <= i < MAXFILE -> slot V r i <> 0 -> slot V1 r' i = slot V r i /\ V1 (slot V r i) = V (slot V r i)) ->
  (forall x, V2 x = if x =? a then splice (Z.to_nat o) v (V1 a) else V1 x) ->
  (forall i, is_slot i -> slot V2 r' i = slot V1 r' i) ->
  (forall i, 0 <= i < MAXFILE -> slot V1 r' i = a -> i = bn) ->
  written v (bn * BSIZE + o) V r V2 r'.
Proof.
  intros Hbn Ho Hv Hl Hs Ha Hkeep HV Hsl Hinj.
  assert (forall i, 0 <= i < MAXFILE -> block_of V2 r' i = slot V1 r' i) as Hb.
  { intros i Hi. rewrite <- slot_block by lia. apply Hsl. unfold is_slot. lia. }
  assert (BSIZE = 1024) as EB by done. split.
  - intros p Hp. replace p with (bn * BSIZE + (p - bn * BSIZE)) by lia.
    destruct (block_pos bn (p - bn * BSIZE)) as [E1 E2]; [lia|]. unfold file_byte. rewrite E1, E2.
    split; [by rewrite Hsl, Hs by (unfold is_slot; lia)|]. rewrite Hb, Hs, HV, Z.eqb_refl, nth_splice by (done || lia).
    rewrite decide_True by lia. f_equal. lia.
  - intros p Hp Hout Hnz. assert (0 <= p / BSIZE < MAXFILE) as Hi.
    { split; [by apply Z.div_pos; lia|]. apply Z.div_lt_upper_bound; lia. }
    destruct (Hkeep _ Hi Hnz) as [Hk1 Hk2]. split; [by rewrite Hsl, Hk1 by (unfold is_slot; lia)|].
    unfold file_byte. rewrite Hb, Hk1, HV by done. rewrite <- (slot_block V r) by lia.
    destruct (Z.eqb_spec (slot V r (p / BSIZE)) a) as [E|E]; [|by rewrite Hk2].
    assert (p / BSIZE = bn) as Ebn by (apply Hinj; [done|by rewrite Hk1]). rewrite <- Hk2, E.
    rewrite nth_splice by lia. pose proof (Z.mod_pos_bound p BSIZE ltac:(done)).
    assert (p = bn * BSIZE + p mod BSIZE) as Ep by (rewrite <- Ebn, Z.mul_comm; by apply Z.div_mod).
    by rewrite decide_False by lia.
Qed.

(** * Writing *)

Section Content.
Context {H : Type} `{!Platform H} `{!Symbols} `{!SleepFuel} `{!DiskDriver H} `{!DiskLaws H}.
Implicit Types k : kernel H.
Context (c : cpu) (me : nat) (dev start : Z) (sb : superblock).
Context (Hdev : is_u32 dev) (LB : bitmap_layout start sb) (Hone : sb_size sb <= BPB) (LI : inode_layout start sb).
Notation fs_op := (fs_ops c me dev start sb ∅).
Notation file_op := (file_op c me dev start sb).
Notation grew := (grew me sb).

(** The bytes [data] can be copied from [src], whatever a system call has done to the disk. *)
Record supplies k0 (src : place) (local data : list Z) : Prop := {
  su_zero : place_add src 0 = src;
  su_copy : forall k t m, quiet c me k -> in_op me (set_k_inodes (k_inodes k) k0) k ->
    0 <= t -> 0 <= m -> t + m <= Z.of_nat (length data) ->
    either_copyin (place_add src t) (skipn (Z.to_nat t) local) m k = Ok (0, slice (Z.to_nat t) (Z.to_nat m) data) k
}.

Lemma place_add_add p a b : place_add (place_add p a) b = place_add p (a + b).
Proof. destruct p; cbn; try done; unfold u64; f_equal; rewrite Z.add_mod_idemp_l by done; f_equal; lia. Qed.

Lemma supplies_call k0 k src local data :
  in_op me (set_k_inodes (k_inodes k) k0) k -> supplies k0 src local data -> supplies k src local data.
Proof.
  intros O [S1 S2]. split; [done|]. intros k' t m Q O'. apply S2; [done|]. by eapply in_op_table.
Qed.

(** A local variable of the caller. *)
Lemma supplies_local k0 data : supplies k0 Local data data.
Proof.
  split; [done|]. intros k t m Q _ Ht Hm Hl. cbn. unfold either_copyin, cur. rewrite bind_assoc.
  rewrite (bind_Ok _ _ _ _ _ (myproc_ok c k (q_cpu _ _ _ Q))), (q_me _ _ _ Q). erewrite bind_Ok by reflexivity. done.
Qed.

(** Only data changes: the map of the file and the free map stay. *)
Section Data.
Context (V V' : disk) (r : inode) (a bn : Z).
Context (Hok : file_ok start sb V r) (Hbn : 0 <= bn < MAXFILE) (Hs : slot V r bn = a) (Ha : a <> 0).
Context (HV : forall x, x <> a -> V' x = V x).

Lemma data_slot : data_block start sb a /\ in_use sb V a = true.
Proof. rewrite <- Hs. apply (fk_data _ _ _ _ Hok); [unfold is_slot; lia|by rewrite Hs]. Qed.

Lemma data_ind : ind_of r <> 0 -> a <> ind_of r.
Proof.
  intros Hi E. assert (bn = -1); [|lia]. apply (fk_inj _ _ _ _ Hok); [unfold is_slot; lia|unfold is_slot, MAXFILE, NDIRECT; by vm_compute| |].
  - by rewrite Hs.
  - by rewrite Hs.
Qed.

Lemma data_slots i : slot V' r i = slot V r i.
Proof. apply slot_ext. intros Hi. apply HV. intros E. by apply (data_ind Hi). Qed.

Lemma data_used x : 0 <= x < sb_size sb -> in_use sb V' x = in_use sb V x.
Proof. intros Hx. unfold in_use. rewrite HV; [done|]. intros E. by apply (db_bitmap _ _ _ (proj1 data_slot) x). Qed.

Lemma data_file_ok : file_ok start sb V' r.
Proof.
  split.
  - intros i Hi. rewrite data_slots. intros Hnz. destruct (fk_data _ _ _ _ Hok i Hi Hnz) as [Hd Hu]. split; [done|].
    pose proof (db_range _ _ _ Hd). by rewrite data_used by lia.
  - intros i j Hi Hj. rewrite !data_slots. by apply (fk_inj _ _ _ _ Hok).
Qed.

Lemma data_free_ok : free_ok start sb V -> free_ok start sb V'.
Proof. intros F b Hb. rewrite data_used by done. by apply F. Qed.

Lemma data_room n : room sb V n -> room sb V' n.
Proof. intros R. apply (room_mono _ _ _ _ R). intros b Hb. by rewrite data_used. Qed.

Lemma data_ext (N : Z -> Prop) : ext sb N (eq bn) V r V' r.
Proof.
  split; try done; [by destruct r| | | | |].
  - intros i Hi _. apply data_slots.
  - intros i Hi _. apply data_slots.
  - intros i Hi Hz. by rewrite data_slots.
  - intros x (_ & _ & H3). apply HV. intros ->. apply (H3 bn); [unfold is_slot; lia|done|by rewrite Hs|done].
  - intros x Hx. by rewrite data_used.
Qed.
End Data.

(** [bread], new bytes, [log_write], [brelse] *)
Lemma write_block bs A k ip r bn a :
  file_op bs A k ip r -> 0 <= bn < MAXFILE -> slot (a_view A) r bn = a -> a <> 0 -> Z.of_nat (length bs) < LOGSIZE - 1 ->
  exists i k1, bread dev a k = Ok i k1 /\ in_op me k k1 /\ quiet c me k1 /\ length (a_view A a) = Z.to_nat BSIZE /\
    forall o v, (o + length v <= Z.to_nat BSIZE)%nat -> exists k' A',
      (upd_data i (splice o v) ;; log_write i ;; brelse i) k1 = Ok tt k' /\ file_op (join bs a) A' k' ip r /\
      grew (eq bn) (eq bn) ip A r k A' r k' /\ (forall n, room sb (a_view A) n -> room sb (a_view A') n) /\
      forall x, a_view A' x = if x =? a then splice o v (a_view A a) else a_view A x.
Proof.
  intros F Hbn Hs Ha Hl. pose proof F as [Fo Hat Hd Ty Hok Hfree]. pose proof Fo as [T Hheld Ho Hsb].
  destruct (data_slot _ _ _ _ Hok Hbn Hs Ha) as [Hda Hua]. pose proof (db_range _ _ _ Hda) as Hra. pose proof (db_disk _ _ _ Hda) as Hdk.
  assert (a ∉ a_held A) as Hnh by (rewrite Hheld; set_solver).
  destruct (txn_open c me dev start bs A k a T Hnh ltac:(lia) (txn_room _ _ _ _ _ _ _ T Hheld)) as (i & k1 & E1 & T1 & Hi1 & O1 & Hlen & _).
  exists i, k1. split; [done|]. split; [apply O1|]. split; [apply T1|]. split; [done|]. intros o v Hv.
  destruct (txn_edit c me dev start bs A k a T Hnh ltac:(lia) k1 i (splice o v) T1 Hi1 O1 Ho (db_log _ _ _ Hda))
    as (k' & A' & E' & T' & Hh' & V' & O'); [by rewrite splice_length by lia|done|].
  assert (forall x, x <> a -> a_view A' x = a_view A x) as HV by (intros x Hx; by rewrite V', (proj2 (Z.eqb_neq _ _) Hx)).
  exists k', A'. split; [done|]. split; [split; try done|split; [|split; [|done]]].
  - by apply (fs_op_step c me dev start sb ∅ bs A k).
  - by rewrite (in_op_inodes me k k' (proj1 O')).
  - by apply (data_file_ok (a_view A) (a_view A') r a bn).
  - by apply (data_free_ok (a_view A) (a_view A') r a bn).
  - apply grew_call; [done|apply O'|]. by apply (data_ext (a_view A) (a_view A') r a bn).
  - intros n. by apply (data_room (a_view A) (a_view A') r a bn).
Qed.

(** [bmap] leaves the blocks that the file has. *)
Lemma grew_keeps N ip A r k A' r' k' i :
  file_ok start sb (a_view A) r -> grew N (fun _ => False) ip A r k A' r' k' -> 0 <= i < MAXFILE -> slot (a_view A) r i <> 0 ->
  slot (a_view A') r' i = slot (a_view A) r i /\ a_view A' (slot (a_view A) r i) = a_view A (slot (a_view A) r i).
Proof.
  intros Hok [X _ _] Hi Hnz. assert (is_slot i) as Hsi by (unfold is_slot; lia). split; [by apply (ex_keep _ _ _ _ _ _ _ X)|].
  destruct (fk_data _ _ _ _ Hok i Hsi Hnz) as [Hd Hu]. apply (ex_view _ _ _ _ _ _ _ X). split; [apply (db_bitmap _ _ _ Hd)|].
  split; [done|]. intros j Hj HF Hnj E. assert (i = j) as -> by by apply (fk_inj _ _ _ _ Hok). destruct HF. lia.
Qed.

(** One turn of the loop, up to the copy and after it. *)
Lemma write_step bs A k ip r off v m :
  file_op bs A k ip r -> 0 <= off -> off / BSIZE < MAXFILE -> off mod BSIZE + Z.of_nat (length v) <= BSIZE ->
  weight sb bs r <= LOGSIZE - 3 -> room sb (a_view A) (m + 1 + ind_need r) ->
  exists a k1 i k2, bmap ip (off / BSIZE) k = Ok a k1 /\ bread dev a k1 = Ok i k2 /\
    in_op me (set_k_inodes (k_inodes k2) k) k2 /\ quiet c me k2 /\
    exists k' bs' A' r', (upd_data i (splice (Z.to_nat (off mod BSIZE)) v) ;; log_write i ;; brelse i) k2 = Ok tt k' /\
      file_op bs' A' k' ip r' /\ grew (eq (off / BSIZE)) (eq (off / BSIZE)) ip A r k A' r' k' /\
      written v off (a_view A) r (a_view A') r' /\ room sb (a_view A') (m + ind_need r') /\ weight sb bs' r' <= weight sb bs r + 1.
Proof.
  intros F Hoff Hmax Hv Hw Hroom. set (bn := off / BSIZE) in *. assert (0 <= bn < MAXFILE) as Hbn by (split; [by apply Z.div_pos|done]).
  destruct (bmap_ok c me dev start sb Hdev LB Hone (fun _ => False) bs A k ip r bn m F Hbn Hw Hroom)
    as (a & k1 & bs1 & A1 & r1 & E1 & F1 & G1 & R1 & Hs & Ha & W1 & W2).
  pose proof (weight_ge sb bs1 r1) as Wl. destruct (write_block bs1 A1 k1 ip r1 bn a F1 Hbn Hs Ha) as (i & k2 & E2 & O2 & Q2 & Hlen & Hwr);
    [change (LOGSIZE - 3) with 27 in Hw; change (LOGSIZE - 1) with 29; lia|].
  exists a, k1, i, k2. split; [done|]. split; [done|]. split; [|split; [done|]].
  { rewrite (in_op_inodes me k1 k2 O2). etrans; [apply G1|done]. }
  pose proof (Z.mod_pos_bound off BSIZE ltac:(done)) as Hmod.
  destruct (Hwr (Z.to_nat (off mod BSIZE)) v ltac:(lia)) as (k' & A' & E' & F' & G' & R' & V').
  exists k', (join bs1 a), A', r1. split; [done|]. split; [done|]. split; [|split; [|split; [by apply R'|lia]]].
  - eapply grew_trans; [|exact G']. by eapply grew_mono; [| |exact G1].
  - replace off with (bn * BSIZE + off mod BSIZE) by (unfold bn; rewrite Z.mul_comm; symmetry; by apply Z.div_mod).
    apply (written_block v bn (off mod BSIZE) _ r (a_view A1) r1 (a_view A') a); try done; try lia.
    + intros j Hj Hnz. by apply (grew_keeps (eq bn) ip A r k A1 r1 k1 j (fp_file _ _ _ _ _ _ _ _ _ _ F)).
    + intros j Hj. apply (data_slots (a_view A1) (a_view A') r1 a bn); try done; [apply F1|].
      intros x Hx. by rewrite V', (proj2 (Z.eqb_neq _ _) Hx).
    + intros j Hj E. apply (fk_inj _ _ _ _ (fp_file _ _ _ _ _ _ _ _ _ _ F1)); [unfold is_slot; lia..|by rewrite E|by rewrite E, Hs].
Qed.

(** The blocks that the bytes from [off] on lie in. *)
Definition blocks_of (off n : Z) (i : Z) : Prop := 0 < n /\ off / BSIZE <= i <= (off + n - 1) / BSIZE.

Lemma writei_loop_done fuel ip src local off n k : writei_loop fuel ip src local off n n k = Ok (n, off) k.
Proof. destruct fuel; cbn [writei_loop]; by destruct (Z.ltb_spec n n); [lia|]. Qed.

Lemma slice_skipn (t m : nat) (l : list Z) : slice t m l ++ skipn (t + m) l = skipn t l.
Proof. unfold slice. by rewrite Nat.add_comm, <- skipn_skipn, firstn_skipn. Qed.

Lemma in_block_next off n i : 0 <= off -> 0 < n ->
  off / BSIZE = i \/ blocks_of (off + in_block off n) (n - in_block off n) i -> blocks_of off n i.
Proof.
  intros Hoff Hn Hi. destruct (in_block_range off n Hn). unfold blocks_of in *. assert (off / BSIZE <= (off + n - 1) / BSIZE) by (apply Z.div_le_mono; [done|lia]).
  destruct Hi as [<-|(_ & Hlo & Hhi)]; [lia|]. assert (off / BSIZE <= (off + in_block off n) / BSIZE) by (apply Z.div_le_mono; [done|lia]).
  replace (off + in_block off n + (n - in_block off n) - 1) with (off + n - 1) in Hhi by lia. lia.
Qed.

Lemma writei_loop_ok ip src data n fuel : forall local k0 tot off bs A k r,
  n = Z.of_nat (length data) -> supplies k0 src local data -> in_op me (set_k_inodes (k_inodes k) k0) k ->
  file_op bs A k ip r -> 0 <= tot <= n -> n - tot <= Z.of_nat fuel -> 0 <= off -> off + (n - tot) <= MAXFILE * BSIZE ->
  weight sb bs r + Z.of_nat (touched off (n - tot)) <= LOGSIZE - 2 -> room sb (a_view A) (touched off (n - tot) + ind_need r) ->
  exists k' bs' A' r', writei_loop fuel ip (place_add src tot) local off n tot k = Ok (n, off + (n - tot)) k' /\
    file_op bs' A' k' ip r' /\ grew (blocks_of off (n - tot)) (blocks_of off (n - tot)) ip A r k A' r' k' /\
    written (skipn (Z.to_nat tot) data) off (a_view A) r (a_view A') r' /\
    weight sb bs' r' <= weight sb bs r + Z.of_nat (touched off (n - tot)).
Proof.
  induction fuel as [|fuel IH]; intros local k0 tot off bs A k r Hn Hsup Hcall F Htot Hfuel Hoff Hmax Hw Hroom;
    (destruct (decide (tot = n)) as [->|Hne]; [|try lia]).
  1,2: exists k, bs, A, r; rewrite Z.sub_diag, Z.add_0_r, touched_zero in *; rewrite writei_loop_done;
    (split; [done|split; [done|split; [apply grew_call; [apply F|done|apply ext_refl]|split; [|lia]]]]); rewrite skipn_all2 by lia; apply written_nil.
  cbn [writei_loop]. destruct (Z.ltb_spec tot n); [|lia]. cbn [negb]. set (m := in_block off (n - tot)).
  destruct (in_block_range off (n - tot) ltac:(lia)) as [Hm Hmb]. fold m in Hm, Hmb.
  set (v := slice (Z.to_nat tot) (Z.to_nat m) data).
  assert (Z.of_nat (length v) = m) as Hv by (unfold v, slice; rewrite length_take, length_drop; lia).
  rewrite touched_step in * by lia. fold m in Hw, Hroom |- *. set (t := touched (off + m) (n - tot - m)) in *.
  assert (off / BSIZE < MAXFILE) as Hbn by (apply Z.div_lt_upper_bound; [done|lia]).
  destruct (write_step bs A k ip r off v t F Hoff Hbn ltac:(lia) ltac:(lia)) as (a & k1 & i & k2 & E1 & E2 & O2 & Q2 & k3 & bs3 & A3 & r3 & E3 & F3 & G3 & Wr3 & R3 & W3);
    [by replace (t + 1 + ind_need r)%nat with (S t + ind_need r)%nat by lia|].
  rewrite (bind_Ok _ _ _ _ _ (get_inode_ok _ _ _ (fp_at _ _ _ _ _ _ _ _ _ _ F))), (bind_Ok _ _ _ _ _ E1).
  rewrite (fp_dev _ _ _ _ _ _ _ _ _ _ F), (bind_Ok _ _ _ _ _ E2).
  pose proof (su_copy _ _ _ _ Hsup k2 tot m Q2 (in_op_table me k0 k k2 _ Hcall O2 eq_refl) ltac:(lia) ltac:(lia) ltac:(lia)) as Ec.
  fold m. rewrite (bind_Ok _ _ _ _ _ Ec). cbn [fst snd]. change (0 =? -1) with false. cbn iota. fold v.
  rewrite (bind3_Ok _ _ _ _ _ _ E3), place_add_add.
  assert (u32 (off + m) = off + m) as -> by (apply u32_small; unfold is_u32; rewrite MAXFILE_val in Hmax; change BSIZE with 1024 in Hmax; lia).
  destruct (IH local k0 (tot + m) (off + m) bs3 A3 k3 r3 Hn Hsup) as (k' & bs' & A' & r' & E' & F' & G' & Wr' & W'); try done; try lia.
  { eapply in_op_table; [exact Hcall|apply G3|done]. }
  { replace (n - (tot + m)) with (n - tot - m) by lia. fold t. lia. }
  { by replace (n - (tot + m)) with (n - tot - m) by lia. }
  replace (n - (tot + m)) with (n - tot - m) in * by lia. fold t in W'.
  exists k', bs', A', r'. replace (off + (n - tot)) with (off + m + (n - tot - m)) by lia. split; [done|]. split; [done|].
  split; [|split; [|lia]].
  - eapply grew_trans; [eapply grew_mono; [| |exact G3]|eapply grew_mono; [| |exact G']]; intros x Hx; apply in_block_next; auto; lia.
  - replace (Z.to_nat (tot + m)) with (Z.to_nat tot + Z.to_nat m)%nat in Wr' by lia.
    rewrite <- (slice_skipn _ (Z.to_nat m) data). apply (written_app v _ off _ _ (a_view A3) r3); [done| |done|by rewrite Hv].
    rewrite length_skipn. lia.
Qed.

(** * Reading *)

(** [n] bytes of the file from [off] on. *)
Definition file_bytes (V : disk) (r : inode) (off n : Z) : list Z :=
  map (fun i => file_byte V r (off + Z.of_nat i)) (seq 0 (Z.to_nat n)).

Lemma file_bytes_length V r off n : length (file_bytes V r off n) = Z.to_nat n.
Proof. unfold file_bytes. by rewrite length_map, length_seq. Qed.

Lemma nth_file_bytes V r off n i : (i < Z.to_nat n)%nat -> nth i (file_bytes V r off n) 0 = file_byte V r (off + Z.of_nat i).
Proof.
  intros Hi. unfold file_bytes. rewrite (nth_indep _ 0 (file_byte V r (off + Z.of_nat 0))) by by rewrite length_map, length_seq.
  rewrite (map_nth (fun i => file_byte V r (off + Z.of_nat i)) (seq 0 (Z.to_nat n)) 0%nat i), seq_nth by done. done.
Qed.

Lemma file_bytes_app V r off n m : 0 <= n -> 0 <= m -> file_bytes V r off (n + m) = file_bytes V r off n ++ file_bytes V r (off + n) m.
Proof.
  intros Hn Hm. unfold file_bytes. rewrite Z2Nat.inj_add, seq_app, map_app by done. f_equal. cbn [Nat.add].
  rewrite <- (Nat.add_0_r (Z.to_nat n)) at 1. rewrite <- fmap_add_seq, map_map. apply map_ext. intros i. f_equal. lia.
Qed.

Lemma slice_file_bytes V r off n t m :
  0 <= t -> 0 <= m -> t + m <= n -> slice (Z.to_nat t) (Z.to_nat m) (file_bytes V r off n) = file_bytes V r (off + t) m.
Proof.
  intros Ht Hm Hn. apply (nth_ext _ _ 0 0); unfold slice; rewrite length_take, length_drop, !file_bytes_length; [lia|].
  intros i Hi. rewrite nth_firstn, nth_skipn. destruct (Nat.ltb_spec i (Z.to_nat m)); [|lia].
  rewrite !nth_file_bytes by lia. f_equal. lia.
Qed.

(** Bytes of one block. *)
Lemma slice_block V r off m :
  0 <= off -> 0 < m -> off mod BSIZE + m <= BSIZE -> length (V (block_of V r (off / BSIZE))) = Z.to_nat BSIZE ->
  slice (Z.to_nat (off mod BSIZE)) (Z.to_nat m) (V (block_of V r (off / BSIZE))) = file_bytes V r off m.
Proof.
  intros Hoff Hm Hle Hl. pose proof (Z.mod_pos_bound off BSIZE ltac:(done)) as Ho.
  apply (nth_ext _ _ 0 0); unfold slice; rewrite length_take, length_drop, Hl; [rewrite file_bytes_length; lia|].
  intros i Hi. rewrite nth_firstn, nth_skipn, nth_file_bytes by lia. destruct (Nat.ltb_spec i (Z.to_nat m)); [|lia].
  replace (off + Z.of_nat i) with (off / BSIZE * BSIZE + (off mod BSIZE + Z.of_nat i)) by (pose proof (Z.div_mod off BSIZE ltac:(done)); lia).
  unfold file_byte. destruct (block_pos (off / BSIZE) (off mod BSIZE + Z.of_nat i)) as [E1 E2]; [lia|]. rewrite E1, E2. f_equal. lia.
Qed.

(** A transaction is not needed to read, only a quiet cache. *)
Record read_op (bs : list Z) (A : acache) k (ip : nat) (r : inode) : Prop := {
  rd_txn : txn c me dev start bs A k;
  rd_held : a_held A = ∅;
  rd_at : k_inodes k !! ip = Some r;
  rd_dev : i_dev r = dev;
  rd_typed : inode_typed r;
  rd_file : file_ok start sb (a_view A) r
}.

Lemma file_op_read bs A k ip r : file_op bs A k ip r -> read_op bs A k ip r.
Proof. intros [[] ]. by split. Qed.

Lemma txn_set_mem bs A k m : txn c me dev start bs A k -> txn c me dev start bs A (set_k_mem m k).
Proof. intros [Q B L]. split; try done; [by destruct Q|by destruct B|by destruct L]. Qed.
Lemma read_op_mem bs A k ip r m : read_op bs A k ip r -> read_op bs A (set_k_mem m k) ip r.
Proof. intros []. split; try done. by apply txn_set_mem. Qed.
Lemma in_op_set_mem k k' m : in_op me k k' -> in_op me (set_k_mem m k) (set_k_mem m k').
Proof. intros (? & ? & ? & ? & ? & E). split_and!; try done. rewrite E. by destruct k. Qed.

Section Read.
Context (bs : list Z) (A : acache) (ip : nat) (r : inode).

Lemma read_op_step k k' : read_op bs A k ip r -> in_op me k k' -> txn c me dev start bs A k' -> read_op bs A k' ip r.
Proof. intros [] O T. split; try done. by rewrite (in_op_inodes me k k' O). Qed.

(** A block of the file is read. *)
Lemma read_block k a i :
  read_op bs A k ip r -> is_slot i -> slot (a_view A) r i = a -> a <> 0 ->
  exists b k1 rb, bread dev a k = Ok b k1 /\ get_buf b k1 = Ok rb k1 /\ b_data rb = a_view A a /\
    in_op me k k1 /\ quiet c me k1 /\ length (a_view A a) = Z.to_nat BSIZE /\
    forall m, exists k', brelse b (set_k_mem m k1) = Ok tt k' /\ read_op bs A k' ip r /\ in_op me (set_k_mem m k1) k'.
Proof.
  intros R Hi Hs Ha. pose proof R as [T Hheld Hat Hd Ty Hok]. destruct (fk_data _ _ _ _ Hok i Hi ltac:(by rewrite Hs)) as [Hda _].
  rewrite Hs in Hda. pose proof (db_range _ _ _ Hda) as Hra. pose proof (db_disk _ _ _ Hda) as Hdk.
  assert (a ∉ a_held A) as Hnh by (rewrite Hheld; set_solver).
  destruct (txn_open c me dev start bs A k a T Hnh ltac:(lia) (txn_room _ _ _ _ _ _ _ T Hheld)) as (b & k1 & E1 & T1 & Hb1 & O1 & Hlen & rb & Er & Ed).
  exists b, k1, rb. split; [done|]. split; [done|]. split; [done|]. split; [apply O1|]. split; [apply T1|]. split; [done|].
  intros m. destruct (txn_close_from c me dev start bs A (set_k_mem m k) a (txn_set_mem _ _ _ m T) Hnh ltac:(lia) (set_k_mem m k1) b
    (txn_set_mem _ _ _ m T1)) as (k' & E' & T' & O'); [done|apply O1|].
  exists k'. split; [done|]. split; [|apply O']. apply (read_op_step (set_k_mem m k)); [by apply read_op_mem| |done].
  etrans; [apply in_op_set_mem, O1|apply O'].
Qed.

(** [bmap] of a block that the file has. *)
Lemma bmap_hit k bn a :
  read_op bs A k ip r -> 0 <= bn < MAXFILE -> slot (a_view A) r bn = a -> a <> 0 ->
  exists k', bmap ip bn k = Ok a k' /\ read_op bs A k' ip r /\ in_op me k k'.
Proof.
  intros R Hbn Hs Ha. pose proof R as [T Hheld Hat Hd Ty Hok]. rewrite MAXFILE_val in Hbn. rewrite slot_block in Hs by lia. unfold block_of in Hs.
  unfold bmap. rewrite (bind_Ok _ _ _ _ _ (get_inode_ok _ _ _ Hat)). change NDIRECT with 12 in *. destruct (Z.ltb_spec bn 12).
  - rewrite (nth_addr r (Z.to_nat bn) Ty) by lia. erewrite bind_Ok by reflexivity. rewrite Hs. destruct (Z.eqb_spec a 0); [done|]. by exists k.
  - rewrite u32_small by (unfold is_u32; lia). destruct (Z.ltb_spec (bn - 12) NINDIRECT); [|change NINDIRECT with 256 in *; lia].
    rewrite (nth_addr r (Z.to_nat 12) Ty) by lia. erewrite bind_Ok by reflexivity. change (nth (Z.to_nat 12) (i_addrs r) 0) with (ind_of r).
    destruct (Z.eqb_spec (ind_of r) 0) as [|Hi0]; [by rewrite Hs in Ha|]. rewrite (bind_Ok (ret (ind_of r)) _ _ k k eq_refl), Hd.
    destruct (read_block k (ind_of r) (-1) R) as (b & k1 & rb & E1 & Er & Ed & O1 & _ & _ & Hcl);
      [unfold is_slot; rewrite MAXFILE_val; lia|done|done|]. rewrite (bind_Ok _ _ _ _ _ E1). unfold buf_data.
    rewrite bind_assoc, (bind_Ok _ _ _ _ _ Er). erewrite bind_Ok by reflexivity. rewrite Ed, Hs. destruct (Z.eqb_spec a 0); [done|].
    rewrite (bind_Ok (ret a) _ _ k1 k1 eq_refl). destruct (Hcl (k_mem k1)) as (k' & E' & R' & O').
    assert (set_k_mem (k_mem k1) k1 = k1) as Em by by destruct k1. rewrite Em in E'. rewrite (bind_Ok _ _ _ _ _ E').
    exists k'. split; [done|]. split; [done|]. rewrite Em in O'. by etrans.
Qed.

(** A place that takes [data], a piece at a time; [P t] says that it has [t] bytes. *)
Record receives (dst : place) (data : list Z) (P : Z -> kernel H -> Prop) : Prop := {
  rc_zero : place_add dst 0 = dst;
  rc_call : forall k k' t, in_op me k k' -> P t k -> P t k';
  rc_copy : forall k t m, quiet c me k -> P t k -> 0 <= t -> 0 < m -> t + m <= Z.of_nat (length data) ->
    exists mem, either_copyout (place_add dst t) (slice (Z.to_nat t) (Z.to_nat m) data) k = Ok 0 (set_k_mem mem k) /\
      P (t + m) (set_k_mem mem k)
}.

(** The caller's variable: what it gets is the result of [readi]. *)
Lemma receives_local data : receives Local data (fun _ _ => True).
Proof.
  split; try done. intros k t m Q _ Ht Hm Hl. exists (k_mem k). split; [|done]. cbn. unfold either_copyout, cur. rewrite bind_assoc.
  rewrite (bind_Ok _ _ _ _ _ (myproc_ok c k (q_cpu _ _ _ Q))), (q_me _ _ _ Q). erewrite bind_Ok by reflexivity. by destruct k.
Qed.

(** Only memory and what is behind the cache change. *)
Definition read_step k k' : Prop := in_op me (set_k_mem (k_mem k') k) k'.

Lemma read_step_trans k1 k2 k3 : read_step k1 k2 -> read_step k2 k3 -> read_step k1 k3.
Proof. intros O1 O2. apply (in_op_set_mem _ _ (k_mem k3)) in O1. unfold read_step. etrans; [|exact O2]. by destruct k1. Qed.
Lemma in_op_read_step k k' : in_op me k k' -> read_step k k'.
Proof. intros O. assert (k_mem k' = k_mem k) as Em by (destruct O as (_ & _ & _ & _ & _ & ->); done). unfold read_step. rewrite Em. by destruct k. Qed.

Lemma readi_loop_done fuel dst off n got k : readi_loop fuel ip dst off n n got k = Ok (i32 n, got) k.
Proof. destruct fuel; cbn [readi_loop]; by destruct (Z.ltb_spec n n); [lia|]. Qed.

Lemma readi_loop_ok dst data P n off0 fuel : forall tot got k,
  data = file_bytes (a_view A) r off0 n -> receives dst data P -> read_op bs A k ip r -> P tot k ->
  0 <= tot <= n -> n - tot <= Z.of_nat fuel -> 0 <= off0 -> off0 + n <= MAXFILE * BSIZE ->
  (forall p, off0 <= p < off0 + n -> slot (a_view A) r (p / BSIZE) <> 0) ->
  exists k', readi_loop fuel ip (place_add dst tot) (off0 + tot) n tot got k =
      Ok (i32 n, got ++ file_bytes (a_view A) r (off0 + tot) (n - tot)) k' /\
    read_op bs A k' ip r /\ read_step k k' /\ P n k'.
Proof.
  induction fuel as [|fuel IH]; intros tot got k Hdata Hrec R HP Htot Hfuel Hoff Hmax Hfull;
    (destruct (decide (tot = n)) as [->|Hne]; [|try lia]).
  1,2: exists k; rewrite readi_loop_done, Z.sub_diag, app_nil_r; split; [done|]; split; [done|]; split; [by apply in_op_read_step|done].
  cbn [readi_loop]. destruct (Z.ltb_spec tot n); [|lia]. cbn [negb]. set (off := off0 + tot). set (m := in_block off (n - tot)).
  destruct (in_block_range off (n - tot) ltac:(lia)) as [Hm Hmb]. fold m in Hm, Hmb.
  assert (0 <= off / BSIZE < MAXFILE) as Hbn by (split; [apply Z.div_pos; unfold off; (lia || done)|apply Z.div_lt_upper_bound; unfold off; (lia || done)]).
  pose proof (Hfull off ltac:(unfold off; lia)) as Hnz. set (a := slot (a_view A) r (off / BSIZE)) in *.
  destruct (bmap_hit k (off / BSIZE) a R Hbn eq_refl Hnz) as (k1 & E1 & R1 & O1).
  destruct (read_block k1 a (off / BSIZE) R1 ltac:(unfold is_slot; lia) eq_refl Hnz) as (b & k2 & rb & E2 & Er & Ed & O2 & Q2 & Hlen & Hcl).
  rewrite (bind_Ok _ _ _ _ _ (get_inode_ok _ _ _ (rd_at _ _ _ _ _ R))), (bind_Ok _ _ _ _ _ E1).
  rewrite (rd_dev _ _ _ _ _ R), (bind_Ok _ _ _ _ _ E2). fold m. unfold buf_data. rewrite bind_assoc, (bind_Ok _ _ _ _ _ Er).
  erewrite bind_Ok by reflexivity. rewrite Ed. assert (a = block_of (a_view A) r (off / BSIZE)) as Ea by (apply slot_block; lia).
  rewrite Ea, slice_block by (try rewrite <- Ea; (unfold off in *; lia) || done).
  destruct (rc_copy _ _ _ Hrec k2 tot m Q2) as (mem & E3 & HP3);
    [apply (rc_call _ _ _ Hrec k); [by etrans|done]|lia|lia|rewrite Hdata, file_bytes_length; lia|].
  rewrite Hdata, slice_file_bytes in E3 by lia. fold off in E3. rewrite (bind_Ok _ _ _ _ _ E3).
  destruct (Hcl mem) as (k4 & E4 & R4 & O4). rewrite (bind_Ok _ _ _ _ _ E4). change (0 =? -1) with false. cbn iota. rewrite place_add_add.
  assert (u32 (off + m) = off0 + (tot + m)) as -> by (rewrite u32_small; unfold is_u32, off; rewrite MAXFILE_val in Hmax; change BSIZE with 1024 in Hmax; lia).
  destruct (IH (tot + m) (got ++ file_bytes (a_view A) r off m) k4) as (k' & E' & R' & S' & HP'); try done; try lia.
  { apply (rc_call _ _ _ Hrec (set_k_mem mem k2)); [exact O4|done]. }
  exists k'. split; [|split; [done|split; [|done]]].
  - rewrite E', <- (assoc_L (++)). do 2 f_equal. unfold off. rewrite Z.add_assoc. replace (n - tot) with (m + (n - (tot + m))) by lia. by rewrite file_bytes_app by lia.
  - eapply read_step_trans; [|exact S']. unfold read_step.
    assert (k_mem k4 = mem) as -> by (destruct O4 as (_ & _ & _ & _ & _ & ->); done).
    etrans; [|exact O4]. apply in_op_set_mem. by etrans.
Qed.

(** A file without holes. *)
Definition whole (V : disk) (r : inode) : Prop :=
  i_size r <= MAXFILE * BSIZE /\ forall p, 0 <= p < i_size r -> slot V r (p / BSIZE) <> 0.

(** How many bytes there are from [off] on, [n] at most. *)
Definition readable (r : inode) (off n : Z) : Z := if off >? i_size r then 0 else Z.min n (i_size r - off).

Lemma readi_ok dst P off n k :
  read_op bs A k ip r -> whole (a_view A) r -> 0 <= off -> 0 <= n -> off + n < 2 ^ 32 ->
  receives dst (file_bytes (a_view A) r off (readable r off n)) P -> P 0 k ->
  exists k', readi ip dst off n k = Ok (readable r off n, file_bytes (a_view A) r off (readable r off n)) k' /\
    read_op bs A k' ip r /\ read_step k k' /\ P (readable r off n) k'.
Proof.
  intros R [Hsz Hfull] Hoff Hn Hw Hrec HP. unfold readi. rewrite (bind_Ok _ _ _ _ _ (get_inode_ok _ _ _ (rd_at _ _ _ _ _ R))).
  pose proof (it_size _ (rd_typed _ _ _ _ _ R)) as Hsu. unfold is_u32 in Hsu.
  rewrite (u32_small (off + n)) by (unfold is_u32; lia). destruct (Z.ltb_spec (off + n) off); [lia|]. rewrite orb_false_r.
  unfold readable in *. rewrite Z.gtb_ltb in *. destruct (Z.ltb_spec (i_size r) off).
  { exists k. split; [done|]. split; [done|]. split; [by apply in_op_read_step|done]. }
  rewrite Z.gtb_ltb. set (n' := if i_size r <? off + n then _ else n).
  assert (n' = Z.min n (i_size r - off)) as En.
  { unfold n'. destruct (Z.ltb_spec (i_size r) (off + n)); [rewrite u32_small by (unfold is_u32; lia)|]; lia. }
  rewrite En. set (n1 := Z.min n (i_size r - off)) in *.
  destruct (readi_loop_ok dst _ P n1 off (Z.to_nat n1) 0 [] k eq_refl Hrec R HP) as (k' & E & R' & S' & HP'); try lia.
  { intros p Hp. apply Hfull. lia. }
  rewrite Z.add_0_r, Z.sub_0_r, (rc_zero _ _ _ Hrec) in E. exists k'. rewrite E. split; [|done].
  rewrite i32_id; [done|]. rewrite MAXFILE_val in Hsz. change BSIZE with 1024 in Hsz. lia.
Qed.
End Read.

(** * writei as a whole *)

Context (LA : forall j b, 0 <= j < sb_ninodes sb -> 0 <= b < sb_size sb -> IBLOCK j sb <> BBLOCK b sb).

(** The inode block is not one of the file's. *)
Lemma iblock_slots (V V' : disk) r inum i :
  file_ok start sb V r -> 0 <= inum < sb_ninodes sb -> (forall x, x <> IBLOCK inum sb -> V' x = V x) -> slot V' r i = slot V r i.
Proof.
  intros Hok Hn HV. apply slot_ext. intros Hi. apply HV.
  destruct (fk_data _ _ _ _ Hok (-1)) as [Hd _]; [unfold is_slot; rewrite MAXFILE_val; lia|done|]. by apply (db_inode _ _ _ Hd).
Qed.

Section Iblock.
Context (V V' : disk) (r : inode) (inum : Z).
Context (Hok : file_ok start sb V r) (Hinum : 0 <= inum < sb_ninodes sb) (HV : forall x, x <> IBLOCK inum sb -> V' x = V x).

Lemma iblock_used x : 0 <= x < sb_size sb -> in_use sb V' x = in_use sb V x.
Proof. intros Hx. unfold in_use. rewrite HV; [done|]. intros E. by apply (LA inum x). Qed.

Lemma iblock_file_ok : file_ok start sb V' r.
Proof.
  split.
  - intros i Hi. rewrite (iblock_slots V V' r inum) by done. intros Hnz. destruct (fk_data _ _ _ _ Hok i Hi Hnz) as [Hd Hu].
    split; [done|]. pose proof (db_range _ _ _ Hd). by rewrite iblock_used by lia.
  - intros i j Hi Hj. rewrite !(iblock_slots V V' r inum) by done. by apply (fk_inj _ _ _ _ Hok).
Qed.

Lemma iblock_byte p : 0 <= p < MAXFILE * BSIZE -> slot V r (p / BSIZE) <> 0 -> file_byte V' r p = file_byte V r p.
Proof.
  intros Hp Hnz. assert (0 <= p / BSIZE < MAXFILE) as Hb by (split; [apply Z.div_pos|apply Z.div_lt_upper_bound]; (lia || done)).
  unfold file_byte. rewrite <- (slot_block V'), <- (slot_block V) by lia. rewrite (iblock_slots V V' r inum) by done. f_equal. apply HV.
  destruct (fk_data _ _ _ _ Hok (p / BSIZE) ltac:(unfold is_slot; lia) Hnz) as [Hd _]. by apply (db_inode _ _ _ Hd).
Qed.
End Iblock.

(** The file after [writei]: longer if need be, its fields on the disk. *)
Record wrote (inum : Z) (A : acache) (r : inode) (off : Z) (data : list Z) (A' : acache) (r' : inode) : Prop := {
  wo_same : r' = set_i_size (Z.max (i_size r) (off + Z.of_nat (length data))) (set_i_addrs (i_addrs r') r);
  wo_data : written data off (a_view A) r (a_view A') r';
  wo_disk : forall r0, same_dinode r' (dinode_load (dinode_off inum) (a_view A' (IBLOCK inum sb)) r0);
  wo_inodes : forall j, 0 <= j < sb_ninodes sb -> j <> inum -> forall r0,
    dinode_load (dinode_off j) (a_view A' (IBLOCK j sb)) r0 = dinode_load (dinode_off j) (a_view A (IBLOCK j sb)) r0;
  wo_others : forall x, foreign sb (blocks_of off (Z.of_nat (length data))) (a_view A) r x ->
    (forall j, 0 <= j < sb_ninodes sb -> x <> IBLOCK j sb) -> a_view A' x = a_view A x;
  wo_used : forall x, 0 <= x < sb_size sb -> in_use sb (a_view A) x = true -> in_use sb (a_view A') x = true
}.

(** A block of inodes is not touched by growth. *)
Lemma iblock_foreign W A k ip bs r j : file_op bs A k ip r -> 0 <= j < sb_ninodes sb -> foreign sb W (a_view A) r (IBLOCK j sb).
Proof.
  intros F Hj. split; [exact (fun b Hb => LA j b Hj Hb)|]. split.
  - intros Hb. destruct (in_use sb (a_view A) (IBLOCK j sb)) eqn:E; [done|].
    exfalso. by apply (db_inode _ _ _ (fp_free _ _ _ _ _ _ _ _ _ _ F _ Hb E) j).
  - intros i Hi _ Hnz E. destruct (fk_data _ _ _ _ (fp_file _ _ _ _ _ _ _ _ _ _ F) i Hi Hnz) as [Hd _].
    by apply (db_inode _ _ _ Hd j).
Qed.

(** Another inode than the one that is stored. *)
Lemma dinode_store_others (V V' : disk) r inum j r0 :
  0 <= inum < sb_ninodes sb -> 0 <= j < sb_ninodes sb -> j <> inum -> inode_typed r -> length (V (IBLOCK inum sb)) = Z.to_nat BSIZE ->
  (forall x, V' x = if x =? IBLOCK inum sb then dinode_store (dinode_off inum) r (V (IBLOCK inum sb)) else V x) ->
  dinode_load (dinode_off j) (V' (IBLOCK j sb)) r0 = dinode_load (dinode_off j) (V (IBLOCK j sb)) r0.
Proof.
  intros Hn Hj Hne Ty Hl HV. rewrite HV. destruct (Z.eqb_spec (IBLOCK j sb) (IBLOCK inum sb)) as [E|]; [|done]. rewrite E.
  apply dinode_load_other; [rewrite Hl; apply dinode_off_range|done|]. apply dinode_off_apart. intros Em.
  rewrite (proj1 (IBLOCK_ok start sb j LI Hj)), (proj1 (IBLOCK_ok start sb inum LI Hn)) in E.
  apply Hne. rewrite (Z.div_mod j IPB), (Z.div_mod inum IPB) by done. rewrite Em. f_equal. f_equal. lia.
Qed.

(** The size, then the inode. *)
Lemma writei_end bs A k ip inum r sz :
  file_op bs A k ip r -> entry dev sb ip inum r k -> Z.of_nat (length bs) < LOGSIZE - 1 -> 0 <= sz < 2 ^ 32 ->
  let r' := set_i_size (Z.max (i_size r) sz) r in
  exists k' A', ((if sz >? i_size r then upd_inode ip (set_i_size sz) else ret tt) ;; iupdate ip) k = Ok tt k' /\
    file_op (join bs (IBLOCK inum sb)) A' k' ip r' /\ in_op me (set_k_inodes (k_inodes k') k) k' /\
    k_inodes k' = <[ip := r']> (k_inodes k) /\ length (a_view A (IBLOCK inum sb)) = Z.to_nat BSIZE /\
    forall x, a_view A' x = if x =? IBLOCK inum sb then dinode_store (dinode_off inum) r' (a_view A (IBLOCK inum sb)) else a_view A x.
Proof.
  intros F En Hl Hsz r'. pose proof F as [Fo Hat Hd Ty Hok Hfree]. set (l := <[ip := r']> (k_inodes k)).
  pose proof (lookup_lt_Some _ _ _ Hat) as Hip. pose proof (it_size _ Ty) as Hs. unfold is_u32 in Hs.
  assert ((if sz >? i_size r then upd_inode ip (set_i_size sz) else ret tt) k = Ok tt (set_k_inodes l k)) as Eu.
  { unfold l, r'. rewrite Z.gtb_ltb. destruct (Z.ltb_spec (i_size r) sz).
    - rewrite (upd_inode_ok _ _ _ _ Hat). by rewrite Z.max_r by lia.
    - rewrite Z.max_l by lia. rewrite list_insert_id by (rewrite Hat; by destruct r). by destruct k. }
  rewrite (bind_Ok _ _ _ _ _ Eu). assert (inode_typed r') as Ty' by (destruct Ty; split; try done; cbn; unfold is_u32; lia).
  assert (entry dev sb ip inum r' (set_k_inodes l k)) as En' by (destruct En; split; try done; by apply list_lookup_insert_eq).
  destruct (iupdate_ok c me dev start sb LI bs A (set_k_inodes l k) ip inum r') as (k' & A' & E' & F' & O' & Hlen & V');
    [by apply (fs_op_inodes c me dev start sb)|done..|].
  assert (k_inodes k' = l) as Ek by exact (in_op_inodes me _ _ O').
  assert (forall x, x <> IBLOCK inum sb -> a_view A' x = a_view A x) as HV by (intros x Hx; by rewrite V', (proj2 (Z.eqb_neq _ _) Hx)).
  exists k', A'. split; [done|]. split; [|split; [by rewrite Ek|done]]. split; try done.
  - rewrite Ek. by apply list_lookup_insert_eq.
  - apply (iblock_file_ok (a_view A) (a_view A') r' inum); try done; [|apply En]. by destruct Hok.
  - intros b Hb. rewrite (iblock_used (a_view A) (a_view A') inum); try done; [by apply Hfree|apply En].
Qed.

Lemma wrote_intro A A1 A2 ip inum r r1 bs k bs1 k1 off data :
  let n := Z.of_nat (length data) in let r2 := set_i_size (Z.max (i_size r1) (off + n)) r1 in
  file_op bs A k ip r -> file_op bs1 A1 k1 ip r1 -> ext sb (blocks_of off n) (blocks_of off n) (a_view A) r (a_view A1) r1 ->
  written data off (a_view A) r (a_view A1) r1 -> 0 <= inum < sb_ninodes sb -> 0 <= off -> off + n <= MAXFILE * BSIZE ->
  length (a_view A1 (IBLOCK inum sb)) = Z.to_nat BSIZE ->
  (forall x, a_view A2 x = if x =? IBLOCK inum sb then dinode_store (dinode_off inum) r2 (a_view A1 (IBLOCK inum sb)) else a_view A1 x) ->
  wrote inum A r off data A2 r2.
Proof.
  intros n r2 F F1 X1 [Wd Wo] Hinum Hoff Hmax Hlen V2. pose proof (fp_typed _ _ _ _ _ _ _ _ _ _ F1) as Ty1.
  assert (forall x, x <> IBLOCK inum sb -> a_view A2 x = a_view A1 x) as HV by (intros x Hx; by rewrite V2, (proj2 (Z.eqb_neq _ _) Hx)).
  pose proof (fp_file _ _ _ _ _ _ _ _ _ _ F1) as Hok1.
  pose proof (it_size _ Ty1) as Hs1. assert (MAXFILE * BSIZE = 274432) as EM by done. unfold is_u32 in Hs1.
  assert (inode_typed r2) as Ty2 by (destruct Ty1; split; try done; cbn; unfold is_u32; lia).
  assert (forall p, slot (a_view A2) r2 (p / BSIZE) = slot (a_view A1) r1 (p / BSIZE)) as Hsl
    by (intros p; exact (iblock_slots (a_view A1) (a_view A2) r1 inum _ Hok1 Hinum HV)).
  assert (forall p, 0 <= p < MAXFILE * BSIZE -> slot (a_view A1) r1 (p / BSIZE) <> 0 -> file_byte (a_view A2) r2 p = file_byte (a_view A1) r1 p) as Hby
    by (intros p Hp Hnz; exact (iblock_byte (a_view A1) (a_view A2) r1 inum Hok1 Hinum HV p Hp Hnz)).
  split.
  - unfold r2. rewrite (ex_same _ _ _ _ _ _ _ X1). done.
  - split; intros p Hp; rewrite Hsl.
    + destruct (Wd p Hp) as [Hs E]. split; [done|]. rewrite Hby; [done|fold n in Hp; lia|done].
    + intros Hout Hnz. destruct (Wo p Hp Hout Hnz) as [Hs E]. split; [done|]. by rewrite Hby.
  - intros r0. rewrite V2, Z.eqb_refl. apply dinode_load_store; [rewrite Hlen; apply dinode_off_range|done].
  - intros j Hj Hne r0. rewrite (dinode_store_others (a_view A1) (a_view A2) r2 inum j r0) by done. f_equal.
    apply (ex_view _ _ _ _ _ _ _ X1). by apply (iblock_foreign _ A k ip bs).
  - intros x Hx Hj. rewrite HV by by apply Hj. by apply (ex_view _ _ _ _ _ _ _ X1).
  - intros x Hx Hu. rewrite (iblock_used (a_view A1) (a_view A2) inum) by done. by apply (ex_used _ _ _ _ _ _ _ X1).
Qed.

Lemma bind2_Ok {S A} (m1 m2 : M S unit) (K : M S A) s s' : (m1 ;; m2) s = Ok tt s' -> (m1 ;; m2 ;; K) s = K s'.
Proof. unfold bind. destruct (m1 s) as [u s1| | |]; try done. by intros ->. Qed.

Lemma writei_ok bs A k ip inum r src local data off :
  let n := Z.of_nat (length data) in
  file_op bs A k ip r -> entry dev sb ip inum r k -> supplies k src local data ->
  0 <= off <= i_size r -> off + n <= MAXFILE * BSIZE ->
  weight sb bs r + Z.of_nat (touched off n) <= LOGSIZE - 2 -> room sb (a_view A) (touched off n + ind_need r) ->
  exists k' bs' A' r', writei ip src local off n k = Ok n k' /\ file_op bs' A' k' ip r' /\
    wrote inum A r off data A' r' /\ in_op me (set_k_inodes (k_inodes k') k) k' /\ k_inodes k' = <[ip := r']> (k_inodes k) /\
    Z.of_nat (length bs') <= Z.of_nat (length bs) + Z.of_nat (touched off n) + 3.
Proof.
  intros n F En Hsup Hoff Hmax Hw Hroom. pose proof F as [Fo Hat Hd Ty Hok Hfree].
  assert (MAXFILE * BSIZE = 274432) as EM by done. rewrite EM in Hmax.
  unfold writei. rewrite (bind_Ok _ _ _ _ _ (get_inode_ok _ _ _ Hat)), !Z.gtb_ltb, (u32_small (off + n)) by (unfold is_u32; lia).
  destruct (Z.ltb_spec (i_size r) off); [lia|]. destruct (Z.ltb_spec (off + n) off); [lia|]. cbn [orb].
  rewrite EM. destruct (Z.ltb_spec 274432 (off + n)); [lia|].
  destruct (writei_loop_ok ip src data n (Z.to_nat n) local k 0 off bs A k r eq_refl Hsup) as (k1 & bs1 & A1 & r1 & E1 & F1 & [X1 O1 T1] & Wr & W1);
    try done; try lia; try by rewrite Z.sub_0_r. { by destruct k. }
  rewrite Z.sub_0_r, (su_zero _ _ _ _ Hsup) in *. rewrite (bind_Ok _ _ _ _ _ E1). cbn iota beta.
  rewrite (bind_Ok _ _ _ _ _ (get_inode_ok _ _ _ (fp_at _ _ _ _ _ _ _ _ _ _ F1))).
  assert (i_size r1 = i_size r /\ i_inum r1 = i_inum r) as [Es Ei] by (rewrite (ex_same _ _ _ _ _ _ _ X1); done).
  assert (entry dev sb ip inum r1 k1) as En1.
  { destruct En. split; try done; [apply F1|apply F1|congruence]. }
  pose proof (weight_ge sb bs1 r1) as Wl. change (LOGSIZE - 2) with 28 in Hw. change LOGSIZE with 30 in *.
  destruct (writei_end bs1 A1 k1 ip inum r1 (off + n) F1 En1) as (k2 & A2 & E2 & F2 & O2 & T2 & Hlen & V2); [change LOGSIZE with 30; lia|lia|].
  rewrite (bind2_Ok _ _ _ _ _ E2). set (r2 := set_i_size (Z.max (i_size r1) (off + n)) r1) in *.
  assert (forall x, x <> IBLOCK inum sb -> a_view A2 x = a_view A1 x) as HV by (intros x Hx; by rewrite V2, (proj2 (Z.eqb_neq _ _) Hx)).
  pose proof (en_range _ _ _ _ _ _ En) as Hinum.
  pose proof (wrote_intro A A1 A2 ip inum r r1 bs k bs1 k1 off data F F1 X1 Wr Hinum ltac:(lia) ltac:(lia) Hlen V2) as WO.
  exists k2, (join bs1 (IBLOCK inum sb)), A2, r2. split; [unfold ret; by rewrite i32_id by lia|]. split; [done|]. split; [done|].
  split; [by eapply in_op_table|]. split; [by rewrite T2, T1, list_insert_insert_eq|].
  pose proof (join_length bs1 (IBLOCK inum sb)). pose proof (weight_le sb bs r). lia.
Qed.
End Content.

(** * The theorems *)

(** The parts of the disk, as [mkfs] lays them out: the blocks of inodes, one bitmap block,
    the data. *)
Record fs_layout {H : Type} `{!Platform H} `{!DiskDriver H} `{!DiskLaws H} (start : Z) (sb : superblock) : Prop := {
  fl_bitmap : bitmap_layout start sb;
  fl_one : sb_size sb <= BPB;
  fl_inodes : inode_layout start sb;
  fl_apart : forall j b, 0 <= j < sb_ninodes sb -> 0 <= b < sb_size sb -> IBLOCK j sb <> BBLOCK b sb
}.

Section Claims.
Context {H : Type} `{!Platform H} `{!Symbols} `{!SleepFuel} `{!DiskDriver H} `{!DiskLaws H}.
Implicit Types k : kernel H.
Context (c : cpu) (me : nat) (dev start : Z) (sb : superblock).
Context (Hdev : is_u32 dev) (FL : fs_layout start sb).
Notation file_op := (file_op c me dev start sb).

(** The hypotheses of a write of [n] bytes that succeeds. *)
Record can_write (bs : list Z) (A : acache) k (ip : nat) (inum : Z) (r : inode) (off n : Z) : Prop := {
  cw_file : file_op bs A k ip r;
  cw_entry : entry dev sb ip inum r k;
  cw_off : 0 <= off <= i_size r;
  cw_end : off + n <= MAXFILE * BSIZE;
  cw_log : Z.of_nat (length bs) + Z.of_nat (touched off n) + 4 <= LOGSIZE;
  cw_room : room sb (a_view A) (touched off n + ind_need r)
}.

Lemma writei_can bs A k ip inum r src local data off :
  can_write bs A k ip inum r off (Z.of_nat (length data)) -> supplies c me k src local data ->
  exists k' bs' A' r', writei ip src local off (Z.of_nat (length data)) k = Ok (Z.of_nat (length data)) k' /\ file_op bs' A' k' ip r' /\
    wrote sb inum A r off data A' r' /\ in_op me (set_k_inodes (k_inodes k') k) k' /\ k_inodes k' = <[ip := r']> (k_inodes k) /\
    Z.of_nat (length bs') <= Z.of_nat (length bs) + Z.of_nat (touched off (Z.of_nat (length data))) + 3.
Proof.
  intros [F En Hoff Hend Hlog Hroom] Hsup. destruct FL as [LB Hone LI LA]. pose proof (weight_le sb bs r).
  apply (writei_ok c me dev start sb Hdev LB Hone LI LA bs A); try done. lia.
Qed.

Lemma wrote_whole inum A r off data A' r' :
  wrote sb inum A r off data A' r' -> whole (a_view A) r -> 0 <= off -> off + Z.of_nat (length data) <= MAXFILE * BSIZE -> 
  off <= i_size r -> whole (a_view A') r'.
Proof.
  intros [Ws [Wd Wo] _ _ _ _] [Hsz Hfull] Hoff Hend Hle. assert (i_size r' = Z.max (i_size r) (off + Z.of_nat (length data))) as Es by (rewrite Ws; done).
  split; [rewrite Es; lia|]. intros p Hp. rewrite Es in Hp. destruct (decide (off <= p < off + Z.of_nat (length data))) as [Hin|Hout].
  - by apply Wd.
  - apply Wo; [lia|done|]. apply Hfull. lia.
Qed.

Lemma wrote_bytes inum A r off data A' r' :
  wrote sb inum A r off data A' r' -> file_bytes (a_view A') r' off (Z.of_nat (length data)) = data.
Proof.
  intros [_ [Wd _] _ _ _ _]. apply (nth_ext _ _ 0 0); rewrite file_bytes_length, Nat2Z.id; [done|]. intros i Hi.
  rewrite nth_file_bytes by lia. destruct (Wd (off + Z.of_nat i) ltac:(lia)) as [_ ->]. f_equal. lia.
Qed.

(** [writei], then [readi] of the same bytes. *)
Lemma write_then_read bs A k ip inum r src local data off :
  let n := Z.of_nat (length data) in
  can_write bs A k ip inum r off n -> whole (a_view A) r -> supplies c me k src local data ->
  exists k1, writei ip src local off n k = Ok n k1 /\ in_op me (set_k_inodes (k_inodes k1) k) k1 /\
    forall dst P, receives c me dst data P -> P 0 k1 ->
      exists k2, readi ip dst off n k1 = Ok (n, data) k2 /\ P n k2.
Proof.
  intros n C Hwh Hsup. destruct (writei_can bs A k ip inum r src local data off C Hsup) as (k1 & bs1 & A1 & r1 & E1 & F1 & W & O1 & _).
  pose proof C as [F En Hoff Hend _ _]. exists k1. split; [done|]. split; [done|]. intros dst P Hrec HP. destruct FL as [LB Hone LI LA].
  assert (i_size r1 = Z.max (i_size r) (off + n)) as Es by (rewrite (wo_same _ _ _ _ _ _ _ _ W); done).
  assert (readable r1 off n = n) as Er by (unfold readable; rewrite Es, Z.gtb_ltb; destruct (Z.ltb_spec (Z.max (i_size r) (off + n)) off); lia).
  pose proof (wrote_bytes _ _ _ _ _ _ _ W) as Eb. fold n in Eb.
  pose proof (wrote_whole _ _ _ _ _ _ _ W Hwh ltac:(lia) Hend ltac:(lia)) as Hwh1.
  assert (MAXFILE * BSIZE = 274432) as EM by done.
  destruct (readi_ok c me dev start sb Hdev LB Hone LI bs1 A1 ip r1 dst P off n k1) as (k2 & E2 & _ & _ & HP2); try lia; try done.
  - by apply file_op_read.
  - by rewrite Er, Eb.
  - rewrite Er, Eb in *. by exists k2.
Qed.

(** C11 [writei] refuses an offset behind the end of the file and a file above the maximum,
    without any effect.  Otherwise, in a transaction with room for the blocks, it returns the
    number of bytes; the file then has the bytes written, its other bytes and all other
    blocks and inodes are as before, the inode on the disk says so, and the file is well
    formed again.  The transaction has at most one block more for every block the bytes lie
    in, and three for the inode, the indirect block and the bitmap: a chunk of [filewrite]
    fits into what [begin_op] has promised. *)
Theorem writei_spec bs A k ip inum r src local data off :
  let n := Z.of_nat (length data) in
  file_op bs A k ip r -> 0 <= off -> off + n < 2 ^ 32 -> supplies c me k src local data ->
  (i_size r < off \/ MAXFILE * BSIZE < off + n -> writei ip src local off n k = Ok (-1) k) /\
  (can_write bs A k ip inum r off n ->
   exists k' bs' A' r', writei ip src local off n k = Ok n k' /\ file_op bs' A' k' ip r' /\ wrote sb inum A r off data A' r' /\
     in_op me (set_k_inodes (k_inodes k') k) k' /\ k_inodes k' = <[ip := r']> (k_inodes k) /\
     Z.of_nat (length bs') <= Z.of_nat (length bs) + Z.of_nat (touched off n) + 3).
Proof.
  intros n F Hoff Hw Hsup. split; [|intros C; by apply (writei_can bs A)].
  intros Hbad. unfold writei. rewrite (bind_Ok _ _ _ _ _ (get_inode_ok _ _ _ (fp_at _ _ _ _ _ _ _ _ _ _ F))), !Z.gtb_ltb.
  rewrite (u32_small (off + n)) by (unfold is_u32; lia). destruct (Z.ltb_spec (i_size r) off); [done|].
  destruct (Z.ltb_spec (off + n) off); [done|]. cbn [orb]. destruct (Z.ltb_spec (MAXFILE * BSIZE) (off + n)); [done|]. lia.
Qed.

End Claims.
