(* ===== verification/KDir.v ===== *)
(** Directories (fs.c: [dirlookup], [dirlink]): a directory is a map from names to numbers
    of inodes, kept as an array of entries in a file. *)
From stdpp Require Import base gmap sets list numbers strings tactics.
From S2P Require Import Prelude Mem KMachine KString KSched KBytes KBio KBioProofs KLog KCrash KLogProofs KTxn KVm KProc KFs KBss KBlocks KInode KData KContent.

(** * Names *)

(** The characters up to a NUL, [DIRSIZ] at most. *)
Fixpoint cut (l : list Z) : list Z := match l with [] => [] | c :: l' => if c =? 0 then [] else c :: cut l' end.
Definition cname (l : list Z) : list Z := cut (take DIRSIZ l).

(** An array that [strncmp] does not leave. *)
Definition full (n : nat) (l : list Z) : Prop := (n <= length l)%nat \/ 0 ∈ l.

Lemma full_cons n a l : full (S n) (a :: l) -> a <> 0 -> full n l.
Proof. intros [Hl|Hl] Ha; [left; cbn in Hl; lia|right]. apply elem_of_cons in Hl as [E|]; [by rewrite <- E in Ha|done]. Qed.

Lemma full_nil n : full (S n) [] -> False.
Proof. intros [Hl|Hl]; [cbn in Hl; lia|by apply not_elem_of_nil in Hl]. Qed.

Lemma strncmp_cut n p q :
  full n p -> full n q -> (arr_strncmp p q n =? 0) = bool_decide (cut (take n p) = cut (take n q)).
Proof.
  revert p q. induction n as [|n IH]; intros p q Hp Hq; [rewrite bool_decide_true by done; by destruct p|].
  destruct p as [|a p]; [by apply full_nil in Hp|].
  destruct q as [|b q]; [by apply full_nil in Hq|].
  cbn [arr_strncmp take cut]. destruct (Z.eqb_spec a 0) as [->|Ha]; cbn [negb andb].
  - destruct (Z.eqb_spec b 0) as [->|Hb]; [done|]. destruct (Z.eqb_spec (0 - b) 0); [lia|]. symmetry. by apply bool_decide_eq_false.
  - destruct (Z.eqb_spec a b) as [->|Hab].
    + destruct (Z.eqb_spec b 0); [done|]. rewrite IH by by eapply full_cons. apply bool_decide_ext. split; [by intros ->|by intros [= E]].
    + destruct (Z.eqb_spec (a - b) 0); [lia|]. symmetry. apply bool_decide_eq_false. destruct (Z.eqb_spec b 0); [done|]. by intros [= ->].
Qed.

Lemma strncpy_cut n t : cut (take n (arr_strncpy t n)) = cut (take n t) /\ length (arr_strncpy t n) = n.
Proof.
  revert t. induction n as [|n IH]; intros t; [by destruct t|]. destruct t as [|a t]; cbn [arr_strncpy].
  - split; [done|]. by rewrite length_replicate.
  - destruct (Z.eqb_spec a 0) as [->|Ha]; [split; [done|by rewrite length_replicate]|]. destruct (IH t) as [E1 E2].
    cbn [take cut length]. destruct (Z.eqb_spec a 0); [done|]. by rewrite E1, E2.
Qed.

Lemma namecmp_ok s t : full DIRSIZ s -> full DIRSIZ t -> (namecmp s t =? 0) = bool_decide (cname s = cname t).
Proof. apply strncmp_cut. Qed.

(** * Entries *)

Definition dirent_at (V : disk) (r : inode) (j : nat) : list Z := file_bytes V r (16 * Z.of_nat j) 16.
Definition entry_at (V : disk) (r : inode) (j : nat) : Z * list Z :=
  (de_inum (dirent_at V r j), cname (de_name (dirent_at V r j))).
Definition ents (V : disk) (r : inode) : list (Z * list Z) := map (entry_at V r) (seq 0 (Z.to_nat (i_size r / 16))).

(** The number of the inode that has the name; an entry with number 0 is free. *)
Definition is_for (nm : list Z) (e : Z * list Z) : Prop := fst e <> 0 /\ snd e = nm.
Definition dir_get (l : list (Z * list Z)) (nm : list Z) : option Z := (fun p => fst (snd p)) <$> list_find (is_for nm) l.

Record is_dir (V : disk) (r : inode) : Prop := {
  dir_type : i_type r = T_DIR;
  dir_whole : whole V r;
  dir_size : i_size r mod 16 = 0;
  dir_pos : 0 <= i_size r
}.

Lemma ents_length V r : length (ents V r) = Z.to_nat (i_size r / 16).
Proof. unfold ents. by rewrite length_map, length_seq. Qed.
Lemma ents_lookup V r j : (j < length (ents V r))%nat -> ents V r !! j = Some (entry_at V r j).
Proof. intros Hj. rewrite ents_length in Hj. unfold ents. rewrite list_lookup_fmap, lookup_seq_lt by done. done. Qed.
Lemma dir_end V r : is_dir V r -> i_size r = 16 * Z.of_nat (length (ents V r)).
Proof. intros D. destruct D as [_ _ Hm Hp]. rewrite ents_length, Z2Nat.id by (by apply Z.div_pos). pose proof (Z.div_mod (i_size r) 16 ltac:(done)). lia. Qed.
Lemma dir_max V r : is_dir V r -> Z.of_nat (length (ents V r)) <= 17152.
Proof.
  intros D. pose proof (dir_end V r D). destruct (dir_whole _ _ D) as [Hs _]. assert (MAXFILE * BSIZE = 274432) as EM by done. lia.
Qed.
Lemma dirent_length V r j : length (dirent_at V r j) = 16%nat.
Proof. apply file_bytes_length. Qed.
Lemma de_name_full V r j : full DIRSIZ (de_name (dirent_at V r j)).
Proof. left. unfold de_name. rewrite length_skipn, dirent_length. unfold DIRSIZ. lia. Qed.

(** The first free entry, or the end. *)
Definition free_at (l : list (Z * list Z)) : nat :=
  match list_find (fun e => fst e = 0) l with Some (i, _) => i | None => length l end.

(** An entry is put in the first free place. *)
Definition add_entry (l : list (Z * list Z)) (e : Z * list Z) : list (Z * list Z) :=
  if decide (free_at l < length l)%nat then <[free_at l := e]> l else l ++ [e].

Lemma free_at_le l : (free_at l <= length l)%nat.
Proof. unfold free_at. destruct (list_find _ l) as [[i x]|] eqn:E; [|done]. apply list_find_Some in E as (E & _). apply lookup_lt_Some in E. lia. Qed.
Lemma free_at_cons e l : free_at (e :: l) = if decide (fst e = 0) then O else S (free_at l).
Proof. unfold free_at. cbn [list_find]. destruct (decide (fst e = 0)); [done|]. by destruct (list_find _ l) as [[i x]|]. Qed.
Lemma add_entry_cons e e' l : add_entry (e :: l) e' = if decide (fst e = 0) then e' :: l else e :: add_entry l e'.
Proof.
  unfold add_entry. rewrite free_at_cons. cbn [length]. destruct (decide (fst e = 0)).
  - by rewrite decide_True by lia.
  - destruct (decide (free_at l < length l)%nat); [rewrite decide_True by lia|rewrite decide_False by lia]; done.
Qed.
Lemma dir_get_cons e l nm : dir_get (e :: l) nm = if decide (is_for nm e) then Some (fst e) else dir_get l nm.
Proof. unfold dir_get. cbn [list_find]. destruct (decide (is_for nm e)); [done|]. by destruct (list_find _ l) as [[i x]|]. Qed.

(** It is an insertion into the map. *)
Lemma dir_get_add l inum nm nm' :
  inum <> 0 -> dir_get l nm = None -> dir_get (add_entry l (inum, nm)) nm' = if decide (nm' = nm) then Some inum else dir_get l nm'.
Proof.
  intros Hi. induction l as [|e l IH]; intros Hnone.
  - change (add_entry [] (inum, nm)) with [(inum, nm)]. rewrite dir_get_cons. unfold is_for. cbn [fst snd]. destruct (decide (nm' = nm)) as [->|]; [by rewrite decide_True|by rewrite decide_False by naive_solver].
  - rewrite dir_get_cons in Hnone. destruct (decide (is_for nm e)) as [|Hne]; [done|]. rewrite add_entry_cons.
    destruct (decide (fst e = 0)) as [E0|E0]; rewrite !dir_get_cons.
    + rewrite (decide_False (P := is_for nm' e)) by (unfold is_for; naive_solver).
      unfold is_for. cbn [fst snd]. destruct (decide (nm' = nm)) as [->|]; [by rewrite decide_True|by rewrite decide_False by naive_solver].
    + rewrite IH by done. destruct (decide (is_for nm' e)) as [Hf|]; [|done]. destruct (decide (nm' = nm)) as [->|]; done.
Qed.

(** What depends on the fields of [struct dinode] only. *)
Section Same.
Context {H : Type} `{!Platform H} `{!SleepFuel} `{!DiskDriver H} `{!DiskLaws H}.
Context (V : disk) (r r' : inode) (S : same_dinode r r').

Lemma same_slot n : slot V r' n = slot V r n.
Proof. apply slot_addrs, S. Qed.
Lemma same_byte p : file_byte V r' p = file_byte V r p.
Proof. apply file_byte_addrs, S. Qed.
Lemma same_bytes off n : file_bytes V r' off n = file_bytes V r off n.
Proof. apply map_ext. intros x. apply same_byte. Qed.
Lemma same_typed : inode_typed r -> inode_typed r'.
Proof. destruct S as (E1 & E2 & E3 & E4 & E5 & E6). intros []. split; congruence. Qed.
Lemma same_file_ok start sb0 : file_ok start sb0 V r -> file_ok start sb0 V r'.
Proof. intros [D I]. split; [intros i Hi|intros i j Hi Hj]; rewrite !same_slot; [by apply D|by apply I]. Qed.
Lemma same_whole : whole V r -> whole V r'.
Proof. destruct S as (_ & _ & _ & _ & E & _). intros [Hm Hs]. split; rewrite E; [done|]. intros p Hp. rewrite same_slot. by apply Hs. Qed.
Lemma same_dir : is_dir V r -> is_dir V r'.
Proof. intros [T W M P]. pose proof (same_whole W). destruct S as (E1 & _ & _ & _ & E & _). split; [congruence|done|congruence|lia]. Qed.
Lemma same_ents : ents V r' = ents V r.
Proof.
  unfold ents. replace (i_size r') with (i_size r) by (symmetry; apply S). apply map_ext. intros j. unfold entry_at, dirent_at. by rewrite same_bytes.
Qed.
End Same.

Section Dir.
Context {H : Type} `{!Platform H} `{!Symbols} `{!SleepFuel} `{!DiskDriver H} `{!DiskLaws H}.
Implicit Types k : kernel H.
Context (c : cpu) (me : nat) (dev start : Z) (sb : superblock).
Context (Hdev : is_u32 dev) (FL : fs_layout start sb).
Notation read_op := (read_op c me dev start sb).

(** A local variable gets bytes of the file, and nothing else happens. *)
Lemma receives_mem data m0 : receives c me Local data (fun _ k => k_mem k = m0).
Proof.
  split; [done|by intros k k' _ (_ & _ & _ & _ & _ & ->)|]. intros k t m Q HP Ht Hm Hl. exists (k_mem k). split; [|done].
  cbn. unfold either_copyout, cur. rewrite bind_assoc.
  rewrite (bind_Ok _ _ _ _ _ (myproc_ok c k (q_cpu _ _ _ Q))), (q_me _ _ _ Q). erewrite bind_Ok by reflexivity. by destruct k.
Qed.

Section Lookup.
Context (bs : list Z) (A : acache) (dp : nat) (r : inode) (D : is_dir (a_view A) r).

Lemma readi_local off n k :
  read_op bs A k dp r -> 0 <= off -> 0 <= n -> off + n <= i_size r ->
  exists k', readi dp Local off n k = Ok (n, file_bytes (a_view A) r off n) k' /\ read_op bs A k' dp r /\ in_op me k k'.
Proof.
  intros R Hoff Hn Hend. destruct FL as [LB Hone LI LA]. pose proof (proj1 (dir_whole _ _ D)). assert (MAXFILE * BSIZE = 274432) as EM by done.
  assert (readable r off n = n) as Er by (unfold readable; rewrite Z.gtb_ltb; destruct (Z.ltb_spec (i_size r) off); lia).
  destruct (readi_ok c me dev start sb Hdev LB Hone LI bs A dp r Local (fun _ k' => k_mem k' = k_mem k) off n k R (dir_whole _ _ D)) as (k' & E & R' & S & Em);
    [done|done|lia|apply receives_mem|done|].
  rewrite Er in E. exists k'. split; [done|]. split; [done|]. unfold read_step in S. rewrite Em in S. by destruct k.
Qed.

Lemma read_dirent_ok j k :
  read_op bs A k dp r -> (j < length (ents (a_view A) r))%nat ->
  exists k', read_dirent dp (16 * Z.of_nat j) k = Ok (dirent_at (a_view A) r j) k' /\ read_op bs A k' dp r /\ in_op me k k'.
Proof.
  intros R Hj. pose proof (dir_end _ _ D). destruct (readi_local (16 * Z.of_nat j) 16 k R) as (k' & E & R' & O); [lia..|].
  exists k'. split; [|done]. unfold read_dirent. change DIRENT_SIZE with 16. by rewrite (bind_Ok _ _ _ _ _ E).
Qed.

Lemma dirlookup_loop_ok name fuel : forall j k,
  full DIRSIZ name -> read_op bs A k dp r -> (j <= length (ents (a_view A) r))%nat -> (length (ents (a_view A) r) - j < fuel)%nat ->
  exists k', read_op bs A k' dp r /\ in_op me k k' /\
    dirlookup_loop fuel dp name (16 * Z.of_nat j) k =
      match list_find (is_for (cname name)) (skipn j (ents (a_view A) r)) with
      | None => Ok None k'
      | Some (i, e) => (let! ip := iget dev (fst e) in ret (Some (ip, 16 * Z.of_nat (j + i)))) k'
      end.
Proof.
  induction fuel as [|fuel IH]; intros j k Hnm R Hj Hf; [lia|]. cbn [dirlookup_loop].
  rewrite (bind_Ok _ _ _ _ _ (get_inode_ok _ _ _ (rd_at _ _ _ _ _ _ _ _ _ _ R))). pose proof (dir_end _ _ D) as Hend. pose proof (dir_max _ _ D).
  destruct (decide (j = length (ents (a_view A) r))) as [->|Hne].
  { destruct (Z.ltb_spec (16 * Z.of_nat (length (ents (a_view A) r))) (i_size r)); [lia|]. rewrite skipn_all. by exists k. }
  destruct (Z.ltb_spec (16 * Z.of_nat j) (i_size r)); [|lia]. cbn [negb].
  destruct (read_dirent_ok j k R ltac:(lia)) as (k1 & E1 & R1 & O1). rewrite (bind_Ok _ _ _ _ _ E1).
  rewrite (drop_S _ _ _ (ents_lookup (a_view A) r j ltac:(lia))). cbn [list_find].
  destruct (IH (S j) k1 Hnm R1 ltac:(lia) ltac:(lia)) as (k2 & R2 & O2 & E2).
  assert (u32 (16 * Z.of_nat j + DIRENT_SIZE) = 16 * Z.of_nat (S j)) as -> by (change DIRENT_SIZE with 16; rewrite u32_small; unfold is_u32; lia).
  set (de := dirent_at (a_view A) r j) in *.
  assert ((if de_inum de =? 0 then dirlookup_loop fuel dp name (16 * Z.of_nat (S j))
           else if namecmp name (de_name de) =? 0 then let! ip := iget (i_dev r) (de_inum de) in ret (Some (ip, 16 * Z.of_nat j))
           else dirlookup_loop fuel dp name (16 * Z.of_nat (S j))) =
          if decide (is_for (cname name) (entry_at (a_view A) r j)) then let! ip := iget dev (de_inum de) in ret (Some (ip, 16 * Z.of_nat j))
          else dirlookup_loop fuel dp name (16 * Z.of_nat (S j))) as ->.
  { unfold is_for, entry_at. cbn [fst snd]. fold de. rewrite (rd_dev _ _ _ _ _ _ _ _ _ _ R). destruct (Z.eqb_spec (de_inum de) 0) as [E0|E0].
    - by rewrite decide_False by naive_solver.
    - rewrite namecmp_ok by (done || apply de_name_full). destruct (decide (cname name = cname (de_name de))) as [En|En].
      + rewrite bool_decide_true, decide_True by done. done.
      + rewrite bool_decide_false, decide_False by naive_solver. done. }
  destruct (decide (is_for (cname name) (entry_at (a_view A) r j))).
  - exists k1. rewrite Nat.add_0_r. by repeat (split; [done|]).
  - exists k2. split; [done|]. split; [by etrans|]. rewrite E2. destruct (list_find _ (skipn (S j) _)) as [[i e]|]; cbn; [|done].
    by rewrite Nat.add_succ_r.
Qed.

Lemma dirlookup_ok name k :
  full DIRSIZ name -> read_op bs A k dp r ->
  exists k', read_op bs A k' dp r /\ in_op me k k' /\
    dirlookup dp name k =
      match list_find (is_for (cname name)) (ents (a_view A) r) with
      | None => Ok None k'
      | Some (i, e) => (let! ip := iget dev (fst e) in ret (Some (ip, 16 * Z.of_nat i))) k'
      end.
Proof.
  intros Hnm R. unfold dirlookup. rewrite (bind_Ok _ _ _ _ _ (get_inode_ok _ _ _ (rd_at _ _ _ _ _ _ _ _ _ _ R))).
  rewrite (dir_type _ _ D). cbn [negb Z.eqb]. change (negb (T_DIR =? T_DIR)) with false. cbn iota.
  apply (dirlookup_loop_ok name _ 0); [done|done|lia|]. rewrite ents_length. change DIRENT_SIZE with 16. lia.
Qed.

Lemma find_dirent_ok fuel : forall j de k,
  read_op bs A k dp r -> (j <= length (ents (a_view A) r))%nat -> (length (ents (a_view A) r) - j < fuel)%nat ->
  exists de' k', find_dirent fuel dp (16 * Z.of_nat j) de k = Ok (16 * Z.of_nat (j + free_at (skipn j (ents (a_view A) r))), de') k' /\
    read_op bs A k' dp r /\ in_op me k k'.
Proof.
  induction fuel as [|fuel IH]; intros j de k R Hj Hf; [lia|]. cbn [find_dirent].
  rewrite (bind_Ok _ _ _ _ _ (get_inode_ok _ _ _ (rd_at _ _ _ _ _ _ _ _ _ _ R))). pose proof (dir_end _ _ D) as Hend.
  destruct (decide (j = length (ents (a_view A) r))) as [->|Hne].
  { destruct (Z.ltb_spec (16 * Z.of_nat (length (ents (a_view A) r))) (i_size r)); [lia|]. rewrite skipn_all. cbn. rewrite Nat.add_0_r. by exists de, k. }
  destruct (Z.ltb_spec (16 * Z.of_nat j) (i_size r)); [|lia]. cbn [negb].
  destruct (read_dirent_ok j k R ltac:(lia)) as (k1 & E1 & R1 & O1). rewrite (bind_Ok _ _ _ _ _ E1).
  rewrite (drop_S _ _ _ (ents_lookup (a_view A) r j ltac:(lia))). unfold free_at. cbn [list_find]. set (de1 := dirent_at (a_view A) r j) in *.
  change (fst (entry_at (a_view A) r j)) with (de_inum de1). destruct (Z.eqb_spec (de_inum de1) 0) as [E0|E0].
  - rewrite decide_True by done. rewrite Nat.add_0_r. by exists de1, k1.
  - rewrite decide_False by done. destruct (IH (S j) de1 k1 R1 ltac:(lia) ltac:(lia)) as (de' & k2 & E2 & R2 & O2).
    exists de', k2. change DIRENT_SIZE with 16. replace (16 * Z.of_nat j + 16) with (16 * Z.of_nat (S j)) by lia. rewrite E2.
    split; [|split; [done|by etrans]]. unfold free_at. destruct (list_find _ (skipn (S j) _)) as [[i e]|]; cbn; do 3 f_equal; lia.
Qed.
End Lookup.

(** * A new entry *)

Notation file_op := (file_op c me dev start sb).

Lemma file_op_call bs A k k' ip r : file_op bs A k ip r -> in_op me k k' -> read_op bs A k' ip r -> file_op bs A k' ip r.
Proof.
  intros [[T Hh Ho Hs] Hat Hd Ty Hok Hf] (E1 & _ & _ & _ & _ & E) [T' Hh' Hat' _ _ _]. split; try done. split; try done; [by rewrite E1|]. by rewrite E.
Qed.

Lemma can_write_call bs A k k' ip inum r off n :
  can_write c me dev start sb bs A k ip inum r off n -> in_op me k k' -> read_op bs A k' ip r -> can_write c me dev start sb bs A k' ip inum r off n.
Proof.
  intros [F [] ? ? ? ?] O R. split; try done; [by apply (file_op_call bs A k)|]. split; try done. by rewrite (in_op_inodes me k k' O).
Qed.

(** The bytes of an entry. *)
Lemma dirent_bytes inum name :
  0 <= inum < 2 ^ 16 -> let d := mk_dirent inum (arr_strncpy name DIRSIZ) in
  length d = 16%nat /\ de_inum d = inum /\ cname (de_name d) = cname name.
Proof.
  intros Hi d. destruct (strncpy_cut DIRSIZ name) as [E1 E2]. assert (u16 inum = inum) as Eu by (unfold u16; apply Z.mod_small; lia).
  unfold d, mk_dirent, de_inum, de_name, get_le, slice. split; [by rewrite length_app, le_bytes_length, E2|].
  rewrite Eu. split; [|exact E1]. rewrite drop_0, take_app_length' by done. rewrite le_val_bytes. apply Z.mod_small. change (8 * Z.of_nat 2) with 16. lia.
Qed.

(** The entries after 16 bytes have been written at entry [i]. *)
Lemma ents_written dinum A r i d A' r' :
  is_dir (a_view A) r -> (i <= length (ents (a_view A) r))%nat -> length d = 16%nat -> 16 * Z.of_nat i + 16 <= MAXFILE * BSIZE ->
  wrote sb dinum A r (16 * Z.of_nat i) d A' r' ->
  is_dir (a_view A') r' /\
  ents (a_view A') r' = if decide (i < length (ents (a_view A) r))%nat then <[i := (de_inum d, cname (de_name d))]> (ents (a_view A) r)
                        else ents (a_view A) r ++ [(de_inum d, cname (de_name d))].
Proof.
  intros D Hi Hd Hmax W. pose proof (dir_end _ _ D) as Hend. pose proof (wo_data _ _ _ _ _ _ _ _ W) as [Wd Wo].
  assert (i_size r' = Z.max (i_size r) (16 * Z.of_nat i + 16)) as Es by (rewrite (wo_same _ _ _ _ _ _ _ _ W); cbn; rewrite Hd; done).
  assert (whole (a_view A') r') as Hwh by (eapply wrote_whole; [exact W|apply D|lia|rewrite Hd; lia|lia]).
  assert (i_type r' = i_type r) as Ety by (rewrite (wo_same _ _ _ _ _ _ _ _ W); done).
  assert (is_dir (a_view A') r') as D'.
  { split; [rewrite Ety; apply D|done| |lia]. rewrite Es, Hend. destruct (Z.max_spec (16 * Z.of_nat (length (ents (a_view A) r))) (16 * Z.of_nat i + 16)) as [[_ ->]|[_ ->]].
    - replace (16 * Z.of_nat i + 16) with ((Z.of_nat i + 1) * 16) by lia. by apply Z.mod_mul.
    - rewrite Z.mul_comm. by apply Z.mod_mul. }
  split; [done|]. pose proof (dir_end _ _ D') as Hend'.
  assert (dirent_at (a_view A') r' i = d) as Ei.
  { pose proof (wrote_bytes _ _ _ _ _ _ _ _ W) as E. by rewrite Hd in E. }
  assert (forall j, j <> i -> (j < length (ents (a_view A) r))%nat -> dirent_at (a_view A') r' j = dirent_at (a_view A) r j) as Ej.
  { intros j Hne Hj. unfold dirent_at, file_bytes. apply map_ext_in. intros x Hx%in_seq. rewrite Hd in Wo. pose proof (proj1 (dir_whole _ _ D)). apply Wo; [lia|lia|].
    apply (proj2 (dir_whole _ _ D)). lia. }
  assert (forall j, (j < length (ents (a_view A') r'))%nat -> ents (a_view A') r' !! j =
    Some (if decide (j = i) then (de_inum d, cname (de_name d)) else entry_at (a_view A) r j)) as Hl.
  { intros j Hj. rewrite ents_lookup by done. unfold entry_at. destruct (decide (j = i)) as [->|Hne]; [by rewrite Ei|].
    rewrite Ej by (done || lia). done. }
  apply list_eq. intros j. destruct (decide (j < length (ents (a_view A') r'))%nat) as [Hj|Hj].
  - rewrite Hl by done. destruct (decide (i < length (ents (a_view A) r))%nat) as [Hlt|Hge].
    + destruct (decide (j = i)) as [->|Hne]; [by rewrite list_lookup_insert_eq|]. rewrite list_lookup_insert_ne by done. by rewrite ents_lookup by lia.
    + destruct (decide (j = i)) as [->|Hne]; [by rewrite lookup_app_r, (proj2 (Nat.sub_0_le _ _)) by lia|].
      rewrite lookup_app_l by lia. by rewrite ents_lookup by lia.
  - rewrite lookup_ge_None_2 by lia. symmetry. apply lookup_ge_None_2. destruct (decide _); rewrite ?length_insert, ?length_app; cbn; lia.
Qed.

(** * The theorems *)

(** The table of inodes can count. *)
Definition table_ok k : Prop :=
  length (k_inodes k) = Z.to_nat NINODE /\ forall i x, k_inodes k !! i = Some x -> 0 <= i_ref x < 2 ^ 31 - 1.

Lemma bind_run {S A B} (m m' : M S A) (K : A -> M S B) s s' : m s = m' s' -> bind m K s = bind m' K s'.
Proof. unfold bind. by intros ->. Qed.

Lemma read_quiet bs A k ip r : read_op bs A k ip r -> quiet c me k.
Proof. intros R. apply (rd_txn _ _ _ _ _ _ _ _ _ _ R). Qed.

(** C13 A directory is a map from names to numbers of inodes.  [dirlookup] finds a name exactly
    when the map has it; it then returns an entry of the table of inodes for the number,
    with one reference more, and the offset of the entry; it panics only if the table is full.
    It ends, whatever the size of the directory, and changes nothing else. *)
Theorem dirlookup_spec bs A dp r name k :
  is_dir (a_view A) r -> full DIRSIZ name -> read_op bs A k dp r -> table_ok k ->
  match dir_get (ents (a_view A) r) (cname name) with
  | None => exists k', dirlookup dp name k = Ok None k' /\ read_op bs A k' dp r /\ in_op me k k'
  | Some inum =>
      (exists i ip ri k', dirlookup dp name k = Ok (Some (ip, 16 * Z.of_nat i)) k' /\ ents (a_view A) r !! i = Some (inum, cname name) /\
         k_inodes k' = <[ip := ri]> (k_inodes k) /\ names dev inum ri /\ txn c me dev start bs A k' /\
         in_op me (set_k_inodes (k_inodes k') k) k' /\ exists r0, k_inodes k !! ip = Some r0 /\ i_ref ri = i_ref r0 + 1) \/
      (pick dev inum (k_inodes k) = None /\ exists k', dirlookup dp name k = Panic k')
  end.
Proof.
  intros D Hnm R [Hlen Hrefs]. destruct (dirlookup_ok bs A dp r D name k Hnm R) as (k1 & R1 & O1 & ->). unfold dir_get.
  destruct (list_find _ (ents (a_view A) r)) as [[i e]|] eqn:Ef; cbn [fmap option_fmap option_map fst snd]; [|by exists k1].
  apply list_find_Some in Ef as (Ei & (_ & He) & _). pose proof (in_op_inodes me k k1 O1) as Ek.
  pose proof (iget_ok c me dev (fst e) k1 (read_quiet _ _ _ _ _ R1) ltac:(by rewrite Ek)) as Eg. rewrite Ek in Eg.
  destruct (pick dev (fst e) (k_inodes k)) as [[ip ri]|] eqn:Ep.
  - left. destruct (pick_entry _ _ _ _ _ Hrefs Ep) as (Hn & r0 & Er0 & Hr & _).
    exists i, ip, ri, (set_k_inodes (<[ip := ri]> (k_inodes k)) k1). rewrite (bind_Ok _ _ _ _ _ Eg). split; [done|].
    split; [by rewrite Ei, <- He; destruct e|]. split; [done|]. split; [done|]. split; [apply txn_set_inodes, R1|].
    split; [exact (in_op_set_inodes me k k1 _ O1)|]. by exists r0.
  - right. split; [done|]. destruct Eg as [k' Eg]. exists k'. unfold bind. by rewrite Eg.
Qed.

(** The entry is written. *)
Lemma dirlink_new bs A dp dinum r name inum k k1 :
  let l := ents (a_view A) r in
  is_dir (a_view A) r -> 0 < inum < 2 ^ 16 -> dir_get l (cname name) = None ->
  can_write c me dev start sb bs A k dp dinum r (16 * Z.of_nat (free_at l)) 16 -> in_op me k k1 -> read_op bs A k1 dp r ->
  exists k' bs' A' r', (let! r := get_inode dp in
      let! f := find_dirent (S (S (Z.to_nat (i_size r / DIRENT_SIZE)))) dp 0 [] in
      let! w := writei dp Local (mk_dirent inum (arr_strncpy name DIRSIZ)) (u32 (fst f)) DIRENT_SIZE in
      if negb (w =? DIRENT_SIZE) then panic else ret 0) k1 = Ok 0 k' /\
    file_op bs' A' k' dp r' /\ is_dir (a_view A') r' /\
    wrote sb dinum A r (16 * Z.of_nat (free_at l)) (mk_dirent inum (arr_strncpy name DIRSIZ)) A' r' /\
    in_op me (set_k_inodes (k_inodes k') k) k' /\ k_inodes k' = <[dp := r']> (k_inodes k) /\
    forall nm, dir_get (ents (a_view A') r') nm = if decide (nm = cname name) then Some inum else dir_get l nm.
Proof.
  intros l D Hi Hnone C O1 R1. rewrite (bind_Ok _ _ _ _ _ (get_inode_ok _ _ _ (rd_at _ _ _ _ _ _ _ _ _ _ R1))).
  destruct (find_dirent_ok bs A dp r D (S (S (Z.to_nat (i_size r / DIRENT_SIZE)))) 0 [] k1 R1 ltac:(lia)) as (de & k2 & E2 & R2 & O2);
    [rewrite ents_length; change DIRENT_SIZE with 16; lia|]. rewrite skipn_O in E2. cbn [Nat.add] in E2. fold l in E2.
  rewrite (bind_Ok _ _ _ _ _ E2). cbn [fst]. pose proof (free_at_le l) as Hle. pose proof (dir_max _ _ D) as Hmax. fold l in Hmax.
  rewrite u32_small by (unfold is_u32; lia). destruct (dirent_bytes inum name ltac:(lia)) as (Hl & Hdi & Hdn).
  set (d := mk_dirent inum (arr_strncpy name DIRSIZ)) in *. set (off := 16 * Z.of_nat (free_at l)) in *.
  assert (in_op me k k2) as O by by etrans. pose proof (can_write_call bs A k k2 _ _ _ _ _ C O R2) as C2.
  replace 16 with (Z.of_nat (length d)) in C2 by (rewrite Hl; done).
  destruct (writei_can c me dev start sb Hdev FL bs A k2 dp dinum r Local d d off C2 (supplies_local c me k2 d))
    as (k3 & bs3 & A3 & r3 & E3 & F3 & W3 & O3 & T3 & _). rewrite Hl in E3. change (Z.of_nat 16) with DIRENT_SIZE in E3.
  rewrite (bind_Ok _ _ _ _ _ E3). change (negb (DIRENT_SIZE =? DIRENT_SIZE)) with false. cbn iota.
  pose proof (cw_end _ _ _ _ _ _ _ _ _ _ _ _ _ C) as Hend.
  destruct (ents_written dinum A r (free_at l) d A3 r3 D Hle Hl Hend W3) as [D3 E].
  exists k3, bs3, A3, r3. split; [done|]. split; [done|]. split; [done|]. split; [done|].
  split; [etrans; [exact (in_op_set_inodes me k k2 _ O)|exact O3]|]. split; [by rewrite T3, (in_op_inodes me k k2 O)|]. intros nm.
  rewrite Hdi, Hdn in E. fold l in E. change (if decide _ then _ else _) with (add_entry l (inum, cname name)) in E. rewrite E.
  apply dir_get_add; [lia|done].
Qed.

(** The references of every inode are as before, and so is every entry in use. *)
Definition same_refs (l l' : list inode) : Prop :=
  length l' = length l /\ forall i r, l !! i = Some r -> exists r', l' !! i = Some r' /\ i_ref r' = i_ref r /\ (0 < i_ref r -> r' = r).

(** A reference that is taken and put back. *)
Lemma refs_back x l j r :
  (forall i y, l !! i = Some y -> 0 <= i_ref y < 2 ^ 31 - 1) -> pick dev x l = Some (j, r) -> same_refs l (<[j := less_refs r]> l).
Proof.
  intros Hrefs E. destruct (pick_entry dev x l j r Hrefs E) as (_ & r0 & Ej & Hr & Hs). pose proof (Hrefs _ _ Ej) as H0'.
  assert (i32 (i_ref r - 1) = i_ref r0) as E32.
  { rewrite Hr, Z.add_simpl_r. rewrite <- (Z.mod_small (i_ref r0) (2 ^ 32)) at 1 by lia. apply i32_small. lia. }
  split; [apply length_insert|]. intros i y Ei. destruct (decide (i = j)) as [->|Hne]; [|exists y; by rewrite list_lookup_insert_ne].
  rewrite Ej in Ei. injection Ei as <-. exists (less_refs r). rewrite list_lookup_insert_eq by by eapply lookup_lt_Some.
  split; [done|]. unfold less_refs. rewrite E32. split; [done|]. intros Hpos. rewrite (Hs Hpos). by destruct r0.
Qed.

(** C12 [dirlink] is an insertion into that map: a name that the directory has already makes it
    return -1 and leaves the directory and the table of inodes, the reference that the
    lookup took given back; another one is put in the first free entry, or at
    the end, and looked up from then on, while every other name means what it meant. *)
Theorem dirlink_spec bs A dp dinum r name inum k :
  let l := ents (a_view A) r in
  is_dir (a_view A) r -> full DIRSIZ name -> 0 < inum < 2 ^ 16 -> table_ok k ->
  can_write c me dev start sb bs A k dp dinum r (16 * Z.of_nat (free_at l)) 16 ->
  match dir_get l (cname name) with
  | None => exists k' bs' A' r', dirlink dp name inum k = Ok 0 k' /\ file_op bs' A' k' dp r' /\ is_dir (a_view A') r' /\
      wrote sb dinum A r (16 * Z.of_nat (free_at l)) (mk_dirent inum (arr_strncpy name DIRSIZ)) A' r' /\
      in_op me (set_k_inodes (k_inodes k') k) k' /\ k_inodes k' = <[dp := r']> (k_inodes k) /\
      forall nm, dir_get (ents (a_view A') r') nm = if decide (nm = cname name) then Some inum else dir_get l nm
  | Some x => (exists k', dirlink dp name inum k = Ok (-1) k' /\ txn c me dev start bs A k' /\ in_op me (set_k_inodes (k_inodes k') k) k' /\
        same_refs (k_inodes k) (k_inodes k')) \/
      (pick dev x (k_inodes k) = None /\ exists k', dirlink dp name inum k = Panic k')
  end.
Proof.
  intros l D Hnm Hi [Hlen Hrefs] C. pose proof (file_op_read _ _ _ _ _ _ _ _ _ _ (cw_file _ _ _ _ _ _ _ _ _ _ _ _ _ C)) as R.
  unfold dirlink. destruct (dirlookup_ok bs A dp r D name k Hnm R) as (k1 & R1 & O1 & E1). fold l in E1.
  pose proof (in_op_inodes me k k1 O1) as Ek. unfold dir_get at 1.
  destruct (list_find _ l) as [[i e]|] eqn:Ef; cbn [fmap option_fmap option_map fst snd].
  - rewrite !(bind_run _ _ _ _ _ E1), !bind_assoc.
    pose proof (iget_ok c me dev (fst e) k1 (read_quiet _ _ _ _ _ R1) ltac:(by rewrite Ek)) as Eg. rewrite Ek in Eg.
    destruct (pick dev (fst e) (k_inodes k)) as [[ip ri]|] eqn:Ep; [left|right].
    + rewrite (bind_Ok _ _ _ _ _ Eg). erewrite bind_Ok by reflexivity. set (k2 := set_k_inodes _ k1).
      pose proof (txn_set_inodes c me dev start bs A k1 (<[ip := ri]> (k_inodes k)) (rd_txn _ _ _ _ _ _ _ _ _ _ R1)) as T2.
      destruct (pick_entry _ _ _ _ _ Hrefs Ep) as (_ & r0 & Er0 & _). pose proof (pick_kept _ _ _ _ _ Hrefs Ep) as Hk.
      assert (k_inodes k2 !! ip = Some ri) as Er2 by (apply list_lookup_insert_eq; by eapply lookup_lt_Some).
      pose proof (iput_ok c me k2 (tx_quiet _ _ _ _ _ _ _ T2) ip ri Er2 ltac:(naive_solver)) as E3.
      rewrite (bind_Ok _ _ _ _ _ E3). eexists. split; [reflexivity|]. split; [by apply txn_set_inodes|].
      split; [exact (in_op_set_inodes me k k1 _ O1)|]. cbn. rewrite list_insert_insert_eq. by apply (refs_back (fst e)).
    + split; [done|]. destruct Eg as [k' Eg]. exists k'. unfold bind. by rewrite Eg.
  - rewrite (bind_Ok _ _ _ _ _ E1). apply (dirlink_new bs A dp dinum r name inum k k1); try done. unfold dir_get. fold l. by rewrite Ef.
Qed.
End Dir.
