(* ===== verification/KPath.v ===== *)
(** Path names (fs.c: [skipelem], [namex], [namei], [nameiparent]): a path leads from
    directory to directory, and the references to the inodes on the way are given back. *)
From stdpp Require Import base gmap sets list numbers strings tactics.
From S2P Require Import Prelude Mem KMachine KString KBytes KSched KBss KVm KProc KBio KBioProofs KLog KFs KCrash KLogProofs KTxn KBlocks KInode KData KContent KDir.

(** * The elements of a path *)

(** What the slashes separate. *)
Fixpoint pieces (l : list Z) : list (list Z) :=
  match l with
  | [] => [[]]
  | c :: l' =>
      if c =? 47 then [] :: pieces l' else match pieces l' with e :: es => (c :: e) :: es | [] => [[c]] end
  end.
(** Slashes count once, and of a name 14 characters. *)
Definition elements (path : list Z) : list (list Z) := map (take DIRSIZ) (filter (fun e => e <> []) (pieces path)).

(** A C string, without the character that ends it. *)
Definition text (l : list Z) : Prop := Forall (fun c => c <> 0) l.

Lemma pieces_take s e r : take_elem s = (e, r) ->
  s = e ++ r /\ pieces s = e :: match r with [] => [] | _ :: r' => pieces r' end /\ match r with [] => True | c :: _ => c = 47 end.
Proof.
  revert e r. induction s as [|c s IH]; intros e r; cbn [take_elem pieces]; [by intros [= <- <-]|].
  destruct (Z.eqb_spec c 47) as [->|Hc]; [by intros [= <- <-]|]. destruct (take_elem s) as [e' r'] eqn:E. intros [= <- <-].
  destruct (IH e' r' eq_refl) as (-> & -> & Hr). done.
Qed.

Lemma elements_slash s : elements (47 :: s) = elements s.
Proof. unfold elements. cbn [pieces]. change (47 =? 47) with true. cbn iota. by rewrite filter_cons_False by naive_solver. Qed.

Lemma elements_skip s : elements (skip_slashes s) = elements s.
Proof. induction s as [|c s IH]; [done|]. cbn [skip_slashes]. destruct (Z.eqb_spec c 47) as [->|]; [by rewrite elements_slash|done]. Qed.

Lemma skip_suffix s : exists p, s = p ++ skip_slashes s.
Proof.
  induction s as [|c s [p IH]]; [by exists []|]. cbn [skip_slashes]. destruct (c =? 47); [|by exists []].
  exists (c :: p). cbn. by rewrite <- IH.
Qed.
Lemma skip_head s c s' : skip_slashes s = c :: s' -> c <> 47.
Proof. induction s as [|a s IH]; [done|]. cbn [skip_slashes]. destruct (Z.eqb_spec a 47); [done|]. by intros [= <- <-]. Qed.

Lemma elements_nil s : elements (skip_slashes s) = [] -> skip_slashes s = [].
Proof.
  destruct (skip_slashes s) as [|c s'] eqn:E; [done|]. apply skip_head in E. unfold elements. cbn [pieces].
  destruct (Z.eqb_spec c 47); [done|]. destruct (pieces s'); by rewrite filter_cons_True by done.
Qed.

Lemma cut_text l : text l -> cut l = l.
Proof. induction 1 as [|c l Hc _ IH]; [done|]. cbn [cut]. destruct (Z.eqb_spec c 0); [done|]. by rewrite IH. Qed.
Lemma cut_app e l : text e -> cut (e ++ 0 :: l) = e.
Proof. induction 1 as [|c e Hc _ IH]; [done|]. cbn [cut app]. destruct (Z.eqb_spec c 0); [done|]. by rewrite IH. Qed.

(** [skipelem] takes the first element off. *)
Lemma skipelem_ok path name : text path ->
  match skipelem path name with
  | None => elements path = []
  | Some (rest, name') => elements path = cname name' :: elements rest /\ full DIRSIZ name' /\ text rest /\
      (length rest < length path)%nat /\ (rest = [] <-> elements rest = [])
  end.
Proof.
  intros Ht. unfold skipelem. pose proof (elements_skip path) as Es. destruct (skip_suffix path) as [p Ep].
  destruct (skip_slashes path) as [|c s] eqn:Ek; [done|]. pose proof (skip_head _ _ _ Ek) as Hc.
  destruct (take_elem (c :: s)) as [e r] eqn:E. destruct (pieces_take _ _ _ E) as (Ecs & Ec & Hr).
  assert (e <> []) as He. { intros ->. cbn in Ecs. destruct r as [|x r]; [done|]. injection Ecs as <- _. by subst. }
  assert (text (p ++ e ++ r)) as Htx by by rewrite <- Ecs, <- Ep. apply Forall_app in Htx as [_ [He0 Hr0]%Forall_app].
  destruct (skip_suffix r) as [q Eq]. set (name' := if (DIRSIZ <=? length e)%nat then _ else _).
  assert (cname name' = take DIRSIZ e /\ full DIRSIZ name') as [En Hf].
  { unfold name', cname. destruct (Nat.leb_spec DIRSIZ (length e)) as [Hl|Hl].
    - rewrite take_take, Nat.min_id. split; [apply cut_text; by apply Forall_take|left; rewrite length_take; lia].
    - split; [|right; set_solver]. rewrite take_app_ge, (take_ge e) by lia. destruct (DIRSIZ - length e)%nat eqn:Ed; [lia|]. cbn [take]. by apply cut_app. }
  split; [|split; [done|split; [|split; [|split; [by intros ->|apply elements_nil]]]]].
  - rewrite <- Es. unfold elements at 1. rewrite Ec, filter_cons_True by done. cbn [map]. rewrite En, elements_skip.
    destruct r as [|x r]; [done|]. subst x. by rewrite elements_slash.
  - rewrite Eq in Hr0. by apply Forall_app in Hr0 as [_ ?].
  - rewrite Ep, Ecs, !length_app. apply (f_equal (@length Z)) in Eq. rewrite length_app in Eq. destruct e; [done|]. cbn [length]. lia.
Qed.

(** * The tree of directories

    What a path means on the disk [V]. *)

Section Tree.
Context (sb : superblock) (V : disk).

Definition dinode_of (j : Z) : inode := dinode_load (dinode_off j) (V (IBLOCK j sb)) no_inode.
Definition is_folder (j : Z) : Prop := i_type (dinode_of j) = T_DIR.
#[global] Instance is_folder_dec j : Decision (is_folder j) := _.

(** The inode that a directory has under a name. *)
Definition child (j : Z) (nm : list Z) : option Z :=
  if decide (is_folder j) then dir_get (ents V (dinode_of j)) nm else None.
Fixpoint resolve (j : Z) (es : list (list Z)) : option Z :=
  match es with
  | [] => Some j
  | nm :: es => child j nm ≫= fun i => resolve i es
  end.
(** The directory that has, or would have, the last element. *)
Definition resolve_parent (j : Z) (es : list (list Z)) : option Z :=
  match es with
  | [] => None
  | _ => resolve j (removelast es) ≫= fun i => if decide (is_folder i) then Some i else None
  end.
Definition target (parent : bool) : Z -> list (list Z) -> option Z := if parent then resolve_parent else resolve.

(** The target of a path with more elements is that of the rest, from where the first leads. *)
Lemma target_step parent j nm es :
  (parent = true -> es <> []) -> target parent j (nm :: es) = child j nm ≫= fun i => target parent i es.
Proof.
  intros Hes. destruct parent; [|done]. cbn [target]. destruct es as [|e es]; [by specialize (Hes eq_refl)|].
  unfold resolve_parent. change (removelast (nm :: e :: es)) with (nm :: removelast (e :: es)). cbn [resolve]. by destruct (child j nm).
Qed.
Lemma target_here j nm : is_folder j -> target true j [nm] = Some j.
Proof. intros Hf. cbn. by rewrite decide_True. Qed.
Lemma target_file parent j nm es : ~ is_folder j -> target parent j (nm :: es) = None.
Proof.
  intros Hf. assert (child j nm = None) as Hc by (unfold child; by rewrite decide_False). destruct parent; [|by cbn; rewrite Hc].
  destruct es as [|e es]; [by cbn; rewrite decide_False|]. rewrite target_step by done. by rewrite Hc.
Qed.
End Tree.

Section Path.
Context {H : Type} `{!Platform H} `{!Symbols} `{!SleepFuel} `{!DiskDriver H} `{!DiskLaws H}.
Implicit Types k : kernel H.
Context (c : cpu) (me : nat) (dev start : Z) (sb : superblock).
Context (Hdev : is_u32 dev) (FL : fs_layout start sb).
Notation read_op := (read_op c me dev start sb).
Notation fs_op := (fs_ops c me dev start sb ∅).

(** An inode in use. *)
Definition live (V : disk) (j : Z) : Prop := 0 <= j < sb_ninodes sb /\ i_type (dinode_of sb V j) <> 0.

(** The disk has a file system: the inodes in use are well formed, and every name in a directory
    is a link to an inode in use. *)
Record tree_ok (V : disk) : Prop := {
  tr_root : live V ROOTINO /\ i_nlink (dinode_of sb V ROOTINO) <> 0;
  tr_file : forall j, live V j -> inode_typed (dinode_of sb V j) /\ file_ok start sb V (dinode_of sb V j);
  tr_dir : forall j, live V j -> is_folder sb V j -> is_dir V (dinode_of sb V j);
  tr_link : forall j nm i, live V j -> child sb V j nm = Some i -> live V i /\ i_nlink (dinode_of sb V i) <> 0
}.

(** * The table of inodes on the way *)

Section Table.
Context (V : disk) (l0 : list inode).

(** An entry: [n] references more than it had in the table [l0], locked by process [lk]. *)
Record inode_way (n : Z) (lk : option Z) (r0 r : inode) : Prop := {
  so_ref : i_ref r = i_ref r0 + n;
  so_more : 0 <= n;
  so_same : 0 < i_ref r0 -> i_dev r = i_dev r0 /\ i_inum r = i_inum r0;
  so_live : 0 < i_ref r -> i_dev r = dev /\ live V (i_inum r) /\ (i_valid r <> 0 -> same_dinode (dinode_of sb V (i_inum r)) r);
  so_lock : match lk with
            | Some pid => sk_locked (i_lock r) = 1 /\ sk_pid (i_lock r) = pid
            | None => sk_locked (i_lock r) = 0
            end
}.

(** The table [l] has the references [held] more than [l0]. *)
Record way (held : nat -> Z) (lk : nat -> option Z) (l : list inode) : Prop := {
  wy_len0 : length l0 = Z.to_nat NINODE;
  wy_len : length l = Z.to_nat NINODE;
  wy_few : forall i r0, l0 !! i = Some r0 -> 0 <= i_ref r0 < 2 ^ 31 - 2;
  wy_slot : forall i r0 r, l0 !! i = Some r0 -> l !! i = Some r -> inode_way (held i) (lk i) r0 r;
  wy_unique : unique l
}.

Definition no_refs : nat -> Z := fun _ => 0.
Definition extra (held : nat -> Z) (ip : nat) : nat -> Z := fun i => held i + if decide (i = ip) then 1 else 0.
Definition all_open : nat -> option Z := fun _ => None.
Definition only_shut (ip : nat) (pid : Z) : nat -> option Z := fun i => if decide (i = ip) then Some pid else None.

(** An entry changes. *)
Lemma way_insert held lk held' lk' l ip r r' :
  way held lk l -> l !! ip = Some r ->
  (forall r0, l0 !! ip = Some r0 -> inode_way (held ip) (lk ip) r0 r -> inode_way (held' ip) (lk' ip) r0 r') ->
  (forall i, i <> ip -> held' i = held i /\ lk' i = lk i) -> unique (<[ip := r']> l) -> way held' lk' (<[ip := r']> l).
Proof.
  intros W E Hs Ho U. destruct W as [L0 L F S _]. split; [done|by rewrite length_insert|done| |done].
  intros i r0 x E0 Ex. apply list_lookup_insert_Some in Ex as [(<- & <- & _)|[Hi Ex]].
  - apply Hs; [done|by apply S].
  - destruct (Ho i ltac:(done)) as [-> ->]. by apply S.
Qed.

(** Uniqueness of an entry that stays what it is, or gets free. *)
Lemma unique_insert l ip r r' :
  unique l -> l !! ip = Some r -> (0 < i_ref r' -> 0 < i_ref r /\ i_dev r' = i_dev r /\ i_inum r' = i_inum r) -> unique (<[ip := r']> l).
Proof.
  intros U E Hr a b ra rb Ea Eb Ha (Hb & Hbd & Hbn).
  apply list_lookup_insert_Some in Ea as [(<- & <- & _)|[Hna Ea]], Eb as [(Eip & <- & _)|[Hnb Eb]]; try done.
  - destruct (Hr Ha) as (R1 & R2 & R3). apply (U ip b r rb); try done. split; [done|]. by rewrite <- R2, <- R3.
  - subst b. destruct (Hr Hb) as (R1 & R2 & R3). apply (U a ip ra r); try done. split; [done|]. by rewrite <- R2, <- R3.
  - by apply (U a b ra rb).
Qed.

Lemma way_refs held lk l : way held lk l -> (forall i, held i <= 1) -> forall i r, l !! i = Some r -> 0 <= i_ref r < 2 ^ 31 - 1.
Proof.
  intros [L0 L F S _] Hh i r E. destruct (lookup_lt_is_Some_2 l0 i) as [r0 E0]; [rewrite L0, <- L; by eapply lookup_lt_Some|].
  pose proof (S _ _ _ E0 E) as [Hr Hn _ _ _]. pose proof (F _ _ E0). specialize (Hh i). lia.
Qed.

(** [iget] and [idup]. *)
Lemma way_take held lk l ip r x inum :
  way held lk l -> l !! ip = Some r -> live V inum -> i_ref r <= 2 ^ 31 - 2 ->
  unique (<[ip := x]> l) -> i_ref x = i_ref r + 1 -> i_dev x = dev -> i_inum x = inum -> i_lock x = i_lock r ->
  (0 < i_ref r -> x = set_i_ref (i_ref r + 1) r) -> (i_ref r = 0 -> i_valid x = 0) -> way (extra held ip) lk (<[ip := x]> l).
Proof.
  intros W E Hl Hm U Hr Hd Hn Hk Hs Hv. apply (way_insert held lk _ _ l ip r x W E); [| |done].
  - intros r0 E0 S. pose proof (wy_few _ _ _ W _ _ E0). destruct S as [S1 S2 S3 S4 S5]. unfold extra. rewrite decide_True by done.
    split; [lia|lia| | |by rewrite Hk].
    + intros Hz0. rewrite Hs by lia. by apply S3.
    + intros _. rewrite Hn. split; [done|]. split; [done|]. intros Hx. destruct (decide (0 < i_ref r)) as [Hp|]; [|rewrite Hv in Hx by lia; done].
      rewrite <- Hn, (Hs Hp). rewrite (Hs Hp) in Hx. by apply S4.
  - intros i Hi. unfold extra. rewrite decide_False by done. by rewrite Z.add_0_r.
Qed.

Lemma way_pick held lk l inum ip x :
  way held lk l -> (forall i, held i <= 1) -> live V inum -> pick dev inum l = Some (ip, x) ->
  way (extra held ip) lk (<[ip := x]> l) /\ names dev inum x.
Proof.
  intros W Hh Hl Ep. pose proof (way_refs _ _ _ W Hh) as Hrefs. pose proof (pick_unique _ _ _ _ _ Hrefs (wy_unique _ _ _ W) Ep) as U.
  destruct (pick_entry _ _ _ _ _ Hrefs Ep) as ((Hp & Hd & Hn) & r & Er & Hr & Hs). split; [|done]. pose proof (Hrefs _ _ Er).
  apply (way_take held lk l ip r x inum); try done; [lia| |].
  - destruct (decide (0 < i_ref r)) as [Hpos|Hz]; [by rewrite (Hs Hpos)|]. unfold pick in Ep. destruct (list_find (names dev inum) l) as [[j y]|] eqn:Ef.
    + apply list_find_Some in Ef as (Ej & (Hy & _) & _). injection Ep as <- _. rewrite Er in Ej. injection Ej as ->. lia.
    + destruct (list_find empty_entry l) as [[j y]|] eqn:Ee; [|done]. apply list_find_Some in Ee as (Ej & _). injection Ep as <- <-. rewrite Er in Ej. by injection Ej as ->.
  - intros Hz. unfold pick in Ep. destruct (list_find (names dev inum) l) as [[j y]|] eqn:Ef.
    + apply list_find_Some in Ef as (Ej & (Hy & _) & _). injection Ep as <- _. rewrite Er in Ej. injection Ej as ->. lia.
    + destruct (list_find empty_entry l) as [[j y]|] eqn:Ee; [|done]. by injection Ep as <- <-.
Qed.

(** [iput]. *)
Lemma way_put held held' l ip r :
  way held' all_open l -> l !! ip = Some r -> (forall i, held' i = extra held ip i) -> 0 <= held ip -> i_ref r < 2 ^ 31 ->
  way held all_open (<[ip := less_refs r]> l).
Proof.
  intros W E Hh Hp Hm. destruct (lookup_lt_is_Some_2 l0 ip) as [r0 E0]; [rewrite (wy_len0 _ _ _ W), <- (wy_len _ _ _ W); by eapply lookup_lt_Some|].
  pose proof (wy_slot _ _ _ W _ _ _ E0 E) as [S1 S2 S3 S4 S5]. rewrite Hh in S1. unfold extra in S1. rewrite decide_True in S1 by done.
  pose proof (wy_few _ _ _ W _ _ E0). assert (i_ref (less_refs r) = i_ref r - 1) as El.
  { unfold less_refs. cbn. rewrite <- (Z.mod_small (i_ref r - 1) (2 ^ 32)) at 1 by lia. apply i32_small. lia. }
  apply (way_insert held' all_open _ _ l ip r _ W E).
  - intros r0' E0' _. rewrite E0 in E0'. injection E0' as <-. split; [lia|done|done| |done]. intros Hr. rewrite El in Hr. by apply S4; lia.
  - intros i Hi. split; [|done]. rewrite Hh. unfold extra. rewrite decide_False by done. lia.
  - apply (unique_insert l ip r); [apply W|done|]. rewrite El. intros Hr. split; [lia|done].
Qed.

(** [ilock] and [iunlock]. *)
Lemma way_lock held l ip r r' pid :
  way held all_open l -> l !! ip = Some r -> 0 < i_ref r -> i_ref r' = i_ref r -> i_dev r' = i_dev r -> i_inum r' = i_inum r ->
  same_dinode (dinode_of sb V (i_inum r)) r' -> sk_locked (i_lock r') = 1 -> sk_pid (i_lock r') = pid ->
  way held (only_shut ip pid) (<[ip := r']> l).
Proof.
  intros W E Hp Hr Hd Hn Hs Hk1 Hk2. apply (way_insert held all_open _ _ l ip r r' W E).
  - intros r0 E0 [S1 S2 S3 S4 S5]. unfold only_shut. rewrite decide_True by done. rewrite <- Hr, <- Hn, <- Hd in *. split; try done.
    intros Hz0. destruct (S4 Hz0) as (? & ? & _). done.
  - intros i Hi. unfold only_shut. by rewrite decide_False.
  - apply (unique_insert l ip r); [apply W|done|]. rewrite Hr, Hd, Hn. done.
Qed.

Lemma way_unlock held l ip r pid nm :
  way held (only_shut ip pid) l -> l !! ip = Some r -> way held all_open (<[ip := set_i_lock (mkSleep 0 nm 0) r]> l).
Proof.
  intros W E. apply (way_insert held (only_shut ip pid) _ _ l ip r _ W E).
  - intros r0 E0 [S1 S2 S3 S4 S5]. by split.
  - intros i Hi. unfold only_shut. by rewrite decide_False.
  - apply (unique_insert l ip r); [apply W|done|done].
Qed.

(** Of two free entries one is left while one inode is held. *)
Definition two_free : Prop := exists a b ra rb, a <> b /\ l0 !! a = Some ra /\ l0 !! b = Some rb /\ i_ref ra = 0 /\ i_ref rb = 0.

Lemma way_free held lk l p inum : two_free -> way held lk l -> (forall i, i <> p -> held i = 0) -> pick dev inum l <> None.
Proof.
  intros (a & b & ra & rb & Hab & Ea & Eb & Za & Zb) W Hh.
  assert (exists i r0, l0 !! i = Some r0 /\ i_ref r0 = 0 /\ i <> p) as (i & r0 & E0 & Z0 & Hi).
  { destruct (decide (a = p)) as [->|]; [exists b, rb|exists a, ra]; by split_and!. }
  destruct (lookup_lt_is_Some_2 l i) as [r E]; [rewrite (wy_len _ _ _ W), <- (wy_len0 _ _ _ W); by eapply lookup_lt_Some|].
  pose proof (so_ref _ _ _ _ (wy_slot _ _ _ W _ _ _ E0 E)) as Hr. rewrite (Hh i Hi), Z0 in Hr. unfold pick.
  destruct (list_find (names dev inum) l) as [[]|]; [done|]. destruct (list_find empty_entry l) as [[]|] eqn:Ee; [done|].
  apply list_find_None in Ee. rewrite list.Forall_lookup in Ee. by specialize (Ee i r E Hr).
Qed.
End Table.

(** Entries in use stay what they are. *)
Definition same_names (l l' : list inode) : Prop :=
  forall i r, l !! i = Some r -> 0 < i_ref r -> exists r', l' !! i = Some r' /\ i_dev r' = i_dev r /\ i_inum r' = i_inum r.

Lemma same_names_insert (l : list inode) i r r' :
  l !! i = Some r -> (0 < i_ref r -> i_dev r' = i_dev r /\ i_inum r' = i_inum r) -> same_names l (<[i := r']> l).
Proof.
  intros E Hr j x Ej Hx. destruct (decide (j = i)) as [->|Hj].
  - rewrite E in Ej. injection Ej as <-. exists r'. split; [apply list_lookup_insert_eq; by eapply lookup_lt_Some|by apply Hr].
  - exists x. by rewrite list_lookup_insert_ne.
Qed.

(** * The steps of the kernel *)

(** What happens beside the table of inodes. *)
Definition steps k k' : Prop := in_op me (set_k_inodes (k_inodes k') k) k'.

Lemma steps_in k k' : in_op me k k' -> steps k k'.
Proof. intros O. unfold steps. rewrite (in_op_inodes me k k' O). by destruct k. Qed.
#[export] Instance steps_preorder : PreOrder steps.
Proof.
  split; [intros k; by apply steps_in|]. intros k1 k2 k3 S1 S2. unfold steps in *.
  etrans; [|exact S2]. exact (in_op_set_inodes me _ _ (k_inodes k3) S1).
Qed.
Lemma steps_inodes k l : steps k (set_k_inodes l k).
Proof. by unfold steps. Qed.
Lemma steps_pid k k' : steps k k' -> pid_of me k' = pid_of me k.
Proof. intros (_ & _ & _ & _ & (_ & E & _) & _). unfold pid_of. by rewrite E. Qed.

Lemma steps_txn bs A k k' : fs_op bs A k -> steps k k' -> txn c me dev start bs A k' -> fs_op bs A k'.
Proof. intros [T Hh Ho Hs] (E1 & _ & _ & _ & _ & E) T'. split; try done; [by rewrite E1|by rewrite E]. Qed.

Lemma txn_woken bs A k ps : txn c me dev start bs A k -> procs_woken me (k_proc k) ps -> txn c me dev start bs A (set_k_proc ps k).
Proof.
  intros [Q B L] Hw. assert (bframe me k (set_k_proc ps k)) as F by by split. split; try done.
  - by apply (bframe_quiet _ _ _ _ F).
  - apply (bio_same_bufs me dev k); try done. apply B.
  - by destruct L.
Qed.
Lemma steps_woken k ps : procs_woken me (k_proc k) ps -> steps k (set_k_proc ps k).
Proof. intros Hw. apply steps_in. split_and!; try done. Qed.

(** [releasesleep] of the lock of an inode. *)
Lemma releasesleep_way bs A k ip r :
  fs_op bs A k -> (ip < Z.to_nat NINODE)%nat -> k_inodes k !! ip = Some r ->
  exists k', releasesleep (SInode ip) k = Ok tt k' /\ fs_op bs A k' /\ steps k k' /\
    k_inodes k' = <[ip := set_i_lock (mkSleep 0 (sk_name (i_lock r)) 0) r]> (k_inodes k).
Proof.
  intros F Hip E. pose proof (tx_quiet _ _ _ _ _ _ _ (fo_txn _ _ _ _ _ _ _ _ _ F)) as Q.
  assert (sleep_at (SInode ip) k = Some (i_lock r)) as Hsl by (unfold sleep_at; by rewrite E).
  rewrite (releasesleep_ok c me (SInode ip) (i_lock r) k Q Hip Hsl). unfold put_sleep. rewrite (alter_insert _ _ _ _ E).
  set (l := <[ip := _]> (k_inodes k)). set (ps := woken _ _ _). pose proof (woken_procs (ChSleep (SInode ip)) me (k_proc k)) as Hw.
  assert (steps k (set_k_proc ps (set_k_inodes l k))) as S by (etrans; [apply (steps_inodes k l)|by apply steps_woken]).
  eexists. split; [reflexivity|]. split; [|done]. apply (steps_txn bs A k); [done|done|]. apply txn_woken; [apply txn_set_inodes, F|done].
Qed.

Section Walk.
Context (V : disk) (l0 : list inode) (bs : list Z) (A : acache) (HV : a_view A = V) (TR : tree_ok V) (TF : two_free l0).
Notation way := (way V l0).

(** [iunlock]. *)
Lemma iunlock_ok held k ip r :
  fs_op bs A k -> way held (only_shut ip (pid_of me k)) (k_inodes k) -> k_inodes k !! ip = Some r -> 0 < i_ref r ->
  exists k', iunlock ip k = Ok tt k' /\ fs_op bs A k' /\ way held all_open (k_inodes k') /\ steps k k' /\
    k_inodes k' = <[ip := set_i_lock (mkSleep 0 (sk_name (i_lock r)) 0) r]> (k_inodes k).
Proof.
  intros F W E Hp. pose proof (lookup_lt_Some _ _ _ E) as Hip. rewrite (wy_len _ _ _ _ _ W) in Hip.
  destruct (lookup_lt_is_Some_2 l0 ip) as [r0 E0]; [by rewrite (wy_len0 _ _ _ _ _ W)|].
  pose proof (so_lock _ _ _ _ _ (wy_slot _ _ _ _ _ W _ _ _ E0 E)) as Hk. unfold only_shut in Hk. rewrite decide_True in Hk by done. destruct Hk as [Hk1 Hk2].
  pose proof (tx_quiet _ _ _ _ _ _ _ (fo_txn _ _ _ _ _ _ _ _ _ F)) as Q.
  assert (sleep_at (SInode ip) k = Some (i_lock r)) as Hsl by (unfold sleep_at; by rewrite E).
  unfold iunlock. rewrite (bind_Ok _ _ _ _ _ (holdingsleep_ok c me (SInode ip) (i_lock r) k Q Hip Hsl)), Hk1, Hk2, Z.eqb_refl. cbn [negb andb Z.eqb].
  rewrite (bind_Ok _ _ _ _ _ (get_inode_ok _ _ _ E)). destruct (Z.ltb_spec (i_ref r) 1); [lia|].
  destruct (releasesleep_way bs A k ip r F Hip E) as (k' & E' & F' & S & K). exists k'. split; [done|]. split; [done|]. split; [|done].
  rewrite K. by eapply way_unlock.
Qed.

(** [iput] of an inode that has links, or other references. *)
Lemma iput_way held held' k ip r :
  fs_op bs A k -> way held' all_open (k_inodes k) -> k_inodes k !! ip = Some r -> (forall i, held' i = extra held ip i) -> 0 <= held ip <= 1 ->
  i_ref r <> 1 \/ i_valid r = 0 \/ i_nlink r <> 0 ->
  exists k', iput ip k = Ok tt k' /\ fs_op bs A k' /\ way held all_open (k_inodes k') /\ steps k k'.
Proof.
  intros F W E Hh Hb Hr. pose proof (lookup_lt_Some _ _ _ E) as Hip. rewrite (wy_len _ _ _ _ _ W) in Hip.
  destruct (lookup_lt_is_Some_2 l0 ip) as [r0 E0]; [by rewrite (wy_len0 _ _ _ _ _ W)|].
  pose proof (so_ref _ _ _ _ _ (wy_slot _ _ _ _ _ W _ _ _ E0 E)) as Hn. rewrite Hh in Hn. unfold extra in Hn. rewrite decide_True in Hn by done.
  pose proof (wy_few _ _ _ _ _ W _ _ E0).
  eexists. split; [exact (iput_ok c me k (tx_quiet _ _ _ _ _ _ _ (fo_txn _ _ _ _ _ _ _ _ _ F)) ip r E Hr)|].
  split; [by apply fs_op_inodes|]. split; [eapply way_put; try done; lia|apply steps_inodes].
Qed.

(** [ilock] loads what the disk has. *)
Lemma ilock_way held k ip r :
  fs_op bs A k -> way held all_open (k_inodes k) -> k_inodes k !! ip = Some r -> 0 < i_ref r ->
  exists k' r', ilock ip k = Ok tt k' /\ fs_op bs A k' /\ way held (only_shut ip (pid_of me k')) (k_inodes k') /\ steps k k' /\
    k_inodes k' !! ip = Some r' /\ i_dev r' = dev /\ i_inum r' = i_inum r /\ same_dinode (dinode_of sb V (i_inum r)) r'.
Proof.
  intros F W E Hp. pose proof (lookup_lt_Some _ _ _ E) as Hip. pose proof Hip as Hip'. rewrite (wy_len _ _ _ _ _ W) in Hip'.
  destruct (lookup_lt_is_Some_2 l0 ip) as [r0 E0]; [by rewrite (wy_len0 _ _ _ _ _ W)|].
  pose proof (wy_slot _ _ _ _ _ W _ _ _ E0 E) as [S1 S2 S3 S4 S5]. destruct (S4 Hp) as (Hd & [Hrange Hty] & Hv).
  assert (entry dev sb ip (i_inum r) r k) as En by by split.
  destruct (Z.eqb_spec (i_valid r) 0) as [Ev|Ev].
  - pose proof (ilock_ok c me dev start sb (fl_inodes _ _ FL) bs A k ip (i_inum r) r F En ltac:(lia) Ev S5) as P.
    set (r' := loaded me sb A k (i_inum r) r) in *.
    assert (same_dinode (dinode_of sb V (i_inum r)) r') as Hs by (rewrite <- HV; done).
    destruct (Z.eqb_spec (i_type r') 0) as [Et|_]; [exfalso; apply Hty; by rewrite <- (proj1 Hs)|].
    destruct P as (k' & E' & F' & Ek & O). exists k', r'. pose proof (steps_pid k k' O) as Epid.
    split; [done|]. split; [done|]. split; [|split; [done|split; [rewrite Ek; by apply list_lookup_insert_eq|done]]].
    rewrite Ek, Epid. by apply (way_lock V l0 held _ ip r).
  - pose proof (ilock_valid_ok c me dev start sb bs A k ip (i_inum r) r F En ltac:(lia) Ev S5) as P.
    set (r' := set_i_lock _ r) in *. set (k' := set_k_inodes _ k) in *. specialize (Hv Ev).
    assert (same_dinode (dinode_of sb V (i_inum r)) r') as Hs by (destruct Hv as (? & ? & ? & ? & ? & ?); done).
    exists k', r'. split; [done|]. split; [by apply fs_op_inodes|]. split; [|split; [apply steps_inodes|split; [by apply list_lookup_insert_eq|done]]].
    by apply (way_lock V l0 held _ ip r).
Qed.

Lemma read_way k ip r j :
  fs_op bs A k -> k_inodes k !! ip = Some r -> i_dev r = dev -> live V j -> same_dinode (dinode_of sb V j) r -> read_op bs A k ip r.
Proof.
  intros F E Hd Hl Hs. destruct (tr_file _ TR j Hl) as [Ty Fk]. rewrite <- HV in Fk. split; try done; [apply F|apply F|by eapply same_typed|].
  by eapply same_file_ok; [rewrite <- HV in Hs|].
Qed.

(** [iget]. *)
Lemma iget_way held lk k p inum :
  fs_op bs A k -> way held lk (k_inodes k) -> (forall i, i <> p -> held i = 0) -> held p <= 1 -> live V inum ->
  exists ip x k', iget dev inum k = Ok ip k' /\ fs_op bs A k' /\ way (extra held ip) lk (k_inodes k') /\ steps k k' /\
    same_names (k_inodes k) (k_inodes k') /\ k_inodes k' !! ip = Some x /\ names dev inum x.
Proof.
  intros F W Hh Hp Hl. pose proof (way_free V l0 held lk _ p inum TF W Hh) as Hn.
  pose proof (iget_ok c me dev inum k (tx_quiet _ _ _ _ _ _ _ (fo_txn _ _ _ _ _ _ _ _ _ F)) (wy_len _ _ _ _ _ W)) as P.
  destruct (pick dev inum (k_inodes k)) as [[ip x]|] eqn:Ep; [|done].
  assert (forall i, held i <= 1) as Hh1 by (intros i; destruct (decide (i = p)) as [->|]; [done|by rewrite Hh]).
  destruct (way_pick V l0 held lk _ inum ip x W Hh1 Hl Ep) as [W' Hx].
  destruct (pick_entry _ _ _ _ _ (way_refs V l0 _ _ _ W Hh1) Ep) as (_ & r & Er & _ & Hs).
  exists ip, x, (set_k_inodes (<[ip := x]> (k_inodes k)) k). split; [done|]. split; [by apply fs_op_inodes|]. split; [done|].
  split; [apply steps_inodes|]. split; [|split; [apply list_lookup_insert_eq; by eapply lookup_lt_Some|done]].
  apply same_names_insert with r; [done|]. intros Hr. by rewrite (Hs Hr).
Qed.

(** An inode that [iput] leaves on the disk: it has links, or had references before. *)
Definition stays (ip : nat) (j : Z) : Prop := i_nlink (dinode_of sb V j) <> 0 \/ exists r0, l0 !! ip = Some r0 /\ 0 < i_ref r0.

Lemma stays_put held lk l ip r :
  way held lk l -> l !! ip = Some r -> 1 <= held ip -> stays ip (i_inum r) -> i_ref r <> 1 \/ i_valid r = 0 \/ i_nlink r <> 0.
Proof.
  intros W E Hh Hs. destruct (lookup_lt_is_Some_2 l0 ip) as [r0 E0]; [rewrite (wy_len0 _ _ _ _ _ W), <- (wy_len _ _ _ _ _ W); by eapply lookup_lt_Some|].
  pose proof (wy_slot _ _ _ _ _ W _ _ _ E0 E) as [S1 S2 S3 S4 S5]. pose proof (wy_few _ _ _ _ _ W _ _ E0).
  destruct Hs as [Hn|(x & Ex & Hx)]; [|rewrite E0 in Ex; injection Ex as <-; left; lia].
  destruct (S4 ltac:(lia)) as (_ & _ & Hv). destruct (decide (i_valid r = 0)) as [|Hv0]; [by right; left|]. right; right.
  destruct (Hv Hv0) as (_ & _ & _ & El & _). by rewrite El.
Qed.

(** [iunlockput]. *)
Lemma iunlockput_way held held' k ip r :
  fs_op bs A k -> way held' (only_shut ip (pid_of me k)) (k_inodes k) -> k_inodes k !! ip = Some r ->
  (forall i, held' i = extra held ip i) -> 0 <= held ip <= 1 -> stays ip (i_inum r) ->
  exists k', iunlockput ip k = Ok tt k' /\ fs_op bs A k' /\ way held all_open (k_inodes k') /\ steps k k' /\ same_names (k_inodes k) (k_inodes k').
Proof.
  intros F W E Hh Hb Hs. pose proof (lookup_lt_Some _ _ _ E) as Hip.
  destruct (lookup_lt_is_Some_2 l0 ip) as [r0 E0]; [by rewrite (wy_len0 _ _ _ _ _ W), <- (wy_len _ _ _ _ _ W)|].
  pose proof (so_ref _ _ _ _ _ (wy_slot _ _ _ _ _ W _ _ _ E0 E)) as Hn. rewrite Hh in Hn. unfold extra in Hn. rewrite decide_True in Hn by done.
  pose proof (wy_few _ _ _ _ _ W _ _ E0) as Hf.
  destruct (iunlock_ok held' k ip r F W E ltac:(lia)) as (k1 & E1 & F1 & W1 & O1 & K1).
  set (r1 := set_i_lock _ r) in *. assert (k_inodes k1 !! ip = Some r1) as Er1 by (rewrite K1; by apply list_lookup_insert_eq).
  assert (1 <= held' ip) as Hge by (rewrite Hh; unfold extra; rewrite decide_True by done; lia).
  pose proof (stays_put _ _ _ ip r1 W1 Er1 Hge Hs) as Hr1.
  pose proof (iput_ok c me k1 (tx_quiet _ _ _ _ _ _ _ (fo_txn _ _ _ _ _ _ _ _ _ F1)) ip r1 Er1 Hr1) as E2.
  unfold iunlockput. rewrite (bind_Ok _ _ _ _ _ E1). eexists. split; [exact E2|]. split; [by apply fs_op_inodes|].
  split; [eapply way_put; try done; [lia|cbn; lia]|]. split; [etrans; [exact O1|apply steps_inodes]|].
  cbn [k_inodes set_k_inodes]. rewrite K1, list_insert_insert_eq. by apply same_names_insert with r.
Qed.

(** [dirlookup]. *)
Lemma dirlookup_way k lk ip r j name :
  fs_op bs A k -> way (extra no_refs ip) lk (k_inodes k) -> k_inodes k !! ip = Some r -> i_dev r = dev ->
  live V j -> same_dinode (dinode_of sb V j) r -> is_folder sb V j -> full DIRSIZ name ->
  match child sb V j (cname name) with
  | None => exists k', dirlookup ip name k = Ok None k' /\ fs_op bs A k' /\ k_inodes k' = k_inodes k /\ steps k k'
  | Some i => exists ip' off x k', dirlookup ip name k = Ok (Some (ip', off)) k' /\ fs_op bs A k' /\
      way (extra (extra no_refs ip) ip') lk (k_inodes k') /\ steps k k' /\ same_names (k_inodes k) (k_inodes k') /\
      k_inodes k' !! ip' = Some x /\ names dev i x
  end.
Proof.
  intros F W E Hd Hl Hs Hf Hname. pose proof (read_way k ip r j F E Hd Hl Hs) as R.
  pose proof (same_dir V _ _ Hs (tr_dir _ TR j Hl Hf)) as D. pose proof (tr_link _ TR j (cname name)) as HL.
  destruct (dirlookup_ok c me dev start sb Hdev FL bs A ip r ltac:(by rewrite HV) name k Hname R) as (k1 & R1 & O1 & E1).
  pose proof (in_op_inodes me k k1 O1) as Ek. pose proof (steps_txn bs A k k1 F (steps_in _ _ O1) (rd_txn _ _ _ _ _ _ _ _ _ _ R1)) as F1.
  unfold child in *. rewrite decide_True in * by done. unfold dir_get in *. rewrite HV, (same_ents V _ _ Hs) in E1.
  destruct (list_find _ _) as [[i e]|]; cbn [fmap option_fmap option_map fst snd] in *.
  - destruct (HL (fst e) Hl eq_refl) as [Hle _]. rewrite <- Ek in W.
    destruct (iget_way (extra no_refs ip) lk k1 ip (fst e) F1 W) as (ip' & x & k2 & E2 & F2 & W2 & O2 & N2 & Ex & Hx); [|unfold extra, no_refs; case_decide; lia|done|].
    { intros a Ha. unfold extra, no_refs. by rewrite decide_False. }
    rewrite (bind_Ok _ _ _ _ _ E2) in E1. rewrite Ek in N2. exists ip', (16 * Z.of_nat i), x, k2. split; [done|]. split; [done|]. split; [done|].
    split; [etrans; [by apply steps_in|done]|]. done.
  - exists k1. split; [done|]. split; [done|]. split; [done|by apply steps_in].
Qed.

(** * The walk *)

(** What [namex] gives back for target [t]. *)
Definition arrives (parent : bool) (es : list (list Z)) (t : option Z) (res : option nat) (name : list Z) k : Prop :=
  match t with
  | Some i => exists ip r, res = Some ip /\ way (extra no_refs ip) all_open (k_inodes k) /\ k_inodes k !! ip = Some r /\
      names dev i r /\ (parent = true -> List.last es [] = cname name)
  | None => res = None /\ way no_refs all_open (k_inodes k)
  end.

Lemma arrives_cons parent nm es t res name k : (parent = true -> es <> []) -> arrives parent es t res name k -> arrives parent (nm :: es) t res name k.
Proof.
  intros Hes. unfold arrives. destruct t as [i|]; [|done]. intros (ip & r & E & W & Ei & Hn & Hl). exists ip, r. split; [done|]. split; [done|].
  split; [done|]. split; [done|]. intros Hp. specialize (Hes Hp). destruct es as [|e es]; [done|]. exact (Hl Hp).
Qed.

Lemma held_pos lk ip r k : way (extra no_refs ip) lk (k_inodes k) -> k_inodes k !! ip = Some r -> 0 < i_ref r.
Proof.
  intros W E. destruct (lookup_lt_is_Some_2 l0 ip) as [r0 E0]; [rewrite (wy_len0 _ _ _ _ _ W), <- (wy_len _ _ _ _ _ W); by eapply lookup_lt_Some|].
  pose proof (so_ref _ _ _ _ _ (wy_slot _ _ _ _ _ W _ _ _ E0 E)) as Hr. pose proof (wy_few _ _ _ _ _ W _ _ E0).
  unfold extra, no_refs in Hr. rewrite decide_True in Hr by done. lia.
Qed.

(** The inode is given up and there is no result. *)
Lemma leave_way k ip r j :
  fs_op bs A k -> way (extra no_refs ip) (only_shut ip (pid_of me k)) (k_inodes k) -> k_inodes k !! ip = Some r -> i_inum r = j -> stays ip j ->
  exists k', iunlockput ip k = Ok tt k' /\ fs_op bs A k' /\ way no_refs all_open (k_inodes k') /\ steps k k'.
Proof.
  intros F W E <- Hs. destruct (iunlockput_way no_refs _ k ip r F W E ltac:(done) ltac:(done) Hs) as (k' & E' & F' & W' & O' & _). by exists k'.
Qed.

Lemma namex_loop_ok parent fuel : forall path name k ip r j,
  text path -> (length path < fuel)%nat -> fs_op bs A k -> way (extra no_refs ip) all_open (k_inodes k) ->
  k_inodes k !! ip = Some r -> names dev j r -> live V j -> stays ip j ->
  exists k' res name', namex_loop fuel ip path name parent k = Ok (res, name') k' /\ fs_op bs A k' /\ steps k k' /\
    arrives parent (elements path) (target sb V parent j (elements path)) res name' k'.
Proof.
  induction fuel as [|fuel IH]; intros path name k ip r j Ht Hf F W E (Hp & Hd & Hj) Hl Hst; [lia|]. cbn [namex_loop].
  pose proof (skipelem_ok path name Ht) as Sk. destruct (skipelem path name) as [[rest name']|].
  2:{ rewrite Sk. destruct parent; cbn [target resolve resolve_parent arrives].
      - destruct (iput_way no_refs _ k ip r F W E ltac:(done) ltac:(done)) as (k' & E' & F' & W' & O').
        { apply (stays_put _ _ _ ip r W E); [unfold extra, no_refs; rewrite decide_True by done; lia|by rewrite Hj]. }
        exists k', None, name. by rewrite (bind_Ok _ _ _ _ _ E').
      - exists k, (Some ip), name. split; [done|]. split; [done|]. split; [done|]. exists ip, r. done. }
  destruct Sk as (-> & Hname & Hrest & Hlen & Hnil).
  destruct (ilock_way _ k ip r F W E Hp) as (k1 & r1 & E1 & F1 & W1 & O1 & Er1 & Hd1 & Hj1 & S1). rewrite Hj in Hj1, S1.
  rewrite (bind_Ok _ _ _ _ _ E1), (bind_Ok _ _ _ _ _ (get_inode_ok _ _ _ Er1)), (proj1 S1).
  destruct (Z.eqb_spec (i_type (dinode_of sb V j)) T_DIR) as [Hdir|Hdir]; cbn [negb].
  2:{ rewrite target_file by done. destruct (leave_way k1 ip r1 j F1 W1 Er1 Hj1 Hst) as (k2 & E2 & F2 & W2 & O2).
      exists k2, None, name'. rewrite (bind_Ok _ _ _ _ _ E2). split; [done|]. split; [done|]. split; [by etrans|done]. }
  destruct (parent && bool_decide (rest = [])) eqn:Elast.
  { apply andb_true_iff in Elast as [-> Er]. apply bool_decide_eq_true in Er. rewrite (proj1 Hnil Er), target_here by done.
    destruct (iunlock_ok _ k1 ip r1 F1 W1 Er1 (held_pos _ ip r1 k1 W1 Er1)) as (k2 & E2 & F2 & W2 & O2 & K2).
    exists k2, (Some ip), name'. rewrite (bind_Ok _ _ _ _ _ E2). split; [done|]. split; [done|]. split; [by etrans|].
    exists ip, (set_i_lock (mkSleep 0 (sk_name (i_lock r1)) 0) r1). rewrite K2. split; [done|]. split; [by rewrite <- K2|].
    split; [apply list_lookup_insert_eq; by eapply lookup_lt_Some|]. split; [|done]. split; [exact (held_pos _ ip r1 k1 W1 Er1)|done]. }
  assert (parent = true -> elements rest <> []) as Hes.
  { intros -> Ee. apply Hnil in Ee. by rewrite Ee in Elast. }
  rewrite target_step by done. pose proof (tr_link _ TR j (cname name') ) as HL.
  pose proof (dirlookup_way k1 _ ip r1 j name' F1 W1 Er1 Hd1 Hl S1 Hdir Hname) as P.
  destruct (child sb V j (cname name')) as [i|]; cbn [mbind option_bind].
  - destruct P as (ip' & off & x & k2 & E2 & F2 & W2 & O2 & N2 & Ex & Hx). destruct (HL i Hl eq_refl) as [Hli Hln].
    rewrite (bind_Ok _ _ _ _ _ E2). destruct (N2 ip r1 Er1 (held_pos _ ip r1 k1 W1 Er1)) as (r2 & Er2 & Hd2 & Hj2).
    rewrite <- (steps_pid _ _ O2) in W2.
    destruct (iunlockput_way (extra no_refs ip') _ k2 ip r2 F2 W2 Er2) as (k3 & E3 & F3 & W3 & O3 & N3).
    { intros a. unfold extra. lia. }
    { unfold extra, no_refs. case_decide; lia. }
    { by rewrite Hj2, Hj1. }
    rewrite (bind_Ok _ _ _ _ _ E3). destruct (N3 ip' x Ex (proj1 Hx)) as (r3 & Er3 & Hd3 & Hj3).
    destruct (IH rest name' k3 ip' r3 i Hrest ltac:(lia) F3 W3 Er3) as (k4 & res & nm & E4 & F4 & O4 & Ar); [|done|by left|].
    { split; [exact (held_pos _ ip' r3 k3 W3 Er3)|]. destruct Hx as (_ & ? & ?). split; congruence. }
    exists k4, res, nm. split; [done|]. split; [done|]. split; [etrans; [exact O1|etrans; [exact O2|by etrans]]|].
    by apply arrives_cons.
  - destruct P as (k2 & E2 & F2 & K2 & O2). rewrite (bind_Ok _ _ _ _ _ E2). rewrite <- K2, <- (steps_pid _ _ O2) in W1. rewrite <- K2 in Er1.
    destruct (leave_way k2 ip r1 j F2 W1 Er1 Hj1 Hst) as (k3 & E3 & F3 & W3 & O3). rewrite (bind_Ok _ _ _ _ _ E3).
    exists k3, None, name'. split; [done|]. split; [done|]. split; [etrans; [exact O1|by etrans]|done].
Qed.
End Walk.

(** * The theorem *)

(** The table between two steps of the file system: no inode is locked, each has one entry
    at most, and what has been read of an inode is what the disk has. *)
Record synced (V : disk) (l : list inode) : Prop := {
  sy_len : length l = Z.to_nat NINODE;
  sy_few : forall i r, l !! i = Some r -> 0 <= i_ref r < 2 ^ 31 - 2;
  sy_open : forall i r, l !! i = Some r -> sk_locked (i_lock r) = 0;
  sy_live : forall i r, l !! i = Some r -> 0 < i_ref r ->
    i_dev r = dev /\ live V (i_inum r) /\ (i_valid r <> 0 -> same_dinode (dinode_of sb V (i_inum r)) r);
  sy_unique : unique l
}.

Lemma synced_way V l : synced V l -> way V l no_refs all_open l.
Proof.
  intros [L F O S U]. split; try done. intros i r0 r E0 E. rewrite E in E0. injection E0 as <-.
  split; [unfold no_refs; lia|done|done|by apply (S i)|by apply (O i)].
Qed.

(** Where a path starts: the root directory, or the current directory of the process. *)
Definition absolute (path : list Z) : bool := match path with c :: _ => c =? 47 | [] => false end.
Definition starts_at k (path : list Z) (j : Z) : Prop :=
  if absolute path then j = ROOTINO
  else exists p d r, k_proc k !! me = Some p /\ p_cwd p = Some d /\ k_inodes k !! d = Some r /\ 0 < i_ref r /\ i_inum r = j.

(** [idup]. *)
Lemma idup_way V l0 bs A k ip r :
  fs_op bs A k -> way V l0 no_refs all_open (k_inodes k) -> k_inodes k !! ip = Some r -> 0 < i_ref r ->
  exists k' r', idup ip k = Ok ip k' /\ fs_op bs A k' /\ way V l0 (extra no_refs ip) all_open (k_inodes k') /\ steps k k' /\
    k_inodes k' !! ip = Some r' /\ names dev (i_inum r) r'.
Proof.
  intros F W E Hp. assert (forall i, no_refs i <= 1) as Hh by done. pose proof (way_refs V l0 _ _ _ W Hh ip r E) as Hr.
  destruct (lookup_lt_is_Some_2 l0 ip) as [r0 E0]; [rewrite (wy_len0 _ _ _ _ _ W), <- (wy_len _ _ _ _ _ W); by eapply lookup_lt_Some|].
  destruct (so_live _ _ _ _ _ (wy_slot _ _ _ _ _ W _ _ _ E0 E) Hp) as (Hd & Hl & _). pose proof (wy_few _ _ _ _ _ W _ _ E0).
  assert (i32 (i_ref r + 1) = i_ref r + 1) as E32.
  { rewrite <- (Z.mod_small (i_ref r + 1) (2 ^ 32)) at 1 by lia. apply i32_small. lia. }
  pose proof (tx_quiet _ _ _ _ _ _ _ (fo_txn _ _ _ _ _ _ _ _ _ F)) as Q. destruct (q_free _ _ _ Q LItable I) as [nm El].
  set (r' := set_i_ref (i_ref r + 1) r). set (k' := set_k_inodes (<[ip := r']> (k_inodes k)) k). exists k', r'.
  assert (k_inodes k' !! ip = Some r') as Er' by (apply list_lookup_insert_eq; by eapply lookup_lt_Some).
  split; [|split; [by apply fs_op_inodes|split; [|split; [apply steps_inodes|split; [done|split; [cbn; lia|done]]]]]].
  - unfold idup. rewrite (bind_Ok _ _ _ _ _ (acquire_ok c nm _ k (q_cpu _ _ _ Q) El)).
    assert (k_inodes (enter c nm LItable k) !! ip = Some r) as Ej by done. rewrite (bind_Ok _ _ _ _ _ (upd_inode_ok _ _ _ _ Ej)), E32.
    rewrite (bind_Ok (release LItable) _ tt _ k'); [done|]. apply (release_ok c nm LItable k'); [apply Q|done].
  - apply (way_take V l0 no_refs all_open _ ip r r' (i_inum r)); try done; [lia| |lia]. apply (unique_insert _ ip r); [apply W|done|done].
Qed.

(** The walk has started: it holds the inode where the path starts. *)
Definition started V bs A k j k1 ip r : Prop :=
  fs_op bs A k1 /\ way V (k_inodes k) (extra no_refs ip) all_open (k_inodes k1) /\ steps k k1 /\
  k_inodes k1 !! ip = Some r /\ names dev j r /\ live V j /\ stays V (k_inodes k) ip j.

Lemma cwd_way V bs A k p d r0 :
  fs_op bs A k -> synced V (k_inodes k) -> k_proc k !! me = Some p -> p_cwd p = Some d -> k_inodes k !! d = Some r0 -> 0 < i_ref r0 ->
  exists k1 r, (let! p := cur in let! r := get_proc p in let! d := deref (p_cwd r) in idup d) k = Ok d k1 /\ started V bs A k (i_inum r0) k1 d r.
Proof.
  intros F Sy Ep Ed Ei Hp. pose proof (tx_quiet _ _ _ _ _ _ _ (fo_txn _ _ _ _ _ _ _ _ _ F)) as Q.
  destruct (sy_live _ _ Sy d r0 Ei Hp) as (_ & Hl & _).
  destruct (idup_way V _ bs A k d r0 F (synced_way _ _ Sy) Ei Hp) as (k1 & r & E1 & F1 & W1 & O1 & Er' & Hn). exists k1, r.
  split; [|split; [done|split; [done|split; [done|split; [done|split; [done|split; [done|by right; exists r0]]]]]]].
  unfold cur. rewrite bind_assoc, (bind_Ok _ _ _ _ _ (myproc_ok c k (q_cpu _ _ _ Q))), (q_me _ _ _ Q). erewrite bind_Ok by reflexivity.
  rewrite (bind_Ok _ _ _ _ _ (get_proc_ok _ _ _ Ep)), Ed. erewrite bind_Ok by reflexivity. exact E1.
Qed.

Lemma start_way V bs A k path j :
  dev = ROOTDEV -> tree_ok V -> fs_op bs A k -> synced V (k_inodes k) -> two_free (k_inodes k) -> starts_at k path j ->
  exists k1 ip r, namex_start path k = Ok ip k1 /\ started V bs A k j k1 ip r.
Proof.
  intros Er TR F Sy TF St. unfold starts_at in St. destruct (absolute path) eqn:Ea.
  - subst j. destruct (tr_root _ TR) as [Hl Hnl]. destruct (iget_way V _ bs A TF no_refs all_open k O ROOTINO F (synced_way _ _ Sy) ltac:(done) ltac:(done) Hl)
      as (ip & r & k1 & E1 & F1 & W1 & O1 & _ & Ei & Hn). exists k1, ip, r.
    split; [|split; [done|split; [done|split; [done|split; [done|split; [done|split; [done|by left]]]]]]].
    rewrite Er in E1. destruct path as [|x path]; [done|]. cbn [absolute] in Ea. cbn [namex_start]. by rewrite Ea.
  - destruct St as (p & d & r0 & Ep & Ed & Ei & Hp & <-). destruct (cwd_way V bs A k p d r0 F Sy Ep Ed Ei Hp) as (k1 & r & E1 & S1).
    exists k1, d, r. split; [|done]. destruct path as [|x path]; [done|]. cbn [absolute] in Ea. cbn [namex_start]. by rewrite Ea.
Qed.

(** C5 A path is resolved as the tree of directories on the disk says.  [namex] returns an entry
    of the table for the inode that the elements of the path lead to, one after the other, or,
    for [nameiparent], for the directory that holds the last element, with its name; it
    returns 0 exactly when an element is missing or a directory is not one.  Of all the
    references it takes on its way only that to the result is left, it changes no byte of
    the disk, and it ends, without a panic, whatever the path. *)
Theorem namex_spec bs A k path parent j :
  dev = ROOTDEV -> text path -> tree_ok (a_view A) -> fs_op bs A k ->
  synced (a_view A) (k_inodes k) -> two_free (k_inodes k) -> starts_at k path j ->
  exists k' res name, namex path parent k = Ok (res, name) k' /\ fs_op bs A k' /\ steps k k' /\
    arrives (a_view A) (k_inodes k) parent (elements path) (target sb (a_view A) parent j (elements path)) res name k'.
Proof.
  intros Er Ht TR F Sy TF St.
  destruct (start_way (a_view A) bs A k path j Er TR F Sy TF St) as (k1 & ip & r & E1 & F1 & W1 & O1 & Ei & Hn & Hl & Hs).
  destruct (namex_loop_ok _ _ bs A eq_refl TR TF parent (S (length path)) path no_name k1 ip r j Ht ltac:(lia) F1 W1 Ei Hn Hl Hs)
    as (k2 & res & name & E2 & F2 & O2 & Ar).
  exists k2, res, name. split; [|split; [done|split; [by etrans|done]]]. unfold namex. by rewrite (bind_Ok _ _ _ _ _ E1).
Qed.
End Path.
