(* ===== verification/KTrunc.v ===== *)
(** The end of a file (fs.c: [itrunc], [iput]): the last reference to an inode without links
    gives all its blocks back, and the inode. *)
From stdpp Require Import base gmap sets list numbers strings tactics.
From S2P Require Import Prelude Mem KMachine KBytes KSched KBss KBio KBioProofs KLog KFs KCrash KLogProofs KTxn KBlocks KInode KData KContent KDir KPath.

Lemma set_addrs_id r : set_i_addrs (i_addrs r) r = r.
Proof. by destruct r. Qed.

Lemma bind_two_Ok {S A B C} (m1 : M S A) (m2 : A -> M S B) (X : A -> B -> M S unit) (Y : M S C) s s' :
  (let! a := m1 in let! b := m2 a in X a b) s = Ok tt s' -> (let! a := m1 in let! b := m2 a in X a b ;; Y) s = Y s'.
Proof. unfold bind. destruct (m1 s) as [a s1| | |]; try done. destruct (m2 a s1) as [b s2| | |]; try done. by intros ->. Qed.

Section Trunc.
Context {H : Type} `{!Platform H} `{!Symbols} `{!SleepFuel} `{!DiskDriver H} `{!DiskLaws H}.
Implicit Types k : kernel H.
Context (c : cpu) (me : nat) (dev start : Z) (sb : superblock).
Context (Hdev : is_u32 dev) (FL : fs_layout start sb).
Notation fs_ops := (fs_ops c me dev start sb).
Notation steps := (steps me).

Lemma bitmap_one b : 0 <= b < sb_size sb -> BBLOCK b sb = sb_bmapstart sb.
Proof. apply (BBLOCK_one start sb (fl_bitmap _ _ FL) (fl_one _ _ FL)). Qed.

(** * The blocks that have been given back *)

Section Clear.
Context (bs : list Z) (V : disk) (r : inode) (Fk : file_ok start sb V r) (Ty : inode_typed r).
Context (Hlog : Z.of_nat (length bs) < LOGSIZE - 2).

(** [x] is the block of a slot in [J]. *)
Definition gone (J : Z -> Prop) (x : Z) : Prop := exists i, J i /\ is_slot i /\ slot V r i = x /\ x <> 0.

(** [V'] is [V] without the blocks of the slots in [J]. *)
Record cleared (J : Z -> Prop) (V' : disk) : Prop := {
  cl_used : forall x, 0 <= x < sb_size sb -> in_use sb V' x = true <-> in_use sb V x = true /\ ~ gone J x;
  cl_other : forall x, x <> sb_bmapstart sb -> V' x = V x
}.

Lemma cleared_ext (J J' : Z -> Prop) V' :
  (forall i, is_slot i -> slot V r i <> 0 -> J i <-> J' i) -> cleared J V' -> cleared J' V'.
Proof.
  intros E [U O]. split; [|done]. intros x Hx. rewrite U by done.
  assert (gone J x <-> gone J' x) as ->; [|done]. unfold gone. split; intros (i & Hi & Hs & Ei & Hz); exists i; (split; [|done]); (apply E; [done|by rewrite Ei|done]).
Qed.

Lemma cleared_none : cleared (fun _ => False) V.
Proof. split; [|done]. intros x _. split; [|tauto]. intros Hu. split; [done|]. by intros (i & [] & _). Qed.

(** A transaction in which they have been given back. *)
Record giving (hs : gset Z) (J : Z -> Prop) (bs' : list Z) (A' : acache) k' : Prop := {
  gi_op : fs_ops hs bs' A' k';
  gi_log : bs' = bs \/ bs' = join bs (sb_bmapstart sb);
  gi_clear : cleared J (a_view A')
}.

Lemma join_idem l b : join (join l b) b = join l b.
Proof. unfold join at 1. rewrite decide_True; [done|]. apply elem_of_join. by right. Qed.

Lemma giving_length hs J bs' A' k' : giving hs J bs' A' k' -> Z.of_nat (length bs') <= Z.of_nat (length bs) + 1.
Proof. intros [_ [->| ->] _]; [lia|]. pose proof (join_length bs (sb_bmapstart sb)). lia. Qed.

Lemma slot_data_block i : is_slot i -> slot V r i <> 0 -> data_block start sb (slot V r i) /\ in_use sb V (slot V r i) = true.
Proof. apply (fk_data _ _ _ _ Fk). Qed.

(** The indirect block may be locked. *)
Lemma giving_apart J V' : cleared J V' -> ~ J (-1) -> slot V r (-1) <> 0 -> apart sb {[slot V r (-1)]} V'.
Proof.
  intros Cl HJ Hz. assert (is_slot (-1)) as Hsl by (unfold is_slot; rewrite MAXFILE_val; lia). destruct (slot_data_block (-1) Hsl Hz) as [D U].
  split; [by rewrite size_singleton|]. intros x Hx. rewrite !elem_of_singleton. split; [intros E; by apply (db_bitmap _ _ _ D x)|].
  intros Hf ->. apply not_true_iff_false in Hf. apply Hf. apply (cl_used _ _ Cl); [done|]. split; [done|].
  intros (i & Hi & Hs & Ei & _). apply HJ. by rewrite <- (fk_inj _ _ _ _ Fk i (-1) Hs Hsl ltac:(by rewrite Ei) Ei).
Qed.

(** One more. *)
Lemma free_slot hs J bs' A' k' i :
  giving hs J bs' A' k' -> apart sb hs (a_view A') -> is_slot i -> ~ J i -> slot V r i <> 0 ->
  exists k'' bs'' A'', bfree dev (slot V r i) k' = Ok tt k'' /\ giving hs (fun j => J j \/ j = i) bs'' A'' k'' /\ in_call dev hs me k' k'' /\
    bs'' = join bs (sb_bmapstart sb).
Proof.
  intros G Hap Hi HJ Hz. pose proof (giving_length _ _ _ _ _ G) as Hlen. destruct G as [F L [U O]]. destruct (slot_data_block i Hi Hz) as [D Hu].
  pose proof (db_range _ _ _ D) as Hr. set (b := slot V r i) in *.
  pose proof (bfree_ok c me dev start sb Hdev (fl_bitmap _ _ FL) hs bs' A' k' b F Hap ltac:(lia) ltac:(lia)) as P.
  assert (in_use sb (a_view A') b = true) as Hub.
  { apply U; [lia|]. split; [done|]. intros (j & Hj & Hs & Ej & _). apply HJ. by rewrite (fk_inj _ _ _ _ Fk i j Hi Hs Hz (eq_sym Ej)). }
  rewrite Hub, bitmap_one in P by lia. destruct P as (k'' & A'' & E & F' & O' & U' & V').
  assert (join bs' (sb_bmapstart sb) = join bs (sb_bmapstart sb)) as Ej by (destruct L as [->| ->]; [done|apply join_idem]).
  exists k'', (join bs (sb_bmapstart sb)), A''. rewrite Ej in F'. split; [done|]. split; [|done]. split; [done|by right|]. split.
  - intros x Hx. rewrite U' by done. destruct (Z.eqb_spec x b) as [->|Hne]; cbn [negb andb].
    + split; [done|]. intros [_ Hn]. exfalso. apply Hn. exists i. by split; [right|].
    + rewrite (U x Hx). split; intros [Hv Hn]; (split; [done|]); intros (j & Hj & Hs & Ex & Hx0); apply Hn.
      * destruct Hj as [Hj| ->]; [by exists j|by rewrite <- Ex in Hne].
      * exists j. by split; [left|].
  - intros x Hx. rewrite V', O by done. done.
Qed.

(** * The addresses in the inode *)

Section Direct.
Context (A : acache) (HV : a_view A = V) (k : kernel H) (ip : nat) (F : fs_ops ∅ bs A k) (Hat : k_inodes k !! ip = Some r) (Hd : i_dev r = dev).

(** The inode after [i] turns. *)
Definition cut_addrs (i : nat) : inode := set_i_addrs (replicate i 0 ++ skipn i (i_addrs r)) r.

Lemma cut_addrs_next i : (i < 13)%nat -> <[i := 0]> (replicate i 0 ++ skipn i (i_addrs r)) = replicate (S i) 0 ++ skipn (S i) (i_addrs r).
Proof.
  intros Hi. destruct (lookup_lt_is_Some_2 (i_addrs r) i) as [a Ea]; [by rewrite (it_count _ Ty)|].
  rewrite (drop_S _ _ _ Ea), insert_app_r_alt by (rewrite length_replicate; lia). rewrite length_replicate, Nat.sub_diag. cbn [insert list_insert].
  by rewrite replicate_S_end, <- (assoc_L (++)).
Qed.
Lemma cut_addrs_same i : (i < 13)%nat -> nth i (i_addrs r) 0 = 0 -> replicate i 0 ++ skipn i (i_addrs r) = replicate (S i) 0 ++ skipn (S i) (i_addrs r).
Proof.
  intros Hi Hz. rewrite <- cut_addrs_next by done. rewrite list_insert_id; [done|]. pose proof (nth_addr r i Ty Hi) as Ea.
  rewrite lookup_app_r, length_replicate, Nat.sub_diag by (rewrite length_replicate; lia). by rewrite (drop_S _ _ _ Ea), Hz.
Qed.
Lemma cut_addrs_lookup i : (i < 13)%nat -> i_addrs (cut_addrs i) !! i = Some (nth i (i_addrs r) 0).
Proof.
  intros Hi. pose proof (nth_addr r i Ty Hi) as Ea. cbn. rewrite lookup_app_r, length_replicate, Nat.sub_diag by (rewrite length_replicate; lia).
  by rewrite (drop_S _ _ _ Ea).
Qed.

Definition cut_state (i : Z) (s : kernel H) : Prop :=
  k_inodes s = <[ip := cut_addrs (Z.to_nat i)]> (k_inodes k) /\ steps k s /\
  exists bs' A', giving ∅ (fun j => 0 <= j < i) bs' A' s.

Lemma cut_start : cut_state 0 k.
Proof.
  split; [|split; [done|]].
  - rewrite list_insert_id; [done|]. rewrite Hat. f_equal. symmetry. apply set_addrs_id.
  - exists bs, A. split; [done|by left|]. rewrite HV. apply (cleared_ext (fun _ => False)); [|apply cleared_none]. intros i _ _. lia.
Qed.

Lemma cut_body i s : 0 <= i < NDIRECT -> cut_state i s ->
  wp (let! r := get_inode ip in let! a := deref (i_addrs r !! Z.to_nat i) in
      if negb (a =? 0) then bfree (i_dev r) a ;; upd_inode ip (fun r => set_i_addrs (<[Z.to_nat i := 0]> (i_addrs r)) r) else ret tt)
    (fun _ s' => cut_state (i + 1) s') s.
Proof.
  change NDIRECT with 12. intros Hi (Ei & St & bs' & A' & G). pose proof (lookup_lt_Some _ _ _ Hat) as Hip.
  assert (Z.to_nat i < 13)%nat as Hn by lia. assert (Z.to_nat (i + 1) = S (Z.to_nat i)) as En by lia.
  assert (k_inodes s !! ip = Some (cut_addrs (Z.to_nat i))) as Es by (rewrite Ei; by apply list_lookup_insert_eq).
  assert (slot V r i = nth (Z.to_nat i) (i_addrs r) 0) as Esl.
  { rewrite slot_block by lia. unfold block_of. change NDIRECT with 12. destruct (Z.ltb_spec i 12); [done|lia]. }
  assert (is_slot i) as Hsl by (unfold is_slot; rewrite MAXFILE_val; lia).
  eapply wp_bind_Ok; [exact (get_inode_ok _ _ _ Es)|]. rewrite cut_addrs_lookup by done. eapply wp_bind_Ok; [reflexivity|].
  rewrite <- Esl. destruct (Z.eqb_spec (slot V r i) 0) as [Hz|Hz]; cbn [negb].
  - cbn. split; [|split; [done|]].
    + rewrite Ei, En. unfold cut_addrs. by rewrite cut_addrs_same by (done || by rewrite <- Esl).
    + exists bs', A'. destruct G as [G1 G2 G3]. split; [done|done|]. revert G3. apply cleared_ext. intros j _ Hj. split; [lia|]. intros Hb. destruct (decide (j = i)) as [->|]; [done|lia].
  - destruct (free_slot ∅ _ bs' A' s i G (apart_empty dev start sb Hdev (fl_bitmap _ _ FL) _) Hsl ltac:(intros [? ?]; lia) Hz) as (s1 & bs1 & A1 & E1 & G1 & [O1 _] & _).
    change (i_dev (cut_addrs (Z.to_nat i))) with (i_dev r). rewrite Hd. eapply wp_bind_Ok; [exact E1|].
    pose proof (in_op_inodes me s s1 O1) as Ei1. assert (k_inodes s1 !! ip = Some (cut_addrs (Z.to_nat i))) as Es1 by by rewrite Ei1.
    apply wp_Ok. eexists _, _. split; [exact (upd_inode_ok _ _ _ _ Es1)|]. split; [|split].
    + cbn [k_inodes set_k_inodes]. rewrite Ei1, Ei, list_insert_insert_eq, En. unfold cut_addrs. cbn [i_addrs set_i_addrs]. by rewrite cut_addrs_next.
    + etrans; [exact St|]. etrans; [apply steps_in, O1|apply steps_inodes].
    + exists bs1, A1. destruct G1 as [G1 G2 G3]. split; [by apply fs_op_inodes|done|]. revert G3. apply cleared_ext. intros j _ _. lia.
Qed.

Lemma cut_direct : exists s, for_range 0 NDIRECT (fun i =>
    let! r := get_inode ip in let! a := deref (i_addrs r !! Z.to_nat i) in
    if negb (a =? 0) then bfree (i_dev r) a ;; upd_inode ip (fun r => set_i_addrs (<[Z.to_nat i := 0]> (i_addrs r)) r) else ret tt) k = Ok tt s /\
  cut_state NDIRECT s.
Proof.
  assert (0 <= NDIRECT) as Hn by done. destruct (proj1 (wp_Ok _ _ _) (wp_for_range cut_state 0 NDIRECT _ k Hn cut_start cut_body)) as ([] & s & E & S).
  by exists s.
Qed.
End Direct.

(** * The addresses in the indirect block *)

Section Indirect.
Context (s : kernel H) (bs1 : list Z) (A1 : acache) (G1 : giving ∅ (fun j => 0 <= j < NDIRECT) bs1 A1 s).
Context (Hz : ind_of r <> 0).
Let ind : Z := ind_of r.

Lemma ind_slot : is_slot (-1) /\ slot V r (-1) = ind.
Proof. split; [unfold is_slot; rewrite MAXFILE_val; lia|done]. Qed.
Lemma ind_block : data_block start sb ind /\ in_use sb V ind = true.
Proof. apply (slot_data_block (-1)); [apply ind_slot|exact Hz]. Qed.
Lemma ind_not_bitmap : ind <> sb_bmapstart sb.
Proof. destruct ind_block as [D _]. pose proof (db_range _ _ _ D). rewrite <- (bitmap_one ind) by lia. apply (db_bitmap _ _ _ D). lia. Qed.
Lemma ind_kept hs J bs' A' k' : giving hs J bs' A' k' -> a_view A' ind = V ind.
Proof. intros [_ _ C]. apply (cl_other _ _ C), ind_not_bitmap. Qed.

Lemma addr_slot j : 0 <= j < NINDIRECT -> is_slot (NDIRECT + j) /\ addr_at (V ind) j = slot V r (NDIRECT + j).
Proof.
  change NINDIRECT with 256. change NDIRECT with 12. intros Hj. split; [unfold is_slot; rewrite MAXFILE_val; lia|].
  rewrite slot_block by lia. unfold block_of. change NDIRECT with 12. destruct (Z.ltb_spec (12 + j) 12); [lia|].
  destruct (Z.eqb_spec (ind_of r) 0); [done|]. by replace (12 + j - 12) with j by lia.
Qed.

Definition ind_state (b : nat) (j : Z) (s' : kernel H) : Prop :=
  handle dev s' b ind /\ in_op me s s' /\ exists bs' A', giving {[ind]} (fun i => 0 <= i < NDIRECT + j) bs' A' s'.

Lemma ind_body b d j s' : d = dev -> 0 <= j < NINDIRECT -> ind_state b j s' ->
  wp (let! x := buf_data b in if negb (addr_at x j =? 0) then bfree d (addr_at x j) else ret tt) (fun _ s'' => ind_state b (j + 1) s'') s'.
Proof.
  intros -> Hj (Hb & O & bs' & A' & G). destruct (addr_slot j Hj) as [Hsl Ea]. pose proof (ind_kept _ _ _ _ _ G) as Ev.
  destruct (handle_data _ _ _ _ _ _ (tx_bio _ _ _ _ _ _ _ (fo_txn _ _ _ _ _ _ _ _ _ (gi_op _ _ _ _ _ G))) Hb) as (rb & Er & Ed).
  assert (buf_data b s' = Ok (V ind) s') as Eb.
  { unfold buf_data. rewrite (bind_Ok _ _ _ _ _ (get_buf_ok _ _ _ Er)). unfold ret. by rewrite Ed, Ev. }
  eapply wp_bind_Ok; [exact Eb|]. rewrite Ea. change NDIRECT with 12 in *. destruct (Z.eqb_spec (slot V r (12 + j)) 0) as [Hs0|Hs0]; cbn [negb].
  - cbn. split; [done|]. split; [done|]. exists bs', A'. destruct G as [X1 X2 X3]. split; [done|done|]. revert X3.
    apply cleared_ext. intros i _ Hi. split; [change NDIRECT with 12; lia|]. change NDIRECT with 12. intros Hr. destruct (decide (i = 12 + j)) as [->|]; [done|lia].
  - assert (apart sb {[ind]} (a_view A')) as Hap by (apply (giving_apart _ _ (gi_clear _ _ _ _ _ G)); [intros [? ?]; lia|exact Hz]).
    destruct (free_slot _ _ bs' A' s' (12 + j) G Hap Hsl ltac:(change NDIRECT with 12; intros [? ?]; lia) Hs0) as (s1 & bs2 & A2 & E2 & [X1 X2 X3] & [O2 K2] & _).
    apply wp_Ok. exists tt, s1. split; [done|]. split; [apply K2; [set_solver|done]|]. split; [by etrans|]. exists bs2, A2. split; [done|done|].
    revert X3. apply cleared_ext. intros i _ _. change NDIRECT with 12. lia.
Qed.

Lemma cut_indirect : exists s' bs' A', (let! bp := bread dev ind in
    for_range 0 NINDIRECT (fun j => let! d := buf_data bp in if negb (addr_at d j =? 0) then bfree dev (addr_at d j) else ret tt) ;;
    brelse bp ;; bfree dev ind) s = Ok tt s' /\ giving ∅ is_slot bs' A' s' /\ in_op me s s'.
Proof.
  destruct ind_slot as [Hsl Esl]. destruct ind_block as [D U]. pose proof (db_range _ _ _ D) as Hr. pose proof (db_disk _ _ _ D) as Hdk.
  pose proof G1 as [F1 L1 C1]. pose proof F1 as [T1 Hh1 Ho1 Hs1]. assert (ind ∉ a_held A1) as Hnh by (rewrite Hh1; set_solver).
  destruct (txn_open c me dev start bs1 A1 s ind T1 Hnh ltac:(lia) (txn_room _ _ _ _ _ _ _ T1 Hh1)) as (b & s1 & E1 & T2 & Hb & [O1 _] & _).
  rewrite (bind_Ok _ _ _ _ _ E1).
  assert (ind_state b 0 s1) as I0.
  { split; [done|]. split; [done|]. exists bs1, (grab A1 ind). split; [|done|]; [|by rewrite Z.add_0_r].
    destruct O1 as (Lg & _ & _ & _ & _ & K1). split; [done| |by rewrite Lg|by rewrite K1]. cbn. rewrite Hh1. set_solver. }
  destruct (proj1 (wp_Ok _ _ _) (wp_for_range (ind_state b) 0 NINDIRECT _ s1 ltac:(done) I0 (fun j s' => ind_body b dev j s' eq_refl)))
    as ([] & s2 & E2 & Hb2 & O2 & bs2 & A2 & G2). rewrite (bind_Ok _ _ _ _ _ E2).
  pose proof (ind_kept _ _ _ _ _ G2) as Ev2. destruct G2 as [F2 L2 C2]. pose proof F2 as [T3 Hh2 Ho2 Hs2].
  destruct (txn_brelse c me dev start bs2 A2 s2 ind T3 b) as (s3 & E3 & T4 & [O3 _]); [by rewrite Hh2; set_solver|done| |].
  { destruct (txn_clean c me dev start bs1 A1 s ind T1 Hnh) as [Hin|Hcl].
    - left. pose proof ind_not_bitmap. assert (ind ∈ bs) as Hbs by (destruct L1 as [->| ->]; [done|]; apply elem_of_join in Hin as [?|?]; done).
      destruct L2 as [->| ->]; [done|apply elem_of_join; by left].
    - right. destruct O2 as (_ & _ & N & _). rewrite N, <- Hcl, Ev2. symmetry. exact (ind_kept _ _ _ _ _ G1). }
  rewrite (bind_Ok _ _ _ _ _ E3). assert (giving ∅ (fun i => 0 <= i < NDIRECT + NINDIRECT) bs2 (KBioProofs.drop A2 ind) s3) as G3.
  { split; [|done|exact C2]. destruct O3 as (Lg & _ & _ & _ & _ & K3). split; [done| |by rewrite Lg|by rewrite K3]. cbn. rewrite Hh2. set_solver. }
  destruct (free_slot _ _ _ _ _ (-1) G3 (apart_empty dev start sb Hdev (fl_bitmap _ _ FL) _) Hsl ltac:(intros [? ?]; lia) Hz)
    as (s4 & bs4 & A4 & E4 & [X1 X2 X3] & [O4 _] & _).
  exists s4, bs4, A4. rewrite Esl in E4. split; [done|]. split; [|by etrans; [|etrans]]. split; [done|done|]. revert X3. apply cleared_ext.
  intros i Hi _. unfold is_slot in *. rewrite MAXFILE_val in *. change NDIRECT with 12. change NINDIRECT with 256. lia.
Qed.
End Indirect.

(** * The whole of [itrunc] *)

Definition no_addrs : inode := set_i_addrs (replicate 13 0) r.
Definition emptied : inode := set_i_size 0 no_addrs.

Lemma cut_addrs_all : cut_addrs 13 = no_addrs.
Proof. unfold cut_addrs, no_addrs. rewrite (drop_ge (i_addrs r)) by by rewrite (it_count _ Ty). by rewrite app_nil_r. Qed.

Lemma emptied_typed : inode_typed emptied.
Proof. destruct Ty. split; try done. cbn. by repeat (constructor; [done|]). Qed.

(** The inode has no addresses left. *)
Lemma cut_rest A k ip s :
  fs_ops ∅ bs A k -> k_inodes k !! ip = Some r -> i_dev r = dev -> cut_state k ip NDIRECT s ->
  exists s' bs' A', (let! r := get_inode ip in
    let! ind := deref (i_addrs r !! Z.to_nat NDIRECT) in
    (if negb (ind =? 0) then
       let! bp := bread (i_dev r) ind in
       for_range 0 NINDIRECT (fun j => let! d := buf_data bp in if negb (addr_at d j =? 0) then bfree (i_dev r) (addr_at d j) else ret tt) ;;
       brelse bp ;; bfree (i_dev r) ind ;;
       upd_inode ip (fun r => set_i_addrs (<[Z.to_nat NDIRECT := 0]> (i_addrs r)) r)
     else ret tt)) s = Ok tt s' /\
    giving ∅ is_slot bs' A' s' /\ steps k s' /\ k_inodes s' = <[ip := no_addrs]> (k_inodes k).
Proof.
  intros F Hat Hd (Ei & St & bs1 & A1 & G1). pose proof (lookup_lt_Some _ _ _ Hat) as Hip.
  assert (k_inodes s !! ip = Some (cut_addrs 12)) as Es by (rewrite Ei; by apply list_lookup_insert_eq).
  rewrite (bind_Ok _ _ _ _ _ (get_inode_ok _ _ _ Es)). change (Z.to_nat NDIRECT) with 12%nat in *. rewrite cut_addrs_lookup by lia. erewrite bind_Ok by reflexivity.
  change (nth 12 (i_addrs r) 0) with (ind_of r). change (i_dev (cut_addrs 12)) with (i_dev r). rewrite Hd. destruct (Z.eqb_spec (ind_of r) 0) as [Hz|Hz]; cbn [negb].
  - exists s, bs1, A1. split; [done|]. split; [|split; [done|]].
    + destruct G1 as [X1 X2 X3]. split; [done|done|]. revert X3. apply cleared_ext. intros i Hi Hn. split; [done|]. intros _. unfold is_slot in Hi.
      unfold slot, block_of in Hn. change NDIRECT with 12 in *. destruct (Z.eqb_spec i (-1)); [done|]. destruct (Z.ltb_spec i 12); [lia|]. by rewrite Hz in Hn.
    + rewrite Ei, <- cut_addrs_all. unfold cut_addrs. by rewrite cut_addrs_same by (done || lia).
  - destruct (cut_indirect s bs1 A1 G1 Hz) as (s1 & bs2 & A2 & E2 & G2 & O2). pose proof (in_op_inodes me s s1 O2) as Ei2.
    assert (k_inodes s1 !! ip = Some (cut_addrs 12)) as Es1 by by rewrite Ei2.
    exists (set_k_inodes (<[ip := set_i_addrs (<[12%nat := 0]> (i_addrs (cut_addrs 12))) (cut_addrs 12)]> (k_inodes s1)) s1), bs2, A2.
    split; [|split; [|split]].
    + revert E2. unfold bind. destruct (bread dev (ind_of r) s) as [b s2| | |]; [|done..]. cbn beta. destruct (for_range _ _ _ s2) as [[] s3| | |]; [|done..].
      destruct (brelse b s3) as [[] s4| | |]; [|done..]. intros ->. exact (upd_inode_ok _ _ _ _ Es1).
    + destruct G2 as [X1 X2 X3]. split; [by apply fs_op_inodes|done|done].
    + etrans; [exact St|]. etrans; [apply steps_in, O2|apply steps_inodes].
    + cbn [k_inodes set_k_inodes]. rewrite Ei2, Ei, list_insert_insert_eq, <- cut_addrs_all. unfold cut_addrs. cbn [i_addrs set_i_addrs]. by rewrite cut_addrs_next by lia.
Qed.

(** The disk, apart from the bitmap and inode [inum]. *)
Record nearly (inum : Z) (V' : disk) : Prop := {
  ne_used : forall x, 0 <= x < sb_size sb -> in_use sb V' x = true <-> in_use sb V x = true /\ ~ gone is_slot x;
  ne_inodes : forall j, 0 <= j < sb_ninodes sb -> j <> inum -> forall r0,
    dinode_load (dinode_off j) (V' (IBLOCK j sb)) r0 = dinode_load (dinode_off j) (V (IBLOCK j sb)) r0;
  ne_other : forall x, x <> sb_bmapstart sb -> x <> IBLOCK inum sb -> V' x = V x
}.

(** Inode [inum] of the disk is [r2]. *)
Definition stored (inum : Z) (r2 : inode) (V' : disk) : Prop :=
  forall r0, same_dinode r2 (dinode_load (dinode_off inum) (V' (IBLOCK inum sb)) r0).

Lemma cleared_nearly inum V' : 0 < sb_size sb -> cleared is_slot V' -> nearly inum V'.
Proof.
  intros Hs [U O]. split; [done| |by intros x Hx _; apply O]. intros j Hj _ r0. rewrite O; [done|].
  rewrite <- (bitmap_one 0) by lia. apply (fl_apart _ _ FL); lia.
Qed.

(** [iupdate] of inode [inum]. *)
Lemma store_inode inum bs1 A1 k1 ip r2 :
  fs_ops ∅ bs1 A1 k1 -> nearly inum (a_view A1) -> entry dev sb ip inum r2 k1 -> inode_typed r2 -> Z.of_nat (length bs1) < LOGSIZE - 1 ->
  exists k2 A2, iupdate ip k1 = Ok tt k2 /\ fs_ops ∅ (join bs1 (IBLOCK inum sb)) A2 k2 /\ in_op me k1 k2 /\
    nearly inum (a_view A2) /\ stored inum r2 (a_view A2).
Proof.
  intros F [U I O] En Ty2 Hl. pose proof (en_range _ _ _ _ _ _ En) as Hin.
  destruct (iupdate_ok c me dev start sb (fl_inodes _ _ FL) bs1 A1 k1 ip inum r2 F En Ty2 Hl) as (k2 & A2 & E & F2 & O2 & Hlen & V2).
  assert (forall x, x <> IBLOCK inum sb -> a_view A2 x = a_view A1 x) as HV2 by (intros x Hx; by rewrite V2, (proj2 (Z.eqb_neq _ _) Hx)).
  exists k2, A2. split; [done|]. split; [done|]. split; [done|]. split.
  - split.
    + intros x Hx. rewrite <- U by done. unfold in_use. rewrite HV2; [done|]. intros E2. by apply (fl_apart _ _ FL inum x).
    + intros j Hj Hne r0. rewrite <- I by done. destruct FL as [LB Hone LI LA]. by apply (dinode_store_others start sb LI (a_view A1) (a_view A2) r2 inum j r0).
    + intros x Hx1 Hx2. by rewrite HV2, O.
  - intros r0. rewrite V2, Z.eqb_refl. apply dinode_load_store; [rewrite Hlen; apply dinode_off_range|done].
Qed.

Lemma itrunc_ok A k ip inum :
  a_view A = V -> fs_ops ∅ bs A k -> entry dev sb ip inum r k -> 0 < sb_size sb ->
  exists k' bs' A', itrunc ip k = Ok tt k' /\ fs_ops ∅ (join bs' (IBLOCK inum sb)) A' k' /\ steps k k' /\
    k_inodes k' = <[ip := emptied]> (k_inodes k) /\ Z.of_nat (length bs') <= Z.of_nat (length bs) + 1 /\
    nearly inum (a_view A') /\ stored inum emptied (a_view A').
Proof.
  intros HV F En Hsz. pose proof En as [Hlt Hat Hd Hn Hin]. pose proof (lookup_lt_Some _ _ _ Hat) as Hip.
  destruct (cut_direct A HV k ip F Hat Hd) as (s & E1 & C1). destruct (cut_rest A k ip s F Hat Hd C1) as (s1 & bs1 & A1 & E2 & G2 & St2 & K2).
  assert (k_inodes s1 !! ip = Some no_addrs) as Es1 by (rewrite K2; by apply list_lookup_insert_eq).
  pose proof (upd_inode_ok ip (set_i_size 0) _ _ Es1) as E3. set (s2 := set_k_inodes _ s1) in E3.
  assert (k_inodes s2 = <[ip := emptied]> (k_inodes k)) as K3 by (cbn; by rewrite K2, list_insert_insert_eq).
  assert (entry dev sb ip inum emptied s2) as En2 by (split; try done; rewrite K3; by apply list_lookup_insert_eq).
  pose proof (giving_length _ _ _ _ _ G2) as Hlen. destruct G2 as [F2 L2 C2].
  destruct (store_inode inum bs1 A1 s2 ip emptied) as (k' & A' & E4 & F4 & O4 & Ne & Sd);
    [by apply fs_op_inodes|by apply cleared_nearly|done|apply emptied_typed|lia|].
  exists k', bs1, A'. split; [|split; [done|split; [|split; [|done]]]].
  - unfold itrunc. rewrite (bind_Ok _ _ _ _ _ E1). rewrite (bind_two_Ok _ _ _ _ _ _ E2), (bind_Ok _ _ _ _ _ E3). exact E4.
  - etrans; [exact St2|]. etrans; [apply (steps_inodes me s1)|]. by apply steps_in.
  - by rewrite (in_op_inodes me s2 k' O4).
Qed.
End Clear.

(** * The whole of [iput] *)

Notation fs_op := (fs_ops ∅).

(** [acquiresleep] while the lock of the table is held. *)
Lemma acquiresleep_under s v nm k :
  quiet c me k -> k_locks k !! LItable = Some (mkLk 0 nm None) -> static_lock (sleep_lk s) -> sleep_at s k = Some v -> sk_locked v = 0 ->
  acquiresleep s (enter c nm LItable k) = Ok tt (enter c nm LItable (put_sleep s (mkSleep 1 (sk_name v) (pid_of me k)) k)).
Proof.
  intros Q El Hs Hv Hz. destruct (q_free _ _ _ Q _ Hs) as [nm2 El2]. set (c1 := set_c_noff (c_noff c + 1) c). set (k1 := enter c nm LItable k).
  pose proof (quiet_enter c nm me LItable k Q : on_cpu c1 k1) as Hc1.
  assert (k_locks k1 !! sleep_lk s = Some (mkLk 0 nm2 None)) as El3 by (cbn; rewrite lookup_insert_ne; [done|by destruct s]).
  assert (sleep_at s k1 = Some v) as Hv1 by (unfold k1; by rewrite sleep_at_enter).
  unfold acquiresleep. rewrite (bind_Ok _ _ _ _ _ (acquire_ok c1 nm2 _ k1 Hc1 El3)).
  assert (sleep_at s (enter c1 nm2 (sleep_lk s) k1) = Some v) as Hv2 by by rewrite sleep_at_enter.
  rewrite (bind_Ok _ _ tt _ (enter c1 nm2 (sleep_lk s) k1)).
  2:{ cbn. rewrite (bind_Ok _ _ _ _ _ (get_sleep_ok s v _ Hv2)), Hz. reflexivity. }
  rewrite (bind_Ok _ _ _ _ _ (get_sleep_ok s v _ Hv2)).
  rewrite (bind_Ok _ _ _ _ _ (mypid_ok _ me _ (on_cpu_enter c1 nm2 (sleep_lk s) k1 Hc1) (q_me _ _ _ Q) ltac:(cbn; rewrite (q_procs _ _ _ Q); apply Q))).
  rewrite (bind_Ok _ _ _ _ _ (set_sleep_ok s v _ _ Hv2)), put_sleep_enter. unfold k1. rewrite put_sleep_enter.
  apply (release_ok c1 nm2); [|by destruct s; cbn in *; rewrite lookup_insert_ne].
  apply (quiet_enter c nm me LItable). by apply quiet_put_sleep.
Qed.

(** The inode and its blocks are free, and nothing else has changed. *)
Record freed (V : disk) (r : inode) (inum : Z) (V' : disk) : Prop := {
  fr_inode : i_type (dinode_of sb V' inum) = 0 /\ i_size (dinode_of sb V' inum) = 0 /\ i_addrs (dinode_of sb V' inum) = replicate 13 0;
  fr_blocks : forall x, 0 <= x < sb_size sb ->
    in_use sb V' x = true <-> in_use sb V x = true /\ ~ exists i, is_slot i /\ slot V r i = x /\ x <> 0;
  fr_inodes : forall j, 0 <= j < sb_ninodes sb -> j <> inum -> dinode_of sb V' j = dinode_of sb V j;
  fr_others : forall x, x <> sb_bmapstart sb -> x <> IBLOCK inum sb -> V' x = V x
}.

Lemma freed_intro V r1 r inum V' :
  i_addrs r1 = i_addrs r -> nearly V r1 inum V' -> stored inum (set_i_type 0 (emptied r1)) V' -> freed V r inum V'.
Proof.
  intros Ea [U I O] S. split; [|intros x Hx|by intros j Hj Hne; apply I|done].
  - destruct (S no_inode) as (E1 & _ & _ & _ & E5 & E6). done.
  - rewrite U by done. assert (gone V r1 is_slot x <-> exists i, is_slot i /\ slot V r i = x /\ x <> 0) as ->; [|done].
    unfold gone. split; intros (i & Hi); exists i; rewrite (slot_addrs V r r1) in *; tauto.
Qed.

(** The next call has run. *)
Local Ltac run E := rewrite ?bind_assoc, (bind_Ok _ _ _ _ _ E).

(** What [iput] does after [itrunc]: the inode is free on the disk, and its entry in the table. *)
Lemma iput_tail V r1 bs A k ip inum :
  inode_typed r1 -> fs_op bs A k -> nearly V r1 inum (a_view A) -> entry dev sb ip inum (emptied r1) k -> i_ref r1 = 1 -> Z.of_nat (length bs) < LOGSIZE - 1 ->
  exists k' A' r', ((upd_inode ip (set_i_type 0) ;; iupdate ip ;; upd_inode ip (set_i_valid 0) ;; releasesleep (SInode ip) ;; acquire LItable) ;;
      upd_inode ip (fun r => set_i_ref (i32 (i_ref r - 1)) r) ;; release LItable) k = Ok tt k' /\
    fs_op (join bs (IBLOCK inum sb)) A' k' /\ steps k k' /\ k_inodes k' = <[ip := r']> (k_inodes k) /\ i_ref r' = 0 /\ i_valid r' = 0 /\
    nearly V r1 inum (a_view A') /\ stored inum (set_i_type 0 (emptied r1)) (a_view A').
Proof.
  intros Ty1 F2 Ne2 [Hlt Hat2 Hd Hi Hin] Hr Hl. run (upd_inode_ok ip (set_i_type 0) _ _ Hat2). set (r3 := set_i_type 0 (emptied r1)). set (k3 := set_k_inodes _ k).
  assert (k_inodes k3 !! ip = Some r3) as Hat3 by (apply list_lookup_insert_eq; by eapply lookup_lt_Some). assert (entry dev sb ip inum r3 k3) as En3 by by split.
  assert (inode_typed r3) as Ty3 by (destruct (emptied_typed r1 Ty1); by split).
  destruct (store_inode V r1 inum bs A k3 ip r3 (fs_op_inodes _ _ _ _ _ _ _ _ _ F2) Ne2 En3 Ty3 Hl) as (k4 & A4 & E4 & F4 & O4 & Ne4 & Sd4).
  run E4. pose proof (in_op_inodes me k3 k4 O4) as K4. assert (k_inodes k4 !! ip = Some r3) as Hat4 by by rewrite K4.
  run (upd_inode_ok ip (set_i_valid 0) _ _ Hat4). set (r5 := set_i_valid 0 r3). set (k5 := set_k_inodes _ k4).
  assert (k_inodes k5 !! ip = Some r5) as Hat5 by (apply list_lookup_insert_eq; by eapply lookup_lt_Some).
  destruct (releasesleep_way c me dev start sb _ A4 k5 ip r5 (fs_op_inodes _ _ _ _ _ _ _ _ _ F4) Hlt Hat5) as (k6 & E6 & F6 & St6 & K6).
  run E6. set (r6 := set_i_lock _ r5) in *. assert (k_inodes k6 !! ip = Some r6) as Hat6 by (rewrite K6; apply list_lookup_insert_eq; by eapply lookup_lt_Some).
  pose proof (tx_quiet _ _ _ _ _ _ _ (fo_txn _ _ _ _ _ _ _ _ _ F6)) as Q6. destruct (q_free _ _ _ Q6 LItable I) as [nm6 El6].
  run (acquire_ok c nm6 _ k6 (q_cpu _ _ _ Q6) El6). assert (k_inodes (enter c nm6 LItable k6) !! ip = Some r6) as Hat7 by done.
  run (upd_inode_ok ip (fun r => set_i_ref (i32 (i_ref r - 1)) r) _ _ Hat7). set (r7 := set_i_ref _ r6).
  exists (set_k_inodes (<[ip := r7]> (k_inodes k6)) k6), A4, r7.
  split; [apply (release_ok c nm6 LItable (set_k_inodes (<[ip := r7]> (k_inodes k6)) k6)); [apply Q6|done]|].
  split; [by apply fs_op_inodes|]. split; [|split; [|split; [change (i32 (i_ref r1 - 1) = 0); by rewrite Hr|done]]].
  - etrans; [apply (steps_inodes me k)|]. etrans; [apply steps_in; exact O4|]. etrans; [apply (steps_inodes me k4)|]. etrans; [exact St6|apply steps_inodes].
  - cbn [k_inodes set_k_inodes]. rewrite K6. cbn [k5 k_inodes set_k_inodes]. rewrite K4. cbn [k3 k_inodes set_k_inodes]. by rewrite !list_insert_insert_eq.
Qed.

(** The last reference to an inode without links. *)
Lemma iput_last bs A k ip inum r :
  fs_op bs A k -> entry dev sb ip inum r k -> i_ref r = 1 -> i_valid r <> 0 -> i_nlink r = 0 ->
  inode_typed r -> file_ok start sb (a_view A) r -> sk_locked (i_lock r) = 0 -> 0 < sb_size sb -> Z.of_nat (length bs) < LOGSIZE - 3 ->
  exists k' bs' A' r', iput ip k = Ok tt k' /\ fs_op bs' A' k' /\ steps k k' /\ k_inodes k' = <[ip := r']> (k_inodes k) /\
    i_ref r' = 0 /\ i_valid r' = 0 /\ freed (a_view A) r inum (a_view A') /\ Z.of_nat (length bs') <= Z.of_nat (length bs) + 2.
Proof.
  intros F En Hr Hv Hn Ty Fk Hz Hsz Hl. pose proof En as [Hlt Hat Hd Hi Hin]. pose proof (lookup_lt_Some _ _ _ Hat) as Hip.
  pose proof (tx_quiet _ _ _ _ _ _ _ (fo_txn _ _ _ _ _ _ _ _ _ F)) as Q. destruct (q_free _ _ _ Q LItable I) as [nm El].
  unfold iput. rewrite (bind_Ok _ _ _ _ _ (acquire_ok c nm _ k (q_cpu _ _ _ Q) El)).
  assert (k_inodes (enter c nm LItable k) !! ip = Some r) as Hat0 by done. rewrite (bind_Ok _ _ _ _ _ (get_inode_ok _ _ _ Hat0)).
  rewrite Hr, Hn. destruct (Z.eqb_spec (i_valid r) 0); [done|]. cbn [Z.eqb negb andb Pos.eqb].
  assert (sleep_at (SInode ip) k = Some (i_lock r)) as Hsl by (unfold sleep_at; by rewrite Hat).
  run (acquiresleep_under (SInode ip) (i_lock r) nm k Q El Hlt Hsl Hz).
  unfold put_sleep. rewrite (alter_insert _ _ _ _ Hat). set (r1 := set_i_lock _ r). set (k1 := set_k_inodes _ k).
  assert (release LItable (enter c nm LItable k1) = Ok tt k1) as Er by (apply release_ok; [apply Q|done]).
  run Er.
  assert (k_inodes k1 !! ip = Some r1) as Hat1 by by apply list_lookup_insert_eq. assert (entry dev sb ip inum r1 k1) as En1 by by split.
  assert (same_dinode r r1) as Sm by done. assert (inode_typed r1) as Ty1 by by apply (same_typed r).
  destruct (itrunc_ok bs (a_view A) r1 (same_file_ok _ _ _ Sm _ _ Fk) Ty1 ltac:(lia) A k1 ip inum eq_refl (fs_op_inodes _ _ _ _ _ _ _ _ _ F) En1 Hsz)
    as (k2 & bs2 & A2 & E2 & F2 & St2 & K2 & Hl2 & Ne2 & Sd2). run E2.
  assert (k_inodes k2 !! ip = Some (emptied r1)) as Hat2 by (rewrite K2; apply list_lookup_insert_eq; by eapply lookup_lt_Some).
  destruct (iput_tail (a_view A) r1 (join bs2 (IBLOCK inum sb)) A2 k2 ip inum Ty1 F2 Ne2 ltac:(by split) Hr)
    as (k7 & A7 & r7 & E7 & F7 & St7 & K7 & Hr7 & Hv7 & Ne7 & Sd7); [pose proof (join_length bs2 (IBLOCK inum sb)); lia|].
  rewrite join_idem in F7. exists k7, (join bs2 (IBLOCK inum sb)), A7, r7. split; [exact E7|]. split; [done|].
  split; [etrans; [apply (steps_inodes me k)|by etrans]|]. split; [rewrite K7, K2; cbn [k1 k_inodes set_k_inodes]; by rewrite !list_insert_insert_eq|].
  split; [done|]. split; [done|]. split; [by apply (freed_intro (a_view A) r1 r)|]. pose proof (join_length bs2 (IBLOCK inum sb)). lia.
Qed.

(** C9 [iput] gives a reference back.  If it was the last one and the inode has no links, the
    inode becomes free on the disk, with no size and no blocks, and exactly the blocks it had,
    direct, indirect and the indirect block itself, become free in the bitmap; no other
    inode and no other block changes, and the transaction has at most two blocks more.
    Otherwise the disk stays as it is.  The entry of the table has one reference less. *)
Theorem iput_spec bs A k ip inum r :
  fs_op bs A k -> entry dev sb ip inum r k -> 1 <= i_ref r < 2 ^ 31 -> inode_typed r -> file_ok start sb (a_view A) r ->
  sk_locked (i_lock r) = 0 -> 0 < sb_size sb -> Z.of_nat (length bs) < LOGSIZE - 3 ->
  exists k' bs' A' r', iput ip k = Ok tt k' /\ fs_op bs' A' k' /\ steps k k' /\ k_inodes k' = <[ip := r']> (k_inodes k) /\ i_ref r' = i_ref r - 1 /\
    if decide (i_ref r = 1 /\ i_valid r <> 0 /\ i_nlink r = 0)
    then i_valid r' = 0 /\ freed (a_view A) r inum (a_view A') /\ Z.of_nat (length bs') <= Z.of_nat (length bs) + 2
    else bs' = bs /\ A' = A /\ r' = set_i_ref (i_ref r - 1) r.
Proof.
  intros F En Hr Ty Fk Hz Hsz Hl. destruct (decide (i_ref r = 1 /\ i_valid r <> 0 /\ i_nlink r = 0)) as [(Hr1 & Hv & Hn)|Hkeep].
  - destruct (iput_last bs A k ip inum r F En Hr1 Hv Hn Ty Fk Hz Hsz Hl) as (k' & bs' & A' & r' & E & F' & St & K & Hr' & Hv' & Fr & Hlen).
    exists k', bs', A', r'. rewrite Hr1. by repeat (split; [done|]).
  - assert (i_ref r <> 1 \/ i_valid r = 0 \/ i_nlink r <> 0) as Hor.
    { destruct (decide (i_ref r = 1)), (decide (i_valid r = 0)), (decide (i_nlink r = 0)); tauto. }
    pose proof (iput_ok c me k (tx_quiet _ _ _ _ _ _ _ (fo_txn _ _ _ _ _ _ _ _ _ F)) ip r (en_at _ _ _ _ _ _ En) Hor) as E.
    assert (less_refs r = set_i_ref (i_ref r - 1) r) as El.
    { unfold less_refs. f_equal. rewrite <- (Z.mod_small (i_ref r - 1) (2 ^ 32)) at 1 by lia. apply i32_small. lia. }
    eexists _, bs, A, _. split; [exact E|]. split; [by apply fs_op_inodes|]. split; [apply steps_inodes|]. split; [reflexivity|]. by rewrite El.
Qed.
End Trunc.
