(* ===== verification/KDiskProofs.v ===== *)
(** The virtio disk driver (virtio_disk.c) keeps the promise of [DiskLaws] to the buffer
    cache, whatever device behind the registers follows the virtio specification.

    [VirtioDevice] states what the driver relies on: the device serves the request that the
    rings describe, and while the process sleeps its core runs the scheduler and takes the
    interrupt of the disk ([turn]). *)
From stdpp Require Import base gmap list numbers strings tactics.
From S2P Require Import Prelude Mem KMachine KSched KBio KBioProofs KVm KDisk KBss.

Section Device.
Context {H : Type} `{!Platform H} `{!Symbols} `{!SleepFuel}.
Implicit Types k : kernel H.

(** One request is under way: the available ring is one ahead of the used ring, and its head
    starts the chain of header, data and status of block [blk] in buffer [b]. *)
Record pending (v : vdisk) (i0 i1 i2 b : nat) (blk : Z) (write : bool) : Prop := {
  pd_idx : av_idx (vd_avail v) = u16 (us_idx (vd_used v) + 1);
  pd_head : av_ring (vd_avail v) !! Z.to_nat (us_idx (vd_used v) mod NUM) = Some (Z.of_nat i0);
  pd_op : vd_ops v !! i0 = Some (mkReq (if write then VIRTIO_BLK_T_OUT else VIRTIO_BLK_T_IN) 0 (2 * blk));
  pd_d0 : vd_desc v !! i0 = Some (mkDesc (V2P (sym_ops i0)) BLK_REQ_SIZE VRING_DESC_F_NEXT (Z.of_nat i1));
  pd_d1 : vd_desc v !! i1 = Some (mkDesc (V2P (sym_bufdata b)) BSIZE
            (Z.lor (if write then 0 else VRING_DESC_F_WRITE) VRING_DESC_F_NEXT) (Z.of_nat i2));
  pd_d2 : vd_desc v !! i2 = Some (mkDesc (V2P (sym_status i0)) 1 VRING_DESC_F_WRITE 0)
}.

(** It has been served: status 0, and an entry of the used ring. *)
Definition served (v : vdisk) (i0 : nat) (len : Z) : vdisk :=
  let us := vd_used v in
  set_vd_used (mkUsed (u16 (us_idx us + 1)) (<[Z.to_nat (us_idx us mod NUM) := (Z.of_nat i0, len)]> (us_ring us)))
    (set_vd_info (alter (fun e => (fst e, 0)) i0 (vd_info v)) v).

(** What happens while process [me] sleeps: the scheduler of its core releases the lock of
    the process, the device works, its interrupt is taken, and the process is run again. *)
Definition turn (device : M (kernel H) unit) (me c : nat) : M (kernel H) unit :=
  upd_cpu c (set_c_proc None) ;;
  release (LProc me) ;;
  device ;;
  virtio_disk_intr ;;
  acquire (LProc me) ;;
  let! p := get_proc me in
  if bool_decide (p_state p = RUNNABLE) then
    upd_proc me (set_p_state RUNNING) ;; upd_cpu c (set_c_proc (Some me))
  else spin.

Class VirtioDevice := {
  vd_serve : M (kernel H) unit;
  vd_now : H -> disk;
  vd_past : H -> list disk;
  vd_blocks : Z;
  vd_bound : vd_blocks <= 2 ^ 31;
  vd_block h b : 0 <= b < vd_blocks -> length (vd_now h b) = Z.to_nat BSIZE;
  (* the registers of the device do not change the medium *)
  vd_r32 a h : vd_now (snd (pf_r32 a h)) = vd_now h /\ vd_past (snd (pf_r32 a h)) = vd_past h;
  vd_w32 a x h : vd_now (pf_w32 a x h) = vd_now h /\ vd_past (pf_w32 a x h) = vd_past h;
  vd_read k i0 i1 i2 b blk r :
    pending (k_vdisk k) i0 i1 i2 b blk false -> (b < NBUF)%nat -> k_bufs k !! b = Some r -> 0 <= blk < vd_blocks ->
    exists h' len, vd_serve k = Ok tt (set_k_hw h' (set_k_vdisk (served (k_vdisk k) i0 len)
        (set_k_bufs (<[b := set_b_data (vd_now (k_hw k) blk) r]> (k_bufs k)) k))) /\
      vd_now h' = vd_now (k_hw k) /\ vd_past h' = vd_past (k_hw k);
  vd_write k i0 i1 i2 b blk r :
    pending (k_vdisk k) i0 i1 i2 b blk true -> (b < NBUF)%nat -> k_bufs k !! b = Some r -> 0 <= blk < vd_blocks ->
    length (b_data r) = Z.to_nat BSIZE ->
    exists h' len mids, vd_serve k = Ok tt (set_k_hw h' (set_k_vdisk (served (k_vdisk k) i0 len) k)) /\
      (forall x, vd_now h' x = if x =? blk then b_data r else vd_now (k_hw k) x) /\
      vd_past h' = mids ++ vd_now (k_hw k) :: vd_past (k_hw k) /\
      Forall (torn (vd_now (k_hw k)) blk (b_data r)) mids;
  vd_swtch me c k : swtch (CtxProc me) (CtxCpu c) k = turn vd_serve me c k
}.

(** No request is under way: every descriptor is free, the rings and the driver agree. *)
Record idle (v : vdisk) : Prop := {
  id_free : vd_free v = replicate (Z.to_nat NUM) 1;
  id_desc : length (vd_desc v) = Z.to_nat NUM;
  id_info : length (vd_info v) = Z.to_nat NUM;
  id_ops : length (vd_ops v) = Z.to_nat NUM;
  id_avring : length (av_ring (vd_avail v)) = Z.to_nat NUM;
  id_usring : length (us_ring (vd_used v)) = Z.to_nat NUM;
  id_avail : av_idx (vd_avail v) = us_idx (vd_used v);
  id_used : vd_used_idx v = us_idx (vd_used v);
  id_u16 : is_u16 (us_idx (vd_used v))
}.

(** * Steps on [struct disk] *)

Lemma set_desc_ok i d k : (i < length (vd_desc (k_vdisk k)))%nat ->
  set_desc i d k = Ok tt (set_k_vdisk (set_vd_desc (<[i := d]> (vd_desc (k_vdisk k))) (k_vdisk k)) k).
Proof. intros [x E]%lookup_lt_is_Some. unfold set_desc, bind, get_disk, gets, deref. by rewrite E. Qed.
Lemma set_free_ok i f k : (i < length (vd_free (k_vdisk k)))%nat ->
  set_free i f k = Ok tt (set_k_vdisk (set_vd_free (<[i := f]> (vd_free (k_vdisk k))) (k_vdisk k)) k).
Proof. intros [x E]%lookup_lt_is_Some. unfold set_free, bind, get_disk, gets, deref. by rewrite E. Qed.
Lemma set_op_ok i r k : (i < length (vd_ops (k_vdisk k)))%nat ->
  set_op i r k = Ok tt (set_k_vdisk (set_vd_ops (<[i := r]> (vd_ops (k_vdisk k))) (k_vdisk k)) k).
Proof. intros [x E]%lookup_lt_is_Some. unfold set_op, bind, get_disk, gets, deref. by rewrite E. Qed.
Lemma set_info_ok i f e k : vd_info (k_vdisk k) !! i = Some e ->
  set_info i f k = Ok tt (set_k_vdisk (set_vd_info (<[i := f e]> (vd_info (k_vdisk k))) (k_vdisk k)) k).
Proof. intros E. unfold set_info, bind, get_disk, gets, deref. by rewrite E. Qed.

Lemma alloc_desc_ok i k : free_index (vd_free (k_vdisk k)) 0 = Some i -> (i < length (vd_free (k_vdisk k)))%nat ->
  alloc_desc k = Ok (Some i) (set_k_vdisk (set_vd_free (<[i := 0]> (vd_free (k_vdisk k))) (k_vdisk k)) k).
Proof.
  intros E Hi. unfold alloc_desc, get_disk. erewrite bind_Ok by reflexivity. rewrite E.
  by rewrite (bind_Ok _ _ _ _ _ (set_free_ok i 0 k Hi)).
Qed.

(** Three descriptors of eight free ones. *)
Definition three_taken : list Z := [0; 0; 0; 1; 1; 1; 1; 1].
Lemma wait_descs_ok n k : vd_free (k_vdisk k) = replicate (Z.to_nat NUM) 1 ->
  wait_descs (S n) k = Ok [0; 1; 2]%nat (set_k_vdisk (set_vd_free three_taken (k_vdisk k)) k).
Proof.
  intros E. cbn [wait_descs]. rewrite (bind_Ok _ _ (Some [0; 1; 2]%nat) _ (set_k_vdisk (set_vd_free three_taken (k_vdisk k)) k)); [done|].
  unfold alloc3_desc. cbn [alloc_descs].
  rewrite (bind_Ok _ _ _ _ _ (alloc_desc_ok 0 k ltac:(by rewrite E) ltac:(rewrite E; apply Nat.ltb_lt; reflexivity))). rewrite E.
  set (k1 := set_k_vdisk _ k). change (k_vdisk k1) with (set_vd_free [0; 1; 1; 1; 1; 1; 1; 1] (k_vdisk k)).
  rewrite (bind_Ok _ _ _ _ _ (alloc_desc_ok 1 k1 eq_refl ltac:(apply Nat.ltb_lt; reflexivity))). set (k2 := set_k_vdisk _ k1).
  by rewrite (bind_Ok _ _ _ _ _ (alloc_desc_ok 2 k2 eq_refl ltac:(apply Nat.ltb_lt; reflexivity))).
Qed.

Context `{!VirtioDevice}.

(** A register access changes the device's registers only. *)
Definition quiet_hw (h h' : H) : Prop := vd_now h' = vd_now h /\ vd_past h' = vd_past h.

Lemma rd_ok r k : exists x h', rd r k = Ok x (set_k_hw h' k) /\ quiet_hw (k_hw k) h'.
Proof.
  unfold rd, reg_read, pf_read. pose proof (vd_r32 (u64 (KVm.VIRTIO0 + r)) (k_hw k)) as P. unfold bind.
  destruct (pf_r32 _ (k_hw k)) as [x h'] eqn:E. exists (u32 x), h'. by split.
Qed.
Lemma wr_ok r x k : exists h', wr r x k = Ok tt (set_k_hw h' k) /\ quiet_hw (k_hw k) h'.
Proof. eexists. split; [reflexivity|]. apply vd_w32. Qed.

(** * The interrupt *)

Lemma procs_free_enter c nm l k : (forall i, l <> LProc i) -> procs_free k -> procs_free (enter c nm l k).
Proof. intros Hl [L F]. split; [done|]. intros i Hi. apply free_enter; [congruence|by apply F]. Qed.

(** One completed request: its buffer is handed back, its process woken. *)
Lemma intr_ok c nm k i0 b len r :
  let v := k_vdisk k in
  on_cpu c k -> k_locks k !! LVdisk = Some (mkLk 0 nm None) -> procs_free k ->
  is_u16 (vd_used_idx v) -> us_idx (vd_used v) = u16 (vd_used_idx v + 1) ->
  us_ring (vd_used v) !! Z.to_nat (vd_used_idx v mod NUM) = Some (Z.of_nat i0, len) ->
  vd_info v !! i0 = Some (Some b, 0) -> k_bufs k !! b = Some r ->
  exists h', virtio_disk_intr k = Ok tt (set_k_hw h' (set_k_vdisk (set_vd_used_idx (us_idx (vd_used v)) v)
      (set_k_proc (woken (ChBuf b) (c_proc c) (k_proc k)) (set_k_bufs (<[b := set_b_disk 0 r]> (k_bufs k)) k)))) /\
    quiet_hw (k_hw k) h'.
Proof.
  intros v Hc El Hp Hu Hus Hring Hinfo Hb. unfold virtio_disk_intr.
  rewrite (bind_Ok _ _ _ _ _ (acquire_ok c nm _ k Hc El)).
  destruct (rd_ok VIRTIO_MMIO_INTERRUPT_STATUS (enter c nm LVdisk k)) as (st & h1 & E1 & Q1). rewrite (bind_Ok _ _ _ _ _ E1).
  destruct (wr_ok VIRTIO_MMIO_INTERRUPT_ACK (Z.land st 3) (set_k_hw h1 (enter c nm LVdisk k))) as (h2 & E2 & Q2).
  rewrite (bind_Ok _ _ _ _ _ E2). exists h2. split; [|destruct Q1, Q2; split; cbn in *; congruence].
  set (k2 := set_k_hw h2 k). change (set_k_hw h2 (set_k_hw h1 (enter c nm LVdisk k))) with (enter c nm LVdisk k2).
  unfold get_disk at 1. erewrite bind_Ok by reflexivity. change (k_vdisk (enter c nm LVdisk k2)) with v.
  assert (u16 (us_idx (vd_used v) - vd_used_idx v) = 1) as ->.
  { rewrite Hus. unfold u16. by rewrite Zminus_mod_idemp_l, Z.add_simpl_l. }
  set (k3 := set_k_proc (woken (ChBuf b) (c_proc c) (k_proc k)) (set_k_bufs (<[b := set_b_disk 0 r]> (k_bufs k)) k2)).
  set (k4 := set_k_vdisk (set_vd_used_idx (us_idx (vd_used v)) v) k3).
  rewrite (bind_Ok _ _ tt _ (enter c nm LVdisk k4)).
  - apply (release_ok c nm LVdisk k4); done.
  - change (S (Z.to_nat 1)) with 2%nat. cbn [intr_loop]. unfold get_disk at 1. erewrite bind_Ok by reflexivity.
    change (k_vdisk (enter c nm LVdisk k2)) with v.
    destruct (Z.eqb_spec (vd_used_idx v) (us_idx (vd_used v))) as [E|_].
    { exfalso. rewrite Hus in E. unfold u16, is_u16 in *. destruct (decide (vd_used_idx v = 2 ^ 16 - 1)) as [E'|].
      - rewrite E' in E. by vm_compute in E.
      - rewrite Z.mod_small in E by lia. lia. }
    rewrite Hring. erewrite bind_Ok by reflexivity. cbn [fst]. rewrite Nat2Z.id, Hinfo.
    erewrite bind_Ok by reflexivity. cbn [fst snd Z.eqb negb]. erewrite bind_Ok by reflexivity.
    rewrite (bind_Ok _ _ _ _ _ (upd_buf_enter c nm LVdisk b (set_b_disk 0) r k2 Hb)). set (kb := set_k_bufs _ k2).
    rewrite (bind_Ok _ _ _ _ _ (wakeup_ok (set_c_noff (c_noff c + 1) c) (ChBuf b) (enter c nm LVdisk kb) (on_cpu_enter c nm LVdisk kb Hc)
      (procs_free_enter c nm LVdisk kb ltac:(done) Hp))).
    change (set_k_proc _ (enter c nm LVdisk kb)) with (enter c nm LVdisk k3). erewrite bind_Ok by reflexivity.
    change (k_vdisk (enter c nm LVdisk k3)) with v. cbv beta. rewrite <- Hus.
    change (set_k_vdisk _ (enter c nm LVdisk k3)) with (enter c nm LVdisk k4).
    unfold get_disk. erewrite bind_Ok by reflexivity. change (k_vdisk (enter c nm LVdisk k4)) with (set_vd_used_idx (us_idx (vd_used v)) v).
    cbn [vd_used_idx set_vd_used_idx vd_used]. by rewrite Z.eqb_refl.
Qed.

(** * A turn of the scheduler *)

Lemma wake_asleep ch p : wake ch (asleep ch p) = set_p_state RUNNABLE (set_p_chan (Some ch) p).
Proof. unfold wake, asleep. cbn. by rewrite !bool_decide_eq_true_2. Qed.

Lemma woken_sleeper ch me ps p :
  ps !! me = Some p -> (me < Z.to_nat NPROC)%nat ->
  woken ch None (<[me := asleep ch p]> ps) = <[me := set_p_state RUNNABLE (set_p_chan (Some ch) p)]> (woken ch (Some me) ps).
Proof.
  intros Ep Hme. apply list_eq. intros j. unfold woken, wake_range. pose proof (lookup_lt_Some _ _ _ Ep) as Hl.
  destruct (decide (j = me)) as [->|Hne].
  - rewrite list_lookup_insert_eq by by rewrite length_imap. rewrite list_lookup_imap, list_lookup_insert_eq by done. cbn.
    rewrite wake_asleep. destruct (Z.leb_spec 0 (Z.of_nat me)), (Z.ltb_spec (Z.of_nat me) NPROC); try lia. done.
  - rewrite list_lookup_insert_ne by done. rewrite !list_lookup_imap, list_lookup_insert_ne by done.
    destruct (ps !! j); [|done]. cbn. rewrite (bool_decide_eq_false_2 (Some me = Some j)) by congruence. done.
Qed.

(** What a request does to the medium. *)
Definition transferred (write : bool) (blk : Z) (d : list Z) (h h' : H) : Prop :=
  if write then
    (forall x, vd_now h' x = if x =? blk then d else vd_now h x) /\
    exists mids, vd_past h' = mids ++ vd_now h :: vd_past h /\ Forall (torn (vd_now h) blk d) mids
  else quiet_hw h h'.

Lemma transferred_quiet write blk d h h1 h2 h3 :
  quiet_hw h h1 -> transferred write blk d h1 h2 -> quiet_hw h2 h3 -> transferred write blk d h h3.
Proof.
  intros [E1 P1] T [E3 P3]. destruct write; cbn in *.
  - destruct T as (N & mids & P & F). rewrite P3, E3. split; [intros x; by rewrite N, E1|]. exists mids. by rewrite P, P1, <- E1.
  - destruct T as [E2 P2]. split; congruence.
Qed.

(** The buffer after the request. *)
Definition filled (write : bool) (blk : Z) (h : H) (r : buf) : buf := if write then r else set_b_data (vd_now h blk) r.

Lemma serve_ok k i0 i1 i2 b blk write r :
  pending (k_vdisk k) i0 i1 i2 b blk write -> (b < NBUF)%nat -> k_bufs k !! b = Some r -> 0 <= blk < vd_blocks ->
  length (b_data r) = Z.to_nat BSIZE ->
  exists h' len, vd_serve k = Ok tt (set_k_hw h' (set_k_vdisk (served (k_vdisk k) i0 len)
      (set_k_bufs (<[b := filled write blk (k_hw k) r]> (k_bufs k)) k))) /\ transferred write blk (b_data r) (k_hw k) h'.
Proof.
  intros P Hb Er Hblk Hd. destruct write; cbn.
  - destruct (vd_write k i0 i1 i2 b blk r P Hb Er Hblk Hd) as (h' & len & mids & E & N & Pa & F). exists h', len.
    rewrite list_insert_id by done. split; [|split; [done|by exists mids]]. rewrite E. by destruct k.
  - destruct (vd_read k i0 i1 i2 b blk r P Hb Er Hblk) as (h' & len & E & N). by exists h', len.
Qed.

Section Turn.
Context (c : cpu) (me : nat) (nm nmp : string) (p : proc) (k : kernel H).
Context (i0 i1 i2 b : nat) (blk : Z) (write : bool) (st : Z) (r : buf).
Context (Q : quiet c me k) (El : k_locks k !! LVdisk = Some (mkLk 0 nm None)).
Context (Ep : k_locks k !! LProc me = Some (mkLk 0 nmp None)) (Em : k_proc k !! me = Some p).
Context (P : pending (k_vdisk k) i0 i1 i2 b blk write) (Hb : (b < NBUF)%nat) (Er : k_bufs k !! b = Some r).
Context (Hblk : 0 <= blk < vd_blocks) (Hd : length (b_data r) = Z.to_nat BSIZE).
Context (Hu : vd_used_idx (k_vdisk k) = us_idx (vd_used (k_vdisk k))) (Hu16 : is_u16 (us_idx (vd_used (k_vdisk k)))).
Context (Hring : length (us_ring (vd_used (k_vdisk k))) = Z.to_nat NUM) (Hinfo : vd_info (k_vdisk k) !! i0 = Some (Some b, st)).

(** [disk] after the interrupt. *)
Definition completed (v : vdisk) (len : Z) : vdisk := set_vd_used_idx (u16 (us_idx (vd_used v) + 1)) (served v i0 len).

Lemma turn_ok : exists h' len,
  turn vd_serve me (cid k) (enter c nmp (LProc me) (sleeping me (ChBuf b) p k)) =
    Ok tt (enter c nmp (LProc me) (set_k_hw h' (set_k_vdisk (completed (k_vdisk k) len)
      (set_k_proc (<[me := set_p_state RUNNING (set_p_chan (Some (ChBuf b)) p)]> (woken (ChBuf b) (Some me) (k_proc k)))
        (set_k_bufs (<[b := set_b_disk 0 (filled write blk (k_hw k) r)]> (k_bufs k)) k))))) /\
  transferred write blk (b_data r) (k_hw k) h'.
Proof.
  pose proof (q_cpu _ _ _ Q) as Hc. set (v := k_vdisk k) in *. set (c0 := set_c_proc None c).
  set (kz := set_k_cpus (<[cid k := c0]> (k_cpus k)) (sleeping me (ChBuf b) p k)).
  pose proof (lookup_lt_Some _ _ _ (proj1 Hc)) as Hcl. pose proof (lookup_lt_Some _ _ _ Em) as Hml.
  assert (on_cpu c0 kz) as Hc0. { split; [by apply list_lookup_insert_eq|by destruct Hc]. }
  unfold turn. unfold upd_cpu at 1. erewrite bind_Ok.
  2:{ apply aupd_ok. cbn. by apply list_lookup_insert_eq. }
  match goal with |- context [bind (release _) _ ?s] => assert (s = enter c0 nmp (LProc me) kz) as ->
    by (unfold enter, off; cbn; by rewrite !list_insert_insert_eq) end.
  rewrite (bind_Ok _ _ _ _ _ (release_ok c0 nmp (LProc me) kz Hc0 Ep)).
  destruct (serve_ok kz i0 i1 i2 b blk write r P Hb Er Hblk Hd) as (h1 & len & E1 & T1). rewrite (bind_Ok _ _ _ _ _ E1).
  set (r1 := filled write blk (k_hw kz) r). set (ks := set_k_hw h1 _).
  assert (procs_free ks) as Hpf.
  { split; [cbn; rewrite length_insert; apply Q|]. intros i Hi. by apply (q_free _ _ _ Q (LProc i)). }
  assert (us_idx (vd_used v) mod NUM < 8) as Hm by by apply Z.mod_pos_bound. pose proof (Z.mod_pos_bound (us_idx (vd_used v)) NUM ltac:(done)).
  destruct (intr_ok c0 nm ks i0 b len r1 Hc0 El Hpf) as (h2 & E2 & T2).
  { change (is_u16 (vd_used_idx v)). by rewrite Hu. }
  { change (u16 (us_idx (vd_used v) + 1) = u16 (vd_used_idx v + 1)). by rewrite Hu. }
  { change (<[Z.to_nat (us_idx (vd_used v) mod NUM) := (Z.of_nat i0, len)]> (us_ring (vd_used v)) !! Z.to_nat (vd_used_idx v mod NUM)
      = Some (Z.of_nat i0, len)). rewrite Hu. apply list_lookup_insert_eq. rewrite Hring. change (Z.to_nat NUM) with 8%nat. lia. }
  { change (alter (fun e => (fst e, 0)) i0 (vd_info v) !! i0 = Some (Some b, 0)). by rewrite list_lookup_alter_eq, Hinfo. }
  { apply list_lookup_insert_eq. by eapply lookup_lt_Some. }
  rewrite (bind_Ok _ _ _ _ _ E2). exists h2, len. split; [|by eapply (transferred_quiet _ _ _ _ (k_hw kz))].
  set (ps := woken (ChBuf b) (Some me) (k_proc k)).
  change (k_proc ks) with (<[me := asleep (ChBuf b) p]> (k_proc k)). change (c_proc c0) with (@None nat).
  rewrite (woken_sleeper (ChBuf b) me (k_proc k) p Em (q_lt _ _ _ Q)). fold ps. set (ki := set_k_hw h2 _).
  assert (on_cpu c0 ki) as Hci by exact Hc0. rewrite (bind_Ok _ _ _ _ _ (acquire_ok c0 nmp (LProc me) ki Hci Ep)).
  assert (length ps = length (k_proc k)) as Hps by apply length_imap.
  assert (k_proc (enter c0 nmp (LProc me) ki) !! me = Some (set_p_state RUNNABLE (set_p_chan (Some (ChBuf b)) p))) as Ei.
  { apply list_lookup_insert_eq. by rewrite Hps. }
  rewrite (bind_Ok _ _ _ _ _ (get_proc_ok _ _ _ Ei)). rewrite bool_decide_eq_true_2 by done.
  rewrite (bind_Ok _ _ _ _ _ (upd_proc_ok _ _ _ _ Ei)).
  unfold upd_cpu. erewrite aupd_ok by (cbn; apply list_lookup_insert_eq; by rewrite length_insert).
  assert (set_c_proc (Some me) (set_c_noff (c_noff c0 + 1) c0) = set_c_noff (c_noff c + 1) c) as Ecc
    by (pose proof (q_me _ _ _ Q) as Eme; destruct c; cbn in *; by rewrite Eme).
  f_equal. unfold enter, off. cbn -[c0]. rewrite !list_insert_insert_eq. unfold c0 in Ecc |- *. cbn in Ecc |- *. rewrite Ecc.
  unfold ki, ks. cbn. rewrite !list_insert_insert_eq. reflexivity.
Qed.

(** The loop around [sleep] ends when the request is done. *)
Lemma wait_disk_ok n : b_disk r = 1 -> exists h' len,
  wait_disk (S (S n)) b (enter c nm LVdisk k) =
    Ok tt (enter c nm LVdisk (set_k_hw h' (set_k_vdisk (completed (k_vdisk k) len)
      (set_k_proc (woken (ChBuf b) (Some me) (k_proc k))
        (set_k_bufs (<[b := set_b_disk 0 (filled write blk (k_hw k) r)]> (k_bufs k)) k))))) /\
  transferred write blk (b_data r) (k_hw k) h'.
Proof.
  intros Hr. destruct turn_ok as (h' & len & E & T). exists h', len. split; [|exact T].
  cbn [wait_disk]. rewrite (bind_Ok _ _ _ _ _ (get_buf_ok b r (enter c nm LVdisk k) Er)). rewrite Hr. change (1 =? 1) with true. cbn iota.
  destruct (q_run _ _ _ Q) as (p' & Em' & Hrun & Hch). assert (p' = p) as -> by congruence.
  apply (eq_trans (vd_swtch me (cid k) _)) in E. set (ps := woken (ChBuf b) (Some me) (k_proc k)) in *.
  assert (ps !! me = Some p) as Emp by (unfold ps; destruct (woken_procs (ChBuf b) me (k_proc k)) as (_ & -> & _); exact Em).
  match type of E with _ = Ok tt (enter _ _ _ ?x) => set (k1 := x) in * end.
  set (p1 := set_p_state RUNNING (set_p_chan (Some (ChBuf b)) p)) in *.
  assert (k_proc k1 !! me = Some p1) as E1 by (apply list_lookup_insert_eq; by eapply lookup_lt_Some).
  rewrite (bind_Ok _ _ _ _ _ (sleep_ok c me (ChBuf b) LVdisk nm nmp p k Q ltac:(done) El Ep Em k1 p1 E (q_cpu _ _ _ Q) eq_refl eq_refl E1)).
  change (k_proc k1) with (<[me := p1]> ps). rewrite list_insert_insert_eq.
  assert (set_p_chan None p1 = p) as -> by (unfold p1; destruct p; cbn in *; by subst).
  rewrite list_insert_id by done. set (r' := set_b_disk 0 _).
  assert (k_bufs (enter c nm LVdisk (set_k_proc ps k1)) !! b = Some r') as Eb by (apply list_lookup_insert_eq; by eapply lookup_lt_Some).
  rewrite (bind_Ok _ _ _ _ _ (get_buf_ok b r' _ Eb)).
  reflexivity.
Qed.
End Turn.

(** * The chain is given back *)

Definition freed (i : nat) (v : vdisk) : vdisk :=
  set_vd_free (<[i := 1]> (vd_free v)) (set_vd_desc (<[i := zero_desc]> (vd_desc v)) v).
Definition chain_step (me : option nat) (i : nat) k : kernel H :=
  set_k_proc (woken ChDisk me (k_proc k)) (set_k_vdisk (freed i (k_vdisk k)) k).

Lemma free_desc_ok c nm i k :
  on_cpu c k -> procs_free k -> vd_free (k_vdisk k) !! i = Some 0 -> (i < Z.to_nat NUM)%nat ->
  (i < length (vd_desc (k_vdisk k)))%nat ->
  free_desc i (enter c nm LVdisk k) = Ok tt (enter c nm LVdisk (chain_step (c_proc c) i k)).
Proof.
  intros Hc Hp Ef Hi Hd. unfold free_desc. destruct (Nat.leb_spec (Z.to_nat NUM) i); [lia|]. unfold get_disk.
  erewrite bind_Ok by reflexivity. change (k_vdisk (enter c nm LVdisk k)) with (k_vdisk k). rewrite Ef.
  erewrite bind_Ok by reflexivity. cbn [negb Z.eqb].
  rewrite (bind_Ok _ _ _ _ _ (set_desc_ok i zero_desc (enter c nm LVdisk k) Hd)).
  erewrite bind_Ok by (apply set_free_ok; by eapply lookup_lt_Some).
  set (k1 := set_k_vdisk (freed i (k_vdisk k)) k).
  change (wakeup ChDisk (enter c nm LVdisk k1) = Ok tt (enter c nm LVdisk (chain_step (c_proc c) i k))).
  by rewrite (wakeup_ok _ _ _ (on_cpu_enter c nm LVdisk k1 Hc) (procs_free_enter c nm LVdisk k1 ltac:(done) Hp)).
Qed.

Lemma chain_procs_free me i k : procs_free k -> procs_free (chain_step me i k).
Proof. intros [L F]. split; [|exact F]. cbn. unfold woken, wake_range. by rewrite length_imap. Qed.

Lemma free_chain_next c nm n i d k :
  on_cpu c k -> procs_free k -> vd_free (k_vdisk k) !! i = Some 0 -> (i < Z.to_nat NUM)%nat ->
  vd_desc (k_vdisk k) !! i = Some d ->
  free_chain_loop (S n) i (enter c nm LVdisk k) =
    if negb (Z.land (d_flags d) VRING_DESC_F_NEXT =? 0)
    then free_chain_loop n (Z.to_nat (d_next d)) (enter c nm LVdisk (chain_step (c_proc c) i k))
    else Ok tt (enter c nm LVdisk (chain_step (c_proc c) i k)).
Proof.
  intros Hc Hp Ef Hi Ed. cbn [free_chain_loop]. unfold get_disk. erewrite bind_Ok by reflexivity.
  change (k_vdisk (enter c nm LVdisk k)) with (k_vdisk k). rewrite Ed.
  rewrite (bind_Ok _ _ _ _ _ (free_desc_ok c nm i k Hc Hp Ef Hi ltac:(by eapply lookup_lt_Some))). by destruct (negb _).
Qed.

Lemma woken_idem ch me ps : woken ch me (woken ch me ps) = woken ch me ps.
Proof.
  apply list_eq. intros i. unfold woken, wake_range. rewrite !list_lookup_imap. destruct (ps !! i) as [p|]; [|done]. cbn. f_equal.
  destruct (_ && _); [|done]. unfold wake. destruct (bool_decide (p_state p = SLEEPING)) eqn:E1, (bool_decide (p_chan p = Some ch)) eqn:E2;
    cbn; rewrite ?E1, ?E2; done.
Qed.

(** The three descriptors of a request. *)
Lemma free_chain_ok c nm k l1 l2 f1 :
  on_cpu c k -> procs_free k -> vd_free (k_vdisk k) = three_taken ->
  vd_desc (k_vdisk k) !! 0%nat = Some (mkDesc l1 BLK_REQ_SIZE VRING_DESC_F_NEXT 1) ->
  vd_desc (k_vdisk k) !! 1%nat = Some (mkDesc l2 BSIZE (Z.lor f1 VRING_DESC_F_NEXT) 2) ->
  f1 = 0 \/ f1 = VRING_DESC_F_WRITE ->
  forall l3, vd_desc (k_vdisk k) !! 2%nat = Some (mkDesc l3 1 VRING_DESC_F_WRITE 0) ->
  free_chain 0 (enter c nm LVdisk k) = Ok tt (enter c nm LVdisk (set_k_proc (woken ChDisk (c_proc c) (k_proc k))
    (set_k_vdisk (freed 2 (freed 1 (freed 0 (k_vdisk k)))) k))).
Proof.
  intros Hc Hp Ef E0 E1 Hf l3 E2. unfold free_chain. change (Z.to_nat NUM) with 8%nat.
  set (k1 := chain_step (c_proc c) 0 k). set (k2 := chain_step (c_proc c) 1 k1).
  rewrite (free_chain_next c nm _ 0 _ k Hc Hp ltac:(by rewrite Ef) ltac:(by apply Nat.ltb_lt) E0). cbn [negb Z.land Z.eqb d_flags d_next].
  change (negb (Z.land VRING_DESC_F_NEXT VRING_DESC_F_NEXT =? 0)) with true. cbn iota. change (Z.to_nat 1) with 1%nat. fold k1.
  assert (procs_free k1) as Hp1 by by apply chain_procs_free. assert (procs_free k2) as Hp2 by by apply chain_procs_free.
  rewrite (free_chain_next c nm _ 1 (mkDesc l2 BSIZE (Z.lor f1 VRING_DESC_F_NEXT) 2) k1 Hc Hp1);
    [|cbn; by rewrite Ef|by apply Nat.ltb_lt|cbn; by rewrite list_lookup_insert_ne].
  assert (negb (Z.land (Z.lor f1 VRING_DESC_F_NEXT) VRING_DESC_F_NEXT =? 0) = true) as Hn by by destruct Hf as [->| ->].
  cbn [d_flags d_next]. rewrite Hn. change (Z.to_nat 2) with 2%nat. fold k2.
  rewrite (free_chain_next c nm _ 2 (mkDesc l3 1 VRING_DESC_F_WRITE 0) k2 Hc Hp2);
    [|cbn; by rewrite Ef|by apply Nat.ltb_lt|cbn; by rewrite !list_lookup_insert_ne].
  cbn [d_flags]. change (negb (Z.land VRING_DESC_F_WRITE VRING_DESC_F_NEXT =? 0)) with false. cbn iota.
  do 2 f_equal. unfold k2, k1, chain_step. cbn -[woken]. by rewrite !woken_idem.
Qed.

(** * A request *)

(** [struct disk] with the request of buffer [b] described, then offered to the device. *)
Definition formatted (b : nat) (write : bool) (sector : Z) (v : vdisk) : vdisk :=
  set_vd_info (<[0%nat := (Some b, 0xff)]> (vd_info v))
    (set_vd_desc (<[2%nat := mkDesc (V2P (sym_status 0)) 1 VRING_DESC_F_WRITE 0]>
        (<[1%nat := mkDesc (V2P (sym_bufdata b)) BSIZE (Z.lor (if write then 0 else VRING_DESC_F_WRITE) VRING_DESC_F_NEXT) 2]>
        (<[0%nat := mkDesc (V2P (sym_ops 0)) BLK_REQ_SIZE VRING_DESC_F_NEXT 1]> (vd_desc v))))
      (set_vd_ops (<[0%nat := mkReq (if write then VIRTIO_BLK_T_OUT else VIRTIO_BLK_T_IN) 0 sector]> (vd_ops v)) v)).
Definition submitted (v : vdisk) : vdisk :=
  let av := vd_avail v in
  set_vd_avail (mkAvail (u16 (av_idx av + 1)) (<[Z.to_nat (av_idx av mod NUM) := 0]> (av_ring av))) v.

Lemma format_ok b write sector r k :
  let v := k_vdisk k in
  length (vd_ops v) = Z.to_nat NUM -> length (vd_desc v) = Z.to_nat NUM -> length (vd_info v) = Z.to_nat NUM ->
  k_bufs k !! b = Some r ->
  format_request b write sector 0 1 2 k =
    Ok tt (set_k_vdisk (formatted b write sector v) (set_k_bufs (<[b := set_b_disk 1 r]> (k_bufs k)) k)).
Proof.
  intros v Ho Hd Hi Er. change (Z.to_nat NUM) with 8%nat in *. unfold format_request. destruct (vd_info v) as [|e0 info] eqn:Ei; [done|].
  rewrite (bind_Ok _ _ _ _ _ (set_op_ok 0 _ k ltac:(fold v; lia))). fold v.
  erewrite bind_Ok by (apply set_desc_ok; cbn; lia).
  erewrite bind_Ok by (apply set_desc_ok; cbn; rewrite length_insert; lia).
  erewrite bind_Ok by (apply (set_info_ok 0 _ e0); cbn; by rewrite Ei).
  erewrite bind_Ok by (apply set_desc_ok; cbn; rewrite !length_insert; lia).
  erewrite bind_Ok by (apply (upd_buf_ok b _ r); exact Er).
  erewrite (set_info_ok 0 _ (fst e0, 0xff)) by (cbn; by rewrite Ei).
  f_equal. cbn. unfold formatted. rewrite Ei. by destruct v, k.
Qed.

Lemma submit_ok k : exists h', submit 0 k = Ok tt (set_k_hw h' (set_k_vdisk (submitted (k_vdisk k)) k)) /\ quiet_hw (k_hw k) h'.
Proof.
  unfold submit, get_disk, upd_disk. do 4 (erewrite bind_Ok by reflexivity).
  destruct (wr_ok VIRTIO_MMIO_QUEUE_NOTIFY 0 (set_k_vdisk (submitted (k_vdisk k)) k)) as (h' & E & Q). exists h'. split; [exact E|exact Q].
Qed.

Lemma pending_submitted b write blk v :
  idle v -> pending (submitted (formatted b write (2 * blk) (set_vd_free three_taken v))) 0 1 2 b blk write.
Proof.
  intros I. destruct I as [_ Hd Hi Ho Ha _ Ea _ Hu]. unfold submitted, formatted. change (Z.to_nat NUM) with 8%nat in *.
  split; cbn [vd_avail vd_used vd_ops vd_desc set_vd_avail set_vd_info set_vd_desc set_vd_ops set_vd_free av_idx av_ring].
  - by rewrite Ea.
  - rewrite Ea. apply list_lookup_insert_eq. rewrite Ha. pose proof (Z.mod_pos_bound (us_idx (vd_used v)) NUM ltac:(done)).
    change NUM with 8 in *. lia.
  - apply list_lookup_insert_eq. lia.
  - rewrite !list_lookup_insert_ne by done. apply list_lookup_insert_eq. lia.
  - rewrite list_lookup_insert_ne by done. apply list_lookup_insert_eq. rewrite length_insert. lia.
  - apply list_lookup_insert_eq. rewrite !length_insert. lia.
Qed.

(** The driver's data once the request of descriptors 0, 1 and 2 is over. *)
Definition retired (v : vdisk) : vdisk := freed 2 (freed 1 (freed 0 (set_vd_info (alter (fun e => (None, snd e)) 0%nat (vd_info v)) v))).

Lemma idle_again b write blk len v :
  idle v -> idle (retired (completed 0 (submitted (formatted b write (2 * blk) (set_vd_free three_taken v))) len)).
Proof.
  intros [Ef Hd Hi Ho Ha Hus Ea Eu Hu]. unfold retired, freed, completed, served, submitted, formatted.
  split; cbn; rewrite ?length_insert, ?length_alter; try done; rewrite ?length_insert; try done.
  - by rewrite Ea.
  - apply Z.mod_pos_bound. done.
Qed.

Lemma retire_ok c nm k l1 l2 l3 f1 :
  on_cpu c k -> procs_free k -> k_locks k !! LVdisk = Some (mkLk 0 nm None) -> (0 < length (vd_info (k_vdisk k)))%nat ->
  vd_free (k_vdisk k) = three_taken ->
  vd_desc (k_vdisk k) !! 0%nat = Some (mkDesc l1 BLK_REQ_SIZE VRING_DESC_F_NEXT 1) ->
  vd_desc (k_vdisk k) !! 1%nat = Some (mkDesc l2 BSIZE (Z.lor f1 VRING_DESC_F_NEXT) 2) ->
  f1 = 0 \/ f1 = VRING_DESC_F_WRITE ->
  vd_desc (k_vdisk k) !! 2%nat = Some (mkDesc l3 1 VRING_DESC_F_WRITE 0) ->
  (set_info 0 (fun e => (None, snd e)) ;; free_chain 0 ;; release LVdisk) (enter c nm LVdisk k) =
    Ok tt (set_k_proc (woken ChDisk (c_proc c) (k_proc k)) (set_k_vdisk (retired (k_vdisk k)) k)).
Proof.
  intros Hc Hp El Hi Ef E0 E1 Hf E2. destruct (vd_info (k_vdisk k)) as [|e info] eqn:Ei; [by apply Nat.lt_irrefl in Hi|].
  rewrite (bind_Ok _ _ _ _ _ (set_info_ok 0 (fun e => (None, snd e)) e (enter c nm LVdisk k) ltac:(cbn; by rewrite Ei))).
  set (k1 := set_k_vdisk (set_vd_info (alter (fun e => (None, snd e)) 0%nat (vd_info (k_vdisk k))) (k_vdisk k)) k).
  match goal with |- bind _ _ ?s = _ => assert (s = enter c nm LVdisk k1) as -> by (unfold k1; rewrite Ei; cbn; by rewrite Ei) end.
  rewrite (bind_Ok _ _ _ _ _ (free_chain_ok c nm k1 l1 l2 f1 Hc Hp Ef E0 E1 Hf l3 E2)).
  match goal with |- _ (enter _ _ _ ?x) = _ => exact (release_ok c nm LVdisk x Hc El) end.
Qed.

Lemma sector_of_ok blk : 0 <= blk < vd_blocks -> sector_of blk = 2 * blk.
Proof. intros Hb. pose proof vd_bound. unfold sector_of, u32. change (BSIZE / 512) with 2. rewrite Z.mod_small; lia. Qed.

Lemma quiet_step c me k h v ps bs :
  quiet c me k -> procs_woken me (k_proc k) ps -> quiet c me (set_k_hw h (set_k_vdisk v (set_k_proc ps (set_k_bufs bs k)))).
Proof. intros Q (L & M & _). by destruct (quiet_set_proc ps c me k L M Q). Qed.

Lemma disk_rw_ok n c me k b write r :
  sleep_fuel = S n -> quiet c me k -> idle (k_vdisk k) -> (b < NBUF)%nat -> k_bufs k !! b = Some r ->
  0 <= b_blockno r < vd_blocks -> length (b_data r) = Z.to_nat BSIZE ->
  exists h' v' ps', disk_rw b write k = Ok tt (set_k_hw h' (set_k_vdisk v' (set_k_proc ps' (set_k_bufs
      (<[b := set_b_disk 0 (filled write (b_blockno r) (k_hw k) r)]> (k_bufs k)) k)))) /\
    procs_woken me (k_proc k) ps' /\ idle v' /\ transferred write (b_blockno r) (b_data r) (k_hw k) h'.
Proof.
  intros Hn Q Id Hb Er Hblk Hd. set (v := k_vdisk k) in *. set (blk := b_blockno r) in *.
  destruct (q_free _ _ _ Q LVdisk Logic.I) as [nm El]. destruct (q_free _ _ _ Q (LProc me) (q_lt _ _ _ Q)) as [nmp Ep].
  destruct (q_run _ _ _ Q) as (p & Em & _). pose proof (q_cpu _ _ _ Q) as Hc.
  unfold disk_rw. rewrite (bind_Ok _ _ _ _ _ (get_buf_ok _ _ _ Er)), (bind_Ok _ _ _ _ _ (acquire_ok c nm LVdisk k Hc El)).
  rewrite (bind_Ok _ _ _ _ _ (wait_descs_ok sleep_fuel (enter c nm LVdisk k) (id_free _ Id))).
  set (v1 := set_vd_free three_taken v). fold blk. rewrite (sector_of_ok blk Hblk).
  set (v2 := formatted b write (2 * blk) v1). set (r1 := set_b_disk 1 r).
  rewrite (bind_Ok _ _ _ _ _ (format_ok b write (2 * blk) r (set_k_vdisk v1 (enter c nm LVdisk k)) (id_ops _ Id) (id_desc _ Id) (id_info _ Id) Er)).
  match goal with |- context [bind _ _ ?s] => change s with (enter c nm LVdisk (set_k_vdisk v2 (set_k_bufs (<[b := r1]> (k_bufs k)) k))) end.
  destruct (submit_ok (enter c nm LVdisk (set_k_vdisk v2 (set_k_bufs (<[b := r1]> (k_bufs k)) k)))) as (h1 & Es & Q1).
  rewrite (bind_Ok _ _ _ _ _ Es). set (v3 := submitted v2). set (k3 := set_k_hw h1 (set_k_vdisk v3 (set_k_bufs (<[b := r1]> (k_bufs k)) k))).
  match goal with |- context [bind _ _ ?s] => change s with (enter c nm LVdisk k3) end. rewrite Hn.
  assert (quiet c me k3) as Q3 by by apply (quiet_step c me k h1 v3 (k_proc k)).
  assert (k_bufs k3 !! b = Some r1) as Er3 by (apply list_lookup_insert_eq; by eapply lookup_lt_Some).
  assert (exists st, vd_info (k_vdisk k3) !! 0%nat = Some (Some b, st)) as [st Hst].
  { exists 0xff. apply list_lookup_insert_eq. change (0 < length (vd_info v))%nat. rewrite (id_info _ Id). by apply Nat.ltb_lt. }
  destruct (wait_disk_ok c me nm nmp p k3 0 1 2 b blk write st r1 Q3 El Ep Em (pending_submitted b write blk v Id) Hb Er3 Hblk Hd
    (id_used _ Id) (id_u16 _ Id) (id_usring _ Id) Hst n eq_refl) as (h2 & len & Ew & T).
  rewrite (bind_Ok _ _ _ _ _ Ew). set (k4 := set_k_hw h2 _).
  assert (quiet c me k4) as Q4 by (apply (quiet_step c me k3); [done|apply woken_procs]).
  pose proof (pending_submitted b write blk v Id) as P. assert (length (vd_info (k_vdisk k4)) = Z.to_nat NUM) as Hi4.
  { change (length (alter (fun e => (fst e, 0)) 0%nat (<[0%nat := (Some b, 0xff)]> (vd_info v))) = Z.to_nat NUM).
    by rewrite length_alter, length_insert, (id_info _ Id). }
  rewrite (retire_ok c nm k4 (V2P (sym_ops 0)) (V2P (sym_bufdata b)) (V2P (sym_status 0)) (if write then 0 else VRING_DESC_F_WRITE)).
  - exists h2, (retired (k_vdisk k4)), (woken ChDisk (c_proc c) (k_proc k4)). split; [|split; [|split]].
    + f_equal. assert (set_b_disk 0 (filled write blk (k_hw k3) r1) = set_b_disk 0 (filled write blk (k_hw k) r)) as Er4.
      { assert (vd_now h1 = vd_now (k_hw k)) as Eh by apply Q1. unfold filled. destruct write; [done|]. change (k_hw k3) with h1. by rewrite Eh. }
      set (v' := retired (k_vdisk k4)). set (ps' := woken ChDisk (c_proc c) (k_proc k4)). unfold k4. rewrite Er4. set (rb := set_b_disk 0 _).
      change (k_bufs k3) with (<[b := r1]> (k_bufs k)). rewrite list_insert_insert_eq. reflexivity.
    + rewrite (q_me _ _ _ Q). etrans; [|apply woken_procs]. apply (woken_procs (ChBuf b)).
    + by apply idle_again.
    + by eapply (transferred_quiet _ _ _ _ _ h2).
  - apply Q4.
  - split; [apply Q4|]. intros i Hi. by apply (q_free _ _ _ Q4 (LProc i)).
  - exact El.
  - rewrite Hi4. by apply Nat.ltb_lt.
  - done.
  - exact (pd_d0 _ _ _ _ _ _ _ P).
  - exact (pd_d1 _ _ _ _ _ _ _ P).
  - destruct write; [by left|by right].
  - exact (pd_d2 _ _ _ _ _ _ _ P).
Qed.

(** The driver over any such device is a disk for the buffer cache. *)
Program Definition virtio_laws n (Hn : sleep_fuel = S n) : @DiskLaws H _ virtio_driver := {|
  dk_now := vd_now;
  dk_past := vd_past;
  dk_ready _ v := idle v;
  dk_size := vd_blocks
|}.
Next Obligation. intros. apply vd_bound. Qed.
Next Obligation. intros. by apply vd_block. Qed.
Next Obligation.
  intros n Hn c me k b r Q Id Hb Er Hblk Hd.
  destruct (disk_rw_ok n c me k b false r Hn Q Id Hb Er Hblk Hd) as (h' & v' & ps' & E & W & I' & N & P).
  exists h', v', ps'. split; [exact E|]. split; [exact W|]. split; [exact I'|]. by split.
Qed.
Next Obligation.
  intros n Hn c me k b r Q Id Hb Er Hblk Hd.
  destruct (disk_rw_ok n c me k b true r Hn Q Id Hb Er Hblk Hd) as (h' & v' & ps' & E & W & I' & N & mids & P & F).
  by exists h', v', ps', mids.
Qed.

(** C25 The virtio disk driver transfers exactly the block that it is asked for.  Called by a
    process that holds no spinlock, with no request under way and any device that follows
    the virtio specification, [virtio_disk_rw] returns: a read has filled the buffer with
    the block and left the disk alone, a write has stored the buffer in the block and
    changed no other, every state of the disk in between differing in that block only; the
    buffer belongs to the driver no more, all descriptors are free again, and of the
    processes only sleeping ones have changed, by being woken. *)
Theorem disk_rw_transfers c me k b (write : bool) r :
  (0 < sleep_fuel)%nat -> quiet c me k -> idle (k_vdisk k) -> (b < NBUF)%nat -> k_bufs k !! b = Some r ->
  0 <= b_blockno r < vd_blocks -> length (b_data r) = Z.to_nat BSIZE ->
  exists h' v' ps' r', disk_rw b write k = Ok tt (set_k_hw h' (set_k_vdisk v' (set_k_proc ps' (set_k_bufs (<[b := r']> (k_bufs k)) k)))) /\
    r' = set_b_disk 0 (if write then r else set_b_data (vd_now (k_hw k) (b_blockno r)) r) /\
    procs_woken me (k_proc k) ps' /\ idle v' /\
    if write then
      (forall x, vd_now h' x = if x =? b_blockno r then b_data r else vd_now (k_hw k) x) /\
      exists mids, vd_past h' = mids ++ vd_now (k_hw k) :: vd_past (k_hw k) /\
        Forall (torn (vd_now (k_hw k)) (b_blockno r) (b_data r)) mids
    else vd_now h' = vd_now (k_hw k) /\ vd_past h' = vd_past (k_hw k).
Proof.
  intros Hf Q Id Hb Er Hblk Hd. destruct sleep_fuel as [|n] eqn:Hn; [by apply Nat.lt_irrefl in Hf|].
  destruct (disk_rw_ok n c me k b write r Hn Q Id Hb Er Hblk Hd) as (h' & v' & ps' & E & W & I' & T).
  exists h', v', ps', (set_b_disk 0 (filled write (b_blockno r) (k_hw k) r)). split; [exact E|]. split; [done|]. split; [exact W|]. split; [exact I'|exact T].
Qed.
End Device.

(** * [virtio_disk_init] *)

Section Init.
Context {H : Type} `{!Platform H} `{!Symbols} `{!SleepFuel}.
Implicit Types k : kernel H.

(** The registers identify a legacy virtio block device with a queue of at least [NUM]. *)
Record identifies : Prop := {
  ir_magic h : u32 (fst (pf_r32 (VIRTIO0 + VIRTIO_MMIO_MAGIC_VALUE) h)) = 0x74726976;
  ir_version h : u32 (fst (pf_r32 (VIRTIO0 + VIRTIO_MMIO_VERSION) h)) = 1;
  ir_device h : u32 (fst (pf_r32 (VIRTIO0 + VIRTIO_MMIO_DEVICE_ID) h)) = 2;
  ir_vendor h : u32 (fst (pf_r32 (VIRTIO0 + VIRTIO_MMIO_VENDOR_ID) h)) = 0x554d4551;
  ir_queue h : NUM <= u32 (fst (pf_r32 (VIRTIO0 + VIRTIO_MMIO_QUEUE_NUM_MAX) h))
}.
Context (D : identifies).

Lemma rd_val r k x : (forall h, u32 (fst (pf_r32 (u64 (VIRTIO0 + r)) h)) = x) -> exists h', rd r k = Ok x (set_k_hw h' k).
Proof.
  intros Hx. pose proof (Hx (k_hw k)) as E. unfold rd, reg_read, pf_read, bind.
  destruct (pf_r32 _ (k_hw k)) as [y h'] eqn:Ey. exists h'. cbn in E. cbn. by rewrite E.
Qed.
Lemma rd_any r k : exists x h', rd r k = Ok x (set_k_hw h' k) /\ x = u32 (fst (pf_r32 (u64 (VIRTIO0 + r)) (k_hw k))).
Proof.
  unfold rd, reg_read, pf_read, bind. destruct (pf_r32 _ (k_hw k)) as [y h'] eqn:Ey. by exists (u32 y), h'.
Qed.
Lemma wr_any r x k : wr r x k = Ok tt (set_k_hw (pf_w32 (u64 (VIRTIO0 + r)) (u32 x) (k_hw k)) k).
Proof. reflexivity. Qed.

(** The part after the registers: the rings are cleared, every descriptor is free. *)
Lemma init_rings_ok k :
  length (vd_free (k_vdisk k)) = Z.to_nat NUM ->
  exists h', (clear_pages ;; wr VIRTIO_MMIO_QUEUE_PFN (Z.shiftr (V2P sym_pages) PGSHIFT) ;;
    for_range 0 NUM (fun i => set_free (Z.to_nat i) 1)) k =
    Ok tt (set_k_hw h' (set_k_vdisk (set_vd_free (replicate 8 1) (set_vd_used zero_used (set_vd_avail zero_avail
      (set_vd_desc (replicate (Z.to_nat NUM) zero_desc) (k_vdisk k))))) k)).
Proof.
  intros Hl. change (Z.to_nat NUM) with 8%nat in Hl. destruct (k_vdisk k) as [de av us fr ui info ops] eqn:Ev. cbn in Hl.
  destruct fr as [|x0 [|x1 [|x2 [|x3 [|x4 [|x5 [|x6 [|x7 [|]]]]]]]]]; try done.
  destruct k. cbn in Ev. subst. eexists. reflexivity.
Qed.

Ltac id_reg r L := match goal with |- context [bind (rd r) _ ?s] =>
  let h := fresh "h" in let E := fresh "E" in destruct (rd_val r s _ L) as (h & E); rewrite (bind_Ok _ _ _ _ _ E); clear E end;
  match goal with |- context [if negb ?x then _ else _] => change x with true end; cbn [negb].
Ltac put_reg := match goal with |- context [bind (wr ?r ?x) _ ?s] => rewrite (bind_Ok _ _ _ _ _ (wr_any r x s)) end; cbv zeta.

(** [virtio_disk_init] brings the driver into its idle state.  On registers that identify
    a legacy virtio block device with a queue of at least 8 entries it returns, with the lock
    initialised, empty rings and all descriptors free; nothing else of the kernel changes. *)
Theorem virtio_disk_init_idle k :
  length (vd_free (k_vdisk k)) = Z.to_nat NUM -> length (vd_info (k_vdisk k)) = Z.to_nat NUM ->
  length (vd_ops (k_vdisk k)) = Z.to_nat NUM -> vd_used_idx (k_vdisk k) = 0 ->
  exists h' v', virtio_disk_init k =
      Ok tt (set_k_hw h' (set_k_vdisk v' (set_k_locks (<[LVdisk := mkLk 0 "virtio_disk" None]> (k_locks k)) k))) /\
    idle v'.
Proof.
  intros Hf Hi Ho Hu. unfold virtio_disk_init. erewrite bind_Ok by reflexivity.
  id_reg VIRTIO_MMIO_MAGIC_VALUE (ir_magic D). id_reg VIRTIO_MMIO_VERSION (ir_version D).
  id_reg VIRTIO_MMIO_DEVICE_ID (ir_device D). id_reg VIRTIO_MMIO_VENDOR_ID (ir_vendor D).
  do 2 put_reg.
  match goal with |- context [bind (rd _) _ ?s] => destruct (rd_any VIRTIO_MMIO_DEVICE_FEATURES s) as (f & hf & E & _) end.
  rewrite (bind_Ok _ _ _ _ _ E). clear E. do 5 put_reg.
  match goal with |- context [bind (rd _) _ ?s] => destruct (rd_any VIRTIO_MMIO_QUEUE_NUM_MAX s) as (q & hq & E & Eq) end.
  rewrite (bind_Ok _ _ _ _ _ E). clear E. match type of Eq with _ = u32 (fst (_ ?h)) => pose proof (ir_queue D h) as Hq end.
  change (VIRTIO0 + VIRTIO_MMIO_QUEUE_NUM_MAX) with (u64 (VIRTIO0 + VIRTIO_MMIO_QUEUE_NUM_MAX)) in Hq. rewrite <- Eq in Hq. clear Eq.
  change NUM with 8 in Hq. destruct (Z.eqb_spec q 0); [lia|]. destruct (Z.ltb_spec q NUM); [change NUM with 8 in *; lia|].
  put_reg. match goal with |- context [bind clear_pages _ ?s] => destruct (init_rings_ok s Hf) as (h' & E) end.
  eexists h', _. split; [exact E|]. by split.
Qed.
End Init.
