(* ===== verification/KSpace.v ===== *)
(** Page tables of the guest kernel as trees (vm.c): what a root table means, and what
    [walk], [mappages] and [uvmunmap] do to that meaning.

    A [space] is the tables of the second and third level and the leaf entries, by the bits
    of the address that lead to them; [rep] says that RAM holds it.  [walk] looks at bits
    12 to 38 of an address only ([vpn]). *)
From stdpp Require Import base gmap list numbers strings tactics.
From S2P Require Import Prelude Mem KMachine KString KSched KAlloc KVm.

(** The linker puts the end of the kernel above its start. *)
Class SymbolLaws `{!Symbols} : Prop := sym_end_high : KERNLINK <= sym_end.

(** * Addresses *)

(** The bits of an address that [walk] looks at. *)
Definition vpn (va : Z) : Z := (va / 4096) mod 2 ^ 27.

Lemma mod_div x a b : 0 < a -> 0 < b -> x mod (a * b) / a = (x / a) mod b.
Proof.
  intros Ha Hb. rewrite Z.rem_mul_r by lia. rewrite (Z.mul_comm a), Z.div_add by lia.
  rewrite (Z.div_small (x mod a)) by (apply Z.mod_pos_bound; lia). lia.
Qed.
Lemma mod_mod_le x a b : 0 < a -> 0 < b -> x mod (a * b) mod a = x mod a.
Proof. intros Ha Hb. rewrite Z.rem_mul_r by lia. rewrite (Z.mul_comm a), Z.mod_add by lia. apply Z.mod_mod. lia. Qed.

Lemma vpn_range va : 0 <= vpn va < 2 ^ 27.
Proof. by apply Z.mod_pos_bound. Qed.

Lemma PX1 va : PX 1 va = vpn va / 2 ^ 18.
Proof.
  unfold PX, PXSHIFT, PXMASK, vpn. change 511 with (Z.ones 9). rewrite Z.land_ones, Z.shiftr_div_pow2 by lia.
  rewrite (mod_div _ (2 ^ 18) (2 ^ 9)), Z.div_div by lia. reflexivity.
Qed.
Lemma PX2 va : PX 2 va = vpn va / 2 ^ 9 mod 2 ^ 9.
Proof.
  unfold PX, PXSHIFT, PXMASK, vpn. change 511 with (Z.ones 9). rewrite Z.land_ones, Z.shiftr_div_pow2 by lia.
  rewrite (mod_div _ (2 ^ 9) (2 ^ 18)), (mod_mod_le _ (2 ^ 9) (2 ^ 9)), Z.div_div by lia. reflexivity.
Qed.
Lemma PX3 va : PX 3 va = vpn va mod 2 ^ 9.
Proof.
  unfold PX, PXSHIFT, PXMASK, vpn. change 511 with (Z.ones 9). rewrite Z.land_ones, Z.shiftr_div_pow2 by lia.
  rewrite (mod_mod_le _ (2 ^ 9) (2 ^ 18)) by lia. reflexivity.
Qed.

(** A page of RAM in the kernel's map. *)
Definition kpage (p : Z) : Prop := p mod 4096 = 0 /\ KERNLINK <= p < P2V PHYSTOP.

Lemma kpage_V2P p : kpage p -> V2P p = p - KERNBASE /\ 0 < V2P p < 2 ^ 47 /\ V2P p mod 4096 = 0 /\ P2V (V2P p) = p.
Proof.
  intros [Ha Hp]. change (P2V PHYSTOP) with (KERNLINK + 2 ^ 27) in Hp. change KERNLINK with (KERNBASE + 2 ^ 30) in Hp.
  assert (V2P p = p - KERNBASE) as E by (unfold V2P; apply u64_small; unfold is_u64; change KERNBASE with (2 ^ 64 - 2 ^ 39) in *; lia).
  rewrite E. split; [done|]. split; [change KERNBASE with (2 ^ 64 - 2 ^ 39) in *; lia|]. split.
  - rewrite Zminus_mod, Ha. reflexivity.
  - unfold P2V. rewrite Z.sub_add. apply u64_small. unfold is_u64. change KERNBASE with (2 ^ 64 - 2 ^ 39) in *. lia.
Qed.

(** * Entries *)

Lemma PTE2PA_spec e : PTE2PA e = (e / 4096) mod 2 ^ 36 * 4096.
Proof.
  unfold PTE2PA. change 0xfffffffff000 with (Z.shiftl (Z.ones 36) 12).
  change 4096 with (2 ^ 12). rewrite <- Z.shiftr_div_pow2, <- Z.shiftl_mul_pow2, <- Z.land_ones by lia.
  apply Z.bits_inj'. intros i Hi. rewrite Z.land_spec, !Z.shiftl_spec by lia.
  destruct (Z.lt_ge_cases i 12).
  - rewrite !(Z.testbit_neg_r _ (i - 12)) by lia. apply andb_false_r.
  - rewrite Z.land_spec, Z.shiftr_spec by lia. do 2 f_equal. lia.
Qed.
Lemma PTE2PA_small p : 0 <= p < 2 ^ 48 -> p mod 4096 = 0 -> PTE2PA p = p.
Proof.
  intros Hp Ha. rewrite PTE2PA_spec, Z.mod_small; pose proof (Z.div_mod p 4096); [lia|].
  split; [apply Z.div_pos; lia|apply Z.div_lt_upper_bound; lia].
Qed.
Lemma PTE2PA_lor x y : PTE2PA (Z.lor x y) = Z.lor (PTE2PA x) (PTE2PA y).
Proof. apply Z.land_lor_distr_l. Qed.

(** The entry for a table below, and for a page. *)
Definition table_pte (p : Z) : Z := Z.lor (Z.lor (PA2PTE (V2P p)) PTE_TABLE) PTE_VALID.
Definition leaf_pte (pa perm : Z) : Z := Z.lor (Z.lor (Z.lor (PA2PTE pa) perm) PTE_AF) PTE_V.

(** Attributes that do not touch the address. *)
Definition perm_ok (perm : Z) : Prop := is_u64 perm /\ PTE2PA perm = 0.

Definition is_tab (e : Z) : bool := has e PTE_VALID && has e PTE_TABLE.

Lemma new_table_pte_ok p : kpage p -> is_tab (table_pte p) = true /\ P2V (PTE2PA (table_pte p)) = p /\ is_u64 (table_pte p).
Proof.
  intros (_ & Hv & Ha & Ep)%kpage_V2P. unfold table_pte. change PA2PTE with PTE2PA. rewrite (PTE2PA_small (V2P p)) by lia. split; [|split].
  - unfold is_tab, has. change PTE_VALID with (2 ^ 0). change PTE_TABLE with (2 ^ 1). rewrite !land_pow2_nonzero by lia.
    rewrite !Z.lor_spec. change (Z.testbit (2 ^ 0) 0) with true. change (Z.testbit (2 ^ 1) 1) with true. by rewrite !orb_true_r.
  - rewrite !PTE2PA_lor, (PTE2PA_small (V2P p)) by lia. change (PTE2PA PTE_TABLE) with 0. change (PTE2PA PTE_VALID) with 0.
    by rewrite !Z.lor_0_r.
  - assert (0 <= Z.lor (Z.lor (V2P p) PTE_TABLE) PTE_VALID < 2 ^ 64); [|done]. repeat apply lor_bound; unfold PTE_TABLE, PTE_VALID; lia.
Qed.

Lemma leaf_pte_ok p perm : kpage p -> perm_ok perm ->
  P2V (PTE2PA (leaf_pte (V2P p) perm)) = p /\ has (leaf_pte (V2P p) perm) PTE_AF = true /\
  Z.land (leaf_pte (V2P p) perm) PTE_V = PTE_V /\ is_u64 (leaf_pte (V2P p) perm) /\
  has (leaf_pte (V2P p) perm) PTE_U = has perm PTE_U /\ PTE2PA (leaf_pte (V2P p) perm) = V2P p.
Proof.
  intros (_ & Hv & Ha & Ep)%kpage_V2P [Hu Hp]. unfold leaf_pte. change PA2PTE with PTE2PA. rewrite (PTE2PA_small (V2P p)) by lia.
  assert (PTE2PA (Z.lor (Z.lor (Z.lor (V2P p) perm) PTE_AF) PTE_V) = V2P p) as E.
  { rewrite !PTE2PA_lor, (PTE2PA_small (V2P p)), Hp by lia. change (PTE2PA PTE_AF) with 0. change (PTE2PA PTE_V) with 0. by rewrite !Z.lor_0_r. }
  split; [by rewrite E|]. split; [|split; [|split; [|split; [|done]]]].
  - unfold has. change PTE_AF with (2 ^ 10) at 2. rewrite land_pow2_nonzero by lia. rewrite !Z.lor_spec.
    change (Z.testbit PTE_AF 10) with true. by rewrite orb_true_r.
  - apply Z.bits_inj'. intros i Hi. rewrite Z.land_spec, Z.lor_spec. by destruct (Z.testbit PTE_V i); rewrite ?orb_true_r, ?andb_false_r.
  - assert (0 <= Z.lor (Z.lor (Z.lor (V2P p) perm) PTE_AF) PTE_V < 2 ^ 64); [|done].
    repeat apply lor_bound; unfold is_u64 in *; change PTE_AF with 1024; change PTE_V with 3; lia.
  - unfold has. change PTE_U with (2 ^ 6). rewrite !land_pow2_nonzero by lia. rewrite !Z.lor_spec.
    change (Z.testbit PTE_AF 6) with false. change (Z.testbit PTE_V 6) with false. rewrite !orb_false_r.
    replace (Z.testbit (V2P p) 6) with false; [done|]. symmetry. rewrite (Z.div_mod (V2P p) 4096), Ha, Z.add_0_r by lia.
    change 4096 with (2 ^ 12). rewrite Z.mul_comm, <- Z.shiftl_mul_pow2 by lia. apply Z.shiftl_spec_low. lia.
Qed.

(** * Spaces *)

Record space := mkSpace { sp_mid : gmap Z Z; sp_leaf : gmap Z Z; sp_pages : gmap Z Z }.

(** The pages of RAM that a space owns: its tables and the pages it maps. *)
Inductive obj := ORoot | OMid (i : Z) | OLeaf (j : Z) | OPage (v : Z).
#[export] Instance obj_eq_dec : EqDecision obj.
Proof. solve_decision. Defined.

Definition frame_of (e : Z) : Z := P2V (PTE2PA e).
Definition obj_at (root : Z) (s : space) (o : obj) : option Z :=
  match o with
  | ORoot => Some root
  | OMid i => sp_mid s !! i
  | OLeaf j => sp_leaf s !! j
  | OPage v => frame_of <$> sp_pages s !! v
  end.
Definition is_table (o : obj) : bool := match o with OPage _ => false | _ => true end.

(** Entry [i] of table [o]. *)
Definition tab_ent (s : space) (o : obj) (i : Z) : Z :=
  match o with
  | ORoot => from_option table_pte 0 (sp_mid s !! i)
  | OMid j => from_option table_pte 0 (sp_leaf s !! (j * 512 + i))
  | OLeaf j => default 0 (sp_pages s !! (j * 512 + i))
  | OPage _ => 0
  end.

Definition pte_good (e : Z) : Prop := is_u64 e /\ has e PTE_AF = true /\ Z.land e PTE_V = PTE_V.

Record rep (m : memory) (root : Z) (s : space) : Prop := {
  rep_ram : Lib.ram_ok m;
  rep_page o p : obj_at root s o = Some p -> kpage p /\ in_ram m p 4096 = true;
  rep_inj o o' p : obj_at root s o = Some p -> obj_at root s o' = Some p -> o = o';
  rep_ent o p i : is_table o = true -> obj_at root s o = Some p -> 0 <= i < 512 -> rd 8 m (p + 8 * i) = tab_ent s o i;
  rep_mid i : is_Some (sp_mid s !! i) -> 0 <= i < 512;
  rep_leaf j : is_Some (sp_leaf s !! j) -> is_Some (sp_mid s !! (j / 512));
  rep_pages v : is_Some (sp_pages s !! v) -> is_Some (sp_leaf s !! (v / 512));
  rep_pte v e : sp_pages s !! v = Some e -> pte_good e
}.

Lemma kpage_u64 p : kpage p -> is_u64 p /\ p + 4096 < 2 ^ 64 /\ 0 < p.
Proof. intros [_ Hp]. unfold is_u64. change (P2V PHYSTOP) with (2 ^ 64 - 2 ^ 39 + 2 ^ 30 + 2 ^ 27) in Hp. change KERNLINK with (2 ^ 64 - 2 ^ 39 + 2 ^ 30) in Hp. lia. Qed.

Lemma pte_at_ok p i : kpage p -> 0 <= i < 512 -> pte_at p i = p + 8 * i.
Proof. intros (Hu & Hb & _)%kpage_u64 Hi. unfold pte_at. apply u64_small. unfold is_u64 in *. lia. Qed.

Lemma leaf_index va : PX 1 va * 512 + PX 2 va = vpn va / 512.
Proof. rewrite PX1, PX2. pose proof (Z.div_mod (vpn va / 2 ^ 9) (2 ^ 9) ltac:(done)) as E. rewrite Z.div_div in E by done. change (2 ^ 9 * 2 ^ 9) with (2 ^ 18) in E. change 512 with (2 ^ 9). lia. Qed.
Lemma mid_index va : vpn va / 512 / 512 = PX 1 va.
Proof. rewrite PX1, Z.div_div by done. reflexivity. Qed.
Lemma page_index va : vpn va / 512 * 512 + PX 3 va = vpn va.
Proof. rewrite PX3. pose proof (Z.div_mod (vpn va) (2 ^ 9) ltac:(done)). change 512 with (2 ^ 9). lia. Qed.
Lemma PX_range l va : 0 <= PX l va < 512.
Proof. unfold PX, PXMASK. change 0x1FF with (Z.ones 9). rewrite Z.land_ones by lia. by apply Z.mod_pos_bound. Qed.

(** * Changing one entry *)

Definition child (o : obj) (i : Z) : obj :=
  match o with ORoot => OMid i | OMid j => OLeaf (j * 512 + i) | OLeaf j => OPage (j * 512 + i) | OPage v => OPage v end.
(** Entry [i] of table [o] set to [e]. *)
Definition put_ent (s : space) (o : obj) (i e : Z) : space :=
  match o with
  | ORoot => mkSpace (<[i := frame_of e]> (sp_mid s)) (sp_leaf s) (sp_pages s)
  | OMid j => mkSpace (sp_mid s) (<[j * 512 + i := frame_of e]> (sp_leaf s)) (sp_pages s)
  | OLeaf j => mkSpace (sp_mid s) (sp_leaf s) (<[j * 512 + i := e]> (sp_pages s))
  | OPage _ => s
  end.

Lemma child_inj o i o' i' : is_table o = true -> 0 <= i < 512 -> 0 <= i' < 512 -> is_table o' = true ->
  child o i = child o' i' -> o = o' /\ i = i'.
Proof. intros ? ? ? ?. destruct o, o'; cbn; try done; intros [= E]; split; f_equal; lia. Qed.

Lemma obj_at_put root s o i e o' : is_table o = true ->
  obj_at root (put_ent s o i e) o' = if decide (o' = child o i) then Some (frame_of e) else obj_at root s o'.
Proof.
  intros Ht. destruct o; try done; destruct o' as [|x|x|x]; cbn; case_decide as E; try congruence; try done;
    first [injection E as ->; by rewrite lookup_insert_eq | rewrite lookup_insert_ne by congruence; done].
Qed.

Lemma tab_ent_put s o i e o' i' : is_table o = true -> is_table o' = true -> 0 <= i < 512 -> 0 <= i' < 512 ->
  (match o with OLeaf _ => True | _ => e = table_pte (frame_of e) end) ->
  tab_ent (put_ent s o i e) o' i' = if decide ((o', i') = (o, i)) then e else tab_ent s o' i'.
Proof.
  intros Ht Ht' Hi Hi' He. case_decide as E.
  - injection E as -> ->. destruct o; cbn; try done; rewrite lookup_insert_eq; cbn; congruence.
  - destruct o as [|x|x|x], o' as [|y|y|y]; cbn; try done; rewrite lookup_insert_ne; try done; intros Ex; apply E.
    + by rewrite Ex.
    + assert (x = y) as -> by lia. by replace i' with i by lia.
    + assert (x = y) as -> by lia. by replace i' with i by lia.
Qed.

(** Entries other than [i0] of table [o0]. *)
Lemma other_entries m m' root s o0 q0 i0 :
  rep m root s -> obj_at root s o0 = Some q0 -> 0 <= i0 < 512 ->
  (forall o q b, is_table o = true -> obj_at root s o = Some q -> q <= b < q + 4096 -> ~ (q0 + 8 * i0 <= b < q0 + 8 * i0 + 8) ->
     peek m' b = peek m b) ->
  forall o q i, is_table o = true -> obj_at root s o = Some q -> 0 <= i < 512 -> (o, i) <> (o0, i0) ->
    rd 8 m' (q + 8 * i) = rd 8 m (q + 8 * i).
Proof.
  intros R E0 Hi0 Hsame o q i Ht Eq Hi Hne. apply rd_ext. intros b Hb. apply (Hsame o q); try done; [lia|]. intros Hb'.
  destruct (decide (o = o0)) as [->|Ho].
  - rewrite E0 in Eq. injection Eq as ->. apply Hne. f_equal. lia.
  - assert (q <> q0) as Hq by (intros ->; by apply Ho, (rep_inj _ _ _ R o o0 q0)).
    destruct (rep_page _ _ _ R o q Eq) as [[Hq1 _] _], (rep_page _ _ _ R o0 q0 E0) as [[Hq2 _] _].
    destruct (pages_disjoint q q0 Hq1 Hq2 Hq); unfold PGSIZE in *; lia.
Qed.

Lemma rd8_zero m p i : 0 <= i < 512 -> (forall b, p <= b < p + 4096 -> peek m b = 0) -> rd 8 m (p + 8 * i) = 0.
Proof. intros Hi Hz. rewrite (rd_ext 8 (mkMem 0 0 ∅) m); [reflexivity|]. intros b Hb. rewrite Hz by lia. reflexivity. Qed.

Section Put.
Context (m m' : memory) (root : Z) (s : space) (o : obj) (q i e p : Z).
Context (R : rep m root s) (Ht : is_table o = true) (Eq : obj_at root s o = Some q) (Hi : 0 <= i < 512).
Context (Enew : obj_at root s (child o i) = None) (Ep : frame_of e = p) (Hp : kpage p) (Hr : in_ram m p 4096 = true).
Context (Hfresh : forall o', obj_at root s o' <> Some p).
Context (He : match o with OLeaf _ => pte_good e | _ => e = table_pte p /\ forall b, p <= b < p + 4096 -> peek m' b = 0 end).
Context (B1 : ram_lo m' = ram_lo m) (B2 : ram_hi m' = ram_hi m) (Erd : rd 8 m' (q + 8 * i) = e).
Context (Hsame : forall b, ~ (p <= b < p + 4096) -> ~ (q + 8 * i <= b < q + 8 * i + 8) -> peek m' b = peek m b).

Lemma put_old o' q' b : obj_at root s o' = Some q' -> q' <= b < q' + 4096 -> ~ (p <= b < p + 4096).
Proof.
  intros Eo Hb Hb'. assert (q' <> p) as Hne by (intros ->; by apply (Hfresh o')).
  destruct (rep_page _ _ _ R o' q' Eo) as [[Hq1 _] _], Hp as [Hp1 _].
  destruct (pages_disjoint q' p Hq1 Hp1 Hne); unfold PGSIZE in *; lia.
Qed.

(** A table or a page is added to a space. *)
Lemma rep_put : rep m' root (put_ent s o i e).
Proof.
  pose proof R as [R1 R2 R3 R4 R5 R6 R7 R8].
  assert (match o with OLeaf _ => True | _ => e = table_pte (frame_of e) end) as He' by (rewrite Ep; destruct o; by try destruct He).
  split.
  - unfold Lib.ram_ok. by rewrite B1, B2.
  - intros o' p' E'. rewrite obj_at_put in E' by done. unfold in_ram in *. rewrite B1, B2. case_decide as Eo; [|by apply R2 in E'].
    injection E' as <-. by rewrite Ep.
  - intros o1 o2 p' E1 E2. rewrite obj_at_put in E1, E2 by done. rewrite Ep in E1, E2. do 2 case_decide; try congruence.
    by apply (R3 o1 o2 p').
  - intros o' p' i' Ht' E' Hi'. rewrite obj_at_put in E' by done. rewrite tab_ent_put by done. case_decide as Eo.
    + injection E' as <-. rewrite Ep. subst o'. rewrite decide_False.
      2:{ intros [= Ec _]. destruct o; cbn in Ec; try done. }
      destruct o as [|x|x|x]; cbn in Ht'; try done; cbn in *; destruct He as [_ Hz]; rewrite rd8_zero by done.
      * destruct (sp_leaf s !! (i * 512 + i')) eqn:El; [|done]. exfalso.
        destruct (R6 _ ltac:(by eexists)) as [y Ey]. rewrite Z.div_add_l, Z.div_small, Z.add_0_r in Ey by lia. congruence.
      * destruct (sp_pages s !! ((x * 512 + i) * 512 + i')) eqn:El; [|done]. exfalso.
        destruct (R7 _ ltac:(by eexists)) as [y Ey]. rewrite Z.div_add_l, (Z.div_small i'), Z.add_0_r in Ey by lia. congruence.
    + case_decide as Ei; [injection Ei as -> ->; congruence|]. rewrite <- (R4 o' p' i') by done.
      eapply (other_entries m m' root s o q i R Eq Hi); try done. intros o1 q1 b Ht1 E1 Hb Hb'. apply Hsame; [|done]. by apply (put_old o1 q1).
  - intros j Hj. destruct o; cbn in *; try by apply R5. apply lookup_insert_is_Some in Hj as [->|[_ ?]]; [done|by apply R5].
  - intros j Hj. destruct o as [|x|x|x]; cbn in *; try by apply R6.
    + apply R6 in Hj. apply lookup_insert_is_Some. destruct (decide (i = j / 512)); auto.
    + apply lookup_insert_is_Some in Hj as [<-|[_ ?]]; [|by apply R6]. rewrite Z.div_add_l, (Z.div_small i), Z.add_0_r by lia. by eexists.
  - intros v Hv. destruct o as [|x|x|x]; cbn in *; try by apply R7.
    + apply R7 in Hv. apply lookup_insert_is_Some. destruct (decide (x * 512 + i = v / 512)); auto.
    + apply lookup_insert_is_Some in Hv as [<-|[_ ?]]; [|by apply R7]. rewrite Z.div_add_l, (Z.div_small i), Z.add_0_r by lia. by eexists.
  - intros v e' Ev. destruct o as [|x|x|x]; cbn in *; try by apply R8 in Ev.
    apply lookup_insert_Some in Ev as [[_ <-]|[_ ?]]; [done|by apply (R8 v)].
Qed.
End Put.

(** Bytes outside the tables do not matter. *)
Lemma rep_frame m m' root s :
  rep m root s -> ram_lo m' = ram_lo m -> ram_hi m' = ram_hi m ->
  (forall o q b, is_table o = true -> obj_at root s o = Some q -> q <= b < q + 4096 -> peek m' b = peek m b) -> rep m' root s.
Proof.
  intros [R1 R2 R3 R4 R5 R6 R7 R8] B1 B2 Hs. split; try done.
  - unfold Lib.ram_ok. by rewrite B1, B2.
  - intros o p E. unfold in_ram. rewrite B1, B2. by apply R2 in E.
  - intros o p i Ht E Hi. rewrite <- (R4 o p i) by done. apply rd_ext. intros b Hb. apply (Hs o p b Ht E). lia.
Qed.

Section Space.
Context {H : Type} `{!Platform H} `{!Symbols}.
Implicit Types k : kernel H.

Lemma load64_ok a k : in_ram (k_mem k) a 8 = true -> on_mem (load64 a) k = Ok (rd 8 (k_mem k) a) k.
Proof. intros E. unfold on_mem, zoom, load, bind, get. change (Z.of_nat 8) with 8. rewrite E. by destruct k. Qed.
Lemma store64_ok a v k : in_ram (k_mem k) a 8 = true -> on_mem (store64 a v) k = Ok tt (set_k_mem (wr 8 a v (k_mem k)) k).
Proof. intros E. unfold on_mem, zoom, store, bind, get. change (Z.of_nat 8) with 8. by rewrite E. Qed.

Section Walk.
Context (k : kernel H) (root : Z) (s : space) (R : rep (k_mem k) root s).

Lemma get_ent_ok o p i :
  is_table o = true -> obj_at root s o = Some p -> 0 <= i < 512 -> get_pte (pte_at p i) k = Ok (tab_ent s o i) k.
Proof.
  intros Ht Ho Hi. destruct (rep_page _ _ _ R o p Ho) as [Hp Hr]. rewrite pte_at_ok by done. unfold get_pte.
  rewrite load64_ok by (apply (in_ram_sub _ p 4096); [done|lia..]). by rewrite (rep_ent _ _ _ R o p i).
Qed.

(** What the entry for a table says. *)
Lemma tab_down t : (forall p, t = Some p -> kpage p) ->
  is_tab (from_option table_pte 0 t) = bool_decide (is_Some t) /\
  forall p, t = Some p -> P2V (PTE2PA (from_option table_pte 0 t)) = p.
Proof.
  intros Hk. destruct t as [p|]; cbn.
  - destruct (new_table_pte_ok p (Hk p eq_refl)) as (E & Ep & _). split; [by rewrite E|by intros ? [= <-]].
  - split; [reflexivity|done].
Qed.

Lemma walk_level_false o p va l t :
  is_table o = true -> obj_at root s o = Some p -> tab_ent s o (PX l va) = from_option table_pte 0 t ->
  (forall q, t = Some q -> kpage q) -> walk_level p va false l k = Ok t k.
Proof.
  intros Ht Ho Et Hk. unfold walk_level. rewrite (bind_Ok _ _ _ _ _ (get_ent_ok o p (PX l va) Ht Ho (PX_range _ _))). rewrite Et.
  destruct (tab_down t Hk) as [E Ep]. change (has ?e PTE_VALID && has ?e PTE_TABLE) with (is_tab e). rewrite E.
  destruct t as [q|]; cbn [is_Some]; [|done]. rewrite bool_decide_eq_true_2 by by eexists. by rewrite (Ep q).
Qed.

(** [walk] without allocation finds the entry where the space has a table for it. *)
Lemma walk_false va : va < MAXVA ->
  walk root va false k = Ok ((fun t => t + 8 * PX 3 va) <$> sp_leaf s !! (vpn va / 512)) k.
Proof.
  intros Hva. unfold walk. destruct (Z.geb_spec va MAXVA); [lia|].
  rewrite (bind_Ok _ _ _ _ _ (walk_level_false ORoot root va 1 (sp_mid s !! PX 1 va) eq_refl eq_refl eq_refl
    ltac:(intros q Hq; by apply (rep_page _ _ _ R (OMid (PX 1 va)))))).
  destruct (sp_mid s !! PX 1 va) as [t2|] eqn:E2.
  - rewrite (bind_Ok _ _ _ _ _ (walk_level_false (OMid (PX 1 va)) t2 va 2 (sp_leaf s !! (vpn va / 512)) eq_refl E2
      ltac:(cbn; by rewrite leaf_index) ltac:(intros q Hq; by apply (rep_page _ _ _ R (OLeaf (vpn va / 512)))))).
    destruct (sp_leaf s !! (vpn va / 512)) as [t3|] eqn:E3; [|done].
    rewrite pte_at_ok; [done|by apply (rep_page _ _ _ R (OLeaf (vpn va / 512)))|apply PX_range].
  - destruct (sp_leaf s !! (vpn va / 512)) eqn:E3; [|done]. exfalso.
    destruct (rep_leaf _ _ _ R (vpn va / 512) ltac:(by eexists)) as [? E]. rewrite mid_index in E. congruence.
Qed.

(** The leaf entry of an address. *)
Lemma walk_pte va t : va < MAXVA -> sp_leaf s !! (vpn va / 512) = Some t ->
  walk root va false k = Ok (Some (t + 8 * PX 3 va)) k /\
  get_pte (t + 8 * PX 3 va) k = Ok (default 0 (sp_pages s !! vpn va)) k.
Proof.
  intros Hva Et. split; [by rewrite walk_false, Et|].
  rewrite <- (pte_at_ok t) by (apply (rep_page _ _ _ R (OLeaf (vpn va / 512)) t Et) || apply PX_range).
  rewrite (get_ent_ok (OLeaf (vpn va / 512)) t _ eq_refl Et (PX_range _ _)). cbn. by rewrite page_index.
Qed.

(** [walkaddr] gives the page of a user address. *)
Lemma walkaddr_ok va : walkaddr root va k =
  Ok (if va >=? MAXVA then 0 else
      match sp_pages s !! vpn va with Some e => if has e PTE_U then PTE2PA e else 0 | None => 0 end) k.
Proof.
  unfold walkaddr. destruct (Z.geb_spec va MAXVA) as [|Hva]; [done|]. destruct (sp_leaf s !! (vpn va / 512)) as [t|] eqn:Et.
  - destruct (walk_pte va t Hva Et) as [E1 E2]. rewrite (bind_Ok _ _ _ _ _ E1), (bind_Ok _ _ _ _ _ E2).
    destruct (sp_pages s !! vpn va) as [e|] eqn:Ee; [|done]. cbn [default].
    destruct (rep_pte _ _ _ R _ _ Ee) as (_ & Ha & Hv). cbn. rewrite Hv, Ha. rewrite Z.eqb_refl. by destruct (has e PTE_U).
  - erewrite bind_Ok by (by rewrite walk_false, Et). destruct (sp_pages s !! vpn va) as [e|] eqn:Ee; [|done]. exfalso.
    destruct (rep_pages _ _ _ R (vpn va) ltac:(by eexists)). congruence.
Qed.
End Walk.

(** * Spaces and the page allocator *)

Record uspace k (l : list Z) (root : Z) (s : space) : Prop := {
  us_heap : heap k l;
  us_rep : rep (k_mem k) root s;
  us_fresh p o : p ∈ l -> obj_at root s o <> Some p;
  us_end o p : obj_at root s o = Some p -> sym_end <= p
}.

(** A page that is free or belongs to a space; between two states none is lost, and none is new. *)
Definition owned (root : Z) (l : list Z) (s : space) (q : Z) : Prop := q ∈ l \/ exists o, obj_at root s o = Some q.
Definition conserves (root : Z) (l : list Z) (s : space) (l' : list Z) (s' : space) : Prop :=
  forall q, owned root l s q <-> owned root l' s' q.

(** From one state to another: free pages are taken, what a space owns stays in it, and no
    byte changes but those of tables. *)
Record grows root k (l : list Z) (s : space) k' (l' : list Z) (s' : space) : Prop := {
  gr_frame : mem_frame k k';
  gr_list : exists used, l = used ++ l';
  gr_objs o q : obj_at root s o = Some q -> obj_at root s' o = Some q;
  gr_new o q : is_table o = true -> obj_at root s' o = Some q -> obj_at root s o = Some q \/ q ∈ l;
  gr_keep q : q ∈ l -> owned root l' s' q;
  gr_lo : ram_lo (k_mem k') = ram_lo (k_mem k);
  gr_hi : ram_hi (k_mem k') = ram_hi (k_mem k);
  gr_mem b : (forall o q, is_table o = true -> obj_at root s' o = Some q -> ~ (q <= b < q + 4096)) ->
    peek (k_mem k') b = peek (k_mem k) b
}.

Lemma mem_frame_refl k : mem_frame k k.
Proof. unfold mem_frame. by destruct k. Qed.
Lemma mem_frame_trans k1 k2 k3 : mem_frame k1 k2 -> mem_frame k2 k3 -> mem_frame k1 k3.
Proof. unfold mem_frame. intros -> ->. done. Qed.

Lemma grows_refl root k l s : grows root k l s k l s.
Proof. split; try done; [apply mem_frame_refl|by exists []|by left|by left]. Qed.
Lemma grows_trans root k l s k1 l1 s1 k2 l2 s2 :
  grows root k l s k1 l1 s1 -> grows root k1 l1 s1 k2 l2 s2 -> grows root k l s k2 l2 s2.
Proof.
  intros [A1 [u1 A2] A4 A8 A9 A5 A6 A7] [B1 [u2 B2] B4 B8 B9 B5 B6 B7]. split; try congruence; auto.
  - by eapply mem_frame_trans.
  - exists (u1 ++ u2). by rewrite A2, B2, (assoc_L (++)).
  - intros o q Ht E. destruct (B8 o q Ht E) as [E1|Hin]; [by apply A8|]. right. rewrite A2. set_solver.
  - intros q [Hq|(o & E)]%A9; [by apply B9|]. right. exists o. by apply B4.
  - intros b Hb. rewrite B7 by done. apply A7. intros o q Ht Eo. apply (Hb o q Ht). by apply B4.
Qed.

Section Alloc.
Context `{Hend : !SymbolLaws}.

Lemma page_kpage m p : page_ok m p -> kpage p /\ in_ram m p 4096 = true.
Proof. intros (Ha & Hb & _ & Hr). split; [|done]. pose proof sym_end_high. split; [done|lia]. Qed.

Lemma zero_page_ok k p : Lib.ram_ok (k_mem k) -> in_ram (k_mem k) p 4096 = true ->
  exists m', zero_page p k = Ok tt (set_k_mem m' k) /\ junk (k_mem k) p 0 m'.
Proof.
  intros Hok Hr. destruct (fill_page k p 0 Hok Hr ltac:(by split)) as (m' & E & J). exists m'. split; [|done].
  unfold zero_page. by rewrite (bind_Ok _ _ _ _ _ E).
Qed.

(** A free page becomes a table. *)
Lemma new_table c k p l root s o q i :
  on_cpu c k -> free LKmem k -> uspace k (p :: l) root s ->
  is_table o = true -> obj_at root s o = Some q -> 0 <= i < 512 -> obj_at root s (child o i) = None ->
  match o with OLeaf _ => False | _ => True end ->
  exists k1 k2, kalloc k = Ok p k1 /\ zero_page p k1 = Ok tt k2 /\ p <> 0 /\
    let k3 := set_k_mem (wr 8 (q + 8 * i) (table_pte p) (k_mem k2)) k2 in
    on_mem (store64 (q + 8 * i) (table_pte p)) k2 = Ok tt k3 /\
    uspace k3 l root (put_ent s o i (table_pte p)) /\ grows root k (p :: l) s k3 l (put_ent s o i (table_pte p)).
Proof.
  intros Hc Hf U Ht Eq Hi En Ho. destruct U as [Hh R Fr En']. pose proof (hp_chain _ _ Hh) as (_ & Hpg & _).
  destruct (page_kpage _ _ Hpg) as [Hp Hr]. destruct (kpage_u64 p Hp) as (_ & _ & Hp0).
  destruct (kalloc_some c k (p :: l) Hc Hf Hh p l eq_refl) as (k1 & E1 & F1 & H1 & L1 & L2 & P1).
  destruct (zero_page_ok k1 p (hp_ram _ _ H1) ltac:(unfold in_ram in *; by rewrite L1, L2)) as (m2 & E2 & M1 & M2 & P2).
  exists k1, (set_k_mem m2 k1). split; [done|]. split; [done|]. split; [lia|]. cbn zeta.
  change (k_mem (set_k_mem m2 k1)) with m2. destruct (rep_page _ _ _ R o q Eq) as [Hq Hqr]. set (a := q + 8 * i). set (m3 := wr 8 a (table_pte p) m2).
  destruct (wr_bounds 8 a (table_pte p) m2) as [W1 W2]. fold m3 in W1, W2.
  assert (in_ram m2 a 8 = true) as Ha. { unfold in_ram in *. rewrite M1, M2, L1, L2. bool_to_Z. unfold a. apply andb_true_iff. rewrite !Z.leb_le. lia. }
  destruct (new_table_pte_ok p Hp) as (_ & Efp & Hu).
  assert (forall b, ~ (p <= b < p + 4096) -> ~ (a <= b < a + 8) -> peek m3 b = peek (k_mem k) b) as Hsame.
  { intros b Hb1 Hb2. unfold m3. rewrite peek_wr_other by lia. rewrite P2, P1. unfold PGSIZE. destruct (Z.leb_spec p b), (Z.ltb_spec b (p + 4096)); try done; lia. }
  assert (obj_at root s o <> Some p) as Hqp by (apply Fr; set_solver).
  assert (q <> p) as Hne by congruence. destruct Hq as [Hq1 Hq2], Hp as [Hp1 Hp2].
  pose proof (pages_disjoint q p Hq1 Hp1 Hne) as Hdis. unfold PGSIZE in Hdis.
  assert (forall b, p <= b < p + 4096 -> peek m3 b = 0) as Hz.
  { intros b Hb. unfold m3, a. rewrite peek_wr_other by lia. rewrite P2. unfold PGSIZE. destruct (Z.leb_spec p b), (Z.ltb_spec b (p + 4096)); try done; lia. }
  split; [by apply store64_ok|].
  assert (rep m3 root (put_ent s o i (table_pte p))) as R3.
  { apply (rep_put (k_mem k) m3 root s o q i (table_pte p) p); try done; try (by split); try congruence.
    - intros o'. apply Fr. set_solver.
    - by destruct o.
    - unfold m3. rewrite rd_wr_same. by apply Z.mod_small. }
  assert (forall o', obj_at root (put_ent s o i (table_pte p)) o' = if decide (o' = child o i) then Some p else obj_at root s o') as Eo.
  { intros o'. rewrite obj_at_put by done. case_decide; [by unfold frame_of; rewrite Efp|done]. }
  pose proof (hp_nodup _ _ Hh) as [Hpl Hnd]%list.NoDup_cons. split.
  - split; [|done| |].
    + destruct H1 as [B1 B2 B3]. split; [apply R3| |done]. apply (chain_ext (k_mem k1)); cbn; [congruence..| |done].
      intros p' Hp'. pose proof (chain_pages _ _ _ _ B2 Hp') as [Ha' _].
      assert (p' <> p) as Hne1 by congruence. assert (p' <> q) as Hne2 by (intros ->; by apply (Fr q o); [set_solver|]).
      destruct (pages_disjoint p' p Ha' Hp1 Hne1), (pages_disjoint p' q Ha' Hq1 Hne2); unfold PGSIZE in *;
        apply rd_ext; intros b Hb; rewrite Hsame by (unfold a; lia); rewrite P1; unfold PGSIZE;
        destruct (Z.leb_spec p b), (Z.ltb_spec b (p + 4096)); try done; lia.
    + intros p' o' Hp'. rewrite Eo. case_decide; [congruence|]. apply Fr. set_solver.
    + intros o' p' E'. rewrite Eo in E'. case_decide; [|by apply (En' o')]. injection E' as <-. apply Hpg.
  - split; cbn.
    + clear -F1. unfold mem_frame in *. rewrite F1. done.
    + by exists [p].
    + intros o' q' E'. rewrite Eo. case_decide; [congruence|done].
    + intros o' q' _ E'. rewrite Eo in E'. case_decide; [right; set_solver|by left].
    + intros q' [->|Hq']%elem_of_cons; [right|by left]. exists (child o i). by rewrite Eo, decide_True.
    + congruence.
    + congruence.
    + intros b Hb. apply Hsame.
      * apply (Hb (child o i) p); [by destruct o|]. rewrite Eo. by rewrite decide_True.
      * assert (~ q <= b < q + 4096); [|unfold a; lia]. apply (Hb o q Ht). rewrite Eo, decide_False; [done|congruence].
Qed.

Lemma grows_cpu root c k l s k' l' s' : grows root k l s k' l' s' -> on_cpu c k -> free LKmem k -> on_cpu c k' /\ free LKmem k'.
Proof. intros G. apply (mem_frame_cpu c k k' (gr_frame _ _ _ _ _ _ _ G)). Qed.

Lemma tab_ent_child root s o i : match o with ORoot | OMid _ => True | _ => False end ->
  tab_ent s o i = from_option table_pte 0 (obj_at root s (child o i)).
Proof. by destruct o. Qed.

(** One level of [walk] that may allocate. *)
Lemma walk_level_true c k l root s o q va lv :
  on_cpu c k -> free LKmem k -> uspace k l root s ->
  match o with ORoot | OMid _ => True | _ => False end -> obj_at root s o = Some q ->
  exists k' l' s' r, walk_level q va true lv k = Ok r k' /\ uspace k' l' root s' /\ grows root k l s k' l' s' /\
    sp_pages s' = sp_pages s /\
    match r with Some t => obj_at root s' (child o (PX lv va)) = Some t | None => l' = [] end.
Proof.
  intros Hc Hf U Ho Eq. assert (is_table o = true) as Ht by by destruct o. pose proof (us_rep _ _ _ _ U) as R.
  pose proof (PX_range lv va) as Hi. set (i := PX lv va) in *. unfold walk_level. fold i.
  rewrite (bind_Ok _ _ _ _ _ (get_ent_ok k root s R o q i Ht Eq Hi)). rewrite (tab_ent_child root s o i Ho).
  destruct (tab_down (obj_at root s (child o i))) as [E Ep].
  { intros p E. by apply (rep_page _ _ _ R (child o i)). }
  change (has ?e PTE_VALID && has ?e PTE_TABLE) with (is_tab e). rewrite E.
  destruct (obj_at root s (child o i)) as [t|] eqn:Et.
  - rewrite bool_decide_eq_true_2 by by eexists. exists k, l, s, (Some t). rewrite (Ep t) by done.
    split; [done|]. split; [done|]. split; [apply grows_refl|done].
  - rewrite bool_decide_eq_false_2 by (by intros []). cbn [negb]. destruct l as [|p l'].
    + rewrite (bind_Ok _ _ _ _ _ (kalloc_none c k [] Hc Hf (us_heap _ _ _ _ U) eq_refl)). exists k, [], s, None.
      split; [done|]. split; [done|]. split; [apply grows_refl|done].
    + destruct (new_table c k p l' root s o q i Hc Hf U Ht Eq Hi Et ltac:(by destruct o)) as (k1 & k2 & E1 & E2 & Hp0 & E3 & U3 & G3).
      rewrite (bind_Ok _ _ _ _ _ E1). destruct (Z.eqb_spec p 0); [done|]. rewrite (bind_Ok _ _ _ _ _ E2).
      rewrite pte_at_ok by (apply (rep_page _ _ _ R o q Eq) || done). unfold set_pte.
      change (Z.lor (Z.lor (PA2PTE (V2P p)) PTE_TABLE) PTE_VALID) with (table_pte p). rewrite (bind_Ok _ _ _ _ _ E3).
      eexists _, l', _, (Some p). split; [done|]. split; [exact U3|]. split; [exact G3|]. split; [by destruct o|]. rewrite obj_at_put by done.
      rewrite decide_True by done. f_equal. apply new_table_pte_ok. pose proof (hp_chain _ _ (us_heap _ _ _ _ U)) as (_ & Hpg & _).
      by apply (page_kpage _ _ Hpg).
Qed.

(** [walk] with allocation: the table of the address is there, or no page was free. *)
Lemma walk_true c k l root s va :
  on_cpu c k -> free LKmem k -> uspace k l root s -> va < MAXVA ->
  exists k' l' s' r, walk root va true k = Ok r k' /\ uspace k' l' root s' /\ grows root k l s k' l' s' /\
    sp_pages s' = sp_pages s /\
    match r with
    | Some a => exists t, sp_leaf s' !! (vpn va / 512) = Some t /\ a = t + 8 * PX 3 va
    | None => l' = []
    end.
Proof.
  intros Hc Hf U Hva. unfold walk. destruct (Z.geb_spec va MAXVA); [lia|].
  destruct (walk_level_true c k l root s ORoot root va 1 Hc Hf U I eq_refl) as (k1 & l1 & s1 & r1 & E1 & U1 & G1 & P1 & C1).
  rewrite (bind_Ok _ _ _ _ _ E1). destruct r1 as [t2|]; [|exists k1, l1, s1, None; done].
  destruct (grows_cpu _ _ _ _ _ _ _ _ G1 Hc Hf) as [Hc1 Hf1].
  destruct (walk_level_true c k1 l1 root s1 (OMid (PX 1 va)) t2 va 2 Hc1 Hf1 U1 I C1) as (k2 & l2 & s2 & r2 & E2 & U2 & G2 & P2 & C2).
  rewrite (bind_Ok _ _ _ _ _ E2). pose proof (grows_trans _ _ _ _ _ _ _ _ _ _ G1 G2) as G.
  destruct r2 as [t3|]; [|exists k2, l2, s2, None; repeat (split; [done|]); split; [congruence|done]].
  cbn in C2. rewrite leaf_index in C2. eexists k2, l2, s2, _. split; [done|]. split; [done|]. split; [done|]. split; [congruence|]. exists t3.
  split; [done|]. apply pte_at_ok; [|apply PX_range]. by apply (rep_page _ _ _ (us_rep _ _ _ _ U2) (OLeaf (vpn va / 512))).
Qed.

(** * One page mapped *)

Lemma PGROUNDDOWN_page a : 0 <= a -> a + 4096 <= 2 ^ 64 -> a mod 4096 = 0 ->
  PGROUNDDOWN a = a /\ PGROUNDDOWN (u64 (a + PGSIZE - 1)) = a.
Proof.
  intros Ha Hb Hm. unfold PGSIZE. rewrite u64_small by (unfold is_u64; lia).
  rewrite !pgrounddown by (unfold is_u64; lia). unfold PGSIZE. split; [lia|].
  replace (a + 4096 - 1) with (a + 4095) by lia. rewrite Zplus_mod, Hm. change ((0 + 4095 mod 4096) mod 4096) with 4095. lia.
Qed.

(** The space with a page mapped at [va]. *)
Definition map_at (s : space) (va e : Z) : space := mkSpace (sp_mid s) (sp_leaf s) (<[vpn va := e]> (sp_pages s)).

Lemma map_at_put s va e : map_at s va e = put_ent s (OLeaf (vpn va / 512)) (PX 3 va) e.
Proof. unfold map_at. cbn. by rewrite page_index. Qed.

(** A page is named by no part of a space and is not free. *)
Record apart k (l : list Z) (root : Z) (s : space) (p : Z) : Prop := {
  ap_page : kpage p;
  ap_end : sym_end <= p;
  ap_ram : in_ram (k_mem k) p 4096 = true;
  ap_objs o : obj_at root s o <> Some p;
  ap_free : p ∉ l
}.

Lemma apart_grows k l root s k' l' s' p :
  grows root k l s k' l' s' -> sp_pages s' = sp_pages s -> apart k l root s p -> apart k' l' root s' p.
Proof.
  intros [_ [u Hl] _ Hnew _ E1 E2 _] Ep [A1 A0 A2 A3 A4]. split; try done.
  - unfold in_ram in *. by rewrite E1, E2.
  - intros o E. destruct (is_table o) eqn:Ht; [destruct (Hnew o p Ht E) as [?|?]; [by apply (A3 o)|done]|].
    apply (A3 o). destruct o; try done. cbn in *. by rewrite <- Ep.
  - intros Hin. apply A4. rewrite Hl. set_solver.
Qed.

(** The entry of an address is written: its page joins the space. *)
Lemma leaf_store k l root s va p perm t :
  uspace k l root s -> apart k l root s p -> perm_ok perm -> sp_leaf s !! (vpn va / 512) = Some t -> sp_pages s !! vpn va = None ->
  let e := leaf_pte (V2P p) perm in
  exists k', set_pte (t + 8 * PX 3 va) e k = Ok tt k' /\ uspace k' l root (map_at s va e) /\ grows root k l s k' l (map_at s va e).
Proof.
  intros [Hh R Fr En'] [Hp Hpe Hpr Hpo Hpl] Hperm Et En e. destruct (leaf_pte_ok p perm Hp Hperm) as (Ef & Haf & Hv & Hu & _).
  pose proof (PX_range 3 va) as Hi. set (a := t + 8 * PX 3 va). set (m' := wr 8 a e (k_mem k)).
  destruct (rep_page _ _ _ R (OLeaf (vpn va / 512)) t Et) as [[Ht1 Ht2] Htr].
  assert (in_ram (k_mem k) a 8 = true) as Ha by (apply (in_ram_sub _ t 4096); [done|unfold a; lia..]).
  destruct (wr_bounds 8 a e (k_mem k)) as [W1 W2]. fold m' in W1, W2. exists (set_k_mem m' k). split; [by apply store64_ok|].
  rewrite map_at_put. assert (forall b, ~ (a <= b < a + 8) -> peek m' b = peek (k_mem k) b) as Hsame.
  { intros b Hb. apply peek_wr_other. lia. }
  split; [split|split].
  - destruct Hh as [B1 B2 B3]. split; cbn; [unfold Lib.ram_ok in *; by rewrite W1, W2| |done]. apply (chain_ext (k_mem k)); try done.
    intros p' Hp'. pose proof (chain_pages _ _ _ _ B2 Hp') as [Ha' _]. assert (p' <> t) as Hne by (intros ->; by apply (Fr t (OLeaf (vpn va / 512)))).
    destruct (pages_disjoint p' t Ha' Ht1 Hne); unfold PGSIZE in *; apply rd_ext; intros b Hb; apply Hsame; unfold a; lia.
  - apply (rep_put (k_mem k) m' root s (OLeaf (vpn va / 512)) t (PX 3 va) e p); try done; cbn.
    + by rewrite page_index, En.
    + unfold m'. rewrite rd_wr_same. by apply Z.mod_small.
    + intros b _ Hb. by apply Hsame.
  - intros p' o Hp' E. rewrite obj_at_put in E by done. case_decide; [|by apply (Fr p' o)].
    injection E as E. unfold frame_of, e in E. rewrite Ef in E. congruence.
  - intros o p' E. rewrite obj_at_put in E by done. case_decide; [|by apply (En' o)]. injection E as <-.
    unfold frame_of, e. by rewrite Ef.
  - done.
  - by exists [].
  - intros o q E. rewrite obj_at_put by done. case_decide as Eo; [|done]. subst o. cbn in E. by rewrite page_index, En in E.
  - intros o q Hto E. rewrite obj_at_put in E by done. case_decide as Eo; [by subst o|by left].
  - by left.
  - done.
  - done.
  - intros b Hb. apply Hsame. assert (~ (t <= b < t + 4096)); [|unfold a; lia]. apply (Hb (OLeaf (vpn va / 512)) t); [done|]. by rewrite obj_at_put.
Qed.

(** [mappages] of one page: it is mapped, or no page was free and the map is as before. *)
Lemma map_page c k l root s va p perm :
  on_cpu c k -> free LKmem k -> uspace k l root s -> apart k l root s p -> perm_ok perm ->
  0 <= va < MAXVA -> va mod 4096 = 0 -> sp_pages s !! vpn va = None ->
  exists k' l' s' r, mappages root va PGSIZE (V2P p) perm k = Ok r k' /\
    if r =? 0 then uspace k' l' root s' /\ grows root k l s k' l' s' /\ sp_pages s' = <[vpn va := leaf_pte (V2P p) perm]> (sp_pages s)
    else r = -1 /\ l' = [] /\ uspace k' l' root s' /\ grows root k l s k' l' s' /\ sp_pages s' = sp_pages s.
Proof.
  intros Hc Hf U A Hperm Hva Hal En. unfold mappages. change (PGSIZE =? 0) with false.
  destruct (kpage_V2P p (ap_page _ _ _ _ _ A)) as (Ev & Hv & _ & _). pose proof (ap_page _ _ _ _ _ A) as [_ Hpr].
  destruct (Z.geb_spec (V2P p) PHYSTOP) as [Hge|_].
  { exfalso. rewrite Ev in Hge. change (P2V PHYSTOP) with (KERNBASE + PHYSTOP) in Hpr. lia. }
  change MAXVA with (2 ^ 64 - 2 ^ 38) in Hva. assert (va + 4096 <= 2 ^ 64) as Hmax by (pose proof (Z.div_mod va 4096 ltac:(lia)); lia).
  destruct (PGROUNDDOWN_page va ltac:(lia) Hmax Hal) as [Ea El]. rewrite Ea, El, Z.sub_diag.
  change (S (Z.to_nat (u64 0 / PGSIZE))) with 1%nat. cbn [mappages_loop].
  destruct (walk_true c k l root s va Hc Hf U ltac:(change MAXVA with (2 ^ 64 - 2 ^ 38); lia)) as (k1 & l1 & s1 & r & E1 & U1 & G1 & P1 & C1).
  rewrite (bind_Ok _ _ _ _ _ E1). destruct r as [a|].
  - destruct C1 as (t & Et & ->). rewrite <- P1 in En.
    assert (get_pte (t + 8 * PX 3 va) k1 = Ok 0 k1) as Eg.
    { destruct (walk_pte k1 root s1 (us_rep _ _ _ _ U1) va t ltac:(change MAXVA with (2 ^ 64 - 2 ^ 38); lia) Et) as [_ Eg]. by rewrite En in Eg. }
    rewrite (bind_Ok _ _ _ _ _ Eg). change (has 0 PTE_AF) with false. cbn iota.
    destruct (leaf_store k1 l1 root s1 va p perm t U1 (apart_grows _ _ _ _ _ _ _ _ G1 P1 A) Hperm Et En) as (k2 & E2 & U2 & G2).
    change (Z.lor (Z.lor (Z.lor (PA2PTE (V2P p)) perm) PTE_AF) PTE_V) with (leaf_pte (V2P p) perm).
    rewrite (bind_Ok _ _ _ _ _ E2), Z.eqb_refl. exists k2, l1, (map_at s1 va (leaf_pte (V2P p) perm)), 0. split; [done|]. cbn [Z.eqb].
    split; [done|]. split; [by eapply grows_trans|]. cbn. by rewrite P1.
  - exists k1, l1, s1, (-1). split; [done|]. cbn [Z.eqb]. done.
Qed.
End Alloc.
End Space.
