(* ===== verification/KUvm.v ===== *)
(** User memory (vm.c): what the processes see of it, and that growing, shrinking and copying
    do what they promise, running out of pages included. *)
From stdpp Require Import base gmap list numbers strings tactics.
From S2P Require Import Prelude Mem Ram KMachine KString KSched KBytes KBss KAlloc KVm KSpace.

(** * Bytes of a space *)

(** The byte of RAM behind a user address. *)
Definition ubyte (m : memory) (s : space) (va : Z) : option Z :=
  (fun e => peek m (frame_of e + va mod 4096)) <$> sp_pages s !! vpn va.

(** The first [n] pages are mapped, and no other.  Not every one is open to the user: exec
    closes the page below the stack ([uvmclear]). *)
Record sized (s : space) (n : Z) : Prop := {
  sz_range : 0 <= n <= 2 ^ 26;
  sz_dom v : is_Some (sp_pages s !! v) <-> 0 <= v < n
}.

(** The user may access an address: its page is mapped with [PTE_U]. *)
Definition uacc (s : space) (va : Z) : bool := from_option (fun e => has e PTE_U) false (sp_pages s !! vpn va).
Definition urange (s : space) (va len : Z) : Prop := forall x, va <= x < va + len -> uacc s x = true.

(** How many of [n] addresses from [x] on satisfy [f], up to the first that does not. *)
Fixpoint run (f : Z -> bool) (n : nat) (x : Z) : Z :=
  match n with O => 0 | S n' => if f x then 1 + run f n' (x + 1) else 0 end.
(** How many of [len] bytes the user may access, up to the first guard page or the end of memory. *)
Definition avail (s : space) (va len : Z) : Z := run (uacc s) (Z.to_nat len) va.

Lemma run_spec f n : forall x, let a := run f n x in
  0 <= a <= Z.of_nat n /\ (forall y, x <= y < x + a -> f y = true) /\ (a < Z.of_nat n -> f (x + a) = false).
Proof.
  induction n as [|n IH]; intros x; cbn [run]; [by repeat split; lia|]. destruct (f x) eqn:Ef.
  - destruct (IH (x + 1)) as (A & B & C). split; [lia|]. split.
    + intros y Hy. destruct (decide (y = x)) as [->|]; [done|]. apply B. lia.
    + intros Hlt. rewrite Z.add_assoc. apply C. lia.
  - split; [lia|]. split; [lia|]. intros _. by rewrite Z.add_0_r.
Qed.

(** [a] is that number. *)
Definition reach (s : space) (va len a : Z) : Prop :=
  0 <= a <= len /\ urange s va a /\ (a < len -> uacc s (va + a) = false).
Lemma avail_reach s va len : 0 <= len -> reach s va len (avail s va len).
Proof. intros Hl. pose proof (run_spec (uacc s) (Z.to_nat len) va) as A. cbv zeta in A. by rewrite Z2Nat.id in A. Qed.
Lemma avail_all s va len : 0 <= len -> urange s va len -> avail s va len = len.
Proof.
  intros Hl U. destruct (avail_reach s va len Hl) as (A & _ & C). destruct (decide (avail s va len = len)); [done|].
  rewrite (U (va + avail s va len)) in C by lia. discriminate C. lia.
Qed.
Lemma urange_sub s va len va' len' : urange s va len -> va <= va' -> va' + len' <= va + len -> urange s va' len'.
Proof. intros U A B x Hx. apply U. lia. Qed.

Section Uvm.
Context {H : Type} `{!Platform H} `{!Symbols} `{Hend : !SymbolLaws}.
Implicit Types k : kernel H.

(** * One page unmapped *)

Definition unmap_at (s : space) (va : Z) : space := mkSpace (sp_mid s) (sp_leaf s) (delete (vpn va) (sp_pages s)).

Lemma obj_at_unmap root s va o :
  obj_at root (unmap_at s va) o = if decide (o = OPage (vpn va)) then None else obj_at root s o.
Proof.
  destruct o as [|x|x|x]; cbn; case_decide as E; try done.
  - injection E as ->. by rewrite lookup_delete_eq.
  - rewrite lookup_delete_ne by congruence. done.
Qed.

Lemma tab_ent_unmap s va o i : is_table o = true -> 0 <= i < 512 ->
  tab_ent (unmap_at s va) o i = if decide ((o, i) = (OLeaf (vpn va / 512), PX 3 va)) then 0 else tab_ent s o i.
Proof.
  intros Ht Hi. case_decide as E.
  - injection E as -> ->. cbn. by rewrite page_index, lookup_delete_eq.
  - destruct o as [|x|x|x]; try done. cbn. rewrite lookup_delete_ne; [done|]. intros Ev. apply E.
    pose proof (page_index va). pose proof (PX_range 3 va). assert (x = vpn va / 512) as -> by lia. f_equal. lia.
Qed.

Lemma rep_unmap m m' root s va t e :
  rep m root s -> sp_leaf s !! (vpn va / 512) = Some t -> sp_pages s !! vpn va = Some e ->
  ram_lo m' = ram_lo m -> ram_hi m' = ram_hi m -> rd 8 m' (t + 8 * PX 3 va) = 0 ->
  (forall b, ~ (frame_of e <= b < frame_of e + 4096) -> ~ (t + 8 * PX 3 va <= b < t + 8 * PX 3 va + 8) -> peek m' b = peek m b) ->
  rep m' root (unmap_at s va).
Proof.
  intros R Et Ee B1 B2 Erd Hsame. pose proof R as [R1 R2 R3 R4 R5 R6 R7 R8]. split.
  - unfold Lib.ram_ok. by rewrite B1, B2.
  - intros o p E. rewrite obj_at_unmap in E. case_decide; [done|]. unfold in_ram. rewrite B1, B2. by apply (R2 o).
  - intros o o' p E E'. rewrite obj_at_unmap in E, E'. do 2 case_decide; try done. by apply (R3 o o' p).
  - intros o p i Ht E Hi. rewrite obj_at_unmap in E. rewrite tab_ent_unmap by done. case_decide; [done|]. case_decide as Ei.
    + injection Ei as -> ->. cbn in E. rewrite Et in E. by injection E as <-.
    + rewrite <- (R4 o p i) by done. eapply (other_entries m m' root s (OLeaf (vpn va / 512)) t (PX 3 va) R Et (PX_range _ _)); try done.
      intros o1 q b Ht1 E1 Hb Hb'. apply Hsame; [|done]. intros Hb2.
      assert (obj_at root s (OPage (vpn va)) = Some (frame_of e)) as Ef by (cbn; by rewrite Ee).
      assert (q <> frame_of e) as Hne by (intros ->; by rewrite (R3 o1 (OPage (vpn va)) (frame_of e)) in Ht1).
      destruct (R2 o1 q E1) as [[Hq _] _], (R2 _ _ Ef) as [[Hf _] _]. destruct (pages_disjoint q (frame_of e) Hq Hf Hne); unfold PGSIZE in *; lia.
  - done.
  - done.
  - intros v Hv. apply R7. cbn in Hv. apply lookup_delete_is_Some in Hv. tauto.
  - intros v e' Ev. cbn in Ev. apply lookup_delete_Some in Ev as [_ Ev]. by apply (R8 v).
Qed.

(** From one state to another: pages leave a space and become free; its tables stay, and no
    byte changes but those of tables and of free pages. *)
Record shrinks root k (l : list Z) (s : space) k' (l' : list Z) (s' : space) : Prop := {
  sh_frame : mem_frame k k';
  sh_list : exists freed, l' = freed ++ l;
  sh_objs o q : obj_at root s' o = Some q -> obj_at root s o = Some q;
  sh_tables o : is_table o = true -> obj_at root s' o = obj_at root s o;
  sh_keep : conserves root l s l' s';
  sh_lo : ram_lo (k_mem k') = ram_lo (k_mem k);
  sh_hi : ram_hi (k_mem k') = ram_hi (k_mem k);
  sh_mem b : (forall o q, is_table o = true -> obj_at root s o = Some q -> ~ (q <= b < q + 4096)) ->
    (forall q, q ∈ l' -> ~ (q <= b < q + 4096)) -> peek (k_mem k') b = peek (k_mem k) b
}.

Lemma shrinks_refl root k l s : shrinks root k l s k l s.
Proof. split; try done; [apply mem_frame_refl|by exists []]. Qed.
Lemma shrinks_trans root k l s k1 l1 s1 k2 l2 s2 :
  shrinks root k l s k1 l1 s1 -> shrinks root k1 l1 s1 k2 l2 s2 -> shrinks root k l s k2 l2 s2.
Proof.
  intros [A1 [f1 A2] A3 A4 A8 A5 A6 A7] [B1 [f2 B2] B3 B4 B8 B5 B6 B7]. split; try congruence; auto.
  - by eapply mem_frame_trans.
  - exists (f2 ++ f1). by rewrite B2, A2, (assoc_L (++)).
  - intros o Ht. by rewrite B4, A4.
  - intros q. specialize (A8 q). specialize (B8 q). tauto.
  - intros b H1 H2. rewrite B7; [apply A7; [done|]| |done].
    + intros q Hq. apply H2. rewrite B2. set_solver.
    + intros o q Ht. rewrite A4 by done. by apply H1.
Qed.

(** One turn of the loop of [uvmunmap]. *)
Lemma unmap_page c k l root s va e n end_ :
  on_cpu c k -> free LKmem k -> uspace k l root s -> sp_pages s !! vpn va = Some e ->
  0 <= va < end_ -> va < MAXVA ->
  exists k', uvmunmap_loop (S n) root va end_ true k = uvmunmap_loop n root (u64 (va + PGSIZE)) end_ true k' /\
    uspace k' (frame_of e :: l) root (unmap_at s va) /\ shrinks root k l s k' (frame_of e :: l) (unmap_at s va).
Proof.
  intros Hc Hf [Hh R Fr En] Ee Hva Hmax. cbn [uvmunmap_loop]. destruct (Z.ltb_spec va end_) as [_|]; [|lia]. cbn [negb].
  destruct (rep_pages _ _ _ R (vpn va) ltac:(by eexists)) as [t Et]. destruct (rep_pte _ _ _ R _ _ Ee) as (Hu & Haf & Hv).
  destruct (walk_pte k root s R va t Hmax Et) as [E1 E2]. rewrite Ee in E2. cbn in E2.
  rewrite (bind_Ok _ _ _ _ _ E1), (bind_Ok _ _ _ _ _ E2), Hv, Z.eqb_refl, Haf. cbn [negb].
  set (f := frame_of e). change (P2V (PTE2PA e)) with f.
  assert (obj_at root s (OPage (vpn va)) = Some f) as Ef by (cbn; by rewrite Ee).
  destruct (rep_page _ _ _ R _ _ Ef) as [Hkf Hfr]. pose proof Hkf as [Hfa Hfb]. destruct (kpage_u64 f Hkf) as (_ & _ & Hf0).
  assert (f ∉ l) as Hfl by (intros Hin; by apply (Fr f (OPage (vpn va)) Hin)).
  destruct (kfree_ok c k l Hc Hf Hh f) as (k1 & F1 & MF & H1 & B1 & B2 & P1); [|done|].
  { split; [done|]. split; [split; [by apply (En (OPage (vpn va)))|apply Hfb]|]. by split. }
  rewrite (bind_Ok _ _ _ _ _ F1). set (a := t + 8 * PX 3 va). pose proof (PX_range 3 va) as Hi.
  destruct (rep_page _ _ _ R (OLeaf (vpn va / 512)) t Et) as [[Hta _] Htr].
  assert (in_ram (k_mem k1) a 8 = true) as Ha.
  { apply (in_ram_sub _ t 4096); [unfold in_ram in *; by rewrite B1, B2|unfold a; lia..]. }
  assert (f <> t) as Hne by (intros E; by pose proof (rep_inj _ _ _ R (OPage (vpn va)) (OLeaf (vpn va / 512)) f Ef ltac:(by rewrite E))).
  unfold set_pte. rewrite (bind_Ok _ _ _ _ _ (store64_ok a 0 k1 Ha)). eexists. split; [reflexivity|].
  set (m2 := wr 8 a 0 (k_mem k1)). destruct (wr_bounds 8 a 0 (k_mem k1)) as [W1 W2]. fold m2 in W1, W2.
  assert (forall b, ~ (a <= b < a + 8) -> peek m2 b = peek (k_mem k1) b) as Hw by (intros b Hb; apply peek_wr_other; lia).
  assert (forall b, ~ (f <= b < f + 4096) -> ~ (a <= b < a + 8) -> peek m2 b = peek (k_mem k) b) as Hsame.
  { intros b Hb Hb'. rewrite Hw by done. by apply P1. }
  split; split.
  - destruct H1 as [C1 C2 C3]. split; [unfold Lib.ram_ok in *; cbn; by rewrite W1, W2| |done].
    apply (chain_ext (k_mem k1) m2 (k_freelist k1)); try done. intros p Hp. pose proof (chain_pages _ _ _ _ C2 Hp) as [Hpa _].
    assert (p <> t) as Hpt by (intros ->; apply elem_of_cons in Hp as [?|Hp]; [congruence|by apply (Fr t (OLeaf (vpn va / 512)) Hp)]).
    destruct (pages_disjoint p t Hpa Hta Hpt); unfold PGSIZE in *; apply rd_ext; intros b Hb; apply Hw; unfold a; lia.
  - apply (rep_unmap (k_mem k) m2 root s va t e); try done; cbn; try congruence. unfold m2. by rewrite rd_wr_same.
  - intros p o Hp E. rewrite obj_at_unmap in E. case_decide as Eo; [done|]. apply elem_of_cons in Hp as [->|Hp]; [|by apply (Fr p o)].
    apply Eo. by apply (rep_inj _ _ _ R o (OPage (vpn va)) f).
  - intros o p E. rewrite obj_at_unmap in E. case_decide; [done|]. by apply (En o).
  - clear -MF. unfold mem_frame in *. rewrite MF. done.
  - by exists [f].
  - intros o q E. rewrite obj_at_unmap in E. by case_decide.
  - intros o Ht. rewrite obj_at_unmap. case_decide; [by subst o|done].
  - intros q. unfold owned. rewrite elem_of_cons. split.
    + intros [?|(o & Eo)]; [by left; right|]. destruct (decide (o = OPage (vpn va))) as [->|Hno]; [left; left; congruence|].
      right. exists o. by rewrite obj_at_unmap, decide_False.
    + intros [[->|?]|(o & Eo)]; [right; by exists (OPage (vpn va))|by left|]. rewrite obj_at_unmap in Eo. case_decide; [done|]. right. by exists o.
  - cbn. congruence.
  - cbn. congruence.
  - intros b Hb1 Hb2. apply Hsame; [apply Hb2; set_solver|]. assert (~ (t <= b < t + 4096)); [|unfold a; lia]. by apply (Hb1 (OLeaf (vpn va / 512))).
Qed.

(** * Pages by number *)

Lemma vpn_page v : 0 <= v < 2 ^ 27 -> vpn (v * 4096) = v.
Proof. intros Hv. unfold vpn. rewrite Z.div_mul by done. by apply Z.mod_small. Qed.
Lemma page_lt_max v : v <= 2 ^ 27 -> v * 4096 < MAXVA.
Proof. change MAXVA with (2 ^ 64 - 2 ^ 38). lia. Qed.

(** [uvmunmap] of pages [a] to [a + n - 1]. *)
Lemma uvmunmap_loop_ok c n : forall k l root s a,
  on_cpu c k -> free LKmem k -> uspace k l root s -> 0 <= a -> a + Z.of_nat n <= 2 ^ 27 ->
  (forall v, a <= v < a + Z.of_nat n -> is_Some (sp_pages s !! v)) ->
  exists k' l' s', uvmunmap_loop (S n) root (a * 4096) ((a + Z.of_nat n) * 4096) true k = Ok tt k' /\ uspace k' l' root s' /\
    shrinks root k l s k' l' s' /\ (forall q, q ∈ l' -> q ∈ l \/ exists v e, a <= v < a + Z.of_nat n /\ sp_pages s !! v = Some e /\ q = frame_of e) /\
    forall v, sp_pages s' !! v = if (a <=? v) && (v <? a + Z.of_nat n) then None else sp_pages s !! v.
Proof.
  induction n as [|n IH]; intros k l root s a Hc Hf U Ha Hn Hm.
  - exists k, l, s. cbn [uvmunmap_loop]. change (Z.of_nat 0) with 0. rewrite Z.add_0_r. destruct (Z.ltb_spec (a * 4096) (a * 4096)); [lia|].
    split; [done|]. split; [done|]. split; [apply shrinks_refl|]. split; [by left|]. intros v.
    destruct (Z.leb_spec a v), (Z.ltb_spec v a); try done; lia.
  - destruct (Hm a ltac:(lia)) as [e Ee]. rewrite <- (vpn_page a) in Ee by lia.
    destruct (unmap_page c k l root s (a * 4096) e (S n) ((a + Z.of_nat (S n)) * 4096) Hc Hf U Ee ltac:(lia) ltac:(apply page_lt_max; lia))
      as (k1 & E1 & U1 & S1).
    rewrite vpn_page in Ee by lia. destruct (mem_frame_cpu c k k1 (sh_frame _ _ _ _ _ _ _ S1) Hc Hf) as [Hc1 Hf1].
    assert (forall v, sp_pages (unmap_at s (a * 4096)) !! v = if decide (v = a) then None else sp_pages s !! v) as Ep.
    { intros v. cbn. rewrite vpn_page by lia. case_decide; [subst; by rewrite lookup_delete_eq|by rewrite lookup_delete_ne]. }
    destruct (IH k1 (frame_of e :: l) root (unmap_at s (a * 4096)) (a + 1) Hc1 Hf1 U1) as (k2 & l2 & s2 & E2 & U2 & S2 & F2 & P2); try lia.
    { intros v Hv. rewrite Ep, decide_False by lia. apply Hm. lia. }
    exists k2, l2, s2. rewrite E1. unfold PGSIZE. rewrite u64_small by (unfold is_u64; lia).
    replace (a * 4096 + 4096) with ((a + 1) * 4096) by lia. replace (a + Z.of_nat (S n)) with (a + 1 + Z.of_nat n) by lia.
    split; [done|]. split; [done|]. split; [by eapply shrinks_trans|]. split.
    + intros q [Hq|(v & e' & Hv & Ev & ->)]%F2.
      * apply elem_of_cons in Hq as [->|Hq]; [|by left]. right. exists a, e. split; [lia|done].
      * rewrite Ep, decide_False in Ev by lia. right. exists v, e'. split; [lia|done].
    + intros v. rewrite P2, Ep. destruct (Z.leb_spec (a + 1) v), (Z.ltb_spec v (a + 1 + Z.of_nat n)), (Z.leb_spec a v); cbn; try lia; try done;
        case_decide; try done; lia.
Qed.

(** The least number of pages for [sz] bytes. *)
Definition npages (sz : Z) : Z := PGROUNDUP sz / 4096.

Lemma npages_ok sz : 0 <= sz <= 2 ^ 38 -> PGROUNDUP sz = npages sz * 4096 /\ 0 <= npages sz <= 2 ^ 26 /\ sz <= npages sz * 4096 < sz + 4096.
Proof.
  intros Hs. destruct (pgroundup_aligned sz ltac:(lia) ltac:(unfold PGSIZE; lia)) as [Ha Hb]. unfold PGSIZE in *. unfold npages.
  pose proof (Z.div_mod (PGROUNDUP sz) 4096 ltac:(done)) as E. rewrite Ha in E. split; [lia|]. split; [|lia].
  split; [lia|]. apply Z.lt_succ_r. apply Z.div_lt_upper_bound; lia.
Qed.

(** The pages of [oldsz] are there; those beyond [newsz] go. *)
Lemma uvmdealloc_ok c k l root s oldsz newsz :
  on_cpu c k -> free LKmem k -> uspace k l root s -> 0 <= newsz < oldsz -> oldsz <= 2 ^ 38 ->
  (forall v, npages newsz <= v < npages oldsz -> is_Some (sp_pages s !! v)) ->
  exists k' l' s', uvmdealloc root oldsz newsz k = Ok newsz k' /\ uspace k' l' root s' /\
    shrinks root k l s k' l' s' /\
    (forall q, q ∈ l' -> q ∈ l \/ exists v e, npages newsz <= v < npages oldsz /\ sp_pages s !! v = Some e /\ q = frame_of e) /\
    forall v, sp_pages s' !! v = if (npages newsz <=? v) && (v <? npages oldsz) then None else sp_pages s !! v.
Proof.
  intros Hc Hf U Hn Ho Hm. destruct (npages_ok oldsz ltac:(lia)) as (E1 & B1 & C1), (npages_ok newsz ltac:(lia)) as (E2 & B2 & C2).
  unfold uvmdealloc. destruct (Z.geb_spec newsz oldsz); [lia|]. rewrite E1, E2.
  destruct (Z.ltb_spec (npages newsz * 4096) (npages oldsz * 4096)) as [Hlt|Hge].
  - set (n := Z.to_nat (npages oldsz - npages newsz)). unfold PGSIZE. replace ((npages oldsz * 4096 - npages newsz * 4096) / 4096) with (Z.of_nat n).
    2:{ rewrite <- Z.mul_sub_distr_r, Z.div_mul by done. unfold n. lia. }
    assert (i32 (Z.of_nat n) = Z.of_nat n) as -> by (unfold i32, sext; rewrite Z.mod_small by (unfold n; lia); destruct (Z.ltb_spec (Z.of_nat n) (2 ^ (32 - 1))); [done|unfold n in *; lia]).
    rewrite u64_small by (unfold is_u64, n; lia).
    destruct (uvmunmap_loop_ok c n k l root s (npages newsz) Hc Hf U) as (k' & l' & s' & E & U' & S' & F' & P'); try (unfold n; lia).
    { intros v Hv. apply Hm. unfold n in Hv. lia. }
    exists k', l', s'. replace (npages newsz + Z.of_nat n) with (npages oldsz) in * by (unfold n; lia). split; [|done].
    erewrite bind_Ok; [reflexivity|]. unfold uvmunmap, PGSIZE. rewrite Z.mod_mul by done. cbn [Z.eqb negb]. rewrite Nat2Z.id.
    replace (npages newsz * 4096 + Z.of_nat n * 4096) with (npages oldsz * 4096) by (unfold n; lia).
    by rewrite u64_small by (unfold is_u64; lia).
  - exists k, l, s. split; [done|]. split; [done|]. split; [apply shrinks_refl|]. split; [by left|]. intros v.
    destruct (Z.leb_spec (npages newsz) v), (Z.ltb_spec v (npages oldsz)); try done; lia.
Qed.

(** * Growing *)

(** A page of RAM that is free, or a table. *)
Definition spare root (l : list Z) (s : space) (q : Z) : Prop :=
  q ∈ l \/ exists o, is_table o = true /\ obj_at root s o = Some q.

(** Only spare pages, and those of [F], have changed, and no other page has become spare. *)
Record evolves root (F : Z -> Prop) k (l : list Z) (s : space) k' (l' : list Z) (s' : space) : Prop := {
  ev_frame : mem_frame k k';
  ev_lo : ram_lo (k_mem k') = ram_lo (k_mem k);
  ev_hi : ram_hi (k_mem k') = ram_hi (k_mem k);
  ev_mem b : (forall q, spare root l s q \/ F q -> ~ (q <= b < q + 4096)) -> peek (k_mem k') b = peek (k_mem k) b;
  ev_spare q : spare root l' s' q -> spare root l s q \/ F q
}.
Definition none : Z -> Prop := fun _ => False.

Lemma evolves_refl root F k l s : evolves root F k l s k l s.
Proof. split; try done; [apply mem_frame_refl|by left]. Qed.
Lemma evolves_trans root F G k l s k1 l1 s1 k2 l2 s2 :
  evolves root F k l s k1 l1 s1 -> evolves root G k1 l1 s1 k2 l2 s2 -> (forall q, G q -> spare root l s q \/ F q) ->
  evolves root F k l s k2 l2 s2.
Proof.
  intros [A1 A2 A3 A4 A5] [B1 B2 B3 B4 B5] HG. split; [by eapply mem_frame_trans|congruence|congruence| |].
  - intros b Hb. rewrite B4; [by apply A4|]. intros q [Hq|Hq]; apply Hb; auto.
  - intros q [Hq|Hq]%B5; auto.
Qed.

Lemma grows_evolves root k l s k' l' s' : grows root k l s k' l' s' -> evolves root none k l s k' l' s'.
Proof.
  intros [A1 [u ->] A2 A3 _ A4 A5 A6]. split; try done.
  - intros b Hb. apply A6. intros o q Ht E. apply Hb. left. destruct (A3 o q Ht E); [right; by exists o|by left].
  - intros q [Hq|(o & Ht & E)]; left; [left; set_solver|]. destruct (A3 o q Ht E); [right; by exists o|by left].
Qed.

Lemma shrinks_evolves root F k l s k' l' s' :
  shrinks root k l s k' l' s' -> (forall q, q ∈ l' -> spare root l s q \/ F q) -> evolves root F k l s k' l' s'.
Proof.
  intros [A1 A2 A3 A4 _ A5 A6 A7] Hl. split; try done.
  - intros b Hb. apply A7; [intros o q Ht E; apply Hb; left; right; by exists o|]. intros q Hq. by apply Hb, Hl.
  - intros q [Hq|(o & Ht & E)]; [by apply Hl|]. left. right. exists o. split; [done|]. by rewrite <- A4.
Qed.

(** Two pages have no byte in common. *)
Lemma pages_apart p q b : p mod 4096 = 0 -> q mod 4096 = 0 -> q <> p -> q <= b < q + 4096 -> ~ (p <= b < p + 4096).
Proof. intros Hp Hq Hne Hb. destruct (pages_disjoint q p Hq Hp Hne); unfold PGSIZE in *; lia. Qed.

(** What growing does with the pages: new tables come off the free list. *)
Lemma grows_conserves root k l s k' l' s' : grows root k l s k' l' s' -> sp_pages s' = sp_pages s -> conserves root l s l' s'.
Proof.
  intros [_ [u Hl] Hob Hnew Hk _ _ _] Ep q. split; [intros [Hq|(o & E)]; [by apply Hk|right; exists o; by apply Hob]|].
  intros [Hq|(o & E)]; [left; rewrite Hl; set_solver|]. destruct (is_table o) eqn:Ht; [destruct (Hnew o q Ht E); [right; by exists o|by left]|].
  right. exists o. destruct o; try done. cbn in *. by rewrite <- Ep.
Qed.
Lemma grows_conserves_map root k l s k' l' s' v e p :
  grows root k l s k' l' s' -> sp_pages s' = <[v := e]> (sp_pages s) -> frame_of e = p -> conserves root (p :: l) s l' s'.
Proof.
  intros [_ [u Hl] Hob Hnew Hk _ _ _] Ep Ef q. unfold owned. rewrite elem_of_cons. split.
  - intros [[->|Hq]|(o & E)]; [right; exists (OPage v); cbn; by rewrite Ep, lookup_insert_eq; cbn; rewrite Ef|by apply Hk|right; exists o; by apply Hob].
  - intros [Hq|(o & E)]; [left; right; rewrite Hl; set_solver|]. destruct (is_table o) eqn:Ht; [destruct (Hnew o q Ht E); [right; by exists o|by left; right]|].
    destruct o as [| | |x]; try done. cbn in E. rewrite Ep in E. destruct (decide (x = v)) as [->|Hne].
    + rewrite lookup_insert_eq in E. injection E as E. left. left. congruence.
    + rewrite lookup_insert_ne in E by done. right. by exists (OPage x).
Qed.
Lemma conserves_cons root p l s l' s' : conserves root l s l' s' -> conserves root (p :: l) s (p :: l') s'.
Proof. intros C q. specialize (C q). unfold owned in *. rewrite !elem_of_cons. tauto. Qed.
Lemma conserves_trans root l s l1 s1 l2 s2 : conserves root l s l1 s1 -> conserves root l1 s1 l2 s2 -> conserves root l s l2 s2.
Proof. intros A B q. specialize (A q). specialize (B q). tauto. Qed.

(** A page of its own is written: the space stays, and the free list. *)
Lemma mem_on_page k l root s p m' :
  uspace k l root s -> apart k l root s p -> ram_lo m' = ram_lo (k_mem k) -> ram_hi m' = ram_hi (k_mem k) ->
  (forall b, ~ (p <= b < p + 4096) -> peek m' b = peek (k_mem k) b) ->
  uspace (set_k_mem m' k) l root s /\ apart (set_k_mem m' k) l root s p /\
  forall b, (forall q, spare root l s q -> ~ (q <= b < q + 4096)) -> ~ (p <= b < p + 4096) -> peek m' b = peek (k_mem k) b.
Proof.
  intros [Hh R Fr En] [Hp He Hr Ho Hl] M1 M2 Hsame. split; [|split; [|auto]].
  - split; try done.
    + destruct Hh as [B1 B2 B3]. split; [unfold Lib.ram_ok in *; cbn; by rewrite M1, M2| |done].
      apply (chain_ext (k_mem k)); try done. intros q Hq. pose proof (chain_pages _ _ _ _ B2 Hq) as [Hqa _].
      apply rd_ext. intros b Hb. apply Hsame, (pages_apart p q); [apply Hp|done|congruence|lia].
    + apply (rep_frame (k_mem k)); try done. intros o q b Ht E Hb. apply Hsame.
      destruct (rep_page _ _ _ R o q E) as [[Hq _] _]. apply (pages_apart p q); [apply Hp|done| |done]. intros ->. by apply (Ho o).
  - split; try done. unfold in_ram in *. cbn. by rewrite M1, M2.
Qed.

(** A page is taken from the list. *)
Lemma take_user_frame c k p l root s :
  on_cpu c k -> free LKmem k -> uspace k (p :: l) root s ->
  exists k1, kalloc k = Ok p k1 /\ p <> 0 /\ uspace k1 l root s /\ apart k1 l root s p /\ evolves root none k (p :: l) s k1 l s /\
    forall b, ~ (p <= b < p + 4096) -> peek (k_mem k1) b = peek (k_mem k) b.
Proof.
  intros Hc Hf [Hh R Fr En]. pose proof (hp_chain _ _ Hh) as (_ & Hpg & _). pose proof (hp_nodup _ _ Hh) as [Hpl _]%list.NoDup_cons.
  destruct (page_kpage _ _ Hpg) as [Hp Hr]. destruct (kpage_u64 p Hp) as (_ & _ & Hp0).
  destruct (kalloc_some c k (p :: l) Hc Hf Hh p l eq_refl) as (k1 & E1 & F1 & H1 & L1 & L2 & P1).
  assert (forall b, ~ (p <= b < p + 4096) -> peek (k_mem k1) b = peek (k_mem k) b) as Hsame.
  { intros b Hb. rewrite P1. unfold PGSIZE. destruct (Z.leb_spec p b), (Z.ltb_spec b (p + 4096)); try done; lia. }
  exists k1. split; [done|]. split; [lia|]. split; [|split; [|split; [|done]]].
  - split; [done| |by intros q o Hq; apply Fr; set_solver|done].
    apply (rep_frame (k_mem k)); [done|congruence..|]. intros o q b Ht E Hb. apply Hsame.
    destruct (rep_page _ _ _ R o q E) as [[Hq _] _]. apply (pages_apart p q); [apply Hp|done| |done]. intros ->. by apply (Fr p o); [set_solver|].
  - split; try done; [apply Hpg|unfold in_ram in *; by rewrite L1, L2|]. intros o. apply Fr. set_solver.
  - split; [done|congruence..| |].
    + intros b Hb. apply Hsame. apply Hb. left. left. set_solver.
    + intros q [Hq|Hq]; left; [left; set_solver|by right].
Qed.

(** The page that was taken is written. *)
Lemma fill_frame k p l root s k1 m2 :
  evolves root none k (p :: l) s k1 l s -> ram_lo m2 = ram_lo (k_mem k1) -> ram_hi m2 = ram_hi (k_mem k1) ->
  (forall b, ~ (p <= b < p + 4096) -> peek m2 b = peek (k_mem k1) b) -> evolves root none k (p :: l) s (set_k_mem m2 k1) l s.
Proof.
  intros [A1 A2 A3 A4 A5] M1 M2 Hs. split; cbn; [|congruence..| |done].
  - clear -A1. unfold mem_frame in *. rewrite A1. done.
  - intros b Hb. rewrite Hs; [by apply A4|]. apply Hb. left. left. by left.
Qed.

(** It is taken, and cleared. *)
Lemma take_page c k p l root s :
  on_cpu c k -> free LKmem k -> uspace k (p :: l) root s ->
  exists k1 k2, kalloc k = Ok p k1 /\ zero_page p k1 = Ok tt k2 /\ p <> 0 /\ uspace k2 l root s /\ apart k2 l root s p /\
    evolves root none k (p :: l) s k2 l s /\
    forall b, peek (k_mem k2) b = if (p <=? b) && (b <? p + 4096) then 0 else peek (k_mem k) b.
Proof.
  intros Hc Hf U. destruct (take_user_frame c k p l root s Hc Hf U) as (k1 & E1 & Hp0 & U1 & A1 & V1 & P1).
  destruct (zero_page_ok k1 p (hp_ram _ _ (us_heap _ _ _ _ U1)) (ap_ram _ _ _ _ _ A1)) as (m2 & E2 & M1 & M2 & P2).
  assert (forall b, ~ (p <= b < p + 4096) -> peek m2 b = peek (k_mem k1) b) as Hs.
  { intros b Hb. rewrite P2. unfold PGSIZE. destruct (Z.leb_spec p b), (Z.ltb_spec b (p + 4096)); try done; lia. }
  destruct (mem_on_page k1 l root s p m2 U1 A1 M1 M2 Hs) as (U2 & A2 & _). exists k1, (set_k_mem m2 k1).
  split; [done|]. split; [done|]. split; [done|]. split; [done|]. split; [done|]. split; [by apply fill_frame|].
  intros b. cbn. rewrite P2. unfold PGSIZE. destruct (Z.leb_spec p b), (Z.ltb_spec b (p + 4096)); try done; cbn; apply P1; lia.
Qed.

(** It is given back. *)
Lemma give_page c k p l root s :
  on_cpu c k -> free LKmem k -> uspace k l root s -> apart k l root s p ->
  exists k', kfree p k = Ok tt k' /\ uspace k' (p :: l) root s /\ evolves root (fun q => q = p) k l s k' (p :: l) s.
Proof.
  intros Hc Hf [Hh R Fr En] [Hp He Hr Ho Hl]. destruct (kpage_u64 p Hp) as (_ & _ & Hp0).
  destruct (kfree_ok c k l Hc Hf Hh p) as (k1 & E1 & MF & H1 & B1 & B2 & P1); [|done|].
  { split; [apply Hp|]. split; [split; [done|apply Hp]|]. by split. }
  exists k1. split; [done|]. split; [split|split]; try done.
  - apply (rep_frame (k_mem k)); try done. intros o q b Ht E Hb. apply P1. intros Hb'.
    destruct (rep_page _ _ _ R o q E) as [[Hq _] _]. assert (q <> p) as Hne by (intros ->; by apply (Ho o)).
    destruct Hp as [Hp _]. destruct (pages_disjoint q p Hq Hp Hne); unfold PGSIZE in *; lia.
  - intros q o Hq E. apply elem_of_cons in Hq as [->|Hq]; [by apply (Ho o)|by apply (Fr q o)].
  - intros b Hb. apply P1, Hb. by right.
  - intros q [Hq|Hq]; [|left; by right]. apply elem_of_cons in Hq as [->|Hq]; [by right|left; by left].
Qed.

(** The frames of pages [a] to [b - 1]. *)
Definition frames_in (s : space) (a b : Z) : Z -> Prop := fun q => exists v e, a <= v < b /\ sp_pages s !! v = Some e /\ q = frame_of e.

Lemma npages_page v : 0 <= v <= 2 ^ 26 -> npages (v * 4096) = v.
Proof. intros Hv. destruct (npages_ok (v * 4096) ltac:(lia)) as (_ & _ & Hb). lia. Qed.

Lemma sized_some s n v : sized s n -> 0 <= v < n -> is_Some (sp_pages s !! v).
Proof. intros S Hv. by apply S. Qed.

(** Pages [n0] to [v - 1] go again. *)
Lemma undo_ok c k l root s n0 v :
  on_cpu c k -> free LKmem k -> uspace k l root s -> 0 <= n0 <= v -> sized s v ->
  exists r k' l' s', uvmdealloc root (v * 4096) (n0 * 4096) k = Ok r k' /\ uspace k' l' root s' /\
    evolves root (frames_in s n0 v) k l s k' l' s' /\ conserves root l s l' s' /\
    forall x, sp_pages s' !! x = if (n0 <=? x) && (x <? v) then None else sp_pages s !! x.
Proof.
  intros Hc Hf U Hn Sz. pose proof (sz_range _ _ Sz) as Hv. destruct (decide (n0 = v)) as [->|Hne].
  - exists (v * 4096), k, l, s. unfold uvmdealloc. destruct (Z.geb_spec (v * 4096) (v * 4096)); [|lia].
    split; [done|]. split; [done|]. split; [apply evolves_refl|]. split; [done|]. intros x. destruct (Z.leb_spec v x), (Z.ltb_spec x v); try done; lia.
  - destruct (uvmdealloc_ok c k l root s (v * 4096) (n0 * 4096) Hc Hf U) as (k' & l' & s' & E & U' & S' & F' & P'); try lia.
    { rewrite !npages_page by lia. intros x Hx. apply (sized_some s v); [done|lia]. }
    rewrite !npages_page in F', P' by lia. exists (n0 * 4096), k', l', s'. split; [done|]. split; [done|]. split; [|split; [apply S'|done]].
    apply shrinks_evolves; [done|]. intros q [Hq|Hq]%F'; [left; by left|by right].
Qed.

Definition UPERM : Z := Z.lor PTE_NORMAL PTE_U.
Lemma UPERM_ok : perm_ok UPERM.
Proof. split; [split; by vm_compute|by vm_compute]. Qed.

(** The permissions of an entry for a page of RAM. *)
Lemma leaf_pte_flags p perm : kpage p -> PTE_FLAGS (leaf_pte (V2P p) perm) = Z.lor (PTE_FLAGS perm) PTE_V.
Proof.
  intros (_ & Hv & Ha & _)%kpage_V2P. unfold leaf_pte. change PA2PTE with PTE2PA. rewrite (PTE2PA_small (V2P p)) by lia. unfold PTE_FLAGS.
  rewrite !Z.land_lor_distr_l. change (Z.land PTE_AF 0x600000000003ff) with 0. change (Z.land PTE_V 0x600000000003ff) with PTE_V. rewrite Z.lor_0_r.
  replace (Z.land (V2P p) 0x600000000003ff) with 0; [by rewrite Z.lor_0_l|]. symmetry. apply Z.bits_inj'. intros i Hi. rewrite Z.land_spec, Z.bits_0.
  destruct (Z.lt_ge_cases i 12).
  - replace (Z.testbit (V2P p) i) with false; [done|]. symmetry. rewrite (Z.div_mod (V2P p) 4096), Ha, Z.add_0_r by lia.
    change 4096 with (2 ^ 12). rewrite Z.mul_comm, <- Z.shiftl_mul_pow2 by lia. apply Z.shiftl_spec_low. lia.
  - destruct (Z.lt_ge_cases i 47).
    + apply andb_false_intro2. change 0x600000000003ff with (Z.lor (Z.shiftl 3 53) (Z.ones 10)). rewrite Z.lor_spec, Z.shiftl_spec, Z.ones_spec_high by lia.
      by rewrite Z.testbit_neg_r by lia.
    + apply andb_false_intro1. apply Z.bits_above_log2; [lia|]. apply Z.log2_lt_pow2; [lia|]. eapply Z.lt_le_trans; [apply Hv|]. apply Z.pow_le_mono_r; lia.
Qed.

(** Those of a page that the process has grown by. *)
Definition NEWFLAGS : Z := Z.lor UPERM PTE_V.
Lemma flags_user e : PTE_FLAGS e = NEWFLAGS -> has e PTE_U = true.
Proof. intros E. unfold has. change PTE_U with (Z.land 0x600000000003ff PTE_U). rewrite Z.land_assoc. change (Z.land e 0x600000000003ff) with (PTE_FLAGS e). by rewrite E. Qed.

Definition zero_frame (m : memory) (e : Z) : Prop := forall b, frame_of e <= b < frame_of e + 4096 -> peek m b = 0.

(** A page that was taken is mapped, or given back when the tables need more pages than there are. *)
Lemma map_new c k p l root s k2 perm v :
  on_cpu c k -> free LKmem k -> evolves root none k (p :: l) s k2 l s -> uspace k2 l root s -> apart k2 l root s p ->
  perm_ok perm -> sized s v -> v < 2 ^ 26 ->
  exists k3 l3 s3 r, mappages root (v * 4096) PGSIZE (V2P p) perm k2 = Ok r k3 /\
    if r =? 0 then
      uspace k3 l3 root s3 /\ evolves root none k (p :: l) s k3 l3 s3 /\ sized s3 (v + 1) /\
      sp_pages s3 = <[v := leaf_pte (V2P p) perm]> (sp_pages s) /\ frame_of (leaf_pte (V2P p) perm) = p /\
      conserves root (p :: l) s l3 s3 /\ forall b, p <= b < p + 4096 -> peek (k_mem k3) b = peek (k_mem k2) b
    else exists k4, kfree p k3 = Ok tt k4 /\ uspace k4 (p :: l3) root s3 /\ evolves root none k (p :: l) s k4 (p :: l3) s3 /\
      conserves root (p :: l) s (p :: l3) s3 /\ sp_pages s3 = sp_pages s.
Proof.
  intros Hc Hf V2 U2 A2 Hperm Sz Hv. pose proof (sz_range _ _ Sz) as Hr.
  destruct (mem_frame_cpu c k k2 (ev_frame _ _ _ _ _ _ _ _ V2) Hc Hf) as [Hc2 Hf2].
  assert (sp_pages s !! vpn (v * 4096) = None) as Ev.
  { rewrite vpn_page by lia. destruct (sp_pages s !! v) eqn:Ex; [|done]. exfalso. assert (0 <= v < v) by (apply (sz_dom _ _ Sz); by eexists). lia. }
  destruct (map_page c k2 l root s (v * 4096) p perm Hc2 Hf2 U2 A2 Hperm ltac:(pose proof (page_lt_max v); lia)
    ltac:(by apply Z.mod_mul) Ev) as (k3 & l3 & s3 & r & E3 & C3).
  exists k3, l3, s3, r. split; [done|].
  destruct (leaf_pte_ok p perm (ap_page _ _ _ _ _ A2) Hperm) as (Ef & _). destruct (r =? 0) eqn:Er.
  - destruct C3 as (U3 & G3 & P3). rewrite vpn_page in P3 by lia.
    split; [done|]. split; [eapply evolves_trans; [exact V2|by apply grows_evolves|done]|]. split; [|split; [done|split; [done|split; [by eapply grows_conserves_map|]]]].
    + split; [lia|]. intros x. rewrite P3, lookup_insert_is_Some, (sz_dom _ _ Sz). lia.
    + intros b Hb. apply (gr_mem _ _ _ _ _ _ _ G3). intros o q Ht E Hb'. revert Hb.
      destruct (rep_page _ _ _ (us_rep _ _ _ _ U3) o q E) as [[Hq _] _]. apply (pages_apart p q); [apply (ap_page _ _ _ _ _ A2)|done| |done].
      intros ->. destruct (gr_new _ _ _ _ _ _ _ G3 o p Ht E) as [E'|Hin]; [by apply (ap_objs _ _ _ _ _ A2 o)|by apply (ap_free _ _ _ _ _ A2)].
  - destruct C3 as (_ & -> & U3 & G3 & P3). pose proof (apart_grows _ _ _ _ _ _ _ _ G3 P3 A2) as A3.
    destruct (grows_cpu _ _ _ _ _ _ _ _ G3 Hc2 Hf2) as [Hc3 Hf3].
    destruct (give_page c k3 p [] root s3 Hc3 Hf3 U3 A3) as (k4 & E4 & U4 & V4). exists k4. split; [done|]. split; [done|]. split; [|split; [apply conserves_cons; by eapply grows_conserves|done]].
    eapply evolves_trans; [eapply evolves_trans; [exact V2|by apply grows_evolves|done]|exact V4|]. intros q ->. left. left. by left.
Qed.

(** One page more. *)
Lemma add_page c k p l root s v :
  on_cpu c k -> free LKmem k -> uspace k (p :: l) root s -> sized s v -> v < 2 ^ 26 ->
  exists k1 k2 k3 l3 s3 r, kalloc k = Ok p k1 /\ zero_page p k1 = Ok tt k2 /\ p <> 0 /\
    mappages root (v * 4096) PGSIZE (V2P p) UPERM k2 = Ok r k3 /\
    if r =? 0 then
      uspace k3 l3 root s3 /\ evolves root none k (p :: l) s k3 l3 s3 /\ sized s3 (v + 1) /\
      (forall x, x < v -> sp_pages s3 !! x = sp_pages s !! x) /\ conserves root (p :: l) s l3 s3 /\
      exists e, sp_pages s3 !! v = Some e /\ PTE_FLAGS e = NEWFLAGS /\ zero_frame (k_mem k3) e /\ spare root (p :: l) s (frame_of e)
    else exists k4, kfree p k3 = Ok tt k4 /\ uspace k4 (p :: l3) root s3 /\ evolves root none k (p :: l) s k4 (p :: l3) s3 /\
      conserves root (p :: l) s (p :: l3) s3 /\ sp_pages s3 = sp_pages s.
Proof.
  intros Hc Hf U Sz Hv. destruct (take_page c k p l root s Hc Hf U) as (k1 & k2 & E1 & E2 & Hp & U2 & A2 & V2 & Z2).
  destruct (map_new c k p l root s k2 UPERM v Hc Hf V2 U2 A2 UPERM_ok Sz Hv) as (k3 & l3 & s3 & r & E3 & C3).
  exists k1, k2, k3, l3, s3, r. split; [done|]. split; [done|]. split; [done|]. split; [done|]. destruct (r =? 0); [|done].
  destruct C3 as (U3 & V3 & Sz3 & P3 & Ef & K3 & Hb). split; [done|]. split; [done|]. split; [done|]. split; [|split; [done|]].
  - intros x Hx. rewrite P3, lookup_insert_ne by lia. done.
  - exists (leaf_pte (V2P p) UPERM). rewrite P3, lookup_insert_eq. split; [done|]. split; [by rewrite leaf_pte_flags by apply A2|].
    unfold zero_frame. rewrite Ef. split; [|left; by left].
    intros b Hx. rewrite Hb, Z2 by done. destruct (Z.leb_spec p b), (Z.ltb_spec b (p + 4096)); try done; lia.
Qed.

Lemma evolves_weaken root (F G : Z -> Prop) k l s k' l' s' :
  (forall q, F q -> G q) -> evolves root F k l s k' l' s' -> evolves root G k l s k' l' s'.
Proof.
  intros HFG [A1 A2 A3 A4 A5]. split; try done.
  - intros b Hb. apply A4. intros q [Hq|Hq]; apply Hb; auto.
  - intros q Hq. destruct (A5 q Hq); auto.
Qed.

(** Mapped pages are not spare. *)
Lemma page_not_spare k l root s v e q b :
  uspace k l root s -> sp_pages s !! v = Some e -> spare root l s q -> frame_of e <= b < frame_of e + 4096 -> q <= b < q + 4096 -> False.
Proof.
  intros [Hh R Fr _] Ee Hq Hb Hb'. assert (obj_at root s (OPage v) = Some (frame_of e)) as Ef by (cbn; by rewrite Ee).
  destruct (rep_page _ _ _ R _ _ Ef) as [[Hfa _] _].
  assert (q mod 4096 = 0 /\ q <> frame_of e) as [Hqa Hne].
  { destruct Hq as [Hq|(o & Ht & E)].
    - split; [by apply (chain_pages _ _ _ _ (hp_chain _ _ Hh) Hq)|]. intros ->. by apply (Fr (frame_of e) (OPage v) Hq).
    - split; [by apply (rep_page _ _ _ R o q E)|]. intros ->. by rewrite (rep_inj _ _ _ R o (OPage v) _ E Ef) in Ht. }
  destruct (pages_disjoint q (frame_of e) Hqa Hfa Hne); unfold PGSIZE in *; lia.
Qed.

Lemma sized_none s n v : sized s n -> n <= v -> sp_pages s !! v = None.
Proof. intros S Hv. destruct (sp_pages s !! v) eqn:E; [|done]. assert (0 <= v < n) by (apply (sz_dom _ _ S); by eexists). lia. Qed.
Lemma sized_pages s s' n : sp_pages s' = sp_pages s -> sized s n -> sized s' n.
Proof. intros E [A B]. split; [done|by rewrite E]. Qed.

(** The loop of [uvmalloc], at page [v], with [n] pages to go. *)
Lemma uvmalloc_loop_ok c newsz n0 : forall n fuel k l root s v,
  on_cpu c k -> free LKmem k -> uspace k l root s -> sized s v -> 0 <= n0 <= v ->
  0 <= newsz <= 2 ^ 38 -> npages newsz = v + Z.of_nat n -> (n < fuel)%nat ->
  exists k' l' s' r, uvmalloc_loop fuel root (n0 * 4096) (v * 4096) newsz k = Ok r k' /\ uspace k' l' root s' /\ conserves root l s l' s' /\
    ((r = newsz /\ evolves root none k l s k' l' s' /\ sized s' (v + Z.of_nat n) /\
      (forall x, x < v -> sp_pages s' !! x = sp_pages s !! x) /\
      (forall x, v <= x < v + Z.of_nat n -> exists e, sp_pages s' !! x = Some e /\ PTE_FLAGS e = NEWFLAGS /\ zero_frame (k_mem k') e)) \/
     (r = 0 /\ evolves root (frames_in s n0 v) k l s k' l' s' /\
      forall x, sp_pages s' !! x = if (n0 <=? x) && (x <? v) then None else sp_pages s !! x)).
Proof.
  induction n as [|n IH]; intros fuel k l root s v Hc Hf U Sz Hn Hsz Hp Hfuel; (destruct fuel as [|fuel]; [lia|]);
    destruct (npages_ok newsz ltac:(lia)) as (_ & Hb & Hb'); cbn [uvmalloc_loop].
  - exists k, l, s, newsz. rewrite Hp in Hb'. destruct (Z.ltb_spec (v * 4096) newsz); [lia|]. cbn [negb]. change (Z.of_nat 0) with 0. rewrite Z.add_0_r.
    split; [done|]. split; [done|]. split; [done|]. left. split; [done|]. split; [apply evolves_refl|]. split; [done|]. split; [done|lia].
  - destruct (Z.ltb_spec (v * 4096) newsz) as [_|]; [|lia]. cbn [negb]. destruct l as [|p l].
    { rewrite (bind_Ok _ _ _ _ _ (kalloc_none c k [] Hc Hf (us_heap _ _ _ _ U) eq_refl)). cbn [Z.eqb].
      destruct (undo_ok c k [] root s n0 v Hc Hf U Hn Sz) as (r & k' & l' & s' & E & U' & V' & K' & P'). rewrite (bind_Ok _ _ _ _ _ E).
      exists k', l', s', 0. split; [done|]. split; [done|]. split; [done|]. by right. }
    destruct (add_page c k p l root s v Hc Hf U Sz ltac:(lia)) as (k1 & k2 & k3 & l3 & s3 & r & E1 & E2 & Hp0 & E3 & C).
    rewrite (bind_Ok _ _ _ _ _ E1). destruct (Z.eqb_spec p 0); [done|]. rewrite (bind_Ok _ _ _ _ _ E2).
    change (Z.lor PTE_NORMAL PTE_U) with UPERM. rewrite (bind_Ok _ _ _ _ _ E3). destruct (r =? 0) eqn:Er; cbn [negb].
    + destruct C as (U3 & V3 & Sz3 & P3 & K3 & e & Ee & Fl & Ze & Fe). unfold PGSIZE. rewrite u64_small by (unfold is_u64; lia).
      replace (v * 4096 + 4096) with ((v + 1) * 4096) by lia.
      destruct (mem_frame_cpu c k k3 (ev_frame _ _ _ _ _ _ _ _ V3) Hc Hf) as [Hc3 Hf3].
      destruct (IH fuel k3 l3 root s3 (v + 1) Hc3 Hf3 U3 Sz3) as (k' & l' & s' & r' & E' & U' & K' & D); try lia.
      exists k', l', s', r'. split; [done|]. split; [done|]. split; [by eapply conserves_trans|]. destruct D as [(-> & V' & Sz' & P' & Z')|(-> & V' & P')]; [left|right].
      * split; [done|]. split; [by eapply evolves_trans; [exact V3|exact V'|]|]. replace (v + Z.of_nat (S n)) with (v + 1 + Z.of_nat n) by lia.
        split; [done|]. split; [intros x Hx; rewrite P', P3 by lia; done|]. intros x Hx. destruct (decide (x = v)) as [->|]; [|apply Z'; lia].
        exists e. rewrite P' by lia. split; [done|]. split; [done|]. intros b Hb2. rewrite (ev_mem _ _ _ _ _ _ _ _ V'); [by apply Ze|].
        intros q [Hq|[]] Hb3. by apply (page_not_spare k3 l3 root s3 v e q b).
      * split; [done|]. split.
        -- eapply evolves_trans; [|exact V'|].
           ++ eapply evolves_weaken; [|exact V3]. by intros q [].
           ++ intros q (x & e' & Hx & Ex & ->). destruct (decide (x = v)) as [->|].
              ** left. by replace e' with e by congruence.
              ** right. exists x, e'. rewrite P3 in Ex by lia. split; [lia|done].
        -- intros x. rewrite P'. destruct (Z.leb_spec n0 x), (Z.ltb_spec x (v + 1)), (Z.ltb_spec x v); cbn; try lia; try done; try (apply P3; lia).
           ++ symmetry. by apply (sized_none s v); [|lia].
           ++ rewrite (sized_none s3 (v + 1)), (sized_none s v) by (done || lia). done.
    + destruct C as (k4 & E4 & U4 & V4 & K4 & P4). rewrite (bind_Ok _ _ _ _ _ E4).
      destruct (mem_frame_cpu c k k4 (ev_frame _ _ _ _ _ _ _ _ V4) Hc Hf) as [Hc4 Hf4].
      assert (sized s3 v) as Sz3 by by apply (sized_pages s).
      destruct (undo_ok c k4 (p :: l3) root s3 n0 v Hc4 Hf4 U4 Hn Sz3) as (r' & k' & l' & s' & E & U' & V' & K' & P'). rewrite (bind_Ok _ _ _ _ _ E).
      exists k', l', s', 0. split; [done|]. split; [done|]. split; [by eapply conserves_trans|]. right. split; [done|]. split; [|by rewrite <- P4].
      eapply evolves_trans; [eapply evolves_weaken; [|exact V4]; by intros q []|exact V'|].
      intros q (x & e' & Hx & Ex & ->). right. exists x, e'. by rewrite <- P4.
Qed.

(** What the user reads in a page that only spare pages changed around. *)
Lemma ubyte_evolves root F k l s k' l' s' va :
  uspace k l root s -> evolves root F k l s k' l' s' -> (forall q, ~ F q) -> sp_pages s' !! vpn va = sp_pages s !! vpn va ->
  ubyte (k_mem k') s' va = ubyte (k_mem k) s va.
Proof.
  intros U V HF E. unfold ubyte. rewrite E. destruct (sp_pages s !! vpn va) as [e|] eqn:Ee; [|done]. cbn. f_equal.
  apply (ev_mem _ _ _ _ _ _ _ _ V). intros q [Hq|Hq]; [|by destruct (HF q)]. pose proof (Z.mod_pos_bound va 4096 ltac:(done)).
  intros Hb. apply (page_not_spare k l root s (vpn va) e q (frame_of e + va mod 4096)); try done; lia.
Qed.

Lemma user_vpn va : 0 <= va < 2 ^ 39 -> vpn va = va / 4096.
Proof. intros Hva. unfold vpn. apply Z.mod_small. split; [apply Z.div_pos; lia|apply Z.div_lt_upper_bound; lia]. Qed.
Lemma div_page va n : va < n * 4096 <-> va / 4096 < n.
Proof. pose proof (Z.div_mod va 4096 ltac:(done)). pose proof (Z.mod_pos_bound va 4096 ltac:(done)). nia. Qed.

(** C14 [uvmalloc] grows user memory or leaves it as it was.  On a process whose pages are
    those of its old size it returns the new size, the new pages mapped for the user and
    full of zeros, or 0 when the pages run out, every page it had mapped free again; the
    old bytes are unchanged either way, the page tables stay well formed, no page is both
    free and in use, and none is lost: what was free or in the space before is so after.
    A smaller size is refused and nothing changes. *)
Theorem uvmalloc_spec c k l root s oldsz newsz :
  on_cpu c k -> free LKmem k -> uspace k l root s -> sized s (npages oldsz) -> 0 <= oldsz <= 2 ^ 38 -> 0 <= newsz <= 2 ^ 38 ->
  exists k' l' s' r, uvmalloc root oldsz newsz k = Ok r k' /\ uspace k' l' root s' /\ conserves root l s l' s' /\
    (forall v, v < npages oldsz -> sp_pages s' !! v = sp_pages s !! v) /\
    (forall va, 0 <= va < npages oldsz * 4096 -> ubyte (k_mem k') s' va = ubyte (k_mem k) s va) /\
    ((r = newsz /\ oldsz <= newsz /\ sized s' (npages newsz) /\
      forall va, npages oldsz * 4096 <= va < npages newsz * 4096 -> uacc s' va = true /\ ubyte (k_mem k') s' va = Some 0) \/
     (r = 0 /\ sized s' (npages oldsz)) \/
     (r = oldsz /\ newsz < oldsz /\ k' = k /\ s' = s)).
Proof.
  intros Hc Hf U Sz Ho Hn. unfold uvmalloc. destruct (Z.ltb_spec newsz oldsz) as [Hlt|Hge].
  { exists k, l, s, oldsz. split; [done|]. split; [done|]. split; [done|]. split; [done|]. split; [done|]. by right; right. }
  destruct (npages_ok oldsz Ho) as (Eo & Bo & Co), (npages_ok newsz Hn) as (En & Bn & Cn). rewrite Eo.
  set (n := Z.to_nat (npages newsz - npages oldsz)).
  destruct (uvmalloc_loop_ok c newsz (npages oldsz) n (S (Z.to_nat ((newsz - npages oldsz * 4096) / PGSIZE + 1))) k l root s (npages oldsz) Hc Hf U Sz)
    as (k' & l' & s' & r & E & U' & K' & D); try (unfold n; lia).
  { unfold PGSIZE, n. pose proof (Z.div_mod (newsz - npages oldsz * 4096) 4096 ltac:(done)).
    pose proof (Z.mod_pos_bound (newsz - npages oldsz * 4096) 4096 ltac:(done)). lia. }
  replace (npages oldsz + Z.of_nat n) with (npages newsz) in D by (unfold n; lia).
  exists k', l', s', r. split; [done|]. split; [done|]. split; [done|].
  destruct D as [(-> & V & Sz' & P & Z')|(-> & V & P)]; (split; [|split]).
  - exact P.
  - intros va Hva. apply (ubyte_evolves root none k l s k' l' s' va U V); [by intros q []|]. rewrite user_vpn by lia.
    apply P. apply div_page. lia.
  - left. split; [done|]. split; [done|]. split; [done|]. intros va Hva. unfold ubyte, uacc. rewrite user_vpn by lia.
    destruct (Z' (va / 4096)) as (e & -> & Fl & Ze). { split; [|by apply div_page; lia]. apply Z.div_le_lower_bound; lia. }
    split; [by apply flags_user|]. cbn. f_equal. apply Ze. pose proof (Z.mod_pos_bound va 4096 ltac:(done)). lia.
  - intros v Hv. rewrite P. destruct (Z.leb_spec (npages oldsz) v); [lia|done].
  - intros va Hva. eapply (ubyte_evolves root _ k l s k' l' s' va U V); [intros q (x & e & Hx & _); lia|]. rewrite P.
    destruct (Z.leb_spec (npages oldsz) (vpn va)), (Z.ltb_spec (vpn va) (npages oldsz)); try done; lia.
  - right. left. split; [done|]. apply (sized_pages s); [|done]. apply map_eq. intros x. rewrite P.
    destruct (Z.leb_spec (npages oldsz) x), (Z.ltb_spec x (npages oldsz)); try done; lia.
Qed.

(** * Copies *)

(** The frame of a user address: none where the user may not go. *)
Lemma uacc_some s va : uacc s va = true -> exists e, sp_pages s !! vpn va = Some e /\ has e PTE_U = true.
Proof. unfold uacc. destruct (sp_pages s !! vpn va) as [e|]; [|done]. cbn. intros E. by exists e. Qed.

Lemma uacc_lt s n va : sized s n -> 0 <= va < 2 ^ 39 -> uacc s va = true -> va < n * 4096 /\ va / 4096 < n.
Proof. intros Sz Hva (e & Ee & _)%uacc_some. rewrite user_vpn in Ee by done. rewrite div_page. assert (0 <= va / 4096 < n) by (apply (sz_dom _ _ Sz); by eexists). lia. Qed.

Lemma uva2ka_ok k l root s va :
  uspace k l root s -> 0 <= va < 2 ^ 39 ->
  uva2ka root va k = Ok (if uacc s va then from_option frame_of 0 (sp_pages s !! vpn va) else 0) k /\
  forall e, sp_pages s !! vpn va = Some e -> frame_of e <> 0 /\ in_ram (k_mem k) (frame_of e) 4096 = true.
Proof.
  intros [Hh R Fr En] Hva. unfold uva2ka, uacc. rewrite (bind_Ok _ _ _ _ _ (walkaddr_ok k root s R va)).
  destruct (Z.geb_spec va MAXVA) as [Hge|_]; [change MAXVA with (2 ^ 64 - 2 ^ 38) in Hge; lia|].
  destruct (sp_pages s !! vpn va) as [e|] eqn:Ee; [|done]. cbn [from_option].
  destruct (rep_page _ _ _ R (OPage (vpn va)) (frame_of e)) as [Hk Hr]; [cbn; by rewrite Ee|]. destruct (kpage_u64 _ Hk) as (_ & _ & Hpos).
  split; [|intros ? [= <-]; split; [lia|done]]. destruct (has e PTE_U); [|done].
  destruct (Z.eqb_spec (PTE2PA e) 0) as [E0|]; [|done]. exfalso. destruct Hk as [_ Hk]. unfold frame_of in Hk. rewrite E0 in Hk. by destruct Hk.
Qed.

Definition ubytes (m : memory) (s : space) (va : Z) (n : nat) : list Z :=
  map (fun i => default 0 (ubyte m s (va + Z.of_nat i))) (seq 0 n).

Lemma ubytes_app m s va a b : ubytes m s va (a + b) = ubytes m s va a ++ ubytes m s (va + Z.of_nat a) b.
Proof.
  unfold ubytes. rewrite seq_app, map_app. f_equal. replace (0 + a)%nat with (a + 0)%nat by lia. rewrite <- fmap_add_seq.
  change (fmap ?f ?l) with (map f l). rewrite map_map. apply map_ext. intros i. do 2 f_equal. lia.
Qed.
Lemma ubytes_none m s va z : z <= 0 -> ubytes m s va (Z.to_nat z) = [].
Proof. intros Hz. by replace (Z.to_nat z) with 0%nat by lia. Qed.

Lemma ubyte_in_page m s va e i : 0 <= va -> va + i < 2 ^ 39 -> sp_pages s !! vpn va = Some e -> 0 <= i -> va mod 4096 + i < 4096 ->
  ubyte m s (va + i) = Some (peek m (frame_of e + va mod 4096 + i)).
Proof.
  intros Hva Hlt Ee Hi Hp. unfold ubyte. pose proof (Z.div_mod va 4096 ltac:(done)) as D. pose proof (Z.mod_pos_bound va 4096 ltac:(done)).
  assert ((va + i) / 4096 = va / 4096 /\ (va + i) mod 4096 = va mod 4096 + i) as [E1 E2].
  { apply (Z.div_mod_unique 4096); [left|left|]; [by apply Z.mod_pos_bound|lia|]. pose proof (Z.div_mod (va + i) 4096 ltac:(done)). lia. }
  rewrite user_vpn in Ee |- * by lia. rewrite E1, Ee, E2. cbn. do 2 f_equal. lia.
Qed.

Lemma ubytes_page m s va e c : 0 <= va -> va + Z.of_nat c <= 2 ^ 39 -> sp_pages s !! vpn va = Some e -> va mod 4096 + Z.of_nat c <= 4096 ->
  ubytes m s va c = ram_bytes m (frame_of e + va mod 4096) c.
Proof.
  intros Hva Hlt Ee Hp. unfold ubytes, ram_bytes. apply map_ext_in. intros i Hi%in_seq.
  by rewrite (ubyte_in_page m s va e (Z.of_nat i)) by (done || lia).
Qed.

(** The address of the page, and how much of it is wanted. *)
Lemma page_part va len : 0 <= va < 2 ^ 39 -> 0 < len ->
  PGROUNDDOWN va = va - va mod 4096 /\ in_page va len = Z.min len (4096 - va mod 4096) /\ vpn (PGROUNDDOWN va) = vpn va /\
  0 <= PGROUNDDOWN va < 2 ^ 39 /\ u64 (PGROUNDDOWN va + PGSIZE) = va + (4096 - va mod 4096).
Proof.
  intros Hva Hl. pose proof (Z.mod_pos_bound va 4096 ltac:(done)). pose proof (Z.div_mod va 4096 ltac:(done)) as D.
  assert (PGROUNDDOWN va = va - va mod 4096) as E by (rewrite pgrounddown by (unfold is_u64; lia); done).
  rewrite !E. split; [done|]. split.
  - unfold in_page. rewrite E. unfold PGSIZE. destruct (Z.gtb_spec (4096 - (va - (va - va mod 4096))) len); lia.
  - split; [|split; [lia|unfold PGSIZE; rewrite u64_small by (unfold is_u64; lia); lia]]. rewrite !user_vpn by lia.
    replace (va - va mod 4096) with (va / 4096 * 4096) by lia. by apply Z.div_mul.
Qed.

(** The user may access all of a page or nothing of it. *)
Lemma reach_page s n va len a : sized s n -> 0 <= va < 2 ^ 39 -> 0 < len -> reach s va len a ->
  let c := Z.min len (4096 - va mod 4096) in let va' := va + (4096 - va mod 4096) in
  if uacc s va then c <= a /\ reach s va' (len - c) (a - c) /\ va' < 2 ^ 39 else a = 0.
Proof.
  intros Sz Hva Hl (A & B & C) c va'. pose proof (Z.mod_pos_bound va 4096 ltac:(done)) as Hm. pose proof (Z.div_mod va 4096 ltac:(done)) as D.
  destruct (uacc s va) eqn:Eu.
  - destruct (uacc_lt s n va Sz Hva Eu) as [_ Hlt]. pose proof (sz_range _ _ Sz) as Hn.
    assert (forall x, va <= x < va + c -> uacc s x = true) as Hc.
    { intros x Hx. rewrite <- Eu. unfold uacc. do 2 f_equal. rewrite !user_vpn by (unfold c in Hx; lia). symmetry.
      apply (Z.div_unique_pos _ _ _ (va mod 4096 + (x - va))); unfold c in Hx; lia. }
    assert (c <= a) as Hca. { destruct (Z.le_gt_cases c a); [done|]. rewrite Hc in C by lia. discriminate C. unfold c in *. lia. }
    split; [done|]. split; [|unfold va'; lia]. destruct (decide (len <= 4096 - va mod 4096)).
    + replace (a - c) with 0 by (unfold c in *; lia). replace (len - c) with 0 by (unfold c; lia). split; [lia|]. split; [intros x Hx; lia|lia].
    + assert (va' = va + c) as -> by (unfold va', c; lia). split; [unfold c in *; lia|]. split; [intros x Hx; apply B; lia|].
      intros Hlt'. replace (va + c + (a - c)) with (va + a) by lia. apply C. lia.
  - destruct (decide (a = 0)); [done|]. rewrite B in Eu by lia. discriminate Eu.
Qed.

Lemma copyin_loop_ok l root s n k : uspace k l root s -> sized s n -> forall fuel va len got a,
  len <= Z.of_nat fuel -> 0 <= len -> 0 <= va -> (0 < len -> va < 2 ^ 39) -> reach s va len a ->
  copyin_loop fuel root va len got k = Ok (if len <=? a then 0 else -1, got ++ ubytes (k_mem k) s va (Z.to_nat a)) k.
Proof.
  intros U Sz. induction fuel as [|fuel IH]; intros va len got a Hf Hl0 Hva Hlt Hr; cbn [copyin_loop]; destruct (Z.leb_spec len 0) as [Hl|Hl].
  1, 3: destruct Hr as (Ha & _ & _); rewrite ubytes_none, app_nil_r by lia; by destruct (Z.leb_spec len a); [|lia].
  - lia.
  - destruct (page_part va len ltac:(lia) Hl) as (E1 & E2 & E3 & E4 & E5).
    destruct (uva2ka_ok k l root s (PGROUNDDOWN va) U E4) as (Ek & Hf'). rewrite (bind_Ok _ _ _ _ _ Ek).
    assert (uacc s (PGROUNDDOWN va) = uacc s va) as -> by (unfold uacc; by rewrite E3). rewrite E3 in *.
    pose proof (Z.mod_pos_bound va 4096 ltac:(done)) as Hmod. pose proof (Z.div_mod va 4096 ltac:(done)) as D.
    pose proof (reach_page s n va len a Sz ltac:(lia) Hl Hr) as Hp. cbv zeta in Hp. destruct (uacc s va) eqn:Eu.
    + destruct (uacc_some s va Eu) as (e & Ee & _). rewrite Ee in *. cbn [from_option]. destruct (Hf' e eq_refl) as [Hne Hram].
      destruct (Z.eqb_spec (frame_of e) 0) as [|_]; [done|]. rewrite E2, E5. set (c := Z.min len (4096 - va mod 4096)) in *. destruct Hp as (Hca & Hr' & Hlt').
      assert (on_mem (load_bytes (Z.to_nat c) (u64 (frame_of e + (va - PGROUNDDOWN va)))) k = Ok (ubytes (k_mem k) s va (Z.to_nat c)) k) as El.
      { rewrite E1. replace (va - (va - va mod 4096)) with (va mod 4096) by lia.
        destruct U as [Hh R _ _]. destruct (rep_page _ _ _ R (OPage (vpn va)) (frame_of e)) as [Hk _]; [cbn; by rewrite Ee|].
        destruct (kpage_u64 _ Hk) as (Hu & Hu' & _). rewrite u64_small by (unfold is_u64 in *; lia).
        rewrite (ubytes_page _ s va e) by (done || lia). unfold on_mem, zoom. rewrite load_bytes_ok; [by destruct k|apply R|].
        apply (in_ram_sub _ (frame_of e) 4096); [done|lia..]. }
      rewrite (bind_Ok _ _ _ _ _ El). rewrite (IH _ _ _ (a - c)) by (done || lia). do 2 f_equal.
      * destruct (Z.leb_spec (len - c) (a - c)), (Z.leb_spec len a); try done; lia.
      * rewrite <- (assoc_L (++)). f_equal. replace (Z.to_nat a) with (Z.to_nat c + Z.to_nat (a - c))%nat by lia. rewrite ubytes_app. f_equal.
        destruct Hr as (Ha & _). destruct (decide (len <= 4096 - va mod 4096)); [by rewrite !ubytes_none by lia|]. f_equal. lia.
    + cbn [Z.eqb]. subst a. rewrite ubytes_none, app_nil_r by lia. by destruct (Z.leb_spec len 0); [lia|].
Qed.

(** Only pages of the user have changed. *)
Definition user_only (s : space) (m m' : memory) : Prop :=
  ram_lo m' = ram_lo m /\ ram_hi m' = ram_hi m /\ forall b, (forall v e, sp_pages s !! v = Some e -> ~ (frame_of e <= b < frame_of e + 4096)) -> peek m' b = peek m b.

(** Bytes written to one page of the user. *)
Lemma write_page k l root s va e bs :
  uspace k l root s -> sp_pages s !! vpn va = Some e -> 0 <= va < 2 ^ 39 -> va mod 4096 + Z.of_nat (length bs) <= 4096 ->
  exists m', on_mem (store_bytes (u64 (frame_of e + va mod 4096)) bs) k = Ok tt (set_k_mem m' k) /\
    uspace (set_k_mem m' k) l root s /\ user_only s (k_mem k) m' /\
    forall x, 0 <= x < 2 ^ 39 -> ubyte m' s x =
      if (va <=? x) && (x <? va + Z.of_nat (length bs)) then Some (u8 (nth (Z.to_nat (x - va)) bs 0)) else ubyte (k_mem k) s x.
Proof.
  intros U Ee Hva Hlen. pose proof (Z.mod_pos_bound va 4096 ltac:(done)) as Hmod. pose proof (Z.div_mod va 4096 ltac:(done)) as D.
  pose proof U as [Hh R Fr En]. assert (obj_at root s (OPage (vpn va)) = Some (frame_of e)) as Ef by (cbn; by rewrite Ee).
  destruct (rep_page _ _ _ R _ _ Ef) as [Hk Hr]. destruct (kpage_u64 _ Hk) as (Hu & Hu' & _). set (f := frame_of e) in *.
  rewrite u64_small by (unfold is_u64 in *; lia).
  destruct (store_bytes_ok bs (f + va mod 4096) (k_mem k) (rep_ram _ _ _ R)) as (m' & E & B1 & B2 & P).
  { apply (in_ram_sub _ f 4096); [done|lia..]. }
  exists m'. split; [unfold on_mem, zoom; by rewrite E|].
  assert (forall b, ~ (f <= b < f + 4096) -> peek m' b = peek (k_mem k) b) as Hsame.
  { intros b Hb. rewrite P. destruct (Z.leb_spec (f + va mod 4096) b), (Z.ltb_spec b (f + va mod 4096 + Z.of_nat (length bs))); try done; lia. }
  split; [|split].
  - split; [|  |done|done].
    + destruct Hh as [C1 C2 C3]. split; [unfold Lib.ram_ok in *; cbn; by rewrite B1, B2| |done].
      apply (chain_write (k_mem k) m' (k_freelist k) l f); try done; [apply Hk|]. intros Hin. by apply (Fr f (OPage (vpn va))).
    + apply (rep_frame (k_mem k)); try done. intros o q b Ht Eo Hb. apply Hsame. intros Hb'.
      assert (q <> f) as Hne by (intros ->; by rewrite (rep_inj _ _ _ R o (OPage (vpn va)) f Eo Ef) in Ht).
      destruct (rep_page _ _ _ R o q Eo) as [[Hq _] _], Hk as [Hfa _]. destruct (pages_disjoint q f Hq Hfa Hne); unfold PGSIZE in *; lia.
  - split; [done|]. split; [done|]. intros b Hb. apply Hsame. by apply (Hb (vpn va) e).
  - intros x Hx. pose proof (Z.mod_pos_bound x 4096 ltac:(done)) as Hmx. pose proof (Z.div_mod x 4096 ltac:(done)) as Dx.
    rewrite user_vpn in Ee, Ef by lia. unfold ubyte. rewrite user_vpn by lia. destruct (decide (x / 4096 = va / 4096)) as [Eq|Hne].
    + rewrite Eq, Ee. cbn. rewrite P. fold f. destruct (Z.leb_spec va x), (Z.ltb_spec x (va + Z.of_nat (length bs))),
        (Z.leb_spec (f + va mod 4096) (f + x mod 4096)), (Z.ltb_spec (f + x mod 4096) (f + va mod 4096 + Z.of_nat (length bs))); cbn; try lia; try done.
      do 4 f_equal. lia.
    + destruct (Z.leb_spec va x), (Z.ltb_spec x (va + Z.of_nat (length bs))); cbn [andb];
        [exfalso; apply Hne; symmetry; apply (Z.div_unique_pos _ _ _ (va mod 4096 + (x - va))); lia| | |];
        (destruct (sp_pages s !! (x / 4096)) as [e'|] eqn:Ex; [|done]; cbn; f_equal; apply Hsame; fold f; intros Hb;
         assert (frame_of e' <> f) as Hf' by (intros E'; apply Hne; pose proof (rep_inj _ _ _ R (OPage (x / 4096)) (OPage (va / 4096)) f ltac:(cbn; by rewrite Ex, <- E') Ef) as [=]; lia);
         destruct (rep_page _ _ _ R (OPage (x / 4096)) (frame_of e') ltac:(cbn; by rewrite Ex)) as [[Hq _] _], Hk as [Hfa _];
         destruct (pages_disjoint (frame_of e') f Hq Hfa Hf'); unfold PGSIZE in *; lia).
Qed.

(** [bs] written over what the user reads from [va] on, as far as it goes. *)
Definition overwrite (old : Z -> option Z) (va cnt : Z) (bs : list Z) (x : Z) : option Z :=
  if (va <=? x) && (x <? va + cnt) then Some (u8 (nth (Z.to_nat (x - va)) bs 0)) else old x.

Lemma user_only_trans s m1 m2 m3 : user_only s m1 m2 -> user_only s m2 m3 -> user_only s m1 m3.
Proof. intros (A1 & A2 & A) (B1 & B2 & B). split; [congruence|]. split; [congruence|]. intros b Hb. rewrite B by done. by apply A. Qed.

Lemma overwrite_nothing old va cnt bs x : cnt <= 0 -> overwrite old va cnt bs x = old x.
Proof. intros Hc. unfold overwrite. destruct (Z.leb_spec va x), (Z.ltb_spec x (va + cnt)); try done; lia. Qed.

(** The bytes of one page, and then the rest. *)
Lemma overwrite_split old mid va va' c a a' bs x :
  0 < c -> c <= Z.of_nat (length bs) -> a = c + a' -> 0 <= a' -> (0 < a' -> va' = va + c) ->
  mid x = (if (va <=? x) && (x <? va + c) then Some (u8 (nth (Z.to_nat (x - va)) (take (Z.to_nat c) bs) 0)) else old x) ->
  overwrite mid va' a' (skipn (Z.to_nat c) bs) x = overwrite old va a bs x.
Proof.
  intros Hc Hcl Ha Ha0 Ha' Hm. unfold overwrite. rewrite Hm.
  destruct (Z.leb_spec va' x), (Z.ltb_spec x (va' + a')), (Z.leb_spec va x), (Z.ltb_spec x (va + c)), (Z.ltb_spec x (va + a));
    cbn [andb]; try lia; try done; do 2 f_equal.
  1: rewrite nth_skipn; f_equal; lia.
  all: rewrite nth_firstn; destruct (Nat.ltb_spec (Z.to_nat (x - va)) (Z.to_nat c)); [done|lia].
Qed.

Lemma copyout_loop_ok l root s n : sized s n -> forall fuel va src k a, uspace k l root s ->
  (length src <= fuel)%nat -> 0 <= va -> (src <> [] -> va < 2 ^ 39) -> reach s va (Z.of_nat (length src)) a ->
  exists m', copyout_loop fuel root va src k = Ok (if Z.of_nat (length src) <=? a then 0 else -1) (set_k_mem m' k) /\
    uspace (set_k_mem m' k) l root s /\ user_only s (k_mem k) m' /\
    forall x, 0 <= x < 2 ^ 39 -> ubyte m' s x = overwrite (ubyte (k_mem k) s) va a src x.
Proof.
  intros Sz.
  assert (forall va src (r : Z) k a, uspace k l root s -> a = 0 -> exists m', Ok r k = Ok r (set_k_mem m' k) /\
    uspace (set_k_mem m' k) l root s /\ user_only s (k_mem k) m' /\
    forall x, 0 <= x < 2 ^ 39 -> ubyte m' s x = overwrite (ubyte (k_mem k) s) va a src x) as Hstay.
  { intros va src r k a U ->. exists (k_mem k). replace (set_k_mem (k_mem k) k) with k by by destruct k. split; [done|]. split; [done|].
    split; [by repeat split|]. intros x Hx. by rewrite overwrite_nothing by lia. }
  induction fuel as [|fuel IH]; intros va src k a U Hf Hva Hlt Hr;
    (destruct src as [|b0 src0]; [destruct Hr as (Ha & _); cbn [length] in *; replace a with 0 in * by lia; by apply Hstay|]); [cbn in Hf; lia|].
  set (src := b0 :: src0) in *. set (len := Z.of_nat (length src)) in *. assert (0 < len) as Hl by (unfold len; cbn; lia). specialize (Hlt ltac:(done)).
  change (copyout_loop (S fuel) root va src k) with ((let! pa0 := uva2ka root (PGROUNDDOWN va) in if pa0 =? 0 then ret (-1) else
      let n := Z.to_nat (in_page va len) in on_mem (store_bytes (u64 (pa0 + (va - PGROUNDDOWN va))) (take n src)) ;;
      copyout_loop fuel root (u64 (PGROUNDDOWN va + PGSIZE)) (skipn n src)) k).
  destruct (page_part va len ltac:(lia) Hl) as (E1 & E2 & E3 & E4 & E5).
  destruct (uva2ka_ok k l root s (PGROUNDDOWN va) U E4) as (Ek & Hf'). rewrite (bind_Ok _ _ _ _ _ Ek).
  assert (uacc s (PGROUNDDOWN va) = uacc s va) as -> by (unfold uacc; by rewrite E3). rewrite E3 in *.
  pose proof (Z.mod_pos_bound va 4096 ltac:(done)) as Hmod. pose proof (Z.div_mod va 4096 ltac:(done)) as D.
  pose proof (reach_page s n va len a Sz ltac:(lia) Hl Hr) as Hp. cbv zeta in Hp. destruct (uacc s va) eqn:Eu.
  - destruct (uacc_some s va Eu) as (e & Ee & _). rewrite Ee in *. cbn [from_option]. destruct (Hf' e eq_refl) as [Hne Hram].
    destruct (Z.eqb_spec (frame_of e) 0) as [|_]; [done|]. cbv zeta. rewrite E2, E5. set (c := Z.min len (4096 - va mod 4096)) in *. destruct Hp as (Hca & Hr' & Hlt').
    rewrite E1. replace (va - (va - va mod 4096)) with (va mod 4096) by lia. assert (c <= len) as Hcl by (unfold c; lia). assert (0 < c) as Hc0 by (unfold c; lia).
    assert (length (take (Z.to_nat c) src) = Z.to_nat c) as Ht by (rewrite length_take; unfold len in *; lia).
    destruct (write_page k l root s va e (take (Z.to_nat c) src) U Ee ltac:(lia) ltac:(rewrite Ht; unfold c; lia)) as (m1 & E & U1 & O1 & B1).
    rewrite (bind_Ok _ _ _ _ _ E). rewrite Ht, Z2Nat.id in B1 by lia. set (va' := va + (4096 - va mod 4096)) in *.
    assert (Z.of_nat (length (skipn (Z.to_nat c) src)) = len - c) as Hs by (rewrite length_skipn; unfold len; lia).
    destruct (IH va' (skipn (Z.to_nat c) src) (set_k_mem m1 k) (a - c) U1) as (m2 & E' & U2 & O2 & B2);
      [unfold len, c in *; lia|unfold va'; lia|done|by rewrite Hs|].
    exists m2. rewrite Hs in E'. split; [|split; [done|split; [by eapply user_only_trans|]]].
    + rewrite E'. f_equal. destruct (Z.leb_spec (len - c) (a - c)), (Z.leb_spec len a); try done; lia.
    + intros x Hx. rewrite B2 by done. cbn [k_mem set_k_mem]. destruct Hr as (Ha & _).
      apply overwrite_split; [done|done|lia|lia| |by apply B1]. unfold va', c in *. lia.
  - cbn [Z.eqb]. destruct (Z.leb_spec len a); [lia|]. by apply Hstay.
Qed.

(** [copyin] returns the bytes that the user sees at an address, up to the first that the
    user may not access - on a guard page, or beyond the end of memory: all of them with 0,
    or with -1 those before it.  It changes nothing and it ends, whatever the length. *)
Theorem copyin_spec k l root s n va len :
  uspace k l root s -> sized s n -> 0 <= va < 2 ^ 39 -> 0 <= len ->
  copyin root va len k = Ok (if len <=? avail s va len then 0 else -1, ubytes (k_mem k) s va (Z.to_nat (avail s va len))) k.
Proof. intros U Sz Hva Hlen. unfold copyin. by rewrite (copyin_loop_ok l root s n k U Sz _ va len [] (avail s va len)) by (try apply avail_reach; lia). Qed.

Lemma ubytes_overwritten m m' s va n bs : bytes bs -> 0 <= va -> Z.of_nat n <= Z.of_nat (length bs) -> va + Z.of_nat n <= 2 ^ 39 ->
  (forall x, 0 <= x < 2 ^ 39 -> ubyte m' s x = overwrite (ubyte m s) va (Z.of_nat n) bs x) -> ubytes m' s va n = take n bs.
Proof.
  intros Hb Hva Hn Hlt E. apply (nth_ext _ _ 0 0); [unfold ubytes; rewrite length_map, length_seq, length_take; lia|]. unfold ubytes.
  rewrite length_map, length_seq. intros i Hi. rewrite (nth_indep _ 0 (default 0 (ubyte m' s (va + Z.of_nat 0)))) by by rewrite length_map, length_seq.
  rewrite (map_nth (fun i => default 0 (ubyte m' s (va + Z.of_nat i))) (seq 0 n) 0%nat i), seq_nth by done. cbn [Nat.add].
  rewrite E by lia. unfold overwrite. destruct (Z.leb_spec va (va + Z.of_nat i)), (Z.ltb_spec (va + Z.of_nat i) (va + Z.of_nat n)); try lia.
  cbn. replace (Z.to_nat (va + Z.of_nat i - va)) with i by lia. rewrite nth_firstn. destruct (Nat.ltb_spec i n); [|lia].
  apply u8_small. unfold bytes in Hb. rewrite List.Forall_forall in Hb. apply Hb, nth_In. lia.
Qed.

Lemma reach_end s n va len a : sized s n -> 0 <= va < 2 ^ 39 -> reach s va len a -> va + a <= 2 ^ 39.
Proof.
  intros Sz Hva (A & B & _). pose proof (sz_range _ _ Sz) as Hn. destruct (Z.le_gt_cases (va + a) (2 ^ 39)) as [|Hgt]; [done|]. exfalso.
  destruct (uacc_lt s n (2 ^ 39 - 1) Sz ltac:(lia)); [apply B|]; lia.
Qed.

(** C22 What [copyout] writes, [copyin] reads back.  When the user may access all the bytes at the
    address, [copyout] returns 0 and [copyin] then returns exactly them; when some lie on a
    guard page or beyond the end of memory, both return -1, and [copyout] has written, and
    [copyin] read back, those before the first such byte.  The user sees everything else as
    before, nothing but pages of the user changes, and the page tables stay well formed. *)
Theorem copyout_copyin_roundtrip k l root s n va data :
  uspace k l root s -> sized s n -> 0 <= va < 2 ^ 39 -> bytes data ->
  let len := Z.of_nat (length data) in let a := avail s va len in
  exists m', let k' := set_k_mem m' k in
    copyout root va data k = Ok (if len <=? a then 0 else -1) k' /\ uspace k' l root s /\ user_only s (k_mem k) m' /\
    reach s va len a /\ copyin root va len k' = Ok (if len <=? a then 0 else -1, take (Z.to_nat a) data) k' /\
    forall x, 0 <= x < 2 ^ 39 -> ubyte m' s x = overwrite (ubyte (k_mem k) s) va a data x.
Proof.
  intros U Sz Hva Hb len a. assert (reach s va len a) as Hr by (apply avail_reach; lia).
  destruct (copyout_loop_ok l root s n Sz (length data) va data k a U) as (m' & E & U' & O & B); [done|lia|lia|done|].
  exists m'. cbv zeta. split; [exact E|]. split; [done|]. split; [done|]. split; [done|]. split; [|exact B]. unfold copyin.
  rewrite (copyin_loop_ok l root s n _ U' Sz _ va len [] a) by (done || lia). cbn [app k_mem set_k_mem]. do 2 f_equal.
  pose proof (reach_end s n va len a Sz Hva Hr). destruct Hr as (Ha & _).
  apply (ubytes_overwritten (k_mem k)); [done|lia|unfold len in *; lia|lia|]. intros x Hx. rewrite Z2Nat.id by lia. by apply B.
Qed.

(** * A guard page *)

(** The space with the entry of page [v] changed to [e]. *)
Definition entry_at (s : space) (v e : Z) : space := mkSpace (sp_mid s) (sp_leaf s) (<[v := e]> (sp_pages s)).

Lemma rep_entry m m' root s va t e e' :
  rep m root s -> sp_leaf s !! (vpn va / 512) = Some t -> sp_pages s !! vpn va = Some e -> frame_of e' = frame_of e -> pte_good e' ->
  ram_lo m' = ram_lo m -> ram_hi m' = ram_hi m -> rd 8 m' (t + 8 * PX 3 va) = e' ->
  (forall b, ~ (t + 8 * PX 3 va <= b < t + 8 * PX 3 va + 8) -> peek m' b = peek m b) ->
  rep m' root (entry_at s (vpn va) e') /\ forall o, obj_at root (entry_at s (vpn va) e') o = obj_at root s o.
Proof.
  intros R Et Ee Ef Hg B1 B2 Erd Hsame. pose proof R as [R1 R2 R3 R4 R5 R6 R7 R8].
  assert (forall o, obj_at root (entry_at s (vpn va) e') o = obj_at root s o) as Eo.
  { intros [|x|x|x]; try done. cbn. destruct (decide (x = vpn va)) as [->|]; [|by rewrite lookup_insert_ne].
    rewrite lookup_insert_eq, Ee. cbn. by rewrite Ef. }
  split; [split|done]; try done.
  - unfold Lib.ram_ok. by rewrite B1, B2.
  - intros o p E. rewrite Eo in E. unfold in_ram. rewrite B1, B2. by apply (R2 o).
  - intros o o' p E E'. rewrite Eo in E, E'. by apply (R3 o o' p).
  - intros o p i Ht E Hi. rewrite Eo in E. destruct (decide ((o, i) = (OLeaf (vpn va / 512), PX 3 va))) as [Ei|Hne].
    + injection Ei as -> ->. cbn in E |- *. rewrite Et in E. injection E as <-. by rewrite page_index, lookup_insert_eq.
    + rewrite (other_entries m m' root s (OLeaf (vpn va / 512)) t (PX 3 va) R Et (PX_range _ _) (fun _ _ b _ _ _ Hb => Hsame b Hb) o p i Ht E Hi Hne).
      rewrite (R4 o p i) by done. destruct o as [|x|x|x]; try done. cbn. rewrite lookup_insert_ne; [done|]. intros Ev. apply Hne.
      pose proof (page_index va). pose proof (PX_range 3 va). assert (x = vpn va / 512) as -> by lia. f_equal. lia.
  - intros v Hv. apply R7. cbn in Hv. apply lookup_insert_is_Some in Hv as [<-|[_ ?]]; [by eexists|done].
  - intros v e0 Ev. cbn in Ev. apply lookup_insert_Some in Ev as [[_ <-]|[_ Ev]]; [done|by apply (R8 v)].
Qed.

(** An entry without [PTE_U]: the same page, closed to the user. *)
Definition closed (e : Z) : Z := Z.land e (notw 64 PTE_U).
Lemma closed_ok e : pte_good e -> frame_of (closed e) = frame_of e /\ pte_good (closed e) /\ has (closed e) PTE_U = false.
Proof.
  intros (Hu & Ha & Hv). unfold closed, frame_of, PTE2PA, pte_good, has in *.
  assert (forall x, Z.land (notw 64 PTE_U) x = x -> Z.land (Z.land e (notw 64 PTE_U)) x = Z.land e x) as E by (intros x Ex; by rewrite <- Z.land_assoc, Ex).
  rewrite !E by by vm_compute. split; [done|]. split; [|by rewrite <- Z.land_assoc; rewrite Z.land_0_r].
  split; [|done]. by apply (land_bound_l 64).
Qed.

(** [uvmclear] closes a page to the user and does nothing else. *)
Lemma uvmclear_ok k l root s n v e :
  uspace k l root s -> sized s n -> sp_pages s !! v = Some e ->
  exists m', uvmclear root (v * 4096) k = Ok tt (set_k_mem m' k) /\ uspace (set_k_mem m' k) l root (entry_at s v (closed e)) /\
    sized (entry_at s v (closed e)) n /\ forall x, ubyte m' (entry_at s v (closed e)) x = ubyte (k_mem k) s x.
Proof.
  intros [Hh R Fr En] Sz Ee. pose proof (sz_range _ _ Sz) as Hn. assert (0 <= v < n) as Hv by (apply (sz_dom _ _ Sz); by eexists).
  destruct (rep_pages _ _ _ R v ltac:(by eexists)) as [t Et]. destruct (closed_ok e) as (Ef & Hg & _); [by apply (rep_pte _ _ _ R v)|].
  rewrite <- (vpn_page v) in Et, Ee by lia. set (va := v * 4096) in *. replace v with (vpn va) by (apply vpn_page; lia).
  destruct (walk_pte k root s R va t ltac:(apply page_lt_max; lia) Et) as [E1 E2]. rewrite Ee in E2.
  set (a := t + 8 * PX 3 va) in *. destruct (rep_page _ _ _ R (OLeaf (vpn va / 512)) t Et) as [[Hta _] Htr]. pose proof (PX_range 3 va) as Hi.
  assert (in_ram (k_mem k) a 8 = true) as Ha by (apply (in_ram_sub _ t 4096); [done|unfold a; lia..]).
  set (m' := wr 8 a (closed e) (k_mem k)). destruct (wr_bounds 8 a (closed e) (k_mem k)) as [W1 W2]. fold m' in W1, W2.
  assert (forall b, ~ (a <= b < a + 8) -> peek m' b = peek (k_mem k) b) as Hs by (intros b Hb; apply peek_wr_other; lia).
  destruct (rep_entry (k_mem k) m' root s va t e (closed e) R Et Ee Ef Hg W1 W2) as [R' Eo]; [|done|].
  { unfold m', a. rewrite rd_wr_same. apply Z.mod_small. apply Hg. }
  exists m'. split; [|split; [split|split]].
  - unfold uvmclear. rewrite (bind_Ok _ _ _ _ _ E1), (bind_Ok _ _ _ _ _ E2). by apply store64_ok.
  - destruct Hh as [B1 B2 B3]. split; cbn; [unfold Lib.ram_ok in *; by rewrite W1, W2| |done]. apply (chain_ext (k_mem k)); try done.
    intros p Hp. pose proof (chain_pages _ _ _ _ B2 Hp) as [Hpa _]. assert (p <> t) as Hne by (intros ->; by apply (Fr t (OLeaf (vpn va / 512)))).
    destruct (pages_disjoint p t Hpa Hta Hne); unfold PGSIZE in *; apply rd_ext; intros b Hb; apply Hs; unfold a; lia.
  - done.
  - intros p o Hp. rewrite Eo. by apply (Fr p o).
  - intros o p. rewrite Eo. by apply (En o).
  - split; [done|]. intros x. cbn. rewrite lookup_insert_is_Some, <- (sz_dom _ _ Sz). split; [intros [<-|[_ ?]]; [by eexists|done]|].
    intros ?. destruct (decide (vpn va = x)); auto.
  - intros x. unfold ubyte. pose proof (Z.mod_pos_bound x 4096 ltac:(done)) as Hx.
    assert (forall e', obj_at root s (OPage (vpn x)) = Some e' -> peek m' (e' + x mod 4096) = peek (k_mem k) (e' + x mod 4096)) as Hp.
    { intros f Ep. apply Hs. destruct (rep_page _ _ _ R _ _ Ep) as [[Hfa _] _].
      assert (f <> t) as Hne by (intros ->; by pose proof (rep_inj _ _ _ R (OPage (vpn x)) (OLeaf (vpn va / 512)) t Ep Et)).
      destruct (pages_disjoint f t Hfa Hta Hne); unfold PGSIZE in *; unfold a; lia. }
    pose proof (Eo (OPage (vpn x))) as Ex. cbn in Ex, Hp. cbn [entry_at sp_pages] in *.
    destruct (<[vpn va := closed e]> (sp_pages s) !! vpn x) as [e1|], (sp_pages s !! vpn x) as [e2|]; cbn in *; try congruence.
    injection Ex as ->. by rewrite Hp.
Qed.

(** * An empty space *)

Definition no_space : space := mkSpace ∅ ∅ ∅.

Lemma uvmcreate_ok c k p l :
  on_cpu c k -> free LKmem k -> heap k (p :: l) ->
  exists k', uvmcreate k = Ok p k' /\ mem_frame k k' /\ uspace k' l p no_space /\ sized no_space 0.
Proof.
  intros Hc Hf Hh. pose proof (hp_chain _ _ Hh) as (_ & Hpg & _). pose proof (hp_nodup _ _ Hh) as [Hpl _]%list.NoDup_cons.
  destruct (page_kpage _ _ Hpg) as [Hp Hr]. destruct (kpage_u64 p Hp) as (_ & _ & Hp0).
  destruct (kalloc_some c k (p :: l) Hc Hf Hh p l eq_refl) as (k1 & E1 & F1 & H1 & L1 & L2 & P1).
  destruct (zero_page_ok k1 p (hp_ram _ _ H1) ltac:(unfold in_ram in *; by rewrite L1, L2)) as (m2 & E2 & M1 & M2 & P2).
  exists (set_k_mem m2 k1). unfold uvmcreate. rewrite (bind_Ok _ _ _ _ _ E1). destruct (Z.eqb_spec p 0); [lia|]. rewrite (bind_Ok _ _ _ _ _ E2).
  split; [done|]. split; [clear -F1; unfold mem_frame in *; rewrite F1; done|]. split; [split|].
  - destruct H1 as [B1 B2 B3]. split; [unfold Lib.ram_ok in *; cbn; by rewrite M1, M2| |done].
    apply (chain_write (k_mem k1) m2 (k_freelist k1) l p); try done; [apply Hp|]. intros b Hb. rewrite P2.
    destruct (Z.leb_spec p b), (Z.ltb_spec b (p + PGSIZE)); try done; lia.
  - split; cbn; try (by intros ? [? ?]); try done.
    + unfold Lib.ram_ok. rewrite M1, M2, L1, L2. apply Hh.
    + intros o q E. destruct o; try done. injection E as <-. split; [done|]. unfold in_ram in *. by rewrite M1, M2, L1, L2.
    + intros o o' q E E'. by destruct o, o'.
    + intros o q i Ht E Hi. destruct o; try done. injection E as <-. cbn. apply rd8_zero; [done|]. intros b Hb. rewrite P2. unfold PGSIZE.
      destruct (Z.leb_spec p b), (Z.ltb_spec b (p + 4096)); try done; lia.
  - intros q o Hq E. destruct o; try done. injection E as <-. done.
  - intros o q E. destruct o; try done. injection E as <-. apply Hpg.
  - split; [lia|]. intros v. cbn. split; [by intros [? ?]|lia].
Qed.
End Uvm.

(** * At work *)

#[export] Instance null_end : SymbolLaws.
Proof. by vm_compute. Qed.

(** Twelve free pages: three for an image with its guard page as exec makes it, three for the
    tables, and as many for a child. *)
Definition page_no (i : Z) : Z := KERNLINK + 0x100000 + i * PGSIZE.
Definition spare_pages : list Z := map page_no [1; 2; 3; 4; 5; 6; 7; 8; 9; 10; 11].
Definition image_kernel : kernel unit :=
  set_k_mem (fold_right (fun i => wr 8 (page_no i) (page_no (i + 1))) (mkMem (page_no 0) (page_no 12) ∅) [10; 9; 8; 7; 6; 5; 4; 3; 2; 1; 0])
    (set_k_freelist (page_no 0) null_kernel).

Lemma image_heap : heap image_kernel (page_no 0 :: spare_pages).
Proof.
  split.
  - split; vm_compute; congruence.
  - cbn [chain spare_pages map]. repeat (split; [vm_compute; congruence|split; [split; [by vm_compute|split; [split; vm_compute; congruence|split; by vm_compute]]|]]).
    by vm_compute.
  - apply (bool_decide_unpack _). by vm_compute.
Qed.

(** A process that has grown to three pages. *)
Lemma grown_run : match (let! p := uvmcreate in uvmalloc p 0 12288) image_kernel with Ok r _ => r =? 12288 | _ => false end = true.
Proof. by vm_compute. Qed.

#[local] Opaque image_kernel uvmcreate uvmalloc uvmclear.
Lemma grown_result k p k' r : uvmcreate image_kernel = Ok p k -> uvmalloc p 0 12288 k = Ok r k' -> r = 12288.
Proof.
  intros E E'. pose proof grown_run as Hr. unfold bind in Hr. rewrite E in Hr. rewrite E' in Hr. by apply Z.eqb_eq in Hr.
Qed.
#[local] Transparent uvmalloc.

Lemma created : exists k, uvmcreate image_kernel = Ok (page_no 0) k /\ mem_frame image_kernel k /\
  uspace k spare_pages (page_no 0) no_space /\ sized no_space 0.
Proof.
  exact (uvmcreate_ok cpu0 image_kernel (page_no 0) spare_pages (q_cpu _ _ _ null_quiet) (q_free _ _ _ null_quiet LKmem I) image_heap).
Qed.

Lemma npages_0 : npages 0 = 0.
Proof. by vm_compute. Qed.

Lemma uvmalloc_spec_witness : exists k p k' l' s', uvmcreate image_kernel = Ok p k /\ uvmalloc p 0 12288 k = Ok 12288 k' /\
  uspace k' l' p s' /\ sized s' 3 /\ uacc s' 99 = true /\ ubyte (k_mem k') s' 99 = Some 0.
Proof.
  destruct created as (k & E & F & U & S).
  destruct (mem_frame_cpu cpu0 image_kernel k F (q_cpu _ _ _ null_quiet) (q_free _ _ _ null_quiet LKmem I)) as [Hc Hf].
  destruct (uvmalloc_spec cpu0 k _ (page_no 0) no_space 0 12288 Hc Hf U ltac:(rewrite npages_0; exact S) ltac:(lia) ltac:(lia))
    as (k' & l' & s' & r & E' & U' & _ & _ & _ & D).
  pose proof (grown_result k (page_no 0) k' r E E') as ->.
  exists k, (page_no 0), k', l', s'. split; [exact E|]. split; [exact E'|]. split; [exact U'|].
  destruct D as [(_ & _ & S' & Z')|[[D _]|(D & _)]]; [|discriminate D..]. split; [exact S'|]. apply Z'. split; by vm_compute.
Defined.

(** The image: text on page 0, the guard page 1, the stack on page 2. *)
Record image (s : space) : Prop := {
  im_sized : sized s 3;
  im_text : urange s 0 4096;
  im_guard x : 4096 <= x < 8192 -> uacc s x = false;
  im_stack : urange s 8192 4096
}.

Lemma image_space : exists (k1 k2 k3 : kernel unit) l s, uvmcreate image_kernel = Ok (page_no 0) k1 /\
  uvmalloc (page_no 0) 0 12288 k1 = Ok 12288 k2 /\ uvmclear (page_no 0) 4096 k2 = Ok tt k3 /\
  mem_frame image_kernel k3 /\ uspace k3 l (page_no 0) s /\ image s.
Proof.
  destruct created as (k1 & E1 & F1 & U1 & S1).
  destruct (mem_frame_cpu cpu0 image_kernel k1 F1 (q_cpu _ _ _ null_quiet) (q_free _ _ _ null_quiet LKmem I)) as [Hc Hf].
  destruct (uvmalloc_loop_ok cpu0 12288 0 3 5 k1 _ (page_no 0) no_space 0 Hc Hf U1 S1) as (k2 & l2 & s2 & r & E2 & U2 & _ & D); [lia..|by vm_compute|lia|].
  assert (uvmalloc (page_no 0) 0 12288 k1 = Ok r k2) as E2' by exact E2. pose proof (grown_result k1 (page_no 0) k2 r E1 E2') as ->.
  destruct D as [(_ & V & S2 & _ & P)|[D _]]; [|discriminate D]. destruct (P 1 ltac:(lia)) as (e & Ee & _).
  destruct (uvmclear_ok k2 l2 (page_no 0) s2 3 1 e U2 S2 Ee) as (m3 & E3 & U3 & S3 & _).
  exists k1, k2, (set_k_mem m3 k2), l2, (entry_at s2 1 (closed e)). split; [exact E1|]. split; [exact E2|]. split; [exact E3|]. split; [|split; [exact U3|]].
  - eapply mem_frame_trans; [exact F1|]. pose proof (ev_frame _ _ _ _ _ _ _ _ V) as M. clear -M. unfold mem_frame in *. rewrite M. done.
  - assert (forall x, 0 <= x < 12288 -> x / 4096 <> 1 -> uacc (entry_at s2 1 (closed e)) x = true) as Hu.
    { intros x Hx Hn. unfold uacc. rewrite user_vpn by lia. cbn. rewrite lookup_insert_ne by done.
      destruct (P (x / 4096)) as (e' & -> & Fl & _); [split; [apply Z.div_pos|apply Z.div_lt_upper_bound]; lia|]. by apply flags_user. }
    split; [exact S3|..].
    + intros x Hx. apply Hu; [lia|]. rewrite Z.div_small by lia. lia.
    + intros x Hx. unfold uacc. rewrite user_vpn by lia. replace (x / 4096) with 1 by (apply (Z.div_unique_pos _ _ _ (x - 4096)); lia).
      cbn. rewrite lookup_insert_eq. apply closed_ok. by apply (rep_pte _ _ _ (us_rep _ _ _ _ U2) 1).
    + intros x Hx. apply Hu; [lia|]. replace (x / 4096) with 2 by (apply (Z.div_unique_pos _ _ _ (x - 8192)); lia). lia.
Qed.

Lemma reach_is s va len a : 0 <= len -> reach s va len a -> avail s va len = a.
Proof.
  intros Hl (A & B & C). destruct (avail_reach s va len Hl) as (A' & B' & C'). destruct (Z.lt_trichotomy (avail s va len) a) as [Hlt|[->|Hlt]]; [|done|].
  - rewrite B in C' by lia. discriminate C'. lia.
  - rewrite B' in C by lia. discriminate C. lia.
Qed.
(** From 96 bytes below the guard page. *)
Lemma image_avail s : image s -> avail s 4000 200 = 96.
Proof.
  intros [_ T G _]. apply reach_is; [lia|]. split; [lia|]. split; [apply (urange_sub s 0 4096); [done|lia..]|]. intros _. apply G. lia.
Qed.

Lemma copyin_spec_witness : exists (k : kernel unit) p bs, copyin p 4000 200 k = Ok (-1, bs) k /\ length bs = 96%nat.
Proof.
  destruct image_space as (_ & _ & k & l & s & _ & _ & _ & _ & U & I). pose proof (image_avail s I) as Ea. eexists k, _, _. split.
  - rewrite (copyin_spec k l (page_no 0) s 3 4000 200 U (im_sized s I)) by lia. rewrite Ea. reflexivity.
  - unfold ubytes. rewrite length_map, length_seq. reflexivity.
Defined.

(** Across the guard page of the image: 96 bytes are written and read back, and both fail. *)
Lemma copyout_copyin_roundtrip_witness : exists (k k' : kernel unit) p, copyout p 4000 (replicate 200 7) k = Ok (-1) k' /\
  copyin p 4000 200 k' = Ok (-1, replicate 96 7) k'.
Proof.
  destruct image_space as (_ & _ & k & l & s & _ & _ & _ & _ & U & I). pose proof (image_avail s I) as Ea.
  destruct (copyout_copyin_roundtrip k l (page_no 0) s 3 4000 (replicate 200 7) U (im_sized s I) ltac:(lia)) as (m' & E & _ & _ & _ & R & _).
  - apply List.Forall_forall. intros x Hx%list_elem_of_In. apply elem_of_replicate in Hx as [-> _]. lia.
  - change (Z.of_nat (length (replicate 200 7))) with 200 in *. rewrite Ea in *. exists k, (set_k_mem m' k), (page_no 0). split; [exact E|exact R].
Defined.
