(* ===== verification/KUvmCopy.v ===== *)
(** The memory of a child (vm.c: [uvmcopy], which [fork] calls): a copy of all pages into a
    second space, running out of pages included. *)
From stdpp Require Import base gmap list numbers strings tactics.
From S2P Require Import Prelude Mem Ram KMachine KString KSched KBytes KBss KAlloc KVm KSpace KUvm.

(** The permissions that [PTE_FLAGS] keeps of an entry. *)
Lemma PTE_FLAGS_ok e : is_u64 e -> perm_ok (PTE_FLAGS e).
Proof.
  intros He. split.
  - by apply (land_bound_l 64).
  - unfold PTE_FLAGS, PTE2PA. rewrite <- Z.land_assoc. apply Z.land_0_r.
Qed.

(** An entry made of them has the same. *)
Lemma copied_flags p e : kpage p -> pte_good e -> PTE_FLAGS (leaf_pte (V2P p) (PTE_FLAGS e)) = PTE_FLAGS e.
Proof.
  intros Hp (_ & _ & Hv). rewrite leaf_pte_flags by done. unfold PTE_FLAGS. rewrite <- Z.land_assoc, Z.land_diag. rewrite <- Hv.
  change (Z.land e PTE_V) with (Z.land e (Z.land 0x600000000003ff PTE_V)). rewrite Z.land_assoc. generalize (Z.land e 0x600000000003ff). intros x.
  apply Z.bits_inj'. intros i Hi. rewrite Z.lor_spec, Z.land_spec. by destruct (Z.testbit x i), (Z.testbit PTE_V i).
Qed.

(** What a space lets the user do with its pages: the permissions of each page mapped. *)
Definition flags (s : space) (v : Z) : option Z := PTE_FLAGS <$> sp_pages s !! v.

Lemma flags_uacc s s' va : flags s' (vpn va) = flags s (vpn va) -> uacc s' va = uacc s va.
Proof.
  unfold flags, uacc. assert (forall e, has (PTE_FLAGS e) PTE_U = has e PTE_U) as Hf by (intros e; unfold has, PTE_FLAGS; by rewrite <- Z.land_assoc).
  destruct (sp_pages s' !! vpn va) as [e|], (sp_pages s !! vpn va) as [e'|]; cbn; try done. intros [= E]. by rewrite <- Hf, E, Hf.
Qed.

Section Copy.
Context {H : Type} `{!Platform H} `{!Symbols} `{Hend : !SymbolLaws}.
Implicit Types k : kernel H.

(** * Two spaces over one free list *)

Record two k (l : list Z) (root0 : Z) (s0 : space) (root : Z) (s : space) : Prop := {
  tw_old : uspace k l root0 s0;
  tw_new : uspace k l root s;
  tw_apart o o' p : obj_at root0 s0 o = Some p -> obj_at root s o' = Some p -> False
}.

(** No byte of the first one has changed. *)
Definition untouched (root0 : Z) (s0 : space) (m m' : memory) : Prop :=
  forall o q b, obj_at root0 s0 o = Some q -> q <= b < q + 4096 -> peek m' b = peek m b.

Lemma untouched_trans root0 s0 m1 m2 m3 : untouched root0 s0 m1 m2 -> untouched root0 s0 m2 m3 -> untouched root0 s0 m1 m3.
Proof. intros U1 U2 o q b E Hb. rewrite (U2 o q b E Hb). by apply (U1 o q). Qed.

Lemma ubyte_untouched root0 s0 m m' va : untouched root0 s0 m m' -> ubyte m' s0 va = ubyte m s0 va.
Proof.
  intros U. unfold ubyte. destruct (sp_pages s0 !! vpn va) as [e|] eqn:E; [|done]. cbn. f_equal.
  pose proof (Z.mod_pos_bound va 4096 ltac:(done)). apply (U (OPage (vpn va)) (frame_of e)); [cbn; by rewrite E|lia].
Qed.

(** What happens to one space, with pages of its own and free ones, does not touch the other. *)
Lemma two_evolves F k l root0 s0 root s k' l' s' :
  two k l root0 s0 root s -> evolves root F k l s k' l' s' -> uspace k' l' root s' ->
  (forall q, F q -> exists o, obj_at root s o = Some q) ->
  (forall v e, sp_pages s' !! v = Some e -> sp_pages s !! v = Some e \/ frame_of e ∈ l) ->
  two k' l' root0 s0 root s' /\ untouched root0 s0 (k_mem k) (k_mem k').
Proof.
  intros [[Hh R Fr En] U Ap] [A1 A2 A3 A4 A5] U' HF Hp.
  assert (forall q, spare root l s q \/ F q -> q mod 4096 = 0 /\ forall o, obj_at root0 s0 o <> Some q) as Hs.
  { intros q Hq. assert (q ∈ l \/ exists o, obj_at root s o = Some q) as [Hl|(o & E)].
    { destruct Hq as [[Hq|(o & _ & E)]|Hq]; [by left|right; by exists o|right; by apply HF]. }
    - split; [apply (chain_pages _ _ _ _ (hp_chain _ _ Hh) Hl)|]. intros o. by apply Fr.
    - split; [apply (rep_page _ _ _ (us_rep _ _ _ _ U) o q E)|]. intros o' E'. by apply (Ap o' o q). }
  assert (untouched root0 s0 (k_mem k) (k_mem k')) as Hun.
  { intros o q b E Hb. apply A4. intros q' Hq'. destruct (Hs q' Hq') as [Ha Hne].
    destruct (rep_page _ _ _ R o q E) as [[Hqa _] _]. apply (pages_apart q' q); try done. intros ->. by apply (Hne o). }
  split; [|done]. split; [split; [apply U'| | |done]|done|].
  - apply (rep_frame (k_mem k)); try done. intros o q b _ E Hb. by apply (Hun o q).
  - intros p o Hl E. destruct (Hs p) as [_ Hne]; [apply A5; by left|]. by apply (Hne o).
  - intros o o' p E E'. destruct (is_table o') eqn:Ht.
    + destruct (Hs p) as [_ Hne]; [apply A5; right; by exists o'|]. by apply (Hne o).
    + destruct o' as [| | |v]; try done. cbn in E'. destruct (sp_pages s' !! v) as [e|] eqn:Ev; [|done]. injection E' as <-.
      destruct (Hp v e Ev) as [Ev'|Hl]; [|by apply (Fr _ o Hl)]. apply (Ap o (OPage v) (frame_of e) E). cbn. by rewrite Ev'.
Qed.

(** * One page *)

(** Page [v] of the child is a copy of page [v] of the parent. *)
Definition same_page (m : memory) (e0 : Z) (m' : memory) (e : Z) : Prop :=
  PTE_FLAGS e = PTE_FLAGS e0 /\ forall j, 0 <= j < 4096 -> peek m' (frame_of e + j) = peek m (frame_of e0 + j).

Lemma new_pages s s3 v e p (l : list Z) : sp_pages s3 = <[v := e]> (sp_pages s) -> frame_of e = p -> p ∈ l ->
  forall x e', sp_pages s3 !! x = Some e' -> sp_pages s !! x = Some e' \/ frame_of e' ∈ l.
Proof. intros E Ef Hp x e'. rewrite E. intros [[_ <-]|[_ Ex]]%lookup_insert_Some; [right; by rewrite Ef|by left]. Qed.

Lemma copy_page c k p l root0 s0 root s v n e0 :
  on_cpu c k -> free LKmem k -> two k (p :: l) root0 s0 root s -> sized s0 n -> sized s v -> v < n -> sp_pages s0 !! v = Some e0 ->
  exists k1 k2 k3 l3 s3 r, kalloc k = Ok p k1 /\ p <> 0 /\ on_mem (memmove p (frame_of e0) PGSIZE) k1 = Ok p k2 /\
    mappages root (v * 4096) PGSIZE (V2P p) (PTE_FLAGS e0) k2 = Ok r k3 /\
    if r =? 0 then
      two k3 l3 root0 s0 root s3 /\ evolves root none k (p :: l) s k3 l3 s3 /\ untouched root0 s0 (k_mem k) (k_mem k3) /\
      conserves root (p :: l) s l3 s3 /\
      sized s3 (v + 1) /\ exists e, sp_pages s3 = <[v := e]> (sp_pages s) /\ same_page (k_mem k) e0 (k_mem k3) e
    else exists k4, kfree p k3 = Ok tt k4 /\ two k4 (p :: l3) root0 s0 root s3 /\ evolves root none k (p :: l) s k4 (p :: l3) s3 /\
      untouched root0 s0 (k_mem k) (k_mem k4) /\ conserves root (p :: l) s (p :: l3) s3 /\ sp_pages s3 = sp_pages s.
Proof.
  intros Hc Hf T Sz0 Sz Hv E0. pose proof T as [U0 U _]. pose proof (sz_range _ _ Sz0) as Hn.
  destruct (take_user_frame c k p l root s Hc Hf U) as (k1 & E1 & Hp0 & U1 & A1 & V1 & P1).
  destruct (two_evolves none k (p :: l) root0 s0 root s k1 l s T V1 U1 ltac:(by intros q []) ltac:(by left)) as [[U01 _ _] N1].
  assert (obj_at root0 s0 (OPage v) = Some (frame_of e0)) as Ef by (cbn; by rewrite E0).
  destruct (rep_page _ _ _ (us_rep _ _ _ _ U01) _ _ Ef) as [[Ha0 _] Hr0].
  pose proof (k_memmove_ok (k_mem k1) p (frame_of e0) PGSIZE (hp_ram _ _ (us_heap _ _ _ _ U1)) ltac:(done) (ap_ram _ _ _ _ _ A1) Hr0)
    as (r & m2 & E2 & -> & M1 & M2 & P2)%wp_Ok. unfold PGSIZE in P2.
  assert (forall b, ~ (p <= b < p + 4096) -> peek m2 b = peek (k_mem k1) b) as Hs.
  { intros b Hb. rewrite P2. destruct (Z.leb_spec p b), (Z.ltb_spec b (p + 4096)); try done; lia. }
  destruct (mem_on_page k1 l root s p m2 U1 A1 M1 M2 Hs) as (U2 & A2 & _). pose proof (fill_frame k p l root s k1 m2 V1 M1 M2 Hs) as V2.
  pose proof (rep_pte _ _ _ (us_rep _ _ _ _ U0) v e0 E0) as Hg. pose proof (PTE_FLAGS_ok e0 (proj1 Hg)) as Hperm.
  destruct (map_new c k p l root s (set_k_mem m2 k1) (PTE_FLAGS e0) v Hc Hf V2 U2 A2 Hperm Sz ltac:(lia)) as (k3 & l3 & s3 & r & E3 & C).
  exists k1, (set_k_mem m2 k1), k3, l3, s3, r. split; [done|]. split; [done|]. split; [unfold on_mem, zoom; by rewrite E2|]. split; [done|].
  destruct (r =? 0).
  - destruct C as (U3 & V3 & Sz3 & P3 & Ef3 & K3 & Hb). set (e := leaf_pte (V2P p) (PTE_FLAGS e0)) in *.
    destruct (two_evolves none k (p :: l) root0 s0 root s k3 l3 s3 T V3 U3 ltac:(by intros q []) (new_pages s s3 v e p (p :: l) P3 Ef3 ltac:(by left))) as [T3 N3].
    split; [done|]. split; [done|]. split; [done|]. split; [done|]. split; [done|]. exists e. split; [done|]. split.
    + apply copied_flags; [apply A2|done].
    + intros j Hj. rewrite Ef3, Hb by lia. cbn. rewrite P2. destruct (Z.leb_spec p (p + j)), (Z.ltb_spec (p + j) (p + 4096)); try lia. cbn [andb].
      replace (p + j - p + frame_of e0) with (frame_of e0 + j) by lia. apply (N1 (OPage v) (frame_of e0)); [done|lia].
  - destruct C as (k4 & E4 & U4 & V4 & K4 & P4). exists k4. split; [done|].
    destruct (two_evolves none k (p :: l) root0 s0 root s k4 (p :: l3) s3 T V4 U4 ltac:(by intros q []) ltac:(rewrite P4; by left)) as [T4 N4]. done.
Qed.

(** The pages of the child go again. *)
Lemma undo_copy c k l root0 s0 root s v :
  on_cpu c k -> free LKmem k -> two k l root0 s0 root s -> sized s v ->
  exists k' l' s', uvmunmap root 0 v true k = Ok tt k' /\ two k' l' root0 s0 root s' /\ untouched root0 s0 (k_mem k) (k_mem k') /\
    mem_frame k k' /\ conserves root l s l' s' /\ sized s' 0.
Proof.
  intros Hc Hf T Sz. pose proof (sz_range _ _ Sz) as Hv. pose proof T as [_ U _].
  destruct (uvmunmap_loop_ok c (Z.to_nat v) k l root s 0 Hc Hf U ltac:(lia) ltac:(lia)) as (k' & l' & s' & E & U' & S' & F' & P').
  { intros x Hx. apply (sized_some s v); [done|lia]. }
  rewrite !Z.add_0_l, Z2Nat.id in * by lia.
  assert (evolves root (frames_in s 0 v) k l s k' l' s') as V'.
  { apply shrinks_evolves; [done|]. intros q [Hq|(x & e & Hx & Ex & ->)]%F'; [left; by left|right]. exists x, e. split; [lia|done]. }
  destruct (two_evolves (frames_in s 0 v) k l root0 s0 root s k' l' s' T V' U') as [T' N'].
  { intros q (x & e & _ & Ex & ->). exists (OPage x). cbn. by rewrite Ex. }
  { intros x e. rewrite P'. destruct (_ && _); [done|by left]. }
  exists k', l', s'. split; [|split; [done|split; [done|split; [apply V'|split; [apply S'|]]]]].
  - unfold uvmunmap. change (0 mod PGSIZE) with 0. cbn [Z.eqb negb]. unfold PGSIZE.
    rewrite u64_small by (unfold is_u64; lia). replace (0 + v * 4096) with (v * 4096) by lia. exact E.
  - assert (forall x, sp_pages s' !! x = None) as Hnone.
    { intros x. rewrite P'. destruct (Z.leb_spec 0 x), (Z.ltb_spec x v); try done; cbn; destruct (sp_pages s !! x) eqn:Ex; try done;
        assert (0 <= x < v) by (apply (sz_dom _ _ Sz); by eexists); lia. }
    split; [lia|]. intros x. rewrite Hnone. split; [by intros []|lia].
Qed.

(** * The loop *)

Lemma walk_page k l root s n v e : uspace k l root s -> sized s n -> 0 <= v < n -> sp_pages s !! v = Some e ->
  exists a, walk root (v * 4096) false k = Ok (Some a) k /\ get_pte a k = Ok e k /\ has e PTE_AF = true.
Proof.
  intros [_ R _ _] Sz Hv E. pose proof (sz_range _ _ Sz) as Hn.
  destruct (rep_pages _ _ _ R v ltac:(by eexists)) as [t Et]. rewrite <- (vpn_page v) in Et by lia.
  destruct (walk_pte k root s R (v * 4096) t ltac:(apply page_lt_max; lia) Et) as [E1 E2]. rewrite vpn_page, E in E2 by lia.
  exists (t + 8 * PX 3 (v * 4096)). split; [done|]. split; [done|]. by apply (rep_pte _ _ _ R v e E).
Qed.

(** What is copied so far. *)
Definition copies (m : memory) (s0 : space) (m' : memory) (s : space) (v : Z) : Prop :=
  forall x, 0 <= x < v -> exists e0 e, sp_pages s0 !! x = Some e0 /\ sp_pages s !! x = Some e /\ same_page m e0 m' e.

Lemma uvmcopy_loop_ok c sz n m0 : forall j fuel k l root0 s0 root s v,
  on_cpu c k -> free LKmem k -> two k l root0 s0 root s -> sized s0 n -> sized s v ->
  0 <= sz <= 2 ^ 38 -> npages sz = n -> n = v + Z.of_nat j -> (j < fuel)%nat ->
  untouched root0 s0 m0 (k_mem k) -> copies m0 s0 (k_mem k) s v ->
  exists k' l' s' r, uvmcopy_loop fuel root0 root (v * 4096) sz k = Ok r k' /\ two k' l' root0 s0 root s' /\
    untouched root0 s0 m0 (k_mem k') /\ mem_frame k k' /\ conserves root l s l' s' /\
    ((r = 0 /\ sized s' n /\ copies m0 s0 (k_mem k') s' n) \/ (r = -1 /\ sized s' 0)).
Proof.
  induction j as [|j IH]; intros fuel k l root0 s0 root s v Hc Hf T Sz0 Sz Hsz Hnp Hj Hfuel Hun Hcp; (destruct fuel as [|fuel]; [lia|]);
    destruct (npages_ok sz ltac:(lia)) as (_ & Hb & Hb'); pose proof (sz_range _ _ Sz) as Hv; cbn [uvmcopy_loop].
  - exists k, l, s, 0. destruct (Z.ltb_spec (v * 4096) sz); [lia|]. cbn [negb]. replace v with n in * by lia.
    split; [done|]. split; [done|]. split; [done|]. split; [apply mem_frame_refl|]. split; [done|]. by left.
  - destruct (Z.ltb_spec (v * 4096) sz) as [_|]; [|lia]. cbn [negb]. pose proof T as [U0 U _].
    destruct (sized_some s0 n v Sz0 ltac:(lia)) as [e0 E0]. destruct (walk_page k l root0 s0 n v e0 U0 Sz0 ltac:(lia) E0) as (a & Ew & Eg & Ha).
    rewrite (bind_Ok _ _ _ _ _ Ew), (bind_Ok _ _ _ _ _ Eg), Ha. cbn [negb]. unfold PGSIZE at 1 2 3. rewrite !Z.div_mul by done. destruct l as [|p l].
    { rewrite (bind_Ok _ _ _ _ _ (kalloc_none c k [] Hc Hf (us_heap _ _ _ _ U) eq_refl)). cbn [Z.eqb].
      destruct (undo_copy c k [] root0 s0 root s v Hc Hf T Sz) as (k' & l' & s' & E' & T' & N' & F' & K' & Sz'). rewrite (bind_Ok _ _ _ _ _ E').
      exists k', l', s', (-1). split; [done|]. split; [done|]. split; [by eapply untouched_trans|]. split; [done|]. split; [done|]. by right. }
    destruct (copy_page c k p l root0 s0 root s v n e0 Hc Hf T Sz0 Sz ltac:(lia) E0) as (k1 & k2 & k3 & l3 & s3 & r & E1 & Hp & E2 & E3 & C).
    rewrite (bind_Ok _ _ _ _ _ E1). destruct (Z.eqb_spec p 0); [done|]. change (P2V (PTE2PA e0)) with (frame_of e0).
    rewrite (bind_Ok _ _ _ _ _ E2), (bind_Ok _ _ _ _ _ E3). destruct (r =? 0) eqn:Er; cbn [negb].
    + destruct C as (T3 & V3 & N3 & K3 & Sz3 & e & P3 & Hsame). unfold PGSIZE. rewrite u64_small by (unfold is_u64; lia).
      replace (v * 4096 + 4096) with ((v + 1) * 4096) by lia. destruct (mem_frame_cpu c k k3 (ev_frame _ _ _ _ _ _ _ _ V3) Hc Hf) as [Hc3 Hf3].
      destruct (IH fuel k3 l3 root0 s0 root s3 (v + 1) Hc3 Hf3 T3 Sz0 Sz3 Hsz Hnp ltac:(lia) ltac:(lia)) as (k' & l' & s' & r' & E' & T' & N' & F' & K' & D).
      * by eapply untouched_trans.
      * intros x Hx. destruct (decide (x = v)) as [->|Hne].
        -- exists e0, e. split; [done|]. rewrite P3, lookup_insert_eq. split; [done|]. destruct Hsame as [HU Hby]. split; [done|].
           intros i Hi. rewrite Hby by done. apply (Hun (OPage v) (frame_of e0)); [cbn; by rewrite E0|lia].
        -- destruct (Hcp x ltac:(lia)) as (f0 & f & F0 & Fx & HU & Hby). exists f0, f. split; [done|]. rewrite P3, lookup_insert_ne by done.
           split; [done|]. split; [done|]. intros i Hi. rewrite <- Hby by done. apply (ev_mem _ _ _ _ _ _ _ _ V3). intros q [Hq|[]] Hb2.
           apply (page_not_spare k (p :: l) root s x f q (frame_of f + i)); try done. lia.
      * exists k', l', s', r'. split; [done|]. split; [done|]. split; [done|]. split; [eapply mem_frame_trans; [apply V3|done]|].
        split; [by eapply conserves_trans|done].
    + destruct C as (k4 & E4 & T4 & V4 & N4 & K4 & P4). rewrite (bind_Ok _ _ _ _ _ E4).
      destruct (mem_frame_cpu c k k4 (ev_frame _ _ _ _ _ _ _ _ V4) Hc Hf) as [Hc4 Hf4].
      destruct (undo_copy c k4 (p :: l3) root0 s0 root s3 v Hc4 Hf4 T4 ltac:(by apply (sized_pages s))) as (k' & l' & s' & E' & T' & N' & F' & K' & Sz').
      rewrite (bind_Ok _ _ _ _ _ E'). exists k', l', s', (-1). split; [done|]. split; [done|].
      split; [by eapply untouched_trans; [eapply untouched_trans|]|]. split; [eapply mem_frame_trans; [apply V4|done]|].
      split; [by eapply conserves_trans|]. by right.
Qed.

(** * A new space *)

(** [uvmcreate] beside another space. *)
Lemma uvmcreate_two c k p l root0 s0 :
  on_cpu c k -> free LKmem k -> uspace k (p :: l) root0 s0 ->
  exists k', uvmcreate k = Ok p k' /\ two k' l root0 s0 p no_space /\ mem_frame k k' /\ untouched root0 s0 (k_mem k) (k_mem k').
Proof.
  intros Hc Hf U. destruct (take_page c k p l root0 s0 Hc Hf U) as (k1 & k2 & E1 & E2 & Hp & U2 & A2 & V2 & Z2).
  destruct (uvmcreate_ok c k p l Hc Hf (us_heap _ _ _ _ U)) as (k' & E & F & Un & _).
  assert (k' = k2) as ->.
  { unfold uvmcreate in E. rewrite (bind_Ok _ _ _ _ _ E1) in E. destruct (Z.eqb_spec p 0); [done|]. rewrite (bind_Ok _ _ _ _ _ E2) in E. by injection E. }
  exists k2. split; [done|]. split; [|split; [done|]].
  2:{ intros o q b Eo Hb. rewrite Z2. destruct (rep_page _ _ _ (us_rep _ _ _ _ U) o q Eo) as [[Hq _] _]. pose proof (ap_page _ _ _ _ _ A2) as [Ha _].
      assert (~ (p <= b < p + 4096)) as Hne. { apply (pages_apart p q); try done. intros ->. by apply (ap_objs _ _ _ _ _ A2 o). }
      destruct (Z.leb_spec p b), (Z.ltb_spec b (p + 4096)); try done; lia. }
  split; [done|done|]. intros o o' q Eo Eo'. destruct o'; try done. injection Eo' as <-. by apply (ap_objs _ _ _ _ _ A2 o).
Qed.

(** * The theorem *)

Lemma uvmcopy_ok c k l root0 s0 root s sz :
  on_cpu c k -> free LKmem k -> two k l root0 s0 root s -> 0 <= sz <= 2 ^ 38 -> sized s0 (npages sz) -> sized s 0 ->
  exists k' l' s' r, uvmcopy root0 root sz k = Ok r k' /\ two k' l' root0 s0 root s' /\ mem_frame k k' /\
    conserves root l s l' s' /\ (forall va, ubyte (k_mem k') s0 va = ubyte (k_mem k) s0 va) /\
    ((r = 0 /\ sized s' (npages sz) /\ (forall v, flags s' v = flags s0 v) /\
      forall va, 0 <= va < 2 ^ 39 -> ubyte (k_mem k') s' va = ubyte (k_mem k) s0 va) \/
     (r = -1 /\ sized s' 0)).
Proof.
  intros Hc Hf T Hsz Sz0 Sz. destruct (npages_ok sz Hsz) as (_ & Hn & Hb). set (n := npages sz) in *.
  destruct (uvmcopy_loop_ok c sz n (k_mem k) (Z.to_nat n) (S (Z.to_nat (sz / PGSIZE + 1))) k l root0 s0 root s 0)
    as (k' & l' & s' & r & E & T' & N' & F' & K' & D); try done; try lia.
  { unfold PGSIZE. pose proof (Z.div_mod sz 4096 ltac:(done)). pose proof (Z.mod_pos_bound sz 4096 ltac:(done)). lia. }
  { intros x Hx. lia. }
  exists k', l', s', r. split; [exact E|]. split; [done|]. split; [done|]. split; [done|]. split; [intros va; by apply (ubyte_untouched root0)|].
  destruct D as [(-> & Sz' & Hcp)|D]; [left|by right]. split; [done|]. split; [done|]. split.
  { intros v. unfold flags. destruct (decide (0 <= v < n)) as [Hv|Hv].
    - destruct (Hcp v Hv) as (e0 & e & -> & -> & Fl & _). cbn. by rewrite Fl.
    - destruct (sp_pages s' !! v) as [e|] eqn:E1; [destruct Hv; apply (sz_dom _ _ Sz'); by eexists|].
      destruct (sp_pages s0 !! v) as [e|] eqn:E2; [destruct Hv; apply (sz_dom _ _ Sz0); by eexists|]. done. }
  intros va Hva. unfold ubyte. rewrite user_vpn by done.
  assert (0 <= va / 4096) by (apply Z.div_pos; lia). destruct (Z.ltb_spec (va / 4096) n) as [Hlt|Hge].
  - destruct (Hcp (va / 4096) ltac:(lia)) as (e0 & e & -> & -> & _ & Hby). cbn. f_equal. apply Hby. by apply Z.mod_pos_bound.
  - by rewrite (sized_none s' n), (sized_none s0 n).
Qed.

(** C15 [uvmcopy] gives a child the memory of its parent, guard pages included: it returns 0,
    and then the child sees at every address the byte that the parent sees there, with the
    same permissions for every page - a page that is closed to the parent is closed to the
    child - or it returns -1 because the pages have run out, and then the child has no page
    and all those it had are free again.
    Either way no byte that the parent sees has changed, and no page belongs to both: what
    one of them writes later the other does not see.  No page is lost: what was free or
    the child's before is so after. *)
Theorem uvmcopy_spec c k l root0 s0 root s sz :
  on_cpu c k -> free LKmem k -> two k l root0 s0 root s -> 0 <= sz <= 2 ^ 38 -> sized s0 (npages sz) -> sized s 0 ->
  exists k' l' s' r, uvmcopy root0 root sz k = Ok r k' /\ two k' l' root0 s0 root s' /\ mem_frame k k' /\
    conserves root l s l' s' /\ (forall va, ubyte (k_mem k') s0 va = ubyte (k_mem k) s0 va) /\
    ((r = 0 /\ sized s' (npages sz) /\ (forall v, flags s' v = flags s0 v) /\
      forall va, 0 <= va < 2 ^ 39 -> ubyte (k_mem k') s' va = ubyte (k_mem k) s0 va) \/
     (r = -1 /\ sized s' 0)).
Proof. apply uvmcopy_ok. Qed.
End Copy.

(** * At work *)

(** A process with the image of exec, and its child. *)
Lemma copied_run : match (let! p := uvmcreate in let! r := uvmalloc p 0 12288 in uvmclear p 4096 ;; let! q := uvmcreate in
    let! x := uvmcopy p q 12288 in ret (q, x)) image_kernel with
  | Ok (q, x) _ => negb (q =? 0) && (x =? 0) | _ => false end = true.
Proof. by vm_compute. Qed.

Lemma create_none (k : kernel unit) : kalloc k = Ok 0 k -> uvmcreate k = Ok 0 k.
Proof. intros E. unfold uvmcreate. by rewrite (bind_Ok _ _ _ _ _ E). Qed.

#[local] Opaque image_kernel uvmcreate uvmalloc uvmclear uvmcopy.
Lemma copied_result k1 p r k2 k3 q k4 : uvmcreate image_kernel = Ok p k1 -> uvmalloc p 0 12288 k1 = Ok r k2 -> uvmclear p 4096 k2 = Ok tt k3 ->
  uvmcreate k3 = Ok q k4 -> q <> 0 /\ forall x k5, uvmcopy p q 12288 k4 = Ok x k5 -> x = 0.
Proof.
  intros E1 E2 E3 E4. pose proof copied_run as Hr. unfold bind, ret in Hr. rewrite E1, E2, E3, E4 in Hr.
  destruct (uvmcopy p q 12288 k4) as [x k5| | |]; try discriminate Hr. apply andb_prop in Hr as [H1 H2%Z.eqb_eq].
  split; [by destruct (Z.eqb_spec q 0)|]. intros x' k' [= <- _]. exact H2.
Qed.

Lemma parent_and_child : exists (k : kernel unit) l p s q, on_cpu cpu0 k /\ free LKmem k /\ two k l p s q no_space /\ image s /\
  forall x k', uvmcopy p q 12288 k = Ok x k' -> x = 0.
Proof.
  destruct image_space as (k1 & k2 & k3 & l & s & E1 & E2 & E3 & F & U & I).
  destruct (mem_frame_cpu cpu0 image_kernel k3 F (q_cpu _ _ _ null_quiet) (q_free _ _ _ null_quiet LKmem Logic.I)) as [Hc Hf]. destruct l as [|q l].
  { exfalso. pose proof (create_none k3 (kalloc_none cpu0 k3 [] Hc Hf (us_heap _ _ _ _ U) eq_refl)) as E4.
    destruct (copied_result k1 (page_no 0) 12288 k2 k3 0 k3 E1 E2 E3 E4) as [Hq _]. exact (Hq eq_refl). }
  destruct (uvmcreate_two cpu0 k3 q l (page_no 0) s Hc Hf U) as (k4 & E4 & T4 & F4 & _).
  destruct (copied_result k1 (page_no 0) 12288 k2 k3 q k4 E1 E2 E3 E4) as [_ Hx].
  destruct (mem_frame_cpu cpu0 k3 k4 F4 Hc Hf) as [Hc4 Hf4]. exists k4, l, (page_no 0), s, q.
  split; [exact Hc4|]. split; [exact Hf4|]. split; [exact T4|]. split; [exact I|exact Hx].
Qed.

Lemma npages_image : npages 12288 = 3.
Proof. by vm_compute. Qed.

Lemma uvmcopy_spec_witness : exists (k k' : kernel unit) p s q s', uvmcopy p q 12288 k = Ok 0 k' /\ image s /\ sized s' 3 /\
  ubyte (k_mem k') s' 99 = ubyte (k_mem k) s 99 /\ uacc s' 99 = true /\ uacc s' 5000 = false.
Proof.
  destruct parent_and_child as (k & l & p & s & q & Hc & Hf & T & I & Hr).
  destruct (uvmcopy_spec cpu0 k l p s q no_space 12288 Hc Hf T ltac:(lia)) as (k' & l' & s' & x & E & _ & _ & _ & Hs & D).
  - rewrite npages_image. exact (im_sized s I).
  - split; [lia|]. intros v. split; [intros [e Ev]; discriminate Ev|lia].
  - pose proof (Hr x k' E) as ->. destruct D as [(_ & S' & Fl & B)|[D _]]; [|discriminate D]. rewrite npages_image in S'. exists k, k', p, s, q, s'.
    split; [exact E|]. split; [exact I|]. split; [exact S'|]. split; [apply B; lia|].
    rewrite (flags_uacc s s' 99 (Fl _)), (flags_uacc s s' 5000 (Fl _)). split; [apply (im_text s I)|apply (im_guard s I)]; lia.
Defined.
