(* ===== verification/KFree.v ===== *)
(** The end of a user space (vm.c: [freewalk], [uvmfree]): every page and every table of it is
    free again, and nothing else. *)
From stdpp Require Import base gmap list numbers strings tactics.
From S2P Require Import Prelude Mem Ram KMachine KString KSched KBytes KBss KAlloc KVm KSpace KUvm KUvmCopy.

(** * Trees of tables *)

(** Nothing has changed outside the pages of a list. *)
Definition only_pages (l : list Z) (m m' : memory) : Prop :=
  ram_lo m' = ram_lo m /\ ram_hi m' = ram_hi m /\ forall b, (forall p, p ∈ l -> ~ (p <= b < p + 4096)) -> peek m' b = peek m b.

(** How many levels of tables there are from a table down. *)
Definition rank (o : obj) : nat := match o with ORoot => 3 | OMid _ => 2 | OLeaf _ => 1 | OPage _ => 0 end.

(** Table [o'] is [o], or below it. *)
Definition under (o o' : obj) : Prop :=
  match o, o' with
  | ORoot, (ORoot | OMid _ | OLeaf _) => True
  | OMid i, OMid i' => i = i'
  | OMid i, OLeaf j => j / 512 = i
  | OLeaf j, OLeaf j' => j = j'
  | _, _ => False
  end.

Lemma under_refl o : is_table o = true -> under o o.
Proof. by destruct o. Qed.
Lemma under_table o o' : under o o' -> is_table o' = true.
Proof. by destruct o, o'. Qed.

Lemma under_child o i o' : 0 <= i < 512 -> under (child o i) o' -> under o o' /\ o' <> o.
Proof. intros Hi. destruct o as [|x|x|x], o' as [|y|y|y]; cbn; try done; intros E; (split; [|congruence]); try done; subst; by rewrite Z.div_add_l, Z.div_small, Z.add_0_r by lia. Qed.
Lemma under_child_inj o i i' o' : 0 <= i < 512 -> 0 <= i' < 512 -> under (child o i) o' -> under (child o i') o' -> i = i'.
Proof. intros ? ?. destruct o as [|x|x|x], o' as [|y|y|y]; cbn; try done; lia. Qed.

(** A table below [o] is below one entry of [o]. *)
Lemma under_inv m root s o o' : rep m root s -> is_Some (obj_at root s o') -> under o o' ->
  o' = o \/ exists i, 0 <= i < 512 /\ under (child o i) o'.
Proof.
  intros R So. destruct o as [|x|x|x], o' as [|y|y|y]; cbn in *; try done.
  - by left.
  - intros _. right. exists y. split; [by apply (rep_mid _ _ _ R)|done].
  - intros _. right. exists (y / 512). split; [apply (rep_mid _ _ _ R); by apply (rep_leaf _ _ _ R)|done].
  - intros ->. by left.
  - intros <-. right. exists (y mod 512). split; [by apply Z.mod_pos_bound|]. pose proof (Z.div_mod y 512 ltac:(done)). lia.
  - intros ->. by left.
Qed.

(** [freewalk] goes into the entries of tables only. *)
Lemma table_pte_walk p : kpage p ->
  has (table_pte p) PTE_VALID && has (table_pte p) PTE_TABLE && negb (has (table_pte p) PTE_AF) = true /\ frame_of (table_pte p) = p.
Proof.
  intros Hp. destruct (new_table_pte_ok p Hp) as (Ht & Ef & _). split; [|done]. unfold is_tab in Ht. rewrite Ht. cbn [andb].
  destruct (kpage_V2P p Hp) as (_ & Hv & Ha & _). unfold has, table_pte. change PA2PTE with PTE2PA. rewrite (PTE2PA_small (V2P p)) by lia.
  change PTE_AF with (2 ^ 10). rewrite land_pow2_nonzero, !Z.lor_spec by lia.
  change (Z.testbit PTE_TABLE 10) with false. change (Z.testbit PTE_VALID 10) with false. rewrite !orb_false_r.
  replace (Z.testbit (V2P p) 10) with false; [done|]. symmetry. rewrite (Z.div_mod (V2P p) 4096), Ha, Z.add_0_r by lia.
  change 4096 with (2 ^ 12). rewrite Z.mul_comm, <- Z.shiftl_mul_pow2 by lia. apply Z.shiftl_spec_low. lia.
Qed.

Section Free.
Context {H : Type} `{!Platform H} `{!Symbols} `{Hend : !SymbolLaws}.
Implicit Types k : kernel H.

Section Walk.
Context (c : cpu) (m0 : memory) (root : Z) (s : space).
Context (R : rep m0 root s) (Hnone : forall v, sp_pages s !! v = None) (En : forall o p, obj_at root s o = Some p -> sym_end <= p).

(** The tables that [X] names are not free, and are as they were. *)
Record live k (l : list Z) (X : obj -> Prop) : Prop := {
  lv_cpu : on_cpu c k /\ free LKmem k;
  lv_heap : heap k l;
  lv_lo : ram_lo (k_mem k) = ram_lo m0;
  lv_hi : ram_hi (k_mem k) = ram_hi m0;
  lv_free o q : X o -> is_table o = true -> obj_at root s o = Some q -> q ∉ l;
  lv_mem o q b : X o -> is_table o = true -> obj_at root s o = Some q -> q <= b < q + 4096 -> peek (k_mem k) b = peek m0 b
}.

(** The pages of the tables that [X] names. *)
Definition tables (X : obj -> Prop) (q : Z) : Prop := exists o, X o /\ is_table o = true /\ obj_at root s o = Some q.

(** Those pages, and no others, are freed; [W] are the others that may have been written. *)
Record freed k (l : list Z) (X : obj -> Prop) (W : Z -> Prop) k' (l' : list Z) : Prop := {
  fd_heap : heap k' l';
  fd_frame : mem_frame k k';
  fd_lo : ram_lo (k_mem k') = ram_lo (k_mem k);
  fd_hi : ram_hi (k_mem k') = ram_hi (k_mem k);
  fd_list q : q ∈ l' <-> q ∈ l \/ tables X q;
  fd_mem b : (forall q, tables X q \/ W q -> ~ (q <= b < q + 4096)) -> peek (k_mem k') b = peek (k_mem k) b
}.

Lemma freed_live k l X W k' l' Y :
  freed k l X W k' l' -> live k l Y -> (forall o, Y o -> ~ X o) -> (forall o q, Y o -> obj_at root s o = Some q -> ~ W q) ->
  (forall q, W q -> q mod 4096 = 0) -> live k' l' Y.
Proof.
  intros [A1 A2 A3 A4 A5 A6] [[B1 B1'] B2 B3 B4 B5 B6] HY HW Ha. split; try congruence.
  - by apply (mem_frame_cpu c k k').
  - intros o q Yo Ht E [Hq|(o' & Xo & Ht' & E')]%A5; [by apply (B5 o q)|]. apply (HY o Yo). by rewrite (rep_inj _ _ _ R o o' q).
  - intros o q b Yo Ht E Hb. rewrite A6; [by apply (B6 o q)|]. intros q' Hq'. destruct (rep_page _ _ _ R o q E) as [[Hqa _] _].
    apply (pages_apart q' q); try done.
    + destruct Hq' as [(o' & _ & _ & E')|Hq']; [|by apply Ha]. by destruct (rep_page _ _ _ R o' q' E') as [[? _] _].
    + intros ->. destruct Hq' as [(o' & Xo & _ & E')|Hq']; [|by apply (HW o q')]. apply (HY o Yo). by rewrite (rep_inj _ _ _ R o o' q').
Qed.

(** One entry of table [o]. *)
Definition walk_entry (d : nat) (q i : Z) : M (kernel H) unit :=
  let! pte := get_pte (pte_at q i) in
  if has pte PTE_VALID && has pte PTE_TABLE && negb (has pte PTE_AF) then
    freewalk d (P2V (PTE2PA pte)) ;; set_pte (pte_at q i) 0
  else ret tt.

Lemma freewalk_unfold d q : freewalk (S d) q = (for_n 512 0 (walk_entry d q) ;; kfree q).
Proof. reflexivity. Qed.

(** The tables below entries [i] to 511. *)
Definition below (o : obj) (i : Z) (o' : obj) : Prop := exists x, i <= x < 512 /\ under (child o x) o'.

(** [freewalk] on a table of rank [d]. *)
Definition walks (d : nat) : Prop := forall k l o q, rank o = d -> (0 < d)%nat -> obj_at root s o = Some q -> live k l (under o) ->
  exists k' l', freewalk d q k = Ok tt k' /\ freed k l (under o) (fun _ => False) k' l'.

Lemma tables_nil q : tables (fun _ => False) q -> False.
Proof. by intros (o & [] & _). Qed.

Lemma freed_refl k l X W : heap k l -> (forall q, ~ tables X q) -> freed k l X W k l.
Proof. intros Hh HX. split; try done; [apply mem_frame_refl|]. intros q. split; [by left|]. intros [?|Hq]; [done|by apply HX in Hq]. Qed.

Lemma freed_trans k l X Y Z0 W k1 l1 k2 l2 :
  freed k l X W k1 l1 -> freed k1 l1 Y W k2 l2 -> (forall o, Z0 o <-> X o \/ Y o) -> freed k l Z0 W k2 l2.
Proof.
  intros [A1 A2 A3 A4 A5 A6] [B1 B2 B3 B4 B5 B6] HZ. 
  assert (forall q, tables Z0 q <-> tables X q \/ tables Y q) as HT.
  { intros q. split; [intros (o & [Ho|Ho]%HZ & ?); [left|right]; by exists o|]. intros [(o & Ho & ?)|(o & Ho & ?)]; exists o; (split; [apply HZ; auto|done]). }
  split; try congruence; [by eapply mem_frame_trans| |].
  - intros q. rewrite B5, A5, HT. tauto.
  - intros b Hb. rewrite B6, A6; [done| |]; intros q Hq; apply Hb; rewrite HT; tauto.
Qed.

(** An entry is cleared in a table that is not free. *)
Lemma clear_entry k l o q i :
  heap k l -> ram_lo (k_mem k) = ram_lo m0 -> ram_hi (k_mem k) = ram_hi m0 -> is_table o = true -> obj_at root s o = Some q -> q ∉ l -> 0 <= i < 512 ->
  exists k', set_pte (pte_at q i) 0 k = Ok tt k' /\ freed k l (fun _ => False) (fun p => p = q) k' l /\
    forall b, ~ (q + 8 * i <= b < q + 8 * i + 8) -> peek (k_mem k') b = peek (k_mem k) b.
Proof.
  intros Hh L1 L2 Ht E Hq Hi. destruct (rep_page _ _ _ R o q E) as [Hk Hr]. pose proof Hk as [Ha _]. rewrite pte_at_ok by done. set (a := q + 8 * i).
  assert (in_ram (k_mem k) a 8 = true) as Hin by (apply (in_ram_sub _ q 4096); [unfold in_ram in *; by rewrite L1, L2|unfold a; lia..]).
  eexists. split; [by apply store64_ok|]. destruct (wr_bounds 8 a 0 (k_mem k)) as [W1 W2].
  assert (forall b, ~ (a <= b < a + 8) -> peek (wr 8 a 0 (k_mem k)) b = peek (k_mem k) b) as Hs by (intros b Hb; apply peek_wr_other; lia).
  split; [|exact Hs]. destruct Hh as [B1 B2 B3]. split; cbn; [split; cbn; [unfold Lib.ram_ok in *; by rewrite W1, W2| |done]|done|done|done| |].
  - apply (chain_write (k_mem k) _ _ l q); try done. intros b Hb. apply Hs. unfold a, PGSIZE in *. lia.
  - intros p. split; [by left|]. intros [?|Hp]; [done|by apply tables_nil in Hp].
  - intros b Hb. apply Hs. specialize (Hb q ltac:(by right)). unfold a. lia.
Qed.

Lemma live_weaken k l (X Y : obj -> Prop) : live k l X -> (forall o, Y o -> X o) -> live k l Y.
Proof. intros [A0 A1 A2 A3 A4 A5] HY. split; try done; intros o q; [intros Ho; by apply A4, HY|intros b Ho; by apply A5, HY]. Qed.

Lemma freed_weaken k l X (W W' : Z -> Prop) k' l' : freed k l X W k' l' -> (forall q, W q -> W' q) -> freed k l X W' k' l'.
Proof. intros [A1 A2 A3 A4 A5 A6] HW. split; try done. intros b Hb. apply A6. intros q [?|?]; apply Hb; auto. Qed.

(** Where there is no table, there is none below. *)
Lemma no_child o i : is_table o = true -> 0 <= i < 512 -> obj_at root s (child o i) = None -> forall q, ~ tables (under (child o i)) q.
Proof.
  intros Ht Hi E q (o' & Hu & Ht' & E'). destruct o as [|x|x|x], o' as [|y|y|y]; cbn in *; try done; try congruence.
  destruct (rep_leaf _ _ _ R y ltac:(by eexists)) as [z Ez]. congruence.
Qed.

Lemma entry_child o i : is_table o = true -> tab_ent s o i = from_option table_pte 0 (obj_at root s (child o i)) /\
  (is_table (child o i) = false -> obj_at root s (child o i) = None).
Proof. intros Ht. destruct o; try done; cbn; rewrite ?Hnone; by split. Qed.

(** A byte of table [o] is in no table below it. *)
Lemma not_below o i q b : 0 <= i < 512 -> obj_at root s o = Some q -> q <= b < q + 4096 ->
  forall p, tables (under (child o i)) p -> p <> q /\ ~ (p <= b < p + 4096).
Proof.
  intros Hi E Hb p (o' & Hu & Ht' & E'). assert (p <> q) as Hne.
  { intros ->. destruct (under_child o i o' Hi Hu) as [_ Hne]. by apply Hne, (rep_inj _ _ _ R o' o q). }
  split; [done|]. destruct (rep_page _ _ _ R o q E) as [[Hq _] _], (rep_page _ _ _ R o' p E') as [[Hp _] _]. by apply (pages_apart p q).
Qed.

Lemma entry_ok d k l o q i :
  walks d -> rank o = S d -> obj_at root s o = Some q -> 0 <= i < 512 -> q ∉ l -> live k l (below o i) ->
  (forall b, q + 8 * i <= b < q + 4096 -> peek (k_mem k) b = peek m0 b) ->
  exists k' l', walk_entry d q i k = Ok tt k' /\ freed k l (under (child o i)) (fun p => p = q) k' l' /\
    (forall b, q + 8 * (i + 1) <= b < q + 4096 -> peek (k_mem k') b = peek m0 b).
Proof.
  intros IH Hrk E Hi Hq L Hrow. assert (is_table o = true) as Ht by by destruct o.
  destruct (rep_page _ _ _ R o q E) as [Hk Hr]. destruct L as [L0 L1 L2 L3 L4 L5] eqn:HL. clear HL. rename L into L.
  assert (get_pte (pte_at q i) k = Ok (tab_ent s o i) k) as Eg.
  { rewrite pte_at_ok by done. unfold get_pte. rewrite load64_ok by (apply (in_ram_sub _ q 4096); [unfold in_ram in *; by rewrite L2, L3|lia..]).
    rewrite <- (rep_ent _ _ _ R o q i Ht E Hi). f_equal. apply rd_ext. intros b Hb. apply Hrow. lia. }
  unfold walk_entry. rewrite (bind_Ok _ _ _ _ _ Eg). destruct (entry_child o i Ht) as [Ee Hlf]. rewrite Ee.
  destruct (obj_at root s (child o i)) as [p|] eqn:Ec; cbn [from_option].
  - destruct (rep_page _ _ _ R _ p Ec) as [Hp _]. destruct (table_pte_walk p Hp) as [-> Ef]. change (P2V (PTE2PA (table_pte p))) with (frame_of (table_pte p)). rewrite Ef.
    assert (is_table (child o i) = true) as Htc by (destruct (is_table (child o i)); [done|by specialize (Hlf eq_refl)]).
    assert (rank (child o i) = d /\ (0 < d)%nat) as [Hrc Hd] by (destruct o; cbn in *; try done; injection Hrk as <-; by split; [|lia]).
    destruct (IH k l (child o i) p Hrc Hd Ec) as (k1 & l1 & E1 & F1). { apply (live_weaken k l (below o i)); [done|]. intros o' Ho. exists i. by split; [lia|]. }
    assert (q ∉ l1) as Hq1 by (intros [?|Hin]%(fd_list _ _ _ _ _ _ F1); [done|]; destruct (not_below o i q q Hi E ltac:(lia) q Hin) as [Hne _]; by apply Hne).
    destruct (clear_entry k1 l1 o q i (fd_heap _ _ _ _ _ _ F1)) as (k2 & E2 & F2 & P2); try done; [rewrite (fd_lo _ _ _ _ _ _ F1); done|rewrite (fd_hi _ _ _ _ _ _ F1); done|].
    exists k2, l1. rewrite (bind_Ok _ _ _ _ _ E1). split; [done|]. split.
    + eapply freed_trans; [apply (freed_weaken _ _ _ (fun _ => False)); [exact F1|done]|exact F2|]. intros o'. tauto.
    + intros b Hb. rewrite P2 by lia. rewrite (fd_mem _ _ _ _ _ _ F1); [apply Hrow; lia|]. intros p' [Hp'|[]]. apply (not_below o i q b); [done|done|lia|done].
  - exists k, l. split; [done|]. split; [apply freed_refl; [done|by apply no_child]|]. intros b Hb. apply Hrow. lia.
Qed.

(** The loop over a table. *)
Lemma entries_ok d o q : walks d -> rank o = S d -> obj_at root s o = Some q ->
  forall n k l i, 0 <= i -> i + Z.of_nat n = 512 -> q ∉ l -> live k l (below o i) ->
  (forall b, q + 8 * i <= b < q + 4096 -> peek (k_mem k) b = peek m0 b) ->
  exists k' l', for_n n i (walk_entry d q) k = Ok tt k' /\ freed k l (below o i) (fun p => p = q) k' l' /\ q ∉ l'.
Proof.
  intros IHd Hrk E. induction n as [|n IH]; intros k l i Hi Hn Hq L Hrow; cbn [for_n].
  - exists k, l. split; [done|]. split; [|done]. apply freed_refl; [apply L|]. intros p (o' & (x & Hx & _) & _). lia.
  - destruct (entry_ok d k l o q i IHd Hrk E ltac:(lia) Hq L Hrow) as (k1 & l1 & E1 & F1 & P1). rewrite (bind_Ok _ _ _ _ _ E1).
    destruct (IH k1 l1 (i + 1)) as (k2 & l2 & E2 & F2 & Hq2); try lia; try done.
    + intros [?|Hin]%(fd_list _ _ _ _ _ _ F1); [done|]. destruct (not_below o i q q ltac:(lia) E ltac:(lia) q Hin) as [Hne _]. by apply Hne.
    + eapply freed_live; [exact F1|apply (live_weaken k l (below o i)); [done|]| | |].
      * intros o' (x & Hx & Hu). exists x. by split; [lia|].
      * intros o' (x & Hx & Hu) Hu'. pose proof (under_child_inj o x i o' ltac:(lia) ltac:(lia) Hu Hu'). lia.
      * intros o' p (x & Hx & Hu) Eo ->. destruct (under_child o x o' ltac:(lia) Hu) as [_ Hne]. by apply Hne, (rep_inj _ _ _ R o' o q).
      * intros p ->. by destruct (rep_page _ _ _ R o q E) as [[? _] _].
    + exists k2, l2. split; [done|]. split; [|done]. eapply freed_trans; [exact F1|exact F2|]. intros o'. split.
      * intros (x & Hx & Hu). destruct (decide (x = i)) as [->|Hne]; [by left|right]. exists x. by split; [lia|].
      * intros [Hu|(x & Hx & Hu)]; [exists i|exists x]; (split; [lia|done]).
Qed.

Lemma freewalk_ok : forall d, walks d.
Proof.
  induction d as [|d IH]; intros k l o q Hrk Hd E L; [lia|]. assert (is_table o = true) as Ht by by destruct o.
  assert (q ∉ l) as Hq by (by apply (lv_free _ _ _ L o q); [apply under_refl|..]).
  destruct (entries_ok d o q IH Hrk E 512 k l 0 ltac:(lia) ltac:(lia) Hq) as (k1 & l1 & E1 & F1 & Hq1).
  { apply (live_weaken k l (under o)); [done|]. intros o' (x & Hx & Hu). by apply (under_child o x o'). }
  { intros b Hb. apply (lv_mem _ _ _ L o q); [by apply under_refl|done|done|lia]. }
  rewrite freewalk_unfold, (bind_Ok _ _ _ _ _ E1). destruct (rep_page _ _ _ R o q E) as [Hk Hr]. destruct (kpage_u64 q Hk) as (_ & _ & Hq0).
  destruct (lv_cpu _ _ _ L) as [Hc Hf]. destruct (mem_frame_cpu c k k1 (fd_frame _ _ _ _ _ _ F1) Hc Hf) as [Hc1 Hf1].
  destruct (kfree_ok c k1 l1 Hc1 Hf1 (fd_heap _ _ _ _ _ _ F1) q) as (k2 & E2 & MF & H2 & B1 & B2 & P2); [|done|].
  { split; [apply Hk|]. split; [split; [by apply (En o)|apply Hk]|]. split; [done|]. unfold PGSIZE, in_ram in *.
    by rewrite (fd_lo _ _ _ _ _ _ F1), (fd_hi _ _ _ _ _ _ F1), (lv_lo _ _ _ L), (lv_hi _ _ _ L). }
  exists k2, (q :: l1). split; [done|]. destruct F1 as [A1 A2 A3 A4 A5 A6].
  assert (forall p, tables (under o) p <-> p = q \/ tables (below o 0) p) as HT.
  { intros p. split.
    - intros (o' & Hu & Ht' & E'). destruct (under_inv m0 root s o o' R ltac:(by eexists) Hu) as [->|(x & Hx & Hu')]; [left; congruence|].
      right. exists o'. split; [by exists x|done].
    - intros [->|(o' & (x & Hx & Hu) & ?)]; [exists o; by split; [apply under_refl|]|]. exists o'. split; [by apply (under_child o x o')|done]. }
  split; [done|by eapply mem_frame_trans|congruence|congruence| |].
  - intros p. rewrite elem_of_cons, A5, HT. tauto.
  - intros b Hb. rewrite P2, A6; [done| |].
    + intros p [Hp| ->]; apply Hb; left; apply HT; auto.
    + apply (Hb q). left. apply HT. by left.
Qed.

End Walk.

Lemma uvmfree_ok c k l root s sz :
  on_cpu c k -> free LKmem k -> uspace k l root s -> 0 <= sz <= 2 ^ 38 -> sized s (npages sz) ->
  exists k' l', uvmfree root sz k = Ok tt k' /\ heap k' l' /\ mem_frame k k' /\
    (forall p, p ∈ l' <-> owned root l s p) /\
    only_pages l' (k_mem k) (k_mem k').
Proof.
  intros Hc Hf U Hsz Sz. destruct (npages_ok sz Hsz) as (_ & Hn & Hb). set (n := npages sz) in *.
  destruct (uvmunmap_loop_ok c (Z.to_nat n) k l root s 0 Hc Hf U ltac:(lia) ltac:(lia)) as (k1 & l1 & s1 & E1 & U1 & S1 & F1 & P1).
  { intros x Hx. apply (sized_some s n); [done|lia]. }
  rewrite !Z.add_0_l, Z2Nat.id in * by lia.
  assert ((if sz >? 0 then uvmunmap root 0 (PGROUNDUP sz / PGSIZE) true else ret tt) k = Ok tt k1) as E.
  { destruct (Z.gtb_spec sz 0) as [Hpos|Hz].
    - unfold uvmunmap. change (0 mod PGSIZE) with 0. cbn [Z.eqb negb]. change (PGROUNDUP sz / PGSIZE) with n. unfold PGSIZE.
      rewrite u64_small by (unfold is_u64; lia). replace (0 + n * 4096) with (n * 4096) by lia. exact E1.
    - assert (n = 0) as Hn0 by lia. rewrite Hn0 in E1. exact E1. }
  assert (forall v, sp_pages s1 !! v = None) as Hnone.
  { intros v. rewrite P1. destruct (sp_pages s !! v) as [e|] eqn:Ev; [|by destruct (_ && _)].
    assert (0 <= v < n) by (apply (sz_dom _ _ Sz); by eexists). destruct (Z.leb_spec 0 v), (Z.ltb_spec v n); (done || lia). }
  destruct (mem_frame_cpu c k k1 (sh_frame _ _ _ _ _ _ _ S1) Hc Hf) as [Hc1 Hf1]. pose proof U1 as [H1 R1 Fr1 En1].
  destruct (freewalk_ok c (k_mem k1) root s1 R1 Hnone En1 3 k1 l1 ORoot root eq_refl ltac:(lia) eq_refl) as (k2 & l2 & E2 & F2).
  { split; try done. intros o q _ _ Eo Hq. by apply (Fr1 q o). }
  exists k2, l2. unfold uvmfree. rewrite (bind_Ok _ _ _ _ _ E). split; [exact E2|]. split; [apply F2|].
  split; [eapply mem_frame_trans; [apply S1|apply F2]|].
  assert (forall p, p ∈ l2 <-> owned root l s p) as HL.
  { intros p. rewrite (fd_list _ _ _ _ _ _ _ _ F2), (sh_keep _ _ _ _ _ _ _ S1 p). unfold owned. split.
    - intros [?|(o & _ & _ & Eo)]; [by left|right; by exists o].
    - intros [?|(o & Eo)]; [by left|right]. exists o. destruct o; try done. cbn in Eo. by rewrite Hnone in Eo. }
  split; [exact HL|]. split; [by rewrite (fd_lo _ _ _ _ _ _ _ _ F2), (sh_lo _ _ _ _ _ _ _ S1)|].
  split; [by rewrite (fd_hi _ _ _ _ _ _ _ _ F2), (sh_hi _ _ _ _ _ _ _ S1)|]. intros b Hbb. rewrite (fd_mem _ _ _ _ _ _ _ _ F2), (sh_mem _ _ _ _ _ _ _ S1); [done| | |].
  - intros o q _ Eo. apply Hbb, HL. right. by exists o.
  - intros q Hq. apply Hbb, (fd_list _ _ _ _ _ _ _ _ F2). by left.
  - intros q [Hq|[]]. apply Hbb, (fd_list _ _ _ _ _ _ _ _ F2). by right.
Qed.

(** C18 [uvmfree] gives every page of a user space back: the pages it maps, the tables of all
    levels and the root are free, each once, the pages that were free still are, and no
    other page has become so; no byte outside those pages has changed.  It ends: a space has
    three levels of tables, and none of their entries makes it panic. *)
Theorem uvmfree_spec c k l root s sz :
  on_cpu c k -> free LKmem k -> uspace k l root s -> 0 <= sz <= 2 ^ 38 -> sized s (npages sz) ->
  exists k' l', uvmfree root sz k = Ok tt k' /\ heap k' l' /\ mem_frame k k' /\
    (forall p, p ∈ l' <-> owned root l s p) /\
    only_pages l' (k_mem k) (k_mem k').
Proof. apply uvmfree_ok. Qed.
End Free.

Lemma uvmfree_spec_witness : exists (k k' : kernel unit) (l l' : list Z) p s, uvmfree p 12288 k = Ok tt k' /\ heap k' l' /\ image s /\
  forall q, q ∈ l' <-> owned p l s q.
Proof.
  destruct parent_and_child as (k & l & p & s & q & Hc & Hf & T & I & _).
  destruct (uvmfree_spec cpu0 k l p s 12288 Hc Hf (tw_old _ _ _ _ _ _ T) ltac:(lia) ltac:(rewrite npages_image; exact (im_sized s I))) as (k' & l' & E & Hh & _ & HL & _).
  exists k, k', l, l', p, s. split; [exact E|]. split; [exact Hh|]. split; [exact I|exact HL].
Defined.
