(* ===== verification/KForkProofs.v ===== *)
(** What [fork] promises (proc.c): a child with the memory, the registers, the open files and the
    directory of its parent, or no child at all and nothing lost. *)
From stdpp Require Import base gmap sets list numbers strings tactics.
From S2P Require Import Prelude Mem Ram KMachine KString KBytes KSched KBss KAlloc KVm KProc KCons KBio KLog KFs KFile KFork KSpace KUvm KUvmCopy KFree.

Section Fork.
Context {H : Type} `{!Platform H} `{!Symbols} `{Hend : !SymbolLaws} `{!SleepFuel} `{!KPollFuel} `{!DiskDriver H}.
Implicit Types k : kernel H.

(** * One slot of the process table, its lock held *)

Definition put (i : nat) (r : proc) k : kernel H := set_k_proc (<[i := r]> (k_proc k)) k.

Lemma put_put i r r' k : put i r (put i r' k) = put i r k.
Proof. unfold put. cbn. by rewrite list_insert_insert_eq. Qed.
Lemma put_same i r k : k_proc k !! i = Some r -> put i r k = k.
Proof. intros E. unfold put. rewrite list_insert_id by done. by destruct k. Qed.

Section Slot.
Context (c : cpu) (nm : string) (i : nat).
Implicit Types r : proc.

(** The slot of [k] is [r], and its lock is held. *)
Definition held r k : kernel H := enter c nm (LProc i) (put i r k).

Lemma get_slot r k : (i < length (k_proc k))%nat -> get_proc i (held r k) = Ok r (held r k).
Proof. intros Hi. apply aget_ok. cbn. by apply list_lookup_insert_eq. Qed.
Lemma upd_slot f r k : (i < length (k_proc k))%nat -> upd_proc i f (held r k) = Ok tt (held (f r) k).
Proof.
  intros Hi. unfold upd_proc. erewrite aupd_ok by (cbn; by apply list_lookup_insert_eq). unfold held. rewrite <- (put_put i (f r) r). reflexivity.
Qed.
Lemma get_other j r r' k : j <> i -> k_proc k !! j = Some r' -> get_proc j (held r k) = Ok r' (held r k).
Proof. intros Hne E. apply aget_ok. cbn. by rewrite list_lookup_insert_ne. Qed.

Lemma held_cpu r k : on_cpu c k -> on_cpu (set_c_noff (c_noff c + 1) c) (held r k).
Proof. intros Hc. by apply on_cpu_enter. Qed.
Lemma held_free r k lk : (forall j, lk <> LProc j) -> free lk k -> free lk (held r k).
Proof. intros Hne Hf. by apply free_enter. Qed.

(** Running code that only the allocator of pages is changed by. *)
Lemma held_mem r k k' : mem_frame (held r k) k' -> exists k1, k' = held r k1 /\ mem_frame k k1 /\ k_mem k1 = k_mem k' /\ k_freelist k1 = k_freelist k'.
Proof.
  intros F. exists (set_k_mem (k_mem k') (set_k_freelist (k_freelist k') k)). split; [exact F|]. done.
Qed.
End Slot.

(** Only the memory and the head of the free list matter to a space. *)
Lemma heap_on k k' l : k_mem k' = k_mem k -> k_freelist k' = k_freelist k -> heap k l -> heap k' l.
Proof. intros E1 E2 [A B C]. split; rewrite ?E1, ?E2; done. Qed.
Lemma uspace_on k k' l root s : k_mem k' = k_mem k -> k_freelist k' = k_freelist k -> uspace k l root s -> uspace k' l root s.
Proof. intros E1 E2 [A B C D]. split; try done; [by apply (heap_on k)|by rewrite E1]. Qed.
Lemma two_on k k' l root0 s0 root s : k_mem k' = k_mem k -> k_freelist k' = k_freelist k -> two k l root0 s0 root s -> two k' l root0 s0 root s.
Proof. intros E1 E2 [A B C]. split; [by apply (uspace_on k)..|done]. Qed.

(** * Locks taken for one update *)

Lemma allocpid_ok c k : on_cpu c k -> free LPid k -> allocpid k = Ok (k_nextpid k) (set_k_nextpid (i32 (k_nextpid k + 1)) k).
Proof.
  intros Hc [nm E]. unfold allocpid. rewrite (bind_Ok _ _ _ _ _ (acquire_ok c nm _ k Hc E)). erewrite bind_Ok by reflexivity. erewrite bind_Ok by reflexivity.
  change (k_nextpid (enter c nm LPid k)) with (k_nextpid k).
  rewrite (bind_Ok (release LPid) _ tt _ (set_k_nextpid (i32 (k_nextpid k + 1)) k)); [done|]. by apply (release_ok c nm LPid (set_k_nextpid (i32 (k_nextpid k + 1)) k)).
Qed.

Lemma filedup_ok c k f r : on_cpu c k -> free LFtable k -> k_files k !! f = Some r -> 1 <= f_ref r < 2 ^ 31 - 1 ->
  filedup f k = Ok f (set_k_files (<[f := set_f_ref (f_ref r + 1) r]> (k_files k)) k).
Proof.
  intros Hc [nm E] Ef Hr. unfold filedup, upd_file. rewrite (bind_Ok _ _ _ _ _ (acquire_ok c nm _ k Hc E)).
  assert (k_files (enter c nm LFtable k) !! f = Some r) as Ef' by done.
  rewrite (bind_Ok _ _ _ _ _ (aget_ok _ _ _ _ Ef')). destruct (Z.ltb_spec (f_ref r) 1); [lia|].
  rewrite (bind_Ok _ _ _ _ _ (aupd_ok _ _ _ _ _ _ Ef')). change (k_files (enter c nm LFtable k)) with (k_files k).
  rewrite (i32_id (f_ref r + 1)) by lia.
  rewrite (bind_Ok (release LFtable) _ tt _ (set_k_files (<[f := set_f_ref (f_ref r + 1) r]> (k_files k)) k)); [done|]. by apply (release_ok c nm LFtable (set_k_files (<[f := set_f_ref (f_ref r + 1) r]> (k_files k)) k)).
Qed.

Lemma idup_ok c k d r : on_cpu c k -> free LItable k -> k_inodes k !! d = Some r -> 0 <= i_ref r < 2 ^ 31 - 1 ->
  idup d k = Ok d (set_k_inodes (<[d := set_i_ref (i_ref r + 1) r]> (k_inodes k)) k).
Proof.
  intros Hc [nm E] Ed Hr. unfold idup, upd_inode. rewrite (bind_Ok _ _ _ _ _ (acquire_ok c nm _ k Hc E)).
  assert (k_inodes (enter c nm LItable k) !! d = Some r) as Ed' by done.
  rewrite (bind_Ok _ _ _ _ _ (aupd_ok _ _ _ _ _ _ Ed')). change (k_inodes (enter c nm LItable k)) with (k_inodes k).
  rewrite (i32_id (i_ref r + 1)) by lia.
  rewrite (bind_Ok (release LItable) _ tt _ (set_k_inodes (<[d := set_i_ref (i_ref r + 1) r]> (k_inodes k)) k)); [done|]. by apply (release_ok c nm LItable (set_k_inodes (<[d := set_i_ref (i_ref r + 1) r]> (k_inodes k)) k)).
Qed.

(** * A slot is freed *)

(** What [freeproc] leaves of a slot. *)
Definition blank (r : proc) : proc :=
  mkProc UNUSED None 0 0 0 None (p_kstack r) 0 0 None (p_context r) (p_ofile r) (p_cwd r) (<[O := 0]> (p_name r)).

Section Free.
Context (c : cpu) (nm : string) (i : nat) (k : kernel H) (r : proc).
Context (Hc : on_cpu c k) (Hf : free LKmem k) (Hi : (i < length (k_proc k))%nat).

(** The rest of [freeproc], when the pages are gone. *)
Lemma freeproc_rest r1 k1 : length (k_proc k1) = length (k_proc k) ->
  (upd_proc i (set_p_pagetable 0) ;; upd_proc i (set_p_sz 0) ;; upd_proc i (set_p_pid 0) ;; upd_proc i (set_p_parent None) ;;
   upd_proc i (fun r => set_p_name (<[O := 0]> (p_name r)) r) ;; upd_proc i (set_p_chan None) ;; upd_proc i (set_p_killed 0) ;;
   upd_proc i (set_p_xstate 0) ;; upd_proc i (set_p_state UNUSED)) (held c nm i (set_p_trapframe None r1) k1) = Ok tt (held c nm i (blank r1) k1).
Proof.
  intros El. assert (i < length (k_proc k1))%nat as Hi1 by lia. do 8 rewrite (bind_Ok _ _ _ _ _ (upd_slot c nm i _ _ k1 Hi1)).
  by rewrite (upd_slot c nm i _ _ k1 Hi1).
Qed.

Lemma freeproc_null : p_pagetable r = 0 -> freeproc i (held c nm i r k) = Ok tt (held c nm i (blank r) k).
Proof.
  intros E0. unfold freeproc. rewrite (bind_Ok _ _ _ _ _ (upd_slot c nm i _ _ k Hi)), (bind_Ok _ _ _ _ _ (get_slot c nm i _ k Hi)).
  change (p_pagetable (set_p_trapframe None r)) with (p_pagetable r). rewrite E0. cbn [Z.eqb negb]. erewrite bind_Ok by reflexivity. by apply freeproc_rest.
Qed.

(** The pages of the process are free after it. *)
Lemma freeproc_ok l s : uspace k l (p_pagetable r) s -> 0 <= p_sz r <= 2 ^ 38 -> sized s (npages (p_sz r)) ->
  exists k' l', freeproc i (held c nm i r k) = Ok tt (held c nm i (blank r) k') /\ heap k' l' /\ mem_frame k k' /\
    (forall p, p ∈ l' <-> owned (p_pagetable r) l s p) /\
    only_pages l' (k_mem k) (k_mem k').
Proof.
  intros U Hsz Sz. destruct (rep_page _ _ _ (us_rep _ _ _ _ U) ORoot _ eq_refl) as [Hk _]. destruct (kpage_u64 _ Hk) as (_ & _ & Hroot).
  set (r1 := set_p_trapframe None r).
  destruct (uvmfree_ok (set_c_noff (c_noff c + 1) c) (held c nm i r1 k) l (p_pagetable r) s (p_sz r)) as (S' & l' & E & Hh & F & HL & B1 & B2 & HB).
  { by apply held_cpu. } { by apply held_free. } { by apply (uspace_on k). } { done. } { done. }
  destruct (held_mem c nm i r1 k S' F) as (k' & -> & F' & M1 & M2). exists k', l'. split; [|split; [by apply (heap_on (held c nm i r1 k'))|done]].
  unfold freeproc. rewrite (bind_Ok _ _ _ _ _ (upd_slot c nm i _ _ k Hi)), (bind_Ok _ _ _ _ _ (get_slot c nm i _ k Hi)).
  change (p_pagetable (set_p_trapframe None r)) with (p_pagetable r). change (p_sz (set_p_trapframe None r)) with (p_sz r).
  destruct (Z.eqb_spec (p_pagetable r) 0); [lia|]. cbn [negb]. rewrite (bind_Ok _ _ _ _ _ E). apply freeproc_rest. by rewrite F'.
Qed.
End Free.

(** * A slot is taken *)

Definition unused (r : proc) : Prop := p_state r = UNUSED.
#[export] Instance unused_dec r : Decision (unused r).
Proof. unfold unused. apply _. Defined.

Lemma find_unused_proc_ok c k : on_cpu c k -> procs_free k -> forall n i, (i + n)%nat = length (k_proc k) ->
  match list_find unused (skipn i (k_proc k)) with
  | Some (j, _) => exists nm, k_locks k !! LProc (i + j)%nat = Some (mkLk 0 nm None) /\
      find_unused_proc n i k = Ok (Some (i + j)%nat) (enter c nm (LProc (i + j)%nat) k)
  | None => find_unused_proc n i k = Ok None k
  end.
Proof.
  intros Hc [Hlen Hfree]. induction n as [|n IH]; intros i Hi; cbn [find_unused_proc].
  - rewrite (drop_ge (k_proc k)) by lia. done.
  - destruct (lookup_lt_is_Some_2 (k_proc k) i ltac:(lia)) as [r Er]. destruct (Hfree i ltac:(lia)) as [nm El].
    rewrite (bind_Ok _ _ _ _ _ (acquire_ok c nm _ k Hc El)).
    assert (k_proc (enter c nm (LProc i) k) !! i = Some r) as Er' by done. rewrite (bind_Ok _ _ _ _ _ (aget_ok _ _ _ _ Er')).
    rewrite (drop_S _ _ _ Er). cbn [list_find]. destruct (decide (unused r)) as [Hu|Hu].
    + rewrite bool_decide_eq_true_2 by done. exists nm. rewrite Nat.add_0_r. done.
    + rewrite bool_decide_eq_false_2 by done. rewrite (bind_Ok _ _ _ _ _ (release_ok c nm (LProc i) k Hc El)).
      specialize (IH (S i) ltac:(lia)). destruct (list_find unused _) as [[j x]|]; cbn; [|done].
      by rewrite Nat.add_succ_r.
Qed.

Lemma uvmcreate_none k : kalloc k = Ok 0 k -> uvmcreate k = Ok 0 k.
Proof. intros E. unfold uvmcreate. by rewrite (bind_Ok _ _ _ _ _ E). Qed.

(** What [allocproc] makes of an unused slot. *)
Definition fresh (i : nat) (pid root : Z) (r : proc) : proc :=
  set_p_context (mkCtx (u64 (p_kstack r + PGSIZE - TRAPFRAME_SIZE)) (<[CTX_X30 := sym_forkret]> (replicate 13 0)))
    (set_p_pagetable root (set_p_trapframe (Some i) (set_p_state USED (set_p_pid pid r)))).

(** A slot is taken and a root table, or there is no free page and the slot stays unused. *)
Lemma allocproc_ok c k l root0 s0 : on_cpu c k -> procs_free k -> free LPid k -> free LKmem k -> uspace k l root0 s0 ->
  let k1 := set_k_nextpid (i32 (k_nextpid k + 1)) k in
  match list_find unused (k_proc k) with
  | None => allocproc k = Ok None k
  | Some (i, r) => 
      match l with
      | [] => allocproc k = Ok None (put i (blank r) k1)
      | p :: l' => exists nm k', k_locks k !! LProc i = Some (mkLk 0 nm None) /\ mem_frame k1 k' /\
          allocproc k = Ok (Some i) (held c nm i (fresh i (k_nextpid k) p r) k') /\ two k' l' root0 s0 p no_space /\
          untouched root0 s0 (k_mem k) (k_mem k')
      end
  end.
Proof.
  intros Hc Hp Hfp Hfk U k1. pose proof (find_unused_proc_ok c k Hc Hp (Z.to_nat NPROC) 0 ltac:(destruct Hp; lia)) as F. rewrite drop_0 in F.
  unfold allocproc. destruct (list_find unused (k_proc k)) as [[i r]|] eqn:Ei; cbn [Nat.add] in F; [|by rewrite (bind_Ok _ _ _ _ _ F)].
  destruct F as (nm & El & F). rewrite (bind_Ok _ _ _ _ _ F). apply list_find_Some in Ei as (Er & Hu & _). pose proof (lookup_lt_Some _ _ _ Er) as Hi.
  assert (enter c nm (LProc i) k = held c nm i r k) as -> by (unfold held; by rewrite put_same).
  rewrite (bind_Ok _ _ _ _ _ (allocpid_ok _ _ (held_cpu c nm i r k Hc) (held_free c nm i r k LPid ltac:(done) Hfp))).
  change (k_nextpid (held c nm i r k)) with (k_nextpid k). change (set_k_nextpid (i32 (k_nextpid k + 1)) (held c nm i r k)) with (held c nm i r k1).
  assert (i < length (k_proc k1))%nat as Hi1 by done.
  do 2 rewrite (bind_Ok _ _ _ _ _ (upd_slot c nm i _ _ k1 Hi1)). rewrite (bind_Ok _ _ _ _ _ (get_slot c nm i _ k1 Hi1)). cbv zeta.
  rewrite (bind_Ok _ _ _ _ _ (upd_slot c nm i _ _ k1 Hi1)). set (r1 := set_p_trapframe (Some i) _).
  assert (on_cpu (set_c_noff (c_noff c + 1) c) (held c nm i r1 k1)) as Hc1 by by apply held_cpu.
  assert (free LKmem (held c nm i r1 k1)) as Hf1 by by apply held_free. destruct l as [|p l'].
  - assert (heap (held c nm i r1 k1) []) as Hh by (by apply (heap_on k), U).
    rewrite (bind_Ok _ _ _ _ _ (uvmcreate_none _ (kalloc_none _ _ [] Hc1 Hf1 Hh eq_refl))).
    rewrite (bind_Ok _ _ _ _ _ (upd_slot c nm i _ _ k1 Hi1)). cbn [Z.eqb].
    rewrite (bind_Ok _ _ _ _ _ (freeproc_null c nm i k1 (set_p_pagetable 0 r1) Hi1 eq_refl)). unfold held. rewrite (bind_Ok _ _ _ _ _ (release_ok c nm (LProc i) (put i (blank (set_p_pagetable 0 r1)) k1) Hc El)). done.
  - destruct (uvmcreate_two _ (held c nm i r1 k1) p l' root0 s0 Hc1 Hf1) as (S' & E & T & F' & N). { by apply (uspace_on k). }
    destruct (rep_page _ _ _ (us_rep _ _ _ _ (tw_new _ _ _ _ _ _ T)) ORoot _ eq_refl) as [Hk _]. destruct (kpage_u64 _ Hk) as (_ & _ & Hroot).
    destruct (held_mem c nm i r1 k1 S' F') as (k' & -> & F1 & M1 & M2). exists nm, k'. split; [done|]. split; [done|].
    assert (i < length (k_proc k'))%nat as Hi' by by rewrite F1.
    rewrite (bind_Ok _ _ _ _ _ E), (bind_Ok _ _ _ _ _ (upd_slot c nm i _ _ k' Hi')). destruct (Z.eqb_spec p 0); [lia|].
    rewrite (bind_Ok _ _ _ _ _ (upd_slot c nm i _ _ k' Hi')). split; [done|]. split; [by apply (two_on (held c nm i r1 k'))|done].
Qed.

(** * The open files *)

(** How often an array of files has file [f]. *)
Definition times (f : nat) (ofs : list (option nat)) : Z := Z.of_nat (length (filter (fun o => o = Some f) ofs)).
(** One reference more for each. *)
Definition dup_all (ofs : list (option nat)) (fs : list file) : list file := imap (fun f r => set_f_ref (f_ref r + times f ofs) r) fs.

Lemma dup_all_lookup ofs fs f : dup_all ofs fs !! f = (fun r => set_f_ref (f_ref r + times f ofs) r) <$> fs !! f.
Proof. apply list_lookup_imap. Qed.

Lemma times_snoc f ofs o : times f (ofs ++ [o]) = times f ofs + if decide (o = Some f) then 1 else 0.
Proof. unfold times. rewrite list.filter_app, length_app, list.filter_cons. case_decide; cbn; lia. Qed.
Lemma times_bound f ofs : 0 <= times f ofs <= Z.of_nat (length ofs).
Proof. unfold times. pose proof (list.length_filter (fun o => o = Some f) ofs). lia. Qed.

Lemma dup_all_nil fs : dup_all [] fs = fs.
Proof. apply list_eq. intros f. rewrite dup_all_lookup. destruct (fs !! f) as [r|]; [|done]. cbn. change (times f []) with 0. rewrite Z.add_0_r. by destruct r. Qed.
Lemma dup_all_none ofs fs : dup_all (ofs ++ [None]) fs = dup_all ofs fs.
Proof. apply list_eq. intros f. rewrite !dup_all_lookup. destruct (fs !! f) as [r|]; [|done]. cbn. by rewrite times_snoc, decide_False, Z.add_0_r. Qed.
Lemma dup_all_some ofs fs f r : fs !! f = Some r ->
  <[f := set_f_ref (f_ref r + times f ofs + 1) r]> (dup_all ofs fs) = dup_all (ofs ++ [Some f]) fs.
Proof.
  intros E. apply list_eq. intros j. rewrite dup_all_lookup. destruct (decide (j = f)) as [->|Hne].
  - rewrite list_lookup_insert_eq by (unfold dup_all; rewrite length_imap; by eapply lookup_lt_Some). rewrite E. cbn.
    rewrite times_snoc, decide_True by done. do 2 f_equal. lia.
  - rewrite list_lookup_insert_ne, dup_all_lookup by done. destruct (fs !! j) as [x|]; [|done]. cbn.
    rewrite times_snoc, decide_False by congruence. by rewrite Z.add_0_r.
Qed.

Lemma fill_entry (t : list (option nat)) n o : <[length t := o]> (t ++ replicate (S n) None) = (t ++ [o]) ++ replicate n None.
Proof. rewrite insert_app_r_alt, Nat.sub_diag by done. cbn. by rewrite <- (assoc_L (++)). Qed.

(** Files that can be referenced as often again as an array of them says. *)
Definition dup_ok (ofs : list (option nat)) (fs : list file) : Prop :=
  length ofs = Z.to_nat NOFILE /\ forall f, Some f ∈ ofs -> exists r, fs !! f = Some r /\ 1 <= f_ref r < 2 ^ 31 - 1 - NOFILE.

(** The loop over the open files, as [fork] has it. *)
Definition dup_entry (me np : nat) (i : Z) : M (kernel H) unit :=
  let! rp := get_proc me in
  let! ofile := deref (p_ofile rp !! Z.to_nat i) in
  match ofile with
  | Some f => let! f' := filedup f in upd_proc np (fun r => set_p_ofile (<[Z.to_nat i := Some f']> (p_ofile r)) r)
  | None => ret tt
  end.

Lemma dup_loop_ok c nm me np k rp r : on_cpu c k -> free LFtable k -> me <> np -> (np < length (k_proc k))%nat -> k_proc k !! me = Some rp ->
  dup_ok (p_ofile rp) (k_files k) ->
  forall n j, (j + n)%nat = Z.to_nat NOFILE ->
  for_n n (Z.of_nat j) (dup_entry me np)
    (held c nm np (set_p_ofile (take j (p_ofile rp) ++ replicate n None) r) (set_k_files (dup_all (take j (p_ofile rp)) (k_files k)) k)) =
  Ok tt (held c nm np (set_p_ofile (p_ofile rp) r) (set_k_files (dup_all (p_ofile rp) (k_files k)) k)).
Proof.
  intros Hc Hf Hne Hnp Em [Hlen Hok]. induction n as [|n IH]; intros j Hj; cbn [for_n].
  - rewrite (firstn_all2 (p_ofile rp)) by lia. by rewrite app_nil_r.
  - unfold dup_entry at 1. set (k1 := set_k_files (dup_all (take j (p_ofile rp)) (k_files k)) k). set (r1 := set_p_ofile _ r).
    destruct (lookup_lt_is_Some_2 (p_ofile rp) j ltac:(lia)) as [o Eo]. pose proof (take_S_r _ _ _ Eo) as Et.
    assert (k_proc k1 !! me = Some rp) as Em1 by done. assert (np < length (k_proc k1))%nat as Hn1 by done.
    assert (held c nm np (set_p_ofile (take (S j) (p_ofile rp) ++ replicate n None) r) (set_k_files (dup_all (take (S j) (p_ofile rp)) (k_files k)) k) =
      held c nm np (set_p_ofile (<[j := o]> (p_ofile r1)) r1) (set_k_files (dup_all (take j (p_ofile rp) ++ [o]) (k_files k)) k)) as En.
    { rewrite Et. f_equal. cbn [p_ofile r1 set_p_ofile]. pose proof (fill_entry (take j (p_ofile rp)) n o) as Ef.
      rewrite length_take, Nat.min_l in Ef by lia. rewrite Ef. done. }
    specialize (IH (S j) ltac:(lia)). rewrite En in IH. replace (Z.of_nat j + 1) with (Z.of_nat (S j)) by lia.
    rewrite bind_assoc, (bind_Ok _ _ _ _ _ (get_other c nm np me r1 rp k1 Hne Em1)), Nat2Z.id, Eo, bind_assoc. cbn [deref].
    erewrite bind_Ok by reflexivity. destruct o as [f|].
    + destruct (Hok f) as (x & Ex & Hx); [by eapply list_elem_of_lookup_2|]. pose proof (times_bound f (take j (p_ofile rp))) as Ht.
      rewrite length_take in Ht. change NOFILE with 16 in *. set (x1 := set_f_ref (f_ref x + times f (take j (p_ofile rp))) x).
      assert (k_files (held c nm np r1 k1) !! f = Some x1) as Ex1 by (cbn; by rewrite dup_all_lookup, Ex).
      rewrite bind_assoc, (bind_Ok _ _ _ _ _ (filedup_ok _ (held c nm np r1 k1) f x1 (held_cpu c nm np r1 k1 Hc) (held_free c nm np r1 k1 LFtable ltac:(done) Hf) Ex1 ltac:(cbn; lia))).
      change (set_k_files ?l (held c nm np r1 k1)) with (held c nm np r1 (set_k_files l k1)).
      change (k_files (held c nm np r1 k1)) with (dup_all (take j (p_ofile rp)) (k_files k)). cbn [f_ref x1 set_f_ref]. 
      change (set_f_ref ?v x1) with (set_f_ref v x). rewrite (dup_all_some _ _ _ _ Ex). change (set_k_files ?l k1) with (set_k_files l k).
      set (k2 := set_k_files _ k) in *. rewrite (bind_Ok _ _ _ _ _ (upd_slot c nm np _ r1 k2 Hn1)). exact IH.
    + rewrite dup_all_none in IH. erewrite bind_Ok by reflexivity. replace (set_p_ofile (<[j := None]> (p_ofile r1)) r1) with r1 in IH; [exact IH|].
      rewrite list_insert_id; [done|]. cbn [p_ofile r1 set_p_ofile]. by rewrite lookup_app_r, length_take, Nat.min_l, Nat.sub_diag by (rewrite ?length_take; lia).
Qed.

(** * The child *)

Definition child_of (me np : nat) (pid root : Z) (rp r : proc) : proc :=
  mkProc RUNNABLE (p_chan r) (p_killed r) (p_xstate r) pid (Some me) (p_kstack r) (p_sz rp) root (Some np)
    (mkCtx (u64 (p_kstack r + PGSIZE - TRAPFRAME_SIZE)) (<[CTX_X30 := sym_forkret]> (replicate 13 0)))
    (p_ofile rp) (p_cwd rp) (arr_safestrcpy (p_name r) (p_name rp) (NAME_SIZE - 1)).
(** Its registers: it returns from the system call with 0. *)
Definition child_tf (tf : trapframe) : trapframe := set_tf_x (<[O := 0]> (tf_x tf)) tf.

(** The part of [fork] after [uvmcopy] has succeeded. *)
Definition fork_tail (p np : nat) (rp : proc) : M (kernel H) Z :=
  upd_proc np (set_p_sz (p_sz rp)) ;;
  let! tf := get_tf p in
  upd_tf np (fun _ => tf) ;;
  upd_tf np (fun t => set_tf_x (<[O := 0]> (tf_x t)) t) ;;
  for_range 0 NOFILE (dup_entry p np) ;;
  let! cwd := deref (p_cwd rp) in
  let! cwd' := idup cwd in
  upd_proc np (set_p_cwd (Some cwd')) ;;
  upd_proc np (set_name (p_name rp)) ;;
  let! rn := get_proc np in
  let pid := p_pid rn in
  release (LProc np) ;;
  acquire LWait ;;
  upd_proc np (set_p_parent (Some p)) ;;
  release LWait ;;
  acquire (LProc np) ;;
  upd_proc np (set_p_state RUNNABLE) ;;
  release (LProc np) ;;
  ret pid.

Lemma fork_unfold : fork =
  (let! p := cur in
   let! mnp := allocproc in
   match mnp with
   | None => ret (-1)
   | Some np =>
       let! rp := get_proc p in
       let! rn := get_proc np in
       let! e := uvmcopy (p_pagetable rp) (p_pagetable rn) (p_sz rp) in
       if e <? 0 then freeproc np ;; release (LProc np) ;; ret (-1) else fork_tail p np rp
   end).
Proof. reflexivity. Qed.

(** A section of a lock that changes one slot. *)
Lemma locked_slot {A} c lk i r f k (m : M (kernel H) A) : on_cpu c k -> free lk k -> (i < length (k_proc k))%nat ->
  (acquire lk ;; upd_proc i f ;; release lk ;; m) (put i r k) = m (put i (f r) k).
Proof.
  intros Hc [nm E] Hi. rewrite (bind_Ok _ _ _ _ _ (acquire_ok c nm lk (put i r k) Hc E)).
  assert (k_proc (enter c nm lk (put i r k)) !! i = Some r) as Er by (cbn; by apply list_lookup_insert_eq).
  unfold upd_proc. rewrite (bind_Ok _ _ _ _ _ (aupd_ok _ _ _ _ _ _ Er)).
  change (set_k_proc _ (enter c nm lk (put i r k))) with (enter c nm lk (put i (f r) (put i r k))). rewrite put_put.
  by rewrite (bind_Ok _ _ _ _ _ (release_ok c nm lk (put i (f r) k) Hc E)).
Qed.

(** What a child gets from the tables of the kernel. *)
Definition inherit (np : nat) (rp : proc) (tf : trapframe) (d : nat) (ip : inode) k : kernel H :=
  set_k_inodes (<[d := set_i_ref (i_ref ip + 1) ip]> (k_inodes k))
    (set_k_files (dup_all (p_ofile rp) (k_files k)) (set_k_tf (<[np := child_tf tf]> (k_tf k)) k)).

Section Tail.
Context (c : cpu) (nm : string) (me np : nat) (rp r : proc) (tf : trapframe) (d : nat) (ip : inode) (k : kernel H).
Context (Hc : on_cpu c k) (Hnp : (np < length (k_proc k))%nat) (Hne : me <> np) (El : k_locks k !! LProc np = Some (mkLk 0 nm None)).
Context (Hff : free LFtable k) (Hfi : free LItable k) (Hfw : free LWait k).
Context (Em : k_proc k !! me = Some rp) (Etp : p_trapframe rp = Some me) (Etf : k_tf k !! me = Some tf) (Hnt : (np < length (k_tf k))%nat).
Context (Hd : dup_ok (p_ofile rp) (k_files k)) (Ed : p_cwd rp = Some d) (Ei : k_inodes k !! d = Some ip) (Hr : 0 <= i_ref ip < 2 ^ 31 - 1).
Context (Et : p_trapframe r = Some np) (Eo : p_ofile r = replicate (Z.to_nat NOFILE) None).

Lemma upd_tf_slot f x r1 k1 : k_proc k1 = k_proc k -> p_trapframe r1 = Some np -> k_tf k1 !! np = Some x ->
  upd_tf np f (held c nm np r1 k1) = Ok tt (held c nm np r1 (set_k_tf (<[np := f x]> (k_tf k1)) k1)).
Proof.
  intros Ep E1 Ex. assert (np < length (k_proc k1))%nat as H1' by by rewrite Ep. unfold upd_tf. rewrite (bind_Ok _ _ _ _ _ (get_slot c nm np r1 k1 H1')), E1.
  erewrite bind_Ok by reflexivity. assert (k_tf (held c nm np r1 k1) !! np = Some x) as Ex' by done. by rewrite (aupd_ok _ _ _ _ _ _ Ex').
Qed.

Lemma fork_tail_ok : fork_tail me np rp (held c nm np r k) =
  Ok (p_pid r) (put np (set_p_state RUNNABLE (set_p_parent (Some me) (set_name (p_name rp) (set_p_cwd (p_cwd rp) (set_p_ofile (p_ofile rp) (set_p_sz (p_sz rp) r)))))) (inherit np rp tf d ip k)).
Proof.
  unfold fork_tail. rewrite (bind_Ok _ _ _ _ _ (upd_slot c nm np _ r k Hnp)). set (r1 := set_p_sz (p_sz rp) r).
  assert (get_tf me (held c nm np r1 k) = Ok tf (held c nm np r1 k)) as Eg.
  { unfold get_tf. rewrite (bind_Ok _ _ _ _ _ (get_other c nm np me r1 rp k Hne Em)), Etp. erewrite bind_Ok by reflexivity. by apply aget_ok. }
  rewrite (bind_Ok _ _ _ _ _ Eg). destruct (lookup_lt_is_Some_2 _ _ Hnt) as [x Ex].
  rewrite (bind_Ok _ _ _ _ _ (upd_tf_slot _ x r1 k eq_refl Et Ex)). set (k1 := set_k_tf (<[np := tf]> (k_tf k)) k).
  assert (k_tf k1 !! np = Some tf) as Ex1 by (cbn; by apply list_lookup_insert_eq).
  rewrite (bind_Ok _ _ _ _ _ (upd_tf_slot _ tf r1 k1 eq_refl Et Ex1)). cbn [k1 k_tf set_k_tf]. rewrite list_insert_insert_eq.
  change (set_tf_x (<[O := 0]> (tf_x tf)) tf) with (child_tf tf). change (set_k_tf ?t k1) with (set_k_tf t k). set (k2 := set_k_tf _ k).
  pose proof (dup_loop_ok c nm me np k2 rp r1 Hc Hff Hne Hnp Em Hd (Z.to_nat NOFILE) 0 eq_refl) as L.
  change (take 0 (p_ofile rp)) with (@nil (option nat)) in L. rewrite dup_all_nil in L. cbn [app] in L. rewrite <- Eo in L.
  change (p_ofile r) with (p_ofile r1) in L. change (set_p_ofile (p_ofile r1) r1) with r1 in L. change (set_k_files (k_files k2) k2) with k2 in L.
  rewrite (bind_Ok _ _ _ _ _ L), Ed. erewrite bind_Ok by reflexivity. set (k3 := set_k_files _ k2). set (r2 := set_p_ofile (p_ofile rp) r1).
  assert (k_inodes (held c nm np r2 k3) !! d = Some ip) as Ei' by done.
  rewrite (bind_Ok _ _ _ _ _ (idup_ok _ _ d ip (held_cpu c nm np r2 k3 Hc) (held_free c nm np r2 k3 LItable ltac:(done) Hfi) Ei' Hr)).
  change (set_k_inodes _ (held c nm np r2 k3)) with (held c nm np r2 (inherit np rp tf d ip k)). set (k4 := inherit np rp tf d ip k).
  assert (np < length (k_proc k4))%nat as Hn4 by done.
  do 2 rewrite (bind_Ok _ _ _ _ _ (upd_slot c nm np _ _ k4 Hn4)). rewrite (bind_Ok _ _ _ _ _ (get_slot c nm np _ k4 Hn4)). cbv zeta.
  unfold held. rewrite (bind_Ok _ _ _ _ _ (release_ok c nm (LProc np) (put np _ k4) Hc El)).
  rewrite (locked_slot c LWait np _ _ k4 _ Hc Hfw Hn4), (locked_slot c (LProc np) np _ _ k4 _ Hc ltac:(by exists nm) Hn4). done.
Qed.
End Tail.

(** * The theorem *)

(** A process in a system call that may fork: its space, its registers, its files and its
    directory are there, and the slots of the table that are not in use are empty. *)
Record can_fork (me : nat) k (l : list Z) (s0 : space) (rp : proc) (tf : trapframe) (d : nat) (ip : inode) : Prop := {
  cf_slot : k_proc k !! me = Some rp;
  cf_space : uspace k l (p_pagetable rp) s0;
  cf_size : 0 <= p_sz rp <= 2 ^ 38;
  cf_sized : sized s0 (npages (p_sz rp));
  cf_frame : p_trapframe rp = Some me;
  cf_tf : k_tf k !! me = Some tf;
  cf_tfs : length (k_tf k) = Z.to_nat NPROC;
  cf_files : dup_ok (p_ofile rp) (k_files k);
  cf_cwd : p_cwd rp = Some d;
  cf_inode : k_inodes k !! d = Some ip;
  cf_refs : 0 <= i_ref ip < 2 ^ 31 - 1;
  cf_empty i r : k_proc k !! i = Some r -> unused r -> p_sz r = 0 /\ p_ofile r = replicate (Z.to_nat NOFILE) None
}.

(** Only pages and the list of free ones differ. *)
Definition but_memory k k' : kernel H := set_k_mem (k_mem k') (set_k_freelist (k_freelist k') k).

(** The space of the parent, when that of the child has gone. *)
Lemma space_kept k l root0 s0 root s k' l' : two k l root0 s0 root s -> heap k' l' ->
  (forall p, p ∈ l' <-> owned root l s p) -> only_pages l' (k_mem k) (k_mem k') ->
  uspace k' l' root0 s0 /\ untouched root0 s0 (k_mem k) (k_mem k').
Proof.
  intros [[Hh R Fr En] U Ap] Hh' HL (B1 & B2 & HB).
  assert (forall p o, p ∈ l' -> obj_at root0 s0 o <> Some p) as Hfr.
  { intros p o [Hl|(o' & E')]%HL E; [by apply (Fr p o)|by apply (Ap o o' p)]. }
  assert (untouched root0 s0 (k_mem k) (k_mem k')) as Hun.
  { intros o q b E Hb. apply HB. intros p Hp. destruct (rep_page _ _ _ R o q E) as [[Hq _] _].
    apply (pages_apart p q); [by apply (chain_pages _ _ _ _ (hp_chain _ _ Hh') Hp)|done| |done]. intros ->. by apply (Hfr p o). }
  split; [split; try done|done]. apply (rep_frame (k_mem k)); try done. intros o q b _ E Hb. by apply (Hun o q).
Qed.

Lemma quiet_table c me k ps : quiet c me k -> length ps = length (k_proc k) -> ps !! me = k_proc k !! me ->
  forall k', k_proc k' = ps -> k_cpus k' = k_cpus k -> k_mpidr k' = k_mpidr k -> k_daif k' = k_daif k -> k_locks k' = k_locks k -> quiet c me k'.
Proof.
  intros [[A1 A2] B C D E F G] El Em k' E1 E2 E3 E4 E5. split; try done.
  - unfold on_cpu, cid in *. by rewrite E2, E3, E4.
  - by rewrite E1, El.
  - by rewrite E1, Em.
  - intros lk Hl. unfold free. rewrite E5. by apply G.
Qed.

Lemma but_memory_same k : but_memory k k = k.
Proof. by destruct k. Qed.
Lemma frame_inherit k k' np x rp tf d ip : mem_frame k k' ->
  put np x (inherit np rp tf d ip k') = but_memory (put np x (inherit np rp tf d ip k)) (put np x (inherit np rp tf d ip k')).
Proof. unfold mem_frame. set (m := k_mem k'). set (f := k_freelist k'). clearbody m f. intros ->. done. Qed.
Lemma frame_put k k' np x : mem_frame k k' -> put np x k' = but_memory (put np x k) (put np x k').
Proof. unfold mem_frame. set (m := k_mem k'). set (f := k_freelist k'). clearbody m f. intros ->. done. Qed.

Lemma owned_root root l q : owned root l no_space q <-> q ∈ root :: l.
Proof.
  unfold owned. rewrite elem_of_cons. split; [intros [?|(o & E)]; [by right|left; destruct o; try done; cbn in E; congruence]|].
  intros [->|?]; [right; by exists ORoot|by left].
Qed.

(** What [fork] does with a slot and a root table. *)
Section Child.
Context (c : cpu) (nm : string) (me np : nat) (k1 k2 : kernel H) (p : Z) (l : list Z) (s0 : space) (rp r : proc) (tf : trapframe) (d : nat) (ip : inode) (pid : Z).
Context (Hlen : length (k_proc k1) = Z.to_nat NPROC) (Hc : on_cpu c k1) (Hlock : forall lk, static_lock lk -> free lk k1) (Hne : me <> np) (El : k_locks k1 !! LProc np = Some (mkLk 0 nm None)).
Context (F : can_fork me k1 (p :: l) s0 rp tf d ip) (Er : k_proc k1 !! np = Some r) (Hu : unused r) (M : mem_frame k1 k2).
Context (T : two k2 l (p_pagetable rp) s0 p no_space) (N : untouched (p_pagetable rp) s0 (k_mem k1) (k_mem k2)).

Lemma fork_child : exists v k',
  (let! rp := get_proc me in
   let! rn := get_proc np in
   let! e := uvmcopy (p_pagetable rp) (p_pagetable rn) (p_sz rp) in
   if e <? 0 then freeproc np ;; release (LProc np) ;; ret (-1) else fork_tail me np rp) (held c nm np (fresh np pid p r) k2) = Ok v k' /\
  (forall va, ubyte (k_mem k') s0 va = ubyte (k_mem k1) s0 va) /\
  ((v = pid /\ exists s l',
     k' = but_memory (put np (child_of me np pid p rp r) (inherit np rp tf d ip k1)) k' /\
     two k' l' (p_pagetable rp) s0 p s /\ sized s (npages (p_sz rp)) /\ (forall v, flags s v = flags s0 v) /\
     (forall va, 0 <= va < 2 ^ 39 -> ubyte (k_mem k') s va = ubyte (k_mem k1) s0 va) /\ (forall q, q ∈ p :: l <-> owned p l' s q)) \/
   (v = -1 /\ exists cx l', k' = but_memory (put np (set_p_context cx (blank r)) k1) k' /\
     uspace k' l' (p_pagetable rp) s0 /\ (forall q, q ∈ p :: l <-> q ∈ l'))).
Proof.
  destruct F as [F1 F2 F3 F4 F5 F6 F7 F8 F9 F10 F11 F12]. destruct (F12 np r Er Hu) as [Hsz Hof]. set (r1 := fresh np pid p r).
  assert (np < length (k_proc k2))%nat as Hi2 by (rewrite M; by eapply lookup_lt_Some).
  assert (on_cpu c k2) as Hc2 by by rewrite M. assert (forall lk, static_lock lk -> free lk k2) as Hl2 by by rewrite M.
  rewrite (bind_Ok _ _ _ _ _ (get_other c nm np me r1 rp k2 Hne ltac:(by rewrite M))), (bind_Ok _ _ _ _ _ (get_slot c nm np r1 k2 Hi2)).
  change (p_pagetable r1) with p.
  destruct (uvmcopy_ok _ (held c nm np r1 k2) l (p_pagetable rp) s0 p no_space (p_sz rp) (held_cpu c nm np r1 k2 Hc2)
    (held_free c nm np r1 k2 LKmem ltac:(done) (Hl2 LKmem I))) as (S3 & l3 & s3 & e & E3 & T3' & M3' & K3 & P3 & D); try done.
  { by apply (two_on k2). } { split; [lia|]. intros v. split; [intros [? ?]; done|lia]. }
  destruct (held_mem c nm np r1 k2 S3 M3') as (k3 & -> & M3 & E1 & E2). assert (two k3 l3 (p_pagetable rp) s0 p s3) as T3 by by apply (two_on (held c nm np r1 k3)).
  pose proof (mem_frame_trans _ _ _ M M3) as M13. rewrite (bind_Ok _ _ _ _ _ E3).
  change (k_mem (held c nm np r1 k3)) with (k_mem k3) in P3, D. change (k_mem (held c nm np r1 k2)) with (k_mem k2) in P3, D.
  assert (forall va, ubyte (k_mem k2) s0 va = ubyte (k_mem k1) s0 va) as P2 by (intros va; by apply (ubyte_untouched (p_pagetable rp))).
  assert (on_cpu c k3) as Hc3 by by rewrite M13. assert (forall lk, static_lock lk -> free lk k3) as Hl3 by by rewrite M13.
  assert (np < length (k_proc k3))%nat as Hi3 by (rewrite M13; by eapply lookup_lt_Some).
  assert (k_locks k3 !! LProc np = Some (mkLk 0 nm None)) as El3 by by rewrite M13.
  assert (forall q, q ∈ p :: l <-> owned p l3 s3 q) as HK by (intros q; rewrite <- owned_root; apply K3).
  destruct D as [(-> & Sz & Fl & B)|(-> & Sz)]; cbn [Z.ltb Z.compare].
  - eexists _, _. split; [|split].
    + apply (fork_tail_ok c nm me np rp r1 tf d ip k3); try done; try (by rewrite M13); try (by apply Hl3).
      rewrite M13. cbn. rewrite F7, <- Hlen. by eapply lookup_lt_Some.
    + intros va. change (k_mem (put _ _ _)) with (k_mem k3). by rewrite P3, P2.
    + left. split; [done|]. exists s3, l3. split; [|split; [by apply (two_on k3)|split; [done|split; [done|split; [|done]]]]].
      * by apply (frame_inherit k1 k3).
      * intros va Hva. change (k_mem (put _ _ _)) with (k_mem k3). by rewrite B, P2.
  - destruct (freeproc_ok c nm np k3 r1 Hc3 (Hl3 LKmem I) Hi3 l3 s3) as (k4 & l4 & E4 & H4 & M4 & HL & HB).
    { apply T3. } { change (p_sz r1) with (p_sz r). lia. } { change (p_sz r1) with (p_sz r). by rewrite Hsz, npages_0. }
    change (p_pagetable r1) with p in HL. destruct (space_kept k3 l3 _ s0 p s3 k4 l4 T3 H4 HL HB) as [U4 N4].
    pose proof (mem_frame_trans _ _ _ M13 M4) as M14. rewrite (bind_Ok _ _ _ _ _ E4). unfold held.
    rewrite (bind_Ok _ _ _ _ _ (release_ok c nm (LProc np) (put np (blank r1) k4) ltac:(by rewrite M14) ltac:(by rewrite M14))).
    eexists _, _. split; [done|]. split.
    + intros va. change (k_mem (put _ _ _)) with (k_mem k4). by rewrite (ubyte_untouched (p_pagetable rp) s0 (k_mem k3)), P3, P2.
    + right. split; [done|]. exists (p_context r1), l4. split; [by apply (frame_put k1 k4)|]. split; [by apply (uspace_on k4)|]. intros q. by rewrite HL.
Qed.
End Child.

(** C6 [fork] makes a child, or nothing.  On success it returns a new pid, and the first unused
    slot is a runnable child of the caller: its memory reads as the parent's at every address, with
    the same permissions for every page, so that guard pages are guard pages in the child
    too, and shares no page with it, its registers are the parent's but for the 0 that the call
    returns, it will start in [forkret], it has the parent's open files and directory, each
    of them with one reference more for each time the child names it.  It returns -1 when
    there is no slot, and then nothing has changed, or when the pages run out, and then the
    slot is unused again and the free pages are those there were.  No other process, file,
    inode or lock has changed, and the parent reads the same memory as before. *)
Theorem fork_spec c me k l s0 rp tf d ip :
  quiet c me k -> can_fork me k l s0 rp tf d ip ->
  exists v k', fork k = Ok v k' /\ quiet c me k' /\
    (forall va, ubyte (k_mem k') s0 va = ubyte (k_mem k) s0 va) /\
    match list_find unused (k_proc k) with
    | None => v = -1 /\ k' = k
    | Some (np, r) =>
        let k1 := set_k_nextpid (i32 (k_nextpid k + 1)) k in
        (v = k_nextpid k /\ exists root s l',
           k' = but_memory (put np (child_of me np v root rp r) (inherit np rp tf d ip k1)) k' /\
           two k' l' (p_pagetable rp) s0 root s /\ sized s (npages (p_sz rp)) /\ (forall x, flags s x = flags s0 x) /\
           (forall va, 0 <= va < 2 ^ 39 -> ubyte (k_mem k') s va = ubyte (k_mem k) s0 va) /\
           (forall q, q ∈ l <-> owned root l' s q)) \/
        (v = -1 /\ exists cx l',
           k' = but_memory (put np (set_p_context cx (blank r)) k1) k' /\
           uspace k' l' (p_pagetable rp) s0 /\ (forall q, q ∈ l <-> q ∈ l'))
    end.
Proof.
  intros Q F. pose proof F as [F1 F2 F3 F4 F5 F6 F7 F8 F9 F10 F11 F12]. pose proof (q_cpu _ _ _ Q) as Hc.
  assert (procs_free k) as Hp by (split; [apply Q|intros i Hi; apply Q; exact Hi]).
  assert (cur k = Ok me k) as Ec by (unfold cur; rewrite (bind_Ok _ _ _ _ _ (myproc_ok c k Hc)), (q_me _ _ _ Q); done).
  rewrite fork_unfold. 
  pose proof (allocproc_ok c k l (p_pagetable rp) s0 Hc Hp (q_free _ _ _ Q LPid I) (q_free _ _ _ Q LKmem I) F2) as A.
  rewrite (bind_Ok _ _ _ _ _ Ec). destruct (list_find unused (k_proc k)) as [[np r]|] eqn:Ef.
  2:{ rewrite (bind_Ok _ _ _ _ _ A). by exists (-1), k. }
  apply list_find_Some in Ef as (Er & Hu & _). assert (me <> np) as Hne.
  { intros ->. destruct (q_run _ _ _ Q) as (x & Ex & Hx & _). unfold unused in Hu. congruence. }
  set (k1 := set_k_nextpid (i32 (k_nextpid k + 1)) k) in *.
  assert (forall x k', k_cpus k' = k_cpus k -> k_mpidr k' = k_mpidr k -> k_daif k' = k_daif k -> k_locks k' = k_locks k ->
    k_proc k' = <[np := x]> (k_proc k) -> quiet c me k') as HQ.
  { intros x k' ? ? ? ? E. apply (quiet_table c me k (<[np := x]> (k_proc k)) Q); try done; [apply length_insert|by apply list_lookup_insert_ne]. }
  destruct l as [|p l].
  - rewrite (bind_Ok _ _ _ _ _ A). eexists _, _. split; [done|]. split; [by apply (HQ (blank r))|]. split; [done|]. right. split; [done|].
    exists (p_context r), []. split; [by rewrite but_memory_same|]. split; [by apply (uspace_on k)|done].
  - destruct A as (nm & k2 & El & M & E & T & N). rewrite (bind_Ok _ _ _ _ _ E).
    destruct (fork_child c nm me np k1 k2 p l s0 rp r tf d ip (k_nextpid k)) as (v & k' & E' & HB & D); try done.
    { apply Q. } { apply Q. } { split; try done. by apply (uspace_on k). }
    exists v, k'. split; [exact E'|]. split; [|split; [exact HB|]].
    + destruct D as [(_ & s & l' & Ek & _)|(_ & cx & l' & Ek & _)]; rewrite Ek; by eapply HQ.
    + destruct D as [(-> & s & l' & D)|(-> & D)]; [left|by right]. split; [done|]. by exists p, s, l'.
Qed.
End Fork.

(** * At work *)

#[local] Instance fork_fuel : SleepFuel := 1%nat.
#[local] Instance fork_poll : KPollFuel := 1%nat.
#[local] Instance fork_disk : DiskDriver unit := fun _ _ => ret tt.

(** Process 0, with the image of exec, in the directory of entry 0. *)
Definition forker : proc :=
  set_p_cwd (Some O) (set_p_trapframe (Some O) (set_p_pagetable (page_no 0) (set_p_sz 12288 (set_p_pid 1 (set_p_state RUNNING no_proc))))).
Definition forker_kernel (k : kernel unit) : kernel unit := set_k_inodes (<[O := set_i_ref 1 no_inode]> (k_inodes k)) (put 0 forker k).

Lemma fork_run : match (let! p := uvmcreate in let! r := uvmalloc p 0 12288 in uvmclear p 4096 ;; modify forker_kernel ;; fork) image_kernel with
  | Ok v _ => v =? 1 | _ => false end = true.
Proof. by vm_compute. Qed.

(** Memory apart, a state is that of [null_kernel]. *)
Definition like_null (k : kernel unit) : Prop := k = set_k_mem (k_mem k) (set_k_freelist (k_freelist k) null_kernel).
Lemma like_null_frame k k' : like_null k -> mem_frame k k' -> like_null k'.
Proof. unfold like_null, mem_frame. intros ->. set (m := k_mem k'). set (f := k_freelist k'). clearbody m f. intros ->. reflexivity. Qed.
Lemma like_null_fields k : like_null k -> k_proc k = k_proc null_kernel /\ k_cpus k = k_cpus null_kernel /\ k_mpidr k = k_mpidr null_kernel /\
  k_daif k = k_daif null_kernel /\ k_locks k = k_locks null_kernel /\ k_tf k = k_tf null_kernel /\ k_files k = k_files null_kernel /\
  k_inodes k = k_inodes null_kernel.
Proof. unfold like_null. set (m := k_mem k). set (f := k_freelist k). clearbody m f. intros ->. repeat split. Qed.
(** Process 0 is another, the entry 0 of inodes is referenced. *)
Lemma forker_quiet k : like_null k -> quiet cpu0 0 (forker_kernel k).
Proof.
  intros L. destruct (like_null_fields k L) as (P1 & P2 & P3 & P4 & P5 & _). destruct null_quiet as [[A A'] B C D E F G]. split.
  - split; [|cbn; rewrite P4; exact A']. change (k_cpus k !! Z.to_nat (Z.land (k_mpidr k) 0xff) = Some cpu0). rewrite P2, P3. exact A.
  - exact B.
  - exact C.
  - exact D.
  - cbn. rewrite length_insert, P1. exact E.
  - exists forker. split; [|by split]. cbn. rewrite P1. reflexivity.
  - intros lk Hl. destruct (G lk Hl) as [nm El]. exists nm. cbn. rewrite P5. exact El.
Qed.
Lemma image_like_null : like_null image_kernel.
Proof. unfold like_null, image_kernel. set (m := fold_right _ _ _). clearbody m. reflexivity. Qed.

#[local] Opaque image_kernel uvmcreate uvmalloc uvmclear fork.
Lemma fork_result k1 p r k2 k3 : uvmcreate image_kernel = Ok p k1 -> uvmalloc p 0 12288 k1 = Ok r k2 -> uvmclear p 4096 k2 = Ok tt k3 ->
  forall v k4, fork (forker_kernel k3) = Ok v k4 -> v = 1.
Proof.
  intros E1 E2 E3. pose proof fork_run as Hr. unfold bind, modify in Hr. rewrite E1, E2, E3 in Hr.
  intros v k4 E. rewrite E in Hr. by apply Z.eqb_eq in Hr.
Qed.

Lemma forker_ok : exists (k : kernel unit) l s, quiet cpu0 0 k /\ can_fork 0 k l s forker no_tf 0 (set_i_ref 1 no_inode) /\ image s /\
  list_find unused (k_proc k) = Some (1%nat, no_proc) /\ forall v k', fork k = Ok v k' -> v = 1.
Proof.
  destruct image_space as (k1 & k2 & k3 & l & s & E1 & E2 & E3 & M & U & Im).
  pose proof (like_null_frame image_kernel k3 image_like_null M) as L. destruct (like_null_fields k3 L) as (P1 & _ & _ & _ & _ & P6 & P7 & P8).
  pose proof (fork_result k1 (page_no 0) 12288 k2 k3 E1 E2 E3) as Hv. exists (forker_kernel k3), l, s. split; [exact (forker_quiet k3 L)|].
  clear M L E1 E2 E3. split; [split|split; [exact Im|split]].
  - cbn. rewrite P1. reflexivity.
  - exact (uspace_on k3 (forker_kernel k3) l (page_no 0) s eq_refl eq_refl U).
  - cbn. lia.
  - change (p_sz forker) with 12288. rewrite npages_image. exact (im_sized s Im).
  - reflexivity.
  - cbn. rewrite P6. reflexivity.
  - cbn. rewrite P6. reflexivity.
  - split; [reflexivity|]. intros f Hin. change (Some f ∈ replicate (Z.to_nat NOFILE) (@None nat)) in Hin. apply elem_of_replicate in Hin as [Ef _]. discriminate Ef.
  - reflexivity.
  - cbn. rewrite P8. reflexivity.
  - cbn. lia.
  - intros i x. cbn. rewrite P1. intros Ex Hx. destruct i as [|i]; [cbn in Ex; injection Ex as <-; discriminate Hx|].
    change (replicate 63 no_proc !! i = Some x) in Ex. apply lookup_replicate in Ex as [-> _]. by split.
  - cbn [forker_kernel k_proc set_k_inodes put set_k_proc]. rewrite P1. vm_compute. reflexivity.
  - exact Hv.
Qed.

(** The child of a process with a guard page has the guard page. *)
Lemma fork_spec_witness : exists (k k' : kernel unit) s0 root s l', fork k = Ok 1 k' /\ two k' l' (page_no 0) s0 root s /\ image s0 /\ image s /\
  ubyte (k_mem k') s 99 = ubyte (k_mem k) s0 99 /\
  option_map p_state (k_proc k' !! 1%nat) = Some RUNNABLE /\ option_map p_parent (k_proc k' !! 1%nat) = Some (Some O).
Proof.
  destruct forker_ok as (k & l & s0 & Q & C & Im & Hu & Hv).
  destruct (fork_spec cpu0 0 k l s0 forker no_tf 0 (set_i_ref 1 no_inode) Q C) as (v & k' & E & _ & _ & D). pose proof (Hv v k' E) as ->.
  rewrite Hu in D. destruct D as [(_ & root & s & l' & Ek & T & Sz & Fl & B & _)|[D _]]; [|discriminate D].
  exists k, k', s0, root, s, l'. split; [exact E|]. split; [exact T|]. split; [exact Im|]. split; [|split; [apply B; lia|]].
  { change (p_sz forker) with 12288 in Sz. rewrite npages_image in Sz. destruct Im as [_ Ht Hg Hs].
    split; [exact Sz|intros x Hx; rewrite (flags_uacc s0 s x (Fl _)); auto..]. }
  assert (k_proc k' !! 1%nat = Some (child_of 0 1 1 root forker no_proc)) as ->.
  { rewrite Ek. cbn [but_memory k_proc set_k_mem set_k_freelist put set_k_proc]. apply list_lookup_insert_eq.
    change (1 < length (k_proc k))%nat. rewrite (q_procs _ _ _ Q). vm_compute. lia. }
  split; reflexivity.
Defined.
