(* ===== verification/KPipe.v ===== *)
(** Pipes are queues (pipe.c): what a writer puts in a reader takes out, in order, also when
    the counters wrap. *)
From stdpp Require Import base gmap list numbers strings tactics.
From S2P Require Import Prelude Mem KMachine KString KSched KBytes KBss KAlloc KVm KProc KCons KBio KBioProofs KLog KFs KFile KSpace KUvm.

(** * A pipe in its page *)

(** [q] is in the pipe at [pi]; [ro] and [wo] say which ends are open. *)
Record pipe_at (m : memory) (pi : Z) (q : list Z) (ro wo : Z) : Prop := {
  pp_len : Z.of_nat (length q) <= PIPESIZE;
  pp_nwrite : rd 4 m (pi + PI_NWRITE) = u32 (rd 4 m (pi + PI_NREAD) + Z.of_nat (length q));
  pp_data i : (i < length q)%nat -> peek m (pi + PI_DATA + (rd 4 m (pi + PI_NREAD) + Z.of_nat i) mod PIPESIZE) = nth i q 0;
  pp_ro : rd 4 m (pi + PI_READOPEN) = ro;
  pp_wo : rd 4 m (pi + PI_WRITEOPEN) = wo
}.

Lemma u32_mod_pipe x : u32 x mod PIPESIZE = x mod PIPESIZE.
Proof. unfold u32, PIPESIZE. change (2 ^ 32) with (512 * 2 ^ 23). apply mod_mod_le; lia. Qed.

Lemma ring_add x i : (u32 x + i) mod PIPESIZE = (x + i) mod PIPESIZE.
Proof. rewrite Zplus_mod, u32_mod_pipe, <- Zplus_mod. done. Qed.
Lemma ring_inj x i j : 0 <= i < PIPESIZE -> 0 <= j < PIPESIZE -> (x + i) mod PIPESIZE = (x + j) mod PIPESIZE -> i = j.
Proof.
  unfold PIPESIZE. intros Hi Hj E. assert ((i - j) mod 512 = 0) as E0.
  { replace (i - j) with ((x + i) - (x + j)) by lia. rewrite Zminus_mod, E, Z.sub_diag. done. }
  apply Z.mod_divide in E0 as [c Ec]; [nia|done].
Qed.
Lemma ring_range x : 0 <= x mod PIPESIZE < 512.
Proof. by apply Z.mod_pos_bound. Qed.

(** The fields and the data of a pipe do not overlap. *)
Ltac apart_fields := rewrite ?rd_wr_other, ?peek_wr_other by (unfold PI_NREAD, PI_NWRITE, PI_DATA, PI_READOPEN, PI_WRITEOPEN in *; lia).

Lemma nread_range m pi : is_u32 (rd 4 m (pi + PI_NREAD)).
Proof. apply (rd_range 4). Qed.

(** A byte goes in at the end. *)
Lemma pipe_put m pi q ro wo b : pipe_at m pi q ro wo -> Z.of_nat (length q) < PIPESIZE -> is_u8 b ->
  let nw := rd 4 m (pi + PI_NWRITE) in
  pipe_at (wr 1 (pi + PI_DATA + nw mod PIPESIZE) b (wr 4 (pi + PI_NWRITE) (u32 (nw + 1)) m)) pi (q ++ [b]) ro wo.
Proof.
  intros [L W D Ro Wo] Hl Hb nw. pose proof (ring_range nw) as Hr. set (nr := rd 4 m (pi + PI_NREAD)) in *.
  set (m2 := wr 1 _ b _). assert (rd 4 m2 (pi + PI_NREAD) = nr) as En by (unfold m2; apart_fields; done).
  split; rewrite ?En.
  - rewrite length_app. cbn. lia.
  - unfold m2. rewrite rd_wr_other by (unfold PI_NWRITE, PI_DATA; lia). rewrite rd_wr_same. rewrite length_app. unfold nw. rewrite W.
    unfold u32. change (8 * Z.of_nat 4) with 32. rewrite Zmod_mod, Zplus_mod_idemp_l. f_equal. cbn. lia.
  - intros i Hi. rewrite length_app in Hi. cbn in Hi. pose proof (ring_range (nr + Z.of_nat i)) as Hri.
    unfold m2. rewrite peek_wr1. assert (nw mod PIPESIZE = (nr + Z.of_nat (length q)) mod PIPESIZE) as Ew by (unfold nw; rewrite W; apply u32_mod_pipe).
    destruct (decide (i = length q)) as [->|Hne].
    + rewrite <- Ew, Z.eqb_refl, app_nth2, Nat.sub_diag by lia. by apply u8_small.
    + destruct (Z.eqb_spec (pi + PI_DATA + (nr + Z.of_nat i) mod PIPESIZE) (pi + PI_DATA + nw mod PIPESIZE)) as [E|_].
      { exfalso. rewrite Ew in E. apply Hne, Nat2Z.inj, (ring_inj nr); unfold PIPESIZE in *; lia. }
      rewrite app_nth1, peek_wr_other by (unfold PI_NWRITE, PI_DATA; lia). apply D. lia.
  - unfold m2. by apart_fields.
  - unfold m2. by apart_fields.
Qed.

(** A byte comes out at the front. *)
Lemma pipe_get m pi b q ro wo : pipe_at m pi (b :: q) ro wo ->
  let nr := rd 4 m (pi + PI_NREAD) in
  nr <> rd 4 m (pi + PI_NWRITE) /\ peek m (pi + PI_DATA + nr mod PIPESIZE) = b /\
  pipe_at (wr 4 (pi + PI_NREAD) (u32 (nr + 1)) m) pi q ro wo.
Proof.
  intros [L W D Ro Wo] nr. fold nr in W, D. pose proof (nread_range m pi) as Hr. fold nr in Hr. cbn [length] in *. split; [|split].
  - rewrite W. unfold u32, is_u32, PIPESIZE in *. intros E. destruct (Z.lt_ge_cases (nr + Z.of_nat (S (length q))) (2 ^ 32)).
    + rewrite Z.mod_small in E by lia. lia.
    + rewrite <- (Z_mod_plus_full _ (-1)), Z.mod_small in E by lia. lia.
  - etrans; [|apply (D 0%nat); lia]. do 3 f_equal. lia.
  - set (m2 := wr 4 _ _ m). assert (rd 4 m2 (pi + PI_NREAD) = u32 (nr + 1)) as En.
    { unfold m2. rewrite rd_wr_same. unfold u32. change (8 * Z.of_nat 4) with 32. by rewrite Zmod_mod. }
    split; rewrite ?En.
    + lia.
    + unfold m2. apart_fields. rewrite W. unfold u32. rewrite Zplus_mod_idemp_l. f_equal. lia.
    + intros i Hi. rewrite ring_add. pose proof (ring_range (nr + 1 + Z.of_nat i)). unfold m2. apart_fields.
      etrans; [|apply (D (S i)); lia]. do 3 f_equal. lia.
    + unfold m2. by apart_fields.
    + unfold m2. by apart_fields.
Qed.

Section Pipe.
Context {H : Type} `{!Platform H} `{!Symbols} `{Hend : !SymbolLaws} `{Hfuel : !SleepFuel}.
Implicit Types k : kernel H.

Lemma on_load n a k : in_ram (k_mem k) a (Z.of_nat n) = true -> on_mem (load n a) k = Ok (rd n (k_mem k) a) k.
Proof. intros E. unfold on_mem, zoom, load, bind, get. rewrite E. by destruct k. Qed.
Lemma on_store n a v k : in_ram (k_mem k) a (Z.of_nat n) = true -> on_mem (store n a v) k = Ok tt (set_k_mem (wr n a v (k_mem k)) k).
Proof. intros E. unfold on_mem, zoom, store, bind, get. by rewrite E. Qed.

(** A place in a page of RAM. *)
Lemma in_page_ok m p off n : kpage p -> in_ram m p 4096 = true -> 0 <= off -> 0 < n -> off + n <= 4096 ->
  u64 (p + off) = p + off /\ in_ram m (p + off) n = true.
Proof.
  intros (Hu & Hb & _)%kpage_u64 Hr Ho Hn0 Hn. split; [|apply (in_ram_sub _ p 4096); [done|lia..]].
  apply u64_small. unfold is_u64 in *. lia.
Qed.

Lemma pi_get_ok k pi off : kpage pi -> in_ram (k_mem k) pi 4096 = true -> 0 <= off <= 4092 -> pi_get pi off k = Ok (rd 4 (k_mem k) (pi + off)) k.
Proof. intros Hp Hr Ho. destruct (in_page_ok (k_mem k) pi off 4 Hp Hr ltac:(lia) ltac:(lia) ltac:(lia)) as [E Hi]. unfold pi_get. rewrite E. by apply on_load. Qed.
Lemma pi_set_ok k pi off v : kpage pi -> in_ram (k_mem k) pi 4096 = true -> 0 <= off <= 4092 ->
  pi_set pi off v k = Ok tt (set_k_mem (wr 4 (pi + off) (u32 v) (k_mem k)) k).
Proof. intros Hp Hr Ho. destruct (in_page_ok (k_mem k) pi off 4 Hp Hr ltac:(lia) ltac:(lia) ltac:(lia)) as [E Hi]. unfold pi_set. rewrite E. by apply on_store. Qed.

(** Only the page [p] has changed. *)
Definition in_only (p : Z) (m m' : memory) : Prop :=
  ram_lo m' = ram_lo m /\ ram_hi m' = ram_hi m /\ forall b, ~ (p <= b < p + 4096) -> peek m' b = peek m b.

Lemma in_only_trans p m1 m2 m3 : in_only p m1 m2 -> in_only p m2 m3 -> in_only p m1 m3.
Proof. intros (A1 & A2 & A3) (B1 & B2 & B3). split; [congruence|]. split; [congruence|]. intros b Hb. by rewrite B3, A3. Qed.
Lemma in_only_wr p n a v m : p <= a -> a + Z.of_nat n <= p + 4096 -> in_only p m (wr n a v m).
Proof. intros Ha Hb. destruct (wr_bounds n a v m) as [E1 E2]. split; [done|]. split; [done|]. intros b Hx. apply peek_wr_other. lia. Qed.

(** The address space of a process does not see a page that is apart. *)
Lemma apart_write k l root s p m' :
  uspace k l root s -> apart k l root s p -> in_only p (k_mem k) m' ->
  uspace (set_k_mem m' k) l root s /\ apart (set_k_mem m' k) l root s p /\ forall x, ubyte m' s x = ubyte (k_mem k) s x.
Proof.
  intros [Hh R Fr En] [A0 A1 A2 A3 A4] (B1 & B2 & B3).
  assert (forall o q b, obj_at root s o = Some q -> q <= b < q + 4096 -> peek m' b = peek (k_mem k) b) as Hs.
  { intros o q b E Hb. apply B3. intros Hb'. destruct (rep_page _ _ _ R o q E) as [[Hq _] _], A0 as [Hp _].
    assert (q <> p) as Hne by (intros ->; by apply (A3 o)). destruct (pages_disjoint q p Hq Hp Hne); unfold PGSIZE in *; lia. }
  split; [split|split].
  - destruct Hh as [C1 C2 C3]. split; [unfold Lib.ram_ok in *; cbn; by rewrite B1, B2| |done].
    apply (chain_write (k_mem k) m' (k_freelist k) l p); try done. apply A0.
  - apply (rep_frame (k_mem k)); try done. intros o q b _ E Hb. by apply (Hs o q).
  - done.
  - done.
  - split; try done. unfold in_ram in *. cbn. by rewrite B1, B2.
  - intros x. unfold ubyte. destruct (sp_pages s !! vpn x) as [e|] eqn:Ee; [|done]. cbn. f_equal.
    pose proof (Z.mod_pos_bound x 4096 ltac:(done)). apply (Hs (OPage (vpn x)) (frame_of e)); [cbn; by rewrite Ee|lia].
Qed.

Lemma uspace_ext k k' l root s : k_mem k' = k_mem k -> k_freelist k' = k_freelist k -> uspace k l root s -> uspace k' l root s.
Proof. intros E1 E2 [[A B C] R F N]. split; [split|..]; try done; rewrite ?E1, ?E2; done. Qed.
Lemma apart_ext k k' l root s p : k_mem k' = k_mem k -> apart k l root s p -> apart k' l root s p.
Proof. intros E [A B C D F]. split; try done. by rewrite E. Qed.


Lemma mem_frame_locks k k' : mem_frame k k' -> k_locks k' = k_locks k /\ k_proc k' = k_proc k.
Proof. intros F. unfold mem_frame in F. by rewrite F. Qed.
Lemma mem_frame_quiet c me k k' : mem_frame k k' -> quiet c me k -> quiet c me k'.
Proof.
  intros F [A1 A2 A3 A4 A5 A6 A7]. unfold mem_frame in F. rewrite F. generalize (k_mem k') (k_freelist k'). intros m f. by split.
Qed.

(** * Writing *)

(** The user of process [me], whose page table is [root], and the pipe at [pi]. *)
Record pipe_user c me k (nm : string) (pi : Z) l root s n p : Prop := {
  pu_quiet : quiet c me k;
  pu_lock : k_locks k !! LPipe pi = Some (mkLk 0 nm None);
  pu_proc : k_proc k !! me = Some p;
  pu_root : p_pagetable p = root;
  pu_space : uspace k l root s;
  pu_sized : sized s n;
  pu_apart : apart k l root s pi
}.

Lemma pipe_user_mem c me k nm pi l root s n p m' :
  pipe_user c me k nm pi l root s n p -> in_only pi (k_mem k) m' ->
  pipe_user c me (set_k_mem m' k) nm pi l root s n p /\ forall x, ubyte m' s x = ubyte (k_mem k) s x.
Proof.
  intros [A1 A2 A3 A4 A5 A6 A7] Hm. destruct (apart_write k l root s pi m' A5 A7 Hm) as (U & A & B).
  split; [|done]. split; try done. by destruct A1.
Qed.

Lemma ubytes_cons m s va b bs : ubytes m s va (length (b :: bs)) = b :: bs ->
  ubytes m s va 1 = [b] /\ ubytes m s (va + 1) (length bs) = bs.
Proof.
  change (length (b :: bs)) with (1 + length bs)%nat. rewrite ubytes_app. change (Z.of_nat 1) with 1. intros E.
  assert (length (ubytes m s va 1) = 1%nat) as L by (unfold ubytes; by rewrite length_map).
  destruct (ubytes m s va 1) as [|x [|]]; try done. cbn in E. by injection E as -> ->.
Qed.
Lemma ubytes_ext m m' s va cnt : (forall x, ubyte m' s x = ubyte m s x) -> ubytes m' s va cnt = ubytes m s va cnt.
Proof. intros E. unfold ubytes. apply map_ext. intros i. by rewrite E. Qed.

Lemma nwrite_not_full nr len : is_u32 nr -> 0 <= len < PIPESIZE -> u32 (nr + len) <> u32 (nr + PIPESIZE).
Proof.
  unfold u32, is_u32, PIPESIZE. intros Hr Hl E. assert ((512 - len) mod 2 ^ 32 = 0) as E0.
  { replace (512 - len) with ((nr + 512) - (nr + len)) by lia. rewrite Zminus_mod, <- E, Z.sub_diag. done. }
  rewrite Z.mod_small in E0 by lia. lia.
Qed.

(** The last steps of [pipewrite]. *)
Lemma pipe_close_write c me k nm pi l root s n p (i : Z) :
  pipe_user c me k nm pi l root s n p ->
  (wakeup (ChNread pi) ;; release (LPipe pi) ;; ret i) (enter c nm (LPipe pi) k) =
    Ok i (set_k_proc (woken (ChNread pi) (Some me) (k_proc k)) k).
Proof.
  intros [Q El Ep Er U Sz A]. pose proof (q_cpu _ _ _ Q) as Hc.
  assert (procs_free (enter c nm (LPipe pi) k)) as Hp.
  { split; [apply Q|]. intros j Hj. apply free_enter; [done|]. by apply (q_free _ _ _ Q (LProc j)). }
  rewrite (bind_Ok _ _ _ _ _ (wakeup_ok _ (ChNread pi) _ (on_cpu_enter c nm (LPipe pi) k Hc) Hp)). cbn [c_proc set_c_noff]. rewrite (q_me _ _ _ Q).
  set (k1 := set_k_proc (woken (ChNread pi) (Some me) (k_proc k)) k).
  change (set_k_proc _ (enter c nm (LPipe pi) k)) with (enter c nm (LPipe pi) k1).
  by rewrite (bind_Ok _ _ _ _ _ (release_ok c nm (LPipe pi) k1 Hc El)).
Qed.

(** One byte of the user that can be read. *)
Lemma copyin_byte c nm pi l root s n k va b :
  uspace k l root s -> sized s n -> 0 <= va < 2 ^ 39 ->
  (uacc s va = true -> ubytes (k_mem k) s va 1 = [b]) ->
  copyin root va 1 (enter c nm (LPipe pi) k) = Ok (if uacc s va then (0, [b]) else (-1, [])) (enter c nm (LPipe pi) k).
Proof.
  intros U Sz Hva Hb. set (e := enter c nm (LPipe pi) k). assert (uspace e l root s) as Ue by by apply (uspace_ext k).
  unfold copyin. destruct (uacc s va) eqn:Eu.
  - rewrite (copyin_loop_ok l root s n e Ue Sz _ va 1 [] 1); [|lia..|].
    { change (Z.to_nat 1) with 1%nat. change (k_mem e) with (k_mem k). by rewrite (Hb eq_refl). }
    split; [lia|]. split; [|lia]. intros x Hx. by replace x with va by lia.
  - rewrite (copyin_loop_ok l root s n e Ue Sz _ va 1 [] 0); [done|lia..|].
    split; [lia|]. split; [intros x Hx; lia|]. intros _. by rewrite Z.add_0_r.
Qed.

(** The test at the top of the loop: the reader is there, and whether there is room. *)
Lemma pipewrite_turn c me nm pi l root s n p addr ro wo k q i tot fuel :
  pipe_user c me k nm pi l root s n p -> p_killed p = 0 -> ro <> 0 -> pipe_at (k_mem k) pi q ro wo -> i < tot ->
  0 <= addr + i < 2 ^ 39 ->
  pipewrite_loop (S fuel) me pi addr tot i (enter c nm (LPipe pi) k) =
    (if Z.of_nat (length q) =? PIPESIZE then
       wakeup (ChNread pi) ;; sleep (ChNwrite pi) (LPipe pi) ;; pipewrite_loop fuel me pi addr tot i
     else
       let! c := copyin root (addr + i) 1 in
       if fst c =? -1 then wakeup (ChNread pi) ;; release (LPipe pi) ;; ret i else
       let! ch := deref (head (snd c)) in
       let nw := rd 4 (k_mem k) (pi + PI_NWRITE) in
       pi_set pi PI_NWRITE (nw + 1) ;;
       on_mem (store8 (u64 (pi + PI_DATA + nw mod PIPESIZE)) ch) ;;
       pipewrite_loop fuel me pi addr tot (i + 1)) (enter c nm (LPipe pi) k).
Proof.
  intros PU Hk Hro P Hi Hva. cbn [pipewrite_loop]. destruct (Z.ltb_spec i tot) as [_|]; [|lia]. cbn [negb].
  pose proof PU as [Q El Ep Er U Sz A]. set (e := enter c nm (LPipe pi) k).
  pose proof (ap_page _ _ _ _ _ A) as Hp. pose proof (ap_ram _ _ _ _ _ A : in_ram (k_mem e) pi 4096 = true) as Hr.
  rewrite (bind_Ok _ _ _ _ _ (pi_get_ok e pi PI_READOPEN Hp Hr ltac:(unfold PI_READOPEN; lia))).
  change (k_mem e) with (k_mem k). rewrite (pp_ro _ _ _ _ _ P).
  rewrite (bind_Ok _ _ _ _ _ (get_proc_ok me p e Ep)). destruct (Z.eqb_spec ro 0); [done|]. rewrite Hk. cbn [orb negb Z.eqb].
  rewrite (bind_Ok _ _ _ _ _ (pi_get_ok e pi PI_NWRITE Hp Hr ltac:(unfold PI_NWRITE; lia))).
  rewrite (bind_Ok _ _ _ _ _ (pi_get_ok e pi PI_NREAD Hp Hr ltac:(unfold PI_NREAD; lia))). change (k_mem e) with (k_mem k).
  rewrite Er, (u64_small (addr + i)) by (unfold is_u64; lia). pose proof (pp_len _ _ _ _ _ P) as Hl. pose proof (pp_nwrite _ _ _ _ _ P) as Hw.
  destruct (Z.eqb_spec (Z.of_nat (length q)) PIPESIZE) as [Ef|Hf].
  - rewrite Hw, Ef, Z.eqb_refl. done.
  - destruct (Z.eqb_spec (rd 4 (k_mem k) (pi + PI_NWRITE)) (u32 (rd 4 (k_mem k) (pi + PI_NREAD) + PIPESIZE))) as [Ew|_]; [|done].
    exfalso. rewrite Hw in Ew. revert Ew. apply nwrite_not_full; [apply nread_range|]. lia.
Qed.

(** Bytes that can be read and for which there is room go in. *)
Lemma pipewrite_copy_ok c me nm pi l root s n p addr ro wo tot fuel : forall bs k q i,
  pipe_user c me k nm pi l root s n p -> p_killed p = 0 -> ro <> 0 -> bytes bs ->
  pipe_at (k_mem k) pi q ro wo -> Z.of_nat (length q) + Z.of_nat (length bs) <= PIPESIZE ->
  0 <= addr -> 0 <= i -> i + Z.of_nat (length bs) <= tot -> addr + i + Z.of_nat (length bs) <= 2 ^ 39 ->
  urange s (addr + i) (Z.of_nat (length bs)) -> ubytes (k_mem k) s (addr + i) (length bs) = bs ->
  exists m', pipewrite_loop (length bs + fuel) me pi addr tot i (enter c nm (LPipe pi) k) =
      pipewrite_loop fuel me pi addr tot (i + Z.of_nat (length bs)) (enter c nm (LPipe pi) (set_k_mem m' k)) /\
    in_only pi (k_mem k) m' /\ pipe_at m' pi (q ++ bs) ro wo.
Proof.
  intros bs. induction bs as [|b bs IH]; intros k q i PU Hk Hro Hbs P Hq Ha Hi Htot HE Hacc Hu.
  - exists (k_mem k). rewrite app_nil_r. cbn [length Z.of_nat Nat.add]. rewrite Z.add_0_r. replace (set_k_mem (k_mem k) k) with k by by destruct k.
    by split; [|split].
  - cbn [length Nat.add] in *. rewrite (pipewrite_turn c me nm pi l root s n p addr ro wo k q i tot _ PU Hk Hro P) by lia.
    destruct (Z.eqb_spec (Z.of_nat (length q)) PIPESIZE); [lia|]. pose proof PU as [Q El Ep Er U Sz A]. set (e := enter c nm (LPipe pi) k).
    pose proof (ap_page _ _ _ _ _ A) as Hp. pose proof (ap_ram _ _ _ _ _ A : in_ram (k_mem e) pi 4096 = true) as Hr.
    apply list.Forall_cons in Hbs as [Hb Hbs]. apply ubytes_cons in Hu as [Hu1 Hu].
    pose proof (copyin_byte c nm pi l root s n k (addr + i) b U Sz ltac:(lia) (fun _ => Hu1)) as Ec.
    rewrite (Hacc (addr + i)) in Ec by lia. rewrite (bind_Ok _ _ _ _ _ Ec). cbn [fst snd head Z.eqb]. erewrite bind_Ok by reflexivity. cbv zeta.
    set (nw := rd 4 (k_mem k) (pi + PI_NWRITE)). rewrite (bind_Ok _ _ _ _ _ (pi_set_ok e pi PI_NWRITE (nw + 1) Hp Hr ltac:(unfold PI_NWRITE; lia))).
    set (m1 := wr 4 (pi + PI_NWRITE) (u32 (nw + 1)) (k_mem e)). pose proof (ring_range nw) as Hrr.
    destruct (wr_bounds 4 (pi + PI_NWRITE) (u32 (nw + 1)) (k_mem e)) as [W1 W2]. fold m1 in W1, W2.
    destruct (in_page_ok m1 pi (PI_DATA + nw mod PIPESIZE) 1 Hp) as [E1 E2]; [unfold in_ram in *; by rewrite W1, W2|unfold PI_DATA; lia|lia|unfold PI_DATA; lia|].
    rewrite Z.add_assoc in E1, E2. rewrite E1. rewrite (bind_Ok _ _ _ _ _ (on_store 1 (pi + PI_DATA + nw mod PIPESIZE) b (set_k_mem m1 e) E2)).
    set (m2 := wr 1 (pi + PI_DATA + nw mod PIPESIZE) b m1). assert (in_only pi (k_mem k) m2) as Ho.
    { eapply in_only_trans; apply in_only_wr; unfold PI_NWRITE, PI_DATA; lia. }
    destruct (pipe_user_mem c me k nm pi l root s n p m2 PU Ho) as [PU2 Bu].
    pose proof (pipe_put (k_mem k) pi q ro wo b P ltac:(lia) Hb) as P2.
    destruct (IH (set_k_mem m2 k) (q ++ [b]) (i + 1) PU2 Hk Hro Hbs P2) as (m' & E & Ho' & P'); try lia.
    { rewrite length_app. cbn. lia. }
    { apply (urange_sub s (addr + i) (Z.of_nat (S (length bs)))); [done|lia..]. }
    { rewrite (ubytes_ext (k_mem k) m2) by done. by rewrite Z.add_assoc. }
    exists m'. rewrite <- (assoc_L (++)) in P'. split; [|split; [by eapply in_only_trans|done]].
    replace (i + Z.of_nat (S (length bs))) with (i + 1 + Z.of_nat (length bs)) by lia. exact E.
Qed.

Lemma pipe_user_procs c me k nm pi l root s n p ch :
  pipe_user c me k nm pi l root s n p -> pipe_user c me (set_k_proc (woken ch (Some me) (k_proc k)) k) nm pi l root s n p.
Proof.
  intros [Q El Ep Er U Sz A]. destruct (woken_procs ch me (k_proc k)) as (L & M & _). split; try done.
  - by apply quiet_set_proc.
  - cbn. by rewrite M.
  - by apply (uspace_ext k).
  - by apply (apart_ext k).
Qed.

Lemma cur_ok c me k : quiet c me k -> cur k = Ok me k.
Proof. intros Q. unfold cur. rewrite (bind_Ok _ _ _ _ _ (myproc_ok c k (q_cpu _ _ _ Q))). by rewrite (q_me _ _ _ Q). Qed.

Lemma ubytes_bytes m s va cnt : bytes (ubytes m s va cnt).
Proof.
  unfold bytes, ubytes. apply List.Forall_forall. intros x (i & <- & _)%in_map_iff. unfold ubyte.
  destruct (sp_pages s !! vpn (va + Z.of_nat i)); cbn; [apply peek_range|lia].
Qed.
Lemma ubytes_take m s va (a b : nat) : (a <= b)%nat -> take a (ubytes m s va b) = ubytes m s va a.
Proof.
  intros Hab. replace b with (a + (b - a))%nat by lia. rewrite ubytes_app. apply take_app_length'. unfold ubytes. by rewrite length_map, length_seq.
Qed.

(** No reader, or the writer is to die. *)
Lemma pipewrite_refused c me nm pi l root s n p addr ro wo len k q :
  pipe_user c me k nm pi l root s n p -> pipe_at (k_mem k) pi q ro wo -> 0 < len -> ro = 0 \/ p_killed p <> 0 ->
  pipewrite pi addr len k = Ok (-1) k.
Proof.
  intros [Q El Ep Er U Sz A] P Hl Hno. unfold pipewrite.
  rewrite (bind_Ok _ _ _ _ _ (cur_ok c me k Q)), (bind_Ok _ _ _ _ _ (acquire_ok c nm (LPipe pi) k (q_cpu _ _ _ Q) El)). set (e := enter c nm (LPipe pi) k).
  destruct (Z.to_nat len + sleep_fuel)%nat as [|fuel] eqn:Ef; [lia|]. cbn [pipewrite_loop]. destruct (Z.ltb_spec 0 len) as [_|]; [|lia]. cbn [negb].
  pose proof (ap_page _ _ _ _ _ A) as Hp. pose proof (ap_ram _ _ _ _ _ A : in_ram (k_mem e) pi 4096 = true) as Hr.
  rewrite (bind_Ok _ _ _ _ _ (pi_get_ok e pi PI_READOPEN Hp Hr ltac:(unfold PI_READOPEN; lia))).
  change (k_mem e) with (k_mem k). rewrite (pp_ro _ _ _ _ _ P), (bind_Ok _ _ _ _ _ (get_proc_ok me p e Ep)).
  assert ((ro =? 0) || negb (p_killed p =? 0) = true) as -> by (destruct (Z.eqb_spec ro 0), (Z.eqb_spec (p_killed p) 0); try done; tauto).
  by rewrite (bind_Ok _ _ _ _ _ (release_ok c nm (LPipe pi) k (q_cpu _ _ _ Q) El)).
Qed.

(** All the bytes are in, or the next one cannot be read. *)
Lemma pipewrite_stop c me nm pi l root s n p addr ro wo k q a len fuel :
  pipe_user c me k nm pi l root s n p -> p_killed p = 0 -> ro <> 0 -> pipe_at (k_mem k) pi q ro wo ->
  0 <= addr < 2 ^ 39 -> 0 <= a <= len -> (a < len -> addr + a < 2 ^ 39) -> (a < len -> uacc s (addr + a) = false) -> (Z.to_nat (len - a) <= fuel)%nat ->
  (a < len -> Z.of_nat (length q) < PIPESIZE) ->
  pipewrite_loop fuel me pi addr len a (enter c nm (LPipe pi) k) = Ok a (set_k_proc (woken (ChNread pi) (Some me) (k_proc k)) k).
Proof.
  intros PU Hk Hro P Ha Hl HE C Hf Hq. destruct (decide (a = len)) as [->|Hne].
  - destruct fuel; cbn [pipewrite_loop]; (destruct (Z.ltb_spec len len); [lia|]); cbn [negb]; exact (pipe_close_write c me k nm pi l root s n p len PU).
  - destruct fuel as [|fuel]; [lia|]. pose proof PU as [_ _ _ _ U Sz _]. assert (addr + a < 2 ^ 39) as Hlt by lia.
    rewrite (pipewrite_turn c me nm pi l root s n p addr ro wo k q a len _ PU Hk Hro P) by lia.
    destruct (Z.eqb_spec (Z.of_nat (length q)) PIPESIZE); [lia|].
    pose proof (copyin_byte c nm pi l root s n k (addr + a) 0 U Sz ltac:(lia)) as Ec. rewrite C in Ec by lia.
    rewrite (bind_Ok _ _ _ _ _ (Ec ltac:(done))). cbn [fst Z.eqb]. exact (pipe_close_write c me k nm pi l root s n p a PU).
Qed.

(** [pipewrite] of [len] bytes at [addr]: as many as can be read and have room go in; then
    the writer returns their count, or the pipe is full and it waits for the reader. *)
Lemma pipewrite_ok c me nm pi l root s n p addr ro wo len k q :
  pipe_user c me k nm pi l root s n p -> p_killed p = 0 -> ro <> 0 -> pipe_at (k_mem k) pi q ro wo ->
  0 <= addr < 2 ^ 39 -> 0 <= len ->
  let a := avail s addr len in let room := PIPESIZE - Z.of_nat (length q) in
  exists m', in_only pi (k_mem k) m' /\ pipe_user c me (set_k_mem m' k) nm pi l root s n p /\
    pipe_at m' pi (q ++ ubytes (k_mem k) s addr (Z.to_nat (Z.min a room))) ro wo /\
    pipewrite pi addr len k =
      if (room <? len) && (room <=? a) then
        (wakeup (ChNread pi) ;; sleep (ChNwrite pi) (LPipe pi) ;; pipewrite_loop (Z.to_nat (len - room - 1) + sleep_fuel) me pi addr len room)
          (enter c nm (LPipe pi) (set_k_mem m' k))
      else Ok a (set_k_proc (woken (ChNread pi) (Some me) (k_proc k)) (set_k_mem m' k)).
Proof.
  intros PU Hk Hro P Ha Hl a room. pose proof PU as [Q El _ _ _ Sz _]. pose proof (pp_len _ _ _ _ _ P) as Hq.
  destruct (avail_reach s addr len Hl) as (A & B & C) eqn:Er. clear Er. fold a in A, B, C.
  assert (addr + a < 2 ^ 39) as HE.
  { destruct (decide (a = 0)); [lia|]. destruct (uacc_lt s n (addr + (a - 1)) Sz); [|apply B; lia|]; pose proof (reach_end s n addr len a Sz Ha (conj A (conj B C)));
      pose proof (sz_range _ _ Sz); lia. }
  set (t := Z.to_nat (Z.min a room)). set (bs := ubytes (k_mem k) s addr t).
  assert (length bs = t) as Lb by (unfold bs, ubytes; by rewrite length_map, length_seq).
  destruct (pipewrite_copy_ok c me nm pi l root s n p addr ro wo len (Z.to_nat len - t + sleep_fuel) bs k q 0 PU Hk Hro (ubytes_bytes _ _ _ _) P)
    as (m' & E & Ho & P'); rewrite ?Lb, ?Z.add_0_r; try (unfold t, room in *; lia); [apply (urange_sub s addr a); [done|unfold t; lia..]|done|].
  destruct (pipe_user_mem c me k nm pi l root s n p m' PU Ho) as [PU' _]. exists m'. split; [done|]. split; [done|]. split; [done|].
  unfold pipewrite. rewrite (bind_Ok _ _ _ _ _ (cur_ok c me k Q)), (bind_Ok _ _ _ _ _ (acquire_ok c nm (LPipe pi) k (q_cpu _ _ _ Q) El)).
  replace (Z.to_nat len + sleep_fuel)%nat with (length bs + (Z.to_nat len - t + sleep_fuel))%nat by (unfold t in *; lia).
  assert (Z.of_nat t < room \/ len <= room -> pipewrite_loop (Z.to_nat len - t + sleep_fuel) me pi addr len (Z.of_nat t) (enter c nm (LPipe pi) (set_k_mem m' k)) =
    Ok a (set_k_proc (woken (ChNread pi) (Some me) (k_proc k)) (set_k_mem m' k))) as Hstop.
  { intros Hcase. assert (Z.of_nat t = a) as -> by (unfold t, room in *; lia).
    apply (pipewrite_stop c me nm pi l root s n p addr ro wo (set_k_mem m' k) (q ++ bs) a len _ PU' Hk Hro P'); [lia|lia|lia|done|unfold t; lia|].
    rewrite length_app, Lb. unfold t, room in *. lia. }
  rewrite E, Lb, Z.add_0_l. destruct (Z.ltb_spec room len) as [Hr1|Hr1], (Z.leb_spec room a) as [Hr2|Hr2]; cbn [andb].
  - replace (Z.of_nat t) with room by (unfold t, room in *; lia).
    replace (Z.to_nat len - t + sleep_fuel)%nat with (S (Z.to_nat (len - room - 1) + sleep_fuel)) by (unfold t, room in *; lia).
    rewrite (pipewrite_turn c me nm pi l root s n p addr ro wo (set_k_mem m' k) (q ++ bs) room len _ PU' Hk Hro P'); [|lia|].
    + rewrite length_app, Lb. destruct (Z.eqb_spec (Z.of_nat (length q + t)) PIPESIZE); [done|unfold t, room in *; lia].
    + unfold room in *. lia.
  - apply Hstop. unfold t, room in *. lia.
  - apply Hstop. unfold t, room in *. lia.
  - apply Hstop. unfold t, room in *. lia.
Qed.

(** * Reading *)

Lemma pipe_at_ext m m' pi q ro wo : (forall b, pi <= b < pi + 4096 -> peek m' b = peek m b) -> pipe_at m pi q ro wo -> pipe_at m' pi q ro wo.
Proof.
  intros E [L W D Ro Wo].
  assert (forall off, 0 <= off <= 4092 -> rd 4 m' (pi + off) = rd 4 m (pi + off)) as Er by (intros off Ho; apply rd_ext; intros b Hb; apply E; lia).
  split; rewrite ?Er by (unfold PI_NWRITE, PI_NREAD, PI_READOPEN, PI_WRITEOPEN; lia); try done.
  intros i Hi. pose proof (ring_range (rd 4 m (pi + PI_NREAD) + Z.of_nat i)). rewrite E by (unfold PI_DATA; lia). by apply D.
Qed.

Lemma user_only_apart k l root s p m' b : apart k l root s p -> rep (k_mem k) root s -> user_only s (k_mem k) m' ->
  p <= b < p + 4096 -> peek m' b = peek (k_mem k) b.
Proof.
  intros [[Hp _] _ _ Ho _] R (_ & _ & O) Hb. apply O. intros v e Ee Hb'. assert (frame_of e <> p) as Hne by (intros Ef; apply (Ho (OPage v)); cbn; by rewrite Ee, <- Ef).
  destruct (rep_page _ _ _ R (OPage v) (frame_of e) ltac:(cbn; by rewrite Ee)) as [[Hq _] _].
  destruct (pages_disjoint (frame_of e) p Hq Hp Hne); unfold PGSIZE in *; lia.
Qed.

Lemma overwrite_ext old old' va cnt bs x : old x = old' x -> overwrite old va cnt bs x = overwrite old' va cnt bs x.
Proof. unfold overwrite. intros E. by rewrite E. Qed.
Lemma overwrite_cons old va b bs cnt x : 0 <= cnt -> is_u8 b ->
  overwrite (overwrite old va 1 [b]) (va + 1) cnt bs x = overwrite old va (1 + cnt) (b :: bs) x.
Proof.
  intros Hc Hb. unfold overwrite.
  destruct (Z.leb_spec (va + 1) x), (Z.ltb_spec x (va + 1 + cnt)), (Z.leb_spec va x), (Z.ltb_spec x (va + 1)), (Z.ltb_spec x (va + (1 + cnt)));
    cbn [andb]; try lia; try done.
  - replace (Z.to_nat (x - va)) with (S (Z.to_nat (x - (va + 1)))) by lia. done.
  - replace (Z.to_nat (x - va)) with 0%nat by lia. done.
Qed.

(** Only the page of the pipe and pages of the process have changed. *)
Definition in_pipe_and_user (pi : Z) (s : space) (m m' : memory) : Prop :=
  ram_lo m' = ram_lo m /\ ram_hi m' = ram_hi m /\
  forall b, ~ (pi <= b < pi + 4096) -> (forall v e, sp_pages s !! v = Some e -> ~ (frame_of e <= b < frame_of e + 4096)) -> peek m' b = peek m b.

Lemma in_pipe_and_user_trans pi s m1 m2 m3 : in_pipe_and_user pi s m1 m2 -> in_pipe_and_user pi s m2 m3 -> in_pipe_and_user pi s m1 m3.
Proof. intros (A1 & A2 & A) (B1 & B2 & B). split; [congruence|]. split; [congruence|]. intros b H1 H2. rewrite B by done. by apply A. Qed.
Lemma in_pipe_and_user_both pi s m1 m2 m3 : in_only pi m1 m2 -> user_only s m2 m3 -> in_pipe_and_user pi s m1 m3.
Proof. intros (A1 & A2 & A) (B1 & B2 & B). split; [congruence|]. split; [congruence|]. intros b H1 H2. rewrite B by done. by apply A. Qed.

(** How many bytes leave the pipe when [a] of [got] can be stored: the next one is lost. *)
Definition taken (a : Z) (got : nat) : nat := if a <? Z.of_nat got then S (Z.to_nat a) else got.

(** The pipe is empty, or no byte is asked for: it ends. *)
Lemma piperead_copy_end c me nm pi l root s n p addr ro wo fuel k q i a :
  pipe_user c me k nm pi l root s n p -> pipe_at (k_mem k) pi q ro wo -> (fuel `min` length q = 0)%nat -> 0 <= a <= 0 ->
  exists m', piperead_copy fuel me pi addr i (enter c nm (LPipe pi) k) = Ok (i + a) (enter c nm (LPipe pi) (set_k_mem m' k)) /\
    pipe_user c me (set_k_mem m' k) nm pi l root s n p /\ pipe_at m' pi (skipn (taken a (fuel `min` length q)) q) ro wo /\
    in_pipe_and_user pi s (k_mem k) m' /\
    forall x, 0 <= x < 2 ^ 39 -> ubyte m' s x = overwrite (ubyte (k_mem k) s) (addr + i) a q x.
Proof.
  intros PU P Hmin Ha. assert (a = 0) as -> by lia. exists (k_mem k). replace (set_k_mem (k_mem k) k) with k by by destruct k. rewrite Hmin, Z.add_0_r.
  split; [|split; [done|split; [done|split; [by repeat split|intros x Hx; by rewrite overwrite_nothing by lia]]]].
  destruct fuel as [|fuel]; [done|]. destruct q; [|cbn in Hmin; lia]. cbn [piperead_copy].
  pose proof PU as [_ _ _ _ _ _ A]. set (e := enter c nm (LPipe pi) k).
  pose proof (ap_page _ _ _ _ _ A) as Hp. pose proof (ap_ram _ _ _ _ _ A : in_ram (k_mem e) pi 4096 = true) as Hr.
  rewrite (bind_Ok _ _ _ _ _ (pi_get_ok e pi PI_NREAD Hp Hr ltac:(unfold PI_NREAD; lia))).
  rewrite (bind_Ok _ _ _ _ _ (pi_get_ok e pi PI_NWRITE Hp Hr ltac:(unfold PI_NWRITE; lia))). change (k_mem e) with (k_mem k).
  rewrite (pp_nwrite _ _ _ _ _ P). cbn [length]. change (Z.of_nat 0) with 0. rewrite Z.add_0_r, u32_small by apply nread_range. by rewrite Z.eqb_refl.
Qed.

(** One byte leaves the pipe and goes to the user, or nowhere. *)
Lemma piperead_step c me nm pi l root s n p addr ro wo fuel k b q i :
  pipe_user c me k nm pi l root s n p -> bytes (b :: q) -> pipe_at (k_mem k) pi (b :: q) ro wo -> 0 <= addr + i < 2 ^ 39 ->
  exists m', piperead_copy (S fuel) me pi addr i (enter c nm (LPipe pi) k) =
      (if uacc s (addr + i) then piperead_copy fuel me pi addr (i + 1) else ret i) (enter c nm (LPipe pi) (set_k_mem m' k)) /\
    pipe_user c me (set_k_mem m' k) nm pi l root s n p /\ pipe_at m' pi q ro wo /\ in_pipe_and_user pi s (k_mem k) m' /\
    forall x, 0 <= x < 2 ^ 39 -> ubyte m' s x = overwrite (ubyte (k_mem k) s) (addr + i) (if uacc s (addr + i) then 1 else 0) [b] x.
Proof.
  intros PU Hb P Ha. pose proof PU as [Q El Ep Er U Sz A]. set (e := enter c nm (LPipe pi) k). cbn [piperead_copy].
  pose proof (ap_page _ _ _ _ _ A) as Hp. pose proof (ap_ram _ _ _ _ _ A : in_ram (k_mem e) pi 4096 = true) as Hr.
  rewrite (bind_Ok _ _ _ _ _ (pi_get_ok e pi PI_NREAD Hp Hr ltac:(unfold PI_NREAD; lia))).
  rewrite (bind_Ok _ _ _ _ _ (pi_get_ok e pi PI_NWRITE Hp Hr ltac:(unfold PI_NWRITE; lia))). change (k_mem e) with (k_mem k).
  set (nr := rd 4 (k_mem k) (pi + PI_NREAD)).
  destruct (pipe_get (k_mem k) pi b q ro wo P) as (Hne & Eb & P1). fold nr in Hne, Eb, P1. destruct (Z.eqb_spec nr (rd 4 (k_mem k) (pi + PI_NWRITE))); [done|].
  pose proof (ring_range nr) as Hrr.
  destruct (in_page_ok (k_mem e) pi (PI_DATA + nr mod PIPESIZE) 1 Hp Hr) as [E1 E2]; [unfold PI_DATA; lia|lia|unfold PI_DATA; lia|].
  rewrite Z.add_assoc in E1, E2. rewrite E1. rewrite (bind_Ok _ _ _ _ _ (on_load 1 _ e E2)), rd1. change (k_mem e) with (k_mem k). rewrite Eb.
  rewrite (bind_Ok _ _ _ _ _ (pi_set_ok e pi PI_NREAD (nr + 1) Hp Hr ltac:(unfold PI_NREAD; lia))). change (k_mem e) with (k_mem k).
  set (m1 := wr 4 (pi + PI_NREAD) (u32 (nr + 1)) (k_mem k)) in *.
  assert (in_only pi (k_mem k) m1) as Ho by (apply in_only_wr; unfold PI_NREAD; lia).
  destruct (pipe_user_mem c me k nm pi l root s n p m1 PU Ho) as [PU1 B1]. set (e1 := set_k_mem m1 e). pose proof PU1 as [_ _ _ _ U1 _ A1].
  rewrite (bind_Ok _ _ _ _ _ (get_proc_ok me p e1 Ep)). rewrite Er, (u64_small (addr + i)) by (unfold is_u64; lia).
  set (v := if uacc s (addr + i) then 1 else 0).
  assert (reach s (addr + i) (Z.of_nat (length [b])) v) as Hv.
  { unfold v. destruct (uacc s (addr + i)) eqn:Eu; (split; [cbn; lia|]); split; try (cbn; lia).
    - intros x Hx. by replace x with (addr + i) by lia.
    - intros x Hx. lia.
    - intros _. by rewrite Z.add_0_r. }
  destruct (copyout_loop_ok l root s n Sz 1 (addr + i) [b] e1 v (uspace_ext (set_k_mem m1 k) e1 _ _ _ eq_refl eq_refl U1) ltac:(cbn; lia) ltac:(lia) ltac:(lia) Hv)
    as (m2 & Ec & U2 & O2 & B2). change (k_mem e1) with m1 in O2, B2.
  exists m2. split; [|split; [|split; [|split]]].
  - unfold copyout. change (length [b]) with 1%nat in *. rewrite (bind_Ok _ _ _ _ _ Ec). change (set_k_mem m2 e1) with (enter c nm (LPipe pi) (set_k_mem m2 k)).
    unfold v. by destruct (uacc s (addr + i)).
  - split; try done; [by destruct Q| |].
    + by apply (uspace_ext (set_k_mem m2 e1)).
    + destruct A1 as [X1 X2 X3 X4 X5]. split; try done. destruct O2 as (L1 & L2 & _). unfold in_ram in *. cbn in *. by rewrite L1, L2.
  - apply (pipe_at_ext m1); [|done]. intros x Hx. apply (user_only_apart (set_k_mem m1 k) l root s pi); [done|apply U1|done|done].
  - by eapply in_pipe_and_user_both.
  - intros x Hx. rewrite B2 by done. apply overwrite_ext, B1.
Qed.

Lemma piperead_copy_ok c me nm pi l root s n p addr ro wo : forall fuel k q i a,
  pipe_user c me k nm pi l root s n p -> bytes q -> pipe_at (k_mem k) pi q ro wo ->
  0 <= addr + i -> (0 < Z.of_nat (fuel `min` length q) -> addr + i < 2 ^ 39) ->
  reach s (addr + i) (Z.of_nat (fuel `min` length q)) a ->
  exists m', piperead_copy fuel me pi addr i (enter c nm (LPipe pi) k) = Ok (i + a) (enter c nm (LPipe pi) (set_k_mem m' k)) /\
    pipe_user c me (set_k_mem m' k) nm pi l root s n p /\ pipe_at m' pi (skipn (taken a (fuel `min` length q)) q) ro wo /\
    in_pipe_and_user pi s (k_mem k) m' /\
    forall x, 0 <= x < 2 ^ 39 -> ubyte m' s x = overwrite (ubyte (k_mem k) s) (addr + i) a q x.
Proof.
  induction fuel as [|fuel IH]; intros k q i a PU Hb P Ha Hlt Hr.
  { destruct Hr as (Hr & _). by apply piperead_copy_end. }
  destruct q as [|b q]. { destruct Hr as (Hr & _). rewrite Nat.min_0_r in Hr. by apply (piperead_copy_end c me nm pi l root s n p addr ro wo (S fuel)). }
  cbn [length Nat.min] in *. pose proof (pu_sized _ _ _ _ _ _ _ _ _ _ PU) as Sz. set (g := (fuel `min` length q)%nat) in *.
  destruct (piperead_step c me nm pi l root s n p addr ro wo fuel k b q i PU Hb P ltac:(lia)) as (m1 & E1 & PU1 & P1 & O1 & B1).
  destruct Hr as (A & B & C). apply list.Forall_cons in Hb as [Hb Hbs]. destruct (uacc s (addr + i)) eqn:Eu.
  - assert (0 < a) as Hpos. { destruct (decide (a = 0)) as [->|]; [|lia]. rewrite Z.add_0_r, Eu in C. discriminate C. lia. }
    destruct (uacc_lt s n (addr + i) Sz ltac:(lia) Eu) as [Hl _]. pose proof (sz_range _ _ Sz) as Hn.
    destruct (IH (set_k_mem m1 k) q (i + 1) (a - 1) PU1 Hbs P1 ltac:(lia) ltac:(lia)) as (m2 & E2 & PU2 & P2 & O2 & B2).
    { fold g. split; [lia|]. split; [intros x Hx; apply B; lia|]. intros Hla. replace (addr + (i + 1) + (a - 1)) with (addr + i + a) by lia. apply C. lia. }
    exists m2. rewrite E1, E2. fold g in P2. split; [f_equal; lia|]. split; [done|]. split; [|split; [by eapply in_pipe_and_user_trans|]].
    + replace (skipn (taken a (S g)) (b :: q)) with (skipn (taken (a - 1) g) q); [done|]. unfold taken.
      destruct (Z.ltb_spec (a - 1) (Z.of_nat g)), (Z.ltb_spec a (Z.of_nat (S g))); try lia; [|done]. replace (Z.to_nat a) with (S (Z.to_nat (a - 1))) by lia. done.
    + intros x Hx. rewrite B2 by done. change (k_mem (set_k_mem m1 k)) with m1. rewrite (overwrite_ext _ _ _ _ _ _ (B1 x Hx)), Z.add_assoc.
      rewrite overwrite_cons by (lia || done). by replace (1 + (a - 1)) with a by lia.
  - assert (a = 0) as ->. { destruct (decide (a = 0)); [done|]. rewrite B in Eu by lia. discriminate Eu. }
    exists m1. rewrite E1, Z.add_0_r. split; [done|]. split; [done|]. split; [|split; [done|]].
    + unfold taken. destruct (Z.ltb_spec 0 (Z.of_nat (S g))); [done|lia].
    + intros x Hx. rewrite B1 by done. by rewrite !overwrite_nothing by lia.
Qed.

(** The end of a wait is at hand when there is a byte, or no writer; otherwise the process
    waits, or gives up when it has been killed. *)
Lemma piperead_wait_ok c me nm pi l root s n p ro wo fuel k q :
  pipe_user c me k nm pi l root s n p -> pipe_at (k_mem k) pi q ro wo ->
  piperead_wait (S fuel) me pi (enter c nm (LPipe pi) k) =
    (if bool_decide (q = []) && negb (wo =? 0) then
       if negb (p_killed p =? 0) then release (LPipe pi) ;; ret false
       else sleep (ChNread pi) (LPipe pi) ;; piperead_wait fuel me pi
     else ret true) (enter c nm (LPipe pi) k).
Proof.
  intros PU P. pose proof PU as [Q El Ep Er U Sz A]. set (e := enter c nm (LPipe pi) k). cbn [piperead_wait].
  pose proof (ap_page _ _ _ _ _ A) as Hp. pose proof (ap_ram _ _ _ _ _ A : in_ram (k_mem e) pi 4096 = true) as Hr.
  rewrite (bind_Ok _ _ _ _ _ (pi_get_ok e pi PI_NREAD Hp Hr ltac:(unfold PI_NREAD; lia))).
  rewrite (bind_Ok _ _ _ _ _ (pi_get_ok e pi PI_NWRITE Hp Hr ltac:(unfold PI_NWRITE; lia))).
  rewrite (bind_Ok _ _ _ _ _ (pi_get_ok e pi PI_WRITEOPEN Hp Hr ltac:(unfold PI_WRITEOPEN; lia))).
  change (k_mem e) with (k_mem k). rewrite (pp_wo _ _ _ _ _ P). destruct q as [|b q].
  - assert (rd 4 (k_mem k) (pi + PI_NREAD) =? rd 4 (k_mem k) (pi + PI_NWRITE) = true) as ->.
    { apply Z.eqb_eq. rewrite (pp_nwrite _ _ _ _ _ P). cbn. rewrite Z.add_0_r. symmetry. apply Z.mod_small, nread_range. }
    rewrite bool_decide_eq_true_2 by done. cbn [andb]. destruct (negb (wo =? 0)); [|done]. by rewrite (bind_Ok _ _ _ _ _ (get_proc_ok me p e Ep)).
  - destruct (pipe_get (k_mem k) pi b q ro wo P) as (Hne & _). apply Z.eqb_neq in Hne. by rewrite Hne.
Qed.

(** [piperead] of [cnt] bytes to [addr]: those that are there go to the user as long as the
    next byte can be stored; a byte that cannot be stored is lost. *)
Lemma piperead_ok c me nm pi l root s n p addr ro wo cnt k q :
  pipe_user c me k nm pi l root s n p -> bytes q -> pipe_at (k_mem k) pi q ro wo -> q <> [] \/ wo = 0 ->
  0 <= addr < 2 ^ 39 ->
  let got := (cnt `min` length q)%nat in let a := avail s addr (Z.of_nat got) in
  exists m', let k' := set_k_proc (woken (ChNwrite pi) (Some me) (k_proc k)) (set_k_mem m' k) in
    piperead pi addr (Z.of_nat cnt) k = Ok a k' /\
    pipe_user c me k' nm pi l root s n p /\ pipe_at m' pi (skipn (taken a got) q) ro wo /\ in_pipe_and_user pi s (k_mem k) m' /\
    forall x, 0 <= x < 2 ^ 39 -> ubyte m' s x = overwrite (ubyte (k_mem k) s) addr a q x.
Proof.
  intros PU Hb P Hq Ha got a. pose proof PU as [Q El _ _ _ _ _]. pose proof (q_cpu _ _ _ Q) as Hc.
  destruct (piperead_copy_ok c me nm pi l root s n p addr ro wo cnt k q 0 a PU Hb P) as (m' & E & PU' & P' & O' & B'); rewrite ?Z.add_0_r; try lia.
  { apply avail_reach. lia. }
  rewrite Z.add_0_l in E. rewrite Z.add_0_r in B'.
  exists m'. cbv zeta. split; [|split; [by apply (pipe_user_procs c me (set_k_mem m' k))|done]].
  unfold piperead. rewrite (bind_Ok _ _ _ _ _ (cur_ok c me k Q)), (bind_Ok _ _ _ _ _ (acquire_ok c nm (LPipe pi) k Hc El)).
  pose proof (piperead_wait_ok c me nm pi l root s n p ro wo sleep_fuel k q PU P) as Ew.
  replace (bool_decide (q = []) && negb (wo =? 0)) with false in Ew by (destruct Hq as [Hq| ->]; [by rewrite bool_decide_eq_false_2|by rewrite andb_false_r]).
  rewrite (bind_Ok _ _ _ _ _ Ew). cbn [negb]. rewrite Nat2Z.id.
  rewrite (bind_Ok _ _ _ _ _ E). set (k1 := set_k_mem m' k).
  assert (procs_free (enter c nm (LPipe pi) k1)) as Hp.
  { split; [apply Q|]. intros j Hj. apply free_enter; [done|]. by apply (q_free _ _ _ Q (LProc j)). }
  rewrite (bind_Ok _ _ _ _ _ (wakeup_ok _ (ChNwrite pi) _ (on_cpu_enter c nm (LPipe pi) k1 Hc) Hp)). cbn [c_proc set_c_noff]. rewrite (q_me _ _ _ Q).
  set (k2 := set_k_proc (woken (ChNwrite pi) (Some me) (k_proc k1)) k1).
  change (set_k_proc _ (enter c nm (LPipe pi) k1)) with (enter c nm (LPipe pi) k2).
  by rewrite (bind_Ok _ _ _ _ _ (release_ok c nm (LPipe pi) k2 Hc El)).
Qed.

(** C21 A pipe is a queue of at most 512 bytes, for any process with the pipe open, whatever
    pages of it are guard pages.
    [pipewrite] returns -1 and changes nothing when the reader is gone or the process has been
    killed.  Otherwise it puts the bytes at the end, in order, as many as the process may
    access and as there is room for.  When the pipe is full and bytes are left, it wakes the
    reader and sleeps, no byte that has not been read overwritten, and goes on from there;
    else it wakes the reader and returns the count.  It changes no memory but the page of
    the pipe.
    [piperead] with the pipe empty and a writer there sleeps, or gives up when the process
    has been killed; when there is a byte or the write end is closed it moves bytes from the
    front to the memory of the process, at most as many as asked for, as are there and as
    the process may access, and returns the count (the byte that cannot be stored is
    lost).  It changes no memory but the page of the pipe and pages of the process, and
    of these only the bytes asked for.  The counters may wrap. *)
Theorem pipe_refines_queue c me nm pi l root s n p ro wo k q :
  pipe_user c me k nm pi l root s n p -> pipe_at (k_mem k) pi q ro wo -> bytes q ->
  (forall addr len, 0 <= addr < 2 ^ 39 -> 0 <= len ->
     let a := avail s addr len in let room := PIPESIZE - Z.of_nat (length q) in
     if (ro =? 0) || negb (p_killed p =? 0) then 0 < len -> pipewrite pi addr len k = Ok (-1) k
     else exists m', in_only pi (k_mem k) m' /\ pipe_user c me (set_k_mem m' k) nm pi l root s n p /\
       pipe_at m' pi (q ++ ubytes (k_mem k) s addr (Z.to_nat (Z.min a room))) ro wo /\
       pipewrite pi addr len k =
         if (room <? len) && (room <=? a) then
           (wakeup (ChNread pi) ;; sleep (ChNwrite pi) (LPipe pi) ;; pipewrite_loop (Z.to_nat (len - room - 1) + sleep_fuel) me pi addr len room)
             (enter c nm (LPipe pi) (set_k_mem m' k))
         else Ok a (set_k_proc (woken (ChNread pi) (Some me) (k_proc k)) (set_k_mem m' k))) /\
  (q = [] -> wo <> 0 -> forall fuel, piperead_wait (S fuel) me pi (enter c nm (LPipe pi) k) =
     if p_killed p =? 0 then (sleep (ChNread pi) (LPipe pi) ;; piperead_wait fuel me pi) (enter c nm (LPipe pi) k) else Ok false k) /\
  (forall addr cnt, q <> [] \/ wo = 0 -> 0 <= addr < 2 ^ 39 ->
     let got := (cnt `min` length q)%nat in let a := avail s addr (Z.of_nat got) in
     exists m', let k' := set_k_proc (woken (ChNwrite pi) (Some me) (k_proc k)) (set_k_mem m' k) in
       piperead pi addr (Z.of_nat cnt) k = Ok a k' /\
       pipe_user c me k' nm pi l root s n p /\ pipe_at m' pi (skipn (taken a got) q) ro wo /\ in_pipe_and_user pi s (k_mem k) m' /\
       forall x, 0 <= x < 2 ^ 39 -> ubyte m' s x = overwrite (ubyte (k_mem k) s) addr a q x).
Proof.
  intros PU P Hb. split; [|split].
  - intros addr len Ha Hl a room. destruct (Z.eqb_spec ro 0) as [Hro|Hro]; [|destruct (Z.eqb_spec (p_killed p) 0) as [Hk|Hk]]; cbn [orb negb];
      [intros Hpos; apply (pipewrite_refused c me nm pi l root s n p addr ro wo len k q); auto| |
       intros Hpos; apply (pipewrite_refused c me nm pi l root s n p addr ro wo len k q); auto].
    by apply (pipewrite_ok c me nm pi l root s n p addr ro wo len k q).
  - intros -> Hw fuel. rewrite (piperead_wait_ok c me nm pi l root s n p ro wo fuel k [] PU P). rewrite bool_decide_eq_true_2 by done.
    apply Z.eqb_neq in Hw. rewrite Hw. cbn [andb negb]. destruct (Z.eqb_spec (p_killed p) 0); cbn [negb]; [done|].
    by rewrite (bind_Ok _ _ _ _ _ (release_ok c nm (LPipe pi) k (q_cpu _ _ _ (pu_quiet _ _ _ _ _ _ _ _ _ _ PU)) (pu_lock _ _ _ _ _ _ _ _ _ _ PU))).
  - intros addr cnt Hq Ha got a. by apply (piperead_ok c me nm pi l root s n p addr ro wo cnt k q).
Qed.
End Pipe.

(** * At work *)

(** Process 0 with an empty page table, four more free pages. *)
Definition pipe_pages : list Z := [page_no 0; page_no 1; page_no 2; page_no 3; page_no 4].
Definition pipe_ram : memory :=
  wr 8 (page_no 3) (page_no 4) (wr 8 (page_no 2) (page_no 3) (wr 8 (page_no 1) (page_no 2) (wr 8 (page_no 0) (page_no 1)
    (mkMem (KERNLINK + 0x100000) (KERNLINK + 0x105000) ∅)))).
Definition pipe_proc : proc := set_p_pagetable (page_no 0) (set_p_pid 1 (set_p_state RUNNING no_proc)).
Definition pipe_kernel : kernel unit :=
  let k := null_kernel in
  set_k_mem pipe_ram (set_k_freelist (page_no 0) (set_k_proc (<[O := pipe_proc]> (k_proc k))
    (set_k_locks (<[LPipe (page_no 4) := mkLk 0 "pipe" None]> (k_locks k)) k))).

Lemma pipe_heap : heap pipe_kernel pipe_pages.
Proof.
  split.
  - split; vm_compute; congruence.
  - cbn [chain pipe_pages]. repeat (split; [vm_compute; congruence|split; [split; [by vm_compute|split; [split; vm_compute; congruence|split; by vm_compute]]|]]).
    by vm_compute.
  - apply (bool_decide_unpack _). by vm_compute.
Qed.

Lemma pipe_quiet : quiet cpu0 0 pipe_kernel.
Proof.
  pose proof null_quiet as [A B C D E _ G]. split; try done.
  - exists pipe_proc. split; [reflexivity|]. by split.
  - intros l Hl. destruct (G l Hl) as [nm En]. exists nm. change (k_locks pipe_kernel) with (<[LPipe (page_no 4) := mkLk 0 "pipe" None]> (k_locks null_kernel)).
    rewrite lookup_insert_ne; [done|]. intros <-. done.
Qed.

Lemma pipe_run : match (let! p := uvmcreate in let! r := uvmalloc p 0 100 in let! q := kalloc in ret (r, q)) pipe_kernel with
  Ok r _ => bool_decide (r = (100, page_no 4)) | _ => false end = true.
Proof. by vm_compute. Qed.

Lemma pipe_kernel_lock : k_locks pipe_kernel !! LPipe (page_no 4) = Some (mkLk 0 "pipe" None).
Proof. apply lookup_insert_eq. Qed.
Lemma pipe_kernel_proc : k_proc pipe_kernel !! O = Some pipe_proc.
Proof. reflexivity. Qed.

#[local] Opaque pipe_kernel uvmcreate uvmalloc kalloc.
Lemma pipe_result p k r k1 q k2 :
  uvmcreate pipe_kernel = Ok p k -> uvmalloc p 0 100 k = Ok r k1 -> kalloc k1 = Ok q k2 -> r = 100 /\ q = page_no 4.
Proof.
  intros E E1 E2. pose proof pipe_run as Hr. unfold bind in Hr. rewrite E in Hr. rewrite E1 in Hr. rewrite E2 in Hr. unfold ret in Hr.
  apply bool_decide_eq_true in Hr. split; [exact (f_equal fst Hr)|exact (f_equal snd Hr)].
Qed.
#[local] Transparent uvmalloc.

Lemma frame_quiet k : mem_frame pipe_kernel k -> quiet cpu0 0 k /\ k_locks k !! LPipe (page_no 4) = Some (mkLk 0 "pipe" None) /\
  k_proc k !! O = Some pipe_proc.
Proof.
  intros F. split; [exact (mem_frame_quiet cpu0 0 _ k F pipe_quiet)|]. destruct (mem_frame_locks _ k F) as [-> ->].
  split; [exact pipe_kernel_lock|exact pipe_kernel_proc].
Qed.

(** A process of one page, and an empty pipe that is open at both ends. *)
Lemma pipe_ready : exists (k : kernel unit) l s,
  pipe_user cpu0 0 k "pipe" (page_no 4) l (page_no 0) s 1 pipe_proc /\ pipe_at (k_mem k) (page_no 4) [] 1 1 /\ urange s 0 4096.
Proof.
  destruct (uvmcreate_ok cpu0 pipe_kernel (page_no 0) _ (q_cpu _ _ _ pipe_quiet) (q_free _ _ _ pipe_quiet LKmem I) pipe_heap) as (k1 & E1 & F1 & U1 & S1).
  destruct (mem_frame_cpu cpu0 _ k1 F1 (q_cpu _ _ _ pipe_quiet) (q_free _ _ _ pipe_quiet LKmem I)) as [Hc1 Hf1].
  destruct (uvmalloc_loop_ok cpu0 100 0 1 2 k1 _ (page_no 0) no_space 0 Hc1 Hf1 U1 S1) as (k2 & l2 & s2 & r & E2 & U2 & _ & D); [lia..|by vm_compute|lia|].
  assert (mem_frame k1 k2) as F2 by (destruct D as [(_ & V & _)|(_ & V & _)]; apply V).
  assert (uvmalloc (page_no 0) 0 100 k1 = Ok r k2) as E2' by exact E2.
  destruct (mem_frame_cpu cpu0 _ k2 F2 Hc1 Hf1) as [Hc2 Hf2]. destruct l2 as [|q l2].
  { exfalso. destruct (pipe_result _ _ _ _ _ _ E1 E2' (kalloc_none cpu0 k2 [] Hc2 Hf2 (us_heap _ _ _ _ U2) eq_refl)) as [_ Hq].
    vm_compute in Hq. discriminate Hq. }
  destruct (take_page cpu0 k2 q l2 _ s2 Hc2 Hf2 U2) as (k3 & k4 & E3 & E4 & _ & U4 & A4 & V4 & Z4).
  destruct (pipe_result _ _ _ _ _ _ E1 E2' E3) as [-> ->]. destruct D as [(_ & _ & S2 & _ & N2)|[D _]]; [|discriminate D].
  destruct (frame_quiet k4) as (Q4 & L4 & P4).
  { eapply mem_frame_trans; [exact F1|]. eapply mem_frame_trans; [exact F2|apply V4]. }
  set (m := wr 4 (page_no 4 + PI_READOPEN) 1 (wr 4 (page_no 4 + PI_WRITEOPEN) 1 (k_mem k4))).
  assert (pipe_user cpu0 0 k4 "pipe" (page_no 4) l2 (page_no 0) s2 1 pipe_proc) as PU by by split.
  assert (in_only (page_no 4) (k_mem k4) m) as Ho by (eapply in_only_trans; apply in_only_wr; unfold PI_READOPEN, PI_WRITEOPEN; lia).
  destruct (pipe_user_mem _ _ _ _ _ _ _ _ _ _ m PU Ho) as [PU' _]. exists (set_k_mem m k4), l2, s2. split; [exact PU'|]. cbn [k_mem set_k_mem].
  enough (pipe_at m (page_no 4) [] 1 1) as Hpipe.
  { split; [exact Hpipe|]. intros x Hx. unfold uacc. rewrite user_vpn, Z.div_small by lia. destruct (N2 0 ltac:(lia)) as (e & -> & Fl & _). by apply flags_user. }
  assert (forall off, 0 <= off <= 4092 -> rd 4 (k_mem k4) (page_no 4 + off) = 0) as Hz.
  { intros off Hoff. rewrite (rd_ext 4 (mkMem 0 0 ∅)); [reflexivity|]. intros b Hb. rewrite Z4.
    destruct (Z.leb_spec (page_no 4) b), (Z.ltb_spec b (page_no 4 + 4096)); [reflexivity|lia..]. }
  unfold m. split; cbn [length]; try (unfold PIPESIZE; lia); apart_fields.
  - by rewrite !Hz by (unfold PI_NREAD, PI_NWRITE; lia).
  - by rewrite rd_wr_same.
  - by rewrite rd_wr_same.
Qed.

#[local] Instance pipe_fuel : SleepFuel := 1%nat.

(** Three bytes are written, and read again by two calls. *)
Lemma pipe_refines_queue_witness : exists (k k1 k2 k3 : kernel unit) s,
  pipewrite (page_no 4) 0 3 k = Ok 3 k1 /\ pipe_at (k_mem k1) (page_no 4) (ubytes (k_mem k) s 0 3) 1 1 /\
  piperead (page_no 4) 8 2 k1 = Ok 2 k2 /\ piperead (page_no 4) 16 5 k2 = Ok 1 k3 /\ pipe_at (k_mem k3) (page_no 4) [] 1 1.
Proof.
  destruct pipe_ready as (k & l & s & PU & P & Hacc).
  assert (forall a n, 0 <= a -> 0 <= n -> a + n <= 4096 -> avail s a n = n) as Hav.
  { intros a n Ha Hn Hle. apply avail_all; [done|]. by apply (urange_sub s 0 4096). }
  destruct (pipe_refines_queue cpu0 0 "pipe" (page_no 4) l (page_no 0) s 1 pipe_proc 1 1 k [] PU P ltac:(constructor)) as [W _].
  destruct (W 0 3 ltac:(lia) ltac:(lia)) as (m1 & _ & PU1 & P1 & E1). rewrite (Hav 0 3) in P1, E1 by lia.
  set (k1 := set_k_proc (woken (ChNread (page_no 4)) (Some O) (k_proc k)) (set_k_mem m1 k)). set (bs := ubytes (k_mem k) s 0 3).
  pose proof (pipe_user_procs _ _ _ _ _ _ _ _ _ _ (ChNread (page_no 4)) PU1 : pipe_user cpu0 0 k1 "pipe" (page_no 4) l (page_no 0) s 1 pipe_proc) as PU1'.
  destruct (pipe_refines_queue cpu0 0 "pipe" (page_no 4) l (page_no 0) s 1 pipe_proc 1 1 k1 bs PU1' P1 (ubytes_bytes _ _ _ _)) as (_ & _ & R).
  assert (length bs = 3%nat) as Lb by reflexivity.
  destruct (R 8 2%nat ltac:(by left) ltac:(lia)) as (m2 & E2 & PU2 & P2 & _). rewrite Lb in E2, P2. change (Z.of_nat (2 `min` 3)) with 2 in E2, P2.
  rewrite (Hav 8 2) in E2, P2 by lia. set (k2 := set_k_proc _ (set_k_mem m2 k1)) in *.
  assert (bytes (skipn 2 bs)) as Hb2 by (apply Forall_drop, ubytes_bytes).
  destruct (pipe_refines_queue cpu0 0 "pipe" (page_no 4) l (page_no 0) s 1 pipe_proc 1 1 k2 (skipn 2 bs) PU2 P2 Hb2) as (_ & _ & R2).
  destruct (R2 16 5%nat ltac:(by left) ltac:(lia)) as (m3 & E3 & _ & P3 & _). change (length (skipn 2 bs)) with 1%nat in E3, P3. change (Z.of_nat (5 `min` 1)) with 1 in E3, P3.
  rewrite (Hav 16 1) in E3, P3 by lia.
  exists k, k1, k2, (set_k_proc (woken (ChNwrite (page_no 4)) (Some O) (k_proc k2)) (set_k_mem m3 k2)), s.
  split; [exact E1|]. split; [exact P1|]. split; [exact E2|]. split; [exact E3|exact P3].
Defined.
