(* ===== verification/KUserIO.v ===== *)
(** Files and the memory of a process: [readi] and [writei] with addresses of the user
    (proc.c: [either_copyin], [either_copyout]; vm.c: [copyin], [copyout]). *)
From stdpp Require Import base gmap sets list numbers strings tactics.
From S2P Require Import Prelude Mem Ram KMachine KString KSched KBytes KAlloc KVm KProc KSpace KUvm KBio KBioProofs KLog KCrash KLogProofs KTxn KFs KBss KBlocks KInode KData KContent.

Section User.
Context {H : Type} `{!Platform H} `{!Symbols} `{!SymbolLaws} `{!SleepFuel} `{!DiskDriver H} `{!DiskLaws H}.
Implicit Types k : kernel H.
Context (c : cpu) (me : nat).

(** Process [me] has the user space [s] of [n] pages, with its table at [root]. *)
Record in_space k (l : list Z) (root : Z) (s : space) (n : Z) : Prop := {
  ins_space : uspace k l root s;
  ins_sized : sized s n;
  ins_proc : exists p, k_proc k !! me = Some p /\ p_pagetable p = root
}.

Lemma uspace_same k k' l root s : k_mem k' = k_mem k -> k_freelist k' = k_freelist k -> uspace k l root s -> uspace k' l root s.
Proof. intros Em Ef [[] ? ? ?]. split; try done; [split; by rewrite ?Em, ?Ef|by rewrite Em]. Qed.

Lemma in_op_space k k' l root s n : in_op me k k' -> in_space k l root s n -> in_space k' l root s n.
Proof.
  intros (_ & _ & _ & _ & (_ & Em & _) & E) [U S (p & Ep & Er)]. split; [|done|exists p; by rewrite Em].
  apply (uspace_same k); [rewrite E; done..|done].
Qed.
Lemma in_space_inodes k l root s n ls : in_space k l root s n -> in_space (set_k_inodes ls k) l root s n.
Proof. intros [U S P]. split; [by apply (uspace_same k)|done|done]. Qed.

(** The current process and its page table. *)
Lemma user_table_ok {A} k l root s n (f : Z -> M (kernel H) A) :
  quiet c me k -> in_space k l root s n -> (let! p := cur in let! r := get_proc p in f (p_pagetable r)) k = f root k.
Proof.
  intros Q [_ _ (p & Ep & Er)]. unfold cur. rewrite bind_assoc, (bind_Ok _ _ _ _ _ (myproc_ok c k (q_cpu _ _ _ Q))), (q_me _ _ _ Q).
  erewrite bind_Ok by reflexivity. unfold get_proc. rewrite (bind_Ok _ _ _ _ _ (aget_ok _ _ _ _ Ep)), Er. done.
Qed.

Section Place.
Context (l : list Z) (root : Z) (s : space) (n va : Z).
Context (Hva : 0 <= va < 2 ^ 39).

(** What the user may access ends before bit 39. *)
Lemma urange_end len : sized s n -> 0 <= len -> urange s va len -> va + len <= 2 ^ 39.
Proof.
  intros Sz Hl U. apply (reach_end s n va len len Sz Hva). split; [lia|]. split; [done|lia].
Qed.
Lemma reach_sub len t m : urange s va len -> 0 <= t -> 0 <= m -> t + m <= len -> reach s (va + t) m m.
Proof. intros U Ht Hm Hl. split; [lia|]. split; [|lia]. apply (urange_sub s va len); [done|lia..]. Qed.

Lemma slice_ubytes m len t cnt :
  0 <= t -> 0 <= cnt -> t + cnt <= len -> slice (Z.to_nat t) (Z.to_nat cnt) (ubytes m s va (Z.to_nat len)) = ubytes m s (va + t) (Z.to_nat cnt).
Proof.
  intros Ht Hc Hl. replace (Z.to_nat len) with (Z.to_nat t + (Z.to_nat cnt + Z.to_nat (len - t - cnt)))%nat by lia.
  rewrite !ubytes_app. rewrite Z2Nat.id by lia. unfold slice.
  assert (forall x (j : nat), length (ubytes m s x j) = j) as El by (intros; unfold ubytes; by rewrite length_map, length_seq).
  rewrite drop_app_length' by by rewrite El. by rewrite take_app_length' by by rewrite El.
Qed.

(** The bytes of a user are there to be written to a file. *)
Lemma supplies_user k local len :
  in_space k l root s n -> 0 <= len -> urange s va len -> supplies c me k (User va) local (ubytes (k_mem k) s va (Z.to_nat len)).
Proof.
  intros I Hlen Hacc. pose proof (urange_end len (ins_sized _ _ _ _ _ I) Hlen Hacc) as Hend.
  assert (u64 (va + 0) = va) as E0 by (rewrite Z.add_0_r; apply u64_small; unfold is_u64; lia). split; [cbn; by rewrite E0|].
  intros k' t m Q O Ht Hm Hl. assert (length (ubytes (k_mem k) s va (Z.to_nat len)) = Z.to_nat len) as El by (unfold ubytes; by rewrite length_map, length_seq).
  rewrite El in Hl. pose proof (in_op_space _ _ _ _ _ _ O (in_space_inodes _ _ _ _ _ _ I)) as I'.
  assert (k_mem k' = k_mem k) as Em by (destruct O as (_ & _ & _ & _ & _ & ->); done).
  cbn. unfold either_copyin. rewrite (user_table_ok k' l root s n (fun root => copyin root (u64 (va + t)) m) Q I').
  rewrite u64_small by (unfold is_u64; lia). unfold copyin.
  rewrite (copyin_loop_ok l root s n k' (ins_space _ _ _ _ _ I') (ins_sized _ _ _ _ _ I') _ _ _ _ m) by (lia || (apply (reach_sub len); done || lia)).
  rewrite Em, slice_ubytes by lia. by destruct (Z.leb_spec m m); [|lia].
Qed.

(** [t] bytes have been stored. *)
Definition stored (m0 : memory) (data : list Z) (t : Z) k : Prop :=
  in_space k l root s n /\ user_only s m0 (k_mem k) /\
  forall x, 0 <= x < 2 ^ 39 -> ubyte (k_mem k) s x = overwrite (ubyte m0 s) va t data x.

Lemma overwrite_step (old : Z -> option Z) (new : Z -> option Z) t m data x :
  0 <= t -> 0 <= m -> new x = overwrite old va t data x ->
  overwrite new (va + t) m (slice (Z.to_nat t) (Z.to_nat m) data) x = overwrite old va (t + m) data x.
Proof.
  intros Ht Hm E. unfold overwrite in *. unfold slice.
  destruct (Z.leb_spec va x), (Z.ltb_spec x (va + t)), (Z.leb_spec (va + t) x), (Z.ltb_spec x (va + t + m)), (Z.ltb_spec x (va + (t + m)));
    cbn [andb] in *; try lia; try done.
  do 2 f_equal. rewrite nth_firstn, nth_skipn. destruct (Nat.ltb_spec (Z.to_nat (x - (va + t))) (Z.to_nat m)); [|lia]. f_equal. lia.
Qed.

(** A user takes what is read from a file. *)
Lemma receives_user m0 data :
  urange s va (Z.of_nat (length data)) -> sized s n -> receives c me (User va) data (stored m0 data).
Proof.
  intros Hacc Sz. pose proof (urange_end _ Sz (Nat2Z.is_nonneg _) Hacc) as Hend.
  assert (u64 (va + 0) = va) as E0 by (rewrite Z.add_0_r; apply u64_small; unfold is_u64; lia). split; [cbn; by rewrite E0| |].
  - intros k k' t O (I & U & B). assert (k_mem k' = k_mem k) as Em by (destruct O as (_ & _ & _ & _ & _ & ->); done).
    unfold stored. rewrite Em. split; [by apply (in_op_space k)|done].
  - intros k t m Q (I & U & B) Ht Hm Hl. set (v := slice (Z.to_nat t) (Z.to_nat m) data).
    assert (Z.of_nat (length v) = m) as Hv by (unfold v, slice; rewrite length_take, length_drop; lia).
    cbn. unfold either_copyout. rewrite (user_table_ok k l root s n (fun root => copyout root (u64 (va + t)) v) Q I).
    rewrite u64_small by (unfold is_u64; lia).
    destruct (copyout_loop_ok l root s n (ins_sized _ _ _ _ _ I) (length v) (va + t) v k m (ins_space _ _ _ _ _ I)) as (m' & E & U' & O' & B');
      [done|lia| |rewrite Hv; apply (reach_sub (Z.of_nat (length data))); done || lia|].
    { intros Hnil. destruct v; [done|cbn in Hv; lia]. }
    rewrite Hv in *. destruct (Z.leb_spec m m) as [_|]; [|lia].
    exists m'. split; [exact E|]. split; [|split].
    + split; [done|apply I|]. apply I.
    + by eapply user_only_trans.
    + intros x Hx. cbn [k_mem set_k_mem]. rewrite B' by done. apply overwrite_step; [lia|lia|]. by apply B.
Qed.
End Place.

(** C7 What a process writes to a file from its memory is what it reads back into its memory:
    [writei] of [len] bytes at the user address [va] and then [readi] of the same bytes of
    the file to the user address [vb], where the user may access the bytes at both, return
    [len]; afterwards the process sees at [vb]
    what it had at [va], also where the two overlap, and everything else as before.  The
    bytes may lie in any number of pages and of blocks, direct, indirect or new; other pages
    of the process may be guard pages. *)
Theorem user_file_roundtrip dev start sb bs A k ip inum r off l root s n va vb len :
  is_u32 dev -> fs_layout start sb -> in_space k l root s n ->
  0 <= va < 2 ^ 39 -> urange s va len -> 0 <= vb < 2 ^ 39 -> urange s vb len -> 0 <= len ->
  can_write c me dev start sb bs A k ip inum r off len -> whole (a_view A) r ->
  let data := ubytes (k_mem k) s va (Z.to_nat len) in
  exists k1 k2, writei ip (User va) [] off len k = Ok len k1 /\ readi ip (User vb) off len k1 = Ok (len, data) k2 /\
    in_space k2 l root s n /\ user_only s (k_mem k) (k_mem k2) /\
    forall x, 0 <= x < 2 ^ 39 -> ubyte (k_mem k2) s x = overwrite (ubyte (k_mem k) s) vb len data x.
Proof.
  intros Hdev FL I Hva Hae Hvb Hbe Hlen C Hwh data.
  assert (Z.of_nat (length data) = len) as El by (unfold data, ubytes; rewrite length_map, length_seq; lia).
  rewrite <- El in C.
  destruct (write_then_read c me dev start sb Hdev FL bs A k ip inum r (User va) [] data off C Hwh) as (k1 & E1 & O1 & Hr);
    [by apply (supplies_user l root s n)|]. rewrite El in *.
  assert (k_mem k1 = k_mem k) as Em by (destruct O1 as (_ & _ & _ & _ & _ & ->); done).
  destruct (Hr (User vb) (stored l root s n vb (k_mem k) data)) as (k2 & E2 & I2 & U2 & B2).
  - apply receives_user; [done|by rewrite El|apply I].
  - split; [|split].
    + apply (in_op_space _ _ _ _ _ _ O1). by apply in_space_inodes.
    + by rewrite Em.
    + intros x Hx. rewrite Em. unfold overwrite. destruct (Z.leb_spec vb x), (Z.ltb_spec x (vb + 0)); try done; lia.
  - exists k1, k2. split; [done|]. split; [done|]. split; [done|]. split; [done|]. exact B2.
Qed.
End User.
