(* ===== verification/KSim.v ===== *)
(** A machine to try the file system on: a disk that serves every request at once, whose
    history is recorded; and the theorems on the log at work on it. *)
From stdpp Require Import base gmap sets list numbers relations strings tactics.
From S2P Require Import Prelude Mem KMachine KBytes KSched KBss KVm KBio KBioProofs KLog KFs KDisk KCrash KLogProofs KRecover KTxn KBinit KBlocks KInode KDiskProofs.

(** * A disk *)

(** The medium, newest state first in its history. *)
Record simdisk := mkSimDisk { sd_medium : Z -> list Z; sd_past : list disk }.

(** A block has [BSIZE] bytes. *)
Definition fit (d : list Z) : list Z := take (Z.to_nat BSIZE) (d ++ replicate (Z.to_nat BSIZE) 0).

Lemma fit_length d : length (fit d) = Z.to_nat BSIZE.
Proof. unfold fit. rewrite length_take, length_app, length_replicate. lia. Qed.
Lemma fit_id d : length d = Z.to_nat BSIZE -> fit d = d.
Proof. intros E. unfold fit. by rewrite <- E, take_app_length. Qed.

Definition sd_now (h : simdisk) : disk := fun b => fit (sd_medium h b).
Definition set_block (D : disk) (b : Z) (d : list Z) : disk := fun x => if x =? b then d else D x.

(** The first sector of the block is written before the second. *)
Definition sim_write (b : Z) (d : list Z) (h : simdisk) : simdisk :=
  mkSimDisk (set_block (sd_medium h) b d)
    (set_block (sd_now h) b (take 512 d ++ skipn 512 (sd_now h b)) :: sd_now h :: sd_past h).

#[export] Instance sim_platform : Platform simdisk := {
  pf_r32 _ h := (0, h);
  pf_w32 _ _ h := h;
  pf_mrs _ h := (0, h);
  pf_msr _ _ h := h;
  pf_tlbi h := h;
  psci_call _ _ _ _ := ret tt;
  swtch _ _ := ret tt
}.

#[export] Instance sim_fuel : SleepFuel := 3%nat.

#[export] Instance sim_driver : DiskDriver simdisk := fun i write =>
  let! r := get_buf i in
  if write : bool then
    modify (fun k => set_k_hw (sim_write (b_blockno r) (b_data r) (k_hw k)) k) ;;
    upd_buf i (set_b_disk 0)
  else
    let! k := get in
    upd_buf i (fun r => set_b_data (sd_now (k_hw k) (b_blockno r)) (set_b_disk 0 r)).

#[export] Program Instance sim_laws : DiskLaws simdisk := {
  dk_now := sd_now;
  dk_past := sd_past;
  dk_ready _ _ := True;
  dk_size := 2000
}.
Next Obligation. done. Qed.
Next Obligation. intros h b _. apply fit_length. Qed.
Next Obligation.
  intros c me k i r Q _ Hi Er Hb Hd. exists (k_hw k), (k_vdisk k), (k_proc k). split_and!; try done.
  unfold virtio_disk_rw, sim_driver. rewrite (bind_Ok _ _ _ _ _ (get_buf_ok _ _ _ Er)). erewrite bind_Ok by reflexivity.
  rewrite (upd_buf_ok _ _ _ _ Er). by destruct k.
Qed.
Next Obligation.
  intros c me k i r Q _ Hi Er Hb Hd. set (h' := sim_write (b_blockno r) (b_data r) (k_hw k)).
  exists h', (k_vdisk k), (k_proc k), [set_block (sd_now (k_hw k)) (b_blockno r) (take 512 (b_data r) ++ skipn 512 (sd_now (k_hw k) (b_blockno r)))].
  split_and!; try done.
  - unfold virtio_disk_rw, sim_driver. rewrite (bind_Ok _ _ _ _ _ (get_buf_ok _ _ _ Er)). erewrite bind_Ok by reflexivity.
    fold h'. rewrite (upd_buf_ok _ _ r) by done. by destruct k.
  - intros x. unfold sd_now at 1. cbn. unfold set_block. destruct (x =? b_blockno r); [by apply fit_id|done].
  - constructor; [|constructor]. split.
    + intros x Hx. unfold set_block. by destruct (Z.eqb_spec x (b_blockno r)).
    + left. unfold set_block. by rewrite Z.eqb_refl.
Qed.

Lemma no_buf_fresh j r : replicate (S NBUF) no_buf !! j = Some r -> fresh_buf 1 r.
Proof. intros [-> _]%lookup_replicate. by split. Qed.

(** * A transaction of one block *)

Definition sim_sb : superblock := mkSb 0x10203040 2000 1954 200 LOGSIZE 2 32 45.
Definition blank_disk : simdisk := mkSimDisk (fun _ => []) [].
Definition zeros : list Z := replicate (Z.to_nat BSIZE) 0.
Definition ones : list Z := replicate (Z.to_nat BSIZE) 1.

Definition booting (h : simdisk) : kernel simdisk := running (bss h (mkMem 0 0 ∅)).
Definition sim0 : kernel simdisk := booting blank_disk.

Lemma sim0_blank h : let sim0 := booting h in blank 1 sim0 (nx sim0) (pv sim0) sim0.
Proof. intros sim0. exists (k_bufs sim0), (k_locks sim0). split_and!; try done; intros j r E; by apply (no_buf_fresh j). Qed.

Lemma sim_fits : log_fits 1 2.
Proof. by vm_compute. Qed.

(** After [binit]. *)
Lemma sim_booted h : exists k, booted cpu0 0 1 (mkA (sd_now h) ∅ ∅) k /\ now k = sd_now h /\
  lg_outstanding (k_log k) = 0 /\ lg_committing (k_log k) = 0.
Proof.
  set (sim0 := booting h). destruct (binit_ok 1 sim0 _ _ (sim0_blank h)) as (k & n & p & l & _ & B & D & Pl). exists k.
  pose proof (blank_bio 1 sim0 0 n p k l B D Pl I) as Hb. destruct B as (bs & ls & -> & L & _ & _ & _ & Hl).
  split; [|done]. split; try done.
  destruct (running_quiet h (mkMem 0 0 ∅)). split; try done. intros l' Hs. by apply Hl, q_free.
Qed.

(** After [initlog], on a disk whose log is empty. *)
Lemma sim_ready h : hdr_n (sd_now h 2) = 0 -> exists k A, txn cpu0 0 1 2 [] A k /\ a_held A = ∅ /\
  lg_outstanding (k_log k) = 1 /\ lg_committing (k_log k) = 0 /\ forall x, ~ in_log 2 x -> now k x = sd_now h x.
Proof.
  intros Hn. destruct (sim_booted h) as (k0 & B0 & N0 & O0 & C0).
  destruct (initlog_ok cpu0 0 1 sim_sb _ k0 (sd_now h) sim_fits B0) as (k & A & _ & B & L & S1 & O1 & C1 & V & Z1 & _).
  { rewrite N0. by apply means_empty. }
  exists (set_k_log (set_lg_outstanding 1 (k_log k)) k), A. destruct B as [Q B R Hh Hl]. split_and!; try done.
  - split; try done; [by apply quiet_set_log|by apply bio_set_log|by destruct L| |constructor|].
    + intros b Hb. by apply not_elem_of_nil in Hb.
    + intros b. rewrite R, Hh. unfold refs_of. rewrite !decide_False; [done|set_solver|apply not_elem_of_nil].
  - cbn. by rewrite C1.
Qed.

Lemma sim_empty : exists k A, txn cpu0 0 1 2 [] A k /\ a_held A = ∅ /\
  lg_outstanding (k_log k) = 1 /\ lg_committing (k_log k) = 0 /\ forall x, ~ in_log 2 x -> now k x = zeros.
Proof. apply (sim_ready blank_disk). by vm_compute. Qed.

(** Block 100 is written. *)
Lemma sim_txn : exists k A, txn cpu0 0 1 2 [100] A k /\ a_held A = ∅ /\
  lg_outstanding (k_log k) = 1 /\ lg_committing (k_log k) = 0 /\ now k 100 = zeros /\ a_view A 100 = ones.
Proof.
  destruct sim_empty as (k0 & A0 & T0 & H0 & O0 & C0 & N0).
  destruct (txn_write cpu0 0 1 2 [] A0 k0 100 ones T0 H0) as (k & A & _ & T & Hh & V & (O & C & N & _) & _).
  - by rewrite O0.
  - done.
  - unfold in_log, LOGSIZE, MAXOPBLOCKS. lia.
  - done.
  - done.
  - exists k, A. split_and!; [done|done|by rewrite O|by rewrite C| |by rewrite V, Z.eqb_refl].
    rewrite N. apply N0. unfold in_log, LOGSIZE, MAXOPBLOCKS. lia.
Qed.

Lemma sim_out_of_log : ~ in_log 2 100.
Proof. unfold in_log, LOGSIZE, MAXOPBLOCKS. lia. Qed.

Lemma transaction_crash_atomic_witness :
  exists (k : kernel simdisk) A k', now k 100 = zeros /\ end_op k = Ok tt k' /\ now k' 100 = ones /\
    forall D, passes k k' D -> exists f, (f = now k \/ f = a_view A) /\
      forall D' c' me' A' kb, rtc (cut_off 1 sim_sb) D D' -> booted c' me' 1 A' kb -> now kb = D' ->
        exists kr, initlog 1 sim_sb kb = Ok tt kr /\ forall x, ~ in_log 2 x -> now kr x = f x.
Proof.
  destruct sim_txn as (k & A & T & Hh & O & C & N & V).
  destruct (transaction_crash_atomic cpu0 0 1 sim_sb [100] A k sim_fits T Hh O C) as (k' & E & Hx & HD).
  exists k, A, k'. split; [exact N|]. split; [exact E|]. split; [|exact HD].
  rewrite (Hx 100 sim_out_of_log). exact V.
Defined.

Lemma binit_establishes_cache_witness :
  exists k', binit sim0 = Ok tt k' /\ bio 0 1 k' (mkA (now sim0) ∅ ∅).
Proof.
  destruct (binit_establishes_cache 1 sim0 0) as (k' & E & B & _).
  - reflexivity.
  - exact no_buf_fresh.
  - exact I.
  - exists k'. split; [exact E|exact B].
Defined.

Lemma begin_op_spec_witness :
  exists (k : kernel simdisk) A k', txn cpu0 0 1 2 [100] A k /\ begin_op k = Ok tt k' /\ lg_outstanding (k_log k') = 2.
Proof.
  destruct sim_txn as (k & A & T & _ & O & C & _).
  pose proof (begin_op_spec cpu0 0 1 2 [100] A k T) as S. rewrite O, C in S. cbn in S.
  destruct S as (k' & E & T' & _ & O' & _). exists k, A, k'. split; [exact T|]. split; [exact E|exact O'].
Defined.

(** A second block, locked. *)
Lemma sim_locked b : 0 <= b < 2000 -> exists k A i, txn cpu0 0 1 2 [100] A k /\ handle 1 k i b /\
  lg_outstanding (k_log k) = 1 /\ b ∈ a_held A.
Proof.
  intros Hb. destruct sim_txn as (k0 & A0 & T0 & H0 & O0 & C0 & _).
  destruct (txn_bread cpu0 0 1 2 [100] A0 k0 b T0) as (i & k & _ & T & Hi & [O _]).
  - rewrite H0. set_solver.
  - right. rewrite (refs_size [100] A0); [vm_compute; lia|apply list.NoDup_singleton|].
    intros x n. by apply (txn_pinned cpu0 0 1 2 [100] A0 k0).
  - done.
  - exists k, (grab A0 b), i. split_and!; [done|done|by rewrite (proj1 O)|cbn; set_solver].
Qed.

Lemma log_write_spec_witness :
  exists (k : kernel simdisk) A i k', txn cpu0 0 1 2 [100] A k /\ log_write i k = Ok tt k' /\
    txn cpu0 0 1 2 [100; 101] (pin A 101) k'.
Proof.
  destruct (sim_locked 101) as (k & A & i & T & Hi & O & Hh); [lia|].
  pose proof (log_write_spec cpu0 0 1 2 [100] A k i 101 T Hi) as S. rewrite O in S.
  destruct S as (k' & E & T' & _); [exact Hh|cbn; lia|unfold in_log, LOGSIZE, MAXOPBLOCKS; lia|].
  exists k, A, i, k'. split; [exact T|]. split; [exact E|exact T'].
Defined.

(** * A file system *)

(** The bitmap of [mkfs] for an empty file system: the first 46 blocks are in use; inode 1
    is a directory. *)
Definition fmt_disk : simdisk :=
  mkSimDisk (fun b => if b =? 45 then [255; 255; 255; 255; 255; 63] else if b =? 32 then replicate 64 0 ++ [1] else []) [].

(** Any disk with an empty log can be mounted. *)
Lemma sim_mount h sb : hdr_n (sd_now h 2) = 0 -> exists k A, fs_ops cpu0 0 1 2 sb ∅ [] A k /\ forall x, ~ in_log 2 x -> a_view A x = sd_now h x.
Proof.
  intros Hn. destruct (sim_ready h Hn) as (k & A & T & Hh & O & _ & V).
  exists (set_k_sb sb k), A. split.
  - split; [|done|cbn; lia|done]. destruct T as [Q B L]. split; try done; [by destruct Q|by destruct B|by destruct L].
  - intros x Hx. rewrite <- V by done. destruct (txn_clean cpu0 0 1 2 [] A k x T ltac:(rewrite Hh; set_solver)) as [[]%not_elem_of_nil|]; done.
Qed.
Lemma sim_fs : exists k A, fs_ops cpu0 0 1 2 sim_sb ∅ [] A k /\ forall x, ~ in_log 2 x -> a_view A x = sd_now fmt_disk x.
Proof. apply sim_mount. by vm_compute. Qed.

Lemma sim_layout : bitmap_layout 2 sim_sb.
Proof.
  split; [by vm_compute|done|]. intros b Hb. cbn in *. rewrite (Z.div_small b BPB) by (unfold BPB, BSIZE; lia).
  split; [done|]. unfold in_log, LOGSIZE, MAXOPBLOCKS. lia.
Qed.

Lemma sim_BBLOCK b : 0 <= b < 2000 -> BBLOCK b sim_sb = 45.
Proof. intros Hb. rewrite (BBLOCK_ok 2 sim_sb sim_layout) by done. cbn. by rewrite (Z.div_small b BPB) by (unfold BPB, BSIZE; lia). Qed.

Lemma sim_in_use (V : disk) b : V 45 = sd_now fmt_disk 45 -> 0 <= b < 2000 -> in_use sim_sb V b = bit_set (sd_now fmt_disk 45) b.
Proof. intros E Hb. unfold in_use. by rewrite sim_BBLOCK, E, (Z.mod_small b BPB) by (done || (unfold BPB, BSIZE; lia)). Qed.

Lemma fmt_used b : 0 <= b < 46 -> bit_set (sd_now fmt_disk 45) b = true.
Proof.
  intros Hb. assert (forallb (fun i => bit_set (sd_now fmt_disk 45) (Z.of_nat i)) (seq 0 46) = true) as Hall by by vm_compute.
  rewrite forallb_forall in Hall. specialize (Hall (Z.to_nat b)). rewrite Z2Nat.id in Hall by lia.
  apply Hall, in_seq. lia.
Qed.

Lemma sim_free_data (V : disk) : V 45 = sd_now fmt_disk 45 -> free_data 2 sim_sb V.
Proof.
  intros E b Hb. cbn in Hb. rewrite (sim_in_use V b E Hb). destruct (decide (b < 46)); [by rewrite fmt_used by lia|].
  intros _. split_and!; [cbn; lia|unfold in_log, LOGSIZE, MAXOPBLOCKS; lia|]. intros x Hx. rewrite sim_BBLOCK by done. lia.
Qed.

Lemma home_45 : ~ in_log 2 45.
Proof. unfold in_log, LOGSIZE, MAXOPBLOCKS. lia. Qed.

(** The first free block is 46. *)
Lemma sim_first (V : disk) b : V 45 = sd_now fmt_disk 45 -> 0 <= b < 2000 -> in_use sim_sb V b = false ->
  (forall x, 0 <= x < b -> in_use sim_sb V x = true) -> b = 46.
Proof.
  intros E Hb Hu Hx. rewrite (sim_in_use _ _ E Hb) in Hu. destruct (decide (b < 46)); [by rewrite fmt_used in Hu by lia|].
  destruct (decide (b = 46)); [done|]. specialize (Hx 46 ltac:(lia)). by rewrite (sim_in_use _ _ E) in Hx by lia.
Qed.

Lemma balloc_spec_witness : exists (k : kernel simdisk) A k',
  fs_ops cpu0 0 1 2 sim_sb ∅ [] A k /\ balloc 1 k = Ok 46 k' /\ balloc_post cpu0 0 1 2 sim_sb ∅ [] A k 46 k'.
Proof.
  destruct sim_fs as (k & A & F & V). specialize (V 45 home_45). exists k, A.
  destruct (balloc_spec cpu0 0 1 2 sim_sb ltac:(done) sim_layout [] A k F (sim_free_data _ V) ltac:(done))
    as [(b & k' & E & Hb & Hu & Hx & P)|[Hx _]].
  - pose proof (sim_first _ b V Hb Hu Hx) as ->. exists k'. split; [exact F|]. split; [exact E|exact P].
  - exfalso. specialize (Hx 46 ltac:(cbn; lia)). by rewrite (sim_in_use _ _ V) in Hx by lia.
Defined.

Lemma balloc_bfree_roundtrip_witness : exists (k : kernel simdisk) k1 k2,
  balloc 1 k = Ok 46 k1 /\ bfree 1 46 k1 = Ok tt k2 /\ exists k3, bfree 1 46 k2 = Panic k3.
Proof.
  destruct sim_fs as (k & A & F & V). specialize (V 45 home_45).
  destruct (balloc_ok cpu0 0 1 2 sim_sb ltac:(done) sim_layout ∅ [] A k F (apart_empty 1 2 sim_sb ltac:(done) sim_layout _) (sim_free_data _ V) ltac:(done))
    as [(b & k1 & E & Hb & Hu & Hx & _)|[Hx _]].
  - pose proof (sim_first _ b V Hb Hu Hx) as ->.
    destruct (balloc_bfree_roundtrip cpu0 0 1 2 sim_sb ltac:(done) sim_layout [] A k 46 k1 F (sim_free_data _ V) ltac:(done) E)
      as (k2 & A2 & E2 & _ & _ & _ & bs2 & _ & P).
    exists k, k1, k2. split; [exact E|]. split; [exact E2|exact P].
  - exfalso. specialize (Hx 46 ltac:(cbn; lia)). by rewrite (sim_in_use _ _ V) in Hx by lia.
Defined.

(** Entry 0 of the table is a file that is open; entry 1 stands for the same inode, not read yet. *)
Definition file_inode : inode := mkInode 1 1 1 no_sleep 1 T_FILE 0 0 1 5 (replicate 13 46).
Definition blank_inode : inode := mkInode 1 1 1 no_sleep 0 0 0 0 0 0 (replicate 13 0).
Definition two_inodes : list inode := [file_inode; blank_inode].

Lemma file_inode_typed : inode_typed file_inode.
Proof. split; try done. apply list.Forall_forall. intros x [-> _]%elem_of_replicate. done. Qed.

Lemma sim_inodes : exists k A, fs_ops cpu0 0 1 2 sim_sb ∅ [] A k /\ k_inodes k = two_inodes /\
  a_view A 32 = sd_now fmt_disk 32.
Proof.
  destruct sim_fs as (k & A & F & V). exists (set_k_inodes two_inodes k), A. split; [by apply fs_op_inodes|].
  split; [done|]. apply V. unfold in_log, LOGSIZE, MAXOPBLOCKS. lia.
Qed.

Lemma sim_inode_layout : inode_layout 2 sim_sb.
Proof.
  split; [done|]. intros inum Hi. cbn in *. assert (0 <= inum / IPB <= 12) as Hq.
  { change IPB with 16. split; [apply Z.div_pos; lia|]. assert (inum / 16 < 13) by (apply Z.div_lt_upper_bound; lia). lia. }
  unfold in_log, LOGSIZE, MAXOPBLOCKS. lia.
Qed.

Lemma sim_entry (k : kernel simdisk) (i : nat) r : k_inodes k = two_inodes -> two_inodes !! i = Some r -> i_dev r = 1 -> i_inum r = 1 ->
  entry 1 sim_sb i 1 r k.
Proof.
  intros E Ei Hd Hn. split; [|by rewrite E|done|done|done].
  apply lookup_lt_Some in Ei. cbn in Ei. change (Z.to_nat NINODE) with 50%nat. lia.
Qed.

Lemma inode_roundtrip_witness : exists (k : kernel simdisk) k1 k2 r',
  iupdate 0 k = Ok tt k1 /\ ilock 1 k1 = Ok tt k2 /\ k_inodes k2 !! 1%nat = Some r' /\ same_dinode file_inode r'.
Proof.
  destruct sim_inodes as (k & A & F & Ei & _).
  destruct (inode_roundtrip cpu0 0 1 2 sim_sb sim_inode_layout [] A k 0 1 1 file_inode blank_inode F
    (sim_entry k 0 file_inode Ei eq_refl eq_refl eq_refl) (sim_entry k 1 blank_inode Ei eq_refl eq_refl eq_refl)
    file_inode_typed ltac:(done) ltac:(done) eq_refl eq_refl) as (k1 & A1 & E1 & _ & _ & _ & k2 & r' & E2 & E3 & S & _).
  exists k, k1, k2, r'. split; [exact E1|]. split; [exact E2|]. split; [exact E3|exact S].
Defined.

Lemma sim_table_typed (k : kernel simdisk) : k_inodes k = two_inodes -> table_typed k.
Proof.
  intros E i r. rewrite E. destruct i as [|[|i]]; cbn; [intros [= <-] _; apply file_inode_typed|by intros [= <-]|done].
Qed.

Lemma ilock_typed_witness : exists (k : kernel simdisk) k' r',
  table_typed k /\ ilock 1 k = Ok tt k' /\ table_typed k' /\ k_inodes k' !! 1%nat = Some r' /\ i_type r' = 1 /\ i_size r' = 0.
Proof.
  destruct sim_inodes as (k & A & F & Ei & V).
  pose proof (ilock_typed cpu0 0 1 2 sim_sb sim_inode_layout [] A k 1 1 blank_inode F (sim_table_typed k Ei)
    (sim_entry k 1 blank_inode Ei eq_refl eq_refl eq_refl) ltac:(done) eq_refl ltac:(done)) as S.
  change (sb_inodestart sim_sb + 1 / 16) with 32 in S. cbv zeta in S. rewrite V in S. change (Z.to_nat (64 * (1 mod 16))) with 64%nat in S.
  destruct S as (k' & r' & E & Ek & T & _ & _ & En & _ & _ & _ & _ & _ & D); [apply (bool_decide_unpack _); vm_compute; reflexivity|].
  exists k, k', r'. split; [by apply sim_table_typed|]. split; [exact E|]. split; [exact T|]. split; [exact (en_at _ _ _ _ _ _ En)|].
  split; [exact (od_type _ _ _ D)|exact (od_size _ _ _ D)].
Defined.

(** * A virtio block device

    A device to try the disk driver on: it reads the request from the rings, finds the buffer
    by its address and serves it while the driver sleeps. *)

(** The device's hardware: the medium of [KSim] behind registers. *)
Record virtdev := mkDev { dev_disk : simdisk }.

(** The registers identify the device. *)
Definition dev_reg (a : Z) : Z :=
  if a =? VIRTIO0 + VIRTIO_MMIO_MAGIC_VALUE then 0x74726976 else
  if a =? VIRTIO0 + VIRTIO_MMIO_VERSION then 1 else
  if a =? VIRTIO0 + VIRTIO_MMIO_DEVICE_ID then 2 else
  if a =? VIRTIO0 + VIRTIO_MMIO_VENDOR_ID then 0x554d4551 else
  if a =? VIRTIO0 + VIRTIO_MMIO_QUEUE_NUM_MAX then 1024 else 0.

(** The machine without its scheduler. *)
Definition dev_base : Platform virtdev := {|
  pf_r32 a h := (dev_reg a, h);
  pf_w32 _ _ h := h;
  pf_mrs _ h := (0, h);
  pf_msr _ _ h := h;
  pf_tlbi h := h;
  psci_call _ _ _ _ := ret tt;
  swtch _ _ := ret tt
|}.

Definition buf_at (a : Z) : option nat :=
  head (filter (fun b => V2P (sym_bufdata b) = a) (seq 0 NBUF)).

(** A block written from, or read to, buffer [b] of contents [r]. *)
Definition dev_move (write : bool) (b : nat) (r : buf) (blk : Z) : M (kernel virtdev) unit :=
  let! k := get in
  if write then modify (set_k_hw (mkDev (sim_write blk (b_data r) (dev_disk (k_hw k)))))
  else upd_buf b (set_b_data (sd_now (dev_disk (k_hw k)) blk)).

(** The request at the head of the available ring. *)
Definition dev_serve : M (kernel virtdev) unit :=
  let! v := get_disk in
  let us := vd_used v in
  let! i0 := deref (av_ring (vd_avail v) !! Z.to_nat (us_idx us mod NUM)) in
  let! d0 := deref (vd_desc v !! Z.to_nat i0) in
  let! d1 := deref (vd_desc v !! Z.to_nat (d_next d0)) in
  let! req := deref (vd_ops v !! Z.to_nat i0) in
  let! b := deref (buf_at (d_addr d1)) in
  let! r := get_buf b in
  dev_move (rq_type req =? VIRTIO_BLK_T_OUT) b r (rq_sector req / 2) ;;
  upd_disk (fun v => served v (Z.to_nat i0) 0).

#[export] Instance dev_platform : Platform virtdev := {|
  pf_r32 a h := (dev_reg a, h);
  pf_w32 _ _ h := h;
  pf_mrs _ h := (0, h);
  pf_msr _ _ h := h;
  pf_tlbi h := h;
  psci_call _ _ _ _ := ret tt;
  swtch from to :=
    match from, to with
    | CtxProc me, CtxCpu c => @turn virtdev dev_base dev_serve me c
    | _, _ => ret tt
    end
|}.

Lemma buf_at_ok b : (b < NBUF)%nat -> buf_at (V2P (sym_bufdata b)) = Some b.
Proof.
  intros Hb. assert (Forall (fun b => buf_at (V2P (sym_bufdata b)) = Some b) (seq 0 NBUF)) as F.
  { apply (bool_decide_unpack _). by vm_compute. }
  rewrite list.Forall_forall in F. apply F, elem_of_seq. lia.
Qed.

(** What the device finds in the rings. *)
Lemma dev_fetch k i0 i1 i2 b blk write r :
  pending (k_vdisk k) i0 i1 i2 b blk write -> (b < NBUF)%nat -> k_bufs k !! b = Some r ->
  dev_serve k = (dev_move write b r blk ;; upd_disk (fun v => served v i0 0)) k.
Proof.
  intros P Hb Er. destruct P as [_ Ph Po P0 P1 _]. unfold dev_serve, get_disk. erewrite bind_Ok by reflexivity.
  rewrite Ph. erewrite bind_Ok by reflexivity. rewrite Nat2Z.id, P0. erewrite bind_Ok by reflexivity. cbn [d_next].
  rewrite Nat2Z.id, P1. erewrite bind_Ok by reflexivity. rewrite Po. erewrite bind_Ok by reflexivity. cbn [d_addr rq_type rq_sector].
  rewrite (buf_at_ok b Hb). erewrite bind_Ok by reflexivity. rewrite (bind_Ok _ _ _ _ _ (get_buf_ok _ _ _ Er)).
  rewrite (Z.mul_comm 2), Z.div_mul by done. by destruct write.
Qed.

#[export] Program Instance dev_virtio : VirtioDevice := {|
  vd_serve := dev_serve;
  vd_now h := sd_now (dev_disk h);
  vd_past h := sd_past (dev_disk h);
  vd_blocks := 2000
|}.
Next Obligation. done. Qed.
Next Obligation. intros h b _. apply fit_length. Qed.
Next Obligation. done. Qed.
Next Obligation. done. Qed.
Next Obligation.
  intros k i0 i1 i2 b blk r P Hb Er Hblk. exists (k_hw k), 0. split; [|done].
  rewrite (dev_fetch k i0 i1 i2 b blk false r P Hb Er). unfold dev_move. rewrite bind_assoc. erewrite bind_Ok by reflexivity.
  rewrite (bind_Ok _ _ _ _ _ (upd_buf_ok _ _ _ _ Er)). by destruct k.
Qed.
Next Obligation.
  intros k i0 i1 i2 b blk r P Hb Er Hblk Hd. set (D := dev_disk (k_hw k)).
  exists (mkDev (sim_write blk (b_data r) D)), 0, [set_block (sd_now D) blk (take 512 (b_data r) ++ skipn 512 (sd_now D blk))].
  split; [|split; [|split; [reflexivity|]]].
  - rewrite (dev_fetch k i0 i1 i2 b blk true r P Hb Er). by destruct k.
  - intros x. cbn. unfold sd_now at 1. cbn. unfold set_block. destruct (x =? blk); [by apply fit_id|done].
  - constructor; [|constructor]. split.
    + intros x Hx. unfold set_block. by destruct (Z.eqb_spec x blk).
    + left. unfold set_block. by rewrite Z.eqb_refl.
Qed.
Next Obligation. reflexivity. Qed.

(** The machine boots with process 0 on core 0, and the driver has been initialised. *)
Definition dev_hw : virtdev := mkDev blank_disk.
Lemma dev_identifies : identifies (H := virtdev).
Proof. by split. Qed.

Lemma virtio_disk_init_idle_witness : exists h' v',
  let k := running (bss dev_hw (mkMem 0 0 ∅)) in
  virtio_disk_init k = Ok tt (set_k_hw h' (set_k_vdisk v' (set_k_locks (<[LVdisk := mkLk 0 "virtio_disk" None]> (k_locks k)) k))) /\ idle v'.
Proof. cbv zeta. apply (virtio_disk_init_idle dev_identifies); reflexivity. Defined.

(** The state in which the driver is idle. *)
Definition idle_disk : vdisk := set_vd_free (replicate 8 1) no_vdisk.
Definition dev_kernel (r : buf) : kernel virtdev :=
  let k := running (bss dev_hw (mkMem 0 0 ∅)) in set_k_vdisk idle_disk (set_k_bufs (<[4%nat := r]> (k_bufs k)) k).
Definition seven : buf := set_b_blockno 7 (set_b_data ones no_buf).

Lemma dev_quiet r : quiet cpu0 0 (dev_kernel r).
Proof. by destruct (running_quiet dev_hw (mkMem 0 0 ∅)). Qed.
Lemma dev_idle : idle idle_disk.
Proof. by split. Qed.

(** Buffer 4 is written to block 7. *)
Lemma disk_rw_transfers_witness : exists h' v' ps' r',
  disk_rw 4 true (dev_kernel seven) =
    Ok tt (set_k_hw h' (set_k_vdisk v' (set_k_proc ps' (set_k_bufs (<[4%nat := r']> (k_bufs (dev_kernel seven))) (dev_kernel seven))))) /\
  idle v' /\ vd_now h' 7 = ones /\ vd_now h' 8 = zeros.
Proof.
  destruct (disk_rw_transfers cpu0 0 (dev_kernel seven) 4 true seven) as (h' & v' & ps' & r' & E & _ & _ & I' & N & _).
  - apply Nat.ltb_lt. reflexivity.
  - apply dev_quiet.
  - apply dev_idle.
  - apply Nat.ltb_lt. reflexivity.
  - reflexivity.
  - split; [|apply Z.ltb_lt]; by vm_compute.
  - reflexivity.
  - exists h', v', ps', r'. split; [exact E|]. split; [exact I'|]. rewrite !N. split; reflexivity.
Defined.
