(* ===== verification/KSimFile.v ===== *)
(** Files at work: on the simulated disk of [KSim], a process writes to a file and reads it
    back. *)
From stdpp Require Import base gmap sets list numbers strings tactics.
From S2P Require Import Prelude Mem Ram KMachine KString KSched KBytes KAlloc KVm KProc KSpace KUvm KBio KBioProofs KLog KCrash KLogProofs KTxn KFs KBss KBlocks KInode KData KContent KDir KPath KTrunc KUserIO KSim.

(** * The disk *)

Lemma sim_IBLOCK j : 0 <= j < 200 -> 32 <= IBLOCK j sim_sb < 45.
Proof.
  intros Hj. rewrite (proj1 (IBLOCK_ok 2 sim_sb j sim_inode_layout Hj)). cbn. change IPB with 16.
  assert (0 <= j / 16) by (apply Z.div_pos; lia). assert (j / 16 < 13) by (apply Z.div_lt_upper_bound; lia). lia.
Qed.

Lemma sim_fs_layout : fs_layout 2 sim_sb.
Proof.
  split; [apply sim_layout|by vm_compute|apply sim_inode_layout|]. intros j b Hj Hb. rewrite sim_BBLOCK by done.
  pose proof (sim_IBLOCK j Hj). lia.
Qed.

Lemma sim_free_ok (V : disk) : V 45 = sd_now fmt_disk 45 -> free_ok 2 sim_sb V.
Proof.
  intros E b Hb. cbn in Hb. rewrite (sim_in_use V b E Hb). destruct (decide (b < 46)); [by rewrite fmt_used by lia|]. intros _.
  split; [cbn; lia|cbn; lia|unfold in_log, LOGSIZE, MAXOPBLOCKS; lia| |].
  - intros x Hx. rewrite sim_BBLOCK by done. lia.
  - intros j Hj. pose proof (sim_IBLOCK j Hj). lia.
Qed.

Lemma sim_room (V : disk) : V 45 = sd_now fmt_disk 45 -> room sim_sb V 2.
Proof.
  intros E. exists [46; 47]. split; [apply (bool_decide_unpack _); by vm_compute|]. split; [done|].
  intros b Hb. assert (b = 46 \/ b = 47) as Hb' by set_solver. split; [destruct Hb' as [->| ->]; cbn; lia|].
  rewrite (sim_in_use V b E) by lia. destruct Hb' as [->| ->]; by vm_compute.
Qed.

(** * An empty file *)

Definition empty_inode : inode := mkInode 1 1 1 no_sleep 1 T_FILE 0 0 1 0 (replicate 13 0).

Lemma empty_slots V r i : i_addrs r = replicate 13 0 -> is_slot i -> slot V r i = 0.
Proof.
  intros E Hi. assert (forall n, nth n (i_addrs r) 0 = 0) as Hn.
  { intros n. rewrite E, nth_lookup. destruct (replicate 13 0 !! n) eqn:En; [by apply lookup_replicate in En as [-> _]|done]. }
  unfold slot, block_of, ind_of. rewrite !Hn. by destruct (i =? -1), (i <? NDIRECT).
Qed.

Lemma empty_file_ok V r : i_addrs r = replicate 13 0 -> file_ok 2 sim_sb V r.
Proof. intros E. split; [intros i Hi|intros i j Hi Hj]; by rewrite empty_slots. Qed.

Lemma empty_whole V : whole V empty_inode.
Proof. split; [by vm_compute|]. intros p Hp. cbn in Hp. lia. Qed.

Lemma empty_typed : inode_typed empty_inode.
Proof. split; try done. apply list.Forall_forall. intros x [-> _]%elem_of_replicate. done. Qed.

Lemma sim_file : exists k A, file_op cpu0 0 1 2 sim_sb [] A k 0 empty_inode /\ entry 1 sim_sb 0 1 empty_inode k /\ room sim_sb (a_view A) 2.
Proof.
  destruct sim_fs as (k & A & F & V). specialize (V 45 home_45). exists (set_k_inodes [empty_inode] k), A. split; [|split].
  - split; try done; [by apply fs_op_inodes|apply empty_typed|by apply empty_file_ok|by apply sim_free_ok].
  - split; try done. change (Z.to_nat NINODE) with 50%nat. lia.
  - by apply sim_room.
Qed.

Lemma sim_can k A len : file_op cpu0 0 1 2 sim_sb [] A k 0 empty_inode -> entry 1 sim_sb 0 1 empty_inode k -> room sim_sb (a_view A) 2 ->
  0 < len <= 1024 -> can_write cpu0 0 1 2 sim_sb [] A k 0 1 empty_inode 0 len.
Proof.
  intros F E R Hlen. assert (touched 0 len = 1%nat) as Et.
  { unfold touched. destruct (Z.leb_spec len 0); [lia|]. rewrite Zmod_0_l, Z.div_small by (change BSIZE with 1024; lia). done. }
  split; try done; rewrite ?Et; try done. assert (MAXFILE * BSIZE = 274432) as -> by done. lia.
Qed.

Lemma writei_spec_witness : exists (k : kernel simdisk) A k' bs' A' r',
  writei 0 Local [104; 105] 0 2 k = Ok 2 k' /\ file_op cpu0 0 1 2 sim_sb bs' A' k' 0 r' /\ wrote sim_sb 1 A empty_inode 0 [104; 105] A' r' /\
  writei 0 Local [104; 105] 1 2 k = Ok (-1) k.
Proof.
  destruct sim_file as (k & A & F & E & R).
  destruct (writei_spec cpu0 0 1 2 sim_sb ltac:(done) sim_fs_layout [] A k 0 1 empty_inode Local [104; 105] [104; 105] 0 F
    ltac:(lia) ltac:(by vm_compute) (supplies_local cpu0 0 k [104; 105])) as [_ W].
  destruct (writei_spec cpu0 0 1 2 sim_sb ltac:(done) sim_fs_layout [] A k 0 1 empty_inode Local [104; 105] [104; 105] 1 F
    ltac:(lia) ltac:(by vm_compute) (supplies_local cpu0 0 k [104; 105])) as [B _].
  destruct (W (sim_can k A 2 F E R ltac:(lia))) as (k' & bs' & A' & r' & E1 & F1 & W1 & _).
  exists k, A, k', bs', A', r'. split; [exact E1|]. split; [exact F1|]. split; [exact W1|]. apply B. left. by vm_compute.
Defined.

(** * A process with memory *)

(** The process gets the memory of another machine. *)
Definition with_space (kg : kernel unit) (root : Z) (p : proc) (k : kernel simdisk) : kernel simdisk :=
  set_k_mem (k_mem kg) (set_k_freelist (k_freelist kg) (set_k_proc (<[O := set_p_pagetable root p]> (k_proc k)) k)).

Lemma with_space_file kg root p bs A k ip r :
  k_proc k !! O = Some p -> file_op cpu0 0 1 2 sim_sb bs A k ip r -> file_op cpu0 0 1 2 sim_sb bs A (with_space kg root p k) ip r.
Proof.
  intros Ep [[[Q B L] ] ]. split; try done. split; try done. split; try done.
  - destruct Q as [Qc Qn Qm Ql Qp (q & Eq & Qs & Qh) Qf]. split; try done; [by cbn; rewrite length_insert|].
    exists (set_p_pagetable root p). rewrite Ep in Eq. injection Eq as <-.
    split; [apply list_lookup_insert_eq; by eapply lookup_lt_Some|done].
  - destruct B. split; try done. intros i r' Hi E Dr. destruct (bio_slot i r' Hi E Dr) as (S1 & S2 & S3 & S4).
    assert (pid_of 0 (with_space kg root p k) = pid_of 0 k) as Epid.
    { unfold pid_of. cbn. rewrite list_lookup_insert_eq by by eapply lookup_lt_Some. by rewrite Ep. }
    unfold slot_ok. rewrite Epid. split_and!; done.
  - by destruct L.
Qed.

(** The memory of an image with its guard page, with three bytes in it. *)
Lemma sim_user : exists (k : kernel simdisk) A l root s, image s /\ file_op cpu0 0 1 2 sim_sb [] A k 0 empty_inode /\
  entry 1 sim_sb 0 1 empty_inode k /\ room sim_sb (a_view A) 2 /\ in_space 0 k l root s 3 /\ ubytes (k_mem k) s 0 3 = [104; 105; 10].
Proof.
  destruct sim_file as (k & A & F & E & R). destruct image_space as (_ & _ & kg & l & s & _ & _ & _ & _ & U & I). set (root := page_no 0) in *. pose proof (im_sized s I) as S.
  destruct (copyout_loop_ok l root s 3 S 3 0 [104; 105; 10] kg 3 U) as (m' & _ & U' & _ & B); [cbn; lia|lia|lia| |].
  { split; [cbn; lia|]. split; [apply (urange_sub s 0 4096); [apply I|lia..]|cbn; lia]. }
  destruct (q_run _ _ _ (tx_quiet _ _ _ _ _ _ _ (fo_txn _ _ _ _ _ _ _ _ _ (fp_op _ _ _ _ _ _ _ _ _ _ F)))) as (p & Ep & _).
  set (kg' := set_k_mem m' kg) in *. exists (with_space kg' root p k), A, l, root, s.
  split; [done|]. split; [by apply with_space_file|]. split; [destruct E; by split|]. split; [done|]. split; [split; [|done|]|].
  - destruct U' as [[] ? ? ?]. split; try done.
  - exists (set_p_pagetable root p). split; [|done]. apply list_lookup_insert_eq. by eapply lookup_lt_Some.
  - apply (ubytes_overwritten (k_mem kg) m' s 0 3 [104; 105; 10]); [repeat constructor; lia|lia|cbn; lia|lia|].
    intros x Hx. by rewrite B by done.
Qed.

Lemma user_file_roundtrip_witness : exists (k k1 k2 : kernel simdisk) s,
  writei 0 (User 0) [] 0 3 k = Ok 3 k1 /\ readi 0 (User 8200) 0 3 k1 = Ok (3, [104; 105; 10]) k2 /\
  ubyte (k_mem k2) s 8201 = Some 105 /\ uacc s 5000 = false.
Proof.
  destruct sim_user as (k & A & l & root & s & Im & F & E & R & I & D).
  destruct (user_file_roundtrip cpu0 0 1 2 sim_sb [] A k 0 1 empty_inode 0 l root s 3 0 8200 3 ltac:(done) sim_fs_layout I
    ltac:(lia) ltac:(apply (urange_sub s 0 4096); [apply Im|lia..]) ltac:(lia) ltac:(apply (urange_sub s 8192 4096); [apply Im|lia..]) ltac:(lia) (sim_can k A 3 F E R ltac:(lia)) (empty_whole _))
    as (k1 & k2 & E1 & E2 & _ & _ & B).
  change (Z.to_nat 3) with 3%nat in *. rewrite D in E2, B. exists k, k1, k2, s. split; [exact E1|]. split; [exact E2|].
  split; [rewrite (B 8201 ltac:(lia)); reflexivity|]. apply (im_guard s Im). lia.
Defined.

(** * Directories *)

Definition table : list inode := replicate (Z.to_nat NINODE) no_inode.

Lemma table_entry i r : table !! i = Some r -> r = no_inode.
Proof. by intros [-> _]%lookup_replicate. Qed.

Lemma iget_spec_witness : exists (k : kernel simdisk) r, k_inodes k = table /\
  iget 1 5 k = Ok 0%nat (set_k_inodes (<[O := r]> (k_inodes k)) k) /\ names 1 5 r /\ unique (<[O := r]> (k_inodes k)).
Proof.
  set (k := booting blank_disk). assert (k_inodes k = table) as Ek by reflexivity.
  destruct (iget_spec cpu0 0 1 5 k (running_quiet _ _) ltac:(reflexivity)) as [(j & r0 & r & E & Ej & Hn & Hr & _ & U)|[Hfull _]].
  - rewrite Ek. by intros i r ->%table_entry.
  - rewrite Ek. intros a b ra rb ->%table_entry _ Ha _. by vm_compute in Ha.
  - assert (j = O) as ->.
    { pose proof (iget_ok cpu0 0 1 5 k (running_quiet _ _) ltac:(reflexivity)) as E0. rewrite Ek in E0.
      change (pick 1 5 table) with (Some (O, claimed 1 5 no_inode)) in E0. rewrite E in E0. by injection E0. }
    exists k, r. split; [exact Ek|]. split; [exact E|]. split; [exact Hn|exact U].
  - exfalso. rewrite Ek in Hfull. destruct (Hfull O no_inode eq_refl) as [Hr _]. by vm_compute in Hr.
Defined.

(** An empty directory, the first entry of the table. *)
Definition dir_inode : inode := mkInode 1 1 1 no_sleep 1 T_DIR 0 0 1 0 (replicate 13 0).
Definition dir_table : list inode := <[O := dir_inode]> table.
Definition name_ls : list Z := [108; 115] ++ replicate 12 0.

Lemma dir_is_dir V : is_dir V dir_inode.
Proof. split; [done|apply (empty_whole V)|done|done]. Qed.

Lemma dir_table_entry i r : dir_table !! i = Some r -> 0 <= i_ref r < 2 ^ 31 - 1.
Proof. intros [(_ & <- & _)|[_ ->%table_entry]]%list_lookup_insert_Some; done. Qed.

Lemma sim_dir : exists k A, can_write cpu0 0 1 2 sim_sb [] A k 0 1 dir_inode 0 16 /\ table_ok k /\ k_inodes k = dir_table.
Proof.
  destruct sim_fs as (k & A & F & V). specialize (V 45 home_45). exists (set_k_inodes dir_table k), A.
  assert (file_op cpu0 0 1 2 sim_sb [] A (set_k_inodes dir_table k) 0 dir_inode) as Fo.
  { split; try done; [by apply fs_op_inodes|destruct empty_typed; by split|by apply empty_file_ok|by apply sim_free_ok]. }
  split; [|split; [split; [done|exact dir_table_entry]|done]].
  split; [done| |cbn; lia|by vm_compute|by vm_compute|exact (sim_room _ V)].
  split; try done. change (Z.to_nat NINODE) with 50%nat. lia.
Qed.

Lemma name_full : full DIRSIZ name_ls.
Proof. left. by vm_compute; lia. Qed.

Lemma dirlink_spec_witness : exists (k : kernel simdisk) k' A' r',
  dirlink 0 name_ls 5 k = Ok 0 k' /\ dir_get (ents (a_view A') r') [108; 115] = Some 5 /\ dir_get (ents (a_view A') r') [108] = None.
Proof.
  destruct sim_dir as (k & A & C & T & _).
  pose proof (dirlink_spec cpu0 0 1 2 sim_sb ltac:(done) sim_fs_layout [] A 0 1 dir_inode name_ls 5 k (dir_is_dir _) name_full ltac:(lia) T C) as S.
  destruct S as (k' & bs' & A' & r' & E & _ & _ & _ & _ & _ & G). exists k, k', A', r'. split; [exact E|]. split.
  - rewrite (G [108; 115]). reflexivity.
  - rewrite (G [108]). reflexivity.
Defined.

(** A directory with one entry. *)
Lemma sim_linked : exists (k : kernel simdisk) bs A r, file_op cpu0 0 1 2 sim_sb bs A k 0 r /\ is_dir (a_view A) r /\
  dir_get (ents (a_view A) r) [108; 115] = Some 5 /\ table_ok k /\ pick 1 5 (k_inodes k) = Some (1%nat, claimed 1 5 no_inode).
Proof.
  destruct sim_dir as (k & A & C & T & Et). pose proof (file_op_read _ _ _ _ _ _ _ _ _ _ (cw_file _ _ _ _ _ _ _ _ _ _ _ _ _ C)) as R.
  destruct (dirlink_new cpu0 0 1 2 sim_sb ltac:(done) sim_fs_layout [] A 0 1 dir_inode name_ls 5 k k (dir_is_dir _) ltac:(lia) eq_refl C
    ltac:(reflexivity) R) as (k' & bs & A' & r' & _ & F & D & W & _ & Ek & G).
  exists k', bs, A', r'. split; [done|]. split; [done|]. split; [by rewrite (G [108; 115])|]. rewrite Ek, Et.
  assert (i_ref r' = 1) as Hr by (rewrite (wo_same _ _ _ _ _ _ _ _ W); done). assert (i_inum r' = 1) as Hn by (rewrite (wo_same _ _ _ _ _ _ _ _ W); done).
  split.
  - unfold table_ok. rewrite Ek, Et. split; [by rewrite length_insert|]. intros i x [(_ & <- & _)|[_ Hx]]%list_lookup_insert_Some; [lia|by eapply dir_table_entry].
  - unfold pick. change (<[O := r']> dir_table) with (r' :: replicate 49 no_inode). cbn [list_find].
    rewrite (decide_False (P := names 1 5 r')) by (unfold names; lia). rewrite (decide_False (P := empty_entry r')) by (unfold empty_entry; lia).
    by vm_compute.
Qed.

Lemma dirlookup_spec_witness : exists (k k' : kernel simdisk) i ip r,
  dirlookup 0 name_ls k = Ok (Some (ip, 16 * Z.of_nat i)) k' /\ k_inodes k' !! ip = Some r /\ names 1 5 r.
Proof.
  destruct sim_linked as (k & bs & A & r & F & D & G & T & Ep). exists k.
  pose proof (dirlookup_spec cpu0 0 1 2 sim_sb ltac:(done) sim_fs_layout bs A 0 r name_ls k D name_full (file_op_read _ _ _ _ _ _ _ _ _ _ F) T) as S.
  change (cname name_ls) with [108; 115] in S. rewrite G in S.
  destruct S as [(i & ip & ri & k' & E & _ & Ek & Hn & _ & _ & r0 & Er & _)|[Hnone _]].
  - exists k', i, ip, ri. split; [exact E|]. split; [|exact Hn]. rewrite Ek. apply list_lookup_insert_eq. by eapply lookup_lt_Some.
  - exfalso. rewrite Ep in Hnone. discriminate Hnone.
Defined.

(** * A file without links *)

Definition orphan_inode : inode := set_i_nlink 0 empty_inode.

Lemma sim_orphan : exists k A, can_write cpu0 0 1 2 sim_sb [] A k 0 1 orphan_inode 0 2.
Proof.
  destruct sim_fs as (k & A & F & V). specialize (V 45 home_45). exists (set_k_inodes [orphan_inode] k), A.
  split; [|split; try done; change (Z.to_nat NINODE) with 50%nat; lia|cbn; lia|by vm_compute|by vm_compute|exact (sim_room _ V)].
  split; try done; [by apply fs_op_inodes|destruct empty_typed; by split|by apply empty_file_ok|by apply sim_free_ok].
Qed.

Lemma iput_spec_witness : exists (k k1 k2 : kernel simdisk) A1 A2 b, writei 0 Local [104; 105] 0 2 k = Ok 2 k1 /\ iput 0 k1 = Ok tt k2 /\
  in_use sim_sb (a_view A1) b = true /\ in_use sim_sb (a_view A2) b = false /\ i_type (dinode_of sim_sb (a_view A2) 1) = 0.
Proof.
  destruct sim_orphan as (k & A & C).
  destruct (writei_can cpu0 0 1 2 sim_sb ltac:(done) sim_fs_layout [] A k 0 1 orphan_inode Local [104; 105] [104; 105] 0 C (supplies_local cpu0 0 k [104; 105]))
    as (k1 & bs1 & A1 & r1 & E1 & F1 & W1 & _ & K1 & L1).
  pose proof (wo_same _ _ _ _ _ _ _ _ W1) as Es. destruct (wo_data _ _ _ _ _ _ _ _ W1) as [Wd _]. destruct (Wd 0 ltac:(cbn; lia)) as [Hb _].
  change (0 / BSIZE) with 0 in Hb. assert (is_slot 0) as Hs by (unfold is_slot; rewrite MAXFILE_val; lia).
  destruct (fk_data _ _ _ _ (fp_file _ _ _ _ _ _ _ _ _ _ F1) 0 Hs Hb) as [D U]. pose proof (db_range _ _ _ D) as Hr.
  assert (entry 1 sim_sb 0 1 r1 k1) as En1 by (destruct (cw_entry _ _ _ _ _ _ _ _ _ _ _ _ _ C); rewrite Es; split; try done; rewrite <- Es; apply F1).
  assert (Z.of_nat (length bs1) < LOGSIZE - 3) as L1' by (change (Z.of_nat (touched 0 (Z.of_nat (length [104; 105])))) with 1 in L1; cbn in L1; unfold LOGSIZE, MAXOPBLOCKS; lia).
  assert (i_ref r1 = 1 /\ i_valid r1 <> 0 /\ i_nlink r1 = 0 /\ sk_locked (i_lock r1) = 0) as (R1 & R2 & R3 & R4) by (rewrite Es; done).
  destruct (iput_spec cpu0 0 1 2 sim_sb ltac:(done) sim_fs_layout bs1 A1 k1 0 1 r1 (fp_op _ _ _ _ _ _ _ _ _ _ F1) En1 ltac:(lia)
    (fp_typed _ _ _ _ _ _ _ _ _ _ F1) (fp_file _ _ _ _ _ _ _ _ _ _ F1) R4 ltac:(done) L1') as (k2 & bs2 & A2 & r2 & E2 & _ & _ & _ & _ & P).
  rewrite decide_True in P by done. destruct P as (_ & Fr & _). exists k, k1, k2, A1, A2, (slot (a_view A1) r1 0).
  split; [exact E1|]. split; [exact E2|]. split; [exact U|]. split; [|apply Fr]. apply not_true_iff_false. rewrite (fr_blocks _ _ _ _ _ Fr) by lia.
  intros [_ Hn]. apply Hn. by exists 0.
Defined.
