(* ===== verification/UMachine.v ===== *)
(** A user program of the guest (src/guest/xv6/user): its memory, its end, and the system
    calls of user.h it makes.

    A program is run as one process sees it.  Its memory is the range of addresses from 0 to
    its break; the variables and the locals whose address is taken lie where the compiler put
    them, which the programs take as parameters.  The kernel behind the system calls is the
    interface [Sys]: a call is a function on the state [W] of the rest of the system, which
    hands bytes over and returns a result.  [fork] returns once, in the process that is
    followed: the state [W] says which of the two that is.  A program ends by [exit] or by a
    successful [exec]: the outcome is then [Panic], and [u_fate] says how it ended. *)
From stdpp Require Import base gmap list numbers strings tactics.
From S2P Require Import Prelude Mem Ram KBytes.

Inductive fate := Exited (status : Z) | Execed (path : list Z) (argv : list (list Z)).

Record uproc (W : Type) := mkUproc { u_mem : memory; u_freep : Z; u_fate : option fate; u_os : W }.
Arguments mkUproc {W}. Arguments u_mem {W}. Arguments u_freep {W}. Arguments u_fate {W}. Arguments u_os {W}.

Definition set_u_mem {W} (m : memory) (u : uproc W) : uproc W := mkUproc m (u_freep u) (u_fate u) (u_os u).
Definition set_u_freep {W} (v : Z) (u : uproc W) : uproc W := mkUproc (u_mem u) v (u_fate u) (u_os u).
Definition set_u_fate {W} (v : option fate) (u : uproc W) : uproc W := mkUproc (u_mem u) (u_freep u) v (u_os u).
Definition set_u_os {W} (v : W) (u : uproc W) : uproc W := mkUproc (u_mem u) (u_freep u) (u_fate u) v.

(** What the kernel does for a process.  Results are C integers; a file descriptor, a number
    of bytes or a process is one of them.  [os_sbrk n sz] is the new size of memory, or -1. *)
Class Sys (W : Type) := {
  os_fork : W -> Z * W;
  os_wait : W -> Z * Z * W;
  os_pipe : W -> Z * (Z * Z) * W;
  os_read : Z -> Z -> W -> Z * list Z * W;
  os_write : Z -> list Z -> W -> Z * W;
  os_close : Z -> W -> Z * W;
  os_kill : Z -> W -> Z * W;
  os_exec : list Z -> list (list Z) -> W -> Z * W;
  os_open : list Z -> Z -> W -> Z * W;
  os_mknod : list Z -> Z -> Z -> W -> Z * W;
  os_unlink : list Z -> W -> Z * W;
  os_fstat : Z -> W -> Z * list Z * W;
  os_link : list Z -> list Z -> W -> Z * W;
  os_mkdir : list Z -> W -> Z * W;
  os_chdir : list Z -> W -> Z * W;
  os_dup : Z -> W -> Z * W;
  os_getpid : W -> Z * W;
  os_sbrk : Z -> Z -> W -> Z * W;
  os_sleep : Z -> W -> Z * W;
  os_uptime : W -> Z * W
}.

(** How often a program is followed around a loop that only the kernel can end. *)
Class TurnFuel := turn_fuel : nat.

Section Calls.
Context {W : Type} `{!Sys W}.
Implicit Types u : uproc W.

Definition on_umem {A} (m : M memory A) : M (uproc W) A := zoom u_mem set_u_mem m.

Definition call {A} (f : W -> A * W) : M (uproc W) A :=
  fun u => let '(r, w) := f (u_os u) in Ok r (set_u_os w u).

(** The characters of a string, which the kernel copies in. *)
Fixpoint get_chars (fuel : nat) (a : Z) : M memory (list Z) :=
  match fuel with
  | O => spin
  | S fuel' =>
      let! c := load8 a in
      if c =? 0 then ret [] else let! cs := get_chars fuel' (u64 (a + 1)) in ret (c :: cs)
  end.
Definition get_str (a : Z) : M (uproc W) (list Z) :=
  on_umem (let! fuel := Lib.fuel_from a in get_chars fuel a).

(** The strings of a vector that a null pointer ends. *)
Fixpoint get_strs (fuel : nat) (a : Z) : M (uproc W) (list (list Z)) :=
  match fuel with
  | O => spin
  | S fuel' =>
      let! p := on_umem (load64 a) in
      if p =? 0 then ret [] else
      let! s := get_str p in
      let! ss := get_strs fuel' (u64 (a + 8)) in
      ret (s :: ss)
  end.

Definition fork : M (uproc W) Z := call os_fork.
Definition exit {A} (status : Z) : M (uproc W) A := modify (set_u_fate (Some (Exited status))) ;; panic.
Definition wait (status : Z) : M (uproc W) Z :=
  let! r := call os_wait in
  (if negb (status =? 0) && (0 <=? fst r) then on_umem (store32 status (u32 (snd r))) else ret tt) ;;
  ret (fst r).

(** The two descriptors are a local array of the caller. *)
Definition pipe : M (uproc W) (Z * (Z * Z)) := call os_pipe.

(** [read] into a local variable delivers the bytes to it, [read] into memory stores them. *)
Definition read_local (fd n : Z) : M (uproc W) (Z * list Z) := call (os_read fd n).
Definition read (fd a n : Z) : M (uproc W) Z :=
  let! r := read_local fd n in
  on_umem (store_bytes a (snd r)) ;;
  ret (fst r).
Definition write_local (fd : Z) (bs : list Z) : M (uproc W) Z := call (os_write fd bs).
Definition write (fd a n : Z) : M (uproc W) Z :=
  let! bs := on_umem (load_bytes (Z.to_nat n) a) in write_local fd bs.
Definition close (fd : Z) : M (uproc W) Z := call (os_close fd).
Definition kill (pid : Z) : M (uproc W) Z := call (os_kill pid).

(** A successful [exec] does not return. *)
Definition exec (path argv : Z) : M (uproc W) Z :=
  let! name := get_str path in
  let! args := (let! u := get in get_strs (S (Z.to_nat (ram_hi (u_mem u) - argv))) argv) in
  let! r := call (os_exec name args) in
  if r <? 0 then ret r else modify (set_u_fate (Some (Execed name args))) ;; panic.
Definition open (path mode : Z) : M (uproc W) Z := let! name := get_str path in call (os_open name mode).
Definition mknod (path major minor : Z) : M (uproc W) Z := let! name := get_str path in call (os_mknod name major minor).
Definition unlink (path : Z) : M (uproc W) Z := let! name := get_str path in call (os_unlink name).
Definition link (old new : Z) : M (uproc W) Z :=
  let! o := get_str old in let! n := get_str new in call (os_link o n).
Definition mkdir (path : Z) : M (uproc W) Z := let! name := get_str path in call (os_mkdir name).
Definition chdir (path : Z) : M (uproc W) Z := let! name := get_str path in call (os_chdir name).
Definition fstat (fd : Z) : M (uproc W) (Z * list Z) := call (os_fstat fd).
Definition dup (fd : Z) : M (uproc W) Z := call (os_dup fd).
Definition getpid : M (uproc W) Z := call os_getpid.
Definition sleep (n : Z) : M (uproc W) Z := call (os_sleep n).
Definition uptime : M (uproc W) Z := call os_uptime.

(** The old break, or -1; memory then ends at the new one. *)
Definition sbrk (n : Z) : M (uproc W) Z :=
  let! m := gets u_mem in
  let! sz := call (os_sbrk n (ram_hi m)) in
  if sz <? 0 then ret (u64 (-1)) else
  on_umem (put (mkMem (ram_lo m) sz (cells m))) ;;
  ret (ram_hi m).
End Calls.

(** * What the programs count on *)

(** [sbrk] with a positive argument extends memory by that much or refuses; a process has
    less than 2 GiB. *)
Class SbrkLaws (W : Type) `{!Sys W} := {
  sbrk_grows n sz w r w' : 0 < n < 2 ^ 31 -> 0 <= sz -> os_sbrk n sz w = (r, w') -> r = -1 \/ (r = sz + n /\ r < 2 ^ 31);
}.

(** A descriptor that reads a stream of bytes and one that collects them: [read] delivers
    some of the bytes left, as many as it likes but at least one while there are any;
    [write] takes all. *)
Class StreamLaws (W : Type) `{!Sys W} := {
  unread : Z -> W -> list Z;
  written : Z -> W -> list Z;
  read_some fd n w r bs w' : 0 < n -> os_read fd n w = (r, bs, w') ->
    exists rest, unread fd w = bs ++ rest /\ unread fd w' = rest /\ r = Z.of_nat (length bs) /\ r <= n /\
      (bs = [] -> unread fd w = []) /\ (forall fd', written fd' w' = written fd' w);
  read_none fd w r bs w' : os_read fd 0 w = (r, bs, w') -> r = 0 /\ bs = [] /\ (forall fd', unread fd' w' = unread fd' w) /\ (forall fd', written fd' w' = written fd' w);
  write_all fd bs w r w' : os_write fd bs w = (r, w') ->
    r = Z.of_nat (length bs) /\ written fd w' = written fd w ++ bs /\
    (forall fd', fd' <> fd -> written fd' w' = written fd' w) /\ (forall fd', unread fd' w' = unread fd' w);
}.

Section Lemmas.
Context {W : Type}.
Implicit Types u : uproc W.

Lemma set_u_mem_id u : set_u_mem (u_mem u) u = u.
Proof. by destruct u. Qed.

Lemma u_mem_set m u : u_mem (set_u_mem m u) = m.
Proof. done. Qed.
Lemma set_u_mem_set m m' u : set_u_mem m' (set_u_mem m u) = set_u_mem m' u.
Proof. done. Qed.

(** Code that only reads memory. *)
Lemma on_umem_pure {A} (f : M memory A) a u : f (u_mem u) = Ok a (u_mem u) -> on_umem f u = Ok a u.
Proof. intros E. unfold on_umem, zoom. rewrite E. by rewrite set_u_mem_id. Qed.

Lemma on_umem_Ok {A} (f : M memory A) a m u : f (u_mem u) = Ok a m -> on_umem f u = Ok a (set_u_mem m u).
Proof. intros E. unfold on_umem, zoom. by rewrite E. Qed.

Lemma on_umem_next {A} (f : M memory A) a m m' u : f m = Ok a m' -> on_umem f (set_u_mem m u) = Ok a (set_u_mem m' u).
Proof. intros E. unfold on_umem, zoom. cbn [u_mem set_u_mem]. by rewrite E. Qed.

Lemma load8_ok a (m : memory) : in_ram m a 1 = true -> load8 a m = Ok (peek m a) m.
Proof. intros E. unfold load, bind, get. change (Z.of_nat 1) with 1. rewrite E. by rewrite rd1. Qed.

Lemma store8_ok a v (m : memory) : in_ram m a 1 = true -> store8 a v m = Ok tt (wr 1 a v m).
Proof. intros E. unfold store, bind, get. change (Z.of_nat 1) with 1. by rewrite E. Qed.

Lemma uload8 a u : in_ram (u_mem u) a 1 = true -> on_umem (load8 a) u = Ok (peek (u_mem u) a) u.
Proof. intros E. by apply on_umem_pure, load8_ok. Qed.
End Lemmas.

(** * A simulated process *)

Record sim := mkSim { si_in : Z -> list Z; si_out : Z -> list Z; si_limit : Z }.

Definition sim_read (fd n : Z) (w : sim) : Z * list Z * sim :=
  let bs := take (Z.to_nat (Z.min n 3)) (si_in w fd) in
  (Z.of_nat (length bs), bs,
   mkSim (fun f => if f =? fd then skipn (Z.to_nat (Z.min n 3)) (si_in w f) else si_in w f) (si_out w) (si_limit w)).
Definition sim_write (fd : Z) (bs : list Z) (w : sim) : Z * sim :=
  (Z.of_nat (length bs), mkSim (si_in w) (fun f => if f =? fd then si_out w f ++ bs else si_out w f) (si_limit w)).
Definition sim_sbrk (n sz : Z) (w : sim) : Z * sim :=
  (if (0 <? n) && (sz + n <? si_limit w) && (sz + n <? 2 ^ 31) then sz + n else -1, w).

#[export] Instance sim_sys : Sys sim := {|
  os_fork w := (-1, w); os_wait w := (-1, 0, w); os_pipe w := (-1, (0, 0), w);
  os_read := sim_read; os_write := sim_write; os_close _ w := (0, w); os_kill _ w := (-1, w);
  os_exec _ _ w := (-1, w); os_open _ _ w := (3, w); os_mknod _ _ _ w := (-1, w); os_unlink _ w := (-1, w);
  os_fstat _ w := (-1, [], w); os_link _ _ w := (-1, w); os_mkdir _ w := (-1, w); os_chdir _ w := (-1, w);
  os_dup _ w := (-1, w); os_getpid w := (1, w); os_sbrk := sim_sbrk; os_sleep _ w := (0, w); os_uptime w := (0, w)
|}.

#[export] Program Instance sim_streams : StreamLaws sim := { unread fd w := si_in w fd; written fd w := si_out w fd }.
Next Obligation.
  intros fd n w r bs w' Hn [= <- <- <-]. exists (skipn (Z.to_nat (Z.min n 3)) (si_in w fd)). cbn [si_in si_out].
  split; [by rewrite take_drop|]. rewrite Z.eqb_refl. split; [done|]. split; [done|]. rewrite length_take. split; [lia|]. split; [|done].
  intros H%(f_equal length). rewrite length_take in H. cbn in H. destruct (si_in w fd); [done|cbn in H; lia].
Qed.
Next Obligation.
  intros fd w r bs w' [= <- <- <-]. cbn. split; [done|]. split; [done|]. split; [|done]. intros fd'. by destruct (fd' =? fd).
Qed.
Next Obligation.
  intros fd bs w r w' [= <- <-]. cbn. rewrite Z.eqb_refl. split; [done|]. split; [done|]. split; [|done].
  intros fd' Hne. by destruct (Z.eqb_spec fd' fd).
Qed.

#[export] Instance sim_sbrk_laws : SbrkLaws sim.
Proof.
  constructor. intros n sz w r w' Hn Hsz [= <- <-]. destruct (Z.ltb_spec (sz + n) (2 ^ 31)); rewrite ?andb_true_r, ?andb_false_r; [|by left].
  destruct ((0 <? n) && (sz + n <? si_limit w)); auto.
Qed.

Definition sim_proc (m : memory) (input : list Z) : uproc sim :=
  mkUproc m 0 None (mkSim (fun fd => if fd =? 0 then input else []) (fun _ => []) (2 ^ 20)).
