(* ===== verification/ULib.v ===== *)
(** The library of the user programs (ulib.c), and its formatted output (printf.c). *)
From stdpp Require Import base gmap list numbers strings tactics.
From S2P Require Import Prelude Mem Ram KBytes UMachine.

(** * On memory *)

Fixpoint strcpy_loop (fuel : nat) (s t : Z) : M memory unit :=
  match fuel with
  | O => spin
  | S fuel' =>
      let! c := load8 t in
      store8 s c ;;
      if negb (c =? 0) then strcpy_loop fuel' (u64 (s + 1)) (u64 (t + 1)) else ret tt
  end.
Definition strcpy (s t : Z) : M memory Z := let! fuel := Lib.fuel_from t in strcpy_loop fuel s t ;; ret s.

(** [while (p[0] && p[0] == q[0])]; [q[0]] is read only when [p[0]] is not 0, and once more behind. *)
Fixpoint strcmp_loop (fuel : nat) (p q : Z) : M memory Z :=
  match fuel with
  | O => spin
  | S fuel' =>
      let! a := load8 p in
      let! b := load8 q in
      if negb (a =? 0) && (a =? b) then strcmp_loop fuel' (u64 (p + 1)) (u64 (q + 1)) else ret (a - b)
  end.
Definition strcmp (p q : Z) : M memory Z := let! fuel := Lib.fuel_from p in strcmp_loop fuel p q.

Fixpoint strlen_loop (fuel : nat) (s n : Z) : M memory Z :=
  match fuel with
  | O => spin
  | S fuel' =>
      let! c := load8 (u64 (s + n)) in
      if c =? 0 then ret (u32 n) else strlen_loop fuel' s (i32 (n + 1))
  end.
Definition strlen (s : Z) : M memory Z := let! fuel := Lib.fuel_from s in strlen_loop fuel s 0.

(** [i < n] compares unsigned numbers; there are [n] turns. *)
Fixpoint memset_loop (k : nat) (dst c i : Z) : M memory unit :=
  match k with
  | O => ret tt
  | S k' => store8 (u64 (dst + i)) (u8 c) ;; memset_loop k' dst c (i32 (i + 1))
  end.
Definition memset (dst c n : Z) : M memory Z := memset_loop (Z.to_nat (u32 n)) dst c 0 ;; ret dst.

Fixpoint strchr_loop (fuel : nat) (s c : Z) : M memory Z :=
  match fuel with
  | O => spin
  | S fuel' =>
      let! x := load8 s in
      if x =? 0 then ret 0 else if x =? c then ret s else strchr_loop fuel' (u64 (s + 1)) c
  end.
Definition strchr (s c : Z) : M memory Z := let! fuel := Lib.fuel_from s in strchr_loop fuel s c.

(** [strchr] of a constant string, used as a truth value. *)
Definition in_lit (lit : list Z) (c : Z) : bool := existsb (Z.eqb c) lit.

Fixpoint atoi_loop (fuel : nat) (s n : Z) : M memory Z :=
  match fuel with
  | O => spin
  | S fuel' =>
      let! c := load8 s in
      if (48 <=? c) && (c <=? 57) then atoi_loop fuel' (u64 (s + 1)) (i32 (n * 10 + c - 48)) else ret n
  end.
Definition atoi (s : Z) : M memory Z := let! fuel := Lib.fuel_from s in atoi_loop fuel s 0.

Definition memmove (vdst vsrc n : Z) : M memory Z :=
  (if vsrc >? vdst then Lib.move_up (Z.to_nat n) vdst vsrc
   else Lib.move_down (Z.to_nat n) (u64 (vdst + n)) (u64 (vsrc + n))) ;;
  ret vdst.

Fixpoint memcmp_loop (n : nat) (p1 p2 : Z) : M memory Z :=
  match n with
  | O => ret 0
  | S n' =>
      let! a := load8 p1 in
      let! b := load8 p2 in
      if negb (a =? b) then ret (a - b) else memcmp_loop n' (u64 (p1 + 1)) (u64 (p2 + 1))
  end.
Definition memcmp (s1 s2 n : Z) : M memory Z := memcmp_loop (Z.to_nat (u32 n)) s1 s2.

Definition memcpy (dst src n : Z) : M memory Z := memmove dst src (i32 n).

(** * With system calls *)

Section ULib.
Context {W : Type} `{!Sys W}.

(** At most [max - 1] characters are read: that many turns are enough. *)
Fixpoint gets_loop (fuel : nat) (buf i max : Z) : M (uproc W) Z :=
  match fuel with
  | O => ret i
  | S fuel' =>
      if i + 1 <? max then
        let! r := read_local 0 1 in
        if fst r <? 1 then ret i else
        let! c := deref (head (snd r)) in
        on_umem (store8 (u64 (buf + i)) c) ;;
        if (c =? 10) || (c =? 13) then ret (i + 1) else gets_loop fuel' buf (i + 1) max
      else ret i
  end.
Definition gets (buf max : Z) : M (uproc W) Z :=
  let! i := gets_loop (Z.to_nat max) buf 0 max in
  on_umem (store8 (u64 (buf + i)) 0) ;;
  ret buf.

Definition O_RDONLY : Z := 0x000.

(** The status is a local variable of the callers. *)
Definition stat (n : Z) : M (uproc W) (Z * list Z) :=
  let! fd := open n O_RDONLY in
  if fd <? 0 then ret (-1, []) else
  let! r := fstat fd in
  let! _ := close fd in
  ret r.
End ULib.

(** * Properties *)

Lemma memmove_is_lib dst src n : memmove dst src n = Lib.memmove dst src n.
Proof. unfold memmove, Lib.memmove. by rewrite Z.gtb_ltb. Qed.

(** [strchr] finds the first occurrence. *)
Lemma strchr_loop_ok m c l s fuel a : Lib.ram_ok m -> Forall (fun x => x <> c) l -> c <> 0 -> (length l < fuel)%nat ->
  (s = [] \/ exists s', s = c :: s') -> Lib.cstr m a (l ++ s) ->
  strchr_loop fuel a c m = Ok (if s is [] then 0 else a + Z.of_nat (length l)) m.
Proof.
  intros Hok Hl Hc Hf Hs. revert fuel a Hf. induction Hl as [|x l Hx Hl IH]; intros [|fuel] a Hf Hr; cbn [length] in *; try lia; cbn [strchr_loop].
  - cbn [app] in Hr. rewrite (bind_Ok _ _ _ _ _ (load8_ok _ m ltac:(destruct s; apply Hr))). destruct Hs as [->|[s' ->]].
    + destruct Hr as [_ ->]. done.
    + destruct Hr as (_ & -> & _). destruct (Z.eqb_spec c 0); [done|]. rewrite Z.eqb_refl. unfold ret. f_equal. lia.
  - destruct Hr as (H1 & H2 & H3 & H4). rewrite (bind_Ok _ _ _ _ _ (load8_ok _ m H1)), H2. destruct (Z.eqb_spec x 0); [done|].
    destruct (Z.eqb_spec x c); [done|]. rewrite (Lib.u64_next m) by done. rewrite IH; [|lia|done]. destruct s; [done|]. f_equal. lia.
Qed.

Lemma strchr_ok m c l s a : Lib.ram_ok m -> Forall (fun x => x <> c) l -> c <> 0 -> (s = [] \/ exists s', s = c :: s') -> Lib.cstr m a (l ++ s) ->
  strchr a c m = Ok (if s is [] then 0 else a + Z.of_nat (length l)) m.
Proof.
  intros Hok Hl Hc Hs Hr. pose proof (Lib.fuel_enough _ _ _ Hr) as Hf. rewrite length_app in Hf. apply strchr_loop_ok; try done. lia.
Qed.

(** * printf.c

    Formats are string literals, kept as lists of characters; an argument is a number or a
    pointer to a string in memory. *)

Inductive uarg := UInt (v : Z) | UPtr (p : Z).

Definition digits : list Z := chars "0123456789ABCDEF".

(** The digits of [x], the last one first; there are at most [fuel] of them. *)
Fixpoint int_digits (fuel : nat) (x base : Z) : list Z :=
  match fuel with
  | O => []
  | S fuel' =>
      nth (Z.to_nat (x mod base)) digits 0 :: (if x / base =? 0 then [] else int_digits fuel' (x / base) base)
  end.

(** What [printint] leaves in [buf[16]], and the order in which it prints it. *)
Definition int_chars (xx base : Z) (sgn : bool) : list Z :=
  let neg := sgn && (xx <? 0) in
  let x := if neg then u32 (- xx) else u32 xx in
  rev (int_digits 16 x base ++ if neg then [45] else []).

(** The sixteen hexadecimal digits of [printptr]. *)
Fixpoint ptr_chars (k : nat) (x : Z) : list Z :=
  match k with
  | O => []
  | S k' => nth (Z.to_nat (Z.shiftr x (8 * 8 - 4))) digits 0 :: ptr_chars k' (u64 (Z.shiftl x 4))
  end.

Section Printf.
Context {W : Type} `{!Sys W}.

Definition putc (fd c : Z) : M (uproc W) unit := let! _ := write_local fd [u8 c] in ret tt.
Fixpoint putcs (fd : Z) (cs : list Z) : M (uproc W) unit :=
  match cs with [] => ret tt | c :: cs' => putc fd c ;; putcs fd cs' end.

Definition printint (fd xx base : Z) (sgn : bool) : M (uproc W) unit := putcs fd (int_chars (i32 xx) base sgn).
Definition printptr (fd x : Z) : M (uproc W) unit := putcs fd [48; 120] ;; putcs fd (ptr_chars 16 x).

Fixpoint puts_loop (fuel : nat) (fd s : Z) : M (uproc W) unit :=
  match fuel with
  | O => spin
  | S fuel' =>
      let! c := on_umem (load8 s) in
      if c =? 0 then ret tt else putc fd c ;; puts_loop fuel' fd (u64 (s + 1))
  end.
Definition puts (fd s : Z) : M (uproc W) unit :=
  if s =? 0 then putcs fd (chars "(null)") else
  let! fuel := on_umem (Lib.fuel_from s) in puts_loop fuel fd s.

Definition va_int (ap : list uarg) : M (uproc W) (Z * list uarg) :=
  match ap with UInt v :: ap' => ret (v, ap') | _ => fault end.
Definition va_ptr (ap : list uarg) : M (uproc W) (Z * list uarg) :=
  match ap with UPtr v :: ap' => ret (v, ap') | _ => fault end.

(** The directive [%c]; the arguments that are left. *)
Definition directive (fd c : Z) (ap : list uarg) : M (uproc W) (list uarg) :=
  if c =? 100 then let! a := va_int ap in printint fd (fst a) 10 true ;; ret (snd a)
  else if c =? 108 then let! a := va_int ap in printint fd (fst a) 10 false ;; ret (snd a)
  else if c =? 120 then let! a := va_int ap in printint fd (fst a) 16 false ;; ret (snd a)
  else if c =? 112 then let! a := va_ptr ap in printptr fd (fst a) ;; ret (snd a)
  else if c =? 115 then let! a := va_ptr ap in puts fd (fst a) ;; ret (snd a)
  else if c =? 99 then let! a := va_int ap in putc fd (fst a) ;; ret (snd a)
  else if c =? 37 then putc fd c ;; ret ap
  else putc fd 37 ;; putc fd c ;; ret ap.

(** [state] says whether the last character was a [%] that opens a directive. *)
Fixpoint vprintf_loop (fd : Z) (fmt : list Z) (state : bool) (ap : list uarg) : M (uproc W) unit :=
  match fmt with
  | [] => ret tt
  | c :: fmt' =>
      if negb state then
        if c =? 37 then vprintf_loop fd fmt' true ap else putc fd c ;; vprintf_loop fd fmt' false ap
      else let! ap' := directive fd c ap in vprintf_loop fd fmt' false ap'
  end.
Definition vprintf (fd : Z) (fmt : list Z) (ap : list uarg) : M (uproc W) unit := vprintf_loop fd fmt false ap.
Definition fprintf (fd : Z) (fmt : list Z) (ap : list uarg) : M (uproc W) unit := vprintf fd fmt ap.
Definition printf (fmt : list Z) (ap : list uarg) : M (uproc W) unit := vprintf 1 fmt ap.
End Printf.
