(* ===== verification/UGrep.v ===== *)
(** grep (grep.c of src/guest/xv6/user): the matcher of Kernighan and Pike on strings in
    memory, and the loop over the lines of a file.

    [match_spec] shows that the matcher decides the language a pattern stands for. *)
From stdpp Require Import base gmap list numbers strings tactics.
From S2P Require Import Prelude Mem KBytes Ram UMachine ULib.

(** * grep.c *)

(** A call uses up a character of the pattern or of the text. *)
Fixpoint matchhere (fuel : nat) (re text : Z) : M memory Z :=
  match fuel with
  | O => spin
  | S fuel' =>
      let! r0 := load8 re in
      if r0 =? 0 then ret 1 else
      let! r1 := load8 (u64 (re + 1)) in
      if r1 =? 42 then matchstar fuel' r0 (u64 (re + 2)) text else
      if (r0 =? 36) && (r1 =? 0) then let! t := load8 text in ret (if t =? 0 then 1 else 0) else
      let! t := load8 text in
      if negb (t =? 0) && ((r0 =? 46) || (r0 =? t)) then matchhere fuel' (u64 (re + 1)) (u64 (text + 1))
      else ret 0
  end
with matchstar (fuel : nat) (c re text : Z) : M memory Z :=
  match fuel with
  | O => spin
  | S fuel' =>
      let! r := matchhere fuel' re text in
      if negb (r =? 0) then ret 1 else
      let! t := load8 text in
      if negb (t =? 0) && ((t =? c) || (c =? 46)) then matchstar fuel' c re (u64 (text + 1)) else ret 0
  end.

Fixpoint match_loop (n fuel : nat) (re text : Z) : M memory Z :=
  match n with
  | O => spin
  | S n' =>
      let! r := matchhere fuel re text in
      if negb (r =? 0) then ret 1 else
      let! t := load8 text in
      if negb (t =? 0) then match_loop n' fuel re (u64 (text + 1)) else ret 0
  end.

Definition match_ (re text : Z) : M memory Z :=
  let! f1 := Lib.fuel_from re in
  let! f2 := Lib.fuel_from text in
  let! r0 := load8 re in
  if r0 =? 94 then matchhere (f1 + f2) (u64 (re + 1)) text
  else match_loop f2 (f1 + f2) re text.

Section Grep.
Context {W : Type} `{!Sys W} `{!TurnFuel}.
(** Where the linker put [char buf[1024]]. *)
Variable buf : Z.

(** One line of the buffer, from [p] to the newline at [q]. *)
Definition try_line (pattern p q : Z) : M (uproc W) unit :=
  on_umem (store8 q 0) ;;
  let! r := on_umem (match_ pattern p) in
  if negb (r =? 0) then
    on_umem (store8 q 10) ;;
    let! _ := write 1 p (u64 (q + 1 - p)) in ret tt
  else ret tt.

(** The lines of the buffer from [p] on; the start of the rest. *)
Fixpoint lines_loop (fuel : nat) (pattern p : Z) : M (uproc W) Z :=
  match fuel with
  | O => spin
  | S fuel' =>
      let! q := on_umem (strchr p 10) in
      if q =? 0 then ret p else
      try_line pattern p q ;;
      lines_loop fuel' pattern (u64 (q + 1))
  end.

Fixpoint grep_loop (fuel : nat) (pattern fd m : Z) : M (uproc W) unit :=
  match fuel with
  | O => spin
  | S fuel' =>
      let! n := read fd (u64 (buf + m)) (1024 - m - 1) in
      if n >? 0 then
        let m1 := m + n in
        on_umem (store8 (u64 (buf + m1)) 0) ;;
        let! p := lines_loop 1025 pattern buf in
        let! m2 := (if m1 >? 0 then
                      let m2 := m1 - (p - buf) in
                      let! _ := on_umem (memmove buf p m2) in ret m2
                    else ret m1) in
        grep_loop fuel' pattern fd m2
      else ret tt
  end.
Definition grep (pattern fd : Z) : M (uproc W) unit := grep_loop turn_fuel pattern fd 0.

Fixpoint main_loop (k : nat) (argv pattern i : Z) : M (uproc W) unit :=
  match k with
  | O => ret tt
  | S k' =>
      let! a := on_umem (load64 (u64 (argv + 8 * i))) in
      let! fd := open a 0 in
      if fd <? 0 then printf (chars "grep: cannot open %s" ++ [10]) [UPtr a] ;; exit 1 else
      grep pattern fd ;;
      let! _ := close fd in
      main_loop k' argv pattern (i + 1)
  end.
Definition main (argc argv : Z) : M (uproc W) unit :=
  if argc <=? 1 then fprintf 2 (chars "usage: grep pattern [file ...]" ++ [10]) [] ;; exit 1 else
  let! pattern := on_umem (load64 (u64 (argv + 8))) in
  if argc <=? 2 then grep pattern 0 ;; exit 0 else
  main_loop (Z.to_nat (argc - 2)) argv pattern 2 ;;
  exit 0.
End Grep.

(** * What a pattern means

    A pattern is a sequence of items, and whether a [$] closes it. *)

Inductive item := One (c : Z) | Many (c : Z).

Fixpoint parse (re : list Z) : list item * bool :=
  match re with
  | [] => ([], false)
  | c :: re' =>
      match re' with
      | [] => if c =? 36 then ([], true) else ([One c], false)
      | d :: re'' =>
          if d =? 42 then let '(its, e) := parse re'' in (Many c :: its, e)
          else let '(its, e) := parse re' in (One c :: its, e)
      end
  end.

Lemma parse_two c d r : parse (c :: d :: r) =
  if d =? 42 then let '(its, e) := parse r in (Many c :: its, e) else let '(its, e) := parse (d :: r) in (One c :: its, e).
Proof. done. Qed.

(** [.] stands for any character; [c*] for any number of [c]. *)
Definition fits (c x : Z) : Prop := c = 46 \/ c = x.
Definition sat (i : item) (t : list Z) : Prop :=
  match i with One c => exists x, t = [x] /\ fits c x | Many c => Forall (fits c) t end.

(** A beginning of the text, all of it if [$] closes the pattern, splits into parts that the
    items stand for. *)
Definition here (p : list item * bool) (t : list Z) : Prop :=
  exists ts rest, t = mjoin ts ++ rest /\ Forall2 sat (fst p) ts /\ (snd p = true -> rest = []).

Definition Matches (re t : list Z) : Prop :=
  match re with
  | c :: re' => if c =? 94 then here (parse re') t else exists pre t', t = pre ++ t' /\ here (parse re) t'
  | [] => exists pre t', t = pre ++ t' /\ here (parse re) t'
  end.

Lemma here_nil t : here ([], false) t.
Proof. exists [], t. split; [done|]. split; [constructor|done]. Qed.

Lemma here_end t : here ([], true) t <-> t = [].
Proof.
  split; [|intros ->; by exists [], []]. intros (ts & rest & -> & F & E). inversion F; subst. cbn. by apply E.
Qed.

Lemma here_one c its e t : here (One c :: its, e) t <-> exists x t', t = x :: t' /\ fits c x /\ here (its, e) t'.
Proof.
  split.
  - intros (ts & rest & -> & F & E). inversion F as [|? y ? ts' Hy F']; subst.
    destruct Hy as (x & -> & Hx). exists x, (mjoin ts' ++ rest).
    split; [done|]. split; [done|]. by exists ts', rest.
  - intros (x & t' & -> & Hx & ts & rest & -> & F & E). exists ([x] :: ts), rest. split; [done|]. split; [|done].
    constructor; [by exists x|done].
Qed.

Lemma here_many c its e t :
  here (Many c :: its, e) t <-> here (its, e) t \/ exists x t', t = x :: t' /\ fits c x /\ here (Many c :: its, e) t'.
Proof.
  split.
  - intros (ts & rest & -> & F & E). inversion F as [|? y ? ts' Hy F']; subst. destruct y as [|x y].
    + left. by exists ts', rest.
    + right. inversion Hy; subst. exists x, ((y ++ mjoin ts') ++ rest). split; [done|]. split; [done|]. exists (y :: ts'), rest.
      split; [done|]. split; [|done]. by constructor.
  - intros [(ts & rest & -> & F & E)|(x & t' & -> & Hx & ts & rest & -> & F & E)].
    + exists ([] :: ts), rest. split; [done|]. split; [|done]. by constructor; [constructor|].
    + inversion F as [|? y ? ts' Hy F']; subst. exists ((x :: y) :: ts'), rest. split; [done|]. split; [|done].
      constructor; [by constructor|done].
Qed.

Definition bit (b : bool) : Z := if b then 1 else 0.

(** Strings in memory. *)
Section Matcher.
Variable m : memory.
Hypothesis Hok : Lib.ram_ok m.

Lemma cstr_load a l : Lib.cstr m a l -> load8 a m = Ok (hd 0 l) m.
Proof. destruct l as [|c l]; [intros [H E]|intros (H & E & _)]; rewrite (load8_ok _ _ H); by rewrite E. Qed.

Lemma cstr_next a c l : Lib.cstr m a (c :: l) -> u64 (a + 1) = a + 1 /\ Lib.cstr m (a + 1) l /\ c <> 0.
Proof. intros (H & _ & Hc & Hl). split; [by apply (Lib.u64_next m)|done]. Qed.

Lemma cstr_next2 a c d l : Lib.cstr m a (c :: d :: l) -> u64 (a + 2) = a + 2 /\ Lib.cstr m (a + 2) l.
Proof.
  intros H. destruct (cstr_next _ _ _ H) as (_ & H' & _). destruct (cstr_next _ _ _ H') as (E & H2 & _).
  replace (a + 1 + 1) with (a + 2) in * by lia. done.
Qed.

Definition fitsb (c x : Z) : bool := (c =? 46) || (c =? x).
Lemma fitsb_spec c x : fitsb c x = true <-> fits c x.
Proof. unfold fitsb, fits. rewrite orb_true_iff, !Z.eqb_eq. done. Qed.

(** The matchers return 1 or 0, and 1 exactly when [P]. *)
Definition decides (f : M memory Z) (P : Prop) : Prop := exists b : bool, f m = Ok (bit b) m /\ (b = true <-> P).

Lemma decides_iff f P Q : decides f P -> (P <-> Q) -> decides f Q.
Proof. intros (b & E & H) HQ. exists b. split; [done|]. by rewrite H. Qed.

Lemma decides_ret b P : (b = true <-> P) -> decides (ret (bit b)) P.
Proof. intros H. by exists b. Qed.

(** [if(f) return 1;] and then the rest. *)
Lemma decides_or (f g : M memory Z) P Q :
  decides f P -> (~ P -> decides g Q) -> decides (let! r := f in if negb (r =? 0) then ret 1 else g) (P \/ Q).
Proof.
  intros (b & E & H) Hg. destruct b.
  - exists true. split; [by rewrite (bind_Ok _ _ _ _ _ E)|]. split; [|done]. intros _. left. by apply H.
  - destruct Hg as (b' & E' & H'); [intros HP; by apply H in HP|]. exists b'. split; [by rewrite (bind_Ok _ _ _ _ _ E)|].
    rewrite H'. split; [by right|]. intros [HP|HQ]; [by apply H in HP|done].
Qed.

Lemma text_step (g : M memory Z) text t (ok : Z -> bool) P :
  Lib.cstr m text t ->
  (forall x t', t = x :: t' -> decides g (P t')) ->
  decides (let! x := load8 text in if negb (x =? 0) && ok x then g else ret 0) (exists x t', t = x :: t' /\ ok x = true /\ P t').
Proof.
  intros Ht Hg. unfold decides. rewrite (bind_Ok _ _ _ _ _ (cstr_load _ _ Ht)). destruct t as [|x t'].
  - exists false. split; [done|]. split; [done|]. by intros (x & t' & ? & _).
  - destruct (cstr_next _ _ _ Ht) as (_ & _ & Hx). cbn [hd]. destruct (Z.eqb_spec x 0); [done|]. cbn [negb andb].
    destruct (ok x) eqn:E.
    + destruct (Hg x t' eq_refl) as (b & Eb & Hb). exists b. split; [done|]. rewrite Hb. split; [intros; by exists x, t'|].
      by intros (? & ? & [= <- <-] & _ & ?).
    + exists false. split; [done|]. split; [done|]. intros (? & ? & [= <- <-] & ? & _). congruence.
Qed.

Lemma text_any (g : M memory Z) text t P :
  Lib.cstr m text t ->
  (forall x t', t = x :: t' -> decides g (P t')) ->
  decides (let! x := load8 text in if negb (x =? 0) then g else ret 0) (exists x t', t = x :: t' /\ P t').
Proof.
  intros Ht Hg. destruct (text_step g text t (fun _ => true) P Ht Hg) as (b & E & H). exists b. split; [|naive_solver].
  rewrite <- E. unfold bind. destruct (load8 text m); [|done..]. by rewrite andb_true_r.
Qed.

Lemma matchers_ok : forall fuel re text r t, Lib.cstr m re r -> Lib.cstr m text t ->
  ((length r + length t < fuel)%nat -> decides (matchhere fuel re text) (here (parse r) t)) /\
  ((length r + length t + 1 < fuel)%nat -> forall c, decides (matchstar fuel c re text) (here (Many c :: fst (parse r), snd (parse r)) t)).
Proof.
  induction fuel as [|fuel IH]; intros re text r t Hr Ht; [split; lia|]. split; intros Hf.
  - cbn [matchhere]. unfold decides. rewrite (bind_Ok _ _ _ _ _ (cstr_load _ _ Hr)). destruct r as [|c r].
    { exists true. split; [done|]. split; [|done]. intros _. apply here_nil. }
    destruct (cstr_next _ _ _ Hr) as (E1 & Hr1 & Hc). cbn [hd]. destruct (Z.eqb_spec c 0); [done|].
    rewrite E1, (bind_Ok _ _ _ _ _ (cstr_load _ _ Hr1)). destruct r as [|d r]; cbn [hd].
    + cbn [parse]. rewrite andb_true_r. cbn [Z.eqb]. destruct (Z.eqb_spec c 36) as [->|Hc36].
      * rewrite (bind_Ok _ _ _ _ _ (cstr_load _ _ Ht)). exists (hd 0 t =? 0). split; [done|]. rewrite here_end.
        destruct t as [|x t]; [done|]. destruct (cstr_next _ _ _ Ht) as (_ & _ & Hx). cbn. destruct (Z.eqb_spec x 0); done.
      * eapply decides_iff; [apply (text_step _ text t (fitsb c) (here ([], false)) Ht); intros x t' ->|].
        -- destruct (cstr_next _ _ _ Ht) as (E2 & Ht' & _). rewrite E2. apply (IH (re + 1) (text + 1) [] t'); try done. cbn in *. lia.
        -- rewrite here_one. split; intros (x & t' & -> & H1 & H2); exists x, t'; by rewrite fitsb_spec in *.
    + rewrite parse_two. destruct (Z.eqb_spec d 42) as [->|Hd].
      * destruct (cstr_next2 _ _ _ _ Hr) as [E2 Hr2]. rewrite E2. destruct (parse r) as [its e] eqn:Ep.
        pose proof (proj2 (IH (re + 2) text r t Hr2 Ht)) as H. rewrite Ep in H. apply H. cbn in *. lia.
      * destruct (cstr_next _ _ _ Hr1) as (_ & _ & Hd0). destruct (Z.eqb_spec d 0); [done|]. rewrite andb_false_r.
        destruct (parse (d :: r)) as [its e] eqn:Ep. 
        eapply decides_iff; [apply (text_step _ text t (fitsb c) (here (its, e)) Ht); intros x t' ->|].
        -- destruct (cstr_next _ _ _ Ht) as (E2 & Ht' & _). rewrite E2. rewrite <- Ep. apply (IH (re + 1) (text + 1) (d :: r) t'); try done. cbn in *. lia.
        -- rewrite here_one. split; intros (x & t' & -> & H1 & H2); exists x, t'; by rewrite fitsb_spec in *.
  - intros c. cbn [matchstar]. eapply decides_iff.
    + apply decides_or; [apply (IH re text r t Hr Ht); lia|]. intros _.
      apply (text_step (matchstar fuel c re (u64 (text + 1))) text t (fun x => (x =? c) || (c =? 46)) (here (Many c :: fst (parse r), snd (parse r))) Ht).
      intros x t' ->. destruct (cstr_next _ _ _ Ht) as (E2 & Ht' & _). rewrite E2. apply (IH re (text + 1) r t'); try done. cbn in *. lia.
    + rewrite here_many, <- surjective_pairing. split; (intros [?|(x & t' & -> & H1 & H2)]; [by left|right; exists x, t'; split; [done|]; split; [|done]]).
      * unfold fits. rewrite orb_true_iff, !Z.eqb_eq in H1. destruct H1 as [->| ->]; auto.
      * rewrite orb_true_iff, !Z.eqb_eq. destruct H1 as [->| ->]; auto.
Qed.
End Matcher.

(** [match_] on two strings. *)
Section Match.
Variable m : memory.
Hypothesis Hok : Lib.ram_ok m.

Lemma match_loop_ok re r fuel : Lib.cstr m re r -> forall n text t, Lib.cstr m text t -> (length t < n)%nat -> (length r + length t < fuel)%nat ->
  decides m (match_loop n fuel re text) (exists pre t', t = pre ++ t' /\ here (parse r) t').
Proof.
  intros Hr. induction n as [|n IH]; intros text t Ht Hn Hf; [lia|]. cbn [match_loop]. eapply decides_iff.
  - apply decides_or; [apply (matchers_ok m Hok fuel re text r t Hr Ht); lia|]. intros _.
    apply (text_any m Hok (match_loop n fuel re (u64 (text + 1))) text t (fun t => exists pre t', t = pre ++ t' /\ here (parse r) t') Ht).
    intros x t' ->. destruct (cstr_next m Hok _ _ _ Ht) as (E & Ht' & _). rewrite E. cbn [length] in *. apply IH; [done|lia..].
  - split.
    + intros [H|(x & t' & -> & pre & t'' & -> & H)]; [by exists [], t|by exists (x :: pre), t''].
    + intros ([|x pre] & t' & -> & H); [by left|]. right. exists x, (pre ++ t'). split; [done|]. by exists pre, t'.
Qed.

Lemma match_ok re text r t : Lib.cstr m re r -> Lib.cstr m text t -> decides m (match_ re text) (Matches r t).
Proof.
  intros Hr Ht. unfold match_. pose proof (Lib.fuel_enough _ _ _ Hr). pose proof (Lib.fuel_enough _ _ _ Ht).
  unfold decides, Lib.fuel_from. erewrite bind_Ok by reflexivity. erewrite bind_Ok by reflexivity.
  rewrite (bind_Ok _ _ _ _ _ (cstr_load _ _ _ Hr)). destruct r as [|c r]; cbn [hd Matches]; [by apply match_loop_ok; [..|lia|lia]|].
  destruct (Z.eqb_spec c 94) as [->|_]; [|by apply match_loop_ok; [..|lia|lia]].
  destruct (cstr_next m Hok _ _ _ Hr) as (E & Hr' & _). rewrite E. cbn [length] in *.
  by apply matchers_ok; [done..|lia].
Qed.
End Match.

(** C19 [match] decides the language of its pattern.  For any pattern and text in memory it
    returns, changes nothing, and the result is 1 exactly when a part of the text (its
    beginning, if [^] opens the pattern) splits into what the items of the pattern stand
    for, and is up to the end of the text if [$] closes the pattern. *)
Theorem match_spec m re text r t : Lib.ram_ok m -> Lib.cstr m re r -> Lib.cstr m text t ->
  exists b : bool, match_ re text m = Ok (if b then 1 else 0) m /\ (b = true <-> Matches r t).
Proof. intros Hok Hr Ht. by apply (match_ok m Hok). Qed.

(** [^a*.$] on [aab]. *)
Definition grep_mem : memory := mkMem 0 64 (list_to_map [(8, 94); (9, 97); (10, 42); (11, 46); (12, 36); (16, 97); (17, 97); (18, 98)]).

Lemma match_spec_witness : match_ 8 16 grep_mem = Ok 1 grep_mem /\ Matches [94; 97; 42; 46; 36] [97; 97; 98].
Proof.
  assert (match_ 8 16 grep_mem = Ok 1 grep_mem) as E by (vm_compute; reflexivity). split; [exact E|].
  destruct (match_spec grep_mem 8 16 [94; 97; 42; 46; 36] [97; 97; 98]) as (b & E' & H).
  - split; vm_compute; done.
  - repeat split; vm_compute; done.
  - repeat split; vm_compute; done.
  - apply H. rewrite E in E'. destruct b; [reflexivity|discriminate].
Defined.
