(* ===== verification/UMalloc.v ===== *)
(** The memory allocator of the user programs (umalloc.c), by Kernighan and Ritchie: a
    circular list of free blocks in the order of their addresses.

    A block begins with a header of 16 bytes: a pointer at offset 0 and the size of the
    block, in units of 16 bytes, at offset 8.  [base] is where the linker put the header of
    that name; the variable [freep] is [u_freep]. *)
From stdpp Require Import base gmap list numbers strings tactics.
From S2P Require Import Prelude Mem KBytes Ram UMachine.

Definition Header_size : Z := 16.

Section Malloc.
Context {W : Type} `{!Sys W}.
Variable base : Z.

Definition get_ptr (p : Z) : M (uproc W) Z := on_umem (load64 p).
Definition get_size (p : Z) : M (uproc W) Z := on_umem (load32 (u64 (p + 8))).
Definition set_ptr (p v : Z) : M (uproc W) unit := on_umem (store64 p v).
Definition set_size (p v : Z) : M (uproc W) unit := on_umem (store32 (u64 (p + 8)) v).
Definition set_freep (p : Z) : M (uproc W) unit := modify (set_u_freep p).

(** The list has no more nodes than memory has headers. *)
Definition list_fuel : M (uproc W) nat := let! u := get in ret (S (Z.to_nat (ram_hi (u_mem u) / 8))).

(** The node after which the block [bp] belongs. *)
Fixpoint free_loop (fuel : nat) (bp p : Z) : M (uproc W) Z :=
  match fuel with
  | O => spin
  | S fuel' =>
      let! next := get_ptr p in
      if (p <? bp) && (bp <? next) then ret p else
      if (next <=? p) && ((p <? bp) || (bp <? next)) then ret p else
      free_loop fuel' bp next
  end.

(** [bp] becomes the node behind [p], joined with its neighbours. *)
Definition insert_block (bp p : Z) : M (uproc W) unit :=
  let! bsize := get_size bp in
  let! next := get_ptr p in
  (if u64 (bp + Header_size * bsize) =? next then
     let! nsize := get_size next in
     set_size bp (u32 (bsize + nsize)) ;;
     let! next' := get_ptr next in
     set_ptr bp next'
   else set_ptr bp next) ;;
  let! psize := get_size p in
  (if u64 (p + Header_size * psize) =? bp then
     let! bsize' := get_size bp in
     set_size p (u32 (psize + bsize')) ;;
     let! next' := get_ptr bp in
     set_ptr p next'
   else set_ptr p bp) ;;
  set_freep p.

Definition free (ap : Z) : M (uproc W) unit :=
  let bp := u64 (ap - Header_size) in
  let! fuel := list_fuel in
  let! u := get in
  let! p := free_loop fuel bp (u_freep u) in
  insert_block bp p.

Definition morecore (nu : Z) : M (uproc W) Z :=
  let nu := if nu <? 4096 then 4096 else nu in
  let! p := sbrk (i32 (nu * Header_size)) in
  if p =? u64 (-1) then ret 0 else
  set_size p nu ;;
  free (u64 (p + Header_size)) ;;
  let! u := get in
  ret (u_freep u).

(** The block is taken out of the list, or its end is cut off. *)
Definition take_block (prevp p psize nunits : Z) : M (uproc W) Z :=
  let! q := (if psize =? nunits then let! next := get_ptr p in set_ptr prevp next ;; ret p
             else
               set_size p (u32 (psize - nunits)) ;;
               let! psize' := get_size p in
               let q := u64 (p + Header_size * psize') in
               set_size q nunits ;;
               ret q) in
  set_freep prevp ;;
  ret (u64 (q + Header_size)).

Fixpoint malloc_loop (fuel : nat) (prevp p nunits : Z) : M (uproc W) Z :=
  match fuel with
  | O => spin
  | S fuel' =>
      let! psize := get_size p in
      if nunits <=? psize then take_block prevp p psize nunits else
      let! u := get in
      if p =? u_freep u then
        let! p' := morecore nunits in
        if p' =? 0 then ret 0 else
        let! next := get_ptr p' in malloc_loop fuel' p' next nunits
      else let! next := get_ptr p in malloc_loop fuel' p next nunits
  end.

Definition malloc (nbytes : Z) : M (uproc W) Z :=
  let nunits := u32 ((u32 nbytes + Header_size - 1) / Header_size + 1) in
  let! u := get in
  let! prevp := (if u_freep u =? 0 then
                   set_freep base ;; set_ptr base base ;; set_size base 0 ;; ret base
                 else ret (u_freep u)) in
  let! p := get_ptr prevp in
  let! fuel := list_fuel in
  malloc_loop (2 * fuel + 2) prevp p nunits.
End Malloc.
