(* ===== verification/UMallocProofs.v ===== *)
(** The allocator of the user programs keeps its blocks apart: [malloc_spec], [free_spec].

    A heap is the list [fl] of free blocks, in order, and the map [live] of the blocks the
    program holds, from address to size; [heap] says how they lie in memory. *)
From stdpp Require Import base gmap list numbers sorting strings tactics.
From S2P Require Import Prelude Mem KBytes Ram UMachine UMalloc.

Notation block := (Z * Z)%type.

(** * Nodes in memory *)

(** The address that follows: that of the first node, or [last]. *)
Definition hd_addr (l : list block) (last : Z) : Z := match l with [] => last | y :: _ => fst y end.

(** Nodes that are linked to each other, the last one to [last]. *)
Fixpoint links (m : memory) (l : list block) (last : Z) : Prop :=
  match l with
  | [] => True
  | x :: l' => rd 8 m (fst x) = hd_addr l' last /\ rd 4 m (fst x + 8) = snd x /\ links m l' last
  end.

Lemma hd_addr_app l1 l2 last : hd_addr (l1 ++ l2) last = hd_addr l1 (hd_addr l2 last).
Proof. by destruct l1. Qed.

Lemma links_app m l1 l2 last : links m (l1 ++ l2) last <-> links m l1 (hd_addr l2 last) /\ links m l2 last.
Proof. induction l1 as [|x l1 IH]; cbn; [tauto|]. rewrite hd_addr_app, IH. tauto. Qed.

(** [m'] holds the same header as [m] at [a]. *)
Definition same_header (m m' : memory) (a : Z) : Prop := forall b, a <= b < a + 16 -> peek m' b = peek m b.

Lemma header_ptr m m' a : same_header m m' a -> rd 8 m' a = rd 8 m a.
Proof. intros H. apply rd_ext. intros b Hb. apply H. lia. Qed.
Lemma header_size m m' a : same_header m m' a -> rd 4 m' (a + 8) = rd 4 m (a + 8).
Proof. intros H. apply rd_ext. intros b Hb. apply H. lia. Qed.

Lemma links_frame m m' l last : (forall x, x ∈ l -> same_header m m' (fst x)) -> links m l last -> links m' l last.
Proof.
  induction l as [|x l IH]; intros H; cbn [links]; [done|]. intros (H1 & H2 & H3).
  rewrite (header_ptr m m'), (header_size m m') by (apply H; by left). split; [done|]. split; [done|]. apply IH; [|done].
  intros y Hy. apply H. by right.
Qed.

(** Blocks in the order of their addresses that do not touch. *)
Definition before (x y : block) : Prop := fst x + 16 * snd x < fst y /\ fst x + 16 <= fst y.
Definition apart (x y : block) : Prop := fst x + 16 * snd x <= fst y \/ fst y + 16 * snd y <= fst x.

(** An address where a header fits. *)
Definition header_at (m : memory) (p : Z) : Prop := 0 < p < 2 ^ 32 /\ in_ram m p 16 = true.

Section Proofs.
Context {W : Type} `{!Sys W}.
Implicit Types u : uproc W.

Lemma get_ptr_ok p u : header_at (u_mem u) p -> get_ptr p u = Ok (rd 8 (u_mem u) p) u.
Proof.
  intros [_ Hp]. apply on_umem_pure. unfold load, bind, get. rewrite (in_ram_sub _ p 16) by (done || lia). done.
Qed.
Lemma set_ptr_ok p v u : header_at (u_mem u) p -> set_ptr p v u = Ok tt (set_u_mem (wr 8 p v (u_mem u)) u).
Proof.
  intros [_ Hp]. apply on_umem_Ok. unfold store, bind, get, put. rewrite (in_ram_sub _ p 16) by (done || lia). done.
Qed.
Lemma get_size_ok p u : header_at (u_mem u) p -> get_size p u = Ok (rd 4 (u_mem u) (p + 8)) u.
Proof.
  intros [Hr Hp]. unfold get_size. rewrite u64_small by (unfold is_u64; lia). apply on_umem_pure. unfold load, bind, get.
  rewrite (in_ram_sub _ p 16) by (done || lia). done.
Qed.
Lemma set_size_ok p v u : header_at (u_mem u) p -> set_size p v u = Ok tt (set_u_mem (wr 4 (p + 8) v (u_mem u)) u).
Proof.
  intros [Hr Hp]. unfold set_size. rewrite u64_small by (unfold is_u64; lia). apply on_umem_Ok. unfold store, bind, get, put.
  rewrite (in_ram_sub _ p 16) by (done || lia). done.
Qed.

Lemma header_at_wr m p n a v : header_at m p -> header_at (wr n a v m) p.
Proof. intros [? ?]. split; [done|]. by rewrite in_ram_wr. Qed.
Lemma header_at_same m m' p : ram_lo m' = ram_lo m -> ram_hi m' = ram_hi m -> header_at m p -> header_at m' p.
Proof. intros E1 E2 [? ?]. split; [done|]. unfold in_ram in *. by rewrite E1, E2. Qed.

(** * Where a block belongs *)

Lemma free_loop_S fuel bp p : free_loop (W := W) (S fuel) bp p =
  (let! next := get_ptr p in
   if (p <? bp) && (bp <? next) then ret p else
   if (next <=? p) && ((p <? bp) || (bp <? next)) then ret p else free_loop fuel bp next).
Proof. done. Qed.

Section Find.
Variables (base bp : Z) (u : uproc W).
Hypothesis Hbase : base < bp.
Notation m := (u_mem u).

Lemma walk_up l : forall x fuel, links m (x :: l) base -> StronglySorted before (x :: l) -> (forall y, y ∈ x :: l -> header_at m (fst y) /\ fst y <> bp /\ base <= fst y) ->
  fst x < bp -> (length l < fuel)%nat ->
  exists l1 p l2, x :: l = l1 ++ p :: l2 /\ free_loop fuel bp (fst x) u = Ok (fst p) u /\ fst p < bp /\ (l2 = [] \/ bp < hd_addr l2 base).
Proof.
  induction l as [|y l IH]; intros x [|fuel] (L1 & L2 & L3) Hs Hh Hx Hf; cbn [length] in Hf; try lia; cbn [free_loop];
    destruct (Hh x ltac:(by left)) as (Hx1 & Hx2 & Hx3); rewrite (bind_Ok _ _ _ _ _ (get_ptr_ok _ _ Hx1)), L1; cbn [hd_addr].
  - exists [], x, []. split; [done|]. split; [|by split; [|left]]. destruct (Z.ltb_spec bp base); [lia|]. rewrite andb_false_r.
    destruct (Z.leb_spec base (fst x)), (Z.ltb_spec (fst x) bp); try lia. done.
  - inversion Hs as [|? ? Hs' HF]; subst. apply list.Forall_cons in HF as [[_ Hy] _]. destruct (Hh y ltac:(right; by left)) as (_ & Hy2 & _).
    destruct (Z.ltb_spec (fst x) bp); [|lia]. destruct (Z.ltb_spec bp (fst y)); cbn [andb].
    + exists [], x, (y :: l). split; [done|]. split; [done|]. split; [done|by right].
    + destruct (Z.leb_spec (fst y) (fst x)); [lia|]. cbn [andb]. destruct (IH y fuel) as (l1 & p & l2 & E & H'); [done|done| |lia|lia|].
      { intros z Hz. apply Hh. by right. }
      exists (x :: l1), p, l2. split; [by rewrite E|done].
Qed.

Lemma walk_down l : forall x fuel, links m (x :: l) base -> StronglySorted before (x :: l) -> (forall y, y ∈ x :: l -> header_at m (fst y) /\ base <= fst y) ->
  bp < fst x -> free_loop (S (length l) + fuel) bp (fst x) u = free_loop fuel bp base u.
Proof.
  induction l as [|y l IH]; intros x fuel (L1 & L2 & L3) Hs Hh Hx; cbn [length Nat.add]; rewrite free_loop_S;
    destruct (Hh x ltac:(by left)) as (Hx1 & Hx3); rewrite (bind_Ok _ _ _ _ _ (get_ptr_ok _ _ Hx1)), L1; cbn [hd_addr].
  - destruct (Z.ltb_spec (fst x) bp); [lia|]. destruct (Z.ltb_spec bp base); [lia|]. cbn [andb orb]. by rewrite andb_false_r.
  - inversion Hs as [|? ? Hs' HF]; subst. apply list.Forall_cons in HF as [[_ Hy] _].
    destruct (Z.ltb_spec (fst x) bp); [lia|]. cbn [andb orb]. destruct (Z.leb_spec (fst y) (fst x)); [lia|]. cbn [andb].
    apply IH; [done|done| |lia]. intros z Hz. apply Hh. by right.
Qed.

Lemma free_loop_ok fl f fuel : let ring := (base, 0) :: fl in
  links m ring base -> StronglySorted before ring -> (forall y, y ∈ ring -> header_at m (fst y) /\ fst y <> bp /\ base <= fst y) ->
  f ∈ map fst ring -> (2 * length ring <= fuel)%nat ->
  exists l1 p l2, ring = l1 ++ p :: l2 /\ free_loop fuel bp f u = Ok (fst p) u /\ fst p < bp /\ (l2 = [] \/ bp < hd_addr l2 base).
Proof.
  intros ring L Ss Hh Hf Hn. apply list_elem_of_fmap in Hf as (x & -> & Hx). apply list_elem_of_split in Hx as (r1 & r2 & E).
  rewrite E in L, Ss, Hn. apply links_app in L as L'. destruct L' as [_ L2]. apply StronglySorted_app in Ss as S2; destruct S2 as (_ & _ & S2).
  rewrite length_app in Hn. cbn [length] in Hn. destruct (Z.lt_total (fst x) bp) as [Hlt|[Heq|Hgt]].
  - destruct (walk_up r2 x fuel L2 S2) as (l1 & p & l2 & E2 & H'); [|done|lia|].
    { intros y Hy. apply Hh. rewrite E. apply elem_of_app. by right. }
    exists (r1 ++ l1), p, l2. split; [by rewrite E, E2, <- app_assoc|done].
  - exfalso. destruct (Hh x) as (_ & Hne & _); [|by apply Hne]. rewrite E. apply elem_of_app. right. by left.
  - replace fuel with (S (length r2) + (fuel - S (length r2)))%nat by lia. rewrite (walk_down r2 x _ L2 S2); [| |done].
    2:{ intros y Hy. split; apply Hh; rewrite E; apply elem_of_app; by right. }
    rewrite <- E in L. apply (walk_up fl (base, 0)); [done| |done|done|].
    + fold ring. by rewrite E.
    + assert (length ring = length (r1 ++ x :: r2)) as El by by rewrite E. rewrite length_app in El. cbn [length] in El. unfold ring in El. cbn in El. lia.
Qed.
End Find.

(** * Insertion *)

(** The block [(bp, bs)], joined with the first of the nodes behind it if it touches it. *)
Definition join_right (bp bs : Z) (r : list block) : Z * list block :=
  match r with
  | x :: t => if bp + 16 * bs =? fst x then (bs + snd x, t) else (bs, r)
  | [] => (bs, [])
  end.
(** The node [p], and the block behind it, joined if they touch. *)
Definition join (p : block) (bp bs : Z) (r : list block) : list block :=
  let j := join_right bp bs r in
  if fst p + 16 * snd p =? bp then (fst p, snd p + fst j) :: snd j else p :: (bp, fst j) :: snd j.

(** Only the headers at [p] and [q] have changed. *)
Record headers_only (p q : Z) (m m' : memory) : Prop := {
  ho_lo : ram_lo m' = ram_lo m;
  ho_hi : ram_hi m' = ram_hi m;
  ho_old : forall b, ~ (p <= b < p + 16) -> ~ (q <= b < q + 16) -> peek m' b = peek m b
}.

Lemma headers_only_wr p q m m' n a v : headers_only p q m m' -> (p <= a /\ a + Z.of_nat n <= p + 16) \/ (q <= a /\ a + Z.of_nat n <= q + 16) ->
  headers_only p q m (wr n a v m').
Proof.
  intros [E1 E2 P] Ha. destruct (wr_bounds n a v m'). split; [congruence..|]. intros b H1 H2. rewrite peek_wr_other by lia. by apply P.
Qed.
Lemma headers_only_refl p q m : headers_only p q m m.
Proof. by split. Qed.
Lemma headers_only_header p q m m' a : headers_only p q m m' -> a + 16 <= p \/ p + 16 <= a -> a + 16 <= q \/ q + 16 <= a -> same_header m m' a.
Proof. intros [_ _ P] H1 H2 b Hb. apply P; lia. Qed.

(** Reads of a header after writes to it or to another one. *)
Ltac fields := repeat first [rewrite rd_wr_same | rewrite rd_wr_other by lia];
  rewrite ?(Z.mod_small _ (2 ^ (8 * Z.of_nat 4))) by (change (2 ^ (8 * Z.of_nat 4)) with (2 ^ 32); lia);
  rewrite ?(Z.mod_small _ (2 ^ (8 * Z.of_nat 8))) by (change (2 ^ (8 * Z.of_nat 8)) with (2 ^ 64); lia).

Section Insert.
Variables (base : Z) (p : block) (bp bs : Z) (r : list block).
Hypothesis Hbase : 0 < base < bp.
Hypothesis Hp : fst p + 16 <= bp /\ fst p + 16 * snd p <= bp /\ 0 <= snd p < 2 ^ 28.
Hypothesis Hbp : 1 <= bs < 2 ^ 28.
Hypothesis Hr : forall y, y ∈ r -> bp + 16 * bs <= fst y < 2 ^ 32 /\ 0 <= snd y < 2 ^ 28.

Lemma join_right_range : bs <= fst (join_right bp bs r) < 2 ^ 29 /\ forall y, y ∈ snd (join_right bp bs r) -> y ∈ r.
Proof.
  unfold join_right. destruct r as [|x t] eqn:E; cbn; [split; [lia|done]|]. destruct (Z.eqb_spec (bp + 16 * bs) (fst x)); cbn; [|split; [lia|done]].
  destruct (Hr x) as [_ ?]; [by left|]. split; [lia|]. intros y Hy. by right.
Qed.

(** The first half of [insert_block]: the block takes in its right neighbour. *)
Lemma right_half u : links (u_mem u) (p :: r) base -> header_at (u_mem u) (fst p) -> header_at (u_mem u) bp ->
  (forall y, y ∈ r -> header_at (u_mem u) (fst y)) -> rd 4 (u_mem u) (bp + 8) = bs ->
  let j := join_right bp bs r in
  exists m1, headers_only bp bp (u_mem u) m1 /\ rd 8 m1 bp = hd_addr (snd j) base /\ rd 4 m1 (bp + 8) = fst j /\
    (if u64 (bp + Header_size * bs) =? hd_addr r base then
       let! nsize := get_size (hd_addr r base) in
       set_size bp (u32 (bs + nsize)) ;;
       let! next' := get_ptr (hd_addr r base) in
       set_ptr bp next'
     else set_ptr bp (hd_addr r base)) u = Ok tt (set_u_mem m1 u).
Proof.
  intros (L1 & L2 & L3) Hh1 Hh2 Hh3 Hb j. pose proof Hh2 as [Hrng _]. unfold Header_size.
  rewrite u64_small by (unfold is_u64; lia). unfold j, join_right. destruct r as [|x t] eqn:E; cbn [hd_addr].
  - destruct (Z.eqb_spec (bp + 16 * bs) base); [lia|]. rewrite set_ptr_ok by done. eexists. split; [|split; [|split; [|reflexivity]]].
    + apply headers_only_wr; [apply headers_only_refl|lia].
    + cbn [snd hd_addr]. by fields.
    + cbn [fst]. by fields.
  - destruct (Hr x) as [Hx1 Hx2]; [by left|]. destruct (Z.eqb_spec (bp + 16 * bs) (fst x)) as [Ex|Ex].
    + destruct L3 as (L3 & L4 & _). pose proof (Hh3 x ltac:(by left)) as Hhx.
      rewrite (bind_Ok _ _ _ _ _ (get_size_ok _ _ Hhx)), L4, u32_small by (unfold is_u32; lia).
      rewrite (bind_Ok _ _ _ _ _ (set_size_ok _ _ _ Hh2)). set (m1 := wr 4 (bp + 8) (bs + snd x) (u_mem u)).
      rewrite (bind_Ok _ _ _ _ _ (get_ptr_ok _ (set_u_mem m1 u) (header_at_wr _ _ _ _ _ Hhx))). rewrite ?set_u_mem_set, ?u_mem_set.
      rewrite set_ptr_ok by by apply header_at_wr. eexists. split; [|split; [|split; [|reflexivity]]].
      * do 2 (apply headers_only_wr; [|lia]). apply headers_only_refl.
      * unfold m1. cbn [snd]. rewrite ?u_mem_set. rewrite rd_wr_same, rd_wr_other by lia. rewrite L3. apply Z.mod_small.
        change (2 ^ (8 * Z.of_nat 8)) with (2 ^ 64). destruct t as [|y t]; cbn [hd_addr]; [lia|].
        destruct (Hr y) as [Hy _]; [right; by left|]. lia.
      * unfold m1. cbn [fst]. rewrite ?u_mem_set. by fields.
    + rewrite set_ptr_ok by done. eexists. split; [|split; [|split; [|reflexivity]]].
      * apply headers_only_wr; [apply headers_only_refl|lia].
      * cbn [snd hd_addr]. by fields.
      * cbn [fst]. by fields.
Qed.

Lemma insert_ok u : links (u_mem u) (p :: r) base -> header_at (u_mem u) (fst p) -> header_at (u_mem u) bp ->
  (forall y, y ∈ r -> header_at (u_mem u) (fst y)) -> rd 4 (u_mem u) (bp + 8) = bs ->
  exists m', insert_block bp (fst p) u = Ok tt (set_u_freep (fst p) (set_u_mem m' u)) /\ headers_only (fst p) bp (u_mem u) m' /\
    links m' (join p bp bs r) base.
Proof.
  intros L Hh1 Hh2 Hh3 Hb. destruct (right_half u L Hh1 Hh2 Hh3 Hb) as (m1 & C1 & B1 & B2 & E1). destruct L as (L1 & L2 & L3).
  unfold insert_block. rewrite (bind_Ok _ _ _ _ _ (get_size_ok _ _ Hh2)), Hb, (bind_Ok _ _ _ _ _ (get_ptr_ok _ _ Hh1)), L1.
  rewrite (bind_Ok _ _ _ _ _ E1). clear E1. destruct join_right_range as [J1 J2]. set (j := join_right bp bs r) in *.
  pose proof (header_at_same _ m1 _ (ho_lo _ _ _ _ C1) (ho_hi _ _ _ _ C1) Hh1) as Hp1.
  pose proof (header_at_same _ m1 _ (ho_lo _ _ _ _ C1) (ho_hi _ _ _ _ C1) Hh2) as Hb1.
  rewrite (bind_Ok _ _ _ _ _ (get_size_ok _ (set_u_mem m1 u) Hp1)). rewrite ?set_u_mem_set, ?u_mem_set.
  pose proof (headers_only_header _ _ _ _ (fst p) C1 ltac:(lia) ltac:(lia)) as Sp. rewrite (header_size _ _ _ Sp), L2.
  pose proof Hh2 as [Hrng _]. pose proof Hh1 as [Hrp _].
  assert (headers_only (fst p) bp (u_mem u) m1) as C1' by (destruct C1; split; auto).
  assert (forall m', headers_only (fst p) bp (u_mem u) m' -> links m' (snd j) base) as Lt.
  { intros m' C. apply (links_frame (u_mem u)).
    - intros y Hy%J2. destruct (Hr y Hy) as [? _]. apply (headers_only_header _ _ _ _ _ C); lia.
    - unfold j, join_right in *. destruct r as [|x t]; [done|]. destruct (_ =? _); [apply L3|done]. }
  unfold Header_size, join. fold j. rewrite u64_small by (unfold is_u64; lia). destruct (Z.eqb_spec (fst p + 16 * snd p) bp) as [Ep|Ep].
  - rewrite (bind_Ok _ _ tt (set_u_mem m1 u) (set_u_mem (wr 8 (fst p) (hd_addr (snd j) base) (wr 4 (fst p + 8) (snd p + fst j) m1)) u)).
    + eexists. split; [reflexivity|]. assert (headers_only (fst p) bp (u_mem u) (wr 8 (fst p) (hd_addr (snd j) base) (wr 4 (fst p + 8) (snd p + fst j) m1))) as C.
      { do 2 (apply headers_only_wr; [|lia]). done. }
      split; [done|]. cbn [links fst snd]. split; [|split; [by fields|by apply Lt]]. rewrite rd_wr_same. apply Z.mod_small.
      change (2 ^ (8 * Z.of_nat 8)) with (2 ^ 64). destruct (snd j) as [|y t] eqn:Ej; cbn [hd_addr]; [lia|].
      destruct (Hr y) as [? _]; [apply J2; by left|]. lia.
    + rewrite (bind_Ok _ _ _ _ _ (get_size_ok _ (set_u_mem m1 u) Hb1)). rewrite ?set_u_mem_set, ?u_mem_set. rewrite B2, u32_small by (unfold is_u32; lia).
      rewrite (bind_Ok _ _ _ _ _ (set_size_ok _ _ (set_u_mem m1 u) Hp1)). rewrite ?set_u_mem_set, ?u_mem_set.
      rewrite (bind_Ok _ _ _ _ _ (get_ptr_ok _ (set_u_mem _ u) (header_at_wr _ _ _ _ _ Hb1))). rewrite ?set_u_mem_set, ?u_mem_set.
      rewrite rd_wr_other, B1 by lia. by rewrite set_ptr_ok by by apply header_at_wr.
  - rewrite (bind_Ok _ _ tt (set_u_mem m1 u) (set_u_mem (wr 8 (fst p) bp m1) u)) by by rewrite set_ptr_ok.
    eexists. split; [reflexivity|]. assert (headers_only (fst p) bp (u_mem u) (wr 8 (fst p) bp m1)) as C by (apply headers_only_wr; [done|lia]).
    split; [done|]. cbn [links fst snd hd_addr]. split; [by fields|]. split; [rewrite rd_wr_other by lia; by rewrite (header_size _ _ _ Sp)|].
    split; [by rewrite rd_wr_other by lia|]. split; [by rewrite rd_wr_other by lia|by apply Lt].
Qed.
End Insert.

(** * The layout of a heap *)

Definition covers (x : block) (b : Z) : Prop := fst x <= b < fst x + 16 * snd x.
Definition owned (l : list block) (b : Z) : Prop := exists x, x ∈ l /\ covers x b.

Definition blk (h0 hi : Z) (x : block) : Prop := 1 <= snd x /\ h0 <= fst x /\ fst x + 16 * snd x <= hi /\ fst x mod 16 = 0.

(** Free blocks in order, live blocks anywhere; no byte is in two blocks, and every byte
    between [h0] and [hi] is in one. *)
Record layout (base h0 hi : Z) (fl : list block) (live : gmap Z Z) : Prop := {
  ly_sorted : StronglySorted before ((base, 0) :: fl);
  ly_free : forall x, x ∈ fl -> blk h0 hi x;
  ly_live : forall a s, live !! a = Some s -> blk h0 hi (a, s);
  ly_apart : forall a s b, live !! a = Some s -> covers (a, s) b -> ~ owned fl b;
  ly_apart2 : forall a s a' s' b, live !! a = Some s -> live !! a' = Some s' -> covers (a, s) b -> covers (a', s') b -> a = a';
  ly_cover : forall b, h0 <= b < hi -> owned fl b \/ exists a s, live !! a = Some s /\ covers (a, s) b
}.

Lemma owned_cons x l b : owned (x :: l) b <-> covers x b \/ owned l b.
Proof.
  split.
  - intros (y & Hy & Hb). apply elem_of_cons in Hy as [->|Hy]; [by left|right; by exists y].
  - intros [Hb|(y & Hy & Hb)]; [exists x|exists y]; (split; [|done]); [by left|by right].
Qed.
Lemma owned_base a l b : owned ((a, 0) :: l) b <-> owned l b.
Proof. rewrite owned_cons. unfold covers. cbn [fst snd]. split; [intros [?|?]; [lia|done]|by right]. Qed.
Lemma owned_app l1 l2 b : owned (l1 ++ l2) b <-> owned l1 b \/ owned l2 b.
Proof. induction l1 as [|x l1 IH]; cbn [app]; [|rewrite !owned_cons, IH; tauto]. split; [by right|]. intros [(y & Hy & _)|?]; [|done]. by apply elem_of_nil in Hy. Qed.

Section Join.
Variables (h0 hi base : Z) (p : block) (bp bs : Z) (r : list block).
Hypothesis Hp : p = (base, 0) \/ blk h0 hi p.
Hypothesis Hpb : fst p + 16 * snd p <= bp /\ fst p + 16 <= bp.
Hypothesis Hb : blk h0 hi (bp, bs).
Hypothesis Hr : forall y, y ∈ r -> blk h0 hi y /\ bp + 16 * bs <= fst y.
Hypothesis Hs : StronglySorted before (p :: r).

(** The joined blocks cover the same bytes. *)
Lemma join_right_owned b : covers (bp, fst (join_right bp bs r)) b \/ owned (snd (join_right bp bs r)) b <-> covers (bp, bs) b \/ owned r b.
Proof.
  unfold join_right. destruct r as [|x t]; [done|]. destruct (Z.eqb_spec (bp + 16 * bs) (fst x)); cbn [fst snd]; [|done].
  destruct (Hr x) as [(? & _) _]; [by left|]. destruct Hb as (? & _). rewrite owned_cons. unfold covers. cbn [fst snd] in *.
  destruct (Z.lt_ge_cases b (fst x)); intuition lia.
Qed.

Lemma join_owned b : owned (join p bp bs r) b <-> covers p b \/ covers (bp, bs) b \/ owned r b.
Proof.
  rewrite <- join_right_owned. unfold join. set (j := join_right bp bs r).
  assert (bs <= fst j) as Hj.
  { unfold j, join_right. destruct r as [|x t]; [cbn; lia|]. destruct (Hr x) as [(? & _) _]; [by left|]. destruct (_ =? _); cbn; lia. }
  destruct Hb as (Hbs & _). cbn [snd] in Hbs. destruct (Z.eqb_spec (fst p + 16 * snd p) bp) as [E|E]; rewrite !owned_cons; [|done].
  unfold covers. cbn [fst snd]. destruct Hp as [->|(? & _)]; cbn [fst snd] in *; [lia|]. destruct (Z.lt_ge_cases b bp); intuition lia.
Qed.

Lemma join_right_sorted : let j := join_right bp bs r in
  StronglySorted before ((bp, fst j) :: snd j) /\ blk h0 hi (bp, fst j) /\ forall y, y ∈ snd j -> y ∈ r.
Proof.
  apply StronglySorted_inv in Hs as [Hs2 _]. unfold join_right. destruct r as [|x t]; cbn [fst snd]; [split; [by repeat constructor|done]|].
  apply StronglySorted_inv in Hs2 as Hs3. destruct Hs3 as [Hs3 Hx]. destruct (Hr x) as [(X1 & X2 & X3 & X4) X5]; [by left|]. destruct Hb as (B1 & B2 & B3 & B4).
  cbn [fst snd] in *. rewrite list.Forall_forall in Hx. destruct (Z.eqb_spec (bp + 16 * bs) (fst x)) as [E|E]; cbn [fst snd].
  - split; [|split; [unfold blk; cbn [fst snd]; lia|by right]]. constructor; [done|]. apply list.Forall_forall. intros y Hy.
    apply Hx in Hy. unfold before in *. cbn [fst snd]. lia.
  - split; [|split; [done|done]]. constructor; [done|]. apply list.Forall_forall. intros y Hy. apply elem_of_cons in Hy as [->|Hy].
    + unfold before. cbn [fst snd]. lia.
    + apply Hx in Hy. unfold before in *. cbn [fst snd]. lia.
Qed.

Lemma join_sorted : StronglySorted before (join p bp bs r) /\ (exists s t, join p bp bs r = (fst p, s) :: t /\ (p = (base, 0) -> s = 0)) /\
  forall y, y ∈ join p bp bs r -> y = p \/ (blk h0 hi y /\ fst p <= fst y).
Proof.
  pose proof (proj1 Hb) as Hbs. destruct join_right_sorted as (S1 & S2 & S3). unfold join. set (j := join_right bp bs r) in *. destruct S2 as (B1 & B2 & B3 & B4). cbn [fst snd] in *.
  apply StronglySorted_inv in S1 as S1'. destruct S1' as [S4 S5]. rewrite list.Forall_forall in S5.
  destruct (Z.eqb_spec (fst p + 16 * snd p) bp) as [E|E].
  - split; [|split].
    + constructor; [done|]. apply list.Forall_forall. intros y Hy. apply S5 in Hy. unfold before in *. cbn [fst snd] in *. lia.
    + eexists _, _. split; [reflexivity|]. intros ->. cbn [fst snd] in *. lia.
    + intros y Hy. right. apply elem_of_cons in Hy as [->|Hy].
      * destruct Hp as [->|(? & ? & ? & ?)]; cbn [fst snd] in *; [lia|]. unfold blk. cbn [fst snd]. lia.
      * destruct (Hr y (S3 _ Hy)). split; [done|lia].
  - split; [|split].
    + constructor; [done|]. apply list.Forall_forall. intros y Hy. apply elem_of_cons in Hy as [->|Hy]; [unfold before; cbn [fst snd]; lia|].
      apply S5 in Hy. unfold before in *. cbn [fst snd] in *. lia.
    + exists (snd p), ((bp, fst j) :: snd j). split; [by destruct p|by intros ->].
    + intros y Hy. apply elem_of_cons in Hy as [->|Hy]; [by left|]. right. apply elem_of_cons in Hy as [->|Hy]; [split; [done|cbn; lia]|].
      destruct (Hr y (S3 _ Hy)). split; [done|lia].
Qed.
End Join.

Section Layout.
Variables (base h0 hi : Z) (fl : list block) (live : gmap Z Z).
Hypothesis Hbase : base + 16 <= h0.
Hypothesis Hly : layout base h0 hi fl live.

Lemma node_cases x : x ∈ (base, 0) :: fl -> x = (base, 0) \/ blk h0 hi x.
Proof. intros Hx. apply elem_of_cons in Hx as [->|Hx]; [by left|right]. by apply (ly_free _ _ _ _ _ Hly). Qed.

Lemma live_apart a s y : live !! a = Some s -> y ∈ (base, 0) :: fl -> y = (base, 0) \/ apart y (a, s).
Proof.
  intros Ha Hy. pose proof (ly_live _ _ _ _ _ Hly a s Ha) as (A1 & A2 & _). cbn [fst snd] in *. apply elem_of_cons in Hy as [->|Hy]; [by left|].
  pose proof (ly_free _ _ _ _ _ Hly y Hy) as (Y1 & _). right. unfold apart. cbn [fst snd].
  pose proof (ly_apart _ _ _ _ _ Hly a s (Z.max a (fst y)) Ha) as Hno. unfold covers in Hno. cbn [fst snd] in Hno.
  destruct (Z.le_gt_cases (fst y + 16 * snd y) a); [by left|]. destruct (Z.le_gt_cases (a + 16 * s) (fst y)); [by right|].
  exfalso. apply Hno; [lia|]. exists y. split; [done|]. unfold covers. lia.
Qed.

Section Place.
Variables (bp bs : Z) (l1 l2 : list block) (p : block).
Hypothesis Hlive : live !! bp = Some bs.
Hypothesis Hsplit : (base, 0) :: fl = l1 ++ p :: l2.
Hypothesis Hlt : fst p < bp.
Hypothesis Hnext : l2 = [] \/ bp < hd_addr l2 base.

Lemma place_node y : y ∈ l1 ++ p :: l2 -> y ∈ (base, 0) :: fl.
Proof. by rewrite Hsplit. Qed.

Lemma place_ring : StronglySorted before (p :: l2) /\ (forall y, y ∈ l1 -> before y p) /\ StronglySorted before l1.
Proof.
  pose proof (ly_sorted _ _ _ _ _ Hly) as Ss. rewrite Hsplit in Ss. apply StronglySorted_app in Ss as (S1 & S2 & S3).
  split; [done|]. split; [|done]. intros y Hy. apply S1; [done|by left].
Qed.

Lemma place_left : (p = (base, 0) \/ blk h0 hi p) /\ fst p + 16 * snd p <= bp /\ fst p + 16 <= bp.
Proof.
  assert (p ∈ (base, 0) :: fl) as Hp by (apply place_node, elem_of_app; right; by left).
  pose proof (ly_live _ _ _ _ _ Hly bp bs Hlive) as (B1 & B2 & _). cbn [fst snd] in *. split; [by apply node_cases|].
  destruct (node_cases p Hp) as [->|(P1 & _)]; cbn [fst snd]; [lia|]. destruct (live_apart bp bs p Hlive Hp) as [->|[A|A]]; cbn [fst snd] in *; lia.
Qed.

Lemma place_right y : y ∈ l2 -> blk h0 hi y /\ bp + 16 * bs <= fst y.
Proof.
  intros Hy. assert (y ∈ (base, 0) :: fl) as Hy' by (apply place_node, elem_of_app; right; by right).
  destruct place_ring as (S1 & _). apply StronglySorted_inv in S1 as [S2 S3]. rewrite list.Forall_forall in S3. pose proof (S3 y Hy) as [_ Hpy].
  assert (base <= fst p) as Hbp.
  { destruct place_left as [[->|(_ & ? & _)] _]; cbn; lia. }
  destruct (node_cases y Hy') as [->|Hb]; [cbn in *; lia|]. split; [done|].
  assert (bp < fst y) as Hbpy.
  { destruct Hnext as [->|Hn]; [by apply elem_of_nil in Hy|]. destruct l2 as [|x t]; [by apply elem_of_nil in Hy|]. cbn in Hn.
    apply elem_of_cons in Hy as [->|Hy]; [done|]. apply StronglySorted_inv in S2 as [_ S4]. rewrite list.Forall_forall in S4.
    apply S4 in Hy. unfold before in Hy. lia. }
  destruct Hb as (Y1 & Y2 & _). destruct (live_apart bp bs y Hlive Hy') as [->|[A|A]]; cbn [fst snd] in *; lia.
Qed.

Lemma layout_free : exists fl', l1 ++ join p bp bs l2 = (base, 0) :: fl' /\ layout base h0 hi fl' (delete bp live).
Proof.
  destruct place_ring as (S1 & S2 & S3), place_left as (P1 & P2 & P3). pose proof (ly_live _ _ _ _ _ Hly bp bs Hlive) as B.
  destruct (join_sorted h0 hi base p bp bs l2 P1 (conj P2 P3) B place_right S1) as (J1 & (s & t & J2 & J3) & J4).
  assert (exists fl', l1 ++ join p bp bs l2 = (base, 0) :: fl') as [fl' E].
  { destruct l1 as [|x l1']; cbn [app] in *; [|injection Hsplit as <- _; by eexists]. injection Hsplit as <- _. rewrite J2, J3 by done. by eexists. }
  exists fl'. split; [done|].
  assert (forall b, owned fl' b <-> owned fl b \/ covers (bp, bs) b) as Ho.
  { intros b. assert (owned ((base, 0) :: fl') b <-> owned ((base, 0) :: fl) b \/ covers (bp, bs) b) as H0.
    { pose proof (join_owned h0 hi base p bp bs l2 P1 (conj P2 P3) B place_right S1 b) as J. rewrite <- E, Hsplit, !owned_app, J, owned_cons. tauto. }
    by rewrite !owned_base in H0. }
  assert (StronglySorted before ((base, 0) :: fl')) as Ss.
  { rewrite <- E. apply StronglySorted_app. split; [|done]. intros x1 x2 H1 H2. destruct (S2 x1 H1) as [A1 A2].
    apply J4 in H2 as [->|[_ Hge]]; [done|unfold before; lia]. }
  split; [done| | | | |].
  - intros x Hx. assert (x ∈ l1 ++ join p bp bs l2) as Hx' by (rewrite E; by right).
    apply StronglySorted_inv in Ss as [_ Sx]. rewrite list.Forall_forall in Sx. apply Sx in Hx as [_ Hx].
    assert (x <> (base, 0)) as Hne by (intros ->; cbn in Hx; lia).
    apply elem_of_app in Hx' as [Hx'|Hx'].
    + destruct (node_cases x) as [?|?]; [apply place_node, elem_of_app; by left|done|done].
    + apply J4 in Hx' as [->|[? _]]; [destruct P1; [done|done]|done].
  - intros a s' Ha. apply lookup_delete_Some in Ha as [_ Ha]. by apply (ly_live _ _ _ _ _ Hly).
  - intros a s' b Ha Hc Hf. apply lookup_delete_Some in Ha as [Hne Ha]. apply Ho in Hf as [Hf|Hf].
    + by apply (ly_apart _ _ _ _ _ Hly a s' b).
    + apply Hne. by apply (ly_apart2 _ _ _ _ _ Hly bp bs a s' b).
  - intros a s1 a' s2 b Ha Ha'. apply lookup_delete_Some in Ha as [_ Ha]. apply lookup_delete_Some in Ha' as [_ Ha']. by apply (ly_apart2 _ _ _ _ _ Hly).
  - intros b Hb. destruct (ly_cover _ _ _ _ _ Hly b Hb) as [Hf|(a & s' & Ha & Hc)]; [left; apply Ho; by left|].
    destruct (decide (a = bp)) as [->|Hne]; [left; apply Ho; right; congruence|]. right. exists a, s'. split; [|done]. by rewrite lookup_delete_ne.
Qed.
End Place.

(** The list is not longer than memory allows. *)
Lemma sorted_length l : forall lo, StronglySorted before l -> (forall x, x ∈ l -> lo <= fst x /\ 1 <= snd x /\ fst x + 16 * snd x <= hi) -> lo <= hi ->
  lo + 16 * Z.of_nat (length l) <= hi.
Proof.
  induction l as [|x l IH]; intros lo Hs Hx Hlo; cbn [length]; [lia|]. apply StronglySorted_inv in Hs as [Hs HF]. rewrite list.Forall_forall in HF.
  destruct (Hx x) as (X1 & X2 & X3); [by left|]. enough (fst x + 16 + 16 * Z.of_nat (length l) <= hi) by lia. apply IH; [done| |lia].
  intros y Hy. destruct (Hx y) as (Y1 & Y2 & Y3); [by right|]. apply HF in Hy as [_ Hy]. lia.
Qed.

Lemma ring_length : h0 <= hi -> h0 + 16 * Z.of_nat (length fl) <= hi.
Proof.
  intros Hh. pose proof (ly_sorted _ _ _ _ _ Hly) as Ss. apply StronglySorted_inv in Ss as [Ss _].
  apply sorted_length; [done| |done]. intros x Hx. destruct (ly_free _ _ _ _ _ Hly x Hx) as (? & ? & ? & _). lia.
Qed.
End Layout.

(** * Heaps *)

Record heap (base h0 : Z) (u : uproc W) (fl : list block) (live : gmap Z Z) : Prop := {
  hp_ram : 0 <= ram_lo (u_mem u) <= base /\ ram_hi (u_mem u) < 2 ^ 31;
  hp_base : 0 < base /\ base + 16 <= h0 /\ h0 <= ram_hi (u_mem u) /\ ram_hi (u_mem u) mod 16 = 0;
  hp_layout : layout base h0 (ram_hi (u_mem u)) fl live;
  hp_links : links (u_mem u) ((base, 0) :: fl) base;
  hp_sizes : forall a s, live !! a = Some s -> rd 4 (u_mem u) (a + 8) = s;
  hp_freep : u_freep u ∈ map fst ((base, 0) :: fl)
}.

(** Memory outside the set [P] is as it was, and so is everything else. *)
Record only (P : Z -> Prop) u u' : Prop := {
  on_lo : ram_lo (u_mem u') = ram_lo (u_mem u);
  on_hi : ram_hi (u_mem u') = ram_hi (u_mem u);
  on_old : forall b, ~ P b -> peek (u_mem u') b = peek (u_mem u) b;
  on_fate : u_fate u' = u_fate u;
  on_os : u_os u' = u_os u
}.

Section Heap.
Variables (base h0 : Z).

(** What the allocator may write: its list. *)
Definition list_byte (fl : list block) (b : Z) : Prop := base <= b < base + 16 \/ owned fl b.

Section Of.
Variables (u : uproc W) (fl : list block) (live : gmap Z Z).
Hypothesis Hh : heap base h0 u fl live.
Notation hi := (ram_hi (u_mem u)).

Lemma node_header x : x ∈ (base, 0) :: fl \/ blk h0 hi x -> header_at (u_mem u) (fst x) /\ base <= fst x /\ 0 <= snd x < 2 ^ 28.
Proof.
  intros Hx. destruct (hp_ram _ _ _ _ _ Hh) as [R1 R2], (hp_base _ _ _ _ _ Hh) as (B1 & B2 & B3 & _).
  assert (x = (base, 0) \/ blk h0 hi x) as [->|(X1 & X2 & X3 & _)].
  { destruct Hx as [Hx|Hx]; [|by right]. by apply (node_cases _ _ _ _ _ (hp_layout _ _ _ _ _ Hh)). }
  - unfold header_at, in_ram. cbn [fst snd]. rewrite andb_true_iff, !Z.leb_le. lia.
  - unfold header_at, in_ram. rewrite andb_true_iff, !Z.leb_le. lia.
Qed.

Lemma fuel_ok : (2 * length ((base, 0%Z) :: fl) <= Z.to_nat (hi / 8))%nat.
Proof.
  destruct (hp_base _ _ _ _ _ Hh) as (B1 & B2 & B3 & _). pose proof (ring_length _ _ _ _ _ (hp_layout _ _ _ _ _ Hh) B3) as Hl. cbn [length].
  pose proof (Z.div_mod hi 8 ltac:(done)). pose proof (Z.mod_pos_bound hi 8 ltac:(done)). lia.
Qed.
End Of.

(** Two live blocks lie apart. *)
Lemma live_apart2 hi fl live a s a' s' : layout base h0 hi fl live -> live !! a = Some s -> live !! a' = Some s' -> a <> a' -> apart (a, s) (a', s').
Proof.
  intros Hly Ha Ha' Hne. pose proof (ly_live _ _ _ _ _ Hly a s Ha) as (A1 & _). pose proof (ly_live _ _ _ _ _ Hly a' s' Ha') as (B1 & _).
  unfold apart. cbn [fst snd] in *. destruct (Z.le_gt_cases (a + 16 * s) a'); [by left|]. destruct (Z.le_gt_cases (a' + 16 * s') a); [by right|].
  exfalso. apply Hne, (ly_apart2 _ _ _ _ _ Hly a s a' s' (Z.max a a')); try done; unfold covers; cbn [fst snd]; lia.
Qed.

(** A live block keeps its header when that of a node and that of another live block change. *)
Lemma live_header u fl live p bp bs m' a s : heap base h0 u fl live -> p ∈ (base, 0) :: fl -> live !! bp = Some bs -> live !! a = Some s -> a <> bp ->
  headers_only (fst p) bp (u_mem u) m' -> rd 4 m' (a + 8) = s.
Proof.
  intros Hh Hp Hbp Ha Hne C. pose proof (hp_layout _ _ _ _ _ Hh) as Hly. destruct (hp_base _ _ _ _ _ Hh) as (_ & HB & _).
  pose proof (ly_live _ _ _ _ _ Hly a s Ha) as (A1 & A2 & _). pose proof (ly_live _ _ _ _ _ Hly bp bs Hbp) as (B1 & _). cbn [fst snd] in *.
  rewrite (header_size (u_mem u)); [by apply (hp_sizes _ _ _ _ _ Hh)|]. apply (headers_only_header _ _ _ _ _ C).
  - destruct (node_cases _ _ _ _ _ Hly p Hp) as [->|(P1 & _)]; [cbn; lia|].
    destruct (live_apart _ _ _ _ _ Hly a s p Ha Hp) as [->|[?|?]]; cbn [fst snd] in *; lia.
  - destruct (live_apart2 _ _ _ _ _ _ _ Hly Ha Hbp Hne); cbn [fst snd] in *; lia.
Qed.

Lemma join_big p bp bs r : 0 <= snd p -> (forall y, y ∈ r -> 1 <= snd y) -> exists y, y ∈ join p bp bs r /\ bs <= snd y.
Proof.
  intros Hp Hr. assert (bs <= fst (join_right bp bs r)) as Hj.
  { unfold join_right. destruct r as [|x t]; [cbn; lia|]. pose proof (Hr x ltac:(by left)). destruct (_ =? _); cbn; lia. }
  unfold join. destruct (_ =? bp).
  - eexists. split; [by left|]. cbn [snd]. lia.
  - exists (bp, fst (join_right bp bs r)). split; [right; by left|done].
Qed.

Lemma joined_length p bp bs r : (length (join p bp bs r) <= 2 + length r)%nat.
Proof. unfold join, join_right. destruct r as [|x t]; cbn [length]; repeat destruct (_ =? _); cbn; lia. Qed.

Lemma free_ok u fl live bp bs : heap base h0 u fl live -> live !! bp = Some bs ->
  exists u' fl', free (bp + 16) u = Ok tt u' /\ heap base h0 u' fl' (delete bp live) /\
    only (fun b => list_byte fl b \/ covers (bp, bs) b) u u' /\ (length fl' <= S (length fl))%nat /\ exists y, y ∈ fl' /\ bs <= snd y.
Proof.
  intros Hh Hlive. pose proof (hp_layout _ _ _ _ _ Hh) as Hly. destruct (hp_base _ _ _ _ _ Hh) as (HB1 & HB2 & HB3 & HB4).
  pose proof (ly_live _ _ _ _ _ Hly bp bs Hlive) as Hb. pose proof Hb as (B1 & B2 & _). cbn [fst snd] in *.
  destruct (node_header u fl live Hh (bp, bs) ltac:(by right)) as (Hbh & _ & Hbs). cbn [fst snd] in *. pose proof Hbh as [Hbr _].
  destruct (free_loop_ok base bp u ltac:(lia) fl (u_freep u) (S (Z.to_nat (ram_hi (u_mem u) / 8)))) as (l1 & p & l2 & E & Ef & Hlt & Hn).
  { apply Hh. } { apply Hly. }
  { intros y Hy. destruct (node_header u fl live Hh y ltac:(by left)) as (? & ? & _). split; [done|]. split; [|done].
    destruct (node_cases _ _ _ _ _ Hly y Hy) as [->|(Y1 & _)]; [cbn; lia|]. destruct (live_apart _ _ _ _ _ Hly bp bs y Hlive Hy) as [->|[?|?]]; cbn [fst snd] in *; lia. }
  { apply Hh. } { pose proof (fuel_ok u fl live Hh). lia. }
  pose proof (place_ring _ _ _ _ _ Hly l1 l2 p E) as (S1 & S2 & _).
  pose proof (place_left _ _ _ _ _ HB2 Hly bp bs l1 l2 p Hlive E Hlt) as (P1 & P2 & P3).
  pose proof (place_right _ _ _ _ _ HB2 Hly bp bs l1 l2 p Hlive E Hlt Hn) as P4.
  destruct (layout_free _ _ _ _ _ HB2 Hly bp bs l1 l2 p Hlive E Hlt Hn) as (fl' & E' & Hly').
  assert (p ∈ (base, 0) :: fl) as Hp by (rewrite E; apply elem_of_app; right; by left).
  destruct (node_header u fl live Hh p ltac:(by left)) as (Hph & _ & Hps).
  pose proof (hp_links _ _ _ _ _ Hh) as L. rewrite E in L. apply links_app in L as [L1 L2].
  destruct (fun A1 A2 A3 A4 => insert_ok base p bp bs l2 A1 A2 A3 A4 u) as (m' & Ei & C & L3); [lia|split; [done|split; [done|lia]]|lia| |done|done|done| | |].
  { intros y Hy. destruct (P4 y Hy) as [Hy' Hge]. destruct (node_header u fl live Hh y ltac:(by right)) as ([? _] & _ & ?). lia. }
  { intros y Hy. destruct (P4 y Hy) as [Hy' _]. by destruct (node_header u fl live Hh y ltac:(by right)). }
  { by apply (hp_sizes _ _ _ _ _ Hh). }
  exists (set_u_freep (fst p) (set_u_mem m' u)), fl'. split; [|split; [|split; [|split]]].
  - unfold free. replace (u64 (bp + 16 - Header_size)) with bp by (unfold Header_size; rewrite u64_small; [lia|unfold is_u64; lia]).
    unfold list_fuel. erewrite bind_Ok by (erewrite bind_Ok by reflexivity; reflexivity). erewrite bind_Ok by reflexivity.
    rewrite (bind_Ok _ _ _ _ _ Ef). exact Ei.
  - destruct C as [C1 C2 C3] eqn:EC. split; cbn [u_mem set_u_freep set_u_mem u_freep]; rewrite ?C1, ?C2; try apply Hh; try done.
    + rewrite <- E'. apply links_app. split; [|done]. replace (hd_addr (join p bp bs l2) base) with (fst p).
      2:{ unfold join. by destruct (_ =? bp). }
      apply (links_frame (u_mem u)); [|done]. intros y Hy. destruct (S2 y Hy) as [_ ?]. apply (headers_only_header _ _ _ _ _ C); lia.
    + intros a s Ha. apply lookup_delete_Some in Ha as [Hne Ha]. by apply (live_header u fl live p bp bs m' a s).
    + rewrite <- E'. rewrite map_app. apply elem_of_app. right. unfold join. destruct (_ =? bp); by left.
  - split; cbn [u_mem set_u_freep set_u_mem u_fate u_os]; try apply C; try done. intros b Hno. apply C; intros Hin; apply Hno.
    + left. destruct P1 as [->|(? & _)]; [by left|]. right. rewrite <- (owned_base base). exists p. split; [done|]. unfold covers. lia.
    + right. unfold covers. cbn [fst snd]. lia.
  - apply (f_equal length) in E, E'. rewrite length_app in E, E'. pose proof (joined_length p bp bs l2). cbn [length] in *. lia.
  - destruct (join_big p bp bs l2) as (y & Hy & Hge); [lia|intros y Hy; by destruct (P4 y Hy) as [(? & _) _]|].
    assert (y ∈ (base, 0) :: fl') as Hy' by (rewrite <- E'; apply elem_of_app; by right).
    apply elem_of_cons in Hy' as [->|Hy']; [cbn in Hge; lia|]. by exists y.
Qed.

(** * More memory *)

Lemma layout_extend hi fl live n : layout base h0 hi fl live -> h0 <= hi -> hi mod 16 = 0 -> 1 <= n ->
  live !! hi = None /\ layout base h0 (hi + 16 * n) fl (<[hi := n]> live).
Proof.
  intros Hly Hh Hm Hn. assert (live !! hi = None) as Hnone.
  { destruct (live !! hi) as [s|] eqn:E; [|done]. destruct (ly_live _ _ _ _ _ Hly hi s E) as (? & _ & ? & _). cbn in *. lia. }
  assert (forall b, owned fl b -> b < hi) as Hf.
  { intros b (x & Hx & Hb). destruct (ly_free _ _ _ _ _ Hly x Hx) as (_ & _ & ? & _). unfold covers in Hb. lia. }
  assert (forall a s b, live !! a = Some s -> covers (a, s) b -> b < hi) as Hl.
  { intros a s b Ha Hb. destruct (ly_live _ _ _ _ _ Hly a s Ha) as (_ & _ & ? & _). unfold covers in Hb. cbn in *. lia. }
  split; [done|]. split.
  - apply Hly.
  - intros x Hx. destruct (ly_free _ _ _ _ _ Hly x Hx) as (? & ? & ? & ?). unfold blk. lia.
  - intros a s Ha. apply lookup_insert_Some in Ha as [[<- <-]|[_ Ha]]; [unfold blk; cbn [fst snd]; lia|].
    destruct (ly_live _ _ _ _ _ Hly a s Ha) as (? & ? & ? & ?). unfold blk. cbn [fst snd] in *. lia.
  - intros a s b Ha Hb Ho. apply lookup_insert_Some in Ha as [[<- <-]|[_ Ha]]; [apply Hf in Ho; unfold covers in Hb; cbn in Hb; lia|].
    by apply (ly_apart _ _ _ _ _ Hly a s b).
  - intros a s a' s' b Ha Ha' Hb Hb'. apply lookup_insert_Some in Ha as [[<- <-]|[_ Ha]], Ha' as [[<- <-]|[_ Ha']]; [done| | |].
    + apply (Hl a' s') in Hb'; [|done]. unfold covers in Hb. cbn in Hb. lia.
    + apply (Hl a s) in Hb; [|done]. unfold covers in Hb'. cbn in Hb'. lia.
    + by apply (ly_apart2 _ _ _ _ _ Hly a s a' s' b).
  - intros b Hb. destruct (Z.lt_ge_cases b hi) as [Hlt|Hge].
    + destruct (ly_cover _ _ _ _ _ Hly b ltac:(lia)) as [?|(a & s & Ha & Hc)]; [by left|]. right. exists a, s. split; [|done].
      rewrite lookup_insert_ne; [done|]. intros <-. congruence.
    + right. exists hi, n. rewrite lookup_insert_eq. split; [done|]. unfold covers. cbn. lia.
Qed.

(** Memory below the old break and outside [P] is as it was. *)
Record grown (P : Z -> Prop) u u' : Prop := {
  gr_lo : ram_lo (u_mem u') = ram_lo (u_mem u);
  gr_hi : ram_hi (u_mem u) <= ram_hi (u_mem u');
  gr_old : forall b, b < ram_hi (u_mem u) -> ~ P b -> peek (u_mem u') b = peek (u_mem u) b;
  gr_fate : u_fate u' = u_fate u
}.

(** The process after [sbrk], and the header of the new block written. *)
Definition extended u (w : W) (n : Z) : uproc W :=
  let m := u_mem u in
  set_u_mem (wr 4 (ram_hi m + 8) n (mkMem (ram_lo m) (ram_hi m + 16 * n) (cells m))) (set_u_os w u).

Lemma extended_heap u fl live w n : heap base h0 u fl live -> 1 <= n -> ram_hi (u_mem u) + 16 * n < 2 ^ 31 ->
  heap base h0 (extended u w n) fl (<[ram_hi (u_mem u) := n]> live) /\ live !! ram_hi (u_mem u) = None /\
  grown (fun _ => False) u (extended u w n).
Proof.
  intros Hh Hn Hlt. destruct (hp_ram _ _ _ _ _ Hh) as [R1 R2], (hp_base _ _ _ _ _ Hh) as (B1 & B2 & B3 & B4).
  set (hi := ram_hi (u_mem u)) in *. destruct (layout_extend hi fl live n (hp_layout _ _ _ _ _ Hh) B3 B4 Hn) as [Hnone Hly].
  unfold extended. fold hi. set (m1 := mkMem (ram_lo (u_mem u)) (hi + 16 * n) (cells (u_mem u))).
  destruct (wr_bounds 4 (hi + 8) n m1) as [W1 W2].
  assert (forall b, b < hi -> peek (wr 4 (hi + 8) n m1) b = peek (u_mem u) b) as Hp by (intros b Hb; by rewrite peek_wr_other by lia).
  assert (forall a, a + 16 <= hi -> same_header (u_mem u) (wr 4 (hi + 8) n m1) a) as Hs by (intros a Ha b Hb; apply Hp; lia).
  assert (forall x, x ∈ (base, 0) :: fl -> fst x + 16 <= hi) as Hx.
  { intros x Hx. destruct (node_cases _ _ _ _ _ (hp_layout _ _ _ _ _ Hh) x Hx) as [->|(X1 & X2 & X3 & _)]; [cbn|fold hi in X3]; lia. }
  split; [|split; [done|]].
  - split; cbn [u_mem set_u_mem u_freep set_u_os]; rewrite ?W1, ?W2; cbn [ram_lo ram_hi m1].
    + lia.
    + split; [done|]. split; [done|]. split; [lia|]. rewrite (Z.mul_comm 16 n), Z.mod_add by done. done.
    + done.
    + apply (links_frame (u_mem u)); [|apply Hh]. intros x Hin. apply Hs, Hx, Hin.
    + intros a s Ha. apply lookup_insert_Some in Ha as [[<- <-]|[_ Ha]].
      * rewrite rd_wr_same. apply Z.mod_small. change (2 ^ (8 * Z.of_nat 4)) with (2 ^ 32). lia.
      * rewrite (header_size (u_mem u)); [by apply (hp_sizes _ _ _ _ _ Hh)|]. apply Hs.
        destruct (ly_live _ _ _ _ _ (hp_layout _ _ _ _ _ Hh) a s Ha) as (A1 & _ & A3 & _). fold hi in A3. cbn in A1, A3. lia.
    + apply Hh.
  - split; cbn [u_mem set_u_mem u_fate set_u_os]; [by rewrite W1|rewrite W2; cbn; lia| |done]. intros b Hb _. by apply Hp.
Qed.

Lemma grown_only (P Q R : Z -> Prop) u u' u'' : grown P u u' -> only Q u' u'' -> (forall b, b < ram_hi (u_mem u) -> P b \/ Q b -> R b) -> grown R u u''.
Proof.
  intros [G1 G2 G3 G4] [O1 O2 O3 O4 O5] HR. split; [congruence|lia| |congruence]. intros b Hb HN. rewrite O3, G3; [done|done| |]; intros Hp; apply HN, HR; auto.
Qed.

Lemma morecore_ok `{!SbrkLaws W} u fl live nu : heap base h0 u fl live -> 1 <= nu < 2 ^ 27 ->
  (exists w, morecore nu u = Ok 0 (set_u_os w u)) \/
  exists u' fl', morecore nu u = Ok (u_freep u') u' /\ heap base h0 u' fl' live /\ u_freep u' <> 0 /\
    grown (list_byte fl) u u' /\ (length fl' <= S (length fl))%nat /\ exists y, y ∈ fl' /\ nu <= snd y.
Proof.
  intros Hh Hnu. unfold morecore. set (n := if nu <? 4096 then 4096 else nu).
  assert (nu <= n /\ 1 <= n < 2 ^ 27) as [Hn1 Hn2] by (unfold n; destruct (Z.ltb_spec nu 4096); lia).
  replace (i32 (n * Header_size)) with (16 * n).
  2:{ unfold Header_size, i32, sext. rewrite Z.mod_small by lia. destruct (Z.ltb_spec (n * 16) (2 ^ (32 - 1))); lia. }
  destruct (hp_ram _ _ _ _ _ Hh) as [R1 R2], (hp_base _ _ _ _ _ Hh) as (B1 & B2 & B3 & B4). set (hi := ram_hi (u_mem u)) in *.
  destruct (os_sbrk (16 * n) hi (u_os u)) as [r w] eqn:E.
  assert (sbrk (16 * n) u = if r <? 0 then Ok (u64 (-1)) (set_u_os w u) else Ok hi (set_u_mem (mkMem (ram_lo (u_mem u)) r (cells (u_mem u))) (set_u_os w u))) as Es.
  { unfold sbrk, call. unfold bind, gets. fold hi. rewrite E. by destruct (r <? 0). }
  destruct (sbrk_grows (16 * n) hi (u_os u) r w ltac:(lia) ltac:(lia) E) as [->|[-> Hr]].
  - left. exists w. by rewrite (bind_Ok _ _ _ _ _ Es).
  - right. destruct (Z.ltb_spec (hi + 16 * n) 0); [lia|]. rewrite (bind_Ok _ _ _ _ _ Es).
    change (u64 (-1)) with (2 ^ 64 - 1). destruct (Z.eqb_spec hi (2 ^ 64 - 1)); [lia|].
    destruct (extended_heap u fl live w n Hh ltac:(lia) Hr) as (Hh1 & Hnone & G1). fold hi in Hh1, Hnone.
    assert (header_at (mkMem (ram_lo (u_mem u)) (hi + 16 * n) (cells (u_mem u))) hi) as Hhd.
    { split; [lia|]. unfold in_ram. cbn [ram_lo ram_hi]. rewrite andb_true_iff, !Z.leb_le. lia. }
    rewrite (bind_Ok _ _ _ _ _ (set_size_ok hi n (set_u_mem _ (set_u_os w u)) Hhd)).
    change (set_u_mem _ (set_u_mem _ _)) with (extended u w n).
    destruct (free_ok _ _ _ hi n Hh1 (lookup_insert_eq _ _ _)) as (u' & fl' & Ef & Hh' & O & Hlen & y & Hy & Hge).
    rewrite u64_small by (unfold is_u64, Header_size; lia). unfold Header_size. rewrite (bind_Ok _ _ _ _ _ Ef). erewrite bind_Ok by reflexivity.
    exists u', fl'. split; [done|]. rewrite delete_insert_id in Hh' by done. split; [done|]. split; [|split; [|split; [done|exists y; split; [done|lia]]]].
    + pose proof (hp_freep _ _ _ _ _ Hh') as Hf. apply list_elem_of_fmap in Hf as (x & -> & Hx).
      destruct (node_header u' fl' live Hh' x ltac:(by left)) as (_ & ? & _). lia.
    + apply (grown_only _ _ _ _ _ _ G1 O). intros b Hb [[]|[Hl|Hc]]; [done|]. fold hi in Hb. unfold covers in Hc. cbn in Hc. lia.
Qed.

(** * Taking a block *)

(** What is left of the block [y], and the part of [n] units that is taken. *)
Definition rest_of (y : block) (n : Z) : list block := if snd y =? n then [] else [(fst y, snd y - n)].
Definition part_of (y : block) (n : Z) : Z := fst y + 16 * (snd y - n).

Lemma taken_bytes y n b : 1 <= n <= snd y ->
  (covers y b <-> owned (rest_of y n) b \/ covers (part_of y n, n) b) /\ ~ (owned (rest_of y n) b /\ covers (part_of y n, n) b).
Proof.
  intros Hn. unfold rest_of, part_of. destruct (Z.eqb_spec (snd y) n) as [E|E].
  - assert (~ owned [] b) as H0 by (intros (x & Hx & _); by apply elem_of_nil in Hx). unfold covers. cbn [fst snd]. rewrite E.
    replace (fst y + 16 * (n - n)) with (fst y) by lia. tauto.
  - assert (owned [(fst y, snd y - n)] b <-> covers (fst y, snd y - n) b) as Ho.
    { rewrite owned_cons. split; [intros [?|(x & Hx & _)]; [done|by apply elem_of_nil in Hx]|by left]. }
    rewrite Ho. unfold covers. cbn [fst snd]. lia.
Qed.

Lemma layout_take hi c y d live n : layout base h0 hi (c ++ y :: d) live -> 1 <= n <= snd y ->
  live !! part_of y n = None /\ layout base h0 hi (c ++ rest_of y n ++ d) (<[part_of y n := n]> live).
Proof.
  intros Hly Hn. set (r := part_of y n). assert (y ∈ c ++ y :: d) as Hy by (apply elem_of_app; right; by left).
  destruct (ly_free _ _ _ _ _ Hly y Hy) as (Y1 & Y2 & Y3 & Y4).
  assert (fst y <= r /\ r + 16 * n = fst y + 16 * snd y) as [Hr1 Hr2] by (unfold r, part_of; lia).
  assert (forall b, covers (r, n) b -> owned (c ++ y :: d) b) as Hro.
  { intros b Hb. exists y. split; [done|]. apply (taken_bytes y n b Hn). by right. }
  assert (live !! r = None) as Hnone.
  { destruct (live !! r) as [s|] eqn:E; [|done]. exfalso. destruct (ly_live _ _ _ _ _ Hly r s E) as (? & _). cbn in *.
    apply (ly_apart _ _ _ _ _ Hly r s r E); [unfold covers; cbn; lia|]. apply Hro. unfold covers. cbn. lia. }
  assert (forall b, owned (c ++ y :: d) b <-> owned (c ++ rest_of y n ++ d) b \/ covers (r, n) b) as Ho.
  { intros b. rewrite !owned_app, owned_cons. destruct (taken_bytes y n b Hn) as [-> _]. fold r. tauto. }
  assert (forall b, owned (c ++ rest_of y n ++ d) b -> ~ covers (r, n) b) as Hno.
  { intros b Hob Hc. pose proof (ly_sorted _ _ _ _ _ Hly) as Ss. apply StronglySorted_inv in Ss as [Ss _].
    apply StronglySorted_app in Ss as (S1 & _ & S2). apply StronglySorted_inv in S2 as [_ S2]. rewrite list.Forall_forall in S2.
    unfold covers in Hc. cbn [fst snd] in Hc. rewrite !owned_app in Hob. destruct Hob as [(x & Hx & Hb)|[Hb|(x & Hx & Hb)]].
    - pose proof (S1 x y Hx ltac:(by left)) as [? _]. unfold covers in Hb. lia.
    - apply (proj2 (taken_bytes y n b Hn)). split; [done|]. fold r. unfold covers. cbn. lia.
    - apply S2 in Hx as [? _]. unfold covers in Hb. lia. }
  split; [done|]. split.
  - pose proof (ly_sorted _ _ _ _ _ Hly) as Ss. change ((base, 0) :: c ++ y :: d) with (((base, 0) :: c) ++ y :: d) in Ss.
    change ((base, 0) :: c ++ rest_of y n ++ d) with (((base, 0) :: c) ++ rest_of y n ++ d). apply StronglySorted_app in Ss as (S1 & S2 & S3).
    apply StronglySorted_inv in S3 as [S3 S4]. rewrite list.Forall_forall in S4. apply StronglySorted_app. unfold rest_of. destruct (Z.eqb_spec (snd y) n); cbn [app].
    + split; [|done]. intros x1 x2 H1 H2. apply S1; [done|by right].
    + split; [|split; [done|]].
      * intros x1 x2 H1 H2. apply elem_of_cons in H2 as [->|H2]; [|apply S1; [done|by right]]. apply (S1 x1 y H1). by left.
      * constructor; [done|]. apply list.Forall_forall. intros x Hx. apply S4 in Hx. unfold before in *. cbn [fst snd]. lia.
  - intros x Hx. apply elem_of_app in Hx as [Hx|Hx]; [apply (ly_free _ _ _ _ _ Hly), elem_of_app; by left|].
    apply elem_of_app in Hx as [Hx|Hx]; [|apply (ly_free _ _ _ _ _ Hly), elem_of_app; right; by right].
    unfold rest_of in Hx. destruct (Z.eqb_spec (snd y) n); [by apply elem_of_nil in Hx|]. apply list_elem_of_singleton in Hx as ->. unfold blk. cbn. lia.
  - intros a s Ha. apply lookup_insert_Some in Ha as [[<- <-]|[_ Ha]]; [|by apply (ly_live _ _ _ _ _ Hly)].
    unfold blk. cbn [fst snd]. split; [lia|]. split; [lia|]. split; [lia|]. unfold r, part_of. rewrite Z.add_mod, Y4, (Z.mul_comm 16), Z.mod_mul by done. done.
  - intros a s b Ha Hc Hob. apply lookup_insert_Some in Ha as [[<- <-]|[_ Ha]]; [by apply (Hno b)|].
    apply (ly_apart _ _ _ _ _ Hly a s b Ha Hc), Ho. by left.
  - intros a s a' s' b Ha Ha' Hb Hb'. apply lookup_insert_Some in Ha as [[<- <-]|[_ Ha]], Ha' as [[<- <-]|[_ Ha']]; [done| | |].
    + exfalso. by apply (ly_apart _ _ _ _ _ Hly a' s' b Ha' Hb'), Hro.
    + exfalso. by apply (ly_apart _ _ _ _ _ Hly a s b Ha Hb), Hro.
    + by apply (ly_apart2 _ _ _ _ _ Hly a s a' s' b).
  - intros b Hb. destruct (ly_cover _ _ _ _ _ Hly b Hb) as [Hf|(a & s & Ha & Hc)].
    + apply Ho in Hf as [Hf|Hf]; [by left|]. right. exists r, n. by rewrite lookup_insert_eq.
    + right. exists a, s. split; [|done]. rewrite lookup_insert_ne; [done|]. intros <-. congruence.
Qed.

(** Nodes side by side in the list. *)
Section Take.
Variables (u : uproc W) (fl : list block) (live : gmap Z Z) (a : list block) (x y : block) (b : list block) (n : Z).
Hypothesis Hh : heap base h0 u fl live.
Hypothesis Hring : (base, 0) :: fl = a ++ x :: y :: b.
Hypothesis Hn : 1 <= n <= snd y.
Notation m := (u_mem u).

Lemma pair_split : exists c, fl = c ++ y :: b /\ (base, 0) :: c = a ++ [x].
Proof.
  destruct a as [|x0 a']; cbn [app] in Hring; [injection Hring as <- ->; by exists []|]. injection Hring as <- ->. exists (a' ++ [x]).
  by rewrite <- app_assoc.
Qed.

Lemma pair_facts : (fst x + 16 <= fst y) /\ (forall z, z ∈ a -> fst z + 16 <= fst x) /\ (forall z, z ∈ b -> fst y + 16 * snd y <= fst z) /\
  (forall q s, live !! q = Some s -> (q + 16 <= fst x \/ fst x + 16 <= q) /\ (q + 16 <= fst y \/ fst y + 16 * snd y <= q)) /\
  blk h0 (ram_hi m) y /\ header_at m (fst x) /\ header_at m (fst y).
Proof.
  pose proof (hp_layout _ _ _ _ _ Hh) as Hly. pose proof (ly_sorted _ _ _ _ _ Hly) as Ss. destruct (hp_base _ _ _ _ _ Hh) as (_ & B2 & _).
  destruct pair_split as (c & Ec & _). assert (blk h0 (ram_hi m) y) as Hy by (apply (ly_free _ _ _ _ _ Hly); rewrite Ec; apply elem_of_app; right; by left).
  assert (forall z, z ∈ [x; y] -> z ∈ (base, 0) :: fl) as Hin.
  { intros z Hz. rewrite Hring. apply elem_of_app. right. apply elem_of_cons in Hz as [->|Hz]; [by left|]. apply list_elem_of_singleton in Hz as ->. right. by left. }
  rewrite Hring in Ss. apply StronglySorted_app in Ss as (S1 & _ & S2). apply StronglySorted_inv in S2 as [S2 S3]. apply StronglySorted_inv in S2 as [_ S4].
  rewrite list.Forall_forall in S3. rewrite list.Forall_forall in S4. destruct Hy as (Y1 & Y2 & Y3 & Y4).
  split; [apply (S3 y); by left|]. split; [intros z Hz; apply (S1 z x Hz); by left|]. split; [intros z Hz; destruct (S4 z Hz); lia|]. split; [|split; [done|]].
  - intros q s Hq. pose proof (ly_live _ _ _ _ _ Hly q s Hq) as (Q1 & Q2 & _). cbn [fst snd] in *. split.
    + destruct (node_cases _ _ _ _ _ Hly x (Hin x ltac:(by left))) as [->|(X1 & _)]; [cbn; lia|].
      destruct (live_apart _ _ _ _ _ Hly q s x Hq (Hin x ltac:(by left))) as [->|[?|?]]; cbn [fst snd] in *; lia.
    + destruct (live_apart _ _ _ _ _ Hly q s y Hq (Hin y ltac:(right; by left))) as [->|[?|?]]; cbn [fst snd] in *; lia.
  - split; apply (node_header u fl live Hh); left; apply Hin; [by left|right; by left].
Qed.

(** The whole block is taken. *)
Lemma take_all : snd y = n -> take_block (fst x) (fst y) (snd y) n u =
  Ok (part_of y n + 16) (set_u_freep (fst x) (set_u_mem (wr 8 (fst x) (hd_addr b base) m) u)).
Proof.
  intros E. destruct pair_facts as (_ & _ & _ & _ & _ & Hx & Hy). pose proof Hy as [Hyr _]. unfold take_block. rewrite E, Z.eqb_refl.
  pose proof (hp_links _ _ _ _ _ Hh) as L. rewrite Hring in L. apply links_app in L as (_ & _ & _ & L & _).
  rewrite (bind_Ok _ _ (fst y) u (set_u_mem (wr 8 (fst x) (hd_addr b base) m) u)).
  2:{ by rewrite (bind_Ok _ _ _ _ _ (get_ptr_ok _ _ Hy)), L, (bind_Ok _ _ _ _ _ (set_ptr_ok _ _ _ Hx)). }
  erewrite bind_Ok by reflexivity. unfold part_of, Header_size. rewrite E, u64_small by (unfold is_u64; lia). unfold ret. f_equal. lia.
Qed.

(** The end of the block is taken. *)
Lemma take_end : n < snd y -> take_block (fst x) (fst y) (snd y) n u =
  Ok (part_of y n + 16) (set_u_freep (fst x) (set_u_mem (wr 4 (part_of y n + 8) n (wr 4 (fst y + 8) (snd y - n) m)) u)).
Proof.
  intros Hlt. destruct pair_facts as (_ & _ & _ & _ & (Y1 & Y2 & Y3 & _) & _ & Hy). pose proof Hy as [Hyr Hyi]. unfold take_block.
  destruct (hp_ram _ _ _ _ _ Hh) as [R1 R2]. destruct (Z.eqb_spec (snd y) n); [lia|]. rewrite u32_small by (unfold is_u32; lia).
  rewrite (bind_Ok _ _ (part_of y n) u (set_u_mem (wr 4 (part_of y n + 8) n (wr 4 (fst y + 8) (snd y - n) m)) u)).
  2:{ rewrite (bind_Ok _ _ _ _ _ (set_size_ok _ _ _ Hy)). set (m1 := wr 4 (fst y + 8) (snd y - n) m).
      rewrite (bind_Ok _ _ _ _ _ (get_size_ok _ (set_u_mem m1 u) (header_at_wr _ _ _ _ _ Hy))). rewrite u_mem_set.
      assert (rd 4 m1 (fst y + 8) = snd y - n) as -> by (unfold m1; by fields).
      replace (u64 (fst y + Header_size * (snd y - n))) with (part_of y n) by (unfold part_of, Header_size; rewrite u64_small; [done|unfold is_u64; lia]).
      assert (header_at m1 (part_of y n)) as Hp.
      { apply header_at_wr. split; [unfold part_of; lia|]. unfold in_ram, part_of. unfold in_ram in Hyi. bool_to_Z. rewrite andb_true_iff, !Z.leb_le. lia. }
      rewrite (bind_Ok _ _ _ _ _ (set_size_ok _ n (set_u_mem m1 u) Hp)), set_u_mem_set, u_mem_set. reflexivity. }
  erewrite bind_Ok by reflexivity. unfold part_of, Header_size. rewrite u64_small by (unfold is_u64; lia). done.
Qed.

(** What either way of taking leaves in memory. *)
Record taken (m' : memory) : Prop := {
  tk_lo : ram_lo m' = ram_lo m;
  tk_hi : ram_hi m' = ram_hi m;
  tk_old : forall q, ~ (fst x <= q < fst x + 16) -> ~ covers y q -> peek m' q = peek m q;
  tk_links : links m' (x :: rest_of y n ++ b) base;
  tk_size : rd 4 m' (part_of y n + 8) = n
}.

Lemma taken_all : snd y = n -> taken (wr 8 (fst x) (hd_addr b base) m).
Proof.
  intros E. destruct pair_facts as (F1 & F2 & F3 & _ & (Y1 & Y2 & Y3 & _) & Hx & Hy). destruct (wr_bounds 8 (fst x) (hd_addr b base) m) as [W1 W2].
  destruct (hp_ram _ _ _ _ _ Hh) as [R1 R2], (hp_base _ _ _ _ _ Hh) as (B1 & B2 & _).
  pose proof (hp_links _ _ _ _ _ Hh) as L. rewrite Hring in L. apply links_app in L as (_ & L1 & L2 & L3 & L4 & L5). cbn [hd_addr] in *.
  assert (rest_of y n = []) as Er by (unfold rest_of; by rewrite E, Z.eqb_refl). split; [done|done| | |].
  - intros q Hq _. apply peek_wr_other. lia.
  - rewrite Er. cbn [app links]. split; [|split].
    + rewrite rd_wr_same. apply Z.mod_small. change (2 ^ (8 * Z.of_nat 8)) with (2 ^ 64). rewrite <- L3. pose proof (rd_range 8 m (fst y)). lia.
    + by rewrite rd_wr_other by lia.
    + apply (links_frame m); [|done]. intros z Hz q Hq. apply F3 in Hz. apply peek_wr_other. lia.
  - unfold part_of. rewrite E, Z.sub_diag, Z.mul_0_r, Z.add_0_r, rd_wr_other by lia. by rewrite L4.
Qed.

Lemma taken_end : n < snd y -> taken (wr 4 (part_of y n + 8) n (wr 4 (fst y + 8) (snd y - n) m)).
Proof.
  intros Hlt. destruct pair_facts as (F1 & F2 & F3 & _ & (Y1 & Y2 & Y3 & _) & Hx & Hy). pose proof Hy as [Hyr _].
  destruct (hp_ram _ _ _ _ _ Hh) as [R1 R2], (hp_base _ _ _ _ _ Hh) as (B1 & B2 & _).
  assert (part_of y n = fst y + 16 * (snd y - n)) as Ep by done. set (r := part_of y n) in *. assert (part_of y n = r) as Epr by done. clearbody r.
  pose proof (hp_links _ _ _ _ _ Hh) as L. rewrite Hring in L. apply links_app in L as (_ & L1 & L2 & L3 & L4 & L5). cbn [hd_addr] in *.
  set (m1 := wr 4 (fst y + 8) (snd y - n) m). destruct (wr_bounds 4 (fst y + 8) (snd y - n) m) as [W1 W2], (wr_bounds 4 (r + 8) n m1) as [W3 W4].
  assert (rest_of y n = [(fst y, snd y - n)]) as Er by (unfold rest_of; destruct (Z.eqb_spec (snd y) n); [lia|done]).
  split; [unfold m1 in *; congruence|unfold m1 in *; congruence| | |].
  - intros q _ Hq. unfold covers in Hq. unfold m1. rewrite !peek_wr_other by lia. done.
  - rewrite Er. cbn [app links hd_addr fst snd]. unfold m1. split; [|split; [|split; [|split]]].
    + by rewrite !rd_wr_other by lia.
    + by rewrite !rd_wr_other by lia.
    + by rewrite !rd_wr_other by lia.
    + by fields.
    + apply (links_frame m); [|done]. intros z Hz q Hq. apply F3 in Hz. rewrite !peek_wr_other by lia. done.
  - rewrite Epr. unfold m1. by fields.
Qed.

Lemma take_ok : exists u' fl', take_block (fst x) (fst y) (snd y) n u = Ok (part_of y n + 16) u' /\
  live !! part_of y n = None /\ heap base h0 u' fl' (<[part_of y n := n]> live) /\ only (list_byte fl) u u'.
Proof.
  destruct pair_facts as (F1 & F2 & F3 & F4 & Hyb & Hx & Hy), pair_split as (c & Ec & Ea).
  assert (exists m', taken m' /\ take_block (fst x) (fst y) (snd y) n u = Ok (part_of y n + 16) (set_u_freep (fst x) (set_u_mem m' u))) as (m' & T & Et).
  { destruct (decide (snd y = n)) as [E|E]; [eexists; split; [by apply taken_all|by apply take_all]|]. eexists.
    split; [apply taken_end; lia|apply take_end; lia]. }
  pose proof (hp_layout _ _ _ _ _ Hh) as Hly. rewrite Ec in Hly. destruct (layout_take _ _ _ _ _ _ Hly Hn) as [Hnone Hly'].
  exists (set_u_freep (fst x) (set_u_mem m' u)), (c ++ rest_of y n ++ b). split; [done|]. split; [done|].
  assert (x ∈ (base, 0) :: fl) as Hxin by (rewrite Hring; apply elem_of_app; right; by left). destruct T as [T1 T2 T3 T4 T5]. split.
  - assert ((base, 0) :: c ++ rest_of y n ++ b = a ++ x :: rest_of y n ++ b) as Er.
    { change ((base, 0) :: c ++ rest_of y n ++ b) with (((base, 0) :: c) ++ rest_of y n ++ b). by rewrite Ea, <- app_assoc. }
    split; cbn [u_mem set_u_freep set_u_mem u_freep]; rewrite ?T1, ?T2; try apply Hh; try done.
    + rewrite Er. apply links_app. split; [|done]. pose proof (hp_links _ _ _ _ _ Hh) as L. rewrite Hring in L. apply links_app in L as [L _].
      apply (links_frame m); [|done]. intros z Hz q Hq. apply F2 in Hz. apply T3; unfold covers; lia.
    + intros q s Hq. apply lookup_insert_Some in Hq as [[<- <-]|[_ Hq]]; [done|]. rewrite (header_size m); [by apply (hp_sizes _ _ _ _ _ Hh)|].
      intros i Hi. destruct (F4 q s Hq). apply T3; unfold covers; lia.
    + rewrite Er, map_app. apply elem_of_app. right. by left.
  - split; cbn [u_mem set_u_freep set_u_mem u_fate u_os]; [done|done| |done|done]. intros q Hq. apply T3; intros Hin; apply Hq.
    + destruct (node_cases _ _ _ _ _ (hp_layout _ _ _ _ _ Hh) x Hxin) as [->|(? & _)]; [by left|]. right. rewrite <- (owned_base base). exists x.
      split; [done|]. unfold covers. lia.
    + right. exists y. split; [|done]. rewrite Ec. apply elem_of_app. right. by left.
Qed.
End Take.

(** * The search *)

Section Search.
Context `{!SbrkLaws W}.
Variables (u : uproc W) (fl : list block) (live : gmap Z Z) (n : Z).
Hypothesis Hh : heap base h0 u fl live.
Hypothesis Hn : 1 <= n.

(** A block of the size asked for, behind its predecessor. *)
Definition found (o : outcome (uproc W) Z) : Prop :=
  exists a x y b, (base, 0) :: fl = a ++ x :: y :: b /\ n <= snd y /\ o = take_block (fst x) (fst y) (snd y) n u.
(** The list has been searched once around: more memory is asked for. *)
Definition more (fuel : nat) : outcome (uproc W) Z :=
  (let! p' := morecore n in if p' =? 0 then ret 0 else let! next := get_ptr p' in malloc_loop fuel p' next n) u.

Lemma loop_step fuel prevp y : header_at (u_mem u) (fst y) -> rd 4 (u_mem u) (fst y + 8) = snd y ->
  malloc_loop (S fuel) prevp (fst y) n u =
    if n <=? snd y then take_block prevp (fst y) (snd y) n u
    else if fst y =? u_freep u then more fuel else malloc_loop fuel (fst y) (rd 8 (u_mem u) (fst y)) n u.
Proof.
  intros Hy E. cbn [malloc_loop]. rewrite (bind_Ok _ _ _ _ _ (get_size_ok _ _ Hy)), E. destruct (n <=? snd y); [done|].
  erewrite bind_Ok by reflexivity. destruct (fst y =? u_freep u); [done|]. by rewrite (bind_Ok _ _ _ _ _ (get_ptr_ok _ _ Hy)).
Qed.

Lemma search_seg l : forall a x fuel, (base, 0) :: fl = a ++ x :: l -> (length l < fuel)%nat ->
  let o := malloc_loop fuel (fst x) (hd_addr l base) n u in
  found o \/
  (exists b y c, l = b ++ y :: c /\ fst y = u_freep u /\ (forall z, z ∈ b ++ [y] -> snd z < n) /\ o = more (fuel - S (length b))) \/
  (u_freep u ∉ map fst l /\ (forall z, z ∈ l -> snd z < n) /\ exists prev, o = malloc_loop (fuel - length l) prev base n u).
Proof.
  induction l as [|y l IH]; intros a x fuel E Hf o.
  - right. right. split; [apply not_elem_of_nil|]. split; [intros z Hz; by apply elem_of_nil in Hz|]. exists (fst x). cbn [length]. by rewrite Nat.sub_0_r.
  - destruct fuel as [|fuel]; cbn [length] in Hf; [lia|].
    assert (y ∈ (base, 0) :: fl) as Hy by (rewrite E; apply elem_of_app; right; right; by left).
    destruct (node_header u fl live Hh y ltac:(by left)) as (Hyh & _). pose proof (hp_links _ _ _ _ _ Hh) as L. rewrite E in L.
    apply links_app in L as (_ & _ & _ & L1 & L2 & _). unfold o. cbn [hd_addr]. rewrite (loop_step fuel (fst x) y Hyh L2).
    destruct (Z.leb_spec n (snd y)); [left; by exists a, x, y, l|]. destruct (Z.eqb_spec (fst y) (u_freep u)) as [Ey|Ey].
    + right. left. exists [], y, l. split; [done|]. split; [done|]. split; [|cbn [length]; f_equal; lia].
      intros z Hz. by apply list_elem_of_singleton in Hz as ->.
    + rewrite L1. destruct (IH (a ++ [x]) y fuel) as [Hfnd|[(b & z & c & -> & Hz & Hs & Eo)|(Hni & Hs & prev & Eo)]].
      * by rewrite <- app_assoc.
      * lia.
      * by left.
      * right. left. exists (y :: b), z, c. split; [done|]. split; [done|]. split; [|done].
        intros w Hw. cbn [app] in Hw. apply elem_of_cons in Hw as [->|Hw]; [done|by apply Hs].
      * right. right. split; [cbn [map]; apply not_elem_of_cons; by split|]. split; [|by exists prev].
        intros w Hw. apply elem_of_cons in Hw as [->|Hw]; [done|by apply Hs].
Qed.

Lemma sorted_inj x y : x ∈ (base, 0) :: fl -> y ∈ (base, 0) :: fl -> fst x = fst y -> x = y.
Proof.
  intros Hx Hy E. pose proof (ly_sorted _ _ _ _ _ (hp_layout _ _ _ _ _ Hh)) as Ss. apply list_elem_of_split in Hx as (l1 & l2 & Er). rewrite Er in Ss, Hy.
  apply StronglySorted_app in Ss as (S1 & _ & S2). apply StronglySorted_inv in S2 as [_ S2]. rewrite list.Forall_forall in S2.
  apply elem_of_app in Hy as [Hy|Hy]; [destruct (S1 y x Hy ltac:(by left)); lia|]. apply elem_of_cons in Hy as [->|Hy]; [done|]. destruct (S2 y Hy). lia.
Qed.

Lemma search_all fuel : (2 * length ((base, 0%Z) :: fl) < fuel)%nat ->
  let o := malloc_loop fuel (u_freep u) (rd 8 (u_mem u) (u_freep u)) n u in
  found o \/ (forall z, z ∈ (base, 0) :: fl -> snd z < n) /\ exists fuel', (fuel <= fuel' + 2 * length ((base, 0%Z) :: fl))%nat /\ o = more fuel'.
Proof.
  intros Hf o. pose proof (hp_freep _ _ _ _ _ Hh) as Hfr. apply list_elem_of_fmap in Hfr as (x & Ex & Hx).
  apply list_elem_of_split in Hx as Hx'. destruct Hx' as (l1 & l2 & E). pose proof (hp_links _ _ _ _ _ Hh) as L. rewrite E in L. apply links_app in L as (_ & L1 & _).
  pose proof (ly_sorted _ _ _ _ _ (hp_layout _ _ _ _ _ Hh)) as Ss. rewrite E in Ss. apply StronglySorted_app in Ss as (S1 & _ & S2).
  apply StronglySorted_inv in S2 as [_ S2]. rewrite list.Forall_forall in S2.
  assert (length ((base, 0%Z) :: fl) = length l1 + S (length l2))%nat as El by (by rewrite E, length_app). cbn [length] in *.
  unfold o. rewrite Ex, L1. destruct (search_seg l2 l1 x fuel E ltac:(lia)) as [Hfnd|[(b & z & c & -> & Hz & _)|(_ & Hs & prev & ->)]]; [by left| |].
  { exfalso. destruct (S2 z) as [_ ?]; [apply elem_of_app; right; by left|]. lia. }
  (* the base *)
  destruct (node_header u fl live Hh (base, 0) ltac:(left; by left)) as (Hbh & _). pose proof (hp_links _ _ _ _ _ Hh) as (B1 & B2 & _). cbn [fst snd] in *.
  replace (fuel - length l2)%nat with (S (fuel - length l2 - 1)) by lia. rewrite (loop_step _ prev (base, 0) Hbh B2). cbn [fst snd].
  destruct (Z.leb_spec n 0); [lia|]. destruct (Z.eqb_spec base (u_freep u)) as [Eb|Eb].
  - right. split; [|eexists; split; [|reflexivity]; lia]. assert (x = (base, 0)) as -> by (apply sorted_inj; [done|by left|cbn; congruence]).
    intros z Hz. assert (l1 = []) as ->.
    { destruct l1 as [|w l1]; [done|]. injection E as <- _. destruct (S1 (base, 0) (base, 0)); [by left|by left|]. cbn in *. lia. }
    rewrite E in Hz. cbn [app] in Hz. apply elem_of_cons in Hz as [->|Hz]; [cbn; lia|by apply Hs].
  - rewrite B1. destruct (search_seg fl [] (base, 0) (fuel - length l2 - 1) eq_refl ltac:(lia)) as [Hfnd|[(b & z & c & Efl & Hz & Hs' & Eo)|(Hni & _)]].
    + by left.
    + right. split; [|eexists; split; [|exact Eo]; rewrite Efl, length_app in *; cbn [length] in *; lia].
      assert (z = x) as -> by (apply sorted_inj; [rewrite Efl; right; apply elem_of_app; right; by left|done|congruence]).
      intros w Hw. apply elem_of_cons in Hw as [->|Hw]; [cbn; lia|]. rewrite Efl in Hw.
      apply elem_of_app in Hw as [Hw|Hw]; [apply Hs', elem_of_app; by left|]. apply elem_of_cons in Hw as [->|Hw]; [apply Hs', elem_of_app; right; by left|].
      assert (fst x < fst w) as Hxw.
      { pose proof (ly_sorted _ _ _ _ _ (hp_layout _ _ _ _ _ Hh)) as Ss. rewrite Efl in Ss. apply StronglySorted_inv in Ss as [Ss _].
        apply StronglySorted_app in Ss as (_ & _ & Ss). apply StronglySorted_inv in Ss as [_ Ss]. rewrite list.Forall_forall in Ss. destruct (Ss w Hw). lia. }
      assert (w ∈ l1 ++ x :: l2) as Hw' by (rewrite <- E, Efl; right; apply elem_of_app; right; by right).
      apply elem_of_app in Hw' as [Hw'|Hw']; [destruct (S1 w x Hw' ltac:(by left)); lia|]. apply elem_of_cons in Hw' as [->|Hw']; [lia|by apply Hs].
    + exfalso. apply Hni. apply elem_of_cons in Hx as [->|Hx]; [by cbn in Ex|]. rewrite Ex. by apply list_elem_of_fmap_2.
Qed.
End Search.

(** * Properties *)

(** The allocator before its first use, and from then on. *)
Definition unused u : Prop :=
  u_freep u = 0 /\ 0 <= ram_lo (u_mem u) <= base /\ ram_hi (u_mem u) < 2 ^ 31 /\ 0 < base /\ base + 16 <= h0 /\ h0 = ram_hi (u_mem u) /\ h0 mod 16 = 0.
Definition allocator u (live : gmap Z Z) : Prop := (live = ∅ /\ unused u) \/ exists fl, heap base h0 u fl live.

(** What does not belong to the allocator: live blocks, and memory below the heap. *)
Definition kept (live : gmap Z Z) (b : Z) : Prop := (exists a s, live !! a = Some s /\ covers (a, s) b) \/ b < base \/ base + 16 <= b < h0.

Lemma list_not_kept u fl live b : heap base h0 u fl live -> list_byte fl b -> ~ kept live b.
Proof.
  intros Hh Hl Hk. pose proof (hp_layout _ _ _ _ _ Hh) as Hly. destruct (hp_base _ _ _ _ _ Hh) as (_ & B2 & _). destruct Hl as [Hl|Hl].
  - destruct Hk as [(a & s & Ha & Hc)|?]; [|lia]. destruct (ly_live _ _ _ _ _ Hly a s Ha) as (_ & ? & _). unfold covers in Hc. cbn in *. lia.
  - destruct Hk as [(a & s & Ha & Hc)|Hk]; [by apply (ly_apart _ _ _ _ _ Hly a s b)|]. destruct Hl as (x & Hx & Hc).
    destruct (ly_free _ _ _ _ _ Hly x Hx) as (_ & ? & _). unfold covers in Hc. lia.
Qed.

Lemma unused_heap u : unused u ->
  heap base h0 (set_u_mem (wr 4 (base + 8) 0 (wr 8 base base (u_mem u))) (set_u_freep base u)) [] ∅ /\ header_at (u_mem u) base.
Proof.
  intros (U1 & U2 & U3 & U4 & U5 & -> & U7). destruct (wr_bounds 8 base base (u_mem u)) as [W1 W2], (wr_bounds 4 (base + 8) 0 (wr 8 base base (u_mem u))) as [W3 W4].
  split; [|split; [lia|unfold in_ram; rewrite andb_true_iff, !Z.leb_le; lia]].
  split; cbn [u_mem set_u_freep set_u_mem u_freep]; rewrite ?W3, ?W4, ?W1, ?W2; [done|lia| | | |cbn; by left].
  - split; [by repeat constructor|intros x Hx; by apply elem_of_nil in Hx|done|done|done|lia].
  - cbn [links hd_addr fst snd]. split; [by fields|]. split; [by fields|done].
  - done.
Qed.

Section Malloc.
Context `{!SbrkLaws W}.

Lemma heap_os u fl live w : heap base h0 u fl live -> heap base h0 (set_u_os w u) fl live.
Proof. intros [? ? ? ? ? ?]. by split. Qed.

Lemma found_ok u fl live n o : heap base h0 u fl live -> 1 <= n -> found u fl n o ->
  exists u' fl' q, o = Ok (q + 16) u' /\ live !! q = None /\ heap base h0 u' fl' (<[q := n]> live) /\ only (list_byte fl) u u'.
Proof.
  intros Hh Hn (a & x & y & b & E & Hy & ->). destruct (take_ok u fl live a x y b n Hh E ltac:(lia)) as (u' & fl' & Et & Hnone & Hh' & O).
  exists u', fl', (part_of y n). done.
Qed.

Lemma malloc_search_ok u fl live n : heap base h0 u fl live -> 1 <= n < 2 ^ 27 ->
  exists u' r, (let! p := get_ptr (u_freep u) in let! fuel := list_fuel in malloc_loop (2 * fuel + 2) (u_freep u) p n) u = Ok r u' /\
    grown (fun b => ~ kept live b) u u' /\
    ((r = 0 /\ allocator u' live) \/ exists q, r = q + 16 /\ live !! q = None /\ allocator u' (<[q := n]> live)).
Proof.
  intros Hh Hn. pose proof (hp_freep _ _ _ _ _ Hh) as Hf. apply list_elem_of_fmap in Hf as (x & Ex & Hx).
  destruct (node_header u fl live Hh x ltac:(by left)) as (Hxh & _). rewrite Ex, (bind_Ok _ _ _ _ _ (get_ptr_ok _ _ Hxh)), <- Ex.
  unfold list_fuel. erewrite bind_Ok by (erewrite bind_Ok by reflexivity; reflexivity). pose proof (fuel_ok u fl live Hh) as HF.
  set (F := Z.to_nat (ram_hi (u_mem u) / 8)) in *.
  destruct (search_all u fl live n Hh ltac:(lia) (2 * S F + 2) ltac:(lia)) as [Hfnd|(Hsmall & fuel' & Hfuel & ->)].
  { destruct (found_ok u fl live n _ Hh ltac:(lia) Hfnd) as (u' & fl' & q & E & Hnone & Hh' & O). exists u', (q + 16). split; [exact E|]. split.
    - destruct O as [O1 O2 O3 O4 O5]. split; [done|lia| |done]. intros b _ Hk. apply O3. intros Hl. apply Hk. by apply (list_not_kept u fl).
    - right. exists q. split; [done|]. split; [done|]. right. by exists fl'. }
  unfold more. destruct (morecore_ok u fl live n Hh Hn) as [[w E]|(u1 & fl1 & E & Hh1 & Hne & G & Hlen & y & Hy & Hge)]; rewrite (bind_Ok _ _ _ _ _ E).
  { exists (set_u_os w u), 0. split; [done|]. split; [split; [done|cbn; lia|done|done]|]. left. split; [done|]. right. exists fl. by apply heap_os. }
  destruct (Z.eqb_spec (u_freep u1) 0); [done|]. pose proof (hp_freep _ _ _ _ _ Hh1) as Hf1. apply list_elem_of_fmap in Hf1 as (x1 & Ex1 & Hx1).
  destruct (node_header u1 fl1 live Hh1 x1 ltac:(by left)) as (Hxh1 & _). rewrite Ex1, (bind_Ok _ _ _ _ _ (get_ptr_ok _ _ Hxh1)), <- Ex1.
  cbn [length] in *. destruct (search_all u1 fl1 live n Hh1 ltac:(lia) fuel' ltac:(cbn [length]; lia)) as [Hfnd|(Hsmall1 & _)].
  2:{ exfalso. specialize (Hsmall1 y ltac:(by right)). lia. }
  destruct (found_ok u1 fl1 live n _ Hh1 ltac:(lia) Hfnd) as (u' & fl' & q & E' & Hnone & Hh' & O). exists u', (q + 16). split; [exact E'|]. split.
  - apply (grown_only _ _ _ _ _ _ G O). intros b _ [Hl|Hl]; [by apply (list_not_kept u fl)|by apply (list_not_kept u1 fl1)].
  - right. exists q. split; [done|]. split; [done|]. right. by exists fl'.
Qed.

(** C16 [malloc] hands out memory of its own.  On an allocator in any state, asked for at most
    [2^31 - 64] bytes, it returns: 0,
    when the kernel gives no more memory, the live blocks being those there were; or the
    address behind the header of a new block of at least the bytes asked for, aligned to 16.
    The new state is again one in which free and live blocks cover the heap without
    overlapping, and neither the bytes of a live block nor memory outside the heap change. *)
Theorem malloc_spec u live nbytes : allocator u live -> 0 <= nbytes <= 2 ^ 31 - 64 ->
  exists u' r, malloc base nbytes u = Ok r u' /\ grown (fun b => ~ kept live b) u u' /\
    ((r = 0 /\ allocator u' live) \/
     exists n, r mod 16 = 0 /\ nbytes <= 16 * (n - 1) /\ live !! (r - 16) = None /\ allocator u' (<[r - 16 := n]> live)).
Proof.
  intros HA Hnb. unfold malloc, Header_size. rewrite (u32_small nbytes) by (unfold is_u32; lia).
  pose proof (Z.div_mod (nbytes + 16 - 1) 16 ltac:(done)). pose proof (Z.mod_pos_bound (nbytes + 16 - 1) 16 ltac:(done)).
  rewrite u32_small by (unfold is_u32; lia). set (n := (nbytes + 16 - 1) / 16 + 1) in *. erewrite bind_Ok by reflexivity.
  assert (exists u1 fl, heap base h0 u1 fl live /\ grown (fun b => ~ kept live b) u u1 /\
    (if u_freep u =? 0 then set_freep base;; set_ptr base base;; set_size base 0;; ret base else ret (u_freep u)) u = Ok (u_freep u1) u1) as (u1 & fl & Hh & G & E).
  { destruct HA as [[-> HU]|[fl Hh]].
    - destruct (unused_heap u HU) as [Hh Hb]. eexists _, []. split; [exact Hh|]. destruct HU as (-> & HU). split.
      + destruct (wr_bounds 8 base base (u_mem u)) as [W1 W2], (wr_bounds 4 (base + 8) 0 (wr 8 base base (u_mem u))) as [W3 W4].
        split; cbn [u_mem set_u_mem set_u_freep]; [congruence|rewrite W4, W2; lia| |done]. intros b _ Hk. rewrite !peek_wr_other; [done| |]; (destruct (decide (base <= b < base + 16)); [|lia]); exfalso; apply Hk;
          intros [(a1 & s & Ha & _)|Ha]; (done || lia).
      + cbn [Z.eqb]. erewrite bind_Ok by reflexivity. rewrite (bind_Ok _ _ _ _ _ (set_ptr_ok base base (set_u_freep base u) Hb)).
        rewrite (bind_Ok _ _ _ _ _ (set_size_ok base 0 (set_u_mem _ (set_u_freep base u)) (header_at_wr _ _ _ _ _ Hb))). done.
    - exists u, fl. split; [done|]. split; [by split; [|lia| |]|]. pose proof (hp_freep _ _ _ _ _ Hh) as Hf. apply list_elem_of_fmap in Hf as (x & -> & Hx).
      destruct (node_header u fl live Hh x ltac:(by left)) as ([? _] & _). destruct (Z.eqb_spec (fst x) 0); [lia|done]. }
  rewrite (bind_Ok _ _ _ _ _ E). destruct (malloc_search_ok u1 fl live n Hh ltac:(unfold n; lia)) as (u' & r & E' & G' & D).
  exists u', r. split; [exact E'|]. split.
  - destruct G as [G1 G2 G3 G4], G' as [K1 K2 K3 K4]. split; [congruence|lia| |congruence]. intros b Hb Hk. rewrite K3 by (done || lia). by apply G3.
  - destruct D as [?|(q & -> & Hnone & HA')]; [by left|right]. exists n. replace (q + 16 - 16) with q by lia. split; [|split; [lia|done]].
    destruct HA' as [[Hem _]|[fl' Hh']]; [by apply insert_non_empty in Hem|].
    destruct (ly_live _ _ _ _ _ (hp_layout _ _ _ _ _ Hh') q n (lookup_insert_eq _ _ _)) as (_ & _ & _ & Hq). cbn in Hq. rewrite Z.add_mod, Hq by done. done.
Qed.

(** C17 [free] makes a live block free.  Given the address [malloc] returned for a block that
    is still live, it returns, the other live blocks stay as they are, and the block is
    available again: what is free and what is live cover the heap without overlapping. *)
Theorem free_spec u live bp bs : allocator u live -> live !! bp = Some bs ->
  exists u', free (bp + 16) u = Ok tt u' /\ allocator u' (delete bp live) /\ u_os u' = u_os u /\
    ram_hi (u_mem u') = ram_hi (u_mem u) /\ forall b, kept (delete bp live) b -> peek (u_mem u') b = peek (u_mem u) b.
Proof.
  intros [[-> _]|[fl Hh]] Hb; [done|]. destruct (free_ok u fl live bp bs Hh Hb) as (u' & fl' & E & Hh' & [O1 O2 O3 O4 O5] & _).
  exists u'. split; [done|]. split; [right; by exists fl'|]. split; [done|]. split; [done|]. intros b Hk. apply O3. intros [Hl|Hc].
  - apply (list_not_kept u fl live b Hh Hl). destruct Hk as [(a & s & Ha & Hc)|?]; [left|by right]. exists a, s. split; [|done].
    by apply lookup_delete_Some in Ha as [_ Ha].
  - destruct (ly_live _ _ _ _ _ (hp_layout _ _ _ _ _ Hh) bp bs Hb) as (_ & B2 & _). destruct (hp_base _ _ _ _ _ Hh) as (_ & ? & _).
    unfold covers in Hc. cbn [fst snd] in *. destruct Hk as [(a & s & Ha & Hc')|?]; [|lia]. apply lookup_delete_Some in Ha as [Hne Ha].
    apply Hne. by apply (ly_apart2 _ _ _ _ _ (hp_layout _ _ _ _ _ Hh) bp bs a s b).
Qed.
End Malloc.
End Heap.
End Proofs.

(** * At work *)

Definition fresh_proc : uproc sim := sim_proc (mkMem 0 8192 ∅) [].

Lemma malloc_spec_witness : exists u', malloc 4096 24 fresh_proc = Ok 73696 u' /\ allocator 4096 8192 u' {[73680 := 3]}.
Proof.
  destruct (malloc_spec 4096 8192 fresh_proc ∅ 24) as (u' & r & E & _ & D).
  - left. split; [reflexivity|]. vm_compute. repeat split; discriminate.
  - lia.
  - assert (match malloc 4096 24 fresh_proc with Ok r v => (r, peek (u_mem v) 73688) | _ => (0, 0) end = (73696, 3)) as Hc by (vm_compute; reflexivity).
    rewrite E in Hc. assert (r = 73696) as -> by exact (f_equal fst Hc). exists u'. split; [exact E|].
    destruct D as [[D _]|(n & _ & _ & _ & HA)]; [discriminate D|]. replace (73696 - 16) with 73680 in HA by lia.
    destruct HA as [[Hem _]|[fl Hh]]; [exfalso; exact (insert_non_empty _ _ _ Hem)|].
    assert (n = 3) as ->.
    { rewrite <- (hp_sizes _ _ _ _ _ Hh 73680 n (lookup_insert_eq _ _ _)).
      assert (match malloc 4096 24 fresh_proc with Ok r v => rd 4 (u_mem v) (73680 + 8) | _ => 0 end = 3) as Hd by (vm_compute; reflexivity).
      rewrite E in Hd. exact Hd. }
    right. exists fl. exact Hh.
Defined.

(** A free block of two units and a live one behind it. *)
Definition small_mem : memory :=
  mkMem 0 8256 (list_to_map [(4097, 32); (8193, 16); (8200, 2); (8232, 2)]).
Definition small_proc : uproc sim := set_u_freep 4096 (sim_proc small_mem []).

Lemma small_heap : heap 4096 8192 small_proc [(8192, 2)] {[8224 := 2]}.
Proof.
  split; [vm_compute; done|vm_compute; done| |vm_compute; done| |cbn; by left].
  - split.
    + repeat constructor; unfold before; cbn; lia.
    + intros x Hx. apply list_elem_of_singleton in Hx as ->. vm_compute. repeat split; discriminate.
    + intros a s Ha. apply lookup_singleton_Some in Ha as [<- <-]. vm_compute. repeat split; discriminate.
    + intros a s b Ha Hc (x & Hx & Hb). apply lookup_singleton_Some in Ha as [<- <-]. apply list_elem_of_singleton in Hx as ->. unfold covers in *. cbn in *. lia.
    + intros a s a' s' b Ha Ha' _ _. apply lookup_singleton_Some in Ha as [<- _]. by apply lookup_singleton_Some in Ha' as [<- _].
    + intros b Hb. cbn in Hb. destruct (Z.lt_ge_cases b 8224).
      * left. exists (8192, 2). split; [by left|]. unfold covers. cbn. lia.
      * right. exists 8224, 2. split; [done|]. unfold covers. cbn. lia.
  - intros a s Ha. apply lookup_singleton_Some in Ha as [<- <-]. vm_compute. done.
Qed.

Lemma free_spec_witness : exists u', free 8240 small_proc = Ok tt u' /\ allocator 4096 8192 u' ∅ /\ rd 4 (u_mem u') 8200 = 4.
Proof.
  destruct (free_spec 4096 8192 small_proc {[8224 := 2]} 8224 2) as (u' & E & HA & _).
  - right. exists [(8192, 2)]. exact small_heap.
  - reflexivity.
  - exists u'. split; [exact E|]. split; [rewrite delete_singleton_eq in HA; exact HA|].
    assert (match free 8240 small_proc with Ok _ v => rd 4 (u_mem v) 8200 | _ => 0 end = 4) as Hc by (vm_compute; reflexivity).
    change (8224 + 16) with 8240 in E. rewrite E in Hc. exact Hc.
Defined.
