(* ===== verification/UGrepProofs.v ===== *)
(** grep prints the lines that match, whatever the pieces in which the kernel delivers the
    file ([grep_spec]). *)
From stdpp Require Import base gmap list numbers strings tactics.
From S2P Require Import Prelude Mem KBytes Ram UMachine ULib UGrep.

(** * Lines *)

(** The complete lines of a text, and what is behind the last newline. *)
Fixpoint split_lines (s : list Z) : list (list Z) * list Z :=
  match s with
  | [] => ([], [])
  | c :: s' =>
      let r := split_lines s' in
      if c =? 10 then ([] :: fst r, snd r)
      else match fst r with [] => ([], c :: snd r) | l :: ls => ((c :: l) :: ls, snd r) end
  end.

(** [ks] are the elements of [ls] with property [P], in order. *)
Inductive selects {A} (P : A -> Prop) : list A -> list A -> Prop :=
| sel_nil : selects P [] []
| sel_take x ls ks : P x -> selects P ls ks -> selects P (x :: ls) (x :: ks)
| sel_skip x ls ks : ~ P x -> selects P ls ks -> selects P (x :: ls) ks.

Lemma selects_app {A} (P : A -> Prop) l1 k1 l2 k2 : selects P l1 k1 -> selects P l2 k2 -> selects P (l1 ++ l2) (k1 ++ k2).
Proof. induction 1; intros; cbn; try constructor; auto. Qed.

Definition with_newlines (ls : list (list Z)) : list Z := mjoin (map (fun l => l ++ [10]) ls).

Lemma with_newlines_app l1 l2 : with_newlines (l1 ++ l2) = with_newlines l1 ++ with_newlines l2.
Proof. unfold with_newlines. by rewrite map_app, join_app. Qed.

Lemma split_none s : Forall (fun c => c <> 10) s -> split_lines s = ([], s).
Proof. induction 1 as [|c s Hc _ IH]; [done|]. cbn. rewrite IH. by destruct (Z.eqb_spec c 10). Qed.

Lemma split_line l s : Forall (fun c => c <> 10) l -> split_lines (l ++ 10 :: s) = (l :: fst (split_lines s), snd (split_lines s)).
Proof. induction 1 as [|c l Hc _ IH]; [done|]. cbn [app split_lines]. rewrite IH. by destruct (Z.eqb_spec c 10). Qed.

Lemma line_cases s : Forall (fun c => c <> 10) s \/ exists l s', s = l ++ 10 :: s' /\ Forall (fun c => c <> 10) l.
Proof.
  induction s as [|c s [IH|(l & s' & -> & IH)]]; [by left; constructor| |].
  - destruct (decide (c = 10)) as [->|Hc]; [right; by exists [], s|left; by constructor].
  - right. destruct (decide (c = 10)) as [->|Hc]; [by exists [], (l ++ 10 :: s')|]. exists (c :: l), s'. split; [done|by constructor].
Qed.

(** Induction over the lines of a text. *)
Lemma lines_ind (P : list Z -> Prop) :
  (forall s, Forall (fun c => c <> 10) s -> P s) ->
  (forall l s, Forall (fun c => c <> 10) l -> P s -> P (l ++ 10 :: s)) -> forall s, P s.
Proof.
  intros H1 H2. enough (forall n s, (length s < n)%nat -> P s) as H by (intros s; by apply (H (S (length s))); lia).
  induction n as [|n IH]; intros s Hn; [lia|]. destruct (line_cases s) as [Hs|(l & s' & -> & Hl)]; [by apply H1|].
  apply H2; [done|]. apply IH. rewrite length_app in Hn. cbn in Hn. lia.
Qed.

Lemma split_rest s : Forall (fun c => c <> 10) (snd (split_lines s)).
Proof. induction s as [s Hs|l s Hl IH] using lines_ind; [by rewrite split_none|by rewrite split_line]. Qed.

Lemma split_app s d : split_lines (s ++ d) =
  (fst (split_lines s) ++ fst (split_lines (snd (split_lines s) ++ d)), snd (split_lines (snd (split_lines s) ++ d))).
Proof.
  induction s as [s Hs|l s Hl IH] using lines_ind; [rewrite (split_none s Hs); cbn [fst snd app]; by destruct (split_lines (s ++ d))|].
  rewrite <- app_assoc. cbn [app]. by rewrite !split_line, IH.
Qed.

(** The rest is the end of the text. *)
Lemma split_suffix s : exists pre, s = pre ++ snd (split_lines s).
Proof.
  induction s as [s Hs|l s Hl [pre IH]] using lines_ind; [exists []; by rewrite split_none|]. rewrite split_line by done.
  exists (l ++ 10 :: pre). cbn [snd]. rewrite <- app_assoc. cbn [app]. by rewrite <- IH.
Qed.

(** * The loop over the lines *)

Section Grep.
Context {W : Type} `{!Sys W} `{!StreamLaws W} `{!TurnFuel}.
Variables (buf pattern : Z) (re : list Z).
Implicit Types u : uproc W.

(** The buffer is in memory, the pattern beside it. *)
Record ready (m : memory) : Prop := {
  rd_ok : Lib.ram_ok m;
  rd_pos : 0 < buf;
  rd_buf : in_ram m buf 1024 = true;
  rd_re : Lib.cstr m pattern re;
  rd_apart : pattern + Z.of_nat (length re) < buf \/ buf + 1024 <= pattern
}.

Lemma ready_changes lo hi m m' : ready m -> changes lo hi m m' -> buf <= lo -> hi <= buf + 1024 -> ready m'.
Proof.
  intros [R1 R2 R3 R4 R5] C Hlo Hhi. split; [by eapply changes_ok|done| | |done].
  - by rewrite (changes_in_ram _ _ _ _ _ _ C).
  - apply (changes_cstr lo hi m); [done|lia|done].
Qed.

(** What the system has seen: nothing read, [out] written to descriptor 1. *)
Record wrote (w w' : W) (out : list Z) : Prop := {
  wr_out : written 1 w' = written 1 w ++ out;
  wr_in : forall fd, unread fd w' = unread fd w
}.

Lemma wrote_refl w : wrote w w [].
Proof. split; [by rewrite app_nil_r|done]. Qed.
Lemma wrote_trans w1 w2 w3 a b : wrote w1 w2 a -> wrote w2 w3 b -> wrote w1 w3 (a ++ b).
Proof. intros [P Q] [P' Q']. split; [by rewrite P', P, app_assoc|intros fd; by rewrite Q', Q]. Qed.

Lemma write_ok a n u : Lib.ram_ok (u_mem u) -> 0 <= n -> in_ram (u_mem u) a n = true ->
  exists r w, write 1 a n u = Ok r (set_u_os w u) /\ wrote (u_os u) w (ram_bytes (u_mem u) a (Z.to_nat n)).
Proof.
  intros Hok Hn Hin. unfold write. rewrite (bind_Ok _ _ (ram_bytes (u_mem u) a (Z.to_nat n)) u u).
  2:{ apply on_umem_pure, load_bytes_ok; [done|]. by rewrite Z2Nat.id. }
  unfold write_local, call. destruct (os_write 1 _ (u_os u)) as [r w] eqn:E. exists r, w. split; [done|].
  destruct (write_all _ _ _ _ _ E) as (_ & H1 & _ & H2). by split.
Qed.

(** The newline behind a line becomes its end. *)
Lemma cut_line m p l s : Lib.ram_ok m -> Lib.cstr m p (l ++ 10 :: s) ->
  Lib.cstr (wr 1 (p + Z.of_nat (length l)) 0 m) p l /\ Lib.cstr m (p + Z.of_nat (length l) + 1) s /\
  in_ram m (p + Z.of_nat (length l)) 1 = true /\ in_ram m p (Z.of_nat (length l) + 1) = true /\
  ram_bytes m p (S (length l)) = l ++ [10].
Proof.
  intros Hok Hs. destruct (cstr_app _ _ _ _ Hs) as (B & F & Hq). destruct Hq as (H1 & H2 & _ & H4).
  assert (in_ram m p (Z.of_nat (length l) + 1) = true) as Hi.
  { apply cstr_iff in Hs as (Hi & _). rewrite length_app in Hi. cbn in Hi. apply (in_ram_sub m p (Z.of_nat (length l + S (length s)) + 1)); [done|lia..]. }
  split; [|split; [done|split; [done|split; [done|]]]].
  - apply cstr_iff. rewrite (changes_in_ram _ _ _ _ _ _ (changes_wr 1 _ 0 m)). split; [done|].
    rewrite (changes_bytes _ _ _ _ _ _ (changes_wr 1 _ 0 m)) by lia. split; [done|]. split; [done|]. by rewrite peek_wr1, Z.eqb_refl.
  - replace (S (length l)) with (length l + 1)%nat by lia. rewrite ram_bytes_app, B. f_equal. unfold ram_bytes. cbn.
    by rewrite Z.add_0_r, H2.
Qed.

Lemma try_line_ok p l s u : ready (u_mem u) -> Lib.cstr (u_mem u) p (l ++ 10 :: s) ->
  buf <= p -> p + Z.of_nat (length l) < buf + 1024 ->
  let q := p + Z.of_nat (length l) in
  exists u' (b : bool), try_line pattern p q u = Ok tt u' /\ changes q (q + 1) (u_mem u) (u_mem u') /\
    (b = true <-> Matches re l) /\ wrote (u_os u) (u_os u') (if b then l ++ [10] else []).
Proof.
  intros R Hs Hp Hlt q. destruct (cut_line _ _ _ _ (rd_ok _ R) Hs) as (H0 & _ & Hi & Hj & HB). fold q in H0, Hi.
  pose proof (changes_wr 1 q 0 (u_mem u)) as C. set (m1 := wr 1 q 0 (u_mem u)) in *.
  assert (ready m1) as R1 by (apply (ready_changes q (q + 1) (u_mem u)); [done|done|lia..]).
  unfold try_line. rewrite (bind_Ok _ _ tt u (set_u_mem m1 u)); [|by apply on_umem_Ok, store8_ok].
  destruct (match_ok m1 (rd_ok _ R1) pattern p re l (rd_re _ R1) H0) as (b & Eb & Hb).
  rewrite (bind_Ok _ _ (bit b) _ (set_u_mem m1 u)); [|by apply on_umem_pure]. destruct b; cbn [bit Z.eqb negb].
  - pose proof (changes_wr 1 q 10 m1) as C2. set (m2 := wr 1 q 10 m1) in *.
    rewrite (bind_Ok _ _ tt _ (set_u_mem m2 u)). 2:{ apply on_umem_next, store8_ok. by rewrite (changes_in_ram _ _ _ _ _ _ C). }
    pose proof (changes_trans _ _ _ _ _ C C2) as C3. pose proof (rd_pos _ R) as Hpos.
    assert (u64 (q + 1 - p) = Z.of_nat (S (length l))) as E64 by (unfold q; rewrite u64_small; [lia|unfold is_u64; pose proof (rd_ok _ R) as [? ?]; unfold in_ram in Hj; bool_to_Z; lia]).
    rewrite E64. destruct (write_ok p (Z.of_nat (S (length l))) (set_u_mem m2 u)) as (r & w & Ew & Hw).
    { by apply (changes_ok _ _ _ _ C3), (rd_ok _ R). } { lia. }
    { cbn [u_mem set_u_mem]. rewrite (changes_in_ram _ _ _ _ _ _ C3). by replace (Z.of_nat (S (length l))) with (Z.of_nat (length l) + 1) by lia. }
    rewrite (bind_Ok _ _ _ _ _ Ew). eexists _, true. split; [reflexivity|]. split; [done|]. split; [done|].
    cbn [u_os set_u_os set_u_mem u_mem] in *. rewrite Nat2Z.id in Hw. replace (l ++ [10]) with (ram_bytes m2 p (S (length l))); [done|].
    rewrite <- HB. apply ram_bytes_ext. intros b Hbb. unfold m2, m1. rewrite !peek_wr1. destruct (Z.eqb_spec b q) as [->|]; [|done].
    replace (S (length l)) with (length l + 1)%nat in HB by lia. rewrite ram_bytes_app in HB. apply app_inj_1 in HB as [_ HB]; [|apply ram_bytes_length].
    unfold ram_bytes in HB. cbn in HB. rewrite Z.add_0_r in HB. fold q in HB. by injection HB as ->.
  - eexists _, false. split; [reflexivity|]. split; [done|]. split; [done|]. apply wrote_refl.
Qed.

Lemma lines_loop_ok s : forall fuel p u, ready (u_mem u) -> Lib.cstr (u_mem u) p s ->
  buf <= p -> p + Z.of_nat (length s) < buf + 1024 -> (length s < fuel)%nat ->
  let p' := p + Z.of_nat (length s) - Z.of_nat (length (snd (split_lines s))) in
  exists u' ks, lines_loop fuel pattern p u = Ok p' u' /\ changes p (p + Z.of_nat (length s)) (u_mem u) (u_mem u') /\
    Lib.cstr (u_mem u') p' (snd (split_lines s)) /\ selects (Matches re) (fst (split_lines s)) ks /\
    wrote (u_os u) (u_os u') (with_newlines ks).
Proof.
  induction s as [s Hn|l s Hn IH] using lines_ind; intros [|fuel] p u R Hs Hp Hlt Hf p'; try lia; cbn [lines_loop].
  - unfold p'. rewrite (split_none _ Hn). cbn [fst snd]. pose proof (strchr_ok (u_mem u) 10 s [] p (rd_ok _ R) Hn) as E.
    rewrite app_nil_r in E. rewrite (bind_Ok _ _ 0 u u) by (apply on_umem_pure, E; auto). cbn [Z.eqb].
    exists u, []. replace (p + _ - _) with p by lia. split; [done|]. split; [apply changes_refl|]. split; [done|]. split; [constructor|apply wrote_refl].
  - set (q := p + Z.of_nat (length l)).
    rewrite (bind_Ok _ _ q u u). 2:{ apply on_umem_pure. unfold q. rewrite (strchr_ok _ 10 l (10 :: s) p (rd_ok _ R) Hn); [done|done|by right; exists s|done]. }
    pose proof (rd_pos _ R). destruct (Z.eqb_spec q 0); [lia|]. rewrite length_app in *. cbn [length] in *.
    destruct (try_line_ok p l s u R Hs Hp ltac:(lia)) as (u1 & b & E1 & C1 & Hb & W1). fold q in E1, C1. rewrite (bind_Ok _ _ _ _ _ E1).
    destruct (cut_line _ _ _ _ (rd_ok _ R) Hs) as (_ & Hs' & Hi & _). fold q in Hs', Hi.
    rewrite (Lib.u64_next (u_mem u) q (rd_ok _ R) Hi).
    assert (ready (u_mem u1)) as R1 by (apply (ready_changes q (q + 1) (u_mem u)); [done|done|lia..]).
    destruct (IH fuel (q + 1) u1 R1) as (u' & ks & E & C & Hr & Sel & W2); [|lia..|].
    { apply (changes_cstr q (q + 1) (u_mem u)); [done|lia|done]. }
    exists u', ((if b then [l] else []) ++ ks). unfold p'. rewrite split_line, length_app by done. cbn [fst snd length].
    replace (p + _ - _) with (q + 1 + Z.of_nat (length s) - Z.of_nat (length (snd (split_lines s)))) by lia.
    split; [done|]. split; [|split; [done|split]].
    + apply (changes_trans _ _ _ (u_mem u1)).
      * apply (changes_sub q (q + 1)); [lia|lia|done].
      * apply (changes_sub (q + 1) (q + 1 + Z.of_nat (length s))); [lia|lia|done].
    + apply (selects_app _ [l] _ _ ks); [|done]. destruct b.
      * by apply sel_take, sel_nil; apply Hb.
      * apply sel_skip, sel_nil. intros HM. by apply Hb in HM.
    + rewrite with_newlines_app. replace (with_newlines (if b then [l] else [])) with (if b then l ++ [10] else []).
      2:{ destruct b; [|done]. unfold with_newlines. cbn. by rewrite app_nil_r. }
      eapply wrote_trans; [exact W1|done].
Qed.

(** ** The loop over the file *)

Definition short (s : list Z) : Prop := Forall (fun l => (length l <= 1022)%nat) (fst (split_lines s)) /\ (length (snd (split_lines s)) <= 1022)%nat.
Definition text (s : list Z) : Prop := Forall (fun c => 0 < c < 256) s.

Lemma short_tail t d : Forall (fun c => c <> 10) t -> short (t ++ d) -> (length t <= 1022)%nat.
Proof.
  intros Ht [S1 S2]. destruct (line_cases d) as [Hd|(l & s & -> & Hl)].
  - rewrite split_none in S2 by by apply list.Forall_app. cbn in S2. rewrite length_app in S2. lia.
  - rewrite app_assoc, split_line in S1 by by apply list.Forall_app. cbn in S1. apply list.Forall_cons in S1 as [S1 _].
    rewrite length_app in S1. lia.
Qed.

Lemma short_next s d : short (s ++ d) -> short (snd (split_lines s) ++ d).
Proof. unfold short. rewrite split_app. cbn. rewrite list.Forall_app. tauto. Qed.

Lemma read_stream_ok fd a n u : Lib.ram_ok (u_mem u) -> 0 < n -> in_ram (u_mem u) a n = true ->
  exists bs rest m w, read fd a n u = Ok (Z.of_nat (length bs)) (set_u_mem m (set_u_os w u)) /\
    unread fd (u_os u) = bs ++ rest /\ unread fd w = rest /\ Z.of_nat (length bs) <= n /\ (bs = [] -> rest = []) /\
    (forall fd', written fd' w = written fd' (u_os u)) /\ changes a (a + Z.of_nat (length bs)) (u_mem u) m /\
    (text bs -> ram_bytes m a (length bs) = bs).
Proof.
  intros Hok Hn Hin. unfold read, read_local. unfold call at 1. unfold bind at 1.
  destruct (os_read fd n (u_os u)) as [[r bs] w] eqn:E. destruct (read_some _ _ _ _ _ _ Hn E) as (rest & H1 & H2 & -> & H4 & H5 & H6).
  destruct (store_bytes_ok bs a (u_mem u) Hok) as (m & Em & B1 & B2 & P).
  { apply (in_ram_sub _ a n); [done|lia..]. }
  exists bs, rest, m, w. cbn [fst snd]. rewrite (bind_Ok _ _ tt _ (set_u_mem m (set_u_os w u))). 2:{ apply on_umem_Ok. exact Em. }
  split; [done|]. split; [done|]. split; [done|]. split; [done|]. split.
  { intros ->. rewrite H5 in H1 by done. cbn in H1. done. }
  split; [done|]. split.
  - split; [done|done|]. intros b Hb. rewrite P. destruct (Z.leb_spec a b), (Z.ltb_spec b (a + Z.of_nat (length bs))); try done; lia.
  - intros Ht. apply list_eq_same_length with (length bs); [done|by rewrite ram_bytes_length|]. intros i x y Hi Hx Hy.
    unfold ram_bytes in Hx. rewrite list_lookup_fmap, lookup_seq_lt in Hx by done. cbn in Hx. injection Hx as <-. rewrite P.
    destruct (Z.leb_spec a (a + Z.of_nat i)), (Z.ltb_spec (a + Z.of_nat i) (a + Z.of_nat (length bs))); try lia. cbn [andb].
    replace (Z.to_nat (a + Z.of_nat i - a)) with i by lia. rewrite nth_lookup, Hy. cbn. apply u8_small.
    unfold text in Ht. rewrite list.Forall_lookup in Ht. apply Ht in Hy. unfold is_u8. lia.
Qed.

(** What moves to the front of the buffer. *)
Lemma move_front p n u : ready (u_mem u) -> buf <= p -> p + Z.of_nat n <= buf + 1024 ->
  exists m, on_umem (memmove buf p (Z.of_nat n)) u = Ok buf (set_u_mem m u) /\ changes buf (buf + 1024) (u_mem u) m /\
    ram_bytes m buf n = ram_bytes (u_mem u) p n.
Proof.
  intros R Hp Hn. pose proof (Lib.memmove_ok (u_mem u) buf p (Z.of_nat n) (rd_ok _ R) ltac:(lia)) as Hm.
  pose proof (rd_buf _ R) as Hb. apply wp_Ok in Hm as (r & m & E & -> & B1 & B2 & P); [|apply (in_ram_sub _ buf 1024); [done|lia..]..].
  exists m. split; [apply on_umem_Ok; by rewrite memmove_is_lib|]. split.
  - split; [done|done|]. intros b Hbb. rewrite P. destruct (Z.leb_spec buf b), (Z.ltb_spec b (buf + Z.of_nat n)); try done; lia.
  - unfold ram_bytes. apply map_ext_in. intros i Hi%in_seq. rewrite P.
    destruct (Z.leb_spec buf (buf + Z.of_nat i)), (Z.ltb_spec (buf + Z.of_nat i) (buf + Z.of_nat n)); try lia. cbn [andb]. f_equal. lia.
Qed.

Ltac widen C := eapply changes_sub; [| |exact C]; cbn [length]; lia.

Lemma grep_loop_ok : forall fuel t u fd, ready (u_mem u) -> ram_bytes (u_mem u) buf (length t) = t -> text t ->
  Forall (fun c => c <> 10) t -> text (unread fd (u_os u)) -> short (t ++ unread fd (u_os u)) ->
  (length (unread fd (u_os u)) < fuel)%nat ->
  exists u' ks, grep_loop buf fuel pattern fd (Z.of_nat (length t)) u = Ok tt u' /\ changes buf (buf + 1024) (u_mem u) (u_mem u') /\
    unread fd (u_os u') = [] /\ selects (Matches re) (fst (split_lines (t ++ unread fd (u_os u)))) ks /\
    written 1 (u_os u') = written 1 (u_os u) ++ with_newlines ks.
Proof.
  induction fuel as [|fuel IH]; intros t u fd R Ht Htt Hn Hd Hs Hf; [lia|]. cbn [grep_loop].
  pose proof (short_tail _ _ Hn Hs) as Hlen. pose proof (rd_buf _ R) as Hb. pose proof (rd_pos _ R) as Hpos.
  pose proof (rd_ok _ R) as [Hlo Hhi]. assert (ram_hi (u_mem u) >= buf + 1024) as Hhi' by (unfold in_ram in Hb; bool_to_Z; lia).
  rewrite u64_small by (unfold is_u64; lia).
  destruct (read_stream_ok fd (buf + Z.of_nat (length t)) (1024 - Z.of_nat (length t) - 1) u (rd_ok _ R)) as (bs & rest & m & w & E & H1 & H2 & H3 & H4 & H5 & C & Hbs);
    [lia|apply (in_ram_sub _ buf 1024); [done|lia..]|].
  rewrite (bind_Ok _ _ _ _ _ E). rewrite H1 in *. destruct bs as [|b0 bs0] eqn:Ebs.
  { exists (set_u_mem m (set_u_os w u)), []. cbn [length Z.of_nat Z.gtb Z.compare]. rewrite (H4 eq_refl) in *. split; [done|].
    split; [widen C|]. split; [done|]. cbn [app]. rewrite app_nil_r, split_none by done.
    split; [constructor|]. cbn. by rewrite H5, app_nil_r. }
  rewrite <- Ebs in *. assert (0 < length bs)%nat as Hbs0 by (rewrite Ebs; cbn; lia). clear Ebs b0 bs0.
  destruct (Z.gtb_spec (Z.of_nat (length bs)) 0) as [_|]; [|lia]. apply list.Forall_app in Hd as [Hd1 Hd2].
  set (s := t ++ bs). replace (Z.of_nat (length t) + Z.of_nat (length bs)) with (Z.of_nat (length s)) by (unfold s; rewrite length_app; lia).
  assert (Z.of_nat (length s) <= 1023) as Hsl by (unfold s; rewrite length_app; lia).
  assert (ram_bytes m buf (length s) = s) as Hsb.
  { unfold s. rewrite length_app, ram_bytes_app. f_equal; [|by apply Hbs]. rewrite (changes_bytes _ _ _ _ _ _ C) by lia. done. }
  rewrite u64_small by (unfold is_u64; lia). destruct (Z.gtb_spec (Z.of_nat (length s)) 0) as [_|]; [|unfold s in *; rewrite length_app in *; lia].
  (* the buffer is a string *)
  assert (changes buf (buf + 1024) (u_mem u) m) as C1 by widen C.
  pose proof (ready_changes _ _ _ _ R C1 ltac:(lia) ltac:(lia)) as R1.
  set (q := buf + Z.of_nat (length s)). pose proof (changes_wr 1 q 0 m) as C2. set (m2 := wr 1 q 0 m) in *.
  rewrite (bind_Ok _ _ tt _ (set_u_mem m2 (set_u_os w u))).
  2:{ apply on_umem_next, store8_ok. apply (in_ram_sub _ buf 1024); [apply R1|unfold q; lia..]. }
  pose proof (ready_changes _ _ _ _ R1 C2 ltac:(unfold q; lia) ltac:(unfold q; lia)) as R2.
  assert (Lib.cstr m2 buf s) as Hc.
  { apply cstr_iff. split; [apply (in_ram_sub _ buf 1024); [apply R2|lia..]|]. rewrite (changes_bytes _ _ _ _ _ _ C2) by (unfold q; lia).
    split; [done|]. split; [|by unfold m2; rewrite peek_wr1, Z.eqb_refl]. unfold s. apply list.Forall_app. split; [eapply list.Forall_impl; [exact Htt|]|eapply list.Forall_impl; [exact Hd1|]]; cbn; intros; lia. }
  destruct (lines_loop_ok s 1025 buf (set_u_mem m2 (set_u_os w u)) R2 Hc) as (u3 & ks & E3 & C3 & Hr & Sel & W3); [lia..|].
  rewrite (bind_Ok _ _ _ _ _ E3). cbn [u_mem set_u_mem u_os set_u_os] in C3, W3.
  set (r := snd (split_lines s)) in *. set (p := buf + Z.of_nat (length s) - Z.of_nat (length r)) in *.
  assert (length r <= length s)%nat as Hrl. { destruct (split_suffix s) as [pre Hpre]. fold r in Hpre. rewrite Hpre, length_app. lia. }
  pose proof (ready_changes _ _ _ _ R2 C3 ltac:(lia) ltac:(lia)) as R3.
  replace (Z.of_nat (length s) - (p - buf)) with (Z.of_nat (length r)) by (unfold p; lia).
  destruct (move_front p (length r) u3 R3) as (m4 & E4 & C4 & Hm4); [unfold p; lia..|].
  rewrite (bind_Ok _ _ (Z.of_nat (length r)) u3 (set_u_mem m4 u3)) by by rewrite (bind_Ok _ _ _ _ _ E4).
  pose proof (ready_changes _ _ _ _ R3 C4 ltac:(lia) ltac:(lia)) as R4. apply cstr_iff in Hr as (_ & Hr & _).
  rewrite Hr in Hm4. pose proof (wr_in _ _ _ W3 fd) as Hu3. rewrite H2 in Hu3.
  destruct (IH r (set_u_mem m4 u3) fd R4 Hm4) as (u' & ks' & E' & C' & Hu & Sel' & W'); cbn [u_os set_u_mem]; rewrite ?Hu3.
  { destruct (split_suffix s) as [pre Hpre]. fold r in Hpre. assert (text s) as Hts by (by apply list.Forall_app). rewrite Hpre in Hts. apply list.Forall_app in Hts as [_ Hts]. exact Hts. }
  { apply split_rest. } { done. } { apply short_next. unfold s. by rewrite <- app_assoc. } { rewrite length_app in Hf. lia. }
  exists u', (ks ++ ks'). split; [done|]. split; [|split; [done|]].
  - eapply changes_trans; [exact C1|]. eapply changes_trans; [widen C2|]. eapply changes_trans; [widen C3|].
    eapply changes_trans; [exact C4|exact C'].
  - cbn [u_os set_u_mem] in Sel', W'. rewrite Hu3 in Sel'. rewrite app_assoc. fold s. rewrite split_app. cbn [fst]. fold r.
    split; [by apply selects_app|]. rewrite W', (wr_out _ _ _ W3), H5, with_newlines_app. by rewrite app_assoc.
Qed.

(** C20 [grep] prints exactly the lines that match.  For a file of text whose lines are no
    longer than 1022 characters, delivered by the kernel in whatever pieces, [grep] returns
    at the end of the file, having written to descriptor 1 the complete lines that match the
    pattern, in order, each with its newline (a last line without one is dropped), and
    having changed its buffer only. *)
Theorem grep_spec u fd : ready (u_mem u) -> text (unread fd (u_os u)) -> short (unread fd (u_os u)) ->
  (length (unread fd (u_os u)) < turn_fuel)%nat ->
  exists u' ks, grep buf pattern fd u = Ok tt u' /\ changes buf (buf + 1024) (u_mem u) (u_mem u') /\
    unread fd (u_os u') = [] /\ selects (Matches re) (fst (split_lines (unread fd (u_os u)))) ks /\
    written 1 (u_os u') = written 1 (u_os u) ++ with_newlines ks.
Proof.
  intros R Ht Hs Hf. destruct (grep_loop_ok turn_fuel [] u fd R) as (u' & ks & G); [done|constructor|constructor|done|done|done|].
  by exists u', ks.
Qed.
End Grep.

(** [a.] in the lines [xab], [a] and [ac]. *)
Definition grep_input : list Z := [120; 97; 98; 10; 97; 10; 97; 99; 10; 120].
Definition grep_at_work : uproc sim := sim_proc (mkMem 0 2048 (list_to_map [(8, 97); (9, 46); (10, 0)])) grep_input.
#[local] Instance grep_fuel : TurnFuel := 11%nat.

Lemma grep_spec_witness : exists u' ks, grep 512 8 0 grep_at_work = Ok tt u' /\
  selects (Matches [97; 46]) [[120; 97; 98]; [97]; [97; 99]] ks /\ si_out (u_os u') 1 = with_newlines ks /\
  si_out (u_os u') 1 = [120; 97; 98; 10; 97; 99; 10].
Proof.
  destruct (grep_spec 512 8 [97; 46] grep_at_work 0) as (u' & ks & E & _ & _ & Sel & Hw).
  - split; [split; vm_compute; done|done|vm_compute; done|repeat split; vm_compute; done|cbn; lia].
  - change (text grep_input). unfold text, grep_input. repeat constructor; lia.
  - change (short grep_input). vm_compute. split; [repeat constructor|]; lia.
  - change (length grep_input < 11)%nat. cbn. lia.
  - exists u', ks. split; [exact E|]. split; [exact Sel|]. split; [exact Hw|].
    assert (match grep 512 8 0 grep_at_work with Ok _ v => si_out (u_os v) 1 | _ => [] end = [120; 97; 98; 10; 97; 99; 10]) as Hc by (vm_compute; reflexivity).
    rewrite E in Hc. exact Hc.
Defined.
