(* ===== verification/UProgs.v ===== *)
(** The small programs of src/guest/xv6/user: cat, echo, wc, ls, init, and those that make
    one system call for each argument.

    [argv] is the address of the vector of arguments.  Each program is a group of
    definitions that carry its name. *)
From stdpp Require Import base gmap list numbers strings tactics.
From S2P Require Import Prelude Mem KBytes Ram UMachine ULib.

Definition O_RDWR : Z := 0x002.
Definition O_CREATE : Z := 0x200.
Definition CONSOLE : Z := 1.
Definition T_DIR : Z := 1.
Definition T_FILE : Z := 2.
Definition DIRSIZ : Z := 14.

(** The fields of [struct stat] and [struct dirent]. *)
Definition st_ino (st : list Z) : Z := get_le 4 4 st.
Definition st_type (st : list Z) : Z := sext 16 (get_le 2 8 st).
Definition st_size (st : list Z) : Z := get_le 8 16 st.
Definition de_inum (de : list Z) : Z := get_le 2 0 de.
Definition de_name (de : list Z) : list Z := slice 2 14 de.

Section Programs.
Context {W : Type} `{!Sys W} `{!TurnFuel}.

Definition arg (argv i : Z) : M (uproc W) Z := on_umem (load64 (u64 (argv + 8 * i))).

(** [for(i = from; ...)] over the arguments, with an early [break]. *)
Fixpoint each_arg (k : nat) (argv i : Z) (body : Z -> Z -> M (uproc W) bool) : M (uproc W) unit :=
  match k with
  | O => ret tt
  | S k' =>
      let! a := arg argv i in
      let! go := body i a in
      if go then each_arg k' argv (i + 1) body else ret tt
  end.
Definition args_from (from argc argv : Z) (body : Z -> Z -> M (uproc W) bool) : M (uproc W) unit :=
  each_arg (Z.to_nat (argc - from)) argv from body.

(** * cat.c *)

Section Cat.
Variable buf : Z.            (* char buf[512] *)

Fixpoint cat_loop (fuel : nat) (fd : Z) : M (uproc W) Z :=
  match fuel with
  | O => spin
  | S fuel' =>
      let! n := read fd buf 512 in
      if n >? 0 then
        let! w := write 1 buf n in
        if negb (w =? n) then fprintf 2 (chars "cat: write error" ++ [10]) [] ;; exit 1 else cat_loop fuel' fd
      else ret n
  end.
Definition cat (fd : Z) : M (uproc W) unit :=
  let! n := cat_loop turn_fuel fd in
  if n <? 0 then fprintf 2 (chars "cat: read error" ++ [10]) [] ;; exit 1 else ret tt.
Definition cat_main (argc argv : Z) : M (uproc W) unit :=
  if argc <=? 1 then cat 0 ;; exit 0 else
  args_from 1 argc argv (fun _ a =>
    let! fd := open a 0 in
    if fd <? 0 then fprintf 2 (chars "cat: cannot open %s" ++ [10]) [UPtr a] ;; exit 1 else
    cat fd ;;
    let! _ := close fd in
    ret true) ;;
  exit 0.
End Cat.

(** * echo.c *)

Definition echo_main (argc argv : Z) : M (uproc W) unit :=
  args_from 1 argc argv (fun i a =>
    let! n := on_umem (strlen a) in
    let! _ := write 1 a n in
    let! _ := write_local 1 (if i + 1 <? argc then [32] else [10]) in
    ret true) ;;
  exit 0.

(** * wc.c *)

Section Wc.
Variable buf : Z.            (* char buf[512] *)

(** Lines, words and characters so far, and whether the last character is in a word. *)
Definition counts : Type := Z * Z * Z * bool.
Definition wc_char (ch : Z) (k : counts) : counts :=
  let '(l, w, c, inword) := k in
  let c := i32 (c + 1) in
  let l := if ch =? 10 then i32 (l + 1) else l in
  if in_lit [32; 13; 9; 10; 11] ch then (l, w, c, false)
  else if negb inword then (l, i32 (w + 1), c, true) else (l, w, c, inword).

Fixpoint wc_buf (k : nat) (i : Z) (s : counts) : M (uproc W) counts :=
  match k with
  | O => ret s
  | S k' => let! ch := on_umem (load8 (u64 (buf + i))) in wc_buf k' (i + 1) (wc_char ch s)
  end.
Fixpoint wc_loop (fuel : nat) (fd : Z) (s : counts) : M (uproc W) (Z * counts) :=
  match fuel with
  | O => spin
  | S fuel' =>
      let! n := read fd buf 512 in
      if n >? 0 then let! s' := wc_buf (Z.to_nat n) 0 s in wc_loop fuel' fd s' else ret (n, s)
  end.
Definition wc (fd name : Z) : M (uproc W) unit :=
  let! r := wc_loop turn_fuel fd (0, 0, 0, false) in
  let '(n, (l, w, c, _)) := r in
  if n <? 0 then printf (chars "wc: read error" ++ [10]) [] ;; exit 1 else
  printf (chars "%d %d %d %s" ++ [10]) [UInt l; UInt w; UInt c; UPtr name].

(** [empty] is the address of the literal "". *)
Definition wc_main (empty argc argv : Z) : M (uproc W) unit :=
  if argc <=? 1 then wc 0 empty ;; exit 0 else
  args_from 1 argc argv (fun _ a =>
    let! fd := open a 0 in
    if fd <? 0 then printf (chars "wc: cannot open %s" ++ [10]) [UPtr a] ;; exit 1 else
    wc fd a ;;
    let! _ := close fd in
    ret true) ;;
  exit 0.
End Wc.

(** * ls.c *)

Section Ls.
Variables fmt_buf ls_buf : Z.            (* static char buf[DIRSIZ+1], char buf[512] *)

(** Back to the last slash, or to the character before the string. *)
Fixpoint last_slash (fuel : nat) (path p : Z) : M (uproc W) Z :=
  match fuel with
  | O => spin
  | S fuel' =>
      if p <? path then ret p else
      let! c := on_umem (load8 p) in
      if c =? 47 then ret p else last_slash fuel' path (p - 1)
  end.
Definition fmtname (path : Z) : M (uproc W) Z :=
  let! n := on_umem (strlen path) in
  let! q := last_slash (S (S (Z.to_nat n))) path (path + n) in
  let p := q + 1 in
  let! k := on_umem (strlen p) in
  if k >=? DIRSIZ then ret p else
  let! _ := on_umem (memmove fmt_buf p k) in
  let! _ := on_umem (memset (u64 (fmt_buf + k)) 32 (DIRSIZ - k)) in
  ret fmt_buf.

Fixpoint ls_entries (fuel : nat) (fd p : Z) : M (uproc W) unit :=
  match fuel with
  | O => spin
  | S fuel' =>
      let! r := read_local fd 16 in
      if negb (fst r =? 16) then ret tt else
      let de := snd r in
      if de_inum de =? 0 then ls_entries fuel' fd p else
      on_umem (store_bytes p (de_name de)) ;;
      on_umem (store8 (u64 (p + DIRSIZ)) 0) ;;
      let! s := stat ls_buf in
      if fst s <? 0 then printf (chars "ls: cannot stat %s" ++ [10]) [UPtr ls_buf] ;; ls_entries fuel' fd p else
      let! name := fmtname ls_buf in
      let st := snd s in
      printf (chars "%s %d %d %d" ++ [10]) [UPtr name; UInt (st_type st); UInt (st_ino st); UInt (st_size st)] ;;
      ls_entries fuel' fd p
  end.

Definition ls_at (path fd : Z) : M (uproc W) unit :=
  let! r := fstat fd in
  if fst r <? 0 then fprintf 2 (chars "ls: cannot stat %s" ++ [10]) [UPtr path] ;; let! _ := close fd in ret tt else
  let st := snd r in
  (if st_type st =? T_FILE then
     let! name := fmtname path in
     printf (chars "%s %d %d %l" ++ [10]) [UPtr name; UInt (st_type st); UInt (st_ino st); UInt (st_size st)]
   else if st_type st =? T_DIR then
     let! n := on_umem (strlen path) in
     if n + 1 + DIRSIZ + 1 >? 512 then printf (chars "ls: path too long" ++ [10]) [] else
     let! _ := on_umem (strcpy ls_buf path) in
     let! k := on_umem (strlen ls_buf) in
     on_umem (store8 (u64 (ls_buf + k)) 47) ;;
     ls_entries turn_fuel fd (u64 (ls_buf + k + 1))
   else ret tt) ;;
  let! _ := close fd in
  ret tt.
Definition ls (path : Z) : M (uproc W) unit :=
  let! fd := open path 0 in
  if fd <? 0 then fprintf 2 (chars "ls: cannot open %s" ++ [10]) [UPtr path] else ls_at path fd.

(** [dot] is the address of the literal ".". *)
Definition ls_main (dot argc argv : Z) : M (uproc W) unit :=
  if argc <? 2 then ls dot ;; exit 0 else
  args_from 1 argc argv (fun _ a => ls a ;; ret true) ;;
  exit 0.
End Ls.

(** * kill.c, ln.c, mkdir.c, rm.c, zombie.c *)

Definition kill_main (argc argv : Z) : M (uproc W) unit :=
  if argc <? 2 then fprintf 2 (chars "usage: kill pid..." ++ [10]) [] ;; exit 1 else
  args_from 1 argc argv (fun _ a => let! pid := on_umem (atoi a) in let! _ := kill pid in ret true) ;;
  exit 0.

Definition ln_main (argc argv : Z) : M (uproc W) unit :=
  if negb (argc =? 3) then fprintf 2 (chars "Usage: ln old new" ++ [10]) [] ;; exit 1 else
  let! old := arg argv 1 in
  let! new := arg argv 2 in
  let! r := link old new in
  (if r <? 0 then fprintf 2 (chars "link %s %s: failed" ++ [10]) [UPtr old; UPtr new] else ret tt) ;;
  exit 0.

Definition mkdir_main (argc argv : Z) : M (uproc W) unit :=
  if argc <? 2 then fprintf 2 (chars "Usage: mkdir files..." ++ [10]) [] ;; exit 1 else
  args_from 1 argc argv (fun _ a =>
    let! r := mkdir a in
    if r <? 0 then fprintf 2 (chars "mkdir: %s failed to create" ++ [10]) [UPtr a] ;; ret false else ret true) ;;
  exit 0.

Definition rm_main (argc argv : Z) : M (uproc W) unit :=
  if argc <? 2 then fprintf 2 (chars "Usage: rm files..." ++ [10]) [] ;; exit 1 else
  args_from 1 argc argv (fun _ a =>
    let! r := unlink a in
    if r <? 0 then fprintf 2 (chars "rm: %s failed to delete" ++ [10]) [UPtr a] ;; ret false else ret true) ;;
  exit 0.

Definition zombie_main : M (uproc W) unit :=
  let! pid := fork in
  (if pid >? 0 then let! _ := sleep 5 in ret tt else ret tt) ;;
  exit 0.

(** * init.c *)

Definition open_console : M (uproc W) Z := call (os_open (chars "console") O_RDWR).

(** Wait for the shell; children without a parent end up here too. *)
Fixpoint init_wait (fuel : nat) (pid : Z) : M (uproc W) unit :=
  match fuel with
  | O => spin
  | S fuel' =>
      let! wpid := wait 0 in
      if wpid =? pid then ret tt
      else if wpid <? 0 then printf (chars "init: wait returned an error" ++ [10]) [] ;; exit 1
      else init_wait fuel' pid
  end.

(** [exec("sh", argv)] with the vector [argv = { "sh", 0 }]. *)
Definition exec_sh : M (uproc W) unit :=
  let! r := call (os_exec (chars "sh") [chars "sh"]) in
  if r <? 0 then ret tt else modify (set_u_fate (Some (Execed (chars "sh") [chars "sh"]))) ;; panic.

Fixpoint init_loop (fuel : nat) : M (uproc W) unit :=
  match fuel with
  | O => spin
  | S fuel' =>
      printf (chars "init: starting sh" ++ [10]) [] ;;
      let! pid := fork in
      if pid <? 0 then printf (chars "init: fork failed" ++ [10]) [] ;; exit 1 else
      (if pid =? 0 then exec_sh ;; printf (chars "init: exec sh failed" ++ [10]) [] ;; exit 1 else ret tt) ;;
      init_wait turn_fuel pid ;;
      init_loop fuel'
  end.

Definition init_main : M (uproc W) unit :=
  let! fd := open_console in
  (if fd <? 0 then
     let! _ := call (os_mknod (chars "console") CONSOLE 0) in
     let! _ := open_console in ret tt
   else ret tt) ;;
  let! _ := dup 0 in
  let! _ := dup 0 in
  init_loop turn_fuel.

(** * forktest.c, stressfs.c *)

Definition print (s : list Z) : M (uproc W) unit := let! _ := write_local 1 s in ret tt.

(** Fork until it fails, at most [N] times; the number of children. *)
Fixpoint fork_loop (k : nat) (n : Z) : M (uproc W) Z :=
  match k with
  | O => ret n
  | S k' =>
      let! pid := fork in
      if pid <? 0 then ret n else if pid =? 0 then exit 0 else fork_loop k' (n + 1)
  end.
Fixpoint wait_loop (k : nat) : M (uproc W) unit :=
  match k with
  | O => ret tt
  | S k' =>
      let! r := wait 0 in
      if r <? 0 then print (chars "wait stopped early" ++ [10]) ;; exit 1 else wait_loop k'
  end.
Definition forktest (N : Z) : M (uproc W) unit :=
  print (chars "fork test" ++ [10]) ;;
  let! n := fork_loop (Z.to_nat N) 0 in
  if n =? N then print (chars "fork claimed to work N times!" ++ [10]) ;; exit 1 else
  wait_loop (Z.to_nat n) ;;
  let! r := wait 0 in
  if negb (r =? -1) then print (chars "wait got too many" ++ [10]) ;; exit 1 else
  print (chars "fork test OK" ++ [10]).
Definition forktest_main : M (uproc W) unit := forktest 1000 ;; exit 0.

Fixpoint fork_some (k : nat) (i : Z) : M (uproc W) Z :=
  match k with
  | O => ret i
  | S k' => let! pid := fork in if pid >? 0 then ret i else fork_some k' (i + 1)
  end.
Definition stressfs_main : M (uproc W) unit :=
  printf (chars "stressfs starting" ++ [10]) [] ;;
  let data := replicate 512 97 in
  let! i := fork_some 4 0 in
  printf (chars "write %d" ++ [10]) [UInt i] ;;
  let path := chars "stressfs" ++ [u8 (48 + i)] in
  let! fd := call (os_open path (Z.lor O_CREATE O_RDWR)) in
  for_range 0 20 (fun _ => let! _ := write_local fd data in ret tt) ;;
  let! _ := close fd in
  printf (chars "read" ++ [10]) [] ;;
  let! fd := call (os_open path O_RDONLY) in
  for_range 0 20 (fun _ => let! _ := read_local fd 512 in ret tt) ;;
  let! _ := close fd in
  let! _ := wait 0 in
  exit 0.
End Programs.
