(* ===== verification/USh.v ===== *)
(** The shell (sh.c of src/guest/xv6/user): its parser, which builds a tree of commands in
    allocated memory, and [runcmd], which walks it.

    A command is the address of a structure that begins with its type.  Where the source
    passes [char **ps], a function here takes the pointer and returns it moved. *)
From stdpp Require Import base gmap list numbers strings tactics.
From S2P Require Import Prelude Mem KBytes Ram UMachine ULib UMalloc.

Definition EXEC : Z := 1.
Definition REDIR : Z := 2.
Definition PIPE : Z := 3.
Definition LIST : Z := 4.
Definition BACK : Z := 5.
Definition MAXARGS : Z := 10.

Definition O_WRONLY : Z := 0x001.
Definition O_RDWR : Z := 0x002.
Definition O_CREATE : Z := 0x200.
Definition O_TRUNC : Z := 0x400.

(** The structures: [struct execcmd] has [argv] at 8 and [eargv] at 88; [struct redircmd] has
    [cmd], [file], [efile] at 8, 16, 24, [mode] and [fd] at 32 and 36; the others have one
    or two commands at 8 and 16. *)
Definition EXECCMD_SIZE : Z := 168.
Definition REDIRCMD_SIZE : Z := 40.
Definition PIPECMD_SIZE : Z := 24.
Definition LISTCMD_SIZE : Z := 24.
Definition BACKCMD_SIZE : Z := 16.

Definition whitespace : list Z := [32; 9; 13; 10; 11].
Definition symbols : list Z := chars "<|>&;()".

Section Sh.
Context {W : Type} `{!Sys W} `{!TurnFuel}.
Variable base : Z.      (* the header of the allocator *)

Definition panic {A} (s : list Z) : M (uproc W) A := fprintf 2 (s ++ [10]) [] ;; exit 1.

Definition fork1 : M (uproc W) Z :=
  let! pid := fork in if pid =? -1 then panic (chars "fork") else ret pid.

(** * Constructors *)

Definition field (p off : Z) : M (uproc W) Z := on_umem (load64 (u64 (p + off))).
Definition set_field (p off v : Z) : M (uproc W) unit := on_umem (store64 (u64 (p + off)) v).
Definition field32 (p off : Z) : M (uproc W) Z := on_umem (load32 (u64 (p + off))).
Definition set_field32 (p off v : Z) : M (uproc W) unit := on_umem (store32 (u64 (p + off)) v).

(** Allocate, clear, set the type. *)
Definition new_cmd (size type : Z) : M (uproc W) Z :=
  let! cmd := malloc base size in
  let! _ := on_umem (memset cmd 0 size) in
  set_field32 cmd 0 type ;;
  ret cmd.

Definition execcmd : M (uproc W) Z := new_cmd EXECCMD_SIZE EXEC.
Definition redircmd (subcmd file efile mode fd : Z) : M (uproc W) Z :=
  let! cmd := new_cmd REDIRCMD_SIZE REDIR in
  set_field cmd 8 subcmd ;; set_field cmd 16 file ;; set_field cmd 24 efile ;;
  set_field32 cmd 32 mode ;; set_field32 cmd 36 fd ;;
  ret cmd.
Definition pipecmd (left right : Z) : M (uproc W) Z :=
  let! cmd := new_cmd PIPECMD_SIZE PIPE in
  set_field cmd 8 left ;; set_field cmd 16 right ;; ret cmd.
Definition listcmd (left right : Z) : M (uproc W) Z :=
  let! cmd := new_cmd LISTCMD_SIZE LIST in
  set_field cmd 8 left ;; set_field cmd 16 right ;; ret cmd.
Definition backcmd (subcmd : Z) : M (uproc W) Z :=
  let! cmd := new_cmd BACKCMD_SIZE BACK in
  set_field cmd 8 subcmd ;; ret cmd.

(** * Tokens *)

(** [while(s < es && p( *s)) s++;] *)
Fixpoint skip_while (fuel : nat) (p : Z -> bool) (s es : Z) : M memory Z :=
  match fuel with
  | O => spin
  | S fuel' =>
      if s <? es then
        let! c := load8 s in
        if p c then skip_while fuel' p (u64 (s + 1)) es else ret s
      else ret s
  end.
Definition is_space (c : Z) : bool := in_lit whitespace c.
Definition in_word (c : Z) : bool := negb (in_lit whitespace c) && negb (in_lit symbols c).
Definition skip (p : Z -> bool) (s es : Z) : M memory Z := skip_while (S (Z.to_nat (es - s))) p s es.

(** The token, its two ends, and the pointer behind it and the white space. *)
Definition gettoken (s es : Z) : M memory (Z * Z * Z * Z) :=
  let! q := skip is_space s es in
  let! c := load8 q in
  let! r := (if c =? 0 then ret (c, q)
             else if in_lit (chars "|();&<") c then ret (c, u64 (q + 1))
             else if c =? 62 then
               let! d := load8 (u64 (q + 1)) in
               if d =? 62 then ret (43, u64 (q + 2)) else ret (c, u64 (q + 1))
             else let! eq := skip in_word q es in ret (97, eq)) in
  let '(tok, eq) := r in
  let! s' := skip is_space eq es in
  ret (tok, q, eq, s').

Definition peek (s es : Z) (toks : list Z) : M memory (bool * Z) :=
  let! s' := skip is_space s es in
  let! c := load8 s' in
  ret (negb (c =? 0) && in_lit toks c, s').

(** * The parser *)

Definition peek_at (s es : Z) (toks : list Z) : M (uproc W) (bool * Z) := on_umem (peek s es toks).
Definition token (s es : Z) : M (uproc W) (Z * Z * Z * Z) := on_umem (gettoken s es).
(** A token whose text is not asked for. *)
Definition skip_token (s es : Z) : M (uproc W) (Z * Z) :=
  let! t := token s es in let '(tok, _, _, s') := t in ret (tok, s').

(** Every turn takes two tokens: the characters left are enough fuel. *)
Fixpoint parseredirs_loop (fuel : nat) (cmd s es : Z) : M (uproc W) (Z * Z) :=
  match fuel with
  | O => spin
  | S fuel' =>
      let! b := peek_at s es (chars "<>") in
      if negb (fst b) then ret (cmd, snd b) else
      let! t1 := skip_token (snd b) es in
      let! t2 := token (snd t1) es in
      let '(tok2, q, eq, s2) := t2 in
      if negb (tok2 =? 97) then panic (chars "missing file for redirection") else
      let! cmd' := (if fst t1 =? 60 then redircmd cmd q eq O_RDONLY 0
                    else if fst t1 =? 62 then redircmd cmd q eq (Z.lor (Z.lor O_WRONLY O_CREATE) O_TRUNC) 1
                    else if fst t1 =? 43 then redircmd cmd q eq (Z.lor O_WRONLY O_CREATE) 1
                    else ret cmd) in
      parseredirs_loop fuel' cmd' s2 es
  end.
Definition parseredirs (cmd s es : Z) : M (uproc W) (Z * Z) := parseredirs_loop (S (Z.to_nat (es - s))) cmd s es.

(** The words of a simple command, and its redirections; [cmd] is the command itself, [r]
    what is around it. *)
Fixpoint parse_args (fuel : nat) (cmd r argc s es : Z) : M (uproc W) (Z * Z * Z) :=
  match fuel with
  | O => spin
  | S fuel' =>
      let! b := peek_at s es (chars "|)&;") in
      if fst b then ret (r, argc, snd b) else
      let! t := token (snd b) es in
      let '(tok, q, eq, s1) := t in
      if tok =? 0 then ret (r, argc, s1) else
      if negb (tok =? 97) then panic (chars "syntax") else
      set_field cmd (8 + 8 * argc) q ;;
      set_field cmd (88 + 8 * argc) eq ;;
      if argc + 1 >=? MAXARGS then panic (chars "too many args") else
      let! rs := parseredirs r s1 es in
      parse_args fuel' cmd (fst rs) (argc + 1) (snd rs) es
  end.

(** [while(peek(ps, es, "&"))] *)
Fixpoint parse_backs (fuel : nat) (cmd s es : Z) : M (uproc W) (Z * Z) :=
  match fuel with
  | O => spin
  | S fuel' =>
      let! b := peek_at s es (chars "&") in
      if negb (fst b) then ret (cmd, snd b) else
      let! t := skip_token (snd b) es in
      let! cmd' := backcmd cmd in
      parse_backs fuel' cmd' (snd t) es
  end.

Definition parse_simple (s es : Z) : M (uproc W) (Z * Z) :=
  let! cmd := execcmd in
  let! rs := parseredirs cmd s es in
  let! r := parse_args (S (Z.to_nat (es - s))) cmd (fst rs) 0 (snd rs) es in
  let '(r, argc, s') := r in
  set_field cmd (8 + 8 * argc) 0 ;;
  set_field cmd (88 + 8 * argc) 0 ;;
  ret (r, s').

Fixpoint parseline (fuel : nat) (s es : Z) : M (uproc W) (Z * Z) :=
  match fuel with
  | O => spin
  | S fuel' =>
      let! c := parsepipe fuel' s es in
      let! c := parse_backs (S (Z.to_nat (es - snd c))) (fst c) (snd c) es in
      let! b := peek_at (snd c) es (chars ";") in
      if negb (fst b) then ret (fst c, snd b) else
      let! t := skip_token (snd b) es in
      let! r := parseline fuel' (snd t) es in
      let! cmd := listcmd (fst c) (fst r) in
      ret (cmd, snd r)
  end
with parsepipe (fuel : nat) (s es : Z) : M (uproc W) (Z * Z) :=
  match fuel with
  | O => spin
  | S fuel' =>
      let! c := parseexec fuel' s es in
      let! b := peek_at (snd c) es (chars "|") in
      if negb (fst b) then ret (fst c, snd b) else
      let! t := skip_token (snd b) es in
      let! r := parsepipe fuel' (snd t) es in
      let! cmd := pipecmd (fst c) (fst r) in
      ret (cmd, snd r)
  end
with parseexec (fuel : nat) (s es : Z) : M (uproc W) (Z * Z) :=
  match fuel with
  | O => spin
  | S fuel' =>
      let! b := peek_at s es (chars "(") in
      if fst b then parseblock fuel' (snd b) es else parse_simple (snd b) es
  end
with parseblock (fuel : nat) (s es : Z) : M (uproc W) (Z * Z) :=
  match fuel with
  | O => spin
  | S fuel' =>
      let! b := peek_at s es (chars "(") in
      if negb (fst b) then panic (chars "parseblock") else
      let! t := skip_token (snd b) es in
      let! c := parseline fuel' (snd t) es in
      let! b := peek_at (snd c) es (chars ")") in
      if negb (fst b) then panic (chars "syntax - missing )") else
      let! t := skip_token (snd b) es in
      parseredirs (fst c) (snd t) es
  end.

(** NUL-terminate the words of a command. *)
Fixpoint end_words (k : nat) (cmd i : Z) : M (uproc W) unit :=
  match k with
  | O => spin
  | S k' =>
      let! a := field cmd (8 + 8 * i) in
      if a =? 0 then ret tt else
      let! e := field cmd (88 + 8 * i) in
      on_umem (store8 e 0) ;;
      end_words k' cmd (i + 1)
  end.
Fixpoint nulterminate (fuel : nat) (cmd : Z) : M (uproc W) unit :=
  match fuel with
  | O => spin
  | S fuel' =>
      if cmd =? 0 then ret tt else
      let! type := field32 cmd 0 in
      if type =? EXEC then end_words 11 cmd 0
      else if type =? REDIR then
        let! c := field cmd 8 in nulterminate fuel' c ;;
        let! e := field cmd 24 in on_umem (store8 e 0)
      else if (type =? PIPE) || (type =? LIST) then
        let! l := field cmd 8 in nulterminate fuel' l ;;
        let! r := field cmd 16 in nulterminate fuel' r
      else if type =? BACK then let! c := field cmd 8 in nulterminate fuel' c
      else ret tt
  end.

(** A call of the parser that makes no token is at most the fourth in a row. *)
Definition parsecmd (s : Z) : M (uproc W) Z :=
  let! n := on_umem (strlen s) in
  let es := u64 (s + n) in
  let fuel := (4 * S (Z.to_nat n))%nat in
  let! c := parseline fuel s es in
  let! b := peek_at (snd c) es [] in
  if negb (snd b =? es) then fprintf 2 (chars "leftovers: %s" ++ [10]) [UPtr (snd b)] ;; panic (chars "syntax") else
  nulterminate fuel (fst c) ;;
  ret (fst c).

(** * Running a command *)

Fixpoint runcmd (fuel : nat) (cmd : Z) : M (uproc W) unit :=
  match fuel with
  | O => spin
  | S fuel' =>
      if cmd =? 0 then exit 1 else
      let! type := field32 cmd 0 in
      (if type =? EXEC then
         let! a := field cmd 8 in
         if a =? 0 then exit 1 else
         let! _ := exec a (u64 (cmd + 8)) in
         let! a := field cmd 8 in
         fprintf 2 (chars "exec %s failed" ++ [10]) [UPtr a]
       else if type =? REDIR then
         let! fd := field32 cmd 36 in
         let! _ := close (i32 fd) in
         let! file := field cmd 16 in
         let! mode := field32 cmd 32 in
         let! r := open file (i32 mode) in
         if r <? 0 then
           let! file := field cmd 16 in
           fprintf 2 (chars "open %s failed" ++ [10]) [UPtr file] ;; exit 1
         else let! c := field cmd 8 in runcmd fuel' c
       else if type =? LIST then
         let! pid := fork1 in
         (if pid =? 0 then let! l := field cmd 8 in runcmd fuel' l else ret tt) ;;
         let! _ := wait 0 in
         let! r := field cmd 16 in runcmd fuel' r
       else if type =? PIPE then
         let! p := pipe in
         let '(ok, (p0, p1)) := p in
         if ok <? 0 then panic (chars "pipe") else
         let! pid := fork1 in
         (if pid =? 0 then
            let! _ := close 1 in let! _ := dup p1 in let! _ := close p0 in let! _ := close p1 in
            let! l := field cmd 8 in runcmd fuel' l
          else ret tt) ;;
         let! pid := fork1 in
         (if pid =? 0 then
            let! _ := close 0 in let! _ := dup p0 in let! _ := close p0 in let! _ := close p1 in
            let! r := field cmd 16 in runcmd fuel' r
          else ret tt) ;;
         let! _ := close p0 in let! _ := close p1 in
         let! _ := wait 0 in let! _ := wait 0 in ret tt
       else if type =? BACK then
         let! pid := fork1 in
         if pid =? 0 then let! c := field cmd 8 in runcmd fuel' c else ret tt
       else panic (chars "runcmd")) ;;
      exit 0
  end.

(** * main *)

Definition getcmd (buf nbuf : Z) : M (uproc W) Z :=
  fprintf 2 (chars "$ ") [] ;;
  let! _ := on_umem (memset buf 0 nbuf) in
  let! _ := ULib.gets buf nbuf in
  let! c := on_umem (load8 buf) in
  ret (if c =? 0 then -1 else 0).

(** Ensure that three file descriptors are open. *)
Fixpoint open_three (fuel : nat) : M (uproc W) unit :=
  match fuel with
  | O => spin
  | S fuel' =>
      let! fd := call (os_open (chars "console") O_RDWR) in
      if fd <? 0 then ret tt
      else if fd >=? 3 then let! _ := close fd in ret tt else open_three fuel'
  end.

Fixpoint command_loop (fuel : nat) (buf : Z) : M (uproc W) unit :=
  match fuel with
  | O => spin
  | S fuel' =>
      let! r := getcmd buf 100 in
      if r <? 0 then ret tt else
      let! b0 := on_umem (load8 buf) in
      let! b1 := on_umem (load8 (u64 (buf + 1))) in
      let! b2 := on_umem (load8 (u64 (buf + 2))) in
      if (b0 =? 99) && (b1 =? 100) && (b2 =? 32) then
        let! n := on_umem (strlen buf) in
        on_umem (store8 (u64 (buf + u32 (n - 1))) 0) ;;
        let! r := chdir (u64 (buf + 3)) in
        (if r <? 0 then fprintf 2 (chars "cannot cd %s" ++ [10]) [UPtr (u64 (buf + 3))] else ret tt) ;;
        command_loop fuel' buf
      else
        let! pid := fork1 in
        (if pid =? 0 then let! c := parsecmd buf in runcmd turn_fuel c else ret tt) ;;
        let! _ := wait 0 in
        command_loop fuel' buf
  end.
Definition main (buf : Z) : M (uproc W) unit :=
  open_three turn_fuel ;;
  command_loop turn_fuel buf ;;
  exit 0.
End Sh.
