(* ===== verification/Mkfs.v ===== *)
(** The program that makes the disk image of the guest (src/guest/xv6/mkfs/mkfs.c).

    It runs on the host.  The image is a map from block number to the bytes of the block
    ([lseek] and [read] or [write] of a whole block); the files it copies are lists of
    bytes, which arrive in pieces.  The structures of the file system are laid over bytes by
    the definitions of the kernel ([KFs]), whose headers the program includes. *)
From stdpp Require Import base gmap list numbers strings tactics.
From S2P Require Import Prelude Mem KMachine KBytes KString KFs.

(** The layout; sizes are those of param.h and fs.h. *)
Definition FSSIZE : Z := 1000.
Definition NINODES : Z := 200.
Definition nbitmap : Z := FSSIZE / (BSIZE * 8) + 1.
Definition ninodeblocks : Z := NINODES / IPB + 1.
Definition nlog : Z := LOGSIZE.
Definition nmeta : Z := 2 + nlog + ninodeblocks + nbitmap.
Definition nblocks : Z := FSSIZE - nmeta.

(** The global variables: the image, and the next inode and block to hand out. *)
Record mkfs := mkMkfs { m_img : gmap Z (list Z); m_freeinode : Z; m_freeblock : Z }.
Definition set_m_img (v : gmap Z (list Z)) (s : mkfs) : mkfs := mkMkfs v (m_freeinode s) (m_freeblock s).
Definition set_m_freeinode (v : Z) (s : mkfs) : mkfs := mkMkfs (m_img s) v (m_freeblock s).
Definition set_m_freeblock (v : Z) (s : mkfs) : mkfs := mkMkfs (m_img s) (m_freeinode s) v.

(** [die] and a failed [assert] end the program. *)
Definition die {A} : M mkfs A := Prelude.panic.
Definition assert (b : bool) : M mkfs unit := if b then ret tt else die.

(** Byte order: the host's [ushort] and [uint] are little-endian as well. *)
Definition xshort (x : Z) : Z := le_val [u8 x; u8 (Z.shiftr x 8)].
Definition xint (x : Z) : Z := le_val [u8 x; u8 (Z.shiftr x 8); u8 (Z.shiftr x 16); u8 (Z.shiftr x 24)].

Definition sb : superblock :=
  mkSb FSMAGIC (xint FSSIZE) (xint nblocks) (xint NINODES) (xint nlog) (xint 2) (xint (2 + nlog)) (xint (2 + nlog + ninodeblocks)).

(** [struct superblock] as bytes. *)
Definition sb_bytes (s : superblock) : list Z :=
  le_bytes 4 (sb_magic s) ++ le_bytes 4 (sb_size s) ++ le_bytes 4 (sb_nblocks s) ++ le_bytes 4 (sb_ninodes s) ++
  le_bytes 4 (sb_nlog s) ++ le_bytes 4 (sb_logstart s) ++ le_bytes 4 (sb_inodestart s) ++ le_bytes 4 (sb_bmapstart s).

Definition zeroes : list Z := replicate (Z.to_nat BSIZE) 0.

Definition wsect (sec : Z) (buf : list Z) : M mkfs unit := modify (fun s => set_m_img (<[sec := buf]> (m_img s)) s).
(** Reading past the end of the image fails. *)
Definition rsect (sec : Z) : M mkfs (list Z) :=
  let! s := get in match m_img s !! sec with Some b => ret b | None => die end.

(** An inode of the image is the inode record of the kernel, of which it has the fields of
    [struct dinode]. *)
Definition winode (inum : Z) (ip : inode) : M mkfs unit :=
  let bn := IBLOCK inum sb in
  let! buf := rsect bn in
  wsect bn (dinode_store (dinode_off inum) ip buf).
Definition no_inode : inode := mkInode 0 0 0 (mkSleep 0 "" 0) 0 0 0 0 0 0 (replicate 13 0).
Definition rinode (inum : Z) : M mkfs inode :=
  let! buf := rsect (IBLOCK inum sb) in
  ret (dinode_load (dinode_off inum) buf no_inode).

Definition ialloc (type : Z) : M mkfs Z :=
  let! s := get in
  let inum := m_freeinode s in
  modify (set_m_freeinode (u32 (inum + 1))) ;;
  winode inum (set_i_size (xint 0) (set_i_nlink (xshort 1) (set_i_type (xshort type) no_inode))) ;;
  ret inum.

(** The next free block. *)
Definition take_block : M mkfs Z :=
  let! s := get in
  modify (set_m_freeblock (u32 (m_freeblock s + 1))) ;;
  ret (xint (m_freeblock s)).

(** The first [used] bits of the bitmap are set. *)
Fixpoint set_bits (n : nat) (i : Z) (buf : list Z) : list Z :=
  match n with
  | O => buf
  | S n' => set_bits n' (i + 1) (<[Z.to_nat (i / 8) := Z.lor (nth (Z.to_nat (i / 8)) buf 0) (Z.shiftl 1 (i mod 8))]> buf)
  end.
Definition balloc (used : Z) : M mkfs unit :=
  assert (used <? BSIZE * 8) ;;
  wsect (sb_bmapstart sb) (set_bits (Z.to_nat used) 0 zeroes).

(** The block of the file that holds block [fbn], allocated if need be. *)
Definition file_block (din : inode) (fbn : Z) : M mkfs (Z * inode) :=
  let! _ := assert (fbn <? MAXFILE) in
  if fbn <? NDIRECT then
    let! a := deref (i_addrs din !! Z.to_nat fbn) in
    let! a' := (if xint a =? 0 then take_block else ret a) in
    ret (xint a', set_i_addrs (<[Z.to_nat fbn := a']> (i_addrs din)) din)
  else
    let! a := deref (i_addrs din !! Z.to_nat NDIRECT) in
    let! a' := (if xint a =? 0 then take_block else ret a) in
    let din' := set_i_addrs (<[Z.to_nat NDIRECT := a']> (i_addrs din)) din in
    let! indirect := rsect (xint a') in
    let j := fbn - NDIRECT in
    let! x := (if addr_at indirect j =? 0 then
                 let! b := take_block in
                 wsect (xint a') (put_le 4 (Z.to_nat (4 * j)) b indirect) ;;
                 ret b
               else ret (addr_at indirect j)) in
    ret (xint x, din').

(** Every turn takes at least one of the [n] bytes. *)
Fixpoint iappend_loop (fuel : nat) (din : inode) (p : list Z) (off : Z) : M mkfs (inode * Z) :=
  match p with
  | [] => ret (din, off)
  | _ =>
      match fuel with
      | O => spin
      | S fuel' =>
          let fbn := off / BSIZE in
          let! r := file_block din fbn in
          let n1 := Z.min (Z.of_nat (length p)) ((fbn + 1) * BSIZE - off) in
          let! buf := rsect (fst r) in
          wsect (fst r) (splice (Z.to_nat (off - fbn * BSIZE)) (take (Z.to_nat n1) p) buf) ;;
          iappend_loop fuel' (snd r) (skipn (Z.to_nat n1) p) (u32 (off + n1))
      end
  end.
Definition iappend (inum : Z) (p : list Z) : M mkfs unit :=
  let! din := rinode inum in
  let! r := iappend_loop (length p) din p (xint (i_size din)) in
  winode inum (set_i_size (xint (snd r)) (fst r)).

(** A directory entry with a name of at most [DIRSIZ] bytes ([strcpy], [strncpy] into a
    structure of zeros). *)
Definition dirent (inum : Z) (name : list Z) : list Z := mk_dirent (xshort inum) (arr_strncpy name DIRSIZ).

(** What [read] delivers of a file, piece by piece. *)
Fixpoint append_file (inum : Z) (pieces : list (list Z)) : M mkfs unit :=
  match pieces with [] => ret tt | p :: ps => iappend inum p ;; append_file inum ps end.

Definition user_prefix : list Z := chars "user/".
(** The name of a file in the image: without "user/" in front, then without '_'. *)
Definition shortname (arg : list Z) : list Z :=
  if decide (take 5 arg = user_prefix) then skipn 5 arg else arg.
Definition drop_underscore (name : list Z) : list Z :=
  match name with c :: name' => if c =? 95 then name' else name | [] => [] end.

(** One argument of the command line: its name, and its content, if it can be opened. *)
Definition add_file (rootino : Z) (arg : list Z) (content : option (list (list Z))) : M mkfs unit :=
  let name := shortname arg in
  assert (negb (existsb (Z.eqb 47) name)) ;;
  match content with
  | None => die
  | Some pieces =>
      let name := drop_underscore name in
      let! inum := ialloc T_FILE in
      iappend rootino (dirent inum name) ;;
      append_file inum pieces
  end.
Fixpoint add_files (rootino : Z) (files : list (list Z * option (list (list Z)))) : M mkfs unit :=
  match files with [] => ret tt | (a, c) :: fs => add_file rootino a c ;; add_files rootino fs end.

Definition main (files : list (list Z * option (list (list Z)))) : M mkfs unit :=
  assert (BSIZE mod DINODE_SIZE =? 0) ;;
  assert (BSIZE mod DIRENT_SIZE =? 0) ;;
  modify (set_m_freeblock nmeta) ;;
  for_range 0 FSSIZE (fun i => wsect i zeroes) ;;
  wsect 1 (splice 0 (sb_bytes sb) zeroes) ;;
  let! rootino := ialloc T_DIR in
  assert (rootino =? ROOTINO) ;;
  iappend rootino (dirent rootino [46]) ;;
  iappend rootino (dirent rootino [46; 46]) ;;
  add_files rootino files ;;
  (* the size of the root directory is rounded up to a block *)
  let! din := rinode rootino in
  let off := (xint (i_size din) / BSIZE + 1) * BSIZE in
  winode rootino (set_i_size (xint (u32 off)) din) ;;
  let! s := get in
  balloc (m_freeblock s).

(** Before [main]. *)
Definition start : mkfs := mkMkfs ∅ 1 0.
