(* ===== verification/MkfsBlocks.v ===== *)
(** The blocks of the files of an image (mkfs.c: [iappend]): what the loop of [iappend] keeps
    about all files of the image, while it hands out one block after the other. *)
From stdpp Require Import base gmap list numbers strings tactics.
From S2P Require Import Prelude Mem KMachine KBytes KBio KBioProofs KCrash KFs KBlocks KInode KData KContent Mkfs.

(** * The image *)

Definition view (s : mkfs) : disk := fun b => default [] (m_img s !! b).

(** A file: its inode, its bytes, and how many blocks it has been given. *)
Record mfile := mkFile { f_ino : inode; f_data : list Z; f_count : Z }.

(** Blocks are given to a file in this order: the direct blocks, the indirect block (-1), the
    blocks it points to. *)
Definition turn (i : Z) : Z := if i =? -1 then 12 else if i <? 12 then i else i + 1.
Definition total (F : list mfile) : Z := foldr (fun f n => f_count f + n) 0 F.

(** Only the fields of [struct dinode] are set. *)
Definition plain (r : inode) : Prop :=
  r = set_i_addrs (i_addrs r) (set_i_size (i_size r) (set_i_nlink (i_nlink r) (set_i_minor (i_minor r)
        (set_i_major (i_major r) (set_i_type (i_type r) no_inode))))).

(** A file in the blocks below [fb]. *)
Record file_in (V : disk) (fb : Z) (f : mfile) : Prop := {
  fi_typed : inode_typed (f_ino f);
  fi_plain : plain (f_ino f);
  fi_max : Z.of_nat (length (f_data f)) <= MAXFILE * BSIZE;
  fi_have : forall n, is_slot n -> turn n < f_count f -> nmeta <= slot V (f_ino f) n < fb;
  fi_none : forall n, is_slot n -> f_count f <= turn n -> slot V (f_ino f) n = 0;
  fi_fit : forall p, 0 <= p < Z.of_nat (length (f_data f)) -> turn (p / BSIZE) < f_count f;
  fi_byte : forall p, 0 <= p < MAXFILE * BSIZE -> turn (p / BSIZE) < f_count f ->
    file_byte V (f_ino f) p = nth (Z.to_nat p) (f_data f) 0
}.

Record image (F : list mfile) (s : mkfs) : Prop := {
  im_free : m_freeblock s = nmeta + total F;
  im_range : nmeta <= m_freeblock s <= FSSIZE;
  im_blocks : forall b, 0 <= b < FSSIZE -> exists d, m_img s !! b = Some d /\ length d = Z.to_nat BSIZE;
  im_file : forall i f, F !! i = Some f -> file_in (view s) (m_freeblock s) f;
  im_apart : forall i j f g n m, F !! i = Some f -> F !! j = Some g -> is_slot n -> is_slot m ->
    turn n < f_count f -> turn m < f_count g -> slot (view s) (f_ino f) n = slot (view s) (f_ino g) m -> i = j /\ n = m;
  im_zero : forall b, m_freeblock s <= b < FSSIZE -> view s b = zeroes
}.

(** What appending leaves alone: the part before the data, and the next inode. *)
Definition meta_same (s s' : mkfs) : Prop :=
  m_freeinode s' = m_freeinode s /\ forall x, x < nmeta -> view s' x = view s x.

Lemma meta_same_trans s1 s2 s3 : meta_same s1 s2 -> meta_same s2 s3 -> meta_same s1 s3.
Proof. intros [E1 V1] [E2 V2]. split; [congruence|]. intros x Hx. by rewrite V2, V1. Qed.

(** * Facts of numbers *)

Lemma turn_inj i j : is_slot i -> is_slot j -> turn i = turn j -> i = j.
Proof.
  unfold is_slot, turn. intros Hi Hj. destruct (Z.eqb_spec i (-1)), (Z.eqb_spec j (-1)), (Z.ltb_spec i 12), (Z.ltb_spec j 12); lia.
Qed.
Lemma turn_data bn : 0 <= bn -> turn bn = if bn <? 12 then bn else bn + 1.
Proof. intros Hb. unfold turn. by destruct (Z.eqb_spec bn (-1)); [lia|]. Qed.
Lemma slot_ind : is_slot (-1).
Proof. by unfold is_slot. Qed.
Lemma slot_data bn : 0 <= bn < MAXFILE -> is_slot bn.
Proof. unfold is_slot. lia. Qed.

Lemma nmeta_val : nmeta = 46.
Proof. done. Qed.
Lemma xint_id x : is_u32 x -> xint x = x.
Proof.
  unfold is_u32, xint, u8. cbn [le_val]. intros Hx. rewrite !Z.shiftr_div_pow2 by done.
  pose proof (Z.div_mod x 256 ltac:(done)) as E1. pose proof (Z.div_mod (x / 256) 256 ltac:(done)) as E2.
  pose proof (Z.div_mod (x / 256 / 256) 256 ltac:(done)) as E3.
  rewrite !Z.div_div in * by done. change (2 ^ 8) with 256 in *. change (2 ^ 16) with (256 * 256) in *. change (2 ^ 24) with (256 * 256 * 256) in *.
  rewrite (Z.mod_small (x / (256 * 256 * 256)) 256); [lia|]. split; [apply Z.div_pos; lia|apply Z.div_lt_upper_bound; lia].
Qed.
Lemma block_in_range p : 0 <= p < MAXFILE * BSIZE -> 0 <= p / BSIZE < MAXFILE.
Proof. intros Hp. split; [apply Z.div_pos|apply Z.div_lt_upper_bound]; (lia || done). Qed.

Lemma total_insert F i f g : F !! i = Some f -> total (<[i := g]> F) = total F - f_count f + f_count g.
Proof.
  revert i. induction F as [|h F IH]; intros [|i]; try done; [intros [= ->]; cbn; lia|]. intros E. specialize (IH i E).
  change (f_count h + total (<[i := g]> F) = f_count h + total F - f_count f + f_count g). lia.
Qed.
Lemma total_app F G : total (F ++ G) = total F + total G.
Proof. unfold total. induction F as [|f F IH]; cbn; [done|]. rewrite IH. lia. Qed.

Lemma nth_replicate_0 n m : nth n (replicate m 0) 0 = 0.
Proof. rewrite nth_lookup. destruct (replicate m 0 !! n) eqn:E; [by apply lookup_replicate in E as [-> _]|done]. Qed.

Lemma app_nth n (l m : list Z) : nth n (l ++ m) 0 = if decide (n < length l)%nat then nth n l 0 else nth (n - length l) m 0.
Proof. destruct (decide (n < length l)%nat); [by apply app_nth1|apply app_nth2; lia]. Qed.

(** * Reading and writing a block *)

Lemma rsect_ok F s b : image F s -> 0 <= b < FSSIZE -> rsect b s = Ok (view s b) s /\ length (view s b) = Z.to_nat BSIZE.
Proof.
  intros I Hb. destruct (im_blocks _ _ I b Hb) as (d & E & Hl). unfold view. rewrite E. split; [|done].
  unfold rsect. erewrite bind_Ok by reflexivity. by rewrite E.
Qed.
Lemma view_wsect b d s x : view (set_m_img (<[b := d]> (m_img s)) s) x = if x =? b then d else view s x.
Proof.
  unfold view. cbn. destruct (Z.eqb_spec x b) as [->|Hne]; [by rewrite lookup_insert_eq|]. by rewrite lookup_insert_ne.
Qed.
Lemma blocks_wsect b d s : length d = Z.to_nat BSIZE ->
  (forall x, 0 <= x < FSSIZE -> exists d, m_img s !! x = Some d /\ length d = Z.to_nat BSIZE) ->
  forall x, 0 <= x < FSSIZE -> exists d', <[b := d]> (m_img s) !! x = Some d' /\ length d' = Z.to_nat BSIZE.
Proof.
  intros Hd Hb x Hx. destruct (decide (x = b)) as [->|Hne]; [rewrite lookup_insert_eq; by eexists|].
  rewrite lookup_insert_ne by done. by apply Hb.
Qed.

(** A file depends on its blocks. *)
Lemma file_in_ext V V' fb fb' f :
  file_in V fb f -> fb <= fb' -> (forall n, is_slot n -> turn n < f_count f -> V' (slot V (f_ino f) n) = V (slot V (f_ino f) n)) ->
  file_in V' fb' f /\ forall n, slot V' (f_ino f) n = slot V (f_ino f) n.
Proof.
  intros [T P M Hh Hn Hf Hb] Hfb HV. assert (forall n, slot V' (f_ino f) n = slot V (f_ino f) n) as Hs.
  { intros n. apply slot_ext. intros Hi. apply (HV (-1) slot_ind). destruct (Z.ltb_spec (turn (-1)) (f_count f)); [done|].
    by rewrite <- (Hn (-1) slot_ind) in Hi by done. }
  split; [|done]. split; try done.
  - intros n Hsl Ht. rewrite Hs. specialize (Hh n Hsl Ht). lia.
  - intros n Hsl Ht. rewrite Hs. by apply Hn.
  - intros p Hp Ht. rewrite <- Hb by done. unfold file_byte. pose proof (block_in_range p Hp) as Hr.
    rewrite <- (slot_block V'), Hs, <- (slot_block V) by lia. f_equal. apply HV; [by apply slot_data|done].
Qed.

(** * A file gets one more block *)

Section Add.
Context (F : list mfile) (s s' : mkfs) (i : nat) (f : mfile) (n : Z) (r' : inode).
Context (I : image F s) (E : F !! i = Some f) (Hn : is_slot n) (Ht : turn n = f_count f) (Hroom : m_freeblock s < FSSIZE).
Context (Hfree : m_freeblock s' = m_freeblock s + 1) (Hty : inode_typed r') (Hpl : plain r').
Context (Hblocks : forall b, 0 <= b < FSSIZE -> exists d, m_img s' !! b = Some d /\ length d = Z.to_nat BSIZE).
Context (Hslots : forall m, is_slot m -> slot (view s') r' m = if m =? n then m_freeblock s else slot (view s) (f_ino f) m).
Context (Hview : forall x, (ind_of r' <> 0 -> x <> ind_of r') -> view s' x = view s x).
Notation f' := (mkFile r' (f_data f) (f_count f + 1)).

(** The only block that may change is the indirect block of the file. *)
Lemma add_apart j g m : F !! j = Some g -> is_slot m -> turn m < f_count g -> j <> i \/ 0 <= m ->
  ind_of r' <> 0 -> slot (view s) (f_ino g) m <> ind_of r'.
Proof.
  intros Ej Hm Hc Hd Hi. pose proof (im_file _ _ I j g Ej) as G. pose proof (fi_have _ _ _ G m Hm Hc) as Hr.
  change (ind_of r') with (slot (view s') r' (-1)) in *. rewrite Hslots in * by apply slot_ind.
  destruct (Z.eqb_spec (-1) n); [lia|]. intros Eq. pose proof (im_file _ _ I i f E) as Ff.
  destruct (Z.ltb_spec (turn (-1)) (f_count f)) as [Hlt|Hge]; [|by rewrite (fi_none _ _ _ Ff (-1) slot_ind Hge) in Hi].
  destruct (im_apart _ _ I j i g f m (-1) Ej E Hm slot_ind Hc Hlt Eq). lia.
Qed.

Lemma add_ind : ind_of r' <> 0 -> (n <> -1 -> ind_of r' < m_freeblock s) /\ ind_of r' <= m_freeblock s.
Proof.
  intros Hi. pose proof (im_file _ _ I i f E) as Ff. change (ind_of r') with (slot (view s') r' (-1)) in *.
  rewrite Hslots in * by apply slot_ind. destruct (Z.eqb_spec (-1) n); [lia|].
  destruct (Z.ltb_spec (turn (-1)) (f_count f)) as [Hlt|Hge]; [|by rewrite (fi_none _ _ _ Ff _ slot_ind Hge) in Hi].
  pose proof (fi_have _ _ _ Ff _ slot_ind Hlt). lia.
Qed.

Lemma add_others j g : F !! j = Some g -> j <> i ->
  file_in (view s') (m_freeblock s') g /\ forall m, slot (view s') (f_ino g) m = slot (view s) (f_ino g) m.
Proof.
  intros Ej Hj. apply (file_in_ext (view s) _ (m_freeblock s)); [by apply (im_file _ _ I j)|lia|].
  intros m Hm Hc. apply Hview. intros Hi. apply (add_apart j); try done. by left.
Qed.

Lemma add_byte p : 0 <= p < MAXFILE * BSIZE -> turn (p / BSIZE) < f_count f + 1 -> file_byte (view s') r' p = nth (Z.to_nat p) (f_data f) 0.
Proof.
  intros Hp Hc. pose proof (block_in_range p Hp) as Hr. pose proof (im_file _ _ I i f E) as Ff.
  unfold file_byte. rewrite <- slot_block, Hslots by (lia || by apply slot_data).
  destruct (Z.eqb_spec (p / BSIZE) n) as [En|Hne].
  - rewrite Hview, (im_zero _ _ I) by (lia || (intros Hi; pose proof (proj1 (add_ind Hi)); lia)).
    assert (Z.of_nat (length (f_data f)) <= p) as Hl.
    { destruct (Z.ltb_spec p (Z.of_nat (length (f_data f)))); [|lia]. pose proof (fi_fit _ _ _ Ff p ltac:(lia)). rewrite En in *. lia. }
    rewrite (nth_overflow (f_data f)) by lia. unfold zeroes. apply nth_replicate_0.
  - assert (turn (p / BSIZE) < f_count f) as Hc'.
    { destruct (decide (turn (p / BSIZE) = turn n)) as [Et|]; [|lia]. apply turn_inj in Et; [done|by apply slot_data|done]. }
    rewrite Hview by (intros Hi; apply (add_apart i f); try done; [by apply slot_data|right; lia]).
    rewrite slot_block by lia. by apply (fi_byte _ _ _ Ff).
Qed.

Lemma add_file_in : file_in (view s') (m_freeblock s') f'.
Proof.
  pose proof (im_file _ _ I i f E) as Ff. pose proof (im_range _ _ I). split; cbn [f_ino f_data f_count]; try done.
  - apply Ff.
  - intros m Hm Hc. rewrite Hslots by done. destruct (Z.eqb_spec m n) as [->|Hne]; [lia|].
    assert (turn m <> turn n) by (intros Et; by apply turn_inj in Et). pose proof (fi_have _ _ _ Ff m Hm). lia.
  - intros m Hm Hc. rewrite Hslots by done. destruct (Z.eqb_spec m n) as [->|Hne]; [lia|]. apply Ff; [done|lia].
  - intros p Hp. pose proof (fi_fit _ _ _ Ff p Hp). lia.
  - apply add_byte.
Qed.

(** A block of a file now: the new one, or one from before. *)
Lemma add_slot j g m : <[i := f']> F !! j = Some g -> is_slot m -> turn m < f_count g ->
  (j = i /\ m = n /\ slot (view s') (f_ino g) m = m_freeblock s) \/
  exists g0, F !! j = Some g0 /\ turn m < f_count g0 /\ slot (view s') (f_ino g) m = slot (view s) (f_ino g0) m.
Proof.
  intros [(<- & <- & _)|[Hj Ej]]%list_lookup_insert_Some Hm Hc; cbn [f_ino f_count] in *.
  - rewrite Hslots by done. destruct (Z.eqb_spec m n) as [->|Hne]; [by left|right]. exists f. split; [done|]. split; [|done].
    assert (turn m <> turn n) by (intros Et; by apply turn_inj in Et). lia.
  - right. exists g. split; [done|]. split; [done|]. by apply (add_others j).
Qed.

Lemma add_image : image (<[i := f']> F) s'.
Proof.
  pose proof (im_range _ _ I). split; try done.
  - rewrite (total_insert _ _ _ _ E), Hfree, (im_free _ _ I). cbn. lia.
  - lia.
  - intros j g [(<- & <- & _)|[Hj Ej]]%list_lookup_insert_Some; [apply add_file_in|by apply (add_others j)].
  - intros j1 j2 g1 g2 m1 m2 E1 E2 M1 M2 C1 C2 Eq.
    destruct (add_slot j1 g1 m1 E1 M1 C1) as [(-> & -> & S1)|(h1 & F1 & D1 & S1)], (add_slot j2 g2 m2 E2 M2 C2) as [(-> & -> & S2)|(h2 & F2 & D2 & S2)];
      rewrite S1, S2 in Eq; [done|..|by apply (im_apart _ _ I j1 j2 h1 h2)];
      [pose proof (fi_have _ _ _ (im_file _ _ I _ _ F2) _ M2 D2)|pose proof (fi_have _ _ _ (im_file _ _ I _ _ F1) _ M1 D1)]; lia.
  - intros b Hb. rewrite Hview by (intros Hi; pose proof (proj2 (add_ind Hi)); lia).
    apply (im_zero _ _ I). lia.
Qed.
End Add.

(** * Bytes are appended inside a block *)

Section Put.
Context (F : list mfile) (s : mkfs) (i : nat) (f : mfile) (bn o : Z) (v : list Z).
Context (I : image F s) (E : F !! i = Some f) (Hbn : 0 <= bn < MAXFILE) (Hc : turn bn < f_count f).
Context (Ho : 0 <= o) (Hoff : bn * BSIZE + o = Z.of_nat (length (f_data f))) (Hv : o + Z.of_nat (length v) <= BSIZE).
Notation a := (slot (view s) (f_ino f) bn).
Notation s' := (set_m_img (<[a := splice (Z.to_nat o) v (view s a)]> (m_img s)) s).
Notation f' := (mkFile (f_ino f) (f_data f ++ v) (f_count f)).

Lemma put_here : nmeta <= a < m_freeblock s /\ length (view s a) = Z.to_nat BSIZE.
Proof.
  pose proof (fi_have _ _ _ (im_file _ _ I i f E) bn (slot_data bn Hbn) Hc) as Hr. pose proof (im_range _ _ I). rewrite nmeta_val in *.
  split; [done|]. by apply (rsect_ok F s a I); lia.
Qed.

Lemma put_splice : length (splice (Z.to_nat o) v (view s a)) = Z.to_nat BSIZE.
Proof. destruct put_here as [_ Hl]. rewrite splice_length; [done|]. rewrite Hl. change BSIZE with 1024 in *. lia. Qed.

Lemma put_others j g m : F !! j = Some g -> is_slot m -> turn m < f_count g -> j <> i \/ m <> bn ->
  view s' (slot (view s) (f_ino g) m) = view s (slot (view s) (f_ino g) m).
Proof.
  intros Ej Hm Hcm Hd. rewrite view_wsect. destruct (Z.eqb_spec (slot (view s) (f_ino g) m) a) as [Eq|]; [|done].
  destruct (im_apart _ _ I j i g f m bn Ej E Hm (slot_data bn Hbn) Hcm Hc Eq). naive_solver.
Qed.

Lemma put_slots m : slot (view s') (f_ino f) m = slot (view s) (f_ino f) m.
Proof.
  apply slot_ext. intros Hi. pose proof (im_file _ _ I i f E) as Ff. apply (put_others i f (-1) E slot_ind); [|right; lia].
  destruct (Z.ltb_spec (turn (-1)) (f_count f)) as [|Hge]; [done|]. by rewrite <- (fi_none _ _ _ Ff _ slot_ind Hge) in Hi.
Qed.

Lemma put_byte p : 0 <= p < MAXFILE * BSIZE -> turn (p / BSIZE) < f_count f ->
  file_byte (view s') (f_ino f) p = nth (Z.to_nat p) (f_data f ++ v) 0.
Proof.
  intros Hp Ht. pose proof (block_in_range p Hp) as Hr. pose proof (im_file _ _ I i f E) as Ff. destruct put_here as [_ Hl].
  pose proof (fi_byte _ _ _ Ff p Hp Ht) as Hb. unfold file_byte in *.
  rewrite <- slot_block, put_slots by lia. rewrite <- slot_block in Hb by lia.
  change BSIZE with 1024 in *. pose proof (Z.div_mod p 1024 ltac:(done)). pose proof (Z.mod_pos_bound p 1024 ltac:(done)).
  destruct (decide (p / 1024 = bn)) as [Ebn|Hne].
  - rewrite Ebn in *. rewrite view_wsect, Z.eqb_refl, nth_splice by (rewrite Hl; lia). rewrite app_nth, Hb. destruct (decide _) as [Hin|Hout].
    + rewrite decide_False by lia. f_equal. lia.
    + destruct (decide _); [done|]. rewrite !nth_overflow by lia. done.
  - rewrite (put_others i f) by (done || (by apply slot_data) || by right). rewrite Hb, app_nth.
    destruct (decide _) as [|Hge]; [done|]. rewrite !nth_overflow; [done|lia..].
Qed.

Lemma put_image : image (<[i := f']> F) s'.
Proof.
  destruct put_here as [Hr Hl]. pose proof (im_file _ _ I i f E) as Ff. pose proof (im_range _ _ I) as HR. rewrite nmeta_val in *.
  assert (forall j g, F !! j = Some g -> j <> i -> file_in (view s') (m_freeblock s) g /\ forall m, slot (view s') (f_ino g) m = slot (view s) (f_ino g) m) as HO.
  { intros j g Ej Hj. apply (file_in_ext (view s) _ (m_freeblock s)); [by apply (im_file _ _ I j)|lia|].
    intros m Hm Hcm. apply (put_others j g m Ej Hm Hcm). by left. }
  assert (forall j g m, <[i := f']> F !! j = Some g -> exists g0, F !! j = Some g0 /\ f_count g = f_count g0 /\
    slot (view s') (f_ino g) m = slot (view s) (f_ino g0) m) as HS.
  { intros j g m [(<- & <- & _)|[Hj Ej]]%list_lookup_insert_Some; [exists f|exists g]; (split; [done|]; split; [done|]); [apply put_slots|by apply (HO j)]. }
  split; cbn [m_freeblock m_img set_m_img]; try lia.
  - rewrite (total_insert _ _ _ _ E), (im_free _ _ I). cbn. lia.
  - by rewrite nmeta_val.
  - apply blocks_wsect; [apply put_splice|apply I].
  - intros j g [(<- & <- & _)|[Hj Ej]]%list_lookup_insert_Some; [|by apply (HO j)].
    split; cbn [f_ino f_data f_count]; try apply Ff; [|intros n Hn Hcn; rewrite put_slots; by apply Ff..| |apply put_byte].
    + rewrite length_app. change BSIZE with 1024 in *. change MAXFILE with 268 in *. lia.
    + rewrite length_app. intros p Hp. destruct (decide (p < Z.of_nat (length (f_data f)))); [apply Ff; lia|].
      change BSIZE with 1024 in *. pose proof (Z.div_mod p 1024 ltac:(done)). pose proof (Z.mod_pos_bound p 1024 ltac:(done)).
      replace (p / 1024) with bn by lia. done.
  - intros j1 j2 g1 g2 m1 m2 E1 E2 M1 M2 C1 C2.
    destruct (HS j1 g1 m1 E1) as (h1 & F1 & D1 & ->), (HS j2 g2 m2 E2) as (h2 & F2 & D2 & ->). rewrite D1, D2 in *. by apply (im_apart _ _ I).
  - intros b Hb. rewrite view_wsect. destruct (Z.eqb_spec b a); [lia|]. by apply (im_zero _ _ I).
Qed.
End Put.

(** * The block that holds a block of the file *)

Definition ready (bn count : Z) : Prop := turn bn <= count \/ bn = 12 /\ count = 12.

Lemma take_block_ok s : 0 <= m_freeblock s < FSSIZE -> take_block s = Ok (m_freeblock s) (set_m_freeblock (m_freeblock s + 1) s).
Proof.
  intros Hs. unfold FSSIZE in Hs. unfold take_block. erewrite bind_Ok by reflexivity. erewrite bind_Ok by reflexivity.
  rewrite xint_id, u32_small by (unfold is_u32; lia). done.
Qed.

Lemma plain_addrs r l : plain r -> plain (set_i_addrs l r).
Proof. intros P. unfold plain in *. rewrite P. done. Qed.

Section Block.
Context (F : list mfile) (s : mkfs) (i : nat) (f : mfile).
Context (I : image F s) (E : F !! i = Some f).
Notation r := (f_ino f).

(** One of the addresses of the inode is filled. *)
Lemma addr_slots_new n j b : (n < 13)%nat -> j = -1 /\ n = 12%nat \/ 0 <= j < 12 /\ n = Z.to_nat j -> f_count f = turn j ->
  b <> 0 -> view s b = zeroes -> forall m, is_slot m ->
  slot (view s) (set_i_addrs (<[n := b]> (i_addrs r)) r) m = if m =? j then b else slot (view s) r m.
Proof.
  intros Hn Hj Hc Hb0 Hb m Hm. pose proof (im_file _ _ I i f E) as Ff. pose proof (it_count _ (fi_typed _ _ _ Ff)) as Hl.
  assert (forall x, nth x (<[n := b]> (i_addrs r)) 0 = if decide (x = n) then b else nth x (i_addrs r) 0) as Hnth by (intros x; apply nth_insert; lia).
  pose proof (fi_none _ _ _ Ff m Hm) as Hz. unfold is_slot in Hm. unfold turn in *.
  unfold slot, block_of, ind_of in *. cbn [i_addrs set_i_addrs]. change (Z.to_nat NDIRECT) with 12%nat in *. change NDIRECT with 12 in *.
  rewrite !Hnth. destruct Hj as [[-> ->]|[Hj' ->]]; cbn in Hc.
  - destruct (Z.eqb_spec m (-1)) as [->|Hm1]; [done|]. destruct (Z.ltb_spec m 12) as [Hlt|Hge]; [by rewrite decide_False by lia|].
    rewrite decide_True, Hz by (done || lia). destruct (Z.eqb_spec b 0); [done|]. rewrite Hb. apply addr_at_zeros.
  - rewrite (decide_False (P := 12%nat = _)) by lia. destruct (Z.eqb_spec m (-1)) as [->|Hm1]; [by destruct (Z.eqb_spec (-1) j); [lia|]|].
    destruct (Z.ltb_spec m 12) as [Hlt|Hge].
    + destruct (Z.eqb_spec m j) as [->|Hij]; [by rewrite decide_True|]. by rewrite decide_False by lia.
    + by destruct (Z.eqb_spec m j); [lia|].
Qed.

Lemma addr_step n j : (n < 13)%nat -> j = -1 /\ n = 12%nat \/ 0 <= j < 12 /\ n = Z.to_nat j -> turn j <= f_count f ->
  let c := Z.max (f_count f) (turn j + 1) in m_freeblock s + (c - f_count f) <= FSSIZE ->
  exists a b s1, i_addrs r !! n = Some a /\ (if xint a =? 0 then take_block else ret a) s = Ok b s1 /\
    let r1 := set_i_addrs (<[n := b]> (i_addrs r)) r in
    image (<[i := mkFile r1 (f_data f) c]> F) s1 /\ meta_same s s1 /\ slot (view s1) r1 j = b /\ xint b = b.
Proof.
  intros Hn Hj Ht c Hroom. pose proof (im_file _ _ I i f E) as Ff. pose proof (fi_typed _ _ _ Ff) as Ty. pose proof (im_range _ _ I) as HR.
  rewrite nmeta_val in HR. unfold FSSIZE in *.
  assert (is_slot j) as Hsj by (unfold is_slot; change MAXFILE with 268; lia).
  assert (slot (view s) r j = nth n (i_addrs r) 0) as Ea.
  { destruct Hj as [[-> ->]|[Hj ->]]; [done|]. rewrite slot_block by lia. unfold block_of. change NDIRECT with 12. destruct (Z.ltb_spec j 12); [done|lia]. }
  exists (nth n (i_addrs r) 0). destruct (Z.ltb_spec (turn j) (f_count f)) as [Hlt|Hge].
  - pose proof (fi_have _ _ _ Ff j Hsj Hlt) as Hr. rewrite nmeta_val, Ea in Hr. exists (nth n (i_addrs r) 0), s.
    assert (c = f_count f) as Ec by lia. rewrite Ec, xint_id by (unfold is_u32; lia). split; [by apply nth_addr|].
    destruct (Z.eqb_spec (nth n (i_addrs r) 0) 0); [lia|]. split; [done|]. cbn zeta.
    rewrite (list_insert_id (i_addrs r)) by by apply nth_addr. assert (set_i_addrs (i_addrs r) r = r) as -> by by destruct r.
    rewrite list_insert_id by (rewrite E; by destruct f). by rewrite Ea.
  - assert (f_count f = turn j) as Hc by lia. assert (c = f_count f + 1) as Ec by lia. rewrite Ec in *.
    rewrite <- Ea, (fi_none _ _ _ Ff j Hsj) in * by lia. set (b := m_freeblock s).
    exists b, (set_m_freeblock (b + 1) s). split; [rewrite Ea; by apply nth_addr|]. split; [apply take_block_ok; unfold FSSIZE; lia|]. cbn zeta.
    assert (view s b = zeroes) as Hz by (apply (im_zero _ _ I); unfold FSSIZE; lia).
    pose proof (addr_slots_new n j b Hn Hj Hc ltac:(lia) Hz) as Hs. split; [|split; [done|split; [|apply xint_id; unfold is_u32; lia]]].
    + apply (add_image F s _ i f j); try done; [unfold FSSIZE; lia| | |apply I].
      * apply inode_typed_addr; [done|unfold is_u32; lia].
      * by apply plain_addrs, Ff.
    + change (view (set_m_freeblock (b + 1) s)) with (view s). by rewrite Hs, Z.eqb_refl.
Qed.

(** A block behind the indirect block. *)
Lemma ind_step bn : 12 <= bn < MAXFILE -> 13 <= f_count f -> turn bn <= f_count f ->
  let c := Z.max (f_count f) (turn bn + 1) in m_freeblock s + (c - f_count f) <= FSSIZE ->
  let ind := ind_of r in
  exists x s1, (if addr_at (view s ind) (bn - 12) =? 0 then
                 let! b := take_block in wsect ind (put_le 4 (Z.to_nat (4 * (bn - 12))) b (view s ind)) ;; ret b
               else ret (addr_at (view s ind) (bn - 12))) s = Ok x s1 /\
    image (<[i := mkFile r (f_data f) c]> F) s1 /\ meta_same s s1 /\ slot (view s1) r bn = x /\ xint x = x.
Proof.
  intros Hbn H13 Ht c Hroom ind. pose proof (im_file _ _ I i f E) as Ff. pose proof (im_range _ _ I) as HR.
  pose proof (fi_have _ _ _ Ff (-1) slot_ind ltac:(cbn; lia)) as Hri. change (slot (view s) r (-1)) with ind in Hri.
  rewrite nmeta_val in *. unfold FSSIZE in *. destruct (rsect_ok F s ind I ltac:(unfold FSSIZE; lia)) as [_ Hlen].
  assert (forall V m, 12 <= m -> slot V r m = addr_at (V ind) (m - 12)) as Ea.
  { intros V m Hm. rewrite slot_block by lia. unfold block_of. change NDIRECT with 12. fold ind.
    destruct (Z.ltb_spec m 12); [lia|]. by destruct (Z.eqb_spec ind 0); [lia|]. }
  pose proof (slot_data bn ltac:(lia)) as Hsb. rewrite <- (Ea (view s)) by lia.
  destruct (Z.ltb_spec (turn bn) (f_count f)) as [Hlt|Hge].
  - pose proof (fi_have _ _ _ Ff bn Hsb Hlt) as Hr. rewrite nmeta_val in Hr. exists (slot (view s) r bn), s.
    assert (c = f_count f) as -> by lia. destruct (Z.eqb_spec (slot (view s) r bn) 0); [lia|]. split; [done|].
    rewrite list_insert_id by (rewrite E; by destruct f). rewrite xint_id by (unfold is_u32; lia). done.
  - rewrite (fi_none _ _ _ Ff bn Hsb) by lia. assert (c = f_count f + 1) as -> by lia. set (b := m_freeblock s) in *. cbn [Z.eqb].
    rewrite (bind_Ok _ _ _ _ _ (take_block_ok s ltac:(unfold FSSIZE; lia))). erewrite bind_Ok by reflexivity. set (s0 := set_m_freeblock _ s).
    set (d := put_le _ _ _ _). exists b, (set_m_img (<[ind := d]> (m_img s0)) s0). split; [done|].
    assert (forall m, is_slot m -> slot (view (set_m_img (<[ind := d]> (m_img s0)) s0)) r m = if m =? bn then b else slot (view s) r m) as Hs.
    { intros m Hm. unfold is_slot in Hm. change MAXFILE with 268 in *. destruct (Z.ltb_spec m 12) as [Hlt|Hm12].
      - destruct (Z.eqb_spec m bn); [lia|]. unfold slot, block_of. change NDIRECT with 12. by destruct (m =? -1), (Z.ltb_spec m 12); try lia.
      - rewrite !Ea, view_wsect, Z.eqb_refl by lia. unfold d. rewrite addr_at_put by (done || (unfold is_u32; lia) || (change NINDIRECT with 256; lia)).
        destruct (Z.eqb_spec (m - 12) (bn - 12)), (Z.eqb_spec m bn); try lia; done. }
    assert (length d = Z.to_nat BSIZE) as Hd by (unfold d; rewrite put_le_length; [done|rewrite Hlen; change BSIZE with 1024; change MAXFILE with 268 in *; lia]).
    split; [|split; [|split; [by rewrite Hs, Z.eqb_refl|apply xint_id; unfold is_u32; lia]]].
    + apply (add_image F s _ i f bn); try done; try apply Ff; [lia|unfold FSSIZE; lia| |].
      * by apply (blocks_wsect ind d s0 Hd), I.
      * intros x Hx. rewrite view_wsect. destruct (Z.eqb_spec x ind) as [->|]; [exfalso; apply Hx; [lia|done]|done].
    + split; [done|]. intros x Hx. rewrite nmeta_val in Hx. rewrite view_wsect. by destruct (Z.eqb_spec x ind); [lia|].
Qed.
End Block.

Lemma file_block_ok F s i f bn :
  image F s -> F !! i = Some f -> 0 <= bn < MAXFILE -> ready bn (f_count f) ->
  let c := Z.max (f_count f) (turn bn + 1) in m_freeblock s + (c - f_count f) <= FSSIZE ->
  exists a r' s', file_block (f_ino f) bn s = Ok (a, r') s' /\ image (<[i := mkFile r' (f_data f) c]> F) s' /\
    meta_same s s' /\ slot (view s') r' bn = a /\ r' = set_i_addrs (i_addrs r') (f_ino f).
Proof.
  intros I E Hbn Hready c Hroom. change MAXFILE with 268 in *. unfold ready, c in *. clear c. rewrite turn_data in * by lia.
  unfold file_block. erewrite bind_Ok by (unfold Mkfs.assert; change MAXFILE with 268; destruct (Z.ltb_spec bn 268); [reflexivity|lia]).
  change NDIRECT with 12. destruct (Z.ltb_spec bn 12) as [Hlt|Hge].
  - destruct (addr_step F s i f I E (Z.to_nat bn) bn ltac:(lia) ltac:(right; lia)) as (a & b & s1 & Ea & Eb & I1 & M1 & S1 & X1);
      cbn zeta; rewrite ?turn_data by lia; [destruct (Z.ltb_spec bn 12); lia|destruct (Z.ltb_spec bn 12); lia|].
    rewrite turn_data in I1 by lia. destruct (Z.ltb_spec bn 12); [|lia].
    erewrite bind_Ok by (unfold deref; rewrite Ea; reflexivity). rewrite (bind_Ok _ _ _ _ _ Eb), X1.
    eexists b, _, s1. split; [reflexivity|]. split; [done|]. split; [done|]. split; [done|by destruct f as [[]]].
  - destruct (addr_step F s i f I E 12 (-1) ltac:(lia) ltac:(by left)) as (a & b & s1 & Ea & Eb & I1 & M1 & S1 & X1);
      change (turn (-1)) with 12 in *; [lia|lia|]. change (12 + 1) with 13 in *.
    change (Z.to_nat 12) with 12%nat. erewrite bind_Ok by (unfold deref; rewrite Ea; reflexivity). rewrite (bind_Ok _ _ _ _ _ Eb), X1. cbn zeta.
    set (f1 := mkFile _ _ _) in I1. assert (<[i := f1]> F !! i = Some f1) as E1 by (apply list_lookup_insert_eq; by eapply lookup_lt_Some).
    pose proof (fi_have _ _ _ (im_file _ _ I1 i f1 E1) (-1) slot_ind ltac:(cbn; lia)) as Hb. change (slot _ _ (-1)) with (ind_of (f_ino f1)) in Hb.
    assert (ind_of (f_ino f1) = b) as Ei by exact S1. pose proof (im_range _ _ I1) as HR. rewrite nmeta_val in *.
    rewrite (bind_Ok _ _ _ _ _ (proj1 (rsect_ok _ s1 b I1 ltac:(lia)))).
    destruct (ind_step _ s1 i f1 I1 E1 bn ltac:(change MAXFILE with 268; lia)) as (x & s2 & E2 & I2 & M2 & S2 & X2);
      rewrite ?turn_data by lia; cbn [f1 f_count]; [lia|destruct (Z.ltb_spec bn 12); lia| |].
    { pose proof (im_free _ _ I1) as Fr. rewrite (total_insert _ _ _ _ E) in Fr.
      pose proof (im_free _ _ I). cbn [f1 f_count] in Fr. destruct (Z.ltb_spec bn 12); lia. }
    rewrite Ei in E2. rewrite (bind_Ok _ _ _ _ _ E2), X2. rewrite list_insert_insert_eq, turn_data in I2 by lia. cbn [f1 f_count f_data f_ino] in *.
    eexists x, _, s2. split; [reflexivity|]. split.
    { rewrite (proj2 (Z.ltb_ge bn 12)) in I2 by lia. by replace (Z.max (f_count f) (bn + 1 + 1)) with (Z.max (Z.max (f_count f) 13) (bn + 1 + 1)) by lia. }
    split; [by eapply meta_same_trans|]. split; [done|by destruct f as [[]]].
Qed.

(** * The loop *)

(** How many blocks [n] bytes take. *)
Definition blocks (n : Z) : Z := let k := (n + BSIZE - 1) / BSIZE in if k <=? NDIRECT then k else k + 1.

Lemma blocks_ready off : 0 <= off -> ready (off / BSIZE) (blocks off).
Proof.
  intros Ho. unfold ready, blocks. change BSIZE with 1024. change NDIRECT with 12.
  assert (0 <= off / 1024) by (by apply Z.div_pos). rewrite turn_data by done.
  destruct (Z.leb_spec ((off + 1024 - 1) / 1024) 12), (Z.ltb_spec (off / 1024) 12); Z.to_euclidean_division_equations; lia.
Qed.
Lemma blocks_next off m : 0 <= off -> 0 < m -> off mod BSIZE + m <= BSIZE -> Z.max (blocks off) (turn (off / BSIZE) + 1) = blocks (off + m).
Proof.
  intros Ho Hm. unfold blocks. change BSIZE with 1024. change NDIRECT with 12. intros Hle.
  assert (0 <= off / 1024) by (by apply Z.div_pos). rewrite turn_data by done.
  assert ((off + m + 1024 - 1) / 1024 = off / 1024 + 1) as -> by (Z.to_euclidean_division_equations; lia).
  destruct (Z.leb_spec ((off + 1024 - 1) / 1024) 12), (Z.ltb_spec (off / 1024) 12), (Z.leb_spec (off / 1024 + 1) 12); Z.to_euclidean_division_equations; lia.
Qed.
Lemma blocks_mono n m : n <= m -> blocks n <= blocks m.
Proof.
  intros Hle. unfold blocks. change BSIZE with 1024. change NDIRECT with 12.
  assert ((n + 1024 - 1) / 1024 <= (m + 1024 - 1) / 1024) by (apply Z.div_le_mono; lia).
  destruct (Z.leb_spec ((n + 1024 - 1) / 1024) 12), (Z.leb_spec ((m + 1024 - 1) / 1024) 12); lia.
Qed.

Lemma iappend_loop_ok i fuel : forall p F s f,
  (length p <= fuel)%nat -> image F s -> F !! i = Some f ->
  let n := Z.of_nat (length (f_data f)) in let n' := Z.of_nat (length (f_data f ++ p)) in
  f_count f = blocks n -> n' <= MAXFILE * BSIZE -> m_freeblock s + (blocks n' - blocks n) <= FSSIZE ->
  exists r' s', iappend_loop fuel (f_ino f) p n s = Ok (r', n') s' /\
    image (<[i := mkFile r' (f_data f ++ p) (blocks n')]> F) s' /\ meta_same s s' /\ r' = set_i_addrs (i_addrs r') (f_ino f).
Proof.
  induction fuel as [|fuel IH]; intros p F s f Hlen I E n n' Hc Hmax Hroom; (destruct p as [|b p];
    [exists (f_ino f), s; subst n n'; rewrite !app_nil_r, <- Hc;
      rewrite list_insert_id by (rewrite E; by destruct f); split; [done|]; split; [done|]; split; [done|by destruct f as [[]]]|]); [cbn in Hlen; lia|].
  set (q := b :: p) in *. assert (0 < Z.of_nat (length q)) as Hq by (cbn; lia). unfold n' in *. rewrite length_app, Nat2Z.inj_add in *. fold n in Hmax, Hroom |- *.
  assert (MAXFILE * BSIZE = 274432) as EM by done. rewrite EM in *. assert (0 <= n) as Hn by (unfold n; lia).
  change (iappend_loop (S fuel) (f_ino f) q n) with
    (let! r := file_block (f_ino f) (n / BSIZE) in let n1 := Z.min (Z.of_nat (length q)) ((n / BSIZE + 1) * BSIZE - n) in
     let! buf := rsect (fst r) in wsect (fst r) (splice (Z.to_nat (n - n / BSIZE * BSIZE)) (take (Z.to_nat n1) q) buf) ;;
     iappend_loop fuel (snd r) (skipn (Z.to_nat n1) q) (u32 (n + n1))).
  pose proof (Z.div_mod n BSIZE ltac:(done)) as Edm. pose proof (Z.mod_pos_bound n BSIZE ltac:(done)) as Hmod.
  pose proof (block_in_range n ltac:(rewrite EM; lia)) as Hbn. set (bn := n / BSIZE) in *. set (o := n - bn * BSIZE).
  assert (0 <= o < BSIZE) as Ho by lia. set (n1 := Z.min (Z.of_nat (length q)) ((bn + 1) * BSIZE - n)).
  assert (0 < n1 <= Z.of_nat (length q) /\ o + n1 <= BSIZE) as [Hn1 Hle] by lia.
  pose proof (blocks_next n n1 Hn ltac:(lia) ltac:(lia)) as Enext. fold bn in Enext. pose proof (blocks_mono (n + n1) (n + Z.of_nat (length q)) ltac:(lia)) as Hmono.
  destruct (file_block_ok F s i f bn I E Hbn) as (a & r1 & s1 & E1 & I1 & M1 & S1 & P1);
    [rewrite Hc; by apply blocks_ready|rewrite Hc, Enext; lia|]. rewrite Hc, Enext in I1. rewrite (bind_Ok _ _ _ _ _ E1). cbn [fst snd]. fold n1 o.
  set (f1 := mkFile _ _ _) in I1. assert (<[i := f1]> F !! i = Some f1) as L1 by (apply list_lookup_insert_eq; by eapply lookup_lt_Some).
  set (v := take (Z.to_nat n1) q). assert (Z.of_nat (length v) = n1) as Hv by (unfold v; rewrite length_take; lia).
  assert (turn bn < f_count f1) as Ht by (cbn; lia).
  pose proof (fi_have _ _ _ (im_file _ _ I1 i f1 L1) bn (slot_data bn Hbn) Ht) as Ha. cbn [f1 f_ino] in Ha. rewrite S1, nmeta_val in Ha. pose proof (im_range _ _ I1).
  rewrite (bind_Ok _ _ _ _ _ (proj1 (rsect_ok _ s1 a I1 ltac:(lia)))). erewrite bind_Ok by reflexivity.
  pose proof (put_image _ s1 i f1 bn o v I1 L1 Hbn Ht ltac:(lia) ltac:(cbn; fold n; lia) ltac:(lia)) as I2. cbn [f1 f_ino f_data f_count] in I2. rewrite S1, list_insert_insert_eq in I2.
  set (s2 := set_m_img _ s1) in *. set (f2 := mkFile _ _ _) in I2. assert (<[i := f2]> F !! i = Some f2) as L2 by (apply list_lookup_insert_eq; by eapply lookup_lt_Some).
  assert (Z.of_nat (length (f_data f2)) = n + n1) as En2 by (cbn; rewrite length_app; lia). rewrite u32_small by (unfold is_u32; lia).
  assert (f_data f2 ++ skipn (Z.to_nat n1) q = f_data f ++ q) as Ed by (cbn; rewrite <- (assoc_L (++)); unfold v; by rewrite take_drop).
  destruct (IH (skipn (Z.to_nat n1) q) (<[i := f2]> F) s2 f2) as (r' & s' & E' & I' & M' & P'); rewrite ?Ed, ?En2 in *; [rewrite length_skipn; lia|done|done|done|..].
  { rewrite length_app. lia. }
  { rewrite length_app, Nat2Z.inj_add. fold n. cbn [s2 m_freeblock set_m_img]. rewrite (im_free _ _ I1), (total_insert _ _ _ _ E). pose proof (im_free _ _ I). cbn [f_count f1]. lia. }
  rewrite length_app, Nat2Z.inj_add in E', I'. fold n in E', I'. rewrite list_insert_insert_eq in I'. exists r', s'. split; [exact E'|]. split; [done|]. split; [|rewrite P'; cbn; by rewrite P1].
  eapply meta_same_trans; [exact M1|]. eapply meta_same_trans; [|exact M']. split; [done|]. intros x Hx. rewrite nmeta_val in Hx. unfold s2. rewrite view_wsect. by destruct (Z.eqb_spec x a); [lia|].
Qed.
