(* ===== verification/MkfsProofs.v ===== *)
(** The image (mkfs.c): inodes, directories, the bitmap; what the program makes is a file
    system with the given files, as the kernel understands it ([KData], [KDir]). *)
From stdpp Require Import base gmap list numbers strings tactics.
From S2P Require Import Prelude Mem KMachine KBytes KString KBio KBioProofs KLog KCrash KFs KBlocks KInode KData KContent KDir Mkfs MkfsBlocks.

(** * Inodes of the image *)

Definition on_disk (V : disk) (j : Z) : inode := dinode_load (dinode_off j) (V (IBLOCK j sb)) no_inode.

Lemma sb_IBLOCK j : 0 <= j < NINODES -> IBLOCK j sb = 32 + j / 16 /\ 32 <= IBLOCK j sb < 45.
Proof.
  intros Hj. change NINODES with 200 in Hj. assert (0 <= j / 16 < 13) by (Z.to_euclidean_division_equations; lia).
  unfold IBLOCK. change IPB with 16. change (sb_inodestart sb) with 32. rewrite u32_small by (unfold is_u32; lia). lia.
Qed.

Lemma plain_load o d : plain (dinode_load o d no_inode).
Proof. done. Qed.
Lemma plain_eq r r' : plain r -> plain r' -> same_dinode r r' -> r' = r.
Proof. intros P P' (E1 & E2 & E3 & E4 & E5 & E6). rewrite P, P'. by rewrite E1, E2, E3, E4, E5, E6. Qed.

Lemma image_ino F s i f r' :
  image F s -> F !! i = Some f -> i_addrs r' = i_addrs (f_ino f) -> inode_typed r' -> plain r' ->
  image (<[i := mkFile r' (f_data f) (f_count f)]> F) s.
Proof.
  intros I E Ea Ty Pl. pose proof (im_file _ _ I i f E) as Ff.
  assert (forall j g n, <[i := mkFile r' (f_data f) (f_count f)]> F !! j = Some g -> exists g0, F !! j = Some g0 /\ f_count g = f_count g0 /\
    slot (view s) (f_ino g) n = slot (view s) (f_ino g0) n) as HS.
  { intros j g n [(<- & <- & _)|[Hj Ej]]%list_lookup_insert_Some; [exists f|exists g]; (split; [done|]; split; [done|]); [by apply slot_addrs|done]. }
  destruct I as [Hf Hr Hb Hfi Hap Hz]. split; try done.
  - rewrite (total_insert _ _ _ _ E), Hf. cbn. lia.
  - intros j g [(<- & <- & _)|[Hj Ej]]%list_lookup_insert_Some; [|by apply (Hfi j)]. destruct Ff as [T P M Hh Hn Hft By].
    split; cbn [f_ino f_data f_count]; try done.
    + intros n Hsl Ht. rewrite (slot_addrs _ (f_ino f)) by done. by apply Hh.
    + intros n Hsl Ht. rewrite (slot_addrs _ (f_ino f)) by done. by apply Hn.
    + intros p Hp Ht. rewrite (file_byte_addrs _ (f_ino f)) by done. by apply By.
  - intros j1 j2 g1 g2 m1 m2 E1 E2 M1 M2 C1 C2.
    destruct (HS j1 g1 m1 E1) as (h1 & F1 & D1 & ->), (HS j2 g2 m2 E2) as (h2 & F2 & D2 & ->). rewrite D1, D2 in *. by apply Hap.
Qed.

(** A block before the data is written. *)
Lemma image_meta F s b d : image F s -> b < nmeta -> length d = Z.to_nat BSIZE -> image F (set_m_img (<[b := d]> (m_img s)) s).
Proof.
  intros I Hb Hd. set (s' := set_m_img _ s).
  assert (forall x, nmeta <= x -> view s' x = view s x) as HV by (intros x Hx; unfold s'; rewrite view_wsect; by destruct (Z.eqb_spec x b); [lia|]).
  assert (forall j g, F !! j = Some g -> file_in (view s') (m_freeblock s) g /\ forall m, slot (view s') (f_ino g) m = slot (view s) (f_ino g) m) as HO.
  { intros j g Ej. pose proof (im_file _ _ I j g Ej) as G. apply (file_in_ext (view s) _ (m_freeblock s)); [done|lia|].
    intros m Hm Hcm. apply HV. by apply (fi_have _ _ _ G). }
  destruct I as [Hf Hr Hbl Hfi Hap Hz]. split; try done.
  - by apply blocks_wsect.
  - intros j g Ej. by apply (HO j).
  - intros j1 j2 g1 g2 m1 m2 E1 E2. rewrite (proj2 (HO j1 g1 E1)), (proj2 (HO j2 g2 E2)). by apply Hap.
  - intros x Hx. rewrite HV by (cbn in Hx; lia). by apply Hz.
Qed.

Lemma winode_ok F s j r :
  image F s -> 0 <= j < NINODES -> inode_typed r -> plain r ->
  exists s', winode j r s = Ok tt s' /\ image F s' /\ on_disk (view s') j = r /\ m_freeblock s' = m_freeblock s /\ m_freeinode s' = m_freeinode s /\
    (forall k, 0 <= k < NINODES -> k <> j -> on_disk (view s') k = on_disk (view s) k) /\
    (forall x, ~ (32 <= x < 45) -> view s' x = view s x).
Proof.
  intros I Hj Ty Pl. destruct (sb_IBLOCK j Hj) as [Eb Hb]. destruct (rsect_ok F s (IBLOCK j sb) I ltac:(unfold FSSIZE; lia)) as [E Hl].
  pose proof (dinode_off_range j) as Ho. set (d := dinode_store (dinode_off j) r (view s (IBLOCK j sb))).
  assert (length d = Z.to_nat BSIZE) as Hd by (unfold d; rewrite dinode_store_length; rewrite ?Hl; done).
  exists (set_m_img (<[IBLOCK j sb := d]> (m_img s)) s). split; [unfold winode; rewrite (bind_Ok _ _ _ _ _ E); reflexivity|].
  split; [apply image_meta; [done|rewrite nmeta_val; lia|done]|]. split; [|split; [done|split; [done|split]]].
  - apply plain_eq; [done|apply plain_load|]. unfold on_disk. rewrite view_wsect, Z.eqb_refl. apply dinode_load_store; [by rewrite Hl|done].
  - intros k Hk Hne. destruct (sb_IBLOCK k Hk) as [Ek _]. unfold on_disk. rewrite view_wsect.
    destruct (Z.eqb_spec (IBLOCK k sb) (IBLOCK j sb)) as [Ekj|]; [|done]. rewrite Ekj. apply dinode_load_other; [by rewrite Hl|done|].
    apply dinode_off_apart. change IPB with 16. Z.to_euclidean_division_equations; lia.
  - intros x Hx. rewrite view_wsect. by destruct (Z.eqb_spec x (IBLOCK j sb)); [lia|].
Qed.

(** * Files on the disk *)

Record stored (F : list mfile) (s : mkfs) : Prop := {
  st_image : image F s;
  st_next : m_freeinode s = 1 + Z.of_nat (length F);
  st_few : 1 + Z.of_nat (length F) <= NINODES;
  st_inode : forall i f, F !! i = Some f -> on_disk (view s) (1 + Z.of_nat i) = f_ino f;
  st_size : forall i f, F !! i = Some f -> i_size (f_ino f) = Z.of_nat (length (f_data f)) /\ f_count f = blocks (Z.of_nat (length (f_data f)));
  st_unused : forall j, 0 <= j < NINODES -> j = 0 \/ 1 + Z.of_nat (length F) <= j -> on_disk (view s) j = no_inode;
  st_meta : forall b, 0 <= b < 32 \/ b = 45 -> view s b = if b =? 1 then splice 0 (sb_bytes sb) zeroes else zeroes
}.

Definition kind (f : mfile) : Z * Z := (i_type (f_ino f), i_nlink (f_ino f)).

Lemma inode_typed_size r z : inode_typed r -> is_u32 z -> inode_typed (set_i_size z r).
Proof. by intros [] Hz. Qed.
Lemma plain_size r z : plain r -> plain (set_i_size z r).
Proof. intros P. unfold plain in *. by rewrite P. Qed.

(** [iappend]: bytes go to the end of a file. *)
Lemma iappend_ok F s i f p :
  stored F s -> F !! i = Some f -> let n := Z.of_nat (length (f_data f)) in let n' := Z.of_nat (length (f_data f ++ p)) in
  n' <= MAXFILE * BSIZE -> m_freeblock s + (blocks n' - blocks n) <= FSSIZE ->
  exists f' s', iappend (1 + Z.of_nat i) p s = Ok tt s' /\ stored (<[i := f']> F) s' /\ f_data f' = f_data f ++ p /\ kind f' = kind f /\
    m_freeblock s' = m_freeblock s + (blocks n' - blocks n).
Proof.
  intros [I Hnx Hfw Hin Hsz Hun Hme] E n n' Hmax Hroom. pose proof (lookup_lt_Some _ _ _ E) as Hi. destruct (Hsz i f E) as [Es Ec]. fold n in Es, Ec.
  assert (MAXFILE * BSIZE = 274432) as EM by done. assert (0 <= n <= n') as Hn by (unfold n, n'; rewrite length_app; lia).
  destruct (sb_IBLOCK (1 + Z.of_nat i) ltac:(lia)) as [_ Hb]. unfold iappend, rinode.
  rewrite bind_assoc, (bind_Ok _ _ _ _ _ (proj1 (rsect_ok F s (IBLOCK (1 + Z.of_nat i) sb) I ltac:(unfold FSSIZE; lia)))). erewrite bind_Ok by reflexivity.
  change (dinode_load _ _ _) with (on_disk (view s) (1 + Z.of_nat i)). rewrite (Hin i f E), Es, xint_id by (unfold is_u32; lia).
  destruct (iappend_loop_ok i (length p) p F s f ltac:(done) I E Ec Hmax Hroom) as (r1 & s1 & E1 & I1 & [Mi Mv] & P1). fold n n' in E1, I1.
  rewrite (bind_Ok _ _ _ _ _ E1). cbn [fst snd]. rewrite xint_id by (unfold is_u32; lia). set (f1 := mkFile _ _ _) in I1.
  assert (<[i := f1]> F !! i = Some f1) as L1 by by apply list_lookup_insert_eq. pose proof (im_file _ _ I1 i f1 L1) as F1.
  assert (inode_typed (set_i_size n' r1)) as T2 by (apply inode_typed_size; [apply F1|unfold is_u32; lia]).
  assert (plain (set_i_size n' r1)) as P2 by (apply plain_size, F1).
  pose proof (image_ino _ s1 i f1 (set_i_size n' r1) I1 L1 eq_refl T2 P2) as I2. rewrite list_insert_insert_eq in I2. cbn [f1 f_data f_count] in I2.
  destruct (winode_ok _ s1 (1 + Z.of_nat i) _ I2 ltac:(lia) T2 P2) as (s2 & E2 & I3 & D2 & Fb & Fi & Ho & Hv).
  exists (mkFile (set_i_size n' r1) (f_data f ++ p) (blocks n')), s2. split; [exact E2|].
  assert (forall j, 0 <= j < NINODES -> j <> 1 + Z.of_nat i -> on_disk (view s2) j = on_disk (view s) j) as Hd.
  { intros j Hj Hne. rewrite Ho by done. unfold on_disk. rewrite Mv; [done|]. rewrite nmeta_val. pose proof (sb_IBLOCK j Hj). lia. }
  split; [|split; [done|split; [unfold kind; cbn; by rewrite P1|]]].
  - split; rewrite ?length_insert; try done; [congruence|..].
    + intros j g [(<- & <- & _)|[Hj Ej]]%list_lookup_insert_Some; [done|]. pose proof (lookup_lt_Some _ _ _ Ej). rewrite Hd by lia. by apply Hin.
    + intros j g [(<- & <- & _)|[Hj Ej]]%list_lookup_insert_Some; [done|by apply (Hsz j)].
    + intros j Hj Hu. rewrite Hd by lia. by apply Hun.
    + intros b Hb'. rewrite Hv by lia. rewrite Mv by (rewrite nmeta_val; lia). by apply Hme.
  - rewrite Fb, (im_free _ _ I1), (total_insert _ _ _ _ E), (im_free _ _ I), Ec. cbn [f1 f_count]. lia.
Qed.

(** ** A new file *)

Definition new_inode (type : Z) : inode := set_i_size 0 (set_i_nlink 1 (set_i_type type no_inode)).
Definition new_file (type : Z) : mfile := mkFile (new_inode type) [] 0.

Lemma new_slot V type n : slot V (new_inode type) n = 0.
Proof.
  unfold slot, block_of. change (ind_of (new_inode type)) with 0. destruct (n =? -1); [done|].
  destruct (Z.ltb_spec n NDIRECT); [|done]. apply nth_replicate_0.
Qed.
Lemma new_typed type : is_i16 type -> inode_typed (new_inode type).
Proof. intros Ht. split; try done. apply list.Forall_forall. by intros x [-> _]%elem_of_replicate. Qed.

Lemma turn_nonneg n : is_slot n -> 0 <= turn n.
Proof. unfold is_slot, turn. intros Hn. destruct (Z.eqb_spec n (-1)), (Z.ltb_spec n 12); lia. Qed.

Lemma image_new F s type : image F s -> is_i16 type -> image (F ++ [new_file type]) s.
Proof.
  intros I Ht. assert (forall j g, (F ++ [new_file type]) !! j = Some g -> F !! j = Some g \/ g = new_file type) as HF.
  { intros j g [Ej|(_ & Ej)]%lookup_app_Some; [by left|right]. by apply list_lookup_singleton_Some in Ej as [_ <-]. }
  assert (forall n, is_slot n -> turn n < f_count (new_file type) -> False) as Hno by (intros n Hn; pose proof (turn_nonneg n Hn); cbn; lia).
  destruct I as [Hf Hr Hbl Hfi Hap Hz]. split; try done.
  - rewrite total_app, Hf. cbn. lia.
  - intros j g [Ej| ->]%HF; [by apply (Hfi j)|]. split; cbn [new_file f_ino f_data f_count]; [by apply new_typed|done|by vm_compute|..].
    + intros n Hn Hc. exfalso. by apply (Hno n).
    + intros n Hn _. apply new_slot.
    + intros p Hp. cbn in Hp. lia.
    + intros p Hp Hc. exfalso. by apply (Hno (p / BSIZE)); [apply slot_data, block_in_range|].
  - intros j1 j2 g1 g2 m1 m2 E1 E2 M1 M2 C1 C2. destruct (HF _ _ E1) as [D1| ->]; [|exfalso; by apply (Hno m1)].
    destruct (HF _ _ E2) as [D2| ->]; [|exfalso; by apply (Hno m2)]. by apply Hap.
Qed.

(** Only the block of an inode has changed, and the file it is of. *)
Lemma ialloc_ok F s type :
  stored F s -> 2 + Z.of_nat (length F) <= NINODES -> xshort type = type -> is_i16 type ->
  exists s', ialloc type s = Ok (1 + Z.of_nat (length F)) s' /\ stored (F ++ [new_file type]) s' /\ m_freeblock s' = m_freeblock s.
Proof.
  intros [I Hnx Hfw Hin Hsz Hun Hme] Hroom Ex Ht. change NINODES with 200 in *. set (j := 1 + Z.of_nat (length F)) in *.
  unfold ialloc. erewrite bind_Ok by reflexivity. rewrite Hnx. fold j. rewrite (u32_small (j + 1)) by (unfold is_u32; lia).
  erewrite bind_Ok by reflexivity. rewrite Ex. change (set_i_size _ _) with (new_inode type). set (s0 := set_m_freeinode (j + 1) s).
  assert (image F s0) as I0 by (by destruct I; split).
  destruct (winode_ok F s0 j (new_inode type) I0 ltac:(change NINODES with 200; lia) (new_typed type Ht) ltac:(done)) as (s' & E & I' & D & Fb & Fi & Ho & Hv).
  rewrite (bind_Ok _ _ _ _ _ E). exists s'. split; [done|]. split; [|done]. change NINODES with 200 in Ho.
  split; rewrite ?length_app, ?Nat2Z.inj_add; cbn [length Z.of_nat]; change NINODES with 200; try lia.
  - by apply image_new.
  - rewrite Fi. cbn. lia.
  - intros i f [Ei|(Hi & Ei)]%lookup_app_Some.
    + pose proof (lookup_lt_Some _ _ _ Ei). rewrite Ho by lia. by apply Hin.
    + apply list_lookup_singleton_Some in Ei as [Ei <-]. by replace (1 + Z.of_nat i) with j by lia.
  - intros i f [Ei|(Hi & Ei)]%lookup_app_Some; [by apply (Hsz i)|]. by apply list_lookup_singleton_Some in Ei as [Ei <-].
  - intros k Hk Hu. rewrite Ho by lia. apply Hun; [done|lia].
  - intros b Hb. rewrite Hv by lia. by apply Hme.
Qed.

(** ** All pieces of a file *)

Lemma append_file_ok ps : forall F s i f,
  stored F s -> F !! i = Some f -> let n := Z.of_nat (length (f_data f)) in let n' := Z.of_nat (length (f_data f ++ concat ps)) in
  n' <= MAXFILE * BSIZE -> m_freeblock s + (blocks n' - blocks n) <= FSSIZE ->
  exists f' s', append_file (1 + Z.of_nat i) ps s = Ok tt s' /\ stored (<[i := f']> F) s' /\ f_data f' = f_data f ++ concat ps /\
    kind f' = kind f /\ m_freeblock s' = m_freeblock s + (blocks n' - blocks n).
Proof.
  induction ps as [|p ps IH]; intros F s i f St E n n' Hmax Hroom; cbn [concat append_file] in *.
  - exists f, s. unfold n' in *. rewrite app_nil_r in *. fold n. rewrite list_insert_id by done. split; [done|]. do 3 (split; [done|]). lia.
  - unfold n' in *. rewrite (assoc_L (++)) in *. set (m := Z.of_nat (length (f_data f ++ p))).
    assert (n <= m <= Z.of_nat (length ((f_data f ++ p) ++ concat ps))) as Hm by (unfold n, m; rewrite !length_app; lia).
    pose proof (blocks_mono n m ltac:(lia)). pose proof (blocks_mono m _ ltac:(exact (proj2 Hm))).
    destruct (iappend_ok F s i f p St E) as (f1 & s1 & E1 & St1 & D1 & K1 & B1); [fold m; lia|fold m n; lia|]. fold m n in B1.
    rewrite (bind_Ok _ _ _ _ _ E1).
    destruct (IH _ s1 i f1 St1 (list_lookup_insert_eq _ _ _ (lookup_lt_Some _ _ _ E))) as (f2 & s2 & E2 & St2 & D2 & K2 & B2);
      rewrite ?D1; [done|fold m; lia|]. rewrite D1 in B2, D2. fold m in B2. rewrite list_insert_insert_eq in St2.
    exists f2, s2. split; [done|]. split; [done|]. split; [done|]. split; [by rewrite K2|]. fold n. lia.
Qed.

(** * The files of the command line *)

(** A file: the name on the command line, and its pieces. *)
Notation hostfile := (list Z * list (list Z))%type.
Definition command (fs : list hostfile) : list (list Z * option (list (list Z))) := map (fun f => (fst f, Some (snd f))) fs.
Definition short (a : list Z) : list Z := drop_underscore (shortname a).
Definition no_slash (a : list Z) : bool := negb (existsb (Z.eqb 47) (shortname a)).

(** The entries of the root directory. *)
Fixpoint dirents (n : Z) (fs : list hostfile) : list Z :=
  match fs with [] => [] | f :: fs => dirent n (short (fst f)) ++ dirents (n + 1) fs end.
Definition content (f : hostfile) : list Z := concat (snd f).
Definition size_of (f : hostfile) : Z := Z.of_nat (length (content f)).
Definition need (fs : list hostfile) : Z := foldr (fun f n => blocks (size_of f) + n) 0 fs.

Lemma image_dirent_length n name : length (dirent n name) = 16%nat.
Proof. unfold dirent, mk_dirent. rewrite length_app, le_bytes_length. by rewrite (proj2 (strncpy_cut DIRSIZ name)). Qed.
Lemma dirents_length fs n : length (dirents n fs) = (16 * length fs)%nat.
Proof. revert n. induction fs as [|f fs IH]; intros n; cbn [dirents length]; [done|]. rewrite length_app, image_dirent_length, IH. lia. Qed.
Lemma blocks_nonneg n : 0 <= n -> 0 <= blocks n.
Proof. intros Hn. by apply (blocks_mono 0 n). Qed.

Lemma add_file_ok F s root a ps :
  let f := (a, ps) in let n := Z.of_nat (length (f_data root)) in
  stored F s -> F !! 0%nat = Some root -> no_slash a = true -> size_of f <= MAXFILE * BSIZE -> 2 + Z.of_nat (length F) <= NINODES ->
  n + 16 <= MAXFILE * BSIZE -> m_freeblock s + blocks (size_of f) + (blocks (n + 16) - blocks n) <= FSSIZE ->
  exists root' g s', add_file 1 a (Some ps) s = Ok tt s' /\ stored (<[0%nat := root']> F ++ [g]) s' /\
    f_data root' = f_data root ++ dirent (1 + Z.of_nat (length F)) (short a) /\ kind root' = kind root /\
    f_data g = content f /\ kind g = (T_FILE, 1) /\ m_freeblock s' = m_freeblock s + blocks (size_of f) + (blocks (n + 16) - blocks n).
Proof.
  intros f n St E0 Hns Hmax Hfew Hroot Hroom. unfold add_file, no_slash in *. rewrite Hns. rewrite (bind_Ok (Mkfs.assert true) _ tt s s eq_refl).
  fold (short a). pose proof (lookup_lt_Some _ _ _ E0) as Hl0. pose proof (blocks_nonneg (size_of f) ltac:(unfold size_of; lia)).
  destruct (ialloc_ok F s T_FILE St Hfew ltac:(by vm_compute) ltac:(by vm_compute)) as (s1 & E1 & St1 & B1).
  rewrite (bind_Ok _ _ _ _ _ E1). set (d := dirent _ _). set (F1 := F ++ [new_file T_FILE]) in *.
  assert (Z.of_nat (length (f_data root ++ d)) = n + 16) as En by (rewrite length_app; unfold d; rewrite image_dirent_length; lia).
  destruct (iappend_ok F1 s1 0 root d St1 ltac:(by apply lookup_app_l_Some)) as (root' & s2 & E2 & St2 & D2 & K2 & B2);
    [by rewrite En|rewrite En; fold n; lia|]. rewrite En in B2. fold n in B2. change (1 + Z.of_nat 0) with 1 in E2. rewrite (bind_Ok _ _ _ _ _ E2).
  assert (<[0%nat := root']> F1 = <[0%nat := root']> F ++ [new_file T_FILE]) as EF by by apply insert_app_l. rewrite EF in St2.
  assert ((<[0%nat := root']> F ++ [new_file T_FILE]) !! length F = Some (new_file T_FILE)) as Lg.
  { rewrite lookup_app_r, length_insert by (rewrite length_insert; lia). by rewrite Nat.sub_diag. }
  destruct (append_file_ok ps _ s2 (length F) (new_file T_FILE) St2 Lg) as (g & s3 & E3 & St3 & D3 & K3 & B3);
    [done|change (Z.of_nat (length (f_data (new_file T_FILE) ++ concat ps))) with (size_of f); change (blocks (Z.of_nat (length (f_data (new_file T_FILE))))) with 0; lia|].
  change (Z.of_nat (length (f_data (new_file T_FILE) ++ concat ps))) with (size_of f) in B3. change (blocks (Z.of_nat (length (f_data (new_file T_FILE))))) with 0 in B3.
  rewrite insert_app_r_alt, length_insert, Nat.sub_diag in St3 by (rewrite length_insert; lia).
  exists root', g, s3. split; [done|]. split; [done|]. split; [done|]. split; [done|]. split; [done|]. split; [done|]. lia.
Qed.

(** What the files have become. *)
Record added (F : list mfile) (fs : list hostfile) (F' : list mfile) : Prop := {
  ad_length : length F' = (length F + length fs)%nat;
  ad_old : forall i f, F !! i = Some f -> i <> O -> F' !! i = Some f;
  ad_new : forall i f, fs !! i = Some f -> exists g, F' !! (length F + i)%nat = Some g /\ f_data g = content f /\ kind g = (T_FILE, 1)
}.

Lemma add_files_ok fs : forall F s root,
  let n := Z.of_nat (length (f_data root)) in let n' := n + 16 * Z.of_nat (length fs) in
  stored F s -> F !! 0%nat = Some root -> Forall (fun f => no_slash (fst f) = true /\ size_of f <= MAXFILE * BSIZE) fs ->
  1 + Z.of_nat (length F) + Z.of_nat (length fs) <= NINODES -> n' <= MAXFILE * BSIZE ->
  m_freeblock s + need fs + (blocks n' - blocks n) <= FSSIZE ->
  exists F' root' s', add_files 1 (command fs) s = Ok tt s' /\ stored F' s' /\ added F fs F' /\ F' !! 0%nat = Some root' /\
    f_data root' = f_data root ++ dirents (1 + Z.of_nat (length F)) fs /\ kind root' = kind root /\
    m_freeblock s' = m_freeblock s + need fs + (blocks n' - blocks n).
Proof.
  induction fs as [|[a ps] fs IH]; intros F s root n n' St E0 Hfs Hfew Hroot Hroom.
  - exists F, root, s. unfold n' in *. change (Z.of_nat (length (@nil hostfile))) with 0 in *. rewrite Z.mul_0_r, !Z.add_0_r. cbn [dirents]. rewrite app_nil_r.
    split; [done|]. split; [done|]. split; [split; [cbn; lia|done|done]|]. do 3 (split; [done|]). cbn [need foldr]. lia.
  - apply list.Forall_cons in Hfs as [[Hns Hsz] Hfs]. cbn [fst] in Hns. unfold n' in *. cbn [length] in *. rewrite Nat2Z.inj_succ in *.
    cbn [need foldr] in Hroom. fold (need fs) in Hroom. set (l := Z.of_nat (length fs)) in *.
    assert (0 <= need fs) as Hnn by (clear; unfold need; induction fs as [|f fs IH]; cbn; [done|]; pose proof (blocks_nonneg (size_of f) ltac:(unfold size_of; lia)); lia).
    pose proof (blocks_mono (n + 16) (n + 16 * Z.succ l) ltac:(lia)) as Hmono.
    destruct (add_file_ok F s root a ps St E0 Hns Hsz) as (root1 & g & s1 & E1 & St1 & D1 & K1 & Dg & Kg & B1); [lia|fold n; lia|fold n; lia|]. fold n in B1.
    cbn [command map fst snd add_files]. rewrite (bind_Ok _ _ _ _ _ E1).
    pose proof (lookup_lt_Some _ _ _ E0) as Hl0. set (F1 := <[0%nat := root1]> F ++ [g]) in *.
    assert (length F1 = S (length F)) as EL by (unfold F1; rewrite length_app, length_insert; cbn; lia).
    assert (F1 !! 0%nat = Some root1) as L1 by (apply lookup_app_l_Some; by apply list_lookup_insert_eq).
    assert (Z.of_nat (length (f_data root1)) = n + 16) as En by (rewrite D1, length_app, image_dirent_length; lia).
    destruct (IH F1 s1 root1 St1 L1 Hfs) as (F' & root' & s' & E' & St' & [Al Ao An] & L' & D' & K' & B');
      rewrite ?En, ?EL; [lia|lia|fold l; replace (n + 16 + 16 * l) with (n + 16 * Z.succ l) by lia; lia|].
    exists F', root', s'. split; [exact E'|]. split; [done|]. split.
    { split; [cbn; lia| |].
      - intros i h Ei Hi. apply Ao; [|done]. apply lookup_app_l_Some. by rewrite list_lookup_insert_ne.
      - intros [|i] h Eh; [injection Eh as <-|].
        + exists g. rewrite Nat.add_0_r. split; [|done]. apply Ao; [|lia]. unfold F1. rewrite lookup_app_r, length_insert by (rewrite length_insert; lia). by rewrite Nat.sub_diag.
        + destruct (An i h Eh) as (g' & Eg & P). exists g'. split; [|done]. rewrite <- Eg. f_equal. lia. }
    split; [done|]. split; [|split; [congruence|]].
    + rewrite D', D1, EL, <- (assoc_L (++)). cbn [dirents fst]. do 3 f_equal. lia.
    + rewrite B', B1, En. fold l. replace (n + 16 + 16 * l) with (n + 16 * Z.succ l) by lia. cbn [need foldr]. fold (need fs). unfold size_of. lia.
Qed.

(** * The whole program *)

(** The files have room: inodes, blocks, and each of them a file of the kernel. *)
Record fits (fs : list hostfile) : Prop := {
  ft_files : Forall (fun f => no_slash (fst f) = true /\ size_of f <= MAXFILE * BSIZE) fs;
  ft_inodes : 2 + Z.of_nat (length fs) <= NINODES;
  ft_blocks : need fs + blocks (32 + 16 * Z.of_nat (length fs)) <= nblocks
}.

(** The blocks in use, and the size of the root directory. *)
Definition used (fs : list hostfile) : Z := nmeta + need fs + blocks (32 + 16 * Z.of_nat (length fs)).
Definition root_size (fs : list hostfile) : Z := ((32 + 16 * Z.of_nat (length fs)) / BSIZE + 1) * BSIZE.
Definition root_data (fs : list hostfile) : list Z := dirent ROOTINO [46] ++ dirent ROOTINO [46; 46] ++ dirents 2 fs.

Lemma root_data_length fs : length (root_data fs) = (32 + 16 * length fs)%nat.
Proof. unfold root_data. rewrite !length_app, !image_dirent_length, dirents_length. lia. Qed.

(** ** The bitmap *)

Lemma set_bits_ok n : forall i d, 0 <= i -> i + Z.of_nat n <= BPB -> length d = Z.to_nat BSIZE ->
  length (set_bits n i d) = Z.to_nat BSIZE /\
  forall b, 0 <= b < BPB -> bit_set (set_bits n i d) b = (i <=? b) && (b <? i + Z.of_nat n) || bit_set d b.
Proof.
  induction n as [|n IH]; intros i d Hi Hn Hd.
  - split; [done|]. intros b Hb. change (set_bits 0 i d) with d. destruct (Z.leb_spec i b), (Z.ltb_spec b (i + Z.of_nat 0)); try lia; done.
  - change (set_bits (S n) i d) with (set_bits n (i + 1) (set_bit d i)).
    destruct (IH (i + 1) (set_bit d i) ltac:(lia) ltac:(lia) ltac:(by rewrite set_bit_length)) as [Hl Hb]. split; [done|]. intros b Hr.
    change BPB with 8192 in *. change (Z.to_nat BSIZE) with 1024%nat in Hd. rewrite Hb, bit_set_set by lia.
    destruct (Z.leb_spec (i + 1) b), (Z.leb_spec i b), (Z.ltb_spec b (i + 1 + Z.of_nat n)), (Z.ltb_spec b (i + Z.of_nat (S n))), (Z.eqb_spec b i); try lia; done.
Qed.

Lemma bit_set_zeroes b : bit_set zeroes b = false.
Proof. unfold bit_set, zeroes. rewrite nth_replicate_0. apply Z.testbit_0_l. Qed.

(** ** The empty image *)

Lemma zero_loop_ok n s : 0 <= n -> exists s', for_range 0 n (fun i => wsect i zeroes) s = Ok tt s' /\
  m_freeinode s' = m_freeinode s /\ m_freeblock s' = m_freeblock s /\ forall b, 0 <= b < n -> m_img s' !! b = Some zeroes.
Proof.
  intros Hn.
  assert (wp (for_range 0 n (fun i => wsect i zeroes)) (fun _ s' => m_freeinode s' = m_freeinode s /\ m_freeblock s' = m_freeblock s /\
    forall b, 0 <= b < n -> m_img s' !! b = Some zeroes) s) as W.
  { apply (wp_for_range (fun i s' => m_freeinode s' = m_freeinode s /\ m_freeblock s' = m_freeblock s /\ forall b, 0 <= b < i -> m_img s' !! b = Some zeroes));
      [done|split_and!; (done || lia)|]. intros i t Hi (Ei & Eb & Hz). cbn. split_and!; [done..|].
    intros b Hb. destruct (Z.eqb_spec b i) as [->|Hne]; [by rewrite lookup_insert_eq|]. rewrite lookup_insert_ne by lia. apply Hz. lia. }
  unfold wp in W. destruct (for_range _ _ _ s) as [[] s'| | |]; try done. by exists s'.
Qed.

Lemma zero_inode j : 0 <= j < NINODES -> dinode_load (dinode_off j) zeroes no_inode = no_inode.
Proof.
  intros Hj. assert (dinode_off j = dinode_off (j mod 16)) as ->.
  { unfold dinode_off. change IPB with 16. by rewrite Z.mod_mod. }
  pose proof (Z.mod_pos_bound j 16 ltac:(done)) as Hm. set (m := j mod 16) in *. clearbody m. clear j Hj.
  assert (m = 0 \/ m = 1 \/ m = 2 \/ m = 3 \/ m = 4 \/ m = 5 \/ m = 6 \/ m = 7 \/ m = 8 \/ m = 9 \/ m = 10 \/ m = 11 \/ m = 12 \/ m = 13 \/ m = 14 \/ m = 15) as Hc by lia.
  repeat (destruct Hc as [->|Hc]; [by vm_compute|]). subst m. by vm_compute.
Qed.

Lemma sb_block_length : length (splice 0 (sb_bytes sb) zeroes) = Z.to_nat BSIZE.
Proof. by vm_compute. Qed.

(** Before the first inode. *)
Lemma stored_start : exists s, (modify (set_m_freeblock nmeta) ;; for_range 0 FSSIZE (fun i => wsect i zeroes) ;;
  wsect 1 (splice 0 (sb_bytes sb) zeroes)) start = Ok tt s /\ stored [] s /\ m_freeblock s = nmeta.
Proof.
  erewrite bind_Ok by reflexivity. destruct (zero_loop_ok FSSIZE (set_m_freeblock nmeta start) ltac:(done)) as (s1 & E1 & Ei & Eb & Hz). rewrite (bind_Ok _ _ _ _ _ E1).
  set (d := splice 0 (sb_bytes sb) zeroes). exists (set_m_img (<[1 := d]> (m_img s1)) s1). split; [done|].
  assert (forall b, 0 <= b < FSSIZE -> view (set_m_img (<[1 := d]> (m_img s1)) s1) b = if b =? 1 then d else zeroes) as HV.
  { intros b Hb. rewrite view_wsect. destruct (b =? 1); [done|]. unfold view. by rewrite Hz. }
  unfold FSSIZE in *. split; [|done]. split; try done.
  - split; try done.
    + cbn [m_freeblock set_m_img]. by rewrite Eb.
    + apply (blocks_wsect 1 d s1 sb_block_length). intros x Hx. exists zeroes. split; [by apply Hz|by vm_compute].
    + cbn [m_freeblock set_m_img]. rewrite Eb. change (m_freeblock (set_m_freeblock nmeta start)) with nmeta. rewrite nmeta_val. unfold FSSIZE.
      intros b Hb. rewrite HV by lia. by destruct (Z.eqb_spec b 1); [lia|].
  - intros j Hj _. destruct (sb_IBLOCK j Hj) as [_ Hb]. unfold on_disk. rewrite HV by lia.
    destruct (Z.eqb_spec (IBLOCK j sb) 1); [lia|]. by apply zero_inode.
  - intros b Hb. apply HV. lia.
Qed.

(** ** The image that is made *)

(** [F] is what has been stored: the root directory, then the files. *)
Record made (fs : list hostfile) (F : list mfile) (s : mkfs) : Prop := {
  md_image : image F s;
  md_count : length F = S (length fs);
  md_inode : forall i f, F !! i = Some f -> on_disk (view s) (1 + Z.of_nat i) = f_ino f;
  md_unused : forall j, 0 <= j < NINODES -> j = 0 \/ 1 + Z.of_nat (length F) <= j -> on_disk (view s) j = no_inode;
  md_root : exists root, F !! O = Some root /\ f_data root = root_data fs /\ kind root = (T_DIR, 1) /\
    i_size (f_ino root) = root_size fs /\ f_count root = blocks (32 + 16 * Z.of_nat (length fs));
  md_file : forall i f, fs !! i = Some f -> exists g, F !! S i = Some g /\ f_data g = content f /\ kind g = (T_FILE, 1) /\
    i_size (f_ino g) = size_of f /\ f_count g = blocks (size_of f);
  md_free : m_freeblock s = used fs;
  md_meta : forall b, 0 <= b < 32 -> view s b = if b =? 1 then splice 0 (sb_bytes sb) zeroes else zeroes;
  md_map : view s 45 = set_bits (Z.to_nat (used fs)) 0 zeroes
}.

(** The root directory and the files, before the end. *)
Lemma files_ok fs : fits fs -> exists F root s s0,
  (modify (set_m_freeblock nmeta) ;; for_range 0 FSSIZE (fun i => wsect i zeroes) ;; wsect 1 (splice 0 (sb_bytes sb) zeroes)) start = Ok tt s0 /\
  (let! rootino := ialloc T_DIR in
   assert (rootino =? ROOTINO) ;; iappend rootino (dirent rootino [46]) ;; iappend rootino (dirent rootino [46; 46]) ;;
   add_files rootino (command fs) ;; ret rootino) s0 = Ok ROOTINO s /\
  stored F s /\ F !! O = Some root /\ f_data root = root_data fs /\ kind root = (T_DIR, 1) /\ m_freeblock s = used fs /\
  added [root] fs F.
Proof.
  intros [Hfs Hino Hblk]. change nblocks with 954 in Hblk. change NINODES with 200 in Hino. set (l := Z.of_nat (length fs)) in *.
  destruct stored_start as (s0 & E0 & St0 & B0). rewrite nmeta_val in B0.
  destruct (ialloc_ok [] s0 T_DIR St0 ltac:(by vm_compute) ltac:(by vm_compute) ltac:(by vm_compute)) as (s1 & E1 & St1 & B1).
  change (1 + Z.of_nat (length [])) with 1 in E1. change ([] ++ [new_file T_DIR]) with [new_file T_DIR] in St1.
  assert (MAXFILE * BSIZE = 274432) as EM by done.
  assert (0 <= need fs) as Hnn by (clear; unfold need; induction fs as [|f fs IH]; cbn; [done|]; pose proof (blocks_nonneg (size_of f) ltac:(unfold size_of; lia)); lia).
  assert (blocks 16 = 1) as E16 by done. assert (blocks 32 = 1) as E32 by done. pose proof (blocks_mono 32 (32 + 16 * l) ltac:(lia)) as Hm.
  destruct (iappend_ok _ s1 0 (new_file T_DIR) (dirent 1 [46]) St1 eq_refl) as (r1 & s2 & E2 & St2 & D2 & K2 & B2);
    [by vm_compute|by rewrite B1, B0; vm_compute|]. change (blocks _) with 1 in B2 at 1. change (blocks _) with 0 in B2.
  cbn [app new_file f_data] in D2. change (<[0%nat := r1]> [new_file T_DIR]) with [r1] in St2. rewrite <- (app_nil_l (dirent 1 [46])) in D2.
  assert (length (f_data r1) = 16%nat) as L2 by (rewrite D2; by vm_compute).
  destruct (iappend_ok _ s2 0 r1 (dirent 1 [46; 46]) St2 eq_refl) as (r2 & s3 & E3 & St3 & D3 & K3 & B3);
    [rewrite length_app, L2; by vm_compute|rewrite B2, B1, B0, length_app, L2; by vm_compute|].
  rewrite length_app, L2 in B3. change (blocks _) with 1 in B3 at 1. change (blocks _) with 1 in B3.
  change (<[0%nat := r2]> [r1]) with [r2] in St3.
  assert (length (f_data r2) = 32%nat) as L3 by (rewrite D3, length_app, L2; by vm_compute).
  destruct (add_files_ok fs [r2] s3 r2 St3 eq_refl Hfs) as (F & root & s & E4 & St4 & A4 & L4 & D4 & K4 & B4);
    rewrite ?L3; change (Z.of_nat 32) with 32; fold l; rewrite ?EM; [change NINODES with 200; cbn; lia|lia|rewrite E32; unfold FSSIZE; lia|].
  rewrite L3 in B4. change (Z.of_nat 32) with 32 in B4. fold l in B4. rewrite E32 in B4.
  exists F, root, s, s0. split; [done|]. split.
  { rewrite (bind_Ok _ _ _ _ _ E1). rewrite (bind_Ok _ _ _ _ _ (eq_refl : Mkfs.assert (1 =? ROOTINO) s1 = Ok tt s1)).
    change (1 + Z.of_nat 0) with 1 in *. rewrite (bind_Ok _ _ _ _ _ E2), (bind_Ok _ _ _ _ _ E3), (bind_Ok _ _ _ _ _ E4). done. }
  split; [done|]. split; [done|]. split; [by rewrite D4, D3, D2, <- (assoc_L (++))|]. split; [by rewrite K4, K3, K2|].
  split; [unfold used; rewrite nmeta_val; fold l; lia|]. destruct A4 as [Al Ao An]. split; [done| |done].
  intros [|[|i]] f Ef Hi; done.
Qed.

Lemma bind_five {S} (m : M S Z) (a b c d : Z -> M S unit) (K : Z -> M S unit) s v s' :
  (let! r := m in a r ;; b r ;; c r ;; d r ;; ret r) s = Ok v s' -> (let! r := m in a r ;; b r ;; c r ;; d r ;; K r) s = K v s'.
Proof.
  unfold bind, ret. destruct (m s) as [r s1| | |]; try done. destruct (a r s1) as [[] s2| | |]; try done.
  destruct (b r s2) as [[] s3| | |]; try done. destruct (c r s3) as [[] s4| | |]; try done. destruct (d r s4) as [[] s5| | |]; try done. by intros [= -> ->].
Qed.

(** The size of the root directory is rounded up. *)
Lemma root_ok fs F root s : fits fs ->
  stored F s -> F !! O = Some root -> f_data root = root_data fs ->
  let r := set_i_size (root_size fs) (f_ino root) in
  exists s', (let! din := rinode ROOTINO in
      let off := (xint (i_size din) / BSIZE + 1) * BSIZE in winode ROOTINO (set_i_size (xint (u32 off)) din)) s = Ok tt s' /\
    image (<[O := mkFile r (f_data root) (f_count root)]> F) s' /\ on_disk (view s') 1 = r /\ m_freeblock s' = m_freeblock s /\
    (forall k, 0 <= k < NINODES -> k <> 1 -> on_disk (view s') k = on_disk (view s) k) /\ (forall x, ~ (32 <= x < 45) -> view s' x = view s x).
Proof.
  intros [_ Hino _] [I _ Hfw Hin Hsz _ _] E Hd r. change NINODES with 200 in Hino, Hfw. destruct (Hsz _ _ E) as [Es _]. pose proof (im_file _ _ I _ _ E) as Ff.
  rewrite Hd, root_data_length, Nat2Z.inj_add, Nat2Z.inj_mul in Es. change (Z.of_nat 32) with 32 in Es. change (Z.of_nat 16) with 16 in Es.
  unfold rinode. rewrite bind_assoc. destruct (sb_IBLOCK ROOTINO ltac:(by vm_compute)) as [_ Hb].
  rewrite (bind_Ok _ _ _ _ _ (proj1 (rsect_ok F s (IBLOCK ROOTINO sb) I ltac:(unfold FSSIZE; lia)))). erewrite bind_Ok by reflexivity.
  change (dinode_load _ _ _) with (on_disk (view s) (1 + Z.of_nat 0)). rewrite (Hin _ _ E), Es. rewrite (xint_id (32 + 16 * Z.of_nat (length fs))) by (unfold is_u32; lia). cbn zeta. fold (root_size fs).
  assert (0 <= root_size fs < 2 ^ 32) as Hrs.
  { unfold root_size. change BSIZE with 1024. Z.to_euclidean_division_equations; lia. }
  rewrite u32_small, xint_id by done. fold r. assert (inode_typed r) as T by (apply inode_typed_size; [apply Ff|done]).
  assert (plain r) as P by (apply plain_size, Ff). pose proof (image_ino F s O root r I E eq_refl T P) as I'.
  destruct (winode_ok _ s 1 r I' ltac:(done) T P) as (s' & E' & I2 & D & Fb & _ & Ho & Hv). by exists s'.
Qed.

Lemma main_ok fs : fits fs -> exists F s, main (command fs) start = Ok tt s /\ made fs F s.
Proof.
  intros Ft. destruct (files_ok fs Ft) as (F & root & s & s0 & E0 & E1 & St & L & D & K & B & [Al Ao An]).
  destruct (root_ok fs F root s Ft St L D) as (s1 & E2 & I1 & D1 & B1 & Ho & Hv).
  pose proof St as [I Hnx Hfw Hin Hsz Hun Hme]. set (r := set_i_size _ _) in *. set (F' := <[O := mkFile r (f_data root) (f_count root)]> F) in *.
  assert (46 <= used fs <= 1000) as Hu by (pose proof (im_range _ _ I) as HR; rewrite B, nmeta_val in HR; exact HR).
  destruct (set_bits_ok (Z.to_nat (used fs)) 0 zeroes ltac:(lia) ltac:(change BPB with 8192; lia) ltac:(by vm_compute)) as [Hlen _].
  set (d := set_bits (Z.to_nat (used fs)) 0 zeroes) in *. exists F', (set_m_img (<[45 := d]> (m_img s1)) s1). split.
  - unfold main. rewrite (bind_Ok _ _ _ _ _ (eq_refl : Mkfs.assert (BSIZE mod DINODE_SIZE =? 0) start = Ok tt start)).
    rewrite (bind_Ok _ _ _ _ _ (eq_refl : Mkfs.assert (BSIZE mod DIRENT_SIZE =? 0) start = Ok tt start)).
    rewrite (bind3_Ok _ _ _ _ _ _ E0). erewrite (bind_five _ _ _ _ _ _ _ _ _ E1). rewrite <- bind_assoc.
    rewrite (bind_Ok _ _ _ _ _ E2). erewrite bind_Ok by reflexivity. unfold balloc. rewrite B1, B.
    rewrite (bind_Ok _ _ tt s1 s1) by (unfold Mkfs.assert; change (BSIZE * 8) with 8192; destruct (Z.ltb_spec (used fs) 8192); [done|lia]). done.
  - assert (forall j, 0 <= j < NINODES -> on_disk (view (set_m_img (<[45 := d]> (m_img s1)) s1)) j = on_disk (view s1) j) as HD.
    { intros j Hj. unfold on_disk. rewrite view_wsect. destruct (Z.eqb_spec (IBLOCK j sb) 45) as [Eb|]; [|done]. pose proof (sb_IBLOCK j Hj). lia. }
    split; cbn [m_freeblock set_m_img]; [by apply image_meta| | | | | |congruence| |].
    + unfold F'. rewrite length_insert, Al. cbn. lia.
    + intros i f [(<- & <- & _)|[Hi Ei]]%list_lookup_insert_Some; [by rewrite HD by done|]. pose proof (lookup_lt_Some _ _ _ Ei).
      rewrite HD, Ho by lia. by apply Hin.
    + intros j Hj Hu'. unfold F' in Hu'. rewrite length_insert in Hu'. assert (j <> 1) by (cbn in Al; lia). rewrite HD, Ho by done. by apply Hun.
    + exists (mkFile r (f_data root) (f_count root)). split; [by apply list_lookup_insert_eq, (lookup_lt_Some _ _ _ L)|]. split; [done|]. split; [done|]. split; [done|].
      cbn [f_count]. rewrite (proj2 (Hsz _ _ L)), D, root_data_length. f_equal. lia.
    + intros i f Ei. destruct (An i f Ei) as (g & Eg & Dg & Kg). exists g. split; [by unfold F'; rewrite list_lookup_insert_ne|].
      split; [done|]. split; [done|]. destruct (Hsz _ _ Eg) as [Sg Cg]. rewrite Sg, Cg, Dg. done.
    + intros b Hb. rewrite view_wsect. destruct (Z.eqb_spec b 45); [lia|]. rewrite Hv by lia. apply Hme. lia.
    + by rewrite view_wsect.
Qed.
