(* ===== verification/MkfsImage.v ===== *)
(** What mkfs.c makes, as the kernel sees it: the image is a file system whose root directory
    has the files of the command line, and the kernel reads from it what they contain. *)
From stdpp Require Import base gmap sets list numbers strings tactics.
From S2P Require Import Prelude Mem KMachine KString KBytes KSched KBss KVm KProc KBio KBioProofs KLog KFs KCrash KLogProofs KTxn KBlocks KInode KData KContent KDir KPath KSim Mkfs MkfsBlocks MkfsProofs.

(** * The entries of the root directory *)

Fixpoint names_of (n : Z) (fs : list (list Z * list (list Z))) : list (Z * list Z) :=
  match fs with [] => [] | f :: fs => (n, short (fst f)) :: names_of (n + 1) fs end.
Definition root_names (fs : list (list Z * list (list Z))) : list (Z * list Z) := (ROOTINO, [46]) :: (ROOTINO, [46; 46]) :: names_of 2 fs.
Definition as_entry (e : Z * list Z) : Z * list Z := (fst e, cname (snd e)).

Lemma names_length n fs : length (names_of n fs) = length fs.
Proof. revert n. induction fs as [|f fs IH]; intros n; cbn; [done|]. by rewrite IH. Qed.
Lemma names_lookup fs : forall n i e, names_of n fs !! i = Some e -> exists f, fs !! i = Some f /\ e = (n + Z.of_nat i, short (fst f)).
Proof.
  induction fs as [|f fs IH]; intros n [|i] e E; try done.
  - injection E as <-. exists f. split; [done|]. f_equal. lia.
  - destruct (IH (n + 1) i e E) as (g & Eg & ->). exists g. split; [done|]. f_equal. lia.
Qed.
Lemma root_data_names fs : root_data fs = concat (map (fun e => dirent (fst e) (snd e)) (root_names fs)).
Proof.
  unfold root_data, root_names. cbn [map concat fst snd]. do 2 f_equal. generalize 2. induction fs as [|f fs IH]; intros n; [done|].
  cbn [dirents names_of map concat fst snd]. by rewrite IH.
Qed.

(** Entry [j] is 16 bytes from byte 16 [j] on. *)
Lemma nth_concat (es : list (Z * list Z)) : forall j e x, es !! j = Some e -> (x < 16)%nat ->
  nth (16 * j + x) (concat (map (fun e => dirent (fst e) (snd e)) es)) 0 = nth x (dirent (fst e) (snd e)) 0.
Proof.
  induction es as [|e0 es IH]; intros [|j] e x E Hx; try done; cbn [map concat]; rewrite app_nth, image_dirent_length.
  - injection E as ->. by rewrite decide_True by lia.
  - rewrite decide_False by lia. replace (16 * S j + x - 16)%nat with (16 * j + x)%nat by lia. by apply IH.
Qed.

Lemma xshort_id x : 0 <= x < 2 ^ 16 -> xshort x = x.
Proof.
  intros Hx. unfold xshort, u8. cbn [le_val]. rewrite Z.shiftr_div_pow2 by done. pose proof (Z.div_mod x 256 ltac:(done)).
  change (2 ^ 8) with 256. change (2 ^ 16) with 65536 in Hx. rewrite (Z.mod_small (x / 256)); [lia|]. split; [apply Z.div_pos; lia|apply Z.div_lt_upper_bound; lia].
Qed.

(** The name of the file comes first under its name. *)
Lemma dir_get_name nm fs tl : forall n i f, 0 < n -> fs !! i = Some f -> cname (short (fst f)) = nm ->
  (forall j g, fs !! j = Some g -> cname (short (fst g)) = nm -> j = i) ->
  dir_get (map as_entry (names_of n fs) ++ tl) nm = Some (n + Z.of_nat i).
Proof.
  induction fs as [|g fs IH]; intros n [|i] f Hn E En Hu; try done; cbn [names_of map app]; rewrite dir_get_cons; unfold is_for, as_entry; cbn [fst snd].
  - injection E as ->. rewrite decide_True by (split; [lia|done]). f_equal. lia.
  - rewrite decide_False by (intros [_ Eq]; by specialize (Hu O g eq_refl Eq)).
    fold as_entry. rewrite (IH (n + 1) i f) by (done || lia || (intros j h Ej Eq; specialize (Hu (S j) h Ej Eq); lia)). f_equal. lia.
Qed.

(** It is found in the root directory, if it is neither "." nor "..". *)
Lemma root_get nm fs tl i f : nm <> [46] -> nm <> [46; 46] -> fs !! i = Some f -> cname (short (fst f)) = nm ->
  (forall j g, fs !! j = Some g -> cname (short (fst g)) = nm -> j = i) ->
  dir_get (map as_entry (root_names fs) ++ tl) nm = Some (2 + Z.of_nat i).
Proof.
  intros Hd1 Hd2 E En Hu. unfold root_names. cbn [map app]. change (as_entry (ROOTINO, [46])) with (ROOTINO, [46]). 
  change (as_entry (ROOTINO, [46; 46])) with (ROOTINO, [46; 46]). rewrite dir_get_cons, decide_False by (intros [_ Eq]; by apply Hd1).
  rewrite dir_get_cons, decide_False by (intros [_ Eq]; by apply Hd2). by apply (dir_get_name nm fs tl 2 i f).
Qed.

(** * The file system *)

Section Image.
Context {H : Type} `{!Platform H} `{!SleepFuel} `{!DiskDriver H} `{!DiskLaws H}.
Notation hostfile := (list Z * list (list Z))%type.

(** The disk [V] has a file system with the files [fs]. *)
Record fs_image (fs : list hostfile) (V : disk) : Prop := {
  fs_root : let r := on_disk V ROOTINO in i_type r = T_DIR /\ i_nlink r = 1 /\ inode_typed r /\ file_ok 2 sb V r /\
    ((2 + Z.of_nat (length fs)) mod 64 <> 0 -> is_dir V r /\
     exists n, ents V r = map as_entry (root_names fs) ++ replicate n (0, []));
  fs_file : forall i f, fs !! i = Some f -> let r := on_disk V (2 + Z.of_nat i) in
    i_type r = T_FILE /\ i_nlink r = 1 /\ inode_typed r /\ file_ok 2 sb V r /\ whole V r /\
    i_size r = size_of f /\ file_bytes V r 0 (size_of f) = content f;
  fs_apart : forall i j n m, 0 <= i < NINODES -> 0 <= j < NINODES -> is_slot n -> is_slot m ->
    slot V (on_disk V i) n <> 0 -> slot V (on_disk V i) n = slot V (on_disk V j) m -> i = j /\ n = m;
  fs_none : forall j, 0 <= j < NINODES -> j = 0 \/ 2 + Z.of_nat (length fs) <= j -> on_disk V j = no_inode;
  fs_used : forall b, 0 <= b < FSSIZE -> in_use sb V b = (b <? used fs);
  fs_free : free_ok 2 sb V
}.

(** The disk of the platform is large enough. *)
Context (Hdk : FSSIZE <= dk_size).

Lemma sb_BBLOCK b : 0 <= b < FSSIZE -> BBLOCK b sb = 45.
Proof. intros Hb. unfold FSSIZE in Hb. unfold BBLOCK. change BPB with 8192. rewrite Z.div_small by lia. done. Qed.

Lemma mkfs_layout : fs_layout 2 sb.
Proof.
  unfold FSSIZE in Hdk. split; [split|by vm_compute|split|].
  - by vm_compute.
  - by vm_compute.
  - intros b Hb. change (sb_size sb) with 1000 in Hb. change BPB with 8192. change (sb_bmapstart sb) with 45. rewrite Z.div_small by lia.
    unfold in_log, LOGSIZE, MAXOPBLOCKS. lia.
  - by vm_compute.
  - intros j Hj. change (sb_ninodes sb) with NINODES in Hj. destruct (sb_IBLOCK j Hj) as [E Hr]. change (sb_inodestart sb) with 32. change IPB with 16.
    unfold in_log, LOGSIZE, MAXOPBLOCKS. lia.
  - intros j b Hj Hb. rewrite sb_BBLOCK by exact Hb. pose proof (sb_IBLOCK j Hj). lia.
Qed.

Lemma mkfs_data b : nmeta <= b < FSSIZE -> data_block 2 sb b.
Proof.
  rewrite nmeta_val. intros Hb. split.
  - change (sb_size sb) with FSSIZE. lia.
  - lia.
  - unfold in_log, LOGSIZE, MAXOPBLOCKS. lia.
  - intros x Hx. rewrite sb_BBLOCK by exact Hx. lia.
  - intros j Hj. pose proof (sb_IBLOCK j Hj). lia.
Qed.

(** A disk that agrees with the image, outside the log. *)
Section Agree.
Context (fs : list hostfile) (F : list mfile) (s : mkfs) (V : disk).
Context (Ft : fits fs) (M : made fs F s) (HV : forall x, 0 <= x < FSSIZE -> ~ in_log 2 x -> V x = view s x).

Lemma used_range : nmeta <= used fs <= FSSIZE.
Proof. rewrite <- (md_free _ _ _ M). apply (md_image _ _ _ M). Qed.

Lemma agree_high x : 32 <= x < FSSIZE -> V x = view s x.
Proof. intros Hx. apply HV; [lia|]. unfold in_log, LOGSIZE, MAXOPBLOCKS. lia. Qed.

Lemma agree_inode j : 0 <= j < NINODES -> on_disk V j = on_disk (view s) j.
Proof. intros Hj. pose proof (sb_IBLOCK j Hj). unfold on_disk. by rewrite agree_high by (unfold FSSIZE; lia). Qed.

Lemma agree_file i f : F !! i = Some f -> file_in V (used fs) f /\ forall n, slot V (f_ino f) n = slot (view s) (f_ino f) n.
Proof.
  intros E. pose proof (im_file _ _ (md_image _ _ _ M) i f E) as Ff. rewrite (md_free _ _ _ M) in Ff.
  apply (file_in_ext (view s) V (used fs) (used fs)); [done|lia|]. intros n Hn Hc. apply agree_high.
  pose proof (fi_have _ _ _ Ff n Hn Hc). pose proof used_range. rewrite nmeta_val in *. lia.
Qed.

Lemma agree_used b : 0 <= b < FSSIZE -> in_use sb V b = (b <? used fs).
Proof.
  intros Hb. pose proof used_range as Hu. rewrite nmeta_val in Hu. unfold FSSIZE in *. unfold in_use.
  rewrite sb_BBLOCK, agree_high, (md_map _ _ _ M) by (unfold FSSIZE; lia). change BPB with 8192. rewrite Z.mod_small by lia.
  destruct (set_bits_ok (Z.to_nat (used fs)) 0 zeroes) as [_ Hbit]; [lia|change BPB with 8192; lia|by vm_compute|].
  change BPB with 8192 in Hbit. rewrite Hbit, bit_set_zeroes, orb_false_r by lia. destruct (Z.leb_spec 0 b); [|lia]. by rewrite Z.add_0_l, Z2Nat.id by lia.
Qed.

(** A file of the image is a file of the kernel. *)
Lemma agree_ok i f : F !! i = Some f -> file_ok 2 sb V (f_ino f).
Proof.
  intros E. destruct (agree_file i f E) as [Ff Es]. pose proof used_range as Hu. rewrite nmeta_val in Hu.
  assert (forall n, is_slot n -> slot V (f_ino f) n <> 0 -> turn n < f_count f) as Ht.
  { intros n Hn Hz. destruct (Z.ltb_spec (turn n) (f_count f)) as [|Hge]; [done|]. by rewrite (fi_none _ _ _ Ff n Hn Hge) in Hz. }
  split.
  - intros n Hn Hz. pose proof (fi_have _ _ _ Ff n Hn (Ht n Hn Hz)) as Hr. rewrite nmeta_val in Hr. split; [apply mkfs_data; rewrite nmeta_val; lia|].
    rewrite agree_used by (unfold FSSIZE in *; lia). apply Z.ltb_lt. lia.
  - intros n m Hn Hm Hz Eq. rewrite !Es in Eq.
    apply (im_apart _ _ (md_image _ _ _ M) i i f f n m); try done; apply Ht; try done. by rewrite Es, <- Eq, <- Es.
Qed.

Lemma agree_bytes i f n : F !! i = Some f -> f_count f = blocks n -> 0 <= n <= MAXFILE * BSIZE ->
  (forall p, 0 <= p < n -> slot V (f_ino f) (p / BSIZE) <> 0 /\ file_byte V (f_ino f) p = nth (Z.to_nat p) (f_data f) 0).
Proof.
  intros E Hc Hn p Hp. destruct (agree_file i f E) as [Ff _]. pose proof (block_in_range p ltac:(lia)) as Hr.
  assert (turn (p / BSIZE) < f_count f) as Ht.
  { rewrite Hc. pose proof (blocks_mono (p + 1) n ltac:(lia)). assert (turn (p / BSIZE) + 1 <= blocks (p + 1)); [|lia].
    rewrite <- (blocks_next p 1); [lia|lia|lia|]. pose proof (Z.mod_pos_bound p BSIZE ltac:(done)). lia. }
  pose proof (fi_have _ _ _ Ff _ (slot_data _ Hr) Ht) as Hh. rewrite nmeta_val in Hh. split; [lia|]. apply (fi_byte _ _ _ Ff); [lia|done].
Qed.

(** ** The root directory *)

Lemma root_size_blocks : (2 + Z.of_nat (length fs)) mod 64 <> 0 -> blocks (root_size fs) = blocks (32 + 16 * Z.of_nat (length fs)).
Proof.
  unfold root_size, blocks. change BSIZE with 1024. set (l := Z.of_nat (length fs)). intros Hm.
  assert ((((32 + 16 * l) / 1024 + 1) * 1024 + 1024 - 1) / 1024 = (32 + 16 * l + 1024 - 1) / 1024) as ->; [|done].
  Z.to_euclidean_division_equations; lia.
Qed.
Lemma root_size_range : 32 + 16 * Z.of_nat (length fs) < root_size fs <= 4096 /\ root_size fs mod 16 = 0.
Proof.
  pose proof (ft_inodes _ Ft) as Hi. change NINODES with 200 in Hi. unfold root_size. change BSIZE with 1024.
  split; [|replace ((_ + 1) * 1024) with (((32 + 16 * Z.of_nat (length fs)) / 1024 + 1) * 64 * 16) by lia; by apply Z.mod_mul].
  Z.to_euclidean_division_equations; lia.
Qed.

Lemma root_names_lookup j e : root_names fs !! j = Some e -> 0 < fst e < 2 ^ 16.
Proof.
  pose proof (ft_inodes _ Ft) as Hi. change NINODES with 200 in Hi. destruct j as [|[|j]]; cbn; [by intros [= <-]..|].
  intros (f & Ef & ->)%names_lookup. apply lookup_lt_Some in Ef. cbn. lia.
Qed.

(** The bytes of an entry are those that [iappend] was given; behind the last one are zeros. *)
Lemma root_entry root j : F !! O = Some root -> f_data root = root_data fs -> f_count root = blocks (32 + 16 * Z.of_nat (length fs)) ->
  (2 + Z.of_nat (length fs)) mod 64 <> 0 -> 16 * Z.of_nat j + 16 <= root_size fs ->
  entry_at V (f_ino root) j = match root_names fs !! j with Some e => as_entry e | None => (0, []) end.
Proof.
  intros E Ed Hc Hm Hj. destruct root_size_range as [Hr _]. assert (MAXFILE * BSIZE = 274432) as EM by done.
  rewrite <- root_size_blocks in Hc by done. pose proof (agree_bytes O root _ E Hc ltac:(lia)) as Hb. rewrite Ed in Hb.
  assert (dirent_at V (f_ino root) j = match root_names fs !! j with Some e => dirent (fst e) (snd e) | None => replicate 16 0 end) as Ee.
  { apply (nth_ext _ _ 0 0); rewrite dirent_length; [destruct (root_names fs !! j); [by rewrite image_dirent_length|done]|].
    intros x Hx. unfold dirent_at. rewrite nth_file_bytes by lia. rewrite (proj2 (Hb (16 * Z.of_nat j + Z.of_nat x) ltac:(lia))).
    replace (Z.to_nat _) with (16 * j + x)%nat by lia. destruct (root_names fs !! j) as [e|] eqn:Ej.
    - rewrite root_data_names. by apply nth_concat.
    - apply lookup_ge_None in Ej. unfold root_names in Ej. cbn [length] in Ej. rewrite names_length in Ej.
      rewrite nth_overflow, nth_replicate_0 by (rewrite root_data_length; lia). done. }
  unfold entry_at. rewrite Ee. destruct (root_names fs !! j) as [e|] eqn:Ej; [|by vm_compute].
  pose proof (root_names_lookup j e Ej) as Hn. unfold dirent. rewrite xshort_id by lia. destruct (dirent_bytes (fst e) (snd e) ltac:(lia)) as (_ & -> & ->). done.
Qed.

Lemma root_dir root : F !! O = Some root -> f_data root = root_data fs -> f_count root = blocks (32 + 16 * Z.of_nat (length fs)) ->
  i_type (f_ino root) = T_DIR -> i_size (f_ino root) = root_size fs -> (2 + Z.of_nat (length fs)) mod 64 <> 0 ->
  is_dir V (f_ino root) /\ exists n, ents V (f_ino root) = map as_entry (root_names fs) ++ replicate n (0, []).
Proof.
  intros E Ed Hc Ht Es Hm. destruct root_size_range as [Hr H16]. assert (MAXFILE * BSIZE = 274432) as EM by done.
  pose proof (agree_bytes O root (root_size fs) E ltac:(by rewrite root_size_blocks) ltac:(lia)) as Hb.
  split; [split; rewrite ?Es; try done; [|lia]; split; rewrite Es; [lia|by apply Hb]|].
  set (m := Z.to_nat (root_size fs / 16)). assert (length (root_names fs) = (2 + length fs)%nat) as Hl by (unfold root_names; cbn; by rewrite names_length).
  pose proof (Z.div_mod (root_size fs) 16 ltac:(done)) as Edm. exists (m - length (root_names fs))%nat.
  assert (length (ents V (f_ino root)) = m) as Hel by (by rewrite ents_length, Es). unfold m in *. apply list_eq. intros j.
  destruct (decide (j < length (ents V (f_ino root)))%nat) as [Hj|Hj].
  - rewrite ents_lookup, (root_entry root j) by (done || lia). destruct (root_names fs !! j) as [e|] eqn:Ej.
    + symmetry. apply lookup_app_l_Some. by rewrite list_lookup_fmap, Ej.
    + apply lookup_ge_None in Ej. rewrite lookup_app_r, length_map, lookup_replicate_2 by (rewrite ?length_map; lia). done.
  - rewrite !lookup_ge_None_2; [done|rewrite length_app, length_map, length_replicate; lia|lia].
Qed.

(** ** All together *)

Lemma inode_cases j : 0 <= j < NINODES ->
  (on_disk V j = no_inode /\ (j = 0 \/ 2 + Z.of_nat (length fs) <= j)) \/
  exists i f, j = 1 + Z.of_nat i /\ F !! i = Some f /\ on_disk V j = f_ino f.
Proof.
  intros Hj. rewrite agree_inode by done. pose proof (md_count _ _ _ M) as Hl. destruct (decide (j = 0 \/ 2 + Z.of_nat (length fs) <= j)) as [Hu|Hu].
  - left. split; [|done]. apply (md_unused _ _ _ M); [done|lia].
  - right. destruct (lookup_lt_is_Some_2 F (Z.to_nat (j - 1))) as [f Ef]; [lia|]. exists (Z.to_nat (j - 1)), f.
    split; [lia|]. split; [done|]. rewrite <- (md_inode _ _ _ M _ _ Ef). f_equal. lia.
Qed.

Lemma no_slot n : slot V no_inode n = 0.
Proof. rewrite (slot_addrs V (new_inode 0)) by done. apply new_slot. Qed.

Lemma agree_image : fs_image fs V.
Proof.
  pose proof (ft_inodes _ Ft) as Hino. assert (MAXFILE * BSIZE = 274432) as EM by done. split.
  - destruct (md_root _ _ _ M) as (root & E & Ed & Ek & Es & Ec). injection Ek as Et En. cbn zeta.
    rewrite agree_inode, (md_inode _ _ _ M O root E : on_disk (view s) ROOTINO = _) by done.
    split; [done|]. split; [done|]. split; [apply (proj1 (agree_file O root E))|]. split; [by apply (agree_ok O)|]. by apply root_dir.
  - intros i f Ef. destruct (md_file _ _ _ M i f Ef) as (g & Eg & Dg & Kg & Sg & Cg). injection Kg as Et En. cbn zeta.
    pose proof (lookup_lt_Some _ _ _ Ef) as Hi. replace (2 + Z.of_nat i) with (1 + Z.of_nat (S i)) by lia.
    rewrite agree_inode, (md_inode _ _ _ M (S i) g Eg) by lia. pose proof (proj1 (list.Forall_lookup _ _) (ft_files _ Ft) i f Ef) as [_ Hsz].
    assert (0 <= size_of f) as Hs0 by (unfold size_of; lia). pose proof (agree_bytes (S i) g (size_of f) Eg Cg ltac:(lia)) as Hb.
    split; [done|]. split; [done|]. split; [apply (proj1 (agree_file (S i) g Eg))|]. split; [by apply (agree_ok (S i))|].
    split; [split; [lia|intros p Hp; apply Hb; lia]|]. split; [done|].
    apply (nth_ext _ _ 0 0); rewrite file_bytes_length; [unfold size_of; lia|]. intros x Hx. rewrite nth_file_bytes by done.
    rewrite (proj2 (Hb (0 + Z.of_nat x) ltac:(lia))), Dg. f_equal. lia.
  - intros i j n m Hi Hj Hn Hm Hz Eq. destruct (inode_cases i Hi) as [[E _]|(a & f & -> & Ef & E)]; rewrite E in *; [by rewrite no_slot in Hz|].
    destruct (inode_cases j Hj) as [[E' _]|(b & g & -> & Eg & E')]; rewrite E' in *; [by rewrite no_slot in Eq|].
    destruct (agree_file a f Ef) as [Ff Sf], (agree_file b g Eg) as [Fg Sg].
    assert (turn n < f_count f) as Hcf by (destruct (Z.ltb_spec (turn n) (f_count f)) as [|Hge]; [done|by rewrite (fi_none _ _ _ Ff n Hn Hge) in Hz]).
    assert (turn m < f_count g) as Hcg by (destruct (Z.ltb_spec (turn m) (f_count g)) as [|Hge]; [done|by rewrite Eq, (fi_none _ _ _ Fg m Hm Hge) in Hz]).
    rewrite Sf, Sg in Eq. destruct (im_apart _ _ (md_image _ _ _ M) a b f g n m Ef Eg Hn Hm Hcf Hcg Eq) as [-> ->]. done.
  - intros j Hj Hu. destruct (inode_cases j Hj) as [[E _]|(i & f & -> & Ef & E)]; [done|]. apply lookup_lt_Some in Ef. rewrite (md_count _ _ _ M) in Ef. lia.
  - intros b Hb. by apply agree_used.
  - intros b Hb. change (sb_size sb) with FSSIZE in Hb. rewrite agree_used by done. intros Hu. apply Z.ltb_ge in Hu. pose proof used_range.
    apply mkfs_data. lia.
Qed.
End Agree.
End Image.

(** * Inodes in memory *)

Lemma loaded_same {H} me (A : acache) (k : kernel H) j r : same_dinode (on_disk (a_view A) j) (loaded me sb A k j r).
Proof. done. Qed.

Lemma loaded_rest {H} me sb0 (A : acache) (k : kernel H) j r :
  i_ref (loaded me sb0 A k j r) = i_ref r /\ i_inum (loaded me sb0 A k j r) = i_inum r /\ i_dev (loaded me sb0 A k j r) = i_dev r.
Proof. done. Qed.

(** An entry is free, and none has the number: [iget] claims a free one. *)
Lemma pick_fresh dev inum l :
  (forall j x, l !! j = Some x -> ~ names dev inum x) -> (exists j x, l !! j = Some x /\ i_ref x = 0) ->
  exists j x, pick dev inum l = Some (j, claimed dev inum x) /\ l !! j = Some x /\ i_ref x = 0.
Proof.
  intros Hn (j0 & x0 & E0 & Z0). unfold pick. destruct (list_find (names dev inum) l) as [[j x]|] eqn:Ef.
  - apply list_find_Some in Ef as (Ej & Hx & _). by apply Hn in Ej.
  - destruct (list_find empty_entry l) as [[j x]|] eqn:Ee.
    + apply list_find_Some in Ee as (Ej & Hx & _). by exists j, x.
    + apply list_find_None in Ee. rewrite list.Forall_lookup in Ee. by apply Ee in E0.
Qed.

(** * The theorems *)

Section Claims.
Context {H : Type} `{!Platform H} `{!Symbols} `{!SleepFuel} `{!DiskDriver H} `{!DiskLaws H}.
Implicit Types k : kernel H.
Notation hostfile := (list Z * list (list Z))%type.

(** C4 If the files have room, [mkfs] makes a file system with them: the superblock and an
    empty log, a bitmap with exactly the blocks in use, a root directory with ".", ".." and
    one entry for each file, in order, and for each file an inode whose bytes are the
    pieces of the file in a row.  Every inode is well formed as the kernel wants it, no block
    belongs to two files, and what is free can be given to a file.  (The entries of the
    root directory are stated when there is room behind them in their last block: when
    their number, two more than that of the files, is not a multiple of 64.) *)
Theorem mkfs_spec (fs : list hostfile) : fits fs -> FSSIZE <= dk_size ->
  exists s, main (command fs) start = Ok tt s /\ sb_of (view s 1) = sb /\ hdr_n (view s 2) = 0 /\
    (forall b, 0 <= b < FSSIZE -> length (view s b) = Z.to_nat BSIZE) /\ m_freeblock s = used fs /\ fs_image fs (view s).
Proof.
  intros Ft Hdk. destruct (main_ok fs Ft) as (F & s & E & M). exists s. split; [done|].
  split; [rewrite (md_meta _ _ _ M) by lia; by vm_compute|]. split; [rewrite (md_meta _ _ _ M) by lia; by vm_compute|].
  split; [intros b Hb; by apply (rsect_ok F s b (md_image _ _ _ M))|]. split; [apply M|]. by apply (agree_image Hdk fs F s).
Qed.

Context (c : cpu) (me : nat) (dev : Z) (Hdev : is_u32 dev) (Hdk : FSSIZE <= dk_size).
Notation fs_op := (fs_ops c me dev 2 sb ∅).
Notation read_op := (read_op c me dev 2 sb).

(** The table of inodes: a fresh entry [dp] for the root directory, a free entry, no entry
    for inode [inum]; what is free is not locked. *)
Record mounted k (dp : nat) (d : inode) (inum : Z) : Prop := {
  mt_entry : entry dev sb dp ROOTINO d k;
  mt_ref : 1 <= i_ref d;
  mt_valid : i_valid d = 0;
  mt_unlocked : sk_locked (i_lock d) = 0;
  mt_table : length (k_inodes k) = Z.to_nat NINODE;
  mt_new : forall j x, k_inodes k !! j = Some x -> ~ names dev inum x;
  mt_free : exists j x, k_inodes k !! j = Some x /\ i_ref x = 0;
  mt_idle : forall j x, k_inodes k !! j = Some x -> i_ref x = 0 -> sk_locked (i_lock x) = 0
}.

Lemma fs_op_txn bs A k k' : fs_op bs A k -> in_op me k k' -> txn c me dev 2 bs A k' -> fs_op bs A k'.
Proof. intros [T Hh Ho Hs] (E1 & _ & _ & _ & _ & E) T'. split; try done; [by rewrite E1|by rewrite E]. Qed.

(** [ilock] loads inode [j] of the disk. *)
Lemma ilock_image bs A k ip j r :
  fs_op bs A k -> entry dev sb ip j r k -> 1 <= i_ref r -> i_valid r = 0 -> sk_locked (i_lock r) = 0 ->
  i_type (on_disk (a_view A) j) <> 0 -> inode_typed (on_disk (a_view A) j) -> file_ok 2 sb (a_view A) (on_disk (a_view A) j) ->
  exists k', let r' := loaded me sb A k j r in
    ilock ip k = Ok tt k' /\ fs_op bs A k' /\ read_op bs A k' ip r' /\ k_inodes k' = <[ip := r']> (k_inodes k).
Proof.
  intros F E Hr Hv Hl Ht Ty Fk. pose proof (ilock_ok c me dev 2 sb (fl_inodes _ _ (mkfs_layout Hdk)) bs A k ip j r F E Hr Hv Hl) as P.
  pose proof (loaded_same me A k j r) as S. pose proof S as (Et & _).
  destruct (Z.eqb_spec (i_type (loaded me sb A k j r)) 0); [congruence|]. destruct P as (k' & E' & F' & Ek & _). exists k'.
  split; [done|]. split; [done|]. split; [|done]. split; [apply F'|apply F'| | | |].
  - rewrite Ek. apply list_lookup_insert_eq. by eapply lookup_lt_Some, (en_at _ _ _ _ _ _ E).
  - apply (en_dev _ _ _ _ _ _ E).
  - by apply (same_typed _ _ S).
  - by apply (same_file_ok _ _ _ S).
Qed.

(** [dirlookup] in the root directory: an entry is claimed for inode [inum]. *)
Lemma dirlookup_image bs A k dp r nm inum :
  fs_op bs A k -> read_op bs A k dp r -> is_dir (a_view A) r -> full DIRSIZ nm -> dir_get (ents (a_view A) r) (cname nm) = Some inum ->
  length (k_inodes k) = Z.to_nat NINODE -> (forall j x, k_inodes k !! j = Some x -> ~ names dev inum x) -> (exists j x, k_inodes k !! j = Some x /\ i_ref x = 0) ->
  exists ip off x k', dirlookup dp nm k = Ok (Some (ip, off)) k' /\ fs_op bs A k' /\ k_inodes k !! ip = Some x /\ i_ref x = 0 /\
    k_inodes k' = <[ip := claimed dev inum x]> (k_inodes k).
Proof.
  intros F R D Hf Hg Hlen Hn Hfree. destruct (dirlookup_ok c me dev 2 sb Hdev (mkfs_layout Hdk) bs A dp r D nm k Hf R) as (k1 & R1 & O1 & ->).
  unfold dir_get in Hg. destruct (list_find _ _) as [[i e]|]; [|done]. injection Hg as Hg. cbn [fst snd] in Hg. pose proof (in_op_inodes me k k1 O1) as Ek.
  destruct (pick_fresh dev inum (k_inodes k) Hn Hfree) as (ip & x & Ep & Ex & Zx).
  pose proof (iget_ok c me dev (fst e) k1 (read_quiet _ _ _ _ _ _ _ _ _ _ R1) ltac:(by rewrite Ek)) as Eg. rewrite Ek, Hg, Ep in Eg.
  exists ip, (16 * Z.of_nat i), x, (set_k_inodes (<[ip := claimed dev inum x]> (k_inodes k)) k1). rewrite Hg, (bind_Ok _ _ _ _ _ Eg).
  split; [done|]. split; [|done]. apply (fs_op_inodes c me dev 2 sb). apply (fs_op_txn bs A k); [done|done|apply R1].
Qed.

(** [readi] of a whole file. *)
Lemma readi_image bs A k ip r :
  read_op bs A k ip r -> whole (a_view A) r -> 0 <= i_size r ->
  exists k', readi ip Local 0 (i_size r) k = Ok (i_size r, file_bytes (a_view A) r 0 (i_size r)) k'.
Proof.
  intros R Wh Hz. pose proof (proj1 Wh) as Hmax. assert (MAXFILE * BSIZE = 274432) as EM by done.
  assert (readable r 0 (i_size r) = i_size r) as Er by (unfold readable; rewrite Z.gtb_ltb; destruct (Z.ltb_spec (i_size r) 0); lia).
  destruct (mkfs_layout Hdk) as [LB Hone LI _].
  destruct (readi_ok c me dev 2 sb Hdev LB Hone LI bs A ip r Local (fun _ _ => True) 0 (i_size r) k R Wh) as (k' & E & _);
    [lia|lia|lia|apply receives_local|done|]. rewrite Er in E. by exists k'.
Qed.

(** C3 The kernel reads from an image of [mkfs] what the files contained: on a disk that has
    the image, [ilock] of the root directory, [dirlookup] of the name of a file, [ilock] of
    what it returns and [readi] give the bytes of the file, all of them and nothing else.
    The number of entries of the directory, two more than that of the files, is not a
    multiple of 64: for such a number the directory has a size that mkfs gives no block for. *)
Theorem mkfs_readable (fs : list hostfile) s i f nm bs A k dp d :
  fits fs -> (2 + Z.of_nat (length fs)) mod 64 <> 0 -> main (command fs) start = Ok tt s ->
  fs !! i = Some f -> cname (short (fst f)) = cname nm -> full DIRSIZ nm -> cname nm <> [46] -> cname nm <> [46; 46] ->
  (forall j g, fs !! j = Some g -> cname (short (fst g)) = cname nm -> j = i) ->
  fs_op bs A k -> (forall x, 0 <= x < FSSIZE -> ~ in_log 2 x -> a_view A x = view s x) ->
  mounted k dp d (2 + Z.of_nat i) ->
  exists k1 ip off k2 k3 k4, ilock dp k = Ok tt k1 /\ dirlookup dp nm k1 = Ok (Some (ip, off)) k2 /\ ilock ip k2 = Ok tt k3 /\
    readi ip Local 0 (size_of f) k3 = Ok (size_of f, content f) k4.
Proof.
  intros Ft Hm E Ef Enm Hfull Hd1 Hd2 Hu F HV [He Hr Hv Hl Hlen Hnew Hfree Hidle].
  destruct (main_ok fs Ft) as (G & s' & E' & M). rewrite E in E'. injection E' as <-. clear E.
  pose proof (agree_image Hdk fs G s (a_view A) Ft M HV) as [Hroot Hfile _ _ _ _].
  destruct Hroot as (T1 & _ & Ty1 & Fk1 & D1). destruct (D1 Hm) as (Dir & n & Ents). destruct (Hfile i f Ef) as (T2 & _ & Ty2 & Fk2 & Wh & Sz & By).
  destruct (ilock_image bs A k dp ROOTINO d F He Hr Hv Hl ltac:(by rewrite T1) Ty1 Fk1) as (k1 & E1 & F1 & R1 & K1).
  set (d' := loaded me sb A k ROOTINO d) in *. pose proof (loaded_same me A k ROOTINO d : same_dinode _ d') as S1.
  pose proof (lookup_lt_Some _ _ _ (en_at _ _ _ _ _ _ He)) as Hdp. pose proof (lookup_lt_Some _ _ _ Ef) as Hi.
  pose proof (ft_inodes _ Ft) as Hino. set (inum := 2 + Z.of_nat i) in *.
  destruct (loaded_rest me sb A k ROOTINO d) as (Hrf & Hin & _). fold d' in Hrf, Hin. rewrite (en_inum _ _ _ _ _ _ He) in Hin. clearbody d'. change ROOTINO with 1 in Hin.
  destruct (dirlookup_image bs A k1 dp d' nm inum F1 R1 (same_dir _ _ _ S1 Dir) Hfull) as (ip & off & x & k2 & E2 & F2 & Ex & Zx & K2).
  { rewrite (same_ents _ _ _ S1), Ents. by apply (root_get _ _ _ i f). }
  { by rewrite K1, length_insert. }
  { intros j y Ey Hy. rewrite K1 in Ey. apply list_lookup_insert_Some in Ey as [(<- & <- & _)|[Hj Ey]]; [destruct Hy as (_ & _ & Hy); lia|].
    by apply (Hnew j y Ey). }
  { destruct Hfree as (j & y & Ey & Zy). exists j, y. split; [|exact Zy]. rewrite K1. destruct (decide (j = dp)) as [->|Hj].
    - rewrite (en_at _ _ _ _ _ _ He) in Ey. injection Ey as <-. lia.
    - by rewrite (list_lookup_insert_ne (k_inodes k) dp j d' (not_eq_sym Hj)). }
  assert (ip <> dp /\ k_inodes k !! ip = Some x) as [Hip Ex0].
  { rewrite K1 in Ex. apply list_lookup_insert_Some in Ex as [(<- & <- & _)|[Hj Ey]]; [exfalso; lia|done]. }
  assert (entry dev sb ip inum (claimed dev inum x) k2) as He2.
  { pose proof (lookup_lt_Some _ _ _ Ex) as Hlt. split; [rewrite K1, length_insert, Hlen in Hlt; done|rewrite K2; by apply list_lookup_insert_eq|done|done|].
    change (sb_ninodes sb) with NINODES. lia. }
  destruct (ilock_image bs A k2 ip inum (claimed dev inum x) F2 He2 ltac:(cbn; lia) ltac:(done) ltac:(by apply (Hidle ip x)) ltac:(by rewrite T2) Ty2 Fk2) as (k3 & E3 & F3 & R3 & K3).
  set (x' := loaded me sb A k2 inum (claimed dev inum x)) in *. pose proof (loaded_same me A k2 inum (claimed dev inum x) : same_dinode _ x') as S3. clearbody x'.
  assert (i_size x' = size_of f) as Sz' by (rewrite <- Sz; apply S3). rewrite <- (same_bytes _ _ _ S3) in By.
  destruct (readi_image bs A k3 ip x' R3 (same_whole _ _ _ S3 Wh) ltac:(rewrite Sz'; unfold size_of; lia)) as (k4 & E4).
  rewrite Sz', By in E4. by exists k1, ip, off, k2, k3, k4.
Qed.
End Claims.

(** * A run

    An image on the simulated disk of [KSim]: a program is stored, found and read. *)

(** The program _hi of the directory user, in two pieces. *)
Definition hi_file : list Z * list (list Z) := (chars "user/_hi", [[104; 105]; [10]]).

Lemma hi_fits : fits [hi_file].
Proof.
  split; [|apply Z.leb_le; by vm_compute|apply Z.leb_le; by vm_compute]. apply list.Forall_cons. split; [|constructor].
  split; [by vm_compute|apply Z.leb_le; by vm_compute].
Qed.

Lemma sim_large : FSSIZE <= dk_size (H := simdisk).
Proof. unfold FSSIZE. cbn. lia. Qed.

Lemma mkfs_spec_witness : exists s, main (command [hi_file]) start = Ok tt s /\ m_freeblock s = 48 /\
  i_type (on_disk (view s) 2) = T_FILE /\ file_bytes (view s) (on_disk (view s) 2) 0 3 = [104; 105; 10].
Proof.
  destruct (mkfs_spec (H := simdisk) [hi_file] hi_fits sim_large) as (s & E & _ & _ & _ & B & [_ Hf _ _ _ _]).
  destruct (Hf O hi_file eq_refl) as (T & _ & _ & _ & _ & _ & By). exists s. split; [exact E|]. split; [exact B|]. split; [exact T|exact By].
Defined.

(** The image on the disk, and the kernel that has booted from it, with the root directory in
    the table of inodes. *)
Definition root_slot : inode := set_i_ref 1 (set_i_inum ROOTINO (set_i_dev 1 no_inode)).
Definition root_table : list inode := root_slot :: replicate 49 no_inode.

Lemma sim_image s : (forall b, 0 <= b < FSSIZE -> length (view s b) = Z.to_nat BSIZE) -> hdr_n (view s 2) = 0 ->
  exists (k : kernel simdisk) A, fs_ops cpu0 0 1 2 sb ∅ [] A k /\ k_inodes k = root_table /\
    forall x, 0 <= x < FSSIZE -> ~ in_log 2 x -> a_view A x = view s x.
Proof.
  intros Hl Hn. set (h := mkSimDisk (view s) []). assert (forall b, 0 <= b < FSSIZE -> sd_now h b = view s b) as Eh by (intros b Hb; by apply fit_id, Hl).
  destruct (sim_mount h sb) as (k & A & F & V); [by rewrite Eh|]. exists (set_k_inodes root_table k), A.
  split; [by apply fs_op_inodes|]. split; [done|]. intros x Hx Hlog. by rewrite V, Eh.
Qed.

Lemma root_table_entry j x : root_table !! j = Some x -> x = root_slot \/ x = no_inode.
Proof. destruct j as [|j]; [intros [= <-]; by left|]. intros E. change (replicate 49 no_inode !! j = Some x) in E. revert E. intros [-> _]%lookup_replicate. by right. Qed.

Lemma root_mounted (k : kernel simdisk) : k_inodes k = root_table -> mounted 1 k 0 root_slot 2.
Proof.
  intros Ek. split; rewrite ?Ek; try done.
  - split; rewrite ?Ek; try done. by apply Nat.ltb_lt.
  - intros j x [->| ->]%root_table_entry; intros (X1 & X2 & X3); by vm_compute in X1, X3.
  - by exists 1%nat, no_inode.
  - by intros j x [->| ->]%root_table_entry.
Qed.

Lemma mkfs_readable_witness : exists s (k k1 k2 k3 k4 : kernel simdisk) ip off, main (command [hi_file]) start = Ok tt s /\
  ilock 0 k = Ok tt k1 /\ dirlookup 0 [104; 105; 0] k1 = Ok (Some (ip, off)) k2 /\ ilock ip k2 = Ok tt k3 /\
  readi ip Local 0 3 k3 = Ok (3, [104; 105; 10]) k4.
Proof.
  assert (cname (short (fst hi_file)) = cname [104; 105; 0] /\ cname [104; 105; 0] <> [46] /\ cname [104; 105; 0] <> [46; 46]) as (N1 & N2 & N3) by by vm_compute.
  assert (full DIRSIZ [104; 105; 0]) as N4 by (right; set_solver).
  assert (forall j g, [hi_file] !! j = Some g -> cname (short (fst g)) = cname [104; 105; 0] -> j = O) as N5 by (intros [|j] g Eg _; done).
  assert ((2 + Z.of_nat (length [hi_file])) mod 64 <> 0 /\ is_u32 1) as [N6 N7] by by vm_compute.
  destruct (main_ok [hi_file] hi_fits) as (F & s & E & M).
  assert (exists (k : kernel simdisk) A, fs_ops cpu0 0 1 2 sb ∅ [] A k /\ k_inodes k = root_table /\
    forall x, 0 <= x < FSSIZE -> ~ in_log 2 x -> a_view A x = view s x) as (k & A & Fo & Ek & V).
  { clear E. apply sim_image; [intros b Hb; by apply (rsect_ok F s b (md_image _ _ _ M))|rewrite (md_meta _ _ _ M) by lia; by vm_compute]. }
  destruct (mkfs_readable (H := simdisk) cpu0 0 1 N7 sim_large [hi_file] s 0 hi_file [104; 105; 0] [] A k 0 root_slot
    hi_fits N6 E eq_refl N1 N4 N2 N3 N5 Fo V (root_mounted k Ek)) as (k1 & ip & off & k2 & k3 & k4 & E1 & E2 & E3 & E4).
  exists s, k, k1, k2, k3, k4, ip, off. split; [exact E|]. split; [exact E1|]. split; [exact E2|]. split; [exact E3|exact E4].
Defined.

(** * Paths in an image *)

Lemma dir_get_entry l nm i : dir_get l nm = Some i -> i <> 0 /\ exists x, l !! x = Some (i, nm).
Proof.
  unfold dir_get. destruct (list_find (is_for nm) l) as [[x [a b]]|] eqn:E; [|done]. intros [= <-].
  apply list_find_Some in E as (E & (Ha & Hb) & _). cbn [fst snd] in *. subst b. split; [done|by exists x].
Qed.

Section Tree.
Context {H : Type} `{!Platform H} `{!SleepFuel} `{!DiskDriver H} `{!DiskLaws H}.
Context (fs : list (list Z * list (list Z))) (V : disk) (Ft : fits fs) (Hm : (2 + Z.of_nat (length fs)) mod 64 <> 0) (Im : fs_image fs V).

(** The inodes in use are the root directory and the files. *)
Lemma image_live j : live sb V j -> j = ROOTINO \/ exists i f, fs !! i = Some f /\ j = 2 + Z.of_nat i.
Proof.
  intros [Hr Ht]. change (sb_ninodes sb) with NINODES in Hr. destruct (decide (j = ROOTINO)) as [|Hj]; [by left|]. change ROOTINO with 1 in Hj. right.
  destruct (decide (j = 0 \/ 2 + Z.of_nat (length fs) <= j)) as [Hn|Hn].
  - exfalso. apply Ht. change (dinode_of sb V j) with (on_disk V j). by rewrite (fs_none _ _ Im j Hr Hn).
  - destruct (lookup_lt_is_Some_2 fs (Z.to_nat (j - 2))) as [f Ef]; [lia|]. exists (Z.to_nat (j - 2)), f. split; [done|lia].
Qed.

Lemma image_in_use j : j = ROOTINO \/ (exists i f, fs !! i = Some f /\ j = 2 + Z.of_nat i) ->
  live sb V j /\ i_nlink (dinode_of sb V j) <> 0 /\ inode_typed (dinode_of sb V j) /\ file_ok 2 sb V (dinode_of sb V j).
Proof.
  change (dinode_of sb V j) with (on_disk V j). pose proof (ft_inodes _ Ft) as Hi. change NINODES with 200 in Hi. intros [->|(i & f & Ef & ->)].
  - destruct (fs_root _ _ Im) as (T & N & Ty & Fk & _). split; [split; [by vm_compute|]|split; [by rewrite N|done]].
    change (dinode_of sb V ROOTINO) with (on_disk V ROOTINO). by rewrite T.
  - destruct (fs_file _ _ Im i f Ef) as (T & N & Ty & Fk & _). apply lookup_lt_Some in Ef. split; [split|split; [by rewrite N|done]].
    + change (sb_ninodes sb) with 200. lia.
    + change (dinode_of sb V (2 + Z.of_nat i)) with (on_disk V (2 + Z.of_nat i)). by rewrite T.
Qed.

Lemma image_folder j : live sb V j -> is_folder sb V j -> j = ROOTINO.
Proof.
  intros Hl Hf. destruct (image_live j Hl) as [|(i & f & Ef & ->)]; [done|]. exfalso. unfold is_folder in Hf.
  change (dinode_of sb V (2 + Z.of_nat i)) with (on_disk V (2 + Z.of_nat i)) in Hf. destruct (fs_file _ _ Im i f Ef) as (T & _). by rewrite T in Hf.
Qed.

(** The image is a tree of directories for the kernel. *)
Lemma image_tree : tree_ok 2 sb V.
Proof.
  destruct (fs_root _ _ Im) as (_ & _ & _ & _ & D). destruct (D Hm) as (Dir & n & Ents). split.
  - destruct (image_in_use ROOTINO ltac:(by left)) as (L & N & _). done.
  - intros j Hl. by apply image_in_use, image_live.
  - intros j Hl Hf. by rewrite (image_folder j Hl Hf).
  - intros j nm i Hl Hc. unfold child in Hc. destruct (decide (is_folder sb V j)) as [Hf|]; [|done]. rewrite (image_folder j Hl Hf) in Hc.
    change (dinode_of sb V ROOTINO) with (on_disk V ROOTINO) in Hc. rewrite Ents in Hc. apply dir_get_entry in Hc as (Hi & x & Ex).
    assert (i = ROOTINO \/ exists y f, fs !! y = Some f /\ i = 2 + Z.of_nat y) as Hu; [|split; apply image_in_use, Hu].
    apply lookup_app_Some in Ex as [Ex|[_ [Ex _]%lookup_replicate]]; [|by injection Ex as -> _]. rewrite list_lookup_fmap in Ex.
    destruct x as [|[|x]]; cbn in Ex; [injection Ex as <- _; by left..|]. destruct (names_of 2 fs !! x) as [e|] eqn:Ee; [|done].
    destruct (names_lookup fs 2 x e Ee) as (f & Ef & ->). injection Ex as <- _. right. by exists x, f.
Qed.
End Tree.

Lemma root_two_free : two_free root_table.
Proof. exists 1%nat, 2%nat, no_inode, no_inode. done. Qed.

Lemma root_synced V : live sb V ROOTINO -> synced 1 sb V root_table.
Proof.
  intros Hl. split; [done|by intros i r [->| ->]%root_table_entry|by intros i r [->| ->]%root_table_entry| |].
  - intros i r [->| ->]%root_table_entry; [|intros Hp; exfalso; change (0 < 0) in Hp; lia]. intros _. split; [done|]. split; [exact Hl|]. by intros Hv.
  - intros i j ri rj Ei Ej Hp (Hp' & _ & _). destruct i as [|i]; [|destruct (root_table_entry _ _ Ei) as [->| ->]; [|exfalso; change (0 < 0) in Hp; lia]].
    + destruct j as [|j]; [done|]. change (replicate 49 no_inode !! j = Some rj) in Ej. apply lookup_replicate in Ej as [-> _]. exfalso. change (0 < 0) in Hp'. lia.
    + change (replicate 49 no_inode !! i = Some root_slot) in Ei. apply lookup_replicate in Ei as [Ei _]. apply (f_equal i_ref) in Ei. discriminate Ei.
Qed.

Lemma dir_get_skip e l nm : bool_decide (is_for nm e) = false -> dir_get (e :: l) nm = dir_get l nm.
Proof. intros E%bool_decide_eq_false. by rewrite dir_get_cons, decide_False. Qed.
Lemma dir_get_free n nm : dir_get (replicate n (0, [])) nm = None.
Proof. induction n as [|n IH]; [done|]. cbn [replicate]. rewrite dir_get_cons, decide_False; [done|]. by intros [E _]. Qed.

(** "//hi" is a file of the image, and "/no" is not. *)
Lemma namex_spec_witness : exists s (k k1 k2 : kernel simdisk) ip r nm nm', main (command [hi_file]) start = Ok tt s /\
  namex (chars "//hi") false k = Ok (Some ip, nm) k1 /\ k_inodes k1 !! ip = Some r /\ names 1 2 r /\
  namex (chars "/no") false k = Ok (None, nm') k2.
Proof.
  assert (text (chars "//hi") /\ text (chars "/no")) as [X1 X2] by (split; repeat constructor; done).
  assert (elements (chars "//hi") = [chars "hi"] /\ elements (chars "/no") = [chars "no"]) as [L1 L2] by by vm_compute.
  assert ((2 + Z.of_nat (length [hi_file])) mod 64 <> 0 /\ is_u32 1) as [N6 N7] by by vm_compute.
  destruct (main_ok [hi_file] hi_fits) as (F & s & E & M).
  assert (exists (k : kernel simdisk) A, fs_ops cpu0 0 1 2 sb ∅ [] A k /\ k_inodes k = root_table /\
    forall x, 0 <= x < FSSIZE -> ~ in_log 2 x -> a_view A x = view s x) as (k & A & Fo & Ek & V).
  { clear E. apply sim_image; [intros b Hb; by apply (rsect_ok F s b (md_image _ _ _ M))|rewrite (md_meta _ _ _ M) by lia; by vm_compute]. }
  pose proof (agree_image (H := simdisk) sim_large [hi_file] F s (a_view A) hi_fits M V) as Im.
  pose proof (image_tree [hi_file] (a_view A) hi_fits N6 Im) as TR.
  destruct (fs_root _ _ Im) as (T & _ & _ & _ & D). destruct (D N6) as (_ & n & Ents).
  assert (forall e, child sb (a_view A) ROOTINO e = dir_get (ents (a_view A) (on_disk (a_view A) ROOTINO)) e) as Hc.
  { intros e. unfold child. by rewrite decide_True by exact T. }
  assert (target sb (a_view A) false ROOTINO [chars "hi"] = Some 2 /\ target sb (a_view A) false ROOTINO [chars "no"] = None) as [R1 R2].
  { cbn [target resolve]. rewrite !Hc, Ents. unfold root_names. cbn [names_of map app]. split; [by rewrite !dir_get_cons|].
    do 3 (rewrite dir_get_skip by (vm_compute; reflexivity)). by rewrite dir_get_free. }
  pose proof (root_synced (a_view A) (proj1 (tr_root _ _ _ TR))) as Sy. rewrite <- Ek in Sy.
  pose proof root_two_free as TF. rewrite <- Ek in TF.
  pose proof (fun p => namex_spec cpu0 0 1 2 sb N7 (mkfs_layout sim_large) [] A k p false ROOTINO eq_refl) as P.
  destruct (P (chars "//hi") X1 TR Fo Sy TF eq_refl) as (k1 & res & nm & E1 & _ & _ & Ar1). rewrite L1, R1 in Ar1.
  destruct Ar1 as (ip & r & -> & _ & Er & Hn & _).
  destruct (P (chars "/no") X2 TR Fo Sy TF eq_refl) as (k2 & res & nm' & E2 & _ & _ & Ar2). rewrite L2, R2 in Ar2. destruct Ar2 as [-> _].
  exists s, k, k1, k2, ip, r, nm, nm'. split; [exact E|]. split; [exact E1|]. split; [exact Er|]. split; [exact Hn|exact E2].
Defined.
